(* ===== verification/_CoqProject ===== *)
-Q . S2P
Prelude.v
Errors.v
Transition.v
Lifecycles.v
Guards.v
LifecycleFacts.v
Attestation.v
Text.v
Json.v
JsonParse.v
JsonFacts.v
Authorization.v
Consent.v
Auth.v
Passkey.v
Verus.v
Database.v
AuthDatabase.v
AuthRepository.v
AuthSystem.v
AuthInvariant.v
AuthFacts.v
CommitteeFacts.v
RecoveryFacts.v
SignInFacts.v
AuthExamples.v
CoreDatabase.v
Idempotency.v
VerificationRepository.v
AttestationRepository.v
LifecycleRepository.v
CoreEffects.v
AttestationInvariant.v
CoreInvariant.v
RequestEffects.v
AttestationEffects.v
LifecycleEffects.v
CoreSystem.v
CoreFacts.v
CoreRetry.v
CoreProperties.v
CoreCommands.v
CoreExamples.v
AuditFacts.v
Outbox.v
OutboxFacts.v
OutboxProperties.v
VerusJob.v
RpcAdapter.v
FakeAdapter.v
RpcFacts.v
Worker.v
VerusJobFacts.v
WorkerFacts.v
StoreFacts.v
System.v
VerusFacts.v
SystemFacts.v
Encoding.v
LinkDatabase.v
VerusLinkRepository.v
LinkSpec.v
LinkFacts.v
LinkProperties.v
LinkExamples.v
HostedAuth.v
HostedAuthFacts.v
WalletLinkService.v
LinkHttp.v
LinkSystem.v
LinkSystemFacts.v
LinkRequestFacts.v
LinkRequestExamples.v
Config.v
ConfigFacts.v
LinkWiring.v
WorkerProcess.v
ConfigExamples.v
ConsentRepository.v
ConsentFacts.v
