(* ===== verification/Prelude.v ===== *)
(** * A verification library for the checks-and-balances application

    Prelude.v, the root: results, effectful programs, JavaScript values and
    automation shared by every file; this header documents the whole.

    ** The program

    The application runs verification committees: participants are verified
    in sessions, reviewers decide, signed attestations are issued, renewed
    and revoked, and manifests of what happened are anchored on the Verus
    chain.  Its core is a set of TypeScript packages under src/packages (pure
    domain functions, authentication and authorization, chain access,
    PostgreSQL repositories, the linking of accounts to VerusIDs through a
    hosted login service), a worker, src/apps/worker, that drains a leased
    queue into the chain, and an API, src/apps/api, whose one feature so far
    is the linking.  The parts call each other as follows: HTTP
    handlers and the worker call repositories; every repository command is
    one serializable transaction that reads rows, applies a domain function,
    writes rows guarded by CHECK constraints and triggers, and appends to a
    hash-chained audit log; commands that touch the chain go through the
    outbox, which the worker claims under a lease.

    ** Files and what they model

    - Prelude, Errors, Text: [result], the state-and-error monad [prog] with
      its notation, JavaScript falsiness and dates, the thrown errors of all
      packages ([exn]), the anchored patterns of the validators.
    - Transition, Lifecycles, Guards, LifecycleFacts: packages/domain/src,
      the state machines with their commands, the database triggers that
      guard the same transitions, and the lifecycle theorems.  [Lifecycle] is
      the class all aggregates instantiate.
    - Attestation: attestation.ts, public-projection.ts,
      reviewer-eligibility.ts and the SQL function for the status.
    - Json, JsonParse, JsonFacts: JSON values over UTF-16 code units, the
      canonical text of canonical-content.ts, its field screens, JSON.parse,
      UTF-8 and hexadecimal; the round trip of canonical text.
    - Authorization, Consent, Auth, Passkey: packages/auth/src; the services
      over store interfaces (type classes over a world).
    - Database: the tables of the queue, the jobs and the audit chain with
      constraints and triggers; transactions with their retries and faults
      (repository-types.ts); appendAudit (audit.ts).  AuditFacts: atomicity,
      bounded retries, the chain invariant and its tamper evidence.
    - AuthDatabase, AuthRepository, AuthSystem: the authentication tables,
      auth-repository.ts, and the services wired to them.  AuthInvariant,
      AuthFacts, RecoveryFacts, SignInFacts: invariants and security
      properties over every history; CommitteeFacts: the onboarding of
      committee accounts; AuthExamples: concrete runs.  ConsentRepository,
      ConsentFacts: the receipts of consent.
    - CoreDatabase, Idempotency: the tables of the domain core and the ledger
      every command goes through.  VerificationRepository,
      AttestationRepository, LifecycleRepository: the repositories of the same
      names; the last is generic in its table, [LifecycleTable], with an
      instance per lifecycle.  CoreSystem: the operations of the three as one
      type, [run_op], and the steps of a history.
    - CoreEffects, RequestEffects, AttestationEffects, LifecycleEffects: what
      each operation does when it succeeds; AttestationInvariant, CoreInvariant
      and CoreFacts: the invariant [core_ok] and one description of the effect
      of any operation; CoreRetry: retries.  CoreProperties and CoreCommands
      state the properties, CoreExamples runs them.
    - Outbox, OutboxFacts, OutboxProperties: outbox-repository.ts, leases,
      retries, the attempt ledger and ordering over every run.
    - Verus, VerusFacts: packages/verus/src, the adapter interface, the write
      preflight, confirmation and readback.  FakeAdapter and RpcAdapter
      implement the interface (fake-adapter.ts; rpc-adapter.ts and
      validation.ts); RpcFacts: how outcomes are classified.
    - VerusJob, VerusJobFacts, StoreFacts: verus-job-repository.ts, jobs and
      anchor records, and what each repository leaves alone.
    - Worker, WorkerFacts, System, SystemFacts: one pass of
      apps/worker/src/verus-worker.ts against interfaces, then on the real
      repositories and the in-memory node.
    - LinkDatabase, VerusLinkRepository: the tables of VerusID linking and
      verus-link-repository.ts.  LinkSpec: what they promise, as a transition
      system on challenges and links; LinkFacts: the refinement;
      LinkProperties: what follows for every history; LinkExamples: runs.
    - Encoding: the dates and base64url texts that cross the wire.
      HostedAuth, HostedAuthFacts: hosted-auth-client.ts of
      packages/verus-linking, its token check and the round trip of tokens.
    - WalletLinkService: service.ts of the same package, over interfaces.
      LinkHttp: wallet-link-http.ts and wallet-link.controller.ts of
      apps/api.  LinkSystem: both on the repositories and clients.
      LinkSystemFacts, LinkRequestFacts: what a request can do; LinkRequestExamples: a linking from end to end.
    - Config, ConfigFacts: packages/config, the schema as data and the checks
      of loadRuntimeConfig.  LinkWiring: the linking API built from a
      configuration.  WorkerProcess: the approved fixtures, main.ts of the worker, its polling loop, the text of
      its metrics, the readiness checks.  ConfigExamples: a deployed
      configuration.

    ** How state and effects are modelled

    A table is a finite map by its key (or a list where order or duplicates
    matter); a statement is a program on the database that raises the
    SQLSTATE the server would raise, after the checks in the server's order.
    A transaction is one atomic step: its body runs on the state and a failure
    rolls it back, all but the random identifiers drawn.  [TxAttempt] lets the
    environment fail any attempt: no connection, a failing statement, a
    refused commit, or a commit whose reply is lost.  Concurrency is the
    interleaving of such steps, which is what the serializable isolation
    every command asks for guarantees; single statements outside a
    transaction are steps of their own.  Integers are Z, checked against
    their column's width where they are written; times are milliseconds,
    [jsdate] is a Date that may be invalid.  Texts are their UTF-8 bytes,
    except in JSON and in headers, where code units matter.  The polling loop
    of the worker is a step relation on its timer and its passes in flight.

    ** What the theorems show

    - Worker: a pass hands at most one update to the chain, and only an
      authorized, canonical, screened one; a pass that reports success left
      verified evidence; an ambiguous submission is not repeated while it is
      marked (and how the mark can be lost); every sequence of passes keeps
      the queue and job invariants.
    - Queue: exclusive leases; one writer per aggregate, when commands take
      effect in the order of the times their callers read (and a run out of
      order with two writers); an exact attempt ledger, the order of claims,
      the retry schedule.
    - Chain access: what is written is recognised when read back, if its keys
      keep their order under NFC normalisation (which nothing checks); a
      verified readback is sound; outcomes of writes are classified, but for
      one malformed answer that passes for a settled failure.
    - Deployment: what an accepted configuration guarantees; the API built
      from it is the one its parts expect; the worker started from it writes
      nothing to the chain; the loop runs one pass at a time.
    - VerusID linking: the repository refines its specification under any
      faults; a link on record was proved in time for its account and
      identity; a poll links only with a token of the hosted service over the
      state of the account's own challenge and an active identity read from
      the chain; a token answers one challenge; what begin leaves behind.
    - Consent: a receipt is recorded exactly as given, and a choice once.
    - Authentication: who is admitted and for how long, ended sessions and
      revoked passkeys stay ended, single use of challenges, bounded
      attempts, answers that do not tell whether an account exists, the
      effect of recovery; authorize refines a declarative policy.
    - Domain core: in every history the tables stay well-formed, attestation,
      request and status row agree, at most one attestation of a participant
      is active, versions count the moves of a row; statusAt answers what
      the stored states determine; a command is logged
      exactly once, a retry replays it, one expected version wins once, no
      command leaves its committee; what a request command, a review decision,
      an activation and an expiry require and do; two commands that can never
      take effect.
    - Lifecycles and attestations: stages cannot be skipped, triggers agree
      with domain functions, an ended attestation stays ended in the domain
      (and how it comes back in the SQL function).
    - Foundations: transactions are atomic and retried at most three times,
      the audit chain is linked and, up to a collision of its digest, tamper
      evident, canonical text does not
      depend on the order of entries and parses back.

    ** What the theorems assume

    Histories of the domain core interleave the commands of its three
    repositories with single statements of the rest of the program
    (CoreSystem, [outside]): they may insert into a lifecycle table a row
    with free keys and move a presented wallet challenge, as the link
    repository does (LinkFacts proves that it does no more), may not write
    requests, decisions, attestations or the ledger, whose only writers the
    three repositories are, and may change all else.  Laws of third-party
    code are classes of their own, one law per documented function:
    [TextLaws] of Unicode normalisation and number texts, [ZodLaws] of
    the combinators of the schema library, [AuditTextLaws] of PostgreSQL's
    row text and of hexadecimal digests.  What a theorem asks of its caller
    or of the deployment is a hypothesis its comment names.

    ** Bounds and fuel

    Two recursions carry a bound.  A transaction has three attempts, as in the
    source.  The JSON parser has the length of the text as its fuel, and
    JsonFacts proves that to be enough for every text the code prints.  All
    else is structural: the field screen recurses on the value with the depth
    the source counts, and the worker's pass and the services are total.

    ** Parameters

    Code that is not in src/ is a class the definitions take: [Platform]
    (SHA-256, random UUIDs, PostgreSQL's text of an audit row, jsonb),
    [TextServices], [NumberParser] and [NumberService] (Unicode normalisation,
    number texts), [AuthCrypto] and [HostedPlatform] (HMAC), [UrlPlatform]
    (URL parsing), [Zod] (the schema library, with [ZodLaws]),
    [WebAuthnAdapter], the fetch of RpcAdapter and of HostedAuth.  Witnesses instantiate them with concrete functions.

    ** Not modelled

    - The rest of the HTTP API: routing, documents and shutdown of the web
      framework; the HTTP server, queue client and start-up of the worker;
      logging (a list of redacted paths given to a third-party logger).
    - The web interface and the packages of constants it reads; the scripts,
      which call the repositories on a live database; the hosted login
      service, a separate JavaScript program around a third-party library,
      whose answers are arbitrary here.
    - Columns, tables and triggers of the migrations that no modelled
      statement touches; third-party packages; tests.
*)
From stdpp Require Export base tactics option list strings gmap fin_maps.
From Stdlib Require Export ZArith Lia.

Declare Scope cbc_scope.
Delimit Scope cbc_scope with cbc.
#[global] Open Scope cbc_scope.
#[export] Set Warnings "-level-tolerance".

(** ** Results: a value or a thrown error *)

Inductive result (E A : Type) : Type :=
| Ok (a : A)
| Err (e : E).
Arguments Ok {E A} a.
Arguments Err {E A} e.

Definition bindR {E A B : Type} (r : result E A) (k : A -> result E B) : result E B :=
  match r with Ok a => k a | Err e => Err e end.

Notation "'let!' x ':=' c 'in' k" := (bindR c (fun x => k))
  (at level 10, x name, c at level 100, k at level 200) : cbc_scope.

(** [if (cond) throw e;] *)
Definition throwIf {E : Type} (cond : bool) (e : E) : result E unit :=
  if cond then Err e else Ok tt.

Notation "'throwif!' c 'as!' e 'in' k" := (bindR (throwIf c e) (fun _ => k))
  (at level 10, c at level 100, e at level 100, k at level 200) : cbc_scope.

Lemma Ok_inj {E A : Type} (a b : A) : @Ok E A a = Ok b -> a = b.
Proof. by intros [= ->]. Qed.

Lemma bindR_ok {E A B : Type} (r : result E A) (k : A -> result E B) (b : B) :
  bindR r k = Ok b <-> exists a, r = Ok a /\ k a = Ok b.
Proof. destruct r; simpl; split; naive_solver. Qed.

Lemma bindR_err {E A B : Type} (r : result E A) (k : A -> result E B) (e : E) :
  bindR r k = Err e <-> r = Err e \/ exists a, r = Ok a /\ k a = Err e.
Proof. destruct r; simpl; naive_solver. Qed.

Lemma throwIf_ok {E : Type} (c : bool) (e : E) (u : unit) : throwIf c e = Ok u <-> c = false.
Proof. destruct u, c; simpl; naive_solver. Qed.

Lemma throwIf_err {E : Type} (c : bool) (e e' : E) : throwIf c e = Err e' <-> c = true /\ e' = e.
Proof. destruct c; simpl; naive_solver. Qed.

Definition is_ok {E A : Type} (r : result E A) : bool :=
  match r with Ok _ => true | Err _ => false end.

(** ** Effectful programs: state passing with exceptions.  A thrown error
    keeps the effects made so far; a database transaction undoes them
    explicitly. *)

Definition prog (S E A : Type) : Type := S -> result E A * S.

Definition ret {S E A : Type} (a : A) : prog S E A := fun s => (Ok a, s).
Definition throw {S E A : Type} (e : E) : prog S E A := fun s => (Err e, s).
Definition bindP {S E A B : Type} (c : prog S E A) (k : A -> prog S E B) : prog S E B :=
  fun s => match c s with
           | (Ok a, s') => k a s'
           | (Err e, s') => (Err e, s')
           end.
Definition lift {S E A : Type} (r : result E A) : prog S E A := fun s => (r, s).
Definition gets {S E A : Type} (f : S -> A) : prog S E A := fun s => (Ok (f s), s).
Definition modify {S E : Type} (f : S -> S) : prog S E unit := fun s => (Ok tt, f s).
Definition catch {S E A : Type} (c : prog S E A) (h : E -> prog S E A) : prog S E A :=
  fun s => match c s with
           | (Ok a, s') => (Ok a, s')
           | (Err e, s') => h e s'
           end.
Definition throwWhen {S E : Type} (cond : bool) (e : E) : prog S E unit := lift (throwIf cond e).

Notation "'let*' x ':=' c 'in' k" := (bindP c (fun x => k))
  (at level 10, x name, c at level 100, k at level 200) : cbc_scope.
Notation "'run*' c 'in' k" := (bindP c (fun _ => k))
  (at level 10, c at level 100, k at level 200) : cbc_scope.
Notation "'throwif*' c 'as!' e 'in' k" := (bindP (throwWhen c e) (fun _ => k))
  (at level 10, c at level 100, e at level 100, k at level 200) : cbc_scope.

Lemma bindP_ok {S E A B : Type} (c : prog S E A) (k : A -> prog S E B) (s s' : S) (b : B) :
  bindP c k s = (Ok b, s') <-> exists a s1, c s = (Ok a, s1) /\ k a s1 = (Ok b, s').
Proof. unfold bindP. destruct (c s) as [[a|e] s1]; naive_solver. Qed.

Lemma bindP_err {S E A B : Type} (c : prog S E A) (k : A -> prog S E B) (s s' : S) (e : E) :
  bindP c k s = (Err e, s') <->
  c s = (Err e, s') \/ exists a s1, c s = (Ok a, s1) /\ k a s1 = (Err e, s').
Proof. unfold bindP. destruct (c s) as [[a|e1] s1]; naive_solver. Qed.

(** A Hoare triple on programs: from a state satisfying [P], a normal result
    satisfies [Q] and a thrown error satisfies [R]. *)
Definition triple {S E A : Type} (P : S -> Prop) (c : prog S E A)
  (Q : A -> S -> Prop) (R : E -> S -> Prop) : Prop :=
  forall s, P s -> match c s with
                   | (Ok a, s') => Q a s'
                   | (Err e, s') => R e s'
                   end.

Lemma triple_bind {S E A B : Type} (P : S -> Prop) (c : prog S E A) (k : A -> prog S E B)
  (Q : A -> S -> Prop) (Q' : B -> S -> Prop) (R : E -> S -> Prop) :
  triple P c Q R -> (forall a, triple (Q a) (k a) Q' R) -> triple P (bindP c k) Q' R.
Proof.
  intros Hc Hk s Hs. unfold bindP. specialize (Hc s Hs).
  destruct (c s) as [[a|e] s1]; [by apply Hk | done].
Qed.

(** [c] leaves the part [view] of the state alone, whatever it returns. *)
Definition keeps {S E A V : Type} (view : S -> V) (c : prog S E A) : Prop :=
  forall s, view (snd (c s)) = view s.

Lemma keeps_bind {S E A B V : Type} (view : S -> V) (c : prog S E A) (k : A -> prog S E B) :
  keeps view c -> (forall a, keeps view (k a)) -> keeps view (bindP c k).
Proof.
  intros Hc Hk s. specialize (Hc s). unfold bindP. destruct (c s) as [[a|e] s1]; simpl in *; [|done].
  by rewrite (Hk a s1).
Qed.

Lemma keeps_run {S E A V : Type} (view : S -> V) (c : prog S E A) s r s' :
  keeps view c -> c s = (r, s') -> view s' = view s.
Proof. intros Hk Hrun. specialize (Hk s). by rewrite Hrun in Hk. Qed.

Lemma keeps_pure {S E A V : Type} (view : S -> V) (c : prog S E A) :
  (forall s, snd (c s) = s) -> keeps view c.
Proof. intros Hp s. by rewrite Hp. Qed.

Lemma keeps_modify {S E V : Type} (view : S -> V) (f : S -> S) :
  (forall s, view (f s) = view s) -> keeps view (modify (E := E) f).
Proof. intros Hf s. apply Hf. Qed.

Create HintDb keeps.
#[export] Hint Extern 1 (keeps _ (ret _)) => (apply keeps_pure; reflexivity) : keeps.
#[export] Hint Extern 1 (keeps _ (throw _)) => (apply keeps_pure; reflexivity) : keeps.
#[export] Hint Extern 1 (keeps _ (lift _)) => (apply keeps_pure; reflexivity) : keeps.
#[export] Hint Extern 1 (keeps _ (throwWhen _ _)) => (apply keeps_pure; reflexivity) : keeps.
#[export] Hint Extern 1 (keeps _ (gets _)) => (apply keeps_pure; reflexivity) : keeps.
#[export] Hint Extern 1 (keeps _ (modify _)) => (apply keeps_modify; done) : keeps.

(** Straight-line programs, case by case. *)
Ltac keeps_steps :=
  repeat first
    [ solve [auto with keeps]
    | apply keeps_bind; [|intros ?]
    | match goal with |- keeps _ (match ?x with _ => _ end) => destruct x eqn:? end ].

(** ** JavaScript values *)

(** [!s] for an optional string: absent and empty strings are both falsy. *)
Definition truthy (s : option string) : bool :=
  match s with Some "" => false | Some _ => true | None => false end.

Definition falsy_string (s : string) : bool := String.eqb s "".

(** [s || undefined]. *)
Definition nonempty (o : option string) : option string :=
  match o with Some s => if falsy_string s then None else Some s | None => None end.

(** [xs.includes(x)] and [xs.some(p)]. *)
Definition includes {A : Type} `{EqDecision A} (xs : list A) (x : A) : bool := bool_decide (x ∈ xs).
Definition some {A : Type} (xs : list A) (p : A -> bool) : bool := existsb p xs.

Lemma includes_true {A : Type} `{EqDecision A} (xs : list A) (x : A) :
  includes xs x = true <-> x ∈ xs.
Proof. apply bool_decide_eq_true. Qed.

Lemma includes_false {A : Type} `{EqDecision A} (xs : list A) (x : A) :
  includes xs x = false <-> x ∉ xs.
Proof. apply bool_decide_eq_false. Qed.

Lemma some_true {A : Type} (xs : list A) (p : A -> bool) :
  some xs p = true <-> exists x, x ∈ xs /\ p x = true.
Proof.
  unfold some. rewrite existsb_exists. split; intros (x & Hin & Hp);
    exists x; split; auto; by apply list_elem_of_In.
Qed.

(** A [Date] holds an integral number of milliseconds or is invalid (its
    [getTime()] is NaN); [new Date(t)] clips times beyond 8.64e15 ms. *)
Definition jsdate : Type := option Z.
Definition maxTime : Z := 8640000000000000.
Definition newDate (t : Z) : jsdate := if (Z.abs t <=? maxTime)%Z then Some t else None.

(** A JavaScript number as far as the code tests and compares it: a finite
    double is a rational, here split into integral and fractional ones. *)
Inductive jsnumber : Type :=
| Int (z : Z)          (* an integral finite double *)
| Frac (floor : Z)     (* a finite double strictly between floor and floor+1 *)
| NotFinite.           (* NaN or an infinity *)

Definition isInteger (n : jsnumber) : bool := match n with Int _ => true | _ => false end.

Definition maxSafeInteger : Z := 9007199254740991.
Definition isSafeInteger (n : jsnumber) : bool :=
  match n with Int z => (Z.abs z <=? maxSafeInteger)%Z | _ => false end.

(** [n < k] for an integer literal [k] (false on NaN; infinities are not
    distinguished, and every use below rejects them first). *)
Definition ltNum (n : jsnumber) (k : Z) : bool :=
  match n with Int z => (z <? k)%Z | Frac f => (f <? k)%Z | NotFinite => false end.

Definition gtNum (n : jsnumber) (k : Z) : bool :=
  match n with Int z => (k <? z)%Z | Frac f => (k <=? f)%Z | NotFinite => false end.

(** ** Automation *)

Ltac destruct_result :=
  repeat match goal with
  | H : Ok _ = Ok _ |- _ => injection H as H; subst
  | H : Err _ = Err _ |- _ => injection H as H; subst
  | H : Ok _ = Err _ |- _ => discriminate H
  | H : Err _ = Ok _ |- _ => discriminate H
  | H : (_, _) = (_, _) |- _ => injection H as ? ?; subst
  end.

(** Invert a successful chain of binds and guards. *)
Ltac inv_ok :=
  repeat match goal with
  | H : bindR _ _ = Ok _ |- _ => apply bindR_ok in H as (? & ? & H)
  | H : throwIf _ _ = Ok _ |- _ => apply throwIf_ok in H
  | H : bindP _ _ _ = (Ok _, _) |- _ => apply bindP_ok in H as (? & ? & ? & H)
  | H : lift _ _ = (Ok _, _) |- _ => unfold lift in H
  | H : throwWhen _ _ _ = (Ok _, _) |- _ => unfold throwWhen, lift in H
  | H : ret _ _ = (Ok _, _) |- _ => unfold ret in H
  | H : gets _ _ = (Ok _, _) |- _ => unfold gets in H
  | H : modify _ _ = (Ok _, _) |- _ => unfold modify in H
  | H : throw _ _ = (Ok _, _) |- _ => discriminate H
  | H : (_, _) = (_, _) |- _ => first [injection H as ? ? | injection H as ?]; subst
  | H : Ok _ = Ok _ |- _ => injection H as H; subst
  | H : Err _ = Ok _ |- _ => discriminate H
  end.

Create HintDb cbc.
#[export] Hint Rewrite @bindR_ok @bindR_err @throwIf_ok @throwIf_err @bindP_ok @bindP_err
  @includes_true @includes_false @some_true : cbc.
#[export] Hint Rewrite orb_false_iff orb_true_iff andb_false_iff andb_true_iff negb_true_iff
  negb_false_iff Z.leb_le Z.leb_gt Z.ltb_lt Z.ltb_ge Z.eqb_eq Z.eqb_neq : cbcbool.

Ltac bool_to_prop := autorewrite with cbcbool in *.
