(* ===== verification/Errors.v ===== *)
(** * Errors: the exceptions the packages throw, one constructor per class.

    [exn] is what a [throw] carries through the packages: the domain errors
    of packages/domain, the repository errors of packages/db, the Verus
    integration errors of packages/verus and the authentication errors of
    packages/auth.  [PostgresError] is the driver's error for a statement
    the database refuses (it carries the SQLSTATE), [RangeError] the
    JavaScript built-in. *)
From S2P Require Import Prelude.

(** packages/domain/src/transition.ts, [DomainAggregate]. *)
Inductive DomainAggregate : Type :=
| verification | committee | verus_job | renewal_cycle | wallet_challenge
| consent | appeal | privacy_request | notification | relying_party_client.

(** packages/domain/src/reviewer-eligibility.ts, [ReviewerIneligibilityCode]. *)
Inductive ReviewerIneligibilityCode : Type :=
| REVIEWER_NOT_AUTHORIZED | REVIEWER_CONFLICTED | CROSS_COMMITTEE_REVIEW.

(** packages/verus/src/errors.ts, [VerusErrorCode]. *)
Inductive VerusErrorCode : Type :=
| RPC_UNAVAILABLE | RPC_TIMEOUT | RPC_HTTP_ERROR | RPC_PROTOCOL_ERROR | RPC_METHOD_ERROR
| RPC_INVALID_RESULT | AMBIGUOUS_SUBMISSION | WRONG_NETWORK | NODE_UNSYNCED
| NODE_VERSION_UNSUPPORTED | IDENTITY_STATE_INVALID | VDXF_ID_MISMATCH
| POLICY_GATE_DISABLED | PAYLOAD_FORBIDDEN | PAYLOAD_OVERSIZE | CONFIRMATION_PENDING
| READBACK_MISMATCH | REORG_DETECTED.

(** packages/auth/src/errors.ts, [AuthErrorCode]. *)
Inductive AuthErrorCode : Type :=
| AUTHENTICATION_REQUIRED | AUTHENTICATION_FAILED | AUTHORIZATION_DENIED
| CHALLENGE_EXPIRED | CHALLENGE_REPLAYED | CONSENT_INVALID | ORIGIN_REJECTED
| POLICY_REQUIRED | RATE_LIMITED | REAUTHENTICATION_REQUIRED | SESSION_EXPIRED
| SESSION_REVOKED.

(** packages/verus-linking/src: the codes of HostedAuthError
    (hosted-auth-client.ts) and WalletLinkError (service.ts). *)
Module HostedCode.
Inductive HostedAuthErrorCode : Type := UNAVAILABLE | INCOMPATIBLE | INVALID_RESPONSE | INVALID_TOKEN.
End HostedCode.

Module LinkCode.
Inductive WalletLinkErrorCode : Type :=
| FEATURE_DISABLED | MAINNET_BLOCKED | INVALID_REQUEST | CHALLENGE_UNAVAILABLE | CHALLENGE_EXPIRED
| AUTH_SERVICE_UNAVAILABLE | AUTH_SERVICE_INCOMPATIBLE.
End LinkCode.

(** [new VerusIntegrationError(code, message, retryable, submissionAmbiguous)]. *)
Record VerusIntegrationError : Type := {
  verr_code : VerusErrorCode;
  verr_message : string;
  verr_retryable : bool;
  verr_submissionAmbiguous : bool;
}.

Inductive exn : Type :=
| InvalidTransitionError (aggregate : DomainAggregate) (command currentState : string)
    (expectedStates : list string)
| InvalidAttestationValidityError (message : string)
| ReviewerIneligibleError (code : ReviewerIneligibilityCode)
| RepositoryConflictError (message : string)
| TenantBoundaryError
| IdempotencyConflictError
| VerusError (e : VerusIntegrationError)
| AuthError (code : AuthErrorCode)
| HostedAuthError (code : HostedCode.HostedAuthErrorCode)
| WalletLinkError (code : LinkCode.WalletLinkErrorCode)
| PostgresError (code : string)
| RangeError (message : string)
| OtherError (message : string).

#[export] Instance DomainAggregate_eq_dec : EqDecision DomainAggregate.
Proof. solve_decision. Defined.
#[export] Instance ReviewerIneligibilityCode_eq_dec : EqDecision ReviewerIneligibilityCode.
Proof. solve_decision. Defined.
#[export] Instance VerusErrorCode_eq_dec : EqDecision VerusErrorCode.
Proof. solve_decision. Defined.
#[export] Instance AuthErrorCode_eq_dec : EqDecision AuthErrorCode.
Proof. solve_decision. Defined.
#[export] Instance VerusIntegrationError_eq_dec : EqDecision VerusIntegrationError.
Proof. solve_decision. Defined.

(** [submissionAmbiguous] defaults to false. *)
Definition verusError (code : VerusErrorCode) (message : string) (retryable : bool) : exn :=
  VerusError {| verr_code := code; verr_message := message; verr_retryable := retryable;
                verr_submissionAmbiguous := false |}.

(** The write errors after which the outcome of the submission is unknown. *)
Definition ambiguousError (message : string) : exn :=
  VerusError {| verr_code := AMBIGUOUS_SUBMISSION; verr_message := message;
                verr_retryable := true; verr_submissionAmbiguous := true |}.

(** [isVerusIntegrationError(error)], returning the error it narrows to. *)
Definition isVerusIntegrationError (e : exn) : option VerusIntegrationError :=
  match e with VerusError v => Some v | _ => None end.

(** The code as the string the program stores ([error.code]). *)
Definition verusErrorCode_name (c : VerusErrorCode) : string :=
  match c with
  | RPC_UNAVAILABLE => "RPC_UNAVAILABLE" | RPC_TIMEOUT => "RPC_TIMEOUT"
  | RPC_HTTP_ERROR => "RPC_HTTP_ERROR" | RPC_PROTOCOL_ERROR => "RPC_PROTOCOL_ERROR"
  | RPC_METHOD_ERROR => "RPC_METHOD_ERROR" | RPC_INVALID_RESULT => "RPC_INVALID_RESULT"
  | AMBIGUOUS_SUBMISSION => "AMBIGUOUS_SUBMISSION" | WRONG_NETWORK => "WRONG_NETWORK"
  | NODE_UNSYNCED => "NODE_UNSYNCED" | NODE_VERSION_UNSUPPORTED => "NODE_VERSION_UNSUPPORTED"
  | IDENTITY_STATE_INVALID => "IDENTITY_STATE_INVALID" | VDXF_ID_MISMATCH => "VDXF_ID_MISMATCH"
  | POLICY_GATE_DISABLED => "POLICY_GATE_DISABLED" | PAYLOAD_FORBIDDEN => "PAYLOAD_FORBIDDEN"
  | PAYLOAD_OVERSIZE => "PAYLOAD_OVERSIZE" | CONFIRMATION_PENDING => "CONFIRMATION_PENDING"
  | READBACK_MISMATCH => "READBACK_MISMATCH" | REORG_DETECTED => "REORG_DETECTED"
  end.

(** packages/auth/src/errors.ts, [publicMessages]. *)
Definition publicMessages (c : AuthErrorCode) : string :=
  match c with
  | AUTHENTICATION_REQUIRED => "Authentication is required."
  | AUTHENTICATION_FAILED => "The authentication attempt could not be completed."
  | AUTHORIZATION_DENIED => "This action is not permitted."
  | CHALLENGE_EXPIRED => "The authentication request expired. Start again."
  | CHALLENGE_REPLAYED => "The authentication request is no longer available. Start again."
  | CONSENT_INVALID => "A separate, explicit choice is required."
  | ORIGIN_REJECTED => "The request origin was rejected."
  | POLICY_REQUIRED => "A current required policy must be acknowledged."
  | RATE_LIMITED => "Too many attempts. Try again later."
  | REAUTHENTICATION_REQUIRED => "Confirm your identity again to continue."
  | SESSION_EXPIRED => "The session expired. Sign in again."
  | SESSION_REVOKED => "The session is no longer active. Sign in again."
  end.
