(* ===== verification/Transition.v ===== *)
(** * Transition: the shared state-machine step and its generic theory.

    [applyTransition] is packages/domain/src/transition.ts.  [Lifecycle] is
    the interface each aggregate of packages/domain implements (its states,
    its commands and the command's effect); the reachability, dominance and
    termination arguments below are proved once against it. *)
From stdpp Require Import relations.
From S2P Require Import Prelude Errors.

(** The string literal a state is in the source. *)
Class StateName (State : Type) := state_name : State -> string.

(** transition.ts, [applyTransition]. *)
Definition applyTransition {State : Type} `{EqDecision State} `{StateName State}
    (aggregate : DomainAggregate) (command : string) (currentState : State)
    (expectedStates : list State) (nextState : State) : result exn State :=
  throwif! negb (includes expectedStates currentState)
    as! InvalidTransitionError aggregate command (state_name currentState)
          (state_name <$> expectedStates)
  in Ok nextState.

Lemma applyTransition_ok {State : Type} `{EqDecision State} `{StateName State}
    agg cmd (s : State) exp next s' :
  applyTransition agg cmd s exp next = Ok s' <-> s ∈ exp /\ s' = next.
Proof.
  unfold applyTransition. destruct (includes exp s) eqn:E; simpl.
  - apply includes_true in E. naive_solver.
  - apply includes_false in E. naive_solver.
Qed.

Lemma applyTransition_err {State : Type} `{EqDecision State} `{StateName State}
    agg cmd (s : State) exp next e :
  applyTransition agg cmd s exp next = Err e <->
  s ∉ exp /\ e = InvalidTransitionError agg cmd (state_name s) (state_name <$> exp).
Proof.
  unfold applyTransition. destruct (includes exp s) eqn:E; simpl.
  - apply includes_true in E. naive_solver.
  - apply includes_false in E. naive_solver.
Qed.

(** ** Lifecycles: commands on a finite set of states *)

Class Lifecycle (State Command : Type) := {
  lc_apply : Command -> State -> result exn State;
  lc_commands : list Command;
  lc_complete : forall c, c ∈ lc_commands;
  lc_states : list State;
  lc_states_complete : forall s, s ∈ lc_states;
}.

Section lifecycle.
Context {State Command : Type} `{EqDecision State} `{Lifecycle State Command}.

(** One accepted command. *)
Inductive step (s s' : State) : Prop :=
| step_command (c : Command) : lc_apply c s = Ok s' -> step s s'.

Definition reachable : State -> State -> Prop := rtc step.

(** The decision procedure for [step]: try every command. *)
Definition stepb (s s' : State) : bool :=
  some lc_commands (fun c => match lc_apply c s with
                             | Ok s1 => bool_decide (s1 = s')
                             | Err _ => false
                             end).

Lemma stepb_spec s s' : stepb s s' = true <-> step s s'.
Proof.
  unfold stepb. rewrite some_true. split.
  - intros (c & _ & Hc). exists c. destruct (lc_apply c s); [|done].
    apply bool_decide_eq_true in Hc. by subst.
  - intros [c Hc]. exists c. split; [apply lc_complete|]. rewrite Hc.
    by apply bool_decide_eq_true.
Qed.

(** A state no command leaves. *)
Definition terminal (s : State) : Prop := forall c, is_ok (lc_apply c s) = false.

Definition terminalb (s : State) : bool := forallb (fun c => negb (is_ok (lc_apply c s))) lc_commands.

Lemma terminalb_spec s : terminalb s = true <-> terminal s.
Proof.
  unfold terminalb, terminal. rewrite forallb_forall. split.
  - intros Hf c. apply negb_true_iff, Hf, list_elem_of_In, lc_complete.
  - intros Ht c _. by rewrite Ht.
Qed.

Lemma terminal_no_step s s' : terminal s -> ~ step s s'.
Proof. intros Ht [c Hc]. specialize (Ht c). by rewrite Hc in Ht. Qed.

Lemma terminal_reachable s s' : terminal s -> reachable s s' -> s' = s.
Proof. intros Ht Hr. inversion Hr; [done|]. by edestruct terminal_no_step. Qed.

(** [path s l s']: accepted commands lead from [s] to [s'] through the
    states [l] ([s] first, [s'] last). *)
Inductive path : State -> list State -> State -> Prop :=
| path_nil s : path s [s] s
| path_cons s s1 l s' : step s s1 -> path s1 l s' -> path s (s :: l) s'.

(** Finite statements about all states are decided by evaluation. *)
Definition every (p : State -> bool) : bool := forallb p lc_states.

Lemma every_spec p s : every p = true -> p s = true.
Proof.
  unfold every. rewrite forallb_forall. intros Hp. apply Hp, list_elem_of_In, lc_states_complete.
Qed.

Lemma path_head s l s' : path s l s' -> exists l', l = s :: l'.
Proof. intros Hp. inversion Hp; eauto. Qed.

(** Dominance: every step out of the set [I] stays in [I] or reaches [x]. *)
Definition guarded_by (I : State -> bool) (x : State) : bool :=
  every (fun a => every (fun b => implb (I a && stepb a b) (I b || bool_decide (b = x)))).

Lemma guarded_by_step I x a b :
  guarded_by I x = true -> I a = true -> step a b -> I b = true \/ b = x.
Proof.
  intros Hg Ha Hst. apply stepb_spec in Hst.
  pose proof (every_spec _ b (every_spec _ a Hg)) as Hb. cbv beta in Hb.
  rewrite Ha, Hst in Hb. simpl in Hb. apply orb_true_iff in Hb as [Hb|Hb]; [by left|].
  right. by apply bool_decide_eq_true in Hb.
Qed.

(** A path from inside to outside splits at the dominating state. *)
Lemma path_through I x s l s' :
  guarded_by I x = true -> path s l s' -> I s = true -> I s' = false ->
  exists l1 l2, l = s :: l1 ++ l2 /\ path x l2 s'.
Proof.
  intros Hg Hp. induction Hp as [s|s s1 l s' Hst Hp IH]; intros Hs Hs'; [congruence|].
  destruct (guarded_by_step I x s s1 Hg Hs Hst) as [H1| ->].
  - destruct (IH H1 Hs') as (l1 & l2 & -> & Hx). by exists (s1 :: l1), l2.
  - by exists [], l.
Qed.

Lemma path_stages I x s l s' stages :
  guarded_by I x = true -> I s = true -> I s' = false ->
  (forall l2, path x l2 s' -> stages `sublist_of` l2) ->
  path s l s' -> (s :: stages) `sublist_of` l.
Proof.
  intros Hg Hs Hs' Hrest Hp.
  destruct (path_through I x s l s' Hg Hp Hs Hs') as (l1 & l2 & -> & Hx).
  apply sublist_skip, sublist_inserts_l, Hrest, Hx.
Qed.

Lemma reachable_closed (I : State -> Prop) s s' :
  (forall a b, I a -> step a b -> I b) -> reachable s s' -> I s -> I s'.
Proof. intros Hcl Hr. induction Hr; eauto. Qed.

(** Termination: a rank that every step raises bounds every run. *)
Definition ranked (rank : State -> nat) : bool :=
  every (fun a => every (fun b => implb (stepb a b) (rank a <? rank b))).

Lemma ranked_path_length rank s l s' :
  ranked rank = true -> path s l s' -> length l + rank s <= S (rank s').
Proof.
  intros Hr Hp. induction Hp as [s|s s1 l s' Hst Hp IH]; simpl; [lia|].
  apply stepb_spec in Hst. pose proof (every_spec _ s1 (every_spec _ s Hr)) as Hlt.
  cbv beta in Hlt. rewrite Hst in Hlt. simpl in Hlt. apply Nat.ltb_lt in Hlt. lia.
Qed.
End lifecycle.

(** Case analysis on every state of closed lifecycles. *)
Ltac lifecycle_step H :=
  let c := fresh "c" in
  destruct H as [c H]; destruct c; apply applyTransition_ok in H as [H ->].

Ltac in_cases :=
  repeat match goal with
  | H : _ ∈ [] |- _ => apply elem_of_nil in H; done
  | H : _ ∈ _ :: _ |- _ => apply elem_of_cons in H as [->|H]
  end.

(** Every command of an enumeration is in its list. *)
Ltac complete_list := let c := fresh "c" in intros c; destruct c; repeat constructor.
