(* ===== verification/Lifecycles.v ===== *)
(** * Lifecycles: the ten state machines of packages/domain.

    One module per aggregate: its states (the [..._STATES] literals), its
    commands under their source names, and the [Lifecycle] instance the
    generic theory of Transition.v is applied to.  [apply] dispatches a
    command to its function, as the repositories do. *)
From S2P Require Import Prelude Errors Transition.


(** ** packages/domain/src/verification.ts *)
Module Verification.
Inductive VerificationState : Type :=
| requested | scheduled | checked_in | under_review | approved | rejected |
needs_more_information | withdrawn | issuance_pending | issued | active |
expired | revoked | superseded | appealed | appeal_upheld | appeal_denied |
appeal_remanded.
#[global] Instance VerificationState_eq_dec : EqDecision VerificationState.
Proof. solve_decision. Defined.
#[global] Instance VerificationState_name : StateName VerificationState := fun s =>
  match s with
  | requested => "requested" | scheduled => "scheduled"
  | checked_in => "checked_in" | under_review => "under_review"
  | approved => "approved" | rejected => "rejected"
  | needs_more_information => "needs_more_information" | withdrawn => "withdrawn"
  | issuance_pending => "issuance_pending" | issued => "issued"
  | active => "active" | expired => "expired" | revoked => "revoked"
  | superseded => "superseded" | appealed => "appealed"
  | appeal_upheld => "appeal_upheld" | appeal_denied => "appeal_denied"
  | appeal_remanded => "appeal_remanded"
  end.
Definition VERIFICATION_STATES : list VerificationState :=
  [requested; scheduled; checked_in; under_review; approved; rejected;
   needs_more_information; withdrawn; issuance_pending; issued; active; expired;
   revoked; superseded; appealed; appeal_upheld; appeal_denied;
   appeal_remanded].

Definition transition (command : string) (currentState expectedState nextState : VerificationState)
  : result exn VerificationState :=
  applyTransition verification command currentState [expectedState] nextState.

Definition scheduleRequest (s : VerificationState) : result exn VerificationState :=
  transition "scheduleRequest" s requested scheduled.
Definition checkInParticipant (s : VerificationState) : result exn VerificationState :=
  transition "checkInParticipant" s scheduled checked_in.
Definition beginReview (s : VerificationState) : result exn VerificationState :=
  transition "beginReview" s checked_in under_review.
Definition approveVerification (s : VerificationState) : result exn VerificationState :=
  transition "approveVerification" s under_review approved.
Definition rejectVerification (s : VerificationState) : result exn VerificationState :=
  transition "rejectVerification" s under_review rejected.
Definition requestMoreInformation (s : VerificationState) : result exn VerificationState :=
  transition "requestMoreInformation" s under_review needs_more_information.
Definition withdrawVerification (s : VerificationState) : result exn VerificationState :=
  transition "withdrawVerification" s under_review withdrawn.
Definition rescheduleAfterMoreInformation (s : VerificationState) : result exn VerificationState :=
  transition "rescheduleAfterMoreInformation" s needs_more_information scheduled.
Definition rejectAfterMoreInformation (s : VerificationState) : result exn VerificationState :=
  transition "rejectAfterMoreInformation" s needs_more_information rejected.
Definition withdrawAfterMoreInformation (s : VerificationState) : result exn VerificationState :=
  transition "withdrawAfterMoreInformation" s needs_more_information withdrawn.
Definition requestIssuance (s : VerificationState) : result exn VerificationState :=
  transition "requestIssuance" s approved issuance_pending.
Definition recordIssuance (s : VerificationState) : result exn VerificationState :=
  transition "recordIssuance" s issuance_pending issued.
Definition activateAttestation (s : VerificationState) : result exn VerificationState :=
  transition "activateAttestation" s issued active.
Definition expireAttestation (s : VerificationState) : result exn VerificationState :=
  transition "expireAttestation" s active expired.
Definition revokeAttestation (s : VerificationState) : result exn VerificationState :=
  transition "revokeAttestation" s active revoked.
Definition supersedeAttestation (s : VerificationState) : result exn VerificationState :=
  transition "supersedeAttestation" s active superseded.
Definition openAppeal (s : VerificationState) : result exn VerificationState :=
  transition "openAppeal" s rejected appealed.
Definition upholdAppeal (s : VerificationState) : result exn VerificationState :=
  transition "upholdAppeal" s appealed appeal_upheld.
Definition denyAppeal (s : VerificationState) : result exn VerificationState :=
  transition "denyAppeal" s appealed appeal_denied.
Definition remandAppeal (s : VerificationState) : result exn VerificationState :=
  transition "remandAppeal" s appealed appeal_remanded.

Inductive command : Type :=
| C_scheduleRequest | C_checkInParticipant | C_beginReview |
C_approveVerification | C_rejectVerification | C_requestMoreInformation |
C_withdrawVerification | C_rescheduleAfterMoreInformation |
C_rejectAfterMoreInformation | C_withdrawAfterMoreInformation |
C_requestIssuance | C_recordIssuance | C_activateAttestation |
C_expireAttestation | C_revokeAttestation | C_supersedeAttestation |
C_openAppeal | C_upholdAppeal | C_denyAppeal | C_remandAppeal.
Definition apply (c : command) : VerificationState -> result exn VerificationState :=
  match c with
  | C_scheduleRequest => scheduleRequest
  | C_checkInParticipant => checkInParticipant
  | C_beginReview => beginReview
  | C_approveVerification => approveVerification
  | C_rejectVerification => rejectVerification
  | C_requestMoreInformation => requestMoreInformation
  | C_withdrawVerification => withdrawVerification
  | C_rescheduleAfterMoreInformation => rescheduleAfterMoreInformation
  | C_rejectAfterMoreInformation => rejectAfterMoreInformation
  | C_withdrawAfterMoreInformation => withdrawAfterMoreInformation
  | C_requestIssuance => requestIssuance
  | C_recordIssuance => recordIssuance
  | C_activateAttestation => activateAttestation
  | C_expireAttestation => expireAttestation
  | C_revokeAttestation => revokeAttestation
  | C_supersedeAttestation => supersedeAttestation
  | C_openAppeal => openAppeal
  | C_upholdAppeal => upholdAppeal
  | C_denyAppeal => denyAppeal
  | C_remandAppeal => remandAppeal
  end.
#[global] Program Instance VerificationState_lifecycle : Lifecycle VerificationState command := {
  lc_apply := apply;
  lc_commands :=
    [C_scheduleRequest; C_checkInParticipant; C_beginReview;
     C_approveVerification; C_rejectVerification; C_requestMoreInformation;
     C_withdrawVerification; C_rescheduleAfterMoreInformation;
     C_rejectAfterMoreInformation; C_withdrawAfterMoreInformation;
     C_requestIssuance; C_recordIssuance; C_activateAttestation;
     C_expireAttestation; C_revokeAttestation; C_supersedeAttestation;
     C_openAppeal; C_upholdAppeal; C_denyAppeal; C_remandAppeal];
  lc_states := VERIFICATION_STATES;
}.
Next Obligation. complete_list. Qed.
Next Obligation. complete_list. Qed.
End Verification.

(** ** packages/domain/src/committee.ts *)
Module Committee.
Inductive CommitteeState : Type :=
| proposed | forming | policy_review | testnet_provisioning | testnet_ready |
pilot_review | pilot_approved | active | suspended | retired.
#[global] Instance CommitteeState_eq_dec : EqDecision CommitteeState.
Proof. solve_decision. Defined.
#[global] Instance CommitteeState_name : StateName CommitteeState := fun s =>
  match s with
  | proposed => "proposed" | forming => "forming"
  | policy_review => "policy_review"
  | testnet_provisioning => "testnet_provisioning"
  | testnet_ready => "testnet_ready" | pilot_review => "pilot_review"
  | pilot_approved => "pilot_approved" | active => "active"
  | suspended => "suspended" | retired => "retired"
  end.
Definition COMMITTEE_STATES : list CommitteeState :=
  [proposed; forming; policy_review; testnet_provisioning; testnet_ready;
   pilot_review; pilot_approved; active; suspended; retired].

Definition transition (command : string) (currentState expectedState nextState : CommitteeState)
  : result exn CommitteeState :=
  applyTransition committee command currentState [expectedState] nextState.

Definition beginCommitteeFormation (s : CommitteeState) : result exn CommitteeState :=
  transition "beginCommitteeFormation" s proposed forming.
Definition beginCommitteePolicyReview (s : CommitteeState) : result exn CommitteeState :=
  transition "beginCommitteePolicyReview" s forming policy_review.
Definition beginTestnetProvisioning (s : CommitteeState) : result exn CommitteeState :=
  transition "beginTestnetProvisioning" s policy_review testnet_provisioning.
Definition markCommitteeTestnetReady (s : CommitteeState) : result exn CommitteeState :=
  transition "markCommitteeTestnetReady" s testnet_provisioning testnet_ready.
Definition beginCommitteePilotReview (s : CommitteeState) : result exn CommitteeState :=
  transition "beginCommitteePilotReview" s testnet_ready pilot_review.
Definition approveCommitteePilot (s : CommitteeState) : result exn CommitteeState :=
  transition "approveCommitteePilot" s pilot_review pilot_approved.
Definition activateCommittee (s : CommitteeState) : result exn CommitteeState :=
  transition "activateCommittee" s pilot_approved active.
Definition suspendCommittee (s : CommitteeState) : result exn CommitteeState :=
  transition "suspendCommittee" s pilot_approved suspended.
Definition retireCommittee (s : CommitteeState) : result exn CommitteeState :=
  transition "retireCommittee" s pilot_approved retired.
Definition reactivateCommittee (s : CommitteeState) : result exn CommitteeState :=
  transition "reactivateCommittee" s suspended active.
Definition retireSuspendedCommittee (s : CommitteeState) : result exn CommitteeState :=
  transition "retireSuspendedCommittee" s suspended retired.

Inductive command : Type :=
| C_beginCommitteeFormation | C_beginCommitteePolicyReview |
C_beginTestnetProvisioning | C_markCommitteeTestnetReady |
C_beginCommitteePilotReview | C_approveCommitteePilot | C_activateCommittee |
C_suspendCommittee | C_retireCommittee | C_reactivateCommittee |
C_retireSuspendedCommittee.
Definition apply (c : command) : CommitteeState -> result exn CommitteeState :=
  match c with
  | C_beginCommitteeFormation => beginCommitteeFormation
  | C_beginCommitteePolicyReview => beginCommitteePolicyReview
  | C_beginTestnetProvisioning => beginTestnetProvisioning
  | C_markCommitteeTestnetReady => markCommitteeTestnetReady
  | C_beginCommitteePilotReview => beginCommitteePilotReview
  | C_approveCommitteePilot => approveCommitteePilot
  | C_activateCommittee => activateCommittee
  | C_suspendCommittee => suspendCommittee
  | C_retireCommittee => retireCommittee
  | C_reactivateCommittee => reactivateCommittee
  | C_retireSuspendedCommittee => retireSuspendedCommittee
  end.
#[global] Program Instance CommitteeState_lifecycle : Lifecycle CommitteeState command := {
  lc_apply := apply;
  lc_commands :=
    [C_beginCommitteeFormation; C_beginCommitteePolicyReview;
     C_beginTestnetProvisioning; C_markCommitteeTestnetReady;
     C_beginCommitteePilotReview; C_approveCommitteePilot;
     C_activateCommittee; C_suspendCommittee; C_retireCommittee;
     C_reactivateCommittee; C_retireSuspendedCommittee];
  lc_states := COMMITTEE_STATES;
}.
Next Obligation. complete_list. Qed.
Next Obligation. complete_list. Qed.
End Committee.

(** ** packages/domain/src/verus-job.ts *)
Module VerusJobState.
Inductive VerusJobState : Type :=
| pending | claimed | preflight | submitted | confirming | readback | verified |
retryable_failed | terminal_failed | reorg_pending.
#[global] Instance VerusJobState_eq_dec : EqDecision VerusJobState.
Proof. solve_decision. Defined.
#[global] Instance VerusJobState_name : StateName VerusJobState := fun s =>
  match s with
  | pending => "pending" | claimed => "claimed" | preflight => "preflight"
  | submitted => "submitted" | confirming => "confirming"
  | readback => "readback" | verified => "verified"
  | retryable_failed => "retryable_failed" | terminal_failed => "terminal_failed"
  | reorg_pending => "reorg_pending"
  end.
Definition VERUS_JOB_STATES : list VerusJobState :=
  [pending; claimed; preflight; submitted; confirming; readback; verified;
   retryable_failed; terminal_failed; reorg_pending].

Definition transition (command : string) (state : VerusJobState) (expected : list VerusJobState) (next : VerusJobState)
  : result exn VerusJobState :=
  applyTransition verus_job command state expected next.

Definition claimVerusJob (s : VerusJobState) : result exn VerusJobState :=
  transition "claimVerusJob" s [pending; retryable_failed; reorg_pending] claimed.
Definition beginVerusPreflight (s : VerusJobState) : result exn VerusJobState :=
  transition "beginVerusPreflight" s [claimed] preflight.
Definition recordVerusSubmission (s : VerusJobState) : result exn VerusJobState :=
  transition "recordVerusSubmission" s [preflight] submitted.
Definition beginVerusConfirmation (s : VerusJobState) : result exn VerusJobState :=
  transition "beginVerusConfirmation" s [submitted] confirming.
Definition beginVerusReadback (s : VerusJobState) : result exn VerusJobState :=
  transition "beginVerusReadback" s [confirming] readback.
Definition verifyVerusReadback (s : VerusJobState) : result exn VerusJobState :=
  transition "verifyVerusReadback" s [readback] verified.
Definition recordRetryableVerusFailure (s : VerusJobState) : result exn VerusJobState :=
  transition "recordRetryableVerusFailure" s [preflight; submitted; confirming; readback] retryable_failed.
Definition recordTerminalVerusFailure (s : VerusJobState) : result exn VerusJobState :=
  transition "recordTerminalVerusFailure" s [preflight; submitted; confirming; readback; retryable_failed] terminal_failed.
Definition markVerusReorgPending (s : VerusJobState) : result exn VerusJobState :=
  transition "markVerusReorgPending" s [confirming; readback] reorg_pending.

Inductive command : Type :=
| C_claimVerusJob | C_beginVerusPreflight | C_recordVerusSubmission |
C_beginVerusConfirmation | C_beginVerusReadback | C_verifyVerusReadback |
C_recordRetryableVerusFailure | C_recordTerminalVerusFailure |
C_markVerusReorgPending.
Definition apply (c : command) : VerusJobState -> result exn VerusJobState :=
  match c with
  | C_claimVerusJob => claimVerusJob
  | C_beginVerusPreflight => beginVerusPreflight
  | C_recordVerusSubmission => recordVerusSubmission
  | C_beginVerusConfirmation => beginVerusConfirmation
  | C_beginVerusReadback => beginVerusReadback
  | C_verifyVerusReadback => verifyVerusReadback
  | C_recordRetryableVerusFailure => recordRetryableVerusFailure
  | C_recordTerminalVerusFailure => recordTerminalVerusFailure
  | C_markVerusReorgPending => markVerusReorgPending
  end.
#[global] Program Instance VerusJobState_lifecycle : Lifecycle VerusJobState command := {
  lc_apply := apply;
  lc_commands :=
    [C_claimVerusJob; C_beginVerusPreflight; C_recordVerusSubmission;
     C_beginVerusConfirmation; C_beginVerusReadback; C_verifyVerusReadback;
     C_recordRetryableVerusFailure; C_recordTerminalVerusFailure;
     C_markVerusReorgPending];
  lc_states := VERUS_JOB_STATES;
}.
Next Obligation. complete_list. Qed.
Next Obligation. complete_list. Qed.
End VerusJobState.

(** ** packages/domain/src/renewal-cycle.ts *)
Module RenewalCycle.
Inductive RenewalCycleState : Type :=
| draft | snapshot_committed | selection_pending | selection_ready |
notices_pending | in_progress | reporting | published | cancelled.
#[global] Instance RenewalCycleState_eq_dec : EqDecision RenewalCycleState.
Proof. solve_decision. Defined.
#[global] Instance RenewalCycleState_name : StateName RenewalCycleState := fun s =>
  match s with
  | draft => "draft" | snapshot_committed => "snapshot_committed"
  | selection_pending => "selection_pending"
  | selection_ready => "selection_ready" | notices_pending => "notices_pending"
  | in_progress => "in_progress" | reporting => "reporting"
  | published => "published" | cancelled => "cancelled"
  end.
Definition RENEWAL_CYCLE_STATES : list RenewalCycleState :=
  [draft; snapshot_committed; selection_pending; selection_ready;
   notices_pending; in_progress; reporting; published; cancelled].

Definition transition (command : string) (state : RenewalCycleState) (expected : list RenewalCycleState) (next : RenewalCycleState)
  : result exn RenewalCycleState :=
  applyTransition renewal_cycle command state expected next.

Definition commitEligibleSnapshot (s : RenewalCycleState) : result exn RenewalCycleState :=
  transition "commitEligibleSnapshot" s [draft] snapshot_committed.
Definition requestRenewalSelection (s : RenewalCycleState) : result exn RenewalCycleState :=
  transition "requestRenewalSelection" s [snapshot_committed] selection_pending.
Definition recordRenewalSelection (s : RenewalCycleState) : result exn RenewalCycleState :=
  transition "recordRenewalSelection" s [selection_pending] selection_ready.
Definition queueRenewalNotices (s : RenewalCycleState) : result exn RenewalCycleState :=
  transition "queueRenewalNotices" s [selection_ready] notices_pending.
Definition beginRenewalCycle (s : RenewalCycleState) : result exn RenewalCycleState :=
  transition "beginRenewalCycle" s [notices_pending] in_progress.
Definition beginRenewalReporting (s : RenewalCycleState) : result exn RenewalCycleState :=
  transition "beginRenewalReporting" s [in_progress] reporting.
Definition publishRenewalReport (s : RenewalCycleState) : result exn RenewalCycleState :=
  transition "publishRenewalReport" s [reporting] published.
Definition cancelDraftRenewalCycle (s : RenewalCycleState) : result exn RenewalCycleState :=
  transition "cancelDraftRenewalCycle" s [draft] cancelled.

Inductive command : Type :=
| C_commitEligibleSnapshot | C_requestRenewalSelection |
C_recordRenewalSelection | C_queueRenewalNotices | C_beginRenewalCycle |
C_beginRenewalReporting | C_publishRenewalReport | C_cancelDraftRenewalCycle.
Definition apply (c : command) : RenewalCycleState -> result exn RenewalCycleState :=
  match c with
  | C_commitEligibleSnapshot => commitEligibleSnapshot
  | C_requestRenewalSelection => requestRenewalSelection
  | C_recordRenewalSelection => recordRenewalSelection
  | C_queueRenewalNotices => queueRenewalNotices
  | C_beginRenewalCycle => beginRenewalCycle
  | C_beginRenewalReporting => beginRenewalReporting
  | C_publishRenewalReport => publishRenewalReport
  | C_cancelDraftRenewalCycle => cancelDraftRenewalCycle
  end.
#[global] Program Instance RenewalCycleState_lifecycle : Lifecycle RenewalCycleState command := {
  lc_apply := apply;
  lc_commands :=
    [C_commitEligibleSnapshot; C_requestRenewalSelection;
     C_recordRenewalSelection; C_queueRenewalNotices; C_beginRenewalCycle;
     C_beginRenewalReporting; C_publishRenewalReport;
     C_cancelDraftRenewalCycle];
  lc_states := RENEWAL_CYCLE_STATES;
}.
Next Obligation. complete_list. Qed.
Next Obligation. complete_list. Qed.
End RenewalCycle.

(** ** packages/domain/src/wallet-challenge.ts *)
Module WalletChallenge.
Inductive WalletChallengeState : Type :=
| created | presented | response_received | consumed | expired | rejected.
#[global] Instance WalletChallengeState_eq_dec : EqDecision WalletChallengeState.
Proof. solve_decision. Defined.
#[global] Instance WalletChallengeState_name : StateName WalletChallengeState := fun s =>
  match s with
  | created => "created" | presented => "presented"
  | response_received => "response_received" | consumed => "consumed"
  | expired => "expired" | rejected => "rejected"
  end.
Definition WALLET_CHALLENGE_STATES : list WalletChallengeState :=
  [created; presented; response_received; consumed; expired; rejected].

Definition transition (command : string) (state : WalletChallengeState) (expected : list WalletChallengeState) (next : WalletChallengeState)
  : result exn WalletChallengeState :=
  applyTransition wallet_challenge command state expected next.

Definition presentWalletChallenge (s : WalletChallengeState) : result exn WalletChallengeState :=
  transition "presentWalletChallenge" s [created] presented.
Definition recordWalletResponse (s : WalletChallengeState) : result exn WalletChallengeState :=
  transition "recordWalletResponse" s [presented] response_received.
Definition consumeWalletChallenge (s : WalletChallengeState) : result exn WalletChallengeState :=
  transition "consumeWalletChallenge" s [response_received] consumed.
Definition rejectWalletResponse (s : WalletChallengeState) : result exn WalletChallengeState :=
  transition "rejectWalletResponse" s [response_received] rejected.
Definition expireWalletChallenge (s : WalletChallengeState) : result exn WalletChallengeState :=
  transition "expireWalletChallenge" s [created; presented] expired.

Inductive command : Type :=
| C_presentWalletChallenge | C_recordWalletResponse | C_consumeWalletChallenge |
C_rejectWalletResponse | C_expireWalletChallenge.
Definition apply (c : command) : WalletChallengeState -> result exn WalletChallengeState :=
  match c with
  | C_presentWalletChallenge => presentWalletChallenge
  | C_recordWalletResponse => recordWalletResponse
  | C_consumeWalletChallenge => consumeWalletChallenge
  | C_rejectWalletResponse => rejectWalletResponse
  | C_expireWalletChallenge => expireWalletChallenge
  end.
#[global] Program Instance WalletChallengeState_lifecycle : Lifecycle WalletChallengeState command := {
  lc_apply := apply;
  lc_commands :=
    [C_presentWalletChallenge; C_recordWalletResponse;
     C_consumeWalletChallenge; C_rejectWalletResponse;
     C_expireWalletChallenge];
  lc_states := WALLET_CHALLENGE_STATES;
}.
Next Obligation. complete_list. Qed.
Next Obligation. complete_list. Qed.
End WalletChallenge.

(** The moves of "wallet_challenge"."state" that packages/db/src/
    verus-link-repository.ts makes in its own UPDATE statements, without a
    command of this package: a presented challenge is consumed (line 315),
    cancelled (441) or expires (232, 369, 427). *)
Definition link_move (old new : string) : bool :=
  String.eqb old "presented" && includes ["consumed"; "cancelled"; "expired"] new.

(** ** packages/domain/src/consent.ts *)
Module Consent.
Inductive ConsentState : Type :=
| pending | acknowledged | withdrawn.
#[global] Instance ConsentState_eq_dec : EqDecision ConsentState.
Proof. solve_decision. Defined.
#[global] Instance ConsentState_name : StateName ConsentState := fun s =>
  match s with
  | pending => "pending" | acknowledged => "acknowledged"
  | withdrawn => "withdrawn"
  end.
Definition CONSENT_STATES : list ConsentState :=
  [pending; acknowledged; withdrawn].

Definition acknowledgeConsent (s : ConsentState) : result exn ConsentState :=
  applyTransition consent "acknowledgeConsent" s [pending] acknowledged.
Definition withdrawConsent (s : ConsentState) : result exn ConsentState :=
  applyTransition consent "withdrawConsent" s [acknowledged] withdrawn.

Inductive command : Type :=
| C_acknowledgeConsent | C_withdrawConsent.
Definition apply (c : command) : ConsentState -> result exn ConsentState :=
  match c with
  | C_acknowledgeConsent => acknowledgeConsent
  | C_withdrawConsent => withdrawConsent
  end.
#[global] Program Instance ConsentState_lifecycle : Lifecycle ConsentState command := {
  lc_apply := apply;
  lc_commands :=
    [C_acknowledgeConsent; C_withdrawConsent];
  lc_states := CONSENT_STATES;
}.
Next Obligation. complete_list. Qed.
Next Obligation. complete_list. Qed.
End Consent.

(** ** packages/domain/src/appeal.ts *)
Module Appeal.
Inductive AppealState : Type :=
| opened | assigned | under_review | upheld | denied | remanded | withdrawn.
#[global] Instance AppealState_eq_dec : EqDecision AppealState.
Proof. solve_decision. Defined.
#[global] Instance AppealState_name : StateName AppealState := fun s =>
  match s with
  | opened => "opened" | assigned => "assigned" | under_review => "under_review"
  | upheld => "upheld" | denied => "denied" | remanded => "remanded"
  | withdrawn => "withdrawn"
  end.
Definition APPEAL_STATES : list AppealState :=
  [opened; assigned; under_review; upheld; denied; remanded; withdrawn].

Definition transition (command : string) (state : AppealState) (expected : list AppealState) (next : AppealState)
  : result exn AppealState :=
  applyTransition appeal command state expected next.

Definition assignAppeal (s : AppealState) : result exn AppealState :=
  transition "assignAppeal" s [opened] assigned.
Definition beginAppealReview (s : AppealState) : result exn AppealState :=
  transition "beginAppealReview" s [assigned] under_review.
Definition upholdAppealCase (s : AppealState) : result exn AppealState :=
  transition "upholdAppealCase" s [under_review] upheld.
Definition denyAppealCase (s : AppealState) : result exn AppealState :=
  transition "denyAppealCase" s [under_review] denied.
Definition remandAppealCase (s : AppealState) : result exn AppealState :=
  transition "remandAppealCase" s [under_review] remanded.
Definition withdrawAppealCase (s : AppealState) : result exn AppealState :=
  transition "withdrawAppealCase" s [opened; assigned; under_review] withdrawn.

Inductive command : Type :=
| C_assignAppeal | C_beginAppealReview | C_upholdAppealCase | C_denyAppealCase |
C_remandAppealCase | C_withdrawAppealCase.
Definition apply (c : command) : AppealState -> result exn AppealState :=
  match c with
  | C_assignAppeal => assignAppeal
  | C_beginAppealReview => beginAppealReview
  | C_upholdAppealCase => upholdAppealCase
  | C_denyAppealCase => denyAppealCase
  | C_remandAppealCase => remandAppealCase
  | C_withdrawAppealCase => withdrawAppealCase
  end.
#[global] Program Instance AppealState_lifecycle : Lifecycle AppealState command := {
  lc_apply := apply;
  lc_commands :=
    [C_assignAppeal; C_beginAppealReview; C_upholdAppealCase;
     C_denyAppealCase; C_remandAppealCase; C_withdrawAppealCase];
  lc_states := APPEAL_STATES;
}.
Next Obligation. complete_list. Qed.
Next Obligation. complete_list. Qed.
End Appeal.

(** ** packages/domain/src/privacy-request.ts *)
Module PrivacyRequest.
Inductive PrivacyRequestState : Type :=
| requested | identity_confirmed | processing | completed | denied | withdrawn.
#[global] Instance PrivacyRequestState_eq_dec : EqDecision PrivacyRequestState.
Proof. solve_decision. Defined.
#[global] Instance PrivacyRequestState_name : StateName PrivacyRequestState := fun s =>
  match s with
  | requested => "requested" | identity_confirmed => "identity_confirmed"
  | processing => "processing" | completed => "completed" | denied => "denied"
  | withdrawn => "withdrawn"
  end.
Definition PRIVACY_REQUEST_STATES : list PrivacyRequestState :=
  [requested; identity_confirmed; processing; completed; denied; withdrawn].

Definition transition (command : string) (state : PrivacyRequestState) (expected : list PrivacyRequestState) (next : PrivacyRequestState)
  : result exn PrivacyRequestState :=
  applyTransition privacy_request command state expected next.

Definition confirmPrivacyRequester (s : PrivacyRequestState) : result exn PrivacyRequestState :=
  transition "confirmPrivacyRequester" s [requested] identity_confirmed.
Definition beginPrivacyRequest (s : PrivacyRequestState) : result exn PrivacyRequestState :=
  transition "beginPrivacyRequest" s [identity_confirmed] processing.
Definition completePrivacyRequest (s : PrivacyRequestState) : result exn PrivacyRequestState :=
  transition "completePrivacyRequest" s [processing] completed.
Definition denyPrivacyRequest (s : PrivacyRequestState) : result exn PrivacyRequestState :=
  transition "denyPrivacyRequest" s [processing] denied.
Definition withdrawPrivacyRequest (s : PrivacyRequestState) : result exn PrivacyRequestState :=
  transition "withdrawPrivacyRequest" s [requested; identity_confirmed; processing] withdrawn.

Inductive command : Type :=
| C_confirmPrivacyRequester | C_beginPrivacyRequest | C_completePrivacyRequest |
C_denyPrivacyRequest | C_withdrawPrivacyRequest.
Definition apply (c : command) : PrivacyRequestState -> result exn PrivacyRequestState :=
  match c with
  | C_confirmPrivacyRequester => confirmPrivacyRequester
  | C_beginPrivacyRequest => beginPrivacyRequest
  | C_completePrivacyRequest => completePrivacyRequest
  | C_denyPrivacyRequest => denyPrivacyRequest
  | C_withdrawPrivacyRequest => withdrawPrivacyRequest
  end.
#[global] Program Instance PrivacyRequestState_lifecycle : Lifecycle PrivacyRequestState command := {
  lc_apply := apply;
  lc_commands :=
    [C_confirmPrivacyRequester; C_beginPrivacyRequest;
     C_completePrivacyRequest; C_denyPrivacyRequest;
     C_withdrawPrivacyRequest];
  lc_states := PRIVACY_REQUEST_STATES;
}.
Next Obligation. complete_list. Qed.
Next Obligation. complete_list. Qed.
End PrivacyRequest.

(** ** packages/domain/src/notification.ts *)
Module Notification.
Inductive NotificationState : Type :=
| pending | claimed | delivered | retryable_failed | terminal_failed |
dead_letter | cancelled.
#[global] Instance NotificationState_eq_dec : EqDecision NotificationState.
Proof. solve_decision. Defined.
#[global] Instance NotificationState_name : StateName NotificationState := fun s =>
  match s with
  | pending => "pending" | claimed => "claimed" | delivered => "delivered"
  | retryable_failed => "retryable_failed" | terminal_failed => "terminal_failed"
  | dead_letter => "dead_letter" | cancelled => "cancelled"
  end.
Definition NOTIFICATION_STATES : list NotificationState :=
  [pending; claimed; delivered; retryable_failed; terminal_failed; dead_letter;
   cancelled].

Definition transition (command : string) (state : NotificationState) (expected : list NotificationState) (next : NotificationState)
  : result exn NotificationState :=
  applyTransition notification command state expected next.

Definition claimNotification (s : NotificationState) : result exn NotificationState :=
  transition "claimNotification" s [pending] claimed.
Definition recordNotificationDelivery (s : NotificationState) : result exn NotificationState :=
  transition "recordNotificationDelivery" s [claimed] delivered.
Definition recordRetryableNotificationFailure (s : NotificationState) : result exn NotificationState :=
  transition "recordRetryableNotificationFailure" s [claimed] retryable_failed.
Definition retryNotification (s : NotificationState) : result exn NotificationState :=
  transition "retryNotification" s [retryable_failed] pending.
Definition recordTerminalNotificationFailure (s : NotificationState) : result exn NotificationState :=
  transition "recordTerminalNotificationFailure" s [claimed] terminal_failed.
Definition deadLetterNotification (s : NotificationState) : result exn NotificationState :=
  transition "deadLetterNotification" s [terminal_failed] dead_letter.
Definition cancelPendingNotification (s : NotificationState) : result exn NotificationState :=
  transition "cancelPendingNotification" s [pending] cancelled.

Inductive command : Type :=
| C_claimNotification | C_recordNotificationDelivery |
C_recordRetryableNotificationFailure | C_retryNotification |
C_recordTerminalNotificationFailure | C_deadLetterNotification |
C_cancelPendingNotification.
Definition apply (c : command) : NotificationState -> result exn NotificationState :=
  match c with
  | C_claimNotification => claimNotification
  | C_recordNotificationDelivery => recordNotificationDelivery
  | C_recordRetryableNotificationFailure => recordRetryableNotificationFailure
  | C_retryNotification => retryNotification
  | C_recordTerminalNotificationFailure => recordTerminalNotificationFailure
  | C_deadLetterNotification => deadLetterNotification
  | C_cancelPendingNotification => cancelPendingNotification
  end.
#[global] Program Instance NotificationState_lifecycle : Lifecycle NotificationState command := {
  lc_apply := apply;
  lc_commands :=
    [C_claimNotification; C_recordNotificationDelivery;
     C_recordRetryableNotificationFailure; C_retryNotification;
     C_recordTerminalNotificationFailure; C_deadLetterNotification;
     C_cancelPendingNotification];
  lc_states := NOTIFICATION_STATES;
}.
Next Obligation. complete_list. Qed.
Next Obligation. complete_list. Qed.
End Notification.

(** ** packages/domain/src/relying-party-client.ts *)
Module RelyingPartyClient.
Inductive RelyingPartyClientState : Type :=
| proposed | security_review | approved | active | suspended | revoked.
#[global] Instance RelyingPartyClientState_eq_dec : EqDecision RelyingPartyClientState.
Proof. solve_decision. Defined.
#[global] Instance RelyingPartyClientState_name : StateName RelyingPartyClientState := fun s =>
  match s with
  | proposed => "proposed" | security_review => "security_review"
  | approved => "approved" | active => "active" | suspended => "suspended"
  | revoked => "revoked"
  end.
Definition RELYING_PARTY_CLIENT_STATES : list RelyingPartyClientState :=
  [proposed; security_review; approved; active; suspended; revoked].

Definition transition (command : string) (state : RelyingPartyClientState) (expected : list RelyingPartyClientState) (next : RelyingPartyClientState)
  : result exn RelyingPartyClientState :=
  applyTransition relying_party_client command state expected next.

Definition beginClientSecurityReview (s : RelyingPartyClientState) : result exn RelyingPartyClientState :=
  transition "beginClientSecurityReview" s [proposed] security_review.
Definition approveRelyingPartyClient (s : RelyingPartyClientState) : result exn RelyingPartyClientState :=
  transition "approveRelyingPartyClient" s [security_review] approved.
Definition activateRelyingPartyClient (s : RelyingPartyClientState) : result exn RelyingPartyClientState :=
  transition "activateRelyingPartyClient" s [approved; suspended] active.
Definition suspendRelyingPartyClient (s : RelyingPartyClientState) : result exn RelyingPartyClientState :=
  transition "suspendRelyingPartyClient" s [active] suspended.
Definition revokeRelyingPartyClient (s : RelyingPartyClientState) : result exn RelyingPartyClientState :=
  transition "revokeRelyingPartyClient" s [approved; active; suspended] revoked.

Inductive command : Type :=
| C_beginClientSecurityReview | C_approveRelyingPartyClient |
C_activateRelyingPartyClient | C_suspendRelyingPartyClient |
C_revokeRelyingPartyClient.
Definition apply (c : command) : RelyingPartyClientState -> result exn RelyingPartyClientState :=
  match c with
  | C_beginClientSecurityReview => beginClientSecurityReview
  | C_approveRelyingPartyClient => approveRelyingPartyClient
  | C_activateRelyingPartyClient => activateRelyingPartyClient
  | C_suspendRelyingPartyClient => suspendRelyingPartyClient
  | C_revokeRelyingPartyClient => revokeRelyingPartyClient
  end.
#[global] Program Instance RelyingPartyClientState_lifecycle : Lifecycle RelyingPartyClientState command := {
  lc_apply := apply;
  lc_commands :=
    [C_beginClientSecurityReview; C_approveRelyingPartyClient;
     C_activateRelyingPartyClient; C_suspendRelyingPartyClient;
     C_revokeRelyingPartyClient];
  lc_states := RELYING_PARTY_CLIENT_STATES;
}.
Next Obligation. complete_list. Qed.
Next Obligation. complete_list. Qed.
End RelyingPartyClient.
