(* ===== verification/Guards.v ===== *)
(** * Guards: the transition triggers of the database.

    packages/db/prisma/migrations/ installs, below the repositories, one
    BEFORE UPDATE trigger per guarded table.  Each is here as the table of
    (OLD, NEW) state pairs its PL/pgSQL body accepts, with the version check
    and the SQLSTATE it raises.  The facts relate each table to the commands
    of packages/domain. *)
From S2P Require Import Prelude Errors Transition Lifecycles.

(** [NOT ( (OLD.state IN os AND NEW.state IN ns) OR ... )] rejects. *)
Definition transition_table {State : Type} `{EqDecision State}
    (rules : list (list State * list State)) (old new : State) : bool :=
  some rules (fun r => includes (fst r) old && includes (snd r) new).

(** [RAISE EXCEPTION] with an error code, first for the version, then for the states. *)
Definition guarded_update (versioned : bool) (accepts : bool) : result exn unit :=
  throwif! negb versioned as! PostgresError "40001" in
  throwif! negb accepts as! PostgresError "23514" in
  Ok tt.

Section tables.
Import Verification.

(** Migration 20260807050000, [cbc_guard_verification_transition]. *)
Definition verification_table : VerificationState -> VerificationState -> bool :=
  transition_table
    [([requested], [scheduled]);
     ([scheduled], [checked_in]);
     ([checked_in], [under_review]);
     ([under_review], [approved; rejected; needs_more_information; withdrawn]);
     ([needs_more_information], [scheduled; rejected; withdrawn]);
     ([approved], [issuance_pending]);
     ([issuance_pending], [issued]);
     ([issued], [active]);
     ([active], [expired; revoked; superseded]);
     ([rejected], [appealed]);
     ([appealed], [appeal_upheld; appeal_denied; appeal_remanded])].
End tables.

Definition cbc_guard_verification_transition (old new : Verification.VerificationState)
    (oldVersion newVersion : Z) : result exn unit :=
  guarded_update (newVersion =? oldVersion + 1)%Z (verification_table old new).

Section tables.
Import Committee.

(** Migration 20260807050000, [cbc_guard_committee_transition]. *)
Definition committee_table : CommitteeState -> CommitteeState -> bool :=
  transition_table
    [([proposed], [forming]);
     ([forming], [policy_review]);
     ([policy_review], [testnet_provisioning]);
     ([testnet_provisioning], [testnet_ready]);
     ([testnet_ready], [pilot_review]);
     ([pilot_review], [pilot_approved]);
     ([pilot_approved], [active; suspended; retired]);
     ([suspended], [active; retired])].
End tables.

Definition cbc_guard_committee_transition (old new : Committee.CommitteeState)
    (oldVersion newVersion : Z) : result exn unit :=
  guarded_update (newVersion =? oldVersion + 1)%Z (committee_table old new).

Section tables.
Import VerusJobState.

(** Migration 20260808030000, [cbc_guard_verus_job_transition]. *)
Definition verus_job_table : VerusJobState -> VerusJobState -> bool :=
  transition_table
    [([pending; retryable_failed; reorg_pending], [claimed]);
     ([claimed], [preflight]);
     ([preflight], [submitted; retryable_failed; terminal_failed]);
     ([submitted], [confirming; retryable_failed; terminal_failed]);
     ([confirming], [readback; retryable_failed; terminal_failed; reorg_pending]);
     ([readback], [verified; retryable_failed; terminal_failed; reorg_pending]);
     ([retryable_failed; reorg_pending], [terminal_failed])].

(** Migration 20260808030000, [cbc_guard_anchor_transition].  The
    [anchor_state] enum has no [claimed] and no [preflight]; its other
    literals are those of the job. *)
Definition anchor_table : VerusJobState -> VerusJobState -> bool :=
  transition_table
    [([pending; retryable_failed; reorg_pending], [submitted; retryable_failed; terminal_failed]);
     ([submitted], [confirming; retryable_failed; terminal_failed]);
     ([confirming], [readback; retryable_failed; terminal_failed; reorg_pending]);
     ([readback], [verified; retryable_failed; terminal_failed; reorg_pending]);
     ([retryable_failed], [terminal_failed])].
End tables.

Definition cbc_guard_verus_job_transition (old new : VerusJobState.VerusJobState)
    (oldVersion newVersion : Z) : result exn unit :=
  guarded_update (newVersion =? oldVersion + 1)%Z (verus_job_table old new).

Definition cbc_guard_anchor_transition (old new : VerusJobState.VerusJobState)
    (oldVersion newVersion : Z) : result exn unit :=
  guarded_update (newVersion =? oldVersion + 1)%Z (anchor_table old new).

(** The [outbox_state] enum and migration 20260807050000,
    [cbc_guard_outbox_transition] (it has no version column). *)
Module OutboxState.
Inductive OutboxState : Type :=
| pending | claimed | succeeded | retryable_failed | terminal_failed | dead_letter.
#[global] Instance OutboxState_eq_dec : EqDecision OutboxState.
Proof. solve_decision. Defined.
#[global] Instance OutboxState_name : StateName OutboxState := fun s =>
  match s with
  | pending => "pending" | claimed => "claimed" | succeeded => "succeeded"
  | retryable_failed => "retryable_failed" | terminal_failed => "terminal_failed"
  | dead_letter => "dead_letter"
  end.

Definition outbox_table : OutboxState -> OutboxState -> bool :=
  fun old new => bool_decide (old = new) ||
  transition_table
    [([pending; retryable_failed], [claimed]);
     ([claimed], [succeeded; retryable_failed; terminal_failed; dead_letter])] old new.
End OutboxState.

Definition cbc_guard_outbox_transition (old new : OutboxState.OutboxState) : result exn unit :=
  guarded_update true (OutboxState.outbox_table old new).

Lemma guarded_update_ok v a u : guarded_update v a = Ok u <-> v = true /\ a = true.
Proof. unfold guarded_update. destruct u, v, a; simpl; naive_solver. Qed.

(** ** The triggers against the commands of packages/domain *)

(** Decide a statement about two states of a lifecycle by evaluation. *)
Ltac by_table := intros s s'; rewrite <- stepb_spec; destruct s, s'; vm_compute; intuition congruence.

Lemma verification_table_step (s s' : Verification.VerificationState) :
  verification_table s s' = true <-> step s s'.
Proof. revert s s'. by_table. Qed.

Lemma committee_table_step (s s' : Committee.CommitteeState) :
  committee_table s s' = true <-> step s s'.
Proof. revert s s'. by_table. Qed.

(** The database accepts an update of a verification request exactly when
    the version grows by one and some domain command leads from the old to
    the new state: the defence in depth is neither weaker nor stronger than
    the domain. *)
Theorem verification_guard_agrees (old new : Verification.VerificationState) (ov nv : Z) :
  cbc_guard_verification_transition old new ov nv = Ok tt <->
  nv = (ov + 1)%Z /\ exists c, Verification.apply c old = Ok new.
Proof.
  unfold cbc_guard_verification_transition. rewrite guarded_update_ok, Z.eqb_eq.
  rewrite verification_table_step. split; intros [-> Hs]; (split; [done|]).
  - destruct Hs as [c Hc]. by exists c.
  - destruct Hs as [c Hc]. by exists c.
Qed.

(** The committee trigger accepts exactly the version-incrementing
    moves of the committee commands. *)
Theorem committee_guard_agrees (old new : Committee.CommitteeState) (ov nv : Z) :
  cbc_guard_committee_transition old new ov nv = Ok tt <->
  nv = (ov + 1)%Z /\ exists c, Committee.apply c old = Ok new.
Proof.
  unfold cbc_guard_committee_transition. rewrite guarded_update_ok, Z.eqb_eq.
  rewrite committee_table_step. split; intros [-> Hs]; (split; [done|]).
  - destruct Hs as [c Hc]. by exists c.
  - destruct Hs as [c Hc]. by exists c.
Qed.

(** The job trigger accepts the moves of the domain commands and one
    more, the dead-lettering of a reorganised job, which no command of
    packages/domain makes (VerusJobRepository.markDeadLetter does). *)
Theorem verus_job_guard_agrees (old new : VerusJobState.VerusJobState) (ov nv : Z) :
  cbc_guard_verus_job_transition old new ov nv = Ok tt <->
  nv = (ov + 1)%Z /\
  ((exists c, VerusJobState.apply c old = Ok new) \/
   (old = VerusJobState.reorg_pending /\ new = VerusJobState.terminal_failed)).
Proof.
  assert (Hstep : step old new <-> exists c, VerusJobState.apply c old = Ok new).
  { split; [intros [c Hc]; by exists c | intros [c Hc]; by exists c]. }
  unfold cbc_guard_verus_job_transition. rewrite guarded_update_ok, Z.eqb_eq, <- Hstep.
  apply and_iff_compat_l. rewrite <- stepb_spec.
  destruct old, new; vm_compute; intuition congruence.
Qed.
