(* ===== verification/LifecycleFacts.v ===== *)
(** * LifecycleFacts: what the lifecycles of packages/domain guarantee.

    Order of the stages on the way to an active attestation, terminal and
    irrevocable states, and bounded runs. *)
From S2P Require Import Prelude Errors Transition Lifecycles.

(** One stage: leaving [I] on the way to [target] means reaching [x]. *)
Ltac path_stage I x target :=
  apply (path_stages I x _ _ target);
  [vm_compute; reflexivity | done | done | clear; intros ? ? | eassumption].

Section verification.
Import Verification.

Definition at_state (x : VerificationState) (s : VerificationState) : bool := bool_decide (s = x).

(** The states a request can be in before an approval. *)
Definition undecided (s : VerificationState) : bool :=
  negb (includes [approved; issuance_pending; issued; active; expired; revoked; superseded] s).

(** "No route may skip directly": every run of commands that takes a
    request from [requested] to [active] visits scheduling, check-in,
    review, approval, the pending issuance and the issuance, in that
    order. *)
Theorem verification_stages (l : list VerificationState) :
  path requested l active ->
  [requested; scheduled; checked_in; under_review; approved; issuance_pending; issued; active]
    `sublist_of` l.
Proof.
  intros Hp.
  path_stage (at_state requested) scheduled active. path_stage (at_state scheduled) checked_in active.
  path_stage (at_state checked_in) under_review active. path_stage undecided approved active.
  path_stage (at_state approved) issuance_pending active. path_stage (at_state issuance_pending) issued active.
  path_stage (at_state issued) active active.
  destruct (path_head _ _ _ ltac:(eassumption)) as [l' ->].
  apply sublist_skip, sublist_nil_l.
Qed.
End verification.

(** A concrete run, by evaluation of each command. *)
Ltac run_path :=
  repeat match goal with
  | |- path _ (_ :: ?b :: _) _ =>
      apply (path_cons _ b); [apply stepb_spec; vm_compute; reflexivity|]
  end; apply path_nil.

(** A request sent back once for more information before its approval. *)
Definition sample_run : list Verification.VerificationState :=
  [Verification.requested; Verification.scheduled; Verification.checked_in;
   Verification.under_review; Verification.needs_more_information; Verification.scheduled;
   Verification.checked_in; Verification.under_review; Verification.approved;
   Verification.issuance_pending; Verification.issued; Verification.active].

Lemma sample_run_path : path Verification.requested sample_run Verification.active.
Proof. unfold sample_run. run_path. Qed.

Lemma verification_stages_witness :
  path Verification.requested sample_run Verification.active /\
  [Verification.requested; Verification.scheduled; Verification.checked_in;
   Verification.under_review; Verification.approved; Verification.issuance_pending;
   Verification.issued; Verification.active] `sublist_of` sample_run.
Proof. exact (conj sample_run_path (verification_stages sample_run sample_run_path)). Defined.

Section terminal_states.
Import Verification.

(** The lifecycle of a verification ends in exactly seven states; from
    any of them every command throws, so an expired, revoked or superseded
    attestation never becomes active again, and a state outside the list
    always has a command that moves it. *)
Theorem verification_terminal (s : VerificationState) :
  (terminal s <->
   s ∈ [withdrawn; expired; revoked; superseded; appeal_upheld; appeal_denied; appeal_remanded]) /\
  (terminal s -> forall s', reachable s s' -> s' = s).
Proof.
  split; [|intros; by eapply terminal_reachable].
  rewrite <- terminalb_spec, <- includes_true. by destruct s.
Qed.
End terminal_states.

Lemma verification_terminal_witness :
  terminal Verification.revoked /\
  (forall s', reachable Verification.revoked s' -> s' = Verification.revoked).
Proof.
  assert (Ht : terminal Verification.revoked)
    by (apply terminalb_spec; vm_compute; reflexivity).
  exact (conj Ht (proj2 (verification_terminal Verification.revoked) Ht)).
Defined.

(** ** Ranks of the lifecycles without a cycle *)

Definition committee_rank (s : Committee.CommitteeState) : nat :=
  match s with
  | Committee.proposed => 0 | Committee.forming => 1 | Committee.policy_review => 2
  | Committee.testnet_provisioning => 3 | Committee.testnet_ready => 4
  | Committee.pilot_review => 5 | Committee.pilot_approved => 6 | Committee.suspended => 7
  | Committee.active => 8 | Committee.retired => 8
  end.

Definition renewal_rank (s : RenewalCycle.RenewalCycleState) : nat :=
  match s with
  | RenewalCycle.draft => 0 | RenewalCycle.snapshot_committed => 1
  | RenewalCycle.selection_pending => 2 | RenewalCycle.selection_ready => 3
  | RenewalCycle.notices_pending => 4 | RenewalCycle.in_progress => 5
  | RenewalCycle.reporting => 6 | RenewalCycle.published => 7 | RenewalCycle.cancelled => 7
  end.

Definition wallet_rank (s : WalletChallenge.WalletChallengeState) : nat :=
  match s with
  | WalletChallenge.created => 0 | WalletChallenge.presented => 1
  | WalletChallenge.response_received => 2
  | WalletChallenge.consumed | WalletChallenge.expired | WalletChallenge.rejected => 3
  end.

Definition appeal_rank (s : Appeal.AppealState) : nat :=
  match s with
  | Appeal.opened => 0 | Appeal.assigned => 1 | Appeal.under_review => 2
  | Appeal.upheld | Appeal.denied | Appeal.remanded | Appeal.withdrawn => 3
  end.

Definition privacy_rank (s : PrivacyRequest.PrivacyRequestState) : nat :=
  match s with
  | PrivacyRequest.requested => 0 | PrivacyRequest.identity_confirmed => 1
  | PrivacyRequest.processing => 2
  | PrivacyRequest.completed | PrivacyRequest.denied | PrivacyRequest.withdrawn => 3
  end.

(** A ranked lifecycle whose rank is at most [n] runs at most [n] commands. *)
Lemma ranked_runs {State Command : Type} `{EqDecision State} `{Lifecycle State Command}
    (rank : State -> nat) n s l s' :
  ranked rank = true -> rank s' <= n -> path s l s' -> length l <= S n.
Proof. intros Hr Hn Hp. pose proof (ranked_path_length rank s l s' Hr Hp). lia. Qed.

(** Termination of the lifecycles without a retry loop: whatever commands
    are issued, a committee accepts at most eight of them, a renewal cycle
    seven, a wallet challenge, an appeal and a privacy request three each. *)
Theorem bounded_runs :
  (forall s l s', path (State := Committee.CommitteeState) s l s' -> length l <= 9) /\
  (forall s l s', path (State := RenewalCycle.RenewalCycleState) s l s' -> length l <= 8) /\
  (forall s l s', path (State := WalletChallenge.WalletChallengeState) s l s' -> length l <= 4) /\
  (forall s l s', path (State := Appeal.AppealState) s l s' -> length l <= 4) /\
  (forall s l s', path (State := PrivacyRequest.PrivacyRequestState) s l s' -> length l <= 4).
Proof.
  split_and!; intros s l s'.
  - apply (ranked_runs committee_rank); [done|destruct s'; simpl; lia].
  - apply (ranked_runs renewal_rank); [done|destruct s'; simpl; lia].
  - apply (ranked_runs wallet_rank); [done|destruct s'; simpl; lia].
  - apply (ranked_runs appeal_rank); [done|destruct s'; simpl; lia].
  - apply (ranked_runs privacy_rank); [done|destruct s'; simpl; lia].
Qed.

(** A challenge is consumed only after it was presented and answered. *)
Lemma wallet_challenge_stages (l : list WalletChallenge.WalletChallengeState) :
  path WalletChallenge.created l WalletChallenge.consumed ->
  [WalletChallenge.created; WalletChallenge.presented; WalletChallenge.response_received;
   WalletChallenge.consumed] `sublist_of` l.
Proof.
  intros Hp.
  path_stage (includes [WalletChallenge.created; WalletChallenge.expired]) WalletChallenge.presented
    WalletChallenge.consumed.
  path_stage (includes [WalletChallenge.presented; WalletChallenge.expired])
    WalletChallenge.response_received WalletChallenge.consumed.
  path_stage (includes [WalletChallenge.response_received; WalletChallenge.rejected])
    WalletChallenge.consumed WalletChallenge.consumed.
  destruct (path_head _ _ _ ltac:(eassumption)) as [l' ->].
  apply sublist_skip, sublist_nil_l.
Qed.
