(* ===== verification/Attestation.v ===== *)
(** * Attestation: validity, status and public projection.

    packages/domain/src/attestation.ts, public-projection.ts and
    reviewer-eligibility.ts, and the database's own status function,
    [cbc_attestation_status_at] (migration 20260807050000), which
    AttestationRepository.statusAt calls. *)
From stdpp Require Import pretty.
From S2P Require Import Prelude Errors Transition.
Local Open Scope Z_scope.

(** ** attestation.ts *)

Definition MAX_ATTESTATION_VALIDITY_DAYS : Z := 45.
Definition MAX_ATTESTATION_VALIDITY_MS : Z := MAX_ATTESTATION_VALIDITY_DAYS * 24 * 60 * 60 * 1000.

Record AttestationValidity : Type := {
  version : jsnumber;
  validFrom : jsdate;
  expiresAt : jsdate;
  supersedesReference : option string;
}.

Definition invalid {A : Type} (message : string) : result exn A :=
  Err (InvalidAttestationValidityError message).

(** [Object.freeze] fixes the value it returns; it has no other effect. *)
Definition createAttestationValidity (input : AttestationValidity) : result exn AttestationValidity :=
  throwif! negb (isInteger (version input)) || ltNum (version input) 1
    as! InvalidAttestationValidityError "attestation version must be a positive integer" in
  match validFrom input, expiresAt input with
  | Some validFromMs, Some expiresAtMs =>
    throwif! expiresAtMs <=? validFromMs
      as! InvalidAttestationValidityError "attestation expiry must follow its validity start" in
    throwif! MAX_ATTESTATION_VALIDITY_MS <? expiresAtMs - validFromMs
      as! InvalidAttestationValidityError "attestation validity cannot exceed 45 days" in
    throwif! gtNum (version input) 1 && negb (truthy (supersedesReference input))
      as! InvalidAttestationValidityError
            "a renewed attestation version must reference the attestation it supersedes" in
    Ok {| version := version input;
          validFrom := newDate validFromMs;
          expiresAt := newDate expiresAtMs;
          supersedesReference :=
            if truthy (supersedesReference input) then supersedesReference input else None |}
  | _, _ => invalid "attestation validity requires finite timestamps"
  end.

Inductive CanonicalAttestationStatus : Type := active | expired | revoked | superseded | unavailable.
#[global] Instance CanonicalAttestationStatus_eq_dec : EqDecision CanonicalAttestationStatus.
Proof. solve_decision. Defined.

Record AttestationStatusInput : Type := {
  validity : AttestationValidity;
  issuanceComplete : bool;
  revokedAt : option jsdate;
  supersededAt : option jsdate;
}.

(** [d && d.getTime() <= nowMs]: absent dates and NaN compare false. *)
Definition effectiveBy (d : option jsdate) (nowMs : Z) : bool :=
  match d with Some (Some t) => t <=? nowMs | _ => false end.

(** The two timestamps below are finite once the validity was accepted. *)
Definition beforeStart (nowMs : Z) (d : jsdate) : bool :=
  match d with Some t => nowMs <? t | None => false end.
Definition atOrAfter (nowMs : Z) (d : jsdate) : bool :=
  match d with Some t => t <=? nowMs | None => false end.

Definition attestationStatusAt (input : AttestationStatusInput) (now : jsdate)
  : result exn CanonicalAttestationStatus :=
  let! _ := createAttestationValidity (validity input) in
  match now with
  | None => invalid "status clock must be a finite timestamp"
  | Some nowMs => Ok (
      if negb (issuanceComplete input) || beforeStart nowMs (validFrom (validity input))
      then unavailable
      else if effectiveBy (revokedAt input) nowMs then revoked
      else if effectiveBy (supersededAt input) nowMs then superseded
      else if atOrAfter nowMs (expiresAt (validity input)) then expired else active)
  end.

(** ** public-projection.ts *)

(** [Date.prototype.toISOString] on a finite time: days are converted to the
    civil calendar (eras of 400 years), the fields are zero-padded. *)
Definition padded (width : nat) (n : Z) : string :=
  let digits := pretty n in
  String.append (String.concat "" (replicate (width - String.length digits) "0")) digits.

Definition civil (days : Z) : Z * Z * Z :=
  let z := days + 719468 in
  let era := z / 146097 in
  let doe := z mod 146097 in
  let yoe := (doe - doe / 1460 + doe / 36524 - doe / 146096) / 365 in
  let doy := doe - (365 * yoe + yoe / 4 - yoe / 100) in
  let mp := (5 * doy + 2) / 153 in
  let d := doy - (153 * mp + 2) / 5 + 1 in
  let m := if mp <? 10 then mp + 3 else mp - 9 in
  (yoe + era * 400 + (if m <=? 2 then 1 else 0), m, d).

Definition isoYear (y : Z) : string :=
  if (0 <=? y) && (y <=? 9999) then padded 4 y
  else if y <? 0 then String.append "-" (padded 6 (- y)) else String.append "+" (padded 6 y).

Definition isoString (t : Z) : string :=
  let '(y, m, d) := civil (t / 86400000) in
  let ms := t mod 86400000 in
  String.concat "" [isoYear y; "-"; padded 2 m; "-"; padded 2 d; "T"; padded 2 (ms / 3600000);
    ":"; padded 2 (ms / 60000 mod 60); ":"; padded 2 (ms / 1000 mod 60); ".";
    padded 3 (ms mod 1000); "Z"].

Definition toISOString (d : jsdate) : result exn string :=
  match d with Some t => Ok (isoString t) | None => Err (RangeError "Invalid time value") end.

Example toISOString_2030 : toISOString (Some 1893456000000) = Ok "2030-01-01T00:00:00.000Z".
Proof. vm_compute. reflexivity. Qed.

Example toISOString_leap : toISOString (Some 951782399999) = Ok "2000-02-28T23:59:59.999Z".
Proof. vm_compute. reflexivity. Qed.

(** The source carries the status input and the public references; the
    [internal] fields stand for whatever else the object holds. *)
Record InternalAttestationProjectionSource : Type := {
  statusInput : AttestationStatusInput;
  src_opaqueReference : string;
  src_issuerReference : string;
  src_policyVersionReferences : list string;
  internal : list (string * string);
}.

Record PublicAttestationProjection : Type := {
  opaqueReference : string;
  status : CanonicalAttestationStatus;
  attestationType : string;
  issuerReference : string;
  projectedValidFrom : string;
  projectedExpiresAt : string;
  policyVersionReferences : list string;
}.

Definition projectPublicAttestation (source : InternalAttestationProjectionSource) (now : jsdate)
  : result exn PublicAttestationProjection :=
  let! st := attestationStatusAt (statusInput source) now in
  let! from := toISOString (validFrom (validity (statusInput source))) in
  let! until := toISOString (expiresAt (validity (statusInput source))) in
  Ok {| opaqueReference := src_opaqueReference source;
        status := st;
        attestationType := "human_presence";
        issuerReference := src_issuerReference source;
        projectedValidFrom := from;
        projectedExpiresAt := until;
        policyVersionReferences := src_policyVersionReferences source |}.

(** ** reviewer-eligibility.ts *)

Record ReviewerAuthorizationDecision : Type := {
  actorReference : string;
  actorCommitteeReference : string;
  targetCommitteeReference : string;
  authorized : bool;
  conflicted : bool;
  policyVersionReference : string;
}.

Record EligibleReviewer : Type := {
  eligible_actorReference : string;
  eligible_committeeReference : string;
  eligible_policyVersionReference : string;
}.

Definition requireEligibleReviewer (decision : ReviewerAuthorizationDecision)
  : result exn EligibleReviewer :=
  throwif! negb (String.eqb (actorCommitteeReference decision) (targetCommitteeReference decision))
    as! ReviewerIneligibleError CROSS_COMMITTEE_REVIEW in
  throwif! negb (authorized decision) as! ReviewerIneligibleError REVIEWER_NOT_AUTHORIZED in
  throwif! conflicted decision as! ReviewerIneligibleError REVIEWER_CONFLICTED in
  throwif! falsy_string (policyVersionReference decision)
    as! ReviewerIneligibleError REVIEWER_NOT_AUTHORIZED in
  Ok {| eligible_actorReference := actorReference decision;
        eligible_committeeReference := targetCommitteeReference decision;
        eligible_policyVersionReference := policyVersionReference decision |}.

(** ** The database's status function *)

(** Rows of "attestation" and "attestation_revocation" (times in ms). *)
Inductive attestation_state : Type := st_issued | st_active | st_expired | st_revoked | st_superseded.
#[global] Instance attestation_state_eq_dec : EqDecision attestation_state.
Proof. solve_decision. Defined.

Record AttestationTableRow : Type := {
  a_id : string;
  a_external_reference : string;
  a_committee_id : string;
  a_participant_id : string;
  a_request_id : string;
  a_policy_version_id : string;
  a_version : Z;
  a_state : attestation_state;
  a_valid_from : Z;
  a_expires_at : Z;
  a_issuance_complete : bool;
  a_supersedes_id : option string;
}.

Record RevocationRow : Type := { rv_attestation_id : string; rv_effective_at : Z }.

(** CHECK attestation_version_positive, _validity_window, _renewal_reference. *)
Definition attestation_checks (a : AttestationTableRow) : bool :=
  (0 <? a_version a)
  && ((a_valid_from a <? a_expires_at a)
      && (a_expires_at a <=? a_valid_from a + 45 * 86400000))
  && (((a_version a =? 1) && bool_decide (a_supersedes_id a = None))
      || ((1 <? a_version a) && negb (bool_decide (a_supersedes_id a = None)))).

(** The two LEFT JOINs; the unique indexes on "attestation_id" and
    "supersedes_id" leave at most one row each. *)
Definition revocation_of (revocations : list RevocationRow) (id : string) : option RevocationRow :=
  List.find (fun r => String.eqb (rv_attestation_id r) id) revocations.

Definition successor_of (attestations : list AttestationTableRow) (id : string)
  : option AttestationTableRow :=
  List.find (fun s => bool_decide (a_supersedes_id s = Some id) && a_issuance_complete s
                      && bool_decide (a_state s = st_active)) attestations.

Definition cbc_attestation_status_at (attestations : list AttestationTableRow)
    (revocations : list RevocationRow) (attestation_uuid : string) (observed_at : Z)
  : option CanonicalAttestationStatus :=
  match List.find (fun a => String.eqb (a_id a) attestation_uuid) attestations with
  | None => None
  | Some a => Some (
      if negb (a_issuance_complete a) || (observed_at <? a_valid_from a) then unavailable
      else if effectiveBy (Some ∘ rv_effective_at <$> revocation_of revocations (a_id a)) observed_at
      then revoked
      else if effectiveBy (Some ∘ a_valid_from <$> successor_of attestations (a_id a)) observed_at
      then superseded
      else if a_expires_at a <=? observed_at then expired else active)
  end.

(** ** Facts: validity *)

(** What an accepted validity satisfies. *)
Definition valid_window (v : AttestationValidity) : Prop :=
  exists n f u, version v = Int n /\ validFrom v = Some f /\ expiresAt v = Some u /\
    1 <= n /\ f < u <= f + 45 * 86400000 /\ (1 < n -> truthy (supersedesReference v) = true).

Lemma createAttestationValidity_accepts (v : AttestationValidity) :
  is_ok (createAttestationValidity v) = true <-> valid_window v.
Proof.
  unfold createAttestationValidity, valid_window, throwIf, invalid.
  destruct v as [ver from until sup]; simpl.
  destruct ver as [n|n|]; simpl; [|split; [done|intros (?&?&?&?&_); done]..].
  destruct (Z.ltb_spec n 1); simpl.
  { split; [done|]. intros (n' & f & u & ? & ? & ? & ? & _). simplify_eq. lia. }
  destruct from as [f|], until as [u|]; simpl;
    try (split; [done|intros (?&?&?&?&?&?&_); done]).
  destruct (Z.leb_spec u f); simpl.
  { split; [done|]. intros (n' & f' & u' & ? & ? & ? & ? & ? & ?). simplify_eq. lia. }
  unfold MAX_ATTESTATION_VALIDITY_MS, MAX_ATTESTATION_VALIDITY_DAYS.
  destruct (Z.ltb_spec (45 * 24 * 60 * 60 * 1000) (u - f)); simpl.
  { split; [done|]. intros (n' & f' & u' & ? & ? & ? & ? & ? & ?). simplify_eq. lia. }
  destruct (Z.ltb_spec 1 n), (truthy sup) eqn:?; simpl;
    (split; [intros; try done; exists n, f, u; split_and!; auto; lia |]); try done.
  intros (n' & f' & u' & ? & ? & ? & ? & ? & Hsup). simplify_eq. by specialize (Hsup ltac:(lia)).
Qed.

Lemma createAttestationValidity_value (v : AttestationValidity) r :
  createAttestationValidity v = Ok r ->
  version r = version v /\
  (exists f u, validFrom v = Some f /\ expiresAt v = Some u /\
     validFrom r = newDate f /\ expiresAt r = newDate u).
Proof.
  unfold createAttestationValidity. destruct v as [ver from until sup]; simpl. intros Hr.
  inv_ok. destruct from as [f|], until as [u|]; try discriminate. inv_ok. simpl. eauto 10.
Qed.

(** The status of an accepted input, as one value. *)
Definition status_value (input : AttestationStatusInput) (nowMs : Z) : CanonicalAttestationStatus :=
  if negb (issuanceComplete input) || beforeStart nowMs (validFrom (validity input))
  then unavailable
  else if effectiveBy (revokedAt input) nowMs then revoked
  else if effectiveBy (supersededAt input) nowMs then superseded
  else if atOrAfter nowMs (expiresAt (validity input)) then expired else active.

Lemma attestationStatusAt_ok (input : AttestationStatusInput) (now : jsdate) st :
  attestationStatusAt input now = Ok st <->
  valid_window (validity input) /\ exists nowMs, now = Some nowMs /\ st = status_value input nowMs.
Proof.
  rewrite <- createAttestationValidity_accepts. unfold attestationStatusAt, status_value.
  destruct (createAttestationValidity (validity input)); simpl; [|naive_solver].
  destruct now; unfold invalid; naive_solver.
Qed.

Lemma effectiveBy_mono d t1 t2 : t1 <= t2 -> effectiveBy d t1 = true -> effectiveBy d t2 = true.
Proof. destruct d as [[d|]|]; simpl; [rewrite !Z.leb_le; lia|done..]. Qed.

(** ** Properties *)

(** An attestation is reported [active] exactly when issuance completed,
    the clock lies in its window, the window is an accepted one (which bounds
    it by 45 days) and no revocation or supersession has taken effect. *)
Theorem attestation_active_iff (input : AttestationStatusInput) (nowMs : Z) :
  attestationStatusAt input (Some nowMs) = Ok active <->
  valid_window (validity input) /\ issuanceComplete input = true /\
  (exists f u, validFrom (validity input) = Some f /\ expiresAt (validity input) = Some u /\
     f <= nowMs < u /\ nowMs < f + 45 * 86400000) /\
  effectiveBy (revokedAt input) nowMs = false /\ effectiveBy (supersededAt input) nowMs = false.
Proof.
  rewrite attestationStatusAt_ok. unfold status_value. split.
  - intros [Hw (n' & [= <-] & Hst)]. pose proof Hw as (n & f & u & _ & Hf & Hu & _ & Hfu & _).
    rewrite Hf, Hu in Hst. simpl in Hst.
    destruct (issuanceComplete input), (Z.ltb_spec nowMs f), (effectiveBy (revokedAt input) nowMs),
      (effectiveBy (supersededAt input) nowMs), (Z.leb_spec u nowMs); simpl in Hst; try discriminate.
    split_and!; auto. exists f, u. split_and!; auto; lia.
  - intros (Hw & Hi & (f & u & Hf & Hu & Hb & _) & Hr & Hs). split; [done|].
    exists nowMs. split; [done|]. rewrite Hi, Hr, Hs, Hf, Hu. simpl.
    destruct (Z.ltb_spec nowMs f), (Z.leb_spec u nowMs); simpl; auto; lia.
Qed.

(** The order in which a status can only move forward. *)
Definition status_ended (s : CanonicalAttestationStatus) : bool :=
  match s with expired | revoked | superseded => true | active | unavailable => false end.

(** Once an attestation reads as revoked, superseded or expired, no later
    clock reads it as active or unavailable again (for unchanged inputs), and
    a revocation is final. *)
Theorem attestation_ended_forever (input : AttestationStatusInput) (t1 t2 : Z) s1 s2 :
  attestationStatusAt input (Some t1) = Ok s1 -> attestationStatusAt input (Some t2) = Ok s2 ->
  t1 <= t2 -> status_ended s1 = true ->
  status_ended s2 = true /\ (s1 = revoked -> s2 = revoked).
Proof.
  rewrite !attestationStatusAt_ok. intros [Hw (? & [= <-] & ->)] [_ (? & [= <-] & ->)] Ht.
  destruct Hw as (n & f & u & _ & Hf & Hu & _). unfold status_value. rewrite Hf, Hu. simpl.
  destruct (issuanceComplete input); simpl; [|done].
  destruct (Z.ltb_spec t1 f), (Z.ltb_spec t2 f); simpl; try done; try lia.
  pose proof (effectiveBy_mono (revokedAt input) t1 t2 Ht) as Hr.
  pose proof (effectiveBy_mono (supersededAt input) t1 t2 Ht) as Hs.
  destruct (effectiveBy (revokedAt input) t1), (effectiveBy (revokedAt input) t2); simpl;
    try (by specialize (Hr eq_refl)); auto;
  destruct (effectiveBy (supersededAt input) t1), (effectiveBy (supersededAt input) t2); simpl;
    try (by specialize (Hs eq_refl)); auto;
  destruct (Z.leb_spec u t1), (Z.leb_spec u t2); simpl; auto; try done; lia.
Qed.

(** ** Revoking a successor *)

(** [UPDATE "attestation" SET "state" = $1 WHERE "id" = $3], as
    AttestationRepository.updateAttestationAndRequest runs it. *)
Definition set_state (st : attestation_state) (id : string) (a : AttestationTableRow)
  : AttestationTableRow :=
  if String.eqb (a_id a) id
  then {| a_id := a_id a; a_external_reference := a_external_reference a;
          a_committee_id := a_committee_id a; a_participant_id := a_participant_id a;
          a_request_id := a_request_id a; a_policy_version_id := a_policy_version_id a;
          a_version := a_version a; a_state := st; a_valid_from := a_valid_from a;
          a_expires_at := a_expires_at a; a_issuance_complete := a_issuance_complete a;
          a_supersedes_id := a_supersedes_id a |}
  else a.

Lemma set_state_fields st id a :
  a_id (set_state st id a) = a_id a /\ a_supersedes_id (set_state st id a) = a_supersedes_id a.
Proof. unfold set_state. by destruct (String.eqb (a_id a) id). Qed.

Lemma find_map_id {A : Type} (p : A -> bool) (f : A -> A) (l : list A) x :
  (forall y, p (f y) = p y) -> List.find p l = Some x -> List.find p (f <$> l) = Some (f x).
Proof.
  intros Hp. induction l as [|y l IH]; simpl; [done|]. rewrite Hp.
  destruct (p y); naive_solver.
Qed.

(** Supersession lasts only as long as the successor stays active: when
    the successor of a superseded attestation is revoked (or expires), the
    database's status function reports the predecessor [active] again until
    its own expiry. *)
Theorem predecessor_reactivated (attestations : list AttestationTableRow)
    (revocations : list RevocationRow) (a s : AttestationTableRow) (st : attestation_state) (t : Z) :
  List.find (fun x => String.eqb (a_id x) (a_id a)) attestations = Some a ->
  (forall x, x ∈ attestations -> a_supersedes_id x = Some (a_id a) -> a_id x = a_id s) ->
  a_id s <> a_id a -> st = st_revoked \/ st = st_expired -> t < a_expires_at a ->
  cbc_attestation_status_at attestations revocations (a_id a) t = Some superseded ->
  cbc_attestation_status_at (set_state st (a_id s) <$> attestations) revocations (a_id a) t
  = Some active.
Proof.
  intros Hfind Huniq Hne Hst Ht. unfold cbc_attestation_status_at. rewrite Hfind.
  rewrite (find_map_id _ (set_state st (a_id s)) _ a);
    [| intros y; by rewrite (proj1 (set_state_fields _ _ _)) | done].
  assert (Hsa : set_state st (a_id s) a = a).
  { unfold set_state. by destruct (String.eqb_spec (a_id a) (a_id s)); [congruence|]. }
  rewrite Hsa.
  assert (Hnone : successor_of (set_state st (a_id s) <$> attestations) (a_id a) = None).
  { unfold successor_of.
    destruct (List.find _ (set_state _ _ <$> _)) as [x|] eqn:Hx; [|done].
    apply find_some in Hx as [Hin Hp]. rewrite <- list_elem_of_In in Hin.
    apply list_elem_of_fmap in Hin as (y & -> & Hy).
    rewrite !andb_true_iff, !bool_decide_eq_true in Hp. destruct Hp as [[Hsup _] Hact].
    rewrite (proj2 (set_state_fields _ _ _)) in Hsup. apply Huniq in Hsup; [|done].
    unfold set_state in Hact. rewrite Hsup, String.eqb_refl in Hact. simpl in Hact.
    destruct Hst; congruence. }
  rewrite Hnone. simpl. destruct (_ || _); [done|]. destruct (effectiveBy _ t); [done|].
  destruct (effectiveBy _ t); destruct (Z.leb_spec (a_expires_at a) t); try done; lia.
Qed.

(** A reviewer decision is admitted exactly for an authorised,
    unconflicted reviewer of the target's own committee acting under a named
    policy version, and the admitted reviewer is bound to that committee. *)
Theorem reviewer_admitted_iff (d : ReviewerAuthorizationDecision) (r : EligibleReviewer) :
  requireEligibleReviewer d = Ok r <->
  actorCommitteeReference d = targetCommitteeReference d /\ authorized d = true /\
  conflicted d = false /\ policyVersionReference d <> "" /\
  r = {| eligible_actorReference := actorReference d;
         eligible_committeeReference := actorCommitteeReference d;
         eligible_policyVersionReference := policyVersionReference d |}.
Proof.
  unfold requireEligibleReviewer, throwIf, falsy_string.
  destruct (String.eqb_spec (actorCommitteeReference d) (targetCommitteeReference d)) as [->|];
    simpl; [|naive_solver].
  destruct (authorized d), (conflicted d), (String.eqb_spec (policyVersionReference d) "");
    simpl; naive_solver.
Qed.

(** A public projection exists exactly when the status does; it reports
    that status and the window's instants, and it is the same whatever the
    source object's internal fields hold. *)
Theorem projection_public (src src' : InternalAttestationProjectionSource) (now : jsdate)
    (p : PublicAttestationProjection) :
  statusInput src = statusInput src' -> src_opaqueReference src = src_opaqueReference src' ->
  src_issuerReference src = src_issuerReference src' ->
  src_policyVersionReferences src = src_policyVersionReferences src' ->
  projectPublicAttestation src now = projectPublicAttestation src' now /\
  is_ok (projectPublicAttestation src now) = is_ok (attestationStatusAt (statusInput src) now) /\
  (projectPublicAttestation src now = Ok p ->
   attestationStatusAt (statusInput src) now = Ok (status p) /\
   (exists f u, validFrom (validity (statusInput src)) = Some f /\
      expiresAt (validity (statusInput src)) = Some u /\
      projectedValidFrom p = isoString f /\ projectedExpiresAt p = isoString u)).
Proof.
  intros H1 H2 H3 H4. unfold projectPublicAttestation. rewrite <- H1, <- H2, <- H3, <- H4.
  destruct (attestationStatusAt (statusInput src) now) as [st|e] eqn:Hst; simpl; [|done].
  apply attestationStatusAt_ok in Hst as [(n & f & u & _ & Hf & Hu & _) _].
  rewrite Hf, Hu. simpl. split_and!; [done..|]. intros [= <-]. simpl. eauto 10.
Qed.

(** ** Witnesses *)

Module Example1.
Definition day : Z := 86400000.
Definition first : AttestationTableRow := {|
  a_id := "att-1"; a_external_reference := "attestation_1"; a_committee_id := "c1";
  a_participant_id := "p1"; a_request_id := "r1"; a_policy_version_id := "pv1"; a_version := 1;
  a_state := st_superseded; a_valid_from := 0; a_expires_at := 40 * day;
  a_issuance_complete := true; a_supersedes_id := None |}.
Definition second : AttestationTableRow := {|
  a_id := "att-2"; a_external_reference := "attestation_2"; a_committee_id := "c1";
  a_participant_id := "p1"; a_request_id := "r2"; a_policy_version_id := "pv1"; a_version := 2;
  a_state := st_active; a_valid_from := 30 * day; a_expires_at := 70 * day;
  a_issuance_complete := true; a_supersedes_id := Some "att-1" |}.
Definition input (revoked_day : option Z) : AttestationStatusInput := {|
  validity := {| version := Int 1; validFrom := Some 0; expiresAt := Some (45 * day);
                 supersedesReference := None |};
  issuanceComplete := true;
  revokedAt := (fun d => Some (d * day)) <$> revoked_day; supersededAt := None |}.
Definition source (note : string) : InternalAttestationProjectionSource := {|
  statusInput := input None; src_opaqueReference := "attestation_1";
  src_issuerReference := "issuer_1"; src_policyVersionReferences := ["policy_1"];
  internal := [("reviewNote", note)] |}.
End Example1.
Import Example1.

Lemma attestation_ended_forever_witness :
  status_ended revoked = true /\ (revoked = revoked -> revoked = revoked).
Proof.
  apply (attestation_ended_forever (input (Some 10)) (10 * day) (44 * day) revoked revoked);
    [vm_compute; reflexivity.. | unfold day; lia | reflexivity].
Defined.

Lemma predecessor_reactivated_witness :
  cbc_attestation_status_at (set_state st_revoked "att-2" <$> [first; second])
    [{| rv_attestation_id := "att-2"; rv_effective_at := 31 * day |}] "att-1" (31 * day)
  = Some active.
Proof.
  apply (predecessor_reactivated [first; second]
    [{| rv_attestation_id := "att-2"; rv_effective_at := 31 * day |}] first second st_revoked).
  - reflexivity.
  - intros x Hx Hs. in_cases; [discriminate Hs | reflexivity].
  - discriminate.
  - left. reflexivity.
  - vm_compute. reflexivity.
  - vm_compute. reflexivity.
Defined.

Lemma projection_public_witness :
  projectPublicAttestation (source "a") (Some day) = projectPublicAttestation (source "b") (Some day).
Proof.
  apply (projection_public (source "a") (source "b") (Some day)
    {| opaqueReference := ""; status := active; attestationType := ""; issuerReference := "";
       projectedValidFrom := ""; projectedExpiresAt := ""; policyVersionReferences := [] |});
    reflexivity.
Defined.
