(* ===== verification/Text.v ===== *)
(** * Text: the anchored regular expressions the repositories test.

    Every pattern is one class for the first character and one class with a
    length range for the rest.  A [string] is the UTF-8 encoding of the
    JavaScript string; all classes are ASCII, so testing bytes is testing
    characters. *)
From Stdlib Require Import Ascii.
From S2P Require Import Prelude Errors.
Local Open Scope nat_scope.

Definition between (lo hi c : ascii) : bool :=
  (nat_of_ascii lo <=? nat_of_ascii c) && (nat_of_ascii c <=? nat_of_ascii hi).
Definition lower (c : ascii) : bool := between "a" "z" c.
Definition upper (c : ascii) : bool := between "A" "Z" c.
Definition digit (c : ascii) : bool := between "0" "9" c.
Definition one_of (cs : list ascii) (c : ascii) : bool := bool_decide (c ∈ cs).

Fixpoint all_chars (p : ascii -> bool) (s : string) : bool :=
  match s with EmptyString => true | String c s' => p c && all_chars p s' end.

(** [/^[head][tail]{lo,hi}$/]. *)
Definition matches (head tail : ascii -> bool) (lo hi : nat) (s : string) : bool :=
  match s with
  | EmptyString => false
  | String c s' => head c && all_chars tail s' && (lo <=? String.length s') && (String.length s' <=? hi)
  end.

(** [/^[class]{lo,hi}$/]. *)
Definition repeated (class : ascii -> bool) (lo hi : nat) (s : string) : bool :=
  all_chars class s && (lo <=? String.length s) && (String.length s <=? hi).

Definition opaqueReferencePattern : string -> bool :=
  matches lower (fun c => lower c || digit c || one_of ["_"; ":"; "-"]%char c) 7 199.
Definition errorClassPattern : string -> bool :=
  matches lower (fun c => lower c || digit c || one_of ["_"]%char c) 2 63.
Definition eventTypePattern : string -> bool :=
  matches lower (fun c => lower c || digit c || one_of ["_"; "."; "-"]%char c) 2 127.
Definition operationTypePattern : string -> bool :=
  matches lower (fun c => lower c || digit c || one_of ["_"; "."; "-"]%char c) 2 63.
Definition fieldNamePattern : string -> bool :=
  matches lower (fun c => lower c || upper c || digit c || one_of ["_"]%char c) 0 63.

(** [1-9A-HJ-NP-Za-km-z] *)
Definition base58 (c : ascii) : bool :=
  between "1" "9" c || between "A" "H" c || between "J" "N" c || between "P" "Z" c
  || between "a" "k" c || between "m" "z" c.
Definition iAddressPattern : string -> bool := matches (one_of ["i"%char]) base58 20 63.

Definition hex64Pattern : string -> bool :=
  repeated (fun c => digit c || between "a" "f" c) 64 64.

(** [value.includes(char)]. *)
Fixpoint contains_char (x : ascii) (s : string) : bool :=
  match s with EmptyString => false | String c s' => Ascii.eqb c x || contains_char x s' end.

(** repository-types.ts, [requireOpaqueReference]. *)
Definition requireOpaqueReference (value field : string) : result exn unit :=
  throwif! negb (opaqueReferencePattern value) || contains_char "@" value
    as! RepositoryConflictError (field +:+ " must be an opaque reference") in
  Ok tt.

(** outbox-repository.ts, [requireErrorClass]. *)
Definition requireErrorClass (errorClass : string) : result exn unit :=
  throwif! negb (errorClassPattern errorClass)
    as! RepositoryConflictError "error class must be a non-sensitive stable code" in
  Ok tt.

(** [new URL(s)], as far as the code looks at it. *)
Record UrlParts : Type := {
  url_protocol : string;
  url_username : string;
  url_password : string;
  url_hostname : string;
  url_pathname : string;
  url_search : string;
  url_hash : string;
}.
Class UrlPlatform := { new_URL : string -> option UrlParts }.   (* None when it throws *)

(** ASCII [toLowerCase], enough for the error codes and the hostnames it is applied to. *)
Definition lower_ascii (c : ascii) : ascii :=
  if upper c then ascii_of_nat (nat_of_ascii c + 32) else c.
Fixpoint toLowerCase (s : string) : string :=
  match s with EmptyString => EmptyString | String c s' => String (lower_ascii c) (toLowerCase s') end.

(** [[...new Set(xs)]]: first occurrences, in order. *)
Fixpoint unique (xs : list string) : list string :=
  match xs with
  | [] => []
  | x :: xs' => x :: filter (fun y => y <> x) (unique xs')
  end.

Lemma elem_of_unique (xs : list string) (x : string) : x ∈ unique xs <-> x ∈ xs.
Proof.
  induction xs as [|y xs IH]; simpl; [done|].
  rewrite !elem_of_cons, list_elem_of_filter, IH. destruct (decide (x = y)); naive_solver.
Qed.

Lemma all_chars_forall p s : all_chars p s = true <-> forall c, contains_char c s = true -> p c = true.
Proof.
  induction s as [|c s IH]; simpl; [done|]. rewrite andb_true_iff, IH. split.
  - intros [Hc Hs] x. rewrite orb_true_iff, Ascii.eqb_eq. intros [->|?]; auto.
  - intros Hall. split; [apply Hall; by rewrite Ascii.eqb_refl|].
    intros x Hx. apply Hall. by rewrite Hx, orb_true_r.
Qed.

(** The pattern has no "@", so the second test of [requireOpaqueReference]
    never decides. *)
Lemma opaque_no_at value : opaqueReferencePattern value = true -> contains_char "@" value = false.
Proof.
  unfold opaqueReferencePattern, matches. destruct value as [|c s]; [done|].
  rewrite !andb_true_iff. intros [[[Hc Hs] _] _]. simpl. apply orb_false_iff. split.
  - apply not_true_iff_false. rewrite Ascii.eqb_eq. intros ->. by vm_compute in Hc.
  - apply not_true_iff_false. intros Hat. rewrite all_chars_forall in Hs.
    specialize (Hs _ Hat). by vm_compute in Hs.
Qed.

Lemma requireOpaqueReference_ok value field :
  requireOpaqueReference value field = Ok tt <-> opaqueReferencePattern value = true.
Proof.
  unfold requireOpaqueReference. rewrite bindR_ok.
  destruct (opaqueReferencePattern value) eqn:E; simpl.
  - rewrite (opaque_no_at _ E). simpl. split; [done|]. by exists tt.
  - split; [|done]. by intros ([] & ? & _).
Qed.

(** ** The order of identifiers (PostgreSQL orders uuids by their bytes, as
    their canonical text is ordered) *)

Lemma string_ltb_irrefl s : String.ltb s s = false.
Proof.
  unfold String.ltb. induction s as [|c s IH]; simpl; [done|].
  unfold Ascii.compare. by rewrite N.compare_refl.
Qed.

Lemma string_ltb_total a b : String.ltb a b = false -> String.ltb b a = false -> a = b.
Proof.
  unfold String.ltb. rewrite (String.compare_antisym b a).
  destruct (String.compare a b) eqn:Hc; simpl; try done. intros _ _. by apply String.compare_eq_iff.
Qed.

Lemma string_ltb_trans a b c : String.ltb a b = true -> String.ltb b c = true -> String.ltb a c = true.
Proof.
  unfold String.ltb. revert b c. induction a as [|x a IH]; intros [|y b] [|z c]; simpl; try done.
  unfold Ascii.compare.
  destruct (N.compare_spec (N_of_ascii x) (N_of_ascii y)) as [E1|L1|G1]; try done;
  destruct (N.compare_spec (N_of_ascii y) (N_of_ascii z)) as [E2|L2|G2]; try done; intros H1 H2.
  - rewrite E1, E2, N.compare_refl. by eapply IH.
  - rewrite E1. by apply N.compare_lt_iff in L2 as ->.
  - rewrite <- E2. by apply N.compare_lt_iff in L1 as ->.
  - assert (Hlt : (N_of_ascii x < N_of_ascii z)%N) by lia. by apply N.compare_lt_iff in Hlt as ->.
Qed.
