(* ===== verification/Json.v ===== *)
(** * Json: JSON values, their canonical text and the field screens.

    packages/verus/src/canonical-content.ts ([canonicalizeJson],
    [rejectForbiddenFields], [prepareCanonicalPayload]) over JavaScript's
    JSON values.  JavaScript strings are lists of UTF-16 code units; numbers
    are IEEE doubles ([spec_float]); an object is its [Object.entries] list. *)
From Stdlib Require Import SpecFloat Ascii.
From S2P Require Import Prelude Errors Text.
Local Open Scope Z_scope.

(** ** Values *)

(** A JavaScript string: its UTF-16 code units. *)
Definition ustring : Type := list Z.

Inductive json : Type :=
| JNull
| JBool (b : bool)
| JNumber (n : spec_float)
| JString (s : ustring)
| JArray (items : list json)
| JObject (entries : list (ustring * json)).

(** An own property of an object. *)
Fixpoint get_entry (k : ustring) (es : list (ustring * json)) : option json :=
  match es with [] => None | (k', v) :: es' => if bool_decide (k' = k) then Some v else get_entry k es' end.

#[global] Instance spec_float_eq_dec : EqDecision spec_float.
Proof. solve_decision. Defined.

(** The induction principle that reaches into arrays and objects. *)
Section json_ind'.
Variable P : json -> Prop.
Hypothesis Hnull : P JNull.
Hypothesis Hbool : forall b, P (JBool b).
Hypothesis Hnumber : forall n, P (JNumber n).
Hypothesis Hstring : forall s, P (JString s).
Hypothesis Harray : forall items, Forall P items -> P (JArray items).
Hypothesis Hobject : forall entries, Forall (fun e => P (snd e)) entries -> P (JObject entries).

Fixpoint json_ind' (v : json) : P v :=
  match v with
  | JNull => Hnull
  | JBool b => Hbool b
  | JNumber n => Hnumber n
  | JString s => Hstring s
  | JArray items => Harray items
      ((fix go l := match l return Forall P l with
                    | [] => Forall_nil_2 _
                    | x :: l' => Forall_cons_2 _ _ _ (json_ind' x) (go l')
                    end) items)
  | JObject entries => Hobject entries
      ((fix go l := match l return Forall (fun e => P (snd e)) l with
                    | [] => Forall_nil_2 _
                    | e :: l' => Forall_cons_2 (fun e => P (snd e)) e l' (json_ind' (snd e)) (go l')
                    end) entries)
  end.
End json_ind'.

(** The language's text services: Unicode NFC and Number::toString, which
    JSON.stringify uses for a finite number. *)
Class TextServices := {
  nfc : ustring -> ustring;
  number_text : spec_float -> ustring;
}.

(** The code units of an ASCII string literal. *)
Fixpoint units (s : string) : ustring :=
  match s with EmptyString => [] | String c s' => Z.of_nat (nat_of_ascii c) :: units s' end.

(** ** JSON.stringify on a string *)

Definition hex_digit (n : Z) : Z := if n <? 10 then 48 + n else 87 + n.
Definition unicode_escape (c : Z) : ustring :=
  units "\u" ++ [hex_digit (c / 4096); hex_digit (c / 256 mod 16); hex_digit (c / 16 mod 16);
                 hex_digit (c mod 16)].

Definition high_surrogate (c : Z) : bool := (55296 <=? c) && (c <=? 56319).
Definition low_surrogate (c : Z) : bool := (56320 <=? c) && (c <=? 57343).

(** One code unit of QuoteJSONString, outside a surrogate pair. *)
Definition quote_unit (c : Z) : ustring :=
  if c =? 34 then units "\" ++ [34] else if c =? 92 then units "\\"
  else if c =? 8 then units "\b" else if c =? 9 then units "\t" else if c =? 10 then units "\n"
  else if c =? 12 then units "\f" else if c =? 13 then units "\r"
  else if (c <? 32) || high_surrogate c || low_surrogate c then unicode_escape c
  else [c].

Fixpoint quote_units (s : ustring) : ustring :=
  match s with
  | [] => []
  | c :: s' =>
    match s' with
    | d :: s'' => if high_surrogate c && low_surrogate d then c :: d :: quote_units s''
                  else quote_unit c ++ quote_units s'
    | [] => quote_unit c
    end
  end.

Definition quote (s : ustring) : ustring := [34] ++ quote_units s ++ [34].

(** ** canonicalizeJson *)

(** JavaScript's [left < right] on strings: by code units. *)
Fixpoint ult (a b : ustring) : bool :=
  match a, b with
  | _, [] => false
  | [], _ :: _ => true
  | x :: a', y :: b' => (x <? y) || ((x =? y) && ult a' b')
  end.

(** [entries.sort(...)] by key; JavaScript's sort is stable, and so is
    insertion from the right. *)
Fixpoint insert_entry {A : Type} (e : ustring * A) (l : list (ustring * A)) : list (ustring * A) :=
  match l with
  | [] => [e]
  | f :: l' => if ult (fst f) (fst e) then f :: insert_entry e l' else e :: l
  end.
Fixpoint sort_entries {A : Type} (l : list (ustring * A)) : list (ustring * A) :=
  match l with [] => [] | e :: l' => insert_entry e (sort_entries l') end.

(** [xs.map(f).join(",")] where the computation of an element may throw. *)
Fixpoint join_results (sep : ustring) (l : list (result exn ustring)) : result exn ustring :=
  match l with
  | [] => Ok []
  | [r] => r
  | r :: l' => let! a := r in let! b := join_results sep l' in Ok (a ++ sep ++ b)
  end.

Definition isFinite (n : spec_float) : bool :=
  match n with S754_zero _ | S754_finite _ _ _ => true | S754_infinity _ | S754_nan => false end.

Definition entry_text `{TextServices} (e : ustring * result exn ustring) : result exn ustring :=
  let! item := snd e in Ok (quote (nfc (fst e)) ++ units ":" ++ item).

(** canonical-content.ts, [canonicalizeJson].  The entries' texts are paired
    with their keys before sorting; they are demanded in sorted order. *)
Fixpoint canonicalizeJson `{TextServices} (value : json) : result exn ustring :=
  match value with
  | JNull => Ok (units "null")
  | JBool b => Ok (units (if b then "true" else "false"))
  | JNumber n =>
    throwif! negb (isFinite n)
      as! verusError PAYLOAD_FORBIDDEN "Anchor payload contains a non-finite number" false in
    Ok (number_text n)
  | JString s => Ok (quote (nfc s))
  | JArray items =>
    let! body := join_results (units ",") (canonicalizeJson <$> items) in
    Ok (units "[" ++ body ++ units "]")
  | JObject entries =>
    let! body := join_results (units ",")
      (entry_text <$> sort_entries (prod_map id canonicalizeJson <$> entries)) in
    Ok (units "{" ++ body ++ units "}")
  end.

(** ** UTF-8 *)

Definition byte (z : Z) : ascii := ascii_of_nat (Z.to_nat z).
Definition of_bytes (l : list Z) : string := fold_right (fun z s => String (byte z) s) EmptyString l.

(** The UTF-8 bytes of one code point. *)
Definition utf8_point (c : Z) : list Z :=
  if c <? 128 then [c]
  else if c <? 2048 then [192 + c / 64; 128 + c mod 64]
  else if c <? 65536 then [224 + c / 4096; 128 + c / 64 mod 64; 128 + c mod 64]
  else [240 + c / 262144; 128 + c / 4096 mod 64; 128 + c / 64 mod 64; 128 + c mod 64].

(** TextEncoder.encode: surrogate pairs combine, a lone surrogate becomes
    U+FFFD. *)
Fixpoint utf8 (s : ustring) : list Z :=
  match s with
  | [] => []
  | c :: s' =>
    if high_surrogate c then
      match s' with
      | d :: s'' => if low_surrogate d
                    then utf8_point (65536 + (c - 55296) * 1024 + (d - 56320)) ++ utf8 s''
                    else utf8_point 65533 ++ utf8 s'
      | [] => utf8_point 65533
      end
    else if low_surrogate c then utf8_point 65533 ++ utf8 s'
    else utf8_point c ++ utf8 s'
  end.

(** ** rejectForbiddenFields *)

(** [key.toLowerCase().replace(/[^a-z0-9]/g, "")].  Outside ASCII only
    U+212A (Kelvin sign) and U+0130 (dotted capital I) lower-case to text
    with an ASCII letter; everything else is removed. *)
Definition normalize_unit (c : Z) : string :=
  if (65 <=? c) && (c <=? 90) then String (byte (c + 32)) EmptyString
  else if ((97 <=? c) && (c <=? 122)) || ((48 <=? c) && (c <=? 57)) then String (byte c) EmptyString
  else if c =? 8490 then "k" else if c =? 304 then "i" else "".
Definition normalize_key (key : ustring) : string := String.concat "" (normalize_unit <$> key).

Definition ALWAYS_FORBIDDEN_FIELDS : list string :=
  ["appealdetail"; "appealfacts"; "committeeevidence"; "committeenotes"; "dateofbirth";
   "documentimage"; "documentnumber"; "evidencehash"; "exactaddress"; "faceimage";
   "identitydocument"; "privatekey"; "privatesessionlocation"; "rpcpassword"; "seedphrase";
   "sessiontoken"; "utilitybill"; "walletbackup"; "walletseed"; "wif"; "zseed"].

(** [for (const x of xs) f(x)], stopping at the first throw. *)
Fixpoint for_each {E A : Type} (f : A -> result E unit) (xs : list A) : result E unit :=
  match xs with [] => Ok tt | x :: xs' => let! _ := f x in for_each f xs' end.

Definition nesting_error : exn :=
  verusError PAYLOAD_FORBIDDEN "Anchor payload nesting exceeds the server limit" false.
Definition prohibited_error : exn :=
  verusError PAYLOAD_FORBIDDEN
    "Anchor payload contains a prohibited private or security-sensitive field" false.

Fixpoint rejectForbiddenFields (value : json) (depth : Z) : result exn unit :=
  throwif! 32 <? depth as! nesting_error in
  match value with
  | JArray items => for_each (fun item => rejectForbiddenFields item (depth + 1)) items
  | JObject entries =>
    for_each (fun e =>
      let normalized := normalize_key (fst e) in
      throwif! includes ALWAYS_FORBIDDEN_FIELDS normalized
               || String.eqb normalized "proto" || String.eqb normalized "constructor"
               || String.eqb normalized "prototype" as! prohibited_error in
      rejectForbiddenFields (snd e) (depth + 1)) entries
  | _ => Ok tt
  end.

(** ** prepareCanonicalPayload *)

(** Field names are ASCII (the repository admits no others into a job). *)
Record CanonicalPayloadPolicy : Type := {
  policyReference : string;
  allowedTopLevelFields : list string;
  requiredTopLevelFields : list string;
  maximumBytes : jsnumber;
}.

Record CanonicalPayload : Type := {
  payload_value : list (ustring * json);
  payload_bytes : list Z;
  payload_digest : string;
  payload_policyReference : string;
}.

Section payload.
Context `{TextServices}.
(** createHash("sha256").update(bytes).digest("hex"). *)
Context (sha256 : string -> string).

Definition prepareCanonicalPayload (value : list (ustring * json)) (policy : CanonicalPayloadPolicy)
  : result exn CanonicalPayload :=
  throwif! negb (isSafeInteger (maximumBytes policy)) || ltNum (maximumBytes policy) 1
    as! verusError PAYLOAD_OVERSIZE "Server payload byte limit is invalid" false in
  let allowed := units <$> allowedTopLevelFields policy in
  let keys := fst <$> value in
  throwif! some keys (fun key => negb (includes allowed key))
           || some (requiredTopLevelFields policy) (fun key => negb (includes keys (units key)))
    as! verusError PAYLOAD_FORBIDDEN
          "Anchor payload contains a field not present in the server-selected allowlist" false in
  let! _ := rejectForbiddenFields (JObject value) 0 in
  let! canonical := canonicalizeJson (JObject value) in
  let bytes := utf8 canonical in
  throwif! ltNum (maximumBytes policy) (Z.of_nat (length bytes))
    as! verusError PAYLOAD_OVERSIZE "Anchor payload exceeds the server-selected byte limit" false in
  Ok {| payload_value := value; payload_bytes := bytes;
        payload_digest := sha256 (of_bytes bytes);
        payload_policyReference := policyReference policy |}.

(** deterministicVerusIdempotencyKey: fields joined by U+001F. *)
Definition unit_separator : string := String "031" EmptyString.
Definition deterministicVerusIdempotencyKey (operationType subjectReference vdxfKey manifestDigest : string)
  : string :=
  "verus:v1:" +:+ sha256 (String.concat unit_separator
    ["VRSCTEST"; operationType; subjectReference; vdxfKey; manifestDigest]).
End payload.

(** ** Facts: sorting *)

Lemma ult_irrefl a : ult a a = false.
Proof. induction a as [|x a IH]; simpl; [done|]. by rewrite Z.ltb_irrefl, Z.eqb_refl, IH. Qed.

Lemma ult_trans a b c : ult a b = true -> ult b c = true -> ult a c = true.
Proof.
  revert b c. induction a as [|x a IH]; intros [|y b] [|z c]; simpl; try done.
  rewrite !orb_true_iff, !andb_true_iff, !Z.ltb_lt, !Z.eqb_eq.
  intros [?|[-> Hab]] [?|[-> Hbc]]; [left; lia..|]. right. eauto.
Qed.

Lemma ult_total a b : ult a b = false -> ult b a = false -> a = b.
Proof.
  revert b. induction a as [|x a IH]; intros [|y b]; simpl; try done.
  rewrite !orb_false_iff, !andb_false_iff, !Z.ltb_ge, !Z.eqb_neq. intros [? Hab] [? Hba].
  assert (x = y) as <- by lia. f_equal. apply IH; tauto.
Qed.

Lemma insert_entry_comm {A} (e f : ustring * A) l :
  fst e <> fst f -> insert_entry e (insert_entry f l) = insert_entry f (insert_entry e l).
Proof.
  intros Hne.
  assert (Hflip : forall a b : ustring * A, fst a <> fst b -> ult (fst a) (fst b) = negb (ult (fst b) (fst a))).
  { intros a b Hab. destruct (ult (fst a) (fst b)) eqn:E1, (ult (fst b) (fst a)) eqn:E2; simpl; try done.
    - pose proof (ult_trans _ _ _ E1 E2) as Hc. by rewrite ult_irrefl in Hc.
    - by destruct (Hab (ult_total _ _ E1 E2)). }
  induction l as [|g l IH]; simpl.
  - rewrite (Hflip f e) by done. by destruct (ult (fst e) (fst f)).
  - destruct (ult (fst g) (fst f)) eqn:Egf, (ult (fst g) (fst e)) eqn:Ege; simpl.
    + by rewrite Egf, Ege, IH.
    + rewrite Ege, Egf, (Hflip e f) by done. destruct (ult (fst f) (fst e)) eqn:Efe; [|done].
      by rewrite (ult_trans _ _ _ Egf Efe) in Ege.
    + rewrite Egf, Ege, (Hflip f e) by done. destruct (ult (fst e) (fst f)) eqn:Eef; [|done].
      by rewrite (ult_trans _ _ _ Ege Eef) in Egf.
    + rewrite Egf, Ege. rewrite (Hflip f e) by done. by destruct (ult (fst e) (fst f)).
Qed.

Lemma sort_entries_perm {A} (l l' : list (ustring * A)) :
  l ≡ₚ l' -> NoDup (fst <$> l) -> sort_entries l = sort_entries l'.
Proof.
  intros Hp. induction Hp as [|x l l' Hp IH|x y l|l1 l2 l3 H12 IH12 H23 IH23]; intros Hnd; simpl.
  - done.
  - rewrite fmap_cons in Hnd. apply NoDup_cons in Hnd as [_ Hnd]. by rewrite IH.
  - apply insert_entry_comm. simpl in Hnd. apply NoDup_cons in Hnd as [Hy _].
    rewrite elem_of_cons in Hy. naive_solver.
  - rewrite IH12 by done. apply IH23. by rewrite <- H12.
Qed.

(** ** Facts: values up to key order *)

Section all2.
Context {A B : Type} (P : A -> B -> Prop).
Fixpoint all2 (xs : list A) (ys : list B) : Prop :=
  match xs, ys with
  | [], [] => True
  | x :: xs', y :: ys' => P x y /\ all2 xs' ys'
  | _, _ => False
  end.
End all2.

Section all.
Context {A : Type} (P : A -> Prop).
Fixpoint all (xs : list A) : Prop := match xs with [] => True | x :: xs' => P x /\ all xs' end.
End all.

Lemma all_elem {A} (P : A -> Prop) xs : all P xs <-> forall x, x ∈ xs -> P x.
Proof.
  induction xs as [|y xs IH]; simpl; [set_solver|]. rewrite IH. set_solver.
Qed.

(** Equal up to the order of the entries of every object. *)
Fixpoint same_json (v w : json) : Prop :=
  match v, w with
  | JArray xs, JArray ys => all2 same_json xs ys
  | JObject es, JObject fs =>
    exists gs, gs ≡ₚ fs /\ all2 (fun e g => fst e = fst g /\ same_json (snd e) (snd g)) es gs
  | JArray _, _ | JObject _, _ => False
  | _, _ => v = w
  end.

(** No object has a key twice, as in JavaScript. *)
Fixpoint keys_unique (v : json) : Prop :=
  match v with
  | JArray xs => all keys_unique xs
  | JObject es => NoDup (fst <$> es) /\ all (fun e => keys_unique (snd e)) es
  | _ => True
  end.

Lemma all2_fmap {A B C : Type} (P : A -> B -> Prop) (Q : A -> Prop) (f : A -> C) (g : B -> C) xs ys :
  (forall x y, x ∈ xs -> Q x -> P x y -> f x = g y) -> all Q xs -> all2 P xs ys -> f <$> xs = g <$> ys.
Proof.
  revert ys. induction xs as [|x xs IH]; intros [|y ys] Hf HQ HP; simpl in *; try done.
  destruct HQ as [Hx HQ], HP as [Hxy HP]. f_equal; [apply Hf; auto; set_solver|].
  apply IH; auto. intros; apply Hf; auto; set_solver.
Qed.

Lemma all2_fmap_plain {A B C : Type} (P : A -> B -> Prop) (f : A -> C) (g : B -> C) xs ys :
  (forall x y, P x y -> f x = g y) -> all2 P xs ys -> f <$> xs = g <$> ys.
Proof.
  revert ys. induction xs as [|x xs IH]; intros [|y ys] Hf HP; simpl in *; try done.
  destruct HP as [Hxy HP]. f_equal; auto.
Qed.

Lemma canonicalizeJson_same `{TextServices} (v w : json) :
  keys_unique v -> same_json v w -> canonicalizeJson v = canonicalizeJson w.
Proof.
  revert w. induction v as [|b|n|s|items IH|entries IH] using json_ind';
    intros w Hu Hs; destruct w; try by (simpl in Hs; congruence || done).
  - simpl in *. rewrite Forall_forall in IH.
    by rewrite (all2_fmap _ _ _ canonicalizeJson _ _ (fun x y Hx Hq Hp => IH x Hx y Hq Hp) Hu Hs).
  - simpl in Hs, Hu. destruct Hs as (gs & Hperm & Hall), Hu as [Hnd Hu]. simpl.
    rewrite Forall_forall in IH.
    assert (Hkeys : fst <$> entries = fst <$> gs)
      by (eapply all2_fmap_plain; [|exact Hall]; intros ?? [? _]; done).
    assert (Hmap : prod_map id canonicalizeJson <$> entries = prod_map id canonicalizeJson <$> gs).
    { eapply all2_fmap; [|exact Hu|exact Hall]. intros [k x] [k' y] Hx Hq [Hk Hp]. simpl in *.
      unfold prod_map. simpl. f_equal; [done|]. by apply (IH (k, x)). }
    rewrite Hmap. rewrite (sort_entries_perm _ (prod_map id canonicalizeJson <$> entries0)).
    + done.
    + by apply fmap_Permutation.
    + rewrite <- list_fmap_compose.
      rewrite (list_fmap_ext _ fst) by (intros ? [k x] _; done). by rewrite <- Hkeys.
Qed.

(** ** Facts: the field screen *)

(** [within v d w]: [w] occurs in [v] at nesting depth [d]. *)
Inductive within : json -> Z -> json -> Prop :=
| within_self v : within v 0 v
| within_item items x d w : x ∈ items -> within x d w -> within (JArray items) (d + 1) w
| within_entry entries k x d w : (k, x) ∈ entries -> within x d w -> within (JObject entries) (d + 1) w.

Definition prohibited_key (key : ustring) : bool :=
  includes (ALWAYS_FORBIDDEN_FIELDS ++ ["proto"; "constructor"; "prototype"]) (normalize_key key).

(** The screen: nothing nested deeper than 32, no prohibited key anywhere. *)
Definition screened (from : Z) (v : json) : Prop :=
  forall d w, within v d w -> from + d <= 32 /\
    (forall entries k x, w = JObject entries -> (k, x) ∈ entries -> prohibited_key k = false).

Lemma for_each_ok {E A} (f : A -> result E unit) xs :
  for_each f xs = Ok tt <-> forall x, x ∈ xs -> f x = Ok tt.
Proof.
  induction xs as [|y xs IH]; simpl; [set_solver|]. rewrite bindR_ok. split.
  - intros ([] & Hy & Hxs) x. rewrite elem_of_cons. intros [->|Hx]; [done|]. by apply IH.
  - intros Hall. exists tt. split; [apply Hall; set_solver|]. apply IH. set_solver.
Qed.

Lemma for_each_err {E A} (f : A -> result E unit) xs e :
  for_each f xs = Err e -> exists x, x ∈ xs /\ f x = Err e.
Proof.
  induction xs as [|y xs IH]; simpl; [done|]. rewrite bindR_err.
  intros [Hy|([] & Hy & Hxs)]; [exists y; set_solver|].
  destruct (IH Hxs) as (x & Hx & Hf). exists x. set_solver.
Qed.

Lemma prohibited_key_test (key : ustring) :
  includes ALWAYS_FORBIDDEN_FIELDS (normalize_key key)
  || String.eqb (normalize_key key) "proto" || String.eqb (normalize_key key) "constructor"
  || String.eqb (normalize_key key) "prototype" = prohibited_key key.
Proof.
  unfold prohibited_key. generalize (normalize_key key). intros s.
  apply eq_true_iff_eq. rewrite !orb_true_iff, !includes_true, elem_of_app, !String.eqb_eq.
  rewrite !elem_of_cons, elem_of_nil. naive_solver.
Qed.

Lemma rejectForbiddenFields_ok (v : json) (depth : Z) :
  rejectForbiddenFields v depth = Ok tt <-> screened depth v.
Proof.
  revert depth. induction v as [|b|n|s|items IH|entries IH] using json_ind'; intros depth;
    cbn [rejectForbiddenFields]; rewrite bindR_ok; setoid_rewrite throwIf_ok; setoid_rewrite Z.ltb_ge;
    try rewrite Forall_forall in IH.
  1-4: split; [intros (_ & Hd & _) d w Hw; inversion Hw; subst; (split; [lia|by intros])
              | intros Hsc; exists tt; destruct (Hsc 0 _ (within_self _)); (split; [lia|done])].
  - split.
    + intros (_ & Hd & Hall) d w Hw. rewrite for_each_ok in Hall.
      inversion Hw; subst; [split; [lia|by intros]|].
      destruct (proj1 (IH x ltac:(done) (depth + 1)) (Hall x ltac:(done)) d0 w ltac:(done)) as [? Hk].
      split; [lia|done].
    + intros Hsc. exists tt. split; [destruct (Hsc 0 _ (within_self _)); lia|].
      apply for_each_ok. intros x Hx. apply IH; [done|]. intros d w Hw.
      destruct (Hsc (d + 1) w ltac:(by eapply within_item)) as [? Hk]. split; [lia|done].
  - split.
    + intros (_ & Hd & Hall) d w Hw. rewrite for_each_ok in Hall.
      inversion Hw; subst.
      * split; [lia|]. intros es k x [= <-] Hin. specialize (Hall _ Hin). cbv beta zeta in Hall.
        rewrite prohibited_key_test in Hall. apply bindR_ok in Hall as (u & Hp & _).
        by apply throwIf_ok in Hp.
      * match goal with Hin : _ ∈ entries |- _ => specialize (Hall _ Hin) end. cbv beta zeta in Hall. apply bindR_ok in Hall as (u & _ & Hx).
        destruct (proj1 (IH (k, x) ltac:(done) (depth + 1)) Hx d0 w ltac:(done)) as [? Hk].
        split; [lia|done].
    + intros Hsc. exists tt. split; [destruct (Hsc 0 _ (within_self _)); lia|].
      apply for_each_ok. intros [k x] Hin. cbv beta zeta. rewrite prohibited_key_test.
      destruct (Hsc 0 _ (within_self _)) as [_ Hkeys]. simpl.
      rewrite (Hkeys entries k x eq_refl Hin). simpl.
      apply (IH (k, x)); [done|]. intros d w Hw.
      destruct (Hsc (d + 1) w ltac:(by eapply within_entry)) as [? Hk]. split; [lia|done].
Qed.

Lemma rejectForbiddenFields_err (v : json) (depth : Z) e :
  rejectForbiddenFields v depth = Err e -> e = nesting_error \/ e = prohibited_error.
Proof.
  revert depth. induction v as [|b|n|s|items IH|entries IH] using json_ind'; intros depth;
    cbn [rejectForbiddenFields]; rewrite bindR_err;
    (intros [Ht|(? & _ & Hx)]; [apply throwIf_err in Ht; naive_solver|]); try done;
    rewrite Forall_forall in IH; apply for_each_err in Hx as (y & Hy & Hf); [by eauto|].
  cbv beta zeta in Hf. rewrite bindR_err in Hf. destruct Hf as [Ht|(? & _ & Hf)]; [|by eauto].
  apply throwIf_err in Ht. naive_solver.
Qed.

(** ** Properties *)

Section properties.
Context `{TextServices} (sha256 : string -> string).

(** The canonical text, and therefore the anchored digest, does not
    depend on the order in which any object of the manifest lists its
    entries. *)
Theorem payload_digest_order_independent (es fs : list (ustring * json)) policy p :
  keys_unique (JObject es) -> same_json (JObject es) (JObject fs) ->
  prepareCanonicalPayload sha256 es policy = Ok p ->
  canonicalizeJson (JObject es) = canonicalizeJson (JObject fs) /\
  (forall q, prepareCanonicalPayload sha256 fs policy = Ok q ->
     payload_bytes q = payload_bytes p /\ payload_digest q = payload_digest p).
Proof.
  intros Hu Hs Hp. pose proof (canonicalizeJson_same _ _ Hu Hs) as Hc. split; [done|].
  intros q Hq. unfold prepareCanonicalPayload in Hp, Hq. cbv zeta in Hp, Hq. inv_ok. simpl.
  match goal with
  | H1 : canonicalizeJson (JObject es) = Ok ?a, H2 : canonicalizeJson (JObject fs) = Ok ?b |- _ =>
    assert (a = b) as -> by congruence
  end. done.
Qed.

(** A prepared payload has only server-allowed top-level fields and all
    required ones, has no prohibited field name at any depth (up to case and
    punctuation), is nested at most 32 deep, fits the byte limit, and its
    digest is the hash of exactly the bytes to be written. *)
Theorem payload_screened (value : list (ustring * json)) (policy : CanonicalPayloadPolicy) p :
  prepareCanonicalPayload sha256 value policy = Ok p ->
  (forall k x, (k, x) ∈ value -> exists f, f ∈ allowedTopLevelFields policy /\ k = units f) /\
  (forall f, f ∈ requiredTopLevelFields policy -> exists x, (units f, x) ∈ value) /\
  screened 0 (JObject value) /\
  (exists limit, maximumBytes policy = Int limit /\
     1 <= limit <= maxSafeInteger /\ Z.of_nat (length (payload_bytes p)) <= limit) /\
  payload_digest p = sha256 (of_bytes (payload_bytes p)) /\
  (exists text, canonicalizeJson (JObject value) = Ok text /\ payload_bytes p = utf8 text).
Proof.
  intros Hp. unfold prepareCanonicalPayload in Hp. cbv zeta in Hp. inv_ok.
  rewrite orb_false_iff in *. destruct_and?.
  match goal with H : rejectForbiddenFields _ 0 = Ok ?u |- _ => destruct u; apply rejectForbiddenFields_ok in H end.
  split_and!; simpl; auto; [| | |by eauto].
  - intros k y Hin.
    match goal with H : some (fst <$> value) _ = false |- _ => rename H into Hall end.
    assert (Hk : includes (units <$> allowedTopLevelFields policy) k = true).
    { apply not_false_iff_true. intros Hno. apply not_true_iff_false in Hall. apply Hall.
      apply some_true. exists k. split; [|by rewrite Hno].
      apply list_elem_of_fmap. by exists (k, y). }
    apply includes_true, list_elem_of_fmap in Hk as (f & -> & Hf). by exists f.
  - intros f Hf.
    match goal with H : some (requiredTopLevelFields policy) _ = false |- _ => rename H into Hreq end.
    assert (Hk : includes (fst <$> value) (units f) = true).
    { apply not_false_iff_true. intros Hno. apply not_true_iff_false in Hreq. apply Hreq.
      apply some_true. exists f. by rewrite Hno. }
    apply includes_true, list_elem_of_fmap in Hk as ([k y] & Hk & Hin). simpl in Hk. subst.
    by exists y.
  - destruct (maximumBytes policy) as [limit| |]; simpl in *; try discriminate.
    exists limit. rewrite negb_false_iff, Z.leb_le, !Z.ltb_ge in *. split_and!; auto; lia.
Qed.

(** A prohibited field name anywhere in the manifest, or nesting beyond
    32, makes the preparation fail whatever the allowlist is. *)
Theorem prohibited_field_refused (value : list (ustring * json)) policy d w entries k x :
  within (JObject value) d w ->
  (w = JObject entries /\ (k, x) ∈ entries /\ prohibited_key k = true) \/ 32 < d ->
  exists m, prepareCanonicalPayload sha256 value policy =
            Err (verusError PAYLOAD_FORBIDDEN m false) \/
            prepareCanonicalPayload sha256 value policy =
            Err (verusError PAYLOAD_OVERSIZE m false).
Proof.
  intros Hw Hbad. unfold prepareCanonicalPayload. cbv zeta.
  destruct (throwIf _ _) as [[]|e] eqn:Ht; cbn [bindR];
    [|apply throwIf_err in Ht as [_ ->]; eexists; by right]. clear Ht.
  destruct (throwIf _ _) as [[]|e] eqn:Ht; cbn [bindR];
    [|apply throwIf_err in Ht as [_ ->]; eexists; by left]. clear Ht.
  destruct (rejectForbiddenFields (JObject value) 0) as [[]|e] eqn:Hr; cbn [bindR].
  - apply rejectForbiddenFields_ok in Hr. destruct (Hr _ _ Hw) as [Hd Hk].
    destruct Hbad as [(-> & Hin & Hp)|Hd']; [|lia]. by rewrite (Hk _ _ _ eq_refl Hin) in Hp.
  - apply rejectForbiddenFields_err in Hr as [-> | ->]; eexists; by left.
Qed.

(** Keys are ordered before they are normalised and written after, so
    the canonical text of an object need not be canonical: with a
    decomposed key that normalises past its neighbour, reading the text
    back and canonicalising it again orders the two entries the other way. *)
Theorem canonical_text_not_stable (v w : json) tv tw :
  nfc [101; 769] = [233] -> nfc [102] = [102] -> nfc [233] = [233] ->
  canonicalizeJson v = Ok tv -> canonicalizeJson w = Ok tw -> tv <> tw ->
  let written := canonicalizeJson (JObject [([101; 769], v); ([102], w)]) in
  let read_back := JObject [(nfc [101; 769], v); (nfc [102], w)] in
  written = Ok (units "{" ++ (quote [233] ++ units ":" ++ tv) ++ units "," ++
                (quote [102] ++ units ":" ++ tw) ++ units "}") /\
  written <> canonicalizeJson read_back.
Proof.
  intros H1 H2 H3 Hv Hw Hne written read_back. unfold written, read_back. rewrite H1, H2. simpl.
  unfold entry_text. simpl. rewrite Hv, Hw. simpl. rewrite H1, H2, H3. split; [|done].
  by rewrite <- !app_assoc.
Qed.
End properties.

(** ** Witnesses *)

(** A text service exact on what the examples use: é composes, and numbers
    are not printed. *)
Module Sample.
#[export] Instance services : TextServices := {
  nfc s := if bool_decide (s = [101; 769]) then [233] else s;
  number_text n := units "0";
}.
Definition digest (s : string) : string := s.
Definition policy : CanonicalPayloadPolicy := {|
  policyReference := "policy:v1"; allowedTopLevelFields := ["schema"; "subject"];
  requiredTopLevelFields := ["schema"]; maximumBytes := Int 200 |}.
Definition manifest : list (ustring * json) :=
  [(units "subject", JObject [(units "b", JBool true); (units "a", JNull)]);
   (units "schema", JString (units "v1"))].
Definition reordered : list (ustring * json) :=
  [(units "schema", JString (units "v1"));
   (units "subject", JObject [(units "a", JNull); (units "b", JBool true)])].
Definition leaking : list (ustring * json) :=
  [(units "schema", JArray [JObject [(units "Private-Key", JNull)]])].
End Sample.

Section witnesses.
Import Sample.

Lemma payload_digest_order_independent_witness :
  canonicalizeJson (JObject manifest) = canonicalizeJson (JObject reordered).
Proof.
  destruct (prepareCanonicalPayload digest manifest policy) as [p|] eqn:Hp; [|by vm_compute in Hp].
  apply (payload_digest_order_independent digest manifest reordered policy p).
  - split; [apply (bool_decide_unpack _); vm_compute; exact I|].
    split; [split; [apply (bool_decide_unpack _); vm_compute; exact I|exact (conj I (conj I I))]|].
    exact (conj I I).
  - exists [(units "subject", JObject [(units "a", JNull); (units "b", JBool true)]);
            (units "schema", JString (units "v1"))].
    split; [apply Permutation_swap|].
    refine (conj (conj eq_refl _) (conj (conj eq_refl eq_refl) I)).
    exists [(units "b", JBool true); (units "a", JNull)].
    split; [apply Permutation_swap|].
    exact (conj (conj eq_refl eq_refl) (conj (conj eq_refl eq_refl) I)).
  - exact Hp.
Defined.

Lemma payload_screened_witness : screened 0 (JObject manifest).
Proof.
  destruct (prepareCanonicalPayload digest manifest policy) as [p|] eqn:Hp; [|by vm_compute in Hp].
  apply (payload_screened digest manifest policy p Hp).
Defined.

Lemma prohibited_field_refused_witness :
  exists m, prepareCanonicalPayload digest leaking policy = Err (verusError PAYLOAD_FORBIDDEN m false)
    \/ prepareCanonicalPayload digest leaking policy = Err (verusError PAYLOAD_OVERSIZE m false).
Proof.
  apply (prohibited_field_refused digest leaking policy (0 + 1 + 1)
           (JObject [(units "Private-Key", JNull)])
           [(units "Private-Key", JNull)] (units "Private-Key") JNull).
  - eapply within_entry; [left|]. eapply within_item; [left|]. apply within_self.
  - left. split_and!; [done|left|by vm_compute].
Defined.

Lemma canonical_text_not_stable_witness :
  canonicalizeJson (JObject [([101; 769], JNull); ([102], JBool true)]) <>
  canonicalizeJson (JObject [(nfc [101; 769], JNull); (nfc [102], JBool true)]).
Proof.
  apply (canonical_text_not_stable JNull (JBool true) (units "null") (units "true"));
    vm_compute; congruence.
Defined.
End witnesses.
