(* ===== verification/JsonParse.v ===== *)
(** * JsonParse: JSON.parse, TextDecoder and hexadecimal text.

    The language services packages/verus/src/reconciliation.ts reads anchored
    content with: [JSON.parse] over UTF-16 code units (the conversion of a
    number literal to a double is a service), the fatal UTF-8 decoder and
    Buffer's hex codec. *)
From Stdlib Require Import SpecFloat Ascii.
From S2P Require Import Prelude Errors Text Json.
Local Open Scope Z_scope.

(** StringToNumber on a JSON number literal. *)
Class NumberParser := { text_number : ustring -> spec_float }.

(** ** JSON.parse *)

Definition is_ws (c : Z) : bool := (c =? 32) || (c =? 9) || (c =? 10) || (c =? 13).
Definition is_digit (c : Z) : bool := (48 <=? c) && (c <=? 57).

Fixpoint skip_ws (s : ustring) : ustring :=
  match s with c :: s' => if is_ws c then skip_ws s' else s | [] => [] end.

Definition hex_value (c : Z) : option Z :=
  if is_digit c then Some (c - 48)
  else if (97 <=? c) && (c <=? 102) then Some (c - 87)
  else if (65 <=? c) && (c <=? 70) then Some (c - 55) else None.

Definition hex4 (a b c d : Z) : option Z :=
  match hex_value a, hex_value b, hex_value c, hex_value d with
  | Some a, Some b, Some c, Some d => Some (a * 4096 + b * 256 + c * 16 + d)
  | _, _, _, _ => None
  end.

(** The character after a backslash, other than [u]. *)
Definition simple_escape (c : Z) : option Z :=
  if (c =? 34) || (c =? 92) || (c =? 47) then Some c
  else if c =? 98 then Some 8 else if c =? 102 then Some 12 else if c =? 110 then Some 10
  else if c =? 114 then Some 13 else if c =? 116 then Some 9 else None.

(** The rest of a string literal, after its opening quote. *)
Fixpoint parse_string (s : ustring) : option (ustring * ustring) :=
  match s with
  | [] => None
  | c :: s' =>
    if c =? 34 then Some ([], s')
    else if c =? 92 then
      match s' with
      | e :: s'' =>
        if e =? 117 then
          match s'' with
          | a :: b :: c' :: d :: r =>
            match hex4 a b c' d, parse_string r with
            | Some u, Some (str, rest) => Some (u :: str, rest)
            | _, _ => None
            end
          | _ => None
          end
        else match simple_escape e, parse_string s'' with
             | Some u, Some (str, rest) => Some (u :: str, rest)
             | _, _ => None
             end
      | [] => None
      end
    else if c <? 32 then None
    else match parse_string s' with Some (str, rest) => Some (c :: str, rest) | None => None end
  end.

Fixpoint span_digits (s : ustring) : ustring * ustring :=
  match s with
  | c :: s' => if is_digit c then let (d, r) := span_digits s' in (c :: d, r) else ([], s)
  | [] => ([], [])
  end.

(** A number literal (sign, integer without leading zeros, fraction,
    exponent): its text and the rest. *)
Definition lex_sign (s : ustring) : ustring * ustring :=
  match s with c :: s' => if c =? 45 then ([45], s') else ([], s) | [] => ([], s) end.
Definition lex_integer (s : ustring) : option (ustring * ustring) :=
  match s with
  | c :: s' => if c =? 48 then Some ([48], s')
               else if is_digit c then Some (span_digits s) else None
  | [] => None
  end.
Definition lex_digits1 (s : ustring) : option (ustring * ustring) :=
  match span_digits s with ([], _) => None | (d, r) => Some (d, r) end.
Definition lex_fraction (s : ustring) : option (ustring * ustring) :=
  match s with
  | c :: s' => if c =? 46 then match lex_digits1 s' with
                               | Some (d, r) => Some (46 :: d, r)
                               | None => None
                               end
               else Some ([], s)
  | [] => Some ([], s)
  end.
Definition lex_exponent (s : ustring) : option (ustring * ustring) :=
  match s with
  | c :: s' =>
    if (c =? 101) || (c =? 69) then
      let (sign, r) := match s' with
                       | x :: r => if (x =? 43) || (x =? 45) then ([x], r) else ([], s')
                       | [] => ([], s')
                       end in
      match lex_digits1 r with Some (d, r') => Some (c :: sign ++ d, r') | None => None end
    else Some ([], s)
  | [] => Some ([], s)
  end.
Definition lex_number (s : ustring) : option (ustring * ustring) :=
  let (sign, s1) := lex_sign s in
  match lex_integer s1 with
  | Some (i, s2) => match lex_fraction s2 with
                    | Some (f, s3) => match lex_exponent s3 with
                                      | Some (e, s4) => Some (sign ++ i ++ f ++ e, s4)
                                      | None => None
                                      end
                    | None => None
                    end
  | None => None
  end.

(** *** Own properties: a repeated key keeps its place and takes the new
    value; array-index keys come first, in ascending order. *)
Fixpoint set_entry (k : ustring) (v : json) (es : list (ustring * json)) : list (ustring * json) :=
  match es with
  | [] => [(k, v)]
  | (k', v') :: es' => if bool_decide (k = k') then (k, v) :: es' else (k', v') :: set_entry k v es'
  end.

Definition digits_value (s : ustring) : Z := fold_left (fun n c => n * 10 + (c - 48)) s 0.
Definition array_index (k : ustring) : option Z :=
  match k with
  | [] => None
  | c :: k' =>
    if forallb is_digit k && ((0 <? c - 48) || bool_decide (k' = [])) && (digits_value k <? 4294967295)
    then Some (digits_value k) else None
  end.

Definition index_before (a b : ustring * json) : bool :=
  match array_index (fst a), array_index (fst b) with
  | Some i, Some j => i <? j
  | Some _, None => true
  | None, _ => false
  end.
Fixpoint insert_own (e : ustring * json) (l : list (ustring * json)) : list (ustring * json) :=
  match l with
  | [] => [e]
  | f :: l' => if index_before e f then e :: l else f :: insert_own e l'
  end.
(** Entries are inserted left to right, each after its equals. *)
Definition own_order (es : list (ustring * json)) : list (ustring * json) :=
  fold_left (fun l e => insert_own e l) es [].
Definition make_object (es : list (ustring * json)) : json :=
  JObject (own_order (fold_left (fun l e => set_entry (fst e) (snd e) l) es [])).

(** *** Values.  Two calls at most are made per code unit consumed, so twice
    the length of the text is fuel enough. *)
Section parser.
Context `{NumberParser}.

Definition expect (c : Z) (s : ustring) : option ustring :=
  match skip_ws s with x :: s' => if x =? c then Some s' else None | [] => None end.

Definition literal (word : ustring) (v : json) (s : ustring) : option (json * ustring) :=
  if bool_decide (take (length word) s = word) then Some (v, drop (length word) s) else None.

Fixpoint parse_value (fuel : nat) (s : ustring) : option (json * ustring) :=
  match fuel with
  | O => None
  | S fuel' =>
    match skip_ws s with
    | [] => None
    | c :: r =>
      if c =? 110 then literal (units "ull") JNull r
      else if c =? 116 then literal (units "rue") (JBool true) r
      else if c =? 102 then literal (units "alse") (JBool false) r
      else if c =? 34 then
        match parse_string r with Some (str, rest) => Some (JString str, rest) | None => None end
      else if c =? 91 then
        match expect 93 r with
        | Some rest => Some (JArray [], rest)
        | None => match parse_items fuel' r with
                  | Some (items, rest) => Some (JArray items, rest)
                  | None => None
                  end
        end
      else if c =? 123 then
        match expect 125 r with
        | Some rest => Some (JObject [], rest)
        | None => match parse_entries fuel' r with
                  | Some (entries, rest) => Some (make_object entries, rest)
                  | None => None
                  end
        end
      else match lex_number (c :: r) with
           | Some (text, rest) => Some (JNumber (text_number text), rest)
           | None => None
           end
    end
  end
with parse_items (fuel : nat) (s : ustring) : option (list json * ustring) :=
  match fuel with
  | O => None
  | S fuel' =>
    match parse_value fuel' s with
    | Some (v, r) =>
      match expect 93 r with
      | Some rest => Some ([v], rest)
      | None => match expect 44 r with
                | Some r' => match parse_items fuel' r' with
                             | Some (vs, rest) => Some (v :: vs, rest)
                             | None => None
                             end
                | None => None
                end
      end
    | None => None
    end
  end
with parse_entries (fuel : nat) (s : ustring) : option (list (ustring * json) * ustring) :=
  match fuel with
  | O => None
  | S fuel' =>
    match expect 34 s with
    | Some r0 =>
      match parse_string r0 with
      | Some (key, r1) =>
        match expect 58 r1 with
        | Some r2 =>
          match parse_value fuel' r2 with
          | Some (v, r) =>
            match expect 125 r with
            | Some rest => Some ([(key, v)], rest)
            | None => match expect 44 r with
                      | Some r' => match parse_entries fuel' r' with
                                   | Some (es, rest) => Some ((key, v) :: es, rest)
                                   | None => None
                                   end
                      | None => None
                      end
            end
          | None => None
          end
        | None => None
        end
      | None => None
      end
    | None => None
    end
  end.

(** [JSON.parse(text)], None when it throws. *)
Definition JSON_parse (text : ustring) : option json :=
  match parse_value (2 * length text + 2) text with
  | Some (v, rest) => if bool_decide (skip_ws rest = []) then Some v else None
  | None => None
  end.
End parser.

(** ** new TextDecoder("utf-8", { fatal: true }).decode(bytes) *)

Definition continuation (b : Z) : bool := (128 <=? b) && (b <=? 191).

(** The code units of a code point. *)
Definition units_of_point (c : Z) : ustring :=
  if c <? 65536 then [c] else [55296 + (c - 65536) / 1024; 56320 + (c - 65536) mod 1024].

Fixpoint utf8_decode (bs : list Z) : option ustring :=
  match bs with
  | [] => Some []
  | b :: r =>
    if b <? 128 then option_map (cons b) (utf8_decode r)
    else if b <? 194 then None
    else if b <? 224 then
      match r with
      | b1 :: r' => if continuation b1
                    then option_map (app (units_of_point ((b - 192) * 64 + (b1 - 128)))) (utf8_decode r')
                    else None
      | _ => None
      end
    else if b <? 240 then
      match r with
      | b1 :: b2 :: r' =>
        let c := (b - 224) * 4096 + (b1 - 128) * 64 + (b2 - 128) in
        if continuation b1 && continuation b2 && (2048 <=? c) && negb ((55296 <=? c) && (c <=? 57343))
        then option_map (app (units_of_point c)) (utf8_decode r') else None
      | _ => None
      end
    else if b <? 245 then
      match r with
      | b1 :: b2 :: b3 :: r' =>
        let c := (b - 240) * 262144 + (b1 - 128) * 4096 + (b2 - 128) * 64 + (b3 - 128) in
        if continuation b1 && continuation b2 && continuation b3 && (65536 <=? c) && (c <=? 1114111)
        then option_map (app (units_of_point c)) (utf8_decode r') else None
      | _ => None
      end
    else None
  end.

(** The decoder drops a leading byte order mark. *)
Definition decode_text (bs : list Z) : option ustring :=
  match bs with
  | 239 :: 187 :: 191 :: r => utf8_decode r
  | _ => utf8_decode bs
  end.

(** The code units of a text kept as its UTF-8 bytes. *)
Definition text_units (s : string) : ustring :=
  default [] (utf8_decode (Z.of_N ∘ Ascii.N_of_ascii <$> String.list_ascii_of_string s)).

(** ** Buffer hex *)

(** Buffer.from(bytes).toString("hex"). *)
Definition to_hex (bs : list Z) : ustring :=
  concat (map (fun b => [hex_digit (b / 16); hex_digit (b mod 16)]) bs).

(** Buffer.from(text, "hex") on an even-length hexadecimal text. *)
Fixpoint from_hex (s : ustring) : option (list Z) :=
  match s with
  | [] => Some []
  | [_] => None
  | a :: b :: s' =>
    match hex_value a, hex_value b, from_hex s' with
    | Some x, Some y, Some bs => Some (x * 16 + y :: bs)
    | _, _, _ => None
    end
  end.

(** ** JSON.stringify on the values of JSON *)

Fixpoint join_units (sep : ustring) (l : list ustring) : ustring :=
  match l with [] => [] | [x] => x | x :: l' => x ++ sep ++ join_units sep l' end.

(** [JSON.stringify(value)]; entries in their order, no normalisation. *)
Fixpoint JSON_stringify `{TextServices} (v : json) : ustring :=
  match v with
  | JNull => units "null"
  | JBool b => units (if b then "true" else "false")
  | JNumber n => if isFinite n then number_text n else units "null"
  | JString s => quote s
  | JArray items => units "[" ++ join_units (units ",") (JSON_stringify <$> items) ++ units "]"
  | JObject entries =>
    units "{" ++ join_units (units ",")
      ((fun e => quote (fst e) ++ units ":" ++ JSON_stringify (snd e)) <$> entries) ++ units "}"
  end.

(** A text kept as UTF-8 bytes, and [null] for an absent one, as JSON. *)
Definition jtext (s : string) : json := JString (text_units s).
Definition jtext_or_null (o : option string) : json := match o with Some s => jtext s | None => JNull end.

(** [createHash("sha256").update(text, "utf8")] hashes the UTF-8 bytes. *)
Definition utf8_text (s : ustring) : string := of_bytes (utf8 s).
