(* ===== verification/JsonFacts.v ===== *)
(** * JsonFacts: what is anchored is what is read back.

    The canonical text of a manifest survives the whole route to the chain
    and back: UTF-8, hexadecimal, JSON.parse and canonicalisation again. *)
From Stdlib Require Import SpecFloat Ascii.
From S2P Require Import Prelude Errors Text Json JsonParse.
Local Open Scope Z_scope.

(** Documented behaviour of the language's text services: normalisation is
    idempotent and yields code units; a finite number prints as a JSON number
    literal in ASCII that reads as a number printed the same. *)
Definition unit_ok (c : Z) : Prop := 0 <= c <= 65535.
Class TextLaws `{TextServices} `{NumberParser} := {
  nfc_idempotent s : nfc (nfc s) = nfc s;
  nfc_units s : Forall unit_ok s -> Forall unit_ok (nfc s);
  number_literal n : isFinite n = true -> lex_number (number_text n) = Some (number_text n, []);
  number_ascii n : isFinite n = true -> Forall (fun c => 0 <= c < 128) (number_text n);
  number_round n : isFinite n = true ->
    isFinite (text_number (number_text n)) = true /\
    number_text (text_number (number_text n)) = number_text n;
}.

(** ** Hexadecimal *)

Definition byte_ok (b : Z) : Prop := 0 <= b <= 255.

Lemma hex_value_digit n : 0 <= n < 16 -> hex_value (hex_digit n) = Some n.
Proof.
  intros Hn. unfold hex_value, hex_digit, is_digit. destruct (Z.ltb_spec n 10).
  - destruct (Z.leb_spec 48 (48 + n)), (Z.leb_spec (48 + n) 57); simpl; try lia. f_equal. lia.
  - destruct (Z.leb_spec (87 + n) 57); [lia|]. rewrite andb_false_r.
    destruct (Z.leb_spec 97 (87 + n)), (Z.leb_spec (87 + n) 102); simpl; try lia. f_equal. lia.
Qed.

Lemma hex_round bs : Forall byte_ok bs -> from_hex (to_hex bs) = Some bs.
Proof.
  unfold to_hex. induction 1 as [|b bs Hb Hbs IH]; simpl; [done|].
  unfold byte_ok in Hb. rewrite !hex_value_digit, IH by (Z.to_euclidean_division_equations; lia).
  do 2 f_equal. Z.to_euclidean_division_equations. lia.
Qed.

Lemma to_hex_length bs : length (to_hex bs) = (2 * length bs)%nat.
Proof. unfold to_hex. induction bs; simpl in *; lia. Qed.

(** ** UTF-8 *)

(** Well-formed UTF-16: no surrogate alone. *)
Inductive wf16 : ustring -> Prop :=
| wf_nil : wf16 []
| wf_unit c s : unit_ok c -> high_surrogate c = false -> low_surrogate c = false -> wf16 s -> wf16 (c :: s)
| wf_pair c d s : high_surrogate c = true -> low_surrogate d = true -> wf16 s -> wf16 (c :: d :: s).

Definition point_ok (c : Z) : Prop := 0 <= c <= 1114111 /\ ~ (55296 <= c <= 57343).

Ltac euclid := Z.to_euclidean_division_equations; lia.

Lemma utf8_point_decode c r : point_ok c ->
  utf8_decode (utf8_point c ++ r) = option_map (app (units_of_point c)) (utf8_decode r).
Proof.
  intros [Hc Hs]. unfold utf8_point.
  destruct (Z.ltb_spec c 128); [|destruct (Z.ltb_spec c 2048); [|destruct (Z.ltb_spec c 65536)]].
  - cbn [app utf8_decode]. destruct (Z.ltb_spec c 128); [|lia]. unfold units_of_point.
    destruct (Z.ltb_spec c 65536); [|lia]. by destruct (utf8_decode r).
  - cbn [app utf8_decode]. unfold continuation.
    destruct (Z.ltb_spec (192 + c / 64) 128); [euclid|]. destruct (Z.ltb_spec (192 + c / 64) 194); [euclid|].
    destruct (Z.ltb_spec (192 + c / 64) 224); [|euclid].
    destruct (Z.leb_spec 128 (128 + c mod 64)); [|euclid]. destruct (Z.leb_spec (128 + c mod 64) 191); [|euclid].
    cbn [andb]. do 3 f_equal. euclid.
  - cbn [app utf8_decode]. unfold continuation.
    destruct (Z.ltb_spec (224 + c / 4096) 128); [euclid|]. destruct (Z.ltb_spec (224 + c / 4096) 194); [euclid|].
    destruct (Z.ltb_spec (224 + c / 4096) 224); [euclid|]. destruct (Z.ltb_spec (224 + c / 4096) 240); [|euclid].
    replace ((224 + c / 4096 - 224) * 4096 + (128 + c / 64 mod 64 - 128) * 64 + (128 + c mod 64 - 128))
      with c by euclid.
    destruct (Z.leb_spec 128 (128 + c / 64 mod 64)); [|euclid]. destruct (Z.leb_spec (128 + c / 64 mod 64) 191); [|euclid].
    destruct (Z.leb_spec 128 (128 + c mod 64)); [|euclid]. destruct (Z.leb_spec (128 + c mod 64) 191); [|euclid].
    destruct (Z.leb_spec 2048 c); [|lia].
    destruct (Z.leb_spec 55296 c), (Z.leb_spec c 57343); cbn [andb negb]; try done; lia.
  - cbn [app utf8_decode]. unfold continuation.
    destruct (Z.ltb_spec (240 + c / 262144) 128); [euclid|]. destruct (Z.ltb_spec (240 + c / 262144) 194); [euclid|].
    destruct (Z.ltb_spec (240 + c / 262144) 224); [euclid|]. destruct (Z.ltb_spec (240 + c / 262144) 240); [euclid|].
    destruct (Z.ltb_spec (240 + c / 262144) 245); [|euclid].
    replace ((240 + c / 262144 - 240) * 262144 + (128 + c / 4096 mod 64 - 128) * 4096 +
             (128 + c / 64 mod 64 - 128) * 64 + (128 + c mod 64 - 128)) with c by euclid.
    destruct (Z.leb_spec 128 (128 + c / 4096 mod 64)); [|euclid]. destruct (Z.leb_spec (128 + c / 4096 mod 64) 191); [|euclid].
    destruct (Z.leb_spec 128 (128 + c / 64 mod 64)); [|euclid]. destruct (Z.leb_spec (128 + c / 64 mod 64) 191); [|euclid].
    destruct (Z.leb_spec 128 (128 + c mod 64)); [|euclid]. destruct (Z.leb_spec (128 + c mod 64) 191); [|euclid].
    destruct (Z.leb_spec 65536 c); [|lia]. destruct (Z.leb_spec c 1114111); [|lia]. done.
Qed.

Lemma utf8_point_bytes c : point_ok c -> Forall byte_ok (utf8_point c).
Proof.
  intros [Hc _]. unfold utf8_point, byte_ok. repeat case_match; repeat constructor; 
    repeat match goal with H : (_ <? _) = _ |- _ => first [apply Z.ltb_lt in H|apply Z.ltb_ge in H] end; euclid.
Qed.

Lemma surrogates c : (high_surrogate c = true <-> 55296 <= c <= 56319) /\
  (low_surrogate c = true <-> 56320 <= c <= 57343).
Proof.
  unfold high_surrogate, low_surrogate. rewrite !andb_true_iff, !Z.leb_le. done.
Qed.

Lemma utf8_round s : wf16 s -> utf8_decode (utf8 s) = Some s /\ Forall byte_ok (utf8 s).
Proof.
  induction 1 as [|c s Hc Hh Hl Hs [IHd IHb]|c d s Hh Hl Hs [IHd IHb]]; [done| |].
  - cbn [utf8]. rewrite Hh, Hl.
    assert (Hp : point_ok c).
    { unfold unit_ok in Hc. split; [lia|]. intros Hr. destruct (surrogates c) as [H1 H2].
      destruct (decide (c <= 56319)); [rewrite (proj2 H1) in Hh|rewrite (proj2 H2) in Hl]; lia || done. }
    rewrite utf8_point_decode, IHd by done. split; [|apply Forall_app; split; [by apply utf8_point_bytes|done]].
    unfold units_of_point. unfold unit_ok in Hc. destruct (Z.ltb_spec c 65536); [done|lia].
  - cbn [utf8]. rewrite Hh, Hl. apply (surrogates c) in Hh. apply (surrogates d) in Hl.
    set (p := 65536 + (c - 55296) * 1024 + (d - 56320)).
    assert (Hp : point_ok p) by (unfold point_ok, p; lia).
    rewrite utf8_point_decode, IHd by done. split; [|apply Forall_app; split; [by apply utf8_point_bytes|done]].
    unfold units_of_point. destruct (Z.ltb_spec p 65536); [unfold p in *; lia|]. simpl.
    unfold p. do 3 f_equal; [|f_equal]; euclid.
Qed.

(** ** String literals *)

Lemma parse_unit c r : unit_ok c ->
  parse_string (quote_unit c ++ r) = option_map (prod_map (cons c) id) (parse_string r).
Proof.
  intros Hc. unfold unit_ok in Hc. unfold quote_unit.
  destruct (Z.eqb_spec c 34) as [->|H34]; [simpl; by destruct (parse_string r) as [[]|]|].
  destruct (Z.eqb_spec c 92) as [->|H92]; [simpl; by destruct (parse_string r) as [[]|]|].
  destruct (Z.eqb_spec c 8) as [->|?]; [simpl; by destruct (parse_string r) as [[]|]|].
  destruct (Z.eqb_spec c 9) as [->|?]; [simpl; by destruct (parse_string r) as [[]|]|].
  destruct (Z.eqb_spec c 10) as [->|?]; [simpl; by destruct (parse_string r) as [[]|]|].
  destruct (Z.eqb_spec c 12) as [->|?]; [simpl; by destruct (parse_string r) as [[]|]|].
  destruct (Z.eqb_spec c 13) as [->|?]; [simpl; by destruct (parse_string r) as [[]|]|].
  destruct ((c <? 32) || high_surrogate c || low_surrogate c) eqn:E.
  - unfold unicode_escape. cbn [units app parse_string].
    change (Z.of_nat (nat_of_ascii "\")) with 92. change (Z.of_nat (nat_of_ascii "u")) with 117.
    cbn [Z.eqb Pos.eqb]. unfold hex4. rewrite !hex_value_digit by euclid.
    replace (c / 4096 * 4096 + c / 256 mod 16 * 256 + c / 16 mod 16 * 16 + c mod 16) with c by euclid.
    by destruct (parse_string r) as [[]|].
  - rewrite !orb_false_iff in E. destruct E as [[E _] _]. cbn [app parse_string].
    apply Z.eqb_neq in H34, H92. rewrite H34, H92, E. by destruct (parse_string r) as [[]|].
Qed.

(** The induction that follows [quote_units] and [utf8]: two units at a
    time on a surrogate pair, one otherwise. *)
Lemma pair_ind (P : ustring -> Prop) :
  P [] ->
  (forall c d s, high_surrogate c = true -> low_surrogate d = true -> P s -> P (c :: d :: s)) ->
  (forall c s, match s with d :: _ => high_surrogate c && low_surrogate d = false | [] => True end ->
               P s -> P (c :: s)) ->
  forall s, P s.
Proof.
  intros Hnil Hpair Hone s. remember (length s) as n eqn:Hn.
  revert s Hn. induction (lt_wf n) as [n _ IH]. intros [|c s] ->; [done|].
  destruct s as [|d s]; [apply Hone; [done|exact Hnil]|].
  destruct (high_surrogate c && low_surrogate d) eqn:E.
  - apply andb_true_iff in E as [Ec Ed]. apply Hpair; [done..|].
    apply (IH (length s)); [simpl; lia|done].
  - apply Hone; [done|]. apply (IH (length (d :: s))); [simpl; lia|done].
Qed.

Lemma quote_units_one c s :
  match s with d :: _ => high_surrogate c && low_surrogate d = false | [] => True end ->
  quote_units (c :: s) = quote_unit c ++ quote_units s.
Proof. destruct s as [|d s]; simpl; [by rewrite app_nil_r|]. by intros ->. Qed.

Lemma parse_quoted s rest : Forall unit_ok s ->
  parse_string (quote_units s ++ 34 :: rest) = Some (s, rest).
Proof.
  revert s. refine (pair_ind _ _ _ _).
  - done.
  - intros c d s Hc Hd IH Hok. inversion Hok as [|?? _ Hok']; inversion Hok'; subst.
    simpl. rewrite Hc, Hd. simpl. apply (surrogates c) in Hc. apply (surrogates d) in Hd.
    rewrite IH by done.
    destruct (Z.eqb_spec c 34); [lia|]. destruct (Z.eqb_spec c 92); [lia|]. destruct (Z.ltb_spec c 32); [lia|].
    destruct (Z.eqb_spec d 34); [lia|]. destruct (Z.eqb_spec d 92); [lia|]. destruct (Z.ltb_spec d 32); [lia|].
    done.
  - intros c s Hcs IH Hok. inversion Hok; subst. rewrite quote_units_one, <- app_assoc by done.
    by rewrite parse_unit, IH.
Qed.

Lemma wf16_app s t : wf16 s -> wf16 t -> wf16 (s ++ t).
Proof. induction 1; simpl; intros; [done|by constructor; auto..]. Qed.

Lemma wf16_ascii s : Forall (fun c => 0 <= c < 128) s -> wf16 s.
Proof.
  assert (Hno : forall c, 0 <= c < 128 -> high_surrogate c = false /\ low_surrogate c = false).
  { intros c Hc. split; apply not_true_iff_false; intros E; apply (surrogates c) in E; lia. }
  induction 1 as [|c s Hc Hs IH]; [constructor|]. destruct (Hno c Hc). constructor; try done. unfold unit_ok. lia.
Qed.

Lemma hex_digit_ascii n : 0 <= n < 16 -> 0 <= hex_digit n < 128.
Proof. intros. unfold hex_digit. case_match; lia. Qed.

Lemma quote_unit_wf c : unit_ok c -> wf16 (quote_unit c).
Proof.
  intros Hc. unfold quote_unit.
  do 7 (case_match; [apply wf16_ascii; apply (bool_decide_unpack _); vm_compute; exact I|]).
  case_match eqn:E.
  - apply wf16_ascii. unfold unit_ok in Hc. unfold unicode_escape.
    repeat constructor; try (simpl; lia); apply hex_digit_ascii; euclid.
  - rewrite !orb_false_iff in E. destruct_and?. by constructor; [..|constructor].
Qed.

Lemma quote_units_wf s : Forall unit_ok s -> wf16 (quote_units s).
Proof.
  revert s. refine (pair_ind _ _ _ _).
  - constructor.
  - intros c d s Hc Hd IH Hok. inversion Hok as [|?? _ Hok']; inversion Hok'; subst.
    simpl. rewrite Hc, Hd. simpl. apply wf_pair; auto.
  - intros c s Hcs IH Hok. inversion Hok; subst. rewrite quote_units_one by done.
    apply wf16_app; [by apply quote_unit_wf|auto].
Qed.

Lemma quote_wf s : Forall unit_ok s -> wf16 (quote s).
Proof.
  intros Hs. unfold quote. apply wf16_app; [apply wf16_ascii; repeat constructor; lia|].
  apply wf16_app; [by apply quote_units_wf|apply wf16_ascii; repeat constructor; lia].
Qed.

(** ** Number literals in a longer text *)

(** What may follow a value in canonical text. *)
Definition stop (rest : ustring) : Prop :=
  match rest with
  | [] => True
  | c :: _ => is_ws c = false /\ is_digit c = false /\ c <> 46 /\ c <> 101 /\ c <> 69
  end.

Section numbers.
Context (rest : ustring) (Hstop : stop rest).

Lemma span_digits_app s : span_digits (s ++ rest) = prod_map id (fun r => r ++ rest) (span_digits s).
Proof.
  induction s as [|c s IH]; simpl.
  - destruct rest as [|c r]; [done|]. simpl. by destruct Hstop as (_ & -> & _).
  - destruct (is_digit c); [|done]. rewrite IH. by destruct (span_digits s).
Qed.

Lemma lex_integer_app s i r : lex_integer s = Some (i, r) -> lex_integer (s ++ rest) = Some (i, r ++ rest).
Proof.
  destruct s as [|c s]; [done|]. simpl. destruct (c =? 48); [by intros [= <- <-]|].
  destruct (is_digit c); [|done]. intros [= E]. rewrite span_digits_app. simpl in E.
  destruct (span_digits s). naive_solver.
Qed.

Lemma lex_digits1_app s d r : lex_digits1 s = Some (d, r) -> lex_digits1 (s ++ rest) = Some (d, r ++ rest).
Proof.
  unfold lex_digits1. rewrite span_digits_app. destruct (span_digits s) as [[|x d'] r']; simpl; naive_solver.
Qed.

Lemma lex_fraction_app s f r : lex_fraction s = Some (f, r) -> lex_fraction (s ++ rest) = Some (f, r ++ rest).
Proof.
  destruct s as [|c s]; simpl.
  - intros [= <- <-]. destruct rest as [|c r']; [done|]. simpl. destruct Hstop as (_ & _ & H46 & _).
    by apply Z.eqb_neq in H46 as ->.
  - destruct (c =? 46); [|by intros [= <- <-]].
    destruct (lex_digits1 s) as [[d r']|] eqn:E; [|done]. by rewrite (lex_digits1_app _ _ _ E); intros [= <- <-].
Qed.

Lemma lex_exponent_app s e r : lex_exponent s = Some (e, r) -> lex_exponent (s ++ rest) = Some (e, r ++ rest).
Proof.
  destruct s as [|c s]; simpl.
  - intros [= <- <-]. destruct rest as [|c r']; [done|]. simpl. destruct Hstop as (_ & _ & _ & H1 & H2).
    apply Z.eqb_neq in H1, H2. by rewrite H1, H2.
  - destruct ((c =? 101) || (c =? 69)); [|by intros [= <- <-]].
    destruct s as [|x s]; simpl; [done|].
    destruct ((x =? 43) || (x =? 45)).
    + destruct (lex_digits1 s) as [[d r']|] eqn:E; [|done].
      by rewrite (lex_digits1_app _ _ _ E); intros [= <- <-].
    + destruct (lex_digits1 (x :: s)) as [[d r']|] eqn:E; [|done].
      apply lex_digits1_app in E. simpl in E. by rewrite E; intros [= <- <-].
Qed.

Lemma lex_number_app t : lex_number t = Some (t, []) -> lex_number (t ++ rest) = Some (t, rest).
Proof.
  unfold lex_number. intros Hlex.
  assert (Hsign : lex_integer (snd (lex_sign t)) <> None ->
                  lex_sign (t ++ rest) = prod_map id (fun r => r ++ rest) (lex_sign t)).
  { destruct t as [|c t]; [done|]. intros _. simpl. by destruct (c =? 45). }
  destruct (lex_sign t) as [sg s1]. simpl in Hsign.
  destruct (lex_integer s1) as [[i s2]|] eqn:Ei; [|done].
  destruct (lex_fraction s2) as [[f s3]|] eqn:Ef; [|done].
  destruct (lex_exponent s3) as [[e s4]|] eqn:Ee; [|done].
  rewrite Hsign by done. simpl.
  rewrite (lex_integer_app _ _ _ Ei), (lex_fraction_app _ _ _ Ef), (lex_exponent_app _ _ _ Ee).
  injection Hlex as Ht ->. by rewrite Ht.
Qed.
End numbers.

Lemma lex_number_head t : lex_number t = Some (t, []) ->
  exists c r, t = c :: r /\ (c = 45 \/ is_digit c = true).
Proof.
  unfold lex_number. destruct t as [|c t]; [done|]. intros Hlex. exists c, t. split; [done|].
  simpl in Hlex. destruct (Z.eqb_spec c 45); [by left|]. right.
  simpl in Hlex. destruct (Z.eqb_spec c 48) as [->|]; [done|]. by destruct (is_digit c).
Qed.

(** ** Values *)

Fixpoint join (sep : ustring) (ts : list ustring) : ustring :=
  match ts with [] => [] | [t] => t | t :: ts' => t ++ sep ++ join sep ts' end.

Lemma join_results_ok sep rs t : join_results sep rs = Ok t -> exists ts, rs = Ok <$> ts /\ t = join sep ts.
Proof.
  revert t. induction rs as [|r rs IH]; intros t.
  - intros [= <-]. by exists [].
  - destruct rs as [|r' rs].
    + simpl. intros ->. by exists [t].
    + change (join_results sep (r :: r' :: rs)) with
        (let! a := r in let! b := join_results sep (r' :: rs) in Ok (a ++ sep ++ b)).
      rewrite bindR_ok. intros (a & -> & Hb). rewrite bindR_ok in Hb. destruct Hb as (b & Hb & [= <-]).
      destruct (IH b Hb) as (ts & Hts & ->). exists (a :: ts). rewrite Hts. split; [done|].
      destruct ts; [done|]. reflexivity.
Qed.

Lemma join_results_Ok sep ts : join_results sep (Ok <$> ts) = Ok (join sep ts).
Proof.
  induction ts as [|t ts IH]; [done|]. destruct ts as [|u ts]; [done|].
  change (join_results sep (Ok <$> t :: u :: ts)) with
    (let! a := Ok t in let! b := join_results sep (Ok <$> u :: ts) in Ok (a ++ sep ++ b)).
  by rewrite IH.
Qed.

Section reads.
Context `{NumberParser}.

Definition starts (t : ustring) : Prop := exists c r, t = c :: r /\ is_ws c = false /\ c <> 93.

(** JSON.parse reads [t], whatever follows it, as [w]. *)
Definition reads (t : ustring) (w : json) : Prop :=
  starts t /\
  forall fuel rest, (2 * length t <= fuel)%nat -> stop rest -> parse_value fuel (t ++ rest) = Some (w, rest).

Lemma reads_word t w :
  (t, w) ∈ [(units "null", JNull); (units "true", JBool true); (units "false", JBool false)] -> reads t w.
Proof.
  rewrite !elem_of_cons, elem_of_nil.
  intros [[= -> ->]|[[= -> ->]|[[= -> ->]|[]]]]; (split; [by do 2 eexists|]);
    intros [|fuel] rest Hf _; (simpl in Hf; lia) || reflexivity.
Qed.

Lemma reads_number t : lex_number t = Some (t, []) -> reads t (JNumber (text_number t)).
Proof.
  intros Hlex. destruct (lex_number_head t Hlex) as (c & r & -> & Hc).
  assert (Hr : c = 45 \/ 48 <= c <= 57).
  { destruct Hc as [?|Hd]; [by left|]. unfold is_digit in Hd. rewrite andb_true_iff, !Z.leb_le in Hd. by right. }
  assert (Hws : is_ws c = false).
  { unfold is_ws. rewrite !orb_false_iff, !Z.eqb_neq. lia. }
  split; [exists c, r; split_and!; [done|done|lia]|]. intros [|fuel] rest Hf Hstop; [simpl in Hf; lia|].
  pose proof (lex_number_app rest Hstop _ Hlex) as Happ. simpl app in *.
  cbn [parse_value skip_ws]. rewrite Hws.
  repeat match goal with |- context [c =? ?k] => destruct (Z.eqb_spec c k); [lia|] end.
  by rewrite Happ.
Qed.

(** *** The equations of the parser on a bracket or quote *)

Lemma parse_value_string fuel r :
  parse_value (S fuel) (34 :: r) =
  match parse_string r with Some (str, rest) => Some (JString str, rest) | None => None end.
Proof. reflexivity. Qed.

Lemma parse_value_array fuel r :
  parse_value (S fuel) (91 :: r) =
  match expect 93 r with
  | Some rest => Some (JArray [], rest)
  | None => match parse_items fuel r with
            | Some (items, rest) => Some (JArray items, rest)
            | None => None
            end
  end.
Proof. reflexivity. Qed.

Lemma parse_value_object fuel r :
  parse_value (S fuel) (123 :: r) =
  match expect 125 r with
  | Some rest => Some (JObject [], rest)
  | None => match parse_entries fuel r with
            | Some (entries, rest) => Some (make_object entries, rest)
            | None => None
            end
  end.
Proof. reflexivity. Qed.

Lemma quote_app s r : quote s ++ r = 34 :: quote_units s ++ 34 :: r.
Proof. unfold quote. simpl. by rewrite <- app_assoc. Qed.

Lemma reads_quoted s : Forall unit_ok s -> reads (quote s) (JString s).
Proof.
  intros Hs. split; [by do 2 eexists|]. intros [|fuel] rest Hf Hstop; [simpl in Hf; lia|].
  by rewrite quote_app, parse_value_string, parse_quoted.
Qed.

Lemma expect_hit c r : is_ws c = false -> expect c (c :: r) = Some r.
Proof. intros Hc. unfold expect. simpl. by rewrite Hc, Z.eqb_refl. Qed.

Lemma expect_miss c d r : is_ws d = false -> d <> c -> expect c (d :: r) = None.
Proof. intros Hd Hne. unfold expect. simpl. rewrite Hd. by apply Z.eqb_neq in Hne as ->. Qed.

Lemma stop_in c rest : c ∈ [44; 93; 125] -> stop (c :: rest).
Proof. rewrite !elem_of_cons, elem_of_nil. intros [->|[->|[->|[]]]]; split_and!; done. Qed.

Lemma reads_items ts ws : Forall2 reads ts ws -> ts <> [] ->
  forall fuel rest, (2 * length (join [44%Z] ts) + 1 <= fuel)%nat ->
    parse_items fuel (join [44] ts ++ 93 :: rest) = Some (ws, rest).
Proof.
  induction 1 as [|t w ts ws [Hst Ht] Hrest IH]; [done|]. intros _ [|fuel] rest Hf; [lia|].
  destruct ts as [|t' ts].
  - inversion Hrest; subst. simpl join in *. cbn [parse_items].
    rewrite Ht by (lia || by apply stop_in; set_solver). by rewrite expect_hit.
  - change (join [44] (t :: t' :: ts)) with (t ++ [44] ++ join [44] (t' :: ts)) in *.
    rewrite !length_app in Hf. simpl (length [44]) in Hf. rewrite <- !app_assoc. cbn [app parse_items].
    rewrite Ht by (lia || by apply stop_in; set_solver).
    rewrite expect_miss, expect_hit by done. rewrite IH by (done || lia). done.
Qed.

Lemma join_starts ts ws : Forall2 reads ts ws -> ts <> [] -> starts (join [44] ts).
Proof.
  intros [|t w ts' ws' [Hst _] _]; [done|]. intros _. destruct Hst as (c & r & -> & Hc & Hne).
  destruct ts' as [|t' ts']; [by exists c, r|]. by exists c, (r ++ [44] ++ join [44] (t' :: ts')).
Qed.

Lemma reads_array ts ws : Forall2 reads ts ws ->
  reads (units "[" ++ join (units ",") ts ++ units "]") (JArray ws).
Proof.
  intros Hts. split; [by do 2 eexists|]. intros [|fuel] rest Hf Hstop; [simpl in Hf; lia|].
  change (units "[") with [91]. change (units ",") with [44]. change (units "]") with [93].
  change (units "[") with [91] in Hf. change (units ",") with [44] in Hf. change (units "]") with [93] in Hf.
  rewrite !length_app in Hf. simpl (length [_]) in Hf. rewrite <- !app_assoc. cbn [app].
  rewrite parse_value_array.
  destruct ts as [|t ts].
  - inversion Hts; subst. reflexivity.
  - destruct (join_starts _ _ Hts) as (c & r & Hj & Hc & Hne); [done|].
    rewrite Hj at 1. cbn [app]. rewrite expect_miss by done. by rewrite (reads_items _ _ Hts) by (done || lia).
Qed.

(** An entry's text: its quoted key, a colon, its value's text. *)
Definition reads_entry (e : ustring * ustring) (w : ustring * json) : Prop :=
  fst e = fst w /\ Forall unit_ok (fst e) /\ reads (snd e) (snd w).
Definition entry_of (e : ustring * ustring) : ustring := quote (fst e) ++ units ":" ++ snd e.

Lemma entry_of_app e r : entry_of e ++ r = 34 :: quote_units (fst e) ++ 34 :: 58 :: snd e ++ r.
Proof. unfold entry_of. rewrite <- app_assoc, quote_app. simpl. done. Qed.

Lemma entry_of_length e : (length (entry_of e) = length (quote_units (fst e)) + length (snd e) + 3)%nat.
Proof. unfold entry_of, quote. rewrite !length_app. simpl. lia. Qed.

Lemma reads_entries es ws : Forall2 reads_entry es ws -> es <> [] ->
  forall fuel rest, (2 * length (join [44%Z] (entry_of <$> es)) + 1 <= fuel)%nat ->
    parse_entries fuel (join [44] (entry_of <$> es) ++ 125 :: rest) = Some (ws, rest).
Proof.
  induction 1 as [|e [k w] es ws (Hk & Hu & Hst & Ht) Hrest IH]; [done|]. intros _ [|fuel] rest Hf; [lia|].
  simpl in Hk, Hst, Ht. subst k.
  destruct es as [|e' es].
  - inversion Hrest; subst. simpl join in *. rewrite entry_of_length in Hf. rewrite entry_of_app.
    cbn [parse_entries]. rewrite expect_hit, parse_quoted, expect_hit by done.
    rewrite Ht by (lia || by apply stop_in; set_solver). by rewrite expect_hit.
  - change (join [44] (entry_of <$> e :: e' :: es))
      with (entry_of e ++ [44] ++ join [44] (entry_of <$> e' :: es)) in *.
    rewrite !length_app, entry_of_length in Hf. simpl (length [44]) in Hf.
    rewrite <- !app_assoc, entry_of_app. cbn [app parse_entries].
    rewrite expect_hit, parse_quoted, expect_hit by done.
    rewrite Ht by (lia || by apply stop_in; set_solver).
    rewrite expect_miss, expect_hit by done. rewrite IH by (done || lia). done.
Qed.

Lemma reads_object es ws : Forall2 reads_entry es ws ->
  reads (units "{" ++ join (units ",") (entry_of <$> es) ++ units "}") (make_object ws).
Proof.
  intros Hes. split; [by do 2 eexists|]. intros [|fuel] rest Hf Hstop; [simpl in Hf; lia|].
  change (units "{") with [123] in *. change (units ",") with [44] in *. change (units "}") with [125] in *.
  rewrite !length_app in Hf. simpl (length [_]) in Hf. rewrite <- !app_assoc. cbn [app].
  rewrite parse_value_object. destruct es as [|e es].
  - inversion Hes; subst. reflexivity.
  - assert (Hq : exists r, join [44] (entry_of <$> e :: es) = 34 :: r).
    { destruct es; simpl; unfold entry_of; rewrite quote_app; by eexists. }
    destruct Hq as [r Hq]. rewrite Hq at 1. cbn [app]. rewrite expect_miss by done.
    by rewrite (reads_entries _ _ Hes) by (done || lia).
Qed.
End reads.

(** ** Objects rebuilt from distinct keys *)

Lemma set_entry_fresh k v es : k ∉ fst <$> es -> set_entry k v es = es ++ [(k, v)].
Proof.
  induction es as [|[k' v'] es IH]; simpl; [done|]. rewrite not_elem_of_cons. intros [Hne Hk].
  rewrite bool_decide_false by done. by rewrite IH.
Qed.

Lemma insert_own_perm e l : insert_own e l ≡ₚ e :: l.
Proof.
  induction l as [|f l IH]; simpl; [done|]. destruct (index_before e f); [done|].
  rewrite IH. apply Permutation_swap.
Qed.

Lemma make_object_perm es : NoDup (fst <$> es) -> exists es', make_object es = JObject es' /\ es' ≡ₚ es.
Proof.
  intros Hnd. eexists. split; [done|].
  assert (Hset : forall acc l, NoDup (fst <$> acc ++ l) ->
            fold_left (fun l e => set_entry (fst e) (snd e) l) l acc = acc ++ l).
  { intros acc l. revert acc. induction l as [|[k v] l IH]; intros acc Hn; simpl; [by rewrite app_nil_r|].
    rewrite set_entry_fresh.
    - rewrite IH; rewrite <- app_assoc; done.
    - rewrite fmap_app, NoDup_app in Hn. destruct Hn as (_ & Hd & _). intros Hin.
      apply (Hd k Hin). simpl. left. }
  rewrite (Hset [] es Hnd). simpl. unfold own_order.
  assert (Hord : forall acc l, fold_left (fun l e => insert_own e l) l acc ≡ₚ acc ++ l).
  { intros acc l. revert acc. induction l as [|e l IH]; intros acc; simpl; [by rewrite app_nil_r|].
    rewrite IH, insert_own_perm. simpl. by rewrite Permutation_middle. }
  apply (Hord []).
Qed.

Lemma insert_entry_sorted_perm {A} (e : ustring * A) l : insert_entry e l ≡ₚ e :: l.
Proof.
  induction l as [|f l IH]; simpl; [done|]. destruct (ult _ _); [|done].
  rewrite IH. apply Permutation_swap.
Qed.

Lemma sort_entries_permutes {A} (l : list (ustring * A)) : sort_entries l ≡ₚ l.
Proof. induction l as [|e l IH]; simpl; [done|]. by rewrite insert_entry_sorted_perm, IH. Qed.

(** ** The round trip *)

(** A value as JavaScript holds one (distinct keys, strings of code units)
    whose keys are normalised. *)
Fixpoint regular `{TextServices} (v : json) : Prop :=
  match v with
  | JString s => Forall unit_ok s
  | JArray xs => all regular xs
  | JObject es =>
    NoDup (fst <$> es)
    /\ all (fun e => Forall unit_ok (fst e) /\ nfc (fst e) = fst e /\ regular (snd e)) es
  | _ => True
  end.

Lemma choose_Forall2 {A B} (R : A -> B -> Prop) (xs : list A) :
  (forall x, x ∈ xs -> exists y, R x y) -> exists ys, Forall2 R xs ys.
Proof.
  induction xs as [|x xs IH]; intros Hall; [by exists []|].
  destruct (Hall x) as [y Hy]; [set_solver|]. destruct IH as [ys Hys]; [set_solver|].
  exists (y :: ys). by constructor.
Qed.

Lemma Forall2_images {A B C} (f : A -> C) (g : B -> C) xs ys :
  Forall2 (fun x y => f x = g y) xs ys -> f <$> xs = g <$> ys.
Proof. induction 1; [done|]. rewrite !fmap_cons. by f_equal. Qed.

Lemma Forall2_split {A B} (P Q : A -> B -> Prop) xs ys :
  Forall2 (fun x y => P x y /\ Q x y) xs ys -> Forall2 P xs ys /\ Forall2 Q xs ys.
Proof. induction 1 as [|x y xs ys [HP HQ] _ [IHP IHQ]]; split; by constructor. Qed.

Lemma join_wf sep ts : wf16 sep -> Forall wf16 ts -> wf16 (join sep ts).
Proof.
  intros Hsep. induction 1 as [|t ts Ht Hts IH]; [constructor|]. destruct ts as [|u ts]; [done|].
  change (join sep (t :: u :: ts)) with (t ++ sep ++ join sep (u :: ts)). auto using wf16_app.
Qed.

Section roundtrip.
Context `{TextServices} `{NumberParser} `{!TextLaws}.

Lemma entry_texts (S : list (ustring * result exn ustring)) ts :
  entry_text <$> S = Ok <$> ts -> Forall (fun e => nfc (fst e) = fst e) S ->
  exists es, S = prod_map id Ok <$> es /\ ts = entry_of <$> es.
Proof.
  revert ts. induction S as [|[k r] S IH]; intros [|t ts] Heq Hn; try done; [by exists []|].
  simpl in Heq. injection Heq as Ht Hts. inversion Hn as [|?? Hk Hn']; subst. simpl in Hk.
  destruct (IH ts Hts Hn') as (es & -> & ->).
  unfold entry_text in Ht. simpl in Ht. rewrite bindR_ok in Ht. destruct Ht as (u & -> & [= <-]).
  exists ((k, u) :: es). unfold entry_of. simpl. by rewrite Hk.
Qed.

Definition survives (t : ustring) (w : json) : Prop := reads t w /\ canonicalizeJson w = Ok t.

Lemma array_survives items t :
  (forall x u, x ∈ items -> canonicalizeJson x = Ok u -> wf16 u /\ exists w, survives u w) ->
  canonicalizeJson (JArray items) = Ok t -> wf16 t /\ exists w, survives t w.
Proof.
  intros IH Hc. cbn [canonicalizeJson] in Hc. rewrite bindR_ok in Hc. destruct Hc as (body & Hb & Hc). apply Ok_inj in Hc as <-.
  apply join_results_ok in Hb as (ts & Hts & ->).
  assert (Hin : forall u, u ∈ ts -> wf16 u /\ exists w, survives u w).
  { intros u Hu. assert (Hu' : Ok u ∈ canonicalizeJson <$> items) by (rewrite Hts; by apply list_elem_of_fmap_2).
    apply list_elem_of_fmap in Hu' as (x & Hx & Hxin). by apply (IH x). }
  split.
  - apply wf16_app; [by apply wf16_ascii; repeat constructor|].
    apply wf16_app; [|by apply wf16_ascii; repeat constructor].
    apply join_wf; [by apply wf16_ascii; repeat constructor|]. rewrite Forall_forall. naive_solver.
  - destruct (choose_Forall2 (fun u w => reads u w /\ canonicalizeJson w = Ok u) ts) as [ws Hws]; [naive_solver|].
    apply Forall2_split in Hws as [Hreads Hcanon].
    exists (JArray ws). split; [by apply reads_array|]. simpl.
    apply Forall2_flip, Forall2_images in Hcanon. rewrite Hcanon, join_results_Ok. done.
Qed.

Lemma object_survives es t :
  NoDup (fst <$> es) ->
  (forall k x, (k, x) ∈ es -> Forall unit_ok k /\ nfc k = k) ->
  (forall k x u, (k, x) ∈ es -> canonicalizeJson x = Ok u -> wf16 u /\ exists w, survives u w) ->
  canonicalizeJson (JObject es) = Ok t -> wf16 t /\ exists w, survives t w.
Proof.
  intros Hnd Hkeys IH Hc. cbn [canonicalizeJson] in Hc. rewrite bindR_ok in Hc. destruct Hc as (body & Hb & Hc). apply Ok_inj in Hc as <-.
  apply join_results_ok in Hb as (ts & Hts & ->).
  set (S := sort_entries (prod_map id canonicalizeJson <$> es)) in *.
  assert (HS : forall k r, (k, r) ∈ S -> exists x, (k, x) ∈ es /\ r = canonicalizeJson x).
  { intros k r Hin. unfold S in Hin. rewrite sort_entries_permutes in Hin.
    apply list_elem_of_fmap in Hin as ([k' x] & [= -> ->] & Hin). by exists x. }
  apply entry_texts in Hts as (us & HSus & ->).
  2:{ rewrite Forall_forall. intros [k r] Hin. destruct (HS k r Hin) as (x & Hx & _).
      by apply (Hkeys k x). }
  assert (Hin : forall k u, (k, u) ∈ us -> Forall unit_ok k /\ wf16 u /\ exists w, survives u w).
  { intros k u Hku. destruct (HS k (Ok u)) as (x & Hx & Hu).
    { rewrite HSus. apply list_elem_of_fmap. by exists (k, u). }
    split; [by apply (Hkeys k x)|]. by apply (IH k x). }
  split.
  - apply wf16_app; [by apply wf16_ascii; repeat constructor|].
    apply wf16_app; [|by apply wf16_ascii; repeat constructor].
    apply join_wf; [by apply wf16_ascii; repeat constructor|]. rewrite Forall_forall.
    intros s Hs. apply list_elem_of_fmap in Hs as ([k u] & -> & Hku).
    destruct (Hin k u Hku) as (Hk & Hu & _). unfold entry_of.
    apply wf16_app; [by apply quote_wf|]. by apply wf16_app; [apply wf16_ascii; repeat constructor|].
  - destruct (choose_Forall2 (fun e w => reads_entry e w /\ prod_map id Ok e = prod_map id canonicalizeJson w) us)
      as [ws Hws].
    { intros [k u] Hku. destruct (Hin k u Hku) as (Hk & _ & w & Hr & Hw).
      exists (k, w). unfold reads_entry, prod_map. simpl. by rewrite Hw. }
    apply Forall2_split in Hws as [Hreads Himg]. apply Forall2_images in Himg. rewrite Himg in HSus.
    assert (Hperm : prod_map id canonicalizeJson <$> ws ≡ₚ prod_map id canonicalizeJson <$> es).
    { rewrite <- HSus. apply sort_entries_permutes. }
    assert (Hfst : forall l : list (ustring * json), fst <$> (prod_map id canonicalizeJson <$> l) = fst <$> l).
    { intros l. rewrite <- list_fmap_compose. by apply list_fmap_ext. }
    assert (Hndw : NoDup (fst <$> ws)).
    { rewrite <- Hfst, Hperm, Hfst. done. }
    exists (make_object ws). split; [by apply reads_object|].
    destruct (make_object_perm ws Hndw) as (ws' & -> & Hws'). simpl.
    rewrite (sort_entries_perm (prod_map id canonicalizeJson <$> ws')
                               (prod_map id canonicalizeJson <$> es)).
    + fold S. rewrite HSus, <- Himg, <- list_fmap_compose.
      rewrite (list_fmap_ext (entry_text ∘ prod_map id Ok) (Ok ∘ entry_of) us); [|intros ? [k u] Hku].
      * by rewrite list_fmap_compose, join_results_Ok.
      * apply list_elem_of_lookup_2 in Hku. unfold entry_text, entry_of. simpl.
        destruct (HS k (Ok u)) as (x & Hx & _).
        { rewrite HSus, <- Himg. apply list_elem_of_fmap. by exists (k, u). }
        by rewrite (proj2 (Hkeys k x Hx)).
    + by rewrite Hws'.
    + rewrite Hfst, Hws'. done.
Qed.

(** The canonical text of a regular value is well-formed UTF-16 that
    JSON.parse reads as a value with the same canonical text. *)
Lemma canonical_survives v t :
  regular v -> canonicalizeJson v = Ok t -> wf16 t /\ exists w, survives t w.
Proof.
  revert t. induction v as [|b|n|s|items IH|entries IH] using json_ind'; intros t Hr Hc.
  - injection Hc as <-. split; [apply wf16_ascii; by repeat constructor|].
    exists JNull. split; [apply reads_word; set_solver|done].
  - injection Hc as <-. split; [apply wf16_ascii; by destruct b; repeat constructor|].
    exists (JBool b). split; [apply reads_word; destruct b; set_solver|done].
  - simpl in Hc. rewrite bindR_ok in Hc. destruct Hc as (u & Hn & [= <-]).
    apply throwIf_ok, negb_false_iff in Hn. split; [by apply wf16_ascii, number_ascii|].
    exists (JNumber (text_number (number_text n))).
    destruct (number_round n Hn) as [Hf Ht]. split; [by apply reads_number, number_literal|].
    simpl. rewrite Hf. simpl. by rewrite Ht.
  - injection Hc as <-. simpl in Hr. apply nfc_units in Hr. split; [by apply quote_wf|].
    exists (JString (nfc s)). split; [by apply reads_quoted|]. simpl. by rewrite nfc_idempotent.
  - rewrite Forall_forall in IH. simpl in Hr. rewrite all_elem in Hr.
    eapply array_survives; [|exact Hc]. intros x u Hx Hu. by apply (IH x Hx); auto.
  - rewrite Forall_forall in IH. simpl in Hr. destruct Hr as [Hnd Hr]. rewrite all_elem in Hr.
    eapply object_survives; [done| | |exact Hc].
    + intros k x Hin. by destruct (Hr (k, x) Hin) as (? & ? & _).
    + intros k x u Hin. apply (IH (k, x) Hin). by destruct (Hr (k, x) Hin) as (_ & _ & ?).
Qed.

Lemma canonical_parses v t : regular v -> canonicalizeJson v = Ok t ->
  exists w, JSON_parse t = Some w /\ canonicalizeJson w = Ok t.
Proof.
  intros Hr Hc. destruct (canonical_survives v t Hr Hc) as (_ & w & [_ Hreads] & Hw).
  exists w. split; [|done]. unfold JSON_parse.
  assert (Hp := Hreads (2 * length t + 2)%nat [] ltac:(lia) I). rewrite app_nil_r in Hp. by rewrite Hp.
Qed.

(** *** Keys that normalisation leaves in order *)

(** A value as JavaScript holds one: distinct keys, strings of code units. *)
Fixpoint js_value (v : json) : Prop :=
  match v with
  | JString s => Forall unit_ok s
  | JArray xs => all js_value xs
  | JObject es => NoDup (fst <$> es) /\ all (fun e => Forall unit_ok (fst e) /\ js_value (snd e)) es
  | _ => True
  end.

(** In every object of the value, the keys are in the same order before and
    after normalisation (so that no two become equal). *)
Fixpoint keys_keep_order (v : json) : Prop :=
  match v with
  | JArray xs => all keys_keep_order xs
  | JObject es =>
    (forall j k, j ∈ es.*1 -> k ∈ es.*1 -> ult j k = true -> ult (nfc j) (nfc k) = true)
    /\ all (fun e => keys_keep_order (snd e)) es
  | _ => True
  end.

(** The value with its keys normalised. *)
Fixpoint nfc_keys (v : json) : json :=
  match v with
  | JArray xs => JArray (nfc_keys <$> xs)
  | JObject es => JObject ((fun e => (nfc (fst e), nfc_keys (snd e))) <$> es)
  | _ => v
  end.

Section same_order.
Context (ks : list ustring) (Hks : forall j k, j ∈ ks -> k ∈ ks -> ult j k = true -> ult (nfc j) (nfc k) = true).

Lemma same_order j k : j ∈ ks -> k ∈ ks -> ult (nfc j) (nfc k) = ult j k.
Proof using All.
  intros Hj Hk. destruct (ult j k) eqn:E; [by apply Hks|]. apply not_true_iff_false. intros Hn.
  destruct (ult k j) eqn:E'.
  - apply Hks in E'; [|done..]. pose proof (ult_trans _ _ _ Hn E') as Hc. by rewrite ult_irrefl in Hc.
  - rewrite (ult_total _ _ E E'), ult_irrefl in Hn. done.
Qed.

Lemma normalised_distinct l : (forall k, k ∈ l -> k ∈ ks) -> NoDup l -> NoDup (nfc <$> l).
Proof using All.
  intros Hl. induction 1 as [|k l Hk Hnd IH]; simpl; constructor; [|apply IH; set_solver].
  intros (j & Heq & Hj)%list_elem_of_fmap. apply Hk. assert (k = j) as ->; [|done].
  apply ult_total; rewrite <- same_order, Heq, ult_irrefl by set_solver; done.
Qed.

Lemma sort_normalised {A B} (f : A -> B) (l : list (ustring * A)) : (forall k, k ∈ l.*1 -> k ∈ ks) ->
  sort_entries (prod_map nfc f <$> l) = prod_map nfc f <$> sort_entries l.
Proof using All.
  intros Hl.
  assert (Hins : forall e l, fst e ∈ ks -> (forall k, k ∈ l.*1 -> k ∈ ks) ->
    insert_entry (prod_map nfc f e) (prod_map nfc f <$> l) = prod_map nfc f <$> insert_entry e l).
  { intros e m He. induction m as [|g m IH]; intros Hm; [done|]. simpl.
    rewrite same_order by (done || apply Hm; simpl; left). destruct (ult (fst g) (fst e)); [|done].
    simpl. f_equal. apply IH. intros k Hk. apply Hm. simpl. by right. }
  induction l as [|e l IH]; [done|]. rewrite fmap_cons. cbn [sort_entries].
  rewrite IH by (intros k Hk; apply Hl; simpl; by right). apply Hins; [apply Hl; simpl; left|]. intros k Hk. apply Hl. simpl. right.
  by rewrite <- (sort_entries_permutes l).
Qed.
End same_order.

Lemma entry_text_normalised k r : entry_text (nfc k, r) = entry_text (k, r).
Proof. unfold entry_text. simpl. by rewrite nfc_idempotent. Qed.

Lemma nfc_keys_canonical v : keys_keep_order v -> canonicalizeJson (nfc_keys v) = canonicalizeJson v.
Proof.
  induction v as [|b|n|s|items IH|entries IH] using json_ind'; try done; rewrite Forall_forall in IH; intros Ho.
  - simpl in *. rewrite all_elem in Ho. rewrite <- list_fmap_compose. do 2 f_equal.
    apply list_fmap_ext. intros i x Hx%list_elem_of_lookup_2. by apply IH; auto.
  - simpl in Ho. destruct Ho as [Hks Ho]. rewrite all_elem in Ho. cbn [nfc_keys canonicalizeJson].
    set (l := prod_map id canonicalizeJson <$> entries).
    assert (Hl : prod_map id canonicalizeJson <$> ((fun e => (nfc (fst e), nfc_keys (snd e))) <$> entries)
                 = prod_map nfc id <$> l).
    { unfold l. rewrite <- !list_fmap_compose. apply list_fmap_ext. intros i [k x] Hx%list_elem_of_lookup_2. simpl.
      unfold prod_map. simpl. f_equal. exact (IH (k, x) Hx (Ho (k, x) Hx)). }
    rewrite Hl, (sort_normalised _ Hks id).
    2:{ intros k Hk. unfold l in Hk. by rewrite <- list_fmap_compose in Hk. }
    rewrite <- list_fmap_compose. do 2 f_equal. apply list_fmap_ext. intros i [k r] _. apply entry_text_normalised.
Qed.

Lemma nfc_keys_regular v : js_value v -> keys_keep_order v -> regular (nfc_keys v).
Proof.
  induction v as [|b|n|s|items IH|entries IH] using json_ind'; try done; rewrite Forall_forall in IH; simpl; intros Hv Ho.
  - rewrite all_elem in *. intros y (x & -> & Hx)%list_elem_of_fmap. auto.
  - destruct Hv as [Hnd Hv], Ho as [Hks Ho]. rewrite all_elem in Hv, Ho. split.
    + rewrite <- list_fmap_compose. change (NoDup ((nfc ∘ fst) <$> entries)). rewrite list_fmap_compose.
      by apply (normalised_distinct _ Hks).
    + rewrite all_elem. intros y ([k x] & -> & Hx)%list_elem_of_fmap. destruct (Hv _ Hx) as [Hu Hj]. simpl in *.
      split_and!; [by apply nfc_units|by apply nfc_idempotent|]. apply (IH (k, x) Hx Hj), (Ho (k, x) Hx).
Qed.

Lemma normalised_keys_keep_order v : regular v -> js_value v /\ keys_keep_order v.
Proof.
  induction v as [|b|n|s|items IH|entries IH] using json_ind'; try done; rewrite Forall_forall in IH; simpl.
  - rewrite !all_elem. intros Hr. split; intros x Hx; by apply IH; auto.
  - intros [Hnd Hr]. rewrite !all_elem in *. split; split; [done| | |].
    + intros e He. destruct (Hr e He) as (? & _ & ?). split; [done|]. by apply IH.
    + intros j k ([j' x] & -> & Hj)%list_elem_of_fmap ([k' y] & -> & Hk)%list_elem_of_fmap. simpl.
      destruct (Hr _ Hj) as (_ & Hj' & _), (Hr _ Hk) as (_ & Hk' & _). simpl in Hj', Hk'. by rewrite Hj', Hk'.
    + intros e He. destruct (Hr e He) as (_ & _ & ?). by apply IH.
Qed.
End roundtrip.
