(* ===== verification/Authorization.v ===== *)
(** * Authorization: who may do what.

    packages/auth/src/authorization.ts: the role matrix and the policy
    decision.  Dates are valid dates, in milliseconds; texts are their UTF-8
    bytes. *)
From Stdlib Require Import SpecFloat.
From S2P Require Import Prelude Errors Text Json JsonParse.
Local Open Scope Z_scope.

(** packages/auth/src/trust-domain.ts *)
Inductive TrustDomain : Type := td_participant | td_committee.
Inductive AuthenticationStrength : Type := verified_email | passkey | recovery.
#[export] Instance TrustDomain_eq_dec : EqDecision TrustDomain.
Proof. solve_decision. Defined.
#[export] Instance AuthenticationStrength_eq_dec : EqDecision AuthenticationStrength.
Proof. solve_decision. Defined.

(** ** authorization.ts: roles and actions *)

Inductive AuthorizationRole : Type :=
| scheduler | reviewer | signer | administrator | privacy | security | support | steward | relying_party.
#[export] Instance AuthorizationRole_eq_dec : EqDecision AuthorizationRole.
Proof. solve_decision. Defined.
Definition AUTHORIZATION_ROLES : list AuthorizationRole :=
  [scheduler; reviewer; signer; administrator; privacy; security; support; steward; relying_party].

Inductive AuthorizationAction : Type :=
| participant_read_own | participant_update_own | participant_appeal | participant_close_account
| participant_export_sensitive | participant_link_verus | participant_unlink_verus
| participant_publish_public_proof | session_schedule | session_assign | verification_review
| verification_approve | attestation_sign | attestation_issue | attestation_revoke
| privacy_fulfil_request | security_inspect | security_revoke_sessions | support_recover_account
| committee_manage_roles | committee_suspend | client_rotate_key | policy_manage | release_manage
| relying_party_read_status.
#[export] Instance AuthorizationAction_eq_dec : EqDecision AuthorizationAction.
Proof. solve_decision. Defined.

Definition action_name (a : AuthorizationAction) : string :=
  match a with
  | participant_read_own => "participant.read_own" | participant_update_own => "participant.update_own"
  | participant_appeal => "participant.appeal" | participant_close_account => "participant.close_account"
  | participant_export_sensitive => "participant.export_sensitive"
  | participant_link_verus => "participant.link_verus"
  | participant_unlink_verus => "participant.unlink_verus"
  | participant_publish_public_proof => "participant.publish_public_proof"
  | session_schedule => "session.schedule" | session_assign => "session.assign"
  | verification_review => "verification.review" | verification_approve => "verification.approve"
  | attestation_sign => "attestation.sign" | attestation_issue => "attestation.issue"
  | attestation_revoke => "attestation.revoke" | privacy_fulfil_request => "privacy.fulfil_request"
  | security_inspect => "security.inspect" | security_revoke_sessions => "security.revoke_sessions"
  | support_recover_account => "support.recover_account"
  | committee_manage_roles => "committee.manage_roles" | committee_suspend => "committee.suspend"
  | client_rotate_key => "client.rotate_key" | policy_manage => "policy.manage"
  | release_manage => "release.manage" | relying_party_read_status => "relying_party.read_status"
  end.

Inductive AuthorizationDenial : Type :=
| account_inactive | action_not_granted | committee_inactive | conflict_declared | cross_committee
| feature_disabled | four_eyes_required | membership_inactive | not_own_resource
| policy_missing_or_expired | reauthentication_required | session_not_assigned
| state_precondition_failed | wrong_trust_domain.
#[export] Instance AuthorizationDenial_eq_dec : EqDecision AuthorizationDenial.
Proof. solve_decision. Defined.

Definition denial_name (d : AuthorizationDenial) : string :=
  match d with
  | account_inactive => "account_inactive" | action_not_granted => "action_not_granted"
  | committee_inactive => "committee_inactive" | conflict_declared => "conflict_declared"
  | cross_committee => "cross_committee" | feature_disabled => "feature_disabled"
  | four_eyes_required => "four_eyes_required" | membership_inactive => "membership_inactive"
  | not_own_resource => "not_own_resource" | policy_missing_or_expired => "policy_missing_or_expired"
  | reauthentication_required => "reauthentication_required"
  | session_not_assigned => "session_not_assigned"
  | state_precondition_failed => "state_precondition_failed" | wrong_trust_domain => "wrong_trust_domain"
  end.

Record CurrentPolicyGate : Type := {
  pg_policyKey : string;
  pg_version : string;
  pg_effectiveAt : Z;
  pg_expiresAt : option Z;
  pg_acknowledgedVersion : option string;
}.

Record FourEyesApproval : Type := {
  fe_approverReference : string;
  fe_approverRoles : list AuthorizationRole;
  fe_active : bool;
  fe_authenticationStrength : AuthenticationStrength;
  fe_reauthenticatedAt : option Z;
}.

Inductive AccountState : Type := as_active | as_invited | as_locked | as_suspended | as_closed.
#[export] Instance AccountState_eq_dec : EqDecision AccountState.
Proof. solve_decision. Defined.
Inductive ActorTrustDomain : Type := atd_participant | atd_committee | atd_service.
#[export] Instance ActorTrustDomain_eq_dec : EqDecision ActorTrustDomain.
Proof. solve_decision. Defined.
Inductive MembershipState : Type := ms_active | ms_proposed | ms_suspended | ms_retired.
#[export] Instance MembershipState_eq_dec : EqDecision MembershipState.
Proof. solve_decision. Defined.
Inductive ActorCommitteeState : Type :=
| cs_active | cs_pilot_approved | cs_testnet_ready | cs_suspended | cs_retired.
#[export] Instance ActorCommitteeState_eq_dec : EqDecision ActorCommitteeState.
Proof. solve_decision. Defined.

Record AuthorizationRequest : Type := {
  action : AuthorizationAction;
  actorReference : string;
  actorAccountState : AccountState;
  actorTrustDomain : ActorTrustDomain;
  roles : list AuthorizationRole;
  strength : AuthenticationStrength;
  reauthenticatedAt : option Z;
  at_now : Z;
  reauthenticationWindowMs : Z;
  actorCommitteeReference : option string;
  targetCommitteeReference : option string;
  resourceOwnerReference : option string;
  membershipState : option MembershipState;
  committeeState : option ActorCommitteeState;
  assignedToSession : bool;
  conflicted : bool;
  enabledFeatures : list string;
  requiredFeatures : list string;
  requiredPolicyKeys : list string;
  policies : list CurrentPolicyGate;
  statePreconditionsSatisfied : bool;
  fourEyesApproval : option FourEyesApproval;
}.

Record AuthorizationDecision : Type := {
  ad_allowed : bool;
  ad_action : AuthorizationAction;
  ad_denial : option AuthorizationDenial;
  ad_policyVersions : list string;
  ad_digest : string;
}.

Definition capabilities (role : AuthorizationRole) : list AuthorizationAction :=
  match role with
  | scheduler => [session_schedule; session_assign]
  | reviewer => [verification_review; verification_approve]
  | signer => [attestation_sign; attestation_issue]
  | administrator => [session_schedule; session_assign; attestation_issue; attestation_revoke;
                      committee_manage_roles; client_rotate_key]
  | privacy => [participant_export_sensitive; privacy_fulfil_request]
  | security => [security_inspect; security_revoke_sessions]
  | support => [support_recover_account]
  | steward => [committee_manage_roles; committee_suspend; client_rotate_key; policy_manage;
                release_manage; security_revoke_sessions]
  | relying_party => [relying_party_read_status]
  end.

Definition ownResourceActions : list AuthorizationAction :=
  [participant_read_own; participant_update_own; participant_appeal; participant_close_account;
   participant_export_sensitive; participant_link_verus; participant_unlink_verus;
   participant_publish_public_proof].

Definition privilegedActions : list AuthorizationAction :=
  [participant_appeal; participant_close_account; participant_export_sensitive; participant_link_verus;
   participant_unlink_verus; participant_publish_public_proof; attestation_issue; attestation_revoke;
   committee_manage_roles; committee_suspend; client_rotate_key; policy_manage; release_manage;
   security_revoke_sessions].

Definition decisionActions : list AuthorizationAction :=
  [verification_review; verification_approve; attestation_sign].

Definition fourEyesActions : list AuthorizationAction := [committee_suspend; policy_manage; release_manage].

(** ** authorization.ts: the decision *)

Definition versions (request : AuthorizationRequest) : list string :=
  (fun p => pg_policyKey p +:+ ":" +:+ pg_version p) <$> policies request.

(** The object [makeDecision] hashes the JSON text of. *)
Definition decision_canonical (request : AuthorizationRequest) (denial : option AuthorizationDenial) : json :=
  JObject [
    (units "action", jtext (action_name (action request)));
    (units "actorReference", jtext (actorReference request));
    (units "targetCommitteeReference", jtext_or_null (targetCommitteeReference request));
    (units "allowed", JBool (bool_decide (denial = None)));
    (units "denial", jtext_or_null (denial_name <$> denial));
    (units "policyVersions", JArray (jtext <$> versions request))].

Definition makeDecision `{TextServices} (sha256 : string -> string) (request : AuthorizationRequest)
    (denial : option AuthorizationDenial) : AuthorizationDecision := {|
  ad_allowed := bool_decide (denial = None); ad_action := action request; ad_denial := denial;
  ad_policyVersions := versions request;
  ad_digest := sha256 (utf8_text (JSON_stringify (decision_canonical request denial))) |}.

Definition recentStrong (s : AuthenticationStrength) (reauthenticated : option Z) (now windowMs : Z) : bool :=
  bool_decide (s = passkey)
  && match reauthenticated with Some t => (0 <=? now - t) && (now - t <=? windowMs) | None => false end.

Definition policy_current (now : Z) (p : CurrentPolicyGate) : bool :=
  (pg_effectiveAt p <=? now)
  && match pg_expiresAt p with Some e => now <? e | None => true end
  && bool_decide (pg_acknowledgedVersion p = Some (pg_version p)).

Definition currentPolicies (request : AuthorizationRequest) : bool :=
  forallb (fun key =>
    match find (fun p => String.eqb (pg_policyKey p) key) (policies request) with
    | Some p => policy_current (at_now request) p
    | None => false
    end) (requiredPolicyKeys request).

(** The denials of the first [if] chain: account, scope, role and tenancy. *)
Definition scope_denial (request : AuthorizationRequest) : option AuthorizationDenial :=
  if negb (bool_decide (actorAccountState request = as_active)) then Some account_inactive
  else if includes ownResourceActions (action request) then
    if negb (bool_decide (actorTrustDomain request = atd_participant)) then Some wrong_trust_domain
    else if negb (bool_decide (resourceOwnerReference request = Some (actorReference request)))
    then Some not_own_resource
    else None
  else
    let expectedDomain := if includes (roles request) relying_party then atd_service else atd_committee in
    let reads_status := bool_decide (action request = relying_party_read_status) in
    if negb (bool_decide (actorTrustDomain request = expectedDomain)) then Some wrong_trust_domain
    else if negb (some (roles request) (fun role => includes (capabilities role) (action request)))
    then Some action_not_granted
    else if negb reads_status
            && negb (bool_decide (actorCommitteeReference request = targetCommitteeReference request))
    then Some cross_committee
    else if negb reads_status && negb (bool_decide (committeeState request = Some cs_active))
    then Some committee_inactive
    else if negb reads_status && negb (bool_decide (membershipState request = Some ms_active))
    then Some membership_inactive
    else if includes decisionActions (action request) && conflicted request then Some conflict_declared
    else if includes decisionActions (action request) && negb (assignedToSession request)
    then Some session_not_assigned
    else None.

(** [if (!denial && cond) denial = code]. *)
Definition orDeny (denial : option AuthorizationDenial) (cond : bool) (code : AuthorizationDenial)
  : option AuthorizationDenial :=
  match denial with Some d => Some d | None => if cond then Some code else None end.

Definition approval_missing (request : AuthorizationRequest) : bool :=
  match fourEyesApproval request with
  | None => true
  | Some approval =>
    negb (fe_active approval)
    || String.eqb (fe_approverReference approval) (actorReference request)
    || negb (includes (fe_approverRoles approval) steward)
    || negb (recentStrong (fe_authenticationStrength approval) (fe_reauthenticatedAt approval)
               (at_now request) (reauthenticationWindowMs request))
  end.

Definition authorize_denial (request : AuthorizationRequest) : option AuthorizationDenial :=
  let d := scope_denial request in
  let d := orDeny d (negb (statePreconditionsSatisfied request)) state_precondition_failed in
  let d := orDeny d (some (requiredFeatures request) (fun f => negb (includes (enabledFeatures request) f)))
             feature_disabled in
  let d := orDeny d (negb (currentPolicies request)) policy_missing_or_expired in
  let d := orDeny d (includes privilegedActions (action request)
                     && negb (recentStrong (strength request) (reauthenticatedAt request) (at_now request)
                                (reauthenticationWindowMs request))) reauthentication_required in
  orDeny d (includes fourEyesActions (action request) && approval_missing request) four_eyes_required.

Definition authorize `{TextServices} (sha256 : string -> string) (request : AuthorizationRequest)
  : AuthorizationDecision := makeDecision sha256 request (authorize_denial request).

Definition requireAuthorization `{TextServices} (sha256 : string -> string) (request : AuthorizationRequest)
  : result exn AuthorizationDecision :=
  let decision := authorize sha256 request in
  if negb (ad_allowed decision) then
    if bool_decide (ad_denial decision = Some reauthentication_required)
    then Err (AuthError REAUTHENTICATION_REQUIRED)
    else if bool_decide (ad_denial decision = Some policy_missing_or_expired)
    then Err (AuthError POLICY_REQUIRED)
    else Err (AuthError AUTHORIZATION_DENIED)
  else Ok decision.

(** ** The policy the decision implements *)

(** Strong authentication within the window before [now]. *)
Definition strong_since (s : AuthenticationStrength) (reauthenticated : option Z) (now windowMs : Z) : Prop :=
  s = passkey /\ exists t, reauthenticated = Some t /\ t <= now <= t + windowMs.

(** The policy that counts for a key is the first one listed under it; it
    must be in force and acknowledged in its present version. *)
Definition acknowledged (r : AuthorizationRequest) (key : string) : Prop :=
  exists earlier p later, policies r = earlier ++ p :: later /\
    (forall q, q ∈ earlier -> pg_policyKey q <> key) /\ pg_policyKey p = key /\
    pg_effectiveAt p <= at_now r /\
    (forall e, pg_expiresAt p = Some e -> at_now r < e) /\
    pg_acknowledgedVersion p = Some (pg_version p).

(** The scope an actor acts in: on their own record; as a relying party
    reading a status; or as an active member of an active committee, the one
    the target belongs to, unconflicted and assigned where a verification is
    decided.  A principal holding the relying-party role is a service. *)
Inductive in_scope (r : AuthorizationRequest) : Prop :=
| own_resource :
    action r ∈ ownResourceActions -> actorTrustDomain r = atd_participant ->
    resourceOwnerReference r = Some (actorReference r) -> in_scope r
| granted_role role :
    action r ∉ ownResourceActions ->
    actorTrustDomain r = (if decide (relying_party ∈ roles r) then atd_service else atd_committee) ->
    role ∈ roles r -> action r ∈ capabilities role ->
    (action r = relying_party_read_status \/
     (actorCommitteeReference r = targetCommitteeReference r /\
      committeeState r = Some cs_active /\ membershipState r = Some ms_active)) ->
    (action r ∈ decisionActions -> conflicted r = false /\ assignedToSession r = true) ->
    in_scope r.

Definition second_approval (r : AuthorizationRequest) : Prop :=
  exists a, fourEyesApproval r = Some a /\ fe_active a = true /\
    fe_approverReference a <> actorReference r /\ steward ∈ fe_approverRoles a /\
    strong_since (fe_authenticationStrength a) (fe_reauthenticatedAt a) (at_now r) (reauthenticationWindowMs r).

Record permitted (r : AuthorizationRequest) : Prop := {
  pm_account : actorAccountState r = as_active;
  pm_scope : in_scope r;
  pm_state : statePreconditionsSatisfied r = true;
  pm_features : forall f, f ∈ requiredFeatures r -> f ∈ enabledFeatures r;
  pm_policies : forall key, key ∈ requiredPolicyKeys r -> acknowledged r key;
  pm_strong : action r ∈ privilegedActions ->
    strong_since (strength r) (reauthenticatedAt r) (at_now r) (reauthenticationWindowMs r);
  pm_four_eyes : action r ∈ fourEyesActions -> second_approval r;
}.

(** The conditions on a request in the order they are asked, each with the
    denial that its failure gives. *)
Definition scope_requirements (r : AuthorizationRequest) : list (Prop * AuthorizationDenial) :=
  if decide (action r ∈ ownResourceActions) then
    [(actorTrustDomain r = atd_participant, wrong_trust_domain);
     (resourceOwnerReference r = Some (actorReference r), not_own_resource)]
  else
    [(actorTrustDomain r = (if decide (relying_party ∈ roles r) then atd_service else atd_committee), wrong_trust_domain);
     (exists role, role ∈ roles r /\ action r ∈ capabilities role, action_not_granted);
     (action r = relying_party_read_status \/ actorCommitteeReference r = targetCommitteeReference r, cross_committee);
     (action r = relying_party_read_status \/ committeeState r = Some cs_active, committee_inactive);
     (action r = relying_party_read_status \/ membershipState r = Some ms_active, membership_inactive);
     (action r ∈ decisionActions -> conflicted r = false, conflict_declared);
     (action r ∈ decisionActions -> assignedToSession r = true, session_not_assigned)].

Definition requirements (r : AuthorizationRequest) : list (Prop * AuthorizationDenial) :=
  (actorAccountState r = as_active, account_inactive) :: scope_requirements r ++
  [(statePreconditionsSatisfied r = true, state_precondition_failed);
   (forall f, f ∈ requiredFeatures r -> f ∈ enabledFeatures r, feature_disabled);
   (forall key, key ∈ requiredPolicyKeys r -> acknowledged r key, policy_missing_or_expired);
   (action r ∈ privilegedActions ->
      strong_since (strength r) (reauthenticatedAt r) (at_now r) (reauthenticationWindowMs r), reauthentication_required);
   (action r ∈ fourEyesActions -> second_approval r, four_eyes_required)].

(** [d] is the denial of the first condition that does not hold. *)
Definition first_unmet (rs : list (Prop * AuthorizationDenial)) (d : AuthorizationDenial) : Prop :=
  exists before P after, rs = before ++ (P, d) :: after /\ (forall Q, Q ∈ before.*1 -> Q) /\ ~ P.

(** What a caller is told of a denial. *)
Definition denial_error (d : AuthorizationDenial) : AuthErrorCode :=
  match d with
  | reauthentication_required => REAUTHENTICATION_REQUIRED
  | policy_missing_or_expired => POLICY_REQUIRED
  | _ => AUTHORIZATION_DENIED
  end.

(** ** Facts *)

Lemma recentStrong_true s t now w : recentStrong s t now w = true <-> strong_since s t now w.
Proof.
  unfold recentStrong, strong_since. rewrite andb_true_iff, bool_decide_eq_true.
  destruct t as [t|]; [rewrite andb_true_iff, !Z.leb_le|]; split.
  - intros (-> & ? & ?). split; [done|]. exists t. split; [done|lia].
  - intros (-> & u & [= <-] & ?). split; [done|lia].
  - by intros [].
  - by intros (_ & u & ? & _).
Qed.

Lemma find_first {A} (p : A -> bool) l a :
  find p l = Some a <-> exists l1 l2, l = l1 ++ a :: l2 /\ (forall b, b ∈ l1 -> p b = false) /\ p a = true.
Proof.
  induction l as [|x l IH]; simpl.
  - split; [done|]. by intros ([] & ? & ? & _).
  - destruct (p x) eqn:Hx.
    + split.
      * intros [= ->]. exists [], l. split_and!; try done. set_solver.
      * intros ([|y l1] & l2 & [= -> ->] & Hno & Ha); [done|]. rewrite (Hno y) in Hx by set_solver. done.
    + rewrite IH. split.
      * intros (l1 & l2 & -> & Hno & Ha). exists (x :: l1), l2. split_and!; try done. set_solver.
      * intros ([|y l1] & l2 & [= -> ->] & Hno & Ha); [congruence|].
        exists l1, l2. split_and!; try done. set_solver.
Qed.

Lemma currentPolicies_true r :
  currentPolicies r = true <-> forall key, key ∈ requiredPolicyKeys r -> acknowledged r key.
Proof.
  unfold currentPolicies. rewrite forallb_forall. setoid_rewrite <- list_elem_of_In.
  apply forall_proper. intros key.
  assert (Hone : (match find (fun p => String.eqb (pg_policyKey p) key) (policies r) with
                  | Some p => policy_current (at_now r) p | None => false end) = true <-> acknowledged r key).
  { unfold acknowledged. split.
    - destruct (find _ _) as [p|] eqn:Hf; [|done]. apply find_first in Hf as (l1 & l2 & Hl & Hno & Hk).
      unfold policy_current. rewrite !andb_true_iff, Z.leb_le, bool_decide_eq_true. intros [[? He] ?].
      exists l1, p, l2. apply String.eqb_eq in Hk. split_and!; try done.
      + intros q Hq. by apply String.eqb_neq, Hno.
      + intros e Hexp. rewrite Hexp in He. by apply Z.ltb_lt.
    - intros (l1 & p & l2 & Hl & Hno & Hk & Heff & Hexp & Hack).
      assert (find (fun p => String.eqb (pg_policyKey p) key) (policies r) = Some p) as ->.
      { apply find_first. exists l1, l2. split_and!; [done| |by apply String.eqb_eq].
        intros q Hq. by apply String.eqb_neq, Hno. }
      unfold policy_current. rewrite !andb_true_iff, Z.leb_le, bool_decide_eq_true. split_and!; try done.
      destruct (pg_expiresAt p) as [e|]; [|done]. apply Z.ltb_lt. by apply Hexp. }
  tauto.
Qed.

Lemma orDeny_none d c code : orDeny d c code = None <-> d = None /\ c = false.
Proof. unfold orDeny. destruct d, c; naive_solver. Qed.

Lemma guard_none (c : bool) (d : AuthorizationDenial) k :
  (if c then Some d else k) = None <-> c = false /\ k = None.
Proof. destruct c; naive_solver. Qed.

Lemma unless_reads (r : AuthorizationRequest) (b : bool) :
  negb (bool_decide (action r = relying_party_read_status)) && b = false <->
  action r = relying_party_read_status \/ b = false.
Proof. rewrite andb_false_iff, negb_false_iff, bool_decide_eq_true. done. Qed.

Lemma scope_denial_none r : scope_denial r = None <-> actorAccountState r = as_active /\ in_scope r.
Proof.
  unfold scope_denial. rewrite guard_none, negb_false_iff, bool_decide_eq_true.
  apply and_iff_compat_l. destruct (includes ownResourceActions (action r)) eqn:Hown.
  - apply includes_true in Hown. rewrite !guard_none, !negb_false_iff, !bool_decide_eq_true. split.
    + intros (? & ? & _). by apply own_resource.
    + intros [_ ? ?|]; [done|by exfalso].
  - apply includes_false in Hown.
    assert (Hdom : (if includes (roles r) relying_party then atd_service else atd_committee)
                   = (if decide (relying_party ∈ roles r) then atd_service else atd_committee))
      by (unfold includes; destruct (decide (relying_party ∈ roles r));
          [by rewrite bool_decide_true|by rewrite bool_decide_false]).
    cbv zeta. rewrite Hdom, !guard_none, !unless_reads, !andb_false_iff, !negb_false_iff, !bool_decide_eq_true,
      some_true, includes_false. split.
    + intros (? & (role & Hr & Hc) & Hten & Hcom & Hmem & Hcon & Has & _). apply includes_true in Hc.
      apply (granted_role r role); try done; [naive_solver|]. intros Hdec. destruct Hcon, Has; tauto.
    + intros [?|role _ ? Hr Hc Hten Hdec]; [by exfalso|]. split_and!; try done.
      * exists role. split; [done|by apply includes_true].
      * naive_solver.
      * naive_solver.
      * naive_solver.
      * destruct (decide (action r ∈ decisionActions)); [right; naive_solver|by left].
      * destruct (decide (action r ∈ decisionActions)); [right; naive_solver|by left].
Qed.

Lemma approval_missing_false r : approval_missing r = false <-> second_approval r.
Proof.
  unfold approval_missing, second_approval. destruct (fourEyesApproval r) as [a|]; [|naive_solver].
  rewrite !orb_false_iff, !negb_false_iff, String.eqb_neq, includes_true, recentStrong_true. naive_solver.
Qed.

(** *** The chain of denials, condition by condition *)

(** The first of the tests that is true. *)
Fixpoint first_denial (tests : list (bool * AuthorizationDenial)) : option AuthorizationDenial :=
  match tests with
  | [] => None
  | (c, d) :: tests => if c then Some d else first_denial tests
  end.

(** A test that finds a condition unmet. *)
Definition tests_for (t : bool * AuthorizationDenial) (q : Prop * AuthorizationDenial) : Prop :=
  snd t = snd q /\ (fst t = false <-> fst q).

Lemma first_unmet_nil d : ~ first_unmet [] d.
Proof. intros ([] & ? & ? & ? & _); discriminate. Qed.

Lemma first_unmet_cons P c rs d : first_unmet ((P, c) :: rs) d <-> (~ P /\ d = c) \/ (P /\ first_unmet rs d).
Proof.
  split.
  - intros ([|[Q e] before] & R & after & Heq & Hall & Hno); simpl in Heq; injection Heq as -> -> ->; [by left|].
    right. split; [by apply Hall, list_elem_of_here|]. exists before, R, after. split; [done|]. split; [|done].
    intros S HS. by apply Hall, list_elem_of_further.
  - intros [[Hno ->]|[HP (before & R & after & -> & Hall & Hno)]].
    + exists [], P, rs. split; [done|]. split; [|done]. by intros Q HQ%not_elem_of_nil.
    + exists ((P, c) :: before), R, after. split; [done|]. split; [|done]. simpl.
      intros Q [->|HQ]%elem_of_cons; [exact HP|by apply Hall].
Qed.

Lemma first_denial_unmet tests rs d : Forall2 tests_for tests rs -> first_denial tests = Some d <-> first_unmet rs d.
Proof.
  induction 1 as [|[c e] [P e'] tests rs [He HP] _ IH]; simpl in *; [split; [done|by intros []%first_unmet_nil]|].
  subst e'. rewrite first_unmet_cons. destruct c; naive_solver.
Qed.

Lemma first_denial_app xs ys :
  first_denial (xs ++ ys) = match first_denial xs with Some d => Some d | None => first_denial ys end.
Proof. induction xs as [|[[] d] xs IH]; simpl; congruence. Qed.

Lemma orDeny_first d c code : orDeny d c code = match d with Some e => Some e | None => first_denial [(c, code)] end.
Proof. by destruct d, c. Qed.

(** The tests of [scope_denial], of [authorize_denial]. *)
Definition scope_tests (r : AuthorizationRequest) : list (bool * AuthorizationDenial) :=
  let reads_status := bool_decide (action r = relying_party_read_status) in
  if includes ownResourceActions (action r) then
    [(negb (bool_decide (actorTrustDomain r = atd_participant)), wrong_trust_domain);
     (negb (bool_decide (resourceOwnerReference r = Some (actorReference r))), not_own_resource)]
  else
    [(negb (bool_decide (actorTrustDomain r = (if includes (roles r) relying_party then atd_service else atd_committee))),
      wrong_trust_domain);
     (negb (some (roles r) (fun role => includes (capabilities role) (action r))), action_not_granted);
     (negb reads_status && negb (bool_decide (actorCommitteeReference r = targetCommitteeReference r)), cross_committee);
     (negb reads_status && negb (bool_decide (committeeState r = Some cs_active)), committee_inactive);
     (negb reads_status && negb (bool_decide (membershipState r = Some ms_active)), membership_inactive);
     (includes decisionActions (action r) && conflicted r, conflict_declared);
     (includes decisionActions (action r) && negb (assignedToSession r), session_not_assigned)].

Definition tests (r : AuthorizationRequest) : list (bool * AuthorizationDenial) :=
  (negb (bool_decide (actorAccountState r = as_active)), account_inactive) :: scope_tests r ++
  [(negb (statePreconditionsSatisfied r), state_precondition_failed);
   (some (requiredFeatures r) (fun f => negb (includes (enabledFeatures r) f)), feature_disabled);
   (negb (currentPolicies r), policy_missing_or_expired);
   (includes privilegedActions (action r)
    && negb (recentStrong (strength r) (reauthenticatedAt r) (at_now r) (reauthenticationWindowMs r)),
    reauthentication_required);
   (includes fourEyesActions (action r) && approval_missing r, four_eyes_required)].

Lemma authorize_denial_first r : authorize_denial r = first_denial (tests r).
Proof.
  assert (Hs : scope_denial r = first_denial
    ((negb (bool_decide (actorAccountState r = as_active)), account_inactive) :: scope_tests r)).
  { unfold scope_denial, scope_tests. simpl. destruct (negb _); [done|]. by destruct (includes ownResourceActions _). }
  unfold authorize_denial, tests. cbv zeta. rewrite app_comm_cons, first_denial_app, <- Hs, !orDeny_first.
  destruct (scope_denial r); [done|]. simpl.
  by repeat match goal with |- context [if ?b then Some _ else _] => destruct b; [done|] end.
Qed.

(** When a test is passed. *)
Lemma when_member {A} `{EqDecision A} (xs : list A) x (c : bool) (P : Prop) :
  (c = false <-> P) -> includes xs x && c = false <-> (x ∈ xs -> P).
Proof.
  intros <-. rewrite andb_false_iff, includes_false. destruct (decide (x ∈ xs)); tauto.
Qed.

Lemma scope_tests_for r : Forall2 tests_for (scope_tests r) (scope_requirements r).
Proof.
  assert (Hdom : (if includes (roles r) relying_party then atd_service else atd_committee)
                 = (if decide (relying_party ∈ roles r) then atd_service else atd_committee))
    by (unfold includes; destruct (decide (relying_party ∈ roles r));
          [by rewrite bool_decide_true|by rewrite bool_decide_false]).
  unfold scope_tests, scope_requirements. destruct (decide (action r ∈ ownResourceActions)) as [Hown|Hown];
    [apply includes_true in Hown|apply includes_false in Hown]; rewrite Hown; cbv zeta;
    repeat match goal with |- Forall2 _ _ _ => constructor end; (split; [done|]); cbn [fst];
    rewrite ?unless_reads, ?negb_false_iff, ?bool_decide_eq_true, ?Hdom; try done.
  - rewrite some_true. by setoid_rewrite includes_true.
  - by apply when_member.
  - apply when_member, negb_false_iff.
Qed.

Lemma tests_for_requirements r : Forall2 tests_for (tests r) (requirements r).
Proof.
  assert (Hf : some (requiredFeatures r) (fun f => negb (includes (enabledFeatures r) f)) = false <->
               forall f, f ∈ requiredFeatures r -> f ∈ enabledFeatures r).
  { rewrite <- not_true_iff_false, some_true. setoid_rewrite negb_true_iff. setoid_rewrite includes_false. split.
    - intros Hno f Hin. destruct (decide (f ∈ enabledFeatures r)); [done|]. exfalso. eauto.
    - intros Hall (f & Hin & Hn). auto. }
  constructor; [split; [done|]; cbn [fst]; by rewrite negb_false_iff, bool_decide_eq_true|].
  apply Forall2_app; [apply scope_tests_for|].
  repeat match goal with |- Forall2 _ _ _ => constructor end; (split; [done|]); cbn [fst].
  - apply negb_false_iff.
  - done.
  - by rewrite negb_false_iff, currentPolicies_true.
  - apply when_member. by rewrite negb_false_iff, recentStrong_true.
  - apply when_member, approval_missing_false.
Qed.

Lemma authorize_denial_unmet r d : authorize_denial r = Some d <-> first_unmet (requirements r) d.
Proof. rewrite authorize_denial_first. apply first_denial_unmet, tests_for_requirements. Qed.

Lemma authorize_denial_none r : authorize_denial r = None <-> permitted r.
Proof.
  unfold authorize_denial. cbv zeta.
  rewrite !orDeny_none, scope_denial_none, !andb_false_iff, !negb_false_iff, !includes_false, currentPolicies_true,
    recentStrong_true, approval_missing_false.
  assert (Hf : some (requiredFeatures r) (fun f => negb (includes (enabledFeatures r) f)) = false <->
               forall f, f ∈ requiredFeatures r -> f ∈ enabledFeatures r).
  { rewrite <- not_true_iff_false, some_true. split.
    - intros Hno f Hin. apply includes_true. destruct (includes _ f) eqn:E; [done|].
      exfalso. apply Hno. exists f. by rewrite E.
    - intros Hall (f & Hin & Hn). apply Hall, includes_true in Hin. by rewrite Hin in Hn. }
  rewrite Hf. split.
  - intros (((((( ? & ?) & ?) & ?) & ?) & Hs) & H4). split; try done; intros Hin.
    + by destruct Hs.
    + by destruct H4.
  - intros [? ? ? ? ? Hs H4]. split_and!; try done.
    + destruct (decide (action r ∈ privilegedActions)); [right; auto|by left].
    + destruct (decide (action r ∈ fourEyesActions)); [right; auto|by left].
Qed.

(** No role that approves verifications may sign or issue. *)
Lemma approver_capabilities role : verification_approve ∈ capabilities role ->
  attestation_sign ∉ capabilities role /\ attestation_issue ∉ capabilities role.
Proof.
  intros Hc. apply (bool_decide_pack _) in Hc.
  destruct role; try (by vm_compute in Hc); split; apply (bool_decide_unpack _); vm_compute; exact I.
Qed.

Lemma four_eyes_privileged a : a ∈ fourEyesActions -> a ∈ privilegedActions.
Proof.
  intros Hin. apply (bool_decide_pack _) in Hin.
  destruct a; try (by vm_compute in Hin); apply (bool_decide_unpack _); vm_compute; exact I.
Qed.

(** ** Properties *)

Section properties.
Context `{TextServices} (sha256 : string -> string).

(** C30: The decision procedure implements the policy: a request is allowed
    exactly when it is permitted; otherwise the decision names the denial of
    the first condition, in the policy's order, that does not hold; and
    [requireAuthorization] returns the decision or throws what its denial
    says: a reauthentication is asked for, or a policy, only when everything
    before it holds. *)
Theorem authorize_refines_policy r :
  (ad_allowed (authorize sha256 r) = true <-> permitted r) /\
  (forall d, ad_denial (authorize sha256 r) = Some d <-> first_unmet (requirements r) d) /\
  (requireAuthorization sha256 r = Ok (authorize sha256 r) <-> permitted r) /\
  (forall d, first_unmet (requirements r) d -> requireAuthorization sha256 r = Err (AuthError (denial_error d))) /\
  (permitted r \/ exists d, first_unmet (requirements r) d).
Proof.
  setoid_rewrite <- authorize_denial_unmet. rewrite <- authorize_denial_none.
  unfold requireAuthorization, authorize, makeDecision. cbn [ad_allowed ad_denial]. split_and!; try done.
  - by rewrite bool_decide_eq_true.
  - destruct (authorize_denial r) as [d|]; [|by split]. rewrite (bool_decide_false (Some d = None)) by done.
    split; [|done]. cbn [negb]. by repeat case_match.
  - intros d ->. rewrite (bool_decide_false (Some d = None)) by done. by destruct d.
  - destruct (authorize_denial r) as [d|]; eauto.
Qed.

(** Tenancy and duties are separated: what is allowed outside one's own
    record and outside status reads is confined to the actor's committee,
    active with an active membership; who approves a verification may
    neither sign nor issue by that role, nor may any single role; and the
    release, the policies and a committee's suspension need two distinct
    people, the second a steward, both on fresh passkeys. *)
Theorem duties_separated r :
  ad_allowed (authorize sha256 r) = true ->
  (action r ∉ ownResourceActions -> action r <> relying_party_read_status ->
     actorCommitteeReference r = targetCommitteeReference r /\
     committeeState r = Some cs_active /\ membershipState r = Some ms_active /\
     exists role, role ∈ roles r /\ action r ∈ capabilities role /\
       (action r = verification_approve ->
          attestation_sign ∉ capabilities role /\ attestation_issue ∉ capabilities role)) /\
  (action r ∈ fourEyesActions ->
     strength r = passkey /\
     exists a, fourEyesApproval r = Some a /\ fe_approverReference a <> actorReference r /\
       steward ∈ fe_approverRoles a /\ fe_authenticationStrength a = passkey).
Proof.
  unfold authorize, makeDecision. cbn [ad_allowed]. rewrite bool_decide_eq_true, authorize_denial_none.
  intros [_ Hscope _ _ _ Hstrong Hfour]. split.
  - intros Hown Hread. destruct Hscope as [?|role _ _ Hr Hc Hten _]; [done|].
    destruct Hten as [?|(? & ? & ?)]; [done|]. split_and!; try done.
    exists role. split_and!; try done. intros Ha. rewrite Ha in Hc.
    by apply approver_capabilities.
  - intros Hin. destruct (Hfour Hin) as (a & Ha & _ & Hne & Hst & Hp & _).
    assert (Hpriv : action r ∈ privilegedActions) by (revert Hin; apply four_eyes_privileged).
    destruct (Hstrong Hpriv) as [Hp' _]. split; [done|]. by exists a.
Qed.
End properties.

(** The privacy role's export is never reachable: exporting sensitive data
    is an own-record action, decided before roles are looked at. *)
Lemma privacy_export_unreachable r :
  permitted r -> action r = participant_export_sensitive -> resourceOwnerReference r = Some (actorReference r).
Proof.
  intros [_ [? ? ?|role Hno _ _ _ _ _] _ _ _ _ _] Ha; [done|]. rewrite Ha in Hno.
  exfalso. apply Hno. apply (bool_decide_unpack _). vm_compute. exact I.
Qed.

(** ** Witness: a privileged action of an administrator *)

Section witness.
#[local] Existing Instance Sample.services.

(** The administrator's committee may be another one, and the passkey was
    used [age] milliseconds ago. *)
Definition key_rotation (committee : string) (age : Z) : AuthorizationRequest := {|
  action := client_rotate_key; actorReference := "admin_0001"; actorAccountState := as_active;
  actorTrustDomain := atd_committee; roles := [administrator]; strength := passkey;
  reauthenticatedAt := Some (10000 - age); at_now := 10000; reauthenticationWindowMs := 1000;
  actorCommitteeReference := Some "committee_0001"; targetCommitteeReference := Some committee;
  resourceOwnerReference := None; membershipState := Some ms_active; committeeState := Some cs_active;
  assignedToSession := false; conflicted := false; enabledFeatures := []; requiredFeatures := [];
  requiredPolicyKeys := ["privacy"];
  policies := [{| pg_policyKey := "privacy"; pg_version := "v1"; pg_effectiveAt := 0; pg_expiresAt := None;
                  pg_acknowledgedVersion := Some "v1" |}];
  statePreconditionsSatisfied := true; fourEyesApproval := None |}.

(** Granted on a fresh passkey; of a foreign committee and a stale passkey
    the committee is named; a stale passkey alone asks to sign in again. *)
Lemma authorize_refines_policy_witness :
  permitted (key_rotation "committee_0001" 500) /\
  first_unmet (requirements (key_rotation "committee_0002" 5000)) cross_committee /\
  first_unmet (requirements (key_rotation "committee_0001" 5000)) reauthentication_required /\
  requireAuthorization Sample.digest (key_rotation "committee_0001" 5000)
  = Err (AuthError REAUTHENTICATION_REQUIRED).
Proof.
  destruct (authorize_refines_policy Sample.digest (key_rotation "committee_0001" 500)) as (Hp & _).
  destruct (authorize_refines_policy Sample.digest (key_rotation "committee_0002" 5000)) as (_ & Hc & _).
  destruct (authorize_refines_policy Sample.digest (key_rotation "committee_0001" 5000)) as (_ & Hr & _ & He & _).
  split; [apply Hp; vm_compute; reflexivity|]. split; [apply Hc; vm_compute; reflexivity|].
  assert (Hu : first_unmet (requirements (key_rotation "committee_0001" 5000)) reauthentication_required)
    by (apply Hr; vm_compute; reflexivity).
  split; [exact Hu|exact (He _ Hu)].
Defined.
End witness.
