(* ===== verification/Consent.v ===== *)
(** * Consent: versioned consent receipts (packages/auth/src/consent.ts). *)
From Stdlib Require Import SpecFloat Ascii.
From S2P Require Import Prelude Errors Text Json JsonParse.
Local Open Scope Z_scope.

(** ** Date.prototype.toISOString *)

(** The civil date of a day number counted from 1970-01-01, by 400-year eras
    beginning on the first of March. *)
Definition civil_of_days (days : Z) : Z * Z * Z :=
  let z := days + 719468 in
  let era := z / 146097 in
  let doe := z mod 146097 in
  let yoe := (doe - doe / 1460 + doe / 36524 - doe / 146096) / 365 in
  let doy := doe - (365 * yoe + yoe / 4 - yoe / 100) in
  let mp := (5 * doy + 2) / 153 in
  let d := doy - (153 * mp + 2) / 5 + 1 in
  let m := if mp <? 10 then mp + 3 else mp - 9 in
  (yoe + era * 400 + (if m <=? 2 then 1 else 0), m, d).

Fixpoint padded (width : nat) (n : Z) : string :=
  match width with
  | O => EmptyString
  | S w => padded w (n / 10) +:+ String (byte (48 + n mod 10)) EmptyString
  end.

Definition year_text (y : Z) : string :=
  if (0 <=? y) && (y <=? 9999) then padded 4 y
  else (if y <? 0 then "-" else "+") +:+ padded 6 (Z.abs y).

(** [date.toISOString()] of a valid date. *)
Definition toISOString (t : Z) : string :=
  let day := t / 86400000 in
  let ms := t mod 86400000 in
  let '(y, m, d) := civil_of_days day in
  year_text y +:+ "-" +:+ padded 2 m +:+ "-" +:+ padded 2 d +:+ "T" +:+
  padded 2 (ms / 3600000) +:+ ":" +:+ padded 2 (ms / 60000 mod 60) +:+ ":" +:+
  padded 2 (ms / 1000 mod 60) +:+ "." +:+ padded 3 (ms mod 1000) +:+ "Z".

(** ** consent.ts *)

Inductive ConsentPurpose : Type :=
| privacy_notice | evidence_non_retention | session_attendance | optional_verus_link
| optional_public_identity_proof | relying_party_disclosure | material_policy_change
| committee_covenants_training.
#[export] Instance ConsentPurpose_eq_dec : EqDecision ConsentPurpose.
Proof. solve_decision. Defined.
Definition CONSENT_PURPOSES : list ConsentPurpose :=
  [privacy_notice; evidence_non_retention; session_attendance; optional_verus_link;
   optional_public_identity_proof; relying_party_disclosure; material_policy_change;
   committee_covenants_training].
Definition purpose_name (p : ConsentPurpose) : string :=
  match p with
  | privacy_notice => "privacy_notice" | evidence_non_retention => "evidence_non_retention"
  | session_attendance => "session_attendance" | optional_verus_link => "optional_verus_link"
  | optional_public_identity_proof => "optional_public_identity_proof"
  | relying_party_disclosure => "relying_party_disclosure"
  | material_policy_change => "material_policy_change"
  | committee_covenants_training => "committee_covenants_training"
  end.

Inductive ConsentAction : Type := accepted | declined | withdrawn.
#[export] Instance ConsentAction_eq_dec : EqDecision ConsentAction.
Proof. solve_decision. Defined.

Definition OPTIONAL_CONSENT_PURPOSES : list ConsentPurpose :=
  [optional_verus_link; optional_public_identity_proof; relying_party_disclosure].

Record ConsentPresentation : Type := {
  cp_presentationReference : string;
  cp_purpose : ConsentPurpose;
  cp_policyVersionReference : string;
  cp_contentDigest : string;
  cp_presentedAt : Z;
  cp_preselected : bool;
  cp_bundledPurposes : list ConsentPurpose;
}.

(** [Exclude<ConsentAction, "withdrawn">]: the action is typed. *)
Record ConsentChoice : Type := { cc_action : ConsentAction; cc_actedAt : Z }.

Record VersionedConsentReceipt : Type := {
  cr_accountReference : string;
  cr_committeeReference : option string;
  cr_purpose : ConsentPurpose;
  cr_policyVersionReference : string;
  cr_presentationReference : string;
  cr_presentationDigest : string;
  cr_action : ConsentAction;
  cr_presentedAt : Z;
  cr_actedAt : Z;
}.

Record RequiredPolicy : Type := {
  rp_purpose : ConsentPurpose;
  rp_policyVersionReference : string;
  rp_effectiveAt : Z;
  rp_expiresAt : option Z;
  rp_optional : bool;
}.

Definition presentation_canonical (p : ConsentPresentation) : json :=
  JObject [
    (units "presentationReference", jtext (cp_presentationReference p));
    (units "purpose", jtext (purpose_name (cp_purpose p)));
    (units "policyVersionReference", jtext (cp_policyVersionReference p));
    (units "contentDigest", jtext (cp_contentDigest p));
    (units "presentedAt", jtext (toISOString (cp_presentedAt p)))].

Definition presentationDigest `{TextServices} (sha256 : string -> string) (p : ConsentPresentation) : string :=
  sha256 (utf8_text (JSON_stringify (presentation_canonical p))).

Definition recordConsentChoice `{TextServices} (sha256 : string -> string) (accountReference : string)
    (committeeReference : option string) (presentation : ConsentPresentation) (choice : ConsentChoice)
  : result exn VersionedConsentReceipt :=
  throwif! cp_preselected presentation
           || negb (length (cp_bundledPurposes presentation) =? 1)%nat
           || negb (bool_decide (head (cp_bundledPurposes presentation) = Some (cp_purpose presentation)))
           || (cc_actedAt choice <? cp_presentedAt presentation)
           || (negb (includes OPTIONAL_CONSENT_PURPOSES (cp_purpose presentation))
               && bool_decide (cc_action choice = declined))
    as! AuthError CONSENT_INVALID in
  Ok {| cr_accountReference := accountReference; cr_committeeReference := committeeReference;
        cr_purpose := cp_purpose presentation;
        cr_policyVersionReference := cp_policyVersionReference presentation;
        cr_presentationReference := cp_presentationReference presentation;
        cr_presentationDigest := presentationDigest sha256 presentation;
        cr_action := cc_action choice; cr_presentedAt := cp_presentedAt presentation;
        cr_actedAt := cc_actedAt choice |}.

Definition accepts (requirement : RequiredPolicy) (candidate : VersionedConsentReceipt) : bool :=
  bool_decide (cr_purpose candidate = rp_purpose requirement)
  && String.eqb (cr_policyVersionReference candidate) (rp_policyVersionReference requirement)
  && bool_decide (cr_action candidate = accepted).

Definition requirement_current (now : Z) (requirement : RequiredPolicy) : bool :=
  (rp_effectiveAt requirement <=? now)
  && match rp_expiresAt requirement with None => true | Some e => now <? e end.

Definition requireCurrentPolicyReceipts (requirements : list RequiredPolicy)
    (receipts : list VersionedConsentReceipt) (now : Z) : result exn unit :=
  for_each (fun requirement =>
    if rp_optional requirement then Ok tt
    else throwIf (negb (requirement_current now requirement)
                  || match find (accepts requirement) receipts with None => true | Some _ => false end)
           (AuthError POLICY_REQUIRED)) requirements.

Example iso_epoch : toISOString 0 = "1970-01-01T00:00:00.000Z".
Proof. reflexivity. Qed.
Example iso_leap : toISOString 951827696789 = "2000-02-29T12:34:56.789Z".
Proof. reflexivity. Qed.
Example iso_before : toISOString (-1) = "1969-12-31T23:59:59.999Z".
Proof. reflexivity. Qed.

(** ** Properties *)

Lemma find_some_iff {A} (p : A -> bool) l : find p l <> None <-> exists a, a ∈ l /\ p a = true.
Proof.
  induction l as [|x l IH]; simpl; [split; [done|]; set_solver|].
  destruct (p x) eqn:Hx; [split; [|done]; intros _; exists x; set_solver|].
  rewrite IH. split; intros (a & Ha & Hp); exists a; rewrite elem_of_cons in *; [by auto|].
  destruct Ha as [->|Ha]; [congruence|done].
Qed.

(** [requirement] is met at [now]: in force, with an acceptance on file. *)
Definition met (receipts : list VersionedConsentReceipt) (now : Z) (q : RequiredPolicy) : Prop :=
  rp_effectiveAt q <= now /\ (forall e, rp_expiresAt q = Some e -> now < e) /\
  exists c, c ∈ receipts /\ cr_purpose c = rp_purpose q /\
    cr_policyVersionReference c = rp_policyVersionReference q /\ cr_action c = accepted.

Lemma require_receipts_ok requirements receipts now :
  requireCurrentPolicyReceipts requirements receipts now = Ok tt <->
  forall q, q ∈ requirements -> rp_optional q = false -> met receipts now q.
Proof.
  unfold requireCurrentPolicyReceipts. rewrite for_each_ok. apply forall_proper. intros q.
  destruct (rp_optional q); [naive_solver|]. rewrite throwIf_ok, orb_false_iff, negb_false_iff.
  assert (Hc : requirement_current now q = true <->
               rp_effectiveAt q <= now /\ (forall e, rp_expiresAt q = Some e -> now < e)).
  { unfold requirement_current. rewrite andb_true_iff, Z.leb_le.
    destruct (rp_expiresAt q) as [e|]; [rewrite Z.ltb_lt|]; naive_solver. }
  assert (Hf : match find (accepts q) receipts with None => true | Some _ => false end = false <->
               exists c, c ∈ receipts /\ accepts q c = true).
  { rewrite <- find_some_iff. by destruct (find _ _). }
  rewrite Hc, Hf. unfold met, accepts. setoid_rewrite andb_true_iff. setoid_rewrite andb_true_iff.
  setoid_rewrite bool_decide_eq_true. setoid_rewrite String.eqb_eq. naive_solver.
Qed.

(** The policy gate opens exactly when every requirement that is not
    optional is in force and has an acceptance of that purpose and version on
    file, and is POLICY_REQUIRED otherwise.  Receipts of other actions do not
    matter, withdrawals included: an acceptance that was withdrawn later
    still opens the gate. *)
Theorem policy_gate requirements receipts now :
  (requireCurrentPolicyReceipts requirements receipts now = Ok tt <->
     forall q, q ∈ requirements -> rp_optional q = false -> met receipts now q) /\
  (requireCurrentPolicyReceipts requirements receipts now <> Ok tt ->
     requireCurrentPolicyReceipts requirements receipts now = Err (AuthError POLICY_REQUIRED)) /\
  (forall later, (forall c, c ∈ later -> cr_action c = withdrawn) ->
     requireCurrentPolicyReceipts requirements (receipts ++ later) now =
     requireCurrentPolicyReceipts requirements receipts now).
Proof.
  assert (Herr : forall rs, requireCurrentPolicyReceipts requirements rs now <> Ok tt ->
            requireCurrentPolicyReceipts requirements rs now = Err (AuthError POLICY_REQUIRED)).
  { intros rs. destruct (requireCurrentPolicyReceipts requirements rs now) as [[]|e] eqn:E; [done|]. intros _.
    apply for_each_err in E as (q & _ & Hq). destruct (rp_optional q); [done|].
    apply throwIf_err in Hq as [_ <-]. done. }
  split_and!; [apply require_receipts_ok|apply Herr|]. intros later Hw.
  assert (Hiff : requireCurrentPolicyReceipts requirements (receipts ++ later) now = Ok tt <->
                 requireCurrentPolicyReceipts requirements receipts now = Ok tt).
  { rewrite !require_receipts_ok. unfold met. split; intros Hall q Hq Ho;
      destruct (Hall q Hq Ho) as (He & Hx & c & Hin & Hc); (split_and!; [done|done|]); exists c;
      rewrite elem_of_app in *; [|tauto].
    destruct Hin as [Hin|Hin]; [tauto|]. apply Hw in Hin. destruct Hc as (_ & _ & Hc). congruence. }
  destruct (requireCurrentPolicyReceipts requirements receipts now) as [[]|e] eqn:E.
  - by apply Hiff.
  - rewrite Herr; [rewrite <- E; symmetry; apply Herr; congruence|]. rewrite Hiff. congruence.
Qed.

(** A receipt is made exactly for a choice that was not preselected, was
    presented for its purpose alone, was made no earlier than the
    presentation and, for a purpose that is not optional, does not decline;
    it binds what was presented by its digest. *)
Theorem consent_recorded_iff `{TextServices} sha256 account committee p c r :
  recordConsentChoice sha256 account committee p c = Ok r <->
  (cp_preselected p = false /\ cp_bundledPurposes p = [cp_purpose p] /\
   cp_presentedAt p <= cc_actedAt c /\
   (cp_purpose p ∈ OPTIONAL_CONSENT_PURPOSES \/ cc_action c <> declined)) /\
  r = {| cr_accountReference := account; cr_committeeReference := committee; cr_purpose := cp_purpose p;
         cr_policyVersionReference := cp_policyVersionReference p;
         cr_presentationReference := cp_presentationReference p;
         cr_presentationDigest := sha256 (utf8_text (JSON_stringify (presentation_canonical p)));
         cr_action := cc_action c; cr_presentedAt := cp_presentedAt p; cr_actedAt := cc_actedAt c |}.
Proof.
  unfold recordConsentChoice, presentationDigest. rewrite bindR_ok.
  assert (Hb : length (cp_bundledPurposes p) = 1%nat /\ head (cp_bundledPurposes p) = Some (cp_purpose p) <->
               cp_bundledPurposes p = [cp_purpose p]).
  { destruct (cp_bundledPurposes p) as [|x [|y l]]; simpl; (split; [intros [? ?]|intros ?]); simplify_eq; done. }
  rewrite <- Hb. split.
  - intros (u & Ht & Hr). apply Ok_inj in Hr as <-. apply throwIf_ok in Ht.
    rewrite !orb_false_iff, !andb_false_iff, !negb_false_iff, Nat.eqb_eq, Z.ltb_ge, includes_true,
      !bool_decide_eq_true, bool_decide_eq_false in Ht. tauto.
  - intros [Hall ->]. exists tt. split; [|done]. apply throwIf_ok.
    rewrite !orb_false_iff, !andb_false_iff, !negb_false_iff, Nat.eqb_eq, Z.ltb_ge, includes_true,
      !bool_decide_eq_true, bool_decide_eq_false. tauto.
Qed.
