(* ===== verification/Auth.v ===== *)
(** * Auth: sessions, rate limits, challenges and recovery.

    The services of packages/auth: trust-domain.ts, crypto.ts, session.ts,
    rate-limit.ts, challenge.ts and email-recovery.ts, over the stores they are
    given, with the store interfaces of account-security.ts and passkey.ts
    (their services are in Passkey.v).  The stores are type classes over a
    world [W]; AuthRepository.v implements them on the database.

    Dates given to the services are valid (milliseconds); a date the code
    computes may leave the range of dates ([jsdate]).  HTTP methods, origins
    and references are texts kept as their bytes. *)
From Stdlib Require Import SpecFloat Ascii.
From stdpp Require Import pretty.
From S2P Require Import Prelude Errors Text Json JsonParse Authorization.
Local Open Scope Z_scope.

(** ** Platform: node's crypto, the language's text services *)

Class AuthCrypto := {
  hmac_sha256 : string -> string -> string;       (* createHmac("sha256", secret).update(v).digest("hex") *)
  lookup_text : string -> string;                 (* email.trim().normalize("NFKC").toLocaleLowerCase("en-US") *)
}.

(** Random draws: [randomBytes(32).toString("base64url")] and [newId()]. *)
Class Randomness (W : Type) := {
  generateOpaqueToken : prog W exn string;
  newAuthId : prog W exn string;
}.

(** crypto.ts *)
Definition keyedDigest `{AuthCrypto} (secret value : string) : string := hmac_sha256 secret value.
Definition digestMatches (expected actual : string) : bool := String.eqb expected actual.
Definition normalizeEmailForLookup `{AuthCrypto} (email secret : string) : string :=
  keyedDigest secret (lookup_text email).

(** ** trust-domain.ts *)

Definition SESSION_AUDIENCES (d : TrustDomain) : string :=
  match d with td_participant => "cbc-participant-app" | td_committee => "cbc-committee-console" end.
Definition domain_name (d : TrustDomain) : string :=
  match d with td_participant => "participant" | td_committee => "committee" end.

Inductive SameSite : Type := Lax | Strict.
Record TrustDomainConfig : Type := {
  tc_domain : TrustDomain;
  tc_audience : string;
  tc_cookieName : string;
  tc_origin : string;
  tc_relyingPartyId : string;
  tc_sessionSecret : string;
  tc_idleTimeoutMs : Z;
  tc_absoluteTimeoutMs : Z;
  tc_privilegedReauthenticationMs : Z;
  tc_sameSite : SameSite;
}.

(** One iteration of the loop; [sessionSecret.length] counts code units. *)
Definition domain_secure `{UrlPlatform} (config : TrustDomainConfig) : result exn unit :=
  match new_URL (tc_origin config) with
  | None => Err (OtherError "Invalid URL")
  | Some origin =>
    let secureLocalhost :=
      String.eqb (url_protocol origin) "http:"
      && includes ["localhost"; "127.0.0.1"; "::1"] (url_hostname origin) in
    throwIf (negb (String.prefix "__Host-" (tc_cookieName config))
             || (length (text_units (tc_sessionSecret config)) <? 32)%nat
             || (negb (String.eqb (url_protocol origin) "https:") && negb secureLocalhost))
      (AuthError AUTHORIZATION_DENIED)
  end.

Definition validateTrustDomains `{UrlPlatform} (participant committee : TrustDomainConfig) : result exn unit :=
  throwif! negb (bool_decide (tc_domain participant = td_participant))
           || negb (bool_decide (tc_domain committee = td_committee))
           || String.eqb (tc_audience participant) (tc_audience committee)
           || String.eqb (tc_cookieName participant) (tc_cookieName committee)
           || String.eqb (tc_sessionSecret participant) (tc_sessionSecret committee)
           || String.eqb (tc_origin participant) (tc_origin committee)
    as! AuthError AUTHORIZATION_DENIED in
  for_each domain_secure [participant; committee].

Definition sameSite_name (s : SameSite) : string := match s with Lax => "Lax" | Strict => "Strict" end.

(** [maxAgeSeconds] is given by its floor. *)
Definition sessionCookie (config : TrustDomainConfig) (token : string) (maxAgeSeconds : Z) : string :=
  tc_cookieName config +:+ "=" +:+ token +:+ "; Path=/; Max-Age=" +:+ pretty (Z.max 0 maxAgeSeconds)
  +:+ "; Secure; HttpOnly; SameSite=" +:+ sameSite_name (tc_sameSite config).
Definition expiredSessionCookie (config : TrustDomainConfig) : string :=
  tc_cookieName config +:+ "=; Path=/; Max-Age=0; Secure; HttpOnly; SameSite="
  +:+ sameSite_name (tc_sameSite config).

(** ** The stores *)

Record SessionRecord : Type := {
  sr_id : string;
  sr_accountReference : string;
  sr_trustDomain : TrustDomain;
  sr_audience : string;
  sr_tokenDigest : string;
  sr_csrfDigest : string;
  sr_authenticationStrength : AuthenticationStrength;
  sr_authenticatedAt : Z;
  sr_reauthenticatedAt : option Z;
  sr_idleExpiresAt : jsdate;
  sr_absoluteExpiresAt : jsdate;
  sr_revokedAt : option Z;
  sr_deviceLabel : string;
}.

Class SessionStore (W : Type) := {
  sessions_create : SessionRecord -> prog W exn unit;
  sessions_findByTokenDigest : TrustDomain -> string -> prog W exn (option SessionRecord);
  sessions_revoke : string -> string -> Z -> prog W exn unit;
  sessions_revokeAll : string -> TrustDomain -> string -> Z -> prog W exn Z;
  sessions_touch : string -> jsdate -> Z -> prog W exn unit;
  sessions_list : string -> TrustDomain -> prog W exn (list SessionRecord);
}.

Inductive AuthChallengeKind : Type :=
| passkey_registration | passkey_authentication | email_sign_in | account_recovery
| recovery_grant | email_change.
#[export] Instance AuthChallengeKind_eq_dec : EqDecision AuthChallengeKind.
Proof. solve_decision. Defined.

Record AuthChallengeRecord : Type := {
  ch_id : string;
  ch_accountReference : option string;
  ch_trustDomain : TrustDomain;
  ch_kind : AuthChallengeKind;
  ch_secretDigest : string;
  ch_destinationReference : option string;
  ch_lookupDigest : option string;
  ch_expiresAt : jsdate;
  ch_createdAt : Z;
}.
Record ConsumedAuthChallenge : Type := { cch_record : AuthChallengeRecord; cch_consumedAt : Z }.

(** [consume]: by id or by secret digest. *)
Class AuthChallengeStore (W : Type) := {
  challenges_create : AuthChallengeRecord -> prog W exn unit;
  challenges_consume : option string -> option string -> AuthChallengeKind -> TrustDomain -> Z ->
                       prog W exn (option ConsumedAuthChallenge);
}.

Class RateLimitStore (W : Type) := {
  increment : string -> string -> jsdate -> jsdate -> prog W exn Z;
}.

Record VerifiedEmailAccount : Type := {
  ve_accountReference : string;
  ve_trustDomain : TrustDomain;
  ve_destinationReference : string;
  ve_accountState : AccountState;
}.
Class VerifiedEmailDirectory (W : Type) := {
  findByLookupDigest : TrustDomain -> string -> prog W exn (option VerifiedEmailAccount);
}.

Inductive NotificationKind : Type :=
| email_sign_in_requested | account_recovery_requested | account_recovered | sessions_revoked
| account_locked | email_change_requested | email_changed.
Record SecurityNotification : Type := {
  nt_accountReference : string;
  nt_destinationReference : string;
  nt_kind : NotificationKind;
  nt_secret : option string;
  nt_expiresAt : jsdate;
}.
Class SecurityNotificationSink (W : Type) := { enqueue : SecurityNotification -> prog W exn unit }.

Record SecurityMutationContext : Type := {
  sm_actorReference : string;
  sm_authenticationStrength : AuthenticationStrength;
  sm_policyVersionReference : string;
  sm_softwareVersion : string;
  sm_correlationId : string;
}.

Record RecoveryInput : Type := {
  ri_accountReference : string;
  ri_trustDomain : TrustDomain;
  ri_committeeReviewRequired : bool;
  ri_destinationReference : string;
  ri_policyVersionReference : string;
  ri_softwareVersion : string;
  ri_correlationId : string;
  ri_at : Z;
}.
Class RecoveryAccountStore (W : Type) := { recoverAndRevokeSessions : RecoveryInput -> prog W exn Z }.

(** [changeVerifiedEmail] returns the old destinations and the number of
    sessions revoked. *)
Class AccountSecurityStore (W : Type) := {
  lockAndRevokeSessions : string -> TrustDomain -> string -> SecurityMutationContext -> Z -> prog W exn Z;
  changeVerifiedEmail : string -> TrustDomain -> string -> string -> SecurityMutationContext -> Z ->
                        prog W exn (list string * Z);
}.

(** ** session.ts *)

(** [date <= now], false for an invalid date. *)
Definition passed (d : jsdate) (now : Z) : bool := match d with Some t => t <=? now | None => false end.

Section session.
Context {W : Type} `{SessionStore W} `{Randomness W} `{AuthCrypto}.
Context (configs : TrustDomain -> TrustDomainConfig).

Record IssuedSession : Type := { is_record : SessionRecord; is_token : string; is_csrfToken : string }.

Definition issue (accountReference : string) (trustDomain : TrustDomain) (s : AuthenticationStrength)
    (deviceLabel : string) (now : Z) (priorSessionId : option string) : prog W exn IssuedSession :=
  let config := configs trustDomain in
  throwif* bool_decide (trustDomain = td_committee) && negb (bool_decide (s = passkey))
    as! AuthError AUTHENTICATION_FAILED in
  run* match nonempty priorSessionId with
       | Some prior => sessions_revoke prior "session_rotated" now
       | None => ret tt
       end in
  let* token := generateOpaqueToken in
  let* csrfToken := generateOpaqueToken in
  let* i := newAuthId in
  let record := {|
    sr_id := i; sr_accountReference := accountReference; sr_trustDomain := trustDomain;
    sr_audience := tc_audience config; sr_tokenDigest := keyedDigest (tc_sessionSecret config) token;
    sr_csrfDigest := keyedDigest (tc_sessionSecret config) csrfToken;
    sr_authenticationStrength := s; sr_authenticatedAt := now;
    sr_reauthenticatedAt := if bool_decide (s = passkey) then Some now else None;
    sr_idleExpiresAt := newDate (now + tc_idleTimeoutMs config);
    sr_absoluteExpiresAt := newDate (now + tc_absoluteTimeoutMs config);
    sr_revokedAt := None; sr_deviceLabel := deviceLabel |} in
  run* sessions_create record in
  ret {| is_record := record; is_token := token; is_csrfToken := csrfToken |}.

Definition with_idle (idle : jsdate) (r : SessionRecord) : SessionRecord := {|
  sr_id := sr_id r; sr_accountReference := sr_accountReference r; sr_trustDomain := sr_trustDomain r;
  sr_audience := sr_audience r; sr_tokenDigest := sr_tokenDigest r; sr_csrfDigest := sr_csrfDigest r;
  sr_authenticationStrength := sr_authenticationStrength r; sr_authenticatedAt := sr_authenticatedAt r;
  sr_reauthenticatedAt := sr_reauthenticatedAt r; sr_idleExpiresAt := idle;
  sr_absoluteExpiresAt := sr_absoluteExpiresAt r; sr_revokedAt := sr_revokedAt r;
  sr_deviceLabel := sr_deviceLabel r |}.

(** [new Date(Math.min(now + idle, absolute))]; a NaN makes it invalid. *)
Definition next_idle (config : TrustDomainConfig) (now : Z) (absolute : jsdate) : jsdate :=
  match absolute with
  | Some a => newDate (Z.min (now + tc_idleTimeoutMs config) a)
  | None => None
  end.

Definition authenticate (trustDomain : TrustDomain) (token : option string) (now : Z)
  : prog W exn SessionRecord :=
  match nonempty token with
  | None => throw (AuthError AUTHENTICATION_REQUIRED)
  | Some token =>
    let config := configs trustDomain in
    let* found := sessions_findByTokenDigest trustDomain (keyedDigest (tc_sessionSecret config) token) in
    match found with
    | None => throw (AuthError AUTHENTICATION_FAILED)
    | Some record =>
      throwif* negb (String.eqb (sr_audience record) (tc_audience config))
        as! AuthError AUTHENTICATION_FAILED in
      throwif* match sr_revokedAt record with Some _ => true | None => false end
        as! AuthError SESSION_REVOKED in
      if passed (sr_idleExpiresAt record) now || passed (sr_absoluteExpiresAt record) now then
        run* sessions_revoke (sr_id record) "session_expired" now in
        throw (AuthError SESSION_EXPIRED)
      else
        let nextIdle := next_idle config now (sr_absoluteExpiresAt record) in
        run* sessions_touch (sr_id record) nextIdle now in
        ret (with_idle nextIdle record)
    end
  end.

Definition requireRecentStrongAuthentication (session : SessionRecord) (now : Z) : result exn unit :=
  let config := configs (sr_trustDomain session) in
  throwIf (negb (bool_decide (sr_authenticationStrength session = passkey))
           || match sr_reauthenticatedAt session with
              | Some t => tc_privilegedReauthenticationMs config <? now - t
              | None => true
              end) (AuthError REAUTHENTICATION_REQUIRED).

(** [method.toUpperCase()] on an HTTP method. *)
Definition upper_ascii (c : ascii) : ascii :=
  if lower c then ascii_of_nat (nat_of_ascii c - 32) else c.
Fixpoint toUpperCase (s : string) : string :=
  match s with EmptyString => EmptyString | String c s' => String (upper_ascii c) (toUpperCase s') end.

Definition requireCsrf (session : SessionRecord) (method : string) (origin csrfToken : option string)
  : result exn unit :=
  if includes ["GET"; "HEAD"; "OPTIONS"] (toUpperCase method) then Ok tt
  else
    let config := configs (sr_trustDomain session) in
    match nonempty csrfToken with
    | None => Err (AuthError ORIGIN_REJECTED)
    | Some csrf =>
      throwif! negb (bool_decide (origin = Some (tc_origin config))) as! AuthError ORIGIN_REJECTED in
      throwIf (negb (digestMatches (sr_csrfDigest session) (keyedDigest (tc_sessionSecret config) csrf)))
        (AuthError ORIGIN_REJECTED)
    end.
End session.

(** ** rate-limit.ts *)

Inductive RateBucket : Type :=
| login_network | login_account | recovery_network | recovery_account
| wallet_callback_network | wallet_link_account.
Definition bucket_name (b : RateBucket) : string :=
  match b with
  | login_network => "login_network" | login_account => "login_account"
  | recovery_network => "recovery_network" | recovery_account => "recovery_account"
  | wallet_callback_network => "wallet_callback_network" | wallet_link_account => "wallet_link_account"
  end.

Section rate_limit.
Context {W : Type} `{RateLimitStore W} `{AuthCrypto} (secret : string).

Definition rate_key (bucket : RateBucket) (opaqueSubject : string) (windowNumber : Z) : string :=
  keyedDigest secret (bucket_name bucket +:+ ":" +:+ opaqueSubject +:+ ":" +:+ pretty windowNumber).

(** [new Date(windowStartedAt.getTime() + windowMs)]. *)
Definition after_date (d : jsdate) (ms : Z) : jsdate := match d with Some t => newDate (t + ms) | None => None end.

Definition requireWithinLimit (bucket : RateBucket) (opaqueSubject : string) (now windowMs limit : Z)
  : prog W exn unit :=
  let windowNumber := now / windowMs in
  let windowStartedAt := newDate (windowNumber * windowMs) in
  let* count := increment (rate_key bucket opaqueSubject windowNumber) (bucket_name bucket)
                  windowStartedAt (after_date windowStartedAt windowMs) in
  throwWhen (limit <? count) (AuthError RATE_LIMITED).
End rate_limit.

(** ** email-recovery.ts *)

(** The one answer of [begin], whatever the account is. *)
Inductive GenericChallengeResponse : Type := genericResponse.

(** [email_sign_in] or [account_recovery]. *)
Inductive EmailFlow : Type := sign_in_flow | recovery_flow.
#[export] Instance EmailFlow_eq_dec : EqDecision EmailFlow.
Proof. solve_decision. Defined.
Definition flow_kind (f : EmailFlow) : AuthChallengeKind :=
  match f with sign_in_flow => email_sign_in | recovery_flow => account_recovery end.
Definition network_bucket (f : EmailFlow) : RateBucket :=
  match f with sign_in_flow => login_network | recovery_flow => recovery_network end.
Definition account_bucket (f : EmailFlow) : RateBucket :=
  match f with sign_in_flow => login_account | recovery_flow => recovery_account end.

Definition windowMs_15min : Z := 15 * 60000.

Record RecoveryCompletion : Type := {
  rc_accountReference : string;
  rc_recoveryGrant : option string;
  rc_committeeReviewRequired : bool;
}.

Section email_recovery.
Context {W : Type} `{VerifiedEmailDirectory W} `{AuthChallengeStore W} `{RateLimitStore W}
  `{SecurityNotificationSink W} `{RecoveryAccountStore W} `{Randomness W} `{AuthCrypto}.
Context (rateSecret : string) (secrets : TrustDomain -> string).

Definition eligible (kind : EmailFlow) (trustDomain : TrustDomain) (account : VerifiedEmailAccount) : bool :=
  match kind with
  | sign_in_flow => bool_decide (trustDomain = td_participant)
                    && bool_decide (ve_accountState account = as_active)
  | recovery_flow => bool_decide (ve_accountState account = as_active)
                     || bool_decide (ve_accountState account = as_locked)
  end.

(** The part of [begin] after both limits. *)
Definition begin_challenge (kind : EmailFlow) (trustDomain : TrustDomain) (lookupDigest : string)
    (now lifetimeMs : Z) : prog W exn GenericChallengeResponse :=
  let secret := secrets trustDomain in
  let* account := findByLookupDigest trustDomain lookupDigest in
  match account with
  | None => ret genericResponse
  | Some account =>
    if negb (eligible kind trustDomain account) then ret genericResponse
    else
      let* token := generateOpaqueToken in
      let expiresAt := newDate (now + lifetimeMs) in
      let* i := newAuthId in
      run* challenges_create {|
        ch_id := i; ch_accountReference := Some (ve_accountReference account);
        ch_trustDomain := trustDomain; ch_kind := flow_kind kind;
        ch_secretDigest := keyedDigest secret token;
        ch_destinationReference := Some (ve_destinationReference account);
        ch_lookupDigest := None; ch_expiresAt := expiresAt; ch_createdAt := now |} in
      run* enqueue {|
        nt_accountReference := ve_accountReference account;
        nt_destinationReference := ve_destinationReference account;
        nt_kind := match kind with sign_in_flow => email_sign_in_requested
                                 | recovery_flow => account_recovery_requested end;
        nt_secret := Some token; nt_expiresAt := expiresAt |} in
      ret genericResponse
  end.

Definition is_rate_limited (e : exn) : bool :=
  match e with AuthError RATE_LIMITED => true | _ => false end.

Definition begin (kind : EmailFlow) (trustDomain : TrustDomain) (email networkReference : string)
    (now lifetimeMs : Z) : prog W exn GenericChallengeResponse :=
  let lookupDigest := normalizeEmailForLookup email (secrets trustDomain) in
  run* requireWithinLimit rateSecret (network_bucket kind) networkReference now windowMs_15min 20 in
  let* limited :=
    catch (run* requireWithinLimit rateSecret (account_bucket kind) lookupDigest now windowMs_15min 5 in ret false)
      (fun e => if is_rate_limited e then ret true else throw e) in
  if limited then ret genericResponse
  else begin_challenge kind trustDomain lookupDigest now lifetimeMs.

(** [challenge?.accountReference], absent and empty references being falsy. *)
Definition challenge_account (challenge : option ConsumedAuthChallenge) : option string :=
  match challenge with Some c => nonempty (ch_accountReference (cch_record c)) | None => None end.
Definition challenge_destination (challenge : option ConsumedAuthChallenge) : option string :=
  match challenge with Some c => nonempty (ch_destinationReference (cch_record c)) | None => None end.

Definition completeEmailSignIn (trustDomain : TrustDomain) (token : string) (now : Z) : prog W exn string :=
  let* challenge := challenges_consume None (Some (keyedDigest (secrets trustDomain) token))
                      email_sign_in trustDomain now in
  match challenge_account challenge with
  | None => throw (AuthError AUTHENTICATION_FAILED)
  | Some account =>
    throwif* bool_decide (trustDomain = td_committee) as! AuthError AUTHENTICATION_FAILED in
    ret account
  end.

Definition completeRecovery (trustDomain : TrustDomain) (token : string) (now grantLifetimeMs : Z)
    (policyVersionReference softwareVersion correlationId : string) : prog W exn RecoveryCompletion :=
  let secret := secrets trustDomain in
  let* challenge := challenges_consume None (Some (keyedDigest secret token)) account_recovery trustDomain now in
  match challenge_account challenge, challenge_destination challenge with
  | Some account, Some destination =>
    let committeeReviewRequired := bool_decide (trustDomain = td_committee) in
    run* recoverAndRevokeSessions {|
      ri_accountReference := account; ri_trustDomain := trustDomain;
      ri_committeeReviewRequired := committeeReviewRequired; ri_destinationReference := destination;
      ri_policyVersionReference := policyVersionReference; ri_softwareVersion := softwareVersion;
      ri_correlationId := correlationId; ri_at := now |} in
    run* enqueue {| nt_accountReference := account; nt_destinationReference := destination;
                    nt_kind := account_recovered; nt_secret := None; nt_expiresAt := None |} in
    if committeeReviewRequired then
      ret {| rc_accountReference := account; rc_recoveryGrant := None; rc_committeeReviewRequired := true |}
    else
      let* recoveryGrant := generateOpaqueToken in
      let* i := newAuthId in
      run* challenges_create {|
        ch_id := i; ch_accountReference := Some account; ch_trustDomain := trustDomain;
        ch_kind := recovery_grant; ch_secretDigest := keyedDigest secret recoveryGrant;
        ch_destinationReference := None; ch_lookupDigest := None;
        ch_expiresAt := newDate (now + grantLifetimeMs); ch_createdAt := now |} in
      ret {| rc_accountReference := account; rc_recoveryGrant := Some recoveryGrant;
             rc_committeeReviewRequired := false |}
  | _, _ => throw (AuthError AUTHENTICATION_FAILED)
  end.

Definition consumeRecoveryGrant (trustDomain : TrustDomain) (recoveryGrant : string) (now : Z)
  : prog W exn string :=
  let* challenge := challenges_consume None (Some (keyedDigest (secrets trustDomain) recoveryGrant))
                      recovery_grant trustDomain now in
  match challenge_account challenge with
  | None => throw (AuthError AUTHENTICATION_FAILED)
  | Some account => ret account
  end.
End email_recovery.
