(* ===== verification/Passkey.v ===== *)
(** * Passkey: WebAuthn credentials and account security.

    packages/auth/src/passkey.ts and account-security.ts over the stores of
    Auth.v.  The WebAuthn library is a type class: what it generates and
    what it verifies are its own. *)
From Stdlib Require Import SpecFloat.
From S2P Require Import Prelude Errors Text Json JsonParse Authorization Auth.
Local Open Scope Z_scope.

(** ** passkey.ts *)

Inductive DeviceType : Type := singleDevice | multiDevice.
#[export] Instance DeviceType_eq_dec : EqDecision DeviceType.
Proof. solve_decision. Defined.
Inductive CredentialState : Type := pk_active | pk_disabled | pk_revoked.
#[export] Instance CredentialState_eq_dec : EqDecision CredentialState.
Proof. solve_decision. Defined.

Record StoredPasskeyCredential : Type := {
  pc_credentialReference : string;
  pc_accountReference : string;
  pc_trustDomain : TrustDomain;
  pc_relyingPartyId : string;
  pc_publicKey : list Z;
  pc_counter : Z;
  pc_transports : list string;
  pc_deviceType : DeviceType;
  pc_backedUp : bool;
  pc_deviceLabel : string;
  pc_state : CredentialState;
}.

Record PasskeyUsage : Type := {
  us_credentialReference : string;
  us_counter : Z;
  us_deviceType : DeviceType;
  us_backedUp : bool;
  us_usedAt : Z;
}.

Class PasskeyRepository (W : Type) := {
  listActive : string -> TrustDomain -> prog W exn (list StoredPasskeyCredential);
  findActive : string -> TrustDomain -> prog W exn (option StoredPasskeyCredential);
  save : StoredPasskeyCredential -> Z -> prog W exn unit;
  updateUsage : PasskeyUsage -> prog W exn unit;
  repository_revokeCredential : string -> string -> Z -> prog W exn unit;
}.

Record PasskeyDomainConfig : Type := {
  kc_relyingPartyName : string;
  kc_relyingPartyId : string;
  kc_origin : string;
  kc_challengeSecret : string;
  kc_challengeLifetimeMs : Z;
}.

(** What @simplewebauthn/server is asked and what it answers; the options
    object is passed on as it is. *)
Record RegistrationOptionsRequest : Type := {
  go_rpName : string;
  go_rpID : string;
  go_userName : string;
  go_userID : string;
  go_excludeCredentials : list (string * list string);
}.
Record GeneratedOptions : Type := { wo_challenge : string; wo_options : json }.
Record RegistrationInfo : Type := {
  rg_id : string;
  rg_publicKey : list Z;
  rg_counter : Z;
  rg_transports : option (list string);
  rg_deviceType : DeviceType;
  rg_backedUp : bool;
}.
Record AuthenticationInfo : Type := {
  au_userVerified : bool;
  au_newCounter : Z;
  au_deviceType : DeviceType;
  au_backedUp : bool;
}.
(** The credential handed to the verification of an assertion. *)
Record CredentialInput : Type := {
  ci_id : string; ci_publicKey : list Z; ci_counter : Z; ci_transports : list string }.
Record AuthenticationResponse : Type := { as_id : string; as_response : json }.

(** [verify...]: None when the result is not verified; the challenge is
    checked by the callback the caller gives. *)
Class WebAuthnAdapter (W : Type) := {
  generateRegistrationOptions : RegistrationOptionsRequest -> prog W exn GeneratedOptions;
  generateAuthenticationOptions : string -> prog W exn GeneratedOptions;
  verifyRegistrationResponse : json -> (string -> bool) -> string -> string -> prog W exn (option RegistrationInfo);
  verifyAuthenticationResponse : AuthenticationResponse -> (string -> bool) -> string -> string ->
                                 CredentialInput -> prog W exn (option AuthenticationInfo);
}.

Inductive EnrollmentAuthority : Type :=
| initial_verified_email | recent_passkey | by_recovery_grant | approved_invitation.
#[export] Instance EnrollmentAuthority_eq_dec : EqDecision EnrollmentAuthority.
Proof. solve_decision. Defined.

Section passkey.
Context {W : Type} `{PasskeyRepository W} `{AuthChallengeStore W} `{WebAuthnAdapter W} `{Randomness W}
  `{AuthCrypto}.
Context (configs : TrustDomain -> PasskeyDomainConfig).

Definition enrollment_authorized (trustDomain : TrustDomain) (authorizedBy : EnrollmentAuthority)
    (existing : list StoredPasskeyCredential) : bool :=
  let authorizedInitialEnrollment :=
    (length existing =? 0)%nat
    && ((bool_decide (trustDomain = td_participant) && bool_decide (authorizedBy = initial_verified_email))
        || (bool_decide (trustDomain = td_committee) && bool_decide (authorizedBy = approved_invitation))) in
  let authorizedCredentialChange :=
    bool_decide (authorizedBy = recent_passkey)
    || (bool_decide (trustDomain = td_participant) && bool_decide (authorizedBy = by_recovery_grant)) in
  authorizedInitialEnrollment || authorizedCredentialChange.

Definition passkey_challenge (i : string) (account : option string) (trustDomain : TrustDomain)
    (kind : AuthChallengeKind) (challenge : string) (now : Z) : AuthChallengeRecord := {|
  ch_id := i; ch_accountReference := account; ch_trustDomain := trustDomain; ch_kind := kind;
  ch_secretDigest := keyedDigest (kc_challengeSecret (configs trustDomain)) challenge;
  ch_destinationReference := None; ch_lookupDigest := None;
  ch_expiresAt := newDate (now + kc_challengeLifetimeMs (configs trustDomain)); ch_createdAt := now |}.

Definition beginRegistration (accountReference : string) (trustDomain : TrustDomain)
    (authorizedBy : EnrollmentAuthority) (now : Z) : prog W exn (string * json) :=
  let config := configs trustDomain in
  let* existing := listActive accountReference trustDomain in
  throwif* negb (enrollment_authorized trustDomain authorizedBy existing)
    as! AuthError REAUTHENTICATION_REQUIRED in
  let* options := generateRegistrationOptions {|
    go_rpName := kc_relyingPartyName config; go_rpID := kc_relyingPartyId config;
    go_userName := accountReference; go_userID := accountReference;
    go_excludeCredentials := (fun c => (pc_credentialReference c, pc_transports c)) <$> existing |} in
  let* challengeReference := newAuthId in
  run* challenges_create (passkey_challenge challengeReference (Some accountReference) trustDomain
                            passkey_registration (wo_challenge options) now) in
  ret (challengeReference, wo_options options).

(** [expectedChallenge]: the value's digest is the one on file. *)
Definition expectedChallenge (trustDomain : TrustDomain) (challenge : ConsumedAuthChallenge) (value : string) : bool :=
  digestMatches (ch_secretDigest (cch_record challenge))
    (keyedDigest (kc_challengeSecret (configs trustDomain)) value).

(** [try { ... } catch { throw new AuthError("AUTHENTICATION_FAILED"); }] and
    the refusal of an unverified result. *)
Definition verified_or_fail {A : Type} (c : prog W exn (option A)) : prog W exn A :=
  let* result := catch c (fun _ => throw (AuthError AUTHENTICATION_FAILED)) in
  match result with
  | Some info => ret info
  | None => throw (AuthError AUTHENTICATION_FAILED)
  end.

Definition finishRegistration (trustDomain : TrustDomain) (challengeReference : string) (response : json)
    (deviceLabel : string) (now : Z) : prog W exn StoredPasskeyCredential :=
  let config := configs trustDomain in
  let* challenge := challenges_consume (Some challengeReference) None passkey_registration trustDomain now in
  match challenge with
  | None => throw (AuthError CHALLENGE_REPLAYED)
  | Some consumed =>
    match nonempty (ch_accountReference (cch_record consumed)) with
    | None => throw (AuthError CHALLENGE_REPLAYED)
    | Some account =>
      let* info := verified_or_fail
        (verifyRegistrationResponse response (expectedChallenge trustDomain consumed)
           (kc_origin config) (kc_relyingPartyId config)) in
      let credential := {|
        pc_credentialReference := rg_id info; pc_accountReference := account;
        pc_trustDomain := trustDomain; pc_relyingPartyId := kc_relyingPartyId config;
        pc_publicKey := rg_publicKey info; pc_counter := rg_counter info;
        pc_transports := default [] (rg_transports info); pc_deviceType := rg_deviceType info;
        pc_backedUp := rg_backedUp info; pc_deviceLabel := deviceLabel; pc_state := pk_active |} in
      run* save credential now in
      ret credential
    end
  end.

Definition beginAuthentication (trustDomain : TrustDomain) (now : Z) : prog W exn (string * json) :=
  let config := configs trustDomain in
  let* options := generateAuthenticationOptions (kc_relyingPartyId config) in
  let* challengeReference := newAuthId in
  run* challenges_create (passkey_challenge challengeReference None trustDomain
                            passkey_authentication (wo_challenge options) now) in
  ret (challengeReference, wo_options options).

(** Returns the account and the credential. *)
Definition finishAuthentication (trustDomain : TrustDomain) (challengeReference : string)
    (response : AuthenticationResponse) (now : Z) : prog W exn (string * string) :=
  let config := configs trustDomain in
  let* challenge := challenges_consume (Some challengeReference) None passkey_authentication trustDomain now in
  match challenge with
  | None => throw (AuthError CHALLENGE_REPLAYED)
  | Some consumed =>
    let* found := findActive (as_id response) trustDomain in
    match found with
    | None => throw (AuthError AUTHENTICATION_FAILED)
    | Some credential =>
      throwif* negb (String.eqb (pc_relyingPartyId credential) (kc_relyingPartyId config))
        as! AuthError AUTHENTICATION_FAILED in
      let* info := verified_or_fail
        (verifyAuthenticationResponse response (expectedChallenge trustDomain consumed)
           (kc_origin config) (kc_relyingPartyId config)
           {| ci_id := pc_credentialReference credential; ci_publicKey := pc_publicKey credential;
              ci_counter := pc_counter credential; ci_transports := pc_transports credential |}) in
      throwif* negb (au_userVerified info) as! AuthError AUTHENTICATION_FAILED in
      run* updateUsage {|
        us_credentialReference := pc_credentialReference credential; us_counter := au_newCounter info;
        us_deviceType := au_deviceType info; us_backedUp := au_backedUp info; us_usedAt := now |} in
      ret (pc_accountReference credential, pc_credentialReference credential)
    end
  end.

Definition revokeCredential (credentialReference accountReference : string) (trustDomain : TrustDomain)
    (recentlyReauthenticated alternateRecoveryAvailable : bool) (now : Z) : prog W exn unit :=
  throwif* negb recentlyReauthenticated as! AuthError REAUTHENTICATION_REQUIRED in
  let* active := listActive accountReference trustDomain in
  throwif* (length active <=? 1)%nat && negb alternateRecoveryAvailable
    as! AuthError AUTHORIZATION_DENIED in
  repository_revokeCredential credentialReference accountReference now.
End passkey.

(** ** account-security.ts *)

Section account_security.
Context {W : Type} `{AccountSecurityStore W} `{AuthChallengeStore W} `{SecurityNotificationSink W}
  `{Randomness W} `{AuthCrypto}.
Context (secrets : TrustDomain -> string).

Definition plain_notification (account destination : string) (kind : NotificationKind) : SecurityNotification := {|
  nt_accountReference := account; nt_destinationReference := destination; nt_kind := kind;
  nt_secret := None; nt_expiresAt := None |}.

Definition lockAccount (accountReference : string) (trustDomain : TrustDomain)
    (destinationReference reasonCategory : string) (context : SecurityMutationContext) (now : Z)
  : prog W exn Z :=
  let* revoked := lockAndRevokeSessions accountReference trustDomain reasonCategory context now in
  run* enqueue (plain_notification accountReference destinationReference account_locked) in
  ret revoked.

Definition beginEmailChange (accountReference : string) (trustDomain : TrustDomain)
    (newEmail newDestinationReference : string) (recentlyReauthenticated : bool) (now lifetimeMs : Z)
  : prog W exn unit :=
  throwif* negb recentlyReauthenticated as! AuthError REAUTHENTICATION_REQUIRED in
  let* token := generateOpaqueToken in
  let expiresAt := newDate (now + lifetimeMs) in
  let* i := newAuthId in
  run* challenges_create {|
    ch_id := i; ch_accountReference := Some accountReference; ch_trustDomain := trustDomain;
    ch_kind := email_change; ch_secretDigest := keyedDigest (secrets trustDomain) token;
    ch_destinationReference := Some newDestinationReference;
    ch_lookupDigest := Some (normalizeEmailForLookup newEmail (secrets trustDomain));
    ch_expiresAt := expiresAt; ch_createdAt := now |} in
  enqueue {| nt_accountReference := accountReference; nt_destinationReference := newDestinationReference;
             nt_kind := email_change_requested; nt_secret := Some token; nt_expiresAt := expiresAt |}.

(** [for (const d of destinations) await notifications.enqueue(...)]. *)
Fixpoint notify_all (account : string) (kind : NotificationKind) (destinations : list string) : prog W exn unit :=
  match destinations with
  | [] => ret tt
  | d :: ds => run* enqueue (plain_notification account d kind) in notify_all account kind ds
  end.

Definition confirmEmailChange (trustDomain : TrustDomain) (token : string) (context : SecurityMutationContext)
    (now : Z) : prog W exn unit :=
  let* challenge := challenges_consume None (Some (keyedDigest (secrets trustDomain) token))
                      email_change trustDomain now in
  match challenge with
  | None => throw (AuthError AUTHENTICATION_FAILED)
  | Some consumed =>
    match nonempty (ch_accountReference (cch_record consumed)),
          nonempty (ch_destinationReference (cch_record consumed)),
          nonempty (ch_lookupDigest (cch_record consumed)) with
    | Some account, Some destination, Some lookupDigest =>
      let* result := changeVerifiedEmail account trustDomain destination lookupDigest context now in
      notify_all account email_changed (fst result ++ [destination])
    | _, _, _ => throw (AuthError AUTHENTICATION_FAILED)
    end
  end.
End account_security.
