(* ===== verification/Verus.v ===== *)
(** * Verus: the chain adapter's interface, the write preflight, confirmation
    and readback (packages/verus/src/types.ts, preflight.ts,
    reconciliation.ts and the update of canonical-content.ts).

    An adapter is a set of operations on some state [W] — a node, the network
    and whatever else it touches.  The adapters hand out heights, counts and
    versions as safe integers; [verificationProgress] is a double. *)
From Stdlib Require Import SpecFloat.
From S2P Require Import Prelude Errors Text Json JsonParse.
Local Open Scope Z_scope.

(** ** types.ts *)

Definition VRSCTEST_CHAIN_ID : string := "iJhCezBExJHvtyH3fGhNnt2NhU4Ztkf2yq".
Definition VRSCTEST_NETWORK : string := "VRSCTEST".
Definition MINIMUM_VERUS_NODE_VERSION : Z := 2000753.

Record VerusInfo : Type := {
  info_release : string;
  info_version : Z;
  info_protocolVersion : Z;
  info_chainId : string;
  info_name : string;
  info_blocks : Z;
  info_longestChain : Z;
  info_connections : Z;
  info_testnet : bool;
  info_errors : ustring;
}.

Record VerusBlockchainInfo : Type := {
  bc_chain : string;
  bc_name : string;
  bc_chainId : string;
  bc_blocks : Z;
  bc_headers : Z;
  bc_bestBlockHash : string;
  bc_verificationProgress : spec_float;
  bc_pruned : bool;
}.

Record VerusIdentityDefinition : Type := {
  id_version : Z;
  id_flags : Z;
  id_primaryAddresses : list string;
  id_minimumSignatures : Z;
  id_name : string;
  id_identityAddress : string;
  id_parent : string;
  id_systemId : string;
  id_contentMap : list (string * json);
  id_contentMultiMap : list (string * list json);
  id_revocationAuthority : string;
  id_recoveryAuthority : string;
  id_timelock : Z;
}.

(** [VerusIdentityResult], and with the two heights [VerusIdentityContentResult]. *)
Record VerusIdentityResult : Type := {
  ir_fullyQualifiedName : string;
  ir_identity : VerusIdentityDefinition;
  ir_status : string;
  ir_canSpendFor : bool;
  ir_canSignFor : bool;
  ir_blockHeight : Z;
  ir_transactionId : string;
  ir_outputIndex : Z;
}.

Record VerusIdentityContentResult : Type := {
  ic_result : VerusIdentityResult;
  ic_fromHeight : Z;
  ic_toHeight : Z;
}.

Record VerusVdxfId : Type := {
  vd_vdxfId : string;
  vd_hash160Result : string;
  vd_qualifiedName : list (ustring * json);
  vd_boundData : option (list (ustring * json));
}.

Record PreparedIdentityUpdate : Type := {
  pu_identity : VerusIdentityDefinition;
  pu_vdxfKey : string;
  pu_manifestDigest : string;
}.

(** types.ts, [markIdentityUpdatePrepared]. *)
Definition markIdentityUpdatePrepared (identity : VerusIdentityDefinition) (vdxfKey manifestDigest : string)
  : PreparedIdentityUpdate :=
  {| pu_identity := identity; pu_vdxfKey := vdxfKey; pu_manifestDigest := manifestDigest |}.

Record VerusRawTransaction : Type := {
  tx_transactionId : string;
  tx_blockHash : option string;
  tx_confirmations : Z;
}.

Record VerusBlock : Type := {
  bl_hash : string;
  bl_confirmations : Z;
  bl_height : Z;
  bl_time : Z;
  bl_transactions : list string;
}.

(** types.ts, [VerusRpcMethod]. *)
Inductive VerusRpcMethod : Type :=
| getinfo | getblockchaininfo | getidentity | getidentitycontent | getvdxfid | updateidentity
| signdata | verifysignature | getrawtransaction | getblockhash | getblock.
#[global] Instance VerusRpcMethod_eq_dec : EqDecision VerusRpcMethod.
Proof. solve_decision. Defined.

(** The adapter operations the modelled callers use ([signData] and
    [verifySignature], which have none, are in RpcAdapter.v and
    FakeAdapter.v). *)
Class VerusRpcAdapter (W : Type) := {
  getInfo : prog W exn VerusInfo;
  getBlockchainInfo : prog W exn VerusBlockchainInfo;
  getIdentity : string -> prog W exn VerusIdentityResult;
  getIdentityContent : string -> string -> prog W exn VerusIdentityContentResult;
  getVdxfId : string -> prog W exn VerusVdxfId;
  updateIdentity : PreparedIdentityUpdate -> prog W exn string;
  getRawTransaction : string -> prog W exn VerusRawTransaction;
  getBlockHash : Z -> prog W exn string;
  getBlock : string -> prog W exn VerusBlock;
}.

(** ** canonical-content.ts, [prepareIdentityContentUpdate] *)

(** [{ ...map, [key]: value }]. *)
Fixpoint set_property {A : Type} (key : string) (value : A) (l : list (string * A)) : list (string * A) :=
  match l with
  | [] => [(key, value)]
  | (k, v) :: l' => if String.eqb k key then (key, value) :: l' else (k, v) :: set_property key value l'
  end.

Fixpoint get_property {A : Type} (key : string) (l : list (string * A)) : option A :=
  match l with
  | [] => None
  | (k, v) :: l' => if String.eqb k key then Some v else get_property key l'
  end.

Definition with_contentMultiMap (m : list (string * list json)) (i : VerusIdentityDefinition)
  : VerusIdentityDefinition := {|
  id_version := id_version i; id_flags := id_flags i; id_primaryAddresses := id_primaryAddresses i;
  id_minimumSignatures := id_minimumSignatures i; id_name := id_name i;
  id_identityAddress := id_identityAddress i; id_parent := id_parent i; id_systemId := id_systemId i;
  id_contentMap := id_contentMap i; id_contentMultiMap := m;
  id_revocationAuthority := id_revocationAuthority i; id_recoveryAuthority := id_recoveryAuthority i;
  id_timelock := id_timelock i |}.

Definition prepareIdentityContentUpdate (identity : VerusIdentityDefinition) (vdxfKey : string)
    (payload : CanonicalPayload) : result exn PreparedIdentityUpdate :=
  throwif! negb (iAddressPattern vdxfKey)
    as! verusError VDXF_ID_MISMATCH "VDXF key is not an approved i-address-shaped identifier" false in
  let contentMultiMap :=
    set_property vdxfKey [JString (to_hex (payload_bytes payload))] (id_contentMultiMap identity) in
  Ok (markIdentityUpdatePrepared (with_contentMultiMap contentMultiMap identity) vdxfKey
        (payload_digest payload)).

(** ** preflight.ts *)

Record ExpectedVerusIdentity : Type := {
  ei_identityAddress : string;
  ei_systemId : string;
  ei_allowedStatuses : list string;
  ei_mustBeSignableByNode : bool;
}.

Record ExpectedVdxfIdentifier : Type := { ev_uri : string; ev_vdxfId : string }.

Record VerusWritePreflightPolicy : Type := {
  serverSelectedNetwork : string;
  expectedChainId : option string;
  minimumNodeVersion : option Z;
  minimumVerificationProgress : option spec_float;
  maximumHeaderLag : option Z;
  maximumObservationSkew : option Z;
  requirePeers : option bool;
  expectedIdentity : option ExpectedVerusIdentity;
  expectedVdxf : option ExpectedVdxfIdentifier;
  writeCapabilityEnabled : bool;
}.

Record VerusWritePreflightResult : Type := {
  pf_info : VerusInfo;
  pf_blockchain : VerusBlockchainInfo;
  pf_identity : option VerusIdentityResult;
  pf_vdxf : option VerusVdxfId;
}.

(** The double 0.999_999. *)
Definition progress_0_999999 : spec_float := S754_finite false 9007190247541737 (-53).

(** [errors.trim().length > 0]: some code unit is not white space. *)
Definition is_space (c : Z) : bool :=
  ((9 <=? c) && (c <=? 13)) || (c =? 32) || (c =? 160) || (c =? 5760)
  || ((8192 <=? c) && (c <=? 8202)) || (c =? 8232) || (c =? 8233) || (c =? 8239)
  || (c =? 8287) || (c =? 12288) || (c =? 65279).
Definition trims_nonempty (s : ustring) : bool := existsb (fun c => negb (is_space c)) s.

(** [Promise.all([a, b])]: both run; the first to reject rejects the whole
    (the order of completion is taken to be that of the calls). *)
Definition both {W A B : Type} (a : prog W exn A) (b : prog W exn B) : prog W exn (A * B) := fun s =>
  let (ra, s1) := a s in
  let (rb, s2) := b s1 in
  (match ra, rb with
   | Ok x, Ok y => Ok (x, y)
   | Err e, _ => Err e
   | Ok _, Err e => Err e
   end, s2).

Section chain.
Context {W : Type} `{VerusRpcAdapter W}.

Definition wrong_network (expectedChain : string) (info : VerusInfo) (blockchain : VerusBlockchainInfo) : bool :=
  negb (info_testnet info)
  || negb (String.eqb (info_name info) VRSCTEST_NETWORK)
  || negb (String.eqb (info_chainId info) expectedChain)
  || negb (String.eqb (bc_name blockchain) VRSCTEST_NETWORK)
  || negb (String.eqb (bc_chainId blockchain) expectedChain)
  || negb (String.eqb (bc_chain blockchain) "test").

Definition unsynchronized (policy : VerusWritePreflightPolicy) (info : VerusInfo)
    (blockchain : VerusBlockchainInfo) : bool :=
  let headerLag := bc_headers blockchain - bc_blocks blockchain in
  (headerLag <? 0)
  || (default 0 (maximumHeaderLag policy) <? headerLag)
  || SFltb (bc_verificationProgress blockchain)
       (default progress_0_999999 (minimumVerificationProgress policy))
  || (default 1 (maximumObservationSkew policy) <? Z.abs (info_blocks info - bc_blocks blockchain))
  || (info_longestChain info <? info_blocks info)
  || trims_nonempty (info_errors info)
  || (default true (requirePeers policy) && (info_connections info <? 1)).

Definition identity_invalid (expected : ExpectedVerusIdentity) (identity : VerusIdentityResult) : bool :=
  negb (String.eqb (id_identityAddress (ir_identity identity)) (ei_identityAddress expected))
  || negb (String.eqb (id_systemId (ir_identity identity)) (ei_systemId expected))
  || negb (includes (ei_allowedStatuses expected) (ir_status identity))
  || (ei_mustBeSignableByNode expected && negb (ir_canSignFor identity)).

Definition preflight_identity (expected : option ExpectedVerusIdentity)
  : prog W exn (option VerusIdentityResult) :=
  match expected with
  | None => ret None
  | Some e =>
    let* identity := getIdentity (ei_identityAddress e) in
    throwif* identity_invalid e identity
      as! verusError IDENTITY_STATE_INVALID
            "Expected Verus identity is unavailable, changed, recovered, revoked, or not signable" false in
    ret (Some identity)
  end.

Definition preflight_vdxf (expected : option ExpectedVdxfIdentifier) : prog W exn (option VerusVdxfId) :=
  match expected with
  | None => ret None
  | Some e =>
    let* vdxf := getVdxfId (ev_uri e) in
    throwif* negb (String.eqb (vd_vdxfId vdxf) (ev_vdxfId e))
      as! verusError VDXF_ID_MISMATCH
            "Derived VDXF identifier does not match the approved server fixture" false in
    ret (Some vdxf)
  end.

Definition runVerusWritePreflight (policy : VerusWritePreflightPolicy)
  : prog W exn VerusWritePreflightResult :=
  throwif* negb (String.eqb (serverSelectedNetwork policy) VRSCTEST_NETWORK)
    as! verusError WRONG_NETWORK "Verus writes require the server-selected VRSCTEST network" false in
  let* infos := both getInfo getBlockchainInfo in
  let info := fst infos in
  let blockchain := snd infos in
  throwif* wrong_network (default VRSCTEST_CHAIN_ID (expectedChainId policy)) info blockchain
    as! verusError WRONG_NETWORK
          "Verus node did not report the expected VRSCTEST system and chain identifier" false in
  throwif* info_version info <? default MINIMUM_VERUS_NODE_VERSION (minimumNodeVersion policy)
    as! verusError NODE_VERSION_UNSUPPORTED
          "Verus node version is below the supported VRSCTEST baseline" false in
  throwif* unsynchronized policy info blockchain
    as! verusError NODE_UNSYNCED "Verus node is not ready and synchronized for write work" true in
  throwif* writeCapabilityEnabled policy
           && (match expectedIdentity policy with None => true | Some _ => false end
               || match expectedVdxf policy with None => true | Some _ => false end)
    as! verusError POLICY_GATE_DISABLED
          "Enabled Verus writes require approved identity and VDXF server fixtures" false in
  let* identity := preflight_identity (expectedIdentity policy) in
  let* vdxf := preflight_vdxf (expectedVdxf policy) in
  throwif* negb (writeCapabilityEnabled policy)
    as! verusError POLICY_GATE_DISABLED
          "Verus anchor writes remain disabled by the server release and policy gate" false in
  ret {| pf_info := info; pf_blockchain := blockchain; pf_identity := identity; pf_vdxf := vdxf |}.

(** ** reconciliation.ts *)

Inductive ConfirmationResult : Type :=
| confirming (confirmations : Z)
| confirmed (confirmations blockHeight : Z) (blockHash : string)
| reorg_pending (confirmations : Z) (blockHeight : option Z) (blockHash : option string).

Definition result_confirmations (c : ConfirmationResult) : Z :=
  match c with confirming n | confirmed n _ _ | reorg_pending n _ _ => n end.

(** [n < k] for an integer [n] and a number [k] that is a safe integer. *)
Definition belowNum (n : Z) (k : jsnumber) : bool :=
  match k with Int z => n <? z | Frac f => n <=? f | NotFinite => false end.

Definition inspectTransactionConfirmation (transactionId : string) (minimumConfirmations : jsnumber)
  : prog W exn ConfirmationResult :=
  throwif* negb (isSafeInteger minimumConfirmations) || ltNum minimumConfirmations 1
    as! verusError RPC_INVALID_RESULT "Confirmation policy must require at least one confirmation" false in
  let* transaction := getRawTransaction transactionId in
  if tx_confirmations transaction <? 0
  then ret (reorg_pending (tx_confirmations transaction) None None)
  else
  match tx_blockHash transaction with
  | Some blockHash =>
    if belowNum (tx_confirmations transaction) minimumConfirmations || falsy_string blockHash
    then ret (confirming (tx_confirmations transaction))
    else
    let* block := getBlock blockHash in
    let* canonicalHash := getBlockHash (bl_height block) in
    if negb (String.eqb (bl_hash block) blockHash)
       || negb (String.eqb canonicalHash blockHash)
       || belowNum (bl_confirmations block) minimumConfirmations
       || negb (includes (bl_transactions block) transactionId)
    then ret (reorg_pending (tx_confirmations transaction) (Some (bl_height block)) (Some blockHash))
    else ret (confirmed (tx_confirmations transaction) (bl_height block) (bl_hash block))
  | None => ret (confirming (tx_confirmations transaction))
  end.

Context `{TextServices} `{NumberParser} (sha256 : string -> string).

(** reconciliation.ts, [digestCanonicalHexEntry]; every exception inside is
    caught and yields undefined. *)
Definition digestCanonicalHexEntry (entry : json) : option string :=
  match entry with
  | JString s =>
    if negb (length s mod 2 =? 0)%nat || (length s =? 0)%nat then None
    else
    match from_hex s with
    | None => None
    | Some bytes =>
      match decode_text bytes with
      | None => None
      | Some text =>
        match JSON_parse text with
        | None => None
        | Some value =>
          match canonicalizeJson value with
          | Err _ => None
          | Ok canonical => if bool_decide (canonical = text) then Some (sha256 (of_bytes bytes)) else None
          end
        end
      end
    end
  | _ => None
  end.

Inductive ReadbackResult : Type :=
| verified (readbackDigest : string)
| mismatch (observedDigests : list string).

(** [content.identity.contentMultiMap[vdxfKey] ?? []]. *)
Definition content_entries (vdxfKey : string) (content : VerusIdentityContentResult) : list json :=
  default [] (get_property vdxfKey (id_contentMultiMap (ir_identity (ic_result content)))).

Definition verifyIdentityContentReadback (identityAddress vdxfKey expectedDigest : string)
  : prog W exn ReadbackResult :=
  let* content := getIdentityContent identityAddress vdxfKey in
  let digests := omap digestCanonicalHexEntry (content_entries vdxfKey content) in
  if includes digests expectedDigest then ret (verified expectedDigest) else ret (mismatch digests).

(** [ReadbackSearchEvidence]: None when not found. *)
Definition findReadbackEvidenceBeforeResubmission (identityAddress vdxfKey expectedDigest : string)
  : prog W exn (option (string * Z)) :=
  let* content := getIdentityContent identityAddress vdxfKey in
  let found := some (content_entries vdxfKey content)
                 (fun entry => bool_decide (digestCanonicalHexEntry entry = Some expectedDigest)) in
  ret (if found then Some (ir_transactionId (ic_result content), ir_blockHeight (ic_result content)) else None).

Definition searchReadbackBeforeResubmission (identityAddress vdxfKey expectedDigest : string)
  : prog W exn bool :=
  let* r := findReadbackEvidenceBeforeResubmission identityAddress vdxfKey expectedDigest in
  ret (match r with Some _ => true | None => false end).
End chain.
