(* ===== verification/Database.v ===== *)
(** * Database: the relational state, its constraints and transactions.

    The tables of packages/db/prisma/migrations that the outbox, the Verus
    job and the audit repositories use, as one record [Db] of finite maps;
    the CHECK constraints, unique keys and BEFORE triggers that the server
    applies to each statement, raised as [PostgresError] with their SQLSTATE;
    repository-types.ts ([inSerializableTransaction]) and audit.ts
    ([appendAudit]) on top of them.

    A committed serializable transaction is one atomic step of the state
    (PostgreSQL's guarantee for the isolation level every repository asks
    for), so concurrent workers are sequences of such steps.  Times are
    milliseconds; CURRENT_TIMESTAMP is the [clock] of the state. *)
From S2P Require Import Prelude Errors Transition Lifecycles Guards Text Json.
Local Open Scope Z_scope.

Export Guards.OutboxState(OutboxState, outbox_table).

(** ** Rows *)

(** "committee" *)
Record CommitteeRow : Type := {
  committee_external_reference : string;
  committee_state : Committee.CommitteeState;
  committee_version : Z;
}.

(** "outbox_event" *)
Record OutboxEventRow : Type := {
  oe_id : string;
  oe_committee_id : option string;
  oe_event_type : string;
  oe_aggregate_type : string;
  oe_aggregate_reference : string;
  oe_schema_version : string;
  oe_payload_reference : string;
  oe_payload_digest : string;
  oe_idempotency_key_hash : string;
  oe_state : OutboxState;
  oe_available_at : Z;
  oe_lease_owner : option string;
  oe_lease_acquired_at : option Z;
  oe_lease_expires_at : option Z;
  oe_attempt_count : Z;
  oe_last_error_class : option string;
  oe_created_at : Z;
  oe_completed_at : option Z;
}.

Inductive audit_result : Type := ar_succeeded | ar_rejected | ar_failed.

(** "outbox_attempt" *)
Record OutboxAttemptRow : Type := {
  at_id : string;
  at_outbox_event_id : string;
  at_attempt : Z;
  at_worker : string;
  at_result : audit_result;
  at_error_class : option string;
  at_started_at : Z;
  at_finished_at : Z;
}.

(** "audit_event"; the list holds the rows in the order of "sequence". *)
Record AuditEventRow : Type := {
  ae_id : string;
  ae_chain_key : string;
  ae_previous_hash : option string;
  ae_event_hash : string;
  ae_actor_type : string;
  ae_actor_reference : string;
  ae_committee_id : option string;
  ae_command : string;
  ae_target_type : string;
  ae_target_reference : string;
  ae_prior_state : option string;
  ae_new_state : option string;
  ae_policy_version : string;
  ae_software_version : string;
  ae_reason_category : string;
  ae_authentication_strength : string;
  ae_correlation_id : string;
  ae_idempotency_key_hash : string;
  ae_result : audit_result;
  ae_occurred_at : Z;
}.

(** "verus_job", stored under its unique "outbox_event_id". *)
Record VerusJobRow : Type := {
  vj_id : string;
  vj_outbox_event_id : string;
  vj_committee_id : option string;
  vj_chain_id : string;
  vj_operation_type : string;
  vj_subject_reference : string;
  vj_target_identity : option string;
  vj_vdxf_uri : option string;
  vj_vdxf_key : string;
  vj_manifest_json : option json;
  vj_manifest_canonical : option string;
  vj_manifest_digest : string;
  vj_manifest_policy_reference : option string;
  vj_manifest_allowed_fields : list string;
  vj_manifest_required_fields : list string;
  vj_manifest_maximum_bytes : option Z;
  vj_confirmation_requirement : Z;
  vj_state : VerusJobState.VerusJobState;
  vj_transaction_id : option string;
  vj_block_height : option Z;
  vj_block_hash : option string;
  vj_readback_digest : option string;
  vj_submission_ambiguous : bool;
  vj_last_error_class : option string;
  vj_submitted_at : option Z;
  vj_confirmed_at : option Z;
  vj_readback_at : option Z;
  vj_reorg_detected_at : option Z;
  vj_version : Z;
  vj_created_at : Z;
  vj_updated_at : Z;
}.

(** "anchor_record", stored under its unique "outbox_event_id". *)
Record AnchorRow : Type := {
  an_id : string;
  an_external_reference : string;
  an_committee_id : option string;
  an_outbox_event_id : string;
  an_anchor_type : string;
  an_subject_reference : string;
  an_vdxf_key : string;
  an_manifest_digest : string;
  an_state : VerusJobState.VerusJobState;
  an_transaction_id : option string;
  an_block_height : option Z;
  an_block_hash : option string;
  an_readback_digest : option string;
  an_version : Z;
  an_updated_at : Z;
}.

Record Db : Type := {
  db_committee : gmap string CommitteeRow;
  db_outbox_event : gmap string OutboxEventRow;
  db_outbox_attempt : list OutboxAttemptRow;
  db_verus_job : gmap string VerusJobRow;
  db_anchor_record : gmap string AnchorRow;
  db_audit_event : list AuditEventRow;
  db_audit_chain_head : gmap string (option string);
  db_clock : Z;         (* CURRENT_TIMESTAMP *)
  db_ids : nat;         (* how many random identifiers were drawn *)
}.

(** The platform the repositories run on: node's SHA-256 (hex), its supply of
    random UUIDs; PostgreSQL's text of an audit row
    ([(to_jsonb(NEW) - 'sequence' - 'event_hash')::text]) and the value a
    jsonb column gives back for a JSON value written to it (or the refusal of
    one it cannot hold). *)
Class Platform := {
  sha256 : string -> string;
  randomUUID : nat -> string;
  audit_json : AuditEventRow -> string;
  jsonb : json -> result exn json;
}.

Definition M := prog Db exn.

(** ** Field updates *)

Definition with_committee (f : gmap string CommitteeRow -> gmap string CommitteeRow) (d : Db) : Db := {|
  db_committee := f (db_committee d); db_outbox_event := db_outbox_event d;
  db_outbox_attempt := db_outbox_attempt d; db_verus_job := db_verus_job d;
  db_anchor_record := db_anchor_record d; db_audit_event := db_audit_event d;
  db_audit_chain_head := db_audit_chain_head d; db_clock := db_clock d; db_ids := db_ids d |}.
Definition with_outbox_event (f : gmap string OutboxEventRow -> gmap string OutboxEventRow) (d : Db) : Db := {|
  db_committee := db_committee d; db_outbox_event := f (db_outbox_event d);
  db_outbox_attempt := db_outbox_attempt d; db_verus_job := db_verus_job d;
  db_anchor_record := db_anchor_record d; db_audit_event := db_audit_event d;
  db_audit_chain_head := db_audit_chain_head d; db_clock := db_clock d; db_ids := db_ids d |}.
Definition with_outbox_attempt (f : list OutboxAttemptRow -> list OutboxAttemptRow) (d : Db) : Db := {|
  db_committee := db_committee d; db_outbox_event := db_outbox_event d;
  db_outbox_attempt := f (db_outbox_attempt d); db_verus_job := db_verus_job d;
  db_anchor_record := db_anchor_record d; db_audit_event := db_audit_event d;
  db_audit_chain_head := db_audit_chain_head d; db_clock := db_clock d; db_ids := db_ids d |}.
Definition with_verus_job (f : gmap string VerusJobRow -> gmap string VerusJobRow) (d : Db) : Db := {|
  db_committee := db_committee d; db_outbox_event := db_outbox_event d;
  db_outbox_attempt := db_outbox_attempt d; db_verus_job := f (db_verus_job d);
  db_anchor_record := db_anchor_record d; db_audit_event := db_audit_event d;
  db_audit_chain_head := db_audit_chain_head d; db_clock := db_clock d; db_ids := db_ids d |}.
Definition with_anchor_record (f : gmap string AnchorRow -> gmap string AnchorRow) (d : Db) : Db := {|
  db_committee := db_committee d; db_outbox_event := db_outbox_event d;
  db_outbox_attempt := db_outbox_attempt d; db_verus_job := db_verus_job d;
  db_anchor_record := f (db_anchor_record d); db_audit_event := db_audit_event d;
  db_audit_chain_head := db_audit_chain_head d; db_clock := db_clock d; db_ids := db_ids d |}.
Definition with_audit (e : AuditEventRow) (d : Db) : Db := {|
  db_committee := db_committee d; db_outbox_event := db_outbox_event d;
  db_outbox_attempt := db_outbox_attempt d; db_verus_job := db_verus_job d;
  db_anchor_record := db_anchor_record d; db_audit_event := db_audit_event d ++ [e];
  db_audit_chain_head := <[ae_chain_key e := Some (ae_event_hash e)]> (db_audit_chain_head d);
  db_clock := db_clock d; db_ids := db_ids d |}.
Definition with_ids (n : nat) (d : Db) : Db := {|
  db_committee := db_committee d; db_outbox_event := db_outbox_event d;
  db_outbox_attempt := db_outbox_attempt d; db_verus_job := db_verus_job d;
  db_anchor_record := db_anchor_record d; db_audit_event := db_audit_event d;
  db_audit_chain_head := db_audit_chain_head d; db_clock := db_clock d; db_ids := n |}.

(** [newId()]: a fresh draw. *)
Definition newId `{Platform} : M string := fun d =>
  (Ok (randomUUID (db_ids d)), with_ids (S (db_ids d)) d).

(** Binding a [Date] as a timestamptz parameter; an invalid date is refused. *)
Definition bindTimestamp (d : jsdate) : result exn Z :=
  match d with Some t => Ok t | None => Err (PostgresError "22007") end.

(** An INTEGER column's range. *)
Definition int4 (z : Z) : result exn Z :=
  throwif! negb ((-2147483648 <=? z) && (z <=? 2147483647)) as! PostgresError "22003" in Ok z.

(** ** "outbox_event" and "outbox_attempt" *)

Definition completed_state (s : OutboxState) : bool :=
  match s with OutboxState.succeeded | OutboxState.terminal_failed | OutboxState.dead_letter => true | _ => false end.

Definition is_null {A : Type} (o : option A) : bool := match o with None => true | Some _ => false end.

Lemma is_null_true {A} (o : option A) : is_null o = true <-> o = None.
Proof. by destruct o. Qed.

Lemma is_null_false {A} (o : option A) : is_null o = false <-> is_Some o.
Proof. destruct o; simpl; [|rewrite is_Some_alt]; done. Qed.

(** CHECK outbox_attempt_count_nonnegative, outbox_lease_consistent,
    outbox_completion_consistent. *)
Definition outbox_event_checks (o : OutboxEventRow) : bool :=
  (0 <=? oe_attempt_count o)
  && (match oe_state o with
      | OutboxState.claimed =>
        negb (is_null (oe_lease_owner o)) &&
        match oe_lease_acquired_at o, oe_lease_expires_at o with
        | Some a, Some e => a <? e
        | _, _ => false
        end
      | _ => is_null (oe_lease_owner o) && is_null (oe_lease_acquired_at o)
             && is_null (oe_lease_expires_at o)
      end)
  && (if completed_state (oe_state o) then negb (is_null (oe_completed_at o))
      else is_null (oe_completed_at o)).

(** One row of an UPDATE "outbox_event": trigger, then constraints. *)
Definition updateOutboxEvent (old new : OutboxEventRow) : M unit :=
  run* lift (int4 (oe_attempt_count new)) in
  run* lift (cbc_guard_outbox_transition (oe_state old) (oe_state new)) in
  throwif* negb (outbox_event_checks new) as! PostgresError "23514" in
  modify (with_outbox_event (<[oe_id old := new]>)).

(** INSERT INTO "outbox_event": primary key and unique idempotency key. *)
Definition insertOutboxEvent (o : OutboxEventRow) : M unit :=
  let* d := gets id in
  throwif* negb (outbox_event_checks o) as! PostgresError "23514" in
  throwif* negb (is_null (db_outbox_event d !! oe_id o))
           || some (map_to_list (db_outbox_event d))
                (fun kv => String.eqb (oe_idempotency_key_hash (snd kv)) (oe_idempotency_key_hash o))
    as! PostgresError "23505" in
  modify (with_outbox_event (<[oe_id o := o]>)).

(** INSERT INTO "outbox_attempt": foreign key, unique (event, attempt), checks. *)
Definition insertOutboxAttempt (a : OutboxAttemptRow) : M unit :=
  let* d := gets id in
  run* lift (int4 (at_attempt a)) in
  throwif* negb ((0 <? at_attempt a) && (at_started_at a <=? at_finished_at a))
    as! PostgresError "23514" in
  throwif* some (db_outbox_attempt d)
             (fun b => String.eqb (at_id b) (at_id a)
                       || (String.eqb (at_outbox_event_id b) (at_outbox_event_id a)
                           && (at_attempt b =? at_attempt a)))
    as! PostgresError "23505" in
  throwif* is_null (db_outbox_event d !! at_outbox_event_id a) as! PostgresError "23503" in
  modify (with_outbox_attempt (fun l => l ++ [a])).

(** [LEFT JOIN "committee" c ON c."id" = committee_id]. *)
Definition committee_reference (d : Db) (committee_id : option string) : option string :=
  match committee_id with
  | Some c => committee_external_reference <$> db_committee d !! c
  | None => None
  end.

(** ** repository-types.ts: contexts and transactions *)

Record CommandActor : Type := {
  actor_type : string;
  actor_reference : string;
  authenticationStrength : string;
}.

Record CommandContext : Type := {
  actor : CommandActor;
  committeeReference : string;
  policyVersionReference : string;
  softwareVersion : string;
  reasonCategory : string;
  correlationId : string;
  idempotencyKey : string;
  requestDigest : string;
}.

(** What the environment does to one attempt: the pool may refuse a
    connection; BEGIN or a statement may fail (deadlock, serialization
    failure, lost connection); the server may refuse the COMMIT, or commit
    and the connection be lost before the reply. *)
Inductive CommitFailure : Type := CommitRefused (x : exn) | CommitReplyLost.
Record TxAttempt : Type := {
  connectFails : option exn;
  statementFails : option exn;
  commitFails : option CommitFailure;
}.
Definition connectionLost : exn := OtherError "Connection terminated unexpectedly".
Definition quietAttempt : TxAttempt :=
  {| connectFails := None; statementFails := None; commitFails := None |}.

(** What ROLLBACK makes of a state, given the states before and after. *)
Class Transactional (S : Type) := rollback : S -> S -> S.

(** It restores the tables; identifiers already drawn stay drawn. *)
#[export] Instance db_transactional : Transactional Db := fun before after => with_ids (db_ids after) before.

Section transactions.
Context {St : Type} {tx : Transactional St}.

(** BEGIN; work; COMMIT — the body of the try block. *)
Definition try_once {A : Type} (e : TxAttempt) (work : prog St exn A) : prog St exn A := fun d =>
  match work d with
  | (Ok a, d') =>
    match statementFails e, commitFails e with
    | Some x, _ => (Err x, rollback d d')
    | None, Some CommitReplyLost => (Err connectionLost, d')
    | None, Some (CommitRefused x) => (Err x, rollback d d')
    | None, None => (Ok a, d')
    end
  | (Err x, d') =>
    (Err (match statementFails e with Some y => y | None => x end), rollback d d')
  end.

(** [error.code] is 40001 or 40P01. *)
Definition retryable_code (x : exn) : bool :=
  match x with
  | PostgresError c => String.eqb c "40001" || String.eqb c "40P01"
  | _ => false
  end.

Fixpoint attempts_from {A : Type} (left attempt : nat) (env : nat -> TxAttempt) (work : prog St exn A)
  : prog St exn A :=
  match left with
  | O => throw (RepositoryConflictError "serializable transaction retry budget was exhausted")
  | S left' => fun d =>
    match connectFails (env attempt) with
    | Some x => (Err x, d)
    | None =>
      match try_once (env attempt) work d with
      | (Ok a, d') => (Ok a, d')
      | (Err x, d') =>
        if (attempt =? 3)%nat || negb (retryable_code x) then (Err x, d')
        else attempts_from left' (1 + attempt) env work d'
      end
    end
  end.

(** [inSerializableTransaction(pool, work)], the pool's behaviour being [env]
    (one entry per attempt). *)
Definition inSerializableTransaction {A : Type} (env : nat -> TxAttempt) (work : prog St exn A)
  : prog St exn A := attempts_from 3 1 env work.

(** [pool.query(...)]: one statement, committed by itself. *)
Definition statement {A : Type} (e : TxAttempt) (work : prog St exn A) : prog St exn A := fun d =>
  match connectFails e with Some x => (Err x, d) | None => try_once e work d end.
End transactions.

(** ** audit.ts *)

Record AuditTarget : Type := {
  target_type : string;
  target_reference : string;
  priorState : option string;
  newState : option string;
}.

Definition set_event_hash (h : string) (e : AuditEventRow) : AuditEventRow := {|
  ae_id := ae_id e; ae_chain_key := ae_chain_key e; ae_previous_hash := ae_previous_hash e;
  ae_event_hash := h; ae_actor_type := ae_actor_type e; ae_actor_reference := ae_actor_reference e;
  ae_committee_id := ae_committee_id e; ae_command := ae_command e; ae_target_type := ae_target_type e;
  ae_target_reference := ae_target_reference e; ae_prior_state := ae_prior_state e;
  ae_new_state := ae_new_state e; ae_policy_version := ae_policy_version e;
  ae_software_version := ae_software_version e; ae_reason_category := ae_reason_category e;
  ae_authentication_strength := ae_authentication_strength e;
  ae_correlation_id := ae_correlation_id e; ae_idempotency_key_hash := ae_idempotency_key_hash e;
  ae_result := ae_result e; ae_occurred_at := ae_occurred_at e |}.

(** The hash the trigger computes: of the previous hash (or nothing) and the
    row without its hash. *)
Definition audit_hash `{Platform} (previous : option string) (e : AuditEventRow) : string :=
  sha256 (default "" previous +:+ "|" +:+ audit_json (set_event_hash "" e)).

(** INSERT INTO "audit_event" with the trigger [cbc_enforce_audit_chain]
    (migration 20260807050000) and the two unique indexes. *)
Definition insertAuditEvent `{Platform} (e : AuditEventRow) : M string := fun d =>
  let current_hash := default None (db_audit_chain_head d !! ae_chain_key e) in
  let computed_hash := audit_hash current_hash e in
  if negb (bool_decide (ae_previous_hash e = current_hash)) then (Err (PostgresError "23514"), d)
  else if negb (String.eqb (ae_event_hash e) "AUTO") && negb (String.eqb (ae_event_hash e) computed_hash)
  then (Err (PostgresError "23514"), d)
  else if some (db_audit_event d) (fun b => String.eqb (ae_id b) (ae_id e)
                                            || String.eqb (ae_event_hash b) computed_hash)
  then (Err (PostgresError "23505"), d)
  else (Ok computed_hash, with_audit (set_event_hash computed_hash e) d).

Definition audit_chain_key (context : CommandContext) (committeeId : option string) : string :=
  if truthy committeeId then "committee:" +:+ committeeReference context else "global".

(** audit.ts, [appendAudit]. *)
Definition appendAudit `{Platform} (context : CommandContext) (committeeId : option string)
    (command : string) (target : AuditTarget) (result : audit_result) : M string :=
  let chainKey := audit_chain_key context committeeId in
  let* previousHash := gets (fun d => default None (db_audit_chain_head d !! chainKey)) in
  let* uuid := newId in
  let* now := gets db_clock in
  insertAuditEvent {|
    ae_id := uuid; ae_chain_key := chainKey; ae_previous_hash := previousHash;
    ae_event_hash := "AUTO"; ae_actor_type := actor_type (actor context);
    ae_actor_reference := actor_reference (actor context); ae_committee_id := committeeId;
    ae_command := command; ae_target_type := target_type target;
    ae_target_reference := target_reference target; ae_prior_state := priorState target;
    ae_new_state := newState target; ae_policy_version := policyVersionReference context;
    ae_software_version := softwareVersion context; ae_reason_category := reasonCategory context;
    ae_authentication_strength := authenticationStrength (actor context);
    ae_correlation_id := correlationId context;
    ae_idempotency_key_hash := sha256 (idempotencyKey context);
    ae_result := result; ae_occurred_at := now |}.

(** ** Facts: transactions *)

(** Equal but for the identifiers drawn. *)
Definition same_tables (d d' : Db) : Prop := with_ids 0 d = with_ids 0 d'.

#[global] Instance same_tables_equiv : Equivalence same_tables.
Proof. unfold same_tables. split; [done|by intros ??|]. intros ??? ->. done. Qed.

Lemma same_tables_ids n d : same_tables d (with_ids n d).
Proof. by destruct d. Qed.

Lemma same_tables_rollback d d' : same_tables d (rollback d d').
Proof. by destruct d. Qed.

Section transaction_facts.
Context {St : Type} {tx : Transactional St} (same : St -> St -> Prop) `{!Equivalence same}.
Context (Hroll : forall before after, same before (rollback before after)).

Lemma tx_once_ok {A} e (work : prog St exn A) d a d' : try_once e work d = (Ok a, d') -> work d = (Ok a, d').
Proof.
  unfold try_once. destruct (work d) as [[b|x] d1]; [|by intros].
  destruct (statementFails e), (commitFails e) as [[]|]; simpl; congruence.
Qed.

Lemma tx_once_err {A} e (work : prog St exn A) d x d' :
  try_once e work d = (Err x, d') ->
  same d d' \/ (x = connectionLost /\ exists a, work d = (Ok a, d')).
Proof.
  unfold try_once. destruct (work d) as [[b|y] d1].
  - destruct (statementFails e), (commitFails e) as [[]|]; simpl; intros [= <- <-];
      try (left; apply Hroll). right. eauto.
  - intros [= <- <-]. left. apply Hroll.
Qed.

(** One attempt, including the connection. *)
Definition attempt_outcome {A} (e : TxAttempt) (work : prog St exn A) (d : St) : result exn A * St :=
  match connectFails e with Some x => (Err x, d) | None => try_once e work d end.

Definition is_retryable {A} (r : result exn A) : bool :=
  match r with Err x => retryable_code x | Ok _ => false end.

Lemma tx_runs {A} (left attempt : nat) env (work : prog St exn A) d r d' :
  (left + attempt = 4)%nat -> (0 < left)%nat -> attempts_from left attempt env work d = (r, d') ->
  exists k d0, (attempt <= k <= 3)%nat /\ same d d0 /\
    attempt_outcome (env k) work d0 = (r, d') /\
    (k = 3%nat \/ is_retryable r = false \/ connectFails (env k) <> None) /\
    (forall j, (attempt <= j < k)%nat -> exists dj x dj', same d dj /\
       attempt_outcome (env j) work dj = (Err x, dj') /\ retryable_code x = true).
Proof.
  revert attempt d. induction left as [|left IH]; intros attempt d Hla Hl; [lia|]. simpl.
  destruct (connectFails (env attempt)) as [x|] eqn:Hc.
  { intros [= <- <-]. exists attempt, d. unfold attempt_outcome. rewrite Hc.
    split_and!; try done; try (intros; lia). right; right; congruence. }
  destruct (try_once (env attempt) work d) as [[a|x] d1] eqn:Ht.
  { intros [= <- <-]. exists attempt, d. unfold attempt_outcome. rewrite Hc.
    split_and!; try done; try (intros; lia). right; by left. }
  destruct ((attempt =? 3)%nat || negb (retryable_code x)) eqn:Hstop.
  { intros [= <- <-]. exists attempt, d. unfold attempt_outcome. rewrite Hc. simpl.
    apply orb_true_iff in Hstop. rewrite Nat.eqb_eq, negb_true_iff in Hstop.
    split_and!; try done; try (intros; lia). tauto. }
  apply orb_false_iff in Hstop as [H3 Hr]. apply Nat.eqb_neq in H3. apply negb_false_iff in Hr.
  assert (Hsame : same d d1).
  { destruct (tx_once_err _ _ _ _ _ Ht) as [?|[-> _]]; [done|by vm_compute in Hr]. }
  intros Hrun. destruct (IH (1 + attempt)%nat d1 ltac:(lia) ltac:(lia) Hrun)
    as (k & d0 & Hk & Hs & Ho & Hend & Hprev).
  exists k, d0. split_and!; auto; try lia; [by etransitivity|].
  intros j Hj. destruct (decide (j = attempt)) as [->|].
  - exists d, x, d1. unfold attempt_outcome. by rewrite Hc.
  - destruct (Hprev j ltac:(lia)) as (dj & y & dj' & ? & ? & ?).
    exists dj, y, dj'. split_and!; auto. by etransitivity.
Qed.

Lemma transaction_ok {A} env (work : prog St exn A) d a d' :
  inSerializableTransaction env work d = (Ok a, d') ->
  exists d0, same d d0 /\ work d0 = (Ok a, d').
Proof.
  intros H. destruct (tx_runs 3 1 env work d _ _ eq_refl ltac:(lia) H)
    as (k & d0 & _ & Hs & Ho & _). exists d0. split; [done|].
  unfold attempt_outcome in Ho. destruct (connectFails (env k)); [done|]. by eapply tx_once_ok.
Qed.

Lemma transaction_err {A} env (work : prog St exn A) d x d' :
  inSerializableTransaction env work d = (Err x, d') ->
  same d d' \/
  (x = connectionLost /\ exists d0 a, same d d0 /\ work d0 = (Ok a, d')).
Proof.
  intros H. destruct (tx_runs 3 1 env work d _ _ eq_refl ltac:(lia) H)
    as (k & d0 & _ & Hs & Ho & _). unfold attempt_outcome in Ho.
  destruct (connectFails (env k)); [injection Ho as <- <-; by left|].
  apply tx_once_err in Ho as [Ho|[-> [a Ha]]]; [left; by etransitivity|]. right. eauto.
Qed.

(** A transaction leaves the tables, or is one run of its body, even when
    its caller is told of a failure; so does a statement. *)
Lemma transaction_cases {A} env (work : prog St exn A) d :
  same d (snd (inSerializableTransaction env work d)) \/
  exists d0 a d', same d d0 /\ work d0 = (Ok a, d') /\ snd (inSerializableTransaction env work d) = d'.
Proof.
  destruct (inSerializableTransaction env work d) as [[a|x] d'] eqn:Hrun; simpl.
  - destruct (transaction_ok _ _ _ _ _ Hrun) as (d0 & ? & ?). right. by exists d0, a, d'.
  - destruct (transaction_err _ _ _ _ _ Hrun) as [?|(_ & d0 & a & ? & ?)]; [by left|].
    right. by exists d0, a, d'.
Qed.

Lemma statement_cases {A} e (work : prog St exn A) d :
  same d (snd (statement e work d)) \/
  exists a d', work d = (Ok a, d') /\ snd (statement e work d) = d'.
Proof.
  unfold statement. destruct (connectFails e); [by left|].
  destruct (try_once e work d) as [[a|x] d'] eqn:Hrun; simpl.
  - apply tx_once_ok in Hrun. right. eauto.
  - destruct (tx_once_err _ _ _ _ _ Hrun) as [?|(_ & a & ?)]; [by left|]. right. eauto.
Qed.

(** Without faults, a transaction or a statement that succeeds is its body. *)
Lemma transaction_quiet {A} (work : prog St exn A) d a d' :
  work d = (Ok a, d') -> inSerializableTransaction (fun _ => quietAttempt) work d = (Ok a, d').
Proof. intros Hw. unfold inSerializableTransaction. simpl. unfold try_once. by rewrite Hw. Qed.

Lemma statement_quiet {A} (work : prog St exn A) d a d' :
  work d = (Ok a, d') -> statement quietAttempt work d = (Ok a, d').
Proof. intros Hw. unfold statement, try_once. simpl. by rewrite Hw. Qed.
End transaction_facts.

Lemma attempts_from_runs {A} (left attempt : nat) env (work : M A) d r d' :
  (left + attempt = 4)%nat -> (0 < left)%nat -> attempts_from left attempt env work d = (r, d') ->
  exists k d0, (attempt <= k <= 3)%nat /\ same_tables d d0 /\
    attempt_outcome (env k) work d0 = (r, d') /\
    (k = 3%nat \/ is_retryable r = false \/ connectFails (env k) <> None) /\
    (forall j, (attempt <= j < k)%nat -> exists dj x dj', same_tables d dj /\
       attempt_outcome (env j) work dj = (Err x, dj') /\ retryable_code x = true).
Proof. apply (tx_runs same_tables same_tables_rollback). Qed.

Lemma inSerializableTransaction_ok {A} env (work : M A) d a d' :
  inSerializableTransaction env work d = (Ok a, d') ->
  exists d0, same_tables d d0 /\ work d0 = (Ok a, d').
Proof. apply (transaction_ok same_tables same_tables_rollback). Qed.

Lemma inSerializableTransaction_err {A} env (work : M A) d x d' :
  inSerializableTransaction env work d = (Err x, d') ->
  same_tables d d' \/
  (x = connectionLost /\ exists d0 a, same_tables d d0 /\ work d0 = (Ok a, d')).
Proof. apply (transaction_err same_tables same_tables_rollback). Qed.

(** Without faults a transaction is its body, undone on an error. *)
Lemma inSerializableTransaction_quiet {A} (work : M A) d :
  inSerializableTransaction (fun _ => quietAttempt) work d =
  match work d with
  | (Ok a, d') => (Ok a, d')
  | (Err x, d') => inSerializableTransaction (fun _ => quietAttempt) work d
  end.
Proof.
  destruct (work d) as [[a|x] d'] eqn:Hw; [|done].
  unfold inSerializableTransaction. simpl. unfold try_once. by rewrite Hw.
Qed.

(** ** A small platform and an empty database, for concrete runs *)

Module SamplePlatform.
#[export] Instance platform : Platform := {
  sha256 s := "h:" +:+ s;
  randomUUID n := String.append "id" (String.concat "" (replicate n "1"));
  audit_json e := String.concat "," [ae_id e; ae_command e; ae_target_reference e];
  jsonb v := Ok v;
}.
Definition emptyDb : Db := {|
  db_committee := ∅; db_outbox_event := ∅; db_outbox_attempt := []; db_verus_job := ∅;
  db_anchor_record := ∅; db_audit_event := []; db_audit_chain_head := ∅;
  db_clock := 0; db_ids := 0 |}.
Definition context : CommandContext := {|
  actor := {| actor_type := "worker"; actor_reference := "worker_0001";
              authenticationStrength := "internal_worker" |};
  committeeReference := "global_synthetic_scope"; policyVersionReference := "policy:v1";
  softwareVersion := "1"; reasonCategory := "test"; correlationId := "c"; idempotencyKey := "k";
  requestDigest := "d" |}.
End SamplePlatform.
