(* ===== verification/AuthDatabase.v ===== *)
(** * AuthDatabase: the authentication tables.

    The tables of migration 20260807060000 (and "contact_preference",
    "passkey_metadata", "participant_account" of 20260807050000) with their
    CHECK constraints, unique keys, foreign keys and triggers, next to the
    base tables of Database.v.  A statement checks the trigger first, then
    CHECK, unique and foreign keys, as the server does. *)
From S2P Require Import Prelude Errors Text Json Database Authorization Consent Auth Passkey.
Local Open Scope Z_scope.

(** ** Rows *)

Record AuthAccountRow : Type := {
  aa_id : string;
  aa_external_reference : string;
  aa_trust_domain : TrustDomain;
  aa_state : AccountState;
  aa_participant_id : option string;
  aa_version : Z;
  aa_locked_at : option Z;
  aa_suspended_at : option Z;
  aa_recovered_at : option Z;
  aa_closed_at : option Z;
  aa_created_at : Z;
  aa_updated_at : Z;
}.

Inductive AuthSessionState : Type := ss_active | ss_revoked | ss_expired.
#[export] Instance AuthSessionState_eq_dec : EqDecision AuthSessionState.
Proof. solve_decision. Defined.

Record AuthSessionRow : Type := {
  as_row_id : string;
  as_account_id : string;
  as_trust_domain : TrustDomain;
  as_audience : string;
  as_token_digest : string;
  as_csrf_digest : string;
  as_key_version : string;
  as_authentication_strength : AuthenticationStrength;
  as_state : AuthSessionState;
  as_device_label : string;
  as_authenticated_at : Z;
  as_reauthenticated_at : option Z;
  as_last_seen_at : Z;
  as_idle_expires_at : Z;
  as_absolute_expires_at : Z;
  as_revoked_at : option Z;
  as_revocation_reason : option string;
  as_created_at : Z;
}.

Inductive AuthChallengeState : Type := cs_pending | cs_consumed | cs_expired | cs_rejected.
#[export] Instance AuthChallengeState_eq_dec : EqDecision AuthChallengeState.
Proof. solve_decision. Defined.

Record AuthChallengeRow : Type := {
  ac_id : string;
  ac_account_id : option string;
  ac_trust_domain : TrustDomain;
  ac_kind : AuthChallengeKind;
  ac_state : AuthChallengeState;
  ac_secret_digest : string;
  ac_destination_reference : option string;
  ac_lookup_digest : option string;
  ac_attempt_count : Z;
  ac_maximum_attempts : Z;
  ac_expires_at : Z;
  ac_consumed_at : option Z;
  ac_created_at : Z;
}.

Record RateLimitRow : Type := {
  rl_bucket : string;
  rl_attempt_count : Z;
  rl_window_started_at : Z;
  rl_expires_at : Z;
}.

Record ContactRow : Type := {
  ct_id : string;
  ct_participant_id : option string;
  ct_auth_account_id : string;
  ct_channel : string;
  ct_destination_reference : string;
  ct_lookup_digest : string;
  ct_verified_at : option Z;
  ct_disabled_at : option Z;
  ct_created_at : Z;
}.

Record PasskeyRow : Type := {
  pr_id : string;
  pr_participant_id : option string;
  pr_auth_account_id : string;
  pr_credential_reference : string;
  pr_relying_party_id : string;
  pr_public_key : list Z;
  pr_transports : list string;
  pr_credential_device_type : DeviceType;
  pr_backed_up : bool;
  pr_device_label : string;
  pr_state : CredentialState;
  pr_sign_count : Z;
  pr_created_at : Z;
  pr_last_used_at : option Z;
  pr_revoked_at : option Z;
}.

(** *** Committees: their members, roles, sessions and who may act for them *)

(** "committee_member", under its key "id". *)
Record MemberRow : Type := {
  cm_external_reference : string;
  cm_committee_id : string;
  cm_state : MembershipState;
}.

(** "conflict_declaration" *)
Record ConflictRow : Type := {
  cf_committee_id : string;
  cf_member_id : string;
  cf_target_type : string;
  cf_target_reference : string;
  cf_resolved_at : option Z;
}.

(** "committee_role" and "committee_member_role" *)
Record CommitteeRoleRow : Type := { ro_role_key : string; ro_state : MembershipState }.
Record MemberRoleRow : Type := { mr_member_id : string; mr_role_id : string; mr_state : MembershipState }.

(** "verification_session" *)
Record VerificationSessionRow : Type := { vs_external_reference : string; vs_committee_id : string }.

(** "auth_committee_access" *)
Inductive committee_access_state : Type := cas_invited | cas_approved | cas_active | cas_suspended | cas_revoked.
#[export] Instance committee_access_state_eq_dec : EqDecision committee_access_state.
Proof. solve_decision. Defined.

Record CommitteeAccessRow : Type := {
  ca_id : string;
  ca_account_id : string;
  ca_committee_id : string;
  ca_member_id : option string;
  ca_state : committee_access_state;
  ca_invited_by_reference : string;
  ca_approved_by_reference : option string;
  ca_invited_at : Z;
  ca_approved_at : option Z;
  ca_activated_at : option Z;
}.

(** "reviewer_session_assignment" *)
Record AssignmentRow : Type := {
  sa_committee_id : string;
  sa_session_id : string;
  sa_member_id : string;
  sa_policy_version_id : string;
  sa_state : MembershipState;
  sa_assigned_by_reference : string;
  sa_assigned_at : Z;
}.

Record CommitteeTables : Type := {
  mt_policy_version : gset string;
  mt_committee_member : gmap string MemberRow;
  mt_conflict_declaration : list ConflictRow;
  mt_committee_role : gmap string CommitteeRoleRow;
  mt_committee_member_role : list MemberRoleRow;
  mt_verification_session : gmap string VerificationSessionRow;
  mt_access : gmap string CommitteeAccessRow;
  mt_assignment : gmap string AssignmentRow;
}.

Definition with_access (f : gmap string CommitteeAccessRow -> gmap string CommitteeAccessRow)
    (t : CommitteeTables) : CommitteeTables := {|
  mt_policy_version := mt_policy_version t; mt_committee_member := mt_committee_member t;
  mt_conflict_declaration := mt_conflict_declaration t; mt_committee_role := mt_committee_role t;
  mt_committee_member_role := mt_committee_member_role t; mt_verification_session := mt_verification_session t;
  mt_access := f (mt_access t); mt_assignment := mt_assignment t |}.
Definition with_assignment (f : gmap string AssignmentRow -> gmap string AssignmentRow)
    (t : CommitteeTables) : CommitteeTables := {|
  mt_policy_version := mt_policy_version t; mt_committee_member := mt_committee_member t;
  mt_conflict_declaration := mt_conflict_declaration t; mt_committee_role := mt_committee_role t;
  mt_committee_member_role := mt_committee_member_role t; mt_verification_session := mt_verification_session t;
  mt_access := mt_access t; mt_assignment := f (mt_assignment t) |}.

(** The tables; "auth_rate_limit_bucket" by its key, "participant_account"
    by its external reference, the others by their id. *)
Record AuthDb : Type := {
  ad_base : Db;
  ad_participant : gmap string string;
  ad_account : gmap string AuthAccountRow;
  ad_session : gmap string AuthSessionRow;
  ad_challenge : gmap string AuthChallengeRow;
  ad_bucket : gmap string RateLimitRow;
  ad_contact : gmap string ContactRow;
  ad_passkey : gmap string PasskeyRow;
  ad_committee : CommitteeTables;
}.

Definition AM := prog AuthDb exn.

#[export] Instance authdb_transactional : Transactional AuthDb := fun before after => {|
  ad_base := rollback (ad_base before) (ad_base after); ad_participant := ad_participant before;
  ad_account := ad_account before; ad_session := ad_session before; ad_challenge := ad_challenge before;
  ad_bucket := ad_bucket before; ad_contact := ad_contact before; ad_passkey := ad_passkey before;
  ad_committee := ad_committee before |}.

Definition with_base (b : Db) (d : AuthDb) : AuthDb := {|
  ad_base := b; ad_participant := ad_participant d; ad_account := ad_account d; ad_session := ad_session d;
  ad_challenge := ad_challenge d; ad_bucket := ad_bucket d; ad_contact := ad_contact d;
  ad_passkey := ad_passkey d; ad_committee := ad_committee d |}.
Definition with_account (f : gmap string AuthAccountRow -> gmap string AuthAccountRow) (d : AuthDb) : AuthDb := {|
  ad_base := ad_base d; ad_participant := ad_participant d; ad_account := f (ad_account d);
  ad_session := ad_session d; ad_challenge := ad_challenge d; ad_bucket := ad_bucket d;
  ad_contact := ad_contact d; ad_passkey := ad_passkey d; ad_committee := ad_committee d |}.
Definition with_session (f : gmap string AuthSessionRow -> gmap string AuthSessionRow) (d : AuthDb) : AuthDb := {|
  ad_base := ad_base d; ad_participant := ad_participant d; ad_account := ad_account d;
  ad_session := f (ad_session d); ad_challenge := ad_challenge d; ad_bucket := ad_bucket d;
  ad_contact := ad_contact d; ad_passkey := ad_passkey d; ad_committee := ad_committee d |}.
Definition with_challenge (f : gmap string AuthChallengeRow -> gmap string AuthChallengeRow) (d : AuthDb)
  : AuthDb := {|
  ad_base := ad_base d; ad_participant := ad_participant d; ad_account := ad_account d;
  ad_session := ad_session d; ad_challenge := f (ad_challenge d); ad_bucket := ad_bucket d;
  ad_contact := ad_contact d; ad_passkey := ad_passkey d; ad_committee := ad_committee d |}.
Definition with_bucket (f : gmap string RateLimitRow -> gmap string RateLimitRow) (d : AuthDb) : AuthDb := {|
  ad_base := ad_base d; ad_participant := ad_participant d; ad_account := ad_account d;
  ad_session := ad_session d; ad_challenge := ad_challenge d; ad_bucket := f (ad_bucket d);
  ad_contact := ad_contact d; ad_passkey := ad_passkey d; ad_committee := ad_committee d |}.
Definition with_contact (f : gmap string ContactRow -> gmap string ContactRow) (d : AuthDb) : AuthDb := {|
  ad_base := ad_base d; ad_participant := ad_participant d; ad_account := ad_account d;
  ad_session := ad_session d; ad_challenge := ad_challenge d; ad_bucket := ad_bucket d;
  ad_contact := f (ad_contact d); ad_passkey := ad_passkey d; ad_committee := ad_committee d |}.
Definition with_passkey (f : gmap string PasskeyRow -> gmap string PasskeyRow) (d : AuthDb) : AuthDb := {|
  ad_base := ad_base d; ad_participant := ad_participant d; ad_account := ad_account d;
  ad_session := ad_session d; ad_challenge := ad_challenge d; ad_bucket := ad_bucket d;
  ad_contact := ad_contact d; ad_passkey := f (ad_passkey d); ad_committee := ad_committee d |}.
Definition with_committee_tables (f : CommitteeTables -> CommitteeTables) (d : AuthDb) : AuthDb := {|
  ad_base := ad_base d; ad_participant := ad_participant d; ad_account := ad_account d;
  ad_session := ad_session d; ad_challenge := ad_challenge d; ad_bucket := ad_bucket d;
  ad_contact := ad_contact d; ad_passkey := ad_passkey d; ad_committee := f (ad_committee d) |}.

(** A program on the base tables. *)
Definition on_base {A : Type} (c : M A) : AM A := fun d =>
  let (r, b) := c (ad_base d) in (r, with_base b d).

(** ** Statements *)

Definition rows {R : Type} (m : gmap string R) : list R := snd <$> map_to_list m.

(** The first row of a SELECT whose condition determines at most one. *)
Definition select_one {R : Type} (p : R -> bool) (m : gmap string R) : option R := find p (rows m).

(** UPDATE ... SET ... WHERE: every row that [p] selects becomes [f] of it;
    a refused row refuses the statement.  Gives the number of rows. *)
Definition update_rows {R : Type} (checks : R -> bool) (p : R -> bool) (f : R -> R) (m : gmap string R)
  : result exn (Z * gmap string R) :=
  throwif! negb (forallb (fun r => negb (p r) || checks (f r)) (rows m)) as! PostgresError "23514" in
  Ok (Z.of_nat (length (List.filter p (rows m))), (fun r => if p r then f r else r) <$> m).

(** ** "auth_account" *)

(** CHECK auth_account_version_check, subject_domain_check,
    state_timestamp_check. *)
Definition account_checks (a : AuthAccountRow) : bool :=
  (0 <? aa_version a)
  && match aa_trust_domain a with
     | td_participant => negb (is_null (aa_participant_id a))
     | td_committee => is_null (aa_participant_id a)
     end
  && (negb (bool_decide (aa_state a = as_locked)) || negb (is_null (aa_locked_at a)))
  && (negb (bool_decide (aa_state a = as_suspended)) || negb (is_null (aa_suspended_at a)))
  && (negb (bool_decide (aa_state a = as_closed)) || negb (is_null (aa_closed_at a))).

(** A participant has one account per trust domain; without a participant
    (NULL) the index does not compare. *)
Definition same_subject (a b : AuthAccountRow) : bool :=
  match aa_participant_id a, aa_participant_id b with
  | Some p, Some q => String.eqb p q && bool_decide (aa_trust_domain a = aa_trust_domain b)
  | _, _ => false
  end.

Definition insertAccount (a : AuthAccountRow) : AM unit :=
  let* d := gets id in
  throwif* negb (account_checks a) as! PostgresError "23514" in
  throwif* negb (is_null (ad_account d !! aa_id a))
           || some (rows (ad_account d)) (fun b => String.eqb (aa_external_reference b) (aa_external_reference a)
                       || same_subject a b)
    as! PostgresError "23505" in
  modify (with_account (<[aa_id a := a]>)).

Definition updateAccounts (p : AuthAccountRow -> bool) (f : AuthAccountRow -> AuthAccountRow) : AM Z :=
  let* d := gets id in
  throwif* some (rows (ad_account d)) (fun a => p a && (2147483647 <? aa_version (f a)))
    as! PostgresError "22003" in
  let* updated := lift (update_rows account_checks p f (ad_account d)) in
  run* modify (with_account (fun _ => snd updated)) in
  ret (fst updated).

(** ** "auth_session" *)

(** CHECK auth_session_time_check, revocation_check,
    committee_strength_check. *)
Definition session_checks (s : AuthSessionRow) : bool :=
  (as_authenticated_at s <=? as_last_seen_at s)
  && (as_last_seen_at s <? as_absolute_expires_at s)
  && (as_idle_expires_at s <=? as_absolute_expires_at s)
  && match as_state s with
     | ss_active => is_null (as_revoked_at s) && is_null (as_revocation_reason s)
     | _ => negb (is_null (as_revoked_at s)) && negb (is_null (as_revocation_reason s))
     end
  && (negb (bool_decide (as_trust_domain s = td_committee))
      || bool_decide (as_authentication_strength s = passkey)).

(** Trigger enforce_auth_trust_domain_match: a missing account's domain is
    NULL, which is distinct from any. *)
Definition domain_match (d : AuthDb) (account_id : string) (domain : TrustDomain) : bool :=
  match ad_account d !! account_id with
  | Some a => bool_decide (aa_trust_domain a = domain)
  | None => false
  end.

Definition insertSession (s : AuthSessionRow) : AM unit :=
  let* d := gets id in
  throwif* negb (domain_match d (as_account_id s) (as_trust_domain s)) as! PostgresError "P0001" in
  throwif* negb (session_checks s) as! PostgresError "23514" in
  throwif* negb (is_null (ad_session d !! as_row_id s))
           || some (rows (ad_session d)) (fun b => String.eqb (as_token_digest b) (as_token_digest s))
    as! PostgresError "23505" in
  modify (with_session (<[as_row_id s := s]>)).

(** The updates below leave alone what prevent_auth_identity_mutation
    compares, and the account and domain of a session. *)
Definition updateSessions (p : AuthSessionRow -> bool) (f : AuthSessionRow -> AuthSessionRow) : AM Z :=
  let* d := gets id in
  let* updated := lift (update_rows session_checks p f (ad_session d)) in
  run* modify (with_session (fun _ => snd updated)) in
  ret (fst updated).

Definition session_revoked (at_ : Z) (reason : string) (s : AuthSessionRow) : AuthSessionRow := {|
  as_row_id := as_row_id s; as_account_id := as_account_id s; as_trust_domain := as_trust_domain s;
  as_audience := as_audience s; as_token_digest := as_token_digest s; as_csrf_digest := as_csrf_digest s;
  as_key_version := as_key_version s; as_authentication_strength := as_authentication_strength s;
  as_state := ss_revoked; as_device_label := as_device_label s;
  as_authenticated_at := as_authenticated_at s; as_reauthenticated_at := as_reauthenticated_at s;
  as_last_seen_at := as_last_seen_at s; as_idle_expires_at := as_idle_expires_at s;
  as_absolute_expires_at := as_absolute_expires_at s; as_revoked_at := Some at_;
  as_revocation_reason := Some reason; as_created_at := as_created_at s |}.

Definition session_touched (idle at_ : Z) (s : AuthSessionRow) : AuthSessionRow := {|
  as_row_id := as_row_id s; as_account_id := as_account_id s; as_trust_domain := as_trust_domain s;
  as_audience := as_audience s; as_token_digest := as_token_digest s; as_csrf_digest := as_csrf_digest s;
  as_key_version := as_key_version s; as_authentication_strength := as_authentication_strength s;
  as_state := as_state s; as_device_label := as_device_label s;
  as_authenticated_at := as_authenticated_at s; as_reauthenticated_at := as_reauthenticated_at s;
  as_last_seen_at := at_; as_idle_expires_at := idle;
  as_absolute_expires_at := as_absolute_expires_at s; as_revoked_at := as_revoked_at s;
  as_revocation_reason := as_revocation_reason s; as_created_at := as_created_at s |}.

Definition session_active (s : AuthSessionRow) : bool := bool_decide (as_state s = ss_active).

(** ** "auth_challenge" *)

Definition needs_destination (k : AuthChallengeKind) : bool :=
  includes [email_sign_in; account_recovery; email_change] k.

(** CHECK auth_challenge_attempt, time, account, destination,
    email_change_lookup and consumption. *)
Definition challenge_checks (c : AuthChallengeRow) : bool :=
  ((0 <=? ac_attempt_count c) && (0 <? ac_maximum_attempts c) && (ac_attempt_count c <=? ac_maximum_attempts c))
  && (ac_created_at c <? ac_expires_at c)
  && Bool.eqb (bool_decide (ac_kind c = passkey_authentication)) (is_null (ac_account_id c))
  && Bool.eqb (needs_destination (ac_kind c)) (negb (is_null (ac_destination_reference c)))
  && Bool.eqb (bool_decide (ac_kind c = email_change)) (negb (is_null (ac_lookup_digest c)))
  && Bool.eqb (bool_decide (ac_state c = cs_pending)) (is_null (ac_consumed_at c)).

Definition insertChallenge (c : AuthChallengeRow) : AM unit :=
  let* d := gets id in
  throwif* match ac_account_id c with
           | Some a => negb (domain_match d a (ac_trust_domain c))
           | None => false
           end as! PostgresError "P0001" in
  throwif* negb (challenge_checks c) as! PostgresError "23514" in
  throwif* negb (is_null (ad_challenge d !! ac_id c))
           || some (rows (ad_challenge d)) (fun b => String.eqb (ac_secret_digest b) (ac_secret_digest c))
    as! PostgresError "23505" in
  modify (with_challenge (<[ac_id c := c]>)).

Definition challenge_consumed (at_ : Z) (c : AuthChallengeRow) : AuthChallengeRow := {|
  ac_id := ac_id c; ac_account_id := ac_account_id c; ac_trust_domain := ac_trust_domain c;
  ac_kind := ac_kind c; ac_state := cs_consumed; ac_secret_digest := ac_secret_digest c;
  ac_destination_reference := ac_destination_reference c; ac_lookup_digest := ac_lookup_digest c;
  ac_attempt_count := ac_attempt_count c + 1; ac_maximum_attempts := ac_maximum_attempts c;
  ac_expires_at := ac_expires_at c; ac_consumed_at := Some at_; ac_created_at := ac_created_at c |}.

(** ** "contact_preference" *)

(** Trigger enforce_auth_subject_match; NULL is not distinct from NULL. *)
Definition subject_match (d : AuthDb) (account_id : string) (participant_id : option string) : bool :=
  bool_decide ((ad_account d !! account_id ≫= aa_participant_id) = participant_id).

Definition same_contact (a b : ContactRow) : bool :=
  match ct_participant_id a, ct_participant_id b with
  | Some p, Some q => String.eqb p q && String.eqb (ct_channel a) (ct_channel b)
                      && String.eqb (ct_destination_reference a) (ct_destination_reference b)
  | _, _ => false
  end.

Definition insertContact (c : ContactRow) : AM unit :=
  let* d := gets id in
  throwif* negb (subject_match d (ct_auth_account_id c) (ct_participant_id c)) as! PostgresError "P0001" in
  throwif* negb (is_null (ad_contact d !! ct_id c))
           || some (rows (ad_contact d)) (fun b => String.eqb (ct_lookup_digest b) (ct_lookup_digest c) || same_contact c b)
    as! PostgresError "23505" in
  throwif* is_null (ad_account d !! ct_auth_account_id c) as! PostgresError "23503" in
  modify (with_contact (<[ct_id c := c]>)).

Definition contact_disabled (at_ : Z) (c : ContactRow) : ContactRow := {|
  ct_id := ct_id c; ct_participant_id := ct_participant_id c; ct_auth_account_id := ct_auth_account_id c;
  ct_channel := ct_channel c; ct_destination_reference := ct_destination_reference c;
  ct_lookup_digest := ct_lookup_digest c; ct_verified_at := ct_verified_at c; ct_disabled_at := Some at_;
  ct_created_at := ct_created_at c |}.

(** ** "passkey_metadata" *)

Definition insertPasskey (k : PasskeyRow) : AM unit :=
  let* d := gets id in
  throwif* negb (subject_match d (pr_auth_account_id k) (pr_participant_id k)) as! PostgresError "P0001" in
  throwif* negb (0 <=? pr_sign_count k) as! PostgresError "23514" in
  throwif* negb (is_null (ad_passkey d !! pr_id k))
           || some (rows (ad_passkey d)) (fun b => String.eqb (pr_credential_reference b) (pr_credential_reference k))
    as! PostgresError "23505" in
  throwif* is_null (ad_account d !! pr_auth_account_id k) as! PostgresError "23503" in
  modify (with_passkey (<[pr_id k := k]>)).

Definition updatePasskeys (p : PasskeyRow -> bool) (f : PasskeyRow -> PasskeyRow) : AM Z :=
  let* d := gets id in
  let* updated := lift (update_rows (fun k => 0 <=? pr_sign_count k) p f (ad_passkey d)) in
  run* modify (with_passkey (fun _ => snd updated)) in
  ret (fst updated).

Definition passkey_used (u : PasskeyUsage) (k : PasskeyRow) : PasskeyRow := {|
  pr_id := pr_id k; pr_participant_id := pr_participant_id k; pr_auth_account_id := pr_auth_account_id k;
  pr_credential_reference := pr_credential_reference k; pr_relying_party_id := pr_relying_party_id k;
  pr_public_key := pr_public_key k; pr_transports := pr_transports k;
  pr_credential_device_type := us_deviceType u; pr_backed_up := us_backedUp u;
  pr_device_label := pr_device_label k; pr_state := pr_state k; pr_sign_count := us_counter u;
  pr_created_at := pr_created_at k; pr_last_used_at := Some (us_usedAt u); pr_revoked_at := pr_revoked_at k |}.

Definition passkey_revoked_at (at_ : Z) (k : PasskeyRow) : PasskeyRow := {|
  pr_id := pr_id k; pr_participant_id := pr_participant_id k; pr_auth_account_id := pr_auth_account_id k;
  pr_credential_reference := pr_credential_reference k; pr_relying_party_id := pr_relying_party_id k;
  pr_public_key := pr_public_key k; pr_transports := pr_transports k;
  pr_credential_device_type := pr_credential_device_type k; pr_backed_up := pr_backed_up k;
  pr_device_label := pr_device_label k; pr_state := pk_revoked; pr_sign_count := pr_sign_count k;
  pr_created_at := pr_created_at k; pr_last_used_at := pr_last_used_at k; pr_revoked_at := Some at_ |}.

(** ** "auth_committee_access" *)

(** CHECK auth_committee_access_approval_check, activation_check. *)
Definition access_checks (a : CommitteeAccessRow) : bool :=
  (bool_decide (ca_state a = cas_invited)
   || (match ca_approved_by_reference a with
       | Some by_ => negb (String.eqb by_ (ca_invited_by_reference a))
       | None => false
       end && negb (is_null (ca_approved_at a))))
  && (negb (bool_decide (ca_state a = cas_active))
      || (negb (is_null (ca_member_id a)) && negb (is_null (ca_activated_at a)))).

(** Trigger enforce_committee_access_account_domain, then the constraints. *)
Definition insertAccess (a : CommitteeAccessRow) : AM unit :=
  let* d := gets id in
  let accesses := mt_access (ad_committee d) in
  throwif* negb (domain_match d (ca_account_id a) td_committee) as! PostgresError "P0001" in
  throwif* negb (access_checks a) as! PostgresError "23514" in
  throwif* negb (is_null (accesses !! ca_id a))
           || some (rows accesses) (fun b => String.eqb (ca_account_id b) (ca_account_id a)
                                             && String.eqb (ca_committee_id b) (ca_committee_id a))
    as! PostgresError "23505" in
  throwif* is_null (db_committee (ad_base d) !! ca_committee_id a) as! PostgresError "23503" in
  modify (with_committee_tables (with_access (<[ca_id a := a]>))).

(** The updates below set members of the row's own committee only. *)
Definition updateAccess (p : CommitteeAccessRow -> bool) (f : CommitteeAccessRow -> CommitteeAccessRow) : AM Z :=
  let* d := gets id in
  throwif* some (rows (mt_access (ad_committee d)))
             (fun a => p a && negb (domain_match d (ca_account_id a) td_committee))
    as! PostgresError "P0001" in
  let* updated := lift (update_rows access_checks p f (mt_access (ad_committee d))) in
  run* modify (with_committee_tables (with_access (fun _ => snd updated))) in
  ret (fst updated).

Definition access_approved (by_ : string) (at_ : Z) (a : CommitteeAccessRow) : CommitteeAccessRow := {|
  ca_id := ca_id a; ca_account_id := ca_account_id a; ca_committee_id := ca_committee_id a;
  ca_member_id := ca_member_id a; ca_state := cas_approved; ca_invited_by_reference := ca_invited_by_reference a;
  ca_approved_by_reference := Some by_; ca_invited_at := ca_invited_at a; ca_approved_at := Some at_;
  ca_activated_at := ca_activated_at a |}.

Definition access_activated (member : string) (at_ : Z) (a : CommitteeAccessRow) : CommitteeAccessRow := {|
  ca_id := ca_id a; ca_account_id := ca_account_id a; ca_committee_id := ca_committee_id a;
  ca_member_id := Some member; ca_state := cas_active; ca_invited_by_reference := ca_invited_by_reference a;
  ca_approved_by_reference := ca_approved_by_reference a; ca_invited_at := ca_invited_at a;
  ca_approved_at := ca_approved_at a; ca_activated_at := Some at_ |}.

(** "reviewer_session_assignment"; the SELECT it inserts from joins session
    and member on the committee. *)
Definition insertAssignment (i : string) (a : AssignmentRow) : AM unit :=
  let* d := gets id in
  let t := ad_committee d in
  throwif* negb (is_null (mt_assignment t !! i))
           || some (rows (mt_assignment t)) (fun b => String.eqb (sa_session_id b) (sa_session_id a)
                                                      && String.eqb (sa_member_id b) (sa_member_id a))
    as! PostgresError "23505" in
  throwif* negb (bool_decide (sa_policy_version_id a ∈ mt_policy_version t)) as! PostgresError "23503" in
  modify (with_committee_tables (with_assignment (<[i := a]>))).
