(* ===== verification/AuthRepository.v ===== *)
(** * AuthRepository: the stores of packages/auth on PostgreSQL.

    packages/db/src/auth-repository.ts: accounts, sessions, challenges, rate
    limits, verified e-mail, recovery, locking and passkeys, as instances of
    the store interfaces of Auth.v and Passkey.v; and the committee onboarding:
    invitation, approval, activation, the principal of a committee request and
    the assignment of reviewers.  (recordConsent is in ConsentRepository.v.)
    Identifiers are compared as texts: the callers hand over UUIDs in canonical
    form. *)
From stdpp Require Import pretty.
From S2P Require Import Prelude Errors Text Json Database Lifecycles AuthDatabase Authorization Auth Passkey.
Local Open Scope Z_scope.

(** ** Commands *)

Section commands.
Context `{Platform} (sessionKeyVersions : TrustDomain -> string).

Definition has_reference (reference : string) (trustDomain : option TrustDomain) (a : AuthAccountRow) : bool :=
  String.eqb (aa_external_reference a) reference
  && match trustDomain with Some t => bool_decide (aa_trust_domain a = t) | None => true end.

(** The private [account]. *)
Definition account (reference : string) (trustDomain : option TrustDomain) : AM AuthAccountRow :=
  let* found := gets (fun d => select_one (has_reference reference trustDomain) (ad_account d)) in
  match found with
  | Some row => ret row
  | None => throw (RepositoryConflictError "authentication account is unavailable")
  end.

(** The private [participantId]. *)
Definition participantId (reference : string) : AM string :=
  let* found := gets (fun d => nonempty (ad_participant d !! reference)) in
  match found with
  | Some i => ret i
  | None => throw (RepositoryConflictError "participant account is unavailable")
  end.

Definition optional_participant (reference : option string) : AM (option string) :=
  match nonempty reference with
  | Some r => let* i := participantId r in ret (Some i)
  | None => ret None
  end.

Definition fresh : AM string := on_base newId.

Definition createAccount_tx (externalReference : string) (trustDomain : TrustDomain)
    (participantReference : option string) (state : option AccountState) (now : Z) : AM unit :=
  let* participant := optional_participant participantReference in
  let* i := fresh in
  insertAccount {|
    aa_id := i; aa_external_reference := externalReference; aa_trust_domain := trustDomain;
    aa_state := default as_invited state; aa_participant_id := participant; aa_version := 1;
    aa_locked_at := None; aa_suspended_at := None; aa_recovered_at := None; aa_closed_at := None;
    aa_created_at := now; aa_updated_at := now |}.

Definition createAccount (env : nat -> TxAttempt) (externalReference : string) (trustDomain : TrustDomain)
    (participantReference : option string) (state : option AccountState) (now : Z) : AM unit :=
  run* lift (requireOpaqueReference externalReference "accountReference") in
  inSerializableTransaction env (createAccount_tx externalReference trustDomain participantReference state now).

Definition email_contact (i : string) (a : AuthAccountRow) (participant : option string)
    (destination lookupDigest : string) (at_ : Z) : ContactRow := {|
  ct_id := i; ct_participant_id := participant; ct_auth_account_id := aa_id a; ct_channel := "email";
  ct_destination_reference := destination; ct_lookup_digest := lookupDigest; ct_verified_at := Some at_;
  ct_disabled_at := None; ct_created_at := at_ |}.

Definition registerVerifiedEmail_tx (accountReference : string) (participantReference : option string)
    (destinationReference lookupDigest : string) (verifiedAt : Z) : AM unit :=
  let* a := account accountReference None in
  let* participant := optional_participant participantReference in
  let* i := fresh in
  insertContact (email_contact i a participant destinationReference lookupDigest verifiedAt).

Definition registerVerifiedEmail (env : nat -> TxAttempt) (accountReference : string)
    (participantReference : option string) (destinationReference lookupDigest : string) (verifiedAt : Z)
  : AM unit :=
  run* lift (requireOpaqueReference accountReference "accountReference") in
  run* lift (requireOpaqueReference destinationReference "destinationReference") in
  inSerializableTransaction env
    (registerVerifiedEmail_tx accountReference participantReference destinationReference lookupDigest verifiedAt).

(** *** Sessions *)

Definition createSession_tx (r : SessionRecord) : AM unit :=
  let* a := account (sr_accountReference r) (Some (sr_trustDomain r)) in
  throwif* negb (bool_decide (aa_state a = as_active))
    as! RepositoryConflictError "authentication account is not active" in
  let* idle := lift (bindTimestamp (sr_idleExpiresAt r)) in
  let* absolute := lift (bindTimestamp (sr_absoluteExpiresAt r)) in
  insertSession {|
    as_row_id := sr_id r; as_account_id := aa_id a; as_trust_domain := sr_trustDomain r;
    as_audience := sr_audience r; as_token_digest := sr_tokenDigest r; as_csrf_digest := sr_csrfDigest r;
    as_key_version := sessionKeyVersions (sr_trustDomain r);
    as_authentication_strength := sr_authenticationStrength r; as_state := ss_active;
    as_device_label := sr_deviceLabel r; as_authenticated_at := sr_authenticatedAt r;
    as_reauthenticated_at := sr_reauthenticatedAt r; as_last_seen_at := sr_authenticatedAt r;
    as_idle_expires_at := idle; as_absolute_expires_at := absolute; as_revoked_at := None;
    as_revocation_reason := None; as_created_at := sr_authenticatedAt r |}.

Definition createSession (env : nat -> TxAttempt) (r : SessionRecord) : AM unit :=
  inSerializableTransaction env (createSession_tx r).

Definition mapSession (account_reference : string) (row : AuthSessionRow) : SessionRecord := {|
  sr_id := as_row_id row; sr_accountReference := account_reference; sr_trustDomain := as_trust_domain row;
  sr_audience := as_audience row; sr_tokenDigest := as_token_digest row; sr_csrfDigest := as_csrf_digest row;
  sr_authenticationStrength := as_authentication_strength row; sr_authenticatedAt := as_authenticated_at row;
  sr_reauthenticatedAt := as_reauthenticated_at row; sr_idleExpiresAt := Some (as_idle_expires_at row);
  sr_absoluteExpiresAt := Some (as_absolute_expires_at row); sr_revokedAt := as_revoked_at row;
  sr_deviceLabel := as_device_label row |}.

Definition session_lookup (trustDomain : TrustDomain) (tokenDigest : string) (d : AuthDb) (s : AuthSessionRow) : bool :=
  bool_decide (as_trust_domain s = trustDomain) && String.eqb (as_token_digest s) tokenDigest
  && match ad_account d !! as_account_id s with
     | Some a => bool_decide (aa_state a = as_active)
     | None => false
     end.

(** [JOIN "auth_account" account ON account."id" = session."account_id"]. *)
Definition joined_session (d : AuthDb) (s : AuthSessionRow) : option SessionRecord :=
  (fun a => mapSession (aa_external_reference a) s) <$> ad_account d !! as_account_id s.

Definition findByTokenDigest (env : nat -> TxAttempt) (trustDomain : TrustDomain) (tokenDigest : string)
  : AM (option SessionRecord) :=
  statement (env O) (gets (fun d =>
    select_one (session_lookup trustDomain tokenDigest d) (ad_session d) ≫= joined_session d)).

Definition revoke (env : nat -> TxAttempt) (sessionId reasonCategory : string) (at_ : Z) : AM unit :=
  statement (env O)
    (run* updateSessions (fun s => String.eqb (as_row_id s) sessionId && session_active s)
            (session_revoked at_ reasonCategory) in
     ret tt).

Definition of_account (d : AuthDb) (accountReference : string) (s : AuthSessionRow) : bool :=
  match ad_account d !! as_account_id s with
  | Some a => String.eqb (aa_external_reference a) accountReference
  | None => false
  end.

Definition revokeAll (env : nat -> TxAttempt) (accountReference : string) (trustDomain : TrustDomain)
    (reasonCategory : string) (at_ : Z) : AM Z :=
  statement (env O)
    (let* d := gets id in
     updateSessions (fun s => of_account d accountReference s && bool_decide (as_trust_domain s = trustDomain)
                              && session_active s) (session_revoked at_ reasonCategory)).

Definition touch (env : nat -> TxAttempt) (sessionId : string) (idleExpiresAt : jsdate) (at_ : Z) : AM unit :=
  statement (env O)
    (let* idle := lift (bindTimestamp idleExpiresAt) in
     run* updateSessions (fun s => String.eqb (as_row_id s) sessionId && session_active s)
            (session_touched idle at_) in
     ret tt).

(** ORDER BY "created_at" DESC. *)
Fixpoint insert_by {R : Type} (before : R -> R -> bool) (x : R) (l : list R) : list R :=
  match l with [] => [x] | y :: l' => if before y x then y :: insert_by before x l' else x :: l end.
Definition sort_by {R : Type} (before : R -> R -> bool) (l : list R) : list R := fold_right (insert_by before) [] l.

Definition list_sessions (env : nat -> TxAttempt) (accountReference : string) (trustDomain : TrustDomain)
  : AM (list SessionRecord) :=
  statement (env O) (gets (fun d =>
    omap (joined_session d)
      (sort_by (fun a b => as_created_at b <? as_created_at a)
        (List.filter (fun s => of_account d accountReference s && bool_decide (as_trust_domain s = trustDomain))
           (rows (ad_session d)))))).

(** *** Challenges *)

Definition createChallenge_tx (r : AuthChallengeRecord) : AM unit :=
  let* accountId :=
    (match nonempty (ch_accountReference r) with
     | Some reference => let* a := account reference (Some (ch_trustDomain r)) in ret (Some (aa_id a))
     | None => ret None
     end) in
  let* expires := lift (bindTimestamp (ch_expiresAt r)) in
  insertChallenge {|
    ac_id := ch_id r; ac_account_id := accountId; ac_trust_domain := ch_trustDomain r; ac_kind := ch_kind r;
    ac_state := cs_pending; ac_secret_digest := ch_secretDigest r;
    ac_destination_reference := ch_destinationReference r; ac_lookup_digest := ch_lookupDigest r;
    ac_attempt_count := 0; ac_maximum_attempts := 1; ac_expires_at := expires; ac_consumed_at := None;
    ac_created_at := ch_createdAt r |}.

Definition createChallenge (env : nat -> TxAttempt) (r : AuthChallengeRecord) : AM unit :=
  inSerializableTransaction env (createChallenge_tx r).

(** The WHERE of [consume]. *)
Definition consumable (challengeId secretDigest : option string) (kind : AuthChallengeKind)
    (trustDomain : TrustDomain) (at_ : Z) (c : AuthChallengeRow) : bool :=
  match challengeId with Some i => String.eqb (ac_id c) i | None => true end
  && match secretDigest with Some s => String.eqb (ac_secret_digest c) s | None => true end
  && bool_decide (ac_kind c = kind) && bool_decide (ac_trust_domain c = trustDomain)
  && bool_decide (ac_state c = cs_pending) && (at_ <? ac_expires_at c)
  && (ac_attempt_count c <? ac_maximum_attempts c).

(** [LEFT JOIN "auth_account"], and the record handed out. *)
Definition consumed_record (d : AuthDb) (at_ : Z) (c : AuthChallengeRow) : ConsumedAuthChallenge := {|
  cch_record := {|
    ch_id := ac_id c;
    ch_accountReference := aa_external_reference <$> (ac_account_id c ≫= fun a => ad_account d !! a);
    ch_trustDomain := ac_trust_domain c; ch_kind := ac_kind c; ch_secretDigest := ac_secret_digest c;
    ch_destinationReference := ac_destination_reference c; ch_lookupDigest := ac_lookup_digest c;
    ch_expiresAt := Some (ac_expires_at c); ch_createdAt := ac_created_at c |};
  cch_consumedAt := at_ |}.

(** The trigger of the table sees the old state pending and an unchanged
    identity; the domain of the account is the challenge's still. *)
Definition consume (env : nat -> TxAttempt) (challengeId secretDigest : option string)
    (kind : AuthChallengeKind) (trustDomain : TrustDomain) (at_ : Z) : AM (option ConsumedAuthChallenge) :=
  statement (env O)
    (let* d := gets id in
     let p := consumable challengeId secretDigest kind trustDomain at_ in
     let* updated := lift (update_rows challenge_checks p (challenge_consumed at_) (ad_challenge d)) in
     run* modify (with_challenge (fun _ => snd updated)) in
     ret (consumed_record d at_ <$> select_one p (ad_challenge d))).

(** *** Rate limits *)

Definition bucket_checks (r : RateLimitRow) : bool :=
  (0 <? rl_attempt_count r) && (rl_window_started_at r <? rl_expires_at r).

(** INSERT ... ON CONFLICT ("key_digest") DO UPDATE. *)
Definition repository_increment (env : nat -> TxAttempt) (keyDigest bucket : string)
    (windowStartedAt expiresAt : jsdate) : AM Z :=
  statement (env O)
    (let* started := lift (bindTimestamp windowStartedAt) in
     let* expires := lift (bindTimestamp expiresAt) in
     let proposed := {| rl_bucket := bucket; rl_attempt_count := 1; rl_window_started_at := started;
                        rl_expires_at := expires |} in
     throwif* negb (bucket_checks proposed) as! PostgresError "23514" in
     let* d := gets id in
     match ad_bucket d !! keyDigest with
     | None =>
       run* modify (with_bucket (<[keyDigest := proposed]>)) in
       ret 1
     | Some row =>
       let* count := lift (int4 (rl_attempt_count row + 1)) in
       run* modify (with_bucket (<[keyDigest :=
              {| rl_bucket := rl_bucket row; rl_attempt_count := count;
                 rl_window_started_at := rl_window_started_at row; rl_expires_at := rl_expires_at row |}]>)) in
       ret count
     end).

(** *** Verified e-mail, recovery, locking *)

Definition contact_lookup (trustDomain : TrustDomain) (lookupDigest : string) (d : AuthDb) (c : ContactRow) : bool :=
  match ad_account d !! ct_auth_account_id c with
  | Some a => bool_decide (aa_trust_domain a = trustDomain)
  | None => false
  end
  && String.eqb (ct_lookup_digest c) lookupDigest
  && negb (is_null (ct_verified_at c)) && is_null (ct_disabled_at c).

Definition repository_findByLookupDigest (env : nat -> TxAttempt) (trustDomain : TrustDomain)
    (lookupDigest : string) : AM (option VerifiedEmailAccount) :=
  statement (env O) (gets (fun d =>
    select_one (contact_lookup trustDomain lookupDigest d) (ad_contact d) ≫= fun c =>
    (fun a => {| ve_accountReference := aa_external_reference a; ve_trustDomain := aa_trust_domain a;
                 ve_destinationReference := ct_destination_reference c; ve_accountState := aa_state a |})
      <$> ad_account d !! ct_auth_account_id c)).

Definition by_id (i : string) (a : AuthAccountRow) : bool := String.eqb (aa_id a) i.
Definition account_sessions (i : string) (s : AuthSessionRow) : bool :=
  String.eqb (as_account_id s) i && session_active s.

Definition account_recovered_as (suspended : bool) (at_ : Z) (a : AuthAccountRow) : AuthAccountRow := {|
  aa_id := aa_id a; aa_external_reference := aa_external_reference a; aa_trust_domain := aa_trust_domain a;
  aa_state := if suspended then as_suspended else as_active; aa_participant_id := aa_participant_id a;
  aa_version := aa_version a + 1; aa_locked_at := None;
  aa_suspended_at := if suspended then Some at_ else None; aa_recovered_at := Some at_;
  aa_closed_at := aa_closed_at a; aa_created_at := aa_created_at a; aa_updated_at := at_ |}.

Definition account_locked_at (at_ : Z) (a : AuthAccountRow) : AuthAccountRow := {|
  aa_id := aa_id a; aa_external_reference := aa_external_reference a; aa_trust_domain := aa_trust_domain a;
  aa_state := as_locked; aa_participant_id := aa_participant_id a; aa_version := aa_version a + 1;
  aa_locked_at := Some at_; aa_suspended_at := aa_suspended_at a; aa_recovered_at := aa_recovered_at a;
  aa_closed_at := aa_closed_at a; aa_created_at := aa_created_at a; aa_updated_at := at_ |}.

Definition auth_context (type reference strength policyVersion software reason correlation : string)
  : CommandContext := {|
  actor := {| actor_type := type; actor_reference := reference; authenticationStrength := strength |};
  committeeReference := "global-auth"; policyVersionReference := policyVersion;
  softwareVersion := software; reasonCategory := reason; correlationId := correlation;
  idempotencyKey := correlation; requestDigest := correlation |}.

(** [appendAudit(client, context, null, command, target)]. *)
Definition audit_account (context : CommandContext) (command accountReference : string) (next : option string)
  : AM string :=
  on_base (appendAudit context None command
    {| target_type := "auth_account"; target_reference := accountReference; priorState := None;
       newState := next |} ar_succeeded).

Definition recoverAndRevokeSessions_tx (input : RecoveryInput) : AM Z :=
  let* a := account (ri_accountReference input) (Some (ri_trustDomain input)) in
  throwif* negb (bool_decide (aa_state a = as_active)) && negb (bool_decide (aa_state a = as_locked))
    as! RepositoryConflictError "authentication account cannot be recovered" in
  let* revoked := updateSessions (account_sessions (aa_id a)) (session_revoked (ri_at input) "account_recovery") in
  run* updateAccounts (by_id (aa_id a))
         (account_recovered_as (ri_committeeReviewRequired input) (ri_at input)) in
  run* audit_account
         (auth_context "account_recovery" (ri_accountReference input) "recovery"
            (ri_policyVersionReference input) (ri_softwareVersion input)
            (if ri_committeeReviewRequired input then "committee_recovery_suspended" else "participant_recovered")
            (ri_correlationId input))
         "recoverAccount" (ri_accountReference input)
         (Some (if ri_committeeReviewRequired input then "suspended" else "active")) in
  ret revoked.

Definition repository_recover (env : nat -> TxAttempt) (input : RecoveryInput) : AM Z :=
  inSerializableTransaction env (recoverAndRevokeSessions_tx input).

Definition strength_name (s : AuthenticationStrength) : string :=
  match s with verified_email => "verified_email" | passkey => "passkey" | recovery => "recovery" end.

(** The private [appendSecurityAudit]. *)
Definition appendSecurityAudit (accountReference command : string) (next : option string)
    (reasonCategory : string) (context : SecurityMutationContext) : AM string :=
  audit_account
    (auth_context "auth_account" (sm_actorReference context) (strength_name (sm_authenticationStrength context))
       (sm_policyVersionReference context) (sm_softwareVersion context) reasonCategory
       (sm_correlationId context)) command accountReference next.

Definition lockAndRevokeSessions_tx (accountReference : string) (trustDomain : TrustDomain)
    (reasonCategory : string) (context : SecurityMutationContext) (at_ : Z) : AM Z :=
  let* a := account accountReference (Some trustDomain) in
  throwif* negb (bool_decide (aa_state a = as_active))
    as! RepositoryConflictError "authentication account cannot be locked" in
  let* revoked := updateSessions (account_sessions (aa_id a)) (session_revoked at_ reasonCategory) in
  run* updateAccounts (by_id (aa_id a)) (account_locked_at at_) in
  run* appendSecurityAudit accountReference "lockAccount" (Some "locked") reasonCategory context in
  ret revoked.

Definition repository_lock (env : nat -> TxAttempt) (accountReference : string) (trustDomain : TrustDomain)
    (reasonCategory : string) (context : SecurityMutationContext) (at_ : Z) : AM Z :=
  inSerializableTransaction env
    (lockAndRevokeSessions_tx accountReference trustDomain reasonCategory context at_).

Definition email_of (i : string) (c : ContactRow) : bool :=
  String.eqb (ct_auth_account_id c) i && String.eqb (ct_channel c) "email" && is_null (ct_disabled_at c).

Definition changeVerifiedEmail_tx (accountReference : string) (trustDomain : TrustDomain)
    (newDestinationReference newLookupDigest : string) (context : SecurityMutationContext) (at_ : Z)
  : AM (list string * Z) :=
  let* a := account accountReference (Some trustDomain) in
  throwif* negb (bool_decide (aa_state a = as_active))
    as! RepositoryConflictError "verified email cannot be changed" in
  let* prior := gets (fun d => List.filter (email_of (aa_id a)) (rows (ad_contact d))) in
  run* modify (with_contact (fun m => (fun c => if email_of (aa_id a) c then contact_disabled at_ c else c) <$> m)) in
  let* i := fresh in
  run* insertContact (email_contact i a (aa_participant_id a) newDestinationReference newLookupDigest at_) in
  let* revoked := updateSessions (account_sessions (aa_id a)) (session_revoked at_ "verified_email_changed") in
  run* appendSecurityAudit accountReference "changeVerifiedEmail" None "verified_email_changed" context in
  ret (ct_destination_reference <$> prior, revoked).

Definition repository_changeVerifiedEmail (env : nat -> TxAttempt) (accountReference : string)
    (trustDomain : TrustDomain) (newDestinationReference newLookupDigest : string)
    (context : SecurityMutationContext) (at_ : Z) : AM (list string * Z) :=
  run* lift (requireOpaqueReference newDestinationReference "newDestinationReference") in
  inSerializableTransaction env
    (changeVerifiedEmail_tx accountReference trustDomain newDestinationReference newLookupDigest context at_).

(** *** Passkeys *)

Definition allowedTransports : list string := ["ble"; "cable"; "hybrid"; "internal"; "nfc"; "smart-card"; "usb"].

Definition mapPasskey (a : AuthAccountRow) (row : PasskeyRow) : StoredPasskeyCredential := {|
  pc_credentialReference := pr_credential_reference row; pc_accountReference := aa_external_reference a;
  pc_trustDomain := aa_trust_domain a; pc_relyingPartyId := pr_relying_party_id row;
  pc_publicKey := pr_public_key row; pc_counter := pr_sign_count row;
  pc_transports := List.filter (includes allowedTransports) (pr_transports row);
  pc_deviceType := pr_credential_device_type row; pc_backedUp := pr_backed_up row;
  pc_deviceLabel := pr_device_label row; pc_state := pr_state row |}.

Definition passkey_active (k : PasskeyRow) : bool := bool_decide (pr_state k = pk_active).

Definition joined_passkey (d : AuthDb) (p : AuthAccountRow -> bool) (k : PasskeyRow) : option StoredPasskeyCredential :=
  match ad_account d !! pr_auth_account_id k with
  | Some a => if p a then Some (mapPasskey a k) else None
  | None => None
  end.

(** ORDER BY passkey."created_at". *)
Definition repository_listActive (env : nat -> TxAttempt) (accountReference : string) (trustDomain : TrustDomain)
  : AM (list StoredPasskeyCredential) :=
  statement (env O) (gets (fun d =>
    omap (joined_passkey d (has_reference accountReference (Some trustDomain)))
      (sort_by (fun a b => pr_created_at a <? pr_created_at b)
         (List.filter passkey_active (rows (ad_passkey d)))))).

Definition repository_findActive (env : nat -> TxAttempt) (credentialReference : string) (trustDomain : TrustDomain)
  : AM (option StoredPasskeyCredential) :=
  statement (env O) (gets (fun d =>
    select_one (fun k => String.eqb (pr_credential_reference k) credentialReference && passkey_active k)
      (ad_passkey d)
    ≫= joined_passkey d (fun a => bool_decide (aa_trust_domain a = trustDomain)
                                  && bool_decide (aa_state a = as_active)))).

Definition save_tx (credential : StoredPasskeyCredential) (createdAt : Z) : AM unit :=
  let* a := account (pc_accountReference credential) (Some (pc_trustDomain credential)) in
  throwif* negb (bool_decide (aa_state a = as_active))
    as! RepositoryConflictError "authentication account is not active" in
  let* i := fresh in
  insertPasskey {|
    pr_id := i; pr_participant_id := aa_participant_id a; pr_auth_account_id := aa_id a;
    pr_credential_reference := pc_credentialReference credential;
    pr_relying_party_id := pc_relyingPartyId credential; pr_public_key := pc_publicKey credential;
    pr_transports := pc_transports credential; pr_credential_device_type := pc_deviceType credential;
    pr_backed_up := pc_backedUp credential; pr_device_label := pc_deviceLabel credential;
    pr_state := pk_active; pr_sign_count := pc_counter credential; pr_created_at := createdAt;
    pr_last_used_at := None; pr_revoked_at := None |}.

Definition repository_save (env : nat -> TxAttempt) (credential : StoredPasskeyCredential) (createdAt : Z)
  : AM unit := inSerializableTransaction env (save_tx credential createdAt).

Definition repository_updateUsage (env : nat -> TxAttempt) (input : PasskeyUsage) : AM unit :=
  let* rowCount := statement (env O)
    (updatePasskeys (fun k => String.eqb (pr_credential_reference k) (us_credentialReference input)
                              && passkey_active k && (pr_sign_count k <=? us_counter input))
       (passkey_used input)) in
  throwWhen (negb (rowCount =? 1)) (RepositoryConflictError "passkey counter update was rejected").

Definition revokePasskey (env : nat -> TxAttempt) (credentialReference accountReference : string)
    (revokedAt : Z) : AM unit :=
  let* rowCount := statement (env O)
    (let* d := gets id in
     updatePasskeys (fun k => match ad_account d !! pr_auth_account_id k with
                              | Some a => String.eqb (aa_external_reference a) accountReference
                              | None => false
                              end
                              && String.eqb (pr_credential_reference k) credentialReference
                              && passkey_active k)
       (passkey_revoked_at revokedAt)) in
  throwWhen (negb (rowCount =? 1)) (RepositoryConflictError "passkey is unavailable").

(** *** Committee onboarding *)

(** The private [committee]: the id under the reference. *)
Definition has_committee_reference (reference : string) (c : string * CommitteeRow) : bool :=
  String.eqb (committee_external_reference (snd c)) reference.

Definition committee (reference : string) : AM string :=
  let* found := gets (fun d => find (has_committee_reference reference) (map_to_list (db_committee (ad_base d)))) in
  match found with
  | Some row => ret (fst row)
  | None => throw (RepositoryConflictError "committee is unavailable")
  end.

Definition inviteCommittee_tx (accountReference committeeReference invitedByReference : string) (invitedAt : Z)
  : AM unit :=
  let* a := account accountReference (Some td_committee) in
  let* c := committee committeeReference in
  let* i := fresh in
  insertAccess {|
    ca_id := i; ca_account_id := aa_id a; ca_committee_id := c; ca_member_id := None; ca_state := cas_invited;
    ca_invited_by_reference := invitedByReference; ca_approved_by_reference := None; ca_invited_at := invitedAt;
    ca_approved_at := None; ca_activated_at := None |}.

Definition inviteCommittee (env : nat -> TxAttempt)
    (accountReference committeeReference invitedByReference : string) (invitedAt : Z) : AM unit :=
  inSerializableTransaction env
    (inviteCommittee_tx accountReference committeeReference invitedByReference invitedAt).

(** The account and the committee that an access joins, by their references. *)
Definition access_of (d : AuthDb) (accountReference committeeReference : string) (a : CommitteeAccessRow) : bool :=
  match ad_account d !! ca_account_id a with
  | Some acc => String.eqb (aa_external_reference acc) accountReference
  | None => false
  end
  && match db_committee (ad_base d) !! ca_committee_id a with
     | Some c => String.eqb (committee_external_reference c) committeeReference
     | None => false
     end.

Definition approveCommittee (env : nat -> TxAttempt)
    (accountReference committeeReference approvedByReference : string) (approvedAt : Z) : AM unit :=
  let* rowCount := statement (env O)
    (let* d := gets id in
     updateAccess (fun a => access_of d accountReference committeeReference a
                            && bool_decide (ca_state a = cas_invited))
       (access_approved approvedByReference approvedAt)) in
  throwWhen (negb (rowCount =? 1)) (RepositoryConflictError "committee invitation is unavailable").

(** The members that the UPDATE of [activateCommittee] joins; the reference
    is unique, so there is at most one. *)
Definition joined_member (d : AuthDb) (memberReference : string) : option (string * MemberRow) :=
  find (fun m => String.eqb (cm_external_reference (snd m)) memberReference
                 && bool_decide (cm_state (snd m) = ms_active))
    (map_to_list (mt_committee_member (ad_committee d))).

Definition account_activated (at_ : Z) (a : AuthAccountRow) : AuthAccountRow := {|
  aa_id := aa_id a; aa_external_reference := aa_external_reference a; aa_trust_domain := aa_trust_domain a;
  aa_state := as_active; aa_participant_id := aa_participant_id a; aa_version := aa_version a + 1;
  aa_locked_at := aa_locked_at a; aa_suspended_at := aa_suspended_at a; aa_recovered_at := aa_recovered_at a;
  aa_closed_at := aa_closed_at a; aa_created_at := aa_created_at a; aa_updated_at := at_ |}.

(** Which rows the first UPDATE selects; without a member, none. *)
Definition activatable (d : AuthDb) (accountReference committeeReference : string) (m : option (string * MemberRow))
    (a : CommitteeAccessRow) : bool :=
  match m with
  | Some (_, row) =>
    access_of d accountReference committeeReference a && String.eqb (cm_committee_id row) (ca_committee_id a)
    && bool_decide (ca_state a = cas_approved)
  | None => false
  end.

Definition activateCommittee_tx (accountReference committeeReference memberReference : string) (activatedAt : Z)
  : AM unit :=
  let* d := gets id in
  let m := joined_member d memberReference in
  let* rowCount := updateAccess (activatable d accountReference committeeReference m)
                     (access_activated (default "" (fst <$> m)) activatedAt) in
  throwif* negb (rowCount =? 1) as! RepositoryConflictError "committee access cannot be activated" in
  run* updateAccounts (has_reference accountReference (Some td_committee)) (account_activated activatedAt) in
  ret tt.

Definition activateCommittee (env : nat -> TxAttempt)
    (accountReference committeeReference memberReference : string) (activatedAt : Z) : AM unit :=
  inSerializableTransaction env
    (activateCommittee_tx accountReference committeeReference memberReference activatedAt).

Record CommitteePrincipalSnapshot : Type := {
  cp_accountReference : string;
  cp_accountState : AccountState;
  cp_committeeReference : string;
  cp_committeeState : Committee.CommitteeState;
  cp_membershipState : option MembershipState;
  cp_roles : gset string;
  cp_conflicted : bool;
  cp_assignedToSession : bool;
}.

(** The role keys held through active assignments of active roles; the
    order of the aggregated array is the server's. *)
Definition member_roles (t : CommitteeTables) (member : string) : gset string :=
  list_to_set (omap (fun mr =>
    if String.eqb (mr_member_id mr) member && bool_decide (mr_state mr = ms_active)
    then match mt_committee_role t !! mr_role_id mr with
         | Some ro => if bool_decide (ro_state ro = ms_active) then Some (ro_role_key ro) else None
         | None => None
         end
    else None) (mt_committee_member_role t)).

Definition member_conflicted (t : CommitteeTables) (member targetType targetReference : string) : bool :=
  some (mt_conflict_declaration t) (fun c =>
    String.eqb (cf_member_id c) member && String.eqb (cf_target_type c) targetType
    && String.eqb (cf_target_reference c) targetReference && is_null (cf_resolved_at c)).

Definition member_assigned (t : CommitteeTables) (committee_id member : string) (sessionReference : option string)
  : bool :=
  match sessionReference with
  | None => false
  | Some reference =>
    some (rows (mt_assignment t)) (fun sa =>
      String.eqb (sa_member_id sa) member && String.eqb (sa_committee_id sa) committee_id
      && bool_decide (sa_state sa = ms_active)
      && match mt_verification_session t !! sa_session_id sa with
         | Some s => String.eqb (vs_committee_id s) (sa_committee_id sa)
                     && String.eqb (vs_external_reference s) reference
         | None => false
         end)
  end.

(** The row that the joins give for an access; LEFT JOIN for the member. *)
Definition principal_row (d : AuthDb) (targetType targetReference : string) (sessionReference : option string)
    (a : CommitteeAccessRow) : option CommitteePrincipalSnapshot :=
  let t := ad_committee d in
  match ad_account d !! ca_account_id a, db_committee (ad_base d) !! ca_committee_id a with
  | Some acc, Some c =>
    let member := (ca_member_id a ≫= fun m => pair m <$> mt_committee_member t !! m) in
    Some {|
      cp_accountReference := aa_external_reference acc; cp_accountState := aa_state acc;
      cp_committeeReference := committee_external_reference c; cp_committeeState := committee_state c;
      cp_membershipState := (cm_state ∘ snd) <$> member;
      cp_roles := from_option (fun m => member_roles t (fst m)) ∅ member;
      cp_conflicted := from_option (fun m => member_conflicted t (fst m) targetType targetReference) false member;
      cp_assignedToSession :=
        from_option (fun m => member_assigned t (ca_committee_id a) (fst m) sessionReference) false member |}
  | _, _ => None
  end.

Definition loadCommitteePrincipal (env : nat -> TxAttempt) (accountReference committeeReference : string)
    (targetType targetReference : string) (sessionReference : option string)
  : AM (option CommitteePrincipalSnapshot) :=
  statement (env O) (gets (fun d =>
    select_one (fun a => access_of d accountReference committeeReference a
                         && domain_match d (ca_account_id a) td_committee
                         && bool_decide (ca_state a = cas_active)) (mt_access (ad_committee d))
    ≫= principal_row d targetType targetReference sessionReference)).

(** The committee, session and member that the SELECT of [assignReviewer]
    joins; their references are unique. *)
Definition assignment_target (d : AuthDb) (committeeReference sessionReference memberReference : string)
  : option (string * string * string) :=
  let t := ad_committee d in
  c ← find (has_committee_reference committeeReference) (map_to_list (db_committee (ad_base d)));
  s ← find (fun s => String.eqb (vs_committee_id (snd s)) (fst c)
                     && String.eqb (vs_external_reference (snd s)) sessionReference)
        (map_to_list (mt_verification_session t));
  m ← find (fun m => String.eqb (cm_committee_id (snd m)) (fst c)
                     && String.eqb (cm_external_reference (snd m)) memberReference
                     && bool_decide (cm_state (snd m) = ms_active))
        (map_to_list (mt_committee_member t));
  Some (fst c, fst s, fst m).

(** [newId()] is evaluated whether or not a row is inserted. *)
Definition assignReviewer (env : nat -> TxAttempt)
    (committeeReference sessionReference memberReference policyVersionId assignedByReference : string)
    (assignedAt : Z) : AM unit :=
  let* i := fresh in
  let* rowCount := statement (env O)
    (let* d := gets id in
     match assignment_target d committeeReference sessionReference memberReference with
     | None => ret 0
     | Some (c, s, m) =>
       run* insertAssignment i {|
              sa_committee_id := c; sa_session_id := s; sa_member_id := m;
              sa_policy_version_id := policyVersionId; sa_state := ms_active;
              sa_assigned_by_reference := assignedByReference; sa_assigned_at := assignedAt |} in
       ret 1
     end) in
  throwWhen (negb (rowCount =? 1))
    (RepositoryConflictError "reviewer session assignment is unavailable").
End commands.
