(* ===== verification/AuthSystem.v ===== *)
(** * AuthSystem: the authentication services on their repository.

    A world holds the database, the notifications handed to the sink, the
    random tokens drawn and the number of calls made; the environment gives
    each call's faults.  The stores of packages/auth are the repository's
    operations on it; [AuthOp] lists every operation that changes the
    database, and [run_ops] runs a sequence of them. *)
From S2P Require Import Prelude Errors Text Json Database AuthDatabase Authorization Auth Passkey AuthRepository.
Local Open Scope Z_scope.

Record AuthWorld : Type := {
  aw_db : AuthDb;
  aw_notifications : list SecurityNotification;
  aw_tokens : nat;
  aw_calls : nat;
}.

Section world.
Context `{Platform} (sessionKeyVersions : TrustDomain -> string).
Context (faults : nat -> nat -> TxAttempt) (token : nat -> string).

(** One repository call, with the faults the environment has for it. *)
Definition call {A : Type} (op : (nat -> TxAttempt) -> AM A) : prog AuthWorld exn A := fun w =>
  let (r, d) := op (faults (aw_calls w)) (aw_db w) in
  (r, {| aw_db := d; aw_notifications := aw_notifications w; aw_tokens := aw_tokens w;
         aw_calls := S (aw_calls w) |}).

#[export] Instance world_random : Randomness AuthWorld := {
  generateOpaqueToken := fun w =>
    (Ok (token (aw_tokens w)),
     {| aw_db := aw_db w; aw_notifications := aw_notifications w; aw_tokens := S (aw_tokens w);
        aw_calls := aw_calls w |});
  newAuthId := fun w =>
    let (r, d) := fresh (aw_db w) in
    (r, {| aw_db := d; aw_notifications := aw_notifications w; aw_tokens := aw_tokens w;
           aw_calls := aw_calls w |});
}.

#[export] Instance world_sessions : SessionStore AuthWorld := {
  sessions_create r := call (fun env => createSession sessionKeyVersions env r);
  sessions_findByTokenDigest t x := call (fun env => findByTokenDigest env t x);
  sessions_revoke i reason t := call (fun env => revoke env i reason t);
  sessions_revokeAll a t reason x := call (fun env => revokeAll env a t reason x);
  sessions_touch i idle t := call (fun env => touch env i idle t);
  sessions_list a t := call (fun env => list_sessions env a t);
}.

#[export] Instance world_challenges : AuthChallengeStore AuthWorld := {
  challenges_create r := call (fun env => createChallenge env r);
  challenges_consume i s k t x := call (fun env => consume env i s k t x);
}.

#[export] Instance world_rates : RateLimitStore AuthWorld := {
  increment k b s e := call (fun env => repository_increment env k b s e);
}.

#[export] Instance world_directory : VerifiedEmailDirectory AuthWorld := {
  findByLookupDigest t x := call (fun env => repository_findByLookupDigest env t x);
}.

#[export] Instance world_sink : SecurityNotificationSink AuthWorld := {
  enqueue n := modify (fun w => {|
    aw_db := aw_db w; aw_notifications := aw_notifications w ++ [n]; aw_tokens := aw_tokens w;
    aw_calls := aw_calls w |});
}.

#[export] Instance world_recovery : RecoveryAccountStore AuthWorld := {
  recoverAndRevokeSessions i := call (fun env => repository_recover env i);
}.

#[export] Instance world_security : AccountSecurityStore AuthWorld := {
  lockAndRevokeSessions a t reason c x := call (fun env => repository_lock env a t reason c x);
  changeVerifiedEmail a t n l c x := call (fun env => repository_changeVerifiedEmail env a t n l c x);
}.

#[export] Instance world_passkeys : PasskeyRepository AuthWorld := {
  listActive a t := call (fun env => repository_listActive env a t);
  findActive c t := call (fun env => repository_findActive env c t);
  save c t := call (fun env => repository_save env c t);
  updateUsage u := call (fun env => repository_updateUsage env u);
  repository_revokeCredential c a t := call (fun env => revokePasskey env c a t);
}.

(** ** Every operation that changes the database *)

Inductive AuthOp : Type :=
| OCreateAccount (reference : string) (t : TrustDomain) (participant : option string)
    (state : option AccountState) (now : Z)
| ORegisterEmail (reference : string) (participant : option string) (destination lookup : string) (at_ : Z)
| OCreateSession (r : SessionRecord)
| ORevoke (session reason : string) (at_ : Z)
| ORevokeAll (reference : string) (t : TrustDomain) (reason : string) (at_ : Z)
| OTouch (session : string) (idle : jsdate) (at_ : Z)
| OCreateChallenge (r : AuthChallengeRecord)
| OConsume (challenge secret : option string) (k : AuthChallengeKind) (t : TrustDomain) (at_ : Z)
| OIncrement (key bucket : string) (from until : jsdate)
| ORecover (i : RecoveryInput)
| OLock (reference : string) (t : TrustDomain) (reason : string) (c : SecurityMutationContext) (at_ : Z)
| OChangeEmail (reference : string) (t : TrustDomain) (destination lookup : string)
    (c : SecurityMutationContext) (at_ : Z)
| OSavePasskey (c : StoredPasskeyCredential) (at_ : Z)
| OUsePasskey (u : PasskeyUsage)
| ORevokePasskey (credential reference : string) (at_ : Z)
| OInviteCommittee (reference committee by_ : string) (at_ : Z)
| OApproveCommittee (reference committee by_ : string) (at_ : Z)
| OActivateCommittee (reference committee member : string) (at_ : Z)
| OAssignReviewer (committee session member policy by_ : string) (at_ : Z).

Definition run_op (env : nat -> TxAttempt) (o : AuthOp) (d : AuthDb) : AuthDb :=
  match o with
  | OCreateAccount reference t participant state now =>
    snd (createAccount env reference t participant state now d)
  | ORegisterEmail reference participant destination lookup at_ =>
    snd (registerVerifiedEmail env reference participant destination lookup at_ d)
  | OCreateSession r => snd (createSession sessionKeyVersions env r d)
  | ORevoke session reason at_ => snd (revoke env session reason at_ d)
  | ORevokeAll reference t reason at_ => snd (revokeAll env reference t reason at_ d)
  | OTouch session idle at_ => snd (touch env session idle at_ d)
  | OCreateChallenge r => snd (createChallenge env r d)
  | OConsume challenge secret k t at_ => snd (consume env challenge secret k t at_ d)
  | OIncrement key bucket from until => snd (repository_increment env key bucket from until d)
  | ORecover i => snd (repository_recover env i d)
  | OLock reference t reason c at_ => snd (repository_lock env reference t reason c at_ d)
  | OChangeEmail reference t destination lookup c at_ =>
    snd (repository_changeVerifiedEmail env reference t destination lookup c at_ d)
  | OSavePasskey c at_ => snd (repository_save env c at_ d)
  | OUsePasskey u => snd (repository_updateUsage env u d)
  | ORevokePasskey credential reference at_ => snd (revokePasskey env credential reference at_ d)
  | OInviteCommittee reference committee by_ at_ => snd (inviteCommittee env reference committee by_ at_ d)
  | OApproveCommittee reference committee by_ at_ => snd (approveCommittee env reference committee by_ at_ d)
  | OActivateCommittee reference committee member at_ =>
    snd (activateCommittee env reference committee member at_ d)
  | OAssignReviewer committee session member policy by_ at_ =>
    snd (assignReviewer env committee session member policy by_ at_ d)
  end.

(** A sequence of operations, each under its own faults. *)
Fixpoint run_ops (ops : list (AuthOp * (nat -> TxAttempt))) (d : AuthDb) : AuthDb :=
  match ops with [] => d | (o, env) :: ops' => run_ops ops' (run_op env o d) end.
End world.
