(* ===== verification/AuthInvariant.v ===== *)
(** * AuthInvariant: what the authentication tables keep.

    [auth_ok] is the well-formedness of the tables (keys, unique columns,
    CHECK constraints, the domain of a session's account); [evolves] says how
    rows may change: identities are fixed, a session that ended, a challenge
    that was used and a passkey that was revoked stay as they are, counters
    only grow.  Every operation of the repository keeps both, under any
    faults; the properties of AuthFacts.v follow from them. *)
From S2P Require Import Prelude Errors Text Json Database AuthDatabase Authorization Consent Auth Passkey.
From S2P Require Import AuthRepository AuthSystem.
Local Open Scope Z_scope.
#[local] Set Default Proof Using "Type*".

(** ** Programs that follow a preorder *)

(** From any state the program ends in a related one, whatever it returns. *)
Definition follows {St E A : Type} (R : relation St) (c : prog St E A) : Prop := forall s, R s (snd (c s)).

Lemma follows_run {St E A} (R : relation St) (c : prog St E A) s r s' : follows R c -> c s = (r, s') -> R s s'.
Proof. intros Hf Hrun. specialize (Hf s). by rewrite Hrun in Hf. Qed.

Create HintDb follows.

Section follows.
Context {St : Type} (R : relation St) `{!PreOrder R}.

Lemma follows_pure {E A} (c : prog St E A) : (forall s, snd (c s) = s) -> follows R c.
Proof. intros Hp s. by rewrite Hp. Qed.

(** The continuation may use what the first part returned, and from where. *)
Lemma follows_bind_at {E A B} (c : prog St E A) (k : A -> prog St E B) s :
  R s (snd (c s)) -> (forall a s', c s = (Ok a, s') -> R s' (snd (k a s'))) -> R s (snd (bindP c k s)).
Proof.
  unfold bindP. destruct (c s) as [[a|e] s1] eqn:Hc; simpl; intros Hs Hk; [|done].
  etransitivity; [exact Hs|]. by apply Hk.
Qed.

Lemma follows_bind {E A B} (c : prog St E A) (k : A -> prog St E B) :
  follows R c -> (forall a, follows R (k a)) -> follows R (bindP c k).
Proof. intros Hc Hk s. apply follows_bind_at; [apply Hc|]. intros a s' _. apply Hk. Qed.

Context {tx : Transactional St} (Hroll : forall before after, R before (rollback before after)).

Lemma follows_try {A} e (work : prog St exn A) : follows R work -> follows R (try_once e work).
Proof.
  intros Hw s. specialize (Hw s). unfold try_once. destruct (work s) as [[a|x] s'].
  - destruct (statementFails e), (commitFails e) as [[]|]; simpl; auto.
  - simpl. auto.
Qed.

Lemma follows_statement {A} e (work : prog St exn A) : follows R work -> follows R (statement e work).
Proof.
  intros Hw s. unfold statement. destruct (connectFails e); [reflexivity|]. by apply follows_try.
Qed.

Lemma follows_attempts {A} env (work : prog St exn A) :
  follows R work -> forall left attempt, follows R (attempts_from left attempt env work).
Proof.
  intros Hw. induction left as [|left IH]; intros attempt s; simpl; [reflexivity|].
  destruct (connectFails (env attempt)); [reflexivity|].
  pose proof (follows_try (env attempt) work Hw s) as Ht.
  destruct (try_once (env attempt) work s) as [[a|x] s']; simpl in *; [done|].
  destruct (_ || _); simpl; [done|]. etransitivity; [exact Ht|]. apply IH.
Qed.

Lemma follows_transaction {A} env (work : prog St exn A) :
  follows R work -> follows R (inSerializableTransaction env work).
Proof. intros. by apply follows_attempts. Qed.
End follows.

#[export] Hint Extern 1 (follows _ (ret _)) => (apply follows_pure; [tc_solve|reflexivity]) : follows.
#[export] Hint Extern 1 (follows _ (throw _)) => (apply follows_pure; [tc_solve|reflexivity]) : follows.
#[export] Hint Extern 1 (follows _ (lift _)) => (apply follows_pure; [tc_solve|reflexivity]) : follows.
#[export] Hint Extern 1 (follows _ (throwWhen _ _)) => (apply follows_pure; [tc_solve|reflexivity]) : follows.
#[export] Hint Extern 1 (follows _ (gets _)) => (apply follows_pure; [tc_solve|reflexivity]) : follows.

(** Straight-line programs, case by case. *)
Ltac follows_steps :=
  repeat first
    [ solve [auto with follows]
    | apply follows_bind; [tc_solve| |intros ?]
    | match goal with |- follows _ (match ?x with _ => _ end) => destruct x eqn:? end ].

(** ** Tables *)

Section tables.
Context {R : Type}.

Lemma rows_in (m : gmap string R) r : r ∈ rows m <-> exists i, m !! i = Some r.
Proof.
  unfold rows. rewrite list_elem_of_fmap. split.
  - intros ([i x] & -> & Hin). exists i. by apply elem_of_map_to_list in Hin.
  - intros [i Hi]. exists (i, r). by rewrite elem_of_map_to_list.
Qed.

Lemma select_one_some (p : R -> bool) (m : gmap string R) r :
  select_one p m = Some r -> exists i, m !! i = Some r /\ p r = true.
Proof.
  intros Hf. apply find_some in Hf as [Hin Hp]. apply list_elem_of_In, rows_in in Hin as [i Hi]. eauto.
Qed.

Lemma select_one_none (p : R -> bool) (m : gmap string R) i r :
  select_one p m = None -> m !! i = Some r -> p r = false.
Proof.
  intros Hf Hi. apply (find_none _ _ Hf), list_elem_of_In, rows_in. eauto.
Qed.

(** A column that differs from row to row. *)
Definition unique_by (column : R -> string) (m : gmap string R) : Prop :=
  forall i j x y, m !! i = Some x -> m !! j = Some y -> column x = column y -> i = j.

Lemma select_unique (p : R -> bool) column (m : gmap string R) i r :
  unique_by column m -> m !! i = Some r -> p r = true ->
  (forall x, p x = true -> column x = column r) -> select_one p m = Some r.
Proof.
  intros Hu Hi Hp Hcol. destruct (select_one p m) as [x|] eqn:Hs.
  - apply select_one_some in Hs as (j & Hj & Hx). assert (j = i) as -> by eauto. congruence.
  - by rewrite (select_one_none _ _ _ _ Hs Hi) in Hp.
Qed.

(** Rows under their own key, a unique column, a condition on every row. *)
Record table (key column : R -> string) (good : R -> Prop) (m : gmap string R) : Prop := {
  table_keys : forall i r, m !! i = Some r -> key r = i;
  table_unique : unique_by column m;
  table_good : forall i r, m !! i = Some r -> good r;
}.

Lemma table_insert key column good (m : gmap string R) r :
  table key column good m -> good r -> m !! key r = None ->
  (forall b, b ∈ rows m -> column b <> column r) -> table key column good (<[key r := r]> m).
Proof.
  intros [Hk Hu Hg] Hr Hnew Hcol.
  assert (Hold : forall j y, m !! j = Some y -> column y <> column r).
  { intros j y Hj. apply Hcol, rows_in. eauto. }
  split.
  - intros i x. rewrite lookup_insert_Some. naive_solver.
  - intros i j x y. rewrite !lookup_insert_Some. intros [[<- <-]|[? Hx]] [[<- <-]|[? Hy]] He; try done.
    + by destruct (Hold j y Hy).
    + by destruct (Hold i x Hx).
    + by eapply Hu.
  - intros i x. rewrite lookup_insert_Some. naive_solver.
Qed.

Lemma update_lookup (p : R -> bool) (f : R -> R) (m : gmap string R) i r' :
  ((fun r => if p r then f r else r) <$> m) !! i = Some r' <->
  exists r, m !! i = Some r /\ r' = if p r then f r else r.
Proof. rewrite lookup_fmap_Some. naive_solver. Qed.

Lemma update_rows_ok checks (p : R -> bool) f (m : gmap string R) n m' :
  update_rows checks p f m = Ok (n, m') ->
  n = Z.of_nat (length (List.filter p (rows m))) /\ m' = (fun r => if p r then f r else r) <$> m /\
  forall i r, m !! i = Some r -> p r = true -> checks (f r) = true.
Proof.
  unfold update_rows. intros H. inv_ok. split_and!; [done..|]. intros i r Hi Hp.
  apply negb_false_iff in H0. rewrite forallb_forall in H0.
  specialize (H0 r). rewrite Hp in H0. apply H0, list_elem_of_In, rows_in. eauto.
Qed.

Lemma table_update key column good checks (p : R -> bool) f (m : gmap string R) n m' :
  update_rows checks p f m = Ok (n, m') -> table key column good m ->
  (forall i r, m !! i = Some r -> p r = true ->
     key (f r) = key r /\ column (f r) = column r /\ (good r -> checks (f r) = true -> good (f r))) ->
  table key column good m'.
Proof.
  intros (_ & -> & Hc)%update_rows_ok [Hk Hu Hg] Hf. split.
  - intros i r' (r & Hi & ->)%update_lookup. destruct (p r) eqn:Hp; [|eauto].
    destruct (Hf i r Hi Hp) as [-> _]. eauto.
  - intros i j x' y' (x & Hi & ->)%update_lookup (y & Hj & ->)%update_lookup He.
    apply (Hu i j x y Hi Hj). destruct (p x) eqn:Hx, (p y) eqn:Hy;
      try destruct (Hf i x Hi Hx) as (_ & Hx' & _); try destruct (Hf j y Hj Hy) as (_ & Hy' & _); congruence.
  - intros i r' (r & Hi & ->)%update_lookup. destruct (p r) eqn:Hp; [|eauto].
    destruct (Hf i r Hi Hp) as (_ & _ & Hgood). eauto.
Qed.

(** *** How rows change *)

(** No row is lost, and every row is followed by a related one. *)
Definition rows_evolve (rel : relation R) : relation (gmap string R) := fun m m' =>
  forall i r, m !! i = Some r -> exists r', m' !! i = Some r' /\ rel r r'.

#[global] Instance rows_evolve_preorder (rel : relation R) `{!PreOrder rel} : PreOrder (rows_evolve rel).
Proof.
  split.
  - intros m i r Hi. exists r. split; [done|reflexivity].
  - intros m1 m2 m3 H12 H23 i r Hi. destruct (H12 i r Hi) as (r2 & Hi2 & Hr2).
    destruct (H23 i r2 Hi2) as (r3 & Hi3 & Hr3). exists r3. split; [done|by etransitivity].
Qed.

Lemma evolve_insert (rel : relation R) `{!PreOrder rel} (m : gmap string R) i r :
  m !! i = None -> rows_evolve rel m (<[i := r]> m).
Proof.
  intros Hnew j x Hj. exists x. split; [|reflexivity]. rewrite lookup_insert_ne; [done|congruence].
Qed.

Lemma evolve_update (rel : relation R) `{!PreOrder rel} (p : R -> bool) f (m : gmap string R) :
  (forall i r, m !! i = Some r -> p r = true -> rel r (f r)) ->
  rows_evolve rel m ((fun r => if p r then f r else r) <$> m).
Proof.
  intros Hf i r Hi. exists (if p r then f r else r). split; [apply update_lookup; eauto|].
  destruct (p r) eqn:Hp; [eauto|reflexivity].
Qed.
End tables.

(** ** How rows change *)

(** Either nothing, or [change] on a row that is still [open_]. *)
Definition may_change {R : Type} (open_ : R -> Prop) (change : relation R) : relation R := fun r r' =>
  r' = r \/ (open_ r /\ change r r').

#[export] Instance may_change_preorder {R : Type} (open_ : R -> Prop) (change : relation R) `{!Transitive change} :
  PreOrder (may_change open_ change).
Proof.
  split.
  - by left.
  - intros x y z [->|[Hx Hxy]] [->|[Hy Hyz]]; unfold may_change; [auto..|]. right. split; [done|].
    by etransitivity.
Qed.

(** What no update of an account touches, and its growing version. *)
Definition account_identity (a : AuthAccountRow) :=
  (aa_id a, aa_external_reference a, aa_trust_domain a, aa_participant_id a, aa_created_at a).
Definition account_step (a a' : AuthAccountRow) : Prop :=
  account_identity a' = account_identity a /\ aa_version a < aa_version a'.
Definition account_open (a : AuthAccountRow) : Prop := aa_state a = as_active \/ aa_state a = as_locked.

Definition session_identity (s : AuthSessionRow) :=
  (as_row_id s, as_account_id s, as_trust_domain s, as_audience s, as_token_digest s, as_csrf_digest s,
   as_authentication_strength s, as_authenticated_at s, as_reauthenticated_at s, as_absolute_expires_at s).
Definition session_step (s s' : AuthSessionRow) : Prop := session_identity s' = session_identity s.
Definition session_open (s : AuthSessionRow) : Prop := as_state s = ss_active.

Definition challenge_identity (c : AuthChallengeRow) :=
  (ac_id c, ac_account_id c, ac_trust_domain c, ac_kind c, ac_secret_digest c, ac_destination_reference c,
   ac_lookup_digest c, ac_expires_at c, ac_created_at c).
Definition challenge_step (c c' : AuthChallengeRow) : Prop :=
  challenge_identity c' = challenge_identity c /\ ac_state c' = cs_consumed.
Definition challenge_open (c : AuthChallengeRow) : Prop := ac_state c = cs_pending.

Definition bucket_step (b b' : RateLimitRow) : Prop :=
  (rl_bucket b', rl_window_started_at b', rl_expires_at b') = (rl_bucket b, rl_window_started_at b, rl_expires_at b)
  /\ rl_attempt_count b < rl_attempt_count b'.

Definition contact_step (c c' : ContactRow) : Prop :=
  (ct_id c', ct_auth_account_id c', ct_channel c', ct_destination_reference c', ct_lookup_digest c')
  = (ct_id c, ct_auth_account_id c, ct_channel c, ct_destination_reference c, ct_lookup_digest c).
Definition contact_open (c : ContactRow) : Prop := ct_disabled_at c = None.

Definition passkey_identity (k : PasskeyRow) :=
  (pr_id k, pr_auth_account_id k, pr_credential_reference k, pr_relying_party_id k, pr_public_key k).
Definition passkey_step (k k' : PasskeyRow) : Prop :=
  passkey_identity k' = passkey_identity k /\ pr_sign_count k <= pr_sign_count k'.
Definition passkey_open (k : PasskeyRow) : Prop := pr_state k = pk_active.

Definition access_identity (a : CommitteeAccessRow) :=
  (ca_id a, ca_account_id a, ca_committee_id a, ca_invited_by_reference a, ca_invited_at a).
Definition access_step (a a' : CommitteeAccessRow) : Prop := access_identity a' = access_identity a.
Definition access_open (a : CommitteeAccessRow) : Prop := ca_state a <> cas_active.

#[export] Instance account_step_trans : Transitive account_step.
Proof. intros x y z [? ?] [? ?]. split; [congruence|lia]. Qed.
#[export] Instance session_step_trans : Transitive session_step.
Proof. intros x y z ? ?. unfold session_step in *. congruence. Qed.
#[export] Instance challenge_step_trans : Transitive challenge_step.
Proof. intros x y z [? ?] [? ?]. split; congruence. Qed.
#[export] Instance bucket_step_trans : Transitive bucket_step.
Proof. intros x y z [? ?] [? ?]. split; [congruence|lia]. Qed.
#[export] Instance contact_step_trans : Transitive contact_step.
Proof. intros x y z ? ?. unfold contact_step in *. congruence. Qed.
#[export] Instance passkey_step_trans : Transitive passkey_step.
Proof. intros x y z [? ?] [? ?]. split; [congruence|lia]. Qed.
#[export] Instance access_step_trans : Transitive access_step.
Proof. intros x y z ? ?. unfold access_step in *. congruence. Qed.

(** [also]: the accounts that may change whatever their state. *)
Definition accounts_evolve (also : AuthAccountRow -> Prop) : relation (gmap string AuthAccountRow) :=
  rows_evolve (may_change (fun a => account_open a \/ also a) account_step).
Definition accesses_evolve := rows_evolve (may_change access_open access_step).
Definition sessions_evolve := rows_evolve (may_change session_open session_step).
Definition challenges_evolve := rows_evolve (may_change challenge_open challenge_step).
Definition buckets_evolve := rows_evolve (may_change (fun _ => True) bucket_step).
Definition contacts_evolve := rows_evolve (may_change contact_open contact_step).
Definition passkeys_evolve := rows_evolve (may_change passkey_open passkey_step).

(** Row [j] is the active access of account [i] to a committee. *)
Definition active_access (d : AuthDb) (i j : string) : Prop :=
  exists r, mt_access (ad_committee d) !! j = Some r /\ ca_account_id r = i /\ ca_state r = cas_active.

(** A committee access of the account was activated in between. *)
Definition activated (d d' : AuthDb) (a : AuthAccountRow) : Prop :=
  aa_trust_domain a = td_committee /\ exists j, active_access d' (aa_id a) j /\ ~ active_access d (aa_id a) j.

Record evolves (d d' : AuthDb) : Prop := {
  ev_account : accounts_evolve (activated d d') (ad_account d) (ad_account d');
  ev_session : sessions_evolve (ad_session d) (ad_session d');
  ev_challenge : challenges_evolve (ad_challenge d) (ad_challenge d');
  ev_bucket : buckets_evolve (ad_bucket d) (ad_bucket d');
  ev_contact : contacts_evolve (ad_contact d) (ad_contact d');
  ev_passkey : passkeys_evolve (ad_passkey d) (ad_passkey d');
  ev_access : accesses_evolve (mt_access (ad_committee d)) (mt_access (ad_committee d'));
}.

(** An access stays active. *)
Lemma active_access_evolves d d' i j :
  accesses_evolve (mt_access (ad_committee d)) (mt_access (ad_committee d')) ->
  active_access d i j -> active_access d' i j.
Proof.
  intros He (r & Hr & Hi & Hs). destruct (He j r Hr) as (r' & Hr' & [->|[Ho _]]); [by exists r|done].
Qed.

Lemma rows_evolve_impl {R} (rel rel' : relation R) m m' :
  (forall r r', rel r r' -> rel' r r') -> rows_evolve rel m m' -> rows_evolve rel' m m'.
Proof. intros Himpl He i r Hi. destruct (He i r Hi) as (r' & ? & ?). eauto. Qed.

#[export] Instance evolves_preorder : PreOrder evolves.
Proof.
  split.
  - intros d. split; apply rows_evolve_preorder; tc_solve.
  - intros d1 d2 d3 [] []. split; [|eapply rows_evolve_preorder; [tc_solve|eassumption..]..].
    eapply rows_evolve_preorder; [tc_solve| |].
    + eapply rows_evolve_impl; [|exact ev_account0]. intros a a' [->|[Ho Hs]]; [by left|]. right. split; [|done].
      destruct Ho as [Ho|(Ht & j & Hj & Hn)]; [by left|]. right. split; [done|]. exists j.
      split; [by eapply active_access_evolves|done].
    + eapply rows_evolve_impl; [|exact ev_account1]. intros a a' [->|[Ho Hs]]; [by left|]. right. split; [|done].
      destruct Ho as [Ho|(Ht & j & Hj & Hn)]; [by left|]. right. split; [done|]. exists j.
      split; [done|]. contradict Hn. by eapply active_access_evolves.
Qed.

(** ** Well-formed tables *)

Definition session_domains (d : AuthDb) : Prop :=
  forall i s, ad_session d !! i = Some s -> domain_match d (as_account_id s) (as_trust_domain s) = true.

Definition account_good (a : AuthAccountRow) : Prop := account_checks a = true /\ aa_external_reference a <> "".

Record auth_ok (d : AuthDb) : Prop := {
  ok_account : table aa_id aa_external_reference account_good (ad_account d);
  ok_session : table as_row_id as_token_digest (fun s => session_checks s = true) (ad_session d);
  ok_domains : session_domains d;
  ok_challenge : table ac_id ac_secret_digest (fun c => challenge_checks c = true) (ad_challenge d);
  ok_bucket : forall key b, ad_bucket d !! key = Some b -> 0 < rl_attempt_count b;
  ok_contact : table ct_id ct_lookup_digest (fun _ => True) (ad_contact d);
  ok_passkey : table pr_id pr_credential_reference (fun k => 0 <= pr_sign_count k) (ad_passkey d);
  ok_access : table ca_id ca_id (fun a => access_checks a = true) (mt_access (ad_committee d));
}.

(** A step from a well-formed state leads to a well-formed one, by allowed
    changes of the rows. *)
Definition sound_step : relation AuthDb := fun d d' => auth_ok d -> auth_ok d' /\ evolves d d'.

#[export] Instance sound_step_preorder : PreOrder sound_step.
Proof.
  split.
  - intros d Hd. split; [done|reflexivity].
  - intros d1 d2 d3 H12 H23 H1. destruct (H12 H1) as [H2 E12]. destruct (H23 H2) as [H3 E23].
    split; [done|by etransitivity].
Qed.

Lemma sound_step_tables d d' :
  (ad_account d', ad_session d', ad_challenge d', ad_bucket d', ad_contact d', ad_passkey d', ad_committee d')
  = (ad_account d, ad_session d, ad_challenge d, ad_bucket d, ad_contact d, ad_passkey d, ad_committee d)
  -> sound_step d d'.
Proof.
  destruct d, d'; simpl. intros [= -> -> -> -> -> -> ->] [Ha Hs Hd Hc Hb Ho Hp].
  split; [by split|]. split; apply rows_evolve_preorder; tc_solve.
Qed.

Lemma sound_rollback before after : sound_step before (rollback before after).
Proof. by apply sound_step_tables. Qed.

(** ** Statements *)

Ltac unchanged := apply rows_evolve_preorder; tc_solve.

Lemma domain_match_evolves also d d' i t :
  accounts_evolve also (ad_account d) (ad_account d') -> domain_match d i t = true -> domain_match d' i t = true.
Proof.
  unfold domain_match. intros He. destruct (ad_account d !! i) as [a|] eqn:Hi; [|done].
  destruct (He i a Hi) as (a' & -> & [->|(_ & Hid & _)]); [done|].
  injection Hid as _ _ -> _ _. done.
Qed.

(** An insertion that no unique index refuses. *)
Lemma insert_accepted {R} key column good (p : R -> bool) (m : gmap string R) r :
  negb (is_null (m !! key r)) || some (rows m) p = false ->
  (forall b, column b = column r -> p b = true) -> table key column good m -> good r ->
  m !! key r = None /\ table key column good (<[key r := r]> m).
Proof.
  intros [Hi Hs]%orb_false_iff Hp Hm Hr. assert (Hnew : m !! key r = None) by by destruct (m !! key r).
  split; [done|]. apply table_insert; auto. intros b Hb Heq%Hp.
  assert (some (rows m) p = true) by (apply some_true; eauto). congruence.
Qed.

(** A program that reads the state and goes on from it. *)
Lemma follows_gets {St E A B} (R : relation St) (f : St -> B) (k : B -> prog St E A) s :
  R s (snd (k (f s) s)) -> R s (snd (bindP (gets f) k s)).
Proof. done. Qed.

Lemma follows_guard {St E A} (R : relation St) `{!PreOrder R} (c : bool) (e : E) (k : unit -> prog St E A) s :
  (c = false -> R s (snd (k tt s))) -> R s (snd (bindP (throwWhen c e) k s)).
Proof. intros Hk. destruct c; simpl; [reflexivity|auto]. Qed.

Lemma follows_lift {St E A B} (R : relation St) `{!PreOrder R} (r : result E A) (k : A -> prog St E B) s :
  (forall a, r = Ok a -> R s (snd (k a s))) -> R s (snd (bindP (lift r) k s)).
Proof. intros Hk. destruct r; unfold bindP, lift; simpl; [auto|reflexivity]. Qed.

Ltac guards :=
  repeat first [apply follows_gets | apply follows_guard; [tc_solve|intros ?]
               | apply follows_lift; [tc_solve|intros ? ?]].

Lemma insertAccount_sound a : aa_external_reference a <> "" -> follows sound_step (insertAccount a).
Proof.
  intros Href d. unfold insertAccount. guards. intros Hd. simpl. apply negb_false_iff in H.
  destruct (insert_accepted _ _ _ _ _ _ H0 ltac:(intros b Hb; simpl; by rewrite Hb, String.eqb_refl)
              (ok_account d Hd) (conj H Href)) as [Hnew Htable].
  assert (He : forall also, accounts_evolve also (ad_account d) (<[aa_id a:=a]> (ad_account d))).
  { intros also. by apply evolve_insert; [tc_solve|]. }
  destruct Hd. split; [split; try done|].
  - intros i s Hs. eapply domain_match_evolves; [exact (He (fun _ => False))|]. eauto.
  - split; try unchanged. done.
Qed.

(** An update of accounts after other steps from [d0]: it may touch the
    accounts activated since. *)
Lemma updateAccounts_from d0 p f d :
  evolves d0 d -> auth_ok d ->
  (forall i a, ad_account d !! i = Some a -> p a = true ->
     (account_open a \/ activated d0 d a) /\ account_step a (f a)) ->
  auth_ok (snd (updateAccounts p f d)) /\ evolves d0 (snd (updateAccounts p f d)).
Proof.
  intros He0 Hok Hf. revert Hok.
  pattern d at 2 3. unfold updateAccounts.
  apply (follows_gets (fun d d' => auth_ok d -> auth_ok d' /\ evolves d0 d')).
  destruct (some _ _); [done|]. unfold bindP at 1. simpl. unfold bindP at 1, lift.
  destruct (update_rows _ _ _ _) as [[n m]|] eqn:Hu; [|done]. simpl.
  assert (He : accounts_evolve (activated d0 d) (ad_account d) m).
  { apply update_rows_ok in Hu as (_ & -> & _). apply evolve_update; [tc_solve|].
    intros i a Hi Hp. right. destruct (Hf i a Hi Hp). eauto. }
  intros []. split; [split; try done|].
  - eapply table_update; eauto. intros i a Hi Hp. destruct (Hf i a Hi Hp) as (_ & Hid & _).
    unfold account_good. injection Hid as -> -> _ _ _. tauto.
  - intros i s Hs. eapply domain_match_evolves; [exact He|]. eauto.
  - destruct He0. split; try done. eapply rows_evolve_preorder; [tc_solve|exact ev_account0|exact He].
Qed.

Lemma updateAccounts_sound p f d :
  (forall i a, ad_account d !! i = Some a -> p a = true -> account_open a /\ account_step a (f a)) ->
  sound_step d (snd (updateAccounts p f d)).
Proof.
  intros Hf Hok. apply updateAccounts_from; [reflexivity|done|]. intros i a Hi Hp. destruct (Hf i a Hi Hp). auto.
Qed.

Lemma insertSession_sound s : follows sound_step (insertSession s).
Proof.
  intros d. unfold insertSession. guards. intros Hd. simpl.
  apply negb_false_iff in H, H0.
  destruct (insert_accepted _ _ _ _ _ _ H1 ltac:(intros b Hb; simpl; by rewrite Hb, String.eqb_refl)
              (ok_session d Hd) H0) as [Hnew Htable].
  destruct Hd. split; [split; try done|].
  - intros i x Hx. simpl in Hx. apply lookup_insert_Some in Hx as [[_ <-]|[_ Hx]]; [done|]. eapply ok_domains0, Hx.
  - split; try unchanged. by apply evolve_insert; [tc_solve|].
Qed.

Lemma updateSessions_sound p f :
  (forall s, p s = true -> session_open s /\ session_step s (f s)) -> follows sound_step (updateSessions p f).
Proof.
  intros Hf d. unfold updateSessions. guards. destruct a as [n m]. intros Hd. simpl. destruct Hd.
  split; [split; try done|].
  - eapply table_update; eauto. intros i s Hi Hp. destruct (Hf s Hp) as (_ & Hid).
    injection Hid as -> _ _ _ -> _ _ _ _ _. done.
  - apply update_rows_ok in H as (_ & -> & _).
    intros i s' (s & Hi & ->)%update_lookup. specialize (ok_domains0 i s Hi). destruct (p s) eqn:Hp; [|done].
    destruct (Hf s Hp) as (_ & Hid). injection Hid as _ -> -> _ _ _ _ _ _ _. done.
  - split; try unchanged. apply update_rows_ok in H as (_ & -> & _).
    apply evolve_update; [tc_solve|]. intros i s Hi Hp. right. eauto.
Qed.

Lemma insertChallenge_sound c : follows sound_step (insertChallenge c).
Proof.
  intros d. unfold insertChallenge. guards. intros Hd. simpl.
  apply negb_false_iff in H0.
  destruct (insert_accepted _ _ _ _ _ _ H1 ltac:(intros b Hb; simpl; by rewrite Hb, String.eqb_refl)
              (ok_challenge d Hd) H0) as [Hnew Htable].
  destruct Hd. split; [split; try done|].
  - split; try unchanged. by apply evolve_insert; [tc_solve|].
Qed.

Lemma insertContact_sound c : follows sound_step (insertContact c).
Proof.
  intros d. unfold insertContact. guards. intros Hd. simpl.

  destruct (insert_accepted _ _ _ _ _ _ H0 ltac:(intros b Hb; simpl; by rewrite Hb, String.eqb_refl)
              (ok_contact d Hd) I) as [Hnew Htable].
  destruct Hd. split; [split; try done|].
  - split; try unchanged. by apply evolve_insert; [tc_solve|].
Qed.

Lemma insertPasskey_sound k : follows sound_step (insertPasskey k).
Proof.
  intros d. unfold insertPasskey. guards. intros Hd. simpl.
  apply negb_false_iff, Z.leb_le in H0.
  destruct (insert_accepted _ _ _ _ _ _ H1 ltac:(intros b Hb; simpl; by rewrite Hb, String.eqb_refl)
              (ok_passkey d Hd) H0) as [Hnew Htable].
  destruct Hd. split; [split; try done|].
  - split; try unchanged. by apply evolve_insert; [tc_solve|].
Qed.

Lemma updatePasskeys_sound p f :
  (forall k, p k = true -> passkey_open k /\ passkey_step k (f k)) -> follows sound_step (updatePasskeys p f).
Proof.
  intros Hf d. unfold updatePasskeys. guards. destruct a as [n m]. intros Hd. simpl. destruct Hd.
  split; [split; try done|].
  - eapply table_update; eauto. intros i k Hi Hp. destruct (Hf k Hp) as (_ & Hid & Hle).
    injection Hid as -> _ -> _ _. split_and!; [done..|]. intros Hk _. lia.
  - split; try unchanged. apply update_rows_ok in H as (_ & -> & _).
    apply evolve_update; [tc_solve|]. intros i k Hi Hp. right. eauto.
Qed.

Lemma updateAccounts_ok p f d n d' :
  updateAccounts p f d = (Ok n, d') -> d' = with_account (fun m => (fun a => if p a then f a else a) <$> m) d.
Proof.
  unfold updateAccounts. intros Hu. apply bindP_ok in Hu as (d0 & d1 & [= <- <-] & Hu).
  apply bindP_ok in Hu as (? & d1 & [= _ <-] & Hu).
  apply bindP_ok in Hu as ([k m] & d1 & [= Hu' <-] & Hu). inv_ok.
  by apply update_rows_ok in Hu' as (-> & -> & _).
Qed.

Lemma insertAccess_sound a : follows sound_step (insertAccess a).
Proof.
  intros d. unfold insertAccess. guards. intros Hd. simpl. apply negb_false_iff in H0.
  pose proof H1 as [Hnew _]%orb_false_iff. assert (Hn : mt_access (ad_committee d) !! ca_id a = None).
  { by destruct (mt_access _ !! _). }
  destruct Hd. split; [split; try done|].
  - simpl. apply table_insert; [done..|]. intros b [i Hi]%rows_in Hb.
    rewrite (table_keys _ _ _ _ ok_access0 i b Hi) in Hb. congruence.
  - split; try unchanged. by apply evolve_insert; [tc_solve|].
Qed.

Lemma updateAccess_sound p f :
  (forall a, p a = true -> access_open a /\ access_step a (f a)) -> follows sound_step (updateAccess p f).
Proof.
  intros Hf d. unfold updateAccess. guards. destruct a as [n m]. intros Hd. simpl. destruct Hd.
  split; [split; try done|].
  - eapply table_update; eauto. intros i a Hi Hp. destruct (Hf a Hp) as (_ & Hid). by injection Hid as ->.
  - split; try unchanged. apply update_rows_ok in H0 as (_ & -> & _).
    apply evolve_update; [tc_solve|]. intros i a Hi Hp. right. eauto.
Qed.

Lemma insertAssignment_sound i a : follows sound_step (insertAssignment i a).
Proof.
  intros d. unfold insertAssignment. guards. intros []. simpl. split; [by split|]. split; unchanged.
Qed.

Lemma sound_ok {A} (c : AM A) d r d' : follows sound_step c -> auth_ok d -> c d = (r, d') -> auth_ok d'.
Proof. intros Hf Hok Hrun. exact (proj1 (follows_run _ _ _ _ _ Hf Hrun Hok)). Qed.

(** ** Operations *)

Section operations.
Context `{Platform}.

Lemma on_base_sound {A} (c : M A) : follows sound_step (on_base c).
Proof. intros d. unfold on_base. destruct (c (ad_base d)). by apply sound_step_tables. Qed.

Lemma statement_sound {A} e (work : AM A) : follows sound_step work -> follows sound_step (statement e work).
Proof. apply follows_statement; [tc_solve|apply sound_rollback]. Qed.

Lemma transaction_sound {A} env (work : AM A) :
  follows sound_step work -> follows sound_step (inSerializableTransaction env work).
Proof. apply follows_transaction; [tc_solve|apply sound_rollback]. Qed.

Lemma fresh_sound : follows sound_step fresh.
Proof. apply on_base_sound. Qed.

Lemma audit_account_sound context command reference next :
  follows sound_step (audit_account context command reference next).
Proof. apply on_base_sound. Qed.

#[local] Hint Resolve fresh_sound audit_account_sound on_base_sound statement_sound transaction_sound
  insertSession_sound insertChallenge_sound insertContact_sound insertPasskey_sound insertAccess_sound
  insertAssignment_sound : follows.

(** The account the private [account] finds. *)
Lemma account_found reference t d a d' :
  account reference t d = (Ok a, d') ->
  d' = d /\ exists i, ad_account d !! i = Some a /\ has_reference reference t a = true.
Proof.
  unfold account. intros Ha. inv_ok. destruct (select_one _ _) as [b|] eqn:Hs; inv_ok.
  split; [done|]. by apply select_one_some.
Qed.

Lemma account_reads reference t s : snd (account reference t s) = s.
Proof. unfold account, bindP, gets. destruct (select_one _ _); done. Qed.

Lemma account_sound reference t : follows sound_step (account reference t).
Proof. apply follows_pure; [tc_solve|]. intros. apply account_reads. Qed.

Lemma optional_participant_sound o : follows sound_step (optional_participant o).
Proof. unfold optional_participant, participantId. follows_steps. Qed.

#[local] Hint Resolve account_sound optional_participant_sound : follows.

Lemma createAccount_sound env reference t participant state now :
  follows sound_step (createAccount env reference t participant state now).
Proof.
  intros d. unfold createAccount, createAccount_tx. apply follows_lift; [tc_solve|]. intros [] Href.
  apply transaction_sound, follows_bind; [tc_solve|auto with follows|intros p].
  apply follows_bind; [tc_solve|auto with follows|intros i].
  apply insertAccount_sound. simpl. intros ->. done.
Qed.

Lemma registerVerifiedEmail_sound env reference participant destination lookup at_ :
  follows sound_step (registerVerifiedEmail env reference participant destination lookup at_).
Proof.
  unfold registerVerifiedEmail, registerVerifiedEmail_tx. follows_steps. apply transaction_sound. follows_steps.
Qed.

Lemma createSession_sound sessionKeyVersions env r : follows sound_step (createSession sessionKeyVersions env r).
Proof. unfold createSession, createSession_tx. apply transaction_sound. follows_steps. Qed.

Lemma createChallenge_sound env r : follows sound_step (createChallenge env r).
Proof. unfold createChallenge, createChallenge_tx. apply transaction_sound. follows_steps. Qed.

Lemma save_sound env c at_ : follows sound_step (repository_save env c at_).
Proof. unfold repository_save, save_tx. apply transaction_sound. follows_steps. Qed.

(** Every update of sessions is of active ones and keeps their identity. *)
Lemma session_active_open s : session_active s = true -> session_open s.
Proof. apply bool_decide_eq_true. Qed.

Lemma revoke_sessions_sound p reason at_ :
  (forall s, p s = true -> session_active s = true) -> follows sound_step (updateSessions p (session_revoked at_ reason)).
Proof. intros Hp. apply updateSessions_sound. intros s Hs. split; [by apply session_active_open, Hp|done]. Qed.

Lemma revoke_sound env session reason at_ : follows sound_step (revoke env session reason at_).
Proof.
  apply statement_sound. apply follows_bind; [tc_solve| |auto with follows].
  apply revoke_sessions_sound. intros s [_ ?]%andb_true_iff. done.
Qed.

Lemma revokeAll_sound env reference t reason at_ : follows sound_step (revokeAll env reference t reason at_).
Proof.
  apply statement_sound. apply follows_bind; [tc_solve|auto with follows|intros d].
  apply revoke_sessions_sound. intros s [_ ?]%andb_true_iff. done.
Qed.

Lemma touch_sound env session idle at_ : follows sound_step (touch env session idle at_).
Proof.
  apply statement_sound. apply follows_bind; [tc_solve|auto with follows|intros i].
  apply follows_bind; [tc_solve| |auto with follows]. apply updateSessions_sound. intros s [_ ?]%andb_true_iff.
  split; [by apply session_active_open|done].
Qed.

Lemma account_sessions_sound i reason at_ :
  follows sound_step (updateSessions (account_sessions i) (session_revoked at_ reason)).
Proof. apply revoke_sessions_sound. intros s [_ ?]%andb_true_iff. done. Qed.

#[local] Hint Resolve account_sessions_sound : follows.

Lemma consume_sound env challenge secret k t at_ : follows sound_step (consume env challenge secret k t at_).
Proof.
  apply statement_sound. intros d. guards. destruct a as [n m]. intros Hd. simpl. destruct Hd.
  split; [split; try done|].
  - eapply table_update; eauto.
  - split; try unchanged. apply update_rows_ok in H0 as (_ & -> & _). apply evolve_update; [tc_solve|].
    intros i c Hi Hp. right. unfold consumable in Hp. rewrite !andb_true_iff, !bool_decide_eq_true in Hp.
    split; [unfold challenge_open; tauto|done].
Qed.

Lemma increment_sound env key bucket from until :
  follows sound_step (repository_increment env key bucket from until).
Proof.
  apply statement_sound. intros d. guards. unfold id. destruct (ad_bucket d !! key) as [row|] eqn:Hrow.
  - apply follows_lift; [tc_solve|]. intros c Hc. unfold int4 in Hc. inv_ok.
    intros []. split.
    { split; try done. simpl. intros i b Hi. apply lookup_insert_Some in Hi as [[_ <-]|[_ Hi]]; [|eauto].
      specialize (ok_bucket0 _ _ Hrow). simpl. lia. }
    split; try unchanged. intros i r Hi. simpl. destruct (decide (key = i)) as [->|Hne].
    + rewrite lookup_insert_eq. eexists. split; [done|]. right. split; [done|].
      assert (r = row) as -> by congruence. split; simpl; [done|lia].
    + rewrite lookup_insert_ne by done. exists r. split; [done|reflexivity].
  - intros []. split; [split; try done|].
    + simpl. intros i b Hi. apply lookup_insert_Some in Hi as [[_ <-]|[_ Hi]]; [done|eauto].
    + split; try unchanged. by apply evolve_insert; [tc_solve|].
Qed.

Lemma updateSessions_accounts p f : keeps ad_account (updateSessions p f).
Proof. unfold updateSessions. keeps_steps. Qed.

(** The common shape of recovery and locking: an open account ends its
    sessions and is updated, under its own id, then audited. *)
Lemma end_account_sound {A} reference t e f reason at_ (k : Z -> AM A) a d :
  account reference t d = (Ok a, d) -> account_open a -> (forall b, account_step b (f b)) ->
  (forall n, follows sound_step (k n)) ->
  sound_step d (snd ((throwif* false as! e in
    let* revoked := updateSessions (account_sessions (aa_id a)) (session_revoked at_ reason) in
    run* updateAccounts (by_id (aa_id a)) f in k revoked) d)).
Proof.
  intros (_ & i & Hi & _)%account_found Ho Hf Hk. apply follows_guard; [tc_solve|intros _].
  apply follows_bind_at; [tc_solve|apply account_sessions_sound|]. intros n d1 Hu.
  assert (Hsame : ad_account d1 = ad_account d) by (eapply keeps_run; [apply updateSessions_accounts|exact Hu]).
  apply follows_bind_at; [tc_solve| |intros; apply Hk].
  intros Hok. apply updateAccounts_sound; [|exact Hok].
  intros j b Hj Hp%String.eqb_eq. assert (b = a) as ->; [|done].
  rewrite <- Hsame in Hi. destruct (ok_account d1 Hok) as [Hkeys _ _].
  pose proof (Hkeys i a Hi). pose proof (Hkeys j b Hj). congruence.
Qed.

Lemma recover_sound env input : follows sound_step (repository_recover env input).
Proof.
  apply transaction_sound. intros d. unfold recoverAndRevokeSessions_tx.
  apply follows_bind_at; [tc_solve|apply account_sound|]. intros a d' Ha.
  pose proof (proj1 (account_found _ _ _ _ _ Ha)) as ->.
  destruct (negb _ && negb _) eqn:Hstate; [reflexivity|].
  eapply end_account_sound; [exact Ha| |split; simpl; [done|lia]|intros; follows_steps].
  apply andb_false_iff in Hstate. rewrite !negb_false_iff, !bool_decide_eq_true in Hstate. exact Hstate.
Qed.

Lemma lock_sound env reference t reason c at_ : follows sound_step (repository_lock env reference t reason c at_).
Proof.
  apply transaction_sound. intros d. unfold lockAndRevokeSessions_tx, appendSecurityAudit.
  apply follows_bind_at; [tc_solve|apply account_sound|]. intros a d' Ha.
  pose proof (proj1 (account_found _ _ _ _ _ Ha)) as ->.
  destruct (negb _) eqn:Hstate; [reflexivity|].
  eapply end_account_sound; [exact Ha| |split; simpl; [done|lia]|intros; follows_steps].
  left. by apply negb_false_iff, bool_decide_eq_true in Hstate.
Qed.

Lemma disable_contacts_sound i at_ : follows (E := exn) sound_step
  (modify (with_contact (fun m => (fun c => if email_of i c then contact_disabled at_ c else c) <$> m))).
Proof.
  intros d [] . simpl. split; [split; try done|].
  - simpl. destruct ok_contact0 as [Hk Hu _]. split; [| |done].
    + intros j c' (c & Hc & ->)%update_lookup. rewrite <- (Hk j c Hc). by destruct (email_of i c).
    + intros j l x' y' (x & Hx & ->)%update_lookup (y & Hy & ->)%update_lookup He. apply (Hu j l x y Hx Hy).
      by destruct (email_of i x), (email_of i y).
  - split; try unchanged. apply evolve_update; [tc_solve|]. intros j c Hj Hp. right.
    unfold email_of in Hp. rewrite !andb_true_iff in Hp. destruct Hp as [_ Hp].
    split; [|done]. unfold contact_open. by destruct (ct_disabled_at c).
Qed.
#[local] Hint Resolve disable_contacts_sound : follows.

Lemma changeVerifiedEmail_sound env reference t destination lookup c at_ :
  follows sound_step (repository_changeVerifiedEmail env reference t destination lookup c at_).
Proof.
  unfold repository_changeVerifiedEmail, changeVerifiedEmail_tx, appendSecurityAudit.
  apply follows_bind; [tc_solve|auto with follows|intros _]. apply transaction_sound. follows_steps.
Qed.

Lemma passkey_active_open k : passkey_active k = true -> passkey_open k.
Proof. apply bool_decide_eq_true. Qed.

Lemma updateUsage_sound env u : follows sound_step (repository_updateUsage env u).
Proof.
  apply follows_bind; [tc_solve| |auto with follows]. apply statement_sound, updatePasskeys_sound.
  intros k [[_ Ho%passkey_active_open]%andb_true_iff Hle%Z.leb_le]%andb_true_iff. split; [done|].
  split; [done|exact Hle].
Qed.

Lemma revokePasskey_sound env credential reference at_ :
  follows sound_step (revokePasskey env credential reference at_).
Proof.
  apply follows_bind; [tc_solve| |auto with follows].
  apply statement_sound, follows_bind; [tc_solve|auto with follows|intros d].
  apply updatePasskeys_sound. intros k [_ Ho%passkey_active_open]%andb_true_iff.
  split; [done|]. split; simpl; [done|lia].
Qed.

(** *** Committee onboarding *)

Lemma invite_sound env reference committee by_ at_ : follows sound_step (inviteCommittee env reference committee by_ at_).
Proof. unfold inviteCommittee, inviteCommittee_tx, AuthRepository.committee. apply transaction_sound. follows_steps. Qed.

Lemma approve_sound env reference committee by_ at_ :
  follows sound_step (approveCommittee env reference committee by_ at_).
Proof.
  apply follows_bind; [tc_solve| |auto with follows].
  apply statement_sound, follows_bind; [tc_solve|auto with follows|intros d].
  apply updateAccess_sound. intros a [_ Hs%bool_decide_eq_true]%andb_true_iff.
  split; [|done]. unfold access_open. by rewrite Hs.
Qed.

Lemma assign_sound env committee session member policy by_ at_ :
  follows sound_step (assignReviewer env committee session member policy by_ at_).
Proof.
  apply follows_bind; [tc_solve|auto with follows|intros i].
  apply follows_bind; [tc_solve| |auto with follows]. apply statement_sound. follows_steps.
Qed.

Lemma updateAccess_ok p f d n d' :
  updateAccess p f d = (Ok n, d') ->
  n = Z.of_nat (length (List.filter p (rows (mt_access (ad_committee d))))) /\
  d' = with_committee_tables (with_access (fun m => (fun a => if p a then f a else a) <$> m)) d.
Proof.
  unfold updateAccess. intros Hu. apply bindP_ok in Hu as (d0 & d1 & [= <- <-] & Hu).
  apply bindP_ok in Hu as (? & d1 & [= _ <-] & Hu).
  apply bindP_ok in Hu as ([k m] & d1 & [= Hu' <-] & Hu). inv_ok.
  by apply update_rows_ok in Hu' as (-> & -> & _).
Qed.

Lemma activatable_facts d reference committee m a :
  activatable d reference committee m a = true ->
  ca_state a = cas_approved /\
  exists acc, ad_account d !! ca_account_id a = Some acc /\ aa_external_reference acc = reference.
Proof.
  unfold activatable, access_of. destruct m as [[]|]; [|done].
  destruct (ad_account d !! ca_account_id a) as [acc|]; [|done].
  rewrite !andb_true_iff, bool_decide_eq_true, !String.eqb_eq. naive_solver.
Qed.

(** One selected row is one row of the table. *)
Lemma one_selected {R} (p : R -> bool) (m : gmap string R) :
  length (List.filter p (rows m)) = 1%nat -> exists j r, m !! j = Some r /\ p r = true.
Proof.
  intros Hl. destruct (List.filter p (rows m)) as [|r l] eqn:Hf; [done|].
  assert (Hin : In r (List.filter p (rows m))) by (rewrite Hf; by left).
  apply filter_In in Hin as [[j Hj]%list_elem_of_In%rows_in Hp]. eauto.
Qed.

(** The account whose approved access is updated has been activated. *)
Lemma activated_now d p f j r acc i a :
  auth_ok d -> mt_access (ad_committee d) !! j = Some r -> p r = true -> ca_state r = cas_approved ->
  ca_account_id (f r) = ca_account_id r -> ca_state (f r) = cas_active ->
  ad_account d !! ca_account_id r = Some acc -> ad_account d !! i = Some a ->
  aa_external_reference acc = aa_external_reference a -> aa_trust_domain a = td_committee ->
  activated d (with_committee_tables (with_access (fun m => (fun a => if p a then f a else a) <$> m)) d) a.
Proof.
  intros [[Hk Hu _] _ _ _ _ _ _ _] Hj Hp Hs Hacc' Hact Hacc Hi Href Ht. split; [done|].
  assert (i = ca_account_id r) as -> by by eapply Hu. rewrite (Hk _ _ Hi). exists j. split.
  - exists (f r). split; [|done]. simpl. apply update_lookup. exists r. by rewrite Hp.
  - intros (r0 & Hr0 & _ & Hs0). congruence.
Qed.

(** The two updates of the activation together: the account that changes is
    the one whose access became active. *)
Lemma activateCommittee_sound env reference committee member at_ :
  follows sound_step (activateCommittee env reference committee member at_).
Proof.
  apply transaction_sound. intros d. unfold activateCommittee_tx. guards. unfold id.
  set (m := joined_member d member). set (p := activatable d reference committee m).
  set (f := access_activated _ _).
  assert (Hf : follows sound_step (updateAccess p f)).
  { apply updateAccess_sound. intros a [Hs _]%activatable_facts. split; [|done]. unfold access_open. by rewrite Hs. }
  unfold bindP at 1. destruct (updateAccess p f d) as [[n|e] d1] eqn:Hu; [|exact (follows_run _ _ _ _ _ Hf Hu)].
  intros Hok. destruct (follows_run _ _ _ _ _ Hf Hu Hok) as [Hok1 He1]. apply updateAccess_ok in Hu as [-> Hd1].
  match goal with |- auth_ok ?x /\ _ => pattern x end. unfold bindP at 1, throwWhen, lift. destruct (Z.eqb_spec (Z.of_nat (length (List.filter p
    (rows (mt_access (ad_committee d)))))) 1) as [Hone|]; [|done]. simpl.
  destruct (one_selected p _ (Nat2Z.inj _ 1 Hone)) as (j & r & Hj & Hp).
  destruct (activatable_facts _ _ _ _ _ Hp) as (Hs & acc & Hacc & Href).
  match goal with |- auth_ok ?x /\ _ => pattern x end. unfold bindP at 1.
  pose proof (updateAccounts_from d (has_reference reference (Some td_committee))
    (account_activated at_) d1 He1 Hok1) as Hfrom.
  destruct (updateAccounts _ _ d1) as [[n|e] d2]; apply Hfrom; clear Hfrom; subst d1; simpl;
    intros i a Hi [Ha%String.eqb_eq Ht%bool_decide_eq_true]%andb_true_iff;
    (split; [right; eapply activated_now; eauto; congruence|split; simpl; [done|lia]]).
Qed.

Context (sessionKeyVersions : TrustDomain -> string).

Lemma run_op_sound env o d : sound_step d (run_op sessionKeyVersions env o d).
Proof.
  destruct o; simpl;
    [apply createAccount_sound | apply registerVerifiedEmail_sound | apply createSession_sound
    | apply revoke_sound | apply revokeAll_sound | apply touch_sound | apply createChallenge_sound
    | apply consume_sound | apply increment_sound | apply recover_sound | apply lock_sound
    | apply changeVerifiedEmail_sound | apply save_sound | apply updateUsage_sound
    | apply revokePasskey_sound | apply invite_sound | apply approve_sound | apply activateCommittee_sound
    | apply assign_sound].
Qed.

Lemma run_ops_sound ops d : sound_step d (run_ops sessionKeyVersions ops d).
Proof.
  revert d. induction ops as [|[o env] ops IH]; intros d; simpl; [reflexivity|].
  etransitivity; [apply run_op_sound|apply IH].
Qed.

(** What is true after any history. *)
Lemma run_ops_evolve ops d :
  auth_ok d -> auth_ok (run_ops sessionKeyVersions ops d) /\ evolves d (run_ops sessionKeyVersions ops d).
Proof. apply run_ops_sound. Qed.
End operations.
