(* ===== verification/AuthFacts.v ===== *)
(** * AuthFacts: sessions and challenges in every history.

    The services of Auth.v and Passkey.v on the repository: which sessions
    authenticate and for how long, that an ended session never authenticates
    again, that a challenge is used at most once, and what locking, recovery
    and a change of e-mail do to the sessions of an account.  Histories are
    sequences of the repository's operations under any faults. *)
From S2P Require Import Prelude Errors Text Json JsonParse Database AuthDatabase Authorization Consent Auth.
From S2P Require Import Passkey AuthRepository AuthSystem AuthInvariant.
Local Open Scope Z_scope.

(** C31: every operation of the authentication repository, in any order and
    under any faults, keeps the tables well-formed (keys, unique digests and
    references, CHECK constraints, a session in its account's domain) and
    changes rows only as allowed: no row is lost, identities are fixed, ended
    sessions, used challenges, disabled contacts and revoked passkeys stay
    as they are, and versions and counters only grow. *)
Theorem auth_tables_sound `{Platform} sessionKeyVersions ops d :
  auth_ok d -> auth_ok (run_ops sessionKeyVersions ops d) /\ evolves d (run_ops sessionKeyVersions ops d).
Proof. apply run_ops_sound. Qed.

Section sessions.
Context `{Platform} `{AuthCrypto} (sessionKeyVersions : TrustDomain -> string).
Context (faults : nat -> nat -> TxAttempt) (token : nat -> string).

#[local] Existing Instance world_random.
#[local] Existing Instance world_sessions.
#[local] Abbreviation sessions := (world_sessions sessionKeyVersions faults).
#[local] Abbreviation authenticate configs := (@authenticate AuthWorld sessions _ configs).
#[local] Abbreviation run_ops := (run_ops sessionKeyVersions).

(** ** Calls and statements *)

Lemma statement_ok {A} e (work : AM A) d a d' : statement e work d = (Ok a, d') -> work d = (Ok a, d').
Proof. unfold statement. destruct (connectFails e); [done|]. apply tx_once_ok. Qed.

Lemma call_ok {A} (op : (nat -> TxAttempt) -> AM A) w a w' :
  call faults op w = (Ok a, w') ->
  op (faults (aw_calls w)) (aw_db w) = (Ok a, aw_db w') /\ aw_calls w' = S (aw_calls w)
  /\ aw_tokens w' = aw_tokens w.
Proof. unfold call. destruct (op _ _) as [r d] eqn:Hop. by intros [= -> <-]. Qed.

(** ** Sessions *)

Lemma session_found env t digest d r d' :
  findByTokenDigest env t digest d = (Ok (Some r), d') ->
  d' = d /\ exists i s a, ad_session d !! i = Some s /\ ad_account d !! as_account_id s = Some a
    /\ as_trust_domain s = t /\ as_token_digest s = digest /\ aa_state a = as_active
    /\ r = mapSession (aa_external_reference a) s.
Proof.
  intros Hf%statement_ok. unfold gets in Hf. injection Hf as Hf <-. split; [done|].
  apply bind_Some in Hf as (s & (i & Hi & Hp)%select_one_some & Hj).
  unfold session_lookup in Hp. rewrite !andb_true_iff, bool_decide_eq_true, String.eqb_eq in Hp.
  destruct Hp as [[Ht Hd] Ha]. destruct (ad_account d !! as_account_id s) as [a|] eqn:Hacc; [|done].
  unfold joined_session in Hj. rewrite Hacc in Hj. injection Hj as <-.
  apply bool_decide_eq_true in Ha. naive_solver.
Qed.

Lemma updateSessions_ok p f d n d' :
  updateSessions p f d = (Ok n, d') ->
  n = Z.of_nat (length (List.filter p (rows (ad_session d))))
  /\ d' = with_session (fun m => (fun s => if p s then f s else s) <$> m) d
  /\ forall i s, ad_session d !! i = Some s -> p s = true -> session_checks (f s) = true.
Proof.
  unfold updateSessions. intros Hu. apply bindP_ok in Hu as (d0 & d1 & [= <- <-] & Hu).
  apply bindP_ok in Hu as ([k m] & d1 & [= Hu' <-] & Hu). inv_ok.
  apply update_rows_ok in Hu' as (-> & -> & Hc). done.
Qed.

(** The row that [touch] leaves. *)
Lemma touch_effect env session idle at_ d d' i s :
  touch env session idle at_ d = (Ok tt, d') -> auth_ok d -> ad_session d !! i = Some s ->
  as_row_id s = session -> as_state s = ss_active ->
  exists idle', idle = Some idle' /\ ad_session d' !! i = Some (session_touched idle' at_ s)
    /\ ad_account d' = ad_account d /\ session_checks (session_touched idle' at_ s) = true.
Proof.
  intros Ht%statement_ok Hok Hi Hid Hst. apply bindP_ok in Ht as (idle' & d1 & [= Hb <-] & Ht).
  apply bindP_ok in Ht as (n & d2 & (_ & -> & Hchecks)%updateSessions_ok & [= <-]).
  destruct idle as [idle0|]; [|done]. injection Hb as ->.
  assert (Hp : String.eqb (as_row_id s) session && session_active s = true).
  { rewrite Hid, String.eqb_refl. by apply bool_decide_eq_true. }
  exists idle'. split_and!; [done| |done|by apply (Hchecks i s)].
  apply update_lookup. exists s. by rewrite Hp.
Qed.

(** A successful authentication, taken apart. *)
Lemma authenticated configs t tok now w r w' :
  authenticate configs t tok now w = (Ok r, w') -> auth_ok (aw_db w) ->
  exists token i s a idle,
    tok = Some token /\ ad_session (aw_db w) !! i = Some s
    /\ ad_account (aw_db w) !! as_account_id s = Some a /\ aa_state a = as_active /\ aa_trust_domain a = t
    /\ as_state s = ss_active /\ as_trust_domain s = t
    /\ as_token_digest s = keyedDigest (tc_sessionSecret (configs t)) token
    /\ as_audience s = tc_audience (configs t)
    /\ now < as_idle_expires_at s /\ now < as_absolute_expires_at s
    /\ idle = Z.min (now + tc_idleTimeoutMs (configs t)) (as_absolute_expires_at s)
    /\ ad_session (aw_db w') !! i = Some (session_touched idle now s)
    /\ session_checks (session_touched idle now s) = true
    /\ r = with_idle (Some idle) (mapSession (aa_external_reference a) s).
Proof.
  unfold authenticate. intros Hrun Hok. destruct (nonempty tok) as [token'|] eqn:Htok; [|done].
  assert (tok = Some token') as ->.
  { destruct tok as [tk|]; [|done]. simpl in Htok. destruct (falsy_string tk); congruence. }
  apply bindP_ok in Hrun as (found & w1 & Hfind & Hrun).
  destruct found as [rec|]; [|done]. apply (call_ok (fun env => findByTokenDigest env _ _)) in Hfind as [Hfind _].
  apply session_found in Hfind as (Hd1 & i & s & a & Hi & Ha & Ht & Hdig & Hact & ->). simpl in Hrun.
  inv_ok. apply negb_false_iff, String.eqb_eq in H1. destruct (as_revoked_at s) as [|] eqn:Hrev; [done|].
  assert (Hs : session_checks s = true) by (eapply (ok_session _ Hok); eauto).
  assert (Hstate : as_state s = ss_active).
  { unfold session_checks in Hs. rewrite Hrev, !andb_true_iff in Hs. destruct Hs as [[_ Hs] _].
    by destruct (as_state s). }
  assert (Hdom : aa_trust_domain a = as_trust_domain s).
  { pose proof (ok_domains _ Hok i s Hi) as Hdm. unfold domain_match in Hdm. rewrite Ha in Hdm.
    by apply bool_decide_eq_true in Hdm. }
  destruct (_ || _) eqn:Hexp; [by inv_ok|]. apply orb_false_iff in Hexp as [Hidle Habs].
  apply Z.leb_gt in Hidle, Habs. apply bindP_ok in Hrun as ([] & w2 & Htouch & Hrun).
  apply (call_ok (fun env => touch env _ _ _)) in Htouch as [Htouch _]. rewrite Hd1 in Htouch. inv_ok.
  destruct (touch_effect _ _ _ _ _ _ i s Htouch Hok Hi eq_refl Hstate) as (idle & Hnext & Hi' & _ & Hchk).
  assert (idle = Z.min (now + tc_idleTimeoutMs (configs (as_trust_domain s))) (as_absolute_expires_at s)) as Heq.
  { unfold newDate in Hnext. destruct (_ <=? _); [|done]. congruence. }
  rewrite Hnext. by exists token', i, s, a, idle.
Qed.
(** C8: a request authenticates only as an active account of the domain it
    was made to, on a session of that domain and audience that is neither
    revoked nor past its idle or absolute expiry; a committee session was
    opened with a passkey; and the idle expiry it renews never passes the
    absolute one, which stays. *)
Theorem session_admitted configs t tok now w r w' :
  authenticate configs t tok now w = (Ok r, w') -> auth_ok (aw_db w) ->
  exists token i s s' a,
    tok = Some token /\ as_token_digest s = keyedDigest (tc_sessionSecret (configs t)) token
    /\ ad_session (aw_db w) !! i = Some s /\ ad_session (aw_db w') !! i = Some s'
    /\ ad_account (aw_db w) !! as_account_id s = Some a
    /\ sr_accountReference r = aa_external_reference a /\ aa_state a = as_active
    /\ aa_trust_domain a = t /\ as_trust_domain s = t /\ as_audience s = tc_audience (configs t)
    /\ (t = td_committee -> as_authentication_strength s = passkey)
    /\ as_state s = ss_active /\ now < as_idle_expires_at s /\ now < as_absolute_expires_at s
    /\ as_absolute_expires_at s' = as_absolute_expires_at s
    /\ as_idle_expires_at s' <= as_absolute_expires_at s
    /\ as_idle_expires_at s' <= now + tc_idleTimeoutMs (configs t).
Proof.
  intros Hrun Hok. apply authenticated in Hrun as
    (tk & i & s & a & idle & -> & Hi & Ha & Hact & Hdom & Hst & Ht & Hdig & Haud & Hidle & Habs & -> & Hi' & _ & ->);
    [|done].
  exists tk, i, s, (session_touched (Z.min (now + tc_idleTimeoutMs (configs t)) (as_absolute_expires_at s)) now s), a.
  split_and!; auto; simpl; try lia. intros ->.
  assert (Hs : session_checks s = true) by (eapply (ok_session _ Hok); eauto).
  unfold session_checks in Hs. rewrite Ht, !andb_true_iff, orb_true_iff in Hs.
  destruct Hs as [_ [?|Hs%bool_decide_eq_true]]; [done|exact Hs].
Qed.

(** ** Ended sessions *)

(** A session that is not active in [d] authenticates nobody in any later
    state. *)
Lemma ended_never d d' i s configs t tk now w r w' :
  auth_ok d -> auth_ok d' -> evolves d d' -> ad_session d !! i = Some s -> as_state s <> ss_active ->
  as_token_digest s = keyedDigest (tc_sessionSecret (configs t)) tk -> aw_db w = d' ->
  authenticate configs t (Some tk) now w <> (Ok r, w').
Proof.
  intros Hok Hok' He Hi Hended Hdig <- Hrun.
  apply authenticated in Hrun as (tk' & j & x & a & idle & [= <-] & Hj & _ & _ & _ & Hst & _ & Hx & _); [|done].
  destruct (ev_session _ _ He i s Hi) as (s' & Hi' & [->|[Hopen _]]); [|done].
  assert (i = j) as ->; [|congruence]. apply (table_unique _ _ _ _ (ok_session _ Hok') i j s x); congruence.
Qed.

(** The token of a session that was revoked or had expired is never
    accepted again, whatever operations follow and whatever fails. *)
Theorem ended_session_rejected configs t tk now ops w w' i s :
  auth_ok (aw_db w) -> ad_session (aw_db w) !! i = Some s -> as_state s <> ss_active ->
  as_token_digest s = keyedDigest (tc_sessionSecret (configs t)) tk ->
  aw_db w' = run_ops ops (aw_db w) ->
  forall r w'', authenticate configs t (Some tk) now w' <> (Ok r, w'').
Proof.
  intros Hok Hi Hended Hdig Hw' r w''. destruct (run_ops_evolve sessionKeyVersions ops (aw_db w) Hok) as [Hok' He].
  exact (ended_never _ _ i s configs t tk now w' r w'' Hok Hok' He Hi Hended Hdig Hw').
Qed.

(** Equal but for the base tables. *)
Definition auth_tables (d : AuthDb) := (ad_participant d, ad_account d, ad_session d, ad_challenge d,
  ad_bucket d, ad_contact d, ad_passkey d, ad_committee d).
Definition same_auth (d d' : AuthDb) : Prop := auth_tables d = auth_tables d'.

#[local] Instance same_auth_equiv : Equivalence same_auth.
Proof. unfold same_auth. split; [done|by intros ??|]. intros ??? ->. done. Qed.

Lemma auth_transaction_ok {A} env (work : AM A) d a d' :
  inSerializableTransaction env work d = (Ok a, d') -> exists d0, same_auth d d0 /\ work d0 = (Ok a, d').
Proof. apply transaction_ok; [tc_solve|done]. Qed.

(** The sessions of the account are over. *)
Definition sessions_over (reference : string) (d : AuthDb) : Prop :=
  forall i s a, ad_session d !! i = Some s -> ad_account d !! as_account_id s = Some a ->
  aa_external_reference a = reference -> as_state s <> ss_active.

Lemma over_after also reference t a d0 d1 reason at_ n d2 d :
  account reference t d0 = (Ok a, d0) -> ad_account d0 = ad_account d1 ->
  updateSessions (account_sessions (aa_id a)) (session_revoked at_ reason) d1 = (Ok n, d2) ->
  ad_session d = ad_session d2 -> accounts_evolve also (ad_account d0) (ad_account d) -> auth_ok d0 -> auth_ok d ->
  sessions_over reference d.
Proof.
  intros (_ & k & Hk & Href)%account_found Hsame (_ & -> & _)%updateSessions_ok Hs He Hok0 Hok i s b Hi Hb Hbref.
  unfold has_reference in Href. apply andb_true_iff in Href as [Href%String.eqb_eq _].
  destruct (He k a Hk) as (a' & Hk' & Ha').
  assert (aa_external_reference a' = reference) as Href'.
  { destruct Ha' as [->|(_ & [= _ Heq _ _ _] & _)]; congruence. }
  assert (as_account_id s = k) as Hsk by (eapply (table_unique _ _ _ _ (ok_account _ Hok)); eauto; congruence).
  assert (aa_id a = k) as Hak by (eapply (table_keys _ _ _ _ (ok_account _ Hok0)); eauto).
  rewrite Hs in Hi. simpl in Hi. apply update_lookup in Hi as (s0 & _ & ->).
  destruct (account_sessions (aa_id a) s0) eqn:Hp; [done|].
  unfold account_sessions in Hp. rewrite Hak, <- Hsk, String.eqb_refl in Hp. simpl in Hp.
  by apply bool_decide_eq_false in Hp.
Qed.
Lemma on_base_tables {A} (c : M A) d r d' : on_base c d = (r, d') -> same_auth d d'.
Proof. unfold on_base. destruct (c (ad_base d)). by intros [= <- <-]. Qed.

Lemma updateAccounts_sessions p f : keeps ad_session (updateAccounts p f).
Proof. unfold updateAccounts. keeps_steps. Qed.

Lemma auth_ok_same d d' : same_auth d d' -> auth_ok d -> auth_ok d'.
Proof.
  unfold same_auth, auth_tables. intros [= Hp Ha Hs Hc Hb Ho Hk Hm] Hok.
  refine (proj1 (sound_step_tables d d' _ Hok)). congruence.
Qed.

(** A command that found the account, ended its sessions and went on. *)
Lemma ends_sessions reference t a reason at_ n d d0 d1 d2 d' :
  auth_ok d -> sound_step d d' -> same_auth d d0 -> account reference t d0 = (Ok a, d0) ->
  ad_account d1 = ad_account d0 ->
  updateSessions (account_sessions (aa_id a)) (session_revoked at_ reason) d1 = (Ok n, d2) ->
  ad_session d' = ad_session d2 -> sessions_over reference d'.
Proof.
  intros Hok Hsound Hsame Ha H1 Hu H2. destruct (Hsound Hok) as [Hok' He].
  assert (Hacc : ad_account d0 = ad_account d) by (unfold same_auth, auth_tables in Hsame; congruence).
  apply (over_after (activated d d') reference t a d0 d1 reason at_ n d2 d' Ha); auto.
  - rewrite Hacc. apply (ev_account _ _ He).
  - by eapply auth_ok_same.
Qed.

Lemma recover_ends env input d n d' :
  auth_ok d -> repository_recover env input d = (Ok n, d') -> sessions_over (ri_accountReference input) d'.
Proof.
  intros Hok Hrun. pose proof (follows_run _ _ _ _ _ (recover_sound env input) Hrun) as Hsound.
  apply auth_transaction_ok in Hrun as (d0 & Hsame & Hrun).
  apply bindP_ok in Hrun as (a & d1 & Ha & Hrun). pose proof (proj1 (account_found _ _ _ _ _ Ha)) as ->.
  apply bindP_ok in Hrun as (? & d1 & [_ <-]%pair_equal_spec & Hrun).
  apply bindP_ok in Hrun as (m & d2 & Hu & Hrun). apply bindP_ok in Hrun as (? & d3 & Hacc & Hrun).
  apply bindP_ok in Hrun as (? & d4 & Haud%on_base_tables & [= -> ->]).
  apply (ends_sessions _ _ a _ _ _ d d0 d0 d2 d' Hok Hsound Hsame Ha eq_refl Hu).
  rewrite <- (keeps_run _ _ _ _ _ (updateAccounts_sessions _ _) Hacc). unfold same_auth, auth_tables in Haud.
  congruence.
Qed.

Lemma lock_ends env reference t reason c at_ d n d' :
  auth_ok d -> repository_lock env reference t reason c at_ d = (Ok n, d') -> sessions_over reference d'.
Proof.
  intros Hok Hrun. pose proof (follows_run _ _ _ _ _ (lock_sound env reference t reason c at_) Hrun) as Hsound.
  apply auth_transaction_ok in Hrun as (d0 & Hsame & Hrun).
  apply bindP_ok in Hrun as (a & d1 & Ha & Hrun). pose proof (proj1 (account_found _ _ _ _ _ Ha)) as ->.
  apply bindP_ok in Hrun as (? & d1 & [_ <-]%pair_equal_spec & Hrun).
  apply bindP_ok in Hrun as (m & d2 & Hu & Hrun). apply bindP_ok in Hrun as (? & d3 & Hacc & Hrun).
  apply bindP_ok in Hrun as (? & d4 & Haud%on_base_tables & [= -> ->]).
  apply (ends_sessions _ _ a _ _ _ d d0 d0 d2 d' Hok Hsound Hsame Ha eq_refl Hu).
  rewrite <- (keeps_run _ _ _ _ _ (updateAccounts_sessions _ _) Hacc). unfold same_auth, auth_tables in Haud.
  congruence.
Qed.

Lemma insertContact_account c : keeps ad_account (insertContact c).
Proof. unfold insertContact. keeps_steps. Qed.

Lemma change_ends env reference t destination lookup c at_ d n d' :
  auth_ok d -> repository_changeVerifiedEmail env reference t destination lookup c at_ d = (Ok n, d') ->
  sessions_over reference d'.
Proof.
  intros Hok Hrun.
  pose proof (follows_run _ _ _ _ _ (changeVerifiedEmail_sound env reference t destination lookup c at_) Hrun) as Hsound.
  apply bindP_ok in Hrun as (? & dx & [_ <-]%pair_equal_spec & Hrun).
  apply auth_transaction_ok in Hrun as (d0 & Hsame & Hrun).
  apply bindP_ok in Hrun as (a & d1 & Ha & Hrun). pose proof (proj1 (account_found _ _ _ _ _ Ha)) as ->.
  apply bindP_ok in Hrun as (? & d1 & [_ <-]%pair_equal_spec & Hrun).
  apply bindP_ok in Hrun as (prior & d1 & [_ <-]%pair_equal_spec & Hrun).
  apply bindP_ok in Hrun as (? & d1 & [_ Hc]%pair_equal_spec & Hrun).
  apply bindP_ok in Hrun as (i & d2 & Hf%on_base_tables & Hrun).
  apply bindP_ok in Hrun as (? & d3 & Hi & Hrun). apply bindP_ok in Hrun as (m & d4 & Hu & Hrun).
  apply bindP_ok in Hrun as (? & d5 & Haud%on_base_tables & [= <- ->]).
  eapply (ends_sessions _ _ a _ _ _ d d0 d3 d4 d' Hok Hsound Hsame Ha); [|exact Hu|].
  - rewrite (keeps_run _ _ _ _ _ (insertContact_account _) Hi).
    unfold same_auth, auth_tables in Hf. subst d1. simpl in Hf. congruence.
  - unfold same_auth, auth_tables in Haud. congruence.
Qed.

(** No token of a session that the account has in [d] is ever accepted
    again. *)
Definition tokens_dead (reference : string) (d : AuthDb) : Prop :=
  forall i s a, ad_session d !! i = Some s -> ad_account d !! as_account_id s = Some a ->
  aa_external_reference a = reference ->
  forall configs t tk, as_token_digest s = keyedDigest (tc_sessionSecret (configs t)) tk ->
  forall ops w, aw_db w = run_ops ops d ->
  forall now r w', authenticate configs t (Some tk) now w <> (Ok r, w').

Lemma over_dead reference d : auth_ok d -> sessions_over reference d -> tokens_dead reference d.
Proof.
  intros Hok Hover i s a Hi Ha Href configs t tk Hdig ops w Hw now r w'.
  destruct (run_ops_evolve sessionKeyVersions ops d Hok) as [Hok' He].
  exact (ended_never _ _ i s configs t tk now w r w' Hok Hok' He Hi (Hover i s a Hi Ha Href) Hdig Hw).
Qed.

(** C26: locking an account, recovering it and changing its verified e-mail
    end all its sessions: once the command reports success, no token issued
    before is ever accepted again, whatever operations follow. *)
Theorem account_actions_end_sessions reference d :
  auth_ok d ->
  (forall env t reason c at_ n d',
     repository_lock env reference t reason c at_ d = (Ok n, d') -> tokens_dead reference d')
  /\ (forall env input n d', ri_accountReference input = reference ->
     repository_recover env input d = (Ok n, d') -> tokens_dead reference d')
  /\ (forall env t destination lookup c at_ n d',
     repository_changeVerifiedEmail env reference t destination lookup c at_ d = (Ok n, d') ->
     tokens_dead reference d').
Proof.
  intros Hok. split_and!.
  - intros env t reason c at_ n d' Hrun. apply over_dead; [|by eapply lock_ends].
    eapply sound_ok; [apply lock_sound|exact Hok|exact Hrun].
  - intros env input n d' <- Hrun. apply over_dead; [|by eapply recover_ends].
    eapply sound_ok; [apply recover_sound|exact Hok|exact Hrun].
  - intros env t destination lookup c at_ n d' Hrun. apply over_dead; [|by eapply change_ends].
    eapply sound_ok; [apply changeVerifiedEmail_sound|exact Hok|exact Hrun].
Qed.
End sessions.

(** ** Challenges *)

Section challenges.
Context `{Platform} (sessionKeyVersions : TrustDomain -> string).
#[local] Abbreviation run_ops := (run_ops sessionKeyVersions).

Lemma consumed env ch sec k t at_ d c d' :
  consume env ch sec k t at_ d = (Ok (Some c), d') ->
  exists i row, ad_challenge d !! i = Some row /\ consumable ch sec k t at_ row = true
    /\ c = consumed_record d at_ row /\ ad_challenge d' !! i = Some (challenge_consumed at_ row).
Proof.
  intros Hc%statement_ok. apply bindP_ok in Hc as (d0 & d1 & [= <- <-] & Hc).
  apply bindP_ok in Hc as ([n m] & d1 & [= Hu <-] & Hc). apply bindP_ok in Hc as (? & d1 & [= _ <-] & Hc).
  apply update_rows_ok in Hu as (_ & -> & _). injection Hc as Hs <-.
  apply fmap_Some in Hs as (row & (i & Hi & Hp)%select_one_some & ->).
  exists i, row. split_and!; [done..|]. apply update_lookup. exists row. by rewrite Hp.
Qed.

(** C27: a challenge is consumed only while it is pending, before its expiry,
    for its own kind and domain and by its own id or secret; and once
    consumed it is not given out again, nor is its secret, whatever
    operations follow and whatever fails. *)
Theorem challenge_single_use env ch sec k t at_ d c d1 :
  consume env ch sec k t at_ d = (Ok (Some c), d1) -> auth_ok d ->
  (exists row, ad_challenge d !! ch_id (cch_record c) = Some row /\ ac_state row = cs_pending
     /\ at_ < ac_expires_at row /\ ac_kind row = k /\ ac_trust_domain row = t
     /\ (forall i, ch = Some i -> ac_id row = i) /\ (forall x, sec = Some x -> ac_secret_digest row = x)) /\
  forall ops env' ch' sec' k' t' at' c' d2,
    consume env' ch' sec' k' t' at' (run_ops ops d1) = (Ok (Some c'), d2) ->
    ch_id (cch_record c') <> ch_id (cch_record c)
    /\ ch_secretDigest (cch_record c') <> ch_secretDigest (cch_record c).
Proof.
  intros Hrun Hok. assert (Hok1 : auth_ok d1) by exact (sound_ok _ _ _ _ (consume_sound env ch sec k t at_) Hok Hrun).
  apply consumed in Hrun as (i & row & Hi & Hp & -> & Hi').
  pose proof (table_keys _ _ _ _ (ok_challenge d Hok) i row Hi) as Hkey. split.
  - exists row. simpl. rewrite Hkey. split; [done|]. rewrite <- Hkey. unfold consumable in Hp.
    rewrite !andb_true_iff, !bool_decide_eq_true, Z.ltb_lt in Hp. destruct Hp as [[[[[[Hch Hsec] ?] ?] ?] ?] _].
    split_and!; [done..| |].
    + intros j ->. by apply String.eqb_eq.
    + intros x ->. by apply String.eqb_eq.
  - intros ops env' ch' sec' k' t' at' c' d2 Hrun2.
    destruct (run_ops_evolve sessionKeyVersions ops d1 Hok1) as [Hok2 He].
    apply consumed in Hrun2 as (j & row2 & Hj & Hp2 & -> & _). simpl.
    destruct (ev_challenge _ _ He i _ Hi') as (row1 & Hrow1 & [->|[Ho _]]); [|done].
    assert (Hpending : ac_state row2 = cs_pending).
    { unfold consumable in Hp2. rewrite !andb_true_iff, !bool_decide_eq_true in Hp2. tauto. }
    pose proof (table_keys _ _ _ _ (ok_challenge _ Hok2) j row2 Hj) as Hkey2.
    split; intros Heq.
    + assert (j = i) as -> by congruence. rewrite Hrow1 in Hj. by injection Hj as <-.
    + assert (j = i) as ->; [|rewrite Hrow1 in Hj; by injection Hj as <-].
      apply (table_unique _ _ _ _ (ok_challenge _ Hok2) j i row2 _ Hj Hrow1). done.
Qed.

(** ** Passkeys *)

Lemma passkey_found env credential t d k d' :
  repository_findActive env credential t d = (Ok (Some k), d') ->
  exists i row, ad_passkey d !! i = Some row /\ pr_credential_reference row = credential
    /\ pr_state row = pk_active /\ pc_credentialReference k = credential.
Proof.
  intros Hf%statement_ok. injection Hf as Hf <-.
  apply bind_Some in Hf as (row & (i & Hi & Hp)%select_one_some & Hj).
  apply andb_true_iff in Hp as [Hp%String.eqb_eq Ha%bool_decide_eq_true].
  exists i, row. split_and!; [done..|]. unfold joined_passkey in Hj.
  destruct (ad_account d !! _) as [a|]; [|done]. destruct (_ && _); [|done]. by injection Hj as <-.
Qed.
Lemma counted_one {R} (p : R -> bool) (m : gmap string R) :
  (Z.of_nat (length (List.filter p (rows m))) =? 1) = true -> exists i r, m !! i = Some r /\ p r = true.
Proof.
  intros Hn%Z.eqb_eq. destruct (List.filter p (rows m)) as [|r l] eqn:Hf; [done|].
  assert (Hin : In r (List.filter p (rows m))) by (rewrite Hf; by left).
  apply filter_In in Hin as [Hin Hp]. apply list_elem_of_In, rows_in in Hin as [i Hi]. eauto.
Qed.

(** An UPDATE of passkeys that had to touch one row. *)
Lemma updated_passkey p f e x d d' :
  bindP (statement e (let* d0 := gets id in updatePasskeys (p d0) f))
    (fun rowCount => throwWhen (negb (rowCount =? 1)) x) d = (Ok tt, d') ->
  exists i row, ad_passkey d !! i = Some row /\ p d row = true /\ ad_passkey d' !! i = Some (f row).
Proof.
  intros Hrun. apply bindP_ok in Hrun as (n & dn & Hu%statement_ok & Hn).
  injection Hn as Hn <-. apply throwIf_ok, negb_false_iff in Hn. apply bindP_ok in Hu as (d0 & d1 & [= <- <-] & Hu).
  apply bindP_ok in Hu as (d0 & d1 & [= <- <-] & Hu).
  apply bindP_ok in Hu as ([k m] & d1 & [= Hrows <-] & Hu). inv_ok.
  apply update_rows_ok in Hrows as (-> & -> & _). destruct (counted_one _ _ Hn) as (i & row & Hi & Hp).
  exists i, row. split_and!; [done..|]. apply update_lookup. exists row. by rewrite Hp.
Qed.

Lemma usage_updated env u d d' :
  repository_updateUsage env u d = (Ok tt, d') ->
  exists i row, ad_passkey d !! i = Some row /\ pr_credential_reference row = us_credentialReference u
    /\ pr_state row = pk_active /\ pr_sign_count row <= us_counter u
    /\ ad_passkey d' !! i = Some (passkey_used u row).
Proof.
  intros (i & row & Hi & Hp & Hi')%(updated_passkey (fun _ k =>
    String.eqb (pr_credential_reference k) (us_credentialReference u) && passkey_active k
    && (pr_sign_count k <=? us_counter u))).
  rewrite !andb_true_iff, Z.leb_le in Hp. destruct Hp as [[Hp%String.eqb_eq Ha%bool_decide_eq_true] Hle].
  exists i, row. by split_and!.
Qed.

(** A signature counter is accepted only if it is not below the stored
    one of an active credential, and an accepted counter is a lower bound on
    every counter the credential is accepted with afterwards. *)
Theorem passkey_counter_monotone env u d d1 :
  repository_updateUsage env u d = (Ok tt, d1) -> auth_ok d ->
  (exists i row, ad_passkey d !! i = Some row /\ pr_credential_reference row = us_credentialReference u
     /\ pr_state row = pk_active /\ pr_sign_count row <= us_counter u) /\
  forall ops env' u' d2, us_credentialReference u' = us_credentialReference u ->
    repository_updateUsage env' u' (run_ops ops d1) = (Ok tt, d2) -> us_counter u <= us_counter u'.
Proof.
  intros Hrun Hok. pose proof (sound_ok _ _ _ _ (updateUsage_sound env u) Hok Hrun) as Hok1.
  apply usage_updated in Hrun as (i & row & Hi & Hcred & Ha & Hle & Hi'). split; [naive_solver|].
  intros ops env' u' d2 Hu Hrun. destruct (run_ops_evolve sessionKeyVersions ops d1 Hok1) as [Hok2 He].
  apply usage_updated in Hrun as (j & row2 & Hj & Hcred2 & _ & Hle2 & _).
  destruct (ev_passkey _ _ He i _ Hi') as (row1 & Hrow1 & Hstep).
  assert (j = i) as ->.
  { apply (table_unique _ _ _ _ (ok_passkey _ Hok2) j i row2 row1 Hj Hrow1).
    destruct Hstep as [->|(_ & [= _ _ Hc _ _] & _)]; simpl in *; congruence. }
  assert (row2 = row1) as -> by congruence. destruct Hstep as [->|(_ & _ & Hc)]; simpl in *; lia.
Qed.
End challenges.

(** *** A revoked passkey *)

Section revoked.
Context `{Platform} `{AuthCrypto} (sessionKeyVersions : TrustDomain -> string).
Context (faults : nat -> nat -> TxAttempt).
#[local] Existing Instance world_challenges.
#[local] Existing Instance world_passkeys.
Context {webauthn : WebAuthnAdapter AuthWorld} (configs : TrustDomain -> PasskeyDomainConfig).
#[local] Abbreviation run_ops := (run_ops sessionKeyVersions).

(** Once the revocation of a passkey reports success, no assertion of
    that credential signs in again, whatever operations follow, whatever
    fails, and whatever the WebAuthn library answers. *)
Theorem revoked_passkey_rejected env credential reference at_ d d1 :
  revokePasskey env credential reference at_ d = (Ok tt, d1) -> auth_ok d ->
  forall ops w t challenge response now r w',
    aw_db w = run_ops ops d1 -> as_id response = credential ->
    @finishAuthentication AuthWorld (world_passkeys faults) (world_challenges faults) webauthn _ configs
      t challenge response now w <> (Ok r, w').
Proof.
  intros Hrev Hok ops w t challenge response now r w' Hw Hid Hrun.
  pose proof (sound_ok _ _ _ _ (revokePasskey_sound env credential reference at_) Hok Hrev) as Hok1.
  apply (updated_passkey (fun d k => match ad_account d !! pr_auth_account_id k with
      | Some a => String.eqb (aa_external_reference a) reference | None => false end
      && String.eqb (pr_credential_reference k) credential && passkey_active k))
    in Hrev as (i & row & Hi & Hp & Hi').
  destruct (run_ops_evolve sessionKeyVersions ops d1 Hok1) as [Hok2 He].
  unfold finishAuthentication in Hrun. apply bindP_ok in Hrun as (c & w1 & Hc & Hrun).
  destruct c as [c|]; [|done]. apply (call_ok _ (fun env => consume env _ _ _ _ _)) in Hc as [Hc _].
  destruct (follows_run _ _ _ _ _ (consume_sound _ _ _ _ _ _) Hc ltac:(by rewrite Hw)) as [Hok3 He3].
  apply bindP_ok in Hrun as (k & w2 & Hk & Hrun). destruct k as [k|]; [|done].
  apply (call_ok _ (fun env => repository_findActive env _ _)) in Hk as [Hk _].
  apply passkey_found in Hk as (j & row2 & Hj & Hcred & Ha & _).
  rewrite Hw in He3. assert (He' : evolves d1 (aw_db w1)) by (by etransitivity).
  destruct (ev_passkey _ _ He' i _ Hi') as (row1 & Hrow1 & [->|[Ho _]]); [|done].
  apply andb_true_iff in Hp as [[_ Hp%String.eqb_eq]%andb_true_iff _].
  assert (j = i) as -> by (apply (table_unique _ _ _ _ (ok_passkey _ Hok3) j i row2 _ Hj Hrow1); simpl; congruence).
  rewrite Hrow1 in Hj. by injection Hj as <-.
Qed.
End revoked.
