(* ===== verification/CommitteeFacts.v ===== *)
(** * CommitteeFacts: who gets access to a committee.

    How the rows of "auth_committee_access" move under every operation of the
    authentication repository, that every active access was invited, approved
    by somebody else and activated in that order, what the principal of a
    committee request says, and what an activation does to the account. *)
From S2P Require Import Prelude Errors Text Json Database Lifecycles AuthDatabase Authorization Consent Auth.
From S2P Require Import Passkey AuthRepository AuthSystem AuthInvariant AuthFacts.
Local Open Scope Z_scope.

Definition accesses (d : AuthDb) : gmap string CommitteeAccessRow := mt_access (ad_committee d).
Definition members (d : AuthDb) : gmap string MemberRow := mt_committee_member (ad_committee d).

(** ** What the operations leave alone *)

Definition onboarding (d : AuthDb) := (db_committee (ad_base d), members d, accesses d).
Definition committees (d : AuthDb) := (db_committee (ad_base d), members d).

(** A view that rolling back restores and the identifiers do not change. *)
Definition stable {V} (view : AuthDb -> V) : Prop :=
  (forall before after, view (rollback before after) = view before) /\
  (forall d b, db_committee b = db_committee (ad_base d) -> view (with_base b d) = view d).

Lemma onboarding_stable : stable onboarding.
Proof. split; [done|]. intros d b Hb. unfold onboarding. simpl. by rewrite Hb. Qed.
Lemma committees_stable : stable committees.
Proof. split; [done|]. intros d b Hb. unfold committees. simpl. by rewrite Hb. Qed.

#[local] Instance kept_preorder {V} (view : AuthDb -> V) : PreOrder (fun d d' => view d' = view d).
Proof. split; [done|]. intros ??? ??. congruence. Qed.

Section keeps.
Context {V : Type} (view : AuthDb -> V) (Hview : stable view).

Lemma keeps_transaction {A} env (work : AM A) : keeps view work -> keeps view (inSerializableTransaction env work).
Proof. apply (follows_transaction (fun d d' => view d' = view d)), Hview. Qed.

Lemma keeps_statement {A} e (work : AM A) : keeps view work -> keeps view (statement e work).
Proof. apply (follows_statement (fun d d' => view d' = view d)), Hview. Qed.

Lemma keeps_on_base {A} (c : M A) : keeps db_committee c -> keeps view (on_base c).
Proof.
  intros Hc d. unfold on_base. specialize (Hc (ad_base d)). destruct (c (ad_base d)) as [r b]. by apply Hview.
Qed.
End keeps.

Lemma newId_committee `{Platform} : keeps db_committee newId.
Proof. by intros d. Qed.

Lemma appendAudit_committee `{Platform} ctx cid command target res :
  keeps db_committee (appendAudit ctx cid command target res).
Proof.
  unfold appendAudit. keeps_steps; [apply newId_committee|]. intros d. unfold insertAuditEvent. simpl.
  by repeat case_match.
Qed.

#[local] Hint Resolve keeps_transaction keeps_statement keeps_on_base onboarding_stable committees_stable
  newId_committee appendAudit_committee : keeps.

Section operations.
Context `{Platform} (sessionKeyVersions : TrustDomain -> string).
#[local] Abbreviation run_op := (run_op sessionKeyVersions).
#[local] Abbreviation run_ops := (run_ops sessionKeyVersions).

Lemma fresh_onboarding : keeps onboarding fresh.
Proof. unfold fresh. auto with keeps. Qed.
Lemma audit_onboarding context command reference next : keeps onboarding (audit_account context command reference next).
Proof. unfold audit_account. auto with keeps. Qed.
#[local] Hint Resolve fresh_onboarding audit_onboarding : keeps.

Lemma updates_onboarding p f q g r h :
  keeps onboarding (updateAccounts p f) /\ keeps onboarding (updateSessions q g) /\ keeps onboarding (updatePasskeys r h).
Proof. unfold updateAccounts, updateSessions, updatePasskeys. split_and!; keeps_steps. Qed.

Lemma updateAccounts_onboarding p f : keeps onboarding (updateAccounts p f).
Proof. by apply (updates_onboarding p f (fun _ => false) id (fun _ => false) id). Qed.
Lemma updateSessions_onboarding p f : keeps onboarding (updateSessions p f).
Proof. by apply (updates_onboarding (fun _ => false) id p f (fun _ => false) id). Qed.
Lemma updatePasskeys_onboarding p f : keeps onboarding (updatePasskeys p f).
Proof. by apply (updates_onboarding (fun _ => false) id (fun _ => false) id p f). Qed.
#[local] Hint Resolve updateAccounts_onboarding updateSessions_onboarding updatePasskeys_onboarding : keeps.

(** The operations on committee access, and the others. *)
Definition on_access (o : AuthOp) : bool :=
  match o with
  | OInviteCommittee _ _ _ _ | OApproveCommittee _ _ _ _ | OActivateCommittee _ _ _ _ => true
  | _ => false
  end.

Ltac unfolded :=
  unfold createAccount, createAccount_tx, registerVerifiedEmail, registerVerifiedEmail_tx, createSession,
    createSession_tx, revoke, revokeAll, touch, createChallenge, createChallenge_tx, consume, repository_increment,
    repository_recover, recoverAndRevokeSessions_tx, repository_lock, lockAndRevokeSessions_tx,
    repository_changeVerifiedEmail, changeVerifiedEmail_tx, appendSecurityAudit, repository_save, save_tx,
    repository_updateUsage, revokePasskey, account, optional_participant, participantId,
    insertAccount, insertSession, insertChallenge, insertContact, insertPasskey, assignReviewer, insertAssignment.

Lemma others_onboarding env o d : on_access o = false -> onboarding (run_op env o d) = onboarding d.
Proof.
  intros Ho. destruct o; try discriminate Ho; simpl;
    match goal with |- onboarding (snd (?c d)) = _ => revert d; change (keeps onboarding c) end;
    unfolded; keeps_steps; try (apply keeps_transaction; [apply onboarding_stable|]; keeps_steps);
    try (apply keeps_statement; [apply onboarding_stable|]; keeps_steps).
Qed.

(** ** One operation on the accesses *)

(** What the tables that onboarding reads and writes hold. *)
Definition same_store (d d' : AuthDb) : Prop :=
  (ad_account d, db_committee (ad_base d), ad_committee d) = (ad_account d', db_committee (ad_base d'), ad_committee d').
#[local] Instance same_store_equiv : Equivalence same_store.
Proof. unfold same_store. split; [done|by intros ??|]. intros ??? ->. done. Qed.

Lemma store_rollback (before after : AuthDb) : same_store before (rollback before after).
Proof. done. Qed.

(** How an operation, from [d], may change the row under a key. *)
Inductive access_event (d : AuthDb) : AuthOp -> option CommitteeAccessRow -> option CommitteeAccessRow -> Prop :=
| access_invited reference committee by_ at_ r :
    access_of d reference committee r = true -> domain_match d (ca_account_id r) td_committee = true ->
    ca_state r = cas_invited -> ca_invited_by_reference r = by_ ->
    access_event d (OInviteCommittee reference committee by_ at_) None (Some r)
| access_approval reference committee by_ at_ r :
    access_of d reference committee r = true -> ca_state r = cas_invited -> by_ <> ca_invited_by_reference r ->
    access_event d (OApproveCommittee reference committee by_ at_) (Some r) (Some (access_approved by_ at_ r))
| access_activation reference committee member at_ r i m :
    access_of d reference committee r = true -> ca_state r = cas_approved ->
    members d !! i = Some m -> cm_external_reference m = member -> cm_committee_id m = ca_committee_id r ->
    cm_state m = ms_active ->
    access_event d (OActivateCommittee reference committee member at_) (Some r) (Some (access_activated i at_ r)).

Lemma access_of_same d d' reference committee r :
  same_store d d' -> access_of d' reference committee r = access_of d reference committee r.
Proof. unfold same_store, access_of. intros [= -> -> _]. done. Qed.

Lemma member_joined d reference m :
  joined_member d reference = Some m ->
  members d !! fst m = Some (snd m) /\ cm_external_reference (snd m) = reference /\ cm_state (snd m) = ms_active.
Proof.
  unfold joined_member. intros [Hin%list_elem_of_In Hp]%find_some. destruct m as [i m].
  apply elem_of_map_to_list in Hin. apply andb_true_iff in Hp as [?%String.eqb_eq ?%bool_decide_eq_true]. done.
Qed.

Lemma invite_event env reference com by_ at_ d j (d' := run_op env (OInviteCommittee reference com by_ at_) d) :
  auth_ok d -> accesses d' !! j = accesses d !! j \/
  access_event d (OInviteCommittee reference com by_ at_) (accesses d !! j) (accesses d' !! j).
Proof.
  intros Hok. subst d'. simpl. unfold inviteCommittee.
  destruct (transaction_cases same_store store_rollback env (inviteCommittee_tx reference com by_ at_) d)
    as [Hs|(d0 & [] & d' & Hs & Hrun & ->)].
  { left. unfold same_store in Hs. unfold accesses. congruence. }
  apply bindP_ok in Hrun as (a & d1 & (-> & i & Hi & Href)%account_found & Hrun).
  apply bindP_ok in Hrun as (c & d1 & Hc & Hrun). unfold committee in Hc.
  apply bindP_ok in Hc as (found & d2 & [= <- <-] & Hc).
  destruct (find _ _) as [[c' row]|] eqn:Hfind; [|done]. injection Hc as <- <-.
  apply find_some in Hfind as [Hin%list_elem_of_In%elem_of_map_to_list Hcref%String.eqb_eq]. simpl in Hcref.
  apply bindP_ok in Hrun as (k & d2 & [= <- <-] & Hrun). unfold insertAccess in Hrun. inv_ok. simpl in *.
  apply andb_true_iff in Href as [Href%String.eqb_eq Ht%bool_decide_eq_true].
  pose proof (access_of_same d d0) as Hof. unfold same_store in Hs. injection Hs as Ha Hb Hm.
  assert (Hi' : ad_account d !! aa_id a = Some a).
  { rewrite Ha. by rewrite (table_keys _ _ _ _ (ok_account d Hok) i a ltac:(congruence)). }
  unfold accesses. simpl. rewrite <- Hm in *. destruct (decide (randomUUID (db_ids (ad_base d0)) = j)) as [<-|Hne].
  - right. rewrite lookup_insert_eq. destruct (mt_access _ !! _); [done|]. constructor; [| |done..].
    + unfold access_of. simpl. rewrite Hi', Hb, Hin. by rewrite Href, !String.eqb_refl.
    + unfold domain_match. simpl. rewrite Hi'. by apply bool_decide_eq_true_2.
  - left. by rewrite lookup_insert_ne.
Qed.

(** An UPDATE of the accesses, row by row. *)
Lemma updateAccess_rows p f d n d' j :
  updateAccess p f d = (Ok n, d') ->
  accesses d' !! j = accesses d !! j \/
  exists r, accesses d !! j = Some r /\ p r = true /\ access_checks (f r) = true /\ accesses d' !! j = Some (f r).
Proof.
  unfold updateAccess. intros Hu. apply bindP_ok in Hu as (d0 & d1 & [= <- <-] & Hu).
  apply bindP_ok in Hu as (? & d1 & [= _ <-] & Hu).
  apply bindP_ok in Hu as ([k m] & d1 & [= Hu' <-] & Hu). inv_ok.
  apply update_rows_ok in Hu' as (_ & -> & Hc). unfold accesses. simpl. rewrite lookup_fmap.
  destruct (mt_access _ !! j) as [r|] eqn:Hr; [|by left]. simpl. destruct (p r) eqn:Hp; [|by left].
  right. exists r. eauto.
Qed.

Lemma approve_event env reference com by_ at_ d j (d' := run_op env (OApproveCommittee reference com by_ at_) d) :
  accesses d' !! j = accesses d !! j \/
  access_event d (OApproveCommittee reference com by_ at_) (accesses d !! j) (accesses d' !! j).
Proof.
  subst d'. simpl. unfold approveCommittee.
  assert (Hsnd : forall A B (c : AM A) (k : A -> AM B), (forall a s, snd (k a s) = s) -> snd (bindP c k d) = snd (c d)).
  { intros A B c k Hk. unfold bindP. destruct (c d) as [[a|x] s]; simpl; [apply Hk|done]. }
  rewrite Hsnd by by intros.
  match goal with |- context [statement ?e ?w d] => destruct (statement_cases same_store store_rollback e w d) as [Hs|(n & d' & Hrun & ->)] end.
  { left. unfold same_store in Hs. unfold accesses. congruence. }
  apply bindP_ok in Hrun as (d0 & d1 & [= <- <-] & Hrun).
  destruct (updateAccess_rows _ _ _ _ _ j Hrun) as [?|(r & -> & Hp & Hc & ->)]; [by left|]. right.
  apply andb_true_iff in Hp as [Hof Hst%bool_decide_eq_true]. constructor; [done..|].
  unfold access_checks in Hc. apply andb_true_iff in Hc as [Hc _]. simpl in Hc.
  rewrite andb_true_r in Hc. by apply negb_true_iff, String.eqb_neq in Hc.
Qed.

Lemma activate_event env reference com member at_ d j
    (d' := run_op env (OActivateCommittee reference com member at_) d) :
  accesses d' !! j = accesses d !! j \/
  access_event d (OActivateCommittee reference com member at_) (accesses d !! j) (accesses d' !! j).
Proof.
  subst d'. simpl. unfold activateCommittee.
  destruct (transaction_cases same_store store_rollback env (activateCommittee_tx reference com member at_) d)
    as [Hs|(d0 & [] & d' & Hs & Hrun & ->)].
  { left. unfold same_store in Hs. unfold accesses. congruence. }
  apply bindP_ok in Hrun as (dx & d1 & [= <- <-] & Hrun). apply bindP_ok in Hrun as (n & d1 & Hu & Hrun).
  apply bindP_ok in Hrun as (? & d2 & [_ <-]%pair_equal_spec & Hrun).
  apply bindP_ok in Hrun as (n' & d2 & Hacc & [= <-]).
  pose proof (keeps_run _ _ _ _ _ (updateAccounts_onboarding _ _) Hacc) as [= _ _ Hkept]. rewrite Hkept.
  pose proof Hs as [= Ha Hb Hm].
  assert (accesses d = accesses d0) as -> by (unfold accesses; congruence).
  destruct (updateAccess_rows _ _ _ _ _ j Hu) as [?|(r & -> & Hp & _ & ->)]; [by left|]. right.
  unfold id, activatable in Hp. destruct (joined_member d0 member) as [[i m]|] eqn:Hj; [|done].
  rewrite !andb_true_iff in Hp. destruct Hp as [[Hof Hcom%String.eqb_eq] Hst%bool_decide_eq_true].
  apply member_joined in Hj as (Hi & Href & Hact). simpl in *.
  eapply (access_activation _ _ _ _ _ _ i m); try done.
  - by rewrite <- (access_of_same d d0).
  - unfold members in *. by rewrite Hm.
Qed.

(** The state machine of committee access: an operation, in whatever order
    and under whatever faults, leaves the row under a key alone, or the row is
    a new invitation by the inviter named, or an invitation that somebody else
    than its inviter approves, or an approved access activated for an active
    member of its committee. *)
Theorem committee_access_step env o d j :
  auth_ok d -> accesses (run_op env o d) !! j = accesses d !! j \/
  access_event d o (accesses d !! j) (accesses (run_op env o d) !! j).
Proof.
  intros Hok. destruct (on_access o) eqn:Ho.
  - destruct o; try discriminate Ho; [by apply invite_event|apply approve_event|apply activate_event].
  - left. pose proof (others_onboarding env o d Ho) as [= _ _ ->]. done.
Qed.
(** ** Histories *)

Lemma committees_of_onboarding {A} (c : AM A) : keeps onboarding c -> keeps committees c.
Proof. intros Hk d. specialize (Hk d). unfold onboarding in Hk. unfold committees. congruence. Qed.

Lemma writes_committees a p f : keeps committees (insertAccess a) /\ keeps committees (updateAccess p f).
Proof. unfold insertAccess, updateAccess. split; keeps_steps. Qed.

Lemma insertAccess_committees a : keeps committees (insertAccess a).
Proof. apply (writes_committees a (fun _ => false) id). Qed.
Lemma updateAccess_committees p f : keeps committees (updateAccess p f).
Proof.
  exact (proj2 (writes_committees {| ca_id := ""; ca_account_id := ""; ca_committee_id := ""; ca_member_id := None;
    ca_state := cas_invited; ca_invited_by_reference := ""; ca_approved_by_reference := None; ca_invited_at := 0;
    ca_approved_at := None; ca_activated_at := None |} p f)).
Qed.
#[local] Hint Resolve insertAccess_committees updateAccess_committees committees_of_onboarding : keeps.

Lemma run_op_committees env o d : committees (run_op env o d) = committees d.
Proof.
  destruct (on_access o) eqn:Ho.
  - destruct o; try discriminate Ho; simpl;
      match goal with |- committees (snd (?c d)) = _ => revert d; change (keeps committees c) end;
      unfold inviteCommittee, inviteCommittee_tx, approveCommittee, activateCommittee, activateCommittee_tx,
        AuthRepository.committee, account; keeps_steps;
      try (apply keeps_transaction; [apply committees_stable|]; keeps_steps);
      try (apply keeps_statement; [apply committees_stable|]; keeps_steps).
  - pose proof (others_onboarding env o d Ho) as Hk. unfold onboarding in Hk. unfold committees. congruence.
Qed.

(** An access keeps its account and committee, and these their references. *)
Lemma access_of_evolves d d' reference com r r' :
  evolves d d' -> committees d' = committees d -> access_identity r' = access_identity r ->
  access_of d reference com r = true -> access_of d' reference com r' = true.
Proof.
  intros He [= Hc _] Hid. unfold access_identity in Hid. injection Hid as _ Ha Hcom _ _.
  unfold access_of. rewrite Ha, Hcom, Hc.
  destruct (ad_account d !! ca_account_id r) as [a|] eqn:Hacc; [|done].
  destruct (ev_account _ _ He _ _ Hacc) as (a' & -> & [->|(_ & Hid & _)]); [done|].
  by injection Hid as _ -> _ _ _.
Qed.

Lemma access_of_unique d a c a' c' r :
  access_of d a c r = true -> access_of d a' c' r = true -> a' = a /\ c' = c.
Proof.
  unfold access_of. destruct (ad_account d !! _); [|done]. destruct (db_committee _ !! _); [|by rewrite andb_false_r].
  rewrite !andb_true_iff, !String.eqb_eq. intros [<- <-] [<- <-]. done.
Qed.

(** The operations that lead an access invited by [x] to a state. *)
Inductive onboarded (a c x : string) : committee_access_state -> list AuthOp -> Prop :=
| onboarded_invited t : onboarded a c x cas_invited [OInviteCommittee a c x t]
| onboarded_approved steps y t : y <> x -> onboarded a c x cas_invited steps ->
    onboarded a c x cas_approved (steps ++ [OApproveCommittee a c y t])
| onboarded_active steps m t : onboarded a c x cas_approved steps ->
    onboarded a c x cas_active (steps ++ [OActivateCommittee a c m t]).

Definition provenance (ops : list AuthOp) (d : AuthDb) (r : CommitteeAccessRow) : Prop :=
  exists a c steps, access_of d a c r = true /\ steps `sublist_of` ops /\
    onboarded a c (ca_invited_by_reference r) (ca_state r) steps.

Lemma run_ops_snoc ops o env d : run_ops (ops ++ [(o, env)]) d = run_op env o (run_ops ops d).
Proof. revert d. induction ops as [|[o' e'] ops IH]; intros d; simpl; [done|apply IH]. Qed.

Lemma provenance_step ops env o d j r :
  auth_ok d -> (forall r0, accesses d !! j = Some r0 -> provenance ops d r0) ->
  accesses (run_op env o d) !! j = Some r -> provenance (ops ++ [o]) (run_op env o d) r.
Proof.
  intros Hok Hprov Hr. destruct (run_op_sound sessionKeyVersions env o d Hok) as [_ He].
  pose proof (run_op_committees env o d) as Hc.
  destruct (committee_access_step env o d j Hok) as [Hsame|Hev].
  - rewrite Hr in Hsame. destruct (Hprov r (eq_sym Hsame)) as (a & c & steps & Hof & Hsub & Hon).
    exists a, c, steps. split_and!; [by eapply access_of_evolves|by apply sublist_inserts_r|done].
  - rewrite Hr in Hev. remember (accesses d !! j) as old eqn:Hold. remember (Some r) as new eqn:Hnew.
    destruct Hev as [a c x t r0 Hof _ Hst Hby|a c y t r0 Hof Hst Hne|a c m t r0 i row Hof Hst _ _ _ _];
      injection Hnew as <-.
    + exists a, c, [OInviteCommittee a c x t]. rewrite Hst, Hby. split_and!; [by eapply access_of_evolves| |constructor].
      by apply sublist_inserts_l.
    + destruct (Hprov r0 eq_refl) as (a' & c' & steps & Hof' & Hsub & Hon). rewrite Hst in Hon.
      destruct (access_of_unique _ _ _ _ _ _ Hof Hof') as [-> ->].
      exists a, c, (steps ++ [OApproveCommittee a c y t]). split_and!; [by eapply access_of_evolves| |by constructor].
      by apply sublist_app.
    + destruct (Hprov r0 eq_refl) as (a' & c' & steps & Hof' & Hsub & Hon). rewrite Hst in Hon.
      destruct (access_of_unique _ _ _ _ _ _ Hof Hof') as [-> ->].
      exists a, c, (steps ++ [OActivateCommittee a c m t]). split_and!; [by eapply access_of_evolves| |by constructor].
      by apply sublist_app.
Qed.

Lemma provenance_holds ops d j r :
  auth_ok d -> accesses d = ∅ -> accesses (run_ops ops d) !! j = Some r -> provenance (fst <$> ops) (run_ops ops d) r.
Proof.
  intros Hok Hnone. revert j r. induction ops as [|[o env] ops IH] using rev_ind; intros j r Hr.
  { simpl in Hr. by rewrite Hnone in Hr. }
  rewrite fmap_app. rewrite run_ops_snoc in *. simpl. eapply provenance_step; [|apply IH|exact Hr].
  apply run_ops_evolve. exact Hok.
Qed.

(** C32: whoever may act for a committee (that is, whatever principal a committee
    request loads) was invited for that account and committee by one actor,
    then approved by another, then activated: in every history that starts
    without accesses, the three operations occur in this order. *)
Theorem principal_vetted ops d env account com targetType targetReference session p d' :
  auth_ok d -> accesses d = ∅ ->
  loadCommitteePrincipal env account com targetType targetReference session (run_ops ops d) = (Ok (Some p), d') ->
  cp_accountReference p = account /\ cp_committeeReference p = com /\
  exists x y m t1 t2 t3, y <> x /\
    [OInviteCommittee account com x t1; OApproveCommittee account com y t2; OActivateCommittee account com m t3]
    `sublist_of` (fst <$> ops).
Proof.
  intros Hok Hnone Hload. apply statement_ok in Hload. injection Hload as Hload _.
  apply bind_Some in Hload as (r & (j & Hj & Hp)%select_one_some & Hrow). rewrite !andb_true_iff in Hp.
  destruct Hp as [[Hof _] Hst%bool_decide_eq_true]. split_and!.
  1,2: unfold principal_row in Hrow; unfold access_of in Hof; destruct (ad_account _ !! _); [|done];
    destruct (db_committee _ !! _); [|done]; injection Hrow as <-;
    by apply andb_true_iff in Hof as [?%String.eqb_eq ?%String.eqb_eq].
  destruct (provenance_holds ops d j r Hok Hnone Hj) as (a & c & steps & Hof' & Hsub & Hon).
  destruct (access_of_unique _ _ _ _ _ _ Hof Hof') as [-> ->]. rewrite Hst in Hon.
  inversion Hon as [| |steps1 m t3 Hon1]; subst. inversion Hon1 as [|steps2 y t2 Hne Hon2|]; subst.
  inversion Hon2 as [t1| |]; subst. exists (ca_invited_by_reference r), y, m, t1, t2, t3. by split.
Qed.

Lemma updateAccess_one p f d d' :
  updateAccess p f d = (Ok 1, d') ->
  exists j r, accesses d !! j = Some r /\ p r = true /\ domain_match d (ca_account_id r) td_committee = true /\
    d' = with_committee_tables (with_access (fun m => (fun a => if p a then f a else a) <$> m)) d.
Proof.
  intros Hu. pose proof Hu as [Hone Hd]%updateAccess_ok.
  destruct (one_selected p _ (Nat2Z.inj _ 1 (eq_sym Hone))) as (j & r & Hj & Hp). exists j, r. split_and!; [done..| |done].
  unfold updateAccess in Hu. apply bindP_ok in Hu as (d0 & d1 & [= <- <-] & Hu).
  apply bindP_ok in Hu as (? & d1 & [Hg _]%pair_equal_spec & _). apply throwIf_ok in Hg.
  destruct (domain_match _ _ _) eqn:Hm; [done|]. exfalso. rewrite <- not_true_iff_false, some_true in Hg. apply Hg.
  exists r. unfold id. rewrite Hp, Hm. split; [|done]. apply rows_in. eauto.
Qed.

(** An activation makes the account active, whatever state it was in: a lock,
    a suspension that a recovery left for review, or a closure is lifted. *)
Theorem activation_effect env reference com member at_ d d' :
  auth_ok d -> activateCommittee env reference com member at_ d = (Ok tt, d') ->
  exists i a, ad_account d !! i = Some a /\ aa_external_reference a = reference /\
    aa_trust_domain a = td_committee /\ ad_account d' !! i = Some (account_activated at_ a) /\
    exists j r, accesses d !! j = Some r /\ ca_account_id r = i /\ ca_state r = cas_approved /\
      exists m, accesses d' !! j = Some (access_activated m at_ r).
Proof.
  intros Hok Hrun. apply (transaction_ok same_store) in Hrun as (d0 & Hs & Hrun); [|done].
  apply bindP_ok in Hrun as (dx & d1 & [= <- <-] & Hrun). apply bindP_ok in Hrun as (n & d1 & Hu & Hrun).
  apply bindP_ok in Hrun as (? & d2 & [Hn <-]%pair_equal_spec & Hrun).
  apply bindP_ok in Hrun as (n' & d2 & Hacc & [= <-]).
  apply throwIf_ok, negb_false_iff, Z.eqb_eq in Hn. subst n. unfold id in Hu.
  destruct (updateAccess_one _ _ _ _ Hu) as (j & r & Hj & Hp & Hdom & Hd1).
  destruct (activatable_facts _ _ _ _ _ Hp) as (Hst & a & Ha & Href).
  injection Hs as Hacc0 Hb Hm. exists (ca_account_id r), a. rewrite Hacc0.
  unfold domain_match in Hdom. rewrite Ha in Hdom. apply bool_decide_eq_true in Hdom.
  apply updateAccounts_ok in Hacc as ->. split_and!; [done..| |].
  - rewrite Hd1. simpl. apply update_lookup. exists a. split; [done|]. unfold has_reference.
    by rewrite Href, String.eqb_refl, bool_decide_eq_true_2.
  - exists j, r. rewrite Hd1. unfold accesses. rewrite Hm. split_and!; [done..|].
    exists (default "" (fst <$> joined_member d0 member)). simpl. apply update_lookup. exists r. by rewrite Hp.
Qed.
End operations.
