(* ===== verification/RecoveryFacts.v ===== *)
(** * RecoveryFacts: rate limits, sign-in by e-mail and recovery.

    How many requests a rate limit admits, in every history and without
    faults; that the answer to a sign-in or recovery request says nothing
    about the account; that a session just issued authenticates; and what a
    completed recovery leaves behind. *)
From S2P Require Import Prelude Errors Text Json JsonParse Database AuthDatabase Authorization Consent Auth.
From S2P Require Import Passkey AuthRepository AuthSystem AuthInvariant AuthFacts.
Local Open Scope Z_scope.

(** How often a bucket was incremented. *)
Definition used (key : string) (d : AuthDb) : Z :=
  match ad_bucket d !! key with Some b => rl_attempt_count b | None => 0 end.

Lemma used_nonneg key d : auth_ok d -> 0 <= used key d.
Proof.
  intros Hok. unfold used. destruct (ad_bucket d !! key) as [b|] eqn:Hb; [|done].
  pose proof (ok_bucket d Hok key b Hb). lia.
Qed.

Lemma used_evolves key d d' : auth_ok d' -> evolves d d' -> used key d <= used key d'.
Proof.
  intros Hok He. pose proof (used_nonneg key d' Hok) as Hn. unfold used in *.
  destruct (ad_bucket d !! key) as [b|] eqn:Hb; [|done].
  destruct (ev_bucket _ _ He key b Hb) as (b' & -> & [->|(_ & _ & Hlt)]); lia.
Qed.

Lemma increment_used env key bucket from until d n d' :
  repository_increment env key bucket from until d = (Ok n, d') -> n = used key d + 1 /\ used key d' = n.
Proof.
  intros Hi%statement_ok. apply bindP_ok in Hi as (started & d1 & [= _ <-] & Hi).
  apply bindP_ok in Hi as (expires & d1 & [= _ <-] & Hi). apply bindP_ok in Hi as (? & d1 & [= _ <-] & Hi).
  apply bindP_ok in Hi as (d0 & d1 & [= <- <-] & Hi). unfold used, id in *.
  destruct (ad_bucket d !! key) as [row|] eqn:Hrow.
  - apply bindP_ok in Hi as (c & d1 & [= Hc <-] & Hi). apply bindP_ok in Hi as (? & d1 & [= _ <-] & [= <- <-]).
    unfold int4 in Hc. inv_ok. simpl. by rewrite lookup_insert_eq.
  - apply bindP_ok in Hi as (? & d1 & [= _ <-] & [= <- <-]). simpl. by rewrite lookup_insert_eq.
Qed.

Section limits.
Context `{Platform} `{AuthCrypto} (sessionKeyVersions : TrustDomain -> string).
Context (faults : nat -> nat -> TxAttempt) (secret : string) (bucket : RateBucket) (subject : string).
Context (windowMs limit window : Z).
#[local] Existing Instance world_rates.

Definition limited (now : Z) : prog AuthWorld exn unit :=
  @requireWithinLimit AuthWorld (world_rates faults) _ secret bucket subject now windowMs limit.
Definition limit_key : string := rate_key secret bucket subject window.

Definition on_database (f : AuthDb -> AuthDb) (w : AuthWorld) : AuthWorld := {|
  aw_db := f (aw_db w); aw_notifications := aw_notifications w; aw_tokens := aw_tokens w; aw_calls := aw_calls w |}.

(** A history of requests against the limit, at the given times, among other
    operations of the repository; how many of the requests are admitted. *)
Inductive RateStep : Type :=
| Request (now : Z)
| Other (o : AuthOp) (env : nat -> TxAttempt).

Fixpoint admitted (steps : list RateStep) (w : AuthWorld) : Z :=
  match steps with
  | [] => 0
  | Request now :: steps' =>
    let (r, w') := limited now w in (if is_ok r then 1 else 0) + admitted steps' w'
  | Other o env :: steps' => admitted steps' (on_database (run_op sessionKeyVersions env o) w)
  end.

Definition in_window (s : RateStep) : Prop := match s with Request now => now / windowMs = window | _ => True end.

Lemma limited_sound now w : sound_step (aw_db w) (aw_db (snd (limited now w))).
Proof.
  unfold limited, requireWithinLimit. unfold bindP at 1. unfold increment at 1. simpl. unfold call.
  match goal with |- context [repository_increment ?e ?k ?b ?f ?u ?d] =>
    pose proof (increment_sound e k b f u d) as Hs; destruct (repository_increment e k b f u d) as [[n|x] d'] end.
  - unfold throwWhen, lift. simpl. exact Hs.
  - exact Hs.
Qed.

Lemma limited_ok now w w' :
  now / windowMs = window -> limited now w = (Ok tt, w') ->
  used limit_key (aw_db w') = used limit_key (aw_db w) + 1 /\ used limit_key (aw_db w') <= limit.
Proof.
  intros Hwin Hrun. apply bindP_ok in Hrun as (n & w1 & Hn & Hrun). injection Hrun as Hlim <-.
  apply (call_ok faults (fun env => repository_increment env _ _ _ _)) in Hn as [Hn _].
  apply increment_used in Hn as [-> Hused]. apply throwIf_ok, Z.ltb_ge in Hlim.
  unfold limit_key. rewrite <- Hwin, Hused. split; [done|exact Hlim].
Qed.

(** C33: at most [limit] requests are admitted per subject and window, whatever
    other operations run in between, whatever fails, and however many
    requests there are. *)
Theorem rate_limit_bound steps w :
  auth_ok (aw_db w) -> Forall in_window steps -> 0 <= limit -> admitted steps w <= limit.
Proof.
  intros Hok Hin Hlim.
  cut (admitted steps w <= Z.max 0 (limit - used limit_key (aw_db w))).
  { pose proof (used_nonneg limit_key _ Hok). lia. }
  revert w Hok. induction Hin as [|[now|o env] steps Hs Hin IH]; intros w Hok; simpl; [lia| |].
  - pose proof (limited_sound now w Hok) as [Hok' He]. pose proof (used_evolves limit_key _ _ Hok' He) as Hle.
    destruct (limited now w) as [[[]|x] w'] eqn:Hrun; simpl in *; specialize (IH w' Hok'); [|lia].
    apply limited_ok in Hrun as [Hu Hmax]; [|done]. lia.
  - pose proof (run_op_sound sessionKeyVersions env o (aw_db w) Hok) as [Hok' He].
    pose proof (used_evolves limit_key _ _ Hok' He) as Hle.
    specialize (IH (on_database (run_op sessionKeyVersions env o) w) Hok'). simpl in IH. lia.
Qed.
End limits.

(** ** Without faults *)

Definition no_faults : nat -> nat -> TxAttempt := fun _ _ => quietAttempt.

Lemma call_quiet {A} (op : (nat -> TxAttempt) -> AM A) w a d :
  op (fun _ => quietAttempt) (aw_db w) = (Ok a, d) ->
  call no_faults op w = (Ok a, {| aw_db := d; aw_notifications := aw_notifications w; aw_tokens := aw_tokens w;
                                  aw_calls := S (aw_calls w) |}).
Proof.
  intros Hop. unfold call. change (no_faults (aw_calls w)) with (fun _ : nat => quietAttempt). by rewrite Hop.
Qed.

Lemma increment_quiet key bucket from until d :
  from < until -> 0 <= used key d < 2147483647 ->
  exists b, rl_attempt_count b = used key d + 1 /\
    repository_increment (fun _ => quietAttempt) key bucket (Some from) (Some until) d
    = (Ok (used key d + 1), with_bucket (<[key := b]>) d).
Proof.
  intros Hlt Hused. unfold repository_increment.
  assert (Hlt' : (from <? until) = true) by by apply Z.ltb_lt.
  destruct (ad_bucket d !! key) as [row|] eqn:Hrow.
  - eexists {| rl_bucket := rl_bucket row; rl_attempt_count := rl_attempt_count row + 1;
               rl_window_started_at := rl_window_started_at row; rl_expires_at := rl_expires_at row |}.
    unfold used in *. rewrite Hrow in *. split; [done|]. apply statement_quiet.
    unfold bindP, lift, throwWhen, throwIf, bucket_checks, gets, id, int4, bindTimestamp. simpl.
    rewrite Hlt', Hrow. simpl. unfold throwIf. destruct (_ && _) eqn:Hr; [done|].
    apply andb_false_iff in Hr. rewrite !Z.leb_gt in Hr. lia.
  - eexists {| rl_bucket := bucket; rl_attempt_count := 1; rl_window_started_at := from; rl_expires_at := until |}.
    unfold used in *. rewrite Hrow in *. split; [done|]. apply statement_quiet.
    unfold bindP, lift, throwWhen, throwIf, bucket_checks, gets, id, bindTimestamp. simpl.
    by rewrite Hlt', Hrow.
Qed.

Definition after_call (d : AuthDb) (w : AuthWorld) : AuthWorld := {|
  aw_db := d; aw_notifications := aw_notifications w; aw_tokens := aw_tokens w; aw_calls := S (aw_calls w) |}.

Lemma newDate_within t : Z.abs t <= maxTime -> newDate t = Some t.
Proof. intros Ht. unfold newDate. by rewrite (proj2 (Z.leb_le _ _) Ht). Qed.

Section quiet.
Context `{AuthCrypto} (secret : string) (bucket : RateBucket) (subject : string).

Lemma limited_quiet windowMs limit now w (key := limit_key secret bucket subject (now / windowMs)) :
  0 < windowMs -> 0 <= now -> now + windowMs <= maxTime -> 0 <= used key (aw_db w) < 2147483647 ->
  exists b, rl_attempt_count b = used key (aw_db w) + 1 /\
    limited no_faults secret bucket subject windowMs limit now w
    = (throwIf (limit <? used key (aw_db w) + 1) (AuthError RATE_LIMITED),
       after_call (with_bucket (<[key := b]>) (aw_db w)) w).
Proof.
  intros Hms Hnow Hmax Hused.
  pose proof (Z.mul_div_le now windowMs Hms). pose proof (Z.mod_pos_bound now windowMs Hms).
  pose proof (Z.div_pos now windowMs Hnow Hms). set (n := now / windowMs) in *.
  assert (0 <= n * windowMs) by nia. assert (n * windowMs <= now) by lia.
  destruct (increment_quiet key (bucket_name bucket) (n * windowMs) (n * windowMs + windowMs) (aw_db w))
    as (b & Hb & Hinc); [lia|exact Hused|].
  exists b. split; [done|]. unfold limited, requireWithinLimit. fold n.
  rewrite (newDate_within (n * windowMs)) by lia. unfold after_date.
  rewrite (newDate_within (n * windowMs + windowMs)) by lia.
  pose proof (call_quiet (fun env => repository_increment env key (bucket_name bucket) _ _) _ _ _ Hinc) as Hcall.
  unfold bindP at 1. change (rate_key secret bucket subject n) with key. unfold increment. simpl.
  rewrite Hcall. unfold throwWhen, lift. by destruct (limit <? _).
Qed.
End quiet.

Section exact.
Context `{Platform} `{AuthCrypto} (sessionKeyVersions : TrustDomain -> string).
Context (secret : string) (bucket : RateBucket) (subject : string).

(** Without faults and while the counter fits its column, the limit
    admits exactly the requests it has left: of a list of requests in one
    window, as many as there are, up to the limit less those already
    counted. *)
Theorem rate_limit_exact windowMs limit window nows w :
  0 < windowMs -> auth_ok (aw_db w) ->
  Forall (fun now => 0 <= now /\ now + windowMs <= maxTime /\ now / windowMs = window) nows ->
  used (limit_key secret bucket subject window) (aw_db w) + Z.of_nat (length nows) <= 2147483647 ->
  admitted sessionKeyVersions no_faults secret bucket subject windowMs limit (Request <$> nows) w
  = Z.min (Z.of_nat (length nows))
      (Z.max 0 (limit - used (limit_key secret bucket subject window) (aw_db w))).
Proof.
  intros Hms Hok Hnows. revert w Hok. induction Hnows as [|now nows (Hnow & Hmax & Hwin) Hnows IH]; intros w Hok Hlen.
  { simpl. lia. }
  pose proof (used_nonneg (limit_key secret bucket subject window) _ Hok) as Hnn. simpl in Hlen.
  destruct (limited_quiet secret bucket subject windowMs limit now w Hms Hnow Hmax) as (b & Hb & Hrun).
  { rewrite Hwin. lia. }
  pose proof (limited_sound no_faults secret bucket subject windowMs limit now w Hok) as [Hok' _].
  rewrite Hrun in Hok'. simpl in Hok'. simpl. rewrite Hrun, Hwin in *.
  rewrite IH; [|exact Hok'|]; clear IH.
  - assert (Hu : used (limit_key secret bucket subject window)
             (with_bucket (<[limit_key secret bucket subject window := b]>) (aw_db w)) = rl_attempt_count b).
    { unfold used. simpl. by rewrite lookup_insert_eq. }
    simpl. rewrite Hu, Hb. unfold throwIf. destruct (Z.ltb_spec limit
      (used (limit_key secret bucket subject window) (aw_db w) + 1)); simpl; lia.
  - simpl. unfold used at 1. simpl. rewrite lookup_insert_eq, Hb. lia.
Qed.
End exact.

(** ** Sign-in and recovery by e-mail *)

(** A challenge for an account of its domain is stored. *)
Lemma createChallenge_quiet r d i a e :
  auth_ok d -> ad_account d !! i = Some a -> aa_trust_domain a = ch_trustDomain r ->
  ch_accountReference r = Some (aa_external_reference a) -> ch_expiresAt r = Some e -> ch_createdAt r < e ->
  ch_kind r <> passkey_authentication ->
  needs_destination (ch_kind r) = negb (is_null (ch_destinationReference r)) ->
  bool_decide (ch_kind r = email_change) = negb (is_null (ch_lookupDigest r)) ->
  ad_challenge d !! ch_id r = None ->
  (forall j c, ad_challenge d !! j = Some c -> ac_secret_digest c <> ch_secretDigest r) ->
  exists d', createChallenge (fun _ => quietAttempt) r d = (Ok tt, d').
Proof.
  intros Hok Hi Hdom Href Hexp Hlt Hkind Hdest Hlook Hid Hsec.
  destruct (table_good _ _ _ _ (ok_account d Hok) i a Hi) as [_ Hne].
  assert (Hacc : account (aa_external_reference a) (Some (ch_trustDomain r)) d = (Ok a, d)).
  { unfold account, bindP, gets.
    rewrite (select_unique _ aa_external_reference _ i a (table_unique _ _ _ _ (ok_account d Hok)) Hi); [done| |].
    - unfold has_reference. by rewrite String.eqb_refl, Hdom, bool_decide_eq_true_2.
    - intros x [Hx%String.eqb_eq _]%andb_true_iff. done. }
  eexists. apply transaction_quiet. unfold createChallenge_tx. rewrite Href. simpl. unfold falsy_string.
  rewrite (proj2 (String.eqb_neq _ _) Hne). unfold bindP. rewrite Hacc. unfold lift, ret, bindTimestamp.
  rewrite Hexp. unfold insertChallenge, bindP, gets, id, throwWhen, lift, throwIf. simpl.
  unfold domain_match. rewrite (table_keys _ _ _ _ (ok_account d Hok) i a Hi), Hi, bool_decide_eq_true_2 by done.
  simpl. unfold challenge_checks. simpl. rewrite (proj2 (Z.ltb_lt _ _) Hlt), Hdest, Hlook, Hid.
  rewrite bool_decide_eq_false_2 by done. rewrite !eqb_reflx. simpl.
  destruct (some (rows (ad_challenge d)) _) eqn:Hs; [|reflexivity].
  apply some_true in Hs as (c & (j & Hj)%rows_in & Hc%String.eqb_eq). by destruct (Hsec j c Hj).
Qed.

Section email.
Context `{Platform} `{AuthCrypto} (token : nat -> string) (rateSecret : string) (secrets : TrustDomain -> string).
#[local] Instance quiet_directory : VerifiedEmailDirectory AuthWorld := world_directory no_faults.
#[local] Instance quiet_challenges : AuthChallengeStore AuthWorld := world_challenges no_faults.
#[local] Instance quiet_rates : RateLimitStore AuthWorld := world_rates no_faults.
#[local] Existing Instance world_sink.
#[local] Instance draws : Randomness AuthWorld := world_random token.

(** The draws of the next request are new. *)
Record fresh_draws (t : TrustDomain) (w : AuthWorld) : Prop := {
  fresh_id : ad_challenge (aw_db w) !! randomUUID (db_ids (ad_base (aw_db w))) = None;
  fresh_token : forall i c, ad_challenge (aw_db w) !! i = Some c ->
                ac_secret_digest c <> keyedDigest (secrets t) (token (aw_tokens w));
}.

Lemma directory_quiet t lookup w :
  exists found, findByLookupDigest t lookup w = (Ok found, after_call (aw_db w) w) /\
  forall ve, found = Some ve -> exists i a, ad_account (aw_db w) !! i = Some a /\ aa_trust_domain a = t
    /\ ve_accountReference ve = aa_external_reference a.
Proof.
  eexists. split; [apply (call_quiet (fun env => repository_findByLookupDigest env t lookup)), statement_quiet;
                   reflexivity|].
  intros ve (c & (j & Hj & Hp)%select_one_some & Hve)%bind_Some.
  apply fmap_Some in Hve as (a & Ha & ->). exists (ct_auth_account_id c), a. split_and!; [done| |done].
  unfold contact_lookup in Hp. rewrite Ha, !andb_true_iff, bool_decide_eq_true in Hp. tauto.
Qed.

Lemma begin_challenge_generic kind t lookup now lifetimeMs w :
  auth_ok (aw_db w) -> 0 <= now -> 0 < lifetimeMs -> now + lifetimeMs <= maxTime -> fresh_draws t w ->
  fst (begin_challenge secrets kind t lookup now lifetimeMs w) = Ok genericResponse.
Proof.
  intros Hok Hnow Hlife Hmax [Hid Htok]. unfold begin_challenge.
  destruct (directory_quiet t lookup w) as (found & Hfind & Hfound). unfold bindP at 1. rewrite Hfind.
  destruct found as [ve|]; [|done]. destruct (Hfound ve eq_refl) as (i & a & Ha & Ht & Hve).
  destruct (negb _); [done|]. rewrite newDate_within by lia.
  unfold bindP, generateOpaqueToken, newAuthId, draws, world_random, fresh, on_base, newId. simpl.
  set (d := with_base _ (aw_db w)).
  assert (Hok' : auth_ok d) by (apply (sound_step_tables (aw_db w) d eq_refl), Hok).
  match goal with |- context [call no_faults (fun env => createChallenge env ?r) ?w1] =>
    destruct (createChallenge_quiet r d i a (now + lifetimeMs) Hok' Ha Ht ltac:(simpl; by rewrite Hve) eq_refl)
      as [d' Hcreate]; [simpl; lia|by destruct kind|by destruct kind|by destruct kind|done|done|];
    by rewrite (call_quiet (fun env => createChallenge env r) w1 _ _ Hcreate)
  end.
Qed.

(** The answer to a request for sign-in or recovery by e-mail does not
    depend on the e-mail: without faults it is the generic one, unless the
    requester's network has used up its own limit; whether an account has
    the address, in which state, and how often it was tried is not told. *)
Theorem begin_generic kind t email network now lifetimeMs w
    (key := limit_key rateSecret (network_bucket kind) network (now / windowMs_15min)) :
  auth_ok (aw_db w) -> fresh_draws t w -> 0 <= now -> now + windowMs_15min <= maxTime ->
  0 < lifetimeMs -> now + lifetimeMs <= maxTime -> (forall k, used k (aw_db w) < 2147483646) ->
  fst (begin rateSecret secrets kind t email network now lifetimeMs w)
  = if 20 <=? used key (aw_db w) then Err (AuthError RATE_LIMITED) else Ok genericResponse.
Proof.
  intros Hok Hfresh Hnow Hwin Hlife Hmax Hused. unfold begin, quiet_rates.
  destruct (limited_quiet rateSecret (network_bucket kind) network windowMs_15min 20 now w) as (b & Hb & Hnet);
    [done|done|done|split; [by apply used_nonneg|specialize (Hused key); fold key; lia]|].
  pose proof (limited_sound no_faults rateSecret (network_bucket kind) network windowMs_15min 20 now w Hok) as [Hok1 _].
  fold key in Hb, Hnet. unfold limited in Hnet, Hok1. rewrite Hnet in Hok1. unfold bindP at 1. rewrite Hnet.
  set (w1 := after_call _ w) in *. unfold throwIf.
  replace (20 <? used key (aw_db w) + 1) with (20 <=? used key (aw_db w)) by (destruct (Z.leb_spec 20 (used key (aw_db w))),
    (Z.ltb_spec 20 (used key (aw_db w) + 1)); lia).
  destruct (20 <=? _); [done|]. simpl in Hok1.
  set (lookup := normalizeEmailForLookup email (secrets t)).
  destruct (limited_quiet rateSecret (account_bucket kind) lookup windowMs_15min 5 now w1) as (b' & Hb' & Hacc);
    [done|done|done|split; [by apply used_nonneg|]|].
  { unfold used at 1. simpl. set (k := limit_key _ _ _ _). destruct (decide (key = k)) as [<-|Hne].
    - rewrite lookup_insert_eq, Hb. specialize (Hused key). lia.
    - rewrite lookup_insert_ne by done. specialize (Hused k). unfold used in Hused. lia. }
  pose proof (limited_sound no_faults rateSecret (account_bucket kind) lookup windowMs_15min 5 now w1 Hok1) as [Hok2 _].
  unfold limited in Hacc, Hok2. rewrite Hacc in Hok2. unfold bindP, catch. rewrite Hacc. unfold throwIf.
  destruct (5 <? _); simpl; [done|]. apply begin_challenge_generic; auto. by destruct Hfresh.
Qed.
End email.

(** ** A completed recovery *)

Lemma account_kept_by_tx {A} env (work : AM A) d a d' :
  keeps ad_account work -> inSerializableTransaction env work d = (Ok a, d') -> ad_account d' = ad_account d.
Proof.
  intros Hk Hrun. apply auth_transaction_ok in Hrun as (d0 & Hsame & Hrun).
  rewrite (keeps_run _ _ _ _ _ Hk Hrun). unfold same_auth, auth_tables in Hsame. congruence.
Qed.

Lemma createChallenge_account r : keeps ad_account (createChallenge_tx r).
Proof. unfold createChallenge_tx, account, insertChallenge. keeps_steps. Qed.

Section recovery.
Context `{Platform} `{AuthCrypto} (sessionKeyVersions : TrustDomain -> string).
Context (faults : nat -> nat -> TxAttempt) (token : nat -> string) (secrets : TrustDomain -> string).

Lemma recover_effect env input d n d' :
  repository_recover env input d = (Ok n, d') ->
  exists i a, ad_account d !! i = Some a /\ aa_external_reference a = ri_accountReference input
    /\ aa_trust_domain a = ri_trustDomain input
    /\ (aa_state a = as_active \/ aa_state a = as_locked)
    /\ ad_account d' !! i = Some (account_recovered_as (ri_committeeReviewRequired input) (ri_at input) a).
Proof.
  intros (d0 & Hsame & Hrun)%auth_transaction_ok. unfold same_auth, auth_tables in Hsame.
  apply bindP_ok in Hrun as (a & d1 & (-> & i & Hi & Href)%account_found & Hrun).
  apply bindP_ok in Hrun as (? & d1 & [Hst <-]%pair_equal_spec & Hrun).
  apply bindP_ok in Hrun as (m & d2 & (_ & -> & _)%updateSessions_ok & Hrun).
  apply bindP_ok in Hrun as (? & d3 & ->%updateAccounts_ok & Hrun).
  apply bindP_ok in Hrun as (? & d4 & Haud%on_base_tables & [= _ ->]). unfold same_auth, auth_tables in Haud.
  apply andb_true_iff in Href as [Href%String.eqb_eq Ht%bool_decide_eq_true].
  exists i, a. split_and!; [congruence|done..| |].
  - apply throwIf_ok, andb_false_iff in Hst. rewrite !negb_false_iff, !bool_decide_eq_true in Hst. exact Hst.
  - assert (ad_account d' = (fun b => if by_id (aa_id a) b
      then account_recovered_as (ri_committeeReviewRequired input) (ri_at input) b else b) <$> ad_account d0) as ->.
    { simpl in Haud. congruence. }
    apply update_lookup. exists a. unfold by_id. by rewrite String.eqb_refl.
Qed.

(** A completed recovery leaves the account of its domain active with a
    grant to enroll a passkey when it is a participant's; a committee
    account gets no grant and is suspended, and in every later history of
    the repository's operations it stays exactly so unless an access of it
    to a committee is activated in that history. *)
Theorem recovery_outcome t tk now grantMs policy software correlation w rc w' :
  @completeRecovery AuthWorld (world_challenges faults) world_sink (world_recovery faults) (world_random token) _
    secrets t tk now grantMs policy software correlation w = (Ok rc, w') ->
  auth_ok (aw_db w) ->
  exists i a, ad_account (aw_db w') !! i = Some a /\ aa_external_reference a = rc_accountReference rc
    /\ aa_trust_domain a = t /\
    match t with
    | td_participant => aa_state a = as_active /\ rc_recoveryGrant rc <> None
    | td_committee => aa_state a = as_suspended /\ rc_recoveryGrant rc = None /\
        forall ops (d' := run_ops sessionKeyVersions ops (aw_db w')),
          ad_account d' !! i = Some a \/
          exists j, active_access d' i j /\ ~ active_access (aw_db w') i j
    end.
Proof.
  intros Hrun Hok. unfold completeRecovery in Hrun. apply bindP_ok in Hrun as (c & w1 & Hc & Hrun).
  apply (call_ok faults (fun env => consume env _ _ _ _ _)) in Hc as [Hc _].
  pose proof (sound_ok _ _ _ _ (consume_sound _ _ _ _ _ _) Hok Hc) as Hok1. clear Hc Hok.
  destruct (challenge_account c) as [reference|]; [|done].
  destruct (challenge_destination c) as [destination|]; [|done].
  apply bindP_ok in Hrun as (n & w2 & Hr & Hrun).
  apply (call_ok faults (fun env => repository_recover env _)) in Hr as [Hr _].
  pose proof (sound_ok _ _ _ _ (recover_sound _ _) Hok1 Hr) as Hok2.
  apply recover_effect in Hr as (i & a & Hi & Href & Ht & Hst & Hi'). simpl in Href, Ht, Hi'.
  apply bindP_ok in Hrun as (? & w3 & [= _ <-] & Hrun). exists i. destruct t; simpl in *.
  - apply bindP_ok in Hrun as (grant & w4 & [= <- <-] & Hrun).
    apply bindP_ok in Hrun as (cid & w5 & Hid & Hrun). unfold newAuthId, world_random in Hid. simpl in Hid.
    injection Hid as <- <-. apply bindP_ok in Hrun as (? & w6 & Hcreate & [= <- <-]).
    apply (call_ok faults (fun env => createChallenge env _)) in Hcreate as [Hcreate _].
    eapply account_kept_by_tx in Hcreate; [|apply createChallenge_account]. rewrite Hcreate. simpl.
    eexists. split; [exact Hi'|]. simpl. by split_and!.
  - injection Hrun as <- <-. simpl in *. eexists. split; [exact Hi'|]. simpl. split_and!; try done.
    intros ops. destruct (run_ops_evolve sessionKeyVersions ops _ Hok2) as [_ He].
    pose proof (table_keys _ _ _ _ (ok_account _ Hok2) i _ Hi') as <-.
    destruct (ev_account _ _ He _ _ Hi') as (a' & Ha' & [->|([[Ho|Ho]|[_ Hact]] & _)]);
      [by left|done|done|by right].
Qed.
End recovery.
