(* ===== verification/SignInFacts.v ===== *)
(** * SignInFacts: a session just issued authenticates.

    The round trip of a token: what [issue] hands out is accepted by
    [authenticate] until the idle and the absolute expiry, as the account it
    was issued to. *)
From S2P Require Import Prelude Errors Text Json JsonParse Database AuthDatabase Authorization Consent Auth.
From S2P Require Import Passkey AuthRepository AuthSystem AuthInvariant AuthFacts RecoveryFacts.
Local Open Scope Z_scope.

Lemma update_rows_accepts {R} checks (p : R -> bool) f (m : gmap string R) :
  (forall i r, m !! i = Some r -> p r = true -> checks (f r) = true) ->
  exists n, update_rows checks p f m = Ok (n, (fun r => if p r then f r else r) <$> m).
Proof.
  intros Hc. eexists. unfold update_rows.
  assert (forallb (fun r => negb (p r) || checks (f r)) (rows m) = true) as ->; [|reflexivity].
  apply forallb_forall. intros r (i & Hi)%list_elem_of_In%rows_in.
  destruct (p r) eqn:Hp; [|done]. by rewrite (Hc i r Hi Hp).
Qed.

Section signin.
Context `{Platform} `{AuthCrypto} (sessionKeyVersions : TrustDomain -> string).
Context (faults : nat -> nat -> TxAttempt) (token : nat -> string) (configs : TrustDomain -> TrustDomainConfig).

(** The row a session record is stored as. *)
Definition stored_as (r : SessionRecord) (s : AuthSessionRow) : Prop :=
  as_row_id s = sr_id r /\ as_trust_domain s = sr_trustDomain r /\ as_audience s = sr_audience r
  /\ as_token_digest s = sr_tokenDigest r /\ as_authenticated_at s = sr_authenticatedAt r
  /\ Some (as_idle_expires_at s) = sr_idleExpiresAt r /\ Some (as_absolute_expires_at s) = sr_absoluteExpiresAt r
  /\ as_state s = ss_active /\ as_revoked_at s = None /\ as_revocation_reason s = None.

Lemma createSession_effect env r d d' :
  createSession sessionKeyVersions env r d = (Ok tt, d') -> auth_ok d ->
  exists s a, ad_session d' !! sr_id r = Some s /\ stored_as r s
    /\ ad_account d' !! as_account_id s = Some a /\ aa_external_reference a = sr_accountReference r
    /\ aa_state a = as_active.
Proof.
  intros (d0 & Hsame & Hrun)%auth_transaction_ok Hok. pose proof (auth_ok_same _ _ Hsame Hok) as Hok0.
  apply bindP_ok in Hrun as (a & d1 & (-> & i & Hi & Href)%account_found & Hrun).
  apply bindP_ok in Hrun as (? & d1 & [Hst <-]%pair_equal_spec & Hrun).
  apply bindP_ok in Hrun as (idle & d1 & [= Hidle <-] & Hrun).
  apply bindP_ok in Hrun as (absolute & d1 & [= Habs <-] & Hrun).
  apply bindP_ok in Hrun as (d1 & d2 & [= <- <-] & Hrun).
  apply bindP_ok in Hrun as (? & d1 & [_ <-]%pair_equal_spec & Hrun).
  apply bindP_ok in Hrun as (? & d1 & [_ <-]%pair_equal_spec & Hrun).
  apply bindP_ok in Hrun as (? & d1 & [_ <-]%pair_equal_spec & [= <-]). simpl.
  rewrite lookup_insert_eq. eexists _, a. split; [reflexivity|]. unfold stored_as. simpl.
  apply throwIf_ok, negb_false_iff, bool_decide_eq_true in Hst.
  apply andb_true_iff in Href as [Href%String.eqb_eq _].
  rewrite (table_keys _ _ _ _ (ok_account _ Hok0) i a Hi).
  destruct (sr_idleExpiresAt r) as [idle0|]; [|done]. destruct (sr_absoluteExpiresAt r) as [absolute0|]; [|done].
  injection Hidle as ->. injection Habs as ->. by split_and!.
Qed.

(** An active session of an active account, before its expiries. *)
Lemma authenticate_quiet i s a t tk now w :
  auth_ok (aw_db w) -> ad_session (aw_db w) !! i = Some s -> ad_account (aw_db w) !! as_account_id s = Some a ->
  aa_state a = as_active -> as_trust_domain s = t -> tk <> "" ->
  as_token_digest s = keyedDigest (tc_sessionSecret (configs t)) tk -> as_audience s = tc_audience (configs t) ->
  as_state s = ss_active -> as_authenticated_at s <= now -> now < as_idle_expires_at s ->
  now < as_absolute_expires_at s ->
  Z.abs (Z.min (now + tc_idleTimeoutMs (configs t)) (as_absolute_expires_at s)) <= maxTime ->
  exists r w', @authenticate AuthWorld (world_sessions sessionKeyVersions no_faults) _ configs t (Some tk) now w
    = (Ok r, w') /\ sr_id r = as_row_id s /\ sr_accountReference r = aa_external_reference a.
Proof.
  intros Hok Hi Ha Hact Ht Htk Hdig Haud Hst Hauth Hidle Habs Hmax.
  assert (Hchk : session_checks s = true) by (eapply (ok_session _ Hok); eauto).
  assert (Hrev : as_revoked_at s = None /\ as_revocation_reason s = None).
  { unfold session_checks in Hchk. rewrite Hst, !andb_true_iff in Hchk. destruct Hchk as [[_ [Hr Hc]] _].
    by destruct (as_revoked_at s), (as_revocation_reason s). }
  set (idle := Z.min (now + tc_idleTimeoutMs (configs t)) (as_absolute_expires_at s)) in *.
  unfold authenticate. simpl. unfold falsy_string. rewrite (proj2 (String.eqb_neq _ _) Htk).
  assert (Hfind : findByTokenDigest (fun _ => quietAttempt) t (keyedDigest (tc_sessionSecret (configs t)) tk) (aw_db w)
                  = (Ok (Some (mapSession (aa_external_reference a) s)), aw_db w)).
  { apply statement_quiet. unfold gets.
    rewrite (select_unique _ as_token_digest _ i s (table_unique _ _ _ _ (ok_session _ Hok)) Hi).
    - unfold joined_session. simpl. by rewrite Ha.
    - unfold session_lookup. rewrite Ha, Ht, Hdig, String.eqb_refl. by rewrite !bool_decide_eq_true_2.
    - unfold session_lookup. intros x Hx. rewrite !andb_true_iff, String.eqb_eq in Hx. destruct Hx as [[_ Hx] _].
      congruence. }
  unfold bindP at 1. rewrite (call_quiet (fun env => findByTokenDigest env t _) _ _ _ Hfind). simpl.
  unfold bindP at 1, throwWhen, lift, throwIf. rewrite Haud, String.eqb_refl. simpl.
  unfold bindP at 1. rewrite (proj1 Hrev).
  rewrite (proj2 (Z.leb_gt _ _) Hidle), (proj2 (Z.leb_gt _ _) Habs). simpl. fold idle.
  rewrite (newDate_within idle Hmax).
  set (w1 := {| aw_db := aw_db w; aw_notifications := _; aw_tokens := _; aw_calls := _ |}).
  destruct (update_rows_accepts session_checks (fun x => String.eqb (as_row_id x) (as_row_id s) && session_active x)
              (session_touched idle now) (ad_session (aw_db w))) as [n Hupdate].
  { intros j x Hj [Hx%String.eqb_eq _]%andb_true_iff. destruct (ok_session _ Hok) as [Hk _ _].
    assert (j = i) as -> by (rewrite <- (Hk j x Hj), <- (Hk i s Hi); done).
    assert (x = s) as -> by congruence. unfold session_checks in *. simpl. rewrite Hst in *.
    destruct Hrev as [-> ->]. rewrite !andb_true_iff in *. destruct Hchk as [_ Hstrong].
    rewrite !Z.leb_le, Z.ltb_lt. split_and!; try done; lia. }
  assert (Htouch : exists d', touch (fun _ => quietAttempt) (as_row_id s) (Some idle) now (aw_db w) = (Ok tt, d')).
  { eexists. apply statement_quiet. unfold bindP, lift, bindTimestamp, updateSessions, gets, id.
    unfold bindP, lift. rewrite Hupdate. reflexivity. }
  destruct Htouch as [d' Htouch]. unfold bindP.
  rewrite (call_quiet (fun env => touch env _ (Some idle) now) w1 _ _ Htouch). simpl.
  eexists _, _. by split_and!.
Qed.

(** The token a session was issued with authenticates as the account it
    was issued to, at every time before the idle and the absolute expiry;
    whatever failed while it was issued. *)
Theorem issued_session_authenticates account t strength label now prior w issued w1 now' :
  @issue AuthWorld (world_sessions sessionKeyVersions faults) (world_random token) _ configs
    account t strength label now prior w = (Ok issued, w1) ->
  auth_ok (aw_db w) -> is_token issued <> "" -> 0 <= now <= now' -> now' < now + tc_idleTimeoutMs (configs t) ->
  now' < now + tc_absoluteTimeoutMs (configs t) ->
  exists r w2, @authenticate AuthWorld (world_sessions sessionKeyVersions no_faults) _ configs t
    (Some (is_token issued)) now' w1 = (Ok r, w2)
    /\ sr_id r = sr_id (is_record issued) /\ sr_accountReference r = account.
Proof.
  intros Hrun Hok Htk Hnow Hidle Habs. unfold issue in Hrun.
  apply bindP_ok in Hrun as (? & wa & [_ <-]%pair_equal_spec & Hrun).
  apply bindP_ok in Hrun as (? & wb & Hprior & Hrun).
  assert (Hokb : auth_ok (aw_db wb)).
  { destruct (nonempty prior) as [p|]; [|by injection Hprior as _ <-].
    apply (call_ok faults (fun env => revoke env _ _ _)) in Hprior as [Hprior _].
    exact (sound_ok _ _ _ _ (revoke_sound _ _ _ _) Hok Hprior). }
  apply bindP_ok in Hrun as (tk & wc & [= <- <-] & Hrun). apply bindP_ok in Hrun as (csrf & wd & [= <- <-] & Hrun).
  apply bindP_ok in Hrun as (i & we & Hid & Hrun). unfold newAuthId, world_random in Hid. simpl in Hid.
  injection Hid as <- <-. apply bindP_ok in Hrun as ([] & wf & Hcreate & [= <- <-]). simpl in *.
  apply (call_ok faults (fun env => createSession sessionKeyVersions env _)) in Hcreate as [Hcreate _]. simpl in Hcreate.
  assert (Hokd : auth_ok (with_base (with_ids (S (db_ids (ad_base (aw_db wb)))) (ad_base (aw_db wb))) (aw_db wb))).
  { by refine (proj1 (sound_step_tables (aw_db wb) _ _ Hokb)). }
  pose proof (sound_ok _ _ _ _ (createSession_sound _ _ _) Hokd Hcreate) as Hok1.
  destruct (createSession_effect _ _ _ _ Hcreate Hokd)
    as (s & a & Hs & (H1 & H2 & H3 & H4 & H5 & H6 & H7 & H8 & _) & Ha & Href & Hact). simpl in *.
  unfold newDate in H6, H7. destruct (Z.leb_spec (Z.abs (now + tc_idleTimeoutMs (configs t))) maxTime); [|done].
  destruct (Z.leb_spec (Z.abs (now + tc_absoluteTimeoutMs (configs t))) maxTime); [|done].
  injection H6 as H6. injection H7 as H7.
  destruct (authenticate_quiet _ s a t (token (aw_tokens wb)) now' wf Hok1 Hs Ha Hact H2 Htk H4 H3 H8)
    as (r & w2 & Hrun & Hid & Hacc); [lia..|].
  exists r, w2. split_and!; congruence.
Qed.
End signin.
