(* ===== verification/AuthExamples.v ===== *)
(** * AuthExamples: concrete runs of the authentication services.

    A small database built by the repository's own operations, and the
    theorems of Authorization.v, AuthFacts.v, CommitteeFacts.v, RecoveryFacts.v
    and SignInFacts.v applied on it. *)
From S2P Require Import Prelude Errors Lifecycles Text Json JsonParse Database AuthDatabase Authorization Consent Auth.
From S2P Require Import Passkey AuthRepository AuthSystem AuthInvariant AuthFacts CommitteeFacts RecoveryFacts.
From S2P Require Import SignInFacts.
Local Open Scope Z_scope.

#[local] Existing Instance SamplePlatform.platform.
#[local] Instance crypto : AuthCrypto := {
  hmac_sha256 secret v := secret +:+ "/" +:+ v;
  lookup_text email := email;
}.

Definition keyVersions (t : TrustDomain) : string := "v1".
Definition quiet : nat -> TxAttempt := fun _ => quietAttempt.
Definition tokens (n : nat) : string := String.append "token" (String.concat "" (replicate n "+")).

Definition config (t : TrustDomain) : TrustDomainConfig := {|
  tc_domain := t; tc_audience := SESSION_AUDIENCES t; tc_cookieName := "__Host-" +:+ domain_name t;
  tc_origin := "https://app.example"; tc_relyingPartyId := "app.example"; tc_sessionSecret := domain_name t;
  tc_idleTimeoutMs := 1000; tc_absoluteTimeoutMs := 5000; tc_privilegedReauthenticationMs := 500;
  tc_sameSite := Strict |}.
Definition secrets (t : TrustDomain) : string := domain_name t.

Definition emptyCommitteeTables : CommitteeTables := {|
  mt_policy_version := ∅; mt_committee_member := ∅; mt_conflict_declaration := []; mt_committee_role := ∅;
  mt_committee_member_role := []; mt_verification_session := ∅; mt_access := ∅; mt_assignment := ∅ |}.

Definition emptyAuthDb : AuthDb := {|
  ad_base := SamplePlatform.emptyDb; ad_participant := {[ "participant_0001" := "p1" ]}; ad_account := ∅;
  ad_session := ∅; ad_challenge := ∅; ad_bucket := ∅; ad_contact := ∅; ad_passkey := ∅;
  ad_committee := emptyCommitteeTables |}.

Lemma emptyAuthDb_ok : auth_ok emptyAuthDb.
Proof. split; [split| |intros ??|split| |split|split|split]; try intros ??; try done. all: try intros ???; try done. Qed.

(** A participant and a committee account, each with an e-mail, a session
    and a passkey. *)
Definition session_record (i reference : string) (t : TrustDomain) (s : AuthenticationStrength) : SessionRecord := {|
  sr_id := i; sr_accountReference := reference; sr_trustDomain := t; sr_audience := SESSION_AUDIENCES t;
  sr_tokenDigest := keyedDigest (domain_name t) i; sr_csrfDigest := "csrf"; sr_authenticationStrength := s;
  sr_authenticatedAt := 100; sr_reauthenticatedAt := Some 100; sr_idleExpiresAt := Some 1100;
  sr_absoluteExpiresAt := Some 5100; sr_revokedAt := None; sr_deviceLabel := "laptop" |}.
Definition credential (c reference : string) (t : TrustDomain) : StoredPasskeyCredential := {|
  pc_credentialReference := c; pc_accountReference := reference; pc_trustDomain := t;
  pc_relyingPartyId := "app.example"; pc_publicKey := [1]; pc_counter := 3; pc_transports := ["usb"];
  pc_deviceType := multiDevice; pc_backedUp := true; pc_deviceLabel := "key"; pc_state := pk_active |}.
Definition recovery_challenge (i reference : string) (t : TrustDomain) : AuthChallengeRecord := {|
  ch_id := i; ch_accountReference := Some reference; ch_trustDomain := t; ch_kind := account_recovery;
  ch_secretDigest := keyedDigest (domain_name t) i; ch_destinationReference := Some "mailbox_0001";
  ch_lookupDigest := None; ch_expiresAt := Some 900; ch_createdAt := 100 |}.

Definition setup : list (AuthOp * (nat -> TxAttempt)) := (fun o => (o, quiet)) <$>
  [OCreateAccount "account_0001" td_participant (Some "participant_0001") (Some as_active) 0;
   OCreateAccount "account_0002" td_committee None (Some as_active) 0;
   ORegisterEmail "account_0001" (Some "participant_0001") "mailbox_0001" (keyedDigest "participant" "a@b") 10;
   OCreateSession (session_record "s1" "account_0001" td_participant verified_email);
   OCreateSession (session_record "s2" "account_0002" td_committee passkey);
   OSavePasskey (credential "cred1" "account_0001" td_participant) 100;
   OCreateChallenge (recovery_challenge "r1" "account_0001" td_participant);
   OCreateChallenge (recovery_challenge "r2" "account_0002" td_committee)].

Definition sampleDb : AuthDb := run_ops keyVersions setup emptyAuthDb.
Definition world (d : AuthDb) : AuthWorld :=
  {| aw_db := d; aw_notifications := []; aw_tokens := 0; aw_calls := 0 |}.
Definition sample : AuthWorld := world sampleDb.

Lemma sampleDb_ok : auth_ok sampleDb.
Proof. apply run_ops_evolve, emptyAuthDb_ok. Qed.

(** A run that returns a value, found by evaluation. *)
Lemma returned {St A} (x : result exn A * St) :
  is_ok (fst x) = true -> exists a, x = (Ok a, snd x).
Proof. destruct x as [[a|e] s]; [by exists a|done]. Qed.

Lemma world_run d : aw_db (world d) = run_ops keyVersions [] d.
Proof. reflexivity. Qed.

Ltac evaluated r x Hrun :=
  let Hok := fresh "Hok" in
  assert (Hok : is_ok (fst r) = true) by (vm_compute; reflexivity); destruct (returned r Hok) as [x Hrun].

Lemma auth_tables_sound_witness :
  auth_ok emptyAuthDb /\ evolves emptyAuthDb (run_ops keyVersions setup emptyAuthDb)
  /\ size (ad_session sampleDb) = 2%nat.
Proof.
  split; [exact emptyAuthDb_ok|]. split; [|vm_compute; reflexivity].
  apply (auth_tables_sound keyVersions setup emptyAuthDb emptyAuthDb_ok).
Defined.

(** ** Sessions *)

Definition sessions_of (faults : nat -> nat -> TxAttempt) : SessionStore AuthWorld := world_sessions keyVersions faults.

Lemma session_admitted_witness :
  let run := @authenticate AuthWorld (sessions_of no_faults) _ config td_committee (Some "s2") 400 sample in
  is_ok (fst run) = true /\ exists i s, ad_session (aw_db sample) !! i = Some s /\ as_authentication_strength s = passkey
     /\ 400 < as_absolute_expires_at s.
Proof.
  cbv zeta. match goal with |- is_ok (fst ?run) = _ /\ _ => evaluated run r Hrun end. split; [exact Hok|].
  destruct (session_admitted keyVersions no_faults _ _ _ _ _ _ _ Hrun sampleDb_ok)
    as (tk & i & s & s' & a & _ & _ & Hi & _ & _ & _ & _ & _ & _ & _ & Hpk & _ & _ & Habs & _).
  exists i, s. split; [exact Hi|]. split; [by apply Hpk|exact Habs].
Defined.

Definition revoked : AuthDb := run_op keyVersions quiet (ORevoke "s1" "signed_out" 200) sampleDb.
Lemma revoked_ok : auth_ok revoked.
Proof. apply run_op_sound, sampleDb_ok. Qed.

Lemma ended_session_rejected_witness :
  (exists s, ad_session revoked !! "s1" = Some s /\ as_state s = ss_revoked) /\
  forall r w', @authenticate AuthWorld (sessions_of no_faults) _ config td_participant (Some "s1") 300 (world revoked)
               <> (Ok r, w').
Proof.
  assert (Hrow : (fun s => (as_state s, as_token_digest s)) <$> ad_session revoked !! "s1"
                 = Some (ss_revoked, keyedDigest (tc_sessionSecret (config td_participant)) "s1"))
    by (vm_compute; reflexivity).
  apply fmap_Some in Hrow as (s & Hs & Heq). apply pair_equal_spec in Heq as [Hst Hdig].
  symmetry in Hst, Hdig. split; [exists s; split; [exact Hs|exact Hst]|].
  apply (ended_session_rejected keyVersions no_faults config td_participant "s1" 300 [] (world revoked) (world revoked)
           "s1" s revoked_ok Hs); [rewrite Hst; discriminate|exact Hdig|exact eq_refl].
Defined.

Definition context : SecurityMutationContext := {|
  sm_actorReference := "account_0001"; sm_authenticationStrength := passkey; sm_policyVersionReference := "policy:v1";
  sm_softwareVersion := "1"; sm_correlationId := "c1" |}.

Lemma account_actions_end_sessions_witness :
  let locked := repository_lock quiet "account_0001" td_participant "stolen" context 200 sampleDb in
  is_ok (fst locked) = true /\ tokens_dead keyVersions no_faults "account_0001" (snd locked).
Proof.
  cbv zeta. match goal with |- is_ok (fst ?run) = _ /\ _ => evaluated run n Hrun end. split; [exact Hok|].
  exact (proj1 (account_actions_end_sessions keyVersions no_faults "account_0001" sampleDb sampleDb_ok)
           quiet td_participant "stolen" context 200 n _ Hrun).
Defined.

Lemma issued_session_authenticates_witness :
  let run := @issue AuthWorld (sessions_of no_faults) (world_random tokens) _ config "account_0001" td_participant
               passkey "phone" 200 (Some "s1") sample in
  exists issued, run = (Ok issued, snd run) /\
  exists r w2, @authenticate AuthWorld (sessions_of no_faults) _ config td_participant (Some (is_token issued)) 1100 (snd run)
    = (Ok r, w2) /\ sr_accountReference r = "account_0001".
Proof.
  assert (Hnow : 0 <= 200 <= 1100) by done.
  cbv zeta. match goal with |- exists _, ?run = _ /\ _ => evaluated run issued Hrun;
    assert (Heq : match fst run with Ok i => is_token i | Err _ => "" end = tokens 0) by (vm_compute; reflexivity) end.
  exists issued. split; [exact Hrun|].
  assert (Htk : is_token issued <> "").
  { rewrite Hrun in Heq. cbn [fst] in Heq. rewrite Heq. discriminate. }
  destruct (issued_session_authenticates keyVersions no_faults tokens config "account_0001" td_participant passkey
    "phone" 200 (Some "s1") sample issued _ 1100 Hrun sampleDb_ok Htk Hnow eq_refl eq_refl)
    as (r & w2 & H1 & _ & H2).
  exists r, w2. split; [exact H1|exact H2].
Defined.

(** ** Challenges and passkeys *)

Lemma challenge_single_use_witness :
  let run := consume quiet None (Some (keyedDigest "participant" "r1")) account_recovery td_participant 500 sampleDb in
  exists c, run = (Ok (Some c), snd run) /\
  forall ops c' d2, consume quiet None (Some (keyedDigest "participant" "r1")) account_recovery td_participant 501
    (run_ops keyVersions ops (snd run)) = (Ok (Some c'), d2) -> ch_id (cch_record c') <> ch_id (cch_record c).
Proof.
  cbv zeta. match goal with |- exists _, ?run = _ /\ _ => evaluated run found Hrun;
    assert (Hsome : match fst run with Ok (Some _) => true | _ => false end = true) by (vm_compute; reflexivity) end.
  rewrite Hrun in Hsome. destruct found as [c|]; [|discriminate Hsome].
  exists c. split; [exact Hrun|]. intros ops c' d2 Hagain.
  exact (proj1 (proj2 (challenge_single_use keyVersions quiet None (Some (keyedDigest "participant" "r1"))
    account_recovery td_participant 500 sampleDb c _ Hrun sampleDb_ok) ops _ _ _ _ _ _ c' d2 Hagain)).
Defined.

Definition usage (n : Z) : PasskeyUsage := {|
  us_credentialReference := "cred1"; us_counter := n; us_deviceType := multiDevice; us_backedUp := true;
  us_usedAt := 300 |}.

Lemma passkey_counter_monotone_witness :
  let run := repository_updateUsage quiet (usage 7) sampleDb in
  run = (Ok tt, snd run) /\
  forall ops n d2, repository_updateUsage quiet (usage n) (run_ops keyVersions ops (snd run)) = (Ok tt, d2) -> 7 <= n.
Proof.
  cbv zeta. match goal with |- ?run = _ /\ _ => evaluated run u Hrun end. destruct u. split; [exact Hrun|].
  intros ops n d2 Hagain.
  exact (proj2 (passkey_counter_monotone keyVersions quiet (usage 7) sampleDb _ Hrun sampleDb_ok)
           ops quiet (usage n) d2 eq_refl Hagain).
Defined.

(** A WebAuthn library that verifies everything. *)
#[local] Instance permissive : WebAuthnAdapter AuthWorld := {
  generateRegistrationOptions _ := ret {| wo_challenge := "challenge"; wo_options := JNull |};
  generateAuthenticationOptions _ := ret {| wo_challenge := "challenge"; wo_options := JNull |};
  verifyRegistrationResponse _ _ _ _ := ret None;
  verifyAuthenticationResponse _ _ _ _ c := ret (Some {|
    au_userVerified := true; au_newCounter := ci_counter c + 1; au_deviceType := multiDevice; au_backedUp := true |});
}.
Definition passkey_config (t : TrustDomain) : PasskeyDomainConfig := {|
  kc_relyingPartyName := "app"; kc_relyingPartyId := "app.example"; kc_origin := "https://app.example";
  kc_challengeSecret := domain_name t; kc_challengeLifetimeMs := 1000 |}.

Lemma revoked_passkey_rejected_witness :
  let run := revokePasskey quiet "cred1" "account_0001" 300 sampleDb in
  run = (Ok tt, snd run) /\
  forall challenge now r w', @finishAuthentication AuthWorld (world_passkeys no_faults) (world_challenges no_faults)
    permissive _ passkey_config td_participant challenge {| as_id := "cred1"; as_response := JNull |} now
    (world (snd run)) <> (Ok r, w').
Proof.
  cbv zeta. match goal with |- ?run = _ /\ _ => evaluated run u Hrun end. destruct u. split; [exact Hrun|].
  intros challenge now r w'.
  exact (revoked_passkey_rejected keyVersions no_faults passkey_config quiet "cred1" "account_0001" 300 sampleDb _
    Hrun sampleDb_ok [] _ td_participant challenge
    {| as_id := "cred1"; as_response := JNull |} now r w' (world_run _) eq_refl).
Defined.

(** ** Limits and recovery *)

Definition attempts : list RateStep :=
  [Request 10; Request 20; Other (ORevoke "s1" "signed_out" 25) quiet; Request 30; Request 40].

Lemma rate_limit_bound_witness :
  admitted keyVersions no_faults "rate" login_network "network" 900000 2 attempts sample <= 2
  /\ admitted keyVersions no_faults "rate" login_network "network" 900000 2 attempts sample = 2.
Proof.
  assert (Hin : Forall (in_window 900000 0) attempts) by (repeat constructor).
  assert (Hlimit : 0 <= 2) by done. split; [|vm_compute; reflexivity].
  exact (rate_limit_bound keyVersions no_faults "rate" login_network "network" 900000 2 0 attempts sample
           sampleDb_ok Hin Hlimit).
Defined.

Lemma no_buckets key : used key sampleDb = 0.
Proof.
  assert (Hempty : ad_bucket sampleDb = ∅) by (vm_compute; reflexivity). unfold used. by rewrite Hempty, lookup_empty.
Qed.

Lemma rate_limit_exact_witness :
  admitted keyVersions no_faults "rate" login_network "network" 900000 2 (Request <$> [10; 20; 30]) sample = 2.
Proof.
  assert (Hin : Forall (fun now => 0 <= now /\ now + 900000 <= maxTime /\ now / 900000 = 0) [10; 20; 30])
    by (repeat constructor; discriminate).
  assert (Hms : 0 < 900000) by done.
  pose proof (no_buckets (limit_key "rate" login_network "network" 0)) as Hused.
  assert (Hfits : used (limit_key "rate" login_network "network" 0) (aw_db sample) + Z.of_nat (length [10; 20; 30])
                  <= 2147483647) by (change (aw_db sample) with sampleDb; rewrite Hused; discriminate).
  etransitivity; [exact (rate_limit_exact keyVersions "rate" login_network "network" 900000 2 0 [10; 20; 30] sample
    Hms sampleDb_ok Hin Hfits)|].
  change (aw_db sample) with sampleDb. rewrite Hused. reflexivity.
Defined.

Lemma sample_draws : fresh_draws tokens secrets td_participant sample.
Proof.
  split; [vm_compute; reflexivity|]. intros i c Hc.
  assert (Hall : forallb (fun c => negb (String.eqb (ac_secret_digest c) (keyedDigest (secrets td_participant) (tokens 0))))
                   (rows (ad_challenge sampleDb)) = true) by (vm_compute; reflexivity).
  rewrite forallb_forall in Hall.
  specialize (Hall c (proj1 (list_elem_of_In _ _) (proj2 (rows_in _ _) (ex_intro _ i Hc)))).
  apply negb_true_iff in Hall. exact (proj1 (String.eqb_neq _ _) Hall).
Qed.

(** A registered and an unknown address get the same answer. *)
Lemma begin_generic_witness :
  let request email := fst (@begin AuthWorld (quiet_directory) (quiet_challenges) (quiet_rates) world_sink (draws tokens) _
    "rate" secrets sign_in_flow td_participant email "network" 100 500 sample) in
  request "a@b" = Ok genericResponse /\ request "nobody@nowhere" = Ok genericResponse.
Proof.
  assert (Hused : forall k, used k (aw_db sample) < 2147483646)
    by (intros k; change (aw_db sample) with sampleDb; rewrite no_buckets; reflexivity).
  assert (H1 : 0 <= 100) by done. assert (H2 : 100 + windowMs_15min <= maxTime) by done.
  assert (H3 : 0 < 500) by done. assert (H4 : 100 + 500 <= maxTime) by done.
  pose proof (fun email => begin_generic tokens "rate" secrets sign_in_flow td_participant email "network" 100 500 sample
                sampleDb_ok sample_draws H1 H2 H3 H4 Hused) as Hgeneric.
  assert (Hnone : used (limit_key "rate" (network_bucket sign_in_flow) "network" (100 / windowMs_15min)) (aw_db sample) = 0)
    by exact (no_buckets _).
  rewrite Hnone in Hgeneric. split; [exact (Hgeneric "a@b")|exact (Hgeneric "nobody@nowhere")].
Defined.

Definition recover (t : TrustDomain) (tk : string) :=
  @completeRecovery AuthWorld (world_challenges no_faults) world_sink (world_recovery no_faults) (world_random tokens) _
    secrets t tk 500 1000 "policy:v1" "1" "c1" sample.

Lemma recovery_outcome_witness :
  is_ok (fst (recover td_participant "r1")) = true /\ is_ok (fst (recover td_committee "r2")) = true /\
  exists i a, ad_account (aw_db (snd (recover td_committee "r2"))) !! i = Some a /\ aa_state a = as_suspended /\
    forall ops (d := aw_db (snd (recover td_committee "r2"))) (d' := run_ops keyVersions ops d),
      ad_account d' !! i = Some a \/ exists j, active_access d' i j /\ ~ active_access d i j.
Proof.
  split; [vm_compute; reflexivity|]. unfold recover.
  match goal with |- is_ok (fst ?run) = _ /\ _ => evaluated run rc Hrun end. split; [exact Hok|].
  destruct (recovery_outcome keyVersions no_faults tokens secrets td_committee "r2" 500 1000 "policy:v1" "1" "c1" sample
    rc _ Hrun sampleDb_ok) as (i & a & Hi & _ & _ & Hs & _ & Hops).
  exists i, a. split; [exact Hi|]. split; [exact Hs|exact Hops].
Defined.

(** ** Committee onboarding *)

Definition onboardingDb : AuthDb :=
  with_base (with_committee (fun _ => {[
      "c1" := {| committee_external_reference := "committee_0001"; committee_state := Committee.active;
                 committee_version := 1 |};
      "c2" := {| committee_external_reference := "committee_0002"; committee_state := Committee.active;
                 committee_version := 1 |} ]}) SamplePlatform.emptyDb)
    (with_committee_tables (fun t => {|
       mt_policy_version := mt_policy_version t;
       mt_committee_member := {[
         "m1" := {| cm_external_reference := "member_0001"; cm_committee_id := "c1"; cm_state := ms_active |};
         "m2" := {| cm_external_reference := "member_0002"; cm_committee_id := "c2"; cm_state := ms_active |} ]};
       mt_conflict_declaration := mt_conflict_declaration t;
       mt_committee_role := {[ "r1" := {| ro_role_key := "steward"; ro_state := ms_active |} ]};
       mt_committee_member_role := [{| mr_member_id := "m1"; mr_role_id := "r1"; mr_state := ms_active |}];
       mt_verification_session := mt_verification_session t; mt_access := mt_access t;
       mt_assignment := mt_assignment t |}) emptyAuthDb).

Lemma onboardingDb_ok : auth_ok onboardingDb.
Proof. destruct emptyAuthDb_ok. by split. Qed.

(** An account of two committees, approved for both, active in the first. *)
Definition onboarding_ops : list (AuthOp * (nat -> TxAttempt)) := (fun o => (o, quiet)) <$>
  [OCreateAccount "account_0002" td_committee None None 0;
   OInviteCommittee "account_0002" "committee_0001" "steward_0001" 10;
   OInviteCommittee "account_0002" "committee_0002" "steward_0001" 11;
   OApproveCommittee "account_0002" "committee_0001" "steward_0002" 20;
   OApproveCommittee "account_0002" "committee_0002" "steward_0002" 21;
   OActivateCommittee "account_0002" "committee_0001" "member_0001" 30].

Definition load_principal (d : AuthDb) :=
  loadCommitteePrincipal quiet "account_0002" "committee_0001" "verification_request" "request_0001" None d.

Lemma committee_access_step_witness :
  auth_ok onboardingDb /\ forall j, let d' := run_op keyVersions quiet (OInviteCommittee "a" "c" "x" 1) onboardingDb in
    accesses d' !! j = None \/ exists r, accesses d' !! j = Some r /\ ca_state r = cas_invited.
Proof.
  split; [exact onboardingDb_ok|]. intros j.
  destruct (committee_access_step keyVersions quiet (OInviteCommittee "a" "c" "x" 1) onboardingDb j onboardingDb_ok)
    as [He|He]; [left; exact He|right]. inversion He; subst; eexists; (split; [reflexivity|assumption]).
Defined.

Lemma principal_vetted_witness :
  is_ok (fst (load_principal (run_ops keyVersions onboarding_ops onboardingDb))) = true /\
  exists x y m t1 t2 t3, y <> x /\
    [OInviteCommittee "account_0002" "committee_0001" x t1; OApproveCommittee "account_0002" "committee_0001" y t2;
     OActivateCommittee "account_0002" "committee_0001" m t3] `sublist_of` (fst <$> onboarding_ops).
Proof.
  split; [vm_compute; reflexivity|].
  destruct (fst (load_principal (run_ops keyVersions onboarding_ops onboardingDb))) as [[p|]|e] eqn:Hload;
    [|exfalso; revert Hload; vm_compute; discriminate..].
  destruct (load_principal (run_ops keyVersions onboarding_ops onboardingDb)) as [r d'] eqn:Hrun. simpl in Hload. subst r.
  exact (proj2 (proj2 (principal_vetted keyVersions onboarding_ops onboardingDb _ _ _ _ _ _ p d'
    onboardingDb_ok eq_refl Hrun))).
Defined.

(** After a recovery suspends the account, activating its other access
    makes it active again without a review. *)
Definition suspended_ops : list (AuthOp * (nat -> TxAttempt)) := onboarding_ops ++
  [(ORecover {| ri_accountReference := "account_0002"; ri_trustDomain := td_committee;
                ri_committeeReviewRequired := true; ri_destinationReference := "mailbox_0001";
                ri_policyVersionReference := "policy:v1";
                ri_softwareVersion := "1"; ri_correlationId := "c1"; ri_at := 40 |}, quiet)].
Definition suspendedDb : AuthDb := run_ops keyVersions suspended_ops onboardingDb.

Lemma activation_effect_witness :
  aa_state <$> rows (ad_account suspendedDb) = [as_suspended] /\
  exists i a, ad_account suspendedDb !! i = Some a /\
    exists d', activateCommittee quiet "account_0002" "committee_0002" "member_0002" 50 suspendedDb = (Ok tt, d') /\
    ad_account d' !! i = Some (account_activated 50 a).
Proof.
  split; [vm_compute; reflexivity|].
  match goal with |- exists i a, _ /\ exists d', ?run = _ /\ _ => evaluated run u Hrun; destruct u end.
  destruct (activation_effect quiet "account_0002" "committee_0002" "member_0002" 50 suspendedDb _
    (proj1 (run_ops_evolve keyVersions suspended_ops _ onboardingDb_ok)) Hrun)
    as (i & a & Hi & _ & _ & Hi' & _).
  exists i, a. split; [exact Hi|]. eexists. split; [exact Hrun|exact Hi'].
Defined.

(** ** Authorization *)

Import Json.Sample.

Definition suspension : AuthorizationRequest := {|
  action := committee_suspend; actorReference := "steward_0001"; actorAccountState := as_active;
  actorTrustDomain := atd_committee; roles := [steward]; strength := passkey; reauthenticatedAt := Some 100;
  at_now := 150; reauthenticationWindowMs := 500; actorCommitteeReference := Some "committee_0001";
  targetCommitteeReference := Some "committee_0001"; resourceOwnerReference := None;
  membershipState := Some ms_active; committeeState := Some cs_active; assignedToSession := false;
  conflicted := false; enabledFeatures := []; requiredFeatures := []; requiredPolicyKeys := []; policies := [];
  statePreconditionsSatisfied := true;
  fourEyesApproval := Some {| fe_approverReference := "steward_0002"; fe_approverRoles := [steward];
    fe_active := true; fe_authenticationStrength := passkey; fe_reauthenticatedAt := Some 120 |} |}.

Lemma duties_separated_witness :
  ad_allowed (authorize sha256 suspension) = true /\
  exists a, fourEyesApproval suspension = Some a /\ fe_approverReference a <> actorReference suspension.
Proof.
  assert (Hallowed : ad_allowed (authorize sha256 suspension) = true) by (vm_compute; reflexivity).
  split; [exact Hallowed|].
  destruct (proj2 (duties_separated sha256 suspension Hallowed)) as (_ & a & Ha & Hne & _).
  - apply (bool_decide_unpack _). vm_compute. exact I.
  - exists a. split; [exact Ha|exact Hne].
Defined.
