(* ===== verification/CoreDatabase.v ===== *)
(** * CoreDatabase: the tables of the domain core.

    Verification requests and review decisions, attestations with their
    status and revocations, the tables of the other lifecycles and the
    idempotency ledger (migrations 20260807020000, 20260807050000 and
    20260808060000), next to the authentication tables of AuthDatabase.v and
    the base tables of Database.v.  A statement raises what the server would:
    the BEFORE trigger's error, then CHECK, unique and foreign keys.  Columns
    that the repositories neither read nor write are left out. *)
From S2P Require Import Prelude Errors Transition Lifecycles Guards Text Attestation Json Database.
From S2P Require Import Authorization Auth AuthDatabase.
Local Open Scope Z_scope.

(** ** Rows *)

(** "idempotency_record", stored under its unique ("scope", "key_hash"). *)
Inductive idempotency_state : Type := is_started | is_completed | is_rejected | is_failed.
#[export] Instance idempotency_state_eq_dec : EqDecision idempotency_state.
Proof. solve_decision. Defined.

Record IdempotencyRow : Type := {
  ir_id : string;
  ir_request_digest : string;
  ir_command : string;
  ir_actor_type : string;
  ir_actor_reference : string;
  ir_committee_id : option string;
  ir_state : idempotency_state;
  ir_result_digest : option string;
  ir_result_reference : option string;
  ir_result_state : option string;
  ir_result_version : option Z;
  ir_started_at : Z;
  ir_completed_at : option Z;
}.

(** "verification_request", stored under its key "id", as the tables below
    are; the key is not repeated in the row. *)
Record VerificationRequestRow : Type := {
  vr_external_reference : string;
  vr_committee_id : string;
  vr_participant_id : string;
  vr_policy_version_id : string;
  vr_state : Verification.VerificationState;
  vr_version : Z;
  vr_requested_at : Z;
  vr_updated_at : Z;
}.

(** "review_decision" *)
Inductive review_decision_state : Type := rd_approved | rd_rejected | rd_needs_more_information.
#[export] Instance review_decision_state_name : StateName review_decision_state := fun s =>
  match s with
  | rd_approved => "approved" | rd_rejected => "rejected"
  | rd_needs_more_information => "needs_more_information"
  end.

Record ReviewDecisionRow : Type := {
  rd_external_reference : string;
  rd_committee_id : string;
  rd_request_id : string;
  rd_reviewer_member_id : string;
  rd_policy_version_id : string;
  rd_state : review_decision_state;
  rd_reason_category : string;
  rd_authorization_decision_digest : string;
  rd_conflict_checked_at : Z;
  rd_decided_at : Z;
}.

(** "attestation" is [AttestationTableRow] of Attestation.v. *)
#[export] Instance attestation_state_name : StateName attestation_state := fun s =>
  match s with
  | st_issued => "issued" | st_active => "active" | st_expired => "expired"
  | st_revoked => "revoked" | st_superseded => "superseded"
  end.

(** "attestation_status", stored under its key "attestation_id". *)
Record AttestationStatusRow : Type := {
  st_committee_id : string;
  st_state : attestation_state;
  st_effective_at : Z;
  st_version : Z;
}.

(** "attestation_revocation" *)
Record AttestationRevocationRow : Type := {
  rv_attestation : string;
  rv_committee_id : string;
  rv_policy_version_id : string;
  rv_reason_category : string;
  rv_effective : Z;
}.

(** The tables of the lifecycles ("committee" is in Database.v). *)
Record RenewalCycleRow : Type := {
  rc_external_reference : string;
  rc_committee_id : string;
  rc_state : RenewalCycle.RenewalCycleState;
  rc_version : Z;
}.

(** The column's enum has the domain's literals and [cancelled]. *)
Inductive wallet_challenge_state : Type :=
| wcs (s : WalletChallenge.WalletChallengeState)
| wcs_cancelled.
#[export] Instance wallet_challenge_state_eq_dec : EqDecision wallet_challenge_state.
Proof. solve_decision. Defined.
#[export] Instance wallet_challenge_state_name : StateName wallet_challenge_state := fun s =>
  match s with wcs s => state_name s | wcs_cancelled => "cancelled" end.

Record WalletChallengeRow : Type := {
  wc_external_reference : string;
  wc_state : wallet_challenge_state;
  wc_expires_at : Z;
  wc_consumed_at : option Z;
  wc_rejection_reason : option string;
  wc_version : Z;
}.

Record ConsentReceiptRow : Type := {
  cr_external_reference : string;
  cr_committee_id : option string;
  cr_participant_id : option string;
  cr_auth_account_id : string;
  cr_state : Consent.ConsentState;
  cr_acknowledged_at : option Z;
  cr_withdrawn_at : option Z;
  cr_version : Z;
}.

Record AppealRow : Type := {
  ap_external_reference : string;
  ap_committee_id : string;
  ap_state : Appeal.AppealState;
  ap_assigned_reference : option string;
  ap_resolved_at : option Z;
  ap_version : Z;
}.

Record PrivacyRow : Type := {
  pv_external_reference : string;
  pv_committee_id : option string;
  pv_state : PrivacyRequest.PrivacyRequestState;
  pv_completed_at : option Z;
  pv_version : Z;
}.

Record NotificationRow : Type := {
  no_external_reference : string;
  no_committee_id : option string;
  no_participant_id : option string;
  no_auth_account_id : string;
  no_state : Notification.NotificationState;
  no_delivered_at : option Z;
  no_version : Z;
}.

Record RelyingPartyClientRow : Type := {
  rp_external_reference : string;
  rp_committee_id : option string;
  rp_state : RelyingPartyClient.RelyingPartyClientState;
  rp_version : Z;
}.

Record LifecycleTables : Type := {
  lt_renewal_cycle : gmap string RenewalCycleRow;
  lt_wallet_challenge : gmap string WalletChallengeRow;
  lt_consent_receipt : gmap string ConsentReceiptRow;
  lt_appeal : gmap string AppealRow;
  lt_privacy_rights_request : gmap string PrivacyRow;
  lt_notification : gmap string NotificationRow;
  lt_relying_party_client : gmap string RelyingPartyClientRow;
}.

(** The artifacts of a renewal cycle are their "renewal_cycle_id" column. *)
Record ReferenceTables : Type := {
  rt_eligible_snapshot : list string;
  rt_cycle_selection : list string;
  rt_cycle_report : list string;
}.

Record CoreDb : Type := {
  cd_auth : AuthDb;
  cd_reference : ReferenceTables;
  cd_idempotency : gmap (string * string) IdempotencyRow;
  cd_request : gmap string VerificationRequestRow;
  cd_decision : gmap string ReviewDecisionRow;
  cd_attestation : gmap string AttestationTableRow;
  cd_status : gmap string AttestationStatusRow;
  cd_revocation : gmap string AttestationRevocationRow;
  cd_lifecycle : LifecycleTables;
}.

Definition CM := prog CoreDb exn.

Definition cd_base (d : CoreDb) : Db := ad_base (cd_auth d).

(** ROLLBACK restores the tables; identifiers drawn stay drawn. *)
#[export] Instance coredb_transactional : Transactional CoreDb := fun before after => {|
  cd_auth := rollback (cd_auth before) (cd_auth after); cd_reference := cd_reference before;
  cd_idempotency := cd_idempotency before; cd_request := cd_request before;
  cd_decision := cd_decision before; cd_attestation := cd_attestation before;
  cd_status := cd_status before; cd_revocation := cd_revocation before;
  cd_lifecycle := cd_lifecycle before |}.

Definition with_auth (a : AuthDb) (d : CoreDb) : CoreDb := {|
  cd_auth := a; cd_reference := cd_reference d; cd_idempotency := cd_idempotency d;
  cd_request := cd_request d; cd_decision := cd_decision d; cd_attestation := cd_attestation d;
  cd_status := cd_status d; cd_revocation := cd_revocation d; cd_lifecycle := cd_lifecycle d |}.
Definition with_idempotency (f : gmap (string * string) IdempotencyRow -> gmap (string * string) IdempotencyRow)
    (d : CoreDb) : CoreDb := {|
  cd_auth := cd_auth d; cd_reference := cd_reference d; cd_idempotency := f (cd_idempotency d);
  cd_request := cd_request d; cd_decision := cd_decision d; cd_attestation := cd_attestation d;
  cd_status := cd_status d; cd_revocation := cd_revocation d; cd_lifecycle := cd_lifecycle d |}.
Definition with_request (f : gmap string VerificationRequestRow -> gmap string VerificationRequestRow)
    (d : CoreDb) : CoreDb := {|
  cd_auth := cd_auth d; cd_reference := cd_reference d; cd_idempotency := cd_idempotency d;
  cd_request := f (cd_request d); cd_decision := cd_decision d; cd_attestation := cd_attestation d;
  cd_status := cd_status d; cd_revocation := cd_revocation d; cd_lifecycle := cd_lifecycle d |}.
Definition with_decision (f : gmap string ReviewDecisionRow -> gmap string ReviewDecisionRow)
    (d : CoreDb) : CoreDb := {|
  cd_auth := cd_auth d; cd_reference := cd_reference d; cd_idempotency := cd_idempotency d;
  cd_request := cd_request d; cd_decision := f (cd_decision d); cd_attestation := cd_attestation d;
  cd_status := cd_status d; cd_revocation := cd_revocation d; cd_lifecycle := cd_lifecycle d |}.
Definition with_attestation (f : gmap string AttestationTableRow -> gmap string AttestationTableRow)
    (d : CoreDb) : CoreDb := {|
  cd_auth := cd_auth d; cd_reference := cd_reference d; cd_idempotency := cd_idempotency d;
  cd_request := cd_request d; cd_decision := cd_decision d; cd_attestation := f (cd_attestation d);
  cd_status := cd_status d; cd_revocation := cd_revocation d; cd_lifecycle := cd_lifecycle d |}.
Definition with_status (f : gmap string AttestationStatusRow -> gmap string AttestationStatusRow)
    (d : CoreDb) : CoreDb := {|
  cd_auth := cd_auth d; cd_reference := cd_reference d; cd_idempotency := cd_idempotency d;
  cd_request := cd_request d; cd_decision := cd_decision d; cd_attestation := cd_attestation d;
  cd_status := f (cd_status d); cd_revocation := cd_revocation d; cd_lifecycle := cd_lifecycle d |}.
Definition with_revocation (f : gmap string AttestationRevocationRow -> gmap string AttestationRevocationRow)
    (d : CoreDb) : CoreDb := {|
  cd_auth := cd_auth d; cd_reference := cd_reference d; cd_idempotency := cd_idempotency d;
  cd_request := cd_request d; cd_decision := cd_decision d; cd_attestation := cd_attestation d;
  cd_status := cd_status d; cd_revocation := f (cd_revocation d); cd_lifecycle := cd_lifecycle d |}.
Definition with_lifecycle (f : LifecycleTables -> LifecycleTables) (d : CoreDb) : CoreDb := {|
  cd_auth := cd_auth d; cd_reference := cd_reference d; cd_idempotency := cd_idempotency d;
  cd_request := cd_request d; cd_decision := cd_decision d; cd_attestation := cd_attestation d;
  cd_status := cd_status d; cd_revocation := cd_revocation d; cd_lifecycle := f (cd_lifecycle d) |}.

Definition with_cd_base (b : Db) (d : CoreDb) : CoreDb := with_auth (with_base b (cd_auth d)) d.

(** A program on the base tables. *)
Definition on_db {A : Type} (c : M A) : CM A := fun d =>
  let (r, b) := c (cd_base d) in (r, with_cd_base b d).

(** ** Statements *)

(** The row a SELECT finds under a unique column, with its key. *)
Definition select_row {R : Type} (p : R -> bool) (m : gmap string R) : option (string * R) :=
  List.find (fun kv => p (snd kv)) (map_to_list m).

Definition has_row {R : Type} (p : R -> bool) (m : gmap string R) : bool :=
  some (map_to_list m) (fun kv => p (snd kv)).

(** [SELECT "id" FROM "committee" WHERE "external_reference" = $1] *)
Definition committee_by_reference (reference : string) (d : CoreDb) : option (string * CommitteeRow) :=
  select_row (fun c => String.eqb (committee_external_reference c) reference) (db_committee (cd_base d)).

(** "participant_account" *)
Definition participant_reference (d : CoreDb) (participant_id : string) : option string :=
  fst <$> List.find (fun kv => String.eqb (snd kv) participant_id) (map_to_list (ad_participant (cd_auth d))).

Definition policy_exists (d : CoreDb) (i : string) : bool :=
  bool_decide (i ∈ mt_policy_version (ad_committee (cd_auth d))).

Definition committee_members (d : CoreDb) : gmap string MemberRow := mt_committee_member (ad_committee (cd_auth d)).
Definition conflict_declarations (d : CoreDb) : list ConflictRow :=
  mt_conflict_declaration (ad_committee (cd_auth d)).

(** *** "verification_request" *)

Definition insertRequest (i : string) (r : VerificationRequestRow) : CM unit :=
  let* d := gets id in
  throwif* negb (0 <? vr_version r) as! PostgresError "23514" in
  throwif* negb (is_null (cd_request d !! i))
           || has_row (fun s => String.eqb (vr_external_reference s) (vr_external_reference r)) (cd_request d)
    as! PostgresError "23505" in
  throwif* is_null (db_committee (cd_base d) !! vr_committee_id r)
           || is_null (participant_reference d (vr_participant_id r))
           || negb (policy_exists d (vr_policy_version_id r))
    as! PostgresError "23503" in
  modify (with_request (<[i := r]>)).

Definition request_moved (state : Verification.VerificationState) (now : Z) (r : VerificationRequestRow)
  : VerificationRequestRow := {|
  vr_external_reference := vr_external_reference r; vr_committee_id := vr_committee_id r;
  vr_participant_id := vr_participant_id r; vr_policy_version_id := vr_policy_version_id r;
  vr_state := state; vr_version := vr_version r + 1; vr_requested_at := vr_requested_at r;
  vr_updated_at := now |}.

(** SET "state", "version" = "version" + 1, "updated_at" on one row. *)
Definition updateRequest (i : string) (state : Verification.VerificationState) (r : VerificationRequestRow)
  : CM Z :=
  let* now := gets (fun d => db_clock (cd_base d)) in
  let new := request_moved state now r in
  let* v := lift (int4 (vr_version new)) in
  run* lift (cbc_guard_verification_transition (vr_state r) state (vr_version r) v) in
  throwif* negb (0 <? v) as! PostgresError "23514" in
  run* modify (with_request (<[i := new]>)) in
  ret v.

(** *** "review_decision" (append-only) *)

Definition insertDecision (i : string) (r : ReviewDecisionRow) : CM unit :=
  let* d := gets id in
  throwif* negb (is_null (cd_decision d !! i))
           || has_row (fun s => String.eqb (rd_external_reference s) (rd_external_reference r)
                                || (String.eqb (rd_request_id s) (rd_request_id r)
                                    && String.eqb (rd_reviewer_member_id s) (rd_reviewer_member_id r)))
                (cd_decision d)
    as! PostgresError "23505" in
  throwif* negb match cd_request d !! rd_request_id r with
                | Some q => String.eqb (vr_committee_id q) (rd_committee_id r)
                | None => false
                end
           || negb match committee_members d !! rd_reviewer_member_id r with
                   | Some m => String.eqb (cm_committee_id m) (rd_committee_id r)
                   | None => false
                   end
           || negb (policy_exists d (rd_policy_version_id r))
    as! PostgresError "23503" in
  modify (with_decision (<[i := r]>)).

(** *** "attestation" *)

(** Trigger cbc_validate_attestation_renewal. *)
Definition renewal_valid (d : CoreDb) (a : AttestationTableRow) : bool :=
  match a_supersedes_id a with
  | None => true
  | Some i =>
    match cd_attestation d !! i with
    | Some p => String.eqb (a_committee_id p) (a_committee_id a)
                && String.eqb (a_participant_id p) (a_participant_id a)
                && (a_version a =? a_version p + 1)
    | None => false
    end
  end.

(** The unique indexes; NULL "supersedes_id"s do not compare. *)
Definition attestation_collides (a b : AttestationTableRow) : bool :=
  String.eqb (a_external_reference a) (a_external_reference b)
  || (negb (is_null (a_supersedes_id b)) && bool_decide (a_supersedes_id a = a_supersedes_id b))
  || (String.eqb (a_committee_id a) (a_committee_id b)
      && String.eqb (a_participant_id a) (a_participant_id b) && (a_version a =? a_version b)).

(** The empty text is no uuid. *)
Definition insertAttestation (a : AttestationTableRow) : CM unit :=
  let* d := gets id in
  throwif* String.eqb (a_id a) "" as! PostgresError "22P02" in
  let* v := lift (int4 (a_version a)) in
  throwif* negb (renewal_valid d a) as! PostgresError "23514" in
  throwif* negb (attestation_checks a) as! PostgresError "23514" in
  throwif* negb (is_null (cd_attestation d !! a_id a))
           || has_row (fun b => attestation_collides b a) (cd_attestation d)
    as! PostgresError "23505" in
  throwif* negb match cd_request d !! a_request_id a with
                | Some q => String.eqb (vr_committee_id q) (a_committee_id a)
                            && String.eqb (vr_participant_id q) (a_participant_id a)
                | None => false
                end
           || negb (policy_exists d (a_policy_version_id a))
    as! PostgresError "23503" in
  modify (with_attestation (<[a_id a := a]>)).

(** Trigger cbc_guard_attestation_identity; the updates below leave alone the
    columns it compares. *)
Definition attestation_table : attestation_state -> attestation_state -> bool := fun old new =>
  bool_decide (old = new) ||
  transition_table [([st_issued], [st_active]); ([st_active], [st_expired; st_revoked; st_superseded])] old new.

Definition attestation_moved (state : attestation_state) (issuanceComplete : bool) (a : AttestationTableRow)
  : AttestationTableRow := {|
  a_id := a_id a; a_external_reference := a_external_reference a; a_committee_id := a_committee_id a;
  a_participant_id := a_participant_id a; a_request_id := a_request_id a;
  a_policy_version_id := a_policy_version_id a; a_version := a_version a; a_state := state;
  a_valid_from := a_valid_from a; a_expires_at := a_expires_at a;
  a_issuance_complete := if issuanceComplete then true else a_issuance_complete a;
  a_supersedes_id := a_supersedes_id a |}.

Definition updateAttestation (i : string) (state : attestation_state) (issuanceComplete : bool) : CM unit :=
  let* d := gets id in
  match cd_attestation d !! i with
  | None => ret tt
  | Some a =>
    run* lift (guarded_update true (attestation_table (a_state a) state)) in
    modify (with_attestation (<[i := attestation_moved state issuanceComplete a]>))
  end.

(** *** "attestation_status" *)

Definition insertStatus (i : string) (s : AttestationStatusRow) : CM unit :=
  let* d := gets id in
  throwif* negb (0 <? st_version s) as! PostgresError "23514" in
  throwif* negb (is_null (cd_status d !! i)) as! PostgresError "23505" in
  throwif* negb match cd_attestation d !! i with
                | Some a => String.eqb (a_committee_id a) (st_committee_id s)
                | None => false
                end
    as! PostgresError "23503" in
  modify (with_status (<[i := s]>)).

Definition updateStatus (i : string) (state : attestation_state) (effectiveAt : Z) : CM unit :=
  let* d := gets id in
  match cd_status d !! i with
  | None => ret tt
  | Some s =>
    let* v := lift (int4 (st_version s + 1)) in
    throwif* negb (0 <? v) as! PostgresError "23514" in
    modify (with_status (<[i := {| st_committee_id := st_committee_id s; st_state := state;
                                   st_effective_at := effectiveAt; st_version := v |}]>))
  end.

(** *** "attestation_revocation" (append-only) *)

Definition insertRevocation (i : string) (r : AttestationRevocationRow) : CM unit :=
  let* d := gets id in
  throwif* negb (is_null (cd_revocation d !! i))
           || has_row (fun s => String.eqb (rv_attestation s) (rv_attestation r)) (cd_revocation d)
    as! PostgresError "23505" in
  throwif* negb match cd_attestation d !! rv_attestation r with
                | Some a => String.eqb (a_committee_id a) (rv_committee_id r)
                | None => false
                end
           || negb (policy_exists d (rv_policy_version_id r))
    as! PostgresError "23503" in
  modify (with_revocation (<[i := r]>)).

(** *** "idempotency_record" *)

(** CHECK idempotency_completion_consistent, idempotency_result_version_positive. *)
Definition idempotency_checks (r : IdempotencyRow) : bool :=
  Bool.eqb (bool_decide (ir_state r = is_started)) (is_null (ir_completed_at r))
  && match ir_result_version r with Some v => 0 <? v | None => true end.

(** INSERT ... ON CONFLICT ("scope", "key_hash") DO NOTHING RETURNING "id". *)
Definition insertIdempotency (key : string * string) (r : IdempotencyRow) : CM (option string) :=
  let* d := gets id in
  throwif* negb (idempotency_checks r) as! PostgresError "23514" in
  match cd_idempotency d !! key with
  | Some _ => ret None
  | None =>
    throwif* some (map_to_list (cd_idempotency d)) (fun kv => String.eqb (ir_id (snd kv)) (ir_id r))
      as! PostgresError "23505" in
    throwif* match ir_committee_id r with
             | Some c => is_null (db_committee (cd_base d) !! c)
             | None => false
             end as! PostgresError "23503" in
    run* modify (with_idempotency (<[key := r]>)) in
    ret (Some (ir_id r))
  end.

Definition idempotency_completed (digest reference : string) (version : Z) (state : string) (now : Z)
    (r : IdempotencyRow) : IdempotencyRow := {|
  ir_id := ir_id r; ir_request_digest := ir_request_digest r; ir_command := ir_command r;
  ir_actor_type := ir_actor_type r; ir_actor_reference := ir_actor_reference r;
  ir_committee_id := ir_committee_id r; ir_state := is_completed; ir_result_digest := Some digest;
  ir_result_reference := Some reference; ir_result_state := Some state; ir_result_version := Some version;
  ir_started_at := ir_started_at r; ir_completed_at := Some now |}.

(** UPDATE ... SET "state" = 'completed', ... WHERE "id" = $5 AND "state" = 'started'. *)
Definition updateIdempotency (i digest reference : string) (version : Z) (state : string) : CM unit :=
  let* d := gets id in
  let p r := String.eqb (ir_id r) i && bool_decide (ir_state r = is_started) in
  let f := idempotency_completed digest reference version state (db_clock (cd_base d)) in
  throwif* negb (forallb (fun kv => negb (p (snd kv)) || idempotency_checks (f (snd kv)))
                   (map_to_list (cd_idempotency d))) as! PostgresError "23514" in
  modify (with_idempotency (fmap (fun r => if p r then f r else r))).
