(* ===== verification/Idempotency.v ===== *)
(** * Idempotency: the ledger every domain command goes through.

    lifecycle-repository.ts, verification-repository.ts and
    attestation-repository.ts each hold the same private methods:
    beginIdempotency opens the ledger entry of a key or finds the recorded
    result, completeIdempotency records it, and the domain event goes to the
    outbox.  They are here once; the repositories give the scope, the
    aggregate and the payload reference in which their copies differ. *)
From stdpp Require Import pretty.
From S2P Require Import Prelude Errors Transition Guards Text Json Database AuthDatabase CoreDatabase.
Local Open Scope Z_scope.

Record IdempotencyResult : Type := {
  idem_id : string;
  idem_replayed : bool;
  resultReference : option string;
  resultState : option string;
  resultVersion : option Z;
}.

(** [!n] for a column that may be NULL. *)
Definition truthyNum (n : option Z) : bool :=
  match n with Some z => negb (z =? 0) | None => false end.

(** [`${n}`] for an integer. *)
Definition template (n : Z) : string := pretty n.

Section commands.
Context `{Platform}.

(** What a new entry holds. *)
Definition idempotency_started (i command : string) (committeeId : option string) (context : CommandContext)
    (now : Z) : IdempotencyRow := {|
  ir_id := i; ir_request_digest := requestDigest context; ir_command := command;
  ir_actor_type := actor_type (actor context); ir_actor_reference := actor_reference (actor context);
  ir_committee_id := committeeId; ir_state := is_started; ir_result_digest := None;
  ir_result_reference := None; ir_result_state := None; ir_result_version := None;
  ir_started_at := now; ir_completed_at := None |}.

(** The entry was opened for this command and request and is complete. *)
Definition replayable (command : string) (committeeId : option string) (context : CommandContext)
    (row : IdempotencyRow) : bool :=
  String.eqb (ir_request_digest row) (requestDigest context)
  && String.eqb (ir_command row) command
  && bool_decide (ir_committee_id row = committeeId)
  && bool_decide (ir_state row = is_completed)
  && truthy (ir_result_reference row) && truthy (ir_result_state row) && truthyNum (ir_result_version row).

Definition beginScoped (scope : string) (committeeId : option string) (command : string)
    (context : CommandContext) : CM IdempotencyResult :=
  let keyHash := sha256 (idempotencyKey context) in
  let* i := on_db newId in
  let* now := gets (fun d => db_clock (cd_base d)) in
  let* inserted := insertIdempotency (scope, keyHash) (idempotency_started i command committeeId context now) in
  match inserted with
  | Some i => ret {| idem_id := i; idem_replayed := false; resultReference := None; resultState := None;
                     resultVersion := None |}
  | None =>
    let* existing := gets (fun d => cd_idempotency d !! (scope, keyHash)) in
    match existing with
    | None => throw IdempotencyConflictError
    | Some row =>
      throwif* negb (replayable command committeeId context row) as! IdempotencyConflictError in
      ret {| idem_id := ir_id row; idem_replayed := true; resultReference := ir_result_reference row;
             resultState := ir_result_state row; resultVersion := ir_result_version row |}
    end
  end.

Definition completeIdempotency (i reference : string) (version : Z) (state : string) : CM unit :=
  updateIdempotency i (sha256 (reference +:+ "|" +:+ template version +:+ "|" +:+ state)) reference version state.

(** INSERT INTO "outbox_event", the other columns at their defaults. *)
Definition enqueue (committeeId : option string) (aggregate reference eventType payloadReference : string)
    (version : Z) (state : string) (context : CommandContext) : CM unit :=
  let* i := on_db newId in
  let* now := gets (fun d => db_clock (cd_base d)) in
  on_db (insertOutboxEvent {|
    oe_id := i; oe_committee_id := committeeId; oe_event_type := eventType; oe_aggregate_type := aggregate;
    oe_aggregate_reference := reference; oe_schema_version := "issue-16-v1";
    oe_payload_reference := payloadReference;
    oe_payload_digest := sha256 (eventType +:+ "|" +:+ reference +:+ "|" +:+ template version +:+ "|" +:+ state);
    oe_idempotency_key_hash :=
      sha256 (committeeReference context +:+ "|" +:+ idempotencyKey context +:+ "|" +:+ eventType);
    oe_state := OutboxState.pending; oe_available_at := now; oe_lease_owner := None;
    oe_lease_acquired_at := None; oe_lease_expires_at := None; oe_attempt_count := 0;
    oe_last_error_class := None; oe_created_at := now; oe_completed_at := None |}).

(** appendAudit of audit.ts, on these tables. *)
Definition audit (context : CommandContext) (committeeId : option string) (command targetType reference : string)
    (prior : option string) (new : string) : CM string :=
  on_db (appendAudit context committeeId command
           {| target_type := targetType; target_reference := reference; priorState := prior;
              newState := Some new |} ar_succeeded).

Definition tenantScope (context : CommandContext) : string := "committee:" +:+ committeeReference context.

(** [committeeId(client, reference)] of the verification and attestation
    repositories. *)
Definition committeeId (reference : string) : CM string :=
  run* lift (requireOpaqueReference reference "committee reference") in
  let* found := gets (committee_by_reference reference) in
  match found with
  | Some (i, _) => ret i
  | None => throw TenantBoundaryError
  end.
End commands.
