(* ===== verification/VerificationRepository.v ===== *)
(** * VerificationRepository: packages/db/src/verification-repository.ts.

    Requests, their sixteen commands and review decisions.  Each operation is
    one serializable transaction; [env] is what the environment does to its
    attempts, the suffix [_tx] names the body. *)
From S2P Require Import Authorization Prelude Errors Transition Lifecycles Text Attestation Json Database AuthDatabase.
From S2P Require Import CoreDatabase Idempotency.
Import Verification(VerificationState).
Local Open Scope Z_scope.

Record VerificationRecord : Type := {
  v_externalReference : string;
  v_committeeReference : string;
  v_participantReference : string;
  v_state : string;
  v_version : Z;
  v_replayed : bool;
}.

Record TransitionInput : Type := {
  ti_requestReference : string;
  ti_expectedVersion : jsnumber;
  ti_context : CommandContext;
}.

Record CreateVerificationRequestInput : Type := {
  cvr_id : option string;
  cvr_externalReference : string;
  cvr_participantReference : string;
  cvr_policyVersionId : string;
  cvr_context : CommandContext;
}.

(** [rrd_authorizationJson] is [JSON.stringify(input.authorization)]: the
    text depends on the order in which the caller made the object's keys. *)
Record RecordReviewDecisionInput : Type := {
  rrd_id : option string;
  rrd_externalReference : string;
  rrd_requestReference : string;
  rrd_reviewerMemberReference : string;
  rrd_policyVersionId : string;
  rrd_decision : review_decision_state;
  rrd_authorization : ReviewerAuthorizationDecision;
  rrd_authorizationJson : string;
  rrd_context : CommandContext;
}.

(** [version === expected]. *)
Definition sameVersion (version : Z) (expected : jsnumber) : bool :=
  match expected with Int z => version =? z | _ => false end.

(** [input.id ?? newId()]. *)
Definition idOrNew `{Platform} (i : option string) : CM string :=
  match i with Some x => ret x | None => on_db newId end.

Section commands.
Context `{Platform}.

(** The row [requestReference] names within the committee, its key, and the
    two references it is joined with. *)
Definition loadRow (committeeId requestReference : string)
  : CM (string * VerificationRequestRow * string * string) :=
  let* d := gets id in
  match select_row (fun r => String.eqb (vr_external_reference r) requestReference
                             && String.eqb (vr_committee_id r) committeeId) (cd_request d) with
  | None => throw TenantBoundaryError
  | Some (i, r) =>
    match participant_reference d (vr_participant_id r),
          committee_external_reference <$> db_committee (cd_base d) !! vr_committee_id r with
    | Some p, Some c => ret (i, r, p, c)
    | _, _ => throw TenantBoundaryError
    end
  end.

Definition record_of (r : VerificationRequestRow) (p c : string) (replayed : bool) : VerificationRecord := {|
  v_externalReference := vr_external_reference r; v_committeeReference := c; v_participantReference := p;
  v_state := state_name (vr_state r); v_version := vr_version r; v_replayed := replayed |}.

Definition loadRecord (committeeId requestReference : string) (replayed : bool) : CM VerificationRecord :=
  let* found := loadRow committeeId requestReference in
  let '(_, r, p, c) := found in ret (record_of r p c replayed).

Definition beginIdempotency (committeeId command : string) (context : CommandContext) : CM IdempotencyResult :=
  beginScoped (tenantScope context) (Some committeeId) command context.

Definition replayRecord (record : VerificationRecord) (idempotency : IdempotencyResult)
  : result exn VerificationRecord :=
  throwif! negb (bool_decide (resultReference idempotency = Some (v_externalReference record)))
           || negb (truthy (resultState idempotency)) || negb (truthyNum (resultVersion idempotency))
    as! IdempotencyConflictError in
  Ok {| v_externalReference := v_externalReference record;
        v_committeeReference := v_committeeReference record;
        v_participantReference := v_participantReference record;
        v_state := default "" (resultState idempotency);
        v_version := default 0 (resultVersion idempotency);
        v_replayed := true |}.

Definition enqueueDomainEvent (committeeId reference eventType : string) (version : Z) (state : string)
    (context : CommandContext) : CM unit :=
  enqueue (Some committeeId) "verification_request" reference eventType
    ("domain:" +:+ reference +:+ ":v" +:+ template version) version state context.

Definition createRequest_tx (input : CreateVerificationRequestInput) : CM VerificationRecord :=
  let* cid := committeeId (committeeReference (cvr_context input)) in
  let* idempotency := beginIdempotency cid "createVerificationRequest" (cvr_context input) in
  if idem_replayed idempotency then
    let* record := loadRecord cid (cvr_externalReference input) true in
    lift (replayRecord record idempotency)
  else
    let* participant := gets (fun d => ad_participant (cd_auth d) !! cvr_participantReference input) in
    match participant with
    | None => throw (RepositoryConflictError "participant does not exist")
    | Some pid =>
      let* i := idOrNew (cvr_id input) in
      let* now := gets (fun d => db_clock (cd_base d)) in
      run* insertRequest i {|
        vr_external_reference := cvr_externalReference input; vr_committee_id := cid;
        vr_participant_id := pid; vr_policy_version_id := cvr_policyVersionId input;
        vr_state := Verification.requested; vr_version := 1; vr_requested_at := now; vr_updated_at := now |} in
      run* audit (cvr_context input) (Some cid) "createVerificationRequest" "verification_request"
             (cvr_externalReference input) None "requested" in
      run* enqueueDomainEvent cid (cvr_externalReference input) "VerificationRequested" 1 "requested"
             (cvr_context input) in
      run* completeIdempotency (idem_id idempotency) (cvr_externalReference input) 1 "requested" in
      loadRecord cid (cvr_externalReference input) false
    end.

Definition createRequest (env : nat -> TxAttempt) (input : CreateVerificationRequestInput) : CM VerificationRecord :=
  run* lift (requireOpaqueReference (cvr_externalReference input) "verification external reference") in
  run* lift (requireOpaqueReference (cvr_participantReference input) "participant reference") in
  inSerializableTransaction env (createRequest_tx input).

(** The UPDATE finds the row just read: the version was compared, and the
    transaction is serializable. *)
Definition transition_tx (commandName : string) (command : VerificationState -> result exn VerificationState)
    (input : TransitionInput) : CM VerificationRecord :=
  let* cid := committeeId (committeeReference (ti_context input)) in
  let* idempotency := beginIdempotency cid commandName (ti_context input) in
  if idem_replayed idempotency then
    let* record := loadRecord cid (ti_requestReference input) true in
    lift (replayRecord record idempotency)
  else
    let* found := loadRow cid (ti_requestReference input) in
    let '(i, current, p, _) := found in
    throwif* negb (sameVersion (vr_version current) (ti_expectedVersion input))
      as! RepositoryConflictError "verification request version is stale" in
    let* nextState := lift (command (vr_state current)) in
    let* v := updateRequest i nextState current in
    run* audit (ti_context input) (Some cid) commandName "verification_request" (ti_requestReference input)
           (Some (state_name (vr_state current))) (state_name nextState) in
    run* enqueueDomainEvent cid (ti_requestReference input) commandName v (state_name nextState)
           (ti_context input) in
    run* completeIdempotency (idem_id idempotency) (ti_requestReference input) v (state_name nextState) in
    ret {| v_externalReference := ti_requestReference input;
           v_committeeReference := committeeReference (ti_context input);
           v_participantReference := p; v_state := state_name nextState; v_version := v;
           v_replayed := false |}.

Definition transition (env : nat -> TxAttempt) (commandName : string)
    (command : VerificationState -> result exn VerificationState) (input : TransitionInput)
  : CM VerificationRecord :=
  run* lift (requireOpaqueReference (ti_requestReference input) "verification request reference") in
  inSerializableTransaction env (transition_tx commandName command input).

(** The repository's commands, by their method names. *)
Inductive RequestCommand : Type :=
| schedule | checkIn | beginReview | approve | reject | requestMoreInformation | withdraw
| rescheduleAfterMoreInformation | rejectAfterMoreInformation | withdrawAfterMoreInformation
| requestIssuance | recordIssuance | openAppeal | upholdAppeal | denyAppeal | remandAppeal.

Definition commandName (c : RequestCommand) : string :=
  match c with
  | schedule => "scheduleRequest" | checkIn => "checkInParticipant" | beginReview => "beginReview"
  | approve => "approveVerification" | reject => "rejectVerification"
  | requestMoreInformation => "requestMoreInformation" | withdraw => "withdrawVerification"
  | rescheduleAfterMoreInformation => "rescheduleAfterMoreInformation"
  | rejectAfterMoreInformation => "rejectAfterMoreInformation"
  | withdrawAfterMoreInformation => "withdrawAfterMoreInformation"
  | requestIssuance => "requestIssuance" | recordIssuance => "recordIssuance"
  | openAppeal => "openAppeal" | upholdAppeal => "upholdAppeal" | denyAppeal => "denyAppeal"
  | remandAppeal => "remandAppeal"
  end.

Definition domainCommand (c : RequestCommand) : VerificationState -> result exn VerificationState :=
  match c with
  | schedule => Verification.scheduleRequest
  | checkIn => Verification.checkInParticipant
  | beginReview => Verification.beginReview
  | approve => Verification.approveVerification
  | reject => Verification.rejectVerification
  | requestMoreInformation => Verification.requestMoreInformation
  | withdraw => Verification.withdrawVerification
  | rescheduleAfterMoreInformation => Verification.rescheduleAfterMoreInformation
  | rejectAfterMoreInformation => Verification.rejectAfterMoreInformation
  | withdrawAfterMoreInformation => Verification.withdrawAfterMoreInformation
  | requestIssuance => Verification.requestIssuance
  | recordIssuance => Verification.recordIssuance
  | openAppeal => Verification.openAppeal
  | upholdAppeal => Verification.upholdAppeal
  | denyAppeal => Verification.denyAppeal
  | remandAppeal => Verification.remandAppeal
  end.

Definition requestCommand (env : nat -> TxAttempt) (c : RequestCommand) (input : TransitionInput)
  : CM VerificationRecord := transition env (commandName c) (domainCommand c) input.

(** *** Review decisions *)

Definition activeMember (reference cid : string) (m : MemberRow) : bool :=
  String.eqb (cm_external_reference m) reference && String.eqb (cm_committee_id m) cid
  && bool_decide (cm_state m = ms_active).

Definition unresolvedConflict (member cid requestReference : string) (c : ConflictRow) : bool :=
  String.eqb (cf_member_id c) member && String.eqb (cf_committee_id c) cid
  && String.eqb (cf_target_type c) "verification_request"
  && String.eqb (cf_target_reference c) requestReference && is_null (cf_resolved_at c).

Definition recordReviewDecision_tx (input : RecordReviewDecisionInput) : CM bool :=
  let* cid := committeeId (committeeReference (rrd_context input)) in
  let* idempotency := beginIdempotency cid "recordReviewDecision" (rrd_context input) in
  if idem_replayed idempotency then ret true
  else
    let* found := loadRow cid (rrd_requestReference input) in
    let '(requestId, request, _, _) := found in
    throwif* negb (bool_decide (vr_state request = Verification.under_review))
      as! RepositoryConflictError "review decision requires an under-review request" in
    let* member := gets (fun d => select_row (activeMember (rrd_reviewerMemberReference input) cid)
                                    (committee_members d)) in
    match member with
    | None => throw TenantBoundaryError
    | Some (memberId, _) =>
      let* conflicts := gets (fun d => conflict_declarations d) in
      throwif* some conflicts (unresolvedConflict memberId cid (rrd_requestReference input))
        as! RepositoryConflictError "reviewer has an unresolved conflict" in
      let* i := idOrNew (rrd_id input) in
      let* now := gets (fun d => db_clock (cd_base d)) in
      run* insertDecision i {|
        rd_external_reference := rrd_externalReference input; rd_committee_id := cid;
        rd_request_id := requestId; rd_reviewer_member_id := memberId;
        rd_policy_version_id := rrd_policyVersionId input; rd_state := rrd_decision input;
        rd_reason_category := reasonCategory (rrd_context input);
        rd_authorization_decision_digest := sha256 (rrd_authorizationJson input);
        rd_conflict_checked_at := now; rd_decided_at := now |} in
      run* audit (rrd_context input) (Some cid) "recordReviewDecision" "review_decision"
             (rrd_externalReference input) None (state_name (rrd_decision input)) in
      run* enqueueDomainEvent cid (rrd_externalReference input) "ReviewDecisionRecorded" 1
             (state_name (rrd_decision input)) (rrd_context input) in
      run* completeIdempotency (idem_id idempotency) (rrd_externalReference input) 1
             (state_name (rrd_decision input)) in
      ret false
    end.

Definition recordReviewDecision (env : nat -> TxAttempt) (input : RecordReviewDecisionInput) : CM bool :=
  run* lift (requireOpaqueReference (rrd_externalReference input) "decision external reference") in
  let* eligible := lift (requireEligibleReviewer (rrd_authorization input)) in
  throwif* negb (String.eqb (eligible_actorReference eligible) (actor_reference (actor (rrd_context input))))
    as! RepositoryConflictError "authorization decision does not match the command actor" in
  inSerializableTransaction env (recordReviewDecision_tx input).
End commands.
