(* ===== verification/AttestationRepository.v ===== *)
(** * AttestationRepository: packages/db/src/attestation-repository.ts.

    Issuing, activating, expiring and revoking attestations, and the status
    query.  Each command is one serializable transaction; [env] is what the
    environment does to its attempts, the suffix [_tx] names the body. *)
From S2P Require Import Prelude Errors Transition Lifecycles Text Attestation Json Database AuthDatabase.
From S2P Require Import CoreDatabase Idempotency VerificationRepository.
Import Verification(VerificationState).
Local Open Scope Z_scope.

Record AttestationRecord : Type := {
  r_externalReference : string;
  r_committeeReference : string;
  r_participantReference : string;
  r_requestReference : string;
  r_version : Z;
  r_state : string;
  r_validFrom : Z;
  r_expiresAt : Z;
  r_supersedesReference : option string;
  r_statusVersion : Z;
  r_replayed : bool;
}.

(** The row of the query: "attestation" and what it is joined with. *)
Record AttestationRow : Type := {
  row : AttestationTableRow;
  committee_reference : string;
  participant_reference : string;
  request_reference : string;
  request_state : VerificationState;
  request_version : Z;
  supersedes_reference : option string;
  status_version : Z;
}.

Record IssueAttestationInput : Type := {
  ia_id : option string;
  ia_externalReference : string;
  ia_requestReference : string;
  ia_policyVersionId : string;
  ia_validFrom : jsdate;
  ia_expiresAt : jsdate;
  ia_supersedesReference : option string;
  ia_context : CommandContext;
}.

Record MutateAttestationInput : Type := {
  ma_attestationReference : string;
  ma_expectedStatusVersion : jsnumber;
  ma_observedAt : jsdate;
  ma_context : CommandContext;
}.

Record RevokeAttestationInput : Type := {
  ra_mutation : MutateAttestationInput;
  ra_revocationId : option string;
  ra_policyVersionId : string;
}.

(** [d < t] and [d >= t]: false when [d] is invalid. *)
Definition dateBefore (d : jsdate) (t : Z) : bool := match d with Some x => x <? t | None => false end.
Definition dateFrom (d : jsdate) (t : Z) : bool := match d with Some x => t <=? x | None => false end.

(** The request state that has an attestation state's literal, and back. *)
Definition request_state_of (s : attestation_state) : VerificationState :=
  match s with
  | st_issued => Verification.issued | st_active => Verification.active
  | st_expired => Verification.expired | st_revoked => Verification.revoked
  | st_superseded => Verification.superseded
  end.

Section commands.
Context `{Platform}.

Definition loadRow (cid reference : string) : CM AttestationRow :=
  let* d := gets id in
  match select_row (fun a => String.eqb (a_committee_id a) cid
                             && String.eqb (a_external_reference a) reference) (cd_attestation d) with
  | None => throw TenantBoundaryError
  | Some (i, a) =>
    match committee_external_reference <$> db_committee (cd_base d) !! a_committee_id a,
          CoreDatabase.participant_reference d (a_participant_id a),
          cd_request d !! a_request_id a, cd_status d !! i with
    | Some c, Some p, Some r, Some s =>
      ret {| row := a; committee_reference := c; participant_reference := p;
             request_reference := vr_external_reference r; request_state := vr_state r;
             request_version := vr_version r;
             supersedes_reference := a_external_reference <$> (a_supersedes_id a ≫= (cd_attestation d !!.));
             status_version := st_version s |}
    | _, _, _, _ => throw TenantBoundaryError
    end
  end.

Definition loadRowById (i cid : string) : CM AttestationRow :=
  let* reference := gets (fun d => match cd_attestation d !! i with
                                   | Some a => if String.eqb (a_committee_id a) cid
                                               then Some (a_external_reference a) else None
                                   | None => None
                                   end) in
  match reference with
  | None => throw TenantBoundaryError
  | Some r => loadRow cid r
  end.

Definition load (cid reference : string) (replayed : bool) : CM AttestationRecord :=
  let* r := loadRow cid reference in
  ret {| r_externalReference := a_external_reference (row r); r_committeeReference := committee_reference r;
         r_participantReference := participant_reference r; r_requestReference := request_reference r;
         r_version := a_version (row r); r_state := state_name (a_state (row r));
         r_validFrom := a_valid_from (row r); r_expiresAt := a_expires_at (row r);
         r_supersedesReference := nonempty (supersedes_reference r);
         r_statusVersion := status_version r; r_replayed := replayed |}.

Definition beginIdempotency (cid command : string) (context : CommandContext) : CM IdempotencyResult :=
  beginScoped (tenantScope context) (Some cid) command context.

Definition replayRecord (record : AttestationRecord) (idempotency : IdempotencyResult)
  : result exn AttestationRecord :=
  throwif! negb (bool_decide (resultReference idempotency = Some (r_externalReference record)))
           || negb (truthy (resultState idempotency)) || negb (truthyNum (resultVersion idempotency))
    as! IdempotencyConflictError in
  Ok {| r_externalReference := r_externalReference record; r_committeeReference := r_committeeReference record;
        r_participantReference := r_participantReference record;
        r_requestReference := r_requestReference record; r_version := r_version record;
        r_state := default "" (resultState idempotency);
        r_validFrom := r_validFrom record; r_expiresAt := r_expiresAt record;
        r_supersedesReference := r_supersedesReference record;
        r_statusVersion := default 0 (resultVersion idempotency); r_replayed := true |}.

Definition enqueueEvent (cid reference eventType : string) (version : Z) (state : string)
    (context : CommandContext) : CM unit :=
  enqueue (Some cid) "attestation" reference eventType
    ("domain:" +:+ reference +:+ ":v" +:+ template version +:+ ":" +:+ state) version state context.

(** *** issue *)

(** The predecessor must be the participant's active attestation. *)
Definition renewable (participant_id : string) (prior : AttestationTableRow) : bool :=
  String.eqb (a_participant_id prior) participant_id && bool_decide (a_state prior = st_active).

(** The new version and the predecessor's id. *)
Definition predecessor (cid participant_id : string) (supersedesReference : option string)
  : CM (Z * option string) :=
  match nonempty supersedesReference with
  | None => ret (1, None)
  | Some reference =>
    let* found := gets (fun d => select_row (fun a => String.eqb (a_external_reference a) reference
                                                      && String.eqb (a_committee_id a) cid)
                                   (cd_attestation d)) in
    match found with
    | Some (i, prior) =>
      throwif* negb (renewable participant_id prior)
        as! RepositoryConflictError "renewal predecessor must be the active participant attestation" in
      ret (a_version prior + 1, Some i)
    | None => throw (RepositoryConflictError "renewal predecessor must be the active participant attestation")
    end
  end.

Definition issue_tx (input : IssueAttestationInput) : CM AttestationRecord :=
  let* cid := committeeId (committeeReference (ia_context input)) in
  let* idempotency := beginIdempotency cid "issueAttestation" (ia_context input) in
  if idem_replayed idempotency then
    let* record := load cid (ia_externalReference input) true in
    lift (replayRecord record idempotency)
  else
    let* found := VerificationRepository.loadRow cid (ia_requestReference input) in
    let '(requestId, request, _, _) := found in
    throwif* negb (bool_decide (vr_state request = Verification.issued))
      as! RepositoryConflictError "attestation issuance requires an issued request" in
    let* prior := predecessor cid (vr_participant_id request) (ia_supersedesReference input) in
    run* lift (createAttestationValidity {|
      version := Int (fst prior); validFrom := ia_validFrom input; expiresAt := ia_expiresAt input;
      supersedesReference := nonempty (ia_supersedesReference input) |}) in
    let* i := idOrNew (ia_id input) in
    let* from := lift (bindTimestamp (ia_validFrom input)) in
    let* until := lift (bindTimestamp (ia_expiresAt input)) in
    run* insertAttestation {|
      a_id := i; a_external_reference := ia_externalReference input; a_committee_id := cid;
      a_participant_id := vr_participant_id request; a_request_id := requestId;
      a_policy_version_id := ia_policyVersionId input; a_version := fst prior; a_state := st_issued;
      a_valid_from := from; a_expires_at := until; a_issuance_complete := false;
      a_supersedes_id := snd prior |} in
    run* insertStatus i {| st_committee_id := cid; st_state := st_issued; st_effective_at := from;
                           st_version := 1 |} in
    run* audit (ia_context input) (Some cid) "issueAttestation" "attestation" (ia_externalReference input)
           None "issued" in
    run* enqueueEvent cid (ia_externalReference input) "AttestationIssued" (fst prior) "issued"
           (ia_context input) in
    run* completeIdempotency (idem_id idempotency) (ia_externalReference input) 1 "issued" in
    load cid (ia_externalReference input) false.

Definition issue (env : nat -> TxAttempt) (input : IssueAttestationInput) : CM AttestationRecord :=
  run* lift (requireOpaqueReference (ia_externalReference input) "attestation external reference") in
  run* lift (requireOpaqueReference (ia_requestReference input) "verification request reference") in
  inSerializableTransaction env (issue_tx input).

(** *** activate, expire, revoke *)

(** UPDATE "verification_request" ... WHERE "id" = $2 AND "version" = $3. *)
Definition updateRequestAt (i : string) (state : VerificationState) (version : Z) : CM unit :=
  let* found := gets (fun d => cd_request d !! i) in
  match found with
  | Some r => if vr_version r =? version then run* updateRequest i state r in ret tt else ret tt
  | None => ret tt
  end.

Definition updateAttestationAndRequest (r : AttestationRow) (state : attestation_state)
    (effectiveAt : jsdate) (issuanceComplete : bool) : CM unit :=
  run* updateAttestation (a_id (row r)) state issuanceComplete in
  let* at_ := lift (bindTimestamp effectiveAt) in
  run* updateStatus (a_id (row r)) state at_ in
  updateRequestAt (a_request_id (row r)) (request_state_of state) (request_version r).

Definition staleStatus {A : Type} : CM A :=
  throw (RepositoryConflictError "attestation status version is stale").

Definition revoke_tx (input : RevokeAttestationInput) : CM AttestationRecord :=
  let m := ra_mutation input in
  let* cid := committeeId (committeeReference (ma_context m)) in
  let* idempotency := beginIdempotency cid "revokeAttestation" (ma_context m) in
  if idem_replayed idempotency then
    let* record := load cid (ma_attestationReference m) true in
    lift (replayRecord record idempotency)
  else
    let* r := loadRow cid (ma_attestationReference m) in
    if negb (sameVersion (status_version r) (ma_expectedStatusVersion m)) then staleStatus
    else
      run* lift (Verification.revokeAttestation (request_state_of (a_state (row r)))) in
      let* i := idOrNew (ra_revocationId input) in
      let* at_ := lift (bindTimestamp (ma_observedAt m)) in
      run* insertRevocation i {|
        rv_attestation := a_id (row r); rv_committee_id := cid; rv_policy_version_id := ra_policyVersionId input;
        rv_reason_category := reasonCategory (ma_context m); rv_effective := at_ |} in
      run* updateAttestationAndRequest r st_revoked (ma_observedAt m) false in
      run* audit (ma_context m) (Some cid) "revokeAttestation" "attestation" (ma_attestationReference m)
             (Some (state_name (a_state (row r)))) "revoked" in
      run* enqueueEvent cid (ma_attestationReference m) "AttestationRevoked" (a_version (row r)) "revoked"
             (ma_context m) in
      run* completeIdempotency (idem_id idempotency) (ma_attestationReference m) (status_version r + 1)
             "revoked" in
      load cid (ma_attestationReference m) false.

Definition revoke (env : nat -> TxAttempt) (input : RevokeAttestationInput) : CM AttestationRecord :=
  inSerializableTransaction env (revoke_tx input).

(** Activation ends the attestation that the new one renews. *)
Definition supersedePredecessor (cid : string) (priorId : string) (m : MutateAttestationInput) : CM unit :=
  let* prior := loadRowById priorId cid in
  run* lift (Verification.supersedeAttestation (request_state prior)) in
  run* updateAttestationAndRequest prior st_superseded (ma_observedAt m) false in
  run* audit (ma_context m) (Some cid) "supersedePriorAttestation" "attestation"
         (a_external_reference (row prior)) (Some (state_name (a_state (row prior)))) "superseded" in
  enqueueEvent cid (a_external_reference (row prior)) "AttestationSuperseded" (a_version (row prior))
    "superseded" (ma_context m).

(** The validity window, then the domain command; [activating] is
    [targetState === "active"]. *)
Definition requireWindow (activating : bool) (r : AttestationRow) (observedAt : jsdate) : CM VerificationState :=
  if activating then
    throwif* dateBefore observedAt (a_valid_from (row r)) || dateFrom observedAt (a_expires_at (row r))
      as! RepositoryConflictError "attestation cannot activate outside its validity window" in
    lift (Verification.activateAttestation (request_state r))
  else
    throwif* dateBefore observedAt (a_expires_at (row r))
      as! RepositoryConflictError "attestation cannot expire before its exact boundary" in
    lift (Verification.expireAttestation (request_state r)).

Definition changeActiveState_tx (command : string) (activating : bool) (m : MutateAttestationInput)
  : CM AttestationRecord :=
  let next := if activating then st_active else st_expired in
  let* cid := committeeId (committeeReference (ma_context m)) in
  let* idempotency := beginIdempotency cid command (ma_context m) in
  if idem_replayed idempotency then
    let* record := load cid (ma_attestationReference m) true in
    lift (replayRecord record idempotency)
  else
    let* r := loadRow cid (ma_attestationReference m) in
    if negb (sameVersion (status_version r) (ma_expectedStatusVersion m)) then staleStatus
    else
      run* requireWindow activating r (ma_observedAt m) in
      run* updateAttestationAndRequest r next (ma_observedAt m) activating in
      run* match activating, nonempty (a_supersedes_id (row r)) with
           | true, Some priorId => supersedePredecessor cid priorId m
           | _, _ => ret tt
           end in
      run* audit (ma_context m) (Some cid) command "attestation" (ma_attestationReference m)
             (Some (state_name (a_state (row r)))) (state_name next) in
      run* enqueueEvent cid (ma_attestationReference m)
             (if activating then "AttestationActivated" else "AttestationExpired")
             (a_version (row r)) (state_name next) (ma_context m) in
      run* completeIdempotency (idem_id idempotency) (ma_attestationReference m) (status_version r + 1)
             (state_name next) in
      load cid (ma_attestationReference m) false.

Definition changeActiveState (env : nat -> TxAttempt) (command : string) (activating : bool)
    (m : MutateAttestationInput) : CM AttestationRecord :=
  inSerializableTransaction env (changeActiveState_tx command activating m).

Definition activate (env : nat -> TxAttempt) (m : MutateAttestationInput) : CM AttestationRecord :=
  changeActiveState env "activateAttestation" true m.

Definition expire (env : nat -> TxAttempt) (m : MutateAttestationInput) : CM AttestationRecord :=
  changeActiveState env "expireAttestation" false m.

(** *** statusAt *)

Definition revocation_row (r : AttestationRevocationRow) : RevocationRow :=
  {| rv_attestation_id := rv_attestation r; rv_effective_at := rv_effective r |}.

Definition statusAt (e : TxAttempt) (committeeReference attestationReference : string) (observedAt : jsdate)
  : CM CanonicalAttestationStatus :=
  statement e (
    let* at_ := lift (bindTimestamp observedAt) in
    let* d := gets id in
    let attestations := snd <$> map_to_list (cd_attestation d) in
    match List.find (fun a => String.eqb (a_external_reference a) attestationReference
                     && bool_decide (committee_external_reference
                                       <$> db_committee (cd_base d) !! a_committee_id a
                                     = Some committeeReference)) attestations with
    | None => throw TenantBoundaryError
    | Some a =>
      match cbc_attestation_status_at attestations
              (revocation_row ∘ snd <$> map_to_list (cd_revocation d)) (a_id a) at_ with
      | Some s => ret s
      | None => throw TenantBoundaryError
      end
    end).
End commands.
