(* ===== verification/LifecycleRepository.v ===== *)
(** * LifecycleRepository: packages/db/src/lifecycle-repository.ts.

    One [transition] serves eight tables.  Where the source builds the SQL
    from a table's name and asks [config.table === ...], the table is an
    instance of the class [LifecycleTable]: its names, its rows in the
    database, what an update assigns, the preconditions of its commands, and
    the CHECK constraints and triggers of the server. *)
From S2P Require Import Prelude Errors Transition Lifecycles Guards Text Attestation Json Database AuthDatabase.
From S2P Require Import CoreDatabase Idempotency VerificationRepository AttestationRepository.
Local Open Scope Z_scope.

Record LifecycleTransitionInput : Type := {
  li_externalReference : string;
  li_expectedVersion : jsnumber;
  li_observedAt : jsdate;
  li_assignmentReference : option string;
  li_context : CommandContext;
}.

Record LifecycleRecord : Type := {
  l_externalReference : string;
  l_state : string;
  l_version : Z;
  l_replayed : bool;
}.

(** What the source's [LifecycleRow] and [TableConfig] give for a table.
    [lr_committee] is the row's tenant, [lr_assign] the UPDATE's assignments
    (the state, the next version and the additional ones), [lr_checks] the
    CHECK constraints, [lr_trigger] the BEFORE UPDATE trigger. *)
Class LifecycleTable (Row State Command : Type) := {
  lr_lifecycle :: Lifecycle State Command;
  lr_state_eq :: EqDecision State;
  lr_state_name :: StateName State;
  lr_command_name : Command -> string;
  lr_targetType : string;
  lr_eventAggregate : string;
  lr_rows : CoreDb -> gmap string Row;
  lr_set_rows : gmap string Row -> CoreDb -> CoreDb;
  lr_reference : Row -> string;
  lr_committee : string -> Row -> option string;
  lr_state : Row -> State;
  lr_version : Row -> Z;
  lr_preconditions : CoreDb -> Command -> string -> Row -> LifecycleTransitionInput -> result exn unit;
  lr_assign : State -> Z -> LifecycleTransitionInput -> Row -> result exn Row;
  lr_checks : Row -> bool;
  lr_trigger : CoreDb -> Row -> Row -> result exn unit;
}.

Section commands.
Context `{Platform}.

Definition beginIdempotency (committeeId : option string) (command : string) (context : CommandContext)
  : CM IdempotencyResult :=
  let scope := if truthy committeeId then "committee:" +:+ committeeReference context
               else "global:" +:+ actor_reference (actor context) in
  beginScoped scope committeeId command context.

Section table.
Context {Row State Command : Type} `{LifecycleTable Row State Command}.

(** The row, its key, and its committee's id and reference (LEFT JOIN). *)
Definition load (reference : string) : CM (string * Row * option string * option string) :=
  let* d := gets id in
  match select_row (fun r => String.eqb (lr_reference r) reference) (lr_rows d) with
  | None => throw TenantBoundaryError
  | Some (i, r) => ret (i, r, lr_committee i r, Database.committee_reference (cd_base d) (lr_committee i r))
  end.

(** [row.committee_reference && row.committee_reference !== reference] *)
Definition other_tenant (committee_reference : option string) (reference : string) : bool :=
  match nonempty committee_reference with Some c => negb (String.eqb c reference) | None => false end.

(** UPDATE ... WHERE "id" = $2 AND "version" = $3. *)
Definition update (i : string) (r : Row) (next : State) (input : LifecycleTransitionInput) : CM Z :=
  let* d := gets id in
  let* new := lift (lr_assign next (lr_version r + 1) input r) in
  let* v := lift (int4 (lr_version r + 1)) in
  run* lift (lr_trigger d r new) in
  throwif* negb (0 <? v) || negb (lr_checks new) as! PostgresError "23514" in
  run* modify (lr_set_rows (<[i := new]> (lr_rows d))) in
  ret v.

Definition transition_tx (command : Command) (input : LifecycleTransitionInput) : CM LifecycleRecord :=
  let reference := li_externalReference input in
  let context := li_context input in
  let name := lr_command_name command in
  let* loaded := load reference in
  let '(i, r, committee_id, committee_reference) := loaded in
  throwif* other_tenant committee_reference (committeeReference context) as! TenantBoundaryError in
  throwif* String.eqb lr_targetType "committee" && negb (String.eqb (lr_reference r) (committeeReference context))
    as! TenantBoundaryError in
  let* idempotency := beginIdempotency committee_id name context in
  if idem_replayed idempotency then
    throwif* negb (bool_decide (resultReference idempotency = Some reference))
             || negb (truthy (resultState idempotency)) || negb (truthyNum (resultVersion idempotency))
      as! IdempotencyConflictError in
    ret {| l_externalReference := reference; l_state := default "" (resultState idempotency);
           l_version := default 0 (resultVersion idempotency); l_replayed := true |}
  else
    throwif* negb (sameVersion (lr_version r) (li_expectedVersion input))
      as! RepositoryConflictError (lr_targetType +:+ " version is stale") in
    let* next := lift (lc_apply command (lr_state r)) in
    let* d := gets id in
    run* lift (lr_preconditions d command i r input) in
    let* v := update i r next input in
    run* audit context committee_id name lr_targetType reference (Some (state_name (lr_state r)))
           (state_name next) in
    run* enqueue committee_id lr_eventAggregate reference name
           ("domain:" +:+ reference +:+ ":v" +:+ template v) v (state_name next) context in
    run* completeIdempotency (idem_id idempotency) reference v (state_name next) in
    ret {| l_externalReference := reference; l_state := state_name next; l_version := v; l_replayed := false |}.

Definition transition (env : nat -> TxAttempt) (command : Command) (input : LifecycleTransitionInput)
  : CM LifecycleRecord :=
  run* lift (requireOpaqueReference (li_externalReference input) (lr_targetType +:+ " reference")) in
  inSerializableTransaction env (transition_tx command input).
End table.
End commands.

Definition no_preconditions {Row Command : Type} (d : CoreDb) (c : Command) (i : string) (r : Row)
  (input : LifecycleTransitionInput) : result exn unit := Ok tt.
Definition no_trigger {Row : Type} (d : CoreDb) (old new : Row) : result exn unit := Ok tt.

(** ** "committee" *)
Module CommitteeTable.
Import Committee.

Definition command_name (c : command) : string :=
  match c with
  | C_beginCommitteeFormation => "beginCommitteeFormation"
  | C_beginCommitteePolicyReview => "beginCommitteePolicyReview"
  | C_beginTestnetProvisioning => "beginTestnetProvisioning"
  | C_markCommitteeTestnetReady => "markCommitteeTestnetReady"
  | C_beginCommitteePilotReview => "beginCommitteePilotReview"
  | C_approveCommitteePilot => "approveCommitteePilot"
  | C_activateCommittee => "activateCommittee"
  | C_suspendCommittee => "suspendCommittee"
  | C_retireCommittee => "retireCommittee"
  | C_reactivateCommittee => "reactivateCommittee"
  | C_retireSuspendedCommittee => "retireSuspendedCommittee"
  end.

Definition set_rows (m : gmap string CommitteeRow) (d : CoreDb) : CoreDb :=
  with_cd_base (with_committee (fun _ => m) (cd_base d)) d.

#[global] Instance committee_lifecycle_table : LifecycleTable CommitteeRow CommitteeState command := {
  lr_command_name := command_name;
  lr_targetType := "committee";
  lr_eventAggregate := "committee";
  lr_rows d := db_committee (cd_base d);
  lr_set_rows := set_rows;
  lr_reference := committee_external_reference;
  lr_committee i _ := Some i;
  lr_state := committee_state;
  lr_version := committee_version;
  lr_preconditions := no_preconditions;
  lr_assign next v _ r := Ok {| committee_external_reference := committee_external_reference r;
                                  committee_state := next; committee_version := v |};
  lr_checks _ := true;
  lr_trigger _ old new := cbc_guard_committee_transition (committee_state old) (committee_state new)
                            (committee_version old) (committee_version new);
}.
End CommitteeTable.

(** ** "renewal_cycle" *)
Module RenewalCycleTable.
Import RenewalCycle.

Definition command_name (c : command) : string :=
  match c with
  | C_commitEligibleSnapshot => "commitEligibleSnapshot"
  | C_requestRenewalSelection => "requestRenewalSelection"
  | C_recordRenewalSelection => "recordRenewalSelection"
  | C_queueRenewalNotices => "queueRenewalNotices"
  | C_beginRenewalCycle => "beginRenewalCycle"
  | C_beginRenewalReporting => "beginRenewalReporting"
  | C_publishRenewalReport => "publishRenewalReport"
  | C_cancelDraftRenewalCycle => "cancelDraftRenewalCycle"
  end.

(** The artifact a command needs: the cycles that have one. *)
Definition artifact (t : ReferenceTables) (c : command) : option (list string) :=
  match c with
  | C_commitEligibleSnapshot => Some (rt_eligible_snapshot t)
  | C_recordRenewalSelection => Some (rt_cycle_selection t)
  | C_publishRenewalReport => Some (rt_cycle_report t)
  | _ => None
  end.

Definition preconditions (d : CoreDb) (c : command) (i : string) (r : RenewalCycleRow)
    (input : LifecycleTransitionInput) : result exn unit :=
  match artifact (cd_reference d) c with
  | Some cycles =>
    throwif! negb (includes cycles i)
      as! RepositoryConflictError (command_name c +:+ " requires its immutable lifecycle artifact") in Ok tt
  | None => Ok tt
  end.

Definition set_rows (m : gmap string RenewalCycleRow) : CoreDb -> CoreDb := with_lifecycle (fun t => {|
  lt_renewal_cycle := m; lt_wallet_challenge := lt_wallet_challenge t;
  lt_consent_receipt := lt_consent_receipt t; lt_appeal := lt_appeal t;
  lt_privacy_rights_request := lt_privacy_rights_request t; lt_notification := lt_notification t;
  lt_relying_party_client := lt_relying_party_client t |}).

#[global] Instance renewal_cycle_lifecycle_table
  : LifecycleTable RenewalCycleRow RenewalCycleState command := {
  lr_command_name := command_name;
  lr_targetType := "renewal_cycle";
  lr_eventAggregate := "renewal_cycle";
  lr_rows d := lt_renewal_cycle (cd_lifecycle d);
  lr_set_rows := set_rows;
  lr_reference := rc_external_reference;
  lr_committee _ r := Some (rc_committee_id r);
  lr_state := rc_state;
  lr_version := rc_version;
  lr_preconditions := preconditions;
  lr_assign next v _ r := Ok {| rc_external_reference := rc_external_reference r;
                                  rc_committee_id := rc_committee_id r; rc_state := next; rc_version := v |};
  lr_checks _ := true;
  lr_trigger := no_trigger;
}.
End RenewalCycleTable.

(** ** "wallet_challenge" *)
Module WalletChallengeTable.
Import WalletChallenge.

Definition command_name (c : command) : string :=
  match c with
  | C_presentWalletChallenge => "presentWalletChallenge"
  | C_recordWalletResponse => "recordWalletResponse"
  | C_consumeWalletChallenge => "consumeWalletChallenge"
  | C_rejectWalletResponse => "rejectWalletResponse"
  | C_expireWalletChallenge => "expireWalletChallenge"
  end.

(** The literal [cancelled] is in no command's expected states: it is
    refused as [rejected], which is in none either, under its own name. *)
Definition applyWalletChallenge (c : command) (s : wallet_challenge_state)
  : result exn wallet_challenge_state :=
  match s with
  | wcs s => let! next := apply c s in Ok (wcs next)
  | wcs_cancelled =>
    match apply c rejected with
    | Ok next => Ok (wcs next)
    | Err (InvalidTransitionError aggregate command _ expected) =>
      Err (InvalidTransitionError aggregate command "cancelled" expected)
    | Err e => Err e
    end
  end.

#[global] Program Instance wallet_challenge_state_lifecycle : Lifecycle wallet_challenge_state command := {
  lc_apply := applyWalletChallenge;
  lc_commands := lc_commands;
  lc_states := wcs_cancelled :: (wcs <$> WALLET_CHALLENGE_STATES);
}.
Next Obligation. apply lc_complete. Qed.
Next Obligation.
  intros [s|]; [|by left]. right. apply list_elem_of_fmap. exists s. split; [done|].
  apply (lc_states_complete (Lifecycle := WalletChallengeState_lifecycle)).
Qed.

Definition preconditions (d : CoreDb) (c : command) (i : string) (r : WalletChallengeRow)
    (input : LifecycleTransitionInput) : result exn unit :=
  let expiring := match c with C_expireWalletChallenge => true | _ => false end in
  throwif! expiring && dateBefore (li_observedAt input) (wc_expires_at r)
    as! RepositoryConflictError "wallet challenge cannot expire before its boundary" in
  throwif! negb expiring && dateFrom (li_observedAt input) (wc_expires_at r)
    as! RepositoryConflictError "expired wallet challenge cannot progress" in
  Ok tt.

Definition assign (next : wallet_challenge_state) (v : Z) (input : LifecycleTransitionInput)
    (r : WalletChallengeRow) : result exn WalletChallengeRow :=
  let! consumed_at := match next with
                      | wcs consumed => let! t := bindTimestamp (li_observedAt input) in Ok (Some t)
                      | _ => Ok (wc_consumed_at r)
                      end in
  Ok {| wc_external_reference := wc_external_reference r; wc_state := next;
        wc_expires_at := wc_expires_at r; wc_consumed_at := consumed_at;
        wc_rejection_reason := wc_rejection_reason r; wc_version := v |}.

(** CHECK wallet_challenge_consumption_consistent, _terminal_reason. *)
Definition checks (r : WalletChallengeRow) : bool :=
  Bool.eqb (bool_decide (wc_state r = wcs consumed)) (negb (is_null (wc_consumed_at r)))
  && Bool.eqb (includes [wcs rejected; wcs_cancelled] (wc_state r)) (negb (is_null (wc_rejection_reason r))).

Definition set_rows (m : gmap string WalletChallengeRow) : CoreDb -> CoreDb := with_lifecycle (fun t => {|
  lt_renewal_cycle := lt_renewal_cycle t; lt_wallet_challenge := m;
  lt_consent_receipt := lt_consent_receipt t; lt_appeal := lt_appeal t;
  lt_privacy_rights_request := lt_privacy_rights_request t; lt_notification := lt_notification t;
  lt_relying_party_client := lt_relying_party_client t |}).

#[global] Instance wallet_challenge_lifecycle_table
  : LifecycleTable WalletChallengeRow wallet_challenge_state command := {
  lr_command_name := command_name;
  lr_targetType := "wallet_challenge";
  lr_eventAggregate := "wallet_challenge";
  lr_rows d := lt_wallet_challenge (cd_lifecycle d);
  lr_set_rows := set_rows;
  lr_reference := wc_external_reference;
  lr_committee _ _ := None;
  lr_state := wc_state;
  lr_version := wc_version;
  lr_preconditions := preconditions;
  lr_assign := assign;
  lr_checks := checks;
  lr_trigger := no_trigger;
}.
End WalletChallengeTable.

(** Trigger enforce_auth_subject_match: the account's participant. *)
Definition same_subject (d : CoreDb) (account_id : string) (participant_id : option string) : result exn unit :=
  throwif! negb (subject_match (cd_auth d) account_id participant_id) as! PostgresError "P0001" in Ok tt.

(** ** "consent_receipt" *)
Module ConsentTable.
Import Consent.

Definition command_name (c : command) : string :=
  match c with C_acknowledgeConsent => "acknowledgeConsent" | C_withdrawConsent => "withdrawConsent" end.

Definition assign (next : ConsentState) (v : Z) (input : LifecycleTransitionInput)
    (r : ConsentReceiptRow) : result exn ConsentReceiptRow :=
  let! times := match next with
                | acknowledged => let! t := bindTimestamp (li_observedAt input) in Ok (Some t, cr_withdrawn_at r)
                | withdrawn => let! t := bindTimestamp (li_observedAt input) in Ok (cr_acknowledged_at r, Some t)
                | pending => Ok (cr_acknowledged_at r, cr_withdrawn_at r)
                end in
  Ok {| cr_external_reference := cr_external_reference r; cr_committee_id := cr_committee_id r;
        cr_participant_id := cr_participant_id r; cr_auth_account_id := cr_auth_account_id r;
        cr_state := next; cr_acknowledged_at := fst times; cr_withdrawn_at := snd times; cr_version := v |}.

(** CHECK consent_lifecycle_consistent (which implies
    consent_receipt_withdrawal_order). *)
Definition checks (r : ConsentReceiptRow) : bool :=
  match cr_state r, cr_acknowledged_at r, cr_withdrawn_at r with
  | pending, None, None => true
  | acknowledged, Some _, None => true
  | withdrawn, Some a, Some w => a <=? w
  | _, _, _ => false
  end.

Definition set_rows (m : gmap string ConsentReceiptRow) : CoreDb -> CoreDb := with_lifecycle (fun t => {|
  lt_renewal_cycle := lt_renewal_cycle t; lt_wallet_challenge := lt_wallet_challenge t;
  lt_consent_receipt := m; lt_appeal := lt_appeal t;
  lt_privacy_rights_request := lt_privacy_rights_request t; lt_notification := lt_notification t;
  lt_relying_party_client := lt_relying_party_client t |}).

#[global] Instance consent_lifecycle_table : LifecycleTable ConsentReceiptRow ConsentState command := {
  lr_command_name := command_name;
  lr_targetType := "consent_receipt";
  lr_eventAggregate := "consent";
  lr_rows d := lt_consent_receipt (cd_lifecycle d);
  lr_set_rows := set_rows;
  lr_reference := cr_external_reference;
  lr_committee _ r := cr_committee_id r;
  lr_state := cr_state;
  lr_version := cr_version;
  lr_preconditions := no_preconditions;
  lr_assign := assign;
  lr_checks := checks;
  lr_trigger d _ new := same_subject d (cr_auth_account_id new) (cr_participant_id new);
}.
End ConsentTable.

(** ** "appeal" *)
Module AppealTable.
Import Appeal.

Definition command_name (c : command) : string :=
  match c with
  | C_assignAppeal => "assignAppeal" | C_beginAppealReview => "beginAppealReview"
  | C_upholdAppealCase => "upholdAppealCase" | C_denyAppealCase => "denyAppealCase"
  | C_remandAppealCase => "remandAppealCase" | C_withdrawAppealCase => "withdrawAppealCase"
  end.

Definition preconditions (d : CoreDb) (c : command) (i : string) (r : AppealRow)
    (input : LifecycleTransitionInput) : result exn unit :=
  match c with
  | C_assignAppeal =>
    match nonempty (li_assignmentReference input) with
    | None => Err (RepositoryConflictError "appeal assignment requires an opaque assignee reference")
    | Some reference => requireOpaqueReference reference "appeal assignee reference"
    end
  | _ => Ok tt
  end.

Definition assign (next : AppealState) (v : Z) (input : LifecycleTransitionInput) (r : AppealRow)
  : result exn AppealRow :=
  let! resolved_at := match next with
                      | upheld | denied | remanded =>
                        let! t := bindTimestamp (li_observedAt input) in Ok (Some t)
                      | _ => Ok (ap_resolved_at r)
                      end in
  Ok {| ap_external_reference := ap_external_reference r; ap_committee_id := ap_committee_id r;
        ap_state := next;
        ap_assigned_reference := match next with
                                 | assigned => li_assignmentReference input
                                 | _ => ap_assigned_reference r
                                 end;
        ap_resolved_at := resolved_at; ap_version := v |}.

(** CHECK appeal_resolution_consistent. *)
Definition checks (r : AppealRow) : bool :=
  Bool.eqb (includes [upheld; denied; remanded] (ap_state r)) (negb (is_null (ap_resolved_at r))).

Definition set_rows (m : gmap string AppealRow) : CoreDb -> CoreDb := with_lifecycle (fun t => {|
  lt_renewal_cycle := lt_renewal_cycle t; lt_wallet_challenge := lt_wallet_challenge t;
  lt_consent_receipt := lt_consent_receipt t; lt_appeal := m;
  lt_privacy_rights_request := lt_privacy_rights_request t; lt_notification := lt_notification t;
  lt_relying_party_client := lt_relying_party_client t |}).

#[global] Instance appeal_lifecycle_table : LifecycleTable AppealRow AppealState command := {
  lr_command_name := command_name;
  lr_targetType := "appeal";
  lr_eventAggregate := "appeal";
  lr_rows d := lt_appeal (cd_lifecycle d);
  lr_set_rows := set_rows;
  lr_reference := ap_external_reference;
  lr_committee _ r := Some (ap_committee_id r);
  lr_state := ap_state;
  lr_version := ap_version;
  lr_preconditions := preconditions;
  lr_assign := assign;
  lr_checks := checks;
  lr_trigger := no_trigger;
}.
End AppealTable.

(** ** "privacy_rights_request" *)
Module PrivacyTable.
Import PrivacyRequest.

Definition command_name (c : command) : string :=
  match c with
  | C_confirmPrivacyRequester => "confirmPrivacyRequester"
  | C_beginPrivacyRequest => "beginPrivacyRequest"
  | C_completePrivacyRequest => "completePrivacyRequest"
  | C_denyPrivacyRequest => "denyPrivacyRequest"
  | C_withdrawPrivacyRequest => "withdrawPrivacyRequest"
  end.

Definition assign (next : PrivacyRequestState) (v : Z) (input : LifecycleTransitionInput) (r : PrivacyRow)
  : result exn PrivacyRow :=
  let! completed_at := match next with
                       | completed | denied => let! t := bindTimestamp (li_observedAt input) in Ok (Some t)
                       | _ => Ok (pv_completed_at r)
                       end in
  Ok {| pv_external_reference := pv_external_reference r; pv_committee_id := pv_committee_id r;
        pv_state := next; pv_completed_at := completed_at; pv_version := v |}.

Definition set_rows (m : gmap string PrivacyRow) : CoreDb -> CoreDb := with_lifecycle (fun t => {|
  lt_renewal_cycle := lt_renewal_cycle t; lt_wallet_challenge := lt_wallet_challenge t;
  lt_consent_receipt := lt_consent_receipt t; lt_appeal := lt_appeal t;
  lt_privacy_rights_request := m; lt_notification := lt_notification t;
  lt_relying_party_client := lt_relying_party_client t |}).

#[global] Instance privacy_lifecycle_table : LifecycleTable PrivacyRow PrivacyRequestState command := {
  lr_command_name := command_name;
  lr_targetType := "privacy_rights_request";
  lr_eventAggregate := "privacy_request";
  lr_rows d := lt_privacy_rights_request (cd_lifecycle d);
  lr_set_rows := set_rows;
  lr_reference := pv_external_reference;
  lr_committee _ r := pv_committee_id r;
  lr_state := pv_state;
  lr_version := pv_version;
  lr_preconditions := no_preconditions;
  lr_assign := assign;
  lr_checks _ := true;
  lr_trigger := no_trigger;
}.
End PrivacyTable.

(** ** "notification" *)
Module NotificationTable.
Import Notification.

Definition command_name (c : command) : string :=
  match c with
  | C_claimNotification => "claimNotification"
  | C_recordNotificationDelivery => "recordNotificationDelivery"
  | C_recordRetryableNotificationFailure => "recordRetryableNotificationFailure"
  | C_retryNotification => "retryNotification"
  | C_recordTerminalNotificationFailure => "recordTerminalNotificationFailure"
  | C_deadLetterNotification => "deadLetterNotification"
  | C_cancelPendingNotification => "cancelPendingNotification"
  end.

Definition assign (next : NotificationState) (v : Z) (input : LifecycleTransitionInput)
    (r : NotificationRow) : result exn NotificationRow :=
  let! delivered_at := match next with
                       | delivered => let! t := bindTimestamp (li_observedAt input) in Ok (Some t)
                       | _ => Ok (no_delivered_at r)
                       end in
  Ok {| no_external_reference := no_external_reference r; no_committee_id := no_committee_id r;
        no_participant_id := no_participant_id r; no_auth_account_id := no_auth_account_id r;
        no_state := next; no_delivered_at := delivered_at; no_version := v |}.

(** CHECK notification_delivery_consistent. *)
Definition checks (r : NotificationRow) : bool :=
  Bool.eqb (bool_decide (no_state r = delivered)) (negb (is_null (no_delivered_at r))).

Definition set_rows (m : gmap string NotificationRow) : CoreDb -> CoreDb := with_lifecycle (fun t => {|
  lt_renewal_cycle := lt_renewal_cycle t; lt_wallet_challenge := lt_wallet_challenge t;
  lt_consent_receipt := lt_consent_receipt t; lt_appeal := lt_appeal t;
  lt_privacy_rights_request := lt_privacy_rights_request t; lt_notification := m;
  lt_relying_party_client := lt_relying_party_client t |}).

#[global] Instance notification_lifecycle_table
  : LifecycleTable NotificationRow NotificationState command := {
  lr_command_name := command_name;
  lr_targetType := "notification";
  lr_eventAggregate := "notification";
  lr_rows d := lt_notification (cd_lifecycle d);
  lr_set_rows := set_rows;
  lr_reference := no_external_reference;
  lr_committee _ r := no_committee_id r;
  lr_state := no_state;
  lr_version := no_version;
  lr_preconditions := no_preconditions;
  lr_assign := assign;
  lr_checks := checks;
  lr_trigger d _ new := same_subject d (no_auth_account_id new) (no_participant_id new);
}.
End NotificationTable.

(** ** "relying_party_client" *)
Module RelyingPartyTable.
Import RelyingPartyClient.

Definition command_name (c : command) : string :=
  match c with
  | C_beginClientSecurityReview => "beginClientSecurityReview"
  | C_approveRelyingPartyClient => "approveRelyingPartyClient"
  | C_activateRelyingPartyClient => "activateRelyingPartyClient"
  | C_suspendRelyingPartyClient => "suspendRelyingPartyClient"
  | C_revokeRelyingPartyClient => "revokeRelyingPartyClient"
  end.

Definition set_rows (m : gmap string RelyingPartyClientRow) : CoreDb -> CoreDb := with_lifecycle (fun t => {|
  lt_renewal_cycle := lt_renewal_cycle t; lt_wallet_challenge := lt_wallet_challenge t;
  lt_consent_receipt := lt_consent_receipt t; lt_appeal := lt_appeal t;
  lt_privacy_rights_request := lt_privacy_rights_request t; lt_notification := lt_notification t;
  lt_relying_party_client := m |}).

#[global] Instance relying_party_lifecycle_table
  : LifecycleTable RelyingPartyClientRow RelyingPartyClientState command := {
  lr_command_name := command_name;
  lr_targetType := "relying_party_client";
  lr_eventAggregate := "relying_party_client";
  lr_rows d := lt_relying_party_client (cd_lifecycle d);
  lr_set_rows := set_rows;
  lr_reference := rp_external_reference;
  lr_committee _ r := rp_committee_id r;
  lr_state := rp_state;
  lr_version := rp_version;
  lr_preconditions := no_preconditions;
  lr_assign next v _ r := Ok {| rp_external_reference := rp_external_reference r;
                                  rp_committee_id := rp_committee_id r; rp_state := next; rp_version := v |};
  lr_checks _ := true;
  lr_trigger := no_trigger;
}.
End RelyingPartyTable.

(** ** The repository's methods *)

Section methods.
Context `{Platform} (env : nat -> TxAttempt).
Definition transitionCommittee : Committee.command -> LifecycleTransitionInput -> CM LifecycleRecord :=
  transition env.
Definition transitionRenewalCycle : RenewalCycle.command -> LifecycleTransitionInput -> CM LifecycleRecord :=
  transition env.
Definition transitionWalletChallenge : WalletChallenge.command -> LifecycleTransitionInput -> CM LifecycleRecord :=
  transition env.
Definition transitionConsent : Consent.command -> LifecycleTransitionInput -> CM LifecycleRecord :=
  transition env.
Definition transitionAppeal : Appeal.command -> LifecycleTransitionInput -> CM LifecycleRecord :=
  transition env.
Definition transitionPrivacyRequest : PrivacyRequest.command -> LifecycleTransitionInput -> CM LifecycleRecord :=
  transition env.
Definition transitionNotification : Notification.command -> LifecycleTransitionInput -> CM LifecycleRecord :=
  transition env.
Definition transitionRelyingPartyClient
  : RelyingPartyClient.command -> LifecycleTransitionInput -> CM LifecycleRecord :=
  transition env.
End methods.
