(* ===== verification/CoreEffects.v ===== *)
(** * CoreEffects: what the statements of the domain core do.

    The effect of each statement that succeeds, the ledger of idempotency
    entries, and the parts of the database each statement leaves alone. *)
From stdpp Require Import relations.
From S2P Require Import Prelude Errors Transition Lifecycles Guards Text Attestation Json Database AuthDatabase.
From S2P Require Import AuthInvariant CoreDatabase Idempotency.
Local Open Scope Z_scope.

(** ** States *)

(** Equal but for the identifiers drawn. *)
Definition core_ids (n : nat) (d : CoreDb) : CoreDb := with_cd_base (with_ids n (cd_base d)) d.
Definition same_core (d d' : CoreDb) : Prop := core_ids 0 d = core_ids 0 d'.

#[global] Instance same_core_equiv : Equivalence same_core.
Proof. unfold same_core. split; [done|by intros ??|]. intros ??? ->. done. Qed.

Lemma same_core_ids n d : same_core d (core_ids n d).
Proof. by destruct d as [[[]]]. Qed.

Lemma same_core_rollback before after : same_core before (rollback before after).
Proof. by destruct before as [[[]]]. Qed.

(** A function of the state that does not see the identifiers drawn. *)
Class Blind {V : Type} (view : CoreDb -> V) := blind : forall n d, view (core_ids n d) = view d.

Lemma blind_same {V} (view : CoreDb -> V) `{!Blind view} d d' : same_core d d' -> view d' = view d.
Proof. intros Hs. by rewrite <- (blind (view := view) 0 d'), <- (blind (view := view) 0 d), Hs. Qed.

(** The tables a command may read or write, its ledger and log apart. *)
Definition domain (d : CoreDb) :=
  (cd_reference d, cd_request d, cd_decision d, cd_attestation d, cd_status d, cd_revocation d,
   cd_lifecycle d, with_base SamplePlatform.emptyDb (cd_auth d), db_committee (cd_base d),
   db_clock (cd_base d)).

(** The queue and the audit log. *)
Definition log (d : CoreDb) := (db_audit_event (cd_base d), db_outbox_event (cd_base d)).

#[export] Instance blind_domain : Blind domain. Proof. by intros n [[[]]]. Qed.
#[export] Instance blind_log : Blind log. Proof. by intros n [[[]]]. Qed.
#[export] Instance blind_ledger : Blind cd_idempotency. Proof. by intros n [[[]]]. Qed.

Ltac domain_fields H := unfold domain in H; simpl in H; injection H as H.

(** ** Programs on the base tables *)

Lemma core_db_run {A} (c : M A) d r d' :
  on_db c d = (r, d') <-> exists b, c (cd_base d) = (r, b) /\ d' = with_cd_base b d.
Proof.
  unfold on_db. destruct (c (cd_base d)) as [r1 b1]. split.
  - intros [= <- <-]. eauto.
  - by intros (b & [= <- <-] & ->).
Qed.

Lemma newId_run `{Platform} d i d' :
  on_db newId d = (Ok i, d') <-> i = randomUUID (db_ids (cd_base d)) /\ d' = core_ids (S (db_ids (cd_base d))) d.
Proof. unfold on_db, newId. simpl. split; [intros [= <- <-]; done|by intros [-> ->]]. Qed.

(** Programs that leave the domain, or the ledger, or the log alone. *)
Section keeps.
Context `{Platform}.

Lemma newId_core {V} (view : CoreDb -> V) `{!Blind view} : keeps view (on_db newId).
Proof. intros d. apply (blind (view := view) _ d). Qed.

Lemma audit_keeps_domain ctx cid name ty ref prior new : keeps domain (audit ctx cid name ty ref prior new).
Proof.
  intros d. unfold audit, on_db, appendAudit, bindP, gets, newId, insertAuditEvent.
  by repeat case_match; simplify_eq; destruct d as [[[]]].
Qed.

Lemma audit_keeps_ledger ctx cid name ty ref prior new : keeps cd_idempotency (audit ctx cid name ty ref prior new).
Proof. intros d. unfold audit, on_db. by destruct (appendAudit _ _ _ _ _ _). Qed.

Lemma enqueue_keeps_domain cid ag ref ty payload v st ctx : keeps domain (enqueue cid ag ref ty payload v st ctx).
Proof.
  unfold enqueue. apply keeps_bind; [apply newId_core, _|intros i]. apply keeps_bind; [by apply keeps_pure|intros n].
  intros d. unfold on_db, insertOutboxEvent, bindP, gets, throwWhen, lift, modify.
  by repeat case_match; simplify_eq; destruct d as [[[]]].
Qed.

Lemma enqueue_keeps_ledger cid ag ref ty payload v st ctx :
  keeps cd_idempotency (enqueue cid ag ref ty payload v st ctx).
Proof.
  unfold enqueue. apply keeps_bind; [apply newId_core, _|intros i]. apply keeps_bind; [by apply keeps_pure|intros n].
  intros d. unfold on_db. by destruct (insertOutboxEvent _ _).
Qed.

Lemma complete_keeps_domain i ref v st : keeps domain (completeIdempotency i ref v st).
Proof.
  unfold completeIdempotency, updateIdempotency. apply keeps_bind; [by apply keeps_pure|intros d]. cbv zeta.
  apply keeps_bind; [by apply keeps_pure|intros _]. by apply keeps_modify.
Qed.

Lemma complete_keeps_log i ref v st : keeps log (completeIdempotency i ref v st).
Proof.
  unfold completeIdempotency, updateIdempotency. apply keeps_bind; [by apply keeps_pure|intros d]. cbv zeta.
  apply keeps_bind; [by apply keeps_pure|intros _]. by apply keeps_modify.
Qed.

Lemma insertIdempotency_keeps {V} (view : CoreDb -> V) key row :
  (forall f d, view (with_idempotency f d) = view d) -> keeps view (insertIdempotency key row).
Proof.
  intros Hv. unfold insertIdempotency. apply keeps_bind; [by apply keeps_pure|intros d].
  apply keeps_bind; [by apply keeps_pure|intros _]. destruct (_ !! _); [by apply keeps_pure|].
  do 2 (apply keeps_bind; [by apply keeps_pure|intros _]). apply keeps_bind; [|intros _; by apply keeps_pure].
  intros s. apply Hv.
Qed.

Lemma begin_keeps {V} (view : CoreDb -> V) `{!Blind view} scope cid name ctx :
  (forall f d, view (with_idempotency f d) = view d) -> keeps view (beginScoped scope cid name ctx).
Proof.
  intros Hv. unfold beginScoped. cbv zeta. apply keeps_bind; [apply newId_core, _|intros i].
  apply keeps_bind; [by apply keeps_pure|intros n]. apply keeps_bind; [by apply insertIdempotency_keeps|].
  intros [j|]; [by apply keeps_pure|]. apply keeps_bind; [by apply keeps_pure|intros [row|]]; [|by apply keeps_pure].
  apply keeps_bind; [|intros _]; by apply keeps_pure.
Qed.
End keeps.
#[export] Hint Resolve audit_keeps_domain audit_keeps_ledger enqueue_keeps_domain enqueue_keeps_ledger
  complete_keeps_domain complete_keeps_log : keeps.
#[export] Hint Extern 1 (keeps _ (on_db newId)) => (apply newId_core; tc_solve) : keeps.

(** ** The ledger *)

(** Between commands every entry is complete. *)
Definition closed (d : CoreDb) : Prop :=
  forall key row, cd_idempotency d !! key = Some row -> ir_state row = is_completed.

Definition ledger_key `{Platform} (scope : string) (context : CommandContext) : string * string :=
  (scope, sha256 (idempotencyKey context)).

(** A command recorded its result under a new key. *)
Definition ledgered `{Platform} (scope : string) (cid : option string) (name : string) (context : CommandContext)
    (ref st : string) (v : Z) (d d' : CoreDb) : Prop :=
  exists row, cd_idempotency d !! ledger_key scope context = None /\
    cd_idempotency d' = <[ledger_key scope context := row]> (cd_idempotency d) /\
    ir_request_digest row = requestDigest context /\ ir_command row = name /\ ir_committee_id row = cid /\
    ir_state row = is_completed /\ ir_result_reference row = Some ref /\ ir_result_state row = Some st /\
    ir_result_version row = Some v /\ 0 < v.

Section ledger.
Context `{Platform}.

Lemma insertIdempotency_run key row d o d' :
  insertIdempotency key row d = (Ok o, d') ->
  (o = None /\ d' = d /\ exists old, cd_idempotency d !! key = Some old) \/
  (o = Some (ir_id row) /\ cd_idempotency d !! key = None /\ d' = with_idempotency (<[key := row]>) d).
Proof.
  unfold insertIdempotency. intros Hrun. inv_ok. destruct (_ !! key) eqn:Hkey; inv_ok; [left|right]; eauto.
Qed.

Lemma begin_run scope cid name ctx d res d1 :
  beginScoped scope cid name ctx d = (Ok res, d1) ->
  (idem_replayed res = true /\ same_core d d1 /\
   exists row, cd_idempotency d !! ledger_key scope ctx = Some row /\ replayable name cid ctx row = true /\
     res = {| idem_id := ir_id row; idem_replayed := true; resultReference := ir_result_reference row;
              resultState := ir_result_state row; resultVersion := ir_result_version row |}) \/
  (idem_replayed res = false /\ cd_idempotency d !! ledger_key scope ctx = None /\
   exists now, cd_idempotency d1 =
     <[ledger_key scope ctx := idempotency_started (idem_id res) name cid ctx now]> (cd_idempotency d)).
Proof.
  unfold beginScoped. cbv zeta. intros Hrun.
  apply bindP_ok in Hrun as (i & d2 & [-> ->]%newId_run & Hrun).
  apply bindP_ok in Hrun as (now & d3 & [= <- <-] & Hrun).
  apply bindP_ok in Hrun as (o & d4 & Hins & Hrun).
  apply insertIdempotency_run in Hins as [(-> & -> & old & Hold)|(-> & Hnone & ->)].
  - apply bindP_ok in Hrun as (existing & d5 & [= <- <-] & Hrun). simpl in Hrun, Hold. rewrite Hold in Hrun.
    apply bindP_ok in Hrun as ([] & d6 & Hrep & Hrun). unfold throwWhen, lift in Hrep.
    injection Hrep as Hrep <-. apply throwIf_ok, negb_false_iff in Hrep. injection Hrun as <- <-.
    left. simpl. split; [done|]. split; [apply same_core_ids|]. exists old. split; [|done]. exact Hold.
  - injection Hrun as <- <-. right. simpl. split; [done|]. split; [exact Hnone|]. eauto.
Qed.

(** A new entry names a committee that exists. *)
Lemma begin_committee scope c name ctx d res d1 :
  beginScoped scope (Some c) name ctx d = (Ok res, d1) -> idem_replayed res = false ->
  is_Some (db_committee (cd_base d) !! c).
Proof.
  unfold beginScoped, insertIdempotency. cbv zeta. intros Hrun Hf.
  apply bindP_ok in Hrun as (i & d2 & [-> ->]%newId_run & Hrun).
  apply bindP_ok in Hrun as (now & d3 & [= <- <-] & Hrun). apply bindP_ok in Hrun as (o & d4 & Hins & Hrun).
  apply bindP_ok in Hins as (x & d5 & [= <- <-] & Hins).
  apply bindP_ok in Hins as (u & d5 & Hc & Hins). unfold throwWhen, lift in Hc. injection Hc as _ <-.
  unfold id in Hins. destruct (_ !! (scope, _)) eqn:Hk.
  - injection Hins as <- <-. apply bindP_ok in Hrun as (y & d6 & [= <- <-] & Hrun).
    simpl in Hrun, Hk. rewrite Hk in Hrun.
    apply bindP_ok in Hrun as (u' & d7 & _ & [= <- _]). done.
  - apply bindP_ok in Hins as (u1 & d5 & Hu & Hins). unfold throwWhen, lift in Hu. injection Hu as _ <-.
    apply bindP_ok in Hins as (u2 & d5 & Hfk & Hins). unfold throwWhen, lift in Hfk. injection Hfk as Hfk <-.
    apply throwIf_ok in Hfk. by apply is_null_false in Hfk.
Qed.

Lemma complete_run i ref v st d u d' :
  completeIdempotency i ref v st d = (Ok u, d') ->
  (forall key r, cd_idempotency d !! key = Some r -> ir_id r = i -> ir_state r = is_started -> 0 < v) /\
  exists digest now, d' = with_idempotency (fmap (fun r =>
    if String.eqb (ir_id r) i && bool_decide (ir_state r = is_started)
    then idempotency_completed digest ref v st now r else r)) d.
Proof.
  unfold completeIdempotency, updateIdempotency. intros Hrun.
  apply bindP_ok in Hrun as (x & d1 & [= <- <-] & Hrun). cbv zeta in Hrun.
  apply bindP_ok in Hrun as ([] & d1 & Hck & [= _ <-]). unfold throwWhen, lift in Hck. injection Hck as Hck <-.
  split; [|by eauto]. apply throwIf_ok, negb_false_iff in Hck. rewrite forallb_forall in Hck.
  intros key r Hr Hi Hst. specialize (Hck (key, r)). simpl in Hck.
  rewrite Hi, String.eqb_refl, Hst in Hck. rewrite bool_decide_eq_true_2 in Hck by done. simpl in Hck.
  unfold idempotency_checks in Hck. simpl in Hck. apply Z.ltb_lt, Hck.
  by apply list_elem_of_In, elem_of_map_to_list.
Qed.

(** Opening an entry, work that leaves the ledger alone, completing it. *)
Lemma ledgered_run scope cid name ctx d res d1 d2 ref v st u d3 :
  closed d -> beginScoped scope cid name ctx d = (Ok res, d1) -> idem_replayed res = false ->
  cd_idempotency d2 = cd_idempotency d1 -> completeIdempotency (idem_id res) ref v st d2 = (Ok u, d3) ->
  ledgered scope cid name ctx ref st v d d3.
Proof.
  intros Hcl Hbegin Hfresh Hkeep (Hpos & digest & now & ->)%complete_run.
  apply begin_run in Hbegin as [(Hr & _)|(_ & Hnone & start & Hopen)]; [congruence|].
  exists (idempotency_completed digest ref v st now (idempotency_started (idem_id res) name cid ctx start)).
  assert (0 < v).
  { apply (Hpos (ledger_key scope ctx) (idempotency_started (idem_id res) name cid ctx start)); [|done..].
    by rewrite Hkeep, Hopen, lookup_insert_eq. }
  split; [done|]. split; [|done]. simpl. rewrite Hkeep, Hopen. apply map_eq. intros key. rewrite lookup_fmap.
  destruct (decide (key = ledger_key scope ctx)) as [->|Hne].
  - rewrite !lookup_insert_eq. simpl. by rewrite String.eqb_refl.
  - rewrite !lookup_insert_ne by done. destruct (cd_idempotency d !! key) as [row|] eqn:Hrow; [|done]. simpl.
    by rewrite bool_decide_eq_false_2, andb_false_r by (rewrite (Hcl _ _ Hrow); discriminate).
Qed.

Lemma ledgered_closed scope cid name ctx ref st v d d' :
  ledgered scope cid name ctx ref st v d d' -> closed d -> closed d' /\ cd_idempotency d ⊆ cd_idempotency d'.
Proof.
  intros (row & Hnone & Heq & _ & _ & _ & Hst & _) Hcl. unfold closed. rewrite Heq. split.
  - intros key r. rewrite lookup_insert_Some. intros [[_ <-]|[_ Hr]]; [done|by eapply Hcl].
  - by apply insert_subseteq.
Qed.

(** An entry replays for the command and request that made it. *)
Lemma ledgered_replays scope cid name ctx ref st v d d' d2 :
  ledgered scope cid name ctx ref st v d d' -> cd_idempotency d' ⊆ cd_idempotency d2 ->
  ref <> "" -> st <> "" ->
  exists row, cd_idempotency d2 !! ledger_key scope ctx = Some row /\ replayable name cid ctx row = true /\
    ir_result_reference row = Some ref /\ ir_result_state row = Some st /\ ir_result_version row = Some v.
Proof.
  intros (row & _ & Heq & Hd & Hn & Hc & Hst & Hr & Hs & Hv & Hpos) Hsub Href Hstate.
  exists row. split.
  { eapply lookup_weaken; [|exact Hsub]. by rewrite Heq, lookup_insert_eq. }
  split; [|done]. unfold replayable. rewrite Hd, Hn, Hc, Hst, Hr, Hs, Hv, !String.eqb_refl.
  rewrite !bool_decide_eq_true_2 by done. simpl.
  destruct ref; [done|]. destruct st; [done|]. simpl. apply negb_true_iff, Z.eqb_neq. lia.
Qed.

(** Replaying gives what was recorded and changes no table. *)
Lemma begin_replay scope cid name ctx d row :
  cd_idempotency d !! ledger_key scope ctx = Some row -> replayable name cid ctx row = true ->
  exists d1, same_core d d1 /\
    beginScoped scope cid name ctx d =
      (Ok {| idem_id := ir_id row; idem_replayed := true; resultReference := ir_result_reference row;
             resultState := ir_result_state row; resultVersion := ir_result_version row |}, d1).
Proof.
  intros Hrow Hrep. exists (core_ids (S (db_ids (cd_base d))) d). split; [apply same_core_ids|].
  unfold beginScoped. cbv zeta. unfold bindP at 1. simpl. unfold bindP at 1, gets at 1. unfold bindP at 1.
  unfold insertIdempotency at 1, bindP at 1, gets at 1. simpl.
  unfold bindP at 1, throwWhen at 1, lift at 1. unfold ledger_key in Hrow. rewrite Hrow. simpl.
  unfold bindP, gets, throwWhen, lift. simpl. rewrite Hrow, Hrep. done.
Qed.
End ledger.

(** ** The log *)

(** One audit event and one pending outbox event were appended. *)
Record entry : Type := {
  en_command : string;
  en_target_type : string;
  en_reference : string;
  en_prior : option string;
  en_new : string;
  en_event : string;
  en_aggregate : string;
}.

Definition audited (ctx : CommandContext) (cid : option string) (en : entry) (e : AuditEventRow) : Prop :=
  (ae_command e, ae_target_type e, ae_target_reference e, ae_prior_state e, ae_new_state e)
  = (en_command en, en_target_type en, en_reference en, en_prior en, Some (en_new en)) /\
  (ae_actor_reference e, ae_committee_id e, ae_result e) = (actor_reference (actor ctx), cid, ar_succeeded).

Definition queued (cid : option string) (en : entry) (o : OutboxEventRow) : Prop :=
  (oe_event_type o, oe_aggregate_type o, oe_aggregate_reference o, oe_committee_id o)
  = (en_event en, en_aggregate en, en_reference en, cid) /\ oe_state o = OutboxState.pending.

Definition recorded (ctx : CommandContext) (cid : option string) (en : entry) (d d' : CoreDb) : Prop :=
  exists e o, audited ctx cid en e /\ queued cid en o /\
    db_audit_event (cd_base d') = db_audit_event (cd_base d) ++ [e] /\
    db_outbox_event (cd_base d) !! oe_id o = None /\
    db_outbox_event (cd_base d') = <[oe_id o := o]> (db_outbox_event (cd_base d)).

Section log.
Context `{Platform}.

Lemma audit_run ctx cid name ty ref prior new d h d' :
  audit ctx cid name ty ref prior new d = (Ok h, d') ->
  exists e, audited ctx cid {| en_command := name; en_target_type := ty; en_reference := ref; en_prior := prior;
                               en_new := new; en_event := ""; en_aggregate := "" |} e /\
    db_audit_event (cd_base d') = db_audit_event (cd_base d) ++ [e] /\
    db_outbox_event (cd_base d') = db_outbox_event (cd_base d).
Proof.
  unfold audit. rewrite core_db_run. intros (b & Happ & ->). unfold appendAudit in Happ.
  apply bindP_ok in Happ as (prev & b1 & [= <- <-] & Happ).
  apply bindP_ok in Happ as (i & b2 & [= <- <-] & Happ).
  apply bindP_ok in Happ as (now & b3 & [= <- <-] & Happ).
  unfold insertAuditEvent in Happ. cbv zeta in Happ. repeat case_match; simplify_eq. eexists.
  split; [|split; reflexivity]. split; reflexivity.
Qed.

Lemma enqueue_run cid ag ref ty payload v st ctx d u d' :
  enqueue cid ag ref ty payload v st ctx d = (Ok u, d') ->
  exists o, queued cid {| en_command := ""; en_target_type := ""; en_reference := ref; en_prior := None;
                          en_new := ""; en_event := ty; en_aggregate := ag |} o /\
    db_outbox_event (cd_base d) !! oe_id o = None /\
    db_outbox_event (cd_base d') = <[oe_id o := o]> (db_outbox_event (cd_base d)) /\
    db_audit_event (cd_base d') = db_audit_event (cd_base d).
Proof.
  unfold enqueue. intros Hrun. apply bindP_ok in Hrun as (i & d1 & [-> ->]%newId_run & Hrun). inv_ok.
  apply core_db_run in Hrun as (b & Hins & ->). unfold insertOutboxEvent in Hins. inv_ok.
  match goal with |- context [with_outbox_event (insert _ ?o)] => exists o end. simpl in *. split; [|split; [|split; reflexivity]]; [split; reflexivity|]. simpl.
  destruct (db_outbox_event _ !! _); [|done]. simpl in *. discriminate.
Qed.

(** The two, in the order of the code. *)
Lemma recorded_run ctx cid name ty ref prior new h d d1 d2 ag event payload v st u :
  audit ctx cid name ty ref prior new d = (Ok h, d1) ->
  enqueue cid ag ref event payload v st ctx d1 = (Ok u, d2) ->
  recorded ctx cid {| en_command := name; en_target_type := ty; en_reference := ref; en_prior := prior;
                      en_new := new; en_event := event; en_aggregate := ag |} d d2 /\
  domain d2 = domain d /\ cd_idempotency d2 = cd_idempotency d.
Proof.
  intros Ha He. split.
  - apply audit_run in Ha as (e & Hae & Hev & Ho). apply enqueue_run in He as (o & Hq & Hn & Ho' & Hev').
    exists e, o. split; [exact Hae|]. split; [exact Hq|]. split_and!; congruence.
  - split.
    + rewrite (keeps_run _ _ _ _ _ (enqueue_keeps_domain _ _ _ _ _ _ _ _) He).
      by rewrite (keeps_run _ _ _ _ _ (audit_keeps_domain _ _ _ _ _ _ _) Ha).
    + rewrite (keeps_run _ _ _ _ _ (enqueue_keeps_ledger _ _ _ _ _ _ _ _) He).
      by rewrite (keeps_run _ _ _ _ _ (audit_keeps_ledger _ _ _ _ _ _ _) Ha).
Qed.

Lemma recorded_log ctx cid en d d' d1 d1' :
  log d1 = log d -> log d1' = log d' -> recorded ctx cid en d d' -> recorded ctx cid en d1 d1'.
Proof. unfold log, recorded. intros [= -> ->] [= -> ->]. done. Qed.
End log.

(** A sequence of entries. *)
Fixpoint recorded_all (ctx : CommandContext) (cid : option string) (ens : list entry) (d d' : CoreDb) : Prop :=
  match ens with
  | [] => log d' = log d
  | en :: ens => exists dm, recorded ctx cid en d dm /\ recorded_all ctx cid ens dm d'
  end.

Lemma recorded_all_log ctx cid ens d d' d1 d1' :
  log d1 = log d -> log d1' = log d' -> recorded_all ctx cid ens d d' -> recorded_all ctx cid ens d1 d1'.
Proof.
  revert d d1. induction ens as [|en ens IH]; intros d d1 H1 H2; simpl; [congruence|].
  intros (dm & Hr & Ha). exists dm. split; [by eapply recorded_log|]. by apply (IH dm).
Qed.

Lemma recorded_all_app ctx cid e1 e2 d d' :
  recorded_all ctx cid (e1 ++ e2) d d' <->
  exists dm, recorded_all ctx cid e1 d dm /\ recorded_all ctx cid e2 dm d'.
Proof.
  revert d. induction e1 as [|en e1 IH]; intros d; simpl.
  - split; [by exists d|]. intros (dm & Hl & Hr). by eapply recorded_all_log.
  - split.
    + intros (dm & Hr & (dm' & H1 & H2)%IH). exists dm'. split; [|done]. by exists dm.
    + intros (dm' & (dm & Hr & H1) & H2). exists dm. split; [done|]. apply IH. by exists dm'.
Qed.
