(* ===== verification/AttestationInvariant.v ===== *)
(** * AttestationInvariant: what the attestation tables keep.

    [attestations_ok] ties "attestation" to "verification_request" and
    "attestation_status": the versions of a participant's attestations form
    one chain of renewals, a request has at most one attestation, both show
    the same state, and whoever has been renewed has ended.  Inserting a row
    and moving one with its request keep it. *)
From S2P Require Import Prelude Errors Transition Lifecycles Guards Text Attestation Json Database AuthDatabase.
From S2P Require Import AuthInvariant CoreDatabase Idempotency VerificationRepository AttestationRepository.
Local Open Scope Z_scope.

Notation attestations := (gmap string AttestationTableRow).
Notation requests := (gmap string VerificationRequestRow).
Notation statuses := (gmap string AttestationStatusRow).

(** The two rows are of one participant in one committee. *)
Definition same_holder (a b : AttestationTableRow) : Prop :=
  a_committee_id a = a_committee_id b /\ a_participant_id a = a_participant_id b.

(** [pending] is an attestation just activated whose predecessor has yet to
    be ended; between transactions there is none. *)
Record attestations_ok (pending : option string) (att : attestations) (req : requests) (sts : statuses) : Prop := {
  ao_key i a : att !! i = Some a -> a_id a = i;
  ao_named i a : att !! i = Some a -> i <> "" /\ a_external_reference a <> "";
  ao_reference : unique_by a_external_reference att;
  ao_positive i a : att !! i = Some a -> 1 <= a_version a;
  ao_version i j a b : att !! i = Some a -> att !! j = Some b -> same_holder a b ->
    a_version a = a_version b -> i = j;
  ao_first i a : att !! i = Some a -> a_supersedes_id a = None -> a_version a = 1;
  ao_renews i a p : att !! i = Some a -> a_supersedes_id a = Some p ->
    exists b, att !! p = Some b /\ same_holder a b /\ a_version a = a_version b + 1;
  ao_request i a : att !! i = Some a ->
    exists q, req !! a_request_id a = Some q /\ vr_committee_id q = a_committee_id a /\
      vr_participant_id q = a_participant_id a /\ vr_state q = request_state_of (a_state a);
  ao_status i a : att !! i = Some a -> exists s, sts !! i = Some s /\ st_state s = a_state a;
  ao_one i j a b : att !! i = Some a -> att !! j = Some b -> a_request_id a = a_request_id b -> i = j;
  ao_renewed i a j b : att !! i = Some a -> att !! j = Some b -> a_supersedes_id b = Some i ->
    a_state a <> st_issued /\ (a_state b <> st_issued -> pending <> Some j -> a_state a = st_superseded);
  ao_complete i a : att !! i = Some a -> a_issuance_complete a = negb (bool_decide (a_state a = st_issued));
}.

Section chain.
Context {pending : option string} {att : attestations} {req : requests} {sts : statuses}.
Hypothesis Hok : attestations_ok pending att req sts.

(** Versions of a holder are downward closed... *)
Lemma chain_down n i a : att !! i = Some a -> 1 <= n <= a_version a ->
  exists j b, att !! j = Some b /\ same_holder a b /\ a_version b = n.
Proof using Hok.
  remember (Z.to_nat (a_version a - n)) as k eqn:Hk. revert i a Hk.
  induction k as [|k IH]; intros i a Hk Ha Hn.
  - exists i, a. split; [done|]. split; [by split|lia].
  - destruct (a_supersedes_id a) as [p|] eqn:Hp.
    + destruct (ao_renews _ _ _ _ Hok i a p Ha Hp) as (b & Hb & [Hc Hpart] & Hv).
      destruct (IH p b) as (j & c & Hj & [Hc' Hp'] & Hv'); [lia|done|lia|].
      exists j, c. split; [done|]. split; [split; congruence|done].
    + pose proof (ao_first _ _ _ _ Hok i a Ha Hp). lia.
Qed.

(** ... and every version but the last has been renewed. *)
Lemma chain_renewed i a j b : att !! i = Some a -> att !! j = Some b -> same_holder a b ->
  a_version a < a_version b -> exists k c, att !! k = Some c /\ a_supersedes_id c = Some i /\
    same_holder a c /\ a_version c = a_version a + 1.
Proof using Hok.
  intros Ha Hb Hh Hlt. pose proof (ao_positive _ _ _ _ Hok i a Ha).
  destruct (chain_down (a_version a + 1) j b Hb) as (k & c & Hk & Hh' & Hv); [lia|].
  destruct (a_supersedes_id c) as [p|] eqn:Hp.
  - destruct (ao_renews _ _ _ _ Hok k c p Hk Hp) as (e & He & Hh'' & Hv').
    assert (p = i) as ->.
    { apply (ao_version _ _ _ _ Hok p i e a He Ha); [|lia]. destruct Hh, Hh', Hh''. split; congruence. }
    exists k, c. split; [done|]. split; [done|]. split; [|done]. destruct Hh, Hh'. split; congruence.
  - pose proof (ao_first _ _ _ _ Hok k c Hk Hp). lia.
Qed.

(** An attestation that is issued, or active between transactions, is the
    last of its holder, or its successor waits to be activated. *)
Lemma issued_last i a j b : att !! i = Some a -> att !! j = Some b -> same_holder a b ->
  a_state a = st_issued -> a_version b <= a_version a.
Proof using Hok.
  intros Ha Hb Hh Hst. destruct (Z.le_gt_cases (a_version b) (a_version a)); [done|].
  destruct (chain_renewed i a j b Ha Hb Hh) as (k & c & Hk & Hp & _); [lia|].
  by destruct (ao_renewed _ _ _ _ Hok i a k c Ha Hk Hp) as [? _].
Qed.
End chain.

(** At most one attestation of a participant in a committee is active. *)
Lemma one_active att req sts i j a b : attestations_ok None att req sts ->
  att !! i = Some a -> att !! j = Some b -> same_holder a b ->
  a_state a = st_active -> a_state b = st_active -> i = j.
Proof.
  intros Hok. revert i j a b.
  enough (Hlt : forall i j a b, att !! i = Some a -> att !! j = Some b -> same_holder a b ->
            a_state a = st_active -> a_state b = st_active -> ~ a_version a < a_version b).
  { intros i j a b Ha Hb Hh Hsa Hsb. apply (ao_version _ _ _ _ Hok i j a b Ha Hb Hh).
    pose proof (Hlt i j a b Ha Hb Hh Hsa Hsb). destruct Hh as [Hc Hp].
    pose proof (Hlt j i b a Hb Ha (conj (eq_sym Hc) (eq_sym Hp)) Hsb Hsa). lia. }
  intros i j a b Ha Hb Hh Hsa Hsb Hlt.
  destruct (chain_renewed Hok i a j b Ha Hb Hh Hlt) as (k & c & Hk & Hp & Hh' & Hv).
  destruct (ao_renewed _ _ _ _ Hok i a k c Ha Hk Hp) as [_ Hend].
  destruct (decide (a_state c = st_issued)) as [Hi|Hi].
  - assert (Hhcb : same_holder c b) by (destruct Hh, Hh'; split; congruence).
    pose proof (issued_last Hok k c j b Hk Hb Hhcb Hi) as Hle.
    assert (k = j) as ->. { apply (ao_version _ _ _ _ Hok k j c b Hk Hb Hhcb). lia. }
    congruence.
  - rewrite (Hend Hi) in Hsa; [|done]. discriminate.
Qed.

(** ** A new attestation *)

Section issue.
Context {att : attestations} {req : requests} {sts : statuses} (Hok : attestations_ok None att req sts).
Context (a : AttestationTableRow) (s : AttestationStatusRow) (q : VerificationRequestRow).
Hypothesis Hstate : a_state a = st_issued.
Hypothesis Hincomplete : a_issuance_complete a = false.
Hypothesis Hreq : req !! a_request_id a = Some q.
Hypothesis Hqc : vr_committee_id q = a_committee_id a.
Hypothesis Hqp : vr_participant_id q = a_participant_id a.
Hypothesis Hqs : vr_state q = Verification.issued.
Hypothesis Hst : st_state s = st_issued.
Hypothesis Hnew : att !! a_id a = None.
Hypothesis Hnamed : a_id a <> "" /\ a_external_reference a <> "".
Hypothesis Hfree : forall i b, att !! i = Some b -> attestation_collides b a = false.
Hypothesis Hprior : match a_supersedes_id a with
  | None => a_version a = 1
  | Some p => exists b, att !! p = Some b /\ same_holder a b /\ a_version a = a_version b + 1 /\
                a_state b = st_active
  end.

Lemma free_reference i b : att !! i = Some b -> a_external_reference b <> a_external_reference a.
Proof using Hfree. intros Hb He. pose proof (Hfree i b Hb) as Hf. unfold attestation_collides in Hf.
  by rewrite He, String.eqb_refl in Hf. Qed.

Lemma free_version i b : att !! i = Some b -> same_holder b a -> a_version b <> a_version a.
Proof using Hfree. intros Hb [Hc Hp] Hv. pose proof (Hfree i b Hb) as Hf. unfold attestation_collides in Hf.
  by rewrite Hc, Hp, Hv, !String.eqb_refl, Z.eqb_refl, !orb_true_r in Hf. Qed.

Lemma free_supersedes i b p : att !! i = Some b -> a_supersedes_id a = Some p -> a_supersedes_id b <> Some p.
Proof using Hfree. intros Hb Ha Hs. pose proof (Hfree i b Hb) as Hf. unfold attestation_collides in Hf.
  rewrite Ha, Hs in Hf. simpl in Hf. rewrite bool_decide_eq_true_2, orb_true_r in Hf by done. done. Qed.

Lemma new_positive : 1 <= a_version a.
Proof using Hok Hprior.
  destruct (a_supersedes_id a); [|lia]. destruct Hprior as (b & Hb & _ & Hv & _).
  pose proof (ao_positive _ _ _ _ Hok _ b Hb). lia.
Qed.

(** No attestation of the holder has the new version or a later one. *)
Lemma new_is_last i b : att !! i = Some b -> same_holder b a -> a_version b < a_version a.
Proof using Hok Hfree Hprior.
  intros Hb Hh. destruct (Z.lt_ge_cases (a_version b) (a_version a)) as [|Hge]; [done|].
  pose proof new_positive as Hpos.
  destruct (chain_down Hok (a_version a) i b Hb) as (j & c & Hc & Hh' & Hv); [lia|].
  destruct (free_version j c Hc); [|done]. destruct Hh, Hh'. split; congruence.
Qed.

(** The request has no attestation yet. *)
Lemma request_unattested i b : att !! i = Some b -> a_request_id b <> a_request_id a.
Proof using Hok Hreq Hqc Hqp Hqs Hfree Hprior.
  intros Hb He. destruct (ao_request _ _ _ _ Hok i b Hb) as (q' & Hq' & Hc & Hp & Hs).
  assert (q' = q) as -> by congruence.
  assert (Hbi : a_state b = st_issued) by (destruct (a_state b); simpl in Hs; congruence).
  assert (Hh : same_holder b a) by (split; congruence).
  pose proof (new_is_last i b Hb Hh) as Hlt. pose proof (ao_positive _ _ _ _ Hok i b Hb).
  destruct (a_supersedes_id a) as [p|]; [|lia]. destruct Hprior as (c & Hpc & Hhc & Hv & Hact).
  assert (Hbc : same_holder b c) by (destruct Hh, Hhc; split; congruence).
  pose proof (issued_last Hok i b p c Hb Hpc Hbc Hbi).
  assert (i = p) as ->. { apply (ao_version _ _ _ _ Hok i p b c Hb Hpc Hbc). lia. }
  congruence.
Qed.

Lemma attestations_issue : attestations_ok None (<[a_id a := a]> att) req (<[a_id a := s]> sts).
Proof using All.
  split.
  - intros i b. rewrite lookup_insert_Some. intros [[<- <-]|[_ Hb]]; [done|]. by eapply ao_key.
  - intros i b. rewrite lookup_insert_Some. intros [[<- <-]|[_ Hb]]; [done|]. by eapply ao_named.
  - intros i j x y. rewrite !lookup_insert_Some. intros [[<- <-]|[? Hx]] [[<- <-]|[? Hy]] He; try done.
    + by destruct (free_reference j y Hy).
    + by destruct (free_reference i x Hx).
    + by eapply (ao_reference _ _ _ _ Hok).
  - intros i b. rewrite lookup_insert_Some. intros [[<- <-]|[_ Hb]]; [apply new_positive|by eapply ao_positive].
  - intros i j x y. rewrite !lookup_insert_Some. intros [[<- <-]|[? Hx]] [[<- <-]|[? Hy]] Hh He; try done.
    + destruct (free_version j y Hy); [|done]. destruct Hh. by split.
    + by destruct (free_version i x Hx).
    + by eapply (ao_version _ _ _ _ Hok).
  - intros i b. rewrite lookup_insert_Some. intros [[<- <-]|[_ Hb]] Hn; [by rewrite Hn in Hprior|].
    by eapply ao_first.
  - intros i b p. rewrite lookup_insert_Some. intros [[<- <-]|[_ Hb]] Hp.
    + rewrite Hp in Hprior. destruct Hprior as (c & Hc & Hh & Hv & _). exists c.
      rewrite lookup_insert_ne; [done|congruence].
    + destruct (ao_renews _ _ _ _ Hok i b p Hb Hp) as (c & Hc & Hh & Hv). exists c.
      rewrite lookup_insert_ne; [done|congruence].
  - intros i b. rewrite lookup_insert_Some. intros [[<- <-]|[_ Hb]]; [|by eapply ao_request].
    exists q. by rewrite Hstate.
  - intros i b. rewrite lookup_insert_Some. intros [[<- <-]|[? Hb]].
    + exists s. by rewrite lookup_insert_eq, Hstate.
    + rewrite lookup_insert_ne by done. by eapply ao_status.
  - intros i j x y. rewrite !lookup_insert_Some. intros [[<- <-]|[? Hx]] [[<- <-]|[? Hy]] He; try done.
    + by destruct (request_unattested j y Hy).
    + by destruct (request_unattested i x Hx).
    + by eapply (ao_one _ _ _ _ Hok).
  - intros i x j y. rewrite !lookup_insert_Some. intros [[<- <-]|[? Hx]] [[<- <-]|[? Hy]] Hp.
    + rewrite Hp in Hprior. destruct Hprior as (c & Hc & _). congruence.
    + destruct (ao_renews _ _ _ _ Hok j y _ Hy Hp) as (c & Hc & _). congruence.
    + rewrite Hp in Hprior. destruct Hprior as (c & Hc & _ & _ & Hact).
      assert (c = x) as -> by congruence. rewrite Hact, Hstate. split; [done|]. by intros.
    + by eapply ao_renewed.
  - intros i b. rewrite lookup_insert_Some. intros [[<- <-]|[_ Hb]]; [|by eapply ao_complete].
    by rewrite Hstate, Hincomplete.
Qed.
End issue.

(** ** An attestation moves with its request *)

Section move.
Context {pending pending' : option string} {att : attestations} {req : requests} {sts : statuses}.
Context (Hok : attestations_ok pending att req sts).
Context (i : string) (a : AttestationTableRow) (q : VerificationRequestRow) (s : AttestationStatusRow).
Context (st : attestation_state) (complete : bool) (now : Z).
Hypothesis Ha : att !! i = Some a.
Hypothesis Hq : req !! a_request_id a = Some q.
Hypothesis Hs : st_state s = st.
Hypothesis Hne : st <> st_issued.
Hypothesis Hopen : a_state a = st_issued \/ a_state a = st_active.
Hypothesis Hcomplete : complete = true \/ a_state a <> st_issued.
Hypothesis Hend : st = st_superseded \/ pending = None.
Hypothesis Hfirst : a_state a = st_issued -> a_supersedes_id a = None \/ pending' = Some i.
Hypothesis Hpending : forall j b p, pending = Some j -> att !! j = Some b -> a_supersedes_id b = Some p ->
  pending' = Some j \/ (p = i /\ st = st_superseded).

Let moved := attestation_moved st complete a.

Lemma moved_lookup j b : <[i := moved]> att !! j = Some b ->
  exists b0, att !! j = Some b0 /\ same_holder b b0 /\ a_id b = a_id b0 /\
    a_external_reference b = a_external_reference b0 /\ a_version b = a_version b0 /\
    a_supersedes_id b = a_supersedes_id b0 /\ a_request_id b = a_request_id b0 /\
    ((j = i /\ b = moved) \/ (j <> i /\ b = b0)).
Proof using Ha.
  clear - Ha. rewrite lookup_insert_Some. intros [[<- <-]|[? Hb]]; [exists a|exists b]; unfold same_holder; naive_solver.
Qed.

Lemma attestations_move : attestations_ok pending' (<[i := moved]> att)
  (<[a_request_id a := request_moved (request_state_of st) now q]> req) (<[i := s]> sts).
Proof using All.
  split.
  - intros j b (b0 & Hb & _ & -> & _)%moved_lookup. by eapply ao_key.
  - intros j b (b0 & Hb & _ & _ & -> & _)%moved_lookup. by eapply ao_named.
  - intros j k x y (x0 & Hx & _ & _ & Ex & _)%moved_lookup (y0 & Hy & _ & _ & Ey & _)%moved_lookup He.
    apply (ao_reference _ _ _ _ Hok j k x0 y0 Hx Hy). congruence.
  - intros j b (b0 & Hb & _ & _ & _ & -> & _)%moved_lookup. by eapply ao_positive.
  - intros j k x y (x0 & Hx & Hhx & _ & _ & Ex & _)%moved_lookup (y0 & Hy & Hhy & _ & _ & Ey & _)%moved_lookup Hh He.
    apply (ao_version _ _ _ _ Hok j k x0 y0 Hx Hy); [|congruence].
    destruct Hh, Hhx, Hhy. split; congruence.
  - intros j b (b0 & Hb & _ & _ & _ & -> & -> & _)%moved_lookup. by eapply ao_first.
  - intros j b p (b0 & Hb & Hh & _ & _ & -> & -> & _)%moved_lookup Hp.
    destruct (ao_renews _ _ _ _ Hok j b0 p Hb Hp) as (c & Hc & Hh' & Hv).
    destruct (decide (p = i)) as [->|].
    + exists moved. rewrite lookup_insert_eq. split; [done|]. assert (c = a) as -> by congruence.
      split; [|done]. destruct Hh, Hh'. split; simpl; congruence.
    + exists c. rewrite lookup_insert_ne by done. split; [done|]. split; [|done].
      destruct Hh, Hh'. split; congruence.
  - intros j b (b0 & Hb & Hh & _ & _ & _ & _ & Hr & Hcase)%moved_lookup. rewrite Hr.
    destruct (ao_request _ _ _ _ Hok j b0 Hb) as (q0 & Hq0 & Hc & Hp & Hst).
    destruct Hcase as [[-> ->]|[Hji ->]].
    + assert (b0 = a) as -> by congruence. assert (q0 = q) as -> by congruence.
      eexists. rewrite lookup_insert_eq. by split.
    + exists q0. rewrite lookup_insert_ne; [by split_and!|]. intros He. apply Hji.
      by apply (ao_one _ _ _ _ Hok j i b0 a Hb Ha).
  - intros j b (b0 & Hb & _ & _ & _ & _ & _ & _ & [[-> ->]|[Hji ->]])%moved_lookup.
    + exists s. by rewrite lookup_insert_eq.
    + rewrite lookup_insert_ne by done. by eapply ao_status.
  - intros j k x y (x0 & Hx & _ & _ & _ & _ & _ & Ex & _)%moved_lookup
      (y0 & Hy & _ & _ & _ & _ & _ & Ey & _)%moved_lookup He.
    apply (ao_one _ _ _ _ Hok j k x0 y0 Hx Hy). congruence.
  - intros j x k y (x0 & Hx & _ & _ & _ & _ & _ & _ & Hxcase)%moved_lookup
      (y0 & Hy & _ & _ & _ & _ & Es & _ & Hycase)%moved_lookup Hp. rewrite Es in Hp.
    destruct (ao_renewed _ _ _ _ Hok j x0 k y0 Hx Hy Hp) as [Hni Hsup].
    assert (Hjk : j <> k).
    { intros ->. destruct (ao_renews _ _ _ _ Hok k y0 k Hy Hp) as (c & Hc & _ & Hv). simplify_eq. lia. }
    destruct Hxcase as [[-> ->]|[Hji ->]]; simpl.
    + (* the renewed one moves *) destruct Hycase as [[-> ->]|[_ ->]]; [done|]. split; [done|].
      intros Hyi _. destruct Hend as [|Hnone]; [done|].
      assert (x0 = a) as -> by congruence. rewrite Hsup in Hopen by congruence. naive_solver.
    + destruct Hycase as [[-> ->]|[Hki ->]]; simpl; (split; [done|]).
      * (* its successor moves *) intros _ Hpe. assert (y0 = a) as -> by congruence.
        destruct (decide (a_state a = st_issued)) as [Hi|Hi]; [destruct (Hfirst Hi); congruence|].
        apply Hsup; [done|]. intros Heq. destruct (Hpending i a j Heq Ha Hp) as [|[-> _]]; congruence.
      * intros Hyi Hpe. destruct (decide (pending = Some k)) as [Heq|]; [|by apply Hsup].
        destruct (Hpending k y0 j Heq Hy Hp) as [|[-> _]]; congruence.
  - intros j b (b0 & Hb & _ & _ & _ & _ & _ & _ & [[-> ->]|[Hji ->]])%moved_lookup; [|by eapply ao_complete].
    simpl. rewrite bool_decide_eq_false_2 by done. destruct complete; [done|].
    assert (b0 = a) as -> by congruence. rewrite (ao_complete _ _ _ _ Hok i a Ha).
    rewrite bool_decide_eq_false_2; [done|]. naive_solver.
Qed.
End move.

(** ** Requests without an attestation *)

Definition attested (s : Verification.VerificationState) : bool :=
  includes [Verification.issued; Verification.active; Verification.expired; Verification.revoked;
            Verification.superseded] s.

Lemma attested_state s : attested (request_state_of s) = true.
Proof. by destruct s. Qed.

(** A request row may change freely while it is not in an attested state. *)
Lemma attestations_request pending att req sts i q :
  attestations_ok pending att req sts ->
  (forall q0, req !! i = Some q0 -> attested (vr_state q0) = false) ->
  attestations_ok pending att (<[i := q]> req) sts.
Proof.
  intros [] Hi. split; try done. intros j a Ha. destruct (ao_request0 j a Ha) as (q0 & Hq0 & Hc & Hp & Hs).
  exists q0. rewrite lookup_insert_ne; [done|]. intros ->. pose proof (Hi q0 Hq0) as Hf.
  by rewrite Hs, attested_state in Hf.
Qed.
