(* ===== verification/CoreInvariant.v ===== *)
(** * CoreInvariant: well-formed tables of the domain core and how rows change.

    [core_ok]: the ledger is closed, references are unique, requests point to
    committees and participants that exist, decisions to requests, members
    and policies that do, the attestations are as AttestationInvariant.v
    says.  [core_evolves]: a completed ledger entry stays; the row of an
    aggregate keeps its identity, and its version counts the moves of its
    state: commands of packages/domain and, for wallet challenges, the
    updates of the link repository.  [written] is what a statement of other
    code may do to a lifecycle table. *)
From stdpp Require Import relations.
From S2P Require Import Prelude Errors Transition Lifecycles Guards Text Attestation Json Database AuthDatabase.
From S2P Require Import AuthInvariant CoreDatabase Idempotency VerificationRepository AttestationRepository.
From S2P Require Import LifecycleRepository CoreEffects AttestationInvariant.
Local Open Scope Z_scope.

(** ** Counted moves *)

(** The version counts the moves between two states. *)
Definition counted {State} (move : State -> State -> Prop) (x y : Z * State) : Prop :=
  exists n : nat, y.1 = x.1 + Z.of_nat n /\ nsteps move n x.2 y.2.

#[export] Instance counted_preorder {State} (move : State -> State -> Prop) : PreOrder (counted move).
Proof.
  split.
  - intros x. exists 0%nat. split; [lia|constructor].
  - intros x y z (n & Hn & Hxy) (m & Hm & Hyz). exists (n + m)%nat. split; [lia|].
    by eapply nsteps_trans.
Qed.

Lemma counted_once {State} (move : State -> State -> Prop) v (s s' : State) :
  move s s' -> counted move (v, s) (v + 1, s').
Proof. intros Hs. exists 1%nat. split; [simpl; lia|]. by apply nsteps_once. Qed.

(** ** The lifecycle tables *)

Section table.
Context {Row State Command : Type} `{LifecycleTable Row State Command}.

(** A state moves by a command of the domain or, in "wallet_challenge" only,
    by a statement of the link repository. *)
Definition row_move (s s' : State) : Prop :=
  step s s' \/ (lr_targetType = "wallet_challenge" /\ link_move (state_name s) (state_name s') = true).

Definition row_evolves (r r' : Row) : Prop :=
  lr_reference r' = lr_reference r /\ (forall i, lr_committee i r' = lr_committee i r) /\
  counted row_move (lr_version r, lr_state r) (lr_version r', lr_state r').

#[export] Instance row_evolves_preorder : PreOrder row_evolves.
Proof.
  split.
  - intros r. split_and!; [done|done|reflexivity].
  - intros x y z (E1 & C1 & N1) (E2 & C2 & N2). split_and!; [congruence| |by etransitivity].
    intros i. by rewrite C2.
Qed.

Definition table_evolves (d d' : CoreDb) : Prop := rows_evolve row_evolves (lr_rows d) (lr_rows d').
Definition table_unique (d : CoreDb) : Prop := unique_by lr_reference (lr_rows d).

(** What one statement of other code does to the table: nothing, an INSERT
    that its primary key and its unique "external_reference" admit, or an
    UPDATE of the link repository. *)
Inductive written (m m' : gmap string Row) : Prop :=
| written_not : m' = m -> written m m'
| written_insert i r : m !! i = None -> (forall j x, m !! j = Some x -> lr_reference x <> lr_reference r) ->
    m' = <[i := r]> m -> written m m'
| written_update i r r' : m !! i = Some r -> lr_targetType = "wallet_challenge" ->
    link_move (state_name (lr_state r)) (state_name (lr_state r')) = true ->
    lr_version r' = lr_version r + 1 -> lr_reference r' = lr_reference r ->
    (forall k, lr_committee k r' = lr_committee k r) -> m' = <[i := r']> m -> written m m'.

Lemma update_unique (m : gmap string Row) i r r' : m !! i = Some r -> lr_reference r' = lr_reference r ->
  unique_by lr_reference m -> unique_by lr_reference (<[i := r']> m).
Proof.
  intros Hr He Hold j k x y. rewrite !lookup_insert_Some.
  intros [[<- <-]|[? Hx]] [[<- <-]|[? Hy]] Heq; try done;
    [apply (Hold i k r y)|apply (Hold j i x r)|apply (Hold j k x y)]; congruence.
Qed.

Lemma update_evolves (m : gmap string Row) i r r' : m !! i = Some r -> row_evolves r r' ->
  rows_evolve row_evolves m (<[i := r']> m).
Proof.
  intros Hr Hev j x Hx. destruct (decide (j = i)) as [->|Hj].
  - simplify_eq. exists r'. by rewrite lookup_insert_eq.
  - exists x. rewrite lookup_insert_ne by done. split; [done|reflexivity].
Qed.

Lemma written_sound m m' : written m m' -> unique_by lr_reference m ->
  unique_by lr_reference m' /\ rows_evolve row_evolves m m'.
Proof.
  intros [->|i r Hi Hfree ->|i r r' Hi Ht Hl Hv Href Hc ->] Hold.
  - split; [done|reflexivity].
  - split; [|by apply evolve_insert; [tc_solve|]]. intros j k x y. rewrite !lookup_insert_Some.
    intros [[<- <-]|[? Hx]] [[<- <-]|[? Hy]] Heq; try done;
      [by destruct (Hfree k y)|by destruct (Hfree j x)|by apply (Hold j k x y)].
  - split; [by eapply update_unique|]. eapply update_evolves; [done|]. split; [done|]. split; [done|].
    rewrite Hv. apply counted_once. by right.
Qed.
End table.
Arguments table_evolves {Row State Command} _ d d' : assert.
Arguments table_unique {Row State Command} _ d : assert.
Arguments written {Row State Command} _ m m' : assert.
Arguments row_move {Row State Command} _ s s' : assert.

(** [P] of each of the eight tables. *)
Definition every_table (P : forall Row State Command : Type, LifecycleTable Row State Command -> Prop) : Prop :=
  P _ _ _ CommitteeTable.committee_lifecycle_table /\
  P _ _ _ RenewalCycleTable.renewal_cycle_lifecycle_table /\
  P _ _ _ WalletChallengeTable.wallet_challenge_lifecycle_table /\
  P _ _ _ ConsentTable.consent_lifecycle_table /\
  P _ _ _ AppealTable.appeal_lifecycle_table /\
  P _ _ _ PrivacyTable.privacy_lifecycle_table /\
  P _ _ _ NotificationTable.notification_lifecycle_table /\
  P _ _ _ RelyingPartyTable.relying_party_lifecycle_table.

Definition tables_evolve (d d' : CoreDb) : Prop := every_table (fun _ _ _ T => table_evolves T d d').
Definition tables_unique (d : CoreDb) : Prop := every_table (fun _ _ _ T => table_unique T d).

(** What [domain] holds apart from the lifecycle tables. *)
Definition others (d : CoreDb) :=
  (cd_reference d, cd_idempotency d, cd_request d, cd_decision d, cd_attestation d, cd_status d,
   cd_revocation d, with_base SamplePlatform.emptyDb (cd_auth d), db_clock (cd_base d), log d).

(** What an instance promises: its rows are a part of the database, an
    update changes nothing else, and assigns the state and the version. *)
Class LifecycleTableLaws {Row State Command : Type} (T : LifecycleTable Row State Command) : Prop := {
  lrl_listed (P : forall R S C : Type, LifecycleTable R S C -> Prop) : every_table P -> P _ _ _ T;
  lrl_get (m : gmap string Row) (d : CoreDb) : lr_rows (lr_set_rows m d) = m;
  lrl_others (m : gmap string Row) (d : CoreDb) : others (lr_set_rows m d) = others d;
  lrl_committees (m : gmap string Row) (d : CoreDb) : rows_evolve row_evolves (lr_rows d) m ->
    forall c, is_Some (db_committee (cd_base d) !! c) -> is_Some (db_committee (cd_base (lr_set_rows m d)) !! c);
  lrl_domain (d d' : CoreDb) : domain d' = domain d -> lr_rows (Row := Row) d' = lr_rows d;
  lrl_set_domain (m : gmap string Row) (d d' : CoreDb) : domain d' = domain d -> domain (lr_set_rows m d') = domain (lr_set_rows m d);
  lrl_evolve (m : gmap string Row) (d : CoreDb) : rows_evolve row_evolves (lr_rows d) m -> tables_evolve d (lr_set_rows m d);
  lrl_unique (m : gmap string Row) (d : CoreDb) : unique_by lr_reference m -> tables_unique d -> tables_unique (lr_set_rows m d);
  lrl_assign (next : State) v input (r r' : Row) : lr_assign next v input r = Ok r' ->
    lr_state r' = next /\ lr_version r' = v /\ lr_reference r' = lr_reference r /\
    (forall i, lr_committee i r' = lr_committee i r);
  lrl_target : lr_targetType (LifecycleTable := T) <> "";
  lrl_state (s : State) : state_name s <> "";
}.

Lemma tables_evolve_refl d : tables_evolve d d.
Proof. unfold tables_evolve, every_table. split_and!; apply rows_evolve_preorder; tc_solve. Qed.

Lemma domain_lifecycle d d' : domain d' = domain d ->
  cd_lifecycle d' = cd_lifecycle d /\ db_committee (cd_base d') = db_committee (cd_base d).
Proof. unfold domain. intros [=]. done. Qed.

(** The seven tables of [LifecycleTables] *)
Lemma set_lifecycle_domain f d d' : domain d' = domain d -> domain (with_lifecycle f d') = domain (with_lifecycle f d).
Proof. destruct d as [[[]]], d' as [[[]]]. unfold domain. simpl. intros [=]. by subst. Qed.

Ltac evolve_tables := unfold tables_evolve, every_table, table_evolves in *; split_and!;
  first [eassumption | match goal with |- rows_evolve _ ?x ?y => change y with x; reflexivity end].
Ltac unique_tables := unfold tables_unique, every_table, table_unique in *; destruct_and?; split_and!; assumption.

Ltac solve_laws :=
  split;
  [ by intros P (?&?&?&?&?&?&?&?)
  | by intros
  | by intros m [[[]]]
  | by intros
  | intros d d' [Hl Hc]%domain_lifecycle; simpl; by rewrite ?Hl, ?Hc
  | intros m d d' Hd; by apply set_lifecycle_domain
  | intros m d Hm; evolve_tables
  | intros m d Hm Hu; unique_tables
  | 
  | done
  | ].

#[export] Instance renewal_cycle_laws : LifecycleTableLaws RenewalCycleTable.renewal_cycle_lifecycle_table.
Proof. solve_laws; [by intros next v input r r' [= <-]|by intros []]. Qed.

#[export] Instance relying_party_laws : LifecycleTableLaws RelyingPartyTable.relying_party_lifecycle_table.
Proof. solve_laws; [by intros next v input r r' [= <-]|by intros []]. Qed.

#[export] Instance wallet_challenge_laws : LifecycleTableLaws WalletChallengeTable.wallet_challenge_lifecycle_table.
Proof.
  solve_laws; [|by intros [[]|]]. intros next v input r r' Ha. simpl in Ha. unfold WalletChallengeTable.assign in Ha.
  by inv_ok.
Qed.

#[export] Instance consent_laws : LifecycleTableLaws ConsentTable.consent_lifecycle_table.
Proof.
  solve_laws; [|by intros []]. intros next v input r r' Ha. simpl in Ha. unfold ConsentTable.assign in Ha. by inv_ok.
Qed.

#[export] Instance appeal_laws : LifecycleTableLaws AppealTable.appeal_lifecycle_table.
Proof.
  solve_laws; [|by intros []]. intros next v input r r' Ha. simpl in Ha. unfold AppealTable.assign in Ha. by inv_ok.
Qed.

#[export] Instance privacy_laws : LifecycleTableLaws PrivacyTable.privacy_lifecycle_table.
Proof.
  solve_laws; [|by intros []]. intros next v input r r' Ha. simpl in Ha. unfold PrivacyTable.assign in Ha. by inv_ok.
Qed.

#[export] Instance notification_laws : LifecycleTableLaws NotificationTable.notification_lifecycle_table.
Proof.
  solve_laws; [|by intros []]. intros next v input r r' Ha. simpl in Ha. unfold NotificationTable.assign in Ha.
  by inv_ok.
Qed.

#[export] Instance committee_laws : LifecycleTableLaws CommitteeTable.committee_lifecycle_table.
Proof.
  split.
  - by intros P (?&?&?&?&?&?&?&?).
  - by intros m [[[]]].
  - by intros m [[[]]].
  - intros m [[[]]] Hm c [r Hr]. simpl in *. destruct (Hm c r Hr) as (r' & Hr' & _). eauto.
  - intros d d' [Hl Hc]%domain_lifecycle. simpl. by rewrite Hc.
  - intros m [[[]]] [[[]]]. unfold domain. simpl. intros [=]. by subst.
  - intros m [[[]]] Hm. simpl in *. evolve_tables.
  - intros m [[[]]] Hm Hu. simpl in *. unique_tables.
  - by intros next v input r r' [= <-].
  - done.
  - by intros [].
Qed.

(** ** The invariant and how rows change *)

Definition request_identity (q : VerificationRequestRow) :=
  (vr_external_reference q, vr_committee_id q, vr_participant_id q, vr_policy_version_id q, vr_requested_at q).
Definition request_evolves (q q' : VerificationRequestRow) : Prop :=
  request_identity q' = request_identity q /\
  counted (step (Command := Verification.command)) (vr_version q, vr_state q) (vr_version q', vr_state q').

#[export] Instance request_evolves_preorder : PreOrder request_evolves.
Proof.
  split; [intros q; split; [done|reflexivity]|]. intros x y z [E1 N1] [E2 N2].
  split; [congruence|by etransitivity].
Qed.

Definition attestation_identity (a : AttestationTableRow) :=
  (a_id a, a_external_reference a, a_committee_id a, a_participant_id a, a_request_id a, a_policy_version_id a,
   a_version a, a_valid_from a, a_expires_at a, a_supersedes_id a).
Definition attestation_evolves (a a' : AttestationTableRow) : Prop :=
  attestation_identity a' = attestation_identity a /\
  rtc (fun s s' => attestation_table s s' = true) (a_state a) (a_state a').

#[export] Instance attestation_evolves_preorder : PreOrder attestation_evolves.
Proof.
  split; [intros q; split; [done|reflexivity]|]. intros x y z [E1 N1] [E2 N2].
  split; [congruence|by etransitivity].
Qed.

Definition status_evolves (s s' : AttestationStatusRow) : Prop :=
  st_committee_id s' = st_committee_id s /\ st_version s <= st_version s' /\
  (st_version s' = st_version s -> s' = s).

#[export] Instance status_evolves_preorder : PreOrder status_evolves.
Proof.
  split; [intros s; split_and!; [done|lia|done]|]. intros x y z (C1 & V1 & E1) (C2 & V2 & E2).
  split_and!; [congruence|lia|]. intros Hv. rewrite E2, E1; [done|lia..].
Qed.

(** A revocation is on record exactly for the revoked attestations, once. *)
Definition revocations_ok (d : CoreDb) : Prop :=
  (forall k r, cd_revocation d !! k = Some r ->
     exists a, cd_attestation d !! rv_attestation r = Some a /\ a_state a = st_revoked) /\
  (forall i a, cd_attestation d !! i = Some a -> a_state a = st_revoked ->
     exists k r, cd_revocation d !! k = Some r /\ rv_attestation r = i) /\
  unique_by rv_attestation (cd_revocation d).

(** The keys of "review_decision": references are unique, a member decides a
    request once, and request, member and policy exist, the first two in the
    decision's committee. *)
Record decisions_ok (dec : gmap string ReviewDecisionRow) (req : gmap string VerificationRequestRow)
    (mem : gmap string MemberRow) (pol : gset string) : Prop := {
  do_reference : unique_by rd_external_reference dec;
  do_once i j x y : dec !! i = Some x -> dec !! j = Some y -> rd_request_id x = rd_request_id y ->
    rd_reviewer_member_id x = rd_reviewer_member_id y -> i = j;
  do_request i x : dec !! i = Some x ->
    exists q, req !! rd_request_id x = Some q /\ vr_committee_id q = rd_committee_id x;
  do_member i x : dec !! i = Some x ->
    exists m, mem !! rd_reviewer_member_id x = Some m /\ cm_committee_id m = rd_committee_id x;
  do_policy i x : dec !! i = Some x -> rd_policy_version_id x ∈ pol;
}.

(** Rows that others refer to stay, in their committee. *)
Definition in_committee {R} (committee_of : R -> string) : relation (gmap string R) :=
  rows_evolve (fun x y => committee_of y = committee_of x).

#[export] Instance in_committee_preorder {R} (committee_of : R -> string) : PreOrder (in_committee committee_of).
Proof. apply rows_evolve_preorder. split; [by intros x|]. intros x y z E1 E2. congruence. Qed.

Lemma decisions_kept dec req mem pol req' mem' pol' :
  in_committee vr_committee_id req req' -> in_committee cm_committee_id mem mem' -> pol ⊆ pol' ->
  decisions_ok dec req mem pol -> decisions_ok dec req' mem' pol'.
Proof.
  intros Hr Hm Hp [R O Q M P]. split; [done|done| | |].
  - intros i x Hx. destruct (Q i x Hx) as (q & Hq & <-). destruct (Hr _ q Hq) as (q' & Hq' & He). eauto.
  - intros i x Hx. destruct (M i x Hx) as (m & Hi & <-). destruct (Hm _ m Hi) as (m' & Hm' & He). eauto.
  - intros i x Hx. apply Hp. by eapply P.
Qed.

Lemma in_committee_insert {R} (committee_of : R -> string) (m : gmap string R) i r :
  (forall x, m !! i = Some x -> committee_of r = committee_of x) -> in_committee committee_of m (<[i := r]> m).
Proof.
  intros Hc j x Hx. destruct (decide (j = i)) as [->|Hj].
  - exists r. rewrite lookup_insert_eq. auto.
  - exists x. by rewrite lookup_insert_ne.
Qed.

(** The policies that exist. *)
Definition policies (d : CoreDb) : gset string := mt_policy_version (ad_committee (cd_auth d)).

Definition core_decisions_ok (d : CoreDb) : Prop :=
  decisions_ok (cd_decision d) (cd_request d) (committee_members d) (policies d).

(** Changing requests alone. *)
Lemma decisions_requests d req' : in_committee vr_committee_id (cd_request d) req' -> core_decisions_ok d ->
  decisions_ok (cd_decision d) req' (committee_members d) (policies d).
Proof. intros Hr. by apply decisions_kept. Qed.

Record domain_ok_at (pending : option string) (d : CoreDb) : Prop := {
  ok_requests : unique_by vr_external_reference (cd_request d);
  ok_committees i q : cd_request d !! i = Some q -> is_Some (db_committee (cd_base d) !! vr_committee_id q);
  ok_participants i q : cd_request d !! i = Some q -> is_Some (CoreDatabase.participant_reference d (vr_participant_id q));
  ok_attestations : attestations_ok pending (cd_attestation d) (cd_request d) (cd_status d);
  ok_revocations : revocations_ok d;
  ok_tables : tables_unique d;
  ok_decisions : core_decisions_ok d;
}.
Arguments ok_requests {pending} d _ _ _ _ _ _ _ _ : assert.
Arguments ok_committees {pending} d _ _ _ _ : assert.
Arguments ok_participants {pending} d _ _ _ _ : assert.
Arguments ok_attestations {pending} d _ : assert.
Arguments ok_revocations {pending} d _ : assert.
Arguments ok_tables {pending} d _ : assert.
Arguments ok_decisions {pending} d _ : assert.
Notation domain_ok := (domain_ok_at None).

Record domain_evolves (d d' : CoreDb) : Prop := {
  dv_request : rows_evolve request_evolves (cd_request d) (cd_request d');
  dv_decision : cd_decision d ⊆ cd_decision d';
  dv_attestation : rows_evolve attestation_evolves (cd_attestation d) (cd_attestation d');
  dv_status : rows_evolve status_evolves (cd_status d) (cd_status d');
  dv_revocation : cd_revocation d ⊆ cd_revocation d';
  dv_tables : tables_evolve d d';
}.

#[export] Instance domain_evolves_preorder : PreOrder domain_evolves.
Proof.
  split.
  - intros d. split; [reflexivity|done|reflexivity|reflexivity|done|apply tables_evolve_refl].
  - intros d1 d2 d3 [R1 D1 A1 S1 V1 T1] [R2 D2 A2 S2 V2 T2].
    split; try (etransitivity; eassumption).
    unfold tables_evolve, every_table, table_evolves in *.
    destruct_and!. split_and!; etransitivity; eassumption.
Qed.

Definition core_ok (d : CoreDb) : Prop := closed d /\ domain_ok d.
Definition core_evolves (d d' : CoreDb) : Prop :=
  cd_idempotency d ⊆ cd_idempotency d' /\ domain_evolves d d'.

#[export] Instance core_evolves_preorder : PreOrder core_evolves.
Proof.
  split; [intros d; split; [done|reflexivity]|]. intros d1 d2 d3 [] []. split; by etransitivity.
Qed.

(** *** They see the tables only *)

(** The parts of the domain, one by one. *)
Lemma domain_parts d d' : domain d' = domain d ->
  cd_reference d' = cd_reference d /\ cd_request d' = cd_request d /\ cd_decision d' = cd_decision d /\
  cd_attestation d' = cd_attestation d /\ cd_status d' = cd_status d /\ cd_revocation d' = cd_revocation d /\
  ad_participant (cd_auth d') = ad_participant (cd_auth d) /\
  db_committee (cd_base d') = db_committee (cd_base d) /\ db_clock (cd_base d') = db_clock (cd_base d).
Proof. unfold domain, with_base. intros [=]. done. Qed.

Lemma domain_committee d d' : domain d' = domain d -> ad_committee (cd_auth d') = ad_committee (cd_auth d).
Proof. unfold domain, with_base. intros [=]. done. Qed.

Lemma domain_members d d' : domain d' = domain d ->
  committee_members d' = committee_members d /\ conflict_declarations d' = conflict_declarations d.
Proof. intros Hc%domain_committee. unfold committee_members, conflict_declarations. by rewrite Hc. Qed.

Lemma tables_kept d d' : cd_lifecycle d' = cd_lifecycle d -> db_committee (cd_base d') = db_committee (cd_base d) ->
  tables_evolve d d'.
Proof.
  intros Hl Hc. unfold tables_evolve, every_table, table_evolves. simpl. rewrite Hl, Hc. split_and!; reflexivity.
Qed.

Lemma others_parts d d' : others d' = others d ->
  cd_request d' = cd_request d /\ cd_decision d' = cd_decision d /\ cd_attestation d' = cd_attestation d /\
  cd_status d' = cd_status d /\ cd_revocation d' = cd_revocation d /\
  ad_participant (cd_auth d') = ad_participant (cd_auth d).
Proof. unfold others, with_base. intros [=]. done. Qed.

Lemma others_committee d d' : others d' = others d -> ad_committee (cd_auth d') = ad_committee (cd_auth d).
Proof. unfold others, with_base. intros [=]. done. Qed.

(** The decisions are right in any state with the same tables. *)
Lemma decisions_same d d' : cd_decision d' = cd_decision d -> cd_request d' = cd_request d ->
  ad_committee (cd_auth d') = ad_committee (cd_auth d) -> core_decisions_ok d -> core_decisions_ok d'.
Proof. intros Hd Hq Hc. unfold core_decisions_ok, committee_members, policies. by rewrite Hd, Hq, Hc. Qed.

Lemma others_ledger d d' : others d' = others d -> cd_idempotency d' = cd_idempotency d /\ log d' = log d.
Proof. unfold others, with_base. intros [=]. unfold log. split; congruence. Qed.

Lemma domain_ok_same d d' : domain d' = domain d -> domain_ok d -> domain_ok d'.
Proof.
  intros Hd. pose proof (domain_lifecycle _ _ Hd) as [Hl _]. pose proof (domain_committee _ _ Hd) as Hm.
  destruct (domain_parts _ _ Hd) as (_ & Hq & Hdec & Ha & Hs & Hv & Hp & Hc & _).
  intros [R C P A V T D]. split.
  - by rewrite Hq.
  - intros i q. rewrite Hq, Hc. apply C.
  - intros i q. unfold CoreDatabase.participant_reference. rewrite Hq, Hp. apply P.
  - by rewrite Ha, Hq, Hs.
  - unfold revocations_ok. by rewrite Ha, Hv.
  - unfold tables_unique, every_table, table_unique in *. simpl in *. by rewrite Hl, Hc.
  - by apply (decisions_same d).
Qed.

Lemma domain_evolves_same d d' d1 d1' :
  domain d1 = domain d -> domain d1' = domain d' -> domain_evolves d d' -> domain_evolves d1 d1'.
Proof.
  intros H1 H2. pose proof (domain_lifecycle _ _ H1) as [L1 C1]. pose proof (domain_lifecycle _ _ H2) as [L2 C2].
  destruct (domain_parts _ _ H1) as (_ & Hq1 & Hd1 & Ha1 & Hs1 & Hv1 & _).
  destruct (domain_parts _ _ H2) as (_ & Hq2 & Hd2 & Ha2 & Hs2 & Hv2 & _).
  intros [R D A S V T]. split; rewrite ?Hq1, ?Hq2, ?Hd1, ?Hd2, ?Ha1, ?Ha2, ?Hs1, ?Hs2, ?Hv1, ?Hv2; try done.
  unfold tables_evolve, every_table, table_evolves in *. simpl in *. by rewrite L1, L2, C1, C2.
Qed.

Lemma core_ok_same d d' : same_core d d' -> core_ok d -> core_ok d'.
Proof.
  intros Hs [Hc Hd]. split.
  - unfold closed. by rewrite (blind_same cd_idempotency _ _ Hs).
  - apply (domain_ok_same d); [by apply (blind_same domain)|done].
Qed.

Lemma core_evolves_same d d' : same_core d d' -> core_evolves d d'.
Proof.
  intros Hs. split; [by rewrite (blind_same cd_idempotency _ _ Hs)|].
  apply (domain_evolves_same d d); [done|by apply (blind_same domain)|reflexivity].
Qed.

(** *** Commands *)

(** What a command does: it puts the domain [dom] in place of the old one,
    and enters its result into the ledger. *)
Lemma core_sound `{Platform} scope cid name ctx ref st v d d' dom :
  core_ok d -> ledgered scope cid name ctx ref st v d d' -> domain d' = domain dom ->
  domain_ok dom -> domain_evolves d dom -> core_ok d' /\ core_evolves d d'.
Proof.
  intros [Hc Hd] Hl Hdom Hok Hev. destruct (ledgered_closed _ _ _ _ _ _ _ _ _ Hl Hc) as [Hc' Hsub].
  split; split; [done|by apply (domain_ok_same dom)|done|by apply (domain_evolves_same d dom)].
Qed.

(** A request moves by a command of the domain. *)
Lemma request_sound d i q next now :
  domain_ok d -> cd_request d !! i = Some q -> step (Command := Verification.command) (vr_state q) next ->
  attested (vr_state q) = false ->
  let d' := with_request (<[i := request_moved next now q]>) d in domain_ok d' /\ domain_evolves d d'.
Proof.
  intros [R C P A V T D] Hq Hstep Hfree d'. split.
  - split; try done; simpl.
    + intros j k x y. rewrite !lookup_insert_Some. intros [[<- <-]|[? Hx]] [[<- <-]|[? Hy]] He; try done;
        [by apply (R i k q y)|by apply (R j i x q)|by apply (R j k x y)].
    + intros j x. rewrite lookup_insert_Some. intros [[<- <-]|[_ Hx]]; [by apply (C i q)|by apply (C j)].
    + intros j x. rewrite lookup_insert_Some. intros [[<- <-]|[_ Hx]]; [by apply (P i q)|by apply (P j)].
    + apply attestations_request; [done|]. intros q0 Hq0. by simplify_eq.
    + apply (decisions_requests d); [|done]. apply in_committee_insert. intros x Hx. by simplify_eq.
  - split; [simpl|done|reflexivity|reflexivity|done|by apply tables_kept].
    intros j x Hx. destruct (decide (j = i)) as [->|Hj].
    + simplify_eq. eexists. rewrite lookup_insert_eq. split; [done|]. split; [done|]. by apply counted_once.
    + exists x. rewrite lookup_insert_ne by done. split; [done|reflexivity].
Qed.

(** A row of a lifecycle table moves by a command of the domain. *)
Section table_sound.
Context {Row State Command : Type} (T : LifecycleTable Row State Command) `{!LifecycleTableLaws T}.

Lemma table_sound d i (r r' : Row) :
  domain_ok d -> lr_rows d !! i = Some r -> row_evolves r r' ->
  let d' := lr_set_rows (<[i := r']> (lr_rows d)) d in domain_ok d' /\ domain_evolves d d'.
Proof.
  intros Hok Hr Hev d'. pose proof (lrl_listed _ (ok_tables d Hok)) as Hold.
  assert (Hm : rows_evolve row_evolves (lr_rows d) (<[i := r']> (lr_rows d))) by (by eapply update_evolves).
  assert (Hu : unique_by lr_reference (<[i := r']> (lr_rows d))).
  { destruct Hev as [He _]. by eapply update_unique. }
  destruct (others_parts _ _ (lrl_others (<[i := r']> (lr_rows d)) d)) as (Hreq & Hdec & Hatt & Hsts & Hvoc & Hpart).
  pose proof (others_committee _ _ (lrl_others (<[i := r']> (lr_rows d)) d)) as Hcom.
  subst d'. destruct Hok as [R C P A V U D]. split.
  - split.
    + by rewrite Hreq.
    + intros j q. rewrite Hreq. intros Hq. apply (lrl_committees _ _ Hm). by apply (C j).
    + intros j q. rewrite Hreq. unfold CoreDatabase.participant_reference. rewrite Hpart. apply P.
    + by rewrite Hatt, Hreq, Hsts.
    + unfold revocations_ok. by rewrite Hatt, Hvoc.
    + by apply lrl_unique.
    + by apply (decisions_same d).
  - split; rewrite ?Hreq, ?Hdec, ?Hatt, ?Hsts, ?Hvoc; try reflexivity. by apply lrl_evolve.
Qed.
End table_sound.
