(* ===== verification/RequestEffects.v ===== *)
(** * RequestEffects: what the commands of VerificationRepository do.

    Each body that succeeds either replays a recorded result, and changes no
    table, or changes its row, the ledger and the log as described. *)
From stdpp Require Import relations.
From S2P Require Import Prelude Errors Transition Lifecycles Guards Text Attestation Json Database AuthDatabase.
From S2P Require Import AuthInvariant CoreDatabase Idempotency VerificationRepository.
From S2P Require Import CoreEffects AttestationInvariant CoreInvariant.
Import Verification(VerificationState).
Local Open Scope Z_scope.

(** ** Reads *)

Lemma select_row_some {R} (p : R -> bool) (m : gmap string R) i r :
  select_row p m = Some (i, r) -> m !! i = Some r /\ p r = true.
Proof.
  unfold select_row. intros Hf. apply find_some in Hf as [Hin Hp]. split; [|done].
  by apply list_elem_of_In, elem_of_map_to_list in Hin.
Qed.

(** A unique column finds its row. *)
Lemma select_row_found {R} (p : R -> bool) (m : gmap string R) i r :
  m !! i = Some r -> p r = true -> (forall j x, m !! j = Some x -> p x = true -> j = i) ->
  select_row p m = Some (i, r).
Proof.
  intros Hi Hp Hu. destruct (select_row p m) as [[j x]|] eqn:Hs.
  - apply select_row_some in Hs as [Hj Hx]. pose proof (Hu j x Hj Hx) as ->. congruence.
  - unfold select_row in Hs. apply (find_none _ _) with (x := (i, r)) in Hs; [simpl in Hs; congruence|].
    by apply list_elem_of_In, elem_of_map_to_list.
Qed.

Lemma has_row_false {R} (p : R -> bool) (m : gmap string R) :
  has_row p m = false <-> forall i r, m !! i = Some r -> p r = false.
Proof.
  unfold has_row. split.
  - intros Hf i r Hi. apply not_true_iff_false in Hf. apply not_true_iff_false. intros Hp. apply Hf.
    apply some_true. exists (i, r). by rewrite elem_of_map_to_list.
  - intros Hall. apply not_true_iff_false. rewrite some_true. intros ([i r] & Hin & Hp).
    apply elem_of_map_to_list in Hin. simpl in Hp. by rewrite (Hall i r Hin) in Hp.
Qed.

Definition names_request (cid reference : string) (q : VerificationRequestRow) : bool :=
  String.eqb (vr_external_reference q) reference && String.eqb (vr_committee_id q) cid.

Lemma names_request_true cid reference q :
  names_request cid reference q = true <-> vr_external_reference q = reference /\ vr_committee_id q = cid.
Proof. unfold names_request. by rewrite andb_true_iff, !String.eqb_eq. Qed.

Section reads.
Context `{Platform}.

(** The committee that a reference names. *)
Definition committee_named (reference : string) (d : CoreDb) (cid : string) : Prop :=
  requireOpaqueReference reference "committee reference" = Ok tt /\
  exists c, committee_by_reference reference d = Some (cid, c).

Lemma committeeId_run reference d cid d' :
  committeeId reference d = (Ok cid, d') -> d' = d /\ committee_named reference d cid.
Proof.
  unfold committeeId. intros Hrun. apply bindP_ok in Hrun as ([] & d1 & Ho & Hrun). injection Ho as Ho <-.
  apply bindP_ok in Hrun as (found & d2 & [= <- <-] & Hrun).
  destruct (committee_by_reference reference d) as [[i c]|] eqn:Hf; [|done]. injection Hrun as <- <-.
  split; [done|]. split; [done|]. eauto.
Qed.

Lemma committeeId_named reference d cid :
  committee_named reference d cid -> committeeId reference d = (Ok cid, d).
Proof. intros [Ho [c Hc]]. unfold committeeId, bindP, lift, gets. by rewrite Ho, Hc. Qed.

Lemma loadRow_run cid reference d i q p c d' :
  VerificationRepository.loadRow cid reference d = (Ok (i, q, p, c), d') ->
  d' = d /\ cd_request d !! i = Some q /\ vr_external_reference q = reference /\ vr_committee_id q = cid.
Proof.
  unfold VerificationRepository.loadRow. intros Hrun. apply bindP_ok in Hrun as (x & d1 & [= <- <-] & Hrun).
  change (fun r => _ && _) with (names_request cid reference) in Hrun.
  destruct (select_row _ _) as [[j r]|] eqn:Hs; [|done].
  apply select_row_some in Hs as [Hj [Href Hc]%names_request_true].
  destruct (CoreDatabase.participant_reference _ _); [|done]. destruct (_ <$> _); [|done].
  injection Hrun as <- <- <- <- <-. done.
Qed.

Lemma loadRecord_run cid reference replayed d r d' :
  loadRecord cid reference replayed d = (Ok r, d') ->
  d' = d /\ v_externalReference r = reference /\ v_replayed r = replayed /\
  exists i q, cd_request d !! i = Some q /\ vr_external_reference q = reference /\ vr_committee_id q = cid /\
    v_state r = state_name (vr_state q) /\ v_version r = vr_version q.
Proof.
  unfold loadRecord. intros Hrun. apply bindP_ok in Hrun as ([[[i q] p] c] & d1 & Hl & Hrun).
  apply loadRow_run in Hl as (-> & Hq & Href & Hc). injection Hrun as <- <-. split_and!; try done.
  by exists i, q.
Qed.

(** With the tables well-formed, the read finds the row. *)
Lemma loadRow_found cid reference d i q :
  domain_ok d -> cd_request d !! i = Some q -> vr_external_reference q = reference -> vr_committee_id q = cid ->
  exists p c, VerificationRepository.loadRow cid reference d = (Ok (i, q, p, c), d).
Proof.
  intros Hok Hq Href Hc. unfold VerificationRepository.loadRow, bindP, gets.
  change (fun r => _ && _) with (names_request cid reference).
  rewrite (select_row_found _ _ i q Hq).
  - destruct (ok_participants d Hok i q Hq) as [p Hp]. destruct (ok_committees d Hok i q Hq) as [c Hcm].
    unfold id. rewrite Hp, Hcm. simpl. eauto.
  - by apply names_request_true.
  - intros j x Hx [He _]%names_request_true. apply (ok_requests d Hok j i x q Hx Hq). congruence.
Qed.
End reads.

(** ** Statements *)

Lemma updateRequest_run i state q d v d' :
  updateRequest i state q d = (Ok v, d') ->
  v = vr_version q + 1 /\ step (Command := Verification.command) (vr_state q) state /\
  d' = with_request (<[i := request_moved state (db_clock (cd_base d)) q]>) d.
Proof.
  unfold updateRequest. intros Hrun. apply bindP_ok in Hrun as (now & d1 & [= <- <-] & Hrun). cbv zeta in Hrun.
  apply bindP_ok in Hrun as (n & d2 & Hi & Hrun). unfold lift in Hi. injection Hi as Hi <-.
  assert (n = vr_version q + 1) as -> by (unfold int4 in Hi; inv_ok; done).
  apply bindP_ok in Hrun as (u & d3 & Hg & Hrun). unfold lift in Hg. injection Hg as Hg <-.
  apply guarded_update_ok in Hg as [_ Hg]. apply verification_table_step in Hg.
  apply bindP_ok in Hrun as (u' & d4 & Ht & Hrun). unfold throwWhen, lift in Ht. injection Ht as _ <-.
  by apply bindP_ok in Hrun as (u2 & d5 & [= _ <-] & [= <- <-]).
Qed.

Lemma updateRequest_keeps {V} (view : CoreDb -> V) i state q :
  (forall f d, view (with_request f d) = view d) -> keeps view (updateRequest i state q).
Proof.
  intros Hv. unfold updateRequest. cbv zeta. keeps_steps.
Qed.

Lemma domain_with_request f d d' : domain d' = domain d -> domain (with_request f d') = domain (with_request f d).
Proof. destruct d as [[[]]], d' as [[[]]]. unfold domain. simpl. intros [=]. by subst. Qed.

Lemma domain_with_decision f d d' : domain d' = domain d -> domain (with_decision f d') = domain (with_decision f d).
Proof. destruct d as [[[]]], d' as [[[]]]. unfold domain. simpl. intros [=]. by subst. Qed.

(** The sixteen commands are commands of the domain, and leave a request with
    an attestation alone. *)
Definition domain_command (c : RequestCommand) : Verification.command :=
  match c with
  | schedule => Verification.C_scheduleRequest
  | checkIn => Verification.C_checkInParticipant
  | beginReview => Verification.C_beginReview
  | approve => Verification.C_approveVerification
  | reject => Verification.C_rejectVerification
  | requestMoreInformation => Verification.C_requestMoreInformation
  | withdraw => Verification.C_withdrawVerification
  | rescheduleAfterMoreInformation => Verification.C_rescheduleAfterMoreInformation
  | rejectAfterMoreInformation => Verification.C_rejectAfterMoreInformation
  | withdrawAfterMoreInformation => Verification.C_withdrawAfterMoreInformation
  | requestIssuance => Verification.C_requestIssuance
  | recordIssuance => Verification.C_recordIssuance
  | openAppeal => Verification.C_openAppeal
  | upholdAppeal => Verification.C_upholdAppeal
  | denyAppeal => Verification.C_denyAppeal
  | remandAppeal => Verification.C_remandAppeal
  end.

Lemma domainCommand_apply c : domainCommand c = Verification.apply (domain_command c).
Proof. by destruct c. Qed.

Lemma domainCommand_unattested c s s' : domainCommand c s = Ok s' -> attested s = false.
Proof.
  destruct c; simpl; intros Ha; apply applyTransition_ok in Ha as [Hin _]; in_cases; reflexivity.
Qed.

(** ** Whole commands *)

(** The recorded result of an earlier run of the same command was found. *)
Definition replays `{Platform} (scope : string) (cid : option string) (name : string) (ctx : CommandContext)
    (ref st : string) (v : Z) (d d' : CoreDb) : Prop :=
  same_core d d' /\ exists row, cd_idempotency d !! ledger_key scope ctx = Some row /\
    replayable name cid ctx row = true /\
    ir_result_reference row = Some ref /\ ir_result_state row = Some st /\ ir_result_version row = Some v.

(** A command took effect: one new ledger entry with its result, the entries
    [pre] and [en] in both logs, and [dom] in place of the domain tables. *)
Definition commanded `{Platform} (scope : string) (cid : option string) (ctx : CommandContext)
    (pre : list entry) (en : entry) (st : string) (v : Z) (d dom d' : CoreDb) : Prop :=
  ledgered scope cid (en_command en) ctx (en_reference en) st v d d' /\
  recorded_all ctx cid (pre ++ [en]) d d' /\ domain d' = domain dom.

Section commands.
Context `{Platform}.

Lemma commanded_sound scope cid ctx pre en st v d dom d' :
  core_ok d -> commanded scope cid ctx pre en st v d dom d' -> domain_ok dom -> domain_evolves d dom ->
  core_ok d' /\ core_evolves d d'.
Proof. intros Hok (Hl & _ & Hd). by eapply core_sound. Qed.

Lemma core_sound_replay scope cid name ctx ref st v d d' :
  core_ok d -> replays scope cid name ctx ref st v d d' -> core_ok d' /\ core_evolves d d'.
Proof. intros Hok [Hs _]. split; [by apply (core_ok_same d)|by apply core_evolves_same]. Qed.

(** The skeleton of every command: open the entry, change the domain, write
    the logs, complete the entry. *)
Lemma commanded_run scope cid en pre ctx d res d1 f d2 h d3 ag payload u d4 v st u' d5 :
  closed d -> beginScoped scope cid (en_command en) ctx d = (Ok res, d1) -> idem_replayed res = false ->
  (forall d d', domain d' = domain d -> domain (f d') = domain (f d)) ->
  domain d2 = domain (f d1) -> cd_idempotency d2 = cd_idempotency d1 -> recorded_all ctx cid pre d1 d2 ->
  ag = en_aggregate en ->
  audit ctx cid (en_command en) (en_target_type en) (en_reference en) (en_prior en) (en_new en) d2 = (Ok h, d3) ->
  enqueue cid ag (en_reference en) (en_event en) payload v st ctx d3 = (Ok u, d4) ->
  forall v' st', completeIdempotency (idem_id res) (en_reference en) v' st' d4 = (Ok u', d5) ->
  commanded scope cid ctx pre en st' v' d (f d) d5.
Proof.
  intros Hcl Hb Hfresh Hf Hd2 Hl2 Hlog2 -> Ha He v' st' Hc.
  destruct (recorded_run _ _ _ _ _ _ _ _ _ _ _ _ _ _ _ _ _ Ha He) as (Hrec & Hdom & Hled).
  assert (Hd1 : domain d1 = domain d).
  { apply (keeps_run _ _ _ _ _ (begin_keeps domain scope cid _ ctx ltac:(done)) Hb). }
  assert (Hlog1 : log d1 = log d).
  { apply (keeps_run _ _ _ _ _ (begin_keeps log scope cid _ ctx ltac:(done)) Hb). }
  split; [|split].
  - eapply ledgered_run; [done|exact Hb|done| |exact Hc]. congruence.
  - destruct en. apply (recorded_all_log _ _ _ d1 d4); [done| |].
    + exact (keeps_run _ _ _ _ _ (complete_keeps_log _ _ _ _) Hc).
    + apply recorded_all_app. exists d2. split; [done|]. by exists d4.
  - rewrite (keeps_run _ _ _ _ _ (complete_keeps_domain _ _ _ _) Hc), Hdom, Hd2. by apply Hf.
Qed.

Lemma replayRecord_run record idem r :
  VerificationRepository.replayRecord record idem = Ok r ->
  resultReference idem = Some (v_externalReference record) /\ resultState idem = Some (v_state r) /\
  resultVersion idem = Some (v_version r) /\ v_replayed r = true /\
  v_externalReference r = v_externalReference record.
Proof.
  unfold VerificationRepository.replayRecord. intros Hr. apply bindR_ok in Hr as ([] & Ht & [= <-]).
  apply throwIf_ok in Ht. rewrite !orb_false_iff, !negb_false_iff, bool_decide_eq_true in Ht.
  destruct Ht as [[Href Hst] Hv]. destruct (resultState idem), (resultVersion idem); done.
Qed.

Lemma begin_replays scope cid name ctx d res d1 ref st v :
  beginScoped scope cid name ctx d = (Ok res, d1) -> idem_replayed res = true ->
  resultReference res = Some ref -> resultState res = Some st -> resultVersion res = Some v ->
  replays scope cid name ctx ref st v d d1.
Proof.
  intros Hb Hr Href Hst Hv. apply begin_run in Hb as [(_ & Hs & row & Hrow & Hrep & ->)|[Hf _]]; [|congruence].
  split; [done|]. by exists row.
Qed.

Definition request_entry (name reference : string) (prior : option string) (new event : string) : entry := {|
  en_command := name; en_target_type := "verification_request"; en_reference := reference; en_prior := prior;
  en_new := new; en_event := event; en_aggregate := "verification_request" |}.

Definition decision_entry (reference decision : string) : entry := {|
  en_command := "recordReviewDecision"; en_target_type := "review_decision"; en_reference := reference;
  en_prior := None; en_new := decision; en_event := "ReviewDecisionRecorded";
  en_aggregate := "verification_request" |}.

Lemma transition_tx_run name command input d r d' :
  closed d -> VerificationRepository.transition_tx name command input d = (Ok r, d') ->
  exists cid, committee_named (committeeReference (ti_context input)) d cid /\
  v_externalReference r = ti_requestReference input /\
  if v_replayed r then
    replays (tenantScope (ti_context input)) (Some cid) name (ti_context input)
      (ti_requestReference input) (v_state r) (v_version r) d d'
  else exists i q next,
    cd_request d !! i = Some q /\ vr_external_reference q = ti_requestReference input /\
    vr_committee_id q = cid /\ sameVersion (vr_version q) (ti_expectedVersion input) = true /\
    command (vr_state q) = Ok next /\ step (Command := Verification.command) (vr_state q) next /\
    v_state r = state_name next /\ v_version r = vr_version q + 1 /\
    commanded (tenantScope (ti_context input)) (Some cid) (ti_context input) []
      (request_entry name (ti_requestReference input) (Some (state_name (vr_state q))) (state_name next) name)
      (state_name next) (vr_version q + 1) d
      (with_request (<[i := request_moved next (db_clock (cd_base d)) q]>) d) d'.
Proof.
  intros Hcl. unfold VerificationRepository.transition_tx, VerificationRepository.beginIdempotency. intros Hrun.
  apply bindP_ok in Hrun as (cid & d0 & [-> Hnamed]%committeeId_run & Hrun).
  apply bindP_ok in Hrun as (idem & d1 & Hb & Hrun). exists cid. split; [exact Hnamed|].
  destruct (idem_replayed idem) eqn:Hrep.
  - apply bindP_ok in Hrun as (record & d2 & (-> & Href & _)%loadRecord_run & Hrun).
    unfold lift in Hrun. injection Hrun as Hrun <-.
    apply replayRecord_run in Hrun as (Hr & Hs & Hv & -> & ->). rewrite Href in *. split; [done|].
    by eapply begin_replays.
  - apply bindP_ok in Hrun as ([[[i q] p] cr] & d2 & (-> & Hq & Href & Hcm)%loadRow_run & Hrun).
    apply bindP_ok in Hrun as ([] & d3 & Hver & Hrun). unfold throwWhen, lift in Hver.
    injection Hver as Hver <-. apply throwIf_ok, negb_false_iff in Hver.
    apply bindP_ok in Hrun as (next & d3 & Hcmd & Hrun). unfold lift in Hcmd. injection Hcmd as Hcmd <-.
    apply bindP_ok in Hrun as (v & d4 & (-> & Hstep & ->)%updateRequest_run & Hrun).
    apply bindP_ok in Hrun as (h & d5 & Ha & Hrun). apply bindP_ok in Hrun as (u & d6 & He & Hrun).
    apply bindP_ok in Hrun as (u' & d7 & Hcomp & Hrun). injection Hrun as <- <-. simpl. split; [done|].
    pose proof (keeps_run _ _ _ _ _ (begin_keeps domain _ _ _ _ ltac:(done)) Hb) as Hdom.
    destruct (domain_parts _ _ Hdom) as (_ & Hreq & _ & _ & _ & _ & _ & _ & Hclock).
    exists i, q, next. rewrite <- Hreq, <- Hclock. split_and!; try done.
    eapply (commanded_run _ _ (request_entry _ _ _ _ _) [] _ d idem d1
              (with_request (<[i := request_moved next (db_clock (cd_base d1)) q]>)));
      [done|exact Hb|done|intros; by apply domain_with_request|done|done|done|done|exact Ha|exact He|exact Hcomp].
Qed.

(** *** createRequest *)

Lemma insertRequest_run i q d u d' :
  insertRequest i q d = (Ok u, d') ->
  cd_request d !! i = None /\
  (forall j x, cd_request d !! j = Some x -> vr_external_reference x <> vr_external_reference q) /\
  is_Some (db_committee (cd_base d) !! vr_committee_id q) /\
  is_Some (CoreDatabase.participant_reference d (vr_participant_id q)) /\
  d' = with_request (<[i := q]>) d.
Proof.
  unfold insertRequest. intros Hrun. inv_ok. unfold id in *.
  match goal with H : _ || has_row _ _ = false |- _ => apply orb_false_iff in H as [Hi Hr] end.
  match goal with H : _ || _ || _ = false |- _ => rewrite !orb_false_iff in H; destruct H as [[Hc Hp] _] end.
  split_and!; try done.
  - by apply is_null_true, negb_false_iff.
  - intros j y Hj He. rewrite has_row_false in Hr. specialize (Hr j y Hj). simpl in Hr. by rewrite He, String.eqb_refl in Hr.
  - by apply is_null_false.
  - by apply is_null_false.
Qed.

Lemma insertRequest_sound i q d :
  domain_ok d -> cd_request d !! i = None ->
  (forall j x, cd_request d !! j = Some x -> vr_external_reference x <> vr_external_reference q) ->
  is_Some (db_committee (cd_base d) !! vr_committee_id q) ->
  is_Some (CoreDatabase.participant_reference d (vr_participant_id q)) ->
  domain_ok (with_request (<[i := q]>) d) /\ domain_evolves d (with_request (<[i := q]>) d).
Proof.
  intros [R C P A V T D] Hi Href Hc Hp. split.
  - split; try done; simpl.
    + intros j k x y. rewrite !lookup_insert_Some. intros [[<- <-]|[? Hx]] [[<- <-]|[? Hy]] He; try done;
        [by destruct (Href k y)|by destruct (Href j x)|by apply (R j k x y)].
    + intros j x. rewrite lookup_insert_Some. intros [[<- <-]|[_ Hx]]; [done|by apply (C j)].
    + intros j x. rewrite lookup_insert_Some. intros [[<- <-]|[_ Hx]]; [done|by apply (P j)].
    + apply attestations_request; [done|]. intros q0 Hq0. congruence.
    + apply (decisions_requests d); [|done]. apply in_committee_insert. congruence.
  - split; [|done|reflexivity|reflexivity|done|by apply tables_kept]. simpl. by apply evolve_insert; [tc_solve|].
Qed.

Lemma idOrNew_run i d j d' :
  idOrNew i d = (Ok j, d') -> d' = d \/ (i = None /\ d' = core_ids (S (db_ids (cd_base d))) d).
Proof. destruct i; simpl; [intros [= _ <-]; by left|intros [_ ->]%newId_run; by right]. Qed.

Lemma createRequest_tx_run input d r d' :
  closed d -> createRequest_tx input d = (Ok r, d') ->
  exists cid, committee_named (committeeReference (cvr_context input)) d cid /\
  v_externalReference r = cvr_externalReference input /\
  if v_replayed r then
    replays (tenantScope (cvr_context input)) (Some cid) "createVerificationRequest" (cvr_context input)
      (cvr_externalReference input) (v_state r) (v_version r) d d'
  else loadRecord cid (cvr_externalReference input) false d' = (Ok r, d') /\ exists i q,
    cd_request d !! i = None /\
    (forall j x, cd_request d !! j = Some x -> vr_external_reference x <> vr_external_reference q) /\
    is_Some (db_committee (cd_base d) !! vr_committee_id q) /\
    is_Some (CoreDatabase.participant_reference d (vr_participant_id q)) /\
    vr_external_reference q = cvr_externalReference input /\ vr_committee_id q = cid /\
    vr_state q = Verification.requested /\ vr_version q = 1 /\
    commanded (tenantScope (cvr_context input)) (Some cid) (cvr_context input) []
      (request_entry "createVerificationRequest" (cvr_externalReference input) None "requested"
         "VerificationRequested")
      "requested" 1 d (with_request (<[i := q]>) d) d'.
Proof.
  intros Hcl. unfold createRequest_tx, VerificationRepository.beginIdempotency. intros Hrun.
  apply bindP_ok in Hrun as (cid & d0 & [-> Hnamed]%committeeId_run & Hrun).
  apply bindP_ok in Hrun as (idem & d1 & Hb & Hrun). exists cid. split; [exact Hnamed|].
  destruct (idem_replayed idem) eqn:Hrep.
  - apply bindP_ok in Hrun as (record & d2 & (-> & Href & _)%loadRecord_run & Hrun).
    unfold lift in Hrun. injection Hrun as Hrun <-.
    apply replayRecord_run in Hrun as (Hr & Hs & Hv & -> & ->). rewrite Href in *. split; [done|].
    by eapply begin_replays.
  - apply bindP_ok in Hrun as (pid & d2 & [= <- <-] & Hrun).
    destruct (ad_participant _ !! _) as [pid|]; [|done].
    apply bindP_ok in Hrun as (i & d2 & Hi & Hrun). apply bindP_ok in Hrun as (now & d3 & [= <- <-] & Hrun).
    apply bindP_ok in Hrun as (u & d3 & (Hnone & Huniq & Hcm & Hp & ->)%insertRequest_run & Hrun).
    apply bindP_ok in Hrun as (h & d4 & Ha & Hrun). apply bindP_ok in Hrun as (u1 & d5 & He & Hrun).
    apply bindP_ok in Hrun as (u2 & d6 & Hcomp & Hload).
    destruct (loadRecord_run _ _ _ _ _ _ Hload) as (-> & Href & Hrd & _). rewrite Hrd. split; [done|].
    split; [exact Hload|].
    pose proof (keeps_run _ _ _ _ _ (begin_keeps domain _ _ _ _ ltac:(done)) Hb) as Hdom.
    assert (Hd2 : domain d2 = domain d1 /\ cd_idempotency d2 = cd_idempotency d1 /\ log d2 = log d1).
    { destruct (idOrNew_run _ _ _ _ Hi) as [->|[_ ->]]; [done|]. split_and!; apply blind. }
    destruct Hd2 as (Hd2 & Hl2 & Hlog2).
    destruct (domain_parts d d2 ltac:(congruence)) as (_ & Hreq & _ & _ & _ & _ & Hpart & Hcom & _).
    unfold CoreDatabase.participant_reference in Hp. rewrite Hreq, Hcom, Hpart in *.
    eexists i, _. split; [exact Hnone|]. split; [exact Huniq|]. split; [exact Hcm|]. split; [exact Hp|].
    split_and!; try done.
    eapply (commanded_run _ _ (request_entry _ _ _ _ _) [] _ d idem d1 (with_request (<[i := _]>)));
      [done|exact Hb|done|intros; by apply domain_with_request|by apply domain_with_request|done|done|done
      |exact Ha|exact He|exact Hcomp].
Qed.

(** *** recordReviewDecision *)

(** What the unique and foreign keys of "review_decision" ask of a new row. *)
Record decision_fits (d : CoreDb) (i : string) (r : ReviewDecisionRow) : Prop := {
  df_new : cd_decision d !! i = None;
  df_reference j x : cd_decision d !! j = Some x -> rd_external_reference x <> rd_external_reference r;
  df_once j x : cd_decision d !! j = Some x ->
    ~ (rd_request_id x = rd_request_id r /\ rd_reviewer_member_id x = rd_reviewer_member_id r);
  df_request : exists q, cd_request d !! rd_request_id r = Some q /\ vr_committee_id q = rd_committee_id r;
  df_member : exists m, committee_members d !! rd_reviewer_member_id r = Some m /\
    cm_committee_id m = rd_committee_id r;
  df_policy : rd_policy_version_id r ∈ policies d;
}.

Lemma decision_fits_same d d' i r : domain d' = domain d -> decision_fits d' i r -> decision_fits d i r.
Proof.
  intros Hd. pose proof (domain_committee _ _ Hd) as Hc. destruct (domain_parts _ _ Hd) as (_ & Hq & Hdec & _).
  intros [N F O Q M P]. unfold committee_members, policies in *. rewrite Hq, Hdec, Hc in *. by split.
Qed.

Lemma insertDecision_run i r d u d' :
  insertDecision i r d = (Ok u, d') -> decision_fits d i r /\ d' = with_decision (<[i := r]>) d.
Proof.
  unfold insertDecision. intros Hrun. inv_ok. unfold id in *.
  match goal with H : _ || has_row _ _ = false |- _ => apply orb_false_iff in H as [Hi Hr] end.
  match goal with H : _ || _ || _ = false |- _ => rewrite !orb_false_iff, !negb_false_iff in H; destruct H as [[Hq Hm] Hp] end.
  rewrite has_row_false in Hr. split; [|done]. split.
  - by apply is_null_true, negb_false_iff.
  - intros j y Hj E. specialize (Hr j y Hj). simpl in Hr. by rewrite E, String.eqb_refl in Hr.
  - intros j y Hj [E1 E2]. specialize (Hr j y Hj). simpl in Hr. by rewrite E1, E2, !String.eqb_refl, orb_true_r in Hr.
  - destruct (cd_request _ !! _) as [q|]; [|done]. exists q. split; [done|]. by apply String.eqb_eq.
  - destruct (committee_members _ !! _) as [m|]; [|done]. exists m. split; [done|]. by apply String.eqb_eq.
  - unfold policy_exists in Hp. by apply bool_decide_eq_true in Hp.
Qed.

Lemma recordReviewDecision_tx_run input d replayed d' :
  closed d -> recordReviewDecision_tx input d = (Ok replayed, d') ->
  exists cid, committee_named (committeeReference (rrd_context input)) d cid /\
  if replayed then exists ref st v,
    replays (tenantScope (rrd_context input)) (Some cid) "recordReviewDecision" (rrd_context input) ref st v d d'
  else exists i q memberId m k row,
    cd_request d !! i = Some q /\ vr_external_reference q = rrd_requestReference input /\
    vr_committee_id q = cid /\ vr_state q = Verification.under_review /\
    committee_members d !! memberId = Some m /\
    activeMember (rrd_reviewerMemberReference input) cid m = true /\
    (forall x, x ∈ conflict_declarations d ->
       unresolvedConflict memberId cid (rrd_requestReference input) x = false) /\
    decision_fits d k row /\
    rd_request_id row = i /\ rd_reviewer_member_id row = memberId /\ rd_committee_id row = cid /\
    rd_state row = rrd_decision input /\
    commanded (tenantScope (rrd_context input)) (Some cid) (rrd_context input) []
      (decision_entry (rrd_externalReference input) (state_name (rrd_decision input)))
      (state_name (rrd_decision input)) 1 d (with_decision (<[k := row]>) d) d'.
Proof.
  intros Hcl. unfold recordReviewDecision_tx, VerificationRepository.beginIdempotency. intros Hrun.
  apply bindP_ok in Hrun as (cid & d0 & [-> Hnamed]%committeeId_run & Hrun).
  apply bindP_ok in Hrun as (idem & d1 & Hb & Hrun). exists cid. split; [exact Hnamed|].
  destruct (idem_replayed idem) eqn:Hrep.
  - injection Hrun as <- <-. pose proof Hb as Hb'.
    apply begin_run in Hb' as [(_ & _ & row & _ & Hrp & ->)|[Hf _]]; [|congruence].
    unfold replayable in Hrp. rewrite !andb_true_iff in Hrp. destruct Hrp as [[[_ Href] Hst] Hv].
    destruct (ir_result_reference row) eqn:E1; [|done].
    destruct (ir_result_state row) eqn:E2; [|done]. destruct (ir_result_version row) eqn:E3; [|done].
    do 3 eexists. eapply begin_replays; [exact Hb|reflexivity..].
  - apply bindP_ok in Hrun as ([[[i q] p] cr] & d2 & (-> & Hq & Href & Hcm)%loadRow_run & Hrun).
    apply bindP_ok in Hrun as ([] & d3 & Hver & Hrun). unfold throwWhen, lift in Hver.
    injection Hver as Hver <-. apply throwIf_ok, negb_false_iff, bool_decide_eq_true in Hver.
    apply bindP_ok in Hrun as (member & d3 & [= <- <-] & Hrun).
    destruct (select_row _ _) as [[memberId m]|] eqn:Hm; [|done]. apply select_row_some in Hm as [Hm Hact].
    apply bindP_ok in Hrun as (conflicts & d3 & [= <- <-] & Hrun).
    apply bindP_ok in Hrun as ([] & d3 & Hcf & Hrun). unfold throwWhen, lift in Hcf.
    injection Hcf as Hcf <-. apply throwIf_ok in Hcf.
    apply bindP_ok in Hrun as (k & d2 & Hi & Hrun). apply bindP_ok in Hrun as (now & d3 & [= <- <-] & Hrun).
    apply bindP_ok in Hrun as (u & d3 & (Hfits & ->)%insertDecision_run & Hrun).
    apply bindP_ok in Hrun as (h & d4 & Ha & Hrun). apply bindP_ok in Hrun as (u1 & d5 & He & Hrun).
    apply bindP_ok in Hrun as (u2 & d6 & Hcomp & Hrun). injection Hrun as <- <-.
    pose proof (keeps_run _ _ _ _ _ (begin_keeps domain _ _ _ _ ltac:(done)) Hb) as Hdom.
    assert (Hd2 : domain d2 = domain d1 /\ cd_idempotency d2 = cd_idempotency d1 /\ log d2 = log d1).
    { destruct (idOrNew_run _ _ _ _ Hi) as [->|[_ ->]]; [done|]. split_and!; apply blind. }
    destruct Hd2 as (Hd2 & Hl2 & Hlog2).
    destruct (domain_parts d d1 Hdom) as (_ & Hreq & _). destruct (domain_members d d1 Hdom) as [Hmem Hcon].
    apply (decision_fits_same d d2) in Hfits; [|congruence].
    rewrite Hmem, Hcon, Hreq in *.
    match type of Ha with context [with_decision (insert k ?row) _] => exists i, q, memberId, m, k, row end.
    split_and!; try done.
    + intros x Hx. apply not_true_iff_false. intros Hu. apply not_true_iff_false in Hcf. apply Hcf, some_true. eauto.
    + eapply (commanded_run _ _ (decision_entry _ _) [] _ d idem d1 (with_decision (<[k := _]>)));
        [done|exact Hb|done|intros; by apply domain_with_decision|by apply domain_with_decision|done|done|done
        |exact Ha|exact He|exact Hcomp].
Qed.

Lemma decision_sound i r d :
  domain_ok d -> decision_fits d i r ->
  domain_ok (with_decision (<[i := r]>) d) /\ domain_evolves d (with_decision (<[i := r]>) d).
Proof.
  intros [R C P A V T [DR DO DQ DM DP]] [N F O Q M Po]. split.
  - split; try done. split; simpl.
    + intros j k x y. rewrite !lookup_insert_Some. intros [[<- <-]|[? Hx]] [[<- <-]|[? Hy]] He; try done;
        [by destruct (F k y)|by destruct (F j x)|by apply (DR j k x y)].
    + intros j k x y. rewrite !lookup_insert_Some. intros [[<- <-]|[? Hx]] [[<- <-]|[? Hy]] He He'; try done;
        [by destruct (O k y)|by destruct (O j x)|by apply (DO j k x y)].
    + intros j x. rewrite lookup_insert_Some. intros [[<- <-]|[_ Hx]]; [done|by apply (DQ j)].
    + intros j x. rewrite lookup_insert_Some. intros [[<- <-]|[_ Hx]]; [done|by apply (DM j)].
    + intros j x. rewrite lookup_insert_Some. intros [[<- <-]|[_ Hx]]; [done|by apply (DP j)].
  - split; [reflexivity| |reflexivity|reflexivity|done|by apply tables_kept]. by apply insert_subseteq.
Qed.
End commands.
