(* ===== verification/AttestationEffects.v ===== *)
(** * AttestationEffects: what the commands of AttestationRepository do.

    Issuing adds an attestation to a chain of renewals; activation, expiry
    and revocation move an attestation together with its status and its
    request, and activation ends the predecessor.  Each keeps the invariant
    of the tables. *)
From stdpp Require Import relations.
From S2P Require Import Prelude Errors Transition Lifecycles Guards Text Attestation Json Database AuthDatabase.
From S2P Require Import AuthInvariant CoreDatabase Idempotency VerificationRepository AttestationRepository.
From S2P Require Import CoreEffects AttestationInvariant CoreInvariant RequestEffects.
Import Verification(VerificationState).
Local Open Scope Z_scope.

(** ** Moving an attestation *)

Definition status_moved (st : attestation_state) (t : Z) (s : AttestationStatusRow) : AttestationStatusRow := {|
  st_committee_id := st_committee_id s; st_state := st; st_effective_at := t; st_version := st_version s + 1 |}.

(** The three updates of [updateAttestationAndRequest]. *)
Definition move_attestation (a : AttestationTableRow) (q : VerificationRequestRow) (s : AttestationStatusRow)
    (st : attestation_state) (complete : bool) (t now : Z) (d : CoreDb) : CoreDb :=
  with_request (<[a_request_id a := request_moved (request_state_of st) now q]>)
    (with_status (<[a_id a := status_moved st t s]>)
      (with_attestation (<[a_id a := attestation_moved st complete a]>) d)).

(** The rows an attestation is read with. *)
Record attestation_rows (d : CoreDb) (a : AttestationTableRow) (q : VerificationRequestRow)
    (s : AttestationStatusRow) : Prop := {
  ar_row : cd_attestation d !! a_id a = Some a;
  ar_request : cd_request d !! a_request_id a = Some q;
  ar_status : cd_status d !! a_id a = Some s;
}.

Definition loaded (d : CoreDb) (cid reference : string) (r : AttestationRow) (q : VerificationRequestRow)
    (s : AttestationStatusRow) : Prop :=
  attestation_rows d (row r) q s /\ a_committee_id (row r) = cid /\ a_external_reference (row r) = reference /\
  request_state r = vr_state q /\ request_version r = vr_version q /\ status_version r = st_version s.

Definition names_attestation (cid reference : string) (a : AttestationTableRow) : bool :=
  String.eqb (a_committee_id a) cid && String.eqb (a_external_reference a) reference.

Lemma names_attestation_true cid reference a :
  names_attestation cid reference a = true <-> a_committee_id a = cid /\ a_external_reference a = reference.
Proof. unfold names_attestation. by rewrite andb_true_iff, !String.eqb_eq. Qed.

Section reads.
Context `{Platform}.

Lemma attestation_row_run pending cid reference d r d' :
  domain_ok_at pending d -> AttestationRepository.loadRow cid reference d = (Ok r, d') ->
  d' = d /\ exists q s, loaded d cid reference r q s.
Proof.
  intros Hok. unfold AttestationRepository.loadRow. intros Hrun.
  apply bindP_ok in Hrun as (x & d1 & [= <- <-] & Hrun).
  change (fun a => _ && _) with (names_attestation cid reference) in Hrun. unfold id in Hrun.
  destruct (select_row _ _) as [[i a]|] eqn:Hs; [|done].
  apply select_row_some in Hs as [Hi [Hc Href]%names_attestation_true].
  destruct (_ <$> _); [|done]. destruct (CoreDatabase.participant_reference _ _); [|done].
  destruct (cd_request d !! _) as [q|] eqn:Hq; [|done]. destruct (cd_status d !! _) as [sr|] eqn:Hst; [|done].
  injection Hrun as <- <-. split; [done|]. pose proof (ao_key _ _ _ _ (ok_attestations d Hok) i a Hi) as <-.
  exists q, sr. by split_and!; [split|..].
Qed.

(** With the tables well-formed, the read finds the row. *)
Lemma attestation_row_found pending d a cid reference :
  domain_ok_at pending d -> cd_attestation d !! a_id a = Some a -> a_committee_id a = cid ->
  a_external_reference a = reference ->
  exists r q s, AttestationRepository.loadRow cid reference d = (Ok r, d) /\ row r = a /\
    loaded d cid reference r q s.
Proof.
  intros Hok Ha Hc Href. unfold AttestationRepository.loadRow, bindP, gets, id.
  change (fun a => _ && _) with (names_attestation cid reference).
  rewrite (select_row_found _ _ (a_id a) a Ha).
  - destruct (ao_request _ _ _ _ (ok_attestations d Hok) _ a Ha) as (q & Hq & Hqc & Hqp & _).
    destruct (ao_status _ _ _ _ (ok_attestations d Hok) _ a Ha) as (s & Hs & _).
    destruct (ok_committees d Hok _ q Hq) as [c Hcm]. destruct (ok_participants d Hok _ q Hq) as [p Hp].
    rewrite Hqc in Hcm. rewrite Hqp in Hp. rewrite Hcm, Hp, Hq, Hs. simpl.
    eexists _, q, s. split; [reflexivity|]. split; [done|]. by split; [split|].
  - by apply names_attestation_true.
  - intros j x Hx [_ He]%names_attestation_true.
    apply (ao_reference _ _ _ _ (ok_attestations d Hok) j (a_id a) x a Hx Ha). congruence.
Qed.

Lemma attestation_row_by_id pending i cid d r d' :
  domain_ok_at pending d -> loadRowById i cid d = (Ok r, d') ->
  d' = d /\ a_id (row r) = i /\ exists q s, loaded d cid (a_external_reference (row r)) r q s.
Proof.
  intros Hok. unfold loadRowById. intros Hrun. apply bindP_ok in Hrun as (x & d1 & [= <- <-] & Hrun).
  destruct (cd_attestation d !! i) as [a|] eqn:Ha; [|done]. destruct (String.eqb _ _) eqn:Hc; [|done].
  apply (attestation_row_run pending) in Hrun as (-> & q & s & Hl); [|done]. split; [done|].
  pose proof Hl as (Hrows & _ & Href & _).
  assert (a_id (row r) = i) as <-.
  { apply (ao_reference _ _ _ _ (ok_attestations d Hok) _ i _ a (ar_row _ _ _ _ Hrows) Ha Href). }
  split; [done|]. exists q, s. by rewrite Href.
Qed.

Lemma load_run pending cid reference replayed d r d' :
  domain_ok_at pending d -> load cid reference replayed d = (Ok r, d') ->
  d' = d /\ r_externalReference r = reference /\ r_replayed r = replayed /\
  exists a s, cd_attestation d !! a_id a = Some a /\ a_external_reference a = reference /\
    cd_status d !! a_id a = Some s /\
    r_state r = state_name (a_state a) /\ r_statusVersion r = st_version s /\ r_version r = a_version a.
Proof.
  intros Hok. unfold load. intros Hrun. apply bindP_ok in Hrun as (x & d1 & Hl & [= <- <-]).
  apply (attestation_row_run pending) in Hl as (-> & q & s & [Hr1 Hr2 Hr3] & _ & Href & _ & _ & Hv); [|done].
  simpl. split_and!; try done. by exists (row x), s.
Qed.
End reads.

(** ** The three updates *)

Lemma updateAttestation_run i st complete d u d' a :
  cd_attestation d !! i = Some a -> updateAttestation i st complete d = (Ok u, d') ->
  attestation_table (a_state a) st = true /\ d' = with_attestation (<[i := attestation_moved st complete a]>) d.
Proof.
  intros Ha. unfold updateAttestation. intros Hrun. apply bindP_ok in Hrun as (x & d1 & [= <- <-] & Hrun).
  unfold id in Hrun. rewrite Ha in Hrun. apply bindP_ok in Hrun as (u' & d1 & Hg & [= _ <-]).
  unfold lift in Hg. injection Hg as Hg <-. by apply guarded_update_ok in Hg as [_ Hg].
Qed.

Lemma updateStatus_run i st t d u d' s :
  cd_status d !! i = Some s -> updateStatus i st t d = (Ok u, d') ->
  d' = with_status (<[i := status_moved st t s]>) d.
Proof.
  intros Hs. unfold updateStatus. intros Hrun. apply bindP_ok in Hrun as (x & d1 & [= <- <-] & Hrun).
  unfold id in Hrun. rewrite Hs in Hrun. apply bindP_ok in Hrun as (v & d1 & Hi & Hrun).
  unfold lift in Hi. injection Hi as Hi <-.
  assert (v = st_version s + 1) as -> by (unfold int4 in Hi; inv_ok; done).
  apply bindP_ok in Hrun as (u' & d1 & Ht & [= _ <-]). unfold throwWhen, lift in Ht. by injection Ht as _ <-.
Qed.

Lemma bindTimestamp_ok t x : bindTimestamp t = Ok x <-> t = Some x.
Proof. destruct t; simpl; naive_solver. Qed.

Lemma updateAttestationAndRequest_run cid reference r q s st eff complete d u d' :
  loaded d cid reference r q s -> updateAttestationAndRequest r st eff complete d = (Ok u, d') ->
  exists t, eff = Some t /\ attestation_table (a_state (row r)) st = true /\
    step (Command := Verification.command) (vr_state q) (request_state_of st) /\
    d' = move_attestation (row r) q s st complete t (db_clock (cd_base d)) d.
Proof.
  intros ([Hr Hq Hs] & _ & _ & _ & Hv & _). unfold updateAttestationAndRequest. intros Hrun.
  apply bindP_ok in Hrun as (u1 & d1 & Hua & Hrun).
  apply (updateAttestation_run _ _ _ _ _ _ _ Hr) in Hua as [Htab ->].
  apply bindP_ok in Hrun as (t & d1 & Ht & Hrun). unfold lift in Ht. injection Ht as Ht%bindTimestamp_ok <-.
  apply bindP_ok in Hrun as (u2 & d1 & Hus & Hrun). apply (updateStatus_run _ _ _ _ _ _ s) in Hus as ->; [|done].
  unfold updateRequestAt in Hrun. apply bindP_ok in Hrun as (x & d1 & [= <- <-] & Hrun).
  simpl in Hrun. rewrite Hq, Hv, Z.eqb_refl in Hrun.
  apply bindP_ok in Hrun as (v & d1 & (_ & Hstep & ->)%updateRequest_run & [= _ <-]).
  by exists t.
Qed.

Lemma updateAttestationAndRequest_keeps {V} (view : CoreDb -> V) r st eff complete :
  (forall f d, view (with_request f d) = view d) -> (forall f d, view (with_status f d) = view d) ->
  (forall f d, view (with_attestation f d) = view d) ->
  keeps view (updateAttestationAndRequest r st eff complete).
Proof.
  intros Hq Hs Ha. unfold updateAttestationAndRequest, updateAttestation, updateStatus, updateRequestAt.
  keeps_steps.
Qed.

Lemma domain_move a q s st complete t now d d' : domain d' = domain d ->
  domain (move_attestation a q s st complete t now d') = domain (move_attestation a q s st complete t now d).
Proof. destruct d as [[[]]], d' as [[[]]]. unfold domain. simpl. intros [=]. by subst. Qed.

(** ** Moving keeps the invariant *)

Lemma attestation_table_cases s s' : attestation_table s s' = true -> s <> s' ->
  (s = st_issued /\ s' = st_active) \/ (s = st_active /\ s' <> st_issued).
Proof. destruct s, s'; vm_compute; naive_solver. Qed.

Lemma request_state_of_inj s s' : request_state_of s = request_state_of s' -> s = s'.
Proof. destruct s, s'; simpl; congruence. Qed.

Section move.
Context {pending pending' : option string} (d : CoreDb) (a : AttestationTableRow) (q : VerificationRequestRow).
Context (s : AttestationStatusRow) (st : attestation_state) (complete : bool) (t now : Z).
Hypothesis Hok : domain_ok_at pending d.
Hypothesis Hrows : attestation_rows d a q s.
Hypothesis Htable : attestation_table (a_state a) st = true.
Hypothesis Hmoves : a_state a <> st.
Hypothesis Hstep : step (Command := Verification.command) (vr_state q) (request_state_of st).
Hypothesis Hcomplete : complete = true \/ a_state a <> st_issued.
Hypothesis Hend : st = st_superseded \/ pending = None.
Hypothesis Hfirst : a_state a = st_issued -> a_supersedes_id a = None \/ pending' = Some (a_id a).
Hypothesis Hpending : forall j b p, pending = Some j -> cd_attestation d !! j = Some b -> a_supersedes_id b = Some p ->
  pending' = Some j \/ (p = a_id a /\ st = st_superseded).
Context (f : gmap string AttestationRevocationRow -> gmap string AttestationRevocationRow).
Let d0 := with_revocation f d.
Let d' := move_attestation a q s st complete t now d0.
Hypothesis Hrevoked : revocations_ok d'.
Hypothesis Hgrows : cd_revocation d ⊆ f (cd_revocation d).

Lemma move_sound : domain_ok_at pending' d' /\ domain_evolves d d'.
Proof using All.
  destruct Hok as [R C P A V T D]. destruct Hrows as [Ha Hq Hs].
  assert (Hcases := attestation_table_cases _ _ Htable Hmoves). split.
  - split; [| | | |exact Hrevoked|exact T|]; simpl.
    + intros j k x y. rewrite !lookup_insert_Some. intros [[<- <-]|[? Hx]] [[<- <-]|[? Hy]] He; try done;
        [by apply (R (a_request_id a) k q y)|by apply (R j (a_request_id a) x q)|by apply (R j k x y)].
    + intros j x. rewrite lookup_insert_Some. intros [[<- <-]|[_ Hx]]; [by apply (C (a_request_id a) q)|by apply (C j)].
    + intros j x. rewrite lookup_insert_Some. intros [[<- <-]|[_ Hx]]; [by apply (P (a_request_id a) q)|by apply (P j)].
    + apply (attestations_move A (a_id a) a q (status_moved st t s) st complete now Ha Hq eq_refl); try done.
      * destruct Hcases as [[_ ->]|[_ ?]]; done.
      * destruct Hcases as [[? _]|[? _]]; auto.
    + apply (decisions_requests d); [|done]. apply in_committee_insert. intros x Hx. simpl in Hx. by simplify_eq.
  - split; [| |simpl| |exact Hgrows|by apply tables_kept]; [|done| |]; simpl.
    + intros j x Hx. destruct (decide (j = a_request_id a)) as [->|Hj].
      * simplify_eq. eexists. rewrite lookup_insert_eq. split; [done|]. split; [done|]. by apply counted_once.
      * exists x. rewrite lookup_insert_ne by done. split; [done|reflexivity].
    + intros j x Hx. destruct (decide (j = a_id a)) as [->|Hj].
      * simplify_eq. eexists. rewrite lookup_insert_eq. split; [done|]. split; [done|]. by apply rtc_once.
      * exists x. rewrite lookup_insert_ne by done. split; [done|reflexivity].
    + intros j x Hx. destruct (decide (j = a_id a)) as [->|Hj].
      * simplify_eq. eexists. rewrite lookup_insert_eq. split; [done|]. split_and!; simpl; [done|lia|lia].
      * exists x. rewrite lookup_insert_ne by done. split; [done|reflexivity].
Qed.
End move.

(** Moving to a state that is not [revoked] leaves the revocations right. *)
Lemma move_revocations d a q s st complete t now :
  revocations_ok d -> cd_attestation d !! a_id a = Some a -> a_state a <> st_revoked -> st <> st_revoked ->
  revocations_ok (move_attestation a q s st complete t now (with_revocation id d)).
Proof.
  intros (H1 & H2 & H3) Ha Hns Hst. split; [|split; [|exact H3]]; simpl; unfold id.
  - intros k r Hk. destruct (H1 k r Hk) as (b & Hb & Hbs). exists b. rewrite lookup_insert_ne; [done|].
    intros He. rewrite <- He in Hb. congruence.
  - intros i b. rewrite lookup_insert_Some. intros [[<- <-]|[_ Hb]]; simpl; [congruence|by apply H2].
Qed.

Lemma with_revocation_id d : with_revocation id d = d.
Proof. by destruct d. Qed.

(** ** Whole commands *)

Lemma insertAttestation_run a d u d' :
  insertAttestation a d = (Ok u, d') ->
  cd_attestation d !! a_id a = None /\ a_id a <> "" /\ renewal_valid d a = true /\ attestation_checks a = true /\
  (forall i b, cd_attestation d !! i = Some b -> attestation_collides b a = false) /\
  d' = with_attestation (<[a_id a := a]>) d.
Proof.
  unfold insertAttestation. intros Hrun. apply bindP_ok in Hrun as (x & d1 & [= <- <-] & Hrun).
  apply bindP_ok in Hrun as ([] & d1 & Hid & Hrun). unfold throwWhen, lift in Hid. injection Hid as Hid <-.
  apply bindP_ok in Hrun as (v & d1 & Hv & Hrun). unfold lift in Hv. injection Hv as Hv <-.
  apply bindP_ok in Hrun as ([] & d1 & Hren & Hrun). unfold throwWhen, lift in Hren. injection Hren as Hren <-.
  apply bindP_ok in Hrun as ([] & d1 & Hck & Hrun). unfold throwWhen, lift in Hck. injection Hck as Hck <-.
  apply bindP_ok in Hrun as ([] & d1 & Huq & Hrun). unfold throwWhen, lift in Huq. injection Huq as Huq <-.
  apply bindP_ok in Hrun as ([] & d1 & Hfk & [= _ <-]). unfold throwWhen, lift in Hfk. injection Hfk as Hfk <-.
  apply throwIf_ok in Hid, Hren, Hck, Huq. apply negb_false_iff in Hren, Hck.
  apply orb_false_iff in Huq as [Hnew Huq]. apply negb_false_iff, is_null_true in Hnew. unfold id in *.
  split_and!; try done; [|by apply has_row_false]. intros He. by rewrite He in Hid.
Qed.

Lemma insertStatus_run i s d u d' :
  insertStatus i s d = (Ok u, d') -> cd_status d !! i = None /\ d' = with_status (<[i := s]>) d.
Proof.
  unfold insertStatus. intros Hrun. inv_ok. unfold id in *. split; [|done]. apply is_null_true.
  match goal with H : negb (is_null _) = false |- _ => by apply negb_false_iff in H end.
Qed.

Lemma insertRevocation_run i r d u d' :
  insertRevocation i r d = (Ok u, d') ->
  cd_revocation d !! i = None /\
  (forall j x, cd_revocation d !! j = Some x -> rv_attestation x <> rv_attestation r) /\
  d' = with_revocation (<[i := r]>) d.
Proof.
  unfold insertRevocation. intros Hrun. inv_ok. unfold id in *.
  match goal with H : _ || has_row _ _ = false |- _ => apply orb_false_iff in H as [Hi Hr] end.
  split_and!; [by apply is_null_true, negb_false_iff| |done].
  intros j y Hj He. rewrite has_row_false in Hr. specialize (Hr j y Hj). simpl in Hr. by rewrite He, String.eqb_refl in Hr.
Qed.

(** A request moves with its attestation in four ways. *)
Lemma attestation_step_cases s s' :
  step (Command := Verification.command) (request_state_of s) (request_state_of s') ->
  (s = st_issued /\ s' = st_active) \/
  (s = st_active /\ (s' = st_expired \/ s' = st_revoked \/ s' = st_superseded)).
Proof. intros Hs%stepb_spec. destruct s, s'; vm_compute in Hs; naive_solver. Qed.

Section moves.
Context (d : CoreDb) (a : AttestationTableRow) (q : VerificationRequestRow) (s : AttestationStatusRow) (t now : Z).
Hypothesis Hok : domain_ok d.
Hypothesis Hrows : attestation_rows d a q s.

Lemma attested_together : vr_state q = request_state_of (a_state a).
Proof using Hok Hrows.
  destruct Hrows as [Ha Hq _]. destruct (ao_request _ _ _ _ (ok_attestations d Hok) _ a Ha) as (q' & Hq' & _ & _ & Hs).
  congruence.
Qed.

(** Expiry, and the activation of a first attestation. *)
Lemma move_alone st complete : step (Command := Verification.command) (vr_state q) (request_state_of st) ->
  complete = true \/ a_state a = st_active -> a_state a = st_active \/ a_supersedes_id a = None ->
  st <> st_revoked ->
  let d' := move_attestation a q s st complete t now d in domain_ok d' /\ domain_evolves d d'.
Proof using Hok Hrows.
  rewrite attested_together. intros Hstep Hc Hs Hne d'. assert (Hcases := attestation_step_cases _ _ Hstep).
  subst d'. rewrite <- (with_revocation_id d) at 1 3. rewrite <- attested_together in Hstep.
  apply (move_sound (pending := None)); try done.
  - destruct Hcases as [[-> ->]|[-> [->|[->| ->]]]]; done.
  - destruct Hcases as [[-> ->]|[-> [->|[->| ->]]]]; done.
  - destruct Hc as [Hc|Hc]; [by left|right; by rewrite Hc].
  - by right.
  - intros Hi. destruct Hs as [|]; [congruence|by left].
  - apply move_revocations; [exact (ok_revocations d Hok)|apply Hrows| |done].
    destruct Hcases as [[-> _]|[-> _]]; done.
Qed.

(** The activation of a renewal, halfway. *)
Lemma activate_sound : a_state a = st_issued ->
  let d' := move_attestation a q s st_active true t now d in
  domain_ok_at (Some (a_id a)) d' /\ domain_evolves d d'.
Proof using Hok Hrows.
  intros Hs d'. subst d'. rewrite <- (with_revocation_id d) at 1 3.
  apply (move_sound (pending := None)); try done.
  - by rewrite Hs.
  - by rewrite Hs.
  - rewrite attested_together, Hs. by apply stepb_spec.
  - by left.
  - by right.
  - by right.
  - apply move_revocations; [exact (ok_revocations d Hok)|apply Hrows|by rewrite Hs|done].
Qed.

(** Its end: the predecessor is superseded. *)
Lemma supersede_sound pending b qb sb tb nowb : a_state b = st_active -> domain_ok_at (Some pending) d ->
  attestation_rows d b qb sb -> (forall x, cd_attestation d !! pending = Some x -> a_supersedes_id x = Some (a_id b)) ->
  let d' := move_attestation b qb sb st_superseded false tb nowb d in domain_ok d' /\ domain_evolves d d'.
Proof using.
  clear Hok Hrows. intros Hs Hok Hrows Hsup d'. subst d'. rewrite <- (with_revocation_id d) at 1 3.
  apply (move_sound (pending := Some pending)); try done.
  - by rewrite Hs.
  - by rewrite Hs.
  - destruct (ao_request _ _ _ _ (ok_attestations d Hok) _ b (ar_row _ _ _ _ Hrows)) as (q' & Hq' & _ & _ & Hq).
    rewrite (ar_request _ _ _ _ Hrows) in Hq'. injection Hq' as <-. rewrite Hq, Hs. by apply stepb_spec.
  - right. congruence.
  - by left.
  - congruence.
  - intros j x p [= <-] Hx Hp. rewrite (Hsup x Hx) in Hp. injection Hp as <-. by right.
  - apply move_revocations; [exact (ok_revocations d Hok)|apply Hrows|by rewrite Hs|done].
Qed.

(** Revocation *)
Lemma revocation_sound i r : a_state a = st_active -> rv_attestation r = a_id a -> cd_revocation d !! i = None ->
  (forall j x, cd_revocation d !! j = Some x -> rv_attestation x <> a_id a) ->
  let d' := move_attestation a q s st_revoked false t now (with_revocation (<[i := r]>) d) in
  domain_ok d' /\ domain_evolves d d'.
Proof using Hok Hrows.
  intros Hs Hr Hi Hfree d'. subst d'. apply (move_sound (pending := None)); try done.
  - by rewrite Hs.
  - by rewrite Hs.
  - rewrite attested_together, Hs. by apply stepb_spec.
  - right. congruence.
  - by right.
  - congruence.
  - destruct (ok_revocations d Hok) as (V1 & V2 & V3). split; [|split]; simpl.
    + intros k x. rewrite lookup_insert_Some. intros [[<- <-]|[_ Hk]].
      * rewrite Hr. eexists. by rewrite lookup_insert_eq.
      * destruct (V1 k x Hk) as (b & Hb & Hbs). exists b. rewrite lookup_insert_ne; [done|].
        intros He. by apply (Hfree k x).
    + intros j b. rewrite lookup_insert_Some. intros [[<- <-]|[_ Hb]] Hbs.
      * exists i, r. by rewrite lookup_insert_eq.
      * destruct (V2 j b Hb Hbs) as (k & x & Hk & Hx). exists k, x. rewrite lookup_insert_ne by congruence. done.
    + intros j k x y. rewrite !lookup_insert_Some. intros [[<- <-]|[? Hx]] [[<- <-]|[? Hy]] He; try done;
        [destruct (Hfree k y Hy)|destruct (Hfree j x Hx)|by apply (V3 j k x y)]; congruence.
  - by apply insert_subseteq.
Qed.
End moves.

Section commands.
Context `{Platform}.

Lemma load_quiet cid reference replayed d r d' :
  load cid reference replayed d = (Ok r, d') ->
  d' = d /\ r_externalReference r = reference /\ r_replayed r = replayed.
Proof.
  unfold load, AttestationRepository.loadRow. intros Hrun. apply bindP_ok in Hrun as (x & d1 & Hl & [= <- <-]).
  apply bindP_ok in Hl as (y & d2 & [= <- <-] & Hl). unfold id in Hl.
  change (fun a => _ && _) with (names_attestation cid reference) in Hl.
  destruct (select_row _ _) as [[i a]|] eqn:Hs; [|done].
  apply select_row_some in Hs as [_ [_ Href]%names_attestation_true].
  repeat case_match; try done. by injection Hl as <- <-.
Qed.

(** The replay branch, the same in every command. *)
Lemma attestation_replay_run cid name ctx reference idem d d1 r d' :
  AttestationRepository.beginIdempotency cid name ctx d = (Ok idem, d1) -> idem_replayed idem = true ->
  (let* record := load cid reference true in lift (AttestationRepository.replayRecord record idem)) d1 = (Ok r, d') ->
  r_externalReference r = reference /\ r_replayed r = true /\
  replays (tenantScope ctx) (Some cid) name ctx reference (r_state r) (r_statusVersion r) d d'.
Proof.
  intros Hb Hrep Hrun. apply bindP_ok in Hrun as (record & d2 & (-> & Href & _)%load_quiet & Hrun).
  unfold lift in Hrun. injection Hrun as Hrun <-. unfold AttestationRepository.replayRecord in Hrun.
  apply bindR_ok in Hrun as ([] & Ht & [= <-]). apply throwIf_ok in Ht.
  rewrite !orb_false_iff, !negb_false_iff, bool_decide_eq_true in Ht. destruct Ht as [[Hr Hs] Hv].
  split; [done|]. split; [done|]. rewrite Href in Hr. simpl.
  destruct (resultState idem) eqn:Es, (resultVersion idem) eqn:Ev; try done. by eapply begin_replays.
Qed.

(** *** issue *)

(** What issuing finds and adds. *)
Record issuable (d : CoreDb) (a : AttestationTableRow) (s : AttestationStatusRow) (q : VerificationRequestRow)
  : Prop := {
  is_state : a_state a = st_issued /\ a_issuance_complete a = false /\ st_state s = st_issued;
  is_checks : attestation_checks a = true;
  is_request : cd_request d !! a_request_id a = Some q;
  is_holder : vr_committee_id q = a_committee_id a /\ vr_participant_id q = a_participant_id a;
  is_issued : vr_state q = Verification.issued;
  is_new : cd_attestation d !! a_id a = None /\ cd_status d !! a_id a = None /\ a_id a <> "";
  is_free i b : cd_attestation d !! i = Some b -> attestation_collides b a = false;
  is_prior : match a_supersedes_id a with
    | None => a_version a = 1
    | Some p => exists b, cd_attestation d !! p = Some b /\ same_holder a b /\ a_version a = a_version b + 1 /\
                  a_state b = st_active
    end;
}.

Definition issued_attestation (a : AttestationTableRow) (s : AttestationStatusRow) (d : CoreDb) : CoreDb :=
  with_status (<[a_id a := s]>) (with_attestation (<[a_id a := a]>) d).

Lemma issue_sound a s q d : domain_ok d -> issuable d a s q -> a_external_reference a <> "" ->
  domain_ok (issued_attestation a s d) /\ domain_evolves d (issued_attestation a s d).
Proof.
  intros Hok [(Hs & Hi & Hst) Hck Hq [Hc Hp] Hqs (Hn & Hns & Hne) Hfree Hprior] Href.
  pose proof Hok as [R C P A V T D]. split.
  - split; [exact R|exact C|exact P| | |exact T|exact D]; simpl.
    + by apply (attestations_issue A a s q).
    + destruct V as (V1 & V2 & V3). split; [|split; [|exact V3]]; simpl.
      * intros k r Hk. destruct (V1 k r Hk) as (b & Hb & Hbs). exists b.
        rewrite lookup_insert_ne; [done|]. intros He. rewrite <- He in Hb. congruence.
      * intros i b. rewrite lookup_insert_Some. intros [[<- <-]|[_ Hb]]; [congruence|by apply V2].
  - split; [reflexivity|done| | |done|by apply tables_kept]; simpl; apply evolve_insert; done || tc_solve.
Qed.

Lemma predecessor_run cid pid reference d v sup d' :
  predecessor cid pid reference d = (Ok (v, sup), d') ->
  d' = d /\ match sup with
    | None => nonempty reference = None /\ v = 1
    | Some p => exists b, cd_attestation d !! p = Some b /\ a_committee_id b = cid /\ a_participant_id b = pid /\
        a_state b = st_active /\ v = a_version b + 1 /\ nonempty reference = Some (a_external_reference b)
    end.
Proof.
  unfold predecessor. destruct (nonempty reference) as [ref|] eqn:Hne; [|by intros [= <- <- <-]].
  intros Hrun. apply bindP_ok in Hrun as (found & d1 & [= <- <-] & Hrun).
  destruct (select_row _ _) as [[i b]|] eqn:Hs; [|done].
  apply select_row_some in Hs as [Hb Hnm]. apply andb_true_iff in Hnm as [Href Hc].
  apply String.eqb_eq in Href, Hc.
  apply bindP_ok in Hrun as ([] & d2 & Hr & [= <- <- <-]). unfold throwWhen, lift in Hr. injection Hr as Hr <-.
  apply throwIf_ok, negb_false_iff in Hr. unfold renewable in Hr.
  apply andb_true_iff in Hr as [Hp%String.eqb_eq Hst%bool_decide_eq_true].
  split; [done|]. exists b. split_and!; try done. by rewrite Href.
Qed.

(** Entries of the log. *)
Definition attestation_entry (name reference : string) (prior : option string) (new event : string) : entry := {|
  en_command := name; en_target_type := "attestation"; en_reference := reference; en_prior := prior;
  en_new := new; en_event := event; en_aggregate := "attestation" |}.

Lemma idOrNew_same i d j d' : idOrNew i d = (Ok j, d') ->
  domain d' = domain d /\ cd_idempotency d' = cd_idempotency d /\ log d' = log d.
Proof. intros [->|[_ ->]]%idOrNew_run; [done|]. split_and!; apply blind. Qed.

Lemma domain_issued a s d d' : domain d' = domain d -> domain (issued_attestation a s d') = domain (issued_attestation a s d).
Proof. destruct d as [[[]]], d' as [[[]]]. unfold domain. simpl. intros [=]. by subst. Qed.

Lemma issuable_same a s q d d' : domain d' = domain d -> issuable d' a s q -> issuable d a s q.
Proof.
  intros (_ & Hq & _ & Ha & Hs & _)%domain_parts [H1 H2 H3 H4 H5 H6 H7 H8]. rewrite Hq, Ha, Hs in *. by split.
Qed.

Lemma issue_tx_run input d r d' :
  closed d -> issue_tx input d = (Ok r, d') ->
  exists cid, committee_named (committeeReference (ia_context input)) d cid /\
  r_externalReference r = ia_externalReference input /\
  if r_replayed r then
    replays (tenantScope (ia_context input)) (Some cid) "issueAttestation" (ia_context input)
      (ia_externalReference input) (r_state r) (r_statusVersion r) d d'
  else load cid (ia_externalReference input) false d' = (Ok r, d') /\ exists a s q, issuable d a s q /\ st_version s = 1 /\ a_external_reference a = ia_externalReference input /\
    a_committee_id a = cid /\ vr_external_reference q = ia_requestReference input /\
    nonempty (ia_supersedesReference input)
      = (a_external_reference <$> (a_supersedes_id a ≫= (cd_attestation d !!.))) /\
    commanded (tenantScope (ia_context input)) (Some cid) (ia_context input) []
      (attestation_entry "issueAttestation" (ia_externalReference input) None "issued" "AttestationIssued")
      "issued" 1 d (issued_attestation a s d) d'.
Proof.
  intros Hcl. unfold issue_tx. intros Hrun.
  apply bindP_ok in Hrun as (cid & d0 & [-> Hnamed]%committeeId_run & Hrun).
  apply bindP_ok in Hrun as (idem & d1 & Hb & Hrun). exists cid. split; [exact Hnamed|].
  destruct (idem_replayed idem) eqn:Hrep.
  { destruct (attestation_replay_run _ _ _ _ _ _ _ _ _ Hb Hrep Hrun) as (-> & -> & Hr). by split. }
  apply bindP_ok in Hrun as ([[[rid q] p] cr] & d2 & (-> & Hq & Href & Hcm)%loadRow_run & Hrun).
  apply bindP_ok in Hrun as ([] & d2 & Hst & Hrun). unfold throwWhen, lift in Hst. injection Hst as Hst <-.
  apply throwIf_ok, negb_false_iff, bool_decide_eq_true in Hst.
  apply bindP_ok in Hrun as ([v sup] & d2 & [-> Hprior]%predecessor_run & Hrun). cbn [fst snd] in Hrun.
  apply bindP_ok in Hrun as (x & d2 & Hval & Hrun). unfold lift in Hval. injection Hval as _ <-.
  apply bindP_ok in Hrun as (i & d2 & (Hd2 & Hl2 & Hlog2)%idOrNew_same & Hrun).
  apply bindP_ok in Hrun as (from & d3 & Hf & Hrun). unfold lift in Hf. injection Hf as _ <-.
  apply bindP_ok in Hrun as (until & d3 & Hu & Hrun). unfold lift in Hu. injection Hu as _ <-.
  apply bindP_ok in Hrun as (u & d3 & (Hnew & Hne & _ & Hck & Hfree & ->)%insertAttestation_run & Hrun).
  apply bindP_ok in Hrun as (u1 & d4 & [Hns ->]%insertStatus_run & Hrun).
  apply bindP_ok in Hrun as (h & d5 & Ha & Hrun). apply bindP_ok in Hrun as (u2 & d6 & He & Hrun).
  apply bindP_ok in Hrun as (u3 & d7 & Hcomp & Hload). destruct (load_quiet _ _ _ _ _ _ Hload) as (-> & Href' & Hrd).
  rewrite Hrd. split; [done|]. split; [exact Hload|]. cbn [a_id] in *.
  pose proof (keeps_run _ _ _ _ _ (begin_keeps domain _ _ _ _ ltac:(done)) Hb) as Hdom.
  destruct (domain_parts _ _ Hd2) as (_ & Hreq & _ & Hatt & Hsts & _). cbn [cd_status with_attestation] in Hns.
  rewrite Hatt in Hnew, Hfree. rewrite Hsts in Hns.
  destruct (domain_parts _ _ Hdom) as (_ & _ & _ & Hatt1 & _).
  match type of Ha with context [with_status (insert _ ?s) (with_attestation (insert _ ?a) _)] => exists a, s, q end.
  split.
  { apply (issuable_same _ _ _ _ d1 Hdom). split; try done.
    destruct sup as [p'|]; [|by destruct Hprior]. destruct Hprior as (b & ? & ? & ? & ? & ? & _).
    exists b. by split_and!. }
  do 4 (split; [done|]). split.
  - simpl. destruct sup as [p'|]; [|by destruct Hprior]. destruct Hprior as (b & Hb' & _ & _ & _ & _ & ->).
    simpl. by rewrite <- Hatt1, Hb'.
  - eapply (commanded_run _ _ (attestation_entry _ _ _ _ _) [] _ d idem d1 (issued_attestation _ _));
      [done|exact Hb|done|intros; by apply domain_issued|by apply domain_issued|exact Hl2|exact Hlog2|done
      |exact Ha|exact He|exact Hcomp].
Qed.

(** *** activate and expire *)

Definition superseded_entry (b : AttestationTableRow) : entry :=
  attestation_entry "supersedePriorAttestation" (a_external_reference b) (Some (state_name (a_state b)))
    "superseded" "AttestationSuperseded".

Lemma move_keeps {V} (view : CoreDb -> V) a q s st complete t now d :
  (forall f d, view (with_request f d) = view d) -> (forall f d, view (with_status f d) = view d) ->
  (forall f d, view (with_attestation f d) = view d) -> view (move_attestation a q s st complete t now d) = view d.
Proof. intros Hq Hs Ha. unfold move_attestation. by rewrite Hq, Hs, Ha. Qed.

(** The domain commands run before the tables are moved. *)
Lemma supersede_ok s s' : Verification.supersedeAttestation s = Ok s' -> s = Verification.active.
Proof. intros [Hin _]%applyTransition_ok. by in_cases. Qed.
Lemma activate_ok s s' : Verification.activateAttestation s = Ok s' -> s = Verification.issued.
Proof. intros [Hin _]%applyTransition_ok. by in_cases. Qed.
Lemma expire_ok s s' : Verification.expireAttestation s = Ok s' -> s = Verification.active.
Proof. intros [Hin _]%applyTransition_ok. by in_cases. Qed.
Lemma revoke_ok s s' : Verification.revokeAttestation s = Ok s' -> s = Verification.active.
Proof. intros [Hin _]%applyTransition_ok. by in_cases. Qed.

Lemma supersedePredecessor_run pending cid i m d u d' :
  domain_ok_at pending d -> supersedePredecessor cid i m d = (Ok u, d') ->
  exists b q s t, attestation_rows d b q s /\ a_id b = i /\ a_state b = st_active /\ ma_observedAt m = Some t /\
    domain d' = domain (move_attestation b q s st_superseded false t (db_clock (cd_base d)) d) /\
    cd_idempotency d' = cd_idempotency d /\
    recorded_all (ma_context m) (Some cid) [superseded_entry b] d d'.
Proof.
  intros Hok. unfold supersedePredecessor. intros Hrun.
  apply bindP_ok in Hrun as (r & d1 & (-> & Hi & q & s & Hl)%(attestation_row_by_id pending) & Hrun); [|done].
  pose proof Hl as (Hrows & _ & _ & Hrs & _).
  apply bindP_ok in Hrun as (x & d1 & Hcmd & Hrun). unfold lift in Hcmd. injection Hcmd as Hcmd <-.
  apply supersede_ok in Hcmd. rewrite Hrs in Hcmd.
  apply bindP_ok in Hrun as (u1 & d1 & Hup & Hrun).
  apply (updateAttestationAndRequest_run _ _ _ _ _ _ _ _ _ _ _ Hl) in Hup as (t & Ht & _ & _ & ->).
  apply bindP_ok in Hrun as (h & d2 & Ha & He).
  destruct (recorded_run _ _ _ _ _ _ _ _ _ _ _ _ _ _ _ _ _ Ha He) as (Hrec & Hdom & Hled).
  exists (row r), q, s, t. split; [done|]. split; [done|]. split.
  { destruct (ao_request _ _ _ _ (ok_attestations d Hok) _ _ (ar_row _ _ _ _ Hrows)) as (q' & Hq' & _ & _ & Hq).
    rewrite (ar_request _ _ _ _ Hrows) in Hq'. injection Hq' as <-. rewrite Hcmd in Hq.
    by destruct (a_state (row r)). }
  split; [done|]. split; [done|]. split; [by rewrite Hled|].
  exists d'. split; [|done]. eapply recorded_log; [| |exact Hrec]; done.
Qed.

(** What the two commands do. *)
Inductive activity (d : CoreDb) (a : AttestationTableRow) (q : VerificationRequestRow) (s : AttestationStatusRow)
    (t : Z) : bool -> list entry -> CoreDb -> Prop :=
| expires : a_state a = st_active -> a_expires_at a <= t ->
    activity d a q s t false [] (move_attestation a q s st_expired false t (db_clock (cd_base d)) d)
| activates : a_state a = st_issued -> a_valid_from a <= t < a_expires_at a -> a_supersedes_id a = None ->
    activity d a q s t true [] (move_attestation a q s st_active true t (db_clock (cd_base d)) d)
| renews b qb sb : a_state a = st_issued -> a_valid_from a <= t < a_expires_at a ->
    a_supersedes_id a = Some (a_id b) -> a_state b = st_active -> attestation_rows d b qb sb ->
    activity d a q s t true [superseded_entry b]
      (move_attestation b qb sb st_superseded false t (db_clock (cd_base d))
         (move_attestation a q s st_active true t (db_clock (cd_base d)) d)).

Lemma renews_other d a b : domain_ok d -> cd_attestation d !! a_id a = Some a -> a_supersedes_id a = Some (a_id b) ->
  a_id a <> a_id b.
Proof.
  intros Hok Ha Hsup He. rewrite <- He in Hsup.
  destruct (ao_renews _ _ _ _ (ok_attestations d Hok) _ a _ Ha Hsup) as (x & Hx & _ & Hv). simplify_eq. lia.
Qed.

(** The predecessor, before and after its successor moves. *)
Lemma predecessor_rows d a q s st complete t now b qb sb :
  domain_ok d -> attestation_rows d a q s -> a_supersedes_id a = Some (a_id b) ->
  attestation_rows (move_attestation a q s st complete t now d) b qb sb <-> attestation_rows d b qb sb.
Proof.
  intros Hok [Ha Hq Hs] Hsup. pose proof (renews_other d a b Hok Ha Hsup) as Hne.
  assert (Hatt : cd_attestation (move_attestation a q s st complete t now d) !! a_id b = cd_attestation d !! a_id b).
  { simpl. by rewrite lookup_insert_ne. }
  assert (Hreq : cd_attestation d !! a_id b = Some b -> a_request_id a <> a_request_id b).
  { intros Hb He. by apply Hne, (ao_one _ _ _ _ (ok_attestations d Hok) _ _ a b Ha Hb). }
  split; intros [Rb Rq Rs]; rewrite ?Hatt in Rb; specialize (Hreq Rb); split; simpl in *;
    rewrite ?lookup_insert_ne in * by done; done.
Qed.

Lemma activity_sound d a q s t activating pre dom :
  domain_ok d -> attestation_rows d a q s -> activity d a q s t activating pre dom ->
  domain_ok dom /\ domain_evolves d dom.
Proof.
  intros Hok Hrows Hact. pose proof (attested_together d a q s Hok Hrows) as Htog.
  destruct Hact as [Hs _|Hs _ Hsup|b qb sb Hs _ Hsup Hb Hbrows].
  - apply move_alone; try done; [|by right|by left]. rewrite Htog, Hs. by apply stepb_spec.
  - apply move_alone; try done; [|by left|by right]. rewrite Htog, Hs. by apply stepb_spec.
  - destruct (activate_sound d a q s t (db_clock (cd_base d)) Hok Hrows Hs) as [Hok' Hev].
    apply (predecessor_rows d a q s st_active true t (db_clock (cd_base d)) b qb sb Hok Hrows Hsup) in Hbrows.
    destruct (supersede_sound _ (a_id a) b qb sb t (db_clock (cd_base d)) Hb Hok' Hbrows) as [Hok2 Hev2].
    + intros x. simpl. rewrite lookup_insert_eq. by intros [= <-].
    + split; [done|]. by etransitivity.
Qed.

Definition active_target (activating : bool) : attestation_state := if activating then st_active else st_expired.

(** The rows afterwards. *)
Lemma activity_rows d a q s t activating pre dom :
  domain_ok d -> attestation_rows d a q s -> activity d a q s t activating pre dom ->
  cd_attestation dom !! a_id a = Some (attestation_moved (active_target activating) activating a) /\
  cd_status dom !! a_id a = Some (status_moved (active_target activating) t s).
Proof.
  intros Hok [Ha _ _] Hact. destruct Hact as [? _|? _ ?|b qb sb _ _ Hsup _ _]; simpl; [by rewrite !lookup_insert_eq..|].
  pose proof (renews_other d a b Hok Ha Hsup). rewrite !(lookup_insert_ne _ (a_id b)) by done.
  by rewrite !lookup_insert_eq.
Qed.

Lemma attestation_rows_same d d' a q s : domain d' = domain d -> attestation_rows d' a q s -> attestation_rows d a q s.
Proof. intros (_ & Hq & _ & Ha & Hs & _)%domain_parts [H1 H2 H3]. rewrite Ha, Hq, Hs in *. by split. Qed.

(** The check before the update. *)
Lemma requireWindow_run activating r t d u d' : requireWindow activating r (Some t) d = (Ok u, d') ->
  d' = d /\ if activating then request_state r = Verification.issued /\ a_valid_from (row r) <= t < a_expires_at (row r)
           else request_state r = Verification.active /\ a_expires_at (row r) <= t.
Proof.
  unfold requireWindow, dateBefore, dateFrom. intros Hrun.
  destruct activating; apply bindP_ok in Hrun as ([] & d1 & Hg & Hrun); unfold throwWhen, lift in Hg, Hrun;
    injection Hg as Hg <-; injection Hrun as Hrun <-; apply throwIf_ok in Hg; split; try done.
  - apply activate_ok in Hrun. rewrite orb_false_iff, Z.ltb_ge, Z.leb_gt in Hg. by split; [|lia].
  - apply expire_ok in Hrun. apply Z.ltb_ge in Hg. by split.
Qed.

Lemma requireWindow_keeps {V} (view : CoreDb -> V) activating r t : keeps view (requireWindow activating r t).
Proof. unfold requireWindow. destruct activating; keeps_steps. Qed.

Definition activity_entry (activating : bool) (name : string) (a : AttestationTableRow) : entry :=
  attestation_entry name (a_external_reference a) (Some (state_name (a_state a)))
    (if activating then "active" else "expired")
    (if activating then "AttestationActivated" else "AttestationExpired").

Lemma activity_same d d' a q s t activating pre dom : domain d' = domain d ->
  activity d' a q s t activating pre dom ->
  exists dom', activity d a q s t activating pre dom' /\ domain dom = domain dom'.
Proof.
  intros Hd Hact. destruct (domain_parts _ _ Hd) as (_ & _ & _ & _ & _ & _ & _ & _ & Hclock).
  destruct Hact as [? ?|? ? ?|b qb sb ? ? ? ? Hb]; rewrite Hclock; eexists.
  - split; [by constructor|by apply domain_move].
  - split; [by constructor|by apply domain_move].
  - split; [econstructor; try done; by apply (attestation_rows_same d d')|by apply domain_move, domain_move].
Qed.

(** Once the attestation has moved, its predecessor follows. *)
Lemma activity_run cid m (activating : bool) a q s t d u d' :
  domain_ok d -> attestation_rows d a q s -> ma_observedAt m = Some t ->
  (if activating then a_state a = st_issued /\ a_valid_from a <= t < a_expires_at a
   else a_state a = st_active /\ a_expires_at a <= t) ->
  (match activating, nonempty (a_supersedes_id a) with
   | true, Some priorId => supersedePredecessor cid priorId m
   | _, _ => ret tt
   end : CM unit) (move_attestation a q s (if activating then st_active else st_expired) activating t (db_clock (cd_base d)) d)
    = (Ok u, d') ->
  exists pre dom, activity d a q s t activating pre dom /\ domain d' = domain dom /\
    cd_idempotency d' = cd_idempotency d /\ recorded_all (ma_context m) (Some cid) pre d d'.
Proof.
  intros Hok Hrows Ht Hwin Hrun. destruct activating; destruct Hwin as [Hst Hwin].
  2:{ injection Hrun as _ <-. do 2 eexists. split; [by apply expires|]. by split_and!. }
  assert (Hsup : a_supersedes_id a = nonempty (a_supersedes_id a)).
  { destruct (a_supersedes_id a) as [p|] eqn:Hp; [|done].
    destruct (ao_renews _ _ _ _ (ok_attestations d Hok) _ a p (ar_row _ _ _ _ Hrows) Hp) as (b & Hb & _).
    apply (ao_named _ _ _ _ (ok_attestations d Hok)) in Hb as [Hp' _]. by destruct p. }
  rewrite <- Hsup in Hrun. destruct (a_supersedes_id a) as [p|] eqn:Hp.
  2:{ injection Hrun as _ <-. do 2 eexists. split; [by apply activates|]. by split_and!. }
  destruct (activate_sound d a q s t (db_clock (cd_base d)) Hok Hrows Hst) as [Hok' _].
  apply (supersedePredecessor_run _ _ _ _ _ _ _ Hok') in Hrun as (b & qb & sb & tb & Hb & <- & Hbs & Htb & Hd & Hl & Hlog).
  assert (tb = t) as -> by congruence. do 2 eexists. split.
  { apply (renews d a q s t b qb sb); try done. by apply (predecessor_rows d a q s) in Hb. }
  split; [exact Hd|]. split; [exact Hl|]. eapply recorded_all_log; [| |exact Hlog]; done.
Qed.

Lemma changeActiveState_tx_run name activating m d r d' :
  core_ok d -> changeActiveState_tx name activating m d = (Ok r, d') ->
  exists cid, committee_named (committeeReference (ma_context m)) d cid /\
  r_externalReference r = ma_attestationReference m /\
  if r_replayed r then
    replays (tenantScope (ma_context m)) (Some cid) name (ma_context m)
      (ma_attestationReference m) (r_state r) (r_statusVersion r) d d'
  else load cid (ma_attestationReference m) false d' = (Ok r, d') /\ exists a q s t pre dom, attestation_rows d a q s /\ a_external_reference a = ma_attestationReference m /\
    a_committee_id a = cid /\ sameVersion (st_version s) (ma_expectedStatusVersion m) = true /\
    ma_observedAt m = Some t /\ activity d a q s t activating pre dom /\
    commanded (tenantScope (ma_context m)) (Some cid) (ma_context m) pre (activity_entry activating name a)
      (if activating then "active" else "expired") (st_version s + 1) d dom d'.
Proof.
  intros [Hcl Hok]. unfold changeActiveState_tx. cbv zeta. intros Hrun.
  apply bindP_ok in Hrun as (cid & d0 & [-> Hnamed]%committeeId_run & Hrun).
  apply bindP_ok in Hrun as (idem & d1 & Hb & Hrun). exists cid. split; [exact Hnamed|].
  destruct (idem_replayed idem) eqn:Hrep.
  { destruct (attestation_replay_run _ _ _ _ _ _ _ _ _ Hb Hrep Hrun) as (-> & -> & Hr). by split. }
  pose proof (keeps_run _ _ _ _ _ (begin_keeps domain _ _ _ _ ltac:(done)) Hb) as Hdom.
  pose proof (domain_ok_same _ _ Hdom Hok) as Hok1.
  apply bindP_ok in Hrun as (ar & d2 & (-> & q & s & Hl)%(attestation_row_run None) & Hrun); [|done].
  destruct (negb (sameVersion _ _)) eqn:Hver; [done|]. apply negb_false_iff in Hver.
  pose proof Hl as (Hrows & Hcm & Href & Hrs & _ & Hsv).
  apply bindP_ok in Hrun as (x & d2 & Hwin & Hrun).
  pose proof (keeps_run id _ _ _ _ (requireWindow_keeps id _ _ _) Hwin) as E. unfold id in E. subst d2.
  apply bindP_ok in Hrun as (u & d2 & Hup & Hrun).
  apply (updateAttestationAndRequest_run _ _ _ _ _ _ _ _ _ _ _ Hl) in Hup as (t & Ht & _ & _ & ->).
  rewrite Ht in Hwin. apply requireWindow_run in Hwin as [_ Hwin].
  pose proof (attested_together d1 _ q s Hok1 Hrows) as Htog. rewrite Hrs, Htog in Hwin.
  apply bindP_ok in Hrun as (u1 & d3 & Hpre & Hrun).
  apply bindP_ok in Hrun as (h & d4 & Ha & Hrun). apply bindP_ok in Hrun as (u2 & d5 & He & Hrun).
  apply bindP_ok in Hrun as (u3 & d6 & Hcomp & Hload). destruct (load_quiet _ _ _ _ _ _ Hload) as (-> & Href' & Hrd). rewrite Hrd. split; [done|]. split; [exact Hload|].
  destruct (activity_run cid m activating (row ar) q s t d1 u1 d3 Hok1 Hrows Ht) as (pre & dom & Hact & Hd3 & Hl3 & Hlog3).
  { destruct activating; destruct Hwin as [Hs Hw]; split; try done; by destruct (a_state (row ar)). }
  { destruct activating; [destruct (nonempty (a_supersedes_id (row ar)))|]; exact Hpre. }
  destruct (activity_same d _ _ _ _ _ _ _ _ Hdom Hact) as (dom' & Hact' & Hd').
  exists (row ar), q, s, t, pre, dom'. rewrite <- Hsv. split; [by apply (attestation_rows_same d d1)|].
  split; [done|]. split; [done|]. split; [done|]. split; [done|]. split; [done|].
  assert (Hn : state_name (if activating then st_active else st_expired) = if activating then "active" else "expired")
    by by destruct activating.
  rewrite Hn in Ha, He, Hcomp.
  unfold activity_entry. rewrite Href.
  eapply (commanded_run _ _ (attestation_entry _ _ _ _ _) pre _ d idem d1 (fun _ => dom'));
    [done|exact Hb|done|done|exact (eq_trans Hd3 Hd')|exact Hl3|exact Hlog3|done|exact Ha|exact He|exact Hcomp].
Qed.

(** *** revoke *)

Definition revoked_attestation (i : string) (v : AttestationRevocationRow) (a : AttestationTableRow)
    (q : VerificationRequestRow) (s : AttestationStatusRow) (t now : Z) (d : CoreDb) : CoreDb :=
  move_attestation a q s st_revoked false t now (with_revocation (<[i := v]>) d).

Lemma domain_revoked i v a q s t now d d' : domain d' = domain d ->
  domain (revoked_attestation i v a q s t now d') = domain (revoked_attestation i v a q s t now d).
Proof.
  intros Hd. apply domain_move. destruct d as [[[]]], d' as [[[]]]. unfold domain in *. simpl in *.
  injection Hd. intros. by subst.
Qed.

(** What a revocation finds and adds. *)
Record revocable (d : CoreDb) (i : string) (v : AttestationRevocationRow) (a : AttestationTableRow)
    (q : VerificationRequestRow) (s : AttestationStatusRow) : Prop := {
  rk_rows : attestation_rows d a q s;
  rk_active : a_state a = st_active;
  rk_of : rv_attestation v = a_id a;
  rk_new : cd_revocation d !! i = None;
  rk_first j x : cd_revocation d !! j = Some x -> rv_attestation x <> a_id a;
}.

Lemma revocable_sound d i v a q s t now : domain_ok d -> revocable d i v a q s ->
  domain_ok (revoked_attestation i v a q s t now d) /\ domain_evolves d (revoked_attestation i v a q s t now d).
Proof. intros Hok []. by apply revocation_sound. Qed.

Lemma revoke_tx_run input d r d' :
  core_ok d -> revoke_tx input d = (Ok r, d') ->
  let m := ra_mutation input in
  exists cid, committee_named (committeeReference (ma_context m)) d cid /\
  r_externalReference r = ma_attestationReference m /\
  if r_replayed r then
    replays (tenantScope (ma_context m)) (Some cid) "revokeAttestation" (ma_context m)
      (ma_attestationReference m) (r_state r) (r_statusVersion r) d d'
  else load cid (ma_attestationReference m) false d' = (Ok r, d') /\ exists i v a q s t, revocable d i v a q s /\ a_external_reference a = ma_attestationReference m /\
    a_committee_id a = cid /\ sameVersion (st_version s) (ma_expectedStatusVersion m) = true /\
    ma_observedAt m = Some t /\ rv_effective v = t /\
    rv_reason_category v = reasonCategory (ma_context m) /\
    commanded (tenantScope (ma_context m)) (Some cid) (ma_context m) []
      (attestation_entry "revokeAttestation" (a_external_reference a) (Some "active") "revoked"
         "AttestationRevoked")
      "revoked" (st_version s + 1) d (revoked_attestation i v a q s t (db_clock (cd_base d)) d) d'.
Proof.
  intros [Hcl Hok]. unfold revoke_tx. cbv zeta. set (m := ra_mutation input). intros Hrun.
  apply bindP_ok in Hrun as (cid & d0 & [-> Hnamed]%committeeId_run & Hrun).
  apply bindP_ok in Hrun as (idem & d1 & Hb & Hrun). exists cid. split; [exact Hnamed|].
  destruct (idem_replayed idem) eqn:Hrep.
  { destruct (attestation_replay_run _ _ _ _ _ _ _ _ _ Hb Hrep Hrun) as (-> & -> & Hr). by split. }
  pose proof (keeps_run _ _ _ _ _ (begin_keeps domain _ _ _ _ ltac:(done)) Hb) as Hdom.
  pose proof (domain_ok_same _ _ Hdom Hok) as Hok1.
  apply bindP_ok in Hrun as (ar & d2 & (-> & q & s & Hl)%(attestation_row_run None) & Hrun); [|done].
  destruct (negb (sameVersion _ _)) eqn:Hver; [done|]. apply negb_false_iff in Hver.
  pose proof Hl as (Hrows & Hcm & Href & Hrs & Hrv & Hsv).
  apply bindP_ok in Hrun as (x & d2 & Hcmd & Hrun). unfold lift in Hcmd. injection Hcmd as Hcmd <-.
  apply revoke_ok in Hcmd. assert (Hst : a_state (row ar) = st_active) by (by destruct (a_state (row ar))).
  apply bindP_ok in Hrun as (i & d2 & (Hd2 & Hl2 & Hlog2)%idOrNew_same & Hrun).
  apply bindP_ok in Hrun as (t & d3 & Ht & Hrun). unfold lift in Ht. injection Ht as Ht%bindTimestamp_ok <-.
  apply bindP_ok in Hrun as (u & d3 & (Hnew & Hfree & ->)%insertRevocation_run & Hrun).
  match type of Hrun with context [with_revocation (insert i ?v0)] => set (v := v0) in * end.
  apply bindP_ok in Hrun as (u1 & d3 & Hup & Hrun).
  destruct (domain_parts _ _ Hd2) as (_ & Hreq & _ & Hatt & Hsts & Hrev & _ & _ & Hclock).
  assert (Hl' : loaded (with_revocation (<[i := v]>) d2) cid (ma_attestationReference m) ar q s).
  { split; [|done]. destruct Hrows as [R1 R2 R3]. split; simpl; congruence. }
  apply (updateAttestationAndRequest_run _ _ _ _ _ _ _ _ _ _ _ Hl') in Hup as (t' & Ht' & _ & _ & ->).
  assert (t' = t) as -> by congruence.
  apply bindP_ok in Hrun as (h & d4 & Ha & Hrun). apply bindP_ok in Hrun as (u2 & d5 & He & Hrun).
  apply bindP_ok in Hrun as (u3 & d6 & Hcomp & Hload). destruct (load_quiet _ _ _ _ _ _ Hload) as (-> & Href' & Hrd). rewrite Hrd. split; [done|].
  split; [exact Hload|]. destruct (domain_parts _ _ Hdom) as (_ & _ & _ & _ & _ & Hrev1 & _ & _ & Hclock1).
  exists i, v, (row ar), q, s, t. rewrite <- Hsv, <- Hclock1, Href. rewrite Hst in Ha. split.
  { rewrite Hrev, Hrev1 in *. split; try done. by apply (attestation_rows_same d d1). }
  do 6 (split; [done|]).
  eapply (commanded_run _ _ (attestation_entry _ _ _ _ _) [] _ d idem d1
            (revoked_attestation i v (row ar) q s t (db_clock (cd_base d1))));
    [done|exact Hb|done|intros; by apply domain_revoked| | | |done|exact Ha|exact He|exact Hcomp].
  - change (db_clock (cd_base (with_revocation _ d2))) with (db_clock (cd_base d2)). rewrite Hclock.
    by apply domain_revoked.
  - exact Hl2.
  - exact Hlog2.
Qed.
End commands.
