(* ===== verification/LifecycleEffects.v ===== *)
(** * LifecycleEffects: what a transition of LifecycleRepository does.

    Proved once against the interface [LifecycleTableLaws]; the eight tables
    follow. *)
From stdpp Require Import relations.
From S2P Require Import Prelude Errors Transition Lifecycles Guards Text Attestation Json Database AuthDatabase.
From S2P Require Import AuthInvariant CoreDatabase Idempotency VerificationRepository AttestationRepository.
From S2P Require Import LifecycleRepository CoreEffects AttestationInvariant CoreInvariant RequestEffects.
Local Open Scope Z_scope.

(** Where the ledger entry is: under the row's committee, or the actor. *)
Definition lifecycle_scope (cid : option string) (ctx : CommandContext) : string :=
  if truthy cid then "committee:" +:+ committeeReference ctx else "global:" +:+ actor_reference (actor ctx).

Definition lifecycle_entry (name targetType aggregate reference prior new : string) : entry := {|
  en_command := name; en_target_type := targetType; en_reference := reference; en_prior := Some prior;
  en_new := new; en_event := name; en_aggregate := aggregate |}.

Section table.
Context `{Platform} {Row State Command : Type} (T : LifecycleTable Row State Command) `{!LifecycleTableLaws T}.

Lemma load_row_run reference d i (r : Row) cid cr d' :
  LifecycleRepository.load reference d = (Ok (i, r, cid, cr), d') ->
  d' = d /\ lr_rows d !! i = Some r /\ lr_reference r = reference /\ cid = lr_committee i r /\
  cr = Database.committee_reference (cd_base d) (lr_committee i r).
Proof.
  unfold LifecycleRepository.load. intros Hrun. apply bindP_ok in Hrun as (x & d1 & [= <- <-] & Hrun). unfold id in Hrun.
  destruct (select_row _ _) as [[j y]|] eqn:Hs; [|done].
  apply select_row_some in Hs as [Hj Href%String.eqb_eq]. by injection Hrun as <- <- <- <- <-.
Qed.

Lemma update_row_run i (r : Row) next input d v d' :
  LifecycleRepository.update i r next input d = (Ok v, d') ->
  exists r', lr_assign next (lr_version r + 1) input r = Ok r' /\ v = lr_version r + 1 /\
    lr_trigger d r r' = Ok tt /\ lr_checks r' = true /\ d' = lr_set_rows (<[i := r']> (lr_rows d)) d.
Proof.
  unfold LifecycleRepository.update. intros Hrun. apply bindP_ok in Hrun as (x & d1 & [= <- <-] & Hrun).
  apply bindP_ok in Hrun as (r' & d1 & Ha & Hrun). unfold lift in Ha. injection Ha as Ha <-.
  apply bindP_ok in Hrun as (n & d1 & Hi & Hrun). unfold lift in Hi. injection Hi as Hi <-.
  assert (n = lr_version r + 1) as -> by (unfold int4 in Hi; inv_ok; done).
  apply bindP_ok in Hrun as ([] & d1 & Ht & Hrun). unfold lift in Ht. injection Ht as Ht <-.
  apply bindP_ok in Hrun as ([] & d1 & Hc & Hrun). unfold throwWhen, lift in Hc. injection Hc as Hc <-.
  apply throwIf_ok, orb_false_iff in Hc as [_ Hc%negb_false_iff].
  apply bindP_ok in Hrun as (u & d1 & [= _ <-] & [= <- <-]). by exists r'.
Qed.

Lemma lifecycle_tx_run (command : Command) input d res d' :
  closed d -> LifecycleRepository.transition_tx command input d = (Ok res, d') ->
  exists i (r : Row), lr_rows d !! i = Some r /\ lr_reference r = li_externalReference input /\
  l_externalReference res = li_externalReference input /\
  other_tenant (Database.committee_reference (cd_base d) (lr_committee i r))
    (committeeReference (li_context input)) = false /\
  String.eqb lr_targetType "committee" && negb (String.eqb (lr_reference r) (committeeReference (li_context input)))
    = false /\
  let scope := lifecycle_scope (lr_committee i r) (li_context input) in
  if l_replayed res then
    replays scope (lr_committee i r) (lr_command_name command) (li_context input)
      (li_externalReference input) (l_state res) (l_version res) d d'
  else exists (next : State) (r' : Row), sameVersion (lr_version r) (li_expectedVersion input) = true /\
    lc_apply command (lr_state r) = Ok next /\
    (exists d1, domain d1 = domain d /\ lr_preconditions d1 command i r input = Ok tt) /\
    lr_assign next (lr_version r + 1) input r = Ok r' /\ lr_checks r' = true /\
    (forall c, lr_committee i r = Some c -> is_Some (db_committee (cd_base d) !! c)) /\
    l_state res = state_name next /\ l_version res = lr_version r + 1 /\
    commanded scope (lr_committee i r) (li_context input) []
      (lifecycle_entry (lr_command_name command) lr_targetType lr_eventAggregate (li_externalReference input)
         (state_name (lr_state r)) (state_name next))
      (state_name next) (lr_version r + 1) d (lr_set_rows (<[i := r']> (lr_rows d)) d) d'.
Proof using All.
  intros Hcl. unfold LifecycleRepository.transition_tx. cbv zeta. intros Hrun.
  apply bindP_ok in Hrun as ([[[i r] cid] cr] & d1 & (-> & Hr & Href & -> & ->)%load_row_run & Hrun).
  apply bindP_ok in Hrun as ([] & d1 & Hten & Hrun). unfold throwWhen, lift in Hten.
  injection Hten as Hten <-. apply throwIf_ok in Hten.
  apply bindP_ok in Hrun as ([] & d1 & Hself & Hrun). unfold throwWhen, lift in Hself.
  injection Hself as Hself <-. apply throwIf_ok in Hself.
  apply bindP_ok in Hrun as (idem & d1 & Hb & Hrun). unfold LifecycleRepository.beginIdempotency in Hb. cbv zeta in Hb.
  fold (lifecycle_scope (lr_committee i r) (li_context input)) in Hb.
  exists i, r. split; [done|]. split; [done|].
  destruct (idem_replayed idem) eqn:Hrep.
  - apply bindP_ok in Hrun as ([] & d2 & Ht & [= <- <-]). unfold throwWhen, lift in Ht. injection Ht as Ht <-.
    apply throwIf_ok in Ht. rewrite !orb_false_iff, !negb_false_iff, bool_decide_eq_true in Ht.
    destruct Ht as [[Hrr Hrs] Hrv]. do 3 (split; [done|]). simpl.
    destruct (resultState idem) eqn:Es, (resultVersion idem) eqn:Ev; try done. by eapply begin_replays.
  - apply bindP_ok in Hrun as ([] & d2 & Hver & Hrun). unfold throwWhen, lift in Hver.
    injection Hver as Hver <-. apply throwIf_ok, negb_false_iff in Hver.
    apply bindP_ok in Hrun as (next & d2 & Hcmd & Hrun). unfold lift in Hcmd. injection Hcmd as Hcmd <-.
    apply bindP_ok in Hrun as (x & d2 & [= <- <-] & Hrun).
    apply bindP_ok in Hrun as ([] & d2 & Hpre & Hrun). unfold lift in Hpre. injection Hpre as Hpre <-.
    apply bindP_ok in Hrun as (v & d2 & (r' & Hass & -> & _ & Hck & ->)%update_row_run & Hrun).
    apply bindP_ok in Hrun as (h & d3 & Ha & Hrun). apply bindP_ok in Hrun as (u & d4 & He & Hrun).
    apply bindP_ok in Hrun as (u' & d5 & Hcomp & [= <- <-]). simpl. do 3 (split; [done|]).
    pose proof (keeps_run _ _ _ _ _ (begin_keeps domain _ _ _ _ ltac:(done)) Hb) as Hdom.
    exists next, r'. split; [done|]. split; [done|]. split; [by exists d1|]. do 2 (split; [done|]). split.
    { intros c Hc. rewrite Hc in Hb. by apply (begin_committee _ _ _ _ _ _ _ Hb). }
    do 2 (split; [done|]).
    rewrite <- (lrl_domain _ _ Hdom).
    eapply (commanded_run _ _ (lifecycle_entry _ _ _ _ _ _) [] _ d idem d1
              (lr_set_rows (<[i := r']> (lr_rows d1))));
      [done|exact Hb|done|intros; by apply lrl_set_domain|done| | |done|exact Ha|exact He|exact Hcomp].
    + apply (others_ledger _ _ (lrl_others _ _)).
    + apply (others_ledger _ _ (lrl_others _ _)).
Qed.

(** The step keeps the invariant. *)
Lemma lifecycle_step_sound d i (r r' : Row) (command : Command) next input :
  domain_ok d -> lr_rows d !! i = Some r -> lc_apply command (lr_state r) = Ok next ->
  lr_assign next (lr_version r + 1) input r = Ok r' ->
  let d' := lr_set_rows (<[i := r']> (lr_rows d)) d in domain_ok d' /\ domain_evolves d d'.
Proof using All.
  intros Hok Hr Hc (Hs & Hv & Href & Hcm)%lrl_assign. apply (table_sound T d i r r' Hok Hr).
  split_and!; [done|done|]. rewrite Hs, Hv. apply counted_once. left. by exists command.
Qed.
End table.
