(* ===== verification/CoreSystem.v ===== *)
(** * CoreSystem: the domain core as one system.

    Every command of the verification, attestation and lifecycle repositories
    is a [CoreOp]; a step of the system is one call under some behaviour of
    the pool ([env]), or one statement of another part of the program between
    calls ([outside]). *)
From stdpp Require Import relations.
From S2P Require Import Prelude Errors Transition Lifecycles Guards Text Attestation Json Database AuthDatabase.
From S2P Require Import AuthInvariant CoreDatabase Idempotency VerificationRepository AttestationRepository.
From S2P Require Import LifecycleRepository CoreEffects AttestationInvariant CoreInvariant.
From S2P Require Import RequestEffects AttestationEffects LifecycleEffects.
Local Open Scope Z_scope.

(** ** Operations *)

Inductive LifecycleCommand : Type :=
| OfCommittee (c : Committee.command) | OfRenewalCycle (c : RenewalCycle.command)
| OfWalletChallenge (c : WalletChallenge.command) | OfConsent (c : Consent.command)
| OfAppeal (c : Appeal.command) | OfPrivacyRequest (c : PrivacyRequest.command)
| OfNotification (c : Notification.command) | OfRelyingPartyClient (c : RelyingPartyClient.command).

Inductive CoreOp : Type :=
| CreateRequest (input : CreateVerificationRequestInput)
| MoveRequest (c : RequestCommand) (input : TransitionInput)
| Decide (input : RecordReviewDecisionInput)
| Issue (input : IssueAttestationInput)
| Activate (m : MutateAttestationInput)
| Expire (m : MutateAttestationInput)
| Revoke (input : RevokeAttestationInput)
| Move (c : LifecycleCommand) (input : LifecycleTransitionInput).

(** What a caller sees: the record's reference, its state and version (the
    decision command returns neither), and whether it was replayed. *)
Record Outcome : Type := {
  out_reference : string;
  out_result : option (string * Z);
  out_replayed : bool;
}.

Definition of_request (r : VerificationRecord) : Outcome := {|
  out_reference := v_externalReference r; out_result := Some (v_state r, v_version r);
  out_replayed := v_replayed r |}.
Definition of_decision (reference : string) (replayed : bool) : Outcome := {|
  out_reference := reference; out_result := None; out_replayed := replayed |}.
Definition of_attestation (r : AttestationRecord) : Outcome := {|
  out_reference := r_externalReference r; out_result := Some (r_state r, r_statusVersion r);
  out_replayed := r_replayed r |}.
Definition of_lifecycle (r : LifecycleRecord) : Outcome := {|
  out_reference := l_externalReference r; out_result := Some (l_state r, l_version r);
  out_replayed := l_replayed r |}.

Definition op_context (op : CoreOp) : CommandContext :=
  match op with
  | CreateRequest i => cvr_context i | MoveRequest _ i => ti_context i | Decide i => rrd_context i
  | Issue i => ia_context i | Activate m | Expire m => ma_context m
  | Revoke i => ma_context (ra_mutation i) | Move _ i => li_context i
  end.

Definition lifecycle_command_name (c : LifecycleCommand) : string :=
  match c with
  | OfCommittee c => lr_command_name c | OfRenewalCycle c => lr_command_name c
  | OfWalletChallenge c => lr_command_name c | OfConsent c => lr_command_name c
  | OfAppeal c => lr_command_name c | OfPrivacyRequest c => lr_command_name c
  | OfNotification c => lr_command_name c | OfRelyingPartyClient c => lr_command_name c
  end.

Definition op_name (op : CoreOp) : string :=
  match op with
  | CreateRequest _ => "createVerificationRequest" | MoveRequest c _ => commandName c
  | Decide _ => "recordReviewDecision" | Issue _ => "issueAttestation"
  | Activate _ => "activateAttestation" | Expire _ => "expireAttestation" | Revoke _ => "revokeAttestation"
  | Move c _ => lifecycle_command_name c
  end.

(** The reference a command is about. *)
Definition op_reference (op : CoreOp) : string :=
  match op with
  | CreateRequest i => cvr_externalReference i | MoveRequest _ i => ti_requestReference i
  | Decide i => rrd_externalReference i | Issue i => ia_externalReference i
  | Activate m | Expire m => ma_attestationReference m
  | Revoke i => ma_attestationReference (ra_mutation i) | Move _ i => li_externalReference i
  end.

Section system.
Context `{Platform}.

Definition moveLifecycle (env : nat -> TxAttempt) (c : LifecycleCommand) (input : LifecycleTransitionInput)
  : CM LifecycleRecord :=
  match c with
  | OfCommittee c => transitionCommittee env c input
  | OfRenewalCycle c => transitionRenewalCycle env c input
  | OfWalletChallenge c => transitionWalletChallenge env c input
  | OfConsent c => transitionConsent env c input
  | OfAppeal c => transitionAppeal env c input
  | OfPrivacyRequest c => transitionPrivacyRequest env c input
  | OfNotification c => transitionNotification env c input
  | OfRelyingPartyClient c => transitionRelyingPartyClient env c input
  end.

(** One call. *)
Definition run_op (env : nat -> TxAttempt) (op : CoreOp) : CM Outcome :=
  match op with
  | CreateRequest i => let* r := createRequest env i in ret (of_request r)
  | MoveRequest c i => let* r := requestCommand env c i in ret (of_request r)
  | Decide i => let* replayed := recordReviewDecision env i in ret (of_decision (rrd_externalReference i) replayed)
  | Issue i => let* r := issue env i in ret (of_attestation r)
  | Activate m => let* r := activate env m in ret (of_attestation r)
  | Expire m => let* r := expire env m in ret (of_attestation r)
  | Revoke i => let* r := revoke env i in ret (of_attestation r)
  | Move c i => let* r := moveLifecycle env c i in ret (of_lifecycle r)
  end.

(** *** Its parts: the checks before the transaction, and the body *)

Definition lifecycle_guard {Row State Command} (T : LifecycleTable Row State Command)
    (input : LifecycleTransitionInput) : result exn unit :=
  requireOpaqueReference (li_externalReference input) (lr_targetType +:+ " reference").

Definition op_guard (op : CoreOp) : result exn unit :=
  match op with
  | CreateRequest i =>
    let! _ := requireOpaqueReference (cvr_externalReference i) "verification external reference" in
    requireOpaqueReference (cvr_participantReference i) "participant reference"
  | MoveRequest _ i => requireOpaqueReference (ti_requestReference i) "verification request reference"
  | Decide i =>
    let! _ := requireOpaqueReference (rrd_externalReference i) "decision external reference" in
    let! eligible := requireEligibleReviewer (rrd_authorization i) in
    throwif! negb (String.eqb (eligible_actorReference eligible) (actor_reference (actor (rrd_context i))))
      as! RepositoryConflictError "authorization decision does not match the command actor" in Ok tt
  | Issue i =>
    let! _ := requireOpaqueReference (ia_externalReference i) "attestation external reference" in
    requireOpaqueReference (ia_requestReference i) "verification request reference"
  | Activate _ | Expire _ | Revoke _ => Ok tt
  | Move (OfCommittee _) i => lifecycle_guard CommitteeTable.committee_lifecycle_table i
  | Move (OfRenewalCycle _) i => lifecycle_guard RenewalCycleTable.renewal_cycle_lifecycle_table i
  | Move (OfWalletChallenge _) i => lifecycle_guard WalletChallengeTable.wallet_challenge_lifecycle_table i
  | Move (OfConsent _) i => lifecycle_guard ConsentTable.consent_lifecycle_table i
  | Move (OfAppeal _) i => lifecycle_guard AppealTable.appeal_lifecycle_table i
  | Move (OfPrivacyRequest _) i => lifecycle_guard PrivacyTable.privacy_lifecycle_table i
  | Move (OfNotification _) i => lifecycle_guard NotificationTable.notification_lifecycle_table i
  | Move (OfRelyingPartyClient _) i => lifecycle_guard RelyingPartyTable.relying_party_lifecycle_table i
  end.

Definition lifecycle_body (c : LifecycleCommand) (i : LifecycleTransitionInput) : CM LifecycleRecord :=
  match c with
  | OfCommittee c => LifecycleRepository.transition_tx c i
  | OfRenewalCycle c => LifecycleRepository.transition_tx c i
  | OfWalletChallenge c => LifecycleRepository.transition_tx c i
  | OfConsent c => LifecycleRepository.transition_tx c i
  | OfAppeal c => LifecycleRepository.transition_tx c i
  | OfPrivacyRequest c => LifecycleRepository.transition_tx c i
  | OfNotification c => LifecycleRepository.transition_tx c i
  | OfRelyingPartyClient c => LifecycleRepository.transition_tx c i
  end.

Definition op_body (op : CoreOp) : CM Outcome :=
  match op with
  | CreateRequest i => let* r := createRequest_tx i in ret (of_request r)
  | MoveRequest c i =>
    let* r := VerificationRepository.transition_tx (commandName c) (domainCommand c) i in ret (of_request r)
  | Decide i => let* replayed := recordReviewDecision_tx i in ret (of_decision (rrd_externalReference i) replayed)
  | Issue i => let* r := issue_tx i in ret (of_attestation r)
  | Activate m => let* r := changeActiveState_tx "activateAttestation" true m in ret (of_attestation r)
  | Expire m => let* r := changeActiveState_tx "expireAttestation" false m in ret (of_attestation r)
  | Revoke i => let* r := revoke_tx i in ret (of_attestation r)
  | Move c i => let* r := lifecycle_body c i in ret (of_lifecycle r)
  end.

(** Mapping a result commutes with the transaction. *)
Lemma attempts_map {A B} (f : A -> B) left n env (work : CM A) d :
  (let* a := attempts_from left n env work in ret (f a)) d
  = attempts_from left n env (let* a := work in ret (f a)) d.
Proof.
  revert n d. induction left as [|left IH]; intros n d; [done|]. unfold bindP in *. simpl.
  destruct (connectFails (env n)); [done|]. unfold try_once.
  destruct (work d) as [[a|x] d1]; simpl; repeat (case_match; simplify_eq); rewrite <- ?IH;
    repeat (case_match; simplify_eq); done.
Qed.

Lemma guarded_map {A B} (f : A -> B) (g : result exn unit) env (work : CM A) d :
  (let* a := run* lift g in inSerializableTransaction env work in ret (f a)) d
  = (run* lift g in inSerializableTransaction env (let* a := work in ret (f a))) d.
Proof. destruct g as [[]|x]; [|done]. apply (attempts_map f 3 1). Qed.

Lemma run_op_body env op d :
  run_op env op d = (run* lift (op_guard op) in inSerializableTransaction env (op_body op)) d.
Proof.
  destruct op as [i|c i|i|i|m|m|i|[c|c|c|c|c|c|c|c] i]; try exact (guarded_map of_lifecycle _ _ _ _).
  - simpl. unfold createRequest. destruct (requireOpaqueReference _ _) as [[]|]; [|done].
    exact (guarded_map of_request (requireOpaqueReference _ _) env (createRequest_tx i) d).
  - exact (guarded_map of_request _ _ _ _).
  - simpl. unfold recordReviewDecision. destruct (requireOpaqueReference _ _) as [[]|]; [|done].
    destruct (requireEligibleReviewer _) as [e|]; [|done]. simpl.
    destruct (negb (eligible_actorReference e =? _)%string) eqn:E;
      unfold bindP, throwWhen, lift; simpl; rewrite E; simpl; [done|].
    apply (attempts_map _ 3 1).
  - simpl. unfold issue. destruct (requireOpaqueReference _ _) as [[]|]; [|done].
    exact (guarded_map of_attestation (requireOpaqueReference _ _) env (issue_tx i) d).
  - apply (attempts_map of_attestation 3 1).
  - apply (attempts_map of_attestation 3 1).
  - apply (attempts_map of_attestation 3 1).
Qed.

(** A call does nothing, or its body ran once on the same tables, and the
    caller may have lost the reply. *)
Lemma run_op_cases env op d r d' : run_op env op d = (r, d') ->
  (exists x, r = Err x /\ same_core d d') \/
  (op_guard op = Ok tt /\ exists d0 out, same_core d d0 /\ op_body op d0 = (Ok out, d') /\
     (r = Ok out \/ r = Err connectionLost)).
Proof.
  rewrite run_op_body. destruct (op_guard op) as [[]|x] eqn:Hg; [|intros [= <- <-]; left; by exists x].
  intros Hrun. change (inSerializableTransaction env (op_body op) d = (r, d')) in Hrun. destruct r as [out|x].
  - right. split; [done|]. apply (transaction_ok same_core same_core_rollback) in Hrun as (d0 & Hs & Hb).
    exists d0, out. auto.
  - apply (transaction_err same_core same_core_rollback) in Hrun as [Hs|(-> & d0 & out & Hs & Hb)]; [left; eauto|].
    right. split; [done|]. exists d0, out. auto.
Qed.

Lemma run_op_quiet op d out d' : op_guard op = Ok tt -> op_body op d = (Ok out, d') ->
  run_op (fun _ => quietAttempt) op d = (Ok out, d').
Proof. intros Hg Hb. rewrite run_op_body, Hg. by apply transaction_quiet. Qed.

(** ** Steps *)

(** What one statement of the rest of the program may do between two calls.
    The ledger, requests, decisions and attestations have no writer but the
    three repositories.  A lifecycle table may get a row whose keys are free,
    or see one of its challenges moved by the link repository ([written]);
    participants, committees, members and policies are referred to and stay,
    a member in its committee.  Everything else — clock, audit log, queue,
    jobs, accounts, sessions — may change at will. *)
Record outside (d d' : CoreDb) : Prop := {
  os_ledger : cd_idempotency d' = cd_idempotency d;
  os_request : cd_request d' = cd_request d;
  os_decision : cd_decision d' = cd_decision d;
  os_attestation : cd_attestation d' = cd_attestation d;
  os_status : cd_status d' = cd_status d;
  os_revocation : cd_revocation d' = cd_revocation d;
  os_participant : ad_participant (cd_auth d) ⊆ ad_participant (cd_auth d');
  os_member : in_committee cm_committee_id (committee_members d) (committee_members d');
  os_policy : policies d ⊆ policies d';
  os_tables : every_table (fun _ _ _ T => written T (lr_rows d) (lr_rows d'));
}.

Inductive core_step : CoreDb -> CoreDb -> Prop :=
| called env op d r d' : run_op env op d = (r, d') -> core_step d d'
| elsewhere d d' : outside d d' -> core_step d d'.
End system.
