(* ===== verification/CoreFacts.v ===== *)
(** * CoreFacts: the domain core, proved.

    Every command of the three repositories has the same effect on the
    ledger and the logs ([op_effect]); what holds of all of them follows from
    it, and the histories of the system from that. *)
From stdpp Require Import relations.
From S2P Require Import Prelude Errors Transition Lifecycles Guards Text Attestation Json Database AuthDatabase.
From S2P Require Import AuthInvariant CoreDatabase Idempotency VerificationRepository AttestationRepository.
From S2P Require Import LifecycleRepository CoreEffects AttestationInvariant CoreInvariant.
From S2P Require Import RequestEffects AttestationEffects LifecycleEffects CoreSystem.
Import Verification(VerificationState).
Local Open Scope Z_scope.

(** The decision command returns no state. *)
Definition op_result (op : CoreOp) (st : string) (v : Z) : option (string * Z) :=
  match op with Decide _ => None | _ => Some (st, v) end.

Lemma opaque_nonempty s field : requireOpaqueReference s field = Ok tt -> s <> "".
Proof. intros Hs ->. by apply requireOpaqueReference_ok in Hs. Qed.

Section core.
Context `{Platform}.

(** Where a command finds its ledger entry and the row its replay reads. *)
Definition placed_row {Row State Command} (T : LifecycleTable Row State Command) (i : LifecycleTransitionInput)
    (scope : string) (cid : option string) (d dom : CoreDb) : Prop :=
  exists j (row : Row), lr_rows dom !! j = Some row /\ lr_reference row = li_externalReference i /\
    lr_committee j row = cid /\ scope = lifecycle_scope cid (li_context i) /\
    (forall c, cid = Some c -> is_Some (db_committee (cd_base d) !! c)) /\
    other_tenant (Database.committee_reference (cd_base d) cid) (committeeReference (li_context i)) = false /\
    String.eqb lr_targetType "committee"
      && negb (String.eqb (li_externalReference i) (committeeReference (li_context i))) = false.

Definition placed_request (op : CoreOp) (scope : string) (cid : option string) (d dom : CoreDb) : Prop :=
  exists c j q, cid = Some c /\ scope = tenantScope (op_context op) /\
    committee_named (committeeReference (op_context op)) d c /\
    cd_request dom !! j = Some q /\ vr_committee_id q = c /\
    match op with
    | Decide i => vr_external_reference q = rrd_requestReference i
    | _ => vr_external_reference q = op_reference op
    end.

Definition placed_attestation (op : CoreOp) (scope : string) (cid : option string) (d dom : CoreDb) : Prop :=
  exists c a, cid = Some c /\ scope = tenantScope (op_context op) /\
    committee_named (committeeReference (op_context op)) d c /\
    cd_attestation dom !! a_id a = Some a /\ a_external_reference a = op_reference op /\ a_committee_id a = c.

Definition placed (op : CoreOp) (scope : string) (cid : option string) (d dom : CoreDb) : Prop :=
  match op with
  | CreateRequest _ | MoveRequest _ _ | Decide _ => placed_request op scope cid d dom
  | Issue _ | Activate _ | Expire _ | Revoke _ => placed_attestation op scope cid d dom
  | Move (OfCommittee _) i => placed_row CommitteeTable.committee_lifecycle_table i scope cid d dom
  | Move (OfRenewalCycle _) i => placed_row RenewalCycleTable.renewal_cycle_lifecycle_table i scope cid d dom
  | Move (OfWalletChallenge _) i => placed_row WalletChallengeTable.wallet_challenge_lifecycle_table i scope cid d dom
  | Move (OfConsent _) i => placed_row ConsentTable.consent_lifecycle_table i scope cid d dom
  | Move (OfAppeal _) i => placed_row AppealTable.appeal_lifecycle_table i scope cid d dom
  | Move (OfPrivacyRequest _) i => placed_row PrivacyTable.privacy_lifecycle_table i scope cid d dom
  | Move (OfNotification _) i => placed_row NotificationTable.notification_lifecycle_table i scope cid d dom
  | Move (OfRelyingPartyClient _) i => placed_row RelyingPartyTable.relying_party_lifecycle_table i scope cid d dom
  end.

(** The version that a command expects is the row's, and the next one follows. *)
Definition versioned_row {Row State Command} (T : LifecycleTable Row State Command) (i : LifecycleTransitionInput)
    (d dom : CoreDb) : Prop :=
  exists j (r r' : Row), lr_rows d !! j = Some r /\ lr_rows dom !! j = Some r' /\
    lr_reference r = li_externalReference i /\ lr_reference r' = li_externalReference i /\
    sameVersion (lr_version r) (li_expectedVersion i) = true /\ lr_version r' = lr_version r + 1.

Definition versioned_attestation (m : MutateAttestationInput) (d dom : CoreDb) : Prop :=
  exists a s s', cd_attestation d !! a_id a = Some a /\ a_external_reference a = ma_attestationReference m /\
    cd_status d !! a_id a = Some s /\ cd_status dom !! a_id a = Some s' /\
    sameVersion (st_version s) (ma_expectedStatusVersion m) = true /\ st_version s' = st_version s + 1.

Definition versioned (op : CoreOp) (d dom : CoreDb) : Prop :=
  match op with
  | CreateRequest _ | Decide _ | Issue _ => True
  | MoveRequest _ i =>
    exists j q q', cd_request d !! j = Some q /\ cd_request dom !! j = Some q' /\
      vr_external_reference q = ti_requestReference i /\
      sameVersion (vr_version q) (ti_expectedVersion i) = true /\ vr_version q' = vr_version q + 1
  | Activate m | Expire m => versioned_attestation m d dom
  | Revoke i => versioned_attestation (ra_mutation i) d dom
  | Move (OfCommittee _) i => versioned_row CommitteeTable.committee_lifecycle_table i d dom
  | Move (OfRenewalCycle _) i => versioned_row RenewalCycleTable.renewal_cycle_lifecycle_table i d dom
  | Move (OfWalletChallenge _) i => versioned_row WalletChallengeTable.wallet_challenge_lifecycle_table i d dom
  | Move (OfConsent _) i => versioned_row ConsentTable.consent_lifecycle_table i d dom
  | Move (OfAppeal _) i => versioned_row AppealTable.appeal_lifecycle_table i d dom
  | Move (OfPrivacyRequest _) i => versioned_row PrivacyTable.privacy_lifecycle_table i d dom
  | Move (OfNotification _) i => versioned_row NotificationTable.notification_lifecycle_table i d dom
  | Move (OfRelyingPartyClient _) i => versioned_row RelyingPartyTable.relying_party_lifecycle_table i d dom
  end.

(** The rows of other committees are as they were. *)
Definition local_to {R} (committee_of : string -> R -> option string) (cid : option string) (m m' : gmap string R) : Prop :=
  forall j, m' !! j = m !! j \/ exists r, m' !! j = Some r /\ committee_of j r = cid.

Record in_tenant (cid : option string) (d dom : CoreDb) : Prop := {
  it_request : local_to (fun _ q => Some (vr_committee_id q)) cid (cd_request d) (cd_request dom);
  it_decision : local_to (fun _ r => Some (rd_committee_id r)) cid (cd_decision d) (cd_decision dom);
  it_attestation : local_to (fun _ a => Some (a_committee_id a)) cid (cd_attestation d) (cd_attestation dom);
  it_status : local_to (fun j _ => a_committee_id <$> cd_attestation dom !! j) cid (cd_status d) (cd_status dom);
  it_revocation : local_to (fun _ v => a_committee_id <$> cd_attestation dom !! rv_attestation v) cid
                    (cd_revocation d) (cd_revocation dom);
}.

Lemma local_same {R} f cid (m : gmap string R) : local_to f cid m m.
Proof. by left. Qed.

Lemma local_insert {R} (f : string -> R -> option string) cid (m m' : gmap string R) i r :
  local_to f cid m m' -> f i r = cid -> local_to f cid m (<[i := r]> m').
Proof.
  intros Hm Hr j. destruct (decide (j = i)) as [->|]; [right; exists r|rewrite lookup_insert_ne by done; apply Hm].
  by rewrite lookup_insert_eq.
Qed.

Record took_effect (op : CoreOp) (scope : string) (cid : option string) (pre : list entry) (en : entry)
    (st : string) (v : Z) (d dom d' : CoreDb) : Prop := {
  te_commanded : commanded scope cid (op_context op) pre en st v d dom d';
  te_command : en_command en = op_name op;
  te_reference : en_reference en = op_reference op;
  te_new : en_new en = st;
  te_ok : domain_ok dom;
  te_evolves : domain_evolves d dom;
  te_named : op_reference op <> "" /\ st <> "";
  te_placed : placed op scope cid d dom;
  te_versioned : versioned op d dom;
  te_tenant : in_tenant cid d dom;
  te_issued j b : cd_attestation dom !! j = Some b -> cd_attestation d !! j = None ->
    exists i a s q, op = Issue i /\ issuable d a s q /\ b = a;
  te_before : pre = [] \/ exists m b, op = Activate m /\ pre = [superseded_entry b];
}.

(** What the body of a command does when it succeeds. *)
Definition effect (op : CoreOp) (out : Outcome) (d d' : CoreDb) : Prop :=
  out_reference out = op_reference op /\
  if out_replayed out then
    exists scope cid ref st v, replays scope cid (op_name op) (op_context op) ref st v d d' /\
      out_result out = op_result op st v
  else
    exists scope cid pre en st v dom, took_effect op scope cid pre en st v d dom d' /\
      out_result out = op_result op st v.

(** *** Per command *)

(** The row a command has put in place is the one it reads back. *)
Lemma reread_request cid reference d r d' i q :
  domain_ok d -> loadRecord cid reference false d = (Ok r, d') ->
  cd_request d !! i = Some q -> vr_external_reference q = reference ->
  v_state r = state_name (vr_state q) /\ v_version r = vr_version q.
Proof.
  intros Hok (_ & _ & _ & j & x & Hx & Hr & _ & Hs & Hv)%loadRecord_run Hq Href.
  assert (j = i) as -> by (apply (ok_requests d Hok j i x q Hx Hq); congruence). by simplify_eq.
Qed.

Lemma reread_attestation cid reference d r d' i a s :
  domain_ok d -> AttestationRepository.load cid reference false d = (Ok r, d') ->
  cd_attestation d !! i = Some a -> a_external_reference a = reference -> cd_status d !! i = Some s ->
  r_state r = state_name (a_state a) /\ r_statusVersion r = st_version s.
Proof.
  intros Hok Hl Ha Href Hs. apply (load_run None) in Hl as (_ & _ & _ & b & x & Hb & Hr & Hx & Hst & Hv & _); [|done].
  pose proof (ao_reference _ _ _ _ (ok_attestations d Hok) _ i b a Hb Ha) as He.
  rewrite He in * by congruence. by simplify_eq.
Qed.

Lemma create_effect i : forall d out d', core_ok d -> op_guard (CreateRequest i) = Ok tt ->
  op_body (CreateRequest i) d = (Ok out, d') -> effect (CreateRequest i) out d d'.
Proof.
  intros d out d' Hok Hg Hrun. apply bindP_ok in Hrun as (r & d1 & Hrun & [= <- <-]).
  apply bindR_ok in Hg as ([] & Hg%opaque_nonempty & _).
  destruct (createRequest_tx_run _ _ _ _ (proj1 Hok) Hrun) as (cid & Hnm & Href & Hres).
  split; [done|]. simpl. destruct (v_replayed r) eqn:Hr; [by eauto 10|].
  destruct Hres as (Hload & j & q & Hn & Hu & Hc & Hp & Hqr & Hqc & Hqs & Hqv & Hcom).
  destruct (insertRequest_sound j q d (proj2 Hok) Hn Hu Hc Hp) as [Hdom Hev].
  destruct (commanded_sound _ _ _ _ _ _ _ _ _ _ Hok Hcom Hdom Hev) as [Hok' _].
  assert (Hq : cd_request d1 !! j = Some q).
  { destruct Hcom as (_ & _ & Hd). apply domain_parts in Hd as (_ & -> & _). simpl. by rewrite lookup_insert_eq. }
  destruct (reread_request _ _ _ _ _ j q (proj2 Hok') Hload Hq Hqr) as [-> ->]. rewrite Hqs, Hqv.
  do 7 eexists. split; [|reflexivity]. split; [exact Hcom|done|done|done|exact Hdom|exact Hev|done| |done| | |by left].
  - exists cid, j, q. simpl. by rewrite lookup_insert_eq.
  - split; try apply local_same. apply local_insert; [apply local_same|congruence].
  - simpl. congruence.
Qed.

Lemma move_effect c i : forall d out d', core_ok d -> op_guard (MoveRequest c i) = Ok tt ->
  op_body (MoveRequest c i) d = (Ok out, d') -> effect (MoveRequest c i) out d d'.
Proof.
  intros d out d' Hok Hg%opaque_nonempty Hrun. apply bindP_ok in Hrun as (r & d1 & Hrun & [= <- <-]).
  destruct (transition_tx_run _ _ _ _ _ _ (proj1 Hok) Hrun) as (cid & Hnm & Href & Hres).
  split; [done|]. simpl. destruct (v_replayed r) eqn:Hr; [by eauto 10|].
  destruct Hres as (j & q & next & Hq & Hqr & Hqc & Hver & Hcmd & Hstep & -> & -> & Hcom).
  apply domainCommand_unattested in Hcmd.
  destruct (request_sound d j q next (db_clock (cd_base d)) (proj2 Hok) Hq Hstep Hcmd) as [Hdom Hev].
  do 7 eexists. split; [|reflexivity]. split; [exact Hcom|done|done|done|exact Hdom|exact Hev|split; [done|by destruct next]| | | | |by left].
  - eexists cid, j, _. simpl. by rewrite lookup_insert_eq.
  - exists j, q. eexists. simpl. split; [exact Hq|]. split; [apply lookup_insert_eq|]. by split_and!.
  - split; try apply local_same. apply local_insert; [apply local_same|simpl; congruence].
  - simpl. congruence.
Qed.

Lemma decide_effect i : forall d out d', core_ok d -> op_guard (Decide i) = Ok tt ->
  op_body (Decide i) d = (Ok out, d') -> effect (Decide i) out d d'.
Proof.
  intros d out d' Hok Hg Hrun. apply bindP_ok in Hrun as (r & d1 & Hrun & [= <- <-]).
  apply bindR_ok in Hg as ([] & Hg%opaque_nonempty & _).
  destruct (recordReviewDecision_tx_run _ _ _ _ (proj1 Hok) Hrun) as (cid & Hnm & Hres).
  split; [done|]. simpl. destruct r.
  - destruct Hres as (ref & st & v & Hrep). by exists (tenantScope (rrd_context i)), (Some cid), ref, st, v.
  - destruct Hres as (j & q & mid & m & k & row & Hq & Hqr & Hqc & _ & _ & _ & _ & Hk & _ & _ & Hrc & _ & Hcom).
    destruct (decision_sound k row d (proj2 Hok) Hk) as [Hdom Hev].
    do 7 eexists. split; [|reflexivity]. split; [exact Hcom|done|done|done|exact Hdom|exact Hev|split; [done|by destruct (rrd_decision i)]| |done| | |by left].
    + by exists cid, j, q.
    + split; try apply local_same. apply local_insert; [apply local_same|congruence].
    + simpl. congruence.
Qed.

Lemma issue_effect i : forall d out d', core_ok d -> op_guard (Issue i) = Ok tt ->
  op_body (Issue i) d = (Ok out, d') -> effect (Issue i) out d d'.
Proof.
  intros d out d' Hok Hg Hrun. apply bindP_ok in Hrun as (r & d1 & Hrun & [= <- <-]).
  apply bindR_ok in Hg as ([] & Hg%opaque_nonempty & _).
  destruct (issue_tx_run _ _ _ _ (proj1 Hok) Hrun) as (cid & Hnm & Href & Hres).
  split; [done|]. simpl. destruct (r_replayed r) eqn:Hr; [by eauto 10|].
  destruct Hres as (Hload & a & s & q & Hiss & Hv & Har & Hac & _ & _ & Hcom).
  destruct (issue_sound a s q d (proj2 Hok) Hiss ltac:(congruence)) as [Hdom Hev].
  destruct (commanded_sound _ _ _ _ _ _ _ _ _ _ Hok Hcom Hdom Hev) as [Hok' _].
  assert (Ha : cd_attestation d1 !! a_id a = Some a /\ cd_status d1 !! a_id a = Some s).
  { destruct Hcom as (_ & _ & Hd). apply domain_parts in Hd as (_ & _ & _ & -> & -> & _). simpl.
    by rewrite !lookup_insert_eq. }
  destruct Ha as [Ha Hs].
  destruct (reread_attestation _ _ _ _ _ _ a s (proj2 Hok') Hload Ha Har Hs) as [-> ->]. rewrite Hv.
  destruct (is_state _ _ _ _ Hiss) as [-> _].
  do 7 eexists. split; [|reflexivity]. split; [exact Hcom|done|done|done|exact Hdom|exact Hev|done| |done| | |by left].
  - exists cid, a. simpl. by rewrite lookup_insert_eq.
  - split; try apply local_same; (apply local_insert; [apply local_same|simpl]); rewrite ?lookup_insert_eq; simpl; congruence.
  - intros j b. simpl. rewrite lookup_insert_Some. intros [[_ <-]|[_ Hb]] Hn; [by exists i, a, s, q|congruence].
Qed.

(** Moving an attestation stays with its committee. *)
Lemma request_committee d a q s : domain_ok d -> attestation_rows d a q s -> vr_committee_id q = a_committee_id a.
Proof.
  intros Hok [Ha Hq _]. destruct (ao_request _ _ _ _ (ok_attestations d Hok) _ a Ha) as (x & Hx & Hc & _). congruence.
Qed.

Lemma move_tenant d a q s st complete t now : vr_committee_id q = a_committee_id a ->
  in_tenant (Some (a_committee_id a)) d (move_attestation a q s st complete t now d).
Proof.
  intros Hq. split; try apply local_same; (apply local_insert; [apply local_same|simpl]); rewrite ?lookup_insert_eq;
    simpl; congruence.
Qed.

Lemma activity_tenant d a q s t activating pre dom : domain_ok d -> attestation_rows d a q s ->
  activity d a q s t activating pre dom -> in_tenant (Some (a_committee_id a)) d dom.
Proof.
  intros Hok Hrows Hact. pose proof (request_committee _ _ _ _ Hok Hrows) as Hq.
  destruct Hact as [? ?|? ? ?|b qb sb _ _ Hsup _ Hb]; [by apply move_tenant..|].
  pose proof (request_committee _ _ _ _ Hok Hb) as Hqb. destruct Hrows as [Ha _ _]. pose proof (ar_row _ _ _ _ Hb) as Hrb.
  destruct (ao_renews _ _ _ _ (ok_attestations d Hok) _ a _ Ha Hsup) as (x & Hx & [Hh _] & _).
  assert (x = b) as -> by congruence. pose proof (renews_other d a b Hok Ha Hsup) as Hne.
  split; try apply local_same; (apply local_insert; [apply local_insert; [apply local_same|]|]); simpl;
    rewrite ?lookup_insert_eq, ?(lookup_insert_ne _ (a_id b) (a_id a)), ?lookup_insert_eq by done; simpl; congruence.
Qed.

(** Activation and expiry add no attestation. *)
Lemma activity_keys d a q s t activating pre dom j : domain_ok d -> attestation_rows d a q s ->
  activity d a q s t activating pre dom -> cd_attestation d !! j = None <-> cd_attestation dom !! j = None.
Proof.
  intros Hok [Ha _ _] Hact. assert (Hins : forall k x y (m : gmap string AttestationTableRow), m !! k = Some x ->
    (<[k := y]> m) !! j = None <-> m !! j = None).
  { intros k x y m Hk. rewrite lookup_insert_None. split; [by intros []|]. intros Hn. split; [done|]. congruence. }
  destruct Hact as [? ?|? ? ?|b qb sb _ _ Hsup _ [Hb _ _]]; simpl; rewrite ?(Hins _ a) by done; try done.
  rewrite (Hins _ b); [by rewrite (Hins _ a)|]. rewrite lookup_insert_ne; [done|]. by eapply renews_other.
Qed.

Lemma active_effect (activating : bool) m d r d' op : core_ok d ->
  op = (if activating then Activate m else Expire m) ->
  changeActiveState_tx (op_name op) activating m d = (Ok r, d') -> effect op (of_attestation r) d d'.
Proof.
  intros Hok Hop Hrun.
  assert (Hctx : op_context op = ma_context m /\ op_reference op = ma_attestationReference m /\
    forall st v, op_result op st v = Some (st, v)) by (rewrite Hop; by destruct activating).
  destruct Hctx as (Hctx & Href & Hres). unfold effect. rewrite Hctx, Href.
  destruct (changeActiveState_tx_run _ _ _ _ _ _ Hok Hrun) as (cid & Hnm & Hrr & Hcase).
  split; [done|]. cbn [of_attestation out_replayed out_result]. destruct (r_replayed r) eqn:Hr.
  { do 5 eexists. split; [exact Hcase|]. by rewrite Hres. }
  destruct Hcase as (Hload & a & q & s & t & pre & dom & Hrows & Har & Hac & Hver & _ & Hact & Hcom).
  destruct (activity_sound _ _ _ _ _ _ _ _ (proj2 Hok) Hrows Hact) as [Hdom Hev].
  destruct (activity_rows _ _ _ _ _ _ _ _ (proj2 Hok) Hrows Hact) as [Ha Hs].
  destruct (commanded_sound _ _ _ _ _ _ _ _ _ _ Hok Hcom Hdom Hev) as [Hok' _].
  pose proof Hcom as (_ & _ & Hd). apply domain_parts in Hd as (_ & _ & _ & Hatt & Hsts & _).
  rewrite <- Hatt in Ha. rewrite <- Hsts in Hs.
  destruct (reread_attestation _ _ _ _ _ _ _ _ (proj2 Hok') Hload Ha Har Hs) as [-> ->].
  exists (tenantScope (ma_context m)), (Some cid), pre, (activity_entry activating (op_name op) a).
  exists (if activating then "active" else "expired"), (st_version s + 1), dom.
  split; [|rewrite Hres; simpl; by destruct activating].
  split; [by rewrite Hctx|done|by rewrite Href|done|exact Hdom|exact Hev| | | | | |].
  - rewrite Href, <- Har. split; [|by destruct activating].
    by apply (ao_named _ _ _ _ (ok_attestations d (proj2 Hok)) _ a (ar_row _ _ _ _ Hrows)).
  - assert (Hp : placed_attestation op (tenantScope (ma_context m)) (Some cid) d dom).
    { exists cid, (attestation_moved (active_target activating) activating a). rewrite Hctx, Href, <- Hatt. do 3 (split; [done|]). split; [exact Ha|done]. }
    rewrite Hop in Hp |- *. by destruct activating.
  - assert (Hp : versioned_attestation m d dom).
    { exists a, s. eexists. rewrite <- Hsts. split; [apply Hrows|]. split; [done|]. split; [apply Hrows|].
      split; [exact Hs|]. by split. }
    rewrite Hop. by destruct activating.
  - rewrite <- Hac. exact (activity_tenant _ _ _ _ _ _ _ _ (proj2 Hok) Hrows Hact).
  - intros j b Hb Hn. apply (activity_keys _ _ _ _ _ _ _ _ j (proj2 Hok) Hrows Hact) in Hn. congruence.
  - rewrite Hop. destruct Hact; [by left|by left|right; eauto].
Qed.

Lemma revoke_effect i d r d' : core_ok d -> revoke_tx i d = (Ok r, d') ->
  effect (Revoke i) (of_attestation r) d d'.
Proof.
  intros Hok Hrun. destruct (revoke_tx_run _ _ _ _ Hok Hrun) as (cid & Hnm & Hrr & Hcase).
  split; [done|]. simpl. destruct (r_replayed r) eqn:Hr; [by eauto 10|].
  destruct Hcase as (Hload & k & v & a & q & s & t & Hrev & Har & Hac & Hver & _ & _ & _ & Hcom).
  destruct (revocable_sound d k v a q s t (db_clock (cd_base d)) (proj2 Hok) Hrev) as [Hdom Hev].
  destruct (commanded_sound _ _ _ _ _ _ _ _ _ _ Hok Hcom Hdom Hev) as [Hok' _].
  pose proof Hcom as (_ & _ & Hd). apply domain_parts in Hd as (_ & _ & _ & Hatt & Hsts & _).
  assert (Ha : cd_attestation d' !! a_id a = Some (attestation_moved st_revoked false a)).
  { rewrite Hatt. simpl. by rewrite lookup_insert_eq. }
  assert (Hs : cd_status d' !! a_id a = Some (status_moved st_revoked t s)).
  { rewrite Hsts. simpl. by rewrite lookup_insert_eq. }
  destruct (reread_attestation _ _ _ _ _ _ _ _ (proj2 Hok') Hload Ha Har Hs) as [-> ->].
  do 7 eexists. split; [|reflexivity]. split; [exact Hcom|done|exact Har|done|exact Hdom|exact Hev| | | | | |by left].
  - simpl. rewrite <- Har. split; [|done].
    by apply (ao_named _ _ _ _ (ok_attestations d (proj2 Hok)) _ a (ar_row _ _ _ _ (rk_rows _ _ _ _ _ _ Hrev))).
  - exists cid, (attestation_moved st_revoked false a). rewrite <- Hatt. do 3 (split; [done|]). split; [exact Ha|done].
  - destruct Hrev as [[R1 _ R3] _ _ _ _]. exists a, s. eexists. rewrite <- Hsts. do 3 (split; [done|]).
    split; [exact Hs|]. by split.
  - destruct Hrev as [Hrows _ Hof _ _]. rewrite <- Hac.
    destruct (move_tenant d a q s st_revoked false t (db_clock (cd_base d)) (request_committee _ _ _ _ (proj2 Hok) Hrows))
      as [M1 M2 M3 M4 _].
    split; [exact M1|exact M2|exact M3|exact M4|]. apply local_insert; [apply local_same|]. simpl.
    by rewrite Hof, lookup_insert_eq.
  - intros j b. destruct Hrev as [Hrows _ _ _ _]. pose proof (ar_row _ _ _ _ Hrows). simpl.
    rewrite lookup_insert_Some. intros [[<- _]|[_ Hb]]; congruence.
Qed.

Lemma lifecycle_effect {Row State Command} (T : LifecycleTable Row State Command) `{!LifecycleTableLaws T}
    (c : Command) (lc : LifecycleCommand) i d r d' :
  core_ok d -> li_externalReference i <> "" -> lifecycle_command_name lc = lr_command_name c ->
  (forall scope cid dom, placed_row T i scope cid d dom -> placed (Move lc i) scope cid d dom) ->
  (forall dom, versioned_row T i d dom -> versioned (Move lc i) d dom) ->
  LifecycleRepository.transition_tx c i d = (Ok r, d') -> effect (Move lc i) (of_lifecycle r) d d'.
Proof.
  intros Hok Hne Hn Hpl Hvr Hrun.
  destruct (lifecycle_tx_run T _ _ _ _ _ (proj1 Hok) Hrun) as (j & row & Hrow & Href & Hrr & Hten & Hself & Hcase).
  split; [done|]. simpl. rewrite Hn. destruct (l_replayed r) eqn:Hr; [by eauto 10|].
  destruct Hcase as (next & row' & Hver & Hcmd & _ & Hass & _ & Hcm & -> & -> & Hcom).
  destruct (lifecycle_step_sound T d j row row' c next i (proj2 Hok) Hrow Hcmd Hass) as [Hdom Hev].
  apply lrl_assign in Hass as (_ & Hv' & Href' & Hcid).
  do 7 eexists. split; [|reflexivity]. split; [exact Hcom|by rewrite <- Hn|done|done|exact Hdom|exact Hev| | | | | |by left].
  - split; [done|]. apply lrl_state.
  - apply Hpl. exists j, row'. rewrite lrl_get, lookup_insert_eq, Href', Href, Hcid. rewrite Href in Hself.
    by split_and!.
  - apply Hvr. exists j, row, row'. by rewrite lrl_get, lookup_insert_eq, Href', Href.
  - destruct (others_parts _ _ (lrl_others (<[j := row']> (lr_rows d)) d)) as (Hreq & Hdec & Hatt & Hsts & Hvoc & _).
    split; rewrite ?Hreq, ?Hdec, ?Hatt, ?Hsts, ?Hvoc; apply local_same.
  - intros x b. destruct (others_parts _ _ (lrl_others (<[j := row']> (lr_rows d)) d)) as (_ & _ & -> & _). congruence.
Qed.

Lemma op_effect op d out d' : core_ok d -> op_guard op = Ok tt -> op_body op d = (Ok out, d') -> effect op out d d'.
Proof.
  intros Hok Hg Hrun. destruct op as [i|c i|i|i|m|m|i|lc i].
  - by apply create_effect.
  - by apply move_effect.
  - by apply decide_effect.
  - by apply issue_effect.
  - apply bindP_ok in Hrun as (r & d1 & Hrun & [= <- <-]). by apply (active_effect true m).
  - apply bindP_ok in Hrun as (r & d1 & Hrun & [= <- <-]). by apply (active_effect false m).
  - apply bindP_ok in Hrun as (r & d1 & Hrun & [= <- <-]). by apply revoke_effect.
  - apply bindP_ok in Hrun as (r & d1 & Hrun & [= <- <-]).
    destruct lc as [c|c|c|c|c|c|c|c]; apply opaque_nonempty in Hg; simpl in Hrun;
      refine (lifecycle_effect _ c _ i d r d1 Hok Hg _ _ _ Hrun); done.
Qed.

(** ** Calls and histories *)

Lemma effect_sound op out d d' : core_ok d -> effect op out d d' -> core_ok d' /\ core_evolves d d'.
Proof.
  intros Hok [_ Heff]. destruct (out_replayed out).
  - destruct Heff as (scope & cid & ref & st & v & Hrep & _). by apply (core_sound_replay _ _ _ _ _ _ _ d d' Hok Hrep).
  - destruct Heff as (scope & cid & pre & en & st & v & dom & [] & _). by eapply commanded_sound.
Qed.

Lemma core_op_sound env op d r d' : core_ok d -> run_op env op d = (r, d') -> core_ok d' /\ core_evolves d d'.
Proof.
  intros Hok [(x & _ & Hs)|(Hg & d0 & out & Hs & Hb & _)]%run_op_cases.
  - split; [by apply (core_ok_same d)|by apply core_evolves_same].
  - pose proof (core_ok_same _ _ Hs Hok) as Hok0.
    destruct (effect_sound _ _ _ _ Hok0 (op_effect _ _ _ _ Hok0 Hg Hb)) as [Hok' Hev].
    split; [done|]. etransitivity; [by apply core_evolves_same|done].
Qed.

Lemma participant_kept d d' i : ad_participant (cd_auth d) ⊆ ad_participant (cd_auth d') ->
  is_Some (CoreDatabase.participant_reference d i) -> is_Some (CoreDatabase.participant_reference d' i).
Proof.
  unfold CoreDatabase.participant_reference. intros Hsub Hi.
  destruct (List.find _ (map_to_list (ad_participant (cd_auth d)))) as [[j k]|] eqn:Hf; [clear Hi|by destruct Hi].
  apply find_some in Hf as [Hin%list_elem_of_In%elem_of_map_to_list Hk].
  destruct (List.find _ (map_to_list (ad_participant (cd_auth d')))) eqn:Hf'; [by eexists|].
  assert (Hin' : (j, k) ∈ map_to_list (ad_participant (cd_auth d'))).
  { apply elem_of_map_to_list. by apply (lookup_weaken (ad_participant (cd_auth d))). }
  apply list_elem_of_In in Hin'. pose proof (find_none _ _ Hf' _ Hin'). congruence.
Qed.

Lemma tables_written d d' : every_table (fun _ _ _ T => written T (lr_rows d) (lr_rows d')) ->
  tables_unique d -> tables_unique d' /\ tables_evolve d d'.
Proof.
  unfold tables_unique, tables_evolve, every_table. intros (W1 & W2 & W3 & W4 & W5 & W6 & W7 & W8) (U1 & U2 & U3 & U4 & U5 & U6 & U7 & U8).
  apply written_sound in W1 as [? ?], W2 as [? ?], W3 as [? ?], W4 as [? ?], W5 as [? ?], W6 as [? ?], W7 as [? ?], W8 as [? ?]; done.
Qed.

Lemma outside_sound d d' : core_ok d -> outside d d' -> core_ok d' /\ core_evolves d d'.
Proof.
  intros [Hc [R C P A V T D]] [Hl Hq Hd Ha Hs Hr Hp Hm Hpol Hw].
  destruct (tables_written _ _ Hw T) as [Hu Ht]. split; [split|split; [by rewrite Hl|]].
  - unfold closed. by rewrite Hl.
  - split; rewrite ?Hq, ?Ha, ?Hs; try done.
    + intros i q Hi. destruct (C i q Hi) as [c Hcm]. destruct Ht as (Hct & _).
      destruct (Hct _ c Hcm) as (c' & Hc' & _). by exists c'.
    + intros i q Hi. by apply (participant_kept d), (P i q Hi).
    + unfold revocations_ok. by rewrite Ha, Hr.
    + unfold core_decisions_ok. rewrite Hd, Hq. by apply (decisions_kept _ _ _ _ _ _ _ (reflexivity _) Hm Hpol).
  - split; rewrite ?Hq, ?Hd, ?Ha, ?Hs, ?Hr; done.
Qed.

Lemma step_sound d d' : core_step d d' -> core_ok d -> core_ok d' /\ core_evolves d d'.
Proof. intros [env op ? r ? Hrun|? ? Hout] Hok; [by eapply core_op_sound|by apply outside_sound]. Qed.

Lemma history_sound d d' : rtc core_step d d' -> core_ok d -> core_ok d' /\ core_evolves d d'.
Proof.
  induction 1 as [d|d d1 d2 Hs _ IH]; intros Hok; [split; [done|reflexivity]|].
  destruct (step_sound _ _ Hs Hok) as [Hok1 Hev1]. destruct (IH Hok1) as [Hok2 Hev2]. split; [done|by etransitivity].
Qed.

(** *** What a call that changed a table did *)

Lemma commanded_same scope cid ctx pre en st v d0 d dom d' :
  same_core d d0 -> commanded scope cid ctx pre en st v d0 dom d' -> commanded scope cid ctx pre en st v d dom d'.
Proof.
  intros Hs (Hl & Hlog & Hd). split; [|split; [|done]].
  - unfold ledgered in *. by rewrite (blind_same cd_idempotency _ _ Hs) in Hl.
  - eapply recorded_all_log; [| |exact Hlog]; [symmetry; by apply (blind_same log)|done].
Qed.

Lemma placed_same op scope cid d d' dom : same_core d d' -> placed op scope cid d' dom -> placed op scope cid d dom.
Proof.
  intros Hs. apply (blind_same domain) in Hs. apply domain_parts in Hs as (_ & _ & _ & _ & _ & _ & _ & Hc & _).
  destruct op as [i|c i|i|i|m|m|i|[c|c|c|c|c|c|c|c] i]; unfold placed, placed_request, placed_attestation, placed_row,
    committee_named, committee_by_reference, Database.committee_reference; by rewrite Hc.
Qed.

Lemma versioned_same op d d' dom : same_core d d' -> versioned op d' dom -> versioned op d dom.
Proof.
  intros Hs. apply (blind_same domain) in Hs. pose proof (domain_lifecycle _ _ Hs) as [Hl Hc].
  apply domain_parts in Hs as (_ & Hq & _ & Ha & Hst & _).
  destruct op as [i|c i|i|i|m|m|i|[c|c|c|c|c|c|c|c] i]; unfold versioned, versioned_row, versioned_attestation; simpl;
    by rewrite ?Hq, ?Ha, ?Hst, ?Hl, ?Hc.
Qed.

Lemma tenant_same cid d d' dom : same_core d d' -> in_tenant cid d' dom -> in_tenant cid d dom.
Proof.
  intros Hs. apply (blind_same domain), domain_parts in Hs as (_ & Hq & Hd & Ha & Hst & Hv & _).
  intros []. rewrite Hq, Hd, Ha, Hst, Hv in *. by split.
Qed.

Lemma took_effect_same op scope cid pre en st v d0 d dom d' :
  same_core d d0 -> took_effect op scope cid pre en st v d0 dom d' -> took_effect op scope cid pre en st v d dom d'.
Proof.
  intros Hs []. split; try done; [by eapply commanded_same| |by eapply placed_same|by eapply versioned_same|by eapply tenant_same|].
  2:{ intros j b Hb Hn. pose proof (domain_parts _ _ (blind_same domain _ _ Hs)) as (_ & _ & _ & Ha & _). rewrite <- Ha in Hn.
      destruct (te_issued0 j b Hb Hn) as (i & a & s & q & -> & Hi & ->). exists i, a, s, q.
      split; [done|]. split; [|done]. by apply (issuable_same _ _ _ _ _ (blind_same domain _ _ Hs)). }
  apply (domain_evolves_same d0 dom); [symmetry; by apply (blind_same domain)|done|done].
Qed.

Lemma took_effect_changes op scope cid pre en st v d dom d' :
  took_effect op scope cid pre en st v d dom d' -> ~ same_core d d'.
Proof.
  intros [((row & Hnone & Heq & _) & _ & _) _ _ _ _ _ _ _ _ _ _ _] Hs. apply (blind_same cd_idempotency) in Hs.
  rewrite Hs in Heq. rewrite Heq, lookup_insert_eq in Hnone. done.
Qed.

(** A call leaves the tables alone, or it took effect; the caller then has
    the result, or the connection was lost. *)
Lemma run_op_effect env op d r d' : core_ok d -> run_op env op d = (r, d') ->
  (same_core d d' /\ forall out, r = Ok out -> out_replayed out = true /\ effect op out d d') \/
  (~ same_core d d' /\ exists out scope cid pre en st v dom, took_effect op scope cid pre en st v d dom d' /\
     out_replayed out = false /\ out_reference out = op_reference op /\ out_result out = op_result op st v /\
     (r = Ok out \/ r = Err connectionLost)).
Proof.
  intros Hok [(x & -> & Hs)|(Hg & d0 & out & Hs & Hb & Hr)]%run_op_cases; [by left|].
  pose proof (op_effect _ _ _ _ (core_ok_same _ _ Hs Hok) Hg Hb) as Heff. pose proof Heff as [Href Hcase].
  destruct (out_replayed out) eqn:Hrep.
  - left. destruct Hcase as (scope & cid & ref & st & v & [Hs' (row & Hrow & Hrest)] & Hres).
    assert (Hs2 : same_core d d') by (by etransitivity). split; [done|]. intros o ->.
    assert (o = out) as -> by (destruct Hr; congruence). split; [done|]. split; [done|]. rewrite Hrep.
    exists scope, cid, ref, st, v. split; [|done]. split; [done|]. exists row.
    by rewrite <- (blind_same cd_idempotency _ _ Hs).
  - right. destruct Hcase as (scope & cid & pre & en & st & v & dom & Ht & Hres).
    apply (took_effect_same _ _ _ _ _ _ _ _ d) in Ht; [|done]. split; [by eapply took_effect_changes|].
    by exists out, scope, cid, pre, en, st, v, dom.
Qed.
End core.
