(* ===== verification/CoreRetry.v ===== *)
(** * CoreRetry: a command that took effect can be called again.

    The ledger entry of a command that took effect stays, and so do the rows
    its replay reads; so the same call later finds its recorded result and
    changes no table. *)
From stdpp Require Import relations.
From S2P Require Import Prelude Errors Transition Lifecycles Guards Text Attestation Json Database AuthDatabase.
From S2P Require Import AuthInvariant CoreDatabase Idempotency VerificationRepository AttestationRepository.
From S2P Require Import LifecycleRepository CoreEffects AttestationInvariant CoreInvariant.
From S2P Require Import RequestEffects AttestationEffects LifecycleEffects CoreSystem CoreFacts.
Local Open Scope Z_scope.

Definition replay_of (out : Outcome) : Outcome :=
  {| out_reference := out_reference out; out_result := out_result out; out_replayed := true |}.

Section retry.
Context `{Platform}.

Lemma bind_run {S E A B} (c : prog S E A) (k : A -> prog S E B) s a s' : c s = (Ok a, s') -> bindP c k s = k a s'.
Proof. intros Hc. unfold bindP. by rewrite Hc. Qed.

(** The result that an entry recorded. *)
Definition recorded_result (ref st : string) (v : Z) (res : IdempotencyResult) : Prop :=
  idem_replayed res = true /\ resultReference res = Some ref /\ resultState res = Some st /\
  resultVersion res = Some v /\ ref <> "" /\ st <> "" /\ v <> 0.

Lemma begin_again scope cid ctx pre en st v d dom d' d2 :
  commanded scope cid ctx pre en st v d dom d' -> core_evolves d' d2 -> en_reference en <> "" -> st <> "" ->
  exists res d3, same_core d2 d3 /\ beginScoped scope cid (en_command en) ctx d2 = (Ok res, d3) /\
    recorded_result (en_reference en) st v res.
Proof.
  intros (Hl & _ & _) [Hsub _] Href Hst.
  assert (Hv : v <> 0). { destruct Hl as (row & _ & _ & _ & _ & _ & _ & _ & _ & _ & Hpos). lia. }
  destruct (ledgered_replays _ _ _ _ _ _ _ _ _ _ Hl Hsub Href Hst) as (row & Hrow & Hrep & Hr & Hs & Hrv).
  destruct (begin_replay _ _ _ _ _ _ Hrow Hrep) as (d3 & Hs3 & Hb). eexists _, d3.
  split; [done|]. split; [exact Hb|]. by split_and!.
Qed.

(** A committee keeps its reference. *)
Lemma committee_evolves d d2 cid c : domain_evolves d d2 -> db_committee (cd_base d) !! cid = Some c ->
  exists c', db_committee (cd_base d2) !! cid = Some c' /\
    committee_external_reference c' = committee_external_reference c.
Proof. intros Hev Hc. destruct (dv_tables _ _ Hev) as (Hct & _). destruct (Hct cid c Hc) as (c' & Hc' & Hr & _). eauto. Qed.

Lemma committee_named_again reference d cid d2 : committee_named reference d cid ->
  domain_evolves d d2 -> domain_ok d2 -> committee_named reference d2 cid.
Proof.
  intros [Hop (c & Hc)] Hev Hok. split; [done|]. apply select_row_some in Hc as [Hc Href%String.eqb_eq].
  destruct (committee_evolves _ _ _ _ Hev Hc) as (c' & Hc' & Hr'). exists c'.
  destruct (ok_tables d2 Hok) as (Hu & _). apply (select_row_found _ _ cid c' Hc').
  - apply String.eqb_eq. congruence.
  - intros j x Hx Hxr%String.eqb_eq. apply (Hu j cid x c' Hx Hc'). simpl. congruence.
Qed.

(** *** The reads of a replay *)

Lemma request_again cid reference st v res d i q :
  domain_ok d -> cd_request d !! i = Some q -> vr_external_reference q = reference -> vr_committee_id q = cid ->
  recorded_result reference st v res ->
  exists r, (let* record := loadRecord cid reference true in
             lift (VerificationRepository.replayRecord record res)) d = (Ok r, d) /\
    of_request r = {| out_reference := reference; out_result := Some (st, v); out_replayed := true |}.
Proof.
  intros Hok Hq Href Hc (_ & Hr & Hs & Hv & _ & Hst & Hnz).
  destruct (loadRow_found cid reference d i q Hok Hq Href Hc) as (p & c & Hl).
  unfold loadRecord, bindP. rewrite Hl. unfold ret, lift, VerificationRepository.replayRecord. simpl.
  rewrite Hr, Hs, Hv, Href. rewrite bool_decide_eq_true_2 by done. simpl.
  replace (negb _) with false by (destruct st; done).
  replace (negb (negb _)) with false by (symmetry; apply negb_false_iff, negb_true_iff, Z.eqb_neq; done).
  by eexists.
Qed.

Lemma attestation_again cid reference st v res d a :
  domain_ok d -> cd_attestation d !! a_id a = Some a -> a_external_reference a = reference -> a_committee_id a = cid ->
  recorded_result reference st v res ->
  exists r, (let* record := AttestationRepository.load cid reference true in
             lift (AttestationRepository.replayRecord record res)) d = (Ok r, d) /\
    of_attestation r = {| out_reference := reference; out_result := Some (st, v); out_replayed := true |}.
Proof.
  intros Hok Ha Href Hc (_ & Hr & Hs & Hv & _ & Hst & Hnz).
  destruct (attestation_row_found None d a cid reference Hok Ha Hc Href) as (r & q & s & Hl & Hra & _).
  unfold AttestationRepository.load, bindP. rewrite Hl. unfold ret, lift, AttestationRepository.replayRecord. simpl.
  rewrite Hr, Hs, Hv, Hra, Href. rewrite bool_decide_eq_true_2 by done. simpl.
  replace (negb _) with false by (destruct st; done).
  replace (negb (negb _)) with false by (symmetry; apply negb_false_iff, negb_true_iff, Z.eqb_neq; done).
  by eexists.
Qed.

(** *** Per command *)

(** What is known when a command that took effect is called again. *)
Record revisit (op : CoreOp) (scope : string) (cid : option string) (st : string) (v : Z) (d dom d2 : CoreDb) : Prop := {
  rv_placed : placed op scope cid d dom;
  rv_ok : domain_ok d2;
  rv_from : domain_evolves d d2;
  rv_evolves : domain_evolves dom d2;
  rv_begin : exists res d3, same_core d2 d3 /\ beginScoped scope cid (op_name op) (op_context op) d2 = (Ok res, d3) /\
    recorded_result (op_reference op) st v res;
}.

Lemma took_effect_revisit op scope cid pre en st v d dom d' d2 :
  took_effect op scope cid pre en st v d dom d' -> core_ok d2 -> core_evolves d' d2 ->
  revisit op scope cid st v d dom d2.
Proof.
  intros [Hcom Hc Hr _ Hok Hev [Hne Hst] Hp _ _ _ _] Hok2 Hev2. pose proof Hcom as (_ & _ & Hd).
  assert (Hdom : domain_evolves dom d2) by (apply (domain_evolves_same d' d2); [by symmetry|done|apply Hev2]).
  split; [done|apply Hok2|by etransitivity|done|].
  rewrite <- Hc, <- Hr. eapply begin_again; [done|done|by rewrite Hr|done].
Qed.

Definition replays_as (op : CoreOp) (st : string) (v : Z) (d2 : CoreDb) : Prop :=
  exists d3, same_core d2 d3 /\ op_body op d2 =
    (Ok {| out_reference := op_reference op; out_result := op_result op st v; out_replayed := true |}, d3).

Lemma revisit_request op scope cid st v d dom d2 : revisit op scope cid st v d dom d2 ->
  placed_request op scope cid d dom ->
  match op with CreateRequest _ | MoveRequest _ _ | Decide _ => True | _ => False end -> replays_as op st v d2.
Proof.
  intros [_ Hok Hfrom Hev (res & d3 & Hs & Hb & Hres)] (c & j & q & -> & -> & Hnm & Hq & Hqc & Hqr) Hop.
  apply (committee_named_again _ _ _ d2) in Hnm; [|done|done]. apply committeeId_named in Hnm.
  pose proof (domain_ok_same _ _ (blind_same domain _ _ Hs) Hok) as Hok3.
  destruct (dv_request _ _ Hev j q Hq) as (q' & Hq' & [Hid _]). unfold request_identity in Hid. injection Hid as E1 E2 _ _ _.
  pose proof (domain_parts _ _ (blind_same domain _ _ Hs)) as (_ & Hreq & _). rewrite <- Hreq in Hq'.
  exists d3. split; [done|]. pose proof Hres as (Hrep & _).
  destruct op as [i|k i|i| | | | |]; try done; simpl in *.
  - unfold createRequest_tx. rewrite <- E1 in Hqr. rewrite <- E2 in Hqc.
    destruct (request_again c _ st v res d3 j q' Hok3 Hq' Hqr Hqc Hres) as (r & Hr & Hout).
    erewrite bind_run; [by rewrite Hout|]. erewrite bind_run; [|exact Hnm]. erewrite bind_run; [|exact Hb].
    by rewrite Hrep.
  - unfold VerificationRepository.transition_tx. rewrite <- E1 in Hqr. rewrite <- E2 in Hqc.
    destruct (request_again c _ st v res d3 j q' Hok3 Hq' Hqr Hqc Hres) as (r & Hr & Hout).
    erewrite bind_run; [by rewrite Hout|]. erewrite bind_run; [|exact Hnm]. erewrite bind_run; [|exact Hb].
    by rewrite Hrep.
  - unfold recordReviewDecision_tx. erewrite bind_run; [reflexivity|].
    erewrite bind_run; [|exact Hnm]. erewrite bind_run; [|exact Hb]. by rewrite Hrep.
Qed.

Lemma revisit_attestation op scope cid st v d dom d2 : revisit op scope cid st v d dom d2 ->
  placed_attestation op scope cid d dom ->
  match op with Issue _ | Activate _ | Expire _ | Revoke _ => True | _ => False end -> replays_as op st v d2.
Proof.
  intros [_ Hok Hfrom Hev (res & d3 & Hs & Hb & Hres)] (c & a & -> & -> & Hnm & Ha & Har & Hac) Hop.
  apply (committee_named_again _ _ _ d2) in Hnm; [|done|done]. apply committeeId_named in Hnm.
  pose proof (domain_ok_same _ _ (blind_same domain _ _ Hs) Hok) as Hok3.
  destruct (dv_attestation _ _ Hev _ a Ha) as (a' & Ha' & [Hid _]). unfold attestation_identity in Hid.
  injection Hid as E0 E1 E2 _ _ _ _ _ _ _. rewrite <- E0 in Ha'. rewrite <- E1 in Har. rewrite <- E2 in Hac.
  pose proof (domain_parts _ _ (blind_same domain _ _ Hs)) as (_ & _ & _ & Hatt & _). rewrite <- Hatt in Ha'.
  destruct (attestation_again c _ st v res d3 a' Hok3 Ha' Har Hac Hres) as (r & Hr & Hout).
  exists d3. split; [done|]. destruct Hres as (Hrep & _).
  destruct op as [| | |i|m|m|i|]; try done; simpl in *;
    [unfold issue_tx|unfold changeActiveState_tx|unfold changeActiveState_tx|unfold revoke_tx];
    (erewrite bind_run; [by rewrite Hout|]); cbv zeta; (erewrite bind_run; [|exact Hnm]);
    (erewrite bind_run; [|exact Hb]); rewrite Hrep; exact Hr.
Qed.

Lemma committee_reference_again d d2 cid :
  (forall c, cid = Some c -> is_Some (db_committee (cd_base d) !! c)) -> domain_evolves d d2 ->
  Database.committee_reference (cd_base d2) cid = Database.committee_reference (cd_base d) cid.
Proof.
  destruct cid as [c|]; [|done]. intros Hc Hev. destruct (Hc c eq_refl) as [r Hr].
  destruct (committee_evolves _ _ _ _ Hev Hr) as (r' & Hr' & He). simpl. rewrite Hr, Hr'. simpl. by rewrite He.
Qed.

Lemma revisit_row {Row State Command} (T : LifecycleTable Row State Command) `{!LifecycleTableLaws T}
    (c : Command) (lc : LifecycleCommand) i scope cid st v d dom d2 :
  revisit (Move lc i) scope cid st v d dom d2 -> placed_row T i scope cid d dom ->
  lifecycle_command_name lc = lr_command_name c ->
  exists r d3, same_core d2 d3 /\ LifecycleRepository.transition_tx c i d2 = (Ok r, d3) /\
    of_lifecycle r = {| out_reference := li_externalReference i; out_result := Some (st, v); out_replayed := true |}.
Proof.
  intros [_ Hok Hfrom Hev (res & d3 & Hs & Hb & Hres)] (j & row & Hrow & Hr & Hcid & -> & Hcm & Hten & Hself) Hn.
  simpl in Hb. rewrite Hn in Hb.
  destruct (lrl_listed _ (dv_tables _ _ Hev) j row Hrow) as (row' & Hrow' & Hr' & Hc' & _).
  assert (Hload : LifecycleRepository.load (li_externalReference i) d2
    = (Ok (j, row', cid, Database.committee_reference (cd_base d2) cid), d2)).
  { unfold LifecycleRepository.load, bindP, gets, id.
    rewrite (select_row_found _ _ j row' Hrow'); [by rewrite Hc', Hcid|by apply String.eqb_eq; rewrite Hr'|].
    intros k x Hx Hxr%String.eqb_eq. apply (lrl_listed _ (ok_tables d2 Hok) k j x row' Hx Hrow'). congruence. }
  assert (Hten2 : other_tenant (Database.committee_reference (cd_base d2) cid) (committeeReference (li_context i)) = false).
  { by rewrite (committee_reference_again d d2). }
  destruct Hres as (Hrep & Hrr & Hrs & Hrv & _ & Hst & Hnz).
  unfold LifecycleRepository.transition_tx. cbv zeta.
  exists {| l_externalReference := li_externalReference i; l_state := st; l_version := v; l_replayed := true |}, d3.
  split; [done|]. split; [|reflexivity]. erewrite bind_run; [|exact Hload]. simpl. erewrite bind_run; [|unfold throwWhen, lift; rewrite Hten2; reflexivity].
  rewrite Hr', Hr. erewrite bind_run; [|unfold throwWhen, lift; rewrite Hself; reflexivity].
  erewrite bind_run; [|exact Hb]. rewrite Hrep, Hrr, Hrs, Hrv.
  rewrite bool_decide_eq_true_2 by done. simpl.
  replace (negb (negb (v =? 0))) with false by (symmetry; apply negb_false_iff, negb_true_iff, Z.eqb_neq; done).
  by destruct st.
Qed.

Lemma revisit_op op scope cid st v d dom d2 : revisit op scope cid st v d dom d2 -> replays_as op st v d2.
Proof.
  intros Hre. pose proof (rv_placed _ _ _ _ _ _ _ _ Hre) as Hp. destruct op as [i|k i|i|i|m|m|i|lc i].
  1-3: by apply (revisit_request _ _ _ _ _ _ _ _ Hre Hp).
  1-4: by apply (revisit_attestation _ _ _ _ _ _ _ _ Hre Hp).
  destruct lc as [c|c|c|c|c|c|c|c]; destruct (revisit_row _ c _ i _ _ _ _ _ _ _ Hre Hp eq_refl) as (r & d3 & Hs & Hb & Ho);
    exists d3; (split; [done|]); simpl; (erewrite bind_run; [by rewrite Ho|exact Hb]).
Qed.

(** A call that took effect, made again on any later state. *)
Lemma run_op_again op scope cid pre en st v d dom d' d2 :
  took_effect op scope cid pre en st v d dom d' -> op_guard op = Ok tt -> core_ok d2 -> core_evolves d' d2 ->
  exists d3, same_core d2 d3 /\ run_op (fun _ => quietAttempt) op d2 =
    (Ok {| out_reference := op_reference op; out_result := op_result op st v; out_replayed := true |}, d3).
Proof.
  intros Ht Hg Hok2 Hev2. pose proof (took_effect_revisit _ _ _ _ _ _ _ _ _ _ _ Ht Hok2 Hev2) as Hre.
  destruct (revisit_op _ _ _ _ _ _ _ _ Hre) as (d3 & Hs & Hb). exists d3. split; [done|]. by apply run_op_quiet.
Qed.
End retry.
