(* ===== verification/CoreProperties.v ===== *)
(** * CoreProperties: what the domain core guarantees.

    Over every history of commands, faults of the pool and outside changes:
    the tables stay well-formed, versions count the moves of a row, a
    command that took effect is logged once and can be called again, and an
    expected version wins once. *)
From stdpp Require Import relations.
From S2P Require Import Prelude Errors Transition Lifecycles Guards Text Attestation Json Database AuthDatabase.
From S2P Require Import AuthInvariant CoreDatabase Idempotency VerificationRepository AttestationRepository.
From S2P Require Import LifecycleRepository CoreEffects AttestationInvariant CoreInvariant.
From S2P Require Import RequestEffects AttestationEffects LifecycleEffects CoreSystem CoreFacts CoreRetry.
Local Open Scope Z_scope.

(** The aggregate a command moves, and the version it expects of it. *)
Inductive Target : Type :=
| OnRequest | OnAttestation | OnCommittee | OnRenewalCycle | OnWalletChallenge | OnConsent | OnAppeal
| OnPrivacyRequest | OnNotification | OnRelyingPartyClient.

Definition lifecycle_target (c : LifecycleCommand) : Target :=
  match c with
  | OfCommittee _ => OnCommittee | OfRenewalCycle _ => OnRenewalCycle | OfWalletChallenge _ => OnWalletChallenge
  | OfConsent _ => OnConsent | OfAppeal _ => OnAppeal | OfPrivacyRequest _ => OnPrivacyRequest
  | OfNotification _ => OnNotification | OfRelyingPartyClient _ => OnRelyingPartyClient
  end.

Definition op_moves (op : CoreOp) : option (Target * string * jsnumber) :=
  match op with
  | CreateRequest _ | Decide _ | Issue _ => None
  | MoveRequest _ i => Some (OnRequest, ti_requestReference i, ti_expectedVersion i)
  | Activate m | Expire m => Some (OnAttestation, ma_attestationReference m, ma_expectedStatusVersion m)
  | Revoke i => Some (OnAttestation, ma_attestationReference (ra_mutation i),
                      ma_expectedStatusVersion (ra_mutation i))
  | Move c i => Some (lifecycle_target c, li_externalReference i, li_expectedVersion i)
  end.

(** The version an aggregate is at. *)
Definition row_at {Row State Command} (T : LifecycleTable Row State Command) (reference : string) (d : CoreDb)
    (v : Z) : Prop :=
  exists j (r : Row), lr_rows d !! j = Some r /\ lr_reference r = reference /\ lr_version r = v.

Definition at_version (t : Target) (reference : string) (d : CoreDb) (v : Z) : Prop :=
  match t with
  | OnRequest => exists j q, cd_request d !! j = Some q /\ vr_external_reference q = reference /\ vr_version q = v
  | OnAttestation => exists a s, cd_attestation d !! a_id a = Some a /\ a_external_reference a = reference /\
      cd_status d !! a_id a = Some s /\ st_version s = v
  | OnCommittee => row_at CommitteeTable.committee_lifecycle_table reference d v
  | OnRenewalCycle => row_at RenewalCycleTable.renewal_cycle_lifecycle_table reference d v
  | OnWalletChallenge => row_at WalletChallengeTable.wallet_challenge_lifecycle_table reference d v
  | OnConsent => row_at ConsentTable.consent_lifecycle_table reference d v
  | OnAppeal => row_at AppealTable.appeal_lifecycle_table reference d v
  | OnPrivacyRequest => row_at PrivacyTable.privacy_lifecycle_table reference d v
  | OnNotification => row_at NotificationTable.notification_lifecycle_table reference d v
  | OnRelyingPartyClient => row_at RelyingPartyTable.relying_party_lifecycle_table reference d v
  end.

Section row_at.
Context {Row State Command : Type} (T : LifecycleTable Row State Command) `{!LifecycleTableLaws T}.

Lemma row_at_inj reference d v v' : domain_ok d -> row_at T reference d v -> row_at T reference d v' -> v = v'.
Proof using All.
  intros Hok (j & r & Hr & He & <-) (k & x & Hx & Hxe & <-).
  assert (j = k) as -> by (apply (lrl_listed _ (ok_tables d Hok) j k r x Hr Hx); congruence). congruence.
Qed.

Lemma row_at_grows reference d d' v : domain_evolves d d' -> row_at T reference d v ->
  exists v', row_at T reference d' v' /\ v <= v'.
Proof using All.
  intros Hev (j & r & Hr & He & <-).
  destruct (lrl_listed _ (dv_tables _ _ Hev) j r Hr) as (r' & Hr' & Hre & _ & n & Hn & _). simpl in Hn.
  exists (lr_version r'). split; [|lia]. exists j, r'. split_and!; congruence.
Qed.

Lemma versioned_row_at i d dom : versioned_row T i d dom ->
  exists v, li_expectedVersion i = Int v /\ row_at T (li_externalReference i) d v /\
    row_at T (li_externalReference i) dom (v + 1).
Proof.
  intros (j & r & r' & Hr & Hr' & He & He' & Hv & Hn). exists (lr_version r). split.
  - destruct (li_expectedVersion i); try done. simpl in Hv. apply Z.eqb_eq in Hv. by rewrite Hv.
  - split; [by exists j, r|by exists j, r'].
Qed.
End row_at.

Lemma at_version_inj t reference d v v' : domain_ok d -> at_version t reference d v -> at_version t reference d v' -> v = v'.
Proof.
  intros Hok. destruct t; try exact (row_at_inj _ reference d v v' Hok).
  - intros (j & q & Hq & He & <-) (k & x & Hx & Hxe & <-).
    assert (j = k) as -> by (apply (ok_requests d Hok j k q x Hq Hx); congruence). congruence.
  - intros (a & s & Ha & He & Hs & <-) (b & x & Hb & Hbe & Hx & <-).
    assert (Hab : a_id a = a_id b) by (apply (ao_reference _ _ _ _ (ok_attestations d Hok) _ _ a b Ha Hb); congruence).
    congruence.
Qed.

Lemma at_version_grows t reference d d' v : domain_evolves d d' -> at_version t reference d v ->
  exists v', at_version t reference d' v' /\ v <= v'.
Proof.
  intros Hev. destruct t; try exact (row_at_grows _ reference d d' v Hev).
  - intros (j & q & Hq & He & <-). destruct (dv_request _ _ Hev j q Hq) as (q' & Hq' & Hid & n & Hn & _). simpl in Hn.
    unfold request_identity in Hid. injection Hid as E _ _ _ _. exists (vr_version q'). split; [|lia].
    exists j, q'. split_and!; congruence.
  - intros (a & s & Ha & He & Hs & <-). destruct (dv_attestation _ _ Hev _ a Ha) as (a' & Ha' & [Hid _]).
    destruct (dv_status _ _ Hev _ s Hs) as (s' & Hs' & _ & Hle & _). unfold attestation_identity in Hid.
    injection Hid as E0 E1 _ _ _ _ _ _ _ _. exists (st_version s'). split; [|done].
    exists a', s'. rewrite E0, E1. done.
Qed.

Lemma sameVersion_true v n : sameVersion v n = true -> n = Int v.
Proof. destruct n; simpl; try done. by intros ->%Z.eqb_eq. Qed.

Section core.
Context `{Platform}.

(** How the rows of one table have moved. *)
Lemma rows_counted {Row State Command} (T : LifecycleTable Row State Command) d d' : table_evolves T d d' ->
  forall i (r : Row), lr_rows d !! i = Some r -> exists (r' : Row) (n : nat), lr_rows d' !! i = Some r' /\
    lr_reference r' = lr_reference r /\ (forall j, lr_committee j r' = lr_committee j r) /\
    lr_version r' = lr_version r + Z.of_nat n /\
    if String.eqb (lr_targetType (LifecycleTable := T)) "wallet_challenge"
    then nsteps (fun s s' => step (Command := Command) s s' \/ link_move (state_name s) (state_name s') = true)
           n (lr_state r) (lr_state r')
    else nsteps (step (Command := Command)) n (lr_state r) (lr_state r').
Proof.
  intros HT i r Hi. destruct (HT i r Hi) as (r' & Hr' & Href & Hc & n & Hn & Hs). exists r', n. simpl in *.
  do 4 (split; [done|]). destruct (String.eqb_spec (lr_targetType (LifecycleTable := T)) "wallet_challenge").
  - revert Hs. apply (nsteps_congruence id). unfold id. intros s s' [?|[_ ?]]; auto.
  - revert Hs. apply (nsteps_congruence id). unfold id. intros s s' [?|[? _]]; done.
Qed.

(** C3: Every history of commands under any behaviour of the pool, and of
    statements of the rest of the program, keeps the tables of the domain
    core well-formed ([core_ok]): every ledger entry is complete; references
    of requests, decisions and of the eight lifecycle tables are unique;
    requests name a committee and a participant that exist; a decision names
    a request, a member and a policy that exist, the first two of its own
    committee, and no member decides a request twice; attestations form
    chains of renewals that agree with their requests, status rows and
    revocations. *)
Theorem core_stays_sound d d' : core_ok d -> rtc core_step d d' -> core_ok d'.
Proof. intros Hok Hh. by apply (history_sound d d'). Qed.

(** C11: In every history a verification request, and every row of the eight
    lifecycle tables, keeps its identity, and its version grows by exactly
    the number of moves that lead from its old state to its new one.  Each
    move is a domain command; of a wallet challenge it may also be an UPDATE
    of the link repository, which consumes, cancels or expires a presented
    challenge.  Review decisions, revocations and recorded results are never
    changed or removed. *)
Theorem versions_count_commands d d' : core_ok d -> rtc core_step d d' ->
  (forall i q, cd_request d !! i = Some q -> exists q' (n : nat), cd_request d' !! i = Some q' /\
     request_identity q' = request_identity q /\ vr_version q' = vr_version q + Z.of_nat n /\
     nsteps (step (Command := Verification.command)) n (vr_state q) (vr_state q')) /\
  every_table (fun Row State Command T => forall i (r : Row), lr_rows d !! i = Some r ->
     exists (r' : Row) (n : nat), lr_rows d' !! i = Some r' /\ lr_reference r' = lr_reference r /\
       (forall j, lr_committee j r' = lr_committee j r) /\ lr_version r' = lr_version r + Z.of_nat n /\
       if String.eqb (lr_targetType (LifecycleTable := T)) "wallet_challenge"
       then nsteps (fun s s' => step (Command := Command) s s' \/ link_move (state_name s) (state_name s') = true)
              n (lr_state r) (lr_state r')
       else nsteps (step (Command := Command)) n (lr_state r) (lr_state r')) /\
  cd_decision d ⊆ cd_decision d' /\ cd_revocation d ⊆ cd_revocation d' /\ cd_idempotency d ⊆ cd_idempotency d'.
Proof.
  intros Hok Hh. destruct (history_sound d d' Hh Hok) as [_ [Hl [Hr Hd _ _ Hv Ht]]]. split; [|split]; [| |done].
  - intros i q Hq. destruct (Hr i q Hq) as (q' & Hq' & Hid & n & Hn & Hs). by exists q', n.
  - unfold tables_evolve, every_table in *. destruct_and!. split_and!; by apply rows_counted.
Qed.

(** C4: In every history a participant has at most one active attestation in a
    committee; an attestation, the request it was issued for and its status
    row always show the same state, and a revocation is on record exactly
    for the revoked ones. *)
Theorem attestations_agree d d' : core_ok d -> rtc core_step d d' ->
  (forall i j a b, cd_attestation d' !! i = Some a -> cd_attestation d' !! j = Some b -> same_holder a b ->
     a_state a = st_active -> a_state b = st_active -> i = j) /\
  (forall i a, cd_attestation d' !! i = Some a ->
     (exists q, cd_request d' !! a_request_id a = Some q /\ vr_state q = request_state_of (a_state a)) /\
     (exists s, cd_status d' !! i = Some s /\ st_state s = a_state a) /\
     (a_state a = st_revoked <-> exists k v, cd_revocation d' !! k = Some v /\ rv_attestation v = i)).
Proof.
  intros Hok Hh. destruct (history_sound d d' Hh Hok) as [[_ [_ _ _ A (V1 & V2 & _) _ _]] _]. split.
  - intros i j a b Ha Hb. by apply (one_active _ _ _ i j a b A Ha Hb).
  - intros i a Ha. destruct (ao_request _ _ _ _ A i a Ha) as (q & Hq & _ & _ & Hs).
    destruct (ao_status _ _ _ _ A i a Ha) as (s & Hst & Hss). split; [by exists q|]. split; [by exists s|]. split.
    + intros Hrev. by apply (V2 i a).
    + intros (k & v & Hk & <-). destruct (V1 k v Hk) as (b & Hb & Hbs). congruence.
Qed.

(** C5: A command that changed a table, whatever its caller saw, can be made
    again at any time later: the call succeeds, says it was replayed, gives
    the recorded state and version, and changes no table. *)
Theorem retry_replays env op d r d' d2 :
  core_ok d -> run_op env op d = (r, d') -> ~ same_core d d' -> rtc core_step d' d2 ->
  exists out d3, run_op (fun _ => quietAttempt) op d2 = (Ok out, d3) /\ same_core d2 d3 /\
    out_replayed out = true /\ out_reference out = op_reference op /\
    (forall first, r = Ok first -> out_result out = out_result first) /\ (forall x, r = Err x -> x = connectionLost).
Proof.
  intros Hok Hrun Hch Hh. destruct (core_op_sound _ _ _ _ _ Hok Hrun) as [Hok' _].
  destruct (history_sound _ _ Hh Hok') as [Hok2 Hev2].
  assert (Hg : op_guard op = Ok tt).
  { apply run_op_cases in Hrun as [(x & _ & Hs)|[Hg _]]; [by destruct Hch|done]. }
  apply (run_op_effect _ _ _ _ _ Hok) in Hrun as [[Hs _]|(_ & out & scope & cid & pre & en & st & v & dom & Ht & _ & _ & Hres & Hr)];
    [by destruct Hch|].
  destruct (run_op_again _ _ _ _ _ _ _ _ _ _ d2 Ht Hg Hok2 Hev2) as (d3 & Hs3 & Hrun).
  do 2 eexists. split; [exact Hrun|]. split; [done|]. split; [done|]. split; [done|].
  split; [intros first ->|intros x ->]; destruct Hr as [Hr|Hr]; simplify_eq; by rewrite ?Hres.
Qed.

(** C7: Every call either changes no table, and then a successful answer is a
    recorded one, or it records exactly one ledger entry with its result and
    appends its audit event and its pending outbox event (the activation of
    a renewal first those of the attestation it ends). *)
Theorem command_logged_once env op d r d' : core_ok d -> run_op env op d = (r, d') ->
  (same_core d d' /\ forall out, r = Ok out -> out_replayed out = true) \/
  (exists scope cid pre en v, ledgered scope cid (op_name op) (op_context op) (op_reference op) (en_new en) v d d' /\
     recorded_all (op_context op) cid (pre ++ [en]) d d' /\
     en_command en = op_name op /\ en_reference en = op_reference op /\
     (pre = [] \/ exists m b, op = Activate m /\ pre = [superseded_entry b]) /\
     (forall out, r = Ok out -> out_replayed out = false /\ out_result out = op_result op (en_new en) v) /\
     (forall x, r = Err x -> x = connectionLost)).
Proof.
  intros Hok [[Hs Hr]|(_ & out & scope & cid & pre & en & st & v & dom & Ht & Hrep & _ & Hres & Hr)]%run_op_effect;
    [left|right|done].
  - split; [done|]. intros o Ho. by apply Hr in Ho as [? _].
  - destruct Ht as [(Hl & Hlog & _) Hc Href <- _ _ _ _ _ _ _ Hpre]. exists scope, cid, pre, en, v.
    rewrite <- Hc, <- Href. split; [done|]. split; [done|]. split; [done|]. split; [done|]. split; [done|].
    split; [intros o ->|intros x ->]; destruct Hr; simplify_eq; by rewrite ?Hres.
Qed.

(** C23: A command changes requests, decisions, attestations, their status and
    revocations of one committee at most, the one its context names. *)
Theorem command_stays_in_tenant env op d r d' : core_ok d -> run_op env op d = (r, d') -> ~ same_core d d' ->
  exists cid, in_tenant cid d d' /\
    match cid with
    | Some c => exists row, db_committee (cd_base d) !! c = Some row /\
        (committee_external_reference row <> "" ->
         committee_external_reference row = committeeReference (op_context op))
    | None => exists c i, op = Move c i
    end.
Proof.
  intros Hok Hrun Hch.
  apply run_op_effect in Hrun as [[Hs _]|(_ & out & scope & cid & pre & en & st & v & dom & Ht & _)]; [done| |done].
  destruct Ht as [(_ & _ & Hd) _ _ _ _ _ _ Hp _ Hten _ _]. exists cid. split.
  - apply domain_parts in Hd as (_ & Hq & Hdec & Ha & Hst & Hv & _). destruct Hten.
    split; by rewrite ?Hq, ?Hdec, ?Ha, ?Hst, ?Hv.
  - assert (Hnamed : forall c, cid = Some c -> committee_named (committeeReference (op_context op)) d c ->
      exists row, db_committee (cd_base d) !! c = Some row /\ committee_external_reference row = committeeReference (op_context op)).
    { intros c _ [_ [row Hrow]]. apply select_row_some in Hrow as [Hrow He%String.eqb_eq]. eauto. }
    destruct op as [i|k i|i|i|m|m|i|lc i]; simpl in *;
      try (destruct Hp as (c & j & q & -> & _ & Hn & _); destruct (Hnamed c eq_refl Hn) as (row & ? & ?); eauto);
      try (destruct Hp as (c & a & -> & _ & Hn & _); destruct (Hnamed c eq_refl Hn) as (row & ? & ?); eauto).
    assert (Hrow : forall Row State Command (T : LifecycleTable Row State Command), placed_row T i scope cid d dom ->
      match cid with
      | Some c => exists row, db_committee (cd_base d) !! c = Some row /\
          (committee_external_reference row <> "" -> committee_external_reference row = committeeReference (li_context i))
      | None => exists c i', Move lc i = Move c i'
      end).
    { intros Row State Command T (j & x & _ & _ & _ & _ & Hcm & Hother & _). destruct cid as [c|]; [|eauto].
      destruct (Hcm c eq_refl) as [row Hrow]. exists row. split; [done|]. intros Hne.
      simpl in Hother. rewrite Hrow in Hother. simpl in Hother. unfold other_tenant in Hother.
      apply String.eqb_eq, negb_false_iff. by destruct (committee_external_reference row). }
    destruct lc; by apply Hrow in Hp.
Qed.

(** *** Expected versions *)

Lemma versioned_at op d dom t reference n : domain_ok dom -> domain_evolves d dom -> versioned op d dom ->
  op_moves op = Some (t, reference, n) ->
  exists v, n = Int v /\ at_version t reference d v /\ at_version t reference dom (v + 1).
Proof.
  intros Hok Hev Hv Hm.
  assert (Hatt : forall m, versioned_attestation m d dom -> exists v, ma_expectedStatusVersion m = Int v /\
    at_version OnAttestation (ma_attestationReference m) d v /\ at_version OnAttestation (ma_attestationReference m) dom (v + 1)).
  { intros m (a & s & s' & Ha & Hr & Hs & Hs' & Hsv & Hn). exists (st_version s). split; [by apply sameVersion_true|].
    split; [by exists a, s|]. destruct (dv_attestation _ _ Hev _ a Ha) as (a' & Ha' & [Hid _]).
    unfold attestation_identity in Hid. injection Hid as E0 E1 _ _ _ _ _ _ _ _. exists a', s'. by rewrite E0, E1. }
  destruct op as [i|c i|i|i|m|m|i|[c|c|c|c|c|c|c|c] i]; simpl in *; try discriminate; injection Hm as <- <- <-;
    try exact (versioned_row_at _ i d dom Hv); try exact (Hatt _ Hv).
  destruct Hv as (j & q & q' & Hq & Hq' & Hr & Hsv & Hn). exists (vr_version q). split; [by apply sameVersion_true|].
  split; [by exists j, q|]. destruct (dv_request _ _ Hev j q Hq) as (x & Hx & Hid & _).
  unfold request_identity in Hid. injection Hid as E _ _ _ _. exists j, q'. split_and!; congruence.
Qed.

(** C22: Of two commands that expect the same version of the same aggregate at
    most one takes effect in a history: no update is lost to a stale read. *)
Theorem expected_version_wins_once env1 op1 d r1 d1 d2 env2 op2 r2 d3 t reference n :
  core_ok d -> run_op env1 op1 d = (r1, d1) -> ~ same_core d d1 -> rtc core_step d1 d2 ->
  run_op env2 op2 d2 = (r2, d3) -> op_moves op1 = Some (t, reference, n) -> op_moves op2 = Some (t, reference, n) ->
  same_core d2 d3.
Proof.
  intros Hok Hrun1 Hch Hh Hrun2 Hm1 Hm2. destruct (core_op_sound _ _ _ _ _ Hok Hrun1) as [Hok1 _].
  destruct (history_sound _ _ Hh Hok1) as [Hok2 [_ Hev]].
  apply run_op_effect in Hrun1 as [[Hs _]|(_ & _ & sc1 & cid1 & pre1 & en1 & st1 & v1 & dom1 & [(_ & _ & Hd) _ _ _ Hdok1 Hdev1 _ _ Hv1 _ _ _] & _)];
    [done| |done].
  apply run_op_effect in Hrun2 as [[Hs _]|(_ & _ & sc2 & cid2 & pre2 & en2 & st2 & v2 & dom2 & [_ _ _ _ Hdok2 Hdev2 _ _ Hv2 _ _ _] & _)];
    [done| |done].
  destruct (versioned_at _ _ _ _ _ _ Hdok1 Hdev1 Hv1 Hm1) as (v & -> & _ & Hafter).
  destruct (versioned_at _ _ _ _ _ _ Hdok2 Hdev2 Hv2 Hm2) as (w & [= ->] & Hat & _).
  assert (Hev2 : domain_evolves dom1 d2) by (apply (domain_evolves_same d1 d2); done).
  destruct (at_version_grows _ _ _ _ _ Hev2 Hafter) as (v' & Hv' & Hle).
  pose proof (at_version_inj _ _ _ _ _ (proj2 Hok2) Hv' Hat). lia.
Qed.
End core.
