(* ===== verification/CoreCommands.v ===== *)
(** * CoreCommands: what single commands of the domain core guarantee.

    A request moves by its domain command, a decision is admissible, an
    attestation is activated and ended at its boundaries, statusAt answers
    from the stored states; and two commands that the tables never let
    through. *)
From stdpp Require Import relations.
From S2P Require Import Authorization Prelude Errors Transition Lifecycles Guards Text Attestation Json Database AuthDatabase.
From S2P Require Import AuthInvariant CoreDatabase Idempotency VerificationRepository.
From S2P Require Import AttestationRepository LifecycleRepository CoreEffects AttestationInvariant CoreInvariant.
From S2P Require Import RequestEffects AttestationEffects LifecycleEffects CoreSystem CoreFacts.
Local Open Scope Z_scope.

Section core.
Context `{Platform}.

(** A call that changed a table ran its body, once, on the tables it found. *)
Lemma changed_body env op d r d' : core_ok d -> run_op env op d = (r, d') -> ~ same_core d d' ->
  exists d0 out, same_core d d0 /\ core_ok d0 /\ op_guard op = Ok tt /\ op_body op d0 = (Ok out, d') /\
    out_replayed out = false /\ (r = Ok out \/ r = Err connectionLost).
Proof.
  intros Hok [(x & _ & Hs)|(Hg & d0 & out & Hs & Hb & Hr)]%run_op_cases Hch; [by destruct Hch|].
  exists d0, out. pose proof (core_ok_same _ _ Hs Hok) as Hok0. split_and!; try done.
  destruct (out_replayed out) eqn:Hrep; [|done]. destruct Hch.
  destruct (op_effect _ _ _ _ Hok0 Hg Hb) as [_ Heff]. rewrite Hrep in Heff.
  destruct Heff as (scope & cid & ref & st & v & [Hs' _] & _). by etransitivity.
Qed.

Lemma same_parts d d0 : same_core d d0 -> domain d0 = domain d. Proof. apply (blind_same domain). Qed.

Lemma named_same reference d d0 cid : same_core d d0 -> committee_named reference d0 cid -> committee_named reference d cid.
Proof.
  intros (_ & _ & _ & _ & _ & _ & _ & Hc & _)%same_parts%domain_parts. unfold committee_named, committee_by_reference.
  by rewrite Hc.
Qed.

(** A request command that changed a table found the named request in the
    caller's committee at the expected version, and moved that row alone, by
    its domain command, one version on; the answer is the new state. *)
Theorem request_command_exact env c i d r d' :
  core_ok d -> run_op env (MoveRequest c i) d = (r, d') -> ~ same_core d d' ->
  exists cid j q next, committee_named (committeeReference (ti_context i)) d cid /\
    cd_request d !! j = Some q /\ vr_external_reference q = ti_requestReference i /\ vr_committee_id q = cid /\
    ti_expectedVersion i = Int (vr_version q) /\ domainCommand c (vr_state q) = Ok next /\
    domain d' = domain (with_request (<[j := request_moved next (db_clock (cd_base d)) q]>) d) /\
    forall out, r = Ok out -> out = {| out_reference := ti_requestReference i;
                                       out_result := Some (state_name next, vr_version q + 1);
                                       out_replayed := false |}.
Proof.
  intros Hok Hrun Hch. destruct (changed_body _ _ _ _ _ Hok Hrun Hch) as (d0 & out & Hs & [Hcl _] & _ & Hb & Hrep & Hr).
  apply bindP_ok in Hb as (rec & d1 & Hb & [= <- <-]). simpl in Hrep.
  destruct (transition_tx_run _ _ _ _ _ _ Hcl Hb) as (cid & Hnm & Href & Hres). rewrite Hrep in Hres.
  destruct Hres as (j & q & next & Hq & Hqr & Hqc & Hver & Hcmd & _ & Hst & Hv & (_ & _ & Hd)).
  pose proof (same_parts _ _ Hs) as Hdom. pose proof (domain_parts _ _ Hdom) as (_ & Hreq & _ & _ & _ & _ & _ & _ & Hck).
  exists cid, j, q, next. split; [by eapply named_same|]. rewrite <- Hreq. do 3 (split; [done|]).
  split; [by destruct (ti_expectedVersion i); try done; apply Z.eqb_eq in Hver as ->|]. split; [done|]. split.
  - rewrite Hd, Hck. by apply domain_with_request.
  - intros o ->. destruct Hr as [[= ->]|]; [|done]. unfold of_request. by rewrite Href, Hst, Hv, Hrep.
Qed.

(** C24: A review decision is recorded only on a request under review in the
    caller's committee, by an active member of it without an unresolved
    conflict over that request who has not decided on it before, and by the
    actor that the authorization allowed. *)
Theorem decision_admissible env i d r d' :
  core_ok d -> run_op env (Decide i) d = (r, d') -> ~ same_core d d' ->
  (exists e, requireEligibleReviewer (rrd_authorization i) = Ok e /\
     eligible_actorReference e = actor_reference (actor (rrd_context i))) /\
  exists cid j q memberId m k row, committee_named (committeeReference (rrd_context i)) d cid /\
    cd_request d !! j = Some q /\ vr_external_reference q = rrd_requestReference i /\ vr_committee_id q = cid /\
    vr_state q = Verification.under_review /\
    committee_members d !! memberId = Some m /\
    cm_external_reference m = rrd_reviewerMemberReference i /\ cm_committee_id m = cid /\ cm_state m = ms_active /\
    (forall x, x ∈ conflict_declarations d ->
       unresolvedConflict memberId cid (rrd_requestReference i) x = false) /\
    (forall x y, cd_decision d !! x = Some y -> ~ (rd_request_id y = j /\ rd_reviewer_member_id y = memberId)) /\
    rd_request_id row = j /\ rd_reviewer_member_id row = memberId /\ rd_state row = rrd_decision i /\
    domain d' = domain (with_decision (<[k := row]>) d).
Proof.
  intros Hok Hrun Hch. destruct (changed_body _ _ _ _ _ Hok Hrun Hch) as (d0 & out & Hs & [Hcl _] & Hg & Hb & Hrep & _).
  apply bindP_ok in Hb as (replayed & d1 & Hb & [= <- <-]). simpl in Hrep. subst replayed. split.
  - simpl in Hg. apply bindR_ok in Hg as ([] & _ & Hg). apply bindR_ok in Hg as (e & He & Hg). exists e. split; [done|].
    apply bindR_ok in Hg as ([] & Ht & _). by apply throwIf_ok, negb_false_iff, String.eqb_eq in Ht.
  - destruct (recordReviewDecision_tx_run _ _ _ _ Hcl Hb) as (cid & Hnm & j & q & mid & m & k & row & Hq & Hqr & Hqc
      & Hqs & Hm & Hact & Hconf & [_ _ Hfirst _ _ _] & Hrj & Hrm & _ & Hrs & (_ & _ & Hd)).
    pose proof (same_parts _ _ Hs) as Hdom. pose proof (domain_parts _ _ Hdom) as (_ & Hreq & Hdec & _).
    pose proof (domain_members _ _ Hdom) as [Hmem Hcon]. rewrite Hmem, Hcon, Hreq, Hdec in *. rewrite Hrj, Hrm in Hfirst. unfold activeMember in Hact. rewrite !andb_true_iff, !String.eqb_eq, bool_decide_eq_true in Hact.
    destruct Hact as [[Ha1 Ha2] Ha3].
    exists cid, j, q, mid, m, k, row. split; [by eapply named_same|]. do 13 (split; [done|]).
    rewrite Hd. by apply domain_with_decision.
Qed.

(** C25: An activation that changed a table happened inside the validity window
    of an issued attestation, and superseded, in the same transaction, the
    active attestation that it renews; an expiry happened at or after the
    end of the window of an active one. *)
Theorem activation_and_expiry env m d r d' : core_ok d ->
  (run_op env (Activate m) d = (r, d') -> ~ same_core d d' ->
   exists a t, cd_attestation d !! a_id a = Some a /\ a_external_reference a = ma_attestationReference m /\
     ma_observedAt m = Some t /\ a_state a = st_issued /\ a_valid_from a <= t < a_expires_at a /\
     cd_attestation d' !! a_id a = Some (attestation_moved st_active true a) /\
     forall p, a_supersedes_id a = Some p -> exists b, cd_attestation d !! p = Some b /\ a_state b = st_active /\
       cd_attestation d' !! p = Some (attestation_moved st_superseded false b)) /\
  (run_op env (Expire m) d = (r, d') -> ~ same_core d d' ->
   exists a t, cd_attestation d !! a_id a = Some a /\ a_external_reference a = ma_attestationReference m /\
     ma_observedAt m = Some t /\ a_state a = st_active /\ a_expires_at a <= t /\
     cd_attestation d' !! a_id a = Some (attestation_moved st_expired false a)).
Proof.
  intros Hok. assert (Hcase : forall activating op, op = (if activating : bool then Activate m else Expire m) ->
    run_op env op d = (r, d') -> ~ same_core d d' -> exists a q s t pre dom, attestation_rows d a q s /\
      a_external_reference a = ma_attestationReference m /\ ma_observedAt m = Some t /\
      activity d a q s t activating pre dom /\ cd_attestation d' = cd_attestation dom).
  { intros activating op Hop Hrun Hch.
    destruct (changed_body _ _ _ _ _ Hok Hrun Hch) as (d0 & out & Hs & Hok0 & _ & Hb & Hrep & _).
    assert (Hb' : exists rec, changeActiveState_tx (op_name op) activating m d0 = (Ok rec, d') /\ r_replayed rec = false).
    { rewrite Hop in *. destruct activating; apply bindP_ok in Hb as (rec & d1 & Hb & [= <- <-]); by exists rec. }
    destruct Hb' as (rec & Hb' & Hrec). destruct (changeActiveState_tx_run _ _ _ _ _ _ Hok0 Hb') as (cid & _ & _ & Hres).
    rewrite Hrec in Hres. destruct Hres as (_ & a & q & s & t & pre & dom & Hrows & Har & _ & _ & Ht & Hact & (_ & _ & Hd)).
    pose proof (same_parts _ _ Hs) as Hdom. destruct (activity_same _ _ _ _ _ _ _ _ _ Hdom Hact) as (dom' & Hact' & Hd').
    exists a, q, s, t, pre, dom'. split; [by apply (attestation_rows_same d d0)|]. do 3 (split; [done|]).
    rewrite Hd' in Hd. by apply domain_parts in Hd as (_ & _ & _ & -> & _). }
  split; intros Hrun Hch.
  - destruct (Hcase true _ eq_refl Hrun Hch) as (a & q & s & t & pre & dom & Hrows & Har & Ht & Hact & Hatt).
    pose proof (activity_rows _ _ _ _ _ _ _ _ (proj2 Hok) Hrows Hact) as [Ha _].
    exists a, t. rewrite Hatt. split; [apply Hrows|]. split; [done|]. split; [done|].
    inversion Hact as [|Hst Hwin Hnone|b qb sb Hst Hwin Hsup Hbs Hb]; subst pre dom; (split; [done|]; split; [done|]; split; [exact Ha|]).
    + intros p. by rewrite Hnone.
    + intros p. rewrite Hsup. intros [= <-]. exists b. split; [apply Hb|]. split; [done|]. simpl. by rewrite lookup_insert_eq.
  - destruct (Hcase false _ eq_refl Hrun Hch) as (a & q & s & t & pre & dom & Hrows & Har & Ht & Hact & Hatt).
    pose proof (activity_rows _ _ _ _ _ _ _ _ (proj2 Hok) Hrows Hact) as [Ha _].
    exists a, t. rewrite Hatt. split; [apply Hrows|]. split; [done|]. split; [done|].
    inversion Hact as [Hst Hwin| |]; subst pre dom. split; [done|]. split; [done|]. exact Ha.
Qed.

(** *** What never takes effect *)

(** The participant has had attestations in the committee, and none of them
    is issued or active any more. *)
Definition lapsed (cid pid : string) (d : CoreDb) : Prop :=
  (exists i a, cd_attestation d !! i = Some a /\ a_committee_id a = cid /\ a_participant_id a = pid) /\
  (forall i a, cd_attestation d !! i = Some a -> a_committee_id a = cid -> a_participant_id a = pid ->
     a_state a <> st_issued /\ a_state a <> st_active).

(** The next attestation must either have version 1, which is taken, or
    renew an active one. *)
Lemma lapsed_not_issuable cid pid d a s q : domain_ok d -> lapsed cid pid d -> issuable d a s q ->
  a_committee_id a = cid -> a_participant_id a = pid -> False.
Proof.
  intros Hok [(i & b & Hb & Hbc & Hbp) Hend] Hiss Hac Hap. pose proof (ok_attestations d Hok) as A.
  assert (Hv : a_version a = 1 -> False).
  { intros Hv. destruct (chain_down A 1 i b Hb) as (j & x & Hx & [Hc Hp] & Hxv).
    - pose proof (ao_positive _ _ _ _ A i b Hb). lia.
    - pose proof (is_free _ _ _ _ Hiss j x Hx) as Hf. unfold attestation_collides in Hf.
      replace (a_committee_id x) with (a_committee_id a) in Hf by congruence.
      replace (a_participant_id x) with (a_participant_id a) in Hf by congruence.
      by rewrite Hxv, Hv, !String.eqb_refl, !orb_true_r in Hf. }
  pose proof (is_prior _ _ _ _ Hiss) as Hp. destruct (a_supersedes_id a) as [p|]; [|done].
  destruct Hp as (x & Hx & [Hc Hpp] & _ & Hact). destruct (Hend p x Hx) as [_ Hna]; congruence.
Qed.

Lemma ended_stays s s' : rtc (fun s s' => attestation_table s s' = true) s s' ->
  s <> st_issued -> s <> st_active -> s' <> st_issued /\ s' <> st_active.
Proof.
  induction 1 as [|s s1 s' Hs _ IH]; [done|]. intros H1 H2. assert (s1 = s) as ->; [|by apply IH].
  destruct s, s1; vm_compute in Hs; congruence.
Qed.

(** Rows move as allowed, and every new one is somebody else's. *)
Lemma lapsed_evolves cid pid d d' : rows_evolve attestation_evolves (cd_attestation d) (cd_attestation d') ->
  (forall j b, cd_attestation d' !! j = Some b -> cd_attestation d !! j = None ->
     a_committee_id b = cid -> a_participant_id b = pid -> False) ->
  lapsed cid pid d -> lapsed cid pid d'.
Proof.
  intros Hev Hnew [(i & a & Ha & Hc & Hp) Hend]. split.
  - destruct (Hev i a Ha) as (a' & Ha' & [Hid _]). unfold attestation_identity in Hid. exists i, a'. split_and!; congruence.
  - intros j b Hb Hbc Hbp. destruct (cd_attestation d !! j) as [x|] eqn:Hx; [|by destruct (Hnew j b Hb Hx)].
    destruct (Hev j x Hx) as (b' & Hb' & [Hid Hs]). assert (b' = b) as -> by congruence.
    unfold attestation_identity in Hid. destruct (Hend j x Hx) as [H1 H2]; [congruence..|]. by apply (ended_stays (a_state x)).
Qed.

Lemma lapsed_step cid pid d d' : core_ok d -> core_step d d' -> lapsed cid pid d -> lapsed cid pid d'.
Proof.
  intros Hok Hstep Hl. destruct (step_sound _ _ Hstep Hok) as [_ [_ Hev]].
  apply (lapsed_evolves cid pid d); [apply Hev| |done]. destruct Hstep as [env op d r d' Hrun|d d' Hout].
  - intros j b Hb Hn Hc Hp.
    apply run_op_effect in Hrun as [[Hs _]|(_ & out & scope & c & pre & en & st & v & dom & Ht & _)]; [| |done].
    + apply same_parts, domain_parts in Hs as (_ & _ & _ & Ha & _). congruence.
    + pose proof (te_commanded _ _ _ _ _ _ _ _ _ _ Ht) as (_ & _ & Hd).
      apply domain_parts in Hd as (_ & _ & _ & Ha & _). rewrite Ha in Hb.
      destruct (te_issued _ _ _ _ _ _ _ _ _ _ Ht j b Hb Hn) as (i & a & s & q & _ & Hiss & ->).
      exact (lapsed_not_issuable cid pid d a s q (proj2 Hok) Hl Hiss Hc Hp).
  - intros j b Hb Hn. rewrite (os_attestation _ _ Hout) in Hb. congruence.
Qed.

(** Once the last attestation of a participant in a committee has expired or
    was revoked, no history ever attests the participant there again: every
    attempt to issue, with or without a predecessor, leaves the tables as
    they are. *)
Theorem lapsed_never_attested_again cid pid d d' env i r d2 j q :
  core_ok d -> lapsed cid pid d -> rtc core_step d d' ->
  cd_request d' !! j = Some q -> vr_external_reference q = ia_requestReference i ->
  vr_committee_id q = cid -> vr_participant_id q = pid ->
  run_op env (Issue i) d' = (r, d2) -> lapsed cid pid d' /\ same_core d' d2.
Proof.
  intros Hok Hl Hh Hq Hqr Hqc Hqp Hrun.
  assert (Hl' : core_ok d' /\ lapsed cid pid d').
  { clear Hq Hrun. induction Hh as [|d d1 d' Hs _ IH]; [done|]. apply IH; [by apply (step_sound d)|].
    by apply (lapsed_step cid pid d). }
  destruct Hl' as [Hok' Hl']. split; [done|].
  apply run_op_cases in Hrun as [(x & _ & Hs)|(Hg & d0 & out & Hs & Hb & _)]; [done|].
  pose proof (core_ok_same _ _ Hs Hok') as Hok0. apply bindP_ok in Hb as (rec & d1 & Hb & [= <- <-]).
  destruct (issue_tx_run _ _ _ _ (proj1 Hok0) Hb) as (c & _ & _ & Hres).
  destruct (r_replayed rec); [destruct Hres as [Hs' _]; by etransitivity|].
  destruct Hres as (_ & a & s & x & Hiss & _ & _ & Hac & Hxr & _ & _).
  apply (issuable_same _ _ _ _ _ (same_parts _ _ Hs)) in Hiss. destruct (is_holder _ _ _ _ Hiss) as [Hc Hp].
  assert (x = q) as ->.
  { pose proof (is_request _ _ _ _ Hiss) as Hx.
    assert (a_request_id a = j) as He by (apply (ok_requests d' (proj2 Hok') _ j x q Hx Hq); congruence). congruence. }
  destruct (lapsed_not_issuable cid pid d' a s q (proj2 Hok') Hl' Hiss); congruence.
Qed.

(** *** statusAt *)









(** [rejectWalletResponse] never takes effect: the row that it would write
    has no rejection reason, which the table's constraint requires. *)
Theorem wallet_rejection_refused env i d r d' : core_ok d ->
  (forall j w, lt_wallet_challenge (cd_lifecycle d) !! j = Some w -> WalletChallengeTable.checks w = true) ->
  run_op env (Move (OfWalletChallenge WalletChallenge.C_rejectWalletResponse) i) d = (r, d') ->
  same_core d d' /\ forall out, r = Ok out -> out_replayed out = true.
Proof.
  intros Hok Hck Hrun. pose proof Hrun as Hcases.
  apply run_op_effect in Hrun as [[Hs Hr]|(Hch & _)]; [|exfalso|done].
  { split; [done|]. intros out Ho. by apply Hr in Ho as [? _]. }
  destruct (changed_body _ _ _ _ _ Hok Hcases Hch) as (d0 & out & Hs & Hok0 & _ & Hb & Hrep & _).
  apply bindP_ok in Hb as (rec & d1 & Hb & [= <- <-]).
  destruct (lifecycle_tx_run WalletChallengeTable.wallet_challenge_lifecycle_table _ _ _ _ _ (proj1 Hok0) Hb)
    as (j & w & Hw & _ & _ & _ & _ & Hres). simpl in Hrep. rewrite Hrep in Hres.
  destruct Hres as (next & w' & _ & Hcmd & _ & Hass & Hchk & _).
  pose proof (domain_lifecycle _ _ (same_parts _ _ Hs)) as [Hlc _].
  assert (Hold : WalletChallengeTable.checks w = true).
  { apply (Hck j w). rewrite <- Hlc. exact Hw. }
  change (lr_state w) with (wc_state w) in Hcmd. change (lr_checks w') with (WalletChallengeTable.checks w') in Hchk.
  change (lc_apply _ _) with (WalletChallengeTable.applyWalletChallenge WalletChallenge.C_rejectWalletResponse (wc_state w)) in Hcmd.
  change (WalletChallengeTable.assign next (wc_version w + 1) i w = Ok w') in Hass.
  unfold WalletChallengeTable.checks in Hold, Hchk. destruct (wc_state w) as [ws|] eqn:Hws; [|done].
  apply bindR_ok in Hcmd as (n & Ha & [= <-]). apply applyTransition_ok in Ha as [Hin ->].
  unfold WalletChallengeTable.assign in Hass. simpl in Hass. injection Hass as <-. simpl in Hchk. in_cases. simpl in Hold.
  destruct (wc_rejection_reason w); [|by rewrite andb_false_r in Hchk]. by rewrite andb_false_r in Hold.
Qed.
End core.
