(* ===== verification/CoreExamples.v ===== *)
(** * CoreExamples: concrete histories of the domain core.

    A committee, a participant and a reviewer; two requests taken to an
    attestation and its renewal, which expires; and the theorems of
    CoreProperties.v and CoreCommands.v applied on them. *)
From stdpp Require Import relations.
From S2P Require Import Authorization Prelude Errors Transition Lifecycles Guards Text Attestation Json Database AuthDatabase.
From S2P Require Import AuthInvariant CoreDatabase Idempotency VerificationRepository.
From S2P Require Import AttestationRepository LifecycleRepository CoreEffects AttestationInvariant CoreInvariant.
From S2P Require Import RequestEffects AttestationEffects LifecycleEffects CoreSystem CoreFacts CoreRetry.
From S2P Require Import CoreProperties CoreCommands.
Local Open Scope Z_scope.

#[local] Existing Instance SamplePlatform.platform.

Definition quiet : nat -> TxAttempt := fun _ => quietAttempt.
(** The server commits and the connection is lost before the reply. *)
Definition losing : nat -> TxAttempt :=
  fun _ => {| connectFails := None; statementFails := None; commitFails := Some CommitReplyLost |}.

(** ** The database *)

Definition start : CoreDb := {|
  cd_auth := {|
    ad_base := with_committee (fun _ => {[ "c1" := {| committee_external_reference := "committee_0001";
                 committee_state := Committee.active; committee_version := 7 |} ]}) SamplePlatform.emptyDb;
    ad_participant := {[ "participant_0001" := "p1" ]}; ad_account := ∅; ad_session := ∅; ad_challenge := ∅;
    ad_bucket := ∅; ad_contact := ∅; ad_passkey := ∅;
    ad_committee := {|
      mt_policy_version := {[ "policy1" ]};
      mt_committee_member := {[ "m1" := {| cm_external_reference := "member_0001"; cm_committee_id := "c1";
                                           cm_state := ms_active |} ]};
      mt_conflict_declaration := []; mt_committee_role := ∅; mt_committee_member_role := [];
      mt_verification_session := ∅; mt_access := ∅; mt_assignment := ∅ |} |};
  cd_reference := {| rt_eligible_snapshot := []; rt_cycle_selection := []; rt_cycle_report := [] |};
  cd_idempotency := ∅; cd_request := ∅; cd_decision := ∅; cd_attestation := ∅; cd_status := ∅; cd_revocation := ∅;
  cd_lifecycle := {| lt_renewal_cycle := ∅;
    lt_wallet_challenge := {[ "w1" := {| wc_external_reference := "wallet_0001";
      wc_state := wcs WalletChallenge.response_received; wc_expires_at := 5000; wc_consumed_at := None;
      wc_rejection_reason := None; wc_version := 3 |} ]};
    lt_consent_receipt := ∅; lt_appeal := ∅; lt_privacy_rights_request := ∅; lt_notification := ∅;
    lt_relying_party_client := ∅ |} |}.

Lemma unique_empty {R} (f : R -> string) : unique_by f (∅ : gmap string R).
Proof. by intros i j r s; rewrite lookup_empty. Qed.
Lemma unique_one {R} (f : R -> string) k (x : R) : unique_by f {[ k := x ]}.
Proof. intros i j r s [<- _]%lookup_singleton_Some [<- _]%lookup_singleton_Some. done. Qed.

Lemma no_row {R} {i : string} {x : R} : (∅ : gmap string R) !! i = Some x -> False.
Proof. by rewrite lookup_empty. Qed.

Lemma start_ok : core_ok start.
Proof.
  split; [by intros key row; unfold start; simpl; rewrite lookup_empty|]. split.
  - exact (unique_empty _).
  - intros i q Hq. destruct (no_row Hq).
  - intros i q Hq. destruct (no_row Hq).
  - split; try exact (unique_empty _); intros;
      match goal with Ha : cd_attestation _ !! _ = Some _ |- _ => destruct (no_row Ha) end.
  - split; [|split; [|exact (unique_empty _)]]; intros i a Ha; destruct (no_row Ha).
  - unfold tables_unique, every_table, table_unique. simpl. split_and!; apply unique_empty || apply unique_one.
  - split; [exact (unique_empty _)|..]; intros;
      match goal with Hd : cd_decision _ !! _ = Some _ |- _ => destruct (no_row Hd) end.
Qed.

(** ** Commands *)

Definition context (key : string) : CommandContext := {|
  actor := {| actor_type := "committee_member"; actor_reference := "member_0001"; authenticationStrength := "passkey" |};
  committeeReference := "committee_0001"; policyVersionReference := "policy:v1"; softwareVersion := "1";
  reasonCategory := "test"; correlationId := "c"; idempotencyKey := key; requestDigest := "digest:" +:+ key |}.

Definition create (r key : string) : CoreOp := CreateRequest {|
  cvr_id := Some r; cvr_externalReference := "request_000" +:+ r; cvr_participantReference := "participant_0001";
  cvr_policyVersionId := "policy1"; cvr_context := context key |}.
Definition move (c : RequestCommand) (r : string) (v : Z) (key : string) : CoreOp := MoveRequest c {|
  ti_requestReference := "request_000" +:+ r; ti_expectedVersion := Int v; ti_context := context key |}.
Definition decision (r key : string) : CoreOp := Decide {|
  rrd_id := None; rrd_externalReference := "decision_000" +:+ r; rrd_requestReference := "request_000" +:+ r;
  rrd_reviewerMemberReference := "member_0001"; rrd_policyVersionId := "policy1"; rrd_decision := rd_approved;
  rrd_authorization := {| actorReference := "member_0001"; actorCommitteeReference := "committee_0001";
    targetCommitteeReference := "committee_0001"; authorized := true; conflicted := false;
    Attestation.policyVersionReference := "policy:v1" |};
  rrd_authorizationJson := "{}"; rrd_context := context key |}.
Definition mutation (a : string) (v t : Z) (key : string) : MutateAttestationInput := {|
  ma_attestationReference := "attestation_000" +:+ a; ma_expectedStatusVersion := Int v; ma_observedAt := Some t;
  ma_context := context key |}.
Definition issuance (a r : string) (from : Z) (prior : option string) (key : string) : IssueAttestationInput := {|
  ia_id := Some a; ia_externalReference := "attestation_000" +:+ a; ia_requestReference := "request_000" +:+ r;
  ia_policyVersionId := "policy1"; ia_validFrom := Some from; ia_expiresAt := Some (from + 1000);
  ia_supersedesReference := prior; ia_context := context key |}.
Definition issuing (a r : string) (from : Z) (prior : option string) (key : string) : CoreOp :=
  Issue (issuance a r from prior key).

(** From a request to an issued attestation. *)
Definition process (r a : string) (from : Z) (prior : option string) : list CoreOp :=
  [create r (r +:+ "1"); move schedule r 1 (r +:+ "2"); move checkIn r 2 (r +:+ "3"); move beginReview r 3 (r +:+ "4");
   decision r (r +:+ "5"); move approve r 4 (r +:+ "6"); move requestIssuance r 5 (r +:+ "7");
   move recordIssuance r 6 (r +:+ "8"); issuing a r from prior (r +:+ "9")].

Definition play (ops : list CoreOp) (d : CoreDb) : CoreDb := foldl (fun d op => snd (run_op quiet op d)) d ops.

Definition history : list CoreOp :=
  process "1" "1" 0 None ++ [Activate (mutation "1" 1 10 "a1")] ++
  process "2" "2" 500 (Some "attestation_0001") ++ [Activate (mutation "2" 1 600 "a2")] ++
  [Expire (mutation "2" 2 1500 "e2")].

Lemma play_history ops d : rtc core_step d (play ops d).
Proof.
  revert d. induction ops as [|op ops IH]; intros d; [reflexivity|]. simpl.
  eapply rtc_l; [|apply IH]. apply (called quiet op d (fst (run_op quiet op d))). by destruct (run_op quiet op d).
Qed.

Lemma play_ok ops d : core_ok d -> core_ok (play ops d).
Proof. intros Hok. by apply (history_sound d), Hok; apply play_history. Qed.

(** Every command of the history takes effect. *)
Example history_effective : size (cd_idempotency (play history start)) = List.length history.
Proof. vm_compute. reflexivity. Qed.

(** ** The theorems, applied *)

Definition after (n : nat) : CoreDb := play (take n history) start.
Lemma after_ok n : core_ok (after n).
Proof. apply play_ok, start_ok. Qed.

Lemma ran env op d : run_op env op d = (fst (run_op env op d), snd (run_op env op d)).
Proof. by destruct (run_op env op d). Qed.

Lemma changed d d' : size (cd_idempotency d') <> size (cd_idempotency d) -> ~ same_core d d'.
Proof. intros Hs Hc. apply Hs. by rewrite (blind_same cd_idempotency _ _ Hc). Qed.

Ltac changes := apply changed; vm_compute; discriminate.

Lemma core_stays d d' : core_ok d -> rtc core_step d d' -> core_ok d'.
Proof. intros Hok Hh. exact (proj1 (history_sound d d' Hh Hok)). Qed.

Lemma core_stays_sound_witness : core_ok start /\ core_ok (play history start).
Proof. split; [exact start_ok|]. exact (core_stays_sound start _ start_ok (play_history history start)). Defined.

(** The link repository presents a challenge and later consumes it. *)
Definition wallet (state : WalletChallenge.WalletChallengeState) (at_ : option Z) (v : Z) : WalletChallengeRow := {|
  wc_external_reference := "wallet_0002"; wc_state := wcs state; wc_expires_at := 5000; wc_consumed_at := at_;
  wc_rejection_reason := None; wc_version := v |}.
Definition put_wallet (w : WalletChallengeRow) (d : CoreDb) : CoreDb :=
  lr_set_rows (LifecycleTable := WalletChallengeTable.wallet_challenge_lifecycle_table)
    (<["w2" := w]> (lt_wallet_challenge (cd_lifecycle d))) d.
Definition presented_wallet : CoreDb := put_wallet (wallet WalletChallenge.presented None 1) start.
Definition consumed_wallet : CoreDb := put_wallet (wallet WalletChallenge.consumed (Some 100) 2) presented_wallet.

Lemma put_wallet_outside w d :
  written WalletChallengeTable.wallet_challenge_lifecycle_table (lt_wallet_challenge (cd_lifecycle d))
    (<["w2" := w]> (lt_wallet_challenge (cd_lifecycle d))) ->
  core_step d (put_wallet w d).
Proof.
  intros Hw. apply elsewhere. split; try reflexivity; unfold every_table; split_and!; try exact Hw; by apply written_not.
Qed.

Lemma wallet_presented : rtc core_step start presented_wallet.
Proof.
  apply rtc_once, put_wallet_outside. apply (written_insert _ _ "w2" (wallet WalletChallenge.presented None 1));
    [reflexivity| |reflexivity].
  intros j x Hx. unfold start in Hx. cbn [cd_lifecycle lt_wallet_challenge] in Hx.
  apply lookup_singleton_Some in Hx as [_ <-]. discriminate.
Qed.

Lemma wallet_consumed : rtc core_step presented_wallet consumed_wallet.
Proof.
  apply rtc_once, put_wallet_outside. apply (written_update _ _ "w2" (wallet WalletChallenge.presented None 1)
                                         (wallet WalletChallenge.consumed (Some 100) 2)); reflexivity.
Qed.

Lemma versions_count_commands_witness :
  (exists q', cd_request (play (drop 1 history) (after 1)) !! "1" = Some q' /\
    exists n : nat, vr_version q' = 1 + Z.of_nat n /\
      nsteps (step (Command := Verification.command)) n Verification.requested (vr_state q')) /\
  nsteps (fun s s' => step (Command := WalletChallenge.command) s s' \/ link_move (state_name s) (state_name s') = true)
    1 (wcs WalletChallenge.presented) (wcs WalletChallenge.consumed).
Proof.
  split.
  - destruct (versions_count_commands (after 1) _ (after_ok 1) (play_history (drop 1 history) (after 1))) as [Hr _].
    destruct (cd_request (after 1) !! "1") as [q|] eqn:Hq; [|exfalso; vm_compute in Hq; discriminate].
    assert (Hv : vr_version q = 1 /\ vr_state q = Verification.requested).
    { assert (Hs : (fun q => (vr_version q, vr_state q)) <$> cd_request (after 1) !! "1" = Some (1, Verification.requested))
        by (vm_compute; reflexivity). rewrite Hq in Hs.
      injection Hs as H1 H2. exact (conj H1 H2). }
    destruct (Hr "1" q Hq) as (q' & n & Hq' & _ & Hn & Hs). exists q'. split; [exact Hq'|]. exists n.
    destruct Hv as [<- <-]. split; [exact Hn|exact Hs].
  - destruct (versions_count_commands presented_wallet consumed_wallet (core_stays start _ start_ok wallet_presented)
                wallet_consumed) as (_ & (_ & _ & Hw & _) & _).
    destruct (Hw "w2" (wallet WalletChallenge.presented None 1) eq_refl) as (r' & n & Hr' & _ & _ & Hn & Hs).
    change (Some (wallet WalletChallenge.consumed (Some 100) 2) = Some r') in Hr'. injection Hr' as <-.
    change (2 = 1 + Z.of_nat n) in Hn. assert (n = 1%nat) as -> by lia. exact Hs.
Defined.

Lemma attestations_agree_witness : exists a s, cd_attestation (play history start) !! "2" = Some a /\
  a_state a = st_expired /\ cd_status (play history start) !! "2" = Some s /\ st_state s = st_expired.
Proof.
  destruct (attestations_agree start _ start_ok (play_history history start)) as [_ Hall].
  destruct (cd_attestation (play history start) !! "2") as [a|] eqn:Ha; [|exfalso; vm_compute in Ha; discriminate].
  assert (Hst : a_state <$> cd_attestation (play history start) !! "2" = Some st_expired) by (vm_compute; reflexivity).
  rewrite Ha in Hst. injection Hst as Hst. destruct (Hall "2" a Ha) as (_ & (s & Hs & Hss) & _).
  exists a, s. split; [reflexivity|]. split; [exact Hst|]. split; [exact Hs|]. rewrite Hss. exact Hst.
Defined.

(** The reply to the second command is lost; it is made again when all is
    over. *)
Definition scheduling : CoreOp := move schedule "1" 1 "12".

Lemma retry_replays_witness :
  fst (run_op losing scheduling (after 1)) = Err connectionLost /\
  exists out d3, run_op quiet scheduling (play (drop 2 history) (snd (run_op losing scheduling (after 1)))) = (Ok out, d3) /\
    out_replayed out = true /\ out_reference out = "request_0001".
Proof.
  split; [vm_compute; reflexivity|]. assert (Hch : ~ same_core (after 1) (snd (run_op losing scheduling (after 1)))) by changes.
  destruct (retry_replays losing scheduling (after 1) _ _ (play (drop 2 history) (snd (run_op losing scheduling (after 1))))
              (after_ok 1) (ran losing scheduling (after 1)) Hch (play_history (drop 2 history) _))
    as (out & d3 & Hrun & _ & Hrep & Href & _).
  exists out, d3. split; [exact Hrun|]. split; [exact Hrep|exact Href].
Defined.

Definition deciding : CoreOp := decision "1" "15".

Lemma command_logged_once_witness : exists cid en,
  recorded_all (context "15") cid [en] (after 4) (snd (run_op quiet deciding (after 4))) /\
  en_command en = "recordReviewDecision" /\ en_reference en = "decision_0001".
Proof.
  assert (Hch : ~ same_core (after 4) (snd (run_op quiet deciding (after 4)))) by changes.
  destruct (command_logged_once quiet deciding (after 4) _ _ (after_ok 4) (ran quiet deciding (after 4)))
    as [[Hs _]|(scope & cid & pre & en & v & _ & Hlog & Hc & Hr & [-> |(m & b & Hop & _)] & _)].
  - destruct (Hch Hs).
  - exists cid, en. split; [exact Hlog|]. split; [exact Hc|exact Hr].
  - discriminate Hop.
Defined.

Lemma command_stays_in_tenant_witness : exists cid, in_tenant cid (after 4) (snd (run_op quiet deciding (after 4))) /\
  exists c, cid = Some c.
Proof.
  assert (Hch : ~ same_core (after 4) (snd (run_op quiet deciding (after 4)))) by changes.
  destruct (command_stays_in_tenant quiet deciding (after 4) _ _ (after_ok 4) (ran quiet deciding (after 4)) Hch)
    as (cid & Hten & Hcid).
  exists cid. split; [exact Hten|]. destruct cid as [c|]; [by exists c|]. destruct Hcid as (c & i & Hop). discriminate Hop.
Defined.

(** Two commands read the request at version 4; the approval comes first. *)
Definition approving : CoreOp := move approve "1" 4 "16".
Definition rejecting : CoreOp := move reject "1" 4 "17".

Lemma expected_version_wins_once_witness :
  let d := after 5 in let d1 := snd (run_op quiet approving d) in
  ~ same_core d d1 /\ same_core d1 (snd (run_op quiet rejecting d1)).
Proof.
  cbv zeta. assert (Hch : ~ same_core (after 5) (snd (run_op quiet approving (after 5)))) by changes. split; [exact Hch|].
  exact (expected_version_wins_once quiet approving (after 5) _ _ _ quiet rejecting _ _ OnRequest "request_0001" (Int 4)
           (after_ok 5) (ran quiet approving (after 5)) Hch (rtc_refl _ _)
           (ran quiet rejecting (snd (run_op quiet approving (after 5)))) eq_refl eq_refl).
Defined.

Lemma request_command_exact_witness : exists q next, cd_request (after 5) !! "1" = Some q /\
  domainCommand approve (vr_state q) = Ok next /\
  domain (snd (run_op quiet approving (after 5)))
  = domain (with_request (<["1" := request_moved next (db_clock (cd_base (after 5))) q]>) (after 5)).
Proof.
  assert (Hch : ~ same_core (after 5) (snd (run_op quiet approving (after 5)))) by changes.
  destruct (request_command_exact quiet approve _ (after 5) _ _ (after_ok 5) (ran quiet approving (after 5)) Hch)
    as (cid & j & q & next & _ & Hq & Href & _ & _ & Hcmd & Hd & _).
  destruct (cd_request (after 5) !! "1") as [x|] eqn:Hx; [|exfalso; vm_compute in Hx; discriminate].
  assert (Hxr : vr_external_reference <$> cd_request (after 5) !! "1" = Some "request_0001") by (vm_compute; reflexivity).
  rewrite Hx in Hxr. injection Hxr as Hxr.
  assert (Hj : j = "1").
  { apply (ok_requests (after 5) (proj2 (after_ok 5)) j "1" q x Hq Hx). rewrite Href, Hxr. reflexivity. }
  subst j. assert (x = q) as -> by congruence. exists q, next. split; [reflexivity|]. split; [exact Hcmd|exact Hd].
Defined.

Lemma decision_admissible_witness : exists j q row, cd_request (after 4) !! j = Some q /\
  vr_state q = Verification.under_review /\ rd_request_id row = j /\ rd_state row = rd_approved.
Proof.
  assert (Hch : ~ same_core (after 4) (snd (run_op quiet deciding (after 4)))) by changes.
  destruct (decision_admissible quiet _ (after 4) _ _ (after_ok 4) (ran quiet deciding (after 4)) Hch)
    as (_ & cid & j & q & mid & m & k & row & _ & Hq & _ & _ & Hst & _ & _ & _ & _ & _ & _ & Hj & _ & Hs & _).
  exists j, q, row. split; [exact Hq|]. split; [exact Hst|]. split; [exact Hj|exact Hs].
Defined.

Lemma activation_and_expiry_witness : exists a b,
  cd_attestation (after 19) !! a_id a = Some a /\ a_supersedes_id a = Some "1" /\
  cd_attestation (after 19) !! "1" = Some b /\ a_state b = st_active /\
  cd_attestation (snd (run_op quiet (Activate (mutation "2" 1 600 "a2")) (after 19))) !! "1"
  = Some (attestation_moved st_superseded false b).
Proof.
  set (op := Activate (mutation "2" 1 600 "a2")).
  assert (Hch : ~ same_core (after 19) (snd (run_op quiet op (after 19)))) by changes.
  destruct (proj1 (activation_and_expiry quiet (mutation "2" 1 600 "a2") (after 19) _ _ (after_ok 19))
              (ran quiet op (after 19)) Hch) as (a & t & Ha & Href & _ & _ & _ & _ & Hprior).
  destruct (cd_attestation (after 19) !! "2") as [x|] eqn:Hx; [|exfalso; vm_compute in Hx; discriminate].
  assert (Hxr : (fun a => (a_external_reference a, a_supersedes_id a)) <$> cd_attestation (after 19) !! "2"
    = Some ("attestation_0002", Some "1")) by (vm_compute; reflexivity).
  rewrite Hx in Hxr. injection Hxr as Hxr Hxs.
  assert (He : a_id a = "2").
  { apply (ao_reference _ _ _ _ (ok_attestations (after 19) (proj2 (after_ok 19))) _ "2" a x Ha Hx). rewrite Href, Hxr. reflexivity. }
  rewrite He in Ha. assert (x = a) as -> by congruence.
  destruct (Hprior "1" Hxs) as (b & Hb & Hbs & Hb'). exists a, b. rewrite He. split; [exact Hx|]. split; [exact Hxs|].
  split; [exact Hb|]. split; [exact Hbs|exact Hb'].
Defined.


(** A third request of the participant, after everything has ended. *)
Definition again3 : list CoreOp := take 8 (process "3" "3" 2000 None).
Definition ended : CoreDb := play history start.

Lemma ended_lapsed : lapsed "c1" "p1" ended.
Proof.
  split.
  - destruct (cd_attestation ended !! "1") as [a|] eqn:Ha; [|exfalso; vm_compute in Ha; discriminate].
    assert (Hh : (fun a => (a_committee_id a, a_participant_id a)) <$> cd_attestation ended !! "1" = Some ("c1", "p1"))
      by (vm_compute; reflexivity).
    rewrite Ha in Hh. injection Hh as H1 H2. exists "1", a. split; [exact Ha|]. split; [exact H1|exact H2].
  - assert (Hall : forallb (fun kv => negb (includes [st_issued; st_active] (a_state (snd kv))))
                     (map_to_list (cd_attestation ended)) = true) by (vm_compute; reflexivity).
    rewrite forallb_forall in Hall. intros i a Ha _ _.
    assert (Hin : (i, a) ∈ map_to_list (cd_attestation ended)) by (apply elem_of_map_to_list; exact Ha).
    apply list_elem_of_In in Hin. specialize (Hall _ Hin). apply negb_true_iff, includes_false in Hall.
    simpl in Hall. split; intros Hs; apply Hall; rewrite Hs; [by left|right; by left].
Qed.

Lemma lapsed_never_attested_again_witness :
  let d := play again3 ended in
  (exists q, cd_request d !! "3" = Some q /\ vr_state q = Verification.issued) /\
  same_core d (snd (run_op quiet (issuing "3" "3" 2000 None "39") d)).
Proof.
  cbv zeta. set (d := play again3 ended).
  destruct (cd_request d !! "3") as [q|] eqn:Hq; [|exfalso; vm_compute in Hq; discriminate].
  assert (Hf : (fun q => (vr_external_reference q, vr_committee_id q, vr_participant_id q, vr_state q)) <$> cd_request d !! "3"
    = Some ("request_0003", "c1", "p1", Verification.issued)) by (vm_compute; reflexivity).
  rewrite Hq in Hf. injection Hf as H1 H2 H3 H4. split; [exists q; split; [reflexivity|exact H4]|].
  exact (proj2 (lapsed_never_attested_again "c1" "p1" ended d quiet (issuance "3" "3" 2000 None "39") _ _ "3" q (play_ok history start start_ok) ended_lapsed
    (play_history again3 ended) Hq H1 H2 H3 (ran quiet (issuing "3" "3" 2000 None "39") d))).
Defined.

Definition wallet_rejection : CoreOp := Move (OfWalletChallenge WalletChallenge.C_rejectWalletResponse) {|
  li_externalReference := "wallet_0001"; li_expectedVersion := Int 3; li_observedAt := Some 100;
  li_assignmentReference := None; li_context := context "w" |}.

Lemma wallet_rejection_refused_witness :
  fst (run_op quiet wallet_rejection start) = Err (PostgresError "23514") /\
  same_core start (snd (run_op quiet wallet_rejection start)).
Proof.
  split; [vm_compute; reflexivity|].
  refine (proj1 (wallet_rejection_refused quiet _ start _ _ start_ok _ (ran quiet wallet_rejection start))).
  intros j w Hw. unfold start in Hw. cbn [cd_lifecycle lt_wallet_challenge] in Hw.
  apply lookup_singleton_Some in Hw as [_ <-]. vm_compute. reflexivity.
Defined.
