(* ===== verification/AuditFacts.v ===== *)
(** * AuditFacts: the audit hash chain and the transaction wrapper, proved.

    The chain invariant of "audit_event"/"audit_chain_head" that [appendAudit]
    and the trigger maintain over every history, its tamper evidence up to a
    collision of SHA-256, and what [inSerializableTransaction] guarantees its
    callers. *)
From Stdlib Require Import Ascii.
From stdpp Require Import pretty.
From S2P Require Import Prelude Errors Text Json Database.
Local Open Scope Z_scope.

#[global] Instance audit_result_eq_dec : EqDecision audit_result.
Proof. solve_decision. Defined.
#[global] Instance AuditEventRow_eq_dec : EqDecision AuditEventRow.
Proof. solve_decision. Defined.

(** A text without a character, and splitting at its first occurrence. *)
Fixpoint lacks (c : ascii) (s : string) : bool :=
  match s with EmptyString => true | String x s' => negb (Ascii.eqb x c) && lacks c s' end.

Lemma split_at_first c p q j k : lacks c p = true -> lacks c q = true ->
  p +:+ String c j = q +:+ String c k -> p = q /\ j = k.
Proof.
  revert q. induction p as [|x p IH]; intros [|y q]; cbn; rewrite ?andb_true_iff, ?negb_true_iff, ?Ascii.eqb_neq.
  - intros _ _ [= ->]. done.
  - intros _ [? _] [= ? ?]. congruence.
  - intros [? _] _ [= ? ?]. congruence.
  - intros [_ Hp] [_ Hq] [= -> Heq]. by destruct (IH q Hp Hq Heq) as [-> ->].
Qed.

Section audit.
Context `{Platform}.

(** The rows of one chain, in sequence order. *)
Definition chain_of (key : string) (l : list AuditEventRow) : list AuditEventRow :=
  filter (fun e => ae_chain_key e = key) l.

(** Each row carries its predecessor's hash and its own. *)
Fixpoint linked (prev : option string) (l : list AuditEventRow) : Prop :=
  match l with
  | [] => True
  | e :: l' => ae_previous_hash e = prev /\ ae_event_hash e = audit_hash prev e /\
               linked (Some (ae_event_hash e)) l'
  end.

Fixpoint head_hash (prev : option string) (l : list AuditEventRow) : option string :=
  match l with [] => prev | e :: l' => head_hash (Some (ae_event_hash e)) l' end.

(** The invariant: every chain is linked from its start and its head row
    records the last hash; hashes and identifiers are unique. *)
Record audit_ok (d : Db) : Prop := {
  audit_linked : forall key, linked None (chain_of key (db_audit_event d));
  audit_heads : forall key,
    default None (db_audit_chain_head d !! key) = head_hash None (chain_of key (db_audit_event d));
  audit_hashes_unique : NoDup (ae_event_hash <$> db_audit_event d);
  audit_ids_unique : NoDup (ae_id <$> db_audit_event d);
}.

Lemma linked_snoc prev l e :
  linked prev (l ++ [e]) <->
  linked prev l /\ ae_previous_hash e = head_hash prev l /\
  ae_event_hash e = audit_hash (head_hash prev l) e.
Proof. revert prev. induction l as [|x l IH]; intros prev; simpl; [|rewrite IH]; tauto. Qed.

Lemma head_hash_snoc prev l e : head_hash prev (l ++ [e]) = Some (ae_event_hash e).
Proof. revert prev. by induction l as [|x l IH]; intros prev; simpl. Qed.

Lemma chain_of_snoc key l e :
  chain_of key (l ++ [e]) = if decide (ae_chain_key e = key) then chain_of key l ++ [e] else chain_of key l.
Proof.
  unfold chain_of. rewrite filter_app, filter_cons, filter_nil.
  destruct (decide _); [done|]. by rewrite app_nil_r.
Qed.

Lemma audit_hash_set h prev e : audit_hash prev (set_event_hash h e) = audit_hash prev e.
Proof. done. Qed.

(** The trigger refuses a row that does not follow the head, so the
    invariant survives every INSERT that is let through. *)
Lemma insertAuditEvent_ok e d h d' :
  audit_ok d -> insertAuditEvent e d = (Ok h, d') ->
  audit_ok d' /\ db_audit_event d' = db_audit_event d ++ [set_event_hash h e] /\
  h = audit_hash (head_hash None (chain_of (ae_chain_key e) (db_audit_event d))) e.
Proof.
  intros [Hl Hh Hu Hi]. unfold insertAuditEvent. cbv zeta. rewrite Hh.
  set (cur := head_hash None (chain_of (ae_chain_key e) (db_audit_event d))).
  destruct (negb (bool_decide (ae_previous_hash e = cur))) eqn:Hprev; [done|].
  destruct (_ && _); [done|]. destruct (some _ _) eqn:Hfresh; [done|]. intros [= <- <-].
  apply negb_false_iff, bool_decide_eq_true in Hprev.
  assert (Hnew : forall b, b ∈ db_audit_event d -> ae_id b <> ae_id e /\ ae_event_hash b <> audit_hash cur e).
  { intros b Hb. apply not_true_iff_false in Hfresh. rewrite some_true in Hfresh.
    split; intros Heq; apply Hfresh; exists b; (split; [done|]); apply orb_true_iff;
      rewrite !String.eqb_eq; tauto. }
  split; [|done]. split; simpl.
  - intros key. rewrite chain_of_snoc. simpl. destruct (decide _) as [<-|]; [|done].
    rewrite linked_snoc. by split_and!.
  - intros key. rewrite chain_of_snoc. simpl. destruct (decide (ae_chain_key e = key)) as [<-|].
    + by rewrite lookup_insert_eq, head_hash_snoc.
    + by rewrite lookup_insert_ne.
  - rewrite fmap_app. apply NoDup_app. split_and!; [done| |by apply NoDup_singleton].
    intros x (b & -> & Hb)%list_elem_of_fmap. simpl. rewrite list_elem_of_singleton.
    by destruct (Hnew b Hb).
  - rewrite fmap_app. apply NoDup_app. split_and!; [done| |by apply NoDup_singleton].
    intros x (b & -> & Hb)%list_elem_of_fmap. simpl. rewrite list_elem_of_singleton.
    by destruct (Hnew b Hb).
Qed.

Lemma audit_ok_same d d' : same_tables d d' -> audit_ok d -> audit_ok d'.
Proof. destruct d, d'. unfold same_tables, with_ids. simpl. intros [= <- <- <- <- <- <- <- <-] []. by split. Qed.

(** What [appendAudit] reads as the previous hash is what the trigger
    compares it with, so the only refusal left is a clash of a unique key. *)
Lemma appendAudit_spec ctx cid command target res d r d' :
  audit_ok d -> appendAudit ctx cid command target res d = (r, d') ->
  match r with
  | Ok h => audit_ok d' /\ exists e, db_audit_event d' = db_audit_event d ++ [e] /\
              ae_event_hash e = h /\ ae_chain_key e = audit_chain_key ctx cid /\
              ae_command e = command /\ ae_target_reference e = target_reference target /\
              ae_prior_state e = priorState target /\ ae_new_state e = newState target /\
              ae_actor_reference e = actor_reference (actor ctx) /\ ae_result e = res
  | Err x => x = PostgresError "23505" /\ same_tables d d'
  end.
Proof.
  intros Hok. unfold appendAudit, bindP, newId, gets. cbv zeta.
  set (row := Build_AuditEventRow _ _ _ _ _ _ _ _ _ _ _ _ _ _ _ _ _ _ _ _).
  set (d1 := with_ids (S (db_ids d)) d).
  assert (Hd1 : audit_ok d1) by (eapply audit_ok_same; [apply same_tables_ids|done]).
  intros Hins. destruct r as [h|x].
  - destruct (insertAuditEvent_ok row d1 h d' Hd1 Hins) as (Hok' & Hev & _).
    split; [done|]. exists (set_event_hash h row). by rewrite Hev.
  - revert Hins. unfold insertAuditEvent. cbv zeta. simpl.
    rewrite bool_decide_eq_true_2 by done. simpl. destruct (some _ _); [|done].
    intros [= <- <-]. split; [done|]. apply same_tables_ids.
Qed.

(** Appending an audit event keeps every chain linked and its head
    current, adds exactly one row that records the command, its target and
    its states, and can fail only on a clash of a unique key. *)
Theorem append_audit_keeps_chain ctx cid command target res d r d' :
  audit_ok d -> appendAudit ctx cid command target res d = (r, d') ->
  audit_ok d' /\
  match r with
  | Ok h => exists e, db_audit_event d' = db_audit_event d ++ [e] /\
              head_hash None (chain_of (audit_chain_key ctx cid) (db_audit_event d')) = Some h /\
              ae_command e = command /\ ae_target_reference e = target_reference target /\
              ae_prior_state e = priorState target /\ ae_new_state e = newState target /\
              ae_actor_reference e = actor_reference (actor ctx) /\ ae_result e = res
  | Err x => x = PostgresError "23505" /\ same_tables d d'
  end.
Proof.
  intros Hok Happ. pose proof (appendAudit_spec _ _ _ _ _ _ _ _ Hok Happ) as Hs.
  destruct r as [h|x].
  - destruct Hs as [Hok' (e & Hev & Hh & Hk & ? & ? & ? & ? & ? & ?)]. split; [done|].
    exists e. rewrite Hev, chain_of_snoc, decide_True, head_hash_snoc by done. rewrite Hh.
    by split_and!.
  - destruct Hs as [-> Hs]. split; [by eapply audit_ok_same|done].
Qed.

Lemma last_case {A} (l : list A) : l = [] \/ exists l0 x, l = l0 ++ [x].
Proof. induction l using rev_ind; eauto. Qed.

(** ** Tamper evidence *)

(** Everything that happens to the two audit tables: [appendAudit], called
    with anything and whatever it returns (audit.ts holds the only statement
    that writes them), between other statements that leave them alone. *)
Inductive audit_history (d0 : Db) : Db -> Prop :=
| ah_start : audit_history d0 d0
| ah_append d ctx cid command target res : audit_history d0 d ->
    audit_history d0 (snd (appendAudit ctx cid command target res d))
| ah_other d d' : audit_history d0 d -> db_audit_event d' = db_audit_event d ->
    db_audit_chain_head d' = db_audit_chain_head d -> audit_history d0 d'.

Lemma chain_of_prefix key l l' : l `prefix_of` l' -> chain_of key l `prefix_of` chain_of key l'.
Proof. intros [k ->]. unfold chain_of. rewrite filter_app. by apply prefix_app_r. Qed.

Lemma same_tables_audit d d' : same_tables d d' -> db_audit_event d' = db_audit_event d.
Proof. destruct d, d'. unfold same_tables, with_ids. simpl. by intros [= <- <- <- <- <- <- <- <-]. Qed.

(** Histories keep the chains and only ever add to the table. *)
Lemma audit_history_ok d0 d : audit_history d0 d -> audit_ok d0 ->
  audit_ok d /\ db_audit_event d0 `prefix_of` db_audit_event d.
Proof.
  intros Hist H0. induction Hist as [|d ctx cid command target res Hist [Hok Hp]|d d' Hist [[Hl Hh Hu Hi] Hp] He Hc].
  - done.
  - pose proof (appendAudit_spec _ _ _ _ _ _ _ _ Hok (surjective_pairing (appendAudit ctx cid command target res d))) as Hs.
    destruct (fst _) as [h|x].
    + destruct Hs as (Hok' & e & -> & _). split; [done|]. by apply prefix_app_r.
    + destruct Hs as [_ Hs]. split; [by eapply audit_ok_same|]. by rewrite (same_tables_audit _ _ Hs).
  - split; [split|]; by rewrite ?He, ?Hc.
Qed.

(** The text the trigger feeds SHA-256 for a row. *)
Definition hashed_text (e : AuditEventRow) : string :=
  default "" (ae_previous_hash e) +:+ "|" +:+ audit_json (set_event_hash "" e).

(** Two different texts, of a row of [l] and a row of [l'], with one digest. *)
Definition sha256_collision (l l' : list AuditEventRow) : Prop :=
  exists a b, a ∈ l /\ b ∈ l' /\ hashed_text a <> hashed_text b /\
    sha256 (hashed_text a) = sha256 (hashed_text b).

(** What the chain relies on of PostgreSQL and of the digest: the text of a
    row shows every column but the hash, and a hexadecimal digest has no bar. *)
Class AuditTextLaws := {
  audit_json_shows : forall a b, audit_json a = audit_json b -> set_event_hash "" a = set_event_hash "" b;
  digest_no_bar : forall x, lacks "|" (sha256 x) = true;
}.
Context `{Laws : !AuditTextLaws}.

Lemma set_event_hash_inj a b :
  set_event_hash "" a = set_event_hash "" b -> ae_event_hash a = ae_event_hash b -> a = b.
Proof. destruct a, b. unfold set_event_hash. simpl. intros [= -> -> -> -> -> -> -> -> -> -> -> -> -> -> -> -> -> -> ->] ->. done. Qed.

(** The row a previous hash was taken from shows it has no bar. *)
Lemma linked_no_bar l : linked None l -> lacks "|" (default "" (head_hash None l)) = true.
Proof.
  destruct (last_case l) as [->|(l0 & e & ->)]; [done|]. intros Hl. rewrite head_hash_snoc.
  apply linked_snoc in Hl as (_ & _ & ->). apply digest_no_bar.
Qed.

(** One text, one row. *)
Lemma hashed_text_inj l a l' b :
  linked None (l ++ [a]) -> linked None (l' ++ [b]) -> hashed_text a = hashed_text b -> a = b.
Proof.
  intros (Hl & Ha & Hha)%linked_snoc (Hl' & Hb & Hhb)%linked_snoc Ht.
  apply set_event_hash_inj.
  - unfold hashed_text in Ht. rewrite Ha, Hb in Ht.
    apply split_at_first in Ht as [_ Hj]; [|by apply linked_no_bar..].
    exact (audit_json_shows _ _ Hj).
  - rewrite Hha, Hhb, <- Ha, <- Hb. exact (f_equal sha256 Ht).
Qed.

(** Two chains that check out and end in the same hash. *)
Lemma linked_head_inj l l' :
  linked None l -> linked None l' -> head_hash None l' = head_hash None l ->
  l' = l \/ sha256_collision l l'.
Proof.
  revert l'. induction l as [|a l IH] using rev_ind; intros l' Hl Hl' Hhead.
  - destruct (last_case l') as [->|(l0 & b & ->)]; [by left|]. by rewrite head_hash_snoc in Hhead.
  - destruct (last_case l') as [->|(l0 & b & ->)]; [by rewrite head_hash_snoc in Hhead|].
    rewrite !head_hash_snoc in Hhead. injection Hhead as Hhead.
    destruct (decide (hashed_text a = hashed_text b)) as [Ht|Hne].
    + pose proof (hashed_text_inj _ _ _ _ Hl Hl' Ht) as ->.
      apply linked_snoc in Hl as (Hl & Hpa & _), Hl' as (Hl' & Hpb & _).
      destruct (IH l0 Hl Hl' ltac:(congruence)) as [->|(x & y & ? & ? & ? & ?)]; [by left|].
      right. exists x, y. set_solver.
    + right. exists a, b. apply linked_snoc in Hl as (_ & Hpa & Hha), Hl' as (_ & Hpb & Hhb).
      split_and!; [set_solver..|done|]. unfold hashed_text. rewrite Hpa, Hpb.
      change (audit_hash (head_hash None l) a = audit_hash (head_hash None l0) b). congruence.
Qed.

(** C39: After any history of [appendAudit] calls a chain holds every row it
    ever held, in order, and the hash stored in its head row commits to all
    of them: a list of rows that checks out from its start and ends in that
    hash is the stored chain, row for row, unless it exhibits two different
    texts with the same SHA-256 digest.  So a row that was dropped, inserted,
    reordered or edited shows. *)
Theorem audit_chain_tamper_evident d0 d key l :
  audit_ok d0 -> audit_history d0 d ->
  chain_of key (db_audit_event d0) `prefix_of` chain_of key (db_audit_event d) /\
  (linked None l -> head_hash None l = default None (db_audit_chain_head d !! key) ->
   l = chain_of key (db_audit_event d) \/ sha256_collision (chain_of key (db_audit_event d)) l).
Proof.
  intros H0 Hist. destruct (audit_history_ok d0 d Hist H0) as [[Hl Hh _ _] Hp].
  split; [by apply chain_of_prefix|]. intros Hlin. rewrite Hh. by apply linked_head_inj.
Qed.

End audit.

(** A database transaction is all or nothing: on success the state is
    the body's result, on an error the tables are unchanged — except when
    the server committed and the connection was lost before the reply. *)
Theorem transaction_atomic {A} env (work : M A) d r d' :
  inSerializableTransaction env work d = (r, d') ->
  match r with
  | Ok a => exists d0, same_tables d d0 /\ work d0 = (Ok a, d')
  | Err x => same_tables d d' \/
             (x = connectionLost /\ exists d0 a, same_tables d d0 /\ work d0 = (Ok a, d'))
  end.
Proof.
  destruct r; [apply inSerializableTransaction_ok|apply inSerializableTransaction_err].
Qed.

(** C38: A transaction runs at most three times; it is run again only after a
    serialization failure or a deadlock, always on the unchanged tables, and
    the outcome reported is that of the last run. *)
Theorem transaction_retries {A} env (work : M A) d r d' :
  inSerializableTransaction env work d = (r, d') ->
  exists k d0, (1 <= k <= 3)%nat /\ same_tables d d0 /\
    attempt_outcome (env k) work d0 = (r, d') /\
    (k = 3%nat \/ is_retryable r = false \/ connectFails (env k) <> None) /\
    (forall j, (1 <= j < k)%nat -> exists dj x dj', same_tables d dj /\
       attempt_outcome (env j) work dj = (Err x, dj') /\ retryable_code x = true).
Proof. apply (attempts_from_runs 3 1); lia. Qed.

(** ** Witnesses *)

Section witnesses.
Import SamplePlatform.

Definition event_target : AuditTarget :=
  {| target_type := "outbox_event"; target_reference := "e1"; priorState := None; newState := Some "claimed" |}.

Definition appended : result exn string * Db :=
  appendAudit context None "claim" event_target ar_succeeded emptyDb.

Lemma emptyDb_audit_ok `{Platform} : audit_ok emptyDb.
Proof. split; simpl; intros; try done; by constructor. Qed.

Lemma append_audit_keeps_chain_witness : audit_ok (snd appended).
Proof.
  apply (append_audit_keeps_chain context None "claim" event_target ar_succeeded emptyDb
           (fst appended) (snd appended) emptyDb_audit_ok).
  vm_compute. reflexivity.
Defined.

(** A first attempt the server aborts, a second that succeeds. *)
Definition flaky (k : nat) : TxAttempt :=
  if (k =? 1)%nat
  then {| connectFails := None; statementFails := Some (PostgresError "40001"); commitFails := None |}
  else quietAttempt.

Lemma transaction_atomic_witness : exists d0, same_tables emptyDb d0 /\
  newId d0 = inSerializableTransaction flaky newId emptyDb.
Proof.
  destruct (transaction_atomic flaky newId emptyDb _ _
              (surjective_pairing (inSerializableTransaction flaky newId emptyDb))) as (d0 & ? & Hd).
  exists d0. split; [done|]. exact Hd.
Defined.

Lemma transaction_retries_witness : exists k d0, (1 <= k <= 3)%nat /\
  attempt_outcome (flaky k) newId d0 = inSerializableTransaction flaky newId emptyDb.
Proof.
  destruct (transaction_retries flaky newId emptyDb _ _
              (surjective_pairing (inSerializableTransaction flaky newId emptyDb)))
    as (k & d0 & ? & ? & Hd & _).
  exists k, d0. split; [done|]. exact Hd.
Defined.
End witnesses.

(** ** Tampering with a stored chain

    Two platforms whose row text shows every column.  On the first no two
    texts share a digest, and only the stored chain checks out; on the second
    the digest is constant, an edited row checks out too, and exhibits the
    collision. *)
Module SampleAudit.
Definition bit (b : bool) : ascii := if b then "1"%char else "0"%char.

(** Every character as its eight bits. *)
Fixpoint binary (s : string) : string :=
  match s with
  | EmptyString => ""
  | String (Ascii a b c d e f g h) s' =>
    String (bit a) (String (bit b) (String (bit c) (String (bit d)
      (String (bit e) (String (bit f) (String (bit g) (String (bit h) (binary s'))))))))
  end.

Fixpoint cells (l : list (option string)) : string :=
  match l with
  | [] => ""
  | None :: l' => "n," +:+ cells l'
  | Some s :: l' => binary s +:+ "," +:+ cells l'
  end.

Definition row_cells (e : AuditEventRow) : list (option string) :=
  [Some (ae_id e); Some (ae_chain_key e); ae_previous_hash e; Some (ae_actor_type e);
   Some (ae_actor_reference e); ae_committee_id e; Some (ae_command e); Some (ae_target_type e);
   Some (ae_target_reference e); ae_prior_state e; ae_new_state e; Some (ae_policy_version e);
   Some (ae_software_version e); Some (ae_reason_category e); Some (ae_authentication_strength e);
   Some (ae_correlation_id e); Some (ae_idempotency_key_hash e);
   Some (match ae_result e with ar_succeeded => "s" | ar_rejected => "r" | ar_failed => "f" end);
   Some (pretty (ae_occurred_at e))].

Definition injective_platform : Platform := {|
  sha256 := binary; randomUUID := fun n => pretty n; audit_json := fun e => cells (row_cells e);
  jsonb := fun v => Ok v |}.
Definition constant_platform : Platform := {|
  sha256 := fun _ => "00"; randomUUID := fun n => pretty n; audit_json := fun e => cells (row_cells e);
  jsonb := fun v => Ok v |}.

#[local] Instance bit_inj : Inj (=) (=) bit.
Proof. by intros [] []. Qed.

Lemma binary_inj s t : binary s = binary t -> s = t.
Proof.
  revert t. induction s as [|[] s IH]; intros [|[] t]; cbn; intros Heq; try discriminate Heq; [done|].
  injection Heq as ????????Hs. simplify_eq. f_equal. by apply IH.
Qed.

Lemma bit_other c b : c <> "0"%char -> c <> "1"%char -> negb (Ascii.eqb (bit b) c) = true.
Proof. intros. apply negb_true_iff, Ascii.eqb_neq. by destruct b; intros <-. Qed.

Lemma binary_lacks c s : c <> "0"%char -> c <> "1"%char -> lacks c (binary s) = true.
Proof. intros H0 H1. induction s as [|[] s IH]; [done|]. cbn [binary lacks]. by rewrite !bit_other, IH. Qed.

Lemma cells_inj l l' : length l = length l' -> cells l = cells l' -> l = l'.
Proof.
  revert l'. induction l as [|x l IH]; intros [|y l'] Hlen; try discriminate Hlen; [done|].
  injection Hlen as Hlen.
  assert (Hcell : forall x l, cells (x :: l) = default "n" (binary <$> x) +:+ String "," (cells l)) by (by intros []).
  rewrite !Hcell. intros [Hx Hl]%split_at_first.
  - f_equal; [|by apply IH]. destruct x as [x|], y as [y|]; cbn in Hx; [f_equal; by apply binary_inj|..|done].
    + by destruct x as [|[[] ? ? ? ? ? ? ?] ?].
    + by destruct y as [|[[] ? ? ? ? ? ? ?] ?].
  - destruct x; [by apply binary_lacks|done].
  - destruct y; [by apply binary_lacks|done].
Qed.

Lemma row_cells_inj a b : cells (row_cells a) = cells (row_cells b) -> set_event_hash "" a = set_event_hash "" b.
Proof.
  intros Heq%cells_inj; [|done]. destruct a as [????????????????? ? ra oa], b as [????????????????? ? rb ob].
  unfold row_cells, set_event_hash in *. cbn in *. injection Heq as ?????????????????? Ho. subst.
  apply (inj pretty) in Ho. destruct ra, rb; congruence.
Qed.

Lemma injective_laws : AuditTextLaws (H := injective_platform).
Proof. split; [exact row_cells_inj|]. intros x. by apply binary_lacks. Qed.

Lemma constant_laws : AuditTextLaws (H := constant_platform).
Proof. split; [exact row_cells_inj|done]. Qed.

Definition after (p : Platform) : Db :=
  snd (appendAudit (H := p) SamplePlatform.context None "claim" event_target ar_succeeded SamplePlatform.emptyDb).

Lemma after_history p : audit_history (H := p) SamplePlatform.emptyDb (after p).
Proof. apply ah_append, ah_start. Qed.

(** The stored rows with another command. *)
Definition edit (e : AuditEventRow) : AuditEventRow := {|
  ae_id := ae_id e; ae_chain_key := ae_chain_key e; ae_previous_hash := ae_previous_hash e;
  ae_event_hash := ae_event_hash e; ae_actor_type := ae_actor_type e;
  ae_actor_reference := ae_actor_reference e; ae_committee_id := ae_committee_id e;
  ae_command := "succeed"; ae_target_type := ae_target_type e;
  ae_target_reference := ae_target_reference e; ae_prior_state := ae_prior_state e;
  ae_new_state := ae_new_state e; ae_policy_version := ae_policy_version e;
  ae_software_version := ae_software_version e; ae_reason_category := ae_reason_category e;
  ae_authentication_strength := ae_authentication_strength e;
  ae_correlation_id := ae_correlation_id e; ae_idempotency_key_hash := ae_idempotency_key_hash e;
  ae_result := ae_result e; ae_occurred_at := ae_occurred_at e |}.
Definition edited (p : Platform) : list AuditEventRow := edit <$> db_audit_event (after p).

Definition global_head (p : Platform) : option string := default None (db_audit_chain_head (after p) !! "global").

Lemma audit_chain_tamper_evident_witness :
  (let p := injective_platform in
   head_hash None (edited p) = global_head p /\ ~ linked (H := p) None (edited p)) /\
  (let p := constant_platform in
   linked (H := p) None (edited p) /\ head_hash None (edited p) = global_head p /\
   sha256_collision (H := p) (chain_of "global" (db_audit_event (after p))) (edited p)).
Proof.
  split.
  - split; [vm_compute; reflexivity|]. intros Hlin.
    destruct (proj2 (audit_chain_tamper_evident (H := injective_platform) (Laws := injective_laws)
      _ _ "global" (edited injective_platform) emptyDb_audit_ok (after_history _)) Hlin) as [Heq|(a & b & _ & _ & Hne & Heq)].
    + vm_compute. reflexivity.
    + vm_compute in Heq. discriminate Heq.
    + apply Hne. by apply binary_inj.
  - assert (Hlin : linked (H := constant_platform) None (edited constant_platform)) by (vm_compute; done).
    split; [exact Hlin|]. split; [vm_compute; reflexivity|].
    destruct (proj2 (audit_chain_tamper_evident (H := constant_platform) (Laws := constant_laws)
      _ _ "global" (edited constant_platform) emptyDb_audit_ok (after_history _)) Hlin) as [Heq|Hc].
    + vm_compute. reflexivity.
    + vm_compute in Heq. discriminate Heq.
    + exact Hc.
Defined.
End SampleAudit.
