(* ===== verification/Outbox.v ===== *)
(** * Outbox: the leased work queue (packages/db/src/outbox-repository.ts).

    [claimNext], [heartbeat], [succeed], [failRetryable], [failTerminal] and
    [queueStats] as programs on the database; each mutation is the body of
    one serializable transaction.  The suffix [_tx] names that body. *)
From stdpp Require Import pretty.
From S2P Require Import Prelude Errors Transition Guards Text Database.
Local Open Scope Z_scope.

(** ** Data *)

Record OutboxWorkerContext : Type := {
  workerReference : string;
  w_softwareVersion : string;
  w_correlationId : string;
}.

Record OutboxClaim : Type := {
  cl_id : string;
  cl_committeeReference : option string;
  cl_eventType : string;
  cl_aggregateType : string;
  cl_aggregateReference : string;
  cl_schemaVersion : string;
  cl_payloadReference : string;
  cl_payloadDigest : string;
  cl_attempt : Z;
  cl_createdAt : Z;
  cl_leaseExpiresAt : Z;
}.

Record OutboxClaimOptions : Type := {
  eventTypes : option (list string);
  singleWriterByAggregate : bool;   (* options.singleWriterByAggregate ?? false *)
}.

Record OutboxQueueStats : Type := { readyCount : Z; oldestReadyAt : option Z }.

Record RetryFailureOptions : Type := {
  errorClass : string;
  maxAttempts : jsnumber;
  baseBackoffMs : jsnumber;
  maxBackoffMs : jsnumber;
}.

Inductive FailureOutcome : Type := fo_retryable_failed | fo_dead_letter.

(** ** Validation *)

Definition validateEventTypes (types : option (list string)) : result exn (option (list string)) :=
  match types with
  | None => Ok None
  | Some ts =>
    throwif! (length ts =? 0)%nat || some ts (fun value => negb (eventTypePattern value))
      as! RepositoryConflictError "event type filters must be non-empty stable codes" in
    Ok (Some (unique ts))
  end.

(** [n < m] between two numbers of which neither is NaN or infinite. *)
Definition ltNumNum (n m : jsnumber) : bool := match m with Int k => ltNum n k | _ => false end.

Definition validateFailureOptions (options : RetryFailureOptions) : result exn unit :=
  let! _ := requireErrorClass (errorClass options) in
  throwif! negb (isInteger (maxAttempts options)) || ltNum (maxAttempts options) 1
           || negb (isInteger (baseBackoffMs options)) || ltNum (baseBackoffMs options) 1
           || negb (isInteger (maxBackoffMs options))
           || ltNumNum (maxBackoffMs options) (baseBackoffMs options)
    as! RepositoryConflictError "retry settings must be positive and bounded" in
  Ok tt.

(** An integer that passed [Number.isInteger]. *)
Definition integer_of (n : jsnumber) : Z := match n with Int z => z | Frac z => z | NotFinite => 0 end.

(** ** Queries *)

(** The WHERE clause shared by claimNext and queueStats: ready, or claimed
    with an expired lease. *)
Definition is_ready (observedAt : Z) (o : OutboxEventRow) : bool :=
  match oe_state o with
  | OutboxState.pending | OutboxState.retryable_failed => oe_available_at o <=? observedAt
  | OutboxState.claimed =>
    match oe_lease_expires_at o with Some e => e <=? observedAt | None => false end
  | _ => false
  end.

Definition has_type (types : option (list string)) (o : OutboxEventRow) : bool :=
  match types with None => true | Some ts => includes ts (oe_event_type o) end.

(** An unexpired lease on another event of the same type and aggregate. *)
Definition blocks (observedAt : Z) (o active : OutboxEventRow) : bool :=
  negb (String.eqb (oe_id active) (oe_id o))
  && String.eqb (oe_event_type active) (oe_event_type o)
  && String.eqb (oe_aggregate_type active) (oe_aggregate_type o)
  && String.eqb (oe_aggregate_reference active) (oe_aggregate_reference o)
  && bool_decide (oe_state active = OutboxState.claimed)
  && match oe_lease_expires_at active with Some e => observedAt <? e | None => false end.

Definition events (d : Db) : list OutboxEventRow := snd <$> map_to_list (db_outbox_event d).

Definition claimable (d : Db) (observedAt : Z) (types : option (list string)) (single : bool)
    (o : OutboxEventRow) : bool :=
  is_ready observedAt o && has_type types o
  && (negb single || negb (some (events d) (blocks observedAt o))).

(** ORDER BY "available_at", "created_at", "id". *)
Definition before (a b : OutboxEventRow) : bool :=
  (oe_available_at a <? oe_available_at b)
  || ((oe_available_at a =? oe_available_at b)
      && ((oe_created_at a <? oe_created_at b)
          || ((oe_created_at a =? oe_created_at b) && String.ltb (oe_id a) (oe_id b)))).

Fixpoint first_of (l : list OutboxEventRow) : option OutboxEventRow :=
  match l with
  | [] => None
  | a :: l' => match first_of l' with
               | Some b => if before b a then Some b else Some a
               | None => Some a
               end
  end.

(** FOR UPDATE ... SKIP LOCKED LIMIT 1: rows other transactions hold
    ([locked]) are passed over. *)
Definition candidate (locked : string -> bool) (observedAt : Z) (types : option (list string))
    (single : bool) (d : Db) : option OutboxEventRow :=
  first_of (List.filter (fun o => claimable d observedAt types single o && negb (locked (oe_id o)))
              (events d)).

Definition queueStats (observedAt : Z) (types : option (list string)) : M OutboxQueueStats :=
  let* allowedTypes := lift (validateEventTypes types) in
  gets (fun d =>
    let ready := List.filter (fun o => is_ready observedAt o && has_type allowedTypes o) (events d) in
    {| readyCount := Z.of_nat (length ready);
       oldestReadyAt := match ready with
                        | [] => None
                        | o :: os => Some (fold_right (fun x m => Z.min (oe_created_at x) m)
                                                      (oe_created_at o) os)
                        end |}).

(** ** Commands *)

Section commands.
Context `{Platform}.

Definition auditContext (d : Db) (worker : OutboxWorkerContext) (row : OutboxEventRow)
    (command reason : string) : CommandContext := {|
  actor := {| actor_type := "worker"; actor_reference := workerReference worker;
              authenticationStrength := "internal_worker" |};
  committeeReference := default "global_synthetic_scope" (committee_reference d (oe_committee_id row));
  policyVersionReference := "schema:" +:+ oe_schema_version row;
  softwareVersion := w_softwareVersion worker;
  reasonCategory := reason;
  correlationId := w_correlationId worker;
  idempotencyKey := oe_id row +:+ ":" +:+ pretty (oe_attempt_count row) +:+ ":" +:+ command;
  requestDigest := oe_payload_digest row |}.

(** [appendAudit(client, this.auditContext(...), row.committee_id, command,
    { type: "outbox_event", ... }, result)]. *)
Definition audit (worker : OutboxWorkerContext) (row : OutboxEventRow) (command reason : string)
    (prior next : OutboxState) (res : audit_result) : M string :=
  let* context := gets (fun d => auditContext d worker row command reason) in
  appendAudit context (oe_committee_id row) command
    {| target_type := "outbox_event"; target_reference := oe_id row;
       priorState := Some (state_name prior); newState := Some (state_name next) |} res.

Definition recordAttempt (row : OutboxEventRow) (worker : string) (attempt : Z)
    (res : audit_result) (error : option string) (startedAt finishedAt : Z) : M unit :=
  let* uuid := newId in
  insertOutboxAttempt {|
    at_id := uuid; at_outbox_event_id := oe_id row; at_attempt := attempt; at_worker := worker;
    at_result := res; at_error_class := error; at_started_at := startedAt;
    at_finished_at := finishedAt |}.

(** UPDATE "outbox_event": a new lease. *)
Definition leased (owner : string) (from until : Z) (o : OutboxEventRow) : OutboxEventRow := {|
  oe_id := oe_id o; oe_committee_id := oe_committee_id o; oe_event_type := oe_event_type o;
  oe_aggregate_type := oe_aggregate_type o; oe_aggregate_reference := oe_aggregate_reference o;
  oe_schema_version := oe_schema_version o; oe_payload_reference := oe_payload_reference o;
  oe_payload_digest := oe_payload_digest o; oe_idempotency_key_hash := oe_idempotency_key_hash o;
  oe_state := OutboxState.claimed; oe_available_at := oe_available_at o;
  oe_lease_owner := Some owner; oe_lease_acquired_at := Some from; oe_lease_expires_at := Some until;
  oe_attempt_count := oe_attempt_count o + 1; oe_last_error_class := None;
  oe_created_at := oe_created_at o; oe_completed_at := oe_completed_at o |}.

(** UPDATE "outbox_event": the lease extended. *)
Definition extended (until : Z) (o : OutboxEventRow) : OutboxEventRow := {|
  oe_id := oe_id o; oe_committee_id := oe_committee_id o; oe_event_type := oe_event_type o;
  oe_aggregate_type := oe_aggregate_type o; oe_aggregate_reference := oe_aggregate_reference o;
  oe_schema_version := oe_schema_version o; oe_payload_reference := oe_payload_reference o;
  oe_payload_digest := oe_payload_digest o; oe_idempotency_key_hash := oe_idempotency_key_hash o;
  oe_state := oe_state o; oe_available_at := oe_available_at o;
  oe_lease_owner := oe_lease_owner o; oe_lease_acquired_at := oe_lease_acquired_at o;
  oe_lease_expires_at := Some until;
  oe_attempt_count := oe_attempt_count o; oe_last_error_class := oe_last_error_class o;
  oe_created_at := oe_created_at o; oe_completed_at := oe_completed_at o |}.

(** UPDATE "outbox_event": the lease given up, in the state [st]. *)
Definition released (st : OutboxState) (available : Z) (error : option string) (completed : option Z)
    (o : OutboxEventRow) : OutboxEventRow := {|
  oe_id := oe_id o; oe_committee_id := oe_committee_id o; oe_event_type := oe_event_type o;
  oe_aggregate_type := oe_aggregate_type o; oe_aggregate_reference := oe_aggregate_reference o;
  oe_schema_version := oe_schema_version o; oe_payload_reference := oe_payload_reference o;
  oe_payload_digest := oe_payload_digest o; oe_idempotency_key_hash := oe_idempotency_key_hash o;
  oe_state := st; oe_available_at := available;
  oe_lease_owner := None; oe_lease_acquired_at := None; oe_lease_expires_at := None;
  oe_attempt_count := oe_attempt_count o; oe_last_error_class := error;
  oe_created_at := oe_created_at o; oe_completed_at := completed |}.

Definition leaseConflict : exn :=
  RepositoryConflictError "outbox lease is missing, expired, or owned by another worker".

Definition owns_lease (worker : string) (observedAt : Z) (o : OutboxEventRow) : bool :=
  bool_decide (oe_state o = OutboxState.claimed)
  && bool_decide (oe_lease_owner o = Some worker)
  && match oe_lease_expires_at o with Some e => observedAt <? e | None => false end.

Definition loadClaim (eventId worker : string) (observedAt : Z) : M OutboxEventRow :=
  let* d := gets id in
  match db_outbox_event d !! eventId with
  | Some row => throwif* negb (owns_lease worker observedAt row) as! leaseConflict in ret row
  | None => throw leaseConflict
  end.

(** A non-null column (the source's [!]), present by the lease constraint. *)
Definition required {A : Type} (o : option A) : M A :=
  match o with Some a => ret a | None => throw (PostgresError "23502") end.

Definition toClaim (d : Db) (row : OutboxEventRow) (attempt leaseExpiresAt : Z) : OutboxClaim := {|
  cl_id := oe_id row;
  cl_committeeReference :=
    match committee_reference d (oe_committee_id row) with
    | Some c => if falsy_string c then None else Some c
    | None => None
    end;
  cl_eventType := oe_event_type row; cl_aggregateType := oe_aggregate_type row;
  cl_aggregateReference := oe_aggregate_reference row; cl_schemaVersion := oe_schema_version row;
  cl_payloadReference := oe_payload_reference row; cl_payloadDigest := oe_payload_digest row;
  cl_attempt := attempt; cl_createdAt := oe_created_at row; cl_leaseExpiresAt := leaseExpiresAt |}.

(** A claim of an event whose lease expired first closes the lost attempt. *)
Definition recoverExpired (worker : OutboxWorkerContext) (row : OutboxEventRow) (observedAt : Z) : M unit :=
  match oe_state row with
  | OutboxState.claimed =>
    let* owner := required (oe_lease_owner row) in
    let* acquired := required (oe_lease_acquired_at row) in
    run* recordAttempt row owner (oe_attempt_count row) ar_failed (Some "lease_expired") acquired observedAt in
    run* audit worker row "recoverExpiredOutboxLease" "lease_expired"
           OutboxState.claimed OutboxState.claimed ar_succeeded in
    ret tt
  | _ => ret tt
  end.

Definition claimNext_tx (locked : string -> bool) (worker : OutboxWorkerContext) (observedAt : Z)
    (leaseDurationMs : Z) (types : option (list string)) (single : bool) : M (option OutboxClaim) :=
  let* found := gets (candidate locked observedAt types single) in
  match found with
  | None => ret None
  | Some row =>
    run* recoverExpired worker row observedAt in
    let* leaseExpiresAt := lift (bindTimestamp (newDate (observedAt + leaseDurationMs))) in
    let claimed := leased (workerReference worker) observedAt leaseExpiresAt row in
    run* updateOutboxEvent row claimed in
    run* audit worker row "claimOutboxEvent" "worker_claim" (oe_state row) OutboxState.claimed ar_succeeded in
    let* d := gets id in
    ret (Some (toClaim d row (oe_attempt_count claimed) leaseExpiresAt))
  end.

Definition claimNext (env : nat -> TxAttempt) (locked : string -> bool) (worker : OutboxWorkerContext)
    (observedAt : Z) (leaseDurationMs : jsnumber) (options : OutboxClaimOptions) : M (option OutboxClaim) :=
  run* lift (requireOpaqueReference (workerReference worker) "worker reference") in
  throwif* negb (isInteger leaseDurationMs) || negb (gtNum leaseDurationMs 0)
    as! RepositoryConflictError "lease duration must be a positive integer" in
  let* types := lift (validateEventTypes (eventTypes options)) in
  inSerializableTransaction env
    (claimNext_tx locked worker observedAt (integer_of leaseDurationMs) types
       (singleWriterByAggregate options)).

Definition heartbeat_tx (eventId : string) (worker : OutboxWorkerContext) (observedAt : Z)
    (leaseDurationMs : Z) : M Z :=
  let* row := loadClaim eventId (workerReference worker) observedAt in
  (* an invalid date compares false with [<=] and is refused when bound *)
  let leaseExpires := newDate (observedAt + leaseDurationMs) in
  throwif* match leaseExpires with Some e => e <=? observedAt | None => false end
    as! RepositoryConflictError "lease duration must be positive" in
  let* leaseExpiresAt := lift (bindTimestamp leaseExpires) in
  run* updateOutboxEvent row (extended leaseExpiresAt row) in
  run* audit worker row "heartbeatOutboxLease" "worker_heartbeat"
         OutboxState.claimed OutboxState.claimed ar_succeeded in
  ret leaseExpiresAt.

Definition heartbeat (env : nat -> TxAttempt) (eventId : string) (worker : OutboxWorkerContext)
    (observedAt leaseDurationMs : Z) : M Z :=
  inSerializableTransaction env (heartbeat_tx eventId worker observedAt leaseDurationMs).

Definition succeed_tx (eventId : string) (worker : OutboxWorkerContext) (observedAt : Z) : M unit :=
  let* row := loadClaim eventId (workerReference worker) observedAt in
  let* acquired := required (oe_lease_acquired_at row) in
  run* recordAttempt row (workerReference worker) (oe_attempt_count row) ar_succeeded None acquired observedAt in
  run* updateOutboxEvent row
         (released OutboxState.succeeded (oe_available_at row) (oe_last_error_class row)
            (Some observedAt) row) in
  run* audit worker row "completeOutboxEvent" "worker_success"
         OutboxState.claimed OutboxState.succeeded ar_succeeded in
  ret tt.

Definition succeed (env : nat -> TxAttempt) (eventId : string) (worker : OutboxWorkerContext)
    (observedAt : Z) : M unit :=
  inSerializableTransaction env (succeed_tx eventId worker observedAt).

(** [Math.min(base * 2 ** Math.max(0, attempt - 1), max)]: scaling by a
    power of two is exact in a double, and an overflow to infinity is
    capped by [max] as the exact product is. *)
Definition backoff (attempt base max : Z) : Z := Z.min (base * 2 ^ Z.max 0 (attempt - 1)) max.

Definition failRetryable_tx (eventId : string) (worker : OutboxWorkerContext) (observedAt : Z)
    (options : RetryFailureOptions) : M FailureOutcome :=
  let* row := loadClaim eventId (workerReference worker) observedAt in
  let* acquired := required (oe_lease_acquired_at row) in
  run* recordAttempt row (workerReference worker) (oe_attempt_count row) ar_failed
         (Some (errorClass options)) acquired observedAt in
  let exhausted := integer_of (maxAttempts options) <=? oe_attempt_count row in
  let state := if exhausted then OutboxState.dead_letter else OutboxState.retryable_failed in
  let delay := backoff (oe_attempt_count row) (integer_of (baseBackoffMs options))
                 (integer_of (maxBackoffMs options)) in
  let* availableAt := lift (bindTimestamp (newDate (observedAt + delay))) in
  run* updateOutboxEvent row
         (released state availableAt (Some (errorClass options))
            (if exhausted then Some observedAt else None) row) in
  run* audit worker row "failOutboxEvent" (errorClass options) OutboxState.claimed state ar_failed in
  ret (if exhausted then fo_dead_letter else fo_retryable_failed).

Definition failRetryable (env : nat -> TxAttempt) (eventId : string) (worker : OutboxWorkerContext)
    (observedAt : Z) (options : RetryFailureOptions) : M FailureOutcome :=
  run* lift (validateFailureOptions options) in
  inSerializableTransaction env (failRetryable_tx eventId worker observedAt options).

Definition failTerminal_tx (eventId : string) (worker : OutboxWorkerContext) (observedAt : Z)
    (error : string) : M unit :=
  let* row := loadClaim eventId (workerReference worker) observedAt in
  let* acquired := required (oe_lease_acquired_at row) in
  run* recordAttempt row (workerReference worker) (oe_attempt_count row) ar_failed (Some error)
         acquired observedAt in
  run* updateOutboxEvent row
         (released OutboxState.terminal_failed (oe_available_at row) (Some error)
            (Some observedAt) row) in
  run* audit worker row "terminallyFailOutboxEvent" error
         OutboxState.claimed OutboxState.terminal_failed ar_failed in
  ret tt.

Definition failTerminal (env : nat -> TxAttempt) (eventId : string) (worker : OutboxWorkerContext)
    (observedAt : Z) (error : string) : M unit :=
  run* lift (requireErrorClass error) in
  inSerializableTransaction env (failTerminal_tx eventId worker observedAt error).
End commands.
