(* ===== verification/OutboxFacts.v ===== *)
(** * OutboxFacts: the leased queue, proved.

    What each command of the outbox does to the tables, the invariant of
    "outbox_event" and "outbox_attempt" over every sequence of commands, and
    the properties of leases, retries and ordering. *)
From S2P Require Import Prelude Errors Transition Guards Text Database Outbox.
Local Open Scope Z_scope.

(** ** Effects of the statements *)

(** Everything but the audit tables and the identifiers drawn. *)
Definition same_work (d d' : Db) : Prop :=
  db_committee d = db_committee d' /\ db_outbox_event d = db_outbox_event d' /\
  db_outbox_attempt d = db_outbox_attempt d' /\ db_verus_job d = db_verus_job d' /\
  db_anchor_record d = db_anchor_record d' /\ db_clock d = db_clock d'.

#[global] Instance same_work_equiv : Equivalence same_work.
Proof.
  unfold same_work. split; [done|intros ??; naive_solver|intros ???; naive_solver congruence].
Qed.

Lemma same_tables_work d d' : same_tables d d' -> same_work d d'.
Proof. destruct d, d'. unfold same_tables, with_ids, same_work. simpl. by intros [=]. Qed.

Section facts.
Context `{Platform}.

Lemma newId_work d r d' : newId d = (r, d') -> same_work d d'.
Proof. unfold newId. intros [= <- <-]. apply same_tables_work, same_tables_ids. Qed.

Lemma appendAudit_work ctx cid command target res d r d' :
  appendAudit ctx cid command target res d = (r, d') -> same_work d d'.
Proof.
  unfold appendAudit, bindP, gets, newId, insertAuditEvent. cbv zeta.
  repeat case_match; intros; simplify_eq; by destruct d.
Qed.

Lemma audit_work worker row command reason prior next res d r d' :
  audit worker row command reason prior next res d = (r, d') -> same_work d d'.
Proof. unfold audit, bindP, gets. apply appendAudit_work. Qed.

Lemma updateOutboxEvent_ok old new d u d' :
  updateOutboxEvent old new d = (Ok u, d') ->
  d' = with_outbox_event (<[oe_id old := new]>) d /\
  outbox_table (oe_state old) (oe_state new) = true /\ outbox_event_checks new = true /\
  oe_attempt_count new <= 2147483647.
Proof.
  unfold updateOutboxEvent, int4. intros Hu. inv_ok. subst.
  match goal with Hg : cbc_guard_outbox_transition _ _ = Ok _ |- _ => apply guarded_update_ok in Hg as [_ Hg] end.
  repeat match goal with Hc : negb _ = false |- _ => apply negb_false_iff in Hc end.
  bool_to_prop. split_and!; try done; lia.
Qed.

(** An attempt row is new and closes a positive attempt. *)
Definition attempt_fresh (d : Db) (a : OutboxAttemptRow) : Prop :=
  0 < at_attempt a /\ at_started_at a <= at_finished_at a /\
  forall b, b ∈ db_outbox_attempt d ->
    at_outbox_event_id b = at_outbox_event_id a -> at_attempt b <> at_attempt a.

Lemma insertOutboxAttempt_ok a d u d' :
  insertOutboxAttempt a d = (Ok u, d') ->
  d' = with_outbox_attempt (fun l => l ++ [a]) d /\ attempt_fresh d a.
Proof.
  unfold insertOutboxAttempt. intros Hu. inv_ok. subst. split; [done|].
  match goal with Hc : negb _ = false |- _ => rewrite negb_false_iff, andb_true_iff, Z.ltb_lt, Z.leb_le in Hc end.
  split_and!; [tauto..|]. intros b Hb Hid Hat.
  match goal with Hc : some _ _ = false |- _ => apply not_true_iff_false in Hc; apply Hc end.
  apply some_true. exists b. split; [done|]. rewrite Hid, Hat, String.eqb_refl, Z.eqb_refl.
  apply orb_true_r.
Qed.

Lemma recordAttempt_ok row w n res err s f d u d' :
  recordAttempt row w n res err s f d = (Ok u, d') ->
  exists a, db_outbox_event d' = db_outbox_event d /\
    db_outbox_attempt d' = db_outbox_attempt d ++ [a] /\ attempt_fresh d a /\
    at_outbox_event_id a = oe_id row /\ at_attempt a = n /\ at_worker a = w /\
    at_result a = res /\ at_error_class a = err.
Proof.
  unfold recordAttempt. intros Hu. inv_ok.
  match goal with Hn : newId _ = _ |- _ => apply newId_work in Hn as (_ & He & Ha & _) end.
  match goal with Hi : insertOutboxAttempt _ _ = _ |- _ => apply insertOutboxAttempt_ok in Hi as [-> Hf] end.
  eexists. simpl. rewrite He, Ha. split_and!; try done.
  unfold attempt_fresh in *. by rewrite Ha.
Qed.

Lemma loadClaim_ok eventId w t d row d' :
  loadClaim eventId w t d = (Ok row, d') <->
  d' = d /\ db_outbox_event d !! eventId = Some row /\ owns_lease w t row = true.
Proof.
  unfold loadClaim, bindP, gets, throwWhen, lift, throwIf. simpl.
  destruct (db_outbox_event d !! eventId) as [o|]; simpl; [|by split; [|intros (_ & ? & _)]].
  destruct (owns_lease w t o) eqn:Ho; simpl.
  - split; [intros [= <- <-]; done|intros (-> & [= ->] & _); done].
  - split; [done|]. intros (_ & [= ->] & ?). congruence.
Qed.

Lemma owns_lease_true w t o :
  owns_lease w t o = true <->
  oe_state o = OutboxState.claimed /\ oe_lease_owner o = Some w /\
  exists e, oe_lease_expires_at o = Some e /\ t < e.
Proof.
  unfold owns_lease. rewrite !andb_true_iff, !bool_decide_eq_true.
  destruct (oe_lease_expires_at o); rewrite ?Z.ltb_lt; naive_solver.
Qed.
End facts.

(** ** The commands' effect on the queue

    Every successful command changes one row: [old], stored under its id,
    becomes [new]; at most one attempt row is added. *)
Record row_effect (d d' : Db) (old new : OutboxEventRow) (atts : list OutboxAttemptRow) : Prop := {
  re_events : db_outbox_event d' = <[oe_id old := new]> (db_outbox_event d);
  re_attempts : db_outbox_attempt d' = db_outbox_attempt d ++ atts;
  re_fresh : Forall (attempt_fresh d) atts;
  re_table : outbox_table (oe_state old) (oe_state new) = true;
  re_checks : outbox_event_checks new = true;
  re_range : oe_attempt_count new <= 2147483647;
}.

(** An attempt row that closes the attempt [old] has under way. *)
Definition closes (old : OutboxEventRow) (owner : string) (res : audit_result) (err : option string)
    (a : OutboxAttemptRow) : Prop :=
  at_outbox_event_id a = oe_id old /\ at_attempt a = oe_attempt_count old /\ at_worker a = owner /\
  at_result a = res /\ at_error_class a = err.

Section effects.
Context `{Platform}.

(** Peel the statements of a successful body, left to right. *)
Ltac peel :=
  repeat match goal with
  | Hx : required ?o _ = (Ok _, _) |- _ =>
    unfold required in Hx; destruct o eqn:?; [|discriminate Hx]; inv_ok
  | Hx : bindTimestamp ?o = Ok _ |- _ => destruct o eqn:?; simpl in Hx; [|discriminate Hx]; inv_ok
  | Hx : audit _ _ _ _ _ _ _ _ = (Ok _, _) |- _ => apply audit_work in Hx as (_ & ? & ? & _)
  | Hx : updateOutboxEvent _ _ _ = (Ok _, _) |- _ => apply updateOutboxEvent_ok in Hx as (-> & ? & ? & ?)
  | Hx : recordAttempt _ _ _ _ _ _ _ _ = (Ok _, _) |- _ =>
    apply recordAttempt_ok in Hx as (?a & ? & ? & ? & ? & ? & ? & ? & ?)
  | Hx : loadClaim _ _ _ _ = (Ok _, _) |- _ => apply loadClaim_ok in Hx as (-> & ? & ?)
  end; simpl in *.

Ltac row_done :=
  split; simpl; try done; try (by apply Forall_singleton); try (by constructor);
  rewrite ?app_nil_r; congruence.

Lemma newDate_some t e : newDate t = Some e -> e = t.
Proof. unfold newDate. by case_match; naive_solver. Qed.

Lemma succeed_tx_ok eventId worker t d u d' :
  succeed_tx eventId worker t d = (Ok u, d') ->
  exists old a, db_outbox_event d !! eventId = Some old /\ owns_lease (workerReference worker) t old = true /\
    row_effect d d' old (released OutboxState.succeeded (oe_available_at old) (oe_last_error_class old) (Some t) old) [a] /\
    closes old (workerReference worker) ar_succeeded None a.
Proof.
  unfold succeed_tx. intros Hs. inv_ok. peel. eexists _, _. split_and!; [done..| |by split_and!].
  row_done.
Qed.

Lemma failTerminal_tx_ok eventId worker t error d u d' :
  failTerminal_tx eventId worker t error d = (Ok u, d') ->
  exists old a, db_outbox_event d !! eventId = Some old /\ owns_lease (workerReference worker) t old = true /\
    row_effect d d' old (released OutboxState.terminal_failed (oe_available_at old) (Some error) (Some t) old) [a] /\
    closes old (workerReference worker) ar_failed (Some error) a.
Proof.
  unfold failTerminal_tx. intros Hs. inv_ok. peel. eexists _, _. split_and!; [done..| |by split_and!].
  row_done.
Qed.

(** The outcome of a retryable failure of [old]. *)
Definition exhausted (options : RetryFailureOptions) (old : OutboxEventRow) : bool :=
  integer_of (maxAttempts options) <=? oe_attempt_count old.
Definition retry_delay (options : RetryFailureOptions) (old : OutboxEventRow) : Z :=
  backoff (oe_attempt_count old) (integer_of (baseBackoffMs options)) (integer_of (maxBackoffMs options)).
Definition after_failure (options : RetryFailureOptions) (t : Z) (old : OutboxEventRow) : OutboxEventRow :=
  released (if exhausted options old then OutboxState.dead_letter else OutboxState.retryable_failed)
    (t + retry_delay options old) (Some (errorClass options))
    (if exhausted options old then Some t else None) old.

Lemma failRetryable_tx_ok eventId worker t options d r d' :
  failRetryable_tx eventId worker t options d = (Ok r, d') ->
  exists old a, db_outbox_event d !! eventId = Some old /\ owns_lease (workerReference worker) t old = true /\
    row_effect d d' old (after_failure options t old) [a] /\
    closes old (workerReference worker) ar_failed (Some (errorClass options)) a /\
    r = (if exhausted options old then fo_dead_letter else fo_retryable_failed).
Proof.
  unfold failRetryable_tx. intros Hs. inv_ok. peel.
  match goal with Hd : newDate _ = Some _ |- _ => apply newDate_some in Hd; subst end.
  unfold after_failure, exhausted, retry_delay.
  eexists _, _. split_and!; [done..| |by split_and!|done].
  row_done.
Qed.

Lemma heartbeat_tx_ok eventId worker t ms d e d' :
  heartbeat_tx eventId worker t ms d = (Ok e, d') ->
  exists old, db_outbox_event d !! eventId = Some old /\ owns_lease (workerReference worker) t old = true /\
    row_effect d d' old (extended e old) [] /\ e = t + ms /\ 0 < ms.
Proof.
  unfold heartbeat_tx. intros Hs. inv_ok. peel.
  match goal with Hd : newDate _ = Some _, Hc : (_ <=? _) = false |- _ =>
    apply Z.leb_gt in Hc; apply newDate_some in Hd; subst end.
  eexists. split_and!; [done..| |done|lia].
  row_done.
Qed.

Lemma claimNext_tx_ok locked worker t ms types single d r d' :
  claimNext_tx locked worker t ms types single d = (Ok r, d') ->
  match r with
  | None => candidate locked t types single d = None /\ d' = d
  | Some c => exists old atts, candidate locked t types single d = Some old /\
      row_effect d d' old (leased (workerReference worker) t (t + ms) old) atts /\
      match oe_state old with
      | OutboxState.claimed => exists a owner, atts = [a] /\ oe_lease_owner old = Some owner /\
          closes old owner ar_failed (Some "lease_expired") a
      | _ => atts = []
      end /\
      cl_id c = oe_id old /\ cl_attempt c = oe_attempt_count old + 1 /\ cl_leaseExpiresAt c = t + ms
  end.
Proof.
  unfold claimNext_tx, recoverExpired. intros Hs. inv_ok.
  destruct (candidate _ _ _ _ _) as [old|] eqn:Hc; [|by inv_ok].
  destruct (oe_state old) eqn:Hst; inv_ok; subst; inv_ok; peel;
    match goal with Hd : newDate _ = Some _ |- _ => apply newDate_some in Hd; subst end;
    exists old;
    match goal with a : OutboxAttemptRow |- _ => exists [a] | _ => exists [] end;
    (split_and!;
      [done | row_done | rewrite ?Hst; first [by eexists _, _; split_and! | done] | done..]).
Qed.
End effects.

(** ** Order of claims *)

Lemma before_irrefl a : before a a = false.
Proof. unfold before. by rewrite !Z.ltb_irrefl, !Z.eqb_refl, string_ltb_irrefl. Qed.

Lemma before_true a b :
  before a b = true <->
  oe_available_at a < oe_available_at b \/
  (oe_available_at a = oe_available_at b /\
   (oe_created_at a < oe_created_at b \/
    (oe_created_at a = oe_created_at b /\ String.ltb (oe_id a) (oe_id b) = true))).
Proof.
  unfold before. rewrite !orb_true_iff, !andb_true_iff, !orb_true_iff, !andb_true_iff.
  by rewrite !Z.ltb_lt, !Z.eqb_eq.
Qed.

Lemma before_trans a b c : before a b = true -> before b c = true -> before a c = true.
Proof.
  rewrite !before_true. intros [?|[? [?|[? Hab]]]] [?|[? [?|[? Hbc]]]]; try (left; lia);
    right; (split; [lia|]); try (left; lia). right. split; [lia|]. by eapply string_ltb_trans.
Qed.

Lemma before_total a b : before a b = false -> before b a = false -> oe_id a = oe_id b.
Proof.
  intros Hab Hba. apply not_true_iff_false in Hab, Hba. rewrite before_true in Hab, Hba.
  apply string_ltb_total; apply not_true_iff_false; intros Hlt.
  - apply Hab. right. destruct (Z.lt_total (oe_available_at a) (oe_available_at b)) as [|[|]];
      [naive_solver| |naive_solver]. split; [done|].
    destruct (Z.lt_total (oe_created_at a) (oe_created_at b)) as [|[|]]; naive_solver.
  - apply Hba. right. destruct (Z.lt_total (oe_available_at a) (oe_available_at b)) as [|[|]];
      [naive_solver| |naive_solver]. split; [done|].
    destruct (Z.lt_total (oe_created_at a) (oe_created_at b)) as [|[|]]; naive_solver.
Qed.

(** The row LIMIT 1 returns is in the list and nothing sorts before it. *)
Lemma first_of_spec l r :
  first_of l = Some r -> r ∈ l /\ forall x, x ∈ l -> before x r = false.
Proof.
  revert r. induction l as [|a l IH]; simpl; [done|]. intros r.
  destruct (first_of l) as [b|] eqn:Hf.
  - destruct (IH b eq_refl) as [Hb Hmin]. destruct (before b a) eqn:Hba; intros [= <-].
    + split; [set_solver|]. intros x [->|Hx]%elem_of_cons; [|by apply Hmin].
      apply not_true_iff_false. intros Hab. pose proof (before_trans _ _ _ Hba Hab) as Hc.
      by rewrite before_irrefl in Hc.
    + split; [set_solver|]. intros x [->|Hx]%elem_of_cons; [apply before_irrefl|].
      apply not_true_iff_false. intros Hxa. pose proof (Hmin x Hx) as Hxb.
      destruct (before a b) eqn:Hab.
      * by rewrite (before_trans _ _ _ Hxa Hab) in Hxb.
      * apply not_true_iff_false in Hxb. rewrite before_true in Hxb, Hxa.
        apply not_true_iff_false in Hab, Hba. rewrite before_true in Hab, Hba.
        assert (oe_id a = oe_id b) as Hid
          by (apply before_total; apply not_true_iff_false; by rewrite before_true).
        rewrite Hid in *. apply Hxb.
        destruct (Z.lt_total (oe_available_at a) (oe_available_at b)) as [|[Heq|]]; [naive_solver| |naive_solver].
        destruct (Z.lt_total (oe_created_at a) (oe_created_at b)) as [|[Heq'|]]; [naive_solver| |naive_solver].
        by rewrite <- Heq, <- Heq'.
  - intros [= <-]. split; [set_solver|]. intros x [->|Hx]%elem_of_cons; [apply before_irrefl|].
    destruct l; [by apply not_elem_of_nil in Hx|]. simpl in Hf. by repeat case_match.
Qed.

Lemma first_of_none l : first_of l = None -> l = [].
Proof. destruct l as [|a l]; simpl; [done|]. by repeat case_match. Qed.

Lemma candidate_some locked t types single d r :
  candidate locked t types single d = Some r ->
  r ∈ events d /\ claimable d t types single r = true /\ locked (oe_id r) = false /\
  (forall x, x ∈ events d -> claimable d t types single x = true -> locked (oe_id x) = false ->
     before x r = false).
Proof.
  unfold candidate. intros Hf. apply first_of_spec in Hf as [Hin Hmin].
  rewrite list_elem_of_In, filter_In, andb_true_iff, negb_true_iff, <- list_elem_of_In in Hin.
  split_and!; [tauto..|]. intros x Hx Hc Hl. apply Hmin.
  rewrite list_elem_of_In, filter_In, andb_true_iff, negb_true_iff, <- list_elem_of_In. tauto.
Qed.

Lemma candidate_none locked t types single d x :
  candidate locked t types single d = None -> x ∈ events d -> locked (oe_id x) = false ->
  claimable d t types single x = false.
Proof.
  unfold candidate. intros Hf%first_of_none Hx Hl. apply not_true_iff_false. intros Hc.
  assert (x ∈ List.filter (fun o => claimable d t types single o && negb (locked (oe_id o))) (events d)) as Hin.
  { rewrite list_elem_of_In, filter_In, andb_true_iff, negb_true_iff, <- list_elem_of_In. done. }
  rewrite Hf in Hin. by apply not_elem_of_nil in Hin.
Qed.

Lemma elem_of_events d o : o ∈ events d <-> exists k, db_outbox_event d !! k = Some o.
Proof.
  unfold events. rewrite list_elem_of_fmap. split.
  - intros ([k x] & -> & Hin). exists k. by apply elem_of_map_to_list.
  - intros [k Hk]. exists (k, o). split; [done|]. by apply elem_of_map_to_list.
Qed.
