(* ===== verification/OutboxProperties.v ===== *)
(** * OutboxProperties: leases, the attempt ledger and retries over every run.

    A run is any sequence of the repository's commands, each under any
    behaviour of the transaction environment, interleaved with the insertion
    of new events by other repositories.  Each command carries the time its
    caller observed; the order of these times is a hypothesis where it
    matters. *)
From S2P Require Import Prelude Errors Transition Guards Text Database Outbox OutboxFacts.
Local Open Scope Z_scope.

(** ** Commands and runs *)

Inductive OutboxCommand : Type :=
| Claim (locked : string -> bool) (worker : OutboxWorkerContext) (leaseDurationMs : jsnumber)
    (options : OutboxClaimOptions)
| Heartbeat (eventId : string) (worker : OutboxWorkerContext) (leaseDurationMs : Z)
| Succeed (eventId : string) (worker : OutboxWorkerContext)
| FailRetryable (eventId : string) (worker : OutboxWorkerContext) (options : RetryFailureOptions)
| FailTerminal (eventId : string) (worker : OutboxWorkerContext) (error : string).

Definition command_worker (c : OutboxCommand) : string :=
  workerReference (match c with
                   | Claim _ w _ _ | Heartbeat _ w _ | Succeed _ w | FailRetryable _ w _ | FailTerminal _ w _ => w
                   end).

Definition is_claim (c : OutboxCommand) : bool := match c with Claim _ _ _ _ => true | _ => false end.

Section properties.
Context `{Platform}.

(** The state a command leaves, whatever it returns or throws. *)
Definition exec (env : nat -> TxAttempt) (c : OutboxCommand) (t : Z) (d : Db) : Db :=
  match c with
  | Claim locked w ms options => snd (claimNext env locked w t ms options d)
  | Heartbeat id w ms => snd (heartbeat env id w t ms d)
  | Succeed id w => snd (succeed env id w t d)
  | FailRetryable id w options => snd (failRetryable env id w t options d)
  | FailTerminal id w error => snd (failTerminal env id w t error d)
  end.

(** The ways one step changes the two tables. *)
Inductive change (c : OutboxCommand) (t : Z) (d d' : Db) : Prop :=
| ch_none : db_outbox_event d' = db_outbox_event d -> db_outbox_attempt d' = db_outbox_attempt d ->
    change c t d d'
| ch_claim locked w ms options types old atts :
    c = Claim locked w (Int ms) options -> 0 < ms ->
    candidate locked t types (singleWriterByAggregate options) d = Some old ->
    row_effect d d' old (leased (workerReference w) t (t + ms) old) atts ->
    match oe_state old with
    | OutboxState.claimed => exists a owner, atts = [a] /\ oe_lease_owner old = Some owner /\
        closes old owner ar_failed (Some "lease_expired") a
    | _ => atts = []
    end ->
    change c t d d'
| ch_extend old k e : is_claim c = false -> db_outbox_event d !! k = Some old ->
    owns_lease (command_worker c) t old = true -> t < e ->
    row_effect d d' old (extended e old) [] -> change c t d d'
| ch_release old k st available err done_at a res aerr : is_claim c = false -> db_outbox_event d !! k = Some old ->
    owns_lease (command_worker c) t old = true ->
    st ∈ [OutboxState.succeeded; OutboxState.retryable_failed; OutboxState.terminal_failed;
          OutboxState.dead_letter] ->
    row_effect d d' old (released st available err done_at old) [a] ->
    closes old (command_worker c) res aerr a -> change c t d d'.

Lemma same_view d d' : same_tables d d' ->
  db_outbox_event d' = db_outbox_event d /\ db_outbox_attempt d' = db_outbox_attempt d.
Proof. intros Hs. apply same_tables_work in Hs as (_ & ? & ? & _). done. Qed.

(** A transaction leaves the tables alone or makes its body's change. *)
Lemma tx_change {A} c t env (work : M A) d r d' :
  inSerializableTransaction env work d = (r, d') ->
  (forall d0 a d1, work d0 = (Ok a, d1) -> change c t d0 d1) -> change c t d d'.
Proof.
  intros Hrun Hwork.
  assert (Hcase : same_tables d d' \/ exists d0 a, same_tables d d0 /\ work d0 = (Ok a, d')).
  { destruct r as [a|x].
    - apply inSerializableTransaction_ok in Hrun as (d0 & ? & ?). right. eauto.
    - apply inSerializableTransaction_err in Hrun as [?|(_ & d0 & a & ? & ?)]; eauto. }
  destruct Hcase as [Hs|(d0 & a & Hs & Hw)].
  - apply same_view in Hs as [He Ha]. by apply ch_none.
  - specialize (Hwork _ _ _ Hw). pose proof (same_view _ _ Hs) as [He Ha].
    assert (Hev : events d0 = events d) by (unfold events; by rewrite He).
    assert (Heff : forall old new atts, row_effect d0 d' old new atts -> row_effect d d' old new atts).
    { intros old new atts []. split; try done; try congruence.
      eapply Forall_impl; [done|]. unfold attempt_fresh. by rewrite Ha. }
    assert (Hcand : forall locked t types single, candidate locked t types single d0 = candidate locked t types single d).
    { intros. unfold candidate, claimable. by rewrite Hev. }
    destruct Hwork as [He' Ha'|locked w ms options types old atts ? ? Hc ? ?|old k e ? Hk ? ? ?|old k ??????? ? Hk ????];
      [apply ch_none; congruence|eapply ch_claim; eauto; by rewrite <- Hcand
      |rewrite He in Hk; by eapply ch_extend; eauto|].
    rewrite He in Hk. eapply ch_release; eauto.
Qed.

Lemma exec_change env c t d : change c t d (exec env c t d).
Proof.
  destruct c as [locked w ms options|k w ms|k w|k w options|k w error]; unfold exec.
  - unfold claimNext, bindP, throwWhen, lift. destruct (requireOpaqueReference _ _); [|by apply ch_none].
    destruct (throwIf _ _) eqn:Ht; [|by apply ch_none]. destruct (validateEventTypes _) as [types|]; [|by apply ch_none].
    apply throwIf_ok, orb_false_iff in Ht as [Hint Hpos]. destruct ms as [ms| |]; try discriminate.
    simpl in Hpos. apply negb_false_iff, Z.ltb_lt in Hpos.
    eapply tx_change; [apply surjective_pairing|]. intros d0 r d1 Hw.
    apply claimNext_tx_ok in Hw. destruct r as [cl|]; [|by destruct Hw as [_ ->]; apply ch_none].
    destruct Hw as (old & atts & Hc & Heff & Hatts & _). by eapply ch_claim; eauto.
  - eapply tx_change; [apply surjective_pairing|]. intros d0 r d1 Hw.
    apply heartbeat_tx_ok in Hw as (old & ? & ? & ? & -> & ?). eapply ch_extend; eauto. lia.
  - eapply tx_change; [apply surjective_pairing|]. intros d0 r d1 Hw.
    apply succeed_tx_ok in Hw as (old & a & ? & ? & ? & ?). eapply ch_release; eauto. set_solver.
  - unfold failRetryable, bindP, lift. destruct (validateFailureOptions _); [|by apply ch_none].
    eapply tx_change; [apply surjective_pairing|]. intros d0 r d1 Hw.
    apply failRetryable_tx_ok in Hw as (old & x & ? & ? & ? & ? & _). eapply ch_release; eauto.
    destruct (exhausted _ _); set_solver.
  - unfold failTerminal, bindP, lift. destruct (requireErrorClass _); [|by apply ch_none].
    eapply tx_change; [apply surjective_pairing|]. intros d0 r d1 Hw.
    apply failTerminal_tx_ok in Hw as (old & x & ? & ? & ? & ?). eapply ch_release; eauto. set_solver.
Qed.

(** ** The invariant *)

(** How many attempts of an event are over. *)
Definition closed_attempts (o : OutboxEventRow) : Z :=
  match oe_state o with OutboxState.claimed => oe_attempt_count o - 1 | _ => oe_attempt_count o end.

Record queue_ok (d : Db) : Prop := {
  qo_keys : forall k o, db_outbox_event d !! k = Some o -> oe_id o = k;
  qo_checks : forall k o, db_outbox_event d !! k = Some o -> outbox_event_checks o = true;
  qo_range : forall k o, db_outbox_event d !! k = Some o -> oe_attempt_count o <= 2147483647;
  qo_claimed : forall k o, db_outbox_event d !! k = Some o ->
    oe_state o = OutboxState.claimed -> 1 <= oe_attempt_count o;
  qo_ledger : forall k o n, db_outbox_event d !! k = Some o ->
    (exists a, a ∈ db_outbox_attempt d /\ at_outbox_event_id a = k /\ at_attempt a = n) <->
    1 <= n <= closed_attempts o;
  qo_unique : NoDup ((fun a => (at_outbox_event_id a, at_attempt a)) <$> db_outbox_attempt d);
  qo_owned : forall a, a ∈ db_outbox_attempt d -> is_Some (db_outbox_event d !! at_outbox_event_id a);
}.

Lemma queue_ok_nonneg d k o : queue_ok d -> db_outbox_event d !! k = Some o -> 0 <= oe_attempt_count o.
Proof.
  intros Hq Hk. pose proof (qo_checks d Hq k o Hk) as Hc. unfold outbox_event_checks in Hc.
  rewrite !andb_true_iff, Z.leb_le in Hc. tauto.
Qed.

(** A row update that adds exactly the attempt rows its new count closes. *)
Lemma queue_ok_effect d d' old new atts k :
  queue_ok d -> db_outbox_event d !! k = Some old -> row_effect d d' old new atts ->
  oe_id new = oe_id old -> (oe_state new = OutboxState.claimed -> 1 <= oe_attempt_count new) ->
  Forall (fun a => at_outbox_event_id a = oe_id old /\ at_attempt a = closed_attempts new) atts ->
  length atts = Z.to_nat (closed_attempts new - closed_attempts old) ->
  closed_attempts old <= closed_attempts new <= closed_attempts old + 1 -> queue_ok d'.
Proof.
  intros Hq Hk [He Ha Hf _ Hc Hr] Hid Hcl Hatts Hlen Hb.
  pose proof (qo_keys d Hq k old Hk) as Hkey. subst k.
  assert (Hlook : forall k o, db_outbox_event d' !! k = Some o ->
    (k = oe_id old /\ o = new) \/ (k <> oe_id old /\ db_outbox_event d !! k = Some o)).
  { intros k o. rewrite He, lookup_insert_Some. naive_solver. }
  assert (Hin : forall a, a ∈ db_outbox_attempt d' <-> a ∈ db_outbox_attempt d \/ a ∈ atts)
    by (intros; by rewrite Ha, elem_of_app).
  rewrite Forall_forall in Hatts, Hf.
  split.
  - intros k o [[-> ->]|[_ Ho]]%Hlook; [done|by eapply qo_keys].
  - intros k o [[-> ->]|[_ Ho]]%Hlook; [done|by eapply qo_checks].
  - intros k o [[-> ->]|[_ Ho]]%Hlook; [done|by eapply qo_range].
  - intros k o [[-> ->]|[_ Ho]]%Hlook; [done|by eapply qo_claimed].
  - intros k o n [[-> ->]|[Hne Ho]]%Hlook.
    + setoid_rewrite Hin. pose proof (qo_ledger d Hq _ _ n Hk) as Hled. split.
      * intros (a & [Hin'|Hin'] & Hida & <-).
        { assert (1 <= at_attempt a <= closed_attempts old) by (apply Hled; eauto). lia. }
        destruct (Hatts a Hin') as [_ ->]. destruct (Hf a Hin') as [? _].
        rewrite <- (proj2 (Hatts a Hin')). split; [lia|done].
      * intros Hn. destruct (decide (n <= closed_attempts old)) as [Hle|Hgt].
        { destruct (proj2 Hled ltac:(lia)) as (a & ? & ? & ?). eauto 10. }
        destruct atts as [|a atts]; [simpl in Hlen; lia|].
        destruct (Hatts a ltac:(left)) as [? ?]. exists a. split_and!; [right; left|done|lia].
    + rewrite <- (qo_ledger d Hq _ _ n Ho). setoid_rewrite Hin. split; [|naive_solver].
      intros (a & [Hin'|Hin'] & Hida & <-); [by eauto|]. destruct (Hatts a Hin'). congruence.
  - rewrite Ha, fmap_app. apply NoDup_app. split_and!; [by apply qo_unique| |].
    + intros x (b & -> & Hb')%list_elem_of_fmap (a & Heq & Hin')%list_elem_of_fmap.
      destruct (Hf a Hin') as (_ & _ & Hfr). simplify_eq. by eapply (Hfr b).
    + assert (length atts <= 1)%nat as Hl by lia.
      destruct atts as [|a [|? ?]]; simpl in *; [constructor|apply NoDup_singleton|lia].
  - intros a [Hin'|Hin']%Hin; rewrite He.
    + destruct (qo_owned d Hq a Hin') as [o Ho].
      destruct (decide (at_outbox_event_id a = oe_id old)) as [->|];
        [rewrite lookup_insert_eq|rewrite lookup_insert_ne by done]; eauto.
    + destruct (Hatts a Hin') as [-> _]. rewrite lookup_insert_eq. eauto.
Qed.

Lemma candidate_lookup locked t types single d old :
  candidate locked t types single d = Some old -> exists k, db_outbox_event d !! k = Some old.
Proof. intros (Hin & _)%candidate_some. by apply elem_of_events. Qed.

Lemma queue_ok_change c t d d' : change c t d d' -> queue_ok d -> queue_ok d'.
Proof.
  intros Hch Hq. destruct Hch as [He Ha|locked w ms options types old atts _ _ Hc Heff Hatts
    |old k e _ Hk Hown _ Heff|old k st av err dn a res aerr _ Hk Hown Hst Heff Hcl].
  - destruct Hq. split; rewrite ?He, ?Ha; done.
  - destruct (candidate_lookup _ _ _ _ _ _ Hc) as [k Hk].
    pose proof (queue_ok_nonneg d k old Hq Hk).
    eapply (queue_ok_effect d d' old _ atts k Hq Hk Heff); simpl; try done; try lia;
      unfold closed_attempts; simpl; destruct (oe_state old);
      try (destruct Hatts as (a & owner & -> & _ & Hida & Hn & _)); subst; simpl; try lia;
      try by constructor. apply Forall_singleton. split; [done|lia].
  - apply owns_lease_true in Hown as (Hs & _).
    eapply (queue_ok_effect d d' old _ [] k Hq Hk Heff); simpl; try done; try lia;
      unfold closed_attempts; simpl; try rewrite Hs; try lia; try by constructor.
    intros _. by eapply qo_claimed.
  - apply owns_lease_true in Hown as (Hs & _). destruct Hcl as (Hida & Hn & _).
    assert (Hst' : st <> OutboxState.claimed) by (intros ->; by apply includes_true in Hst).
    eapply (queue_ok_effect d d' old _ [a] k Hq Hk Heff); simpl; try done;
      unfold closed_attempts; simpl; rewrite ?Hs; destruct st; try done; try lia;
      apply Forall_singleton; (split; [done|lia]).
Qed.

(** New work as the other repositories insert it. *)
Definition enqueued (o : OutboxEventRow) (d d' : Db) : Prop :=
  oe_state o = OutboxState.pending /\ oe_attempt_count o = 0 /\ insertOutboxEvent o d = (Ok tt, d').

Lemma enqueued_effect o d d' : enqueued o d d' ->
  db_outbox_event d !! oe_id o = None /\ outbox_event_checks o = true /\
  db_outbox_event d' = <[oe_id o := o]> (db_outbox_event d) /\
  db_outbox_attempt d' = db_outbox_attempt d.
Proof.
  intros (_ & _ & Hi). unfold insertOutboxEvent, bindP, gets, throwWhen, lift, throwIf in Hi.
  simpl in Hi. destruct (outbox_event_checks o); simpl in Hi; [|done].
  destruct (db_outbox_event d !! oe_id o); simpl in Hi; [done|].
  destruct (some _ _); simpl in Hi; [done|]. unfold modify in Hi. by injection Hi as <-.
Qed.

Lemma queue_ok_enqueued o d d' : enqueued o d d' -> queue_ok d -> queue_ok d'.
Proof.
  intros Henq Hq. pose proof (enqueued_effect _ _ _ Henq) as (Hfresh & Hck & He & Ha).
  destruct Henq as (Hst & Hn & _).
  assert (Hlook : forall k x, db_outbox_event d' !! k = Some x ->
    (k = oe_id o /\ x = o) \/ db_outbox_event d !! k = Some x).
  { intros k x. rewrite He, lookup_insert_Some. naive_solver. }
  split; rewrite ?Ha.
  - intros k x [[-> ->]|Hx]%Hlook; [done|by eapply qo_keys].
  - intros k x [[-> ->]|Hx]%Hlook; [done|by eapply qo_checks].
  - intros k x [[-> ->]|Hx]%Hlook; [rewrite Hn; lia|by eapply qo_range].
  - intros k x [[-> ->]|Hx]%Hlook; [congruence|by eapply qo_claimed].
  - intros k x n [[-> ->]|Hx]%Hlook; [|by apply qo_ledger]. unfold closed_attempts. rewrite Hst, Hn.
    split; [|lia]. intros (a & Hin & Hida & _). destruct (qo_owned d Hq a Hin) as [? Hbad]. congruence.
  - by apply qo_unique.
  - intros a Hin. rewrite He. destruct (qo_owned d Hq a Hin) as [x Hx].
    rewrite lookup_insert_ne by congruence. eauto.
Qed.

(** One step at time [t]: a command, or new work. *)
Inductive queue_step (ok : OutboxCommand -> Prop) (t : Z) (d d' : Db) : Prop :=
| qs_command env c : ok c -> d' = exec env c t d -> queue_step ok t d d'
| qs_enqueue o : enqueued o d d' -> queue_step ok t d d'.

(** Runs of commands satisfying [ok].  Each command carries the time its
    caller read before the transaction began ("observedAt"); [order] is what
    the times of successive steps are known to satisfy: nothing ([any_order],
    all the code enforces), or [Z.le] when no command takes effect after one
    that read a later time. *)
Inductive queue_run (order : Z -> Z -> Prop) (ok : OutboxCommand -> Prop) : Z -> Db -> Z -> Db -> Prop :=
| qr_nil t d : queue_run order ok t d t d
| qr_step t0 d0 t d t' d' : queue_run order ok t0 d0 t d -> order t t' -> queue_step ok t' d d' ->
    queue_run order ok t0 d0 t' d'.

Definition any_order (t t' : Z) : Prop := True.

Lemma queue_ok_step ok t d d' : queue_step ok t d d' -> queue_ok d -> queue_ok d'.
Proof.
  intros [env c _ ->|o Ho]; [eapply queue_ok_change, exec_change|by eapply queue_ok_enqueued].
Qed.

Lemma queue_ok_run order ok t0 d0 t d : queue_run order ok t0 d0 t d -> queue_ok d0 -> queue_ok d.
Proof. induction 1; [done|]. intros. eapply queue_ok_step; eauto. Qed.

(** The attempt ledger is exact in every run, in whatever order the times
    come: an event that was leased
    [n] times has exactly one recorded outcome for each of its attempts
    1..n (1..n-1 while the last is under way), none twice, and every row
    keeps its constraints. *)
Theorem attempt_ledger_exact ok t0 d0 t d k o :
  queue_run any_order ok t0 d0 t d -> queue_ok d0 -> db_outbox_event d !! k = Some o ->
  (forall n, (exists a, a ∈ db_outbox_attempt d /\ at_outbox_event_id a = k /\ at_attempt a = n) <->
     1 <= n <= (if bool_decide (oe_state o = OutboxState.claimed)
                then oe_attempt_count o - 1 else oe_attempt_count o)) /\
  NoDup ((fun a => (at_outbox_event_id a, at_attempt a)) <$> db_outbox_attempt d) /\
  outbox_event_checks o = true.
Proof.
  intros Hrun Hq Hk. pose proof (queue_ok_run _ _ _ _ _ _ Hrun Hq) as Hq'.
  split_and!; [|by apply qo_unique|by eapply qo_checks].
  intros n. rewrite (qo_ledger d Hq' k o n Hk). unfold closed_attempts.
  by destruct (oe_state o).
Qed.

(** C36: While a worker's lease has not expired, no command of any other
    worker, and no claim by anyone, changes the event; in particular no
    claim returns it. *)
Theorem lease_exclusive env c t d k o :
  queue_ok d -> db_outbox_event d !! k = Some o -> oe_state o = OutboxState.claimed ->
  (exists e, oe_lease_expires_at o = Some e /\ t < e) ->
  (oe_lease_owner o <> Some (command_worker c) \/
   exists locked w ms options, c = Claim locked w ms options) ->
  db_outbox_event (exec env c t d) !! k = Some o.
Proof.
  intros Hq Hk Hst (e & He & Hlt) Hwho.
  assert (Hcand : forall locked types single, candidate locked t types single d <> Some o).
  { intros locked types single (_ & Hcl & _)%candidate_some. unfold claimable, is_ready in Hcl.
    rewrite Hst, He in Hcl. destruct (Z.leb_spec e t); [lia|done]. }
  assert (Hother : forall x k', db_outbox_event d !! k' = Some x -> x <> o -> oe_id x <> k).
  { intros x k' Hx Hne <-. rewrite <- (qo_keys d Hq k' x Hx) in Hx. congruence. }
  destruct (exec_change env c t d) as [Hd _|locked w ms options types old atts -> _ Hc Heff _
    |old k' e' Hno Hk' Hown _ Heff|old k' st av err dn a res aerr Hno Hk' Hown _ Heff _].
  - by rewrite Hd.
  - destruct (candidate_lookup _ _ _ _ _ _ Hc) as [k' Hk'].
    rewrite (re_events _ _ _ _ _ Heff), lookup_insert_ne; [done|].
    eapply Hother; [done|]. intros ->. by eapply Hcand.
  - rewrite (re_events _ _ _ _ _ Heff), lookup_insert_ne; [done|].
    eapply Hother; [done|]. intros ->. apply owns_lease_true in Hown as (_ & Hown & _).
    by destruct Hwho as [Hw|(l & w & ms & op & ->)].
  - rewrite (re_events _ _ _ _ _ Heff), lookup_insert_ne; [done|].
    eapply Hother; [done|]. intros ->. apply owns_lease_true in Hown as (_ & Hown & _).
    by destruct Hwho as [Hw|(l & w & ms & op & ->)].
Qed.

(** A completed event (succeeded, terminally failed or dead-lettered) is
    never changed again, by any command, worker or time. *)
Theorem completed_final ok t d d' k o :
  queue_ok d -> db_outbox_event d !! k = Some o -> completed_state (oe_state o) = true ->
  queue_step ok t d d' -> db_outbox_event d' !! k = Some o.
Proof.
  intros Hq Hk Hdone Hstep.
  assert (Hother : forall x k', db_outbox_event d !! k' = Some x ->
    completed_state (oe_state x) = false -> oe_id x <> k).
  { intros x k' Hx Hne <-. rewrite <- (qo_keys d Hq k' x Hx) in Hx. congruence. }
  destruct Hstep as [env c _ ->|x Hx].
  - destruct (exec_change env c t d) as [Hd _|locked w ms options types old atts _ _ Hc Heff _
      |old k' e' _ Hk' Hown _ Heff|old k' st av err dn a res aerr _ Hk' Hown _ Heff _].
    + by rewrite Hd.
    + destruct (candidate_lookup _ _ _ _ _ _ Hc) as [k' Hk'].
      apply candidate_some in Hc as (_ & Hcl & _). unfold claimable, is_ready in Hcl.
      rewrite (re_events _ _ _ _ _ Heff), lookup_insert_ne; [done|]. eapply Hother; [done|].
      by destruct (oe_state old).
    + rewrite (re_events _ _ _ _ _ Heff), lookup_insert_ne; [done|]. eapply Hother; [done|].
      apply owns_lease_true in Hown as (-> & _). done.
    + rewrite (re_events _ _ _ _ _ Heff), lookup_insert_ne; [done|]. eapply Hother; [done|].
      apply owns_lease_true in Hown as (-> & _). done.
  - apply enqueued_effect in Hx as (Hfresh & _ & -> & _). rewrite lookup_insert_ne; [done|]. congruence.
Qed.

(** ** One writer per aggregate *)

Definition same_aggregate (a b : OutboxEventRow) : Prop :=
  oe_event_type a = oe_event_type b /\ oe_aggregate_type a = oe_aggregate_type b /\
  oe_aggregate_reference a = oe_aggregate_reference b.

(** An unexpired lease. *)
Definition live (t : Z) (o : OutboxEventRow) : Prop :=
  oe_state o = OutboxState.claimed /\ exists e, oe_lease_expires_at o = Some e /\ t < e.

Definition exclusive (t : Z) (d : Db) : Prop := forall k1 k2 o1 o2,
  db_outbox_event d !! k1 = Some o1 -> db_outbox_event d !! k2 = Some o2 ->
  same_aggregate o1 o2 -> live t o1 -> live t o2 -> k1 = k2.

Lemma exclusive_later t t' d : t <= t' -> exclusive t d -> exclusive t' d.
Proof.
  intros Ht Hex k1 k2 o1 o2 H1 H2 Ha (? & e1 & ? & ?) (? & e2 & ? & ?).
  eapply Hex; [done..| |]; (split; [done|]; eexists; split; [done|lia]).
Qed.

Lemma exclusive_update t d d' k new :
  db_outbox_event d' = <[k := new]> (db_outbox_event d) ->
  (forall k2 o2, k2 <> k -> db_outbox_event d !! k2 = Some o2 -> same_aggregate new o2 ->
     live t new -> live t o2 -> False) ->
  exclusive t d -> exclusive t d'.
Proof.
  intros He Hnew Hex k1 k2 o1 o2. rewrite He, !lookup_insert_Some.
  intros [[<- <-]|[Hne1 H1]] [[<- <-]|[Hne2 H2]] Ha L1 L2; [done|..].
  - destruct (Hnew k2 o2 ltac:(done) H2 Ha L1 L2).
  - destruct (Hnew k1 o1 ltac:(done) H1 ltac:(unfold same_aggregate in *; naive_solver) L2 L1).
  - by eapply Hex.
Qed.

Lemma blocks_true t o x : blocks t o x = true <->
  oe_id x <> oe_id o /\ same_aggregate x o /\ live t x.
Proof.
  unfold blocks, same_aggregate, live.
  rewrite !andb_true_iff, negb_true_iff, String.eqb_neq, !String.eqb_eq, bool_decide_eq_true.
  destruct (oe_lease_expires_at x); rewrite ?Z.ltb_lt; naive_solver.
Qed.

Definition single_claims (c : OutboxCommand) : Prop :=
  forall locked w ms options, c = Claim locked w ms options -> singleWriterByAggregate options = true.

(** C37: When every claim asks for a single writer, and commands take effect
    in the order of the times their callers observed, no two events of the
    same type and aggregate are ever under an unexpired lease at the same
    time, however claims, heartbeats, completions and new events interleave.
    The order is a condition on the deployment (one worker at a time, say),
    which the code does not enforce: [late_heartbeat_two_writers] is a run out
    of order with two writers. *)
Theorem one_writer_per_aggregate t0 d0 t d :
  queue_run Z.le single_claims t0 d0 t d -> queue_ok d0 -> exclusive t0 d0 -> exclusive t d.
Proof.
  intros Hrun Hq Hex. induction Hrun as [|t0 d0 t d t' d' Hrun IH Ht Hstep]; [done|].
  pose proof (queue_ok_run _ _ _ _ _ _ Hrun Hq) as Hq'. specialize (IH Hq Hex).
  apply (exclusive_later t t') in IH; [|done]. clear Hrun Hex Ht.
  destruct Hstep as [env c Hc ->|x Hx].
  - destruct (exec_change env c t' d) as [Hd _|locked w ms options types old atts Heq _ Hcand Heff _
      |old k' e' _ Hk' Hown _ Heff|old k' st av err dn a res aerr _ Hk' Hown Hst Heff _].
    + intros k1 k2 o1 o2. rewrite Hd. apply IH.
    + eapply exclusive_update; [by eapply re_events| |done].
      intros k2 o2 Hne Hk2 Ha _ L2. apply candidate_some in Hcand as (_ & Hcl & _).
      unfold claimable in Hcl. rewrite (Hc _ _ _ _ Heq) in Hcl. simpl in Hcl.
      rewrite !andb_true_iff, negb_true_iff in Hcl. destruct Hcl as [_ Hcl].
      apply not_true_iff_false in Hcl. apply Hcl, some_true. exists o2.
      split; [apply elem_of_events; by exists k2|]. apply blocks_true.
      rewrite (qo_keys d Hq' k2 o2 Hk2). unfold same_aggregate in *. simpl in Ha. naive_solver.
    + pose proof (qo_keys d Hq' k' old Hk') as Hid.
      eapply exclusive_update; [by eapply re_events| |done].
      intros k2 o2 Hne Hk2 Ha _ L2. apply Hne. rewrite Hid.
      eapply (IH k2 k' o2 old); [done..|unfold same_aggregate in *; naive_solver|done|].
      apply owns_lease_true in Hown as (? & _ & ?). by split.
    + eapply exclusive_update; [by eapply re_events| |done].
      intros k2 o2 Hne Hk2 Ha [Hs _] _. simpl in Hs. subst. by apply includes_true in Hst.
  - pose proof (enqueued_effect _ _ _ Hx) as (_ & _ & He & _). destruct Hx as (Hst & _).
    eapply exclusive_update; [done| |done]. intros k2 o2 _ _ _ [Hs _]. congruence.
Qed.

(** ** What claiming, failing and completing do *)

Definition set_row (d : Db) (k : string) (o : OutboxEventRow) : gmap string OutboxEventRow :=
  <[k := o]> (db_outbox_event d).

(** A successful claim takes the oldest (by availability, then
    creation, then id) event that is due, unlocked and of a requested type;
    the event is leased to the worker for exactly the requested time, its
    attempt count grows by one, and no other event changes.  It returns
    nothing only when no such event exists. *)
Theorem claim_takes_oldest locked w t ms types single d r d' :
  queue_ok d -> claimNext_tx locked w t ms types single d = (Ok r, d') ->
  match r with
  | Some c => exists o, db_outbox_event d !! cl_id c = Some o /\
      claimable d t types single o = true /\ locked (cl_id c) = false /\
      (forall k x, db_outbox_event d !! k = Some x -> claimable d t types single x = true ->
         locked k = false -> before x o = false) /\
      db_outbox_event d' = set_row d (cl_id c) (leased (workerReference w) t (t + ms) o) /\
      cl_attempt c = oe_attempt_count o + 1 /\ cl_leaseExpiresAt c = t + ms
  | None => forall k x, db_outbox_event d !! k = Some x -> locked k = false ->
      claimable d t types single x = false
  end.
Proof.
  intros Hq Hw. apply claimNext_tx_ok in Hw. destruct r as [c|].
  - destruct Hw as (o & atts & Hc & Heff & _ & Hid & Hat & Hexp).
    destruct (candidate_lookup _ _ _ _ _ _ Hc) as [k Hk].
    pose proof (qo_keys d Hq k o Hk) as <-. exists o. rewrite Hid.
    apply candidate_some in Hc as (_ & Hcl & Hl & Hmin).
    split_and!; try done; [|by eapply re_events].
    intros k x Hx Hcx Hlx. apply Hmin; [apply elem_of_events; by exists k|done|].
    by rewrite (qo_keys d Hq k x Hx).
  - destruct Hw as [Hc _]. intros k x Hx Hl. eapply candidate_none; [done|apply elem_of_events; by exists k|].
    by rewrite (qo_keys d Hq k x Hx).
Qed.

Lemma backoff_bounds n base max : 1 <= base <= max -> base <= backoff n base max <= max.
Proof.
  intros Hb. unfold backoff. assert (0 < 2 ^ Z.max 0 (n - 1)) by (apply Z.pow_pos_nonneg; lia). nia.
Qed.

Lemma backoff_mono n m base max : 1 <= base -> n <= m -> backoff n base max <= backoff m base max.
Proof.
  intros Hb Hnm. unfold backoff.
  assert (2 ^ Z.max 0 (n - 1) <= 2 ^ Z.max 0 (m - 1)) by (apply Z.pow_le_mono_r; lia). nia.
Qed.

(** A retryable failure of attempt [n] dead-letters the event exactly
    when [n] reached the attempt limit; otherwise the event becomes due
    again after [min(base * 2^(n-1), max)] milliseconds, a delay between
    the two settings that never shrinks from one attempt to the next. *)
Theorem retry_schedule env k w t options d r d' :
  failRetryable env k w t options d = (Ok r, d') -> queue_ok d ->
  exists o limit base max, db_outbox_event d !! k = Some o /\
    maxAttempts options = Int limit /\ baseBackoffMs options = Int base /\ maxBackoffMs options = Int max /\
    1 <= limit /\ 1 <= base <= max /\
    (r = fo_dead_letter <-> limit <= oe_attempt_count o) /\
    db_outbox_event d' = set_row d k (after_failure options t o) /\
    oe_available_at (after_failure options t o) = t + Z.min (base * 2 ^ (oe_attempt_count o - 1)) max /\
    base <= Z.min (base * 2 ^ (oe_attempt_count o - 1)) max <= max /\
    (forall m, oe_attempt_count o <= m ->
       Z.min (base * 2 ^ (oe_attempt_count o - 1)) max <= Z.min (base * 2 ^ (m - 1)) max).
Proof.
  unfold failRetryable, bindP, lift. intros Hrun Hq.
  destruct (validateFailureOptions options) as [[]|] eqn:Hv; [|done].
  apply inSerializableTransaction_ok in Hrun as (d0 & Hs & Hw).
  apply failRetryable_tx_ok in Hw as (o & a & Hk & Hown & Heff & _ & ->).
  apply same_view in Hs as [He _]. rewrite He in Hk.
  unfold validateFailureOptions in Hv. inv_ok. rewrite !orb_false_iff, !negb_false_iff in *. destruct_and?.
  destruct (maxAttempts options) as [limit| |] eqn:E1; try discriminate.
  destruct (baseBackoffMs options) as [base| |] eqn:E2; try discriminate.
  destruct (maxBackoffMs options) as [max| |] eqn:E3; try discriminate.
  simpl in *. rewrite !Z.ltb_ge in *.
  apply owns_lease_true in Hown as (Hst & _).
  pose proof (qo_claimed d Hq k o Hk Hst) as Hn.
  assert (Hpow : forall m, 1 <= m -> Z.min (base * 2 ^ (m - 1)) max = backoff m base max)
    by (intros; unfold backoff; by rewrite Z.max_r by lia).
  exists o, limit, base, max. rewrite !Hpow by done. split_and!; try done.
  - unfold exhausted. rewrite E1. simpl. destruct (Z.leb_spec limit (oe_attempt_count o)); split; try done; lia.
  - rewrite <- (qo_keys d Hq k o Hk). unfold set_row. rewrite <- He. by eapply re_events.
  - simpl. unfold retry_delay. by rewrite E2, E3.
  - by apply backoff_bounds.
  - by apply backoff_bounds.
  - intros m Hm. rewrite Hpow by lia. by apply backoff_mono.
Qed.

(** ** Completion by the holder *)

Lemma appendAudit_err ctx cid command target res d x d' :
  appendAudit ctx cid command target res d = (Err x, d') -> x = PostgresError "23505".
Proof.
  unfold appendAudit, bindP, gets, newId, insertAuditEvent. cbv zeta. simpl.
  rewrite bool_decide_eq_true_2 by done. simpl. destruct (some _ _); congruence.
Qed.

Lemma int4_ok z : -2147483648 <= z <= 2147483647 -> int4 z = Ok z.
Proof.
  intros Hz. unfold int4, throwIf.
  destruct (Z.leb_spec (-2147483648) z), (Z.leb_spec z 2147483647); simpl; try lia. done.
Qed.

Lemma recordAttempt_err row w n res err s f d x d' :
  recordAttempt row w n res err s f d = (Err x, d') ->
  1 <= n <= 2147483647 -> s <= f -> is_Some (db_outbox_event d !! oe_id row) ->
  x = PostgresError "23505".
Proof.
  unfold recordAttempt, insertOutboxAttempt, bindP, newId, gets, lift, throwWhen, throwIf. simpl.
  intros Hrun Hn Hsf [o Ho]. rewrite int4_ok in Hrun by lia. rewrite Ho in Hrun.
  destruct (Z.ltb_spec 0 n), (Z.leb_spec s f); try lia. simpl in Hrun.
  destruct (some _ _); simpl in Hrun; [congruence|]. unfold modify in Hrun. congruence.
Qed.

Lemma updateOutboxEvent_accepts old new d :
  0 <= oe_attempt_count new <= 2147483647 -> outbox_table (oe_state old) (oe_state new) = true ->
  outbox_event_checks new = true ->
  updateOutboxEvent old new d = (Ok tt, with_outbox_event (<[oe_id old := new]>) d).
Proof.
  intros Hn Ht Hc. unfold updateOutboxEvent, bindP, lift, throwWhen, throwIf.
  rewrite int4_ok by lia. unfold cbc_guard_outbox_transition, guarded_update. by rewrite Ht, Hc.
Qed.

Lemma released_checks st av err dn o :
  0 <= oe_attempt_count o -> st <> OutboxState.claimed ->
  (completed_state st = true <-> dn <> None) -> outbox_event_checks (released st av err dn o) = true.
Proof.
  intros Hn Hst Hdn. unfold outbox_event_checks. simpl.
  destruct (Z.leb_spec 0 (oe_attempt_count o)); [|lia].
  destruct st, dn; simpl in *; naive_solver.
Qed.

(** A worker can complete an event exactly while it holds the lease:
    without an unexpired lease of its own it is refused and nothing
    changes; with it, the completion trips no constraint, trigger or ledger
    conflict — it succeeds, or a random identifier or hash collided. *)
Theorem holder_completes k worker t d r d' :
  queue_ok d -> succeed_tx k worker t d = (r, d') ->
  (forall o a, db_outbox_event d !! k = Some o -> oe_lease_acquired_at o = Some a -> a <= t) ->
  match db_outbox_event d !! k with
  | Some o => if owns_lease (workerReference worker) t o
              then r = Err (PostgresError "23505") \/
                   (r = Ok tt /\ exists o', db_outbox_event d' !! k = Some o' /\
                      oe_state o' = OutboxState.succeeded /\ oe_completed_at o' = Some t)
              else r = Err leaseConflict /\ d' = d
  | None => r = Err leaseConflict /\ d' = d
  end.
Proof.
  intros Hq Hrun Htime. unfold succeed_tx in Hrun.
  destruct (db_outbox_event d !! k) as [o|] eqn:Hk;
    [|unfold bindP, loadClaim, gets in Hrun; simpl in Hrun; unfold bindP in Hrun; rewrite Hk in Hrun;
      injection Hrun as <- <-; done].
  destruct (owns_lease (workerReference worker) t o) eqn:Hown;
    [|unfold loadClaim, bindP, gets, throwWhen, lift, throwIf in Hrun; simpl in Hrun;
      rewrite Hk, Hown in Hrun; simpl in Hrun; injection Hrun as <- <-; done].
  unfold bindP at 1 in Hrun.
  rewrite (proj2 (loadClaim_ok k _ t d o d) (conj eq_refl (conj Hk Hown))) in Hrun.
  pose proof (qo_keys d Hq k o Hk) as Hid.
  apply owns_lease_true in Hown as (Hst & _). pose proof (qo_claimed d Hq k o Hk Hst) as Hn.
  pose proof (qo_range d Hq k o Hk) as Hmax. pose proof (qo_checks d Hq k o Hk) as Hck.
  unfold outbox_event_checks in Hck. rewrite Hst in Hck.
  destruct (oe_lease_acquired_at o) as [a|] eqn:Ha;
    [|rewrite !andb_true_iff in Hck; destruct Hck as [[_ [_ ?]] _]; done].
  unfold bindP at 1 in Hrun. simpl in Hrun.
  destruct r as [u|x].
  - right. destruct u. inv_ok.
    match goal with Hx : recordAttempt _ _ _ _ _ _ _ _ = _ |- _ => apply recordAttempt_ok in Hx as (? & He & _) end.
    match goal with Hx : updateOutboxEvent _ _ _ = _ |- _ => apply updateOutboxEvent_ok in Hx as (-> & _) end.
    match goal with Hx : audit _ _ _ _ _ _ _ _ = _ |- _ => apply audit_work in Hx as (_ & Hev & _) end.
    simpl in Hev. split; [done|]. eexists. rewrite <- Hev, lookup_insert_eq. by split_and!.
  - left. f_equal. apply bindP_err in Hrun as [Hrun|(u & d1 & Hrec & Hrun)].
    { eapply recordAttempt_err; [done|lia|by eapply Htime|]. rewrite Hid, Hk. eauto. }
    apply recordAttempt_ok in Hrec as (att & He & _). unfold bindP at 1 in Hrun.
    rewrite updateOutboxEvent_accepts in Hrun;
      [|simpl; lia|by rewrite Hst|by apply released_checks; [lia|done|simpl; split]].
    apply bindP_err in Hrun as [Hrun|(? & ? & _ & Hrun)]; [|done].
    unfold audit, bindP, gets in Hrun. by eapply appendAudit_err.
Qed.
End properties.

(** ** Witnesses: one event through a lease, a failure and a completion *)

Module SampleQueue.
Import SamplePlatform.

Definition worker : OutboxWorkerContext :=
  {| workerReference := "worker_0001"; w_softwareVersion := "1"; w_correlationId := "c1" |}.
Definition rival : OutboxWorkerContext :=
  {| workerReference := "worker_0002"; w_softwareVersion := "1"; w_correlationId := "c2" |}.
Definition event : OutboxEventRow := {|
  oe_id := "ev-1"; oe_committee_id := None; oe_event_type := "verus.anchor.requested";
  oe_aggregate_type := "verus_identity"; oe_aggregate_reference := "iTarget";
  oe_schema_version := "v1"; oe_payload_reference := "verus_job:1"; oe_payload_digest := "d1";
  oe_idempotency_key_hash := "k1"; oe_state := OutboxState.pending; oe_available_at := 0;
  oe_lease_owner := None; oe_lease_acquired_at := None; oe_lease_expires_at := None;
  oe_attempt_count := 0; oe_last_error_class := None; oe_created_at := 0; oe_completed_at := None |}.
Definition env (k : nat) : TxAttempt := quietAttempt.
Definition single : OutboxClaimOptions :=
  {| eventTypes := Some ["verus.anchor.requested"]; singleWriterByAggregate := true |}.
Definition claim (w : OutboxWorkerContext) : OutboxCommand := Claim (fun _ => false) w (Int 60000) single.
Definition retry : RetryFailureOptions :=
  {| errorClass := "rpc_timeout"; maxAttempts := Int 8; baseBackoffMs := Int 5000; maxBackoffMs := Int 900000 |}.

Definition db0 : Db := snd (insertOutboxEvent event emptyDb).
Definition db1 : Db := exec env (claim worker) 10 db0.
Definition db2 : Db := exec env (Succeed "ev-1" worker) 20 db1.
Definition row (d : Db) : OutboxEventRow := default event (db_outbox_event d !! "ev-1").

Lemma emptyDb_queue_ok : queue_ok emptyDb.
Proof.
  split; simpl; intros; try (by rewrite lookup_empty in *); [by constructor|].
  by apply not_elem_of_nil in H.
Qed.

Lemma run0 : queue_run Z.le single_claims 0 emptyDb 0 db0.
Proof.
  eapply qr_step; [apply qr_nil|done|]. apply qs_enqueue with event. split_and!; [done..|].
  vm_compute. reflexivity.
Qed.

Lemma run1 : queue_run Z.le single_claims 0 emptyDb 10 db1.
Proof.
  eapply qr_step; [apply run0|done|]. apply qs_command with env (claim worker); [|done].
  intros locked w ms options [= <- <- <- <-]. done.
Qed.

Lemma run2 : queue_run Z.le single_claims 0 emptyDb 20 db2.
Proof.
  eapply qr_step; [apply run1|done|]. by apply qs_command with env (Succeed "ev-1" worker).
Qed.

Lemma run_any order ok t0 d0 t d : queue_run order ok t0 d0 t d -> queue_run any_order ok t0 d0 t d.
Proof. induction 1; [apply qr_nil|by eapply qr_step]. Qed.

Lemma queue_ok0 : queue_ok db0. Proof. exact (queue_ok_run _ _ _ _ _ _ run0 emptyDb_queue_ok). Qed.
Lemma queue_ok1 : queue_ok db1. Proof. exact (queue_ok_run _ _ _ _ _ _ run1 emptyDb_queue_ok). Qed.
Lemma queue_ok2 : queue_ok db2. Proof. exact (queue_ok_run _ _ _ _ _ _ run2 emptyDb_queue_ok). Qed.
Lemma row1 : db_outbox_event db1 !! "ev-1" = Some (row db1). Proof. vm_compute. reflexivity. Qed.
Lemma row2 : db_outbox_event db2 !! "ev-1" = Some (row db2). Proof. vm_compute. reflexivity. Qed.
End SampleQueue.

Section witnesses.
Import SamplePlatform SampleQueue.

Lemma attempt_ledger_exact_witness :
  (exists a, a ∈ db_outbox_attempt db2 /\ at_outbox_event_id a = "ev-1" /\ at_attempt a = 1) <-> 1 <= 1 <= 1.
Proof.
  apply (attempt_ledger_exact single_claims 0 emptyDb 20 db2 "ev-1" (row db2)
           (run_any _ _ _ _ _ _ run2) emptyDb_queue_ok row2).
Defined.

Lemma lease_exclusive_witness :
  db_outbox_event (exec env (claim rival) 20 db1) !! "ev-1" = Some (row db1).
Proof.
  apply (lease_exclusive env (claim rival) 20 db1 "ev-1" (row db1) queue_ok1 row1).
  - vm_compute. reflexivity.
  - exists 60010. split; vm_compute; reflexivity.
  - right. exists (fun _ => false), rival, (Int 60000), single. reflexivity.
Defined.

Lemma completed_final_witness : exists d', db_outbox_event d' !! "ev-1" = Some (row db2).
Proof.
  exists (exec env (claim rival) 90000 db2).
  apply (completed_final single_claims 90000 db2 _ "ev-1" (row db2) queue_ok2 row2);
    [vm_compute; reflexivity|].
  apply qs_command with env (claim rival); [|done]. intros locked w ms options [= <- <- <- <-]. done.
Defined.

Lemma one_writer_per_aggregate_witness : exclusive 10 db1.
Proof.
  apply (one_writer_per_aggregate 0 emptyDb 10 db1 run1 emptyDb_queue_ok).
  intros k1 k2 o1 o2 Hk. simpl in Hk. by rewrite lookup_empty in Hk.
Defined.

(** Two events of one aggregate.  A worker leases the first until 100 and a
    rival, at 101, rightly the second; then a heartbeat for which the first
    worker had read the clock at 99 takes effect, and both leases run on. *)
Definition twin : OutboxEventRow := {|
  oe_id := "ev-2"; oe_committee_id := None; oe_event_type := "verus.anchor.requested";
  oe_aggregate_type := "verus_identity"; oe_aggregate_reference := "iTarget";
  oe_schema_version := "v1"; oe_payload_reference := "verus_job:2"; oe_payload_digest := "d2";
  oe_idempotency_key_hash := "k2"; oe_state := OutboxState.pending; oe_available_at := 50;
  oe_lease_owner := None; oe_lease_acquired_at := None; oe_lease_expires_at := None;
  oe_attempt_count := 0; oe_last_error_class := None; oe_created_at := 0; oe_completed_at := None |}.
Definition first_locked (id : string) : bool := String.eqb id "ev-1".
Definition two_events : Db := snd (insertOutboxEvent twin db0).
Definition first_leased : Db := exec env (Claim (fun _ => false) worker (Int 90) single) 10 two_events.
Definition second_leased : Db := exec env (Claim first_locked rival (Int 90) single) 101 first_leased.
Definition late : Db := exec env (Heartbeat "ev-1" worker 60000) 99 second_leased.

Lemma run_late : queue_run any_order single_claims 0 emptyDb 99 late.
Proof.
  eapply qr_step; [|done|by apply qs_command with env (Heartbeat "ev-1" worker 60000)].
  eapply (qr_step _ _ _ _ 10 _ 101);
    [|done|apply qs_command with env (Claim first_locked rival (Int 90) single);
           [by intros locked w ms options [= <- <- <- <-]|done]].
  eapply (qr_step _ _ _ _ 0 _ 10);
    [|done|apply qs_command with env (Claim (fun _ => false) worker (Int 90) single);
           [by intros locked w ms options [= <- <- <- <-]|done]].
  eapply qr_step; [apply (run_any _ _ _ _ _ _ run0)|done|]. apply qs_enqueue with twin.
  split_and!; [done..|]. vm_compute. reflexivity.
Qed.

(** Nothing in the code orders the commands of two workers by the times they
    observed, and out of order two leases of one aggregate are live at once,
    although every claim asked for a single writer. *)
Theorem late_heartbeat_two_writers :
  queue_run any_order single_claims 0 emptyDb 99 late /\
  exists a b, db_outbox_event late !! "ev-1" = Some a /\ db_outbox_event late !! "ev-2" = Some b /\
    same_aggregate a b /\ live 101 a /\ live 101 b /\ oe_lease_owner a <> oe_lease_owner b.
Proof.
  split; [apply run_late|].
  exists (default twin (db_outbox_event late !! "ev-1")), (default event (db_outbox_event late !! "ev-2")).
  split_and!; try (vm_compute; reflexivity); try (by vm_compute).
  - split; [vm_compute; reflexivity|]. exists 60099. split; vm_compute; reflexivity.
  - split; [vm_compute; reflexivity|]. exists 191. split; vm_compute; reflexivity.
Qed.

Lemma claim_takes_oldest_witness : exists o, db_outbox_event db0 !! "ev-1" = Some o /\
  claimable db0 10 None true o = true.
Proof.
  destruct (claim_takes_oldest (fun _ => false) worker 10 60000 None true db0 _ _ queue_ok0
              eq_refl) as (o & Ho & Hc & _).
  exists o. exact (conj Ho Hc).
Defined.

Lemma retry_schedule_witness : exists o, db_outbox_event db1 !! "ev-1" = Some o.
Proof.
  destruct (failRetryable env "ev-1" worker 20 retry db1) as [[r|x] d'] eqn:Hr; [|by vm_compute in Hr].
  destruct (retry_schedule env "ev-1" worker 20 retry db1 r d' Hr queue_ok1) as (o & _ & _ & _ & Ho & _).
  exists o. exact Ho.
Defined.

Lemma holder_completes_witness :
  fst (succeed_tx "ev-1" rival 20 db1) = Err leaseConflict.
Proof.
  assert (Htime : forall o a, db_outbox_event db1 !! "ev-1" = Some o ->
    oe_lease_acquired_at o = Some a -> a <= 20).
  { intros o a Ho Ha. rewrite row1 in Ho. apply (inj Some) in Ho. rewrite <- Ho in Ha.
    vm_compute in Ha. injection Ha as <-. lia. }
  assert (Hno : owns_lease (workerReference rival) 20 (row db1) = false) by (vm_compute; reflexivity).
  pose proof (holder_completes "ev-1" rival 20 db1 _ _ queue_ok1
    (surjective_pairing (succeed_tx "ev-1" rival 20 db1)) Htime) as Hd.
  rewrite row1, Hno in Hd. exact (proj1 Hd).
Defined.
End witnesses.
