(* ===== verification/VerusJob.v ===== *)
(** * VerusJob: the persisted anchor jobs (packages/db/src/verus-job-repository.ts).

    A job follows its outbox event through preflight, submission,
    confirmation and readback; "anchor_record" shadows it for readers.
    Every mutation is the body of one serializable transaction ([_tx]). *)
From Stdlib Require Import SpecFloat.
From stdpp Require Import pretty.
From S2P Require Import Prelude Errors Transition Lifecycles Guards Text Json JsonParse Verus.
From S2P Require Import Database Outbox.
Local Open Scope Z_scope.

Definition VERUS_ANCHOR_EVENT_TYPE : string := "verus.anchor.requested".

(** [PersistedVerusJobState]: the literals of the domain's [VerusJobState]. *)
Definition PersistedVerusJobState : Type := VerusJobState.VerusJobState.

(** ** Data *)

Record EnqueueVerusAnchorInput : Type := {
  in_externalReference : string;
  in_committeeReference : option string;
  in_operationType : string;
  in_subjectReference : string;
  in_targetIdentity : string;
  in_vdxfUri : string;
  in_vdxfKey : string;
  in_manifest : list (ustring * json);
  in_manifestCanonical : string;
  in_manifestDigest : string;
  in_manifestPolicyReference : string;
  in_manifestAllowedFields : list string;
  in_manifestRequiredFields : list string;
  in_manifestMaximumBytes : jsnumber;
  in_confirmationRequirement : jsnumber;
}.

Record VerusJobRecord : Type := {
  jr_id : string;
  jr_outboxEventId : string;
  jr_committeeReference : option string;
  jr_operationType : string;
  jr_subjectReference : string;
  jr_targetIdentity : string;
  jr_vdxfUri : string;
  jr_vdxfKey : string;
  jr_manifest : list (ustring * json);
  jr_manifestCanonical : string;
  jr_manifestDigest : string;
  jr_manifestPolicyReference : string;
  jr_manifestAllowedFields : list string;
  jr_manifestRequiredFields : list string;
  jr_manifestMaximumBytes : Z;
  jr_confirmationRequirement : Z;
  jr_state : PersistedVerusJobState;
  jr_transactionId : option string;
  jr_blockHeight : option Z;
  jr_blockHash : option string;
  jr_readbackDigest : option string;
  jr_submissionAmbiguous : bool;
  jr_lastErrorClass : option string;
  jr_version : Z;
  jr_createdAt : Z;
  jr_updatedAt : Z;
}.

Record TransitionEvidence : Type := {
  ev_transactionId : option string;
  ev_blockHeight : option Z;
  ev_blockHash : option string;
  ev_readbackDigest : option string;
  ev_submissionAmbiguous : option bool;
  ev_errorClass : option string;
  ev_submittedAt : option Z;
  ev_confirmedAt : option Z;
  ev_readbackAt : option Z;
  ev_reorgDetectedAt : option Z;
}.
Definition noEvidence : TransitionEvidence := {|
  ev_transactionId := None; ev_blockHeight := None; ev_blockHash := None; ev_readbackDigest := None;
  ev_submissionAmbiguous := None; ev_errorClass := None; ev_submittedAt := None;
  ev_confirmedAt := None; ev_readbackAt := None; ev_reorgDetectedAt := None |}.

(** ** Validation *)

Definition conflict {A : Type} (message : string) : result exn A := Err (RepositoryConflictError message).

(** [/^\S{3,256}$/]. *)
Definition uriPattern (s : string) : bool :=
  let u := text_units s in
  forallb (fun c => negb (is_space c)) u && (3 <=? length u)%nat && (length u <=? 256)%nat.

(** [isDeepStrictEqual] on JSON values: the order of keys is ignored, and
    numbers are compared with Object.is. *)
Fixpoint isDeepStrictEqual (v w : json) : bool :=
  match v, w with
  | JNull, JNull => true
  | JBool a, JBool b => Bool.eqb a b
  | JNumber a, JNumber b => bool_decide (a = b)
  | JString a, JString b => bool_decide (a = b)
  | JArray xs, JArray ys =>
    (fix go xs ys := match xs, ys with
                     | [], [] => true
                     | x :: xs', y :: ys' => isDeepStrictEqual x y && go xs' ys'
                     | _, _ => false
                     end) xs ys
  | JObject es, JObject fs =>
    (length es =? length fs)%nat
    && forallb (fun e => match get_entry (fst e) fs with
                         | Some x => isDeepStrictEqual (snd e) x
                         | None => false
                         end) es
  | _, _ => false
  end.

Definition FORBIDDEN_MANIFEST_FIELDS : list string :=
  ["appealdetail"; "appealfacts"; "committeeevidence"; "committeenotes"; "dateofbirth";
   "documentimage"; "documentnumber"; "evidencehash"; "exactaddress"; "faceimage";
   "identitydocument"; "privatekey"; "privatesessionlocation"; "rpcpassword"; "seedphrase";
   "sessiontoken"; "utilitybill"; "walletbackup"; "walletseed"; "wif"; "zseed"; "proto";
   "constructor"; "prototype"].

Fixpoint rejectSensitiveManifestFields (value : json) (depth : Z) : result exn unit :=
  throwif! 32 <? depth as! RepositoryConflictError "manifest nesting exceeds the server limit" in
  match value with
  | JArray items => for_each (fun item => rejectSensitiveManifestFields item (depth + 1)) items
  | JObject entries =>
    for_each (fun e =>
      throwif! includes FORBIDDEN_MANIFEST_FIELDS (normalize_key (fst e))
        as! RepositoryConflictError "manifest contains a prohibited private field" in
      rejectSensitiveManifestFields (snd e) (depth + 1)) entries
  | _ => Ok tt
  end.

Definition validateEvidence (evidence : TransitionEvidence) : result exn unit :=
  throwif! some [ev_transactionId evidence; ev_blockHash evidence; ev_readbackDigest evidence]
             (fun value => match value with Some v => negb (hex64Pattern v) | None => false end)
    as! RepositoryConflictError "Verus evidence must be lowercase 32-byte hex" in
  throwif! match ev_blockHeight evidence with
           | Some h => negb (isSafeInteger (Int h)) || (h <? 0)
           | None => false
           end
    as! RepositoryConflictError "Verus block height is invalid" in
  throwif! match ev_errorClass evidence with Some e => negb (errorClassPattern e) | None => false end
    as! RepositoryConflictError "Verus error class must be a stable code" in
  Ok tt.

Section repository.
Context `{Platform} `{NumberParser}.

Definition validateInput (input : EnqueueVerusAnchorInput) (context : CommandContext) : result exn unit :=
  let! _ := requireOpaqueReference (in_externalReference input) "anchor reference" in
  let! _ := requireOpaqueReference (in_subjectReference input) "subject reference" in
  throwif! negb (operationTypePattern (in_operationType input))
    as! RepositoryConflictError "operation type must be a stable code" in
  throwif! negb (iAddressPattern (in_targetIdentity input))
    as! RepositoryConflictError "target identity must be an i-address" in
  throwif! negb (iAddressPattern (in_vdxfKey input))
    as! RepositoryConflictError "VDXF key must be an i-address" in
  throwif! negb (uriPattern (in_vdxfUri input))
    as! RepositoryConflictError "VDXF URI must be a bounded server value" in
  throwif! negb (hex64Pattern (in_manifestDigest input))
    as! RepositoryConflictError "manifest digest must be lowercase SHA-256" in
  throwif! negb (String.eqb (sha256 (in_manifestCanonical input)) (in_manifestDigest input))
    as! RepositoryConflictError "canonical manifest does not match its digest" in
  match JSON_parse (text_units (in_manifestCanonical input)) with
  | None => conflict "canonical manifest must be valid JSON"
  | Some canonicalValue =>
    throwif! negb (isDeepStrictEqual canonicalValue (JObject (in_manifest input)))
      as! RepositoryConflictError "canonical manifest does not match the persisted manifest" in
    let byteLength := Z.of_nat (String.length (in_manifestCanonical input)) in
    throwif! negb (isInteger (in_manifestMaximumBytes input)) || ltNum (in_manifestMaximumBytes input) 1
             || gtNum (in_manifestMaximumBytes input) 1048576
             || ltNum (in_manifestMaximumBytes input) byteLength
      as! RepositoryConflictError "manifest exceeds its server-selected byte limit" in
    throwif! negb (isInteger (in_confirmationRequirement input))
             || ltNum (in_confirmationRequirement input) 1 || gtNum (in_confirmationRequirement input) 1000
      as! RepositoryConflictError "confirmation requirement is invalid" in
    let! _ := for_each (fun field =>
                throwIf (negb (fieldNamePattern field))
                  (RepositoryConflictError "manifest field policy contains an invalid name"))
                (in_manifestAllowedFields input ++ in_manifestRequiredFields input) in
    let keys := fst <$> in_manifest input in
    throwif! some keys (fun key => negb (includes (units <$> in_manifestAllowedFields input) key))
             || some (in_manifestRequiredFields input) (fun field => negb (includes keys (units field)))
      as! RepositoryConflictError "manifest violates its server-selected field policy" in
    let! _ := rejectSensitiveManifestFields (JObject (in_manifest input)) 0 in
    throwif! negb (String.eqb (requestDigest context) (in_manifestDigest input))
      as! RepositoryConflictError "command digest does not match the manifest" in
    throwif! negb (String.eqb (policyVersionReference context) (in_manifestPolicyReference input))
      as! RepositoryConflictError "command policy does not match the manifest policy" in
    throwif! negb (String.eqb (committeeReference context)
                     (default "global_synthetic_scope" (in_committeeReference input)))
      as! RepositoryConflictError "command tenant does not match the Verus job tenant" in
    Ok tt
  end.

(** ** Rows *)

Definition toRecord (d : Db) (row : VerusJobRow) : result exn VerusJobRecord :=
  match nonempty (vj_target_identity row), nonempty (vj_vdxf_uri row),
        nonempty (vj_manifest_canonical row), nonempty (vj_manifest_policy_reference row),
        vj_manifest_maximum_bytes row, vj_manifest_json row with
  | Some targetIdentity, Some vdxfUri, Some canonical, Some policyReference, Some maximum, Some (JObject manifest) =>
    throwif! match vj_block_height row with Some h => negb (isSafeInteger (Int h)) | None => false end
      as! RepositoryConflictError "Verus block height is outside the safe integer range" in
    Ok {| jr_id := vj_id row; jr_outboxEventId := vj_outbox_event_id row;
          jr_committeeReference := nonempty (committee_reference d (vj_committee_id row));
          jr_operationType := vj_operation_type row; jr_subjectReference := vj_subject_reference row;
          jr_targetIdentity := targetIdentity; jr_vdxfUri := vdxfUri; jr_vdxfKey := vj_vdxf_key row;
          jr_manifest := manifest; jr_manifestCanonical := canonical;
          jr_manifestDigest := vj_manifest_digest row; jr_manifestPolicyReference := policyReference;
          jr_manifestAllowedFields := vj_manifest_allowed_fields row;
          jr_manifestRequiredFields := vj_manifest_required_fields row;
          jr_manifestMaximumBytes := maximum;
          jr_confirmationRequirement := vj_confirmation_requirement row;
          jr_state := vj_state row; jr_transactionId := nonempty (vj_transaction_id row);
          jr_blockHeight := vj_block_height row; jr_blockHash := nonempty (vj_block_hash row);
          jr_readbackDigest := nonempty (vj_readback_digest row);
          jr_submissionAmbiguous := vj_submission_ambiguous row;
          jr_lastErrorClass := nonempty (vj_last_error_class row); jr_version := vj_version row;
          jr_createdAt := vj_created_at row; jr_updatedAt := vj_updated_at row |}
  | _, _, _, _, _, _ => conflict "Verus job is missing its immutable policy snapshot"
  end.

(** The join of the job with its outbox event. *)
Definition selectJob (d : Db) (outboxEventId : string) : option VerusJobRow :=
  match db_verus_job d !! outboxEventId, db_outbox_event d !! outboxEventId with
  | Some j, Some _ => Some j
  | _, _ => None
  end.

Definition load (outboxEventId : string) : M VerusJobRecord :=
  let* d := gets id in
  match selectJob d outboxEventId with
  | Some row => lift (toRecord d row)
  | None => throw (RepositoryConflictError "Verus job does not exist")
  end.

Definition requireLease (outboxEventId : string) (worker : OutboxWorkerContext) (observedAt : Z) : M unit :=
  let* d := gets id in
  throwif* negb match db_outbox_event d !! outboxEventId with
                | Some o => String.eqb (oe_event_type o) VERUS_ANCHOR_EVENT_TYPE
                            && owns_lease (workerReference worker) observedAt o
                | None => false
                end
    as! RepositoryConflictError "Verus worker lease is not active" in
  ret tt.

Definition resolveCommittee (reference : string) : M string :=
  run* lift (requireOpaqueReference reference "committee reference") in
  let* d := gets id in
  match List.find (fun kv => String.eqb (committee_external_reference (snd kv)) reference)
          (map_to_list (db_committee d)) with
  | Some (cid, _) => ret cid
  | None => throw (RepositoryConflictError "committee does not exist")
  end.

Definition committeeId (outboxEventId : string) : M (option string) :=
  gets (fun d => match db_verus_job d !! outboxEventId with Some j => vj_committee_id j | None => None end).

Definition workerContext (worker : OutboxWorkerContext) (job : VerusJobRecord)
    (next : PersistedVerusJobState) : CommandContext := {|
  actor := {| actor_type := "worker"; actor_reference := workerReference worker;
              authenticationStrength := "internal_worker" |};
  committeeReference := default "global_synthetic_scope" (jr_committeeReference job);
  policyVersionReference := jr_manifestPolicyReference job;
  softwareVersion := w_softwareVersion worker;
  reasonCategory := default ("verus_" +:+ state_name next) (jr_lastErrorClass job);
  correlationId := w_correlationId worker;
  idempotencyKey := jr_id job +:+ ":" +:+ pretty (jr_version job) +:+ ":" +:+ state_name next;
  requestDigest := jr_manifestDigest job |}.

(** ** Constraints of "verus_job" and "anchor_record" *)

Definition verus_job_checks (j : VerusJobRow) : bool :=
  String.eqb (vj_chain_id j) VRSCTEST_CHAIN_ID
  && match vj_block_height j with Some h => 0 <=? h | None => true end
  && (0 <? vj_version j)
  && ((1 <=? vj_confirmation_requirement j) && (vj_confirmation_requirement j <=? 1000))
  && match vj_manifest_maximum_bytes j with Some b => (1 <=? b) && (b <=? 1048576) | None => true end
  && match vj_manifest_canonical j, vj_manifest_maximum_bytes j with
     | Some c, Some b => Z.of_nat (String.length c) <=? b
     | Some _, None => false
     | None, _ => true
     end
  && (negb (bool_decide (vj_state j = VerusJobState.verified))
      || (negb (is_null (vj_transaction_id j)) && negb (is_null (vj_block_height j))
          && negb (is_null (vj_block_hash j))
          && bool_decide (vj_readback_digest j = Some (vj_manifest_digest j))
          && negb (is_null (vj_readback_at j))))
  && (negb (vj_submission_ambiguous j)
      || includes [VerusJobState.retryable_failed; VerusJobState.claimed; VerusJobState.preflight] (vj_state j)).

(** One row of an UPDATE "verus_job": trigger, then constraints. *)
Definition updateVerusJob (old new : VerusJobRow) : M unit :=
  run* lift (int4 (vj_version new)) in
  run* lift (cbc_guard_verus_job_transition (vj_state old) (vj_state new) (vj_version old) (vj_version new)) in
  throwif* negb (verus_job_checks new) as! PostgresError "23514" in
  modify (with_verus_job (<[vj_outbox_event_id old := new]>)).

Definition anchor_checks (a : AnchorRow) : bool :=
  match an_block_height a with Some h => 0 <=? h | None => true end && (0 <? an_version a).

Definition updateAnchor (old new : AnchorRow) : M unit :=
  run* lift (int4 (an_version new)) in
  run* lift (cbc_guard_anchor_transition (an_state old) (an_state new) (an_version old) (an_version new)) in
  throwif* negb (anchor_checks new) as! PostgresError "23514" in
  modify (with_anchor_record (<[an_outbox_event_id old := new]>)).

Definition coalesce {A : Type} (new old : option A) : option A :=
  match new with Some _ => new | None => old end.

(** SET ... of [transition] (and of [markDeadLetter], with no evidence). *)
Definition moved (next : PersistedVerusJobState) (evidence : TransitionEvidence) (ambiguous : bool)
    (at_ : Z) (j : VerusJobRow) : VerusJobRow := {|
  vj_id := vj_id j; vj_outbox_event_id := vj_outbox_event_id j; vj_committee_id := vj_committee_id j;
  vj_chain_id := vj_chain_id j; vj_operation_type := vj_operation_type j;
  vj_subject_reference := vj_subject_reference j; vj_target_identity := vj_target_identity j;
  vj_vdxf_uri := vj_vdxf_uri j; vj_vdxf_key := vj_vdxf_key j; vj_manifest_json := vj_manifest_json j;
  vj_manifest_canonical := vj_manifest_canonical j; vj_manifest_digest := vj_manifest_digest j;
  vj_manifest_policy_reference := vj_manifest_policy_reference j;
  vj_manifest_allowed_fields := vj_manifest_allowed_fields j;
  vj_manifest_required_fields := vj_manifest_required_fields j;
  vj_manifest_maximum_bytes := vj_manifest_maximum_bytes j;
  vj_confirmation_requirement := vj_confirmation_requirement j;
  vj_state := next;
  vj_transaction_id := coalesce (ev_transactionId evidence) (vj_transaction_id j);
  vj_block_height := coalesce (ev_blockHeight evidence) (vj_block_height j);
  vj_block_hash := coalesce (ev_blockHash evidence) (vj_block_hash j);
  vj_readback_digest := coalesce (ev_readbackDigest evidence) (vj_readback_digest j);
  vj_submission_ambiguous := ambiguous;
  vj_last_error_class := ev_errorClass evidence;
  vj_submitted_at := coalesce (ev_submittedAt evidence) (vj_submitted_at j);
  vj_confirmed_at := coalesce (ev_confirmedAt evidence) (vj_confirmed_at j);
  vj_readback_at := coalesce (ev_readbackAt evidence) (vj_readback_at j);
  vj_reorg_detected_at := coalesce (ev_reorgDetectedAt evidence) (vj_reorg_detected_at j);
  vj_version := vj_version j + 1; vj_created_at := vj_created_at j; vj_updated_at := at_ |}.

Definition anchor_moved (next : PersistedVerusJobState) (evidence : TransitionEvidence) (at_ : Z)
    (a : AnchorRow) : AnchorRow := {|
  an_id := an_id a; an_external_reference := an_external_reference a; an_committee_id := an_committee_id a;
  an_outbox_event_id := an_outbox_event_id a; an_anchor_type := an_anchor_type a;
  an_subject_reference := an_subject_reference a; an_vdxf_key := an_vdxf_key a;
  an_manifest_digest := an_manifest_digest a; an_state := next;
  an_transaction_id := coalesce (ev_transactionId evidence) (an_transaction_id a);
  an_block_height := coalesce (ev_blockHeight evidence) (an_block_height a);
  an_block_hash := coalesce (ev_blockHash evidence) (an_block_hash a);
  an_readback_digest := coalesce (ev_readbackDigest evidence) (an_readback_digest a);
  an_version := an_version a + 1; an_updated_at := at_ |}.

(** ** Transitions *)

Definition transitionAnchor (outboxEventId : string) (next : PersistedVerusJobState)
    (evidence : TransitionEvidence) (observedAt : Z) : M unit :=
  match next with
  | VerusJobState.claimed | VerusJobState.preflight => ret tt
  | _ =>
    let* d := gets id in
    match db_anchor_record d !! outboxEventId with
    | Some a => updateAnchor a (anchor_moved next evidence observedAt a)
    | None => throw (RepositoryConflictError "Verus anchor record is missing or conflicted")
    end
  end.

Definition failed_state (s : PersistedVerusJobState) : bool :=
  match s with VerusJobState.retryable_failed | VerusJobState.terminal_failed => true | _ => false end.

(** The UPDATE guarded by the version just read, as a row count. *)
Definition updateJobAt (outboxEventId : string) (version : Z) (f : VerusJobRow -> VerusJobRow) : M Z :=
  let* d := gets id in
  match db_verus_job d !! outboxEventId with
  | Some j => if vj_version j =? version
              then run* updateVerusJob j (f j) in ret 1
              else ret 0
  | None => ret 0
  end.

Definition transition_tx (outboxEventId : string) (worker : OutboxWorkerContext) (observedAt : Z)
    (expected : list PersistedVerusJobState) (next : PersistedVerusJobState)
    (evidence : TransitionEvidence) (syncAnchor : bool) : M VerusJobRecord :=
  run* requireLease outboxEventId worker observedAt in
  let* before := load outboxEventId in
  throwif* negb (includes expected (jr_state before))
    as! RepositoryConflictError
          ("Verus job cannot move from " +:+ state_name (jr_state before) +:+ " to " +:+ state_name next) in
  let* rowCount := updateJobAt outboxEventId (jr_version before)
    (moved next evidence
       (default (jr_submissionAmbiguous before) (ev_submissionAmbiguous evidence)) observedAt) in
  throwif* negb (rowCount =? 1) as! RepositoryConflictError "Verus job version conflict" in
  run* (if syncAnchor then transitionAnchor outboxEventId next evidence observedAt else ret tt) in
  let* cid := committeeId outboxEventId in
  run* appendAudit (workerContext worker before next) cid ("transitionVerusJob:" +:+ state_name next)
         {| target_type := "verus_job"; target_reference := jr_id before;
            priorState := Some (state_name (jr_state before)); newState := Some (state_name next) |}
         (if failed_state next then ar_failed else ar_succeeded) in
  load outboxEventId.

Definition transition (env : nat -> TxAttempt) (outboxEventId : string) (worker : OutboxWorkerContext)
    (observedAt : Z) (expected : list PersistedVerusJobState) (next : PersistedVerusJobState)
    (evidence : TransitionEvidence) (syncAnchor : bool) : M VerusJobRecord :=
  run* lift (validateEvidence evidence) in
  inSerializableTransaction env
    (transition_tx outboxEventId worker observedAt expected next evidence syncAnchor).

Section operations.
Context (env : nat -> TxAttempt) (outboxEventId : string) (worker : OutboxWorkerContext) (observedAt : Z).

Definition loadForClaim : M VerusJobRecord :=
  inSerializableTransaction env
    (run* requireLease outboxEventId worker observedAt in load outboxEventId).

Definition claim : M VerusJobRecord :=
  transition env outboxEventId worker observedAt
    [VerusJobState.pending; VerusJobState.retryable_failed; VerusJobState.reorg_pending]
    VerusJobState.claimed noEvidence false.

Definition beginPreflight : M VerusJobRecord :=
  transition env outboxEventId worker observedAt [VerusJobState.claimed] VerusJobState.preflight
    noEvidence false.

Definition submission_evidence (transactionId : string) : TransitionEvidence := {|
  ev_transactionId := Some transactionId; ev_blockHeight := None; ev_blockHash := None;
  ev_readbackDigest := None; ev_submissionAmbiguous := Some false; ev_errorClass := None;
  ev_submittedAt := Some observedAt; ev_confirmedAt := None; ev_readbackAt := None;
  ev_reorgDetectedAt := None |}.

Definition recordSubmission (transactionId : string) : M VerusJobRecord :=
  transition env outboxEventId worker observedAt [VerusJobState.preflight] VerusJobState.submitted
    (submission_evidence transactionId) true.

Definition beginConfirmation : M VerusJobRecord :=
  transition env outboxEventId worker observedAt [VerusJobState.submitted] VerusJobState.confirming
    noEvidence true.

Definition block_evidence (blockHeight : Z) (blockHash : string) : TransitionEvidence := {|
  ev_transactionId := None; ev_blockHeight := Some blockHeight; ev_blockHash := Some blockHash;
  ev_readbackDigest := None; ev_submissionAmbiguous := None; ev_errorClass := None;
  ev_submittedAt := None; ev_confirmedAt := Some observedAt; ev_readbackAt := None;
  ev_reorgDetectedAt := None |}.

Definition beginReadback (blockHeight : Z) (blockHash : string) : M VerusJobRecord :=
  transition env outboxEventId worker observedAt [VerusJobState.confirming] VerusJobState.readback
    (block_evidence blockHeight blockHash) true.

Definition readback_evidence (digest : string) : TransitionEvidence := {|
  ev_transactionId := None; ev_blockHeight := None; ev_blockHash := None;
  ev_readbackDigest := Some digest; ev_submissionAmbiguous := None; ev_errorClass := None;
  ev_submittedAt := None; ev_confirmedAt := None; ev_readbackAt := Some observedAt;
  ev_reorgDetectedAt := None |}.

Definition verifyReadback (digest : string) : M VerusJobRecord :=
  transition env outboxEventId worker observedAt [VerusJobState.readback] VerusJobState.verified
    (readback_evidence digest) true.

Definition failure_evidence (errorClass : string) (ambiguous : option bool) : TransitionEvidence := {|
  ev_transactionId := None; ev_blockHeight := None; ev_blockHash := None; ev_readbackDigest := None;
  ev_submissionAmbiguous := ambiguous; ev_errorClass := Some errorClass; ev_submittedAt := None;
  ev_confirmedAt := None; ev_readbackAt := None; ev_reorgDetectedAt := None |}.

Definition retryableFailure (errorClass : string) (submissionAmbiguous : bool) : M VerusJobRecord :=
  transition env outboxEventId worker observedAt
    [VerusJobState.preflight; VerusJobState.submitted; VerusJobState.confirming; VerusJobState.readback]
    VerusJobState.retryable_failed (failure_evidence errorClass (Some submissionAmbiguous)) true.

Definition terminalFailure (errorClass : string) : M VerusJobRecord :=
  transition env outboxEventId worker observedAt
    [VerusJobState.preflight; VerusJobState.submitted; VerusJobState.confirming; VerusJobState.readback;
     VerusJobState.retryable_failed]
    VerusJobState.terminal_failed (failure_evidence errorClass (Some false)) true.

Definition reorg_evidence : TransitionEvidence := {|
  ev_transactionId := None; ev_blockHeight := None; ev_blockHash := None; ev_readbackDigest := None;
  ev_submissionAmbiguous := None; ev_errorClass := Some "reorg_detected"; ev_submittedAt := None;
  ev_confirmedAt := None; ev_readbackAt := None; ev_reorgDetectedAt := Some observedAt |}.

Definition reorg : M VerusJobRecord :=
  transition env outboxEventId worker observedAt [VerusJobState.confirming; VerusJobState.readback]
    VerusJobState.reorg_pending reorg_evidence true.

(** The dead letter belongs to this worker's own attempt. *)
Definition dead_letter_eligible (d : Db) : bool :=
  match db_outbox_event d !! outboxEventId with
  | Some o =>
    String.eqb (oe_event_type o) VERUS_ANCHOR_EVENT_TYPE
    && bool_decide (oe_state o = OutboxState.dead_letter)
    && some (db_outbox_attempt d) (fun a =>
         String.eqb (at_outbox_event_id a) (oe_id o) && (at_attempt a =? oe_attempt_count o)
         && String.eqb (at_worker a) (workerReference worker))
  | None => false
  end.

Definition markDeadLetter_tx (errorClass : string) : M VerusJobRecord :=
  let* eligible := gets dead_letter_eligible in
  throwif* negb eligible
    as! RepositoryConflictError "Verus dead letter is not owned by this attempt" in
  let* before := load outboxEventId in
  throwif* negb (includes [VerusJobState.retryable_failed; VerusJobState.reorg_pending] (jr_state before))
    as! RepositoryConflictError "only a retryable or reorg Verus job can be dead-lettered" in
  run* updateJobAt outboxEventId (jr_version before)
         (moved VerusJobState.terminal_failed (failure_evidence errorClass None) false observedAt) in
  run* transitionAnchor outboxEventId VerusJobState.terminal_failed noEvidence observedAt in
  let* cid := committeeId outboxEventId in
  run* appendAudit (workerContext worker before VerusJobState.terminal_failed) cid "deadLetterVerusJob"
         {| target_type := "verus_job"; target_reference := jr_id before;
            priorState := Some (state_name (jr_state before)); newState := Some "terminal_failed" |}
         ar_failed in
  load outboxEventId.

Definition markDeadLetter (errorClass : string) : M VerusJobRecord :=
  run* lift (validateEvidence (failure_evidence errorClass None)) in
  inSerializableTransaction env (markDeadLetter_tx errorClass).
End operations.

(** ** enqueueAnchor *)

Definition newOutboxEvent (uuid : string) (committee : option string) (input : EnqueueVerusAnchorInput)
    (keyHash : string) (now : Z) : OutboxEventRow := {|
  oe_id := uuid; oe_committee_id := committee; oe_event_type := VERUS_ANCHOR_EVENT_TYPE;
  oe_aggregate_type := "verus_identity"; oe_aggregate_reference := in_targetIdentity input;
  oe_schema_version := in_manifestPolicyReference input;
  oe_payload_reference := "verus_job:" +:+ in_externalReference input;
  oe_payload_digest := in_manifestDigest input; oe_idempotency_key_hash := keyHash;
  oe_state := OutboxState.pending; oe_available_at := now; oe_lease_owner := None;
  oe_lease_acquired_at := None; oe_lease_expires_at := None; oe_attempt_count := 0;
  oe_last_error_class := None; oe_created_at := now; oe_completed_at := None |}.

Definition newVerusJob (uuid outboxEventId : string) (committee : option string)
    (input : EnqueueVerusAnchorInput) (manifest : json) (now : Z) : VerusJobRow := {|
  vj_id := uuid; vj_outbox_event_id := outboxEventId; vj_committee_id := committee;
  vj_chain_id := VRSCTEST_CHAIN_ID; vj_operation_type := in_operationType input;
  vj_subject_reference := in_subjectReference input;
  vj_target_identity := Some (in_targetIdentity input); vj_vdxf_uri := Some (in_vdxfUri input);
  vj_vdxf_key := in_vdxfKey input; vj_manifest_json := Some manifest;
  vj_manifest_canonical := Some (in_manifestCanonical input);
  vj_manifest_digest := in_manifestDigest input;
  vj_manifest_policy_reference := Some (in_manifestPolicyReference input);
  vj_manifest_allowed_fields := in_manifestAllowedFields input;
  vj_manifest_required_fields := in_manifestRequiredFields input;
  vj_manifest_maximum_bytes := Some (integer_of (in_manifestMaximumBytes input));
  vj_confirmation_requirement := integer_of (in_confirmationRequirement input);
  vj_state := VerusJobState.pending; vj_transaction_id := None; vj_block_height := None;
  vj_block_hash := None; vj_readback_digest := None; vj_submission_ambiguous := false;
  vj_last_error_class := None; vj_submitted_at := None; vj_confirmed_at := None;
  vj_readback_at := None; vj_reorg_detected_at := None; vj_version := 1; vj_created_at := now;
  vj_updated_at := now |}.

Definition newAnchor (uuid outboxEventId : string) (committee : option string)
    (input : EnqueueVerusAnchorInput) (now : Z) : AnchorRow := {|
  an_id := uuid; an_external_reference := in_externalReference input; an_committee_id := committee;
  an_outbox_event_id := outboxEventId; an_anchor_type := in_operationType input;
  an_subject_reference := in_subjectReference input; an_vdxf_key := in_vdxfKey input;
  an_manifest_digest := in_manifestDigest input; an_state := VerusJobState.pending;
  an_transaction_id := None; an_block_height := None; an_block_hash := None;
  an_readback_digest := None; an_version := 1; an_updated_at := now |}.

(** Unique keys of "verus_job": id, outbox event, and the deterministic
    identity of the anchored content. *)
Definition same_work_item (a b : VerusJobRow) : bool :=
  String.eqb (vj_id a) (vj_id b)
  || String.eqb (vj_outbox_event_id a) (vj_outbox_event_id b)
  || (String.eqb (vj_operation_type a) (vj_operation_type b)
      && String.eqb (vj_subject_reference a) (vj_subject_reference b)
      && String.eqb (vj_vdxf_key a) (vj_vdxf_key b)
      && String.eqb (vj_manifest_digest a) (vj_manifest_digest b)).

Definition insertVerusJob (j : VerusJobRow) : M unit :=
  let* d := gets id in
  throwif* negb (verus_job_checks j) as! PostgresError "23514" in
  throwif* some (map_to_list (db_verus_job d)) (fun kv => same_work_item (snd kv) j)
    as! PostgresError "23505" in
  throwif* is_null (db_outbox_event d !! vj_outbox_event_id j) as! PostgresError "23503" in
  modify (with_verus_job (<[vj_outbox_event_id j := j]>)).

(** Unique keys of "anchor_record": id, external reference, outbox event, and
    the anchored content. *)
Definition same_anchor (a b : AnchorRow) : bool :=
  String.eqb (an_id a) (an_id b)
  || String.eqb (an_external_reference a) (an_external_reference b)
  || String.eqb (an_outbox_event_id a) (an_outbox_event_id b)
  || (String.eqb (an_anchor_type a) (an_anchor_type b)
      && String.eqb (an_subject_reference a) (an_subject_reference b)
      && String.eqb (an_vdxf_key a) (an_vdxf_key b)
      && String.eqb (an_manifest_digest a) (an_manifest_digest b)).

Definition insertAnchor (a : AnchorRow) : M unit :=
  let* d := gets id in
  throwif* negb (anchor_checks a) as! PostgresError "23514" in
  throwif* some (map_to_list (db_anchor_record d)) (fun kv => same_anchor (snd kv) a)
    as! PostgresError "23505" in
  throwif* is_null (db_outbox_event d !! an_outbox_event_id a) as! PostgresError "23503" in
  modify (with_anchor_record (<[an_outbox_event_id a := a]>)).

(** [WHERE o."idempotency_key_hash" = $1]. *)
Definition jobByKey (keyHash : string) (d : Db) : option VerusJobRow :=
  List.find (fun j => match db_outbox_event d !! vj_outbox_event_id j with
                      | Some o => String.eqb (oe_idempotency_key_hash o) keyHash
                      | None => false
                      end)
    (snd <$> map_to_list (db_verus_job d)).

Definition enqueueAnchor_tx (input : EnqueueVerusAnchorInput) (context : CommandContext) : M VerusJobRecord :=
  let* committee :=
    (match in_committeeReference input with
     | Some r => if falsy_string r then ret None
                 else let* c := resolveCommittee r in ret (Some c)
     | None => ret None
     end) in
  let keyHash := sha256 (idempotencyKey context) in
  let* existing := gets (jobByKey keyHash) in
  match existing with
  | Some row =>
    let* d := gets id in
    let* replay := lift (toRecord d row) in
    throwif* negb (String.eqb (jr_manifestDigest replay) (in_manifestDigest input))
             || negb (String.eqb (jr_targetIdentity replay) (in_targetIdentity input))
             || negb (String.eqb (jr_vdxfKey replay) (in_vdxfKey input))
      as! RepositoryConflictError "Verus idempotency key conflicts with existing work" in
    ret replay
  | None =>
    let* outboxEventId := newId in
    let* jobId := newId in
    let* now := gets db_clock in
    run* insertOutboxEvent (newOutboxEvent outboxEventId committee input keyHash now) in
    let* manifest := lift (jsonb (JObject (in_manifest input))) in
    run* insertVerusJob (newVerusJob jobId outboxEventId committee input manifest now) in
    let* anchorId := newId in
    run* insertAnchor (newAnchor anchorId outboxEventId committee input now) in
    run* appendAudit context committee "enqueueVerusAnchor"
           {| target_type := "verus_job"; target_reference := jobId; priorState := None;
              newState := Some "pending" |} ar_succeeded in
    load outboxEventId
  end.

Definition enqueueAnchor (env : nat -> TxAttempt) (input : EnqueueVerusAnchorInput)
    (context : CommandContext) : M VerusJobRecord :=
  run* lift (validateInput input context) in
  inSerializableTransaction env (enqueueAnchor_tx input context).
End repository.
