(* ===== verification/RpcAdapter.v ===== *)
(** * RpcAdapter: the JSON-RPC client of the node
    (packages/verus/src/rpc-adapter.ts and validation.ts).

    [fetch] is a parameter on the state [N] of the network and the node: it
    gets the request (its JSON body unprinted) and fails — aborted by the
    timer or not — or gives a status and the parsed JSON of the body, if it
    is JSON.  Strings of the adapter's records are kept as UTF-8 bytes. *)
From Stdlib Require Import SpecFloat Ascii.
From stdpp Require Import pretty.
From S2P Require Import Prelude Errors Text Json JsonParse Verus.
Local Open Scope Z_scope.

(** ** Numbers of JSON *)

(** A safe integer as the double that holds it: a mantissa of 53 bits. *)
Definition float_of_Z (z : Z) : spec_float :=
  match z with
  | 0 => S754_zero false
  | _ => let shift := 52 - Z.log2 (Z.abs z) in
         S754_finite (z <? 0) (Z.to_pos (Z.abs z * 2 ^ shift)) (- shift)
  end.

(** The integer a finite double is, if it is one. *)
Definition integer_of_float (f : spec_float) : option Z :=
  match f with
  | S754_zero _ => Some 0
  | S754_finite s m e =>
    let sign := fun n => if s : bool then - n else n in
    if 0 <=? e then Some (sign (Z.pos m * 2 ^ e))
    else if Z.pos m mod 2 ^ (- e) =? 0 then Some (sign (Z.pos m / 2 ^ (- e))) else None
  | _ => None
  end.

(** ** validation.ts.  [None] is undefined. *)

Definition invalidResult (field : string) : exn :=
  verusError RPC_INVALID_RESULT ("Verus RPC returned an invalid " +:+ field +:+ " field") false.

Definition requireObject (value : option json) (field : string) : result exn (list (ustring * json)) :=
  match value with Some (JObject es) => Ok es | _ => Err (invalidResult field) end.

Definition requireUnits (value : option json) (field : string) : result exn ustring :=
  match value with Some (JString s) => Ok s | _ => Err (invalidResult field) end.

Definition requireString (value : option json) (field : string) : result exn string :=
  let! s := requireUnits value field in Ok (of_bytes (utf8 s)).

Definition requireNumber (value : option json) (field : string) : result exn spec_float :=
  match value with
  | Some (JNumber n) => if isFinite n then Ok n else Err (invalidResult field)
  | _ => Err (invalidResult field)
  end.

Definition requireInteger (value : option json) (field : string) : result exn Z :=
  let! n := requireNumber value field in
  match integer_of_float n with
  | Some z => if isSafeInteger (Int z) then Ok z else Err (invalidResult field)
  | None => Err (invalidResult field)
  end.

Definition requireBoolean (value : option json) (field : string) : result exn bool :=
  match value with Some (JBool b) => Ok b | _ => Err (invalidResult field) end.

(** [xs.map(f)] where [f] may throw. *)
Fixpoint map_results {A B : Type} (f : A -> result exn B) (xs : list A) : result exn (list B) :=
  match xs with
  | [] => Ok []
  | x :: xs' => let! y := f x in let! ys := map_results f xs' in Ok (y :: ys)
  end.

Definition requireStringArray (value : option json) (field : string) : result exn (list string) :=
  match value with
  | Some (JArray items) => map_results (fun item => requireString (Some item) field) items
  | _ => Err (invalidResult field)
  end.

(** [result[key] = ...] on a fresh object: "__proto__" sets the prototype
    and makes no property. *)
Definition proto_key : ustring := units "__proto__".
Definition without_proto {A : Type} (es : list (ustring * A)) : list (ustring * A) :=
  List.filter (fun e => negb (bool_decide (fst e = proto_key))) es.

Fixpoint requireJsonValue (value : json) (field : string) (depth : Z) : result exn json :=
  throwif! 32 <? depth as! invalidResult field in
  match value with
  | JNull | JBool _ | JString _ => Ok value
  | JNumber n => if isFinite n then Ok value else Err (invalidResult field)
  | JArray items =>
    let! items' := map_results (fun item => requireJsonValue item field (depth + 1)) items in
    Ok (JArray items')
  | JObject entries =>
    let! entries' := map_results (fun e => let! item := requireJsonValue (snd e) field (depth + 1) in
                                           Ok (fst e, item)) entries in
    Ok (JObject (without_proto entries'))
  end.

Definition requireJsonObject (value : option json) (field : string) : result exn (list (ustring * json)) :=
  match value with
  | None => Err (invalidResult field)
  | Some v => let! r := requireJsonValue v field 0 in requireObject (Some r) field
  end.

(** [requireHex] with a byte count is not used by the adapter. *)

(** ** Parsing results *)

(** [raw.name], and [raw.name ?? other]. *)
Definition prop_of (raw : list (ustring * json)) (name : string) : option json := get_entry (units name) raw.
Definition nullish (value other : option json) : option json :=
  match value with None | Some JNull => other | _ => value end.

Definition parseContentMap (entries : list (ustring * json)) : result exn (list (string * json)) :=
  let! parsed := map_results (fun e => let! item := requireJsonValue (snd e) "contentmap value" 0 in
                                       Ok (fst e, item)) entries in
  Ok (prod_map (fun k => of_bytes (utf8 k)) id <$> without_proto parsed).

Definition parseContentMultiMap (entries : list (ustring * json)) : result exn (list (string * list json)) :=
  let! parsed := map_results (fun e =>
    match snd e with
    | JArray items =>
      let! items' := map_results (fun entry => requireJsonValue entry "contentmultimap value" 0) items in
      Ok (fst e, items')
    | _ => Err (verusError RPC_INVALID_RESULT "Verus RPC returned a non-array contentmultimap value" false)
    end) entries in
  Ok (prod_map (fun k => of_bytes (utf8 k)) id <$> without_proto parsed).

Definition parseIdentityDefinition (value : option json) : result exn VerusIdentityDefinition :=
  let! raw := requireObject value "identity" in
  let! contentMap := requireObject (prop_of raw "contentmap") "contentmap" in
  let! contentMultiMap := requireObject (prop_of raw "contentmultimap") "contentmultimap" in
  let! parsedContentMap := parseContentMap contentMap in
  let! parsedContentMultiMap := parseContentMultiMap contentMultiMap in
  let! version := requireInteger (prop_of raw "version") "identity.version" in
  let! flags := requireInteger (prop_of raw "flags") "identity.flags" in
  let! primaryAddresses := requireStringArray (prop_of raw "primaryaddresses") "identity.primaryaddresses" in
  let! minimumSignatures := requireInteger (prop_of raw "minimumsignatures") "identity.minimumsignatures" in
  let! name := requireString (prop_of raw "name") "identity.name" in
  let! identityAddress := requireString (prop_of raw "identityaddress") "identity.identityaddress" in
  let! parent := requireString (prop_of raw "parent") "identity.parent" in
  let! systemId := requireString (prop_of raw "systemid") "identity.systemid" in
  let! revocationAuthority := requireString (prop_of raw "revocationauthority") "identity.revocationauthority" in
  let! recoveryAuthority := requireString (prop_of raw "recoveryauthority") "identity.recoveryauthority" in
  let! timelock := requireInteger (prop_of raw "timelock") "identity.timelock" in
  Ok {| id_version := version; id_flags := flags; id_primaryAddresses := primaryAddresses;
        id_minimumSignatures := minimumSignatures; id_name := name; id_identityAddress := identityAddress;
        id_parent := parent; id_systemId := systemId; id_contentMap := parsedContentMap;
        id_contentMultiMap := parsedContentMultiMap; id_revocationAuthority := revocationAuthority;
        id_recoveryAuthority := recoveryAuthority; id_timelock := timelock |}.

Definition parseIdentityResult (value : option json) : result exn VerusIdentityResult :=
  let! raw := requireObject value "identity result" in
  let! fullyQualifiedName := requireString (prop_of raw "fullyqualifiedname") "fullyqualifiedname" in
  let! identity := parseIdentityDefinition (prop_of raw "identity") in
  let! status := requireString (prop_of raw "status") "status" in
  let! canSpendFor := requireBoolean (prop_of raw "canspendfor") "canspendfor" in
  let! canSignFor := requireBoolean (prop_of raw "cansignfor") "cansignfor" in
  let! blockHeight := requireInteger (prop_of raw "blockheight") "blockheight" in
  let! transactionId := requireString (prop_of raw "txid") "txid" in
  let! outputIndex := requireInteger (prop_of raw "vout") "vout" in
  Ok {| ir_fullyQualifiedName := fullyQualifiedName; ir_identity := identity; ir_status := status;
        ir_canSpendFor := canSpendFor; ir_canSignFor := canSignFor; ir_blockHeight := blockHeight;
        ir_transactionId := transactionId; ir_outputIndex := outputIndex |}.

Definition jstring (s : string) : json := JString (text_units s).
Definition jinteger (z : Z) : json := JNumber (float_of_Z z).

Definition identityToRpc (identity : VerusIdentityDefinition) : json := JObject [
  (units "version", jinteger (id_version identity));
  (units "flags", jinteger (id_flags identity));
  (units "primaryaddresses", JArray (jstring <$> id_primaryAddresses identity));
  (units "minimumsignatures", jinteger (id_minimumSignatures identity));
  (units "name", jstring (id_name identity));
  (units "identityaddress", jstring (id_identityAddress identity));
  (units "parent", jstring (id_parent identity));
  (units "systemid", jstring (id_systemId identity));
  (units "contentmap", JObject (prod_map text_units id <$> id_contentMap identity));
  (units "contentmultimap", JObject (prod_map text_units JArray <$> id_contentMultiMap identity));
  (units "revocationauthority", jstring (id_revocationAuthority identity));
  (units "recoveryauthority", jstring (id_recoveryAuthority identity));
  (units "timelock", jinteger (id_timelock identity))].

(** types.ts, the signing requests and their result. *)
Record SignDataRequest : Type := {
  sd_address : string; sd_dataHash : string; sd_hashType : string; sd_prefixString : string }.
Record VerifySignatureRequest : Type := {
  vs_request : SignDataRequest; vs_signature : string; vs_checkLatest : bool }.
Record VerusSignatureResult : Type := {
  sr_hash : string; sr_signature : string; sr_signatureHeight : option Z; sr_signatureStatus : option string }.

Definition signatureRequestToRpc (request : SignDataRequest) : list (ustring * json) := [
  (units "address", jstring (sd_address request)); (units "datahash", jstring (sd_dataHash request));
  (units "hashtype", jstring (sd_hashType request)); (units "prefixstring", jstring (sd_prefixString request))].

Definition parseSignatureResult (value : option json) (field : string) : result exn VerusSignatureResult :=
  let! raw := requireObject value field in
  let! hash := requireString (prop_of raw "hash") "hash" in
  let! signature := requireString (prop_of raw "signature") "signature" in
  let! height := (match prop_of raw "signatureheight" with
                  | None => Ok None
                  | h => let! z := requireInteger h "signatureheight" in Ok (Some z)
                  end) in
  let! status := (match prop_of raw "signaturestatus" with
                  | None => Ok None
                  | s => let! t := requireString s "signaturestatus" in Ok (Some t)
                  end) in
  Ok {| sr_hash := hash; sr_signature := signature; sr_signatureHeight := height; sr_signatureStatus := status |}.

(** ** Requests *)

Definition base64_digit (n : Z) : ascii :=
  ascii_of_nat (Z.to_nat (if n <? 26 then 65 + n else if n <? 52 then 71 + n else if n <? 62 then n - 4
                          else if n =? 62 then 43 else 47)).

(** Buffer.from(...).toString("base64"). *)
Fixpoint base64 (bs : list Z) : string :=
  match bs with
  | [] => EmptyString
  | [a] => String (base64_digit (a / 4)) (String (base64_digit (a mod 4 * 16)) "==")
  | [a; b] => String (base64_digit (a / 4)) (String (base64_digit (a mod 4 * 16 + b / 16))
                (String (base64_digit (b mod 16 * 4)) "="))
  | a :: b :: c :: bs' =>
    String (base64_digit (a / 4)) (String (base64_digit (a mod 4 * 16 + b / 16))
      (String (base64_digit (b mod 16 * 4 + c / 64)) (String (base64_digit (c mod 64)) (base64 bs'))))
  end.

Definition bytes_of (s : string) : list Z := Z.of_N ∘ Ascii.N_of_ascii <$> String.list_ascii_of_string s.

Record HttpVerusRpcAdapterOptions : Type := {
  url : string;
  username : option string;
  password : option string;
  timeoutMs : option Z;
  writeTimeoutMs : option Z;
}.

Record HttpRequest : Type := {
  rq_url : string;
  rq_headers : list (string * string);
  rq_body : json;           (* handed to JSON.stringify *)
  rq_abortAfterMs : Z;
}.

(** What a POST comes to: it fails, after the adapter's timer fired or not;
    or there is a response, whose body is JSON or not (or could not be read). *)
Inductive FetchOutcome : Type :=
| fetch_failed (timedOut : bool)
| fetch_response (status : Z) (body : option json).

(** [HttpVerusRpcAdapter]: its request counter, and the network's state. *)
Record Rpc (N : Type) : Type := { nextId : Z; net : N }.
Arguments nextId {N} _.
Arguments net {N} _.

Definition method_name (m : VerusRpcMethod) : string :=
  match m with
  | getinfo => "getinfo" | getblockchaininfo => "getblockchaininfo" | getidentity => "getidentity"
  | getidentitycontent => "getidentitycontent" | getvdxfid => "getvdxfid" | updateidentity => "updateidentity"
  | signdata => "signdata" | verifysignature => "verifysignature" | getrawtransaction => "getrawtransaction"
  | getblockhash => "getblockhash" | getblock => "getblock"
  end.

Definition response_ok (status : Z) : bool := (200 <=? status) && (status <=? 299).

Definition ambiguousWrite : exn :=
  ambiguousError "Verus write outcome is ambiguous and requires readback reconciliation".

(** The codes the node gives while it warms up or does not know yet. *)
Definition retryable_rpc_code (code : option json) : bool :=
  match code with
  | Some (JNumber n) =>
    match integer_of_float n with Some z => (z =? -28) || (z =? -9) || (z =? -5) | None => false end
  | _ => false
  end.

(** What [call] makes of an outcome. *)
Definition read_outcome (write : bool) (outcome : FetchOutcome) : result exn (option json) :=
  match outcome with
  | fetch_failed timedOut =>
    Err (if write then ambiguousWrite
         else if timedOut then verusError RPC_TIMEOUT "Private Verus RPC timed out" true
         else verusError RPC_UNAVAILABLE "Private Verus RPC is unavailable" true)
  | fetch_response status body =>
    throwif! negb (response_ok status)
      as! (if write && (500 <=? status) then ambiguousWrite
           else verusError RPC_HTTP_ERROR "Private Verus RPC returned an HTTP error" (500 <=? status)) in
    match body with
    | Some (JObject payload) =>
      match prop_of payload "error" with
      | None | Some JNull =>
        match prop_of payload "result" with
        | None => Err (if write then ambiguousWrite
                       else verusError RPC_PROTOCOL_ERROR
                              "Private Verus RPC response did not contain a result" false)
        | Some r => Ok (Some r)
        end
      | error =>
        let! rpcError := requireObject error "JSON-RPC error" in
        Err (verusError RPC_METHOD_ERROR "Private Verus RPC rejected an allowlisted method"
               (retryable_rpc_code (prop_of rpcError "code")))
      end
    | Some _ => Err (if write then ambiguousWrite else invalidResult "JSON-RPC envelope")
    | None => Err (if write then ambiguousWrite
                   else verusError RPC_PROTOCOL_ERROR "Private Verus RPC returned malformed JSON" false)
    end
  end.

Section adapter.
Context {N : Type} (fetch : HttpRequest -> N -> FetchOutcome * N) (options : HttpVerusRpcAdapterOptions).

Definition request (method : VerusRpcMethod) (params : list json) (write : bool) (id : Z) : HttpRequest := {|
  rq_url := url options;
  rq_headers := ("content-type", "application/json") ::
    match nonempty (username options), nonempty (password options) with
    | Some u, Some p => [("authorization", "Basic " +:+ base64 (bytes_of (u +:+ ":" +:+ p)))]
    | _, _ => []
    end;
  rq_body := JObject [
    (units "jsonrpc", JString (units "1.0"));
    (units "id", JString (units ("cbc-" +:+ pretty id)));
    (units "method", JString (units (method_name method)));
    (units "params", JArray params)];
  rq_abortAfterMs := if write then default 60000 (writeTimeoutMs options) else default 2000 (timeoutMs options) |}.

Definition call (method : VerusRpcMethod) (params : list json) (write : bool)
  : prog (Rpc N) exn (option json) := fun s =>
  let (outcome, n) := fetch (request method params write (nextId s)) (net s) in
  (read_outcome write outcome, {| nextId := nextId s + 1; net := n |}).

Definition rpc_getInfo : prog (Rpc N) exn VerusInfo :=
  let* r := call getinfo [] false in
  lift (
    let! raw := requireObject r "getinfo result" in
    let! release := requireString (prop_of raw "VRSCversion") "VRSCversion" in
    let! version := requireInteger (prop_of raw "version") "version" in
    let! protocolVersion := requireInteger (prop_of raw "protocolversion") "protocolversion" in
    let! chainId := requireString (prop_of raw "chainid") "chainid" in
    let! name := requireString (prop_of raw "name") "name" in
    let! blocks := requireInteger (prop_of raw "blocks") "blocks" in
    let! longestChain := requireInteger (nullish (prop_of raw "longestchain") (prop_of raw "blocks")) "longestchain" in
    let! connections := requireInteger (prop_of raw "connections") "connections" in
    let! testnet := requireBoolean (prop_of raw "testnet") "testnet" in
    let! errors := requireUnits (prop_of raw "errors") "errors" in
    Ok {| info_release := release; info_version := version; info_protocolVersion := protocolVersion;
          info_chainId := chainId; info_name := name; info_blocks := blocks; info_longestChain := longestChain;
          info_connections := connections; info_testnet := testnet; info_errors := errors |}).

Definition rpc_getBlockchainInfo : prog (Rpc N) exn VerusBlockchainInfo :=
  let* r := call getblockchaininfo [] false in
  lift (
    let! raw := requireObject r "getblockchaininfo result" in
    let! chain := requireString (prop_of raw "chain") "chain" in
    let! name := requireString (prop_of raw "name") "name" in
    let! chainId := requireString (prop_of raw "chainid") "chainid" in
    let! blocks := requireInteger (prop_of raw "blocks") "blocks" in
    let! headers := requireInteger (prop_of raw "headers") "headers" in
    let! bestBlockHash := requireString (prop_of raw "bestblockhash") "bestblockhash" in
    let! verificationProgress := requireNumber (prop_of raw "verificationprogress") "verificationprogress" in
    let! pruned := requireBoolean (prop_of raw "pruned") "pruned" in
    Ok {| bc_chain := chain; bc_name := name; bc_chainId := chainId; bc_blocks := blocks; bc_headers := headers;
          bc_bestBlockHash := bestBlockHash; bc_verificationProgress := verificationProgress;
          bc_pruned := pruned |}).

(** With the identity alone, as its callers ask. *)
Definition rpc_getIdentity (identity : string) : prog (Rpc N) exn VerusIdentityResult :=
  let* r := call getidentity [jstring identity] false in
  lift (parseIdentityResult r).

(** With the identity and a VDXF key: the heights and flags before it take
    their defaults. *)
Definition rpc_getIdentityContent (identity vdxfKey : string) : prog (Rpc N) exn VerusIdentityContentResult :=
  let* r := call getidentitycontent
              [jstring identity; jinteger 0; jinteger 0; JBool false; jinteger 0; jstring vdxfKey] false in
  lift (
    let! raw := requireObject r "getidentitycontent result" in
    let! result := parseIdentityResult (Some (JObject raw)) in
    let! fromHeight := requireInteger (prop_of raw "fromheight") "fromheight" in
    let! toHeight := requireInteger (prop_of raw "toheight") "toheight" in
    Ok {| ic_result := result; ic_fromHeight := fromHeight; ic_toHeight := toHeight |}).

(** Without a binding. *)
Definition rpc_getVdxfId (uri : string) : prog (Rpc N) exn VerusVdxfId :=
  let* r := call getvdxfid [jstring uri] false in
  lift (
    let! raw := requireObject r "getvdxfid result" in
    let boundData := prop_of raw "bounddata" in
    let! vdxfId := requireString (prop_of raw "vdxfid") "vdxfid" in
    let! hash160Result := requireString (prop_of raw "hash160result") "hash160result" in
    let! qualifiedName := requireJsonObject (prop_of raw "qualifiedname") "qualifiedname" in
    let! bound := (match boundData with
                   | None => Ok None
                   | Some _ => let! b := requireJsonObject boundData "bounddata" in Ok (Some b)
                   end) in
    Ok {| vd_vdxfId := vdxfId; vd_hash160Result := hash160Result; vd_qualifiedName := qualifiedName;
          vd_boundData := bound |}).

(** [/^[0-9a-f]{64}$/i] *)
Definition hex_unit (c : Z) : bool := match hex_value c with Some _ => true | None => false end.
Definition transaction_id (r : option json) : result exn string :=
  match r with
  | Some (JString s) =>
    if forallb hex_unit s && (length s =? 64)%nat then Ok (toLowerCase (of_bytes s))
    else Err (ambiguousError "Verus write returned no usable transaction identifier and requires readback reconciliation")
  | _ => Err (ambiguousError "Verus write returned no usable transaction identifier and requires readback reconciliation")
  end.

Definition rpc_updateIdentity (update : PreparedIdentityUpdate) : prog (Rpc N) exn string :=
  let* r := call updateidentity [identityToRpc (pu_identity update); JBool false; JBool false] true in
  lift (transaction_id r).

Definition rpc_getRawTransaction (transactionId : string) : prog (Rpc N) exn VerusRawTransaction :=
  let* r := call getrawtransaction [jstring transactionId; jinteger 1] false in
  lift (
    let! raw := requireObject r "getrawtransaction result" in
    let blockHash := prop_of raw "blockhash" in
    let! txid := requireString (prop_of raw "txid") "txid" in
    let! confirmations := requireInteger (nullish (prop_of raw "confirmations") (Some (jinteger 0))) "confirmations" in
    let! block := (match blockHash with
                   | None => Ok None
                   | Some _ => let! b := requireString blockHash "blockhash" in Ok (Some b)
                   end) in
    Ok {| tx_transactionId := txid; tx_blockHash := block; tx_confirmations := confirmations |}).

Definition rpc_getBlockHash (height : Z) : prog (Rpc N) exn string :=
  let* r := call getblockhash [jinteger height] false in
  lift (requireString r "getblockhash result").

Definition rpc_getBlock (hashOrHeight : string + Z) : prog (Rpc N) exn VerusBlock :=
  let* r := call getblock [match hashOrHeight with inl h => jstring h | inr k => jinteger k end; jinteger 1] false in
  lift (
    let! raw := requireObject r "getblock result" in
    let! hash := requireString (prop_of raw "hash") "hash" in
    let! confirmations := requireInteger (prop_of raw "confirmations") "confirmations" in
    let! height := requireInteger (prop_of raw "height") "height" in
    let! time := requireInteger (prop_of raw "time") "time" in
    let! transactions := requireStringArray (prop_of raw "tx") "tx" in
    Ok {| bl_hash := hash; bl_confirmations := confirmations; bl_height := height; bl_time := time;
          bl_transactions := transactions |}).

Definition rpc_signData (request : SignDataRequest) : prog (Rpc N) exn VerusSignatureResult :=
  let* r := call signdata [JObject (signatureRequestToRpc request)] false in
  lift (parseSignatureResult r "signdata result").

Definition rpc_verifySignature (request : VerifySignatureRequest) : prog (Rpc N) exn VerusSignatureResult :=
  let* r := call verifysignature
              [JObject (signatureRequestToRpc (vs_request request) ++
                        [(units "signature", jstring (vs_signature request));
                         (units "checklatest", JBool (vs_checkLatest request))])] false in
  lift (parseSignatureResult r "verifysignature result").

(** index.ts: [getInfo] succeeds. *)
Definition checkVerusReadiness : Rpc N -> bool := fun s => is_ok (fst (rpc_getInfo s)).

#[export] Instance rpc_adapter : VerusRpcAdapter (Rpc N) := {
  getInfo := rpc_getInfo;
  getBlockchainInfo := rpc_getBlockchainInfo;
  getIdentity := rpc_getIdentity;
  getIdentityContent := rpc_getIdentityContent;
  getVdxfId := rpc_getVdxfId;
  updateIdentity := rpc_updateIdentity;
  getRawTransaction := rpc_getRawTransaction;
  getBlockHash := rpc_getBlockHash;
  getBlock hash := rpc_getBlock (inl hash);
}.
End adapter.
