(* ===== verification/FakeAdapter.v ===== *)
(** * FakeAdapter: the deterministic in-memory node of
    packages/verus/src/fake-adapter.ts, an implementation of the adapter
    interface of Verus.v.

    [structuredClone] copies are the identity on immutable values.  The maps
    [vdxfIds], [rawTransactions], [blocks] and [blockHashes] are finite maps;
    a failure queue is kept per RPC method. *)
From Stdlib Require Import Ascii SpecFloat.
From S2P Require Import Prelude Errors Text Json JsonParse Verus Database RpcAdapter.
Local Open Scope Z_scope.

Record FakeVerusRpcAdapter : Type := {
  fk_info : VerusInfo;
  fk_blockchain : VerusBlockchainInfo;
  fk_identity : VerusIdentityResult;
  fk_vdxfIds : gmap string VerusVdxfId;
  fk_rawTransactions : gmap string VerusRawTransaction;
  fk_blocks : gmap string VerusBlock;
  fk_blockHashes : gmap Z string;
  fk_failures : VerusRpcMethod -> list VerusIntegrationError;
  fk_methodCalls : list VerusRpcMethod;
  fk_confirmationsAfterWrite : Z;
}.

Record FakeVerusRpcAdapterOptions : Type := {
  op_info : option VerusInfo;
  op_blockchain : option VerusBlockchainInfo;
  op_identity : option VerusIdentityResult;
  op_vdxfIds : list (string * VerusVdxfId);
  op_confirmationsAfterWrite : option Z;
}.

(** ** The synthetic fixtures, without overrides *)

Definition DEFAULT_BLOCK_HASH : string := "0000000000000000000000000000000000000000000000000000000000000001".
Definition DEFAULT_IDENTITY_ADDRESS : string := "iJhCezBExJHvtyH3fGhNnt2NhU4Ztkf2yq".
Definition PINNED_VERUS_NODE_RELEASE : string := "1.2.17-3".

Definition syntheticVerusInfo : VerusInfo := {|
  info_release := PINNED_VERUS_NODE_RELEASE; info_version := MINIMUM_VERUS_NODE_VERSION;
  info_protocolVersion := 170010; info_chainId := VRSCTEST_CHAIN_ID; info_name := VRSCTEST_NETWORK;
  info_blocks := 1000; info_longestChain := 1000; info_connections := 4; info_testnet := true;
  info_errors := [] |}.

Definition syntheticBlockchainInfo : VerusBlockchainInfo := {|
  bc_chain := "test"; bc_name := VRSCTEST_NETWORK; bc_chainId := VRSCTEST_CHAIN_ID; bc_blocks := 1000;
  bc_headers := 1000; bc_bestBlockHash := DEFAULT_BLOCK_HASH;
  bc_verificationProgress := S754_finite false 4503599627370496 (-52); bc_pruned := false |}.

Definition syntheticIdentityDefinition : VerusIdentityDefinition := {|
  id_version := 3; id_flags := 0; id_primaryAddresses := ["RXKs5Gz8kRqpA52M25AW5FzP3aCNq46yMh"];
  id_minimumSignatures := 1; id_name := "cbc-synthetic-anchor";
  id_identityAddress := DEFAULT_IDENTITY_ADDRESS; id_parent := "i3UXS5QPRQGNRDDqVnyWTnmFCTHDbzmsYk";
  id_systemId := VRSCTEST_CHAIN_ID; id_contentMap := []; id_contentMultiMap := [];
  id_revocationAuthority := DEFAULT_IDENTITY_ADDRESS; id_recoveryAuthority := DEFAULT_IDENTITY_ADDRESS;
  id_timelock := 0 |}.

Definition syntheticIdentityResult : VerusIdentityResult := {|
  ir_fullyQualifiedName := "cbc-synthetic-anchor@"; ir_identity := syntheticIdentityDefinition;
  ir_status := "active"; ir_canSpendFor := true; ir_canSignFor := true; ir_blockHeight := 900;
  ir_transactionId := "aaaaaaaaaaaaaaaaaaaaaaaaaaaaaaaaaaaaaaaaaaaaaaaaaaaaaaaaaaaaaaaa";
  ir_outputIndex := 0 |}.

(** The constructor. *)
Definition newFakeVerusRpcAdapter (options : FakeVerusRpcAdapterOptions) : FakeVerusRpcAdapter :=
  let blockchain := default syntheticBlockchainInfo (op_blockchain options) in
  let confirmations := default 2 (op_confirmationsAfterWrite options) in
  {| fk_info := default syntheticVerusInfo (op_info options);
     fk_blockchain := blockchain;
     fk_identity := default syntheticIdentityResult (op_identity options);
     fk_vdxfIds := list_to_map (op_vdxfIds options);
     fk_rawTransactions := ∅;
     fk_blocks := {[bc_bestBlockHash blockchain :=
       {| bl_hash := bc_bestBlockHash blockchain; bl_confirmations := confirmations;
          bl_height := bc_blocks blockchain; bl_time := 1800000000; bl_transactions := [] |}]};
     fk_blockHashes := {[bc_blocks blockchain := bc_bestBlockHash blockchain]};
     fk_failures := fun _ => [];
     fk_methodCalls := [];
     fk_confirmationsAfterWrite := confirmations |}.

(** ** Test controls *)

Definition with_failures (f : VerusRpcMethod -> list VerusIntegrationError) (n : FakeVerusRpcAdapter)
  : FakeVerusRpcAdapter := {|
  fk_info := fk_info n; fk_blockchain := fk_blockchain n; fk_identity := fk_identity n;
  fk_vdxfIds := fk_vdxfIds n; fk_rawTransactions := fk_rawTransactions n; fk_blocks := fk_blocks n;
  fk_blockHashes := fk_blockHashes n; fk_failures := f; fk_methodCalls := fk_methodCalls n;
  fk_confirmationsAfterWrite := fk_confirmationsAfterWrite n |}.

Definition failNext (method : VerusRpcMethod) (error : VerusIntegrationError) (n : FakeVerusRpcAdapter)
  : FakeVerusRpcAdapter :=
  with_failures (fun m => if bool_decide (m = method) then fk_failures n m ++ [error] else fk_failures n m) n.

Definition calls (n : FakeVerusRpcAdapter) : list VerusRpcMethod := fk_methodCalls n.

Definition with_chain (info : VerusInfo) (blockchain : VerusBlockchainInfo) (identity : VerusIdentityResult)
    (raw : gmap string VerusRawTransaction) (blocks : gmap string VerusBlock) (hashes : gmap Z string)
    (n : FakeVerusRpcAdapter) : FakeVerusRpcAdapter := {|
  fk_info := info; fk_blockchain := blockchain; fk_identity := identity; fk_vdxfIds := fk_vdxfIds n;
  fk_rawTransactions := raw; fk_blocks := blocks; fk_blockHashes := hashes; fk_failures := fk_failures n;
  fk_methodCalls := fk_methodCalls n; fk_confirmationsAfterWrite := fk_confirmationsAfterWrite n |}.

Definition setInfo (info : VerusInfo) (n : FakeVerusRpcAdapter) : FakeVerusRpcAdapter :=
  with_chain info (fk_blockchain n) (fk_identity n) (fk_rawTransactions n) (fk_blocks n) (fk_blockHashes n) n.
Definition setBlockchainInfo (blockchain : VerusBlockchainInfo) (n : FakeVerusRpcAdapter) : FakeVerusRpcAdapter :=
  with_chain (fk_info n) blockchain (fk_identity n) (fk_rawTransactions n) (fk_blocks n) (fk_blockHashes n) n.
Definition setIdentity (identity : VerusIdentityResult) (n : FakeVerusRpcAdapter) : FakeVerusRpcAdapter :=
  with_chain (fk_info n) (fk_blockchain n) identity (fk_rawTransactions n) (fk_blocks n) (fk_blockHashes n) n.
Definition setCanonicalBlockHash (height : Z) (hash : string) (n : FakeVerusRpcAdapter) : FakeVerusRpcAdapter :=
  with_chain (fk_info n) (fk_blockchain n) (fk_identity n) (fk_rawTransactions n) (fk_blocks n)
    (<[height := hash]> (fk_blockHashes n)) n.
Definition setTransaction (transaction : VerusRawTransaction) (block : option VerusBlock)
    (n : FakeVerusRpcAdapter) : FakeVerusRpcAdapter :=
  with_chain (fk_info n) (fk_blockchain n) (fk_identity n)
    (<[tx_transactionId transaction := transaction]> (fk_rawTransactions n))
    (match block with Some b => <[bl_hash b := b]> (fk_blocks n) | None => fk_blocks n end)
    (match block with Some b => <[bl_height b := bl_hash b]> (fk_blockHashes n) | None => fk_blockHashes n end) n.

(** ** The operations *)

Definition methodError {A : Type} (message : string) (retryable : bool) : prog FakeVerusRpcAdapter exn A :=
  throw (verusError RPC_METHOD_ERROR message retryable).

(** The private [before]: logs the call and throws the next queued failure. *)
Definition before_call (method : VerusRpcMethod) : prog FakeVerusRpcAdapter exn unit := fun n =>
  let n' := {|
    fk_info := fk_info n; fk_blockchain := fk_blockchain n; fk_identity := fk_identity n;
    fk_vdxfIds := fk_vdxfIds n; fk_rawTransactions := fk_rawTransactions n; fk_blocks := fk_blocks n;
    fk_blockHashes := fk_blockHashes n; fk_failures := fk_failures n;
    fk_methodCalls := fk_methodCalls n ++ [method];
    fk_confirmationsAfterWrite := fk_confirmationsAfterWrite n |} in
  match fk_failures n method with
  | [] => (Ok tt, n')
  | failure :: rest =>
    (Err (VerusError failure),
     with_failures (fun m => if bool_decide (m = method) then rest else fk_failures n m) n')
  end.

Definition assertIdentity (identity : string) : prog FakeVerusRpcAdapter exn unit :=
  let* n := gets id in
  if negb (String.eqb identity (id_identityAddress (ir_identity (fk_identity n))))
     && negb (String.eqb identity (ir_fullyQualifiedName (fk_identity n)))
  then methodError "Synthetic identity is not available" false
  else ret tt.

Definition with_definition (i : VerusIdentityDefinition) (height : Z) (r : VerusIdentityResult)
  : VerusIdentityResult := {|
  ir_fullyQualifiedName := ir_fullyQualifiedName r; ir_identity := i; ir_status := ir_status r;
  ir_canSpendFor := ir_canSpendFor r; ir_canSignFor := ir_canSignFor r; ir_blockHeight := height;
  ir_transactionId := ir_transactionId r; ir_outputIndex := ir_outputIndex r |}.

(** [getIdentityContent] with neither height given. *)
Definition fake_getIdentityContent (identity vdxfKey : string)
  : prog FakeVerusRpcAdapter exn VerusIdentityContentResult :=
  run* before_call getidentitycontent in
  run* assertIdentity identity in
  let* n := gets id in
  let result := fk_identity n in
  let narrowed := if falsy_string vdxfKey then result
    else with_definition
           (with_contentMultiMap
              [(vdxfKey, default [] (get_property vdxfKey (id_contentMultiMap (ir_identity result))))]
              (ir_identity result)) (ir_blockHeight result) result in
  ret {| ic_result := narrowed; ic_fromHeight := 0; ic_toHeight := bc_blocks (fk_blockchain n) |}.

Definition found {A : Type} (o : option A) (message : string) (retryable : bool)
  : prog FakeVerusRpcAdapter exn A :=
  match o with Some a => ret a | None => methodError message retryable end.

Section fake.
Context (sha256 : string -> string).

(** [updateIdentity]: the identity takes the prepared definition; the
    transaction is mined in the best block. *)
Definition apply_update (request : PreparedIdentityUpdate) (n : FakeVerusRpcAdapter) : FakeVerusRpcAdapter :=
  let transactionId := sha256 ("fake-update:" +:+ pu_manifestDigest request) in
  let height := bc_blocks (fk_blockchain n) in
  let blockHash := bc_bestBlockHash (fk_blockchain n) in
  let currentBlock := fk_blocks n !! blockHash in
  with_chain (fk_info n) (fk_blockchain n)
    (with_definition (pu_identity request) height (fk_identity n))
    (<[transactionId := {| tx_transactionId := transactionId; tx_blockHash := Some blockHash;
                           tx_confirmations := fk_confirmationsAfterWrite n |}]> (fk_rawTransactions n))
    (<[blockHash := {| bl_hash := blockHash; bl_confirmations := fk_confirmationsAfterWrite n;
                       bl_height := height;
                       bl_time := match currentBlock with Some b => bl_time b | None => 1800000000 end;
                       bl_transactions := match currentBlock with Some b => bl_transactions b | None => [] end
                                          ++ [transactionId] |}]> (fk_blocks n))
    (<[height := blockHash]> (fk_blockHashes n)) n.

Definition fake_updateIdentity (request : PreparedIdentityUpdate) : prog FakeVerusRpcAdapter exn string :=
  run* before_call updateidentity in
  run* modify (apply_update request) in
  ret (sha256 ("fake-update:" +:+ pu_manifestDigest request)).

Definition fake_getBlock (hashOrHeight : string + Z) : prog FakeVerusRpcAdapter exn VerusBlock :=
  run* before_call getblock in
  let* n := gets id in
  let hash := match hashOrHeight with inl h => Some h | inr k => fk_blockHashes n !! k end in
  found (match hash with
         | Some h => if falsy_string h then None else fk_blocks n !! h
         | None => None
         end) "Synthetic block is not available" true.

#[export] Instance fake_adapter : VerusRpcAdapter FakeVerusRpcAdapter := {
  getInfo := run* before_call getinfo in gets fk_info;
  getBlockchainInfo := run* before_call getblockchaininfo in gets fk_blockchain;
  getIdentity identity :=
    run* before_call getidentity in run* assertIdentity identity in gets fk_identity;
  getIdentityContent := fake_getIdentityContent;
  getVdxfId uri :=
    run* before_call getvdxfid in
    let* n := gets id in
    found (fk_vdxfIds n !! uri) "Synthetic VDXF fixture is not registered" false;
  updateIdentity := fake_updateIdentity;
  getRawTransaction transactionId :=
    run* before_call getrawtransaction in
    let* n := gets id in
    found (fk_rawTransactions n !! transactionId) "Synthetic transaction is not available" true;
  getBlockHash height :=
    run* before_call getblockhash in
    let* n := gets id in
    found (match fk_blockHashes n !! height with
           | Some h => if falsy_string h then None else Some h
           | None => None
           end) "Synthetic block height is not available" true;
  getBlock hash := fake_getBlock (inl hash);
}.
End fake.

(** ** Signatures (the anchor worker asks for none) *)

Section signatures.
Context `{Platform}.

(** [["a", "b"].join("\u001f")] *)
Definition signature_material (request : SignDataRequest) : string :=
  String.concat (String "031"%char EmptyString)
    [sd_address request; sd_dataHash request; sd_hashType request; sd_prefixString request].

(** [createHash("sha256")...digest()]: the bytes of the hexadecimal digest. *)
Definition digest_of (text : string) : list Z := default [] (from_hex (text_units (sha256 text))).

Definition uint32_le (n : Z) : list Z := [n mod 256; n / 256 mod 256; n / 65536 mod 256; n / 16777216 mod 256].

(** [Buffer.alloc(38)]; [writeUInt32LE] throws outside its range, and [copy]
    stops at the buffer's end. *)
Definition syntheticSignature (request : SignDataRequest) (height : Z) : result exn VerusSignatureResult :=
  throwif! (height <? 0) || (4294967295 <? height)
    as! OtherError "ERR_OUT_OF_RANGE" in
  let digest := take 32 (digest_of (signature_material request) ++ replicate 32 0) in
  Ok {| sr_hash := sd_dataHash request; sr_signature := base64 ([2; 5] ++ uint32_le height ++ digest);
        sr_signatureHeight := Some height; sr_signatureStatus := Some "verified" |}.

Definition fake_signData (request : SignDataRequest) : prog FakeVerusRpcAdapter exn VerusSignatureResult :=
  run* before_call signdata in
  let* height := gets (fun n => bc_blocks (fk_blockchain n)) in
  lift (syntheticSignature request height).

Definition fake_verifySignature (request : VerifySignatureRequest) : prog FakeVerusRpcAdapter exn VerusSignatureResult :=
  run* before_call verifysignature in
  let* height := gets (fun n => bc_blocks (fk_blockchain n)) in
  let* expected := lift (syntheticSignature (vs_request request) height) in
  if negb (String.eqb (vs_signature request) (sr_signature expected))
  then methodError "Synthetic signature verification failed" false
  else ret expected.

(** What the node signs it verifies, as long as its chain does not move and
    no failure is queued. *)
Theorem signature_verifies request checkLatest n result_ n' :
  fake_signData request n = (Ok result_, n') -> fk_failures n verifysignature = [] ->
  fst (fake_verifySignature {| vs_request := request; vs_signature := sr_signature result_;
                               vs_checkLatest := checkLatest |} n') = Ok result_.
Proof.
  intros Hs Hf. unfold fake_signData in Hs. apply bindP_ok in Hs as (u & n1 & Hb & Hs).
  unfold before_call in Hb. destruct (fk_failures n signdata) eqn:Hq; [|done]. injection Hb as <- <-.
  apply bindP_ok in Hs as (h & n2 & [= <- <-] & [= Hsig <-]).
  unfold fake_verifySignature, bindP, before_call, gets, lift. simpl. rewrite Hf. simpl. rewrite Hsig. simpl.
  by rewrite String.eqb_refl.
Qed.
End signatures.
