(* ===== verification/RpcFacts.v ===== *)
(** * RpcFacts: the JSON-RPC client, proved.

    How outcomes of the network are classified for writes and for reads, and
    the round trip of an identity through the wire format. *)
From Stdlib Require Import SpecFloat Ascii.
From S2P Require Import Prelude Errors Text Json JsonParse Verus FakeAdapter RpcAdapter.
Local Open Scope Z_scope.

(** ** Numbers *)

Lemma log2_safe z : z <> 0 -> Z.abs z <= maxSafeInteger -> 0 <= 52 - Z.log2 (Z.abs z).
Proof.
  intros Hz Hs. assert (Z.log2 (Z.abs z) < 53); [|lia].
  apply Z.log2_lt_pow2; [lia|]. unfold maxSafeInteger in Hs. lia.
Qed.

Lemma integer_float_round z : Z.abs z <= maxSafeInteger -> integer_of_float (float_of_Z z) = Some z.
Proof.
  intros Hs. destruct (decide (z = 0)) as [->|Hz]; [done|].
  pose proof (log2_safe z Hz Hs) as Hd. set (d := 52 - Z.log2 (Z.abs z)) in *.
  assert (Hf : float_of_Z z = S754_finite (z <? 0) (Z.to_pos (Z.abs z * 2 ^ d)) (- d)) by (by destruct z).
  rewrite Hf. unfold integer_of_float.
  assert (Hp : 0 < 2 ^ d) by (apply Z.pow_pos_nonneg; lia).
  assert (Hpos : Z.pos (Z.to_pos (Z.abs z * 2 ^ d)) = Z.abs z * 2 ^ d) by (apply Z2Pos.id; nia).
  rewrite Hpos, Z.opp_involutive.
  destruct (Z.leb_spec 0 (- d)) as [Hle|Hlt].
  - assert (d = 0) as -> by lia. simpl. f_equal. destruct (Z.ltb_spec z 0); lia.
  - rewrite Z.mod_mul, Z.div_mul by lia. simpl. f_equal. destruct (Z.ltb_spec z 0); lia.
Qed.

Lemma float_of_Z_finite z : isFinite (float_of_Z z) = true.
Proof. by destruct z. Qed.

Lemma requireInteger_round z field : Z.abs z <= maxSafeInteger ->
  requireInteger (Some (jinteger z)) field = Ok z.
Proof.
  intros Hs. unfold requireInteger, requireNumber, jinteger. rewrite float_of_Z_finite. simpl.
  rewrite integer_float_round by done. simpl. destruct (Z.leb_spec (Z.abs z) maxSafeInteger); [done|lia].
Qed.

(** ** Hexadecimal text *)





(** ** Writes *)

Section rpc.
Context {N : Type} (fetch : HttpRequest -> N -> FetchOutcome * N) (options : HttpVerusRpcAdapterOptions).


(** An error member that is no JSON-RPC error: what became of the write is
    unknown. *)
Definition malformed_error (o : FetchOutcome) : Prop :=
  exists status es e, o = fetch_response status (Some (JObject es)) /\ response_ok status = true /\
    prop_of es "error" = Some e /\ e <> JNull /\ forall error, e <> JObject error.


Definition not_ambiguous (e : exn) : Prop :=
  forall v, e = VerusError v -> verr_submissionAmbiguous v = false.




(** A write whose answer has an error member that is not an object fails as
    if its outcome were settled. *)
Theorem malformed_error_settled u s :
  malformed_error (fst (fetch (request options updateidentity
    [identityToRpc (pu_identity u); JBool false; JBool false] true (nextId s)) (net s))) ->
  exists e, fst (rpc_updateIdentity fetch options u s) = Err e /\ not_ambiguous e.
Proof.
  unfold rpc_updateIdentity, bindP, call. destruct (fetch _ _) as [o n]. simpl.
  intros (status & es & e & -> & Hok & He & Hnull & Hobj). simpl. unfold throwIf. rewrite Hok. simpl. rewrite He.
  destruct e; try done; try (by destruct (Hobj entries)); eexists; (split; [reflexivity|]);
    intros v Hv; unfold invalidResult, verusError in Hv; by injection Hv as <-.
Qed.

(** ** Reads *)

Definition reads_plainly {A : Type} (c : prog (Rpc N) exn A) : Prop :=
  forall s e, fst (c s) = Err e -> not_ambiguous e.

Lemma plain_error c m b : not_ambiguous (verusError c m b).
Proof. intros v Hv. unfold verusError in Hv. by injection Hv as <-. Qed.

Lemma call_plain m ps : reads_plainly (call fetch options m ps false).
Proof.
  intros s e. unfold call. destruct (fetch _ _) as [o n]. simpl. destruct o as [t|status body]; simpl.
  - destruct t; intros [= <-]; apply plain_error.
  - unfold throwIf. destruct (response_ok status); simpl; [|intros [= <-]; apply plain_error].
    destruct body as [[]|]; try (intros [= <-]; apply plain_error).
    destruct (prop_of entries "error") as [[]|]; simpl; repeat case_match;
      try done; intros [= <-]; apply plain_error.
Qed.

(** Results that throw only plain errors. *)
Definition plain {A : Type} (r : result exn A) : Prop := forall e, r = Err e -> not_ambiguous e.

Lemma plain_bind {A B} (r : result exn A) (k : A -> result exn B) :
  plain r -> (forall a, plain (k a)) -> plain (bindR r k).
Proof. intros Hr Hk e. destruct r; simpl; [apply Hk|]. intros [= <-]. by apply Hr. Qed.

Lemma plain_ok {A} (a : A) : plain (Ok a).
Proof. done. Qed.

Lemma plain_invalid {A} f : plain (A := A) (Err (invalidResult f)).
Proof. intros e [= <-]. apply plain_error. Qed.

Lemma plain_map {A B} (f : A -> result exn B) xs : (forall x, x ∈ xs -> plain (f x)) -> plain (map_results f xs).
Proof.
  induction xs as [|x xs IH]; intros Hf; simpl; [done|]. apply plain_bind; [apply Hf; left|]. intros y.
  apply plain_bind; [apply IH; intros; apply Hf; by right|done].
Qed.

Create HintDb plain.
#[local] Hint Resolve plain_ok plain_invalid : plain.
Ltac plain_steps :=
  repeat first [solve [auto with plain] | apply plain_bind; [|intros ?] | apply plain_map; intros ? ?
               | match goal with |- plain (match ?x with _ => _ end) => destruct x end].

Lemma plain_object v f : plain (requireObject v f). Proof. unfold requireObject. plain_steps. Qed.
Lemma plain_string v f : plain (requireString v f). Proof. unfold requireString, requireUnits. plain_steps. Qed.
Lemma plain_units v f : plain (requireUnits v f). Proof. unfold requireUnits. plain_steps. Qed.
Lemma plain_number v f : plain (requireNumber v f). Proof. unfold requireNumber. plain_steps. Qed.
#[local] Hint Resolve plain_object plain_string plain_units plain_number : plain.
Lemma plain_integer v f : plain (requireInteger v f). Proof. unfold requireInteger. plain_steps. Qed.
Lemma plain_boolean v f : plain (requireBoolean v f). Proof. unfold requireBoolean. plain_steps. Qed.
Lemma plain_strings v f : plain (requireStringArray v f). Proof. unfold requireStringArray. plain_steps. Qed.
#[local] Hint Resolve plain_integer plain_boolean plain_strings : plain.

Lemma plain_json v f d : plain (requireJsonValue v f d).
Proof.
  revert d. induction v as [|b|n|u|items IH|entries IH] using json_ind'; intros d; cbn [requireJsonValue];
    unfold throwIf; (destruct (32 <? d); cbn [bindR]; [apply plain_invalid|]); plain_steps.
  all: rewrite Forall_forall in IH; by apply IH.
Qed.
#[local] Hint Resolve plain_json : plain.
Lemma plain_json_object v f : plain (requireJsonObject v f). Proof. unfold requireJsonObject. plain_steps. Qed.
#[local] Hint Resolve plain_json_object : plain.

Lemma plain_definition v : plain (parseIdentityDefinition v).
Proof.
  unfold parseIdentityDefinition, parseContentMap, parseContentMultiMap. plain_steps.
  all: intros e [= <-]; apply plain_error.
Qed.
#[local] Hint Resolve plain_definition : plain.
Lemma plain_identity v : plain (parseIdentityResult v). Proof. unfold parseIdentityResult. plain_steps. Qed.
#[local] Hint Resolve plain_identity : plain.
Lemma plain_signature v f : plain (parseSignatureResult v f). Proof. unfold parseSignatureResult. plain_steps. Qed.
#[local] Hint Resolve plain_signature : plain.

Lemma read_plain {A} m ps (k : option json -> result exn A) : (forall r, plain (k r)) ->
  reads_plainly (let* r := call fetch options m ps false in lift (k r)).
Proof.
  intros Hk s e. pose proof (call_plain m ps s) as Hc. unfold bindP.
  destruct (call fetch options m ps false s) as [[r|x] s1]; simpl in *; [apply Hk|].
  intros [= <-]. by apply Hc.
Qed.

(** No read of the adapter ever reports an ambiguous submission. *)
Theorem reads_never_ambiguous :
  reads_plainly (rpc_getInfo fetch options) /\ reads_plainly (rpc_getBlockchainInfo fetch options) /\
  (forall i, reads_plainly (rpc_getIdentity fetch options i)) /\
  (forall i k, reads_plainly (rpc_getIdentityContent fetch options i k)) /\
  (forall u, reads_plainly (rpc_getVdxfId fetch options u)) /\
  (forall x, reads_plainly (rpc_getRawTransaction fetch options x)) /\
  (forall h, reads_plainly (rpc_getBlockHash fetch options h)) /\
  (forall h, reads_plainly (rpc_getBlock fetch options h)) /\
  (forall r, reads_plainly (rpc_signData fetch options r)) /\
  (forall r, reads_plainly (rpc_verifySignature fetch options r)).
Proof. split_and!; intros; apply read_plain; intros; cbv zeta; plain_steps. Qed.
End rpc.

(** ** The wire format *)

Lemma units_inj k k' : units k = units k' -> k = k'.
Proof.
  revert k'. induction k as [|c k IH]; intros [|c' k']; simpl; try done.
  intros [= Hc Hk]. f_equal; [|by apply IH].
  rewrite <- (Ascii.ascii_nat_embedding c), <- (Ascii.ascii_nat_embedding c'). f_equal. lia.
Qed.

Lemma prop_of_cons k k' v es :
  prop_of ((units k, v) :: es) k' = if String.eqb k k' then Some v else prop_of es k'.
Proof.
  unfold prop_of. simpl. destruct (String.eqb_spec k k') as [->|Hne].
  - by rewrite bool_decide_eq_true_2.
  - rewrite bool_decide_eq_false_2; [done|]. intros Heq. by apply units_inj in Heq.
Qed.

(** A text that is valid UTF-8, a JSON value the validation passes as it is. *)
Definition text_ok (s : string) : Prop := of_bytes (utf8 (text_units s)) = s.
Definition value_ok (v : json) : Prop := forall field, requireJsonValue v field 0 = Ok v.
Definition key_ok (k : string) : Prop := text_ok k /\ text_units k <> proto_key.
Definition safe (z : Z) : Prop := Z.abs z <= maxSafeInteger.

Record wire_ok (i : VerusIdentityDefinition) : Prop := {
  wo_integers : safe (id_version i) /\ safe (id_flags i) /\ safe (id_minimumSignatures i) /\ safe (id_timelock i);
  wo_texts : Forall text_ok ([id_name i; id_identityAddress i; id_parent i; id_systemId i;
    id_revocationAuthority i; id_recoveryAuthority i] ++ id_primaryAddresses i);
  wo_contentMap : Forall (fun e => key_ok (fst e) /\ value_ok (snd e)) (id_contentMap i);
  wo_contentMultiMap : Forall (fun e => key_ok (fst e) /\ Forall value_ok (snd e)) (id_contentMultiMap i);
}.

Lemma requireString_round s field : text_ok s -> requireString (Some (jstring s)) field = Ok s.
Proof. intros Hs. unfold requireString, jstring. simpl. by rewrite Hs. Qed.

Lemma requireStringArray_round l field : Forall text_ok l ->
  requireStringArray (Some (JArray (jstring <$> l))) field = Ok l.
Proof.
  intros Hl. unfold requireStringArray. induction Hl as [|s l Hs Hl IH]; [done|].
  rewrite fmap_cons. cbn [map_results]. rewrite requireString_round by done. by rewrite IH.
Qed.

Lemma map_results_ok {A B} (f : A -> result exn B) (g : A -> B) xs :
  Forall (fun x => f x = Ok (g x)) xs -> map_results f xs = Ok (g <$> xs).
Proof. induction 1 as [|x xs Hx Hxs IH]; simpl; [done|]. rewrite Hx. simpl. by rewrite IH. Qed.

(** Renaming the keys and back, the values untouched. *)
Lemma entries_round {A} (es : list (string * A)) :
  Forall (fun e => key_ok (fst e)) es ->
  prod_map (fun k => of_bytes (utf8 k)) id <$> without_proto (prod_map text_units id <$> es) = es.
Proof.
  intros He. unfold without_proto. induction He as [|[k v] es [Hk Hp] He IH]; [done|].
  rewrite !fmap_cons. cbn [List.filter prod_map fst]. rewrite bool_decide_eq_false_2 by done. cbn [negb].
  rewrite fmap_cons, IH. cbn [prod_map fst snd id]. f_equal. f_equal. exact Hk.
Qed.

Lemma parseContentMap_round es :
  Forall (fun e => key_ok (fst e) /\ value_ok (snd e)) es ->
  parseContentMap (prod_map text_units id <$> es) = Ok es.
Proof.
  intros He. unfold parseContentMap.
  rewrite (map_results_ok _ id); simpl.
  - rewrite list_fmap_id. rewrite entries_round; [done|]. eapply Forall_impl; [done|]. by intros ? [? _].
  - rewrite Forall_fmap. eapply Forall_impl; [done|]. intros [k v] [_ Hv]. simpl. by rewrite Hv.
Qed.

Lemma parseContentMultiMap_round es :
  Forall (fun e => key_ok (fst e) /\ Forall value_ok (snd e)) es ->
  parseContentMultiMap (prod_map text_units JArray <$> es) = Ok es.
Proof.
  intros He. unfold parseContentMultiMap.
  rewrite (map_results_ok _ (fun e => (fst e, match snd e with JArray items => items | _ => [] end))); simpl.
  - rewrite <- list_fmap_compose.
    replace ((fun e : ustring * json => (fst e, match snd e with JArray items => items | _ => [] end)) ∘
             prod_map text_units JArray <$> es) with (prod_map text_units id <$> es : list (ustring * list json))
      by (apply list_fmap_ext; by intros ? []).
    rewrite entries_round; [done|]. eapply Forall_impl; [done|]. by intros ? [? _].
  - rewrite Forall_fmap. eapply Forall_impl; [done|]. intros [k items] [_ Hv]. simpl in *.
    rewrite (map_results_ok _ id); [by rewrite list_fmap_id|]. eapply Forall_impl; [done|].
    intros v Hval. by apply Hval.
Qed.

(** The identity a write sends is the one the node's parser gives back:
    for an identity whose numbers are safe integers, whose texts are valid
    UTF-8 and whose content passes the adapter's own validation, parsing
    what [identityToRpc] builds returns it unchanged. *)
Theorem identity_wire_roundtrip i :
  wire_ok i -> parseIdentityDefinition (Some (identityToRpc i)) = Ok i.
Proof.
  intros [(Hv & Hf & Hm & Ht) Htexts Hcm Hcmm].
  apply Forall_app in Htexts as [Htexts Haddr]. rewrite !Forall_cons in Htexts.
  destruct Htexts as (Hn & Hi & Hp & Hs & Hr & Hrec & _).
  unfold parseIdentityDefinition, identityToRpc. cbn [requireObject bindR].
  rewrite !prop_of_cons. cbn [String.eqb Ascii.eqb Bool.eqb requireObject bindR].
  rewrite parseContentMap_round by done. cbn [bindR]. rewrite parseContentMultiMap_round by done. cbn [bindR].
  rewrite !requireInteger_round, requireStringArray_round, !requireString_round by done. cbn [bindR].
  by destruct i.
Qed.

(** ** Witness *)

Definition sample_identity : VerusIdentityDefinition :=
  with_contentMultiMap [("iVdxfKeyVdxfKeyVdxfKeyVdxfKey12345", [JString (units "7b7d")])]
    syntheticIdentityDefinition.

Lemma identity_wire_roundtrip_witness :
  parseIdentityDefinition (Some (identityToRpc sample_identity)) = Ok sample_identity.
Proof.
  apply (identity_wire_roundtrip sample_identity). split.
  - unfold safe. split_and!; vm_compute; discriminate.
  - repeat constructor.
  - constructor.
  - constructor; [|constructor]. split; [split; [reflexivity|discriminate]|].
    constructor; [|constructor]. intros field. reflexivity.
Defined.
