(* ===== verification/Worker.v ===== *)
(** * Worker: one pass of the anchor worker (apps/worker/src/verus-worker.ts
    and verus-metrics.ts).

    [VerusAnchorWorker.processNext] is written against the interfaces the
    source declares — the outbox store, the job store, the chain adapter, the
    metrics and the clock — on an arbitrary state [W]. *)
From S2P Require Import Prelude Errors Transition Lifecycles Text Json JsonParse Verus Outbox.
From S2P Require Import VerusJob.
Local Open Scope Z_scope.

(** ** verus-metrics.ts *)

Inductive VerusJobOutcome : Type := out_verified | out_retryable_failed | out_terminal_failed | out_dead_letter.
#[global] Instance VerusJobOutcome_eq_dec : EqDecision VerusJobOutcome.
Proof. solve_decision. Defined.

(** Gauges and counters; the queue age is kept in milliseconds. *)
Record Metrics : Type := {
  mt_ready : Z;
  mt_oldestAgeMs : Z;
  mt_synchronized : Z;
  mt_confirmationCount : Z;
  mt_paused : Z;
  mt_wrongNetwork : Z;
  mt_mismatch : Z;
  mt_reorg : Z;
  mt_outcomes : VerusJobOutcome -> Z;
  mt_failures : gmap string Z;
}.

(** A new [VerusWorkerMetrics]. *)
Definition newVerusWorkerMetrics : Metrics := {|
  mt_ready := 0; mt_oldestAgeMs := 0; mt_synchronized := 0; mt_confirmationCount := 0; mt_paused := 1;
  mt_wrongNetwork := 0; mt_mismatch := 0; mt_reorg := 0; mt_outcomes := fun _ => 0; mt_failures := ∅ |}.

Definition finiteNonnegative (value : Z) : Z := if 0 <=? value then value else 0.

Definition setQueue (ready age : Z) (m : Metrics) : Metrics := {|
  mt_ready := finiteNonnegative ready; mt_oldestAgeMs := finiteNonnegative age;
  mt_synchronized := mt_synchronized m; mt_confirmationCount := mt_confirmationCount m;
  mt_paused := mt_paused m; mt_wrongNetwork := mt_wrongNetwork m; mt_mismatch := mt_mismatch m;
  mt_reorg := mt_reorg m; mt_outcomes := mt_outcomes m; mt_failures := mt_failures m |}.
Definition setNodeSynchronized (value : bool) (m : Metrics) : Metrics := {|
  mt_ready := mt_ready m; mt_oldestAgeMs := mt_oldestAgeMs m;
  mt_synchronized := if value then 1 else 0; mt_confirmationCount := mt_confirmationCount m;
  mt_paused := mt_paused m; mt_wrongNetwork := mt_wrongNetwork m; mt_mismatch := mt_mismatch m;
  mt_reorg := mt_reorg m; mt_outcomes := mt_outcomes m; mt_failures := mt_failures m |}.
Definition setConfirmationCount (value : Z) (m : Metrics) : Metrics := {|
  mt_ready := mt_ready m; mt_oldestAgeMs := mt_oldestAgeMs m; mt_synchronized := mt_synchronized m;
  mt_confirmationCount := finiteNonnegative value;
  mt_paused := mt_paused m; mt_wrongNetwork := mt_wrongNetwork m; mt_mismatch := mt_mismatch m;
  mt_reorg := mt_reorg m; mt_outcomes := mt_outcomes m; mt_failures := mt_failures m |}.
Definition setPaused (value : bool) (m : Metrics) : Metrics := {|
  mt_ready := mt_ready m; mt_oldestAgeMs := mt_oldestAgeMs m; mt_synchronized := mt_synchronized m;
  mt_confirmationCount := mt_confirmationCount m; mt_paused := if value then 1 else 0;
  mt_wrongNetwork := mt_wrongNetwork m; mt_mismatch := mt_mismatch m;
  mt_reorg := mt_reorg m; mt_outcomes := mt_outcomes m; mt_failures := mt_failures m |}.
Definition recordOutcome (value : VerusJobOutcome) (m : Metrics) : Metrics := {|
  mt_ready := mt_ready m; mt_oldestAgeMs := mt_oldestAgeMs m; mt_synchronized := mt_synchronized m;
  mt_confirmationCount := mt_confirmationCount m; mt_paused := mt_paused m;
  mt_wrongNetwork := mt_wrongNetwork m; mt_mismatch := mt_mismatch m; mt_reorg := mt_reorg m;
  mt_outcomes := fun v => if bool_decide (v = value) then mt_outcomes m v + 1 else mt_outcomes m v;
  mt_failures := mt_failures m |}.
(** The codes of [VerusErrorCode] all match the metric's pattern. *)
Definition recordFailure (code : VerusErrorCode) (m : Metrics) : Metrics := {|
  mt_ready := mt_ready m; mt_oldestAgeMs := mt_oldestAgeMs m; mt_synchronized := mt_synchronized m;
  mt_confirmationCount := mt_confirmationCount m; mt_paused := mt_paused m;
  mt_wrongNetwork := mt_wrongNetwork m; mt_mismatch := mt_mismatch m; mt_reorg := mt_reorg m;
  mt_outcomes := mt_outcomes m;
  mt_failures := let c := verusErrorCode_name code in
                 <[c := default 0 (mt_failures m !! c) + 1]> (mt_failures m) |}.
Definition recordWrongNetwork (m : Metrics) : Metrics := {|
  mt_ready := mt_ready m; mt_oldestAgeMs := mt_oldestAgeMs m; mt_synchronized := mt_synchronized m;
  mt_confirmationCount := mt_confirmationCount m; mt_paused := mt_paused m;
  mt_wrongNetwork := mt_wrongNetwork m + 1; mt_mismatch := mt_mismatch m; mt_reorg := mt_reorg m;
  mt_outcomes := mt_outcomes m; mt_failures := mt_failures m |}.
Definition recordReadbackMismatch (m : Metrics) : Metrics := {|
  mt_ready := mt_ready m; mt_oldestAgeMs := mt_oldestAgeMs m; mt_synchronized := mt_synchronized m;
  mt_confirmationCount := mt_confirmationCount m; mt_paused := mt_paused m;
  mt_wrongNetwork := mt_wrongNetwork m; mt_mismatch := mt_mismatch m + 1; mt_reorg := mt_reorg m;
  mt_outcomes := mt_outcomes m; mt_failures := mt_failures m |}.
Definition recordReorg (m : Metrics) : Metrics := {|
  mt_ready := mt_ready m; mt_oldestAgeMs := mt_oldestAgeMs m; mt_synchronized := mt_synchronized m;
  mt_confirmationCount := mt_confirmationCount m; mt_paused := mt_paused m;
  mt_wrongNetwork := mt_wrongNetwork m; mt_mismatch := mt_mismatch m; mt_reorg := mt_reorg m + 1;
  mt_outcomes := mt_outcomes m; mt_failures := mt_failures m |}.

(** ** The interfaces of the worker *)

Class Clock (W : Type) := { now : prog W exn Z }.

Class MetricsStore (W : Type) := { metrics : (Metrics -> Metrics) -> prog W exn unit }.

Class VerusOutboxStore (W : Type) := {
  outbox_claimNext : OutboxWorkerContext -> Z -> Z -> OutboxClaimOptions -> prog W exn (option OutboxClaim);
  outbox_heartbeat : string -> OutboxWorkerContext -> Z -> Z -> prog W exn Z;
  outbox_succeed : string -> OutboxWorkerContext -> Z -> prog W exn unit;
  outbox_failRetryable : string -> OutboxWorkerContext -> Z -> RetryFailureOptions -> prog W exn FailureOutcome;
  outbox_failTerminal : string -> OutboxWorkerContext -> Z -> string -> prog W exn unit;
  outbox_queueStats : Z -> option (list string) -> prog W exn OutboxQueueStats;
}.

Class VerusJobStore (W : Type) := {
  jobs_loadForClaim : string -> OutboxWorkerContext -> Z -> prog W exn VerusJobRecord;
  jobs_claim : string -> OutboxWorkerContext -> Z -> prog W exn VerusJobRecord;
  jobs_beginPreflight : string -> OutboxWorkerContext -> Z -> prog W exn VerusJobRecord;
  jobs_recordSubmission : string -> OutboxWorkerContext -> Z -> string -> prog W exn VerusJobRecord;
  jobs_beginConfirmation : string -> OutboxWorkerContext -> Z -> prog W exn VerusJobRecord;
  jobs_beginReadback : string -> OutboxWorkerContext -> Z -> Z -> string -> prog W exn VerusJobRecord;
  jobs_verifyReadback : string -> OutboxWorkerContext -> Z -> string -> prog W exn VerusJobRecord;
  jobs_retryableFailure : string -> OutboxWorkerContext -> Z -> string -> bool -> prog W exn VerusJobRecord;
  jobs_terminalFailure : string -> OutboxWorkerContext -> Z -> string -> prog W exn VerusJobRecord;
  jobs_markDeadLetter : string -> OutboxWorkerContext -> Z -> string -> prog W exn VerusJobRecord;
  jobs_reorg : string -> OutboxWorkerContext -> Z -> prog W exn VerusJobRecord;
}.

(** ** verus-worker.ts *)

Record ApprovedVerusWriteTarget : Type := {
  tg_operationType : string;
  tg_targetIdentity : string;
  tg_vdxfUri : string;
  tg_vdxfKey : string;
  tg_manifestPolicyReference : string;
}.

(** The worker's options with their defaults applied; [retry] is the failure
    options without the error class. *)
Record VerusAnchorWorkerOptions : Type := {
  worker : OutboxWorkerContext;
  capabilityEnabled : bool;
  approvedWriteTargets : list ApprovedVerusWriteTarget;
  leaseDurationMs : Z;
  retry_maxAttempts : jsnumber;
  retry_baseBackoffMs : jsnumber;
  retry_maxBackoffMs : jsnumber;
}.
Definition default_leaseDurationMs : Z := 60000.
Definition default_maxAttempts : jsnumber := Int 8.
Definition default_baseBackoffMs : jsnumber := Int 5000.
Definition default_maxBackoffMs : jsnumber := Int 900000.

Inductive VerusWorkerResult : Type :=
| wr_paused | wr_idle | wr_verified | wr_retryable_failed | wr_terminal_failed | wr_dead_letter | wr_reorg_pending.

Definition approved_target (job : VerusJobRecord) (target : ApprovedVerusWriteTarget) : bool :=
  String.eqb (tg_operationType target) (jr_operationType job)
  && String.eqb (tg_targetIdentity target) (jr_targetIdentity job)
  && String.eqb (tg_vdxfUri target) (jr_vdxfUri job)
  && String.eqb (tg_vdxfKey target) (jr_vdxfKey job)
  && String.eqb (tg_manifestPolicyReference target) (jr_manifestPolicyReference job).

Definition payload_policy (job : VerusJobRecord) : CanonicalPayloadPolicy := {|
  policyReference := jr_manifestPolicyReference job;
  allowedTopLevelFields := jr_manifestAllowedFields job;
  requiredTopLevelFields := jr_manifestRequiredFields job;
  maximumBytes := Int (jr_manifestMaximumBytes job) |}.

Definition preflight_policy (job : VerusJobRecord) (enabled : bool) : VerusWritePreflightPolicy := {|
  serverSelectedNetwork := "VRSCTEST"; expectedChainId := Some VRSCTEST_CHAIN_ID;
  minimumNodeVersion := None; minimumVerificationProgress := None; maximumHeaderLag := None;
  maximumObservationSkew := None; requirePeers := None;
  expectedIdentity := Some {| ei_identityAddress := jr_targetIdentity job; ei_systemId := VRSCTEST_CHAIN_ID;
                              ei_allowedStatuses := ["active"]; ei_mustBeSignableByNode := true |};
  expectedVdxf := Some {| ev_uri := jr_vdxfUri job; ev_vdxfId := jr_vdxfKey job |};
  writeCapabilityEnabled := enabled |}.

Definition active_states : list PersistedVerusJobState :=
  [VerusJobState.preflight; VerusJobState.submitted; VerusJobState.confirming; VerusJobState.readback].

Section worker.
Context {W : Type} `{Clock W} `{MetricsStore W} `{VerusOutboxStore W} `{VerusJobStore W}
  `{VerusRpcAdapter W} `{TextServices} `{NumberParser}.
Context (sha256 : string -> string) (options : VerusAnchorWorkerOptions).

Definition anchor_types : option (list string) := Some [VERUS_ANCHOR_EVENT_TYPE].

Definition refreshQueueMetrics : prog W exn unit :=
  let* t := now in
  let* stats := outbox_queueStats t anchor_types in
  metrics (setQueue (readyCount stats)
             match oldestReadyAt stats with Some o => Z.max 0 (t - o) | None => 0 end).

(** The worker's private [heartbeat]. *)
Definition beat (eventId : string) : prog W exn unit :=
  let* t := now in
  run* outbox_heartbeat eventId (worker options) t (leaseDurationMs options) in
  ret tt.

Definition preflightAndSubmit (claim : OutboxClaim) (job : VerusJobRecord) : prog W exn VerusJobRecord :=
  run* beat (cl_id claim) in
  throwif* negb (some (approvedWriteTargets options) (approved_target job))
    as! verusError PAYLOAD_FORBIDDEN "Verus job does not match an approved server write target" false in
  let* payload := lift (prepareCanonicalPayload sha256 (jr_manifest job) (payload_policy job)) in
  throwif* negb (String.eqb (payload_digest payload) (jr_manifestDigest job))
           || negb (String.eqb (of_bytes (payload_bytes payload)) (jr_manifestCanonical job))
    as! verusError PAYLOAD_FORBIDDEN
          "Persisted manifest does not match its immutable canonical policy snapshot" false in
  let* preflight := runVerusWritePreflight (preflight_policy job (capabilityEnabled options)) in
  run* metrics (setNodeSynchronized true) in
  match pf_identity preflight with
  | None => throw (verusError IDENTITY_STATE_INVALID "Preflight identity is absent" false)
  | Some identity =>
    let* found :=
      (match nonempty (jr_transactionId job) with
       | Some t => ret (Some t)
       | None =>
         if jr_submissionAmbiguous job then
           let* evidence := findReadbackEvidenceBeforeResubmission sha256 (jr_targetIdentity job)
                              (jr_vdxfKey job) (jr_manifestDigest job) in
           match evidence with
           | None => throw (ambiguousError
               "Ambiguous Verus submission was not found by readback; automatic resubmission is blocked")
           | Some (transactionId, _) => ret (Some transactionId)
           end
         else ret None
       end) in
    let* transactionId :=
      (match nonempty found with
       | Some t => ret t
       | None =>
         let* update := lift (prepareIdentityContentUpdate (ir_identity identity) (jr_vdxfKey job) payload) in
         updateIdentity update
       end) in
    let* t := now in
    jobs_recordSubmission (cl_id claim) (worker options) t transactionId
  end.

Definition failOutboxRetryable (eventId errorClass : string) (nonExhaustedResult : VerusWorkerResult)
  : prog W exn VerusWorkerResult :=
  let* t := now in
  let* result := outbox_failRetryable eventId (worker options) t
    {| Outbox.errorClass := errorClass; maxAttempts := retry_maxAttempts options;
       baseBackoffMs := retry_baseBackoffMs options; maxBackoffMs := retry_maxBackoffMs options |} in
  match result with
  | fo_dead_letter =>
    let* t' := now in
    run* jobs_markDeadLetter eventId (worker options) t' errorClass in
    run* metrics (recordOutcome out_dead_letter) in
    ret wr_dead_letter
  | fo_retryable_failed =>
    run* metrics (recordOutcome out_retryable_failed) in
    ret nonExhaustedResult
  end.

Definition handleFailure (eventId : string) (state : PersistedVerusJobState) (error : VerusIntegrationError)
  : prog W exn VerusWorkerResult :=
  run* metrics (recordFailure (verr_code error)) in
  run* (if bool_decide (verr_code error = NODE_UNSYNCED) then metrics (setNodeSynchronized false) else ret tt) in
  run* (if bool_decide (verr_code error = WRONG_NETWORK) then metrics recordWrongNetwork else ret tt) in
  let errorClass := toLowerCase (verusErrorCode_name (verr_code error)) in
  if verr_retryable error then
    run* (if includes active_states state
          then let* t := now in
               run* jobs_retryableFailure eventId (worker options) t errorClass
                      (verr_submissionAmbiguous error) in ret tt
          else ret tt) in
    failOutboxRetryable eventId errorClass wr_retryable_failed
  else
    run* (if includes (active_states ++ [VerusJobState.retryable_failed]) state
          then let* t := now in
               run* jobs_terminalFailure eventId (worker options) t errorClass in ret tt
          else ret tt) in
    let* t := now in
    run* outbox_failTerminal eventId (worker options) t errorClass in
    run* metrics (recordOutcome out_terminal_failed) in
    ret wr_terminal_failed.

Definition requireTransactionId (job : VerusJobRecord) : result exn string :=
  match nonempty (jr_transactionId job) with
  | Some t => Ok t
  | None => Err (verusError RPC_INVALID_RESULT "Submitted Verus job has no transaction ID" false)
  end.

(** *** The try block, over the state and the local variable [job] *)

Definition P := prog (W * option VerusJobRecord) exn.

Definition io {A : Type} (c : prog W exn A) : P A := fun s =>
  let (r, w) := c (fst s) in (r, (w, snd s)).

(** [job = await c]. *)
Definition assign (c : prog W exn VerusJobRecord) : P VerusJobRecord := fun s =>
  match c (fst s) with
  | (Ok j, w) => (Ok j, (w, Some j))
  | (Err e, w) => (Err e, (w, snd s))
  end.

Definition at_now {A : Type} (op : Z -> prog W exn A) : prog W exn A := let* t := now in op t.

Definition in_state (job : VerusJobRecord) (s : PersistedVerusJobState) : bool :=
  bool_decide (jr_state job = s).

(** Runs from [readback] to [verified]. *)
Definition readback_stage (claim : OutboxClaim) (job : VerusJobRecord) : P VerusJobRecord :=
  run* io (beat (cl_id claim)) in
  let* readback := io (verifyIdentityContentReadback sha256 (jr_targetIdentity job) (jr_vdxfKey job)
                         (jr_manifestDigest job)) in
  match readback with
  | mismatch _ =>
    run* io (metrics recordReadbackMismatch) in
    throw (verusError READBACK_MISMATCH
             "Verus identity readback did not contain the exact canonical manifest digest" false)
  | verified digest =>
    assign (at_now (fun t => jobs_verifyReadback (cl_id claim) (worker options) t digest))
  end.

(** The [confirming] stage: a job in [readback], or the early return. *)
Definition confirming_stage (claim : OutboxClaim) (job : VerusJobRecord)
  : P (VerusJobRecord + prog W exn VerusWorkerResult) :=
  run* io (beat (cl_id claim)) in
  let* transactionId := lift (requireTransactionId job) in
  let* confirmation := io (inspectTransactionConfirmation transactionId
                             (Int (jr_confirmationRequirement job))) in
  run* io (metrics (setConfirmationCount (result_confirmations confirmation))) in
  match confirmation with
  | confirming _ =>
    throw (verusError CONFIRMATION_PENDING
             "Verus transaction has not reached the configured confirmation requirement" true)
  | reorg_pending _ _ _ =>
    run* io (at_now (fun t => jobs_reorg (cl_id claim) (worker options) t)) in
    run* io (metrics recordReorg) in
    ret (inr (failOutboxRetryable (cl_id claim) "reorg_detected" wr_reorg_pending))
  | confirmed _ blockHeight blockHash =>
    let* job' := assign (at_now (fun t =>
                   jobs_beginReadback (cl_id claim) (worker options) t blockHeight blockHash)) in
    ret (inl job')
  end.

(** The stages after submission; the value is what remains to be done when
    the block is left by a return (the returned promise is not awaited
    inside). *)
Definition try_rest (claim : OutboxClaim) (job : VerusJobRecord) : P (prog W exn VerusWorkerResult) :=
  let* job :=
    (if in_state job VerusJobState.submitted
     then run* io (beat (cl_id claim)) in
          assign (at_now (fun t => jobs_beginConfirmation (cl_id claim) (worker options) t))
     else ret job) in
  let* next :=
    (if in_state job VerusJobState.confirming then confirming_stage claim job else ret (inl job)) in
  match next with
  | inr early => ret early
  | inl job =>
    let* job := (if in_state job VerusJobState.readback then readback_stage claim job else ret job) in
    throwif* negb (in_state job VerusJobState.verified)
      as! verusError RPC_INVALID_RESULT "Verus job stopped in an invalid state" false in
    run* io (at_now (fun t => outbox_succeed (cl_id claim) (worker options) t)) in
    run* io (metrics (recordOutcome out_verified)) in
    ret (ret wr_verified)
  end.

(** The body of the try block. *)
Definition try_body (claim : OutboxClaim) : P (prog W exn VerusWorkerResult) :=
  let* job := assign (at_now (fun t => jobs_loadForClaim (cl_id claim) (worker options) t)) in
  let* job :=
    (if includes [VerusJobState.pending; VerusJobState.retryable_failed; VerusJobState.reorg_pending]
          (jr_state job)
     then assign (at_now (fun t => jobs_claim (cl_id claim) (worker options) t)) else ret job) in
  let* job :=
    (if in_state job VerusJobState.claimed
     then assign (at_now (fun t => jobs_beginPreflight (cl_id claim) (worker options) t)) else ret job) in
  let* job :=
    (if in_state job VerusJobState.preflight then assign (preflightAndSubmit claim job) else ret job) in
  try_rest claim job.

Definition process_claim (claim : OutboxClaim) : prog W exn VerusWorkerResult := fun w =>
  match try_body claim (w, None) with
  | (Ok rest, (w', _)) => rest w'
  | (Err e, (w', job)) =>
    match job, isVerusIntegrationError e with
    | Some j, Some error => handleFailure (cl_id claim) (jr_state j) error w'
    | _, _ => (Err e, w')
    end
  end.

Definition claim_options : OutboxClaimOptions :=
  {| eventTypes := anchor_types; singleWriterByAggregate := true |}.

Definition processNext : prog W exn VerusWorkerResult :=
  run* refreshQueueMetrics in
  run* metrics (setPaused (negb (capabilityEnabled options))) in
  if negb (capabilityEnabled options) then ret wr_paused
  else
  let* claim := at_now (fun t => outbox_claimNext (worker options) t (leaseDurationMs options) claim_options) in
  match claim with
  | None => ret wr_idle
  | Some claim =>
    let* stats := at_now (fun t => outbox_queueStats t anchor_types) in
    let* t := now in
    run* metrics (setQueue (Z.max 0 (readyCount stats)) (Z.max 0 (t - cl_createdAt claim))) in
    process_claim claim
  end.
End worker.
