(* ===== verification/VerusJobFacts.v ===== *)
(** * VerusJobFacts: the persisted anchor jobs, proved.

    What a transition does to the job, its anchor record and the queue; the
    invariant tying jobs to anchors over every operation; the agreement of
    the two screens for prohibited manifest fields. *)
From S2P Require Import Prelude Errors Transition Lifecycles Guards Text Json JsonParse Verus.
From S2P Require Import Database Outbox OutboxFacts VerusJob.
Local Open Scope Z_scope.

Section facts.
Context `{Platform} `{NumberParser}.

(** ** Effects of the statements *)

Lemma toRecord_state d row r : toRecord d row = Ok r ->
  jr_state r = vj_state row /\ jr_version r = vj_version row /\ jr_id r = vj_id row /\
  jr_submissionAmbiguous r = vj_submission_ambiguous row /\
  jr_transactionId r = nonempty (vj_transaction_id row) /\ jr_manifestDigest r = vj_manifest_digest row.
Proof. unfold toRecord, conflict. repeat case_match; intros; inv_ok; try done. Qed.

Lemma load_ok ev d r d' :
  load ev d = (Ok r, d') ->
  d' = d /\ exists j, db_verus_job d !! ev = Some j /\ toRecord d j = Ok r.
Proof.
  unfold load, selectJob, bindP, gets. simpl.
  destruct (db_verus_job d !! ev) as [j|]; [|done].
  destruct (db_outbox_event d !! ev); [|done]. unfold lift. intros [= Hr <-]. eauto.
Qed.

Lemma requireLease_ok ev w t d u d' :
  requireLease ev w t d = (Ok u, d') ->
  d' = d /\ exists o, db_outbox_event d !! ev = Some o /\ oe_event_type o = VERUS_ANCHOR_EVENT_TYPE /\
    owns_lease (workerReference w) t o = true.
Proof.
  unfold requireLease, bindP, gets, throwWhen, lift, throwIf. simpl.
  destruct (db_outbox_event d !! ev) as [o|]; simpl; [|done].
  destruct (String.eqb_spec (oe_event_type o) VERUS_ANCHOR_EVENT_TYPE); simpl; [|done].
  destruct (owns_lease _ _ _) eqn:Ho; simpl; [|done]. intros [= <- <-]. eauto.
Qed.

Lemma updateVerusJob_ok old new d u d' :
  updateVerusJob old new d = (Ok u, d') ->
  d' = with_verus_job (<[vj_outbox_event_id old := new]>) d /\ vj_version new = vj_version old + 1 /\
  verus_job_table (vj_state old) (vj_state new) = true /\ verus_job_checks new = true.
Proof.
  unfold updateVerusJob. intros Hu. inv_ok. subst.
  match goal with Hg : cbc_guard_verus_job_transition _ _ _ _ = Ok _ |- _ =>
    apply guarded_update_ok in Hg as [Hv Hg] end.
  apply Z.eqb_eq in Hv.
  match goal with Hc : negb (verus_job_checks _) = false |- _ => apply negb_false_iff in Hc end.
  done.
Qed.

Lemma updateAnchor_ok old new d u d' :
  updateAnchor old new d = (Ok u, d') ->
  d' = with_anchor_record (<[an_outbox_event_id old := new]>) d /\
  anchor_table (an_state old) (an_state new) = true.
Proof.
  unfold updateAnchor. intros Hu. inv_ok. subst.
  match goal with Hg : cbc_guard_anchor_transition _ _ _ _ = Ok _ |- _ =>
    apply guarded_update_ok in Hg as [_ Hg] end.
  done.
Qed.

Lemma updateJobAt_ok ev version f d n d' :
  updateJobAt ev version f d = (Ok n, d') -> (n =? 1) = true ->
  exists j, db_verus_job d !! ev = Some j /\ vj_version j = version /\
    d' = with_verus_job (<[vj_outbox_event_id j := f j]>) d /\
    verus_job_table (vj_state j) (vj_state (f j)) = true /\ verus_job_checks (f j) = true.
Proof.
  unfold updateJobAt. intros Hu Hn. inv_ok. subst. simpl in *.
  destruct (db_verus_job _ !! ev) as [j|] eqn:Hj; inv_ok; [|done].
  destruct (Z.eqb_spec (vj_version j) version); inv_ok; [|done]. subst.
  match goal with Hx : updateVerusJob _ _ _ = _ |- _ => apply updateVerusJob_ok in Hx as (-> & _ & ? & ?) end.
  eauto 10.
Qed.

(** The anchor's part of a transition. *)
Definition anchor_effect (sync : bool) (next : PersistedVerusJobState) (evidence : TransitionEvidence)
    (t : Z) (ev : string) (d d' : Db) : Prop :=
  if sync && negb (includes [VerusJobState.claimed; VerusJobState.preflight] next)
  then exists a, db_anchor_record d !! ev = Some a /\
         db_anchor_record d' = <[an_outbox_event_id a := anchor_moved next evidence t a]> (db_anchor_record d) /\
         anchor_table (an_state a) next = true
  else db_anchor_record d' = db_anchor_record d.

Lemma transitionAnchor_ok next evidence t ev d u d' :
  transitionAnchor ev next evidence t d = (Ok u, d') ->
  db_outbox_event d' = db_outbox_event d /\ db_verus_job d' = db_verus_job d /\
  db_outbox_attempt d' = db_outbox_attempt d /\ anchor_effect true next evidence t ev d d'.
Proof.
  unfold transitionAnchor, anchor_effect. intros Hu.
  destruct next; simpl in *;
    try (unfold ret in Hu; injection Hu as _ <-; done);
    (unfold bindP at 1, gets in Hu; simpl in Hu;
     destruct (db_anchor_record d !! ev) as [a|] eqn:Ha; [|done];
     apply updateAnchor_ok in Hu as [-> Ht]; split_and!; try done; exists a; split_and!; done).
Qed.

(** What a successful transition does. *)
Record job_effect (ev : string) (worker : OutboxWorkerContext) (t : Z)
    (expected : list PersistedVerusJobState) (next : PersistedVerusJobState)
    (evidence : TransitionEvidence) (sync : bool) (d d' : Db) (j : VerusJobRow) : Prop := {
  je_lease : exists o, db_outbox_event d !! ev = Some o /\ oe_event_type o = VERUS_ANCHOR_EVENT_TYPE /\
    owns_lease (workerReference worker) t o = true;
  je_job : db_verus_job d !! ev = Some j;
  je_expected : vj_state j ∈ expected;
  je_moved : db_verus_job d' =
    <[vj_outbox_event_id j :=
        moved next evidence (default (vj_submission_ambiguous j) (ev_submissionAmbiguous evidence)) t j]>
      (db_verus_job d);
  je_table : verus_job_table (vj_state j) next = true;
  je_checks : verus_job_checks
    (moved next evidence (default (vj_submission_ambiguous j) (ev_submissionAmbiguous evidence)) t j) = true;
  je_anchor : anchor_effect sync next evidence t ev d d';
  je_queue : db_outbox_event d' = db_outbox_event d;
  je_attempts : db_outbox_attempt d' = db_outbox_attempt d;
}.

Lemma transition_tx_ok ev worker t expected next evidence sync d r d' :
  transition_tx ev worker t expected next evidence sync d = (Ok r, d') ->
  exists j, job_effect ev worker t expected next evidence sync d d' j /\
    exists j', db_verus_job d' !! ev = Some j' /\ toRecord d' j' = Ok r.
Proof.
  unfold transition_tx. intros Htx. inv_ok.
  match goal with Hx : requireLease _ _ _ _ = _ |- _ => apply requireLease_ok in Hx as (-> & Hlease) end.
  match goal with Hx : load _ ?a = (Ok _, ?b), Hy : load _ ?c = (Ok r, _) |- _ =>
    apply load_ok in Hx as (-> & j & Hj & Hrec); apply load_ok in Hy as (-> & j' & Hj' & Hrec') end.
  apply toRecord_state in Hrec as (Hst & Hver & _ & Hamb & _).
  match goal with Hx : negb (includes _ _) = false |- _ =>
    apply negb_false_iff, includes_true in Hx; rename Hx into Hexp end.
  match goal with Hx : negb (_ =? 1) = false |- _ => apply negb_false_iff in Hx; rename Hx into Hcount end.
  match goal with Hx : updateJobAt _ _ _ _ = _ |- _ =>
    apply updateJobAt_ok in Hx as (j0 & Hj0 & _ & -> & Ht & Hc); [|done] end.
  rewrite Hj in Hj0. injection Hj0 as <-. rewrite Hamb in *. rewrite Hst in Hexp.
  unfold committeeId in *. inv_ok. subst.
  match goal with Hx : appendAudit _ _ _ _ _ _ = _ |- _ =>
    apply appendAudit_work in Hx as (_ & Hev & Hat & Hvj & Han & _) end.
  destruct sync.
  - match goal with Hx : transitionAnchor _ _ _ _ _ = _ |- _ =>
      apply transitionAnchor_ok in Hx as (He & Hv & Ha & Heff) end.
    exists j. split; [|eauto]. split; try done; try (simpl in *; congruence).
    unfold anchor_effect in *. simpl in *. rewrite <- Han. done.
  - inv_ok. subst. exists j. split; [|eauto]. split; try done; simpl in *; congruence.
Qed.

Lemma markDeadLetter_tx_ok ev worker t error d r d' :
  markDeadLetter_tx ev worker t error d = (Ok r, d') ->
  exists j, db_verus_job d !! ev = Some j /\
    vj_state j ∈ [VerusJobState.retryable_failed; VerusJobState.reorg_pending] /\
    dead_letter_eligible ev worker d = true /\
    db_verus_job d' =
      <[vj_outbox_event_id j :=
          moved VerusJobState.terminal_failed (failure_evidence error None) false t j]> (db_verus_job d) /\
    verus_job_table (vj_state j) VerusJobState.terminal_failed = true /\
    verus_job_checks (moved VerusJobState.terminal_failed (failure_evidence error None) false t j) = true /\
    anchor_effect true VerusJobState.terminal_failed noEvidence t ev d d' /\
    db_outbox_event d' = db_outbox_event d /\ db_outbox_attempt d' = db_outbox_attempt d.
Proof.
  unfold markDeadLetter_tx. intros Htx. inv_ok.
  match goal with Hx : negb (dead_letter_eligible _ _ _) = false |- _ =>
    apply negb_false_iff in Hx; rename Hx into Helig end.
  match goal with Hx : load _ ?a = (Ok _, ?b), Hy : load _ ?c = (Ok r, _) |- _ =>
    apply load_ok in Hx as (-> & j & Hj & Hrec); apply load_ok in Hy as (-> & _) end.
  apply toRecord_state in Hrec as (Hst & Hver & _).
  match goal with Hx : negb (includes _ _) = false |- _ =>
    apply negb_false_iff, includes_true in Hx; rename Hx into Hexp end.
  match goal with Hx : updateJobAt _ _ _ _ = (Ok ?n, _) |- _ =>
    assert (Hn : (n =? 1) = true);
    [unfold updateJobAt, bindP at 1, gets in Hx; simpl in Hx; rewrite Hj, Hver, Z.eqb_refl in Hx; inv_ok; done|];
    apply updateJobAt_ok in Hx as (j0 & Hj0 & _ & -> & Ht & Hc); [|done] end.
  rewrite Hj in Hj0. injection Hj0 as <-. rewrite Hst in Hexp.
  unfold committeeId in *. inv_ok. subst.
  match goal with Hx : appendAudit _ _ _ _ _ _ = _ |- _ =>
    apply appendAudit_work in Hx as (_ & Hev & Hat & Hvj & Han & _) end.
  match goal with Hx : transitionAnchor _ _ _ _ _ = _ |- _ =>
    apply transitionAnchor_ok in Hx as (He & Hv & Ha & Heff) end.
  exists j. split_and!; try done; try (simpl in *; congruence).
  unfold anchor_effect in *. simpl in *. by rewrite <- Han.
Qed.

(** ** The repository's commands on one job *)

Inductive JobCommand : Type :=
| JLoad | JClaim | JBeginPreflight | JRecordSubmission (transactionId : string) | JBeginConfirmation
| JBeginReadback (blockHeight : Z) (blockHash : string) | JVerifyReadback (digest : string)
| JRetryableFailure (errorClass : string) (ambiguous : bool) | JTerminalFailure (errorClass : string)
| JMarkDeadLetter (errorClass : string) | JReorg.

Definition run_job (env : nat -> TxAttempt) (c : JobCommand) (ev : string) (worker : OutboxWorkerContext)
    (t : Z) : M VerusJobRecord :=
  match c with
  | JLoad => loadForClaim env ev worker t
  | JClaim => claim env ev worker t
  | JBeginPreflight => beginPreflight env ev worker t
  | JRecordSubmission tid => recordSubmission env ev worker t tid
  | JBeginConfirmation => beginConfirmation env ev worker t
  | JBeginReadback h b => beginReadback env ev worker t h b
  | JVerifyReadback digest => verifyReadback env ev worker t digest
  | JRetryableFailure e amb => retryableFailure env ev worker t e amb
  | JTerminalFailure e => terminalFailure env ev worker t e
  | JMarkDeadLetter e => markDeadLetter env ev worker t e
  | JReorg => reorg env ev worker t
  end.

(** One job row moved, its anchor with it. *)
Record job_move (ev : string) (t : Z) (d d' : Db) (j : VerusJobRow) (next : PersistedVerusJobState)
    (evidence anchorEvidence : TransitionEvidence) (ambiguous : bool) : Prop := {
  jm_job : db_verus_job d !! ev = Some j;
  jm_moved : db_verus_job d' =
    <[vj_outbox_event_id j := moved next evidence ambiguous t j]> (db_verus_job d);
  jm_table : verus_job_table (vj_state j) next = true;
  jm_checks : verus_job_checks (moved next evidence ambiguous t j) = true;
  jm_anchor : anchor_effect true next anchorEvidence t ev d d';
  jm_queue : db_outbox_event d' = db_outbox_event d;
}.

Definition same_jobs (d d' : Db) : Prop :=
  db_verus_job d' = db_verus_job d /\ db_anchor_record d' = db_anchor_record d /\
  db_outbox_event d' = db_outbox_event d.

Definition job_change (ev : string) (t : Z) (d d' : Db) : Prop :=
  same_jobs d d' \/
  exists j next evidence anchorEvidence amb, job_move ev t d d' j next evidence anchorEvidence amb.

Lemma same_tables_jobs d d' : same_tables d d' -> same_jobs d d'.
Proof. intros Hs. apply same_tables_work in Hs as (_ & ? & _ & ? & ? & _). by split_and!. Qed.

Lemma tx_job_change {A} ev t env (work : M A) d r d' :
  inSerializableTransaction env work d = (r, d') ->
  (forall d0 a d1, work d0 = (Ok a, d1) -> job_change ev t d0 d1) -> job_change ev t d d'.
Proof.
  intros Hrun Hwork.
  assert (Hcase : same_tables d d' \/ exists d0 a, same_tables d d0 /\ work d0 = (Ok a, d')).
  { destruct r as [a|x].
    - apply inSerializableTransaction_ok in Hrun as (d0 & ? & ?). right. eauto.
    - apply inSerializableTransaction_err in Hrun as [?|(_ & d0 & a & ? & ?)]; eauto. }
  destruct Hcase as [Hs|(d0 & a & Hs & Hw)]; [left; by apply same_tables_jobs|].
  apply same_tables_jobs in Hs as (Hj & Ha & Ho).
  destruct (Hwork _ _ _ Hw) as [(? & ? & ?)|(j & next & e1 & e2 & amb & [])].
  - left. split_and!; congruence.
  - right. exists j, next, e1, e2, amb. split; try done; try congruence.
    unfold anchor_effect in *. rewrite <- Ha. done.
Qed.

Lemma effect_move ev worker t expected next evidence sync d d' j :
  (sync = false -> next ∈ [VerusJobState.claimed; VerusJobState.preflight]) ->
  job_effect ev worker t expected next evidence sync d d' j ->
  job_move ev t d d' j next evidence evidence (default (vj_submission_ambiguous j) (ev_submissionAmbiguous evidence)).
Proof.
  intros Hsync []. split; try done. unfold anchor_effect in *. destruct sync; [done|].
  specialize (Hsync eq_refl). destruct (includes [VerusJobState.claimed; VerusJobState.preflight] next) eqn:Hn; [done|].
  by apply includes_false in Hn.
Qed.

Lemma transition_change env ev worker t expected next evidence sync d :
  (sync = false -> next ∈ [VerusJobState.claimed; VerusJobState.preflight]) ->
  job_change ev t d (snd (transition env ev worker t expected next evidence sync d)).
Proof.
  intros Hsync. unfold transition, bindP, lift. destruct (validateEvidence evidence); [|by left].
  eapply tx_job_change; [apply surjective_pairing|]. intros d0 r d1 Hw.
  apply transition_tx_ok in Hw as (j & Heff & _). right. eapply effect_move in Heff; [|done]. eauto 10.
Qed.

Lemma run_job_change env c ev worker t d : job_change ev t d (snd (run_job env c ev worker t d)).
Proof.
  destruct c; simpl; try (apply transition_change; intros; set_solver).
  - unfold loadForClaim. eapply tx_job_change; [apply surjective_pairing|]. intros d0 r d1 Hw. inv_ok.
    match goal with Hx : requireLease _ _ _ _ = _ |- _ => apply requireLease_ok in Hx as (-> & _) end.
    match goal with Hx : load _ _ = _ |- _ => apply load_ok in Hx as (-> & _) end. by left.
  - unfold markDeadLetter, bindP at 1, lift. destruct (validateEvidence _); [|by left].
    eapply tx_job_change; [apply surjective_pairing|]. intros d0 r d1 Hw.
    apply markDeadLetter_tx_ok in Hw as (j & ? & _ & _ & ? & ? & ? & ? & ? & _). right.
    exists j, VerusJobState.terminal_failed, (failure_evidence errorClass None), noEvidence, false. by split.
Qed.

(** ** Jobs and anchors *)

(** The anchor states a job's state allows. *)
Definition shadow (s : PersistedVerusJobState) : list PersistedVerusJobState :=
  match s with
  | VerusJobState.claimed | VerusJobState.preflight =>
    [VerusJobState.pending; VerusJobState.retryable_failed; VerusJobState.reorg_pending]
  | _ => [s]
  end.

Record jobs_ok (d : Db) : Prop := {
  jo_keys : forall ev j, db_verus_job d !! ev = Some j -> vj_outbox_event_id j = ev;
  jo_checks : forall ev j, db_verus_job d !! ev = Some j -> verus_job_checks j = true;
  jo_anchor : forall ev j, db_verus_job d !! ev = Some j ->
    exists a, db_anchor_record d !! ev = Some a /\ an_outbox_event_id a = ev /\
      an_state a ∈ shadow (vj_state j);
  jo_event : forall ev j, db_verus_job d !! ev = Some j -> is_Some (db_outbox_event d !! ev);
}.

(** Every move the job's trigger accepts, the anchor's trigger accepts from
    any state the job allows it. *)
Lemma anchor_accepts s next a :
  verus_job_table s next = true -> a ∈ shadow s ->
  next ∉ [VerusJobState.claimed; VerusJobState.preflight] -> anchor_table a next = true.
Proof.
  intros Ht Ha Hn. rewrite <- includes_false in Hn. rewrite <- includes_true in Ha.
  destruct s, next, a; vm_compute in Ht, Ha, Hn |- *; congruence.
Qed.

Lemma shadow_claim s next a :
  verus_job_table s next = true -> a ∈ shadow s ->
  next ∈ [VerusJobState.claimed; VerusJobState.preflight] -> a ∈ shadow next.
Proof.
  intros Ht Ha Hn. rewrite <- includes_true in *.
  destruct s, next, a; vm_compute in Ht, Ha, Hn |- *; congruence.
Qed.

Lemma jobs_ok_change ev t d d' : job_change ev t d d' -> jobs_ok d -> jobs_ok d'.
Proof.
  intros [(Hj & Ha & Ho)|(j & next & e1 & e2 & amb & [Hjob Hmoved Htable Hchecks Hanchor Hqueue])] Hok.
  { destruct Hok. split; rewrite ?Hj, ?Ha, ?Ho; done. }
  pose proof (jo_keys d Hok ev j Hjob) as Hkey. rewrite Hkey in Hmoved.
  destruct (jo_anchor d Hok ev j Hjob) as (a & Hanch & Haid & Hsh).
  set (j' := moved next e1 amb t j) in *.
  assert (Hlook : forall k x, db_verus_job d' !! k = Some x ->
    (k = ev /\ x = j') \/ (k <> ev /\ db_verus_job d !! k = Some x)).
  { intros k x. rewrite Hmoved, lookup_insert_Some. naive_solver. }
  assert (Hanch' : exists a', db_anchor_record d' !! ev = Some a' /\ an_outbox_event_id a' = ev /\
      an_state a' ∈ shadow next /\ forall k, k <> ev -> db_anchor_record d' !! k = db_anchor_record d !! k).
  { unfold anchor_effect in Hanchor. simpl in Hanchor.
    destruct (includes [VerusJobState.claimed; VerusJobState.preflight] next) eqn:Hn; simpl in Hanchor.
    - apply includes_true in Hn. exists a. rewrite Hanchor. split_and!; try done. by eapply shadow_claim.
    - destruct Hanchor as (a0 & Ha0 & -> & _). rewrite Hanch in Ha0. injection Ha0 as <-.
      exists (anchor_moved next e2 t a). rewrite Haid, lookup_insert_eq. split_and!; try done.
      + simpl. apply includes_true. destruct next; vm_compute; done.
      + intros k Hk. by rewrite lookup_insert_ne. }
  destruct Hanch' as (a' & Ha' & Hid' & Hsh' & Hrest).
  split.
  - intros k x [[-> ->]|[_ Hx]]%Hlook; [done|by eapply jo_keys].
  - intros k x [[-> ->]|[_ Hx]]%Hlook; [done|by eapply jo_checks].
  - intros k x [[-> ->]|[Hne Hx]]%Hlook; [by exists a'|].
    destruct (jo_anchor d Hok k x Hx) as (b & Hb & ? & ?). exists b. rewrite Hrest by done. done.
  - intros k x Hx. rewrite Hqueue. apply Hlook in Hx as [[-> ->]|[_ Hx]]; by eapply jo_event.
Qed.

(** *** New work *)

Lemma insertVerusJob_ok j d u d' :
  insertVerusJob j d = (Ok u, d') ->
  d' = with_verus_job (<[vj_outbox_event_id j := j]>) d /\ verus_job_checks j = true /\
  (forall k x, db_verus_job d !! k = Some x -> vj_outbox_event_id x <> vj_outbox_event_id j) /\
  is_Some (db_outbox_event d !! vj_outbox_event_id j).
Proof.
  unfold insertVerusJob, bindP, gets, throwWhen, lift, throwIf. simpl.
  destruct (verus_job_checks j); simpl; [|done].
  destruct (some _ _) eqn:Hu; simpl; [done|].
  destruct (db_outbox_event d !! vj_outbox_event_id j); simpl; [|done].
  unfold modify. intros [= <- <-]. split_and!; try done.
  intros k x Hx Heq. apply not_true_iff_false in Hu. apply Hu, some_true. exists (k, x).
  split; [by apply elem_of_map_to_list|]. unfold same_work_item. simpl.
  rewrite Heq, String.eqb_refl. by rewrite orb_true_r.
Qed.

Lemma insertAnchor_ok a d u d' :
  insertAnchor a d = (Ok u, d') -> d' = with_anchor_record (<[an_outbox_event_id a := a]>) d.
Proof.
  unfold insertAnchor, bindP, gets, throwWhen, lift, throwIf. simpl.
  destruct (anchor_checks a); simpl; [|done]. destruct (some _ _); simpl; [done|].
  destruct (db_outbox_event d !! an_outbox_event_id a); simpl; [|done]. unfold modify. by intros [= <- <-].
Qed.

Lemma insertOutboxEvent_ok o d u d' :
  insertOutboxEvent o d = (Ok u, d') ->
  d' = with_outbox_event (<[oe_id o := o]>) d /\ db_outbox_event d !! oe_id o = None.
Proof.
  unfold insertOutboxEvent, bindP, gets, throwWhen, lift, throwIf. simpl.
  destruct (outbox_event_checks o); simpl; [|done].
  destruct (db_outbox_event d !! oe_id o); simpl; [done|].
  destruct (some _ _); simpl; [done|]. unfold modify. by intros [= <- <-].
Qed.

Lemma resolveCommittee_state r d c d' : resolveCommittee r d = (Ok c, d') -> d' = d.
Proof.
  unfold resolveCommittee, bindP, lift, gets. destruct (requireOpaqueReference _ _); [|done].
  destruct (List.find _ _) as [[]|]; [|done]. unfold ret. by intros [= <- <-].
Qed.

Lemma jobs_ok_insert d d' ev o j a :
  db_outbox_event d' = <[ev := o]> (db_outbox_event d) ->
  db_verus_job d' = <[ev := j]> (db_verus_job d) ->
  db_anchor_record d' = <[ev := a]> (db_anchor_record d) ->
  vj_outbox_event_id j = ev -> verus_job_checks j = true -> an_outbox_event_id a = ev ->
  an_state a ∈ shadow (vj_state j) -> jobs_ok d -> jobs_ok d'.
Proof.
  intros Ho Hj Ha Hid Hck Haid Hsh Hok.
  assert (Hlook : forall k x, db_verus_job d' !! k = Some x ->
    (k = ev /\ x = j) \/ (k <> ev /\ db_verus_job d !! k = Some x)).
  { intros k x. rewrite Hj, lookup_insert_Some. naive_solver. }
  split.
  - intros k x [[-> ->]|[_ Hx]]%Hlook; [done|by eapply jo_keys].
  - intros k x [[-> ->]|[_ Hx]]%Hlook; [done|by eapply jo_checks].
  - intros k x [[-> ->]|[Hne Hx]]%Hlook; rewrite Ha.
    + exists a. by rewrite lookup_insert_eq.
    + rewrite lookup_insert_ne by done. by eapply jo_anchor.
  - intros k x [[-> ->]|[Hne Hx]]%Hlook; rewrite Ho.
    + rewrite lookup_insert_eq. eauto.
    + rewrite lookup_insert_ne by done. by eapply jo_event.
Qed.

Lemma jobs_ok_enqueue input ctx d r d' :
  enqueueAnchor_tx input ctx d = (Ok r, d') -> jobs_ok d -> jobs_ok d'.
Proof.
  unfold enqueueAnchor_tx. intros Htx Hok. apply bindP_ok in Htx as (committee & d0 & Hc & Htx).
  assert (d0 = d) as ->.
  { destruct (in_committeeReference input) as [c|]; [|by inv_ok].
    destruct (falsy_string c); [by inv_ok|]. inv_ok. by eapply resolveCommittee_state. }
  clear Hc. apply bindP_ok in Htx as (existing & d0 & Hg & Htx). unfold gets in Hg. injection Hg as <- <-.
  destruct (jobByKey _ d).
  { inv_ok. subst. unfold id. done. }
  inv_ok. subst.
  repeat match goal with Hx : newId _ = _ |- _ => apply newId_work in Hx as (_ & ? & _ & ? & ? & _) end.
  match goal with Hx : appendAudit _ _ _ _ _ _ = _ |- _ =>
    apply appendAudit_work in Hx as (_ & ? & _ & ? & ? & _) end.
  match goal with Hx : load _ _ = _ |- _ => apply load_ok in Hx as (<- & _) end.
  match goal with Hx : insertAnchor _ _ = _ |- _ => apply insertAnchor_ok in Hx; subst end.
  match goal with Hx : insertVerusJob _ _ = _ |- _ => apply insertVerusJob_ok in Hx as (? & Hck & Hun & Hsome); subst end.
  match goal with Hx : insertOutboxEvent _ _ = _ |- _ => apply insertOutboxEvent_ok in Hx as [? Hfresh]; subst end.
  simpl in *.
  match goal with
  | Ho : <[?e := ?o]> (db_outbox_event _) = db_outbox_event _,
    Hj : <[?e := ?j]> (db_verus_job _) = db_verus_job _,
    Ha : <[?e := ?a]> (db_anchor_record _) = db_anchor_record _ |- _ =>
    apply (jobs_ok_insert d d' e o j a); try done; try congruence
  end.
  simpl. set_solver.
Qed.

Lemma jobs_ok_same d d' : same_tables d d' -> jobs_ok d -> jobs_ok d'.
Proof. intros Hs. apply (jobs_ok_change "" 0). left. by apply same_tables_jobs. Qed.

(** What a verified job carries. *)
Lemma verified_job_evidence d ev j :
  jobs_ok d -> db_verus_job d !! ev = Some j -> vj_state j = VerusJobState.verified ->
  vj_readback_digest j = Some (vj_manifest_digest j) /\ vj_transaction_id j <> None /\
  vj_block_height j <> None /\ vj_block_hash j <> None.
Proof.
  intros Hok Hj Hv. pose proof (jo_checks d Hok ev j Hj) as Hck. unfold verus_job_checks in Hck.
  rewrite Hv in Hck. rewrite !andb_true_iff in Hck. destruct Hck as [[_ Hck] _].
  rewrite bool_decide_eq_true_2, orb_false_l, !andb_true_iff, !negb_true_iff, bool_decide_eq_true in Hck by done.
  destruct Hck as [[[[Ht Hh] Hb] Hd] _].
  split_and!; [done|by destruct (vj_transaction_id j)|by destruct (vj_block_height j)|by destruct (vj_block_hash j)].
Qed.

(** A load or a successful transition returns the row it left behind. *)
Lemma transition_returns env ev worker t expected next evidence sync d r d' :
  transition env ev worker t expected next evidence sync d = (Ok r, d') ->
  exists j, db_verus_job d' !! ev = Some j /\ toRecord d' j = Ok r.
Proof.
  unfold transition, bindP at 1, lift. destruct (validateEvidence evidence); [|done]. intros Hrun.
  apply inSerializableTransaction_ok in Hrun as (d0 & _ & Hw). by apply transition_tx_ok in Hw as (? & _ & ?).
Qed.

Lemma run_job_returns env c ev worker t d r d' :
  run_job env c ev worker t d = (Ok r, d') ->
  exists j, db_verus_job d' !! ev = Some j /\ toRecord d' j = Ok r.
Proof.
  destruct c; simpl; try apply transition_returns.
  - unfold loadForClaim. intros Hrun. apply inSerializableTransaction_ok in Hrun as (d0 & _ & Hw). inv_ok.
    match goal with Hx : requireLease _ _ _ _ = _ |- _ => apply requireLease_ok in Hx as (-> & _) end.
    by match goal with Hx : load _ _ = _ |- _ => apply load_ok in Hx as (-> & ?) end.
  - unfold markDeadLetter, bindP at 1, lift. destruct (validateEvidence _); [|done]. intros Hrun.
    apply inSerializableTransaction_ok in Hrun as (d0 & _ & Hw). unfold markDeadLetter_tx in Hw. inv_ok.
    match goal with Hx : load _ ?a = (Ok r, _) |- _ => apply load_ok in Hx as (-> & ?) end. done.
Qed.

(** ** Properties *)

(** The anchor record follows its job through every command of the
    repository, including the enqueueing of new work: a job always has an
    anchor, in the job's own state or (while the job is claimed or in
    preflight) the state before; and the anchor's trigger never refuses a move
    the job's trigger accepts. *)
Theorem anchor_follows_job env c ev worker input ctx t d :
  jobs_ok d ->
  jobs_ok (snd (run_job env c ev worker t d)) /\
  jobs_ok (snd (enqueueAnchor env input ctx d)) /\
  (forall j a next, db_verus_job d !! ev = Some j -> db_anchor_record d !! ev = Some a ->
     verus_job_table (vj_state j) next = true ->
     next ∉ [VerusJobState.claimed; VerusJobState.preflight] -> anchor_table (an_state a) next = true).
Proof.
  intros Hok. split_and!.
  - by eapply jobs_ok_change; [apply run_job_change|].
  - unfold enqueueAnchor, bindP at 1, lift. destruct (validateInput input ctx); [|done].
    destruct (inSerializableTransaction env (enqueueAnchor_tx input ctx) d) as [[r|x] d'] eqn:Hrun; simpl.
    + apply inSerializableTransaction_ok in Hrun as (d0 & Hs & Hw).
      exact (jobs_ok_enqueue _ _ _ _ _ Hw (jobs_ok_same _ _ Hs Hok)).
    + apply inSerializableTransaction_err in Hrun as [Hs|(_ & d0 & b & Hs & Hw)].
      * exact (jobs_ok_same _ _ Hs Hok).
      * exact (jobs_ok_enqueue _ _ _ _ _ Hw (jobs_ok_same _ _ Hs Hok)).
  - intros j a next Hj Ha Ht Hn. destruct (jo_anchor d Hok ev j Hj) as (b & Hb & _ & Hsh).
    rewrite Ha in Hb. injection Hb as <-. by eapply anchor_accepts.
Qed.

(** A successful transition needs the worker's own unexpired lease on the
    anchor event and a job in an expected state; it moves the job to exactly
    the next state with the given evidence (a new value, or the old one), one
    version up, keeps its immutable snapshot, and leaves the queue alone. *)
Theorem job_transition_effect env ev worker t expected next evidence sync d r d' :
  transition env ev worker t expected next evidence sync d = (Ok r, d') ->
  exists o j, db_outbox_event d !! ev = Some o /\ oe_event_type o = VERUS_ANCHOR_EVENT_TYPE /\
    owns_lease (workerReference worker) t o = true /\
    db_verus_job d !! ev = Some j /\ vj_state j ∈ expected /\
    (jobs_ok d -> exists j', db_verus_job d' !! ev = Some j' /\ toRecord d' j' = Ok r /\
       vj_state j' = next /\ vj_version j' = vj_version j + 1 /\
       vj_manifest_digest j' = vj_manifest_digest j /\ vj_manifest_canonical j' = vj_manifest_canonical j /\
       vj_target_identity j' = vj_target_identity j /\ vj_vdxf_key j' = vj_vdxf_key j /\
       vj_transaction_id j' = coalesce (ev_transactionId evidence) (vj_transaction_id j) /\
       vj_submission_ambiguous j' =
         default (vj_submission_ambiguous j) (ev_submissionAmbiguous evidence)) /\
    db_outbox_event d' = db_outbox_event d.
Proof.
  unfold transition, bindP at 1, lift. destruct (validateEvidence evidence); [|done]. intros Hrun.
  apply inSerializableTransaction_ok in Hrun as (d0 & Hs & Hw).
  apply transition_tx_ok in Hw as (j & Heff & j' & Hj' & Hrec).
  apply same_tables_jobs in Hs as (Hsj & Hsa & Hso). destruct Heff as [(o & Ho & Hty & Hown) Hj Hexp Hm _ _ _ Hq _].
  rewrite Hso in Ho, Hq. rewrite Hsj in Hj, Hm. exists o, j. split_and!; try done.
  intros Hok. rewrite Hm, (jo_keys d Hok ev j Hj), lookup_insert_eq in Hj'. injection Hj' as <-.
  eexists. split; [rewrite Hm, (jo_keys d Hok ev j Hj); apply lookup_insert_eq|]. by split_and!.
Qed.

(** A verified job has a transaction, a block and a readback digest equal
    to its manifest's, and no command of the repository changes a verified or
    terminally failed job any more. *)
Theorem finished_job_final env c ev ev' worker t d j :
  jobs_ok d -> db_verus_job d !! ev = Some j ->
  vj_state j ∈ [VerusJobState.verified; VerusJobState.terminal_failed] ->
  db_verus_job (snd (run_job env c ev' worker t d)) !! ev = Some j /\
  (vj_state j = VerusJobState.verified ->
   vj_readback_digest j = Some (vj_manifest_digest j) /\ vj_transaction_id j <> None /\
   vj_block_height j <> None /\ vj_block_hash j <> None).
Proof.
  intros Hok Hj Hst. split.
  - destruct (run_job_change env c ev' worker t d) as [(-> & _)|(j0 & next & e1 & e2 & amb & [Hj0 -> Ht _ _ _])]; [done|].
    rewrite lookup_insert_ne; [done|]. rewrite (jo_keys d Hok ev' j0 Hj0). intros ->.
    rewrite Hj in Hj0. injection Hj0 as <-. apply includes_true in Hst.
    destruct (vj_state j), next; vm_compute in Hst, Ht; congruence.
  - by eapply verified_job_evidence.
Qed.

(** The screen a manifest passes when it is enqueued and the one the
    worker applies before it submits refuse the same manifests. *)
Theorem manifest_screens_agree (v : json) (depth : Z) :
  rejectSensitiveManifestFields v depth = Ok tt <-> rejectForbiddenFields v depth = Ok tt.
Proof.
  revert depth. induction v as [|b|n|s|items IH|entries IH] using json_ind'; intros depth;
    cbn [rejectSensitiveManifestFields rejectForbiddenFields];
    (destruct (32 <? depth); cbn [throwIf bindR]; [done|]); try done;
    rewrite !for_each_ok; rewrite Forall_forall in IH.
  - split; intros Hall x Hx; apply IH; auto.
  - split; intros Hall x Hx; specialize (Hall x Hx); cbv beta zeta in *.
    + rewrite prohibited_key_test. unfold prohibited_key.
      change (ALWAYS_FORBIDDEN_FIELDS ++ ["proto"; "constructor"; "prototype"]) with FORBIDDEN_MANIFEST_FIELDS.
      destruct (includes _ _); cbn [throwIf bindR] in *; [done|]. by apply IH.
    + rewrite prohibited_key_test in Hall. unfold prohibited_key in Hall.
      change (ALWAYS_FORBIDDEN_FIELDS ++ ["proto"; "constructor"; "prototype"]) with FORBIDDEN_MANIFEST_FIELDS in Hall.
      destruct (includes _ _); cbn [throwIf bindR] in *; [done|]. by apply IH.
Qed.
End facts.
