(* ===== verification/WorkerFacts.v ===== *)
(** * WorkerFacts: when the anchor worker writes to the chain.

    The proofs are against the worker's interfaces: any stores, adapter,
    metrics and clock whose operations other than [updateIdentity] submit
    nothing to the chain. *)
From Stdlib Require Import SpecFloat.
From S2P Require Import Prelude Errors Transition Lifecycles Text Json JsonParse Verus Outbox.
From S2P Require Import VerusJob Worker.
Local Open Scope Z_scope.

(** ** Programs that submit nothing, or one update *)

Section observed.
Context {S : Type} (obs : S -> list PreparedIdentityUpdate) (inv : S -> Prop).

(** [c] submits nothing, and its value satisfies [V]. *)
Definition quiet {A : Type} (V : A -> Prop) (c : prog S exn A) : Prop :=
  forall s r s', inv s -> c s = (r, s') -> inv s' /\ obs s' = obs s /\ (forall a, r = Ok a -> V a).

(** [c] submits at most one update, which satisfies [Q]. *)
Definition submits {A : Type} (Q : PreparedIdentityUpdate -> Prop) (V : A -> Prop) (c : prog S exn A) : Prop :=
  forall s r s', inv s -> c s = (r, s') ->
    inv s' /\ (obs s' = obs s \/ exists u, obs s' = obs s ++ [u] /\ Q u) /\ (forall a, r = Ok a -> V a).

Definition any {A : Type} (_ : A) : Prop := True.

Lemma quiet_submits {A} Q (V : A -> Prop) c : quiet V c -> submits Q V c.
Proof. intros Hq s r s' Hi Hc. destruct (Hq _ _ _ Hi Hc) as (? & ? & ?). auto. Qed.

Lemma submits_none {A} Q (V : A -> Prop) c : (forall u, ~ Q u) -> submits Q V c -> quiet V c.
Proof.
  intros Hq Hs s r s' Hi Hc. destruct (Hs _ _ _ Hi Hc) as (? & [?|(u & _ & Hu)] & ?); [done|].
  by destruct (Hq u).
Qed.

Lemma submits_weaken {A} (Q Q' : PreparedIdentityUpdate -> Prop) (V : A -> Prop) c :
  (forall u, Q u -> Q' u) -> submits Q V c -> submits Q' V c.
Proof.
  intros Hq Hs s r s' Hi Hc. destruct (Hs _ _ _ Hi Hc) as (? & [?|(u & ? & ?)] & ?); [auto|].
  split_and!; [done| |done]. right. eauto.
Qed.

Lemma quiet_weaken {A} (V V' : A -> Prop) c : (forall a, V a -> V' a) -> quiet V c -> quiet V' c.
Proof. intros Hv Hq s r s' Hi Hc. destruct (Hq _ _ _ Hi Hc) as (? & ? & ?). auto. Qed.

(** [a] is a value [c] can return. *)
Definition returned {A : Type} (c : prog S exn A) (a : A) : Prop :=
  exists s s', inv s /\ c s = (Ok a, s').

Lemma quiet_returned {A} (V : A -> Prop) c : quiet V c -> quiet (returned c) c.
Proof.
  intros Hq s r s' Hi Hc. destruct (Hq _ _ _ Hi Hc) as (? & ? & _). split_and!; [done..|].
  intros a ->. by exists s, s'.
Qed.

Lemma quiet_ret {A} (V : A -> Prop) a : V a -> quiet V (ret a).
Proof. intros Hv s r s' Hi [= <- <-]. split_and!; [done..|]. by intros b [= <-]. Qed.

Lemma quiet_throw {A} (V : A -> Prop) e : quiet V (throw e).
Proof. intros s r s' Hi [= <- <-]. done. Qed.

Lemma quiet_lift {A} (V : A -> Prop) r : (forall a, r = Ok a -> V a) -> quiet V (lift r).
Proof. intros Hv s r' s' Hi [= <- <-]. done. Qed.

Lemma quiet_bind {A B} (V : A -> Prop) (V' : B -> Prop) c k :
  quiet V c -> (forall a, V a -> quiet V' (k a)) -> quiet V' (bindP c k).
Proof.
  intros Hc Hk s r s' Hi Hrun. unfold bindP in Hrun. destruct (c s) as [[a|e] s1] eqn:E;
    destruct (Hc _ _ _ Hi E) as (Hi1 & H1 & Hv).
  - destruct (Hk a (Hv a eq_refl) _ _ _ Hi1 Hrun) as (? & H2 & ?). split_and!; [done|congruence|done].
  - injection Hrun as <- <-. done.
Qed.

Lemma submits_bind_quiet {A B} Q (V : A -> Prop) (V' : B -> Prop) c k :
  submits Q V c -> (forall a, V a -> quiet V' (k a)) -> submits Q V' (bindP c k).
Proof.
  intros Hc Hk s r s' Hi Hrun. unfold bindP in Hrun. destruct (c s) as [[a|e] s1] eqn:E;
    destruct (Hc _ _ _ Hi E) as (Hi1 & H1 & Hv).
  - destruct (Hk a (Hv a eq_refl) _ _ _ Hi1 Hrun) as (? & H2 & ?). by rewrite H2.
  - injection Hrun as <- <-. done.
Qed.

Lemma quiet_bind_submits {A B} Q (V : A -> Prop) (V' : B -> Prop) c k :
  quiet V c -> (forall a, V a -> submits Q V' (k a)) -> submits Q V' (bindP c k).
Proof.
  intros Hc Hk s r s' Hi Hrun. unfold bindP in Hrun. destruct (c s) as [[a|e] s1] eqn:E;
    destruct (Hc _ _ _ Hi E) as (Hi1 & H1 & Hv).
  - destruct (Hk a (Hv a eq_refl) _ _ _ Hi1 Hrun) as (? & H2 & ?). by rewrite <- H1.
  - injection Hrun as <- <-. split_and!; [done|by left|done].
Qed.

(** A guard: what follows knows the condition is false. *)
Lemma quiet_guard {A} (V : A -> Prop) b e k :
  (b = false -> quiet V k) -> quiet V (bindP (throwWhen b e) (fun _ => k)).
Proof.
  intros Hk. apply quiet_bind with (fun _ => b = false); [|auto].
  apply quiet_lift. intros u Hu. by apply throwIf_ok in Hu.
Qed.

Lemma submits_guard {A} Q (V : A -> Prop) b e k :
  (b = false -> submits Q V k) -> submits Q V (bindP (throwWhen b e) (fun _ => k)).
Proof.
  intros Hk. apply quiet_bind_submits with (fun _ => b = false); [|auto].
  apply quiet_lift. intros u Hu. by apply throwIf_ok in Hu.
Qed.
End observed.

(** ** The worker's world, observed *)

Section worker.
Context {W : Type} `{Clock W} `{MetricsStore W} `{VerusOutboxStore W} `{VerusJobStore W}
  `{VerusRpcAdapter W} `{TextServices} `{NumberParser}.

(** The contract of the interfaces: [writes] lists what was handed to
    [updateIdentity], which alone extends it; in a [sane] state, and the
    operations keep it so, identity content comes with a
    transaction id, as the node documents. *)
Class WritesObserved := {
  writes : W -> list PreparedIdentityUpdate;
  sane : W -> Prop;
  now_quiet : quiet writes sane any now;
  metrics_quiet f : quiet writes sane any (metrics f);
  outbox_quiet :
    (forall w t ms o, quiet writes sane any (outbox_claimNext w t ms o)) /\
    (forall i w t ms, quiet writes sane any (outbox_heartbeat i w t ms)) /\
    (forall i w t, quiet writes sane any (outbox_succeed i w t)) /\
    (forall i w t o, quiet writes sane any (outbox_failRetryable i w t o)) /\
    (forall i w t e, quiet writes sane any (outbox_failTerminal i w t e)) /\
    (forall t o, quiet writes sane any (outbox_queueStats t o));
  jobs_quiet :
    (forall i w t, quiet writes sane any (jobs_loadForClaim i w t)) /\
    (forall i w t, quiet writes sane any (jobs_claim i w t)) /\
    (forall i w t, quiet writes sane any (jobs_beginPreflight i w t)) /\
    (forall i w t x, quiet writes sane any (jobs_recordSubmission i w t x)) /\
    (forall i w t, quiet writes sane any (jobs_beginConfirmation i w t)) /\
    (forall i w t h b, quiet writes sane any (jobs_beginReadback i w t h b)) /\
    (forall i w t x, quiet writes sane any (jobs_verifyReadback i w t x)) /\
    (forall i w t e b, quiet writes sane any (jobs_retryableFailure i w t e b)) /\
    (forall i w t e, quiet writes sane any (jobs_terminalFailure i w t e)) /\
    (forall i w t e, quiet writes sane any (jobs_markDeadLetter i w t e)) /\
    (forall i w t, quiet writes sane any (jobs_reorg i w t));
  reads_quiet :
    quiet writes sane any getInfo /\ quiet writes sane any getBlockchainInfo /\
    (forall i, quiet writes sane any (getIdentity i)) /\
    (forall i k, quiet writes sane (fun c => nonempty (Some (ir_transactionId (ic_result c))) <> None)
                   (getIdentityContent i k)) /\
    (forall u, quiet writes sane any (getVdxfId u)) /\
    (forall x, quiet writes sane any (getRawTransaction x)) /\
    (forall h, quiet writes sane any (getBlockHash h)) /\
    (forall h, quiet writes sane any (getBlock h));
  update_writes : forall u s r s', sane s -> updateIdentity u s = (r, s') ->
    sane s' /\ writes s' = writes s ++ [u];
}.
End worker.
Arguments WritesObserved W {_ _ _ _ _}.

(** *** Calls in a row *)

Section since.
Context {W : Type} `{Clock W} `{MetricsStore W} `{VerusOutboxStore W} `{VerusJobStore W}
  `{VerusRpcAdapter W} `{!WritesObserved W}.

(** The calls of the interfaces. *)
Inductive interface_call : forall A : Type, prog W exn A -> Prop :=
| call_now : interface_call _ now
| call_metrics f : interface_call _ (metrics f)
| call_claimNext w t ms o : interface_call _ (outbox_claimNext w t ms o)
| call_heartbeat i w t ms : interface_call _ (outbox_heartbeat i w t ms)
| call_succeed i w t : interface_call _ (outbox_succeed i w t)
| call_failRetryable i w t o : interface_call _ (outbox_failRetryable i w t o)
| call_failTerminal i w t e : interface_call _ (outbox_failTerminal i w t e)
| call_queueStats t o : interface_call _ (outbox_queueStats t o)
| call_loadForClaim i w t : interface_call _ (jobs_loadForClaim i w t)
| call_jobClaim i w t : interface_call _ (jobs_claim i w t)
| call_beginPreflight i w t : interface_call _ (jobs_beginPreflight i w t)
| call_recordSubmission i w t x : interface_call _ (jobs_recordSubmission i w t x)
| call_beginConfirmation i w t : interface_call _ (jobs_beginConfirmation i w t)
| call_beginReadback i w t h b : interface_call _ (jobs_beginReadback i w t h b)
| call_verifyReadback i w t x : interface_call _ (jobs_verifyReadback i w t x)
| call_retryableFailure i w t e b : interface_call _ (jobs_retryableFailure i w t e b)
| call_terminalFailure i w t e : interface_call _ (jobs_terminalFailure i w t e)
| call_markDeadLetter i w t e : interface_call _ (jobs_markDeadLetter i w t e)
| call_reorg i w t : interface_call _ (jobs_reorg i w t)
| call_getInfo : interface_call _ getInfo
| call_getBlockchainInfo : interface_call _ getBlockchainInfo
| call_getIdentity i : interface_call _ (getIdentity i)
| call_getIdentityContent i k : interface_call _ (getIdentityContent i k)
| call_getVdxfId u : interface_call _ (getVdxfId u)
| call_getRawTransaction x : interface_call _ (getRawTransaction x)
| call_getBlockHash h : interface_call _ (getBlockHash h)
| call_getBlock h : interface_call _ (getBlock h)
| call_updateIdentity u : interface_call _ (updateIdentity u).

(** One call leads from [s] to [s']. *)
Definition called (s s' : W) : Prop := exists A (c : prog W exn A) r, interface_call A c /\ c s = (r, s').

(** [s] is reached from [w] by calls of the interfaces. *)
Definition since (w s : W) : Prop := sane s /\ rtc called w s.

Lemma since_quiet {A} (V : A -> Prop) (c : prog W exn A) w :
  interface_call A c -> quiet writes sane V c -> quiet writes (since w) V c.
Proof.
  intros Hc Hq s r s' [Hi Hs] Hrun. destruct (Hq _ _ _ Hi Hrun) as (? & ? & ?). split_and!; [split; [done|]|done..].
  apply rtc_r with s; [done|]. by exists A, c, r.
Qed.

(** The contract holds of the states of one run, too. *)
Definition observed_since (w : W) : WritesObserved W.
Proof.
  refine {| writes := writes; sane := since w |}.
  - apply since_quiet; [constructor|apply now_quiet].
  - intros f. apply since_quiet; [constructor|apply metrics_quiet].
  - destruct outbox_quiet as (?&?&?&?&?&?). split_and!; intros; (apply since_quiet; [constructor|auto]).
  - destruct jobs_quiet as (?&?&?&?&?&?&?&?&?&?&?). split_and!; intros; (apply since_quiet; [constructor|auto]).
  - destruct reads_quiet as (?&?&?&?&?&?&?&?). split_and!; intros; (apply since_quiet; [constructor|auto]).
  - intros u s r s' [Hi Hs] Hrun. destruct (update_writes _ _ _ _ Hi Hrun) as [? ?].
    split; [split; [done|]|done]. apply rtc_r with s; [done|]. exists _, (updateIdentity u), r. split; [constructor|done].
Defined.
End since.

Section safety.
Context {W : Type} `{Clock W} `{MetricsStore W} `{VerusOutboxStore W} `{VerusJobStore W}
  `{VerusRpcAdapter W} `{TextServices} `{NumberParser} `{!WritesObserved W}.
Context (sha256 : string -> string) (options : VerusAnchorWorkerOptions).

(** The claims and the jobs a pass works on come from the stores. *)
Definition claimed (claim : OutboxClaim) : Prop :=
  returned sane (at_now (fun t => outbox_claimNext (worker options) t (leaseDurationMs options) claim_options)) (Some claim).

Definition job_of (claim : OutboxClaim) (job : VerusJobRecord) : Prop :=
  returned sane (at_now (fun t => jobs_loadForClaim (cl_id claim) (worker options) t)) job \/
  returned sane (at_now (fun t => jobs_claim (cl_id claim) (worker options) t)) job \/
  returned sane (at_now (fun t => jobs_beginPreflight (cl_id claim) (worker options) t)) job.

(** The calls that lead to a submission, one right after the other: what the
    node says of itself, of the target identity and of the key, and the
    update.  The state [s0] before them is one of the pass. *)
Record sent_on (job : VerusJobRecord) (info : VerusInfo) (blockchain : VerusBlockchainInfo)
    (identity : VerusIdentityResult) (vdxf : VerusVdxfId) (u : PreparedIdentityUpdate) : Prop := {
  so_calls : exists s0 s1 s2 s3 s4 s5 reply s6, sane s0 /\
    getInfo s0 = (Ok info, s1) /\ getBlockchainInfo s1 = (Ok blockchain, s2) /\
    getIdentity (jr_targetIdentity job) s2 = (Ok identity, s3) /\ getVdxfId (jr_vdxfUri job) s3 = (Ok vdxf, s4) /\
    metrics (setNodeSynchronized true) s4 = (Ok tt, s5) /\ updateIdentity u s5 = (reply, s6);
}.

(** The node's answers are those of VRSCTEST, and of a node that is up to
    date: its blocks are all its headers, verified, as many in both answers
    but one, it reports no error and has a peer. *)
Record on_vrsctest (info : VerusInfo) (blockchain : VerusBlockchainInfo) : Prop := {
  ov_testnet : info_testnet info = true;
  ov_names : info_name info = VRSCTEST_NETWORK /\ bc_name blockchain = VRSCTEST_NETWORK;
  ov_chains : info_chainId info = VRSCTEST_CHAIN_ID /\ bc_chainId blockchain = VRSCTEST_CHAIN_ID;
  ov_chain : bc_chain blockchain = "test";
}.

Record up_to_date (info : VerusInfo) (blockchain : VerusBlockchainInfo) : Prop := {
  ud_headers : bc_headers blockchain = bc_blocks blockchain;
  ud_progress : SFltb (bc_verificationProgress blockchain) progress_0_999999 = false;
  ud_skew : bc_blocks blockchain - 1 <= info_blocks info <= bc_blocks blockchain + 1;
  ud_longest : info_blocks info <= info_longestChain info;
  ud_errors : trims_nonempty (info_errors info) = false;
  ud_peers : 1 <= info_connections info;
}.

(** Everything that has to hold for an update to be submitted for [job]. *)
Record authorized_for (job : VerusJobRecord) (u : PreparedIdentityUpdate) : Prop := {
  aw_enabled : capabilityEnabled options = true;
  aw_target : exists target, target ∈ approvedWriteTargets options /\ approved_target job target = true;
  aw_job : jr_state job = VerusJobState.preflight /\
    nonempty (jr_transactionId job) = None /\ jr_submissionAmbiguous job = false;
  aw_prepared : exists payload info blockchain identity vdxf,
    prepareCanonicalPayload sha256 (jr_manifest job) (payload_policy job) = Ok payload /\
    payload_digest payload = jr_manifestDigest job /\
    of_bytes (payload_bytes payload) = jr_manifestCanonical job /\
    sent_on job info blockchain identity vdxf u /\
    on_vrsctest info blockchain /\
    MINIMUM_VERUS_NODE_VERSION <= info_version info /\
    up_to_date info blockchain /\
    id_identityAddress (ir_identity identity) = jr_targetIdentity job /\
    id_systemId (ir_identity identity) = VRSCTEST_CHAIN_ID /\
    ir_status identity = "active" /\ ir_canSignFor identity = true /\
    vd_vdxfId vdxf = jr_vdxfKey job /\
    prepareIdentityContentUpdate (ir_identity identity) (jr_vdxfKey job) payload = Ok u;
}.

Definition authorized_write (u : PreparedIdentityUpdate) : Prop :=
  exists claim job, claimed claim /\ job_of claim job /\ authorized_for job u.

Ltac use_quiet :=
  destruct outbox_quiet as (? & ? & ? & ? & ? & ?);
  destruct jobs_quiet as (? & ? & ? & ? & ? & ? & ? & ? & ? & ? & ?);
  destruct reads_quiet as (? & ? & ? & Hcontent & ? & ? & ? & ?);
  pose proof now_quiet; pose proof metrics_quiet.

(** Straight-line code of quiet operations. *)
Ltac quiet_steps :=
  repeat first
    [ done
    | apply quiet_guard; intros ?
    | apply quiet_ret; done
    | apply quiet_throw
    | apply quiet_lift; done
    | apply quiet_bind with any; [|intros ? _]
    | solve [eauto]
    | case_match ].

Lemma both_quiet {A B} (a : prog W exn A) (b : prog W exn B) :
  quiet writes sane any a -> quiet writes sane any b -> quiet writes sane any (both a b).
Proof.
  intros Ha Hb s r s' Hi Hrun. unfold both in Hrun.
  destruct (a s) as [ra s1] eqn:Ea, (b s1) as [rb s2] eqn:Eb. injection Hrun as <- <-.
  destruct (Ha _ _ _ Hi Ea) as (Hi1 & ? & _). destruct (Hb _ _ _ Hi1 Eb) as (? & ? & _).
  split_and!; [done|congruence|done].
Qed.

(** What an accepted preflight has checked. *)
Definition preflight_passed (policy : VerusWritePreflightPolicy) (r : VerusWritePreflightResult) : Prop :=
  writeCapabilityEnabled policy = true /\
  wrong_network (default VRSCTEST_CHAIN_ID (expectedChainId policy)) (pf_info r) (pf_blockchain r) = false /\
  default MINIMUM_VERUS_NODE_VERSION (minimumNodeVersion policy) <= info_version (pf_info r) /\
  unsynchronized policy (pf_info r) (pf_blockchain r) = false /\
  (exists ei identity, expectedIdentity policy = Some ei /\ pf_identity r = Some identity /\
     identity_invalid ei identity = false) /\
  (exists ev vdxf, expectedVdxf policy = Some ev /\ pf_vdxf r = Some vdxf /\ vd_vdxfId vdxf = ev_vdxfId ev).

Lemma preflight_quiet policy :
  quiet writes sane (preflight_passed policy) (runVerusWritePreflight policy).
Proof.
  use_quiet. unfold runVerusWritePreflight. apply quiet_guard. intros _.
  apply quiet_bind with any; [by apply both_quiet|]. intros [info blockchain] _. simpl.
  apply quiet_guard. intros Hnet. apply quiet_guard. intros Hver. apply quiet_guard. intros Hsync.
  apply quiet_guard. intros Hfix.
  apply quiet_bind with (fun i => match expectedIdentity policy, i with
                                  | Some e, Some x => identity_invalid e x = false
                                  | None, None => True
                                  | _, _ => False
                                  end).
  { unfold preflight_identity. destruct (expectedIdentity policy); [|by apply quiet_ret].
    apply quiet_bind with any; [eauto|]. intros x _. apply quiet_guard. intros. by apply quiet_ret. }
  intros identity Hi.
  apply quiet_bind with (fun v => match expectedVdxf policy, v with
                                  | Some e, Some x => vd_vdxfId x = ev_vdxfId e
                                  | None, None => True
                                  | _, _ => False
                                  end).
  { unfold preflight_vdxf. destruct (expectedVdxf policy); [|by apply quiet_ret].
    apply quiet_bind with any; [eauto|]. intros x _. apply quiet_guard. intros Hv. apply quiet_ret.
    by apply negb_false_iff, String.eqb_eq in Hv. }
  intros vdxf Hv. apply quiet_guard. intros Hen. apply negb_false_iff in Hen. apply quiet_ret.
  unfold preflight_passed. simpl. rewrite Hen in Hfix. simpl in Hfix. apply Z.ltb_ge in Hver.
  destruct (expectedIdentity policy) as [ei|]; [|done]. destruct (expectedVdxf policy) as [ev|]; [|done].
  destruct identity as [identity|]; [|done]. destruct vdxf as [vdxf|]; [|done].
  split_and!; try done; eauto.
Qed.

Lemma beat_quiet ev : quiet writes sane any (beat options ev).
Proof. use_quiet. unfold beat. quiet_steps. Qed.

Lemma right_network info blockchain : wrong_network VRSCTEST_CHAIN_ID info blockchain = false -> on_vrsctest info blockchain.
Proof.
  unfold wrong_network. rewrite !orb_false_iff, !negb_false_iff, !String.eqb_eq. by intros (((((? & ?) & ?) & ?) & ?) & ?).
Qed.

Lemma synchronised job b info blockchain :
  unsynchronized (preflight_policy job b) info blockchain = false -> up_to_date info blockchain.
Proof.
  unfold unsynchronized. simpl. rewrite !orb_false_iff, !Z.ltb_ge. intros ((((((? & ?) & ?) & ?) & ?) & ?) & ?).
  split; try done; lia.
Qed.

Lemma evidence_quiet i k digest :
  quiet writes sane (fun e => forall x h, e = Some (x, h) -> nonempty (Some x) <> None)
    (findReadbackEvidenceBeforeResubmission sha256 i k digest).
Proof.
  use_quiet. unfold findReadbackEvidenceBeforeResubmission. eapply quiet_bind; [apply Hcontent|].
  intros c Hc. simpl. apply quiet_ret. intros x h. case_match; [|done]. by intros [= <- <-].
Qed.

Lemma identity_valid address system identity :
  identity_invalid {| ei_identityAddress := address; ei_systemId := system;
                      ei_allowedStatuses := ["active"]; ei_mustBeSignableByNode := true |} identity = false ->
  id_identityAddress (ir_identity identity) = address /\ id_systemId (ir_identity identity) = system /\
  ir_status identity = "active" /\ ir_canSignFor identity = true.
Proof.
  unfold identity_invalid. simpl. rewrite !orb_false_iff, !negb_false_iff, !String.eqb_eq.
  intros (((Ha & Hsys) & Hs) & Hb). by apply includes_true, list_elem_of_singleton in Hs.
Qed.

(** The calls of a preflight that passed, in order. *)
Lemma preflight_calls job b s pf s' :
  runVerusWritePreflight (preflight_policy job b) s = (Ok pf, s') ->
  exists s1 s2 s3 identity vdxf, getInfo s = (Ok (pf_info pf), s1) /\ getBlockchainInfo s1 = (Ok (pf_blockchain pf), s2) /\
    getIdentity (jr_targetIdentity job) s2 = (Ok identity, s3) /\ getVdxfId (jr_vdxfUri job) s3 = (Ok vdxf, s') /\
    pf_identity pf = Some identity /\ pf_vdxf pf = Some vdxf.
Proof.
  unfold runVerusWritePreflight. intros Hrun. inv_ok.
  match goal with Hb : both _ _ ?x = _ |- _ => rename Hb into Hboth, x into s end. unfold both in Hboth.
  destruct (getInfo s) as [[info|] s1] eqn:E1; destruct (getBlockchainInfo s1) as [[blockchain|] s2] eqn:E2; try done.
  injection Hboth as <- <-. simpl in *. unfold preflight_identity, preflight_vdxf in *. simpl in *. inv_ok.
  by eexists s1, s2, _, _, _.
Qed.

(** What follows the preflight, for a job that may not be submitted. *)
Lemma submitted_before_quiet claim job (next : prog W exn string) :
  ~ (nonempty (jr_transactionId job) = None /\ jr_submissionAmbiguous job = false) ->
  quiet writes sane any
    (let* found :=
      (match nonempty (jr_transactionId job) with
       | Some t => ret (Some t)
       | None =>
         if jr_submissionAmbiguous job then
           let* evidence := findReadbackEvidenceBeforeResubmission sha256 (jr_targetIdentity job)
                              (jr_vdxfKey job) (jr_manifestDigest job) in
           match evidence with
           | None => throw (ambiguousError
               "Ambiguous Verus submission was not found by readback; automatic resubmission is blocked")
           | Some (transactionId, _) => ret (Some transactionId)
           end
         else ret None
       end) in
     let* transactionId := (match nonempty found with Some t => ret t | None => next end) in
     let* t := now in
     jobs_recordSubmission (cl_id claim) (worker options) t transactionId).
Proof.
  intros Hno. use_quiet.
  apply quiet_bind with (fun found => nonempty found <> None).
  { destruct (nonempty (jr_transactionId job)) as [x|] eqn:Htx.
    - apply quiet_ret. rewrite <- Htx. unfold nonempty in *. destruct (jr_transactionId job) as [y|]; [|done].
      destruct (falsy_string y) eqn:Hy; [done|]. injection Htx as <-. by rewrite Hy.
    - destruct (jr_submissionAmbiguous job); [|by destruct Hno].
      eapply quiet_bind; [apply evidence_quiet|]. intros [[x h]|] Hx; [|apply quiet_throw].
      apply quiet_ret. by apply (Hx x h). }
  intros found Hfound. destruct (nonempty found) as [x|]; [|done]. quiet_steps.
Qed.

Lemma preflightAndSubmit_submits claim job :
  jr_state job = VerusJobState.preflight ->
  submits writes sane (authorized_for job) any (preflightAndSubmit sha256 options claim job).
Proof.
  intros Hstate. use_quiet. unfold preflightAndSubmit.
  apply quiet_bind_submits with any; [apply beat_quiet|]. intros _ _.
  apply submits_guard. intros Htarget.
  apply quiet_bind_submits with (fun payload =>
    prepareCanonicalPayload sha256 (jr_manifest job) (payload_policy job) = Ok payload);
    [by apply quiet_lift|]. intros payload Hpayload.
  apply submits_guard. intros Hdigest. intros s0 r s' Hi Hrun. unfold bindP at 1 in Hrun.
  destruct (runVerusWritePreflight _ s0) as [[pf|e] s4] eqn:Hpre;
    destruct (preflight_quiet _ _ _ _ Hi Hpre) as (Hi4 & Hw4 & Hpf); [|injection Hrun as <- <-; by split_and!; [|left|]].
  apply preflight_calls in Hpre as (s1 & s2 & s3 & identity & vdxf & E1 & E2 & E3 & E4 & Hid & Hvd).
  destruct (Hpf pf eq_refl) as (Hen & Hnet & Hver & Hsync & (ei & i & Hei & Hid' & Hinv) & (ev & v & Hev & Hvd' & Hkey)).
  rewrite Hid in Hid', Hrun. rewrite Hvd in Hvd'. injection Hid' as <-. injection Hvd' as <-. simpl in Hei, Hev, Hen.
  injection Hei as <-. injection Hev as <-. simpl in *. rewrite <- Hw4. unfold bindP at 1 in Hrun.
  destruct (metrics _ s4) as [[[]|e] s5] eqn:Hm; destruct (metrics_quiet _ _ _ _ Hi4 Hm) as (Hi5 & Hw5 & _);
    [|injection Hrun as <- <-; by split_and!; [|left|]].
  rewrite <- Hw5. destruct (decide (nonempty (jr_transactionId job) = None /\ jr_submissionAmbiguous job = false)) as [[Htx Hamb]|Hno].
  2:{ destruct (submitted_before_quiet claim job _ Hno _ _ _ Hi5 Hrun) as (? & ? & ?). by split_and!; [|left|]. }
  rewrite Htx, Hamb in Hrun. unfold bindP, ret, lift in Hrun. cbn [nonempty] in Hrun.
  destruct (prepareIdentityContentUpdate _ _ _) as [u|e] eqn:Hu; [|injection Hrun as <- <-; by split_and!; [|left|]].
  destruct (updateIdentity u s5) as [reply s6] eqn:Hup. apply update_writes in Hup as Hup'; [|done]. destruct Hup' as [Hi6 Hw6].
  assert (Hq : forall x, quiet writes sane any
    (let* t := now in jobs_recordSubmission (cl_id claim) (worker options) t x)) by (intros; quiet_steps).
  assert (Hend : sane s' /\ writes s' = writes s6).
  { destruct reply as [x|e]; [|by injection Hrun as <- <-]. by destruct (Hq x s6 r s' Hi6 Hrun) as (? & ? & _). }
  destruct Hend as [Hi' ->]. split_and!; [done| |done]. right. exists u. split; [done|].
  apply negb_false_iff, some_true in Htarget.
  apply orb_false_iff in Hdigest as [Hd1 Hd2]. apply negb_false_iff, String.eqb_eq in Hd1, Hd2.
  apply identity_valid in Hinv as (Hi1 & Hisys & Hi2 & Hi3). split; [done..|].
  exists payload, (pf_info pf), (pf_blockchain pf), identity, vdxf.
  apply right_network in Hnet. apply synchronised in Hsync. split_and!; try done.
  split. by exists s0, s1, s2, s3, s4, s5, reply, s6.
Qed.

(** A submission of unknown outcome is never repeated. *)
Lemma preflightAndSubmit_ambiguous claim job :
  jr_state job = VerusJobState.preflight ->
  (nonempty (jr_transactionId job) = None -> jr_submissionAmbiguous job = true) ->
  quiet writes sane any (preflightAndSubmit sha256 options claim job).
Proof.
  intros Hstate Hamb. eapply submits_none; [|by apply preflightAndSubmit_submits].
  intros u [_ _ (_ & Hnone & Hno) _]. rewrite (Hamb Hnone) in Hno. done.
Qed.

(** *** Lifting to the try block *)

Definition writesP (s : W * option VerusJobRecord) : list PreparedIdentityUpdate := writes (fst s).

Definition saneP (s : W * option VerusJobRecord) : Prop := sane (fst s).

Lemma io_quiet {A} (V : A -> Prop) (c : prog W exn A) : quiet writes sane V c -> quiet writesP saneP V (io c).
Proof.
  intros Hc [w j] r s' Hi Hrun. unfold io in Hrun. simpl in Hrun. destruct (c w) as [r1 w1] eqn:E.
  injection Hrun as <- <-. apply (Hc _ _ _ Hi E).
Qed.

Lemma assign_submits Q (c : prog W exn VerusJobRecord) :
  submits writes sane Q any c -> submits writesP saneP Q any (assign c).
Proof.
  intros Hc [w j] r s' Hi Hrun. unfold assign in Hrun. simpl in Hrun. destruct (c w) as [[j1|e] w1] eqn:E;
    injection Hrun as <- <-; destruct (Hc _ _ _ Hi E) as (? & ? & _); done.
Qed.

Lemma assign_quiet V (c : prog W exn VerusJobRecord) : quiet writes sane V c -> quiet writesP saneP V (assign c).
Proof.
  intros Hc [w j] r s' Hi Hrun. unfold assign in Hrun. simpl in Hrun. destruct (c w) as [[j1|e] w1] eqn:E;
    injection Hrun as <- <-; destruct (Hc _ _ _ Hi E) as (? & ? & HV); (split_and!; [done..|]); [|done].
  intros a [= <-]. by apply HV.
Qed.

Lemma at_now_quiet {A} (op : Z -> prog W exn A) :
  (forall t, quiet writes sane any (op t)) -> quiet writes sane any (at_now op).
Proof. use_quiet. intros Hop. unfold at_now. quiet_steps. Qed.

Lemma failOutboxRetryable_quiet ev e res : quiet writes sane any (failOutboxRetryable options ev e res).
Proof. use_quiet. unfold failOutboxRetryable. quiet_steps. Qed.

Lemma handleFailure_quiet ev st err : quiet writes sane any (handleFailure options ev st err).
Proof.
  use_quiet. pose proof failOutboxRetryable_quiet. unfold handleFailure. quiet_steps.
Qed.

Lemma confirmation_quiet x n : quiet writes sane any (inspectTransactionConfirmation x n).
Proof. use_quiet. unfold inspectTransactionConfirmation. quiet_steps. Qed.

Lemma readback_quiet i k d : quiet writes sane any (verifyIdentityContentReadback sha256 i k d).
Proof.
  use_quiet. unfold verifyIdentityContentReadback. 
  apply quiet_bind with any; [eapply quiet_weaken; [|apply Hcontent]; done|]. intros ? _. quiet_steps.
Qed.

(** A job-returning operation at the current time. *)
Lemma step_quiet (op : Z -> prog W exn VerusJobRecord) :
  (forall t, quiet writes sane any (op t)) -> quiet writesP saneP (returned sane (at_now op)) (assign (at_now op)).
Proof. intros. by eapply assign_quiet, quiet_returned, at_now_quiet. Qed.

Lemma step_quiet_any (op : Z -> prog W exn VerusJobRecord) :
  (forall t, quiet writes sane any (op t)) -> quiet writesP saneP any (assign (at_now op)).
Proof. intros. by apply assign_quiet, at_now_quiet. Qed.

Lemma confirming_stage_quiet claim job :
  quiet writesP saneP (fun next => forall early, next = inr early -> quiet writes sane any early)
    (confirming_stage options claim job).
Proof.
  use_quiet. unfold confirming_stage.
  apply quiet_bind with any; [by apply io_quiet, beat_quiet|]. intros _ _.
  apply quiet_bind with any; [by apply quiet_lift|]. intros x _.
  apply quiet_bind with any; [by apply io_quiet, confirmation_quiet|]. intros confirmation _.
  apply quiet_bind with any; [by apply io_quiet|]. intros _ _.
  destruct confirmation as [n|n h b|n h b].
  - apply quiet_throw.
  - apply quiet_bind with any; [by apply step_quiet_any; eauto|]. intros job' _. by apply quiet_ret.
  - apply quiet_bind with any; [by apply io_quiet, at_now_quiet; eauto|]. intros _ _.
    apply quiet_bind with any; [by apply io_quiet|]. intros _ _.
    apply quiet_ret. intros early [= <-]. apply failOutboxRetryable_quiet.
Qed.

Lemma readback_stage_quiet claim job : quiet writesP saneP any (readback_stage sha256 options claim job).
Proof.
  use_quiet. unfold readback_stage.
  apply quiet_bind with any; [by apply io_quiet, beat_quiet|]. intros _ _.
  apply quiet_bind with any; [by apply io_quiet, readback_quiet|]. intros [d|ds] _.
  - by apply step_quiet_any.
  - apply quiet_bind with any; [by apply io_quiet|]. intros _ _. apply quiet_throw.
Qed.

(** A stage that runs when [b], on a job left alone otherwise. *)
Lemma stage_quiet (V : VerusJobRecord -> Prop) (b : bool) (c : P (W := W) VerusJobRecord) job :
  V job -> quiet writesP saneP V c -> quiet writesP saneP V (if b then c else ret job).
Proof. intros. destruct b; [done|by apply quiet_ret]. Qed.

(** The stages after the submission. *)
Lemma try_rest_quiet claim job3 :
  quiet writesP saneP (fun rest => quiet writes sane any rest) (try_rest sha256 options claim job3).
Proof.
  use_quiet. unfold try_rest.
  apply quiet_bind with any.
  { apply stage_quiet; [done|]. apply quiet_bind with any; [by apply io_quiet, beat_quiet|]. intros _ _.
    apply step_quiet_any; eauto. }
  intros job4 _. eapply quiet_bind.
  { instantiate (1 := fun next => forall early, next = inr early -> quiet writes sane any early).
    destruct (in_state job4 VerusJobState.confirming); [apply confirming_stage_quiet|by apply quiet_ret]. }
  intros [job5|early] Hearly; [|apply quiet_ret; auto].
  apply quiet_bind with any; [apply stage_quiet; [done|]; apply readback_stage_quiet|]. intros job6 _.
  apply quiet_guard. intros _. apply quiet_bind with any; [apply io_quiet, at_now_quiet; eauto|]. intros _ _.
  apply quiet_bind with any; [by apply io_quiet|]. intros _ _. apply quiet_ret. by apply quiet_ret.
Qed.

Lemma try_body_submits claim :
  claimed claim ->
  submits writesP saneP authorized_write (fun rest => quiet writes sane any rest) (try_body sha256 options claim).
Proof.
  intros Hclaim. use_quiet. unfold try_body.
  apply quiet_bind_submits with (job_of claim).
  { eapply quiet_weaken; [|apply step_quiet; eauto]. intros job Hj. by left. }
  intros job0 Hjob0. apply quiet_bind_submits with (job_of claim).
  { apply stage_quiet; [done|]. eapply quiet_weaken; [|apply step_quiet; eauto]. intros job Hj. right. by left. }
  intros job1 Hjob1. apply quiet_bind_submits with (job_of claim).
  { apply stage_quiet; [done|]. eapply quiet_weaken; [|apply step_quiet; eauto]. intros job Hj. by right; right. }
  intros job2 Hjob2.
  apply submits_bind_quiet with any.
  { unfold in_state. case_bool_decide as Hst; [|by apply quiet_submits, quiet_ret].
    apply assign_submits. eapply submits_weaken; [|by apply preflightAndSubmit_submits].
    intros u Hu. by exists claim, job2. }
  intros job3 _. apply try_rest_quiet.
Qed.

Lemma process_claim_submits claim :
  claimed claim -> submits writes sane authorized_write any (process_claim sha256 options claim).
Proof.
  intros Hclaim w r w' Hi Hrun. unfold process_claim in Hrun.
  destruct (try_body sha256 options claim (w, None)) as [[rest|e] [w1 job]] eqn:Ht;
    destruct (try_body_submits _ Hclaim (w, None) _ _ Hi Ht) as (Hi1 & Hw & Hrest);
    unfold writesP in Hw; unfold saneP in Hi1; simpl in Hw, Hi1.
  - destruct (Hrest rest eq_refl _ _ _ Hi1 Hrun) as (? & -> & _). done.
  - destruct job as [j|], (isVerusIntegrationError e) as [err|];
      try (injection Hrun as <- <-; done).
    destruct (handleFailure_quiet _ _ _ _ _ _ Hi1 Hrun) as (? & -> & _). done.
Qed.

Lemma processNext_submits : submits writes sane authorized_write any (processNext sha256 options).
Proof.
  use_quiet. unfold processNext, refreshQueueMetrics.
  apply quiet_bind_submits with any; [quiet_steps|]. intros _ _.
  apply quiet_bind_submits with any; [by eauto|]. intros _ _.
  destruct (negb (capabilityEnabled options)); [by apply quiet_submits, quiet_ret|].
  eapply quiet_bind_submits; [eapply quiet_returned, at_now_quiet; eauto|]. intros [claim|] Hclaim;
    [|by apply quiet_submits, quiet_ret].
  apply quiet_bind_submits with any; [by apply at_now_quiet; eauto|]. intros stats _.
  apply quiet_bind_submits with any; [by eauto|]. intros t _.
  apply quiet_bind_submits with any; [by eauto|]. intros _ _.
  by apply process_claim_submits.
Qed.

End safety.

(** ** Properties *)

Section properties.
Context {W : Type} `{Clock W} `{MetricsStore W} `{VerusOutboxStore W} `{VerusJobStore W}
  `{VerusRpcAdapter W} `{TextServices} `{NumberParser} `{!WritesObserved W}.
Context (sha256 : string -> string) (options : VerusAnchorWorkerOptions).

(** C6: one pass of the worker hands at most one update to [updateIdentity],
    and only when the write capability is on, the job is the one the stores
    returned in this pass for the event the outbox handed out in it, it
    matches an approved target, is in [preflight] without a transaction id or
    an ambiguous submission, and its manifest re-canonicalises to the stored
    digest and text.  The update is the one prepared from that payload and
    handed over right after the node answered this pass's getInfo,
    getBlockchainInfo, getIdentity and getVdxfId: it is on VRSCTEST, recent
    enough and synchronised, the target identity is active and signable, and
    the key is the expected one. *)
Theorem write_safety w r w' :
  sane w -> processNext sha256 options w = (r, w') ->
  writes w' = writes w \/
  exists u, writes w' = writes w ++ [u] /\
    authorized_write (WritesObserved0 := observed_since w) sha256 options u.
Proof.
  intros Hi Hrun. assert (Hs : since w w) by (split; [done|apply rtc_refl]).
  by destruct (processNext_submits (WritesObserved0 := observed_since w) sha256 options w r w' Hs Hrun) as (_ & ? & _).
Qed.
End properties.
