(* ===== verification/StoreFacts.v ===== *)
(** * StoreFacts: what each repository leaves alone.

    The outbox repository never touches a job or an anchor; the job
    repository never touches the queue or its attempts (but for the new work
    it enqueues).  Both invariants therefore survive every operation. *)
From S2P Require Import Prelude Errors Transition Guards Text Json JsonParse Verus Database Outbox.
From S2P Require Import OutboxFacts OutboxProperties VerusJob VerusJobFacts.
Local Open Scope Z_scope.

Definition jobs_view (d : Db) := (db_verus_job d, db_anchor_record d).
Definition queue_view (d : Db) := (db_outbox_event d, db_outbox_attempt d).

Section stores.
Context `{Platform} `{NumberParser}.

(** ** Shared statements *)

(** A view of the tables that is blind to the identifiers drawn and to the
    audit trail. *)
Definition work_view {V : Type} (view : Db -> V) : Prop := forall d d', same_work d d' -> view d' = view d.

Lemma jobs_work_view : work_view jobs_view.
Proof. intros d d' (_ & _ & _ & Hj & Ha & _). unfold jobs_view. congruence. Qed.

Lemma queue_work_view : work_view queue_view.
Proof. intros d d' (_ & He & Ha & _). unfold queue_view. congruence. Qed.

Lemma appendAudit_keeps {V} (view : Db -> V) ctx cid command target res :
  work_view view -> keeps view (appendAudit ctx cid command target res).
Proof. intros Hv d. apply Hv. eapply appendAudit_work, surjective_pairing. Qed.

Lemma newId_keeps {V} (view : Db -> V) : work_view view -> keeps view newId.
Proof. intros Hv d. apply Hv. eapply newId_work, surjective_pairing. Qed.

Lemma tx_keeps {V A} (view : Db -> V) env (work : M A) :
  work_view view -> keeps view work -> keeps view (inSerializableTransaction env work).
Proof.
  intros Hv Hk d. destruct (inSerializableTransaction env work d) as [[a|x] d'] eqn:Hrun; simpl.
  - apply inSerializableTransaction_ok in Hrun as (d0 & Hs & Hw).
    rewrite (keeps_run _ _ _ _ _ Hk Hw). by apply Hv, same_tables_work.
  - apply inSerializableTransaction_err in Hrun as [Hs|(_ & d0 & a & Hs & Hw)].
    + by apply Hv, same_tables_work.
    + rewrite (keeps_run _ _ _ _ _ Hk Hw). by apply Hv, same_tables_work.
Qed.

#[local] Hint Resolve appendAudit_keeps newId_keeps tx_keeps jobs_work_view queue_work_view : keeps.

(** ** The outbox repository keeps the jobs *)

Lemma audit_keeps {V} (view : Db -> V) worker row command reason prior next res :
  work_view view -> keeps view (audit worker row command reason prior next res).
Proof. intros. unfold audit. keeps_steps. Qed.

Lemma updateOutboxEvent_keeps old new : keeps jobs_view (updateOutboxEvent old new).
Proof. unfold updateOutboxEvent. keeps_steps. Qed.

Lemma recordAttempt_keeps row w n res err s f : keeps jobs_view (recordAttempt row w n res err s f).
Proof. unfold recordAttempt, insertOutboxAttempt. keeps_steps. Qed.

Lemma loadClaim_keeps {V} (view : Db -> V) ev w t : keeps view (loadClaim ev w t).
Proof. unfold loadClaim. keeps_steps. Qed.

Lemma required_keeps {V A} (view : Db -> V) (o : option A) : keeps view (required o).
Proof. unfold required. keeps_steps. Qed.

#[local] Hint Resolve audit_keeps updateOutboxEvent_keeps recordAttempt_keeps loadClaim_keeps required_keeps : keeps.

Lemma claimNext_keeps env locked worker t ms options : keeps jobs_view (claimNext env locked worker t ms options).
Proof.
  unfold claimNext. keeps_steps. apply tx_keeps; [auto with keeps|].
  unfold claimNext_tx, recoverExpired. keeps_steps.
Qed.

Lemma heartbeat_keeps env ev worker t ms : keeps jobs_view (heartbeat env ev worker t ms).
Proof. apply tx_keeps; [auto with keeps|]. unfold heartbeat_tx. cbv zeta. keeps_steps. Qed.

Lemma succeed_keeps env ev worker t : keeps jobs_view (succeed env ev worker t).
Proof. apply tx_keeps; [auto with keeps|]. unfold succeed_tx. keeps_steps. Qed.

Lemma failRetryable_keeps env ev worker t options : keeps jobs_view (failRetryable env ev worker t options).
Proof.
  unfold failRetryable. keeps_steps. apply tx_keeps; [auto with keeps|].
  unfold failRetryable_tx. cbv zeta. keeps_steps.
Qed.

Lemma failTerminal_keeps env ev worker t error : keeps jobs_view (failTerminal env ev worker t error).
Proof.
  unfold failTerminal. keeps_steps. apply tx_keeps; [auto with keeps|]. unfold failTerminal_tx. keeps_steps.
Qed.

(** ** The job repository keeps the queue *)

Lemma load_keeps {V} (view : Db -> V) ev : keeps view (load ev).
Proof. unfold load. keeps_steps. Qed.

Lemma requireLease_keeps {V} (view : Db -> V) ev w t : keeps view (requireLease ev w t).
Proof. unfold requireLease. keeps_steps. Qed.

Lemma updateJobAt_keeps ev version f : keeps queue_view (updateJobAt ev version f).
Proof. unfold updateJobAt, updateVerusJob. keeps_steps. Qed.

Lemma transitionAnchor_keeps ev next evidence t : keeps queue_view (transitionAnchor ev next evidence t).
Proof. unfold transitionAnchor, updateAnchor. keeps_steps. Qed.

Lemma committeeId_keeps {V} (view : Db -> V) ev : keeps view (committeeId ev).
Proof. unfold committeeId. keeps_steps. Qed.

#[local] Hint Resolve load_keeps requireLease_keeps updateJobAt_keeps transitionAnchor_keeps committeeId_keeps : keeps.

Lemma transition_keeps env ev worker t expected next evidence sync :
  keeps queue_view (transition env ev worker t expected next evidence sync).
Proof.
  unfold transition. keeps_steps. apply tx_keeps; [auto with keeps|]. unfold transition_tx. cbv zeta. keeps_steps.
Qed.

Lemma run_job_keeps env c ev worker t : keeps queue_view (run_job env c ev worker t).
Proof.
  destruct c; try apply transition_keeps; unfold run_job.
  - unfold loadForClaim. apply tx_keeps; [auto with keeps|]. keeps_steps.
  - unfold markDeadLetter. keeps_steps. apply tx_keeps; [auto with keeps|].
    unfold markDeadLetter_tx. cbv zeta. keeps_steps.
Qed.

(** ** Both invariants *)

Record store_ok (d : Db) : Prop := { so_queue : queue_ok d; so_jobs : jobs_ok d }.

Lemma queue_ok_view d d' : queue_view d' = queue_view d -> queue_ok d -> queue_ok d'.
Proof. unfold queue_view. intros [= He Ha] []. split; rewrite ?He, ?Ha; done. Qed.

Lemma store_ok_job env c ev worker t d :
  store_ok d -> store_ok (snd (run_job env c ev worker t d)).
Proof.
  intros [Hq Hj]. split; [|by eapply jobs_ok_change; [apply run_job_change|]].
  eapply queue_ok_view; [apply run_job_keeps|done].
Qed.

(** An outbox command keeps every event. *)
Lemma change_events c t d d' k : change c t d d' -> is_Some (db_outbox_event d !! k) -> is_Some (db_outbox_event d' !! k).
Proof.
  intros Hch [o Ho].
  destruct Hch as [-> _|? ? ? ? ? old ? _ _ _ Heff _|old ? ? _ _ _ _ Heff|old ? ? ? ? ? ? ? ? _ _ _ _ Heff _];
    try (by rewrite Ho); rewrite (re_events _ _ _ _ _ Heff);
    (destruct (decide (oe_id old = k)) as [<-|];
     [rewrite lookup_insert_eq; eauto|rewrite lookup_insert_ne by done; eauto]).
Qed.

Lemma exec_keeps env c t d : jobs_view (exec env c t d) = jobs_view d.
Proof.
  destruct c; unfold exec;
    [apply claimNext_keeps|apply heartbeat_keeps|apply succeed_keeps|apply failRetryable_keeps|apply failTerminal_keeps].
Qed.

Lemma store_ok_exec env c t d : store_ok d -> store_ok (exec env c t d).
Proof.
  intros [Hq [Hk Hc Ha He]]. pose proof (exec_change env c t d) as Hch. split; [by eapply queue_ok_change|].
  pose proof (exec_keeps env c t d) as Hv. unfold jobs_view in Hv. injection Hv as Hj Hn.
  split; rewrite ?Hj, ?Hn; try done. intros k j Hkj. by eapply change_events, He.
Qed.

(** New work keeps both. *)
Lemma queue_ok_enqueue input ctx d r d' :
  enqueueAnchor_tx input ctx d = (Ok r, d') -> queue_ok d -> queue_ok d'.
Proof.
  unfold enqueueAnchor_tx. intros Htx Hok. apply bindP_ok in Htx as (committee & d0 & Hc & Htx).
  assert (d0 = d) as ->.
  { destruct (in_committeeReference input) as [c|]; [|by inv_ok].
    destruct (falsy_string c); [by inv_ok|]. inv_ok. by eapply resolveCommittee_state. }
  clear Hc. apply bindP_ok in Htx as (existing & d0 & Hg & Htx). unfold gets in Hg. injection Hg as <- <-.
  destruct (jobByKey _ d); [inv_ok; subst; unfold id; done|].
  apply bindP_ok in Htx as (x1 & d1 & E1 & Htx). apply bindP_ok in Htx as (x2 & d2 & E2 & Htx).
  apply bindP_ok in Htx as (now & d3 & E3 & Htx). apply bindP_ok in Htx as (u & d4 & E4 & Htx).
  assert (Hq2 : queue_ok d2).
  { eapply queue_ok_view; [|done]. etransitivity; [eapply keeps_run; [apply newId_keeps, queue_work_view|exact E2]|].
    eapply keeps_run; [apply newId_keeps, queue_work_view|exact E1]. }
  unfold gets in E3. injection E3 as <- <-.
  assert (Hq4 : queue_ok d4) by (eapply queue_ok_enqueued; [|exact Hq2]; split_and!; [| |destruct u; exact E4]; done).
  eapply queue_ok_view; [eapply keeps_run; [|exact Htx]|done].
  assert (forall j, keeps queue_view (insertVerusJob j)) by (intros; unfold insertVerusJob; keeps_steps).
  assert (forall a, keeps queue_view (insertAnchor a)) by (intros; unfold insertAnchor; keeps_steps).
  keeps_steps; auto.
Qed.

Lemma store_ok_enqueue env input ctx d : store_ok d -> store_ok (snd (enqueueAnchor env input ctx d)).
Proof.
  intros [Hq Hj]. unfold enqueueAnchor, bindP at 1, lift. destruct (validateInput input ctx); [|done].
  assert (Hsame : forall d', same_tables d d' -> store_ok d').
  { intros d' Hs. split; [|by eapply jobs_ok_same]. eapply queue_ok_view; [|done].
    by apply queue_work_view, same_tables_work. }
  assert (Htx : forall d0 r d', same_tables d d0 -> enqueueAnchor_tx input ctx d0 = (Ok r, d') -> store_ok d').
  { intros d0 r d' [Hq0 Hj0]%Hsame Hw. split; [by eapply queue_ok_enqueue|by eapply jobs_ok_enqueue]. }
  destruct (inSerializableTransaction env (enqueueAnchor_tx input ctx) d) as [[r|x] d'] eqn:Hrun; simpl.
  - apply inSerializableTransaction_ok in Hrun as (d0 & Hs & Hw). eauto.
  - apply inSerializableTransaction_err in Hrun as [Hs|(_ & d0 & b & Hs & Hw)]; eauto.
Qed.
End stores.
