(* ===== verification/System.v ===== *)
(** * System: the anchor worker on its real stores.

    A [World] is a database and the in-memory node; the worker's interfaces
    are implemented by the repositories (outbox-repository.ts,
    verus-job-repository.ts) and by the fake adapter, as apps/worker/src
    wires them.  The clock readings, the faults of each transaction and the
    rows other transactions hold locked are arbitrary functions of how many
    readings and transactions came before. *)
From S2P Require Import Prelude Errors Transition Lifecycles Text Json JsonParse Verus Database.
From S2P Require Import Outbox OutboxFacts OutboxProperties VerusJob VerusJobFacts StoreFacts.
From S2P Require Import FakeAdapter Worker WorkerFacts.
Local Open Scope Z_scope.

Record World : Type := {
  w_db : Db;
  w_node : FakeVerusRpcAdapter;
  w_metrics : Metrics;
  w_reads : nat;                             (* clock readings taken *)
  w_calls : nat;                             (* repository calls made *)
  w_updates : list PreparedIdentityUpdate;   (* what updateIdentity was given *)
}.

Section system.
Context `{Platform} `{NumberParser} `{TextServices}.
Context (clock : nat -> Z) (faults : nat -> nat -> TxAttempt) (locked : nat -> string -> bool).

#[export] Instance world_clock : Clock World := {
  now w := (Ok (clock (w_reads w)),
            {| w_db := w_db w; w_node := w_node w; w_metrics := w_metrics w; w_reads := S (w_reads w);
               w_calls := w_calls w; w_updates := w_updates w |})
}.

#[export] Instance world_metrics : MetricsStore World := {
  metrics f w := (Ok tt,
    {| w_db := w_db w; w_node := w_node w; w_metrics := f (w_metrics w); w_reads := w_reads w;
       w_calls := w_calls w; w_updates := w_updates w |})
}.

(** A repository call, with the faults its transactions meet. *)
Definition on_db {A : Type} (op : (nat -> TxAttempt) -> (string -> bool) -> M A) : prog World exn A := fun w =>
  let (r, d) := op (faults (w_calls w)) (locked (w_calls w)) (w_db w) in
  (r, {| w_db := d; w_node := w_node w; w_metrics := w_metrics w; w_reads := w_reads w;
         w_calls := S (w_calls w); w_updates := w_updates w |}).

(** A call of the adapter. *)
Definition on_node {A : Type} (op : prog FakeVerusRpcAdapter exn A) : prog World exn A := fun w =>
  let (r, n) := op (w_node w) in
  (r, {| w_db := w_db w; w_node := n; w_metrics := w_metrics w; w_reads := w_reads w;
         w_calls := w_calls w; w_updates := w_updates w |}).

Definition log_update (u : PreparedIdentityUpdate) : prog World exn unit := fun w =>
  (Ok tt, {| w_db := w_db w; w_node := w_node w; w_metrics := w_metrics w; w_reads := w_reads w;
             w_calls := w_calls w; w_updates := w_updates w ++ [u] |}).

#[export] Instance world_adapter : VerusRpcAdapter World :=
  let node := fake_adapter sha256 in {|
  getInfo := on_node (@getInfo _ node);
  getBlockchainInfo := on_node (@getBlockchainInfo _ node);
  getIdentity identity := on_node (@getIdentity _ node identity);
  getIdentityContent identity key := on_node (@getIdentityContent _ node identity key);
  getVdxfId uri := on_node (@getVdxfId _ node uri);
  updateIdentity u := run* log_update u in on_node (@updateIdentity _ node u);
  getRawTransaction x := on_node (@getRawTransaction _ node x);
  getBlockHash h := on_node (@getBlockHash _ node h);
  getBlock h := on_node (@getBlock _ node h);
|}.

#[export] Instance world_outbox : VerusOutboxStore World := {
  outbox_claimNext worker t lease options :=
    on_db (fun env locked => claimNext env locked worker t (Int lease) options);
  outbox_heartbeat ev worker t lease := on_db (fun env _ => heartbeat env ev worker t lease);
  outbox_succeed ev worker t := on_db (fun env _ => succeed env ev worker t);
  outbox_failRetryable ev worker t options := on_db (fun env _ => failRetryable env ev worker t options);
  outbox_failTerminal ev worker t error := on_db (fun env _ => failTerminal env ev worker t error);
  outbox_queueStats t types := on_db (fun _ _ => queueStats t types);
}.

#[export] Instance world_jobs : VerusJobStore World := {
  jobs_loadForClaim ev worker t := on_db (fun env _ => loadForClaim env ev worker t);
  jobs_claim ev worker t := on_db (fun env _ => VerusJob.claim env ev worker t);
  jobs_beginPreflight ev worker t := on_db (fun env _ => beginPreflight env ev worker t);
  jobs_recordSubmission ev worker t x := on_db (fun env _ => recordSubmission env ev worker t x);
  jobs_beginConfirmation ev worker t := on_db (fun env _ => beginConfirmation env ev worker t);
  jobs_beginReadback ev worker t h b := on_db (fun env _ => beginReadback env ev worker t h b);
  jobs_verifyReadback ev worker t digest := on_db (fun env _ => verifyReadback env ev worker t digest);
  jobs_retryableFailure ev worker t error ambiguous :=
    on_db (fun env _ => retryableFailure env ev worker t error ambiguous);
  jobs_terminalFailure ev worker t error := on_db (fun env _ => terminalFailure env ev worker t error);
  jobs_markDeadLetter ev worker t error := on_db (fun env _ => markDeadLetter env ev worker t error);
  jobs_reorg ev worker t := on_db (fun env _ => VerusJob.reorg env ev worker t);
}.

(** ** The write log contract holds *)

(** The node's identity carries a transaction id. *)
Definition node_sane (n : FakeVerusRpcAdapter) : Prop :=
  nonempty (Some (ir_transactionId (fk_identity n))) <> None.

Record world_sane (w : World) : Prop := {
  ws_node : node_sane (w_node w);
  ws_store : store_ok (w_db w);
}.

Lemma on_db_quiet {A} (op : _ -> _ -> M A) :
  (forall env locked d, store_ok d -> store_ok (snd (op env locked d))) ->
  quiet w_updates world_sane any (on_db op).
Proof.
  intros Hop w r w' [Hn Hs] Hrun. unfold on_db in Hrun.
  specialize (Hop (faults (w_calls w)) (locked (w_calls w)) _ Hs).
  destruct (op _ _ _) as [r1 d]. by injection Hrun as <- <-.
Qed.

Lemma job_quiet c ev worker t :
  quiet w_updates world_sane any (on_db (fun env _ => run_job env c ev worker t)).
Proof. apply on_db_quiet. intros. by apply store_ok_job. Qed.

Lemma outbox_exec_quiet {A} c t (op : (nat -> TxAttempt) -> (string -> bool) -> M A) :
  (forall env locked d, snd (op env locked d) = exec env (c locked) t d) ->
  quiet w_updates world_sane any (on_db op).
Proof. intros Hop. apply on_db_quiet. intros. rewrite Hop. by apply store_ok_exec. Qed.

Lemma on_node_quiet {A} (V : A -> Prop) (op : prog FakeVerusRpcAdapter exn A) :
  (forall n r n', node_sane n -> op n = (r, n') -> node_sane n' /\ (forall a, r = Ok a -> V a)) ->
  quiet w_updates world_sane V (on_node op).
Proof.
  intros Hop w r w' [Hn Hs] Hrun. unfold on_node in Hrun. destruct (op (w_node w)) as [r1 n] eqn:E.
  injection Hrun as <- <-. destruct (Hop _ _ _ Hn E). by split_and!.
Qed.

(** Reads keep the identity, whatever is returned. *)
Lemma before_keeps m : keeps fk_identity (before_call m).
Proof. intros n. unfold before_call. by destruct (fk_failures n m). Qed.

Lemma found_keeps {A} (o : option A) m b : keeps fk_identity (found o m b).
Proof. destruct o; unfold found, methodError; auto with keeps. Qed.

#[local] Hint Resolve before_keeps found_keeps : keeps.

Lemma assert_keeps i : keeps fk_identity (assertIdentity i).
Proof. unfold assertIdentity, methodError. keeps_steps. Qed.

#[local] Hint Resolve assert_keeps : keeps.

Lemma read_quiet {A} (op : prog FakeVerusRpcAdapter exn A) :
  keeps fk_identity op -> quiet w_updates world_sane any (on_node op).
Proof.
  intros Hk. apply on_node_quiet. intros n r n' Hs Hrun. unfold node_sane.
  by rewrite (keeps_run _ _ _ _ _ Hk Hrun).
Qed.

Lemma content_quiet i k : quiet w_updates world_sane
  (fun c => nonempty (Some (ir_transactionId (ic_result c))) <> None)
  (on_node (fake_getIdentityContent i k)).
Proof.
  apply on_node_quiet. intros n r n' Hs Hrun.
  assert (Hk : keeps fk_identity (fake_getIdentityContent i k))
    by (unfold fake_getIdentityContent; keeps_steps).
  unfold node_sane. rewrite (keeps_run _ _ _ _ _ Hk Hrun). split; [done|]. intros c ->.
  unfold fake_getIdentityContent in Hrun. unfold bindP at 1 in Hrun.
  destruct (before_call getidentitycontent n) as [[u|e] n1] eqn:E1; [|done]. apply (keeps_run fk_identity) in E1; [|apply before_keeps].
  unfold bindP at 1 in Hrun.
  destruct (assertIdentity i n1) as [[u'|e] n2] eqn:E2; [|done]. apply (keeps_run fk_identity) in E2; [|apply assert_keeps].
  unfold bindP, gets, ret in Hrun. injection Hrun as <- _. destruct (falsy_string k); simpl; by rewrite E2, E1.
Qed.

#[export] Instance world_observed : WritesObserved World.
Proof.
  refine {| writes := w_updates; sane := world_sane |}.
  - intros w r w' [??] [= <- <-]. by split_and!.
  - intros f w r w' [??] [= <- <-]. by split_and!.
  - split_and!; intros.
    + by apply (outbox_exec_quiet (fun locked => Claim locked w (Int ms) o) t).
    + by apply (outbox_exec_quiet (fun _ => Heartbeat i w ms) t).
    + by apply (outbox_exec_quiet (fun _ => Succeed i w) t).
    + by apply (outbox_exec_quiet (fun _ => FailRetryable i w o) t).
    + by apply (outbox_exec_quiet (fun _ => FailTerminal i w e) t).
    + apply on_db_quiet. intros env l d Hd. unfold queueStats, bindP, lift.
      by destruct (validateEventTypes o).
  - split_and!; intros.
    + apply (job_quiet JLoad).
    + apply (job_quiet JClaim).
    + apply (job_quiet JBeginPreflight).
    + apply (job_quiet (JRecordSubmission x)).
    + apply (job_quiet JBeginConfirmation).
    + apply (job_quiet (JBeginReadback h b)).
    + apply (job_quiet (JVerifyReadback x)).
    + apply (job_quiet (JRetryableFailure e b)).
    + apply (job_quiet (JTerminalFailure e)).
    + apply (job_quiet (JMarkDeadLetter e)).
    + apply (job_quiet JReorg).
  - split_and!; intros; first [apply content_quiet|apply read_quiet]; simpl;
      unfold fake_getBlock; keeps_steps.
  - intros u w r w' Hs Hrun. unfold updateIdentity, world_adapter, bindP, log_update, on_node in Hrun.
    simpl in Hrun. destruct (fake_updateIdentity sha256 u (w_node w)) as [r1 n] eqn:E.
    injection Hrun as <- <-. simpl. split; [|done]. destruct Hs as [Hn Hs]. split; [|done].
    simpl. unfold node_sane in *. simpl.
    unfold fake_updateIdentity in E. unfold bindP at 1 in E.
    destruct (before_call updateidentity (w_node w)) as [[x|e] n1] eqn:E1;
      (apply (keeps_run fk_identity) in E1; [|apply before_keeps]).
    + unfold bindP, modify, ret in E. injection E as <- <-. simpl. by rewrite E1.
    + injection E as <- <-. by rewrite E1.
Defined.

(** One pass of the worker. *)
Definition pass (options : VerusAnchorWorkerOptions) : prog World exn VerusWorkerResult :=
  processNext sha256 options.

(** Passes in a row. *)
Fixpoint passes (options : VerusAnchorWorkerOptions) (n : nat) (w : World)
  : list (result exn VerusWorkerResult) * World :=
  match n with
  | O => ([], w)
  | S n' => let (r, w') := pass options w in
            let (rs, w'') := passes options n' w' in (r :: rs, w'')
  end.
End system.

(** ** A concrete system *)

Module SampleSystem.
Import Json.Sample.

(** A stand-in for SHA-256 with its output's shape: a polynomial of the
    bytes modulo 2^256, in hexadecimal. *)
Fixpoint digest_bytes (n : nat) (z : Z) : list Z :=
  match n with O => [] | S n' => Z.land z 255 :: digest_bytes n' (Z.shiftr z 8) end.
Fixpoint poly (acc : Z) (s : string) : Z :=
  match s with
  | EmptyString => acc
  | String c s' => poly (Z.land (acc * 1000003 + Z.of_nat (Ascii.nat_of_ascii c) + 7919) (2 ^ 256 - 1)) s'
  end.
Definition toy_sha256 (s : string) : string := of_bytes (to_hex (digest_bytes 32 (poly 1 s))).

Definition platform : Platform := {|
  sha256 := toy_sha256;
  randomUUID n := String.append "id" (String.concat "" (replicate n "1"));
  audit_json e := String.concat "," [ae_id e; ae_command e; ae_target_reference e];
  jsonb v := Ok v;
|}.
#[export] Existing Instance platform.
#[export] Instance numbers : NumberParser := { text_number _ := SpecFloat.S754_zero false }.

Definition identityAddress : string := DEFAULT_IDENTITY_ADDRESS.
Definition vdxfKey : string := "iVdxfKeyVdxfKeyVdxfKeyVdxfKey12345".
Definition vdxfUri : string := "vrsctest::cbc.anchor".
Definition manifest : list (ustring * json) :=
  [(units "schema", JString (units "v1")); (units "subject", JString (units "committee-1"))].
Definition canonical : string :=
  match canonicalizeJson (JObject manifest) with Ok t => of_bytes t | Err _ => EmptyString end.

Definition context : CommandContext := {|
  actor := {| actor_type := "worker"; actor_reference := "worker_0001";
              authenticationStrength := "internal_worker" |};
  committeeReference := "global_synthetic_scope"; policyVersionReference := "policy:v1";
  softwareVersion := "1"; reasonCategory := "test"; correlationId := "c";
  idempotencyKey := "key-1"; requestDigest := toy_sha256 canonical |}.

Definition input : EnqueueVerusAnchorInput := {|
  in_externalReference := "anchor_ref_0001"; in_committeeReference := None;
  in_operationType := "committee_anchor"; in_subjectReference := "subject_ref_0001";
  in_targetIdentity := identityAddress; in_vdxfUri := vdxfUri; in_vdxfKey := vdxfKey;
  in_manifest := manifest; in_manifestCanonical := canonical;
  in_manifestDigest := toy_sha256 canonical; in_manifestPolicyReference := "policy:v1";
  in_manifestAllowedFields := ["schema"; "subject"]; in_manifestRequiredFields := ["schema"];
  in_manifestMaximumBytes := Int 1000; in_confirmationRequirement := Int 2 |}.

Definition worker : OutboxWorkerContext :=
  {| workerReference := "worker_0001"; w_softwareVersion := "1"; w_correlationId := "c1" |}.
Definition target : ApprovedVerusWriteTarget := {|
  tg_operationType := "committee_anchor"; tg_targetIdentity := identityAddress; tg_vdxfUri := vdxfUri;
  tg_vdxfKey := vdxfKey; tg_manifestPolicyReference := "policy:v1" |}.
Definition options : VerusAnchorWorkerOptions := {|
  Worker.worker := worker; capabilityEnabled := true; approvedWriteTargets := [target];
  leaseDurationMs := default_leaseDurationMs; retry_maxAttempts := default_maxAttempts;
  retry_baseBackoffMs := default_baseBackoffMs; retry_maxBackoffMs := default_maxBackoffMs |}.

(** A clock of one millisecond per reading, no faults, nothing locked. *)
Definition ticking (k : nat) : Z := 1000 + Z.of_nat k.
Definition quiet_faults (_ k : nat) : TxAttempt := quietAttempt.
Definition unlocked (_ : nat) (_ : string) : bool := false.

Definition node : FakeVerusRpcAdapter := newFakeVerusRpcAdapter {|
  op_info := None; op_blockchain := None; op_identity := None;
  op_vdxfIds := [(vdxfUri, {| vd_vdxfId := vdxfKey; vd_hash160Result := "0"; vd_qualifiedName := []; vd_boundData := None |})];
  op_confirmationsAfterWrite := None |}.

Definition enqueued_db : Db :=
  snd (enqueueAnchor (fun _ => quietAttempt) input context SamplePlatform.emptyDb).

Definition world (n : FakeVerusRpcAdapter) : World := {|
  w_db := enqueued_db; w_node := n; w_metrics := newVerusWorkerMetrics; w_reads := 0; w_calls := 0; w_updates := [] |}.
End SampleSystem.
