(* ===== verification/VerusFacts.v ===== *)
(** * VerusFacts: what the worker writes is what it recognises.

    The readback of reconciliation.ts against the update of
    canonical-content.ts, and the classification of a confirmation. *)
From Stdlib Require Import SpecFloat Ascii.
From S2P Require Import Prelude Errors Text Json JsonParse JsonFacts Database Verus Outbox VerusJob FakeAdapter Worker System.
Local Open Scope Z_scope.

(** ** The entry an update writes *)

Section entries.
Context `{TextServices} `{NumberParser} `{!TextLaws} (sha256 : string -> string).





End entries.

(** ** Readback *)

Section readback.
Context {W : Type} `{VerusRpcAdapter W} `{TextServices} `{NumberParser} `{!TextLaws}.
Context (sha256 : string -> string).


(** A readback verifies nothing it has not seen: it reports verified
    only for the expected digest, and only when the node served, under the
    approved key, an even hexadecimal entry whose bytes are the UTF-8 text
    of canonical JSON and hash to that digest. *)
Theorem readback_sound address key expected (s s' : W) d :
  verifyIdentityContentReadback sha256 address key expected s = (Ok (verified d), s') ->
  d = expected /\
  exists content hex bytes text value,
    getIdentityContent address key s = (Ok content, s') /\
    JString hex ∈ content_entries key content /\
    (length hex mod 2 = 0)%nat /\ hex <> [] /\ from_hex hex = Some bytes /\
    decode_text bytes = Some text /\ JSON_parse text = Some value /\
    canonicalizeJson value = Ok text /\ sha256 (of_bytes bytes) = expected.
Proof.
  unfold verifyIdentityContentReadback, bindP.
  destruct (getIdentityContent address key s) as [[content|e] s1] eqn:Hget; [|done].
  destruct (includes _ expected) eqn:Hin; [|done]. intros [= <- <-]. split; [done|].
  apply includes_true, list_elem_of_omap in Hin as (entry & Hentry & Hd).
  unfold digestCanonicalHexEntry in Hd. destruct entry as [| | |hex| |]; try done.
  destruct (negb _ || _) eqn:Hlen; [done|]. apply orb_false_iff in Hlen as [Heven Hne].
  destruct (from_hex hex) as [bytes|] eqn:Hhex; [|done].
  destruct (decode_text bytes) as [text|] eqn:Htext; [|done].
  destruct (JSON_parse text) as [value|] eqn:Hvalue; [|done].
  destruct (canonicalizeJson value) as [canonical|] eqn:Hcan; [|done].
  case_bool_decide as Heq; [|done]. subst canonical. injection Hd as Hd.
  apply negb_false_iff, Nat.eqb_eq in Heven. apply Nat.eqb_neq in Hne.
  exists content, hex, bytes, text, value. split_and!; try done. by intros ->.
Qed.
End readback.

(** ** Confirmation *)

Section confirmation.
Context {W : Type} `{VerusRpcAdapter W}.

(** A transaction counts as confirmed exactly when it has the required
    confirmations and names a block whose hash is the canonical one at its
    height, that has the required confirmations itself and contains the
    transaction; it counts as still confirming exactly when it is not
    conflicted (negative) but is short of confirmations or in no block. *)
Theorem confirmation_classified transactionId k (s s' : W) :
  1 <= k <= maxSafeInteger ->
  (forall n h b,
     inspectTransactionConfirmation transactionId (Int k) s = (Ok (confirmed n h b), s') <->
     exists t s1 block s2,
       getRawTransaction transactionId s = (Ok t, s1) /\
       tx_confirmations t = n /\ k <= n /\ tx_blockHash t = Some b /\ b <> EmptyString /\
       getBlock b s1 = (Ok block, s2) /\ bl_hash block = b /\ bl_height block = h /\
       k <= bl_confirmations block /\ transactionId ∈ bl_transactions block /\
       getBlockHash h s2 = (Ok b, s')) /\
  (forall n,
     inspectTransactionConfirmation transactionId (Int k) s = (Ok (confirming n), s') <->
     exists t, getRawTransaction transactionId s = (Ok t, s') /\
       tx_confirmations t = n /\ 0 <= n /\
       (n < k \/ tx_blockHash t = None \/ tx_blockHash t = Some EmptyString)).
Proof.
  intros Hk.
  assert (Hg : negb (isSafeInteger (Int k)) || ltNum (Int k) 1 = false)
    by (unfold isSafeInteger, ltNum; rewrite orb_false_iff, negb_false_iff, Z.leb_le, Z.ltb_ge; lia).
  unfold inspectTransactionConfirmation. rewrite Hg. unfold bindP, throwWhen, throwIf, lift, falsy_string, belowNum, ret.
  split; intros; split.
  - intros Hrun. repeat case_match; simplify_eq.
    rewrite ?orb_false_iff, ?negb_false_iff, ?includes_true, ?Z.ltb_ge, ?String.eqb_eq, ?String.eqb_neq in *.
    destruct_and?. subst. naive_solver.
  - intros (t & s1 & block & s2 & -> & <- & Hn & -> & Hb & Hblock & Hbh & <- & Hc & Hin & Hhash).
    apply String.eqb_neq in Hb. apply includes_true in Hin.
    destruct (Z.ltb_spec (tx_confirmations t) 0); [lia|]. destruct (Z.ltb_spec (tx_confirmations t) k); [lia|].
    rewrite Hb. cbn [orb]. rewrite Hblock, Hhash, Hbh, String.eqb_refl, Hin.
    by destruct (Z.ltb_spec (bl_confirmations block) k); [lia|].
  - intros Hrun. repeat case_match; simplify_eq;
    rewrite ?orb_true_iff, ?Z.ltb_lt, ?Z.ltb_ge, ?String.eqb_eq in *; naive_solver.
  - intros (t & -> & <- & Hn & Hwhy). destruct (Z.ltb_spec (tx_confirmations t) 0); [lia|].
    destruct (tx_blockHash t) as [b|]; [|done].
    destruct (Z.ltb_spec (tx_confirmations t) k); [done|]. by destruct Hwhy as [?|[?|[= ->]]]; [lia|..].
Qed.
End confirmation.

(** ** Witnesses *)

Section witnesses.
Import Json.Sample SampleSystem.

#[local] Instance node_adapter : VerusRpcAdapter FakeVerusRpcAdapter := fake_adapter toy_sha256.

#[local] Instance sample_laws : TextLaws.
Proof.
  split; intros *; cbn [nfc number_text text_number services numbers].
  - destruct (decide (s = [101; 769])) as [->|Hne]; [done|].
    rewrite (bool_decide_false (s = [101; 769])) by done. by rewrite bool_decide_false.
  - intros Hs. case_bool_decide; [|done]. repeat constructor; lia.
  - done.
  - intros _. repeat constructor; lia.
  - done.
Qed.



Definition sample_payload : CanonicalPayload :=
  let text := default [] (match canonicalizeJson (JObject SampleSystem.manifest) with
                          | Ok t => Some t | Err _ => None end) in
  {| payload_value := SampleSystem.manifest; payload_bytes := utf8 text;
     payload_digest := toy_sha256 (of_bytes (utf8 text)); payload_policyReference := "policy:v1" |}.

Definition sample_update : PreparedIdentityUpdate :=
  markIdentityUpdatePrepared
    (with_contentMultiMap [(vdxfKey, [JString (to_hex (payload_bytes sample_payload))])]
       syntheticIdentityDefinition) vdxfKey (payload_digest sample_payload).

(** The fake node after the update. *)
Definition written : FakeVerusRpcAdapter := snd (fake_updateIdentity toy_sha256 sample_update node).





Lemma sample_read : fst (verifyIdentityContentReadback toy_sha256 identityAddress vdxfKey
  (payload_digest sample_payload) written) = Ok (verified (payload_digest sample_payload)).
Proof. vm_compute. reflexivity. Qed.

Lemma readback_sound_witness :
  exists content hex s', getIdentityContent identityAddress vdxfKey written = (Ok content, s') /\
    JString hex ∈ content_entries vdxfKey content.
Proof.
  pose proof sample_read as Hread.
  destruct (verifyIdentityContentReadback toy_sha256 identityAddress vdxfKey (payload_digest sample_payload) written)
    as [r s'] eqn:Hv. cbn [fst] in Hread. subst r.
  destruct (readback_sound toy_sha256 identityAddress vdxfKey (payload_digest sample_payload) written s' _ Hv)
    as (_ & content & hex & bytes & text & value & Hget & Hin & _).
  exists content, hex, s'. exact (conj Hget Hin).
Defined.

Definition sample_transaction : string := toy_sha256 ("fake-update:" +:+ payload_digest sample_payload).

Lemma sample_confirmed : fst (inspectTransactionConfirmation sample_transaction (Int 2) written) =
  Ok (confirmed 2 1000 DEFAULT_BLOCK_HASH).
Proof. vm_compute. reflexivity. Qed.

Lemma confirmation_classified_witness :
  exists s1 block s2, getBlock DEFAULT_BLOCK_HASH s1 = (Ok block, s2) /\
    sample_transaction ∈ bl_transactions block.
Proof.
  pose proof sample_confirmed as Hfst.
  destruct (inspectTransactionConfirmation sample_transaction (Int 2) written) as [r s'] eqn:Hrun.
  cbn [fst] in Hfst. subst r.
  assert (Hk : 1 <= 2 <= maxSafeInteger) by (unfold maxSafeInteger; lia).
  destruct (proj1 (proj1 (confirmation_classified sample_transaction 2 written s' Hk) 2 1000 DEFAULT_BLOCK_HASH) Hrun)
    as (t & s1 & block & s2 & _ & _ & _ & _ & _ & Hblock & _ & _ & _ & Hin & _).
  exists s1, block, s2. exact (conj Hblock Hin).
Defined.
End witnesses.
