(* ===== verification/SystemFacts.v ===== *)
(** * SystemFacts: the worker on its stores, proved.

    What a pass keeps, what a pass that reports [verified] has left in the
    database, when no update can be submitted, and the sequence of failures
    that submits twice. *)
From S2P Require Import Prelude Errors Transition Lifecycles Guards Text Json JsonParse Verus.
From S2P Require Import Database Outbox OutboxFacts OutboxProperties VerusJob VerusJobFacts.
From S2P Require Import StoreFacts FakeAdapter Worker WorkerFacts System.
Local Open Scope Z_scope.

Section system.
Context `{Platform} `{NumberParser} `{TextServices}.
Context (clock : nat -> Z) (faults : nat -> nat -> TxAttempt) (locked : nat -> string -> bool).

#[local] Instance this_clock : Clock World := world_clock clock.
#[local] Instance this_outbox : VerusOutboxStore World := world_outbox faults locked.
#[local] Instance this_jobs : VerusJobStore World := world_jobs faults locked.
#[local] Instance this_observed : WritesObserved World := world_observed clock faults locked.

Definition wjobs (w : World) : gmap string VerusJobRow := db_verus_job (w_db w).

(** ** Operations that leave the jobs alone *)

Lemma now_keeps : keeps wjobs now.
Proof. by intros w. Qed.

Lemma metrics_keeps f : keeps wjobs (metrics f).
Proof. by intros w. Qed.

Lemma on_node_keeps {A} (op : prog FakeVerusRpcAdapter exn A) : keeps wjobs (on_node op).
Proof. intros w. unfold on_node. by destruct (op (w_node w)). Qed.

Lemma on_db_keeps {A} (op : _ -> _ -> M A) :
  (forall env locked, keeps jobs_view (op env locked)) -> keeps wjobs (on_db faults locked op).
Proof.
  intros Hop w. unfold on_db. specialize (Hop (faults (w_calls w)) (locked (w_calls w)) (w_db w)).
  destruct (op _ _ _) as [r d]. simpl in *. unfold jobs_view in Hop. by injection Hop.
Qed.

#[local] Hint Resolve now_keeps metrics_keeps on_node_keeps : keeps.

Lemma at_now_keeps {A} (op : Z -> prog World exn A) : (forall t, keeps wjobs (op t)) -> keeps wjobs (at_now op).
Proof. intros. unfold at_now. keeps_steps; auto. Qed.

Lemma heartbeat_world_keeps ev w t ms : keeps wjobs (outbox_heartbeat ev w t ms).
Proof. apply on_db_keeps. intros. apply heartbeat_keeps. Qed.

Lemma succeed_world_keeps ev w t : keeps wjobs (outbox_succeed ev w t).
Proof. apply on_db_keeps. intros. apply succeed_keeps. Qed.

Lemma claimNext_world_keeps w t ms o : keeps wjobs (outbox_claimNext w t ms o).
Proof. apply on_db_keeps. intros. apply claimNext_keeps. Qed.

Lemma queueStats_world_keeps t types : keeps wjobs (outbox_queueStats t types).
Proof. apply on_db_keeps. intros env l. unfold queueStats. keeps_steps. Qed.

#[local] Hint Resolve heartbeat_world_keeps succeed_world_keeps claimNext_world_keeps queueStats_world_keeps : keeps.

Lemma beat_keeps options ev : keeps wjobs (beat options ev).
Proof. unfold beat. keeps_steps. Qed.

Lemma node_reads_keep :
  keeps wjobs getInfo /\ keeps wjobs getBlockchainInfo /\ (forall i, keeps wjobs (getIdentity i)) /\
  (forall i k, keeps wjobs (getIdentityContent i k)) /\ (forall u, keeps wjobs (getVdxfId u)) /\
  (forall x, keeps wjobs (getRawTransaction x)) /\ (forall h, keeps wjobs (getBlockHash h)) /\
  (forall h, keeps wjobs (getBlock h)).
Proof. split_and!; intros; apply on_node_keeps. Qed.

Lemma confirmation_keeps x n : keeps wjobs (inspectTransactionConfirmation x n).
Proof.
  destruct node_reads_keep as (? & ? & ? & ? & ? & ? & ? & ?).
  unfold inspectTransactionConfirmation. keeps_steps; auto.
Qed.

Lemma readback_keeps i k d : keeps wjobs (verifyIdentityContentReadback sha256 i k d).
Proof.
  destruct node_reads_keep as (? & ? & ? & ? & ? & ? & ? & ?).
  unfold verifyIdentityContentReadback. keeps_steps; auto.
Qed.

#[local] Hint Resolve beat_keeps confirmation_keeps readback_keeps : keeps.

(** ** Triples that carry the invariant *)

Definition sane_triple {S A : Type} (I P : S -> Prop) (c : prog S exn A) (Q : A -> S -> Prop) : Prop :=
  triple (fun s => I s /\ P s) c (fun a s => I s /\ Q a s) (fun _ _ => True).

Lemma sane_bind {S A B} (I P : S -> Prop) (c : prog S exn A) (k : A -> prog S exn B) Q R :
  sane_triple I P c Q -> (forall a, sane_triple I (Q a) (k a) R) -> sane_triple I P (bindP c k) R.
Proof. intros. by eapply triple_bind. Qed.

Lemma sane_weaken {S A} (I P P' : S -> Prop) (c : prog S exn A) (Q Q' : A -> S -> Prop) :
  (forall s, P' s -> P s) -> (forall a s, Q a s -> Q' a s) -> sane_triple I P c Q -> sane_triple I P' c Q'.
Proof.
  intros HP HQ Hc s [Hi Hs]. specialize (Hc s (conj Hi (HP s Hs))). destruct (c s) as [[a|e] s']; [|done].
  destruct Hc. auto.
Qed.

Lemma sane_ret {S A} (I P : S -> Prop) (a : A) (Q : A -> S -> Prop) :
  (forall s, P s -> Q a s) -> sane_triple I P (ret a) Q.
Proof. intros HQ s [? ?]. simpl. auto. Qed.

Lemma sane_throw {S A} (I P : S -> Prop) e (Q : A -> S -> Prop) : sane_triple I P (throw e) Q.
Proof. by intros s _. Qed.

Lemma sane_lift {S A} (I P : S -> Prop) r (Q : A -> S -> Prop) :
  (forall a s, r = Ok a -> P s -> Q a s) -> sane_triple I P (lift r) Q.
Proof. intros HQ s [? ?]. simpl. destruct r; eauto. Qed.

(** A quiet operation keeps the invariant, and what it does not touch. *)
Lemma quiet_frame {S A V} obs (I : S -> Prop) (view : S -> V) (P : V -> Prop) (c : prog S exn A) W :
  quiet obs I W c -> keeps view c ->
  sane_triple I (fun s => P (view s)) c (fun a s => W a /\ P (view s)).
Proof.
  intros Hq Hk s [Hi HP]. specialize (Hk s). destruct (c s) as [[a|e] s'] eqn:E; [|done].
  destruct (Hq _ _ _ Hi E) as (? & _ & HW). simpl in Hk. rewrite Hk. auto.
Qed.

(** A quiet operation with a postcondition of its own. *)
Lemma quiet_post {S A} obs (I : S -> Prop) (c : prog S exn A) W (Q : A -> S -> Prop) :
  quiet obs I W c -> (forall s a s', I s -> c s = (Ok a, s') -> Q a s') ->
  sane_triple I (fun _ => True) c Q.
Proof.
  intros Hq HQ s [Hi _]. destruct (c s) as [[a|e] s'] eqn:E; [|done].
  destruct (Hq _ _ _ Hi E) as (? & _). eauto.
Qed.

(** ** The job the worker holds is the row in the table *)

Definition wjobsP (s : World * option VerusJobRecord) : gmap string VerusJobRow := wjobs (fst s).
Definition saneW : World * option VerusJobRecord -> Prop := saneP (W := World).

Definition held (ev : string) (job : VerusJobRecord) (jobs : gmap string VerusJobRow) : Prop :=
  exists j, jobs !! ev = Some j /\ vj_state j = jr_state job.

Lemma io_keeps {A} (c : prog World exn A) : keeps wjobs c -> keeps wjobsP (io c).
Proof. intros Hk [w j]. specialize (Hk w). unfold io. simpl. by destruct (c w). Qed.

Lemma at_now_run {A} (op : Z -> prog World exn A) w r w' :
  at_now op w = (r, w') -> exists t w1, w_db w1 = w_db w /\ op t w1 = (r, w').
Proof. unfold at_now, bindP. simpl. intros Hop. do 2 eexists. split; [|exact Hop]. done. Qed.

Lemma on_db_run {A} (op : _ -> _ -> M A) w r w' :
  on_db faults locked op w = (r, w') -> exists env l, op env l (w_db w) = (r, w_db w').
Proof. unfold on_db. destruct (op _ _ _) as [r1 d] eqn:E. intros [= <- <-]. eauto. Qed.

Lemma job_step c ev worker :
  sane_triple saneW (fun _ => True)
    (assign (at_now (fun t => on_db faults locked (fun env _ => run_job env c ev worker t))))
    (fun job s => held ev job (wjobsP s)).
Proof.
  eapply quiet_post.
  - apply assign_quiet, at_now_quiet. intros t. apply job_quiet.
  - intros [w j0] job [w' j'] _ Hrun. unfold assign in Hrun. simpl in Hrun.
    destruct (at_now _ w) as [[r|e] w1] eqn:E; [|done]. injection Hrun as <- <- <-.
    apply at_now_run in E as (t & w2 & Hdb & E). apply on_db_run in E as (env & l & E).
    apply run_job_returns in E as (j & Hj & Hrec). exists j. split; [done|].
    by apply toRecord_state in Hrec as (-> & _).
Qed.

(** Anything quiet that leaves the jobs alone keeps the job held. *)
Lemma hold {A} (c : prog World exn A) V ev job :
  quiet writes sane V c -> keeps wjobs c ->
  sane_triple saneW (fun s => held ev job (wjobsP s)) (io c) (fun _ s => held ev job (wjobsP s)).
Proof.
  intros Hq Hk.
  apply (sane_weaken _ (fun s => held ev job (wjobsP s)) _ _ (fun a s => V a /\ held ev job (wjobsP s)));
    [done|by intros a s [_ Hs]|].
  eapply quiet_frame; [by apply io_quiet|by apply io_keeps].
Qed.

Lemma drop {A} (pre : _ -> Prop) (c : P (W := World) A) Q :
  sane_triple saneW (fun _ => True) c Q -> sane_triple saneW pre c Q.
Proof. by apply sane_weaken. Qed.

Lemma any_step {A} (c : prog World exn A) V pre :
  quiet writes sane V c -> sane_triple saneW pre (io c) (fun _ _ => True).
Proof. intros Hq. apply drop. eapply quiet_post; [by apply io_quiet|done]. Qed.

(** ** A pass that reports [verified] *)

Definition completed_event (ev : string) (w : World) : Prop :=
  (exists o, db_outbox_event (w_db w) !! ev = Some o /\ oe_state o = OutboxState.succeeded) /\
  (exists j, wjobs w !! ev = Some j /\ vj_state j = VerusJobState.verified).

Definition not_verified (rest : prog World exn VerusWorkerResult) : Prop :=
  forall w r w', rest w = (Ok r, w') -> r <> wr_verified.

Lemma succeed_run ev worker t w u w' :
  sane w -> outbox_succeed ev worker t w = (Ok u, w') ->
  exists o, db_outbox_event (w_db w') !! ev = Some o /\ oe_state o = OutboxState.succeeded.
Proof.
  intros [_ [Hq _]] Hrun.
  change (on_db faults locked (fun env _ => succeed env ev worker t) w = (Ok u, w')) in Hrun.
  apply on_db_run in Hrun as (env & l & Hrun). unfold succeed in Hrun.
  apply inSerializableTransaction_ok in Hrun as (d0 & Hs & Hw).
  apply same_view in Hs as [He _]. apply succeed_tx_ok in Hw as (old & a & Hold & _ & Heff & _).
  rewrite He in Hold. rewrite (re_events _ _ _ _ _ Heff), He, (qo_keys _ Hq _ _ Hold), lookup_insert_eq. eauto.
Qed.

Lemma failOutboxRetryable_result options ev e res w r w' :
  failOutboxRetryable options ev e res w = (Ok r, w') -> r = wr_dead_letter \/ r = res.
Proof.
  unfold failOutboxRetryable. intros Hrun. inv_ok.
  match goal with Hr : match ?o with _ => _ end _ = _ |- _ => destruct o end; inv_ok; subst; auto.
Qed.

Lemma handleFailure_result options ev st err w r w' :
  handleFailure options ev st err w = (Ok r, w') -> r <> wr_verified.
Proof.
  unfold handleFailure. intros Hrun. inv_ok. destruct (verr_retryable err).
  - inv_ok. match goal with Hf : failOutboxRetryable _ _ _ _ _ = _ |- _ =>
      apply failOutboxRetryable_result in Hf as [->| ->] end; done.
  - inv_ok. by subst.
Qed.

Section options.
Context (options : VerusAnchorWorkerOptions).
Notation worker_ctx := (Worker.worker options).

Definition Held (ev : string) (job : VerusJobRecord) (s : World * option VerusJobRecord) : Prop :=
  held ev job (wjobsP s).

(** A stage that leaves the job alone, or holds the next one. *)
Lemma stage_held (b : bool) (c : P (W := World) VerusJobRecord) ev job :
  sane_triple saneW (Held ev job) c (Held ev) ->
  sane_triple saneW (Held ev job) (if b then c else ret job) (Held ev).
Proof. intros. destruct b; [done|]. by apply sane_ret. Qed.

Lemma any_bind {A B} (c : P (W := World) A) (k : A -> P (W := World) B) V pre Q :
  quiet writesP saneW V c -> (forall a, sane_triple saneW (fun _ => True) (k a) Q) ->
  sane_triple saneW pre (bindP c k) Q.
Proof. intros Hq Hk. apply drop. eapply sane_bind; [by eapply (quiet_post _ _ _ _ (fun _ _ => True))|done]. Qed.

Lemma preflight_last claim job w job' w' :
  preflightAndSubmit sha256 options claim job w = (Ok job', w') ->
  exists t x w1, jobs_recordSubmission (cl_id claim) worker_ctx t x w1 = (Ok job', w').
Proof.
  unfold preflightAndSubmit. intros E. do 6 apply bindP_ok in E as (? & ? & _ & E).
  destruct (pf_identity _); [|done]. do 3 apply bindP_ok in E as (? & ? & _ & E). eauto.
Qed.

Lemma preflight_held claim job :
  jr_state job = VerusJobState.preflight ->
  sane_triple saneW (Held (cl_id claim) job) (assign (preflightAndSubmit sha256 options claim job))
    (Held (cl_id claim)).
Proof.
  intros Hst [w j0] [Hi _]. unfold assign. simpl.
  destruct (preflightAndSubmit sha256 options claim job w) as [[job'|e] w'] eqn:E; [|done].
  destruct (preflightAndSubmit_submits sha256 options claim job Hst _ _ _ Hi E) as (Hi' & _).
  split; [done|]. apply preflight_last in E as (t & x & w1 & E).
  change (on_db faults locked (fun env _ => run_job env (JRecordSubmission x) (cl_id claim) worker_ctx t) w1
          = (Ok job', w')) in E.
  apply on_db_run in E as (env & l & E). apply run_job_returns in E as (j & Hj & Hrec).
  exists j. split; [done|]. by apply toRecord_state in Hrec as (-> & _).
Qed.

Lemma beat_io_held ev job : sane_triple saneW (Held ev job) (io (beat options ev)) (fun _ => Held ev job).
Proof. eapply hold; [apply beat_quiet|apply beat_keeps]. Qed.

Lemma metrics_io_held f ev job : sane_triple saneW (Held ev job) (io (metrics f)) (fun _ => Held ev job).
Proof. eapply hold; [apply metrics_quiet|apply metrics_keeps]. Qed.

Lemma readback_stage_held claim job :
  sane_triple saneW (Held (cl_id claim) job) (readback_stage sha256 options claim job) (Held (cl_id claim)).
Proof.
  unfold readback_stage. eapply sane_bind; [apply beat_io_held|]. intros ?.
  eapply sane_bind; [eapply hold; [apply readback_quiet|apply readback_keeps]|]. intros [d|ds].
  - apply drop, (job_step (JVerifyReadback d)).
  - eapply sane_bind; [apply metrics_io_held|]. intros ?. apply sane_throw.
Qed.

(** What is left of the try block after [confirming]. *)
Definition Next (ev : string) (next : VerusJobRecord + prog World exn VerusWorkerResult)
    (s : World * option VerusJobRecord) : Prop :=
  match next with inl job => Held ev job s | inr early => not_verified early end.

Lemma confirming_stage_held claim job :
  sane_triple saneW (Held (cl_id claim) job) (confirming_stage options claim job) (Next (cl_id claim)).
Proof.
  unfold confirming_stage. eapply sane_bind; [apply beat_io_held|]. intros ?.
  eapply sane_bind; [by apply (sane_lift _ _ _ (fun _ => Held (cl_id claim) job))|]. intros x.
  eapply sane_bind; [eapply hold; [apply confirmation_quiet|apply confirmation_keeps]|]. intros confirmation.
  eapply sane_bind; [apply metrics_io_held|]. intros ?. destruct confirmation as [n|n h b|n h b].
  - apply sane_throw.
  - eapply sane_bind; [apply drop, (job_step (JBeginReadback h b))|]. intros job'. by apply sane_ret.
  - apply drop. eapply sane_bind.
    { eapply any_step, at_now_quiet. intros t. eapply (job_quiet _ _ JReorg). }
    intros ?. eapply sane_bind; [apply any_step with any, metrics_quiet|]. intros ?.
    apply sane_ret. intros s _ w r w' Hr.
    apply failOutboxRetryable_result in Hr as [->| ->]; done.
Qed.

Definition Finished (ev : string) (rest : prog World exn VerusWorkerResult)
    (s : World * option VerusJobRecord) : Prop :=
  not_verified rest \/ (rest = ret wr_verified /\ completed_event ev (fst s)).

(** The last steps: the event is completed only with its job verified. *)
Lemma finish_held claim job :
  jr_state job = VerusJobState.verified ->
  sane_triple saneW (Held (cl_id claim) job)
    (run* io (at_now (fun t => outbox_succeed (cl_id claim) worker_ctx t)) in
     run* io (metrics (recordOutcome out_verified)) in ret (ret wr_verified))
    (Finished (cl_id claim)).
Proof.
  intros Hv [w j0] [Hi (j & Hj & Hst)]. unfold bindP, io. simpl.
  destruct (at_now _ w) as [[u|e] w1] eqn:E; [|done]. simpl. unfold ret.
  assert (Hi1 : sane w1).
  { eapply (at_now_quiet _ _ _ _ _ Hi E). Unshelve. intros t.
    apply (outbox_exec_quiet _ _ (fun _ => Succeed (cl_id claim) worker_ctx) t). done. }
  assert (Hk : wjobs w1 = wjobs w)
    by (eapply keeps_run; [|exact E]; apply at_now_keeps; intros; apply succeed_world_keeps).
  unfold at_now, bindP in E. simpl in E. apply succeed_run in E as (o & Ho & Hso); [|by destruct Hi; split].
  destruct Hi1 as [Hn Hs]. split; [by split|]. right. split; [done|]. split; [by exists o|].
  exists j. unfold wjobsP in Hj. simpl in *. rewrite Hst. unfold wjobs in *. simpl. rewrite Hk. done.
Qed.

Lemma try_body_held claim :
  sane_triple saneW (fun _ => True) (try_body sha256 options claim) (Finished (cl_id claim)).
Proof.
  unfold try_body. eapply sane_bind; [apply (job_step JLoad)|]. intros job0.
  eapply sane_bind; [apply stage_held, drop, (job_step JClaim)|]. intros job1.
  eapply sane_bind; [apply stage_held, drop, (job_step JBeginPreflight)|]. intros job2.
  eapply sane_bind.
  { unfold in_state. case_bool_decide as Hst; [by apply preflight_held|by apply sane_ret]. }
  intros job3. unfold try_rest. eapply sane_bind.
  { apply stage_held. eapply sane_bind; [apply beat_io_held|]. intros ?.
    apply drop, (job_step JBeginConfirmation). }
  intros job4. eapply sane_bind.
  { instantiate (1 := Next (cl_id claim)).
    destruct (in_state job4 VerusJobState.confirming); [apply confirming_stage_held|by apply sane_ret]. }
  intros [job5|early]; [|apply sane_ret; intros s Hs; by left].
  eapply sane_bind; [apply stage_held, readback_stage_held|]. intros job6.
  unfold in_state. case_bool_decide as Hst; simpl.
  - eapply sane_weaken; [| |apply (finish_held claim job6 Hst)]; done.
  - intros s _. done.
Qed.

(** The steps before a claim is worked on keep the invariant. *)
Lemma prefix_sane w w1 w2 w3 w4 w5 w6 u1 u2 claim st t f :
  sane w -> refreshQueueMetrics w = (Ok u1, w1) -> metrics f w1 = (Ok u2, w2) ->
  at_now (fun t => outbox_claimNext worker_ctx t (leaseDurationMs options) claim_options) w2 = (Ok claim, w3) ->
  at_now (fun t => outbox_queueStats t anchor_types) w3 = (Ok st, w4) -> now w4 = (Ok t, w5) ->
  forall g u6, metrics g w5 = (Ok u6, w6) -> sane w6.
Proof.
  intros Hi E1 E2 E3 E4 E5 g u6 E6.
  destruct outbox_quiet as (Hclaim & _ & _ & _ & _ & Hstats).
  assert (Hrefresh : quiet writes sane any refreshQueueMetrics).
  { unfold refreshQueueMetrics. eapply quiet_bind; [apply now_quiet|]. intros ? _.
    eapply quiet_bind; [apply Hstats|]. intros ? _. apply metrics_quiet. }
  destruct (Hrefresh _ _ _ Hi E1) as (Hi1 & _). destruct (metrics_quiet _ _ _ _ Hi1 E2) as (Hi2 & _).
  destruct (at_now_quiet _ (fun t => Hclaim _ t _ _) _ _ _ Hi2 E3) as (Hi3 & _).
  destruct (at_now_quiet _ (fun t => Hstats t _) _ _ _ Hi3 E4) as (Hi4 & _).
  destruct (now_quiet _ _ _ Hi4 E5) as (Hi5 & _). by destruct (metrics_quiet _ _ _ _ Hi5 E6).
Qed.

Lemma pass_finished w w' :
  sane w -> pass clock faults locked options w = (Ok wr_verified, w') ->
  exists ev, completed_event ev w'.
Proof.
  intros Hi Hrun. unfold pass, processNext in Hrun.
  apply bindP_ok in Hrun as (u1 & w1 & E1 & Hrun). apply bindP_ok in Hrun as (u2 & w2 & E2 & Hrun).
  destruct (negb (capabilityEnabled options)); [done|].
  apply bindP_ok in Hrun as ([claim|] & w3 & E3 & Hrun); [|done].
  apply bindP_ok in Hrun as (st & w4 & E4 & Hrun). apply bindP_ok in Hrun as (t & w5 & E5 & Hrun).
  apply bindP_ok in Hrun as (u6 & w6 & E6 & Hrun). exists (cl_id claim).
  assert (Hi6 : sane w6) by (eapply prefix_sane; eauto).
  unfold process_claim in Hrun. pose proof (try_body_held claim (w6, None) (conj Hi6 I)) as Ht.
  destruct (try_body sha256 options claim (w6, None)) as [[rest|e] [w7 job]].
  - destruct Ht as [_ [Hn|[-> Hc]]]; [by destruct (Hn _ _ _ Hrun)|]. by injection Hrun as <-.
  - destruct job as [j|], (isVerusIntegrationError e) as [err|]; try done.
    by apply handleFailure_result in Hrun.
Qed.

(** ** No update for an ambiguous job *)

(** Every job without a transaction id is marked as possibly submitted. *)
Definition all_ambiguous (jobs : gmap string VerusJobRow) : Prop :=
  forall ev j, jobs !! ev = Some j -> nonempty (vj_transaction_id j) = None ->
    vj_submission_ambiguous j = true.

Definition guarded_job (job : VerusJobRecord) : Prop :=
  nonempty (jr_transactionId job) = None -> jr_submissionAmbiguous job = true.

Definition saneA (w : World) : Prop := sane w /\ all_ambiguous (wjobs w).

(** [c] submits nothing from a state satisfying [I]. *)
Definition noop {S A : Type} (obs : S -> list PreparedIdentityUpdate) (I : S -> Prop) (c : prog S exn A) : Prop :=
  forall s, I s -> obs (snd (c s)) = obs s.

Lemma quiet_noop {S A} obs (I : S -> Prop) (c : prog S exn A) V : quiet obs I V c -> noop obs I c.
Proof. intros Hq s Hi. destruct (c s) eqn:E. by destruct (Hq _ _ _ Hi E) as (_ & ? & _). Qed.

(** After [c] a weaker invariant may be enough. *)
Lemma noop_bind {S A B} obs (I I' : S -> Prop) (c : prog S exn A) (k : A -> prog S exn B) V :
  quiet obs I V c -> (forall s, I s -> I' s) -> (forall a, V a -> noop obs I' (k a)) ->
  noop obs I (bindP c k).
Proof.
  intros Hq HI Hk s Hi. unfold bindP. destruct (c s) as [[a|e] s1] eqn:E;
    destruct (Hq _ _ _ Hi E) as (Hi1 & <- & HV); [|done]. apply Hk; auto.
Qed.

Lemma quiet_ambiguous {A} (c : prog World exn A) V :
  quiet writes sane V c -> keeps wjobs c -> quiet writes saneA V c.
Proof.
  intros Hq Hk w r w' [Hi Ha] Hrun. destruct (Hq _ _ _ Hi Hrun) as (? & ? & ?).
  split_and!; [split; [done|]|done..]. by rewrite (keeps_run _ _ _ _ _ Hk Hrun).
Qed.

(** The commands before submission carry the mark along. *)
Definition early (c : JobCommand) : Prop := c = JLoad \/ c = JClaim \/ c = JBeginPreflight.

Lemma transition_keeps_mark env ev worker t expected next sync d r d' :
  next ∈ [VerusJobState.claimed; VerusJobState.preflight] ->
  transition env ev worker t expected next noEvidence sync d = (r, d') ->
  all_ambiguous (db_verus_job d) -> all_ambiguous (db_verus_job d').
Proof.
  intros Hn Hrun Ha. unfold transition, bindP, lift in Hrun.
  destruct (validateEvidence noEvidence); [|by injection Hrun as <- <-].
  assert (Hcase : same_tables d d' \/ exists d0 a, same_tables d d0 /\
    transition_tx ev worker t expected next noEvidence sync d0 = (Ok a, d')).
  { destruct r; [apply inSerializableTransaction_ok in Hrun as (d0 & ? & ?); eauto|].
    apply inSerializableTransaction_err in Hrun as [?|(_ & ? & ? & ? & ?)]; eauto. }
  destruct Hcase as [Hs|(d0 & rec & Hs & Hw)]; apply same_tables_jobs in Hs as (Hj & _ & _); [by rewrite Hj|].
  apply transition_tx_ok in Hw as (j & [_ Hjob _ Hm _ _ _ _ _] & _). rewrite Hj in Hjob, Hm.
  intros k x. rewrite Hm, lookup_insert_Some. intros [[_ <-]|[_ Hx]]; [|by apply (Ha k)].
  apply (Ha _ _ Hjob).
Qed.

Lemma early_keeps_mark env c ev worker t d r d' :
  early c -> run_job env c ev worker t d = (r, d') ->
  all_ambiguous (db_verus_job d) -> all_ambiguous (db_verus_job d').
Proof.
  intros [->|[->| ->]] Hrun Ha; simpl in Hrun.
  - assert (Hk : keeps jobs_view (loadForClaim env ev worker t)).
    { unfold loadForClaim. apply tx_keeps; [apply jobs_work_view|].
      apply keeps_bind; [apply requireLease_keeps|intros; apply load_keeps]. }
    apply (keeps_run _ _ _ _ _ Hk) in Hrun. unfold jobs_view in Hrun. injection Hrun as Hj _. by rewrite Hj.
  - eapply transition_keeps_mark; [|exact Hrun|done]. set_solver.
  - eapply transition_keeps_mark; [|exact Hrun|done]. set_solver.
Qed.

Lemma early_quiet c ev worker : early c ->
  quiet writesP (fun s => saneA (fst s)) guarded_job
    (assign (at_now (fun t => on_db faults locked (fun env _ => run_job env c ev worker t)))).
Proof.
  intros Hc [w j0] r [w' j'] [Hi Ha] Hrun. unfold assign in Hrun. simpl in *.
  destruct (at_now _ w) as [r1 w1] eqn:E.
  assert (Hq : quiet writes sane any (at_now (fun t =>
    on_db faults locked (fun env _ => run_job env c ev worker t))))
    by (apply at_now_quiet; intros; apply job_quiet).
  destruct (Hq _ _ _ Hi E) as (Hi1 & Hobs & _).
  apply at_now_run in E as (t & w2 & Hdb & E). apply on_db_run in E as (env & l & E).
  assert (Ha1 : all_ambiguous (wjobs w1)) by (eapply early_keeps_mark; [done|exact E|by rewrite Hdb]).
  assert (Hw' : w' = w1) by (destruct r1; by injection Hrun). subst w1.
  split_and!; [by split|exact Hobs|].
  intros job ->. destruct r1 as [job1|]; [|done]. assert (job1 = job) as -> by congruence.
  apply run_job_returns in E as (j & Hj & Hrec).
  apply toRecord_state in Hrec as (_ & _ & _ & Hamb & Htx & _). intros Hnone. rewrite Hamb. apply (Ha1 ev j Hj).
  rewrite Htx in Hnone. by destruct (vj_transaction_id j) as [x|]; simpl in *; [destruct (falsy_string x) eqn:Hx; simpl in *; rewrite ?Hx in Hnone|].
Qed.

Lemma rest_noop {A} (c : P (W := World) A) V :
  quiet writesP saneW V c -> noop writesP (fun s => sane (fst s)) c.
Proof. apply quiet_noop. Qed.

(** A stage on a job whose possible submission is marked. *)
Lemma stage_quiet_guarded (b : bool) (c : P (W := World) VerusJobRecord) I job :
  guarded_job job -> quiet writesP I guarded_job c -> quiet writesP I guarded_job (if b then c else ret job).
Proof. intros. destruct b; [done|by apply quiet_ret]. Qed.

Lemma try_body_noop claim : noop writesP (fun s => saneA (fst s)) (try_body sha256 options claim).
Proof.
  unfold try_body.
  eapply (noop_bind _ _ (fun s => saneA (fst s))); [apply (early_quiet JLoad); by left|done|]. intros job0 Hj0.
  eapply (noop_bind _ _ (fun s => saneA (fst s))); [apply stage_quiet_guarded; [done|apply (early_quiet JClaim); right; by left]|done|]. intros job1 Hj1.
  eapply (noop_bind _ _ saneW); [apply stage_quiet_guarded; [done|apply (early_quiet JBeginPreflight); by right; right]
                    |by intros s [? _]|]. intros job2 Hj2.
  assert (Hpre : quiet writesP saneW any
    (if in_state job2 VerusJobState.preflight then assign (preflightAndSubmit sha256 options claim job2) else ret job2)).
  { unfold in_state. case_bool_decide as Hst; [|by apply quiet_ret].
    by apply assign_quiet, preflightAndSubmit_ambiguous. }
  eapply quiet_noop, quiet_bind; [exact Hpre|]. intros job3 _.
  apply (try_rest_quiet sha256 options claim job3).
Qed.

Lemma process_claim_noop claim :
  claimed options claim -> noop writes saneA (process_claim sha256 options claim).
Proof.
  intros Hclaim w [Hi Ha]. unfold process_claim.
  pose proof (try_body_noop claim (w, None) (conj Hi Ha)) as Hn.
  destruct (try_body sha256 options claim (w, None)) as [r [w1 job]] eqn:Ht.
  destruct (try_body_submits sha256 options claim Hclaim (w, None) _ _ Hi Ht) as (Hi1 & _ & Hrest).
  change (writes w1 = writes w) in Hn. rewrite <- Hn.
  destruct r as [rest|e]; [by apply (quiet_noop _ _ _ _ (Hrest rest eq_refl))|].
  destruct job as [j|], (isVerusIntegrationError e) as [err|]; try done.
  by apply (quiet_noop _ _ _ _ (handleFailure_quiet options (cl_id claim) (jr_state j) err)).
Qed.

Lemma pass_noop : noop writes saneA (pass clock faults locked options).
Proof.
  destruct outbox_quiet as (Hclaim & _ & _ & _ & _ & Hstats).
  unfold pass, processNext, refreshQueueMetrics.
  assert (Hm : forall f, quiet writes saneA any (metrics f))
    by (intros; apply quiet_ambiguous; [apply metrics_quiet|apply metrics_keeps]).
  assert (Hnow : quiet writes saneA any now)
    by (apply quiet_ambiguous; [apply now_quiet|apply now_keeps]).
  assert (Hs : forall t types, quiet writes saneA any (outbox_queueStats t types))
    by (intros; apply quiet_ambiguous; [apply Hstats|apply queueStats_world_keeps]).
  eapply (noop_bind _ _ saneA); [|done|].
  { eapply quiet_bind; [apply Hnow|]. intros t _. eapply quiet_bind; [apply Hs|]. intros ? _. apply Hm. }
  intros ? _. eapply (noop_bind _ _ saneA); [apply Hm|done|]. intros ? _.
  destruct (negb (capabilityEnabled options)); [by intros w _|].
  eapply (noop_bind _ _ saneA); [eapply quiet_returned, quiet_ambiguous|done|].
  { apply at_now_quiet. intros t. apply Hclaim. }
  { apply at_now_keeps. intros t. apply claimNext_world_keeps. }
  intros [claim|] (w0 & w1 & [Hi0 _] & Hcl); [|by intros w _].
  eapply (noop_bind _ _ saneA); [unfold at_now; eapply quiet_bind; [apply Hnow|intros t _; apply Hs]|done|]. intros ? _.
  eapply (noop_bind _ _ saneA); [apply Hnow|done|]. intros t _.
  eapply (noop_bind _ _ saneA); [apply Hm|done|]. intros ? _.
  apply process_claim_noop. by exists w0, w1.
Qed.

Lemma pass_sane w : world_sane w -> world_sane (snd (pass clock faults locked options w)).
Proof.
  intros Hi. pose proof (processNext_submits sha256 options) as Hs. unfold pass.
  destruct (processNext sha256 options w) as [r w'] eqn:E. by destruct (Hs w r w' Hi E) as (? & _).
Qed.

(** ** Properties *)

(** C1: When a pass reports [verified], some event is now succeeded and its
    job is verified: it has a transaction, a block, and a readback digest
    equal to the digest of its manifest; the anchor record is verified too. *)
Theorem verified_pass w w' :
  world_sane w -> pass clock faults locked options w = (Ok wr_verified, w') ->
  exists ev o j a,
    db_outbox_event (w_db w') !! ev = Some o /\ oe_state o = OutboxState.succeeded /\
    db_verus_job (w_db w') !! ev = Some j /\ vj_state j = VerusJobState.verified /\
    vj_readback_digest j = Some (vj_manifest_digest j) /\ vj_transaction_id j <> None /\
    vj_block_height j <> None /\ vj_block_hash j <> None /\
    db_anchor_record (w_db w') !! ev = Some a /\ an_state a = VerusJobState.verified.
Proof.
  intros Hi Hrun. pose proof (pass_sane w Hi) as [_ [_ Hj]]. rewrite Hrun in Hj. simpl in Hj.
  apply pass_finished in Hrun as (ev & (o & Ho & Hos) & (j & Hjob & Hv)); [|done].
  destruct (verified_job_evidence _ _ _ Hj Hjob Hv) as (? & ? & ? & ?).
  destruct (jo_anchor _ Hj _ _ Hjob) as (a & Ha & _ & Hsh). rewrite Hv in Hsh.
  apply list_elem_of_singleton in Hsh. exists ev, o, j, a. by split_and!.
Qed.

(** C15: Every pass, under any clock, faults, locks and node failures, and
    whether it returns or throws, keeps the invariants of the queue (the
    exact attempt ledger) and of the jobs (each with its anchor). *)
Theorem passes_keep_invariants n w :
  world_sane w ->
  queue_ok (w_db (snd (passes clock faults locked options n w))) /\
  jobs_ok (w_db (snd (passes clock faults locked options n w))).
Proof.
  intros Hi. assert (Hs : world_sane (snd (passes clock faults locked options n w))).
  { revert w Hi. induction n as [|n IH]; intros w Hi; [done|]. simpl.
    pose proof (pass_sane w Hi) as Hi1. destruct (pass clock faults locked options w) as [r w1].
    specialize (IH w1 Hi1). by destruct (passes clock faults locked options n w1). }
  by destruct Hs as [_ []].
Qed.

(** C14: While every job without a transaction id is marked as possibly
    submitted, a pass submits nothing: it waits for readback evidence. *)
Theorem ambiguous_not_resubmitted w r w' :
  world_sane w -> all_ambiguous (db_verus_job (w_db w)) ->
  pass clock faults locked options w = (r, w') -> w_updates w' = w_updates w.
Proof.
  intros Hi Ha Hrun. pose proof (pass_noop w (conj Hi Ha)) as Hn. by rewrite Hrun in Hn.
Qed.

(** With the write capability off a pass only refreshes metrics: it
    reports [paused] and touches neither the database nor the node. *)
Theorem paused_pass w :
  capabilityEnabled options = false ->
  exists m, pass clock faults locked options w =
    (Ok wr_paused, {| w_db := w_db w; w_node := w_node w; w_metrics := m; w_reads := S (w_reads w);
                      w_calls := S (w_calls w); w_updates := w_updates w |}) /\ mt_paused m = 1.
Proof.
  intros Hoff. unfold pass, processNext, refreshQueueMetrics, bindP. simpl. rewrite Hoff. simpl.
  eexists. split; [reflexivity|]. done.
Qed.
End options.
End system.

(** ** Concrete runs *)

Section runs.
Import SampleSystem Json.Sample.

Lemma emptyDb_store_ok : store_ok SamplePlatform.emptyDb.
Proof.
  split; [apply SampleQueue.emptyDb_queue_ok|].
  split; simpl; intros ev j Hj; by rewrite lookup_empty in Hj.
Qed.

Lemma world_sane0 n : node_sane n -> world_sane (world n).
Proof. intros Hn. split; [done|]. apply store_ok_enqueue, emptyDb_store_ok. Qed.

Lemma node_sane0 : node_sane node.
Proof. intros Hn. by vm_compute in Hn. Qed.

#[local] Notation run := (pass ticking quiet_faults unlocked options).

Lemma verified_pass_witness :
  exists ev j, db_verus_job (w_db (snd (run (world node)))) !! ev = Some j /\
    vj_readback_digest j = Some (vj_manifest_digest j).
Proof.
  assert (Hok : fst (run (world node)) = Ok wr_verified) by (vm_compute; reflexivity).
  destruct (run (world node)) as [r w'] eqn:Hrun. cbn [fst snd] in Hok |- *. subst r.
  destruct (verified_pass ticking quiet_faults unlocked options (world node) w'
              (world_sane0 node node_sane0) Hrun) as (ev & o & j & a & _ & _ & Hj & _ & Hd & _).
  exists ev, j. exact (conj Hj Hd).
Defined.

Lemma passes_keep_invariants_witness :
  jobs_ok (w_db (snd (passes ticking quiet_faults unlocked options 3 (world node)))).
Proof.
  exact (proj2 (passes_keep_invariants ticking quiet_faults unlocked options 3 (world node)
                  (world_sane0 node node_sane0))).
Defined.

Definition off : VerusAnchorWorkerOptions := {|
  Worker.worker := worker; capabilityEnabled := false; approvedWriteTargets := [target];
  leaseDurationMs := default_leaseDurationMs; retry_maxAttempts := default_maxAttempts;
  retry_baseBackoffMs := default_baseBackoffMs; retry_maxBackoffMs := default_maxBackoffMs |}.

Lemma paused_pass_witness : exists m, w_db (snd (pass ticking quiet_faults unlocked off (world node))) = enqueued_db
  /\ mt_paused m = 1.
Proof.
  destruct (paused_pass ticking quiet_faults unlocked off (world node) eq_refl) as (m & Hp & Hm).
  exists m. rewrite Hp. exact (conj eq_refl Hm).
Defined.

Lemma write_safety_witness :
  exists u, w_updates (snd (run (world node))) = [u] /\
    authorized_write (WritesObserved0 := observed_since (WritesObserved0 := world_observed ticking quiet_faults unlocked)
      (world node)) sha256 options u.
Proof.
  assert (Hone : (length (w_updates (snd (run (world node)))) =? 1)%nat = true) by (vm_compute; reflexivity).
  destruct (run (world node)) as [r w'] eqn:Hrun. unfold pass in Hrun. cbn [snd] in *.
  destruct (write_safety (WritesObserved0 := world_observed ticking quiet_faults unlocked)
              sha256 options (world node) r w' (world_sane0 node node_sane0) Hrun) as [Hs|(u & Hs & Hu)].
  - exfalso. cbn in Hs. rewrite Hs in Hone. discriminate Hone.
  - exists u. exact (conj Hs Hu).
Defined.

(** *** Failures in a row *)

Definition ambiguous_failure : VerusIntegrationError := {|
  verr_code := AMBIGUOUS_SUBMISSION; verr_message := "submission outcome unknown"; verr_retryable := true;
  verr_submissionAmbiguous := true |}.
Definition timeout_failure : VerusIntegrationError := {|
  verr_code := RPC_TIMEOUT; verr_message := "timeout"; verr_retryable := true;
  verr_submissionAmbiguous := false |}.

(** Four seconds per clock reading, so that the backoffs run out. *)
Definition slow (k : nat) : Z := 1000 + 4000 * Z.of_nat k.
#[local] Notation slow_run := (pass slow quiet_faults unlocked options).
#[local] Notation slow_passes := (passes slow quiet_faults unlocked options).

(** The node fails the next call of a method. *)
Definition disturb (m : VerusRpcMethod) (e : VerusIntegrationError) (w : World) : World := {|
  w_db := w_db w; w_node := failNext m e (w_node w); w_metrics := w_metrics w; w_reads := w_reads w;
  w_calls := w_calls w; w_updates := w_updates w |}.

(** After the submission whose outcome is unknown. *)
Definition world1 : World := snd (slow_run (disturb updateidentity ambiguous_failure (world node))).
(** After a pass that fails with a timeout before it submits anything. *)
Definition world2 : World := snd (slow_run (disturb getinfo timeout_failure world1)).
(** After two more: one idle until the backoff is over, and one undisturbed. *)
Definition world3 : World := snd (slow_passes 2 world2).

Definition job_view (w : World) : option (VerusJobState.VerusJobState * option string * bool) :=
  (fun j => (vj_state j, vj_transaction_id j, vj_submission_ambiguous j)) <$> db_verus_job (w_db w) !! "id".

(** The worker can submit the same job twice although its first
    submission may have reached the chain: the ambiguous failure marks the
    job, a timeout in the next pass clears the mark, and the pass after that
    submits again. *)
Theorem ambiguity_forgotten :
  job_view world1 = Some (VerusJobState.retryable_failed, None, true) /\ length (w_updates world1) = 1%nat /\
  job_view world2 = Some (VerusJobState.retryable_failed, None, false) /\ length (w_updates world2) = 1%nat /\
  length (w_updates world3) = 2%nat.
Proof. split_and!; vm_compute; reflexivity. Qed.

Lemma all_ambiguous_check jobs :
  forallb (fun kv => negb (bool_decide (nonempty (vj_transaction_id (snd kv)) = None))
                     || vj_submission_ambiguous (snd kv)) (map_to_list jobs) = true ->
  all_ambiguous jobs.
Proof.
  intros Hall ev j Hj Hnone. rewrite forallb_forall in Hall.
  specialize (Hall (ev, j)). simpl in Hall. rewrite Hnone in Hall. apply Hall.
  by apply list_elem_of_In, elem_of_map_to_list.
Qed.

Lemma world1_sane : world_sane world1.
Proof.
  apply pass_sane. destruct (world_sane0 node node_sane0) as [Hn Hs]. split; [exact Hn|exact Hs].
Qed.

Lemma ambiguous_not_resubmitted_witness : w_updates (snd (slow_run world1)) = w_updates world1.
Proof.
  apply (ambiguous_not_resubmitted slow quiet_faults unlocked options world1 (fst (slow_run world1)) _ world1_sane).
  - apply all_ambiguous_check. vm_compute. reflexivity.
  - apply surjective_pairing.
Defined.

(** *** The job repository on the same database *)

Definition leased_db : Db :=
  exec (fun _ => quietAttempt) (Claim (fun _ => false) worker (Int 60000) claim_options) 1000 enqueued_db.

Lemma enqueued_ok : store_ok enqueued_db.
Proof. apply store_ok_enqueue, emptyDb_store_ok. Qed.

Lemma leased_ok : store_ok leased_db.
Proof. unfold leased_db. apply store_ok_exec, enqueued_ok. Qed.

Lemma anchor_follows_job_witness :
  jobs_ok (snd (run_job (fun _ => quietAttempt) JClaim "id" worker 2000 leased_db)).
Proof.
  exact (proj1 (anchor_follows_job (fun _ => quietAttempt) JClaim "id" worker input context 2000 leased_db
                  (so_jobs _ leased_ok))).
Defined.

Lemma job_transition_effect_witness :
  exists j', db_verus_job (snd (VerusJob.claim (fun _ => quietAttempt) "id" worker 2000 leased_db)) !! "id" = Some j' /\
    vj_state j' = VerusJobState.claimed /\ vj_version j' = 2.
Proof.
  destruct (VerusJob.claim (fun _ => quietAttempt) "id" worker 2000 leased_db) as [[r|e] d'] eqn:Hrun;
    [|by vm_compute in Hrun]. unfold VerusJob.claim in Hrun.
  destruct (job_transition_effect _ _ _ _ _ _ _ _ _ _ _ Hrun)
    as (o & j & _ & _ & _ & Hj & _ & Hnext & _).
  destruct (Hnext (so_jobs _ leased_ok)) as (j' & Hj' & _ & Hst & Hv & _).
  exists j'. split; [exact Hj'|]. split; [exact Hst|]. rewrite Hv.
  assert (Hone : option_map vj_version (db_verus_job leased_db !! "id") = Some 1) by (vm_compute; reflexivity).
  rewrite Hj in Hone. simpl in Hone. injection Hone as Hone. rewrite Hone. reflexivity.
Defined.

Lemma finished_job_final_witness : exists j,
  db_verus_job (snd (run_job (fun _ => quietAttempt) JReorg "id" worker 2000 (w_db (snd (run (world node)))))) !! "id" = Some j.
Proof.
  pose proof (pass_sane ticking quiet_faults unlocked options _ (world_sane0 node node_sane0)) as [_ [_ Hok]].
  assert (Hv : option_map vj_state (db_verus_job (w_db (snd (run (world node)))) !! "id")
               = Some VerusJobState.verified) by (vm_compute; reflexivity).
  destruct (db_verus_job (w_db (snd (run (world node)))) !! "id") as [j|] eqn:Hj; [|discriminate Hv].
  exists j. apply (finished_job_final (fun _ => quietAttempt) JReorg "id" "id" worker 2000 _ j Hok Hj).
  simpl in Hv. injection Hv as Hv. rewrite Hv. left.
Defined.
End runs.
