(* ===== verification/Encoding.v ===== *)
(** * Encoding: dates and bytes as the texts that cross the wire.

    Date.prototype.toISOString and the language's date arithmetic ([read_iso]
    is what [new Date(text)] makes of a text that toISOString printed; other
    texts that Date.parse understands are read by no code of the model, which
    always compares the text with the printed date).  What
    packages/verus-linking does with node's Buffer: [toString("base64url")],
    [Buffer.from(text, "base64url")] and [toString("utf8")], which puts U+FFFD
    for bytes that are not UTF-8.  Times are milliseconds since the epoch;
    texts are UTF-16 code units. *)
From S2P Require Import Prelude Errors Text Json JsonParse JsonFacts.
Local Open Scope Z_scope.

(** ** Days and civil dates (proleptic Gregorian calendar); years are counted
    from March, in eras of 400. *)

Definition year_start (yoe : Z) : Z := 365 * yoe + yoe / 4 - yoe / 100.
Definition month_start (mp : Z) : Z := (153 * mp + 2) / 5.

Definition days_from_civil (y m d : Z) : Z :=
  let y' := if m <=? 2 then y - 1 else y in
  let mp := if m <=? 2 then m + 9 else m - 3 in
  y' / 400 * 146097 + year_start (y' mod 400) + month_start mp + (d - 1) - 719468.

Definition civil_from_days (n : Z) : Z * Z * Z :=
  let z := n + 719468 in
  let doe := z mod 146097 in
  let yoe := (doe - doe / 1460 + doe / 36524 - doe / 146096) / 365 in
  let doy := doe - year_start yoe in
  let mp := (5 * doy + 2) / 153 in
  let y := yoe + z / 146097 * 400 in
  let m := if mp <? 10 then mp + 3 else mp - 9 in
  (if m <=? 2 then y + 1 else y, m, doy - month_start mp + 1).

(** ** Texts *)

(** [n] in [w] decimal digits. *)
Fixpoint pad (w : nat) (n : Z) : ustring :=
  match w with O => [] | S w' => pad w' (n / 10) ++ [48 + n mod 10] end.

Definition year_text (y : Z) : ustring :=
  if (0 <=? y) && (y <=? 9999) then pad 4 y
  else (if y <? 0 then 45 else 43) :: pad 6 (Z.abs y).

Definition msPerDay : Z := 86400000.

(** [new Date(t).toISOString()]. *)
Definition iso_text (t : Z) : ustring :=
  let '(y, m, d) := civil_from_days (t / msPerDay) in
  let ms := t mod msPerDay in
  year_text y ++ [45] ++ pad 2 m ++ [45] ++ pad 2 d ++ [84] ++ pad 2 (ms / 3600000) ++ [58]
  ++ pad 2 (ms / 60000 mod 60) ++ [58] ++ pad 2 (ms / 1000 mod 60) ++ [46] ++ pad 3 (ms mod 1000) ++ [90].

(** [d.toISOString()]; an invalid date throws. *)
Definition toISOString (d : jsdate) : result exn ustring :=
  match d with Some t => Ok (iso_text t) | None => Err (RangeError "Invalid time value") end.

Definition read_digits (s : ustring) : option Z :=
  if forallb is_digit s then Some (digits_value s) else None.

Definition read_year (s : ustring) : option Z :=
  match s with
  | 45 :: s' => option_map Z.opp (read_digits s')
  | 43 :: s' => read_digits s'
  | _ => read_digits s
  end.

Definition signed_year (s : ustring) : bool :=
  match s with c :: _ => (c =? 43) || (c =? 45) | [] => false end.

Definition read_iso (s : ustring) : option Z :=
  let w := if signed_year s then 7%nat else 4%nat in
  match drop w s with
  | [c1; m1; m2; c2; d1; d2; c3; h1; h2; c4; n1; n2; c5; s1; s2; c6; f1; f2; f3; c7] =>
    if negb (bool_decide ([c1; c2; c3; c4; c5; c6; c7] = [45; 45; 84; 58; 58; 46; 90])) then None
    else
      match read_year (take w s), read_digits [m1; m2], read_digits [d1; d2], read_digits [h1; h2],
            read_digits [n1; n2], read_digits [s1; s2], read_digits [f1; f2; f3] with
      | Some y, Some m, Some d, Some h, Some n, Some sec, Some f =>
        Some (days_from_civil y m d * msPerDay + h * 3600000 + n * 60000 + sec * 1000 + f)
      | _, _, _, _, _, _, _ => None
      end
  | _ => None
  end.

(** [const d = new Date(s)], refused unless [d.toISOString() === s]. *)
Definition strict_date (s : ustring) : option Z :=
  match read_iso s with
  | Some t => if bool_decide (Z.abs t <= maxTime) && bool_decide (iso_text t = s) then Some t else None
  | None => None
  end.

Example iso_text_epoch : utf8_text (iso_text 0) = "1970-01-01T00:00:00.000Z".
Proof. reflexivity. Qed.
Example iso_text_leap : utf8_text (iso_text 951782399999) = "2000-02-28T23:59:59.999Z".
Proof. reflexivity. Qed.
Example iso_last : utf8_text (iso_text maxTime) = "+275760-09-13T00:00:00.000Z".
Proof. reflexivity. Qed.
Example iso_first : utf8_text (iso_text (- maxTime)) = "-271821-04-20T00:00:00.000Z".
Proof. reflexivity. Qed.
Example iso_read : strict_date (units "2026-08-08T06:00:00.000Z") = Some 1786168800000.
Proof. reflexivity. Qed.

(** ** Round trip *)

Lemma year_of_era doe : 0 <= doe < 146097 ->
  let yoe := (doe - doe / 1460 + doe / 36524 - doe / 146096) / 365 in
  0 <= yoe < 400 /\ 0 <= doe - year_start yoe < 366.
Proof. intros H. unfold year_start. cbv zeta. Z.to_euclidean_division_equations. lia. Qed.

(** A day of the year counted from March, its month and its day. *)
Lemma month_of_doy doy : 0 <= doy < 366 -> let mp := (5 * doy + 2) / 153 in
  0 <= mp < 12 /\ 0 <= doy - month_start mp < 31.
Proof. intros H. unfold month_start. cbv zeta. Z.to_euclidean_division_equations. lia. Qed.

Lemma civil_round n y m d : civil_from_days n = (y, m, d) ->
  days_from_civil y m d = n /\ 1 <= m <= 12 /\ 1 <= d <= 31.
Proof.
  unfold civil_from_days, days_from_civil. intros [= <- <- <-].
  set (z := n + 719468). set (doe := z mod 146097).
  assert (Hdoe : 0 <= doe < 146097) by (apply Z.mod_pos_bound; lia).
  destruct (year_of_era doe Hdoe) as [Hyoe Hdoy].
  set (yoe := (doe - doe / 1460 + doe / 36524 - doe / 146096) / 365) in *.
  set (doy := doe - year_start yoe) in *.
  destruct (month_of_doy doy Hdoy) as [Hmp Hd]. set (mp := (5 * doy + 2) / 153) in *.
  assert (Hz : z = 146097 * (z / 146097) + doe) by (subst doe; apply Z.div_mod; lia).
  assert (He : forall e, (yoe + e * 400) / 400 = e /\ (yoe + e * 400) mod 400 = yoe).
  { intros e. rewrite Z.div_add, Z.mod_add, Z.div_small, Z.mod_small by lia. lia. }
  destruct (He (z / 146097)) as [He1 He2].
  assert (Hyear : forall b : bool, (if b then (if b then yoe + z / 146097 * 400 + 1 else yoe + z / 146097 * 400) - 1
                                    else if b then yoe + z / 146097 * 400 + 1 else yoe + z / 146097 * 400)
                                   = yoe + z / 146097 * 400) by (intros []; lia).
  assert (Hmonth : (if (if mp <? 10 then mp + 3 else mp - 9) <=? 2
                    then (if mp <? 10 then mp + 3 else mp - 9) + 9
                    else (if mp <? 10 then mp + 3 else mp - 9) - 3) = mp).
  { destruct (Z.ltb_spec mp 10); [destruct (Z.leb_spec (mp + 3) 2)|destruct (Z.leb_spec (mp - 9) 2)]; lia. }
  rewrite Hyear, Hmonth, He1, He2. split; [lia|]. destruct (Z.ltb_spec mp 10); lia.
Qed.

Lemma pad_spec w n : 0 <= n -> forallb is_digit (pad w n) = true /\ digits_value (pad w n) = n mod 10 ^ Z.of_nat w.
Proof.
  revert n. induction w as [|w IH]; intros n Hn; [by rewrite Z.mod_1_r|]. cbn [pad].
  destruct (IH (n / 10)) as [Hd Hv]; [by apply Z.div_pos|].
  pose proof (Z.mod_pos_bound n 10 ltac:(lia)) as Hm. split.
  - rewrite forallb_app, Hd. cbn [forallb]. unfold is_digit. rewrite andb_true_r. bool_to_prop. lia.
  - unfold digits_value in *. rewrite fold_left_app, Hv. cbn [fold_left].
    replace (Z.of_nat (S w)) with (1 + Z.of_nat w) by lia.
    rewrite Z.pow_add_r, Z.pow_1_r, Z.rem_mul_r by lia. lia.
Qed.

Lemma read_digits_pad w n : 0 <= n < 10 ^ Z.of_nat w -> read_digits (pad w n) = Some n.
Proof.
  intros Hn. destruct (pad_spec w n) as [Hd Hv]; [lia|]. unfold read_digits. rewrite Hd, Hv.
  by rewrite Z.mod_small.
Qed.

Lemma pad_length w n : length (pad w n) = w.
Proof. revert n. induction w as [|w IH]; intros n; cbn [pad]; [done|]. rewrite length_app, IH. simpl. lia. Qed.

(** Years that a valid date can have. *)
Lemma civil_year_bound n y m d : Z.abs n <= 100000000 -> civil_from_days n = (y, m, d) -> Z.abs y < 10 ^ 6.
Proof.
  intros Hn. unfold civil_from_days. intros [= <- _ _]. set (z := n + 719468).
  destruct (year_of_era (z mod 146097)) as [Hy _]; [apply Z.mod_pos_bound; lia|].
  revert Hy. generalize ((z mod 146097 - z mod 146097 / 1460 + z mod 146097 / 36524 - z mod 146097 / 146096) / 365).
  intros yoe Hy. assert (-1000 <= z / 146097 <= 1000) by (subst z; Z.to_euclidean_division_equations; lia).
  destruct (_ <=? 2); lia.
Qed.

(** The first unit of a plain year is a digit. *)
Lemma pad_unsigned n : 0 <= n -> exists c r, pad 4 n = c :: r /\ c <> 43 /\ c <> 45 /\ length r = 3%nat.
Proof.
  intros Hn. cbn [pad app]. eexists _, _. split; [done|].
  pose proof (Z.mod_pos_bound (n / 10 / 10 / 10) 10 ltac:(lia)). simpl. lia.
Qed.

Lemma read_year_text y : Z.abs y < 10 ^ 6 -> read_year (year_text y) = Some y /\ length (year_text y) = (if signed_year (year_text y) then 7%nat else 4%nat).
Proof.
  intros Hy. unfold year_text. destruct ((0 <=? y) && (y <=? 9999)) eqn:E; bool_to_prop.
  - destruct (pad_unsigned y) as (c & r & Hp & H1 & H2 & Hl); [lia|].
    assert (Hr : read_digits (c :: r) = Some y) by (rewrite <- Hp; apply read_digits_pad; simpl; lia).
    rewrite Hp. split.
    + unfold read_year. rewrite Hr. repeat case_match; congruence.
    + simpl. rewrite Hl. destruct (Z.eqb_spec c 43), (Z.eqb_spec c 45); done.
  - assert (Hr : read_digits (pad 6 (Z.abs y)) = Some (Z.abs y)) by (apply read_digits_pad; simpl; lia).
    destruct (Z.ltb_spec y 0); cbn -[pad]; rewrite Hr, pad_length; simpl; split; f_equal; lia.
Qed.

(** Every valid date reads back from its text. *)
Lemma iso_round t : Z.abs t <= maxTime -> strict_date (iso_text t) = Some t.
Proof.
  intros Ht. assert (Hread : read_iso (iso_text t) = Some t).
  - unfold iso_text. destruct (civil_from_days (t / msPerDay)) as [[y m] d] eqn:Hc.
    destruct (civil_round _ _ _ _ Hc) as (Hn & Hm & Hd).
    assert (Hb : Z.abs (t / msPerDay) <= 100000000)
      by (unfold msPerDay, maxTime in *; Z.to_euclidean_division_equations; lia).
    destruct (read_year_text y (civil_year_bound _ _ _ _ Hb Hc)) as [Hy Hl].
    pose proof (Z.mod_pos_bound t msPerDay eq_refl) as Hms. set (ms := t mod msPerDay) in *.
    unfold read_iso.
    assert (Hs : forall r, signed_year (year_text y ++ r) = signed_year (year_text y)).
    { intros r. destruct (year_text y); [by destruct (signed_year _)|done]. }
    rewrite Hs, <- Hl, drop_app_length, take_app_length, Hy.
    assert (H2 : forall n, 0 <= n < 100 -> read_digits [48 + n / 10 mod 10; 48 + n mod 10] = Some n)
      by (intros n ?; by apply (read_digits_pad 2)).
    assert (H3 : forall n, 0 <= n < 1000 ->
        read_digits [48 + n / 10 / 10 mod 10; 48 + n / 10 mod 10; 48 + n mod 10] = Some n)
      by (intros n ?; by apply (read_digits_pad 3)).
    cbn [pad app]. rewrite bool_decide_eq_true_2 by done. cbn [negb].
    unfold msPerDay in Hms. rewrite !H2, H3, Hn by (Z.to_euclidean_division_equations; lia). f_equal.
    rewrite (Z.div_mod t msPerDay) at 2 by done. fold ms. unfold msPerDay.
    generalize (t / 86400000). clearbody ms. clear -Hms. intros q. Z.to_euclidean_division_equations. lia.
  - unfold strict_date. by rewrite Hread, !bool_decide_eq_true_2.
Qed.

Lemma strict_date_sound s t : strict_date s = Some t -> Z.abs t <= maxTime /\ iso_text t = s.
Proof.
  unfold strict_date. destruct (read_iso s); [|done]. case_bool_decide; [|done].
  case_bool_decide; [|done]. by intros [= <-].
Qed.

Lemma iso_text_inj t u : Z.abs t <= maxTime -> Z.abs u <= maxTime -> iso_text t = iso_text u -> t = u.
Proof. intros Ht Hu He. apply iso_round in Ht, Hu. congruence. Qed.

(** ** base64url *)

Definition sextet_unit (n : Z) : Z :=
  if n <? 26 then 65 + n else if n <? 52 then 71 + n else if n <? 62 then n - 4
  else if n =? 62 then 45 else 95.

Definition unit_sextet (c : Z) : option Z :=
  if (65 <=? c) && (c <=? 90) then Some (c - 65) else if (97 <=? c) && (c <=? 122) then Some (c - 71)
  else if is_digit c then Some (c + 4) else if c =? 45 then Some 62 else if c =? 95 then Some 63 else None.

Fixpoint base64url (bs : list Z) : ustring :=
  match bs with
  | [] => []
  | [a] => [sextet_unit (a / 4); sextet_unit (a mod 4 * 16)]
  | [a; b] => [sextet_unit (a / 4); sextet_unit (a mod 4 * 16 + b / 16); sextet_unit (b mod 16 * 4)]
  | a :: b :: c :: bs' =>
    sextet_unit (a / 4) :: sextet_unit (a mod 4 * 16 + b / 16) :: sextet_unit (b mod 16 * 4 + c / 64)
    :: sextet_unit (c mod 64) :: base64url bs'
  end.

(** A last sextet alone holds no byte; the bits left over are dropped. *)
Fixpoint sextet_bytes (ss : list Z) : list Z :=
  match ss with
  | p :: q :: r :: s :: ss' => p * 4 + q / 16 :: q mod 16 * 16 + r / 4 :: r mod 4 * 64 + s :: sextet_bytes ss'
  | [p; q; r] => [p * 4 + q / 16; q mod 16 * 16 + r / 4]
  | [p; q] => [p * 4 + q / 16]
  | _ => []
  end.

(** [/^[A-Za-z0-9_-]+$/] *)
Definition base64urlPattern (s : ustring) : bool :=
  negb (bool_decide (s = [])) && forallb (fun c => negb (bool_decide (unit_sextet c = None))) s.

(** [Buffer.from(s, "base64url")] on such a text. *)
Definition from_base64url (s : ustring) : list Z := sextet_bytes (omap unit_sextet s).

Lemma sextet_round n : 0 <= n < 64 -> unit_sextet (sextet_unit n) = Some n.
Proof.
  intros Hn. unfold unit_sextet, sextet_unit, is_digit.
  repeat case_match; bool_to_prop; f_equal; lia.
Qed.

(** Three bytes at a time. *)
Lemma triple_ind (P : list Z -> Prop) : P [] -> (forall a, P [a]) -> (forall a b, P [a; b]) ->
  (forall a b c l, P l -> P (a :: b :: c :: l)) -> forall l, P l.
Proof.
  intros H0 H1 H2 H3. fix IH 1. intros [|a [|b [|c l]]]; [exact H0|apply H1|apply H2|apply H3, IH].
Qed.

Lemma base64url_round bs : Forall byte_ok bs -> from_base64url (base64url bs) = bs.
Proof.
  unfold from_base64url, byte_ok. induction bs as [|a|a b|a b c bs IH] using triple_ind; intros Hb; [done|..];
    repeat match goal with H : Forall _ (_ :: _) |- _ => apply Forall_cons in H as [? H] end;
    cbn [base64url omap list_omap].
  1-3: rewrite !sextet_round by (Z.to_euclidean_division_equations; lia); cbn [sextet_bytes].
  - f_equal. Z.to_euclidean_division_equations. lia.
  - f_equal; [|f_equal]; Z.to_euclidean_division_equations; lia.
  - rewrite IH by done. f_equal; [|f_equal; [|f_equal]]; Z.to_euclidean_division_equations; lia.
Qed.

Lemma sextet_unit_ok n : 0 <= n < 64 -> unit_sextet (sextet_unit n) <> None.
Proof. intros Hn. by rewrite sextet_round. Qed.

Lemma base64url_pattern bs : Forall byte_ok bs -> bs <> [] -> base64urlPattern (base64url bs) = true.
Proof.
  intros Hb Hne. unfold base64urlPattern. apply andb_true_iff. split.
  - apply negb_true_iff, bool_decide_eq_false. by destruct bs as [|a [|b [|c bs]]].
  - clear Hne. unfold byte_ok in Hb.
    induction bs as [|a|a b|a b c bs IH] using triple_ind; [done|..];
      repeat match goal with H : Forall _ (_ :: _) |- _ => apply Forall_cons in H as [? H] end;
      cbn [base64url forallb]; rewrite ?bool_decide_eq_false_2
        by (apply sextet_unit_ok; Z.to_euclidean_division_equations; lia); [done..|].
    simpl. by apply IH.
Qed.

(** ** Buffer.toString("utf8") *)

(** A decoder that expects [need] more bytes of the point begun as [cp], the
    next one between [lo] and [hi]; a byte that does not fit ends the point
    with one U+FFFD and is read again. *)
Fixpoint lossy (need : nat) (cp lo hi : Z) (bs : list Z) : ustring :=
  match bs with
  | [] => match need with O => [] | S _ => [65533] end
  | b :: r =>
    let start :=
      if b <? 128 then b :: lossy 0 0 128 191 r
      else if (194 <=? b) && (b <=? 223) then lossy 1 (b - 192) 128 191 r
      else if (224 <=? b) && (b <=? 239) then
        lossy 2 (b - 224) (if b =? 224 then 160 else 128) (if b =? 237 then 159 else 191) r
      else if (240 <=? b) && (b <=? 244) then
        lossy 3 (b - 240) (if b =? 240 then 144 else 128) (if b =? 244 then 143 else 191) r
      else 65533 :: lossy 0 0 128 191 r in
    match need with
    | O => start
    | S need' =>
      if (lo <=? b) && (b <=? hi) then
        let cp' := cp * 64 + (b - 128) in
        match need' with
        | O => units_of_point cp' ++ lossy 0 0 128 191 r
        | S _ => lossy need' cp' 128 191 r
        end
      else 65533 :: start
    end
  end.

Definition utf8_lossy (bs : list Z) : ustring := lossy 0 0 128 191 bs.

Example lossy_bad : utf8_lossy [97; 240; 144; 65; 255; 226; 130] = [97; 65533; 65; 65533; 65533].
Proof. reflexivity. Qed.

(** One byte of a point, as the strict decoder tests it. *)
Lemma lossy_next need cp lo hi b r : lo <= b <= hi ->
  lossy (S need) cp lo hi (b :: r) =
  match need with
  | O => units_of_point (cp * 64 + (b - 128)) ++ lossy 0 0 128 191 r
  | S _ => lossy need (cp * 64 + (b - 128)) 128 191 r
  end.
Proof.
  intros Hb. cbn [lossy]. destruct (Z.leb_spec lo b), (Z.leb_spec b hi); [|lia..]. done.
Qed.

Lemma lossy_first b r : 128 <= b -> lossy 0 0 128 191 (b :: r) =
  if (194 <=? b) && (b <=? 223) then lossy 1 (b - 192) 128 191 r
  else if (224 <=? b) && (b <=? 239) then
    lossy 2 (b - 224) (if b =? 224 then 160 else 128) (if b =? 237 then 159 else 191) r
  else if (240 <=? b) && (b <=? 244) then
    lossy 3 (b - 240) (if b =? 240 then 144 else 128) (if b =? 244 then 143 else 191) r
  else 65533 :: lossy 0 0 128 191 r.
Proof. intros Hb. cbn [lossy]. destruct (Z.ltb_spec b 128); [lia|done]. Qed.

(** On UTF-8 it is the strict decoder. *)
Lemma lossy_decode bs s : Forall byte_ok bs -> utf8_decode bs = Some s -> utf8_lossy bs = s.
Proof.
  unfold utf8_lossy. revert s.
  induction bs as [bs IH] using (induction_ltof1 _ (@length Z)); unfold ltof in IH. intros s Hok.
  destruct bs as [|b r]; [by intros [= <-]|]. apply Forall_cons in Hok as [Hb Hok]. unfold byte_ok in Hb.
  cbn [utf8_decode]. unfold continuation.
  destruct (Z.ltb_spec b 128).
  { destruct (utf8_decode r) eqn:E; [|done]. intros [= <-]. cbn [lossy].
    destruct (Z.ltb_spec b 128); [|lia]. f_equal. apply IH; [simpl; lia|done..]. }
  destruct (Z.ltb_spec b 194); [done|]. rewrite lossy_first by lia.
  destruct (Z.ltb_spec b 224) as [Htwo|Htwo].
  { destruct r as [|b1 r]; [done|]. apply Forall_cons in Hok as [Hb1 Hok].
    destruct (_ && _) eqn:E1; [|done]. bool_to_prop.
    destruct (utf8_decode r) eqn:E; [|done]. intros [= <-].
    destruct (Z.leb_spec 194 b), (Z.leb_spec b 223); [|lia..]. cbn [andb].
    rewrite lossy_next by lia. f_equal. apply IH; [simpl; lia|done..]. }
  destruct (Z.leb_spec b 223); [lia|]. rewrite andb_false_r.
  destruct (Z.ltb_spec b 240) as [Hthree|Hthree].
  { destruct r as [|b1 [|b2 r]]; [done..|]. apply Forall_cons in Hok as [Hb1 [Hb2 Hok]%Forall_cons].
    destruct (_ && _) eqn:E1; [|done].
    rewrite negb_andb in E1. bool_to_prop.
    destruct (utf8_decode r) eqn:E; [|done]. intros [= <-].
    destruct (Z.leb_spec 224 b), (Z.leb_spec b 239); [|lia..]. cbn [andb].
    rewrite lossy_next by (destruct (Z.eqb_spec b 224), (Z.eqb_spec b 237); lia).
    rewrite lossy_next by lia.
    replace (((b - 224) * 64 + (b1 - 128)) * 64 + (b2 - 128))
      with ((b - 224) * 4096 + (b1 - 128) * 64 + (b2 - 128)) by lia.
    f_equal. apply IH; [simpl; lia|done..]. }
  destruct (Z.leb_spec b 239); [lia|]. rewrite andb_false_r.
  destruct (Z.ltb_spec b 245) as [Hfour|]; [|done].
  destruct r as [|b1 [|b2 [|b3 r]]]; [done..|].
  apply Forall_cons in Hok as [Hb1 [Hb2 [Hb3 Hok]%Forall_cons]%Forall_cons].
  destruct (_ && _) eqn:E1; [|done]. bool_to_prop.
  destruct (utf8_decode r) eqn:E; [|done]. intros [= <-].
  destruct (Z.leb_spec 240 b), (Z.leb_spec b 244); [|lia..]. cbn [andb].
  rewrite lossy_next by (destruct (Z.eqb_spec b 240), (Z.eqb_spec b 244); lia).
  rewrite !lossy_next by lia.
  replace ((((b - 240) * 64 + (b1 - 128)) * 64 + (b2 - 128)) * 64 + (b3 - 128))
    with ((b - 240) * 262144 + (b1 - 128) * 4096 + (b2 - 128) * 64 + (b3 - 128)) by lia.
  f_equal. apply IH; [simpl; lia|done..].
Qed.

Lemma utf8_lossy_round s : wf16 s -> utf8_lossy (utf8 s) = s.
Proof. intros [Hd Hb]%utf8_round. by apply lossy_decode. Qed.
