(* ===== verification/LinkDatabase.v ===== *)
(** * LinkDatabase: the tables of VerusID linking.

    "wallet_challenge" and "verus_identity_link" as migration 20260808060000
    leaves them, with their CHECK constraints, unique keys and statements, on
    the authentication tables.  The challenges are those of the two link
    purposes: for these wallet_challenge_link_fields_complete makes the
    nullable columns present.  (CoreDatabase.v has the columns of the same
    table that the lifecycle repository touches.) *)
From S2P Require Import Prelude Errors Text Json Lifecycles Database Authorization AuthDatabase CoreDatabase.
Local Open Scope Z_scope.

(** ** Rows *)

Inductive WalletLinkPurpose : Type := link_verusid | revalidate_verusid.
#[export] Instance WalletLinkPurpose_eq_dec : EqDecision WalletLinkPurpose.
Proof. solve_decision. Defined.
Definition purpose_name (p : WalletLinkPurpose) : string :=
  match p with link_verusid => "link_verusid" | revalidate_verusid => "revalidate_verusid" end.

(** The row of "wallet_challenge", without "created_at" and "updated_at". *)
Record LinkChallengeRow : Type := {
  wl_external_reference : string;
  wl_auth_account_id : string;
  wl_participant_id : option string;
  wl_trust_domain : TrustDomain;
  wl_state : wallet_challenge_state;
  wl_network : string;
  wl_purpose : WalletLinkPurpose;
  wl_nonce_hash : string;
  wl_request_id : string;
  wl_request_digest : string;
  wl_polling_token_digest : string;
  wl_audience : string;
  wl_callback_url : string;
  wl_application_identity_address : string;
  wl_consented_scopes : list string;
  wl_issued_at : Z;
  wl_expires_at : Z;
  wl_consumed_at : option Z;
  wl_response_digest : option string;
  wl_linked_identity_address : option string;
  wl_rejection_reason : option string;
  wl_version : Z;
}.

Inductive identity_link_state : Type := ils_active | ils_revalidation_required | ils_unlinked.
#[export] Instance identity_link_state_eq_dec : EqDecision identity_link_state.
Proof. solve_decision. Defined.
Definition link_state_name (s : identity_link_state) : string :=
  match s with
  | ils_active => "active" | ils_revalidation_required => "revalidation_required" | ils_unlinked => "unlinked"
  end.

(** What an observation of the identity says, as the link records it. *)
Record LinkProof : Type := {
  lp_display_name_snapshot : option string;
  lp_proof_method : string;
  lp_proof_digest : string;
  lp_request_signer_identity : string;
  lp_observed_identity_status : string;
  lp_observed_identity_block_height : Z;
  lp_observed_identity_txid : string;
  lp_consented_scopes : list string;
}.

(** The row of "verus_identity_link", without "created_at" and "updated_at". *)
Record IdentityLinkRow : Type := {
  vl_external_reference : string;
  vl_auth_account_id : string;
  vl_participant_id : option string;
  vl_trust_domain : TrustDomain;
  vl_identity_address : string;
  vl_network : string;
  vl_proof : LinkProof;
  vl_state : identity_link_state;
  vl_linked_at : Z;
  vl_revalidated_at : option Z;
  vl_revalidation_reason : option string;
  vl_unlinked_at : option Z;
  vl_version : Z;
}.

Record LinkDb : Type := {
  ld_auth : AuthDb;
  ld_challenge : gmap string LinkChallengeRow;
  ld_link : gmap string IdentityLinkRow;
}.

Definition LM := prog LinkDb exn.

#[export] Instance linkdb_transactional : Transactional LinkDb := fun before after => {|
  ld_auth := rollback (ld_auth before) (ld_auth after); ld_challenge := ld_challenge before;
  ld_link := ld_link before |}.

Definition with_auth (a : AuthDb) (d : LinkDb) : LinkDb := {|
  ld_auth := a; ld_challenge := ld_challenge d; ld_link := ld_link d |}.
Definition with_link_challenge (f : gmap string LinkChallengeRow -> gmap string LinkChallengeRow) (d : LinkDb)
  : LinkDb := {| ld_auth := ld_auth d; ld_challenge := f (ld_challenge d); ld_link := ld_link d |}.
Definition with_link (f : gmap string IdentityLinkRow -> gmap string IdentityLinkRow) (d : LinkDb) : LinkDb := {|
  ld_auth := ld_auth d; ld_challenge := ld_challenge d; ld_link := f (ld_link d) |}.

(** A program on the base tables. *)
Definition on_store {A : Type} (c : M A) : LM A := fun d =>
  let (r, a) := on_base c (ld_auth d) in (r, with_auth a d).

(** ** "wallet_challenge" *)

Definition wcs_presented : wallet_challenge_state := wcs WalletChallenge.presented.
Definition wcs_consumed : wallet_challenge_state := wcs WalletChallenge.consumed.
Definition wcs_expired : wallet_challenge_state := wcs WalletChallenge.expired.
Definition wcs_rejected : wallet_challenge_state := wcs WalletChallenge.rejected.

Definition optional_digest (value : option string) : bool :=
  match value with Some v => hex64Pattern v | None => true end.

(** CHECK wallet_challenge_version_positive, consumption_consistent,
    time_order, link_fields_complete, the three digests, https_callback and
    terminal_reason. *)
Definition link_challenge_checks (c : LinkChallengeRow) : bool :=
  (0 <? wl_version c)
  && Bool.eqb (bool_decide (wl_state c = wcs_consumed)) (negb (is_null (wl_consumed_at c)))
  && (wl_issued_at c <? wl_expires_at c)
  && (negb (String.eqb (wl_callback_url c) "https://invalid.local/legacy")
      && negb (String.eqb (wl_application_identity_address c) "legacy_unapproved")
      && bool_decide (wl_consented_scopes c = ["verusid:link"]) && String.eqb (wl_network c) "VRSCTEST")
  && hex64Pattern (wl_request_digest c) && hex64Pattern (wl_nonce_hash c)
  && optional_digest (wl_response_digest c) && String.prefix "https://" (wl_callback_url c)
  && Bool.eqb (includes [wcs_rejected; wcs_cancelled] (wl_state c)) (negb (is_null (wl_rejection_reason c))).

(** The unique columns. *)
Definition challenge_collides (c b : LinkChallengeRow) : bool :=
  String.eqb (wl_external_reference b) (wl_external_reference c)
  || String.eqb (wl_nonce_hash b) (wl_nonce_hash c) || String.eqb (wl_request_id b) (wl_request_id c)
  || String.eqb (wl_polling_token_digest b) (wl_polling_token_digest c).

(** The foreign keys are the account's that the transaction has just read. *)
Definition insertLinkChallenge (i : string) (c : LinkChallengeRow) : LM unit :=
  let* d := gets id in
  throwif* negb (link_challenge_checks c) as! PostgresError "23514" in
  throwif* negb (is_null (ld_challenge d !! i)) || has_row (challenge_collides c) (ld_challenge d)
    as! PostgresError "23505" in
  modify (with_link_challenge (<[i := c]>)).

(** UPDATE ... WHERE "id" = $1. *)
Definition updateLinkChallenge (i : string) (f : LinkChallengeRow -> LinkChallengeRow) : LM unit :=
  let* d := gets id in
  match ld_challenge d !! i with
  | None => ret tt
  | Some c =>
    throwif* 2147483647 <? wl_version (f c) as! PostgresError "22003" in
    throwif* negb (link_challenge_checks (f c)) as! PostgresError "23514" in
    modify (with_link_challenge (<[i := f c]>))
  end.

Definition challenge_ended (state : wallet_challenge_state) (reason : option string) (c : LinkChallengeRow)
  : LinkChallengeRow := {|
  wl_external_reference := wl_external_reference c; wl_auth_account_id := wl_auth_account_id c;
  wl_participant_id := wl_participant_id c; wl_trust_domain := wl_trust_domain c; wl_state := state;
  wl_network := wl_network c; wl_purpose := wl_purpose c; wl_nonce_hash := wl_nonce_hash c;
  wl_request_id := wl_request_id c; wl_request_digest := wl_request_digest c;
  wl_polling_token_digest := wl_polling_token_digest c; wl_audience := wl_audience c;
  wl_callback_url := wl_callback_url c; wl_application_identity_address := wl_application_identity_address c;
  wl_consented_scopes := wl_consented_scopes c; wl_issued_at := wl_issued_at c; wl_expires_at := wl_expires_at c;
  wl_consumed_at := wl_consumed_at c; wl_response_digest := wl_response_digest c;
  wl_linked_identity_address := wl_linked_identity_address c;
  wl_rejection_reason := match reason with Some r => Some r | None => wl_rejection_reason c end;
  wl_version := wl_version c + 1 |}.

Definition challenge_completed (responseDigest identityAddress : string) (at_ : Z) (c : LinkChallengeRow)
  : LinkChallengeRow := {|
  wl_external_reference := wl_external_reference c; wl_auth_account_id := wl_auth_account_id c;
  wl_participant_id := wl_participant_id c; wl_trust_domain := wl_trust_domain c; wl_state := wcs_consumed;
  wl_network := wl_network c; wl_purpose := wl_purpose c; wl_nonce_hash := wl_nonce_hash c;
  wl_request_id := wl_request_id c; wl_request_digest := wl_request_digest c;
  wl_polling_token_digest := wl_polling_token_digest c; wl_audience := wl_audience c;
  wl_callback_url := wl_callback_url c; wl_application_identity_address := wl_application_identity_address c;
  wl_consented_scopes := wl_consented_scopes c; wl_issued_at := wl_issued_at c; wl_expires_at := wl_expires_at c;
  wl_consumed_at := Some at_; wl_response_digest := Some responseDigest;
  wl_linked_identity_address := Some identityAddress; wl_rejection_reason := wl_rejection_reason c;
  wl_version := wl_version c + 1 |}.

(** ** "verus_identity_link" *)

(** CHECK verus_identity_link_version_positive, proof_digest_sha256,
    observed_txid_hex and unlink_consistent. *)
Definition link_checks (l : IdentityLinkRow) : bool :=
  (0 <? vl_version l) && hex64Pattern (lp_proof_digest (vl_proof l))
  && hex64Pattern (lp_observed_identity_txid (vl_proof l))
  && Bool.eqb (bool_decide (vl_state l = ils_unlinked)) (negb (is_null (vl_unlinked_at l))).

(** "observed_identity_block_height" BIGINT, "version" INTEGER. *)
Definition link_in_range (l : IdentityLinkRow) : bool :=
  (Z.abs (lp_observed_identity_block_height (vl_proof l)) <=? 9223372036854775807)
  && (vl_version l <=? 2147483647).

Definition same_identity (account_id address : string) (l : IdentityLinkRow) : bool :=
  String.eqb (vl_auth_account_id l) account_id && String.eqb (vl_network l) "VRSCTEST"
  && String.eqb (vl_identity_address l) address.

Definition insertLink (i : string) (l : IdentityLinkRow) : LM unit :=
  let* d := gets id in
  throwif* negb (link_in_range l) as! PostgresError "22003" in
  throwif* negb (link_checks l) as! PostgresError "23514" in
  throwif* negb (is_null (ld_link d !! i))
           || has_row (fun b => String.eqb (vl_external_reference b) (vl_external_reference l)
                                || same_identity (vl_auth_account_id l) (vl_identity_address l) b) (ld_link d)
    as! PostgresError "23505" in
  modify (with_link (<[i := l]>)).

Definition updateLink (i : string) (f : IdentityLinkRow -> IdentityLinkRow) : LM unit :=
  let* d := gets id in
  match ld_link d !! i with
  | None => ret tt
  | Some l =>
    throwif* negb (link_in_range (f l)) as! PostgresError "22003" in
    throwif* negb (link_checks (f l)) as! PostgresError "23514" in
    modify (with_link (<[i := f l]>))
  end.

Definition link_moved (state : identity_link_state) (proof : LinkProof) (revalidated_at unlinked_at : option Z)
    (reason : option string) (l : IdentityLinkRow) : IdentityLinkRow := {|
  vl_external_reference := vl_external_reference l; vl_auth_account_id := vl_auth_account_id l;
  vl_participant_id := vl_participant_id l; vl_trust_domain := vl_trust_domain l;
  vl_identity_address := vl_identity_address l; vl_network := vl_network l; vl_proof := proof;
  vl_state := state; vl_linked_at := vl_linked_at l; vl_revalidated_at := revalidated_at;
  vl_revalidation_reason := reason; vl_unlinked_at := unlinked_at; vl_version := vl_version l + 1 |}.

Definition link_reproved (proof : LinkProof) (at_ : Z) (l : IdentityLinkRow) : IdentityLinkRow :=
  link_moved ils_active proof (Some at_) None None l.
Definition link_unlinked (at_ : Z) (l : IdentityLinkRow) : IdentityLinkRow :=
  link_moved ils_unlinked (vl_proof l) (vl_revalidated_at l) (Some at_) (vl_revalidation_reason l) l.
Definition link_doubted (reason : string) (l : IdentityLinkRow) : IdentityLinkRow :=
  link_moved ils_revalidation_required (vl_proof l) (vl_revalidated_at l) (vl_unlinked_at l) (Some reason) l.
