(* ===== verification/VerusLinkRepository.v ===== *)
(** * VerusLinkRepository: packages/db/src/verus-link-repository.ts.

    Every method of the repository on the tables of LinkDatabase.v.  Dates
    are valid: the linking service hands over the request's clock and the
    dates that the hosted client read strictly. *)
From Stdlib Require Import Ascii.
From S2P Require Import Prelude Errors Text Json JsonParse Lifecycles Database Authorization AuthDatabase.
From S2P Require Import AuthRepository CoreDatabase LinkDatabase.
Local Open Scope Z_scope.

Record CreateWalletLinkChallengeInput : Type := {
  cw_externalReference : string;
  cw_accountReference : string;
  cw_trustDomain : TrustDomain;
  cw_purpose : WalletLinkPurpose;
  cw_network : string;
  cw_nonceHash : string;
  cw_requestId : string;
  cw_requestDigest : string;
  cw_pollingTokenDigest : string;
  cw_audience : string;
  cw_callbackUrl : string;
  cw_applicationIdentityAddress : string;
  cw_consentedScopes : list string;
  cw_issuedAt : Z;
  cw_expiresAt : Z;
}.

Record WalletLinkChallengeRecord : Type := {
  wr_externalReference : string;
  wr_accountReference : string;
  wr_participantReference : option string;
  wr_trustDomain : TrustDomain;
  wr_purpose : WalletLinkPurpose;
  wr_state : wallet_challenge_state;
  wr_network : string;
  wr_nonceHash : string;
  wr_requestId : string;
  wr_requestDigest : string;
  wr_audience : string;
  wr_callbackUrl : string;
  wr_applicationIdentityAddress : string;
  wr_consentedScopes : list string;
  wr_issuedAt : Z;
  wr_expiresAt : Z;
  wr_responseDigest : option string;
  wr_linkedIdentityAddress : option string;
  wr_version : Z;
}.

Record CompleteWalletLinkChallengeInput : Type := {
  cl_requestId : string;
  cl_responseDigest : string;
  cl_identityAddress : string;
  cl_displayNameSnapshot : option string;
  cl_proofDigest : string;
  cl_proofMethod : string;
  cl_requestSignerIdentity : string;
  cl_observedIdentityStatus : string;
  cl_observedIdentityBlockHeight : Z;
  cl_observedIdentityTxid : string;
  cl_completedAt : Z;
}.

(** [CompletedWalletLink] (its state is the literal "active") or
    [ExpiredWalletLinkChallenge]. *)
Inductive WalletLinkCompletion : Type :=
| link_completed (replayed : bool) (linkReference identityAddress : string)
| challenge_expired.

Record WalletLinkPollResult : Type := {
  po_challengeReference : string;
  po_state : wallet_challenge_state;
  po_expiresAt : Z;
  po_linkReference : option string;
  po_identityAddress : option string;
}.

Definition requireDigest (value field : string) : result exn unit :=
  throwIf (negb (hex64Pattern value)) (RepositoryConflictError (field +:+ " must be a lowercase SHA-256 digest")).

(** [replaceAll("-", "")] *)
Fixpoint without_dashes (s : string) : string :=
  match s with
  | EmptyString => EmptyString
  | String c s' => if Ascii.eqb c "-"%char then without_dashes s' else String c (without_dashes s')
  end.

Section repository.
Context `{Platform}.

(** [appendAudit(client, context, null, command, target)] *)
Definition link_audit (context : CommandContext) (command type reference : string) (prior next : option string)
  : LM unit :=
  run* on_store (appendAudit context None command
         {| target_type := type; target_reference := reference; priorState := prior; newState := next |}
         ar_succeeded) in
  ret tt.

Definition draw_id : LM string := on_store newId.

(** ** Private queries *)

(** A row of [challengeSelect]: the challenge, its account (inner join) and
    its participant (left join). *)
Record ChallengeRow : Type := {
  jc_id : string;
  jc_row : LinkChallengeRow;
  jc_account_reference : string;
  jc_participant_reference : option string;
}.

(** The reference of "participant_account" under an id. *)
Definition participant_of (d : LinkDb) (i : string) : option string :=
  fst <$> find (fun p => String.eqb (snd p) i) (map_to_list (ad_participant (ld_auth d))).

Definition challenge_joined (d : LinkDb) (i : string) (c : LinkChallengeRow) : option ChallengeRow :=
  match ad_account (ld_auth d) !! wl_auth_account_id c with
  | Some a => Some {| jc_id := i; jc_row := c; jc_account_reference := aa_external_reference a;
                      jc_participant_reference := wl_participant_id c ≫= participant_of d |}
  | None => None
  end.

(** The first row of [challengeSelect(predicate)]. *)
Definition challengeSelect (predicate : ChallengeRow -> bool) : LM (option ChallengeRow) :=
  gets (fun d => find predicate (omap (fun kv => challenge_joined d (fst kv) (snd kv))
                                   (map_to_list (ld_challenge d)))).

Definition selected (predicate : ChallengeRow -> bool) : LM ChallengeRow :=
  let* found := challengeSelect predicate in
  match found with
  | Some row => ret row
  | None => throw (RepositoryConflictError "wallet challenge is unavailable")
  end.

Definition by_token (accountReference pollingTokenDigest : string) (r : ChallengeRow) : bool :=
  String.eqb (jc_account_reference r) accountReference
  && String.eqb (wl_polling_token_digest (jc_row r)) pollingTokenDigest.

Definition mapChallenge (r : ChallengeRow) : WalletLinkChallengeRecord :=
  let c := jc_row r in {|
  wr_externalReference := wl_external_reference c; wr_accountReference := jc_account_reference r;
  wr_participantReference := nonempty (jc_participant_reference r); wr_trustDomain := wl_trust_domain c;
  wr_purpose := wl_purpose c; wr_state := wl_state c; wr_network := wl_network c; wr_nonceHash := wl_nonce_hash c;
  wr_requestId := wl_request_id c; wr_requestDigest := wl_request_digest c; wr_audience := wl_audience c;
  wr_callbackUrl := wl_callback_url c; wr_applicationIdentityAddress := wl_application_identity_address c;
  wr_consentedScopes := wl_consented_scopes c; wr_issuedAt := wl_issued_at c; wr_expiresAt := wl_expires_at c;
  wr_responseDigest := nonempty (wl_response_digest c);
  wr_linkedIdentityAddress := nonempty (wl_linked_identity_address c); wr_version := wl_version c |}.

Definition challengeById (challengeId : string) : LM WalletLinkChallengeRecord :=
  let* row := selected (fun r => String.eqb (jc_id r) challengeId) in
  ret (mapChallenge row).

Definition link_account (accountReference : string) (trustDomain : TrustDomain) : LM AuthAccountRow :=
  let* found := gets (fun d => select_one (fun a => has_reference accountReference (Some trustDomain) a
                                                    && bool_decide (aa_state a = as_active))
                                 (ad_account (ld_auth d))) in
  match found with
  | None => throw (RepositoryConflictError "account is unavailable")
  | Some a =>
    throwif* bool_decide (trustDomain = td_participant) && is_null (nonempty (aa_participant_id a))
      as! RepositoryConflictError "participant account binding is unavailable" in
    ret a
  end.

Definition link_participantId (reference : string) : LM string :=
  let* found := gets (fun d => ad_participant (ld_auth d) !! reference) in
  match found with
  | Some i => ret i
  | None => throw (RepositoryConflictError "participant is unavailable")
  end.

Definition find_link (accountId identityAddress : string) : LM (option (string * IdentityLinkRow)) :=
  gets (fun d => select_row (same_identity accountId identityAddress) (ld_link d)).

Definition linkForAccountAndIdentity (accountId identityAddress : string) : LM IdentityLinkRow :=
  let* found := find_link accountId identityAddress in
  match found with
  | Some row => ret (snd row)
  | None => throw (RepositoryConflictError "Verus identity link is unavailable")
  end.

(** ** Challenges *)

(** [[...scopes].sort()] compares code units. *)
Definition sort_texts (l : list string) : list string :=
  snd <$> sort_entries ((fun x => (text_units x, x)) <$> l).

Definition createChallenge_tx (input : CreateWalletLinkChallengeInput) (context : CommandContext)
  : LM WalletLinkChallengeRecord :=
  let* a := link_account (cw_accountReference input) (cw_trustDomain input) in
  let* challengeId := draw_id in
  run* insertLinkChallenge challengeId {|
         wl_external_reference := cw_externalReference input; wl_auth_account_id := aa_id a;
         wl_participant_id := aa_participant_id a; wl_trust_domain := cw_trustDomain input;
         wl_state := wcs_presented; wl_network := "VRSCTEST"; wl_purpose := cw_purpose input;
         wl_nonce_hash := cw_nonceHash input; wl_request_id := cw_requestId input;
         wl_request_digest := cw_requestDigest input; wl_polling_token_digest := cw_pollingTokenDigest input;
         wl_audience := cw_audience input; wl_callback_url := cw_callbackUrl input;
         wl_application_identity_address := cw_applicationIdentityAddress input;
         wl_consented_scopes := sort_texts (cw_consentedScopes input); wl_issued_at := cw_issuedAt input;
         wl_expires_at := cw_expiresAt input; wl_consumed_at := None; wl_response_digest := None;
         wl_linked_identity_address := None; wl_rejection_reason := None; wl_version := 1 |} in
  run* link_audit context "createWalletLinkChallenge" "wallet_challenge" (cw_externalReference input)
         None (Some "presented") in
  challengeById challengeId.

Definition createLinkChallenge (env : nat -> TxAttempt) (input : CreateWalletLinkChallengeInput)
    (context : CommandContext) : LM WalletLinkChallengeRecord :=
  run* lift (requireOpaqueReference (cw_externalReference input) "wallet challenge reference") in
  run* lift (requireOpaqueReference (cw_accountReference input) "account reference") in
  run* lift (requireDigest (cw_nonceHash input) "nonce hash") in
  run* lift (requireDigest (cw_requestDigest input) "request digest") in
  run* lift (requireDigest (cw_pollingTokenDigest input) "polling token digest") in
  throwif* cw_expiresAt input <=? cw_issuedAt input
    as! RepositoryConflictError "wallet challenge expiry must follow issuance" in
  throwif* negb (String.eqb (cw_network input) "VRSCTEST")
    as! RepositoryConflictError "wallet challenge network is unsupported" in
  inSerializableTransaction env (createChallenge_tx input context).

Definition challengeForPoll (env : nat -> TxAttempt) (accountReference pollingTokenDigest : string)
  : LM WalletLinkChallengeRecord :=
  run* lift (requireOpaqueReference accountReference "account reference") in
  run* lift (requireDigest pollingTokenDigest "polling token digest") in
  let* found := statement (env O) (challengeSelect (by_token accountReference pollingTokenDigest)) in
  match found with
  | Some row => ret (mapChallenge row)
  | None => throw (RepositoryConflictError "wallet challenge is unavailable")
  end.

(** The UPDATE and the audit entry of an expiry. *)
Definition expire_challenge (context : CommandContext) (challenge : ChallengeRow) : LM unit :=
  run* updateLinkChallenge (jc_id challenge) (challenge_ended wcs_expired None) in
  link_audit context "expireWalletLinkChallenge" "wallet_challenge" (wl_external_reference (jc_row challenge))
    (Some "presented") (Some "expired").

Definition proof_of (input : CompleteWalletLinkChallengeInput) (challenge : LinkChallengeRow) : LinkProof := {|
  lp_display_name_snapshot := cl_displayNameSnapshot input; lp_proof_method := cl_proofMethod input;
  lp_proof_digest := cl_proofDigest input; lp_request_signer_identity := cl_requestSignerIdentity input;
  lp_observed_identity_status := cl_observedIdentityStatus input;
  lp_observed_identity_block_height := cl_observedIdentityBlockHeight input;
  lp_observed_identity_txid := cl_observedIdentityTxid input;
  lp_consented_scopes := wl_consented_scopes challenge |}.

(** Updates the account's link of the identity, or inserts one; gives its
    reference and its state before. *)
Definition write_link (input : CompleteWalletLinkChallengeInput) (challenge : ChallengeRow)
  : LM (string * option identity_link_state) :=
  let c := jc_row challenge in
  let* existing := find_link (wl_auth_account_id c) (cl_identityAddress input) in
  match existing with
  | Some (linkId, row) =>
    run* updateLink linkId (link_reproved (proof_of input c) (cl_completedAt input)) in
    ret (vl_external_reference row, Some (vl_state row))
  | None =>
    let* linkId := draw_id in
    let* suffix := draw_id in
    let linkReference := "verus_link_" +:+ without_dashes suffix in
    let* participant :=
      (match nonempty (jc_participant_reference challenge) with
       | Some reference => let* i := link_participantId reference in ret (Some i)
       | None => ret None
       end) in
    run* insertLink linkId {|
           vl_external_reference := linkReference; vl_auth_account_id := wl_auth_account_id c;
           vl_participant_id := participant; vl_trust_domain := wl_trust_domain c;
           vl_identity_address := cl_identityAddress input; vl_network := "VRSCTEST";
           vl_proof := proof_of input c; vl_state := ils_active; vl_linked_at := cl_completedAt input;
           vl_revalidated_at := None; vl_revalidation_reason := None; vl_unlinked_at := None; vl_version := 1 |} in
    ret (linkReference, None)
  end.

Definition completeChallenge_tx (input : CompleteWalletLinkChallengeInput) (context : CommandContext)
  : LM WalletLinkCompletion :=
  let* challenge := selected (fun r => String.eqb (wl_request_id (jc_row r)) (cl_requestId input)) in
  let c := jc_row challenge in
  if bool_decide (wl_state c = wcs_consumed) then
    throwif* negb (bool_decide (wl_response_digest c = Some (cl_responseDigest input)))
             || negb (bool_decide (wl_linked_identity_address c = Some (cl_identityAddress input)))
      as! RepositoryConflictError "wallet challenge was already consumed" in
    let* link := linkForAccountAndIdentity (wl_auth_account_id c) (cl_identityAddress input) in
    ret (link_completed true (vl_external_reference link) (cl_identityAddress input))
  else
    throwif* negb (bool_decide (wl_state c = wcs_presented))
      as! RepositoryConflictError "wallet challenge is unavailable" in
    if wl_expires_at c <=? cl_completedAt input then
      run* expire_challenge context challenge in
      ret challenge_expired
    else
      let* written := write_link input challenge in
      run* updateLinkChallenge (jc_id challenge)
             (challenge_completed (cl_responseDigest input) (cl_identityAddress input) (cl_completedAt input)) in
      run* link_audit context "consumeWalletLinkChallenge" "wallet_challenge" (wl_external_reference c)
             (Some "presented") (Some "consumed") in
      run* link_audit context
             (match snd written with Some _ => "revalidateVerusIdentityLink" | None => "createVerusIdentityLink" end)
             "verus_identity_link" (fst written) (link_state_name <$> snd written) (Some "active") in
      ret (link_completed false (fst written) (cl_identityAddress input)).

Definition completeChallenge (env : nat -> TxAttempt) (input : CompleteWalletLinkChallengeInput)
    (context : CommandContext) : LM WalletLinkCompletion :=
  run* lift (requireDigest (cl_responseDigest input) "response digest") in
  run* lift (requireDigest (cl_proofDigest input) "proof digest") in
  run* lift (requireDigest (cl_observedIdentityTxid input) "observed identity transaction identifier") in
  inSerializableTransaction env (completeChallenge_tx input context).

Definition pollChallenge_tx (accountReference pollingTokenDigest : string) (now : Z) (context : CommandContext)
  : LM WalletLinkPollResult :=
  let* challenge := selected (by_token accountReference pollingTokenDigest) in
  let c := jc_row challenge in
  let* state :=
    (if bool_decide (wl_state c = wcs_presented) && (wl_expires_at c <=? now) then
       run* expire_challenge context challenge in
       ret wcs_expired
     else ret (wl_state c)) in
  let* link :=
    (match bool_decide (state = wcs_consumed), nonempty (wl_linked_identity_address c) with
     | true, Some address =>
       let* l := linkForAccountAndIdentity (wl_auth_account_id c) address in ret (Some (l, address))
     | _, _ => ret None
     end) in
  ret {| po_challengeReference := wl_external_reference c; po_state := state; po_expiresAt := wl_expires_at c;
         po_linkReference := (fun l => vl_external_reference (fst l)) <$> link;
         po_identityAddress := snd <$> link |}.

Definition pollChallenge (env : nat -> TxAttempt) (accountReference pollingTokenDigest : string) (now : Z)
    (context : CommandContext) : LM WalletLinkPollResult :=
  run* lift (requireOpaqueReference accountReference "account reference") in
  run* lift (requireDigest pollingTokenDigest "polling token digest") in
  inSerializableTransaction env (pollChallenge_tx accountReference pollingTokenDigest now context).

Definition cancelChallenge_tx (accountReference challengeReference : string) (cancelledAt : Z)
    (context : CommandContext) : LM unit :=
  let* challenge := selected (fun r => String.eqb (jc_account_reference r) accountReference
                                       && String.eqb (wl_external_reference (jc_row r)) challengeReference) in
  let c := jc_row challenge in
  if bool_decide (wl_state c = wcs_cancelled) then ret tt
  else
    throwif* negb (bool_decide (wl_state c = wcs_presented))
      as! RepositoryConflictError "wallet challenge is unavailable" in
    if wl_expires_at c <=? cancelledAt then expire_challenge context challenge
    else
      run* updateLinkChallenge (jc_id challenge) (challenge_ended wcs_cancelled (Some "user_cancelled")) in
      link_audit context "cancelWalletLinkChallenge" "wallet_challenge" (wl_external_reference c)
        (Some "presented") (Some "cancelled").

Definition cancelChallenge (env : nat -> TxAttempt) (accountReference challengeReference : string)
    (cancelledAt : Z) (context : CommandContext) : LM unit :=
  run* lift (requireOpaqueReference accountReference "account reference") in
  run* lift (requireOpaqueReference challengeReference "wallet challenge reference") in
  inSerializableTransaction env (cancelChallenge_tx accountReference challengeReference cancelledAt context).

(** ** Links *)

Definition link_of_account (d : LinkDb) (accountReference linkReference : string) (l : IdentityLinkRow) : bool :=
  match ad_account (ld_auth d) !! vl_auth_account_id l with
  | Some a => String.eqb (aa_external_reference a) accountReference
  | None => false
  end && String.eqb (vl_external_reference l) linkReference.

Definition unlink_tx (accountReference linkReference : string) (unlinkedAt : Z) (context : CommandContext)
  : LM unit :=
  let* found := gets (fun d => select_row (link_of_account d accountReference linkReference) (ld_link d)) in
  match found with
  | None => throw (RepositoryConflictError "Verus identity link is unavailable")
  | Some (linkId, link) =>
    throwif* bool_decide (vl_state link = ils_unlinked)
      as! RepositoryConflictError "Verus identity link is unavailable" in
    run* updateLink linkId (link_unlinked unlinkedAt) in
    link_audit context "unlinkVerusIdentity" "verus_identity_link" linkReference
      (Some (link_state_name (vl_state link))) (Some "unlinked")
  end.

Definition unlink (env : nat -> TxAttempt) (accountReference linkReference : string) (unlinkedAt : Z)
    (context : CommandContext) : LM unit :=
  run* lift (requireOpaqueReference accountReference "account reference") in
  run* lift (requireOpaqueReference linkReference "Verus identity link reference") in
  inSerializableTransaction env (unlink_tx accountReference linkReference unlinkedAt context).

Inductive RevalidationReason : Type := identity_recovered | identity_revoked | identity_revision_changed.
Definition reason_name (r : RevalidationReason) : string :=
  match r with
  | identity_recovered => "identity_recovered" | identity_revoked => "identity_revoked"
  | identity_revision_changed => "identity_revision_changed"
  end.

Definition revalidatable (identityAddress : string) (l : IdentityLinkRow) : bool :=
  String.eqb (vl_network l) "VRSCTEST" && String.eqb (vl_identity_address l) identityAddress
  && bool_decide (vl_state l = ils_active).

Fixpoint doubt_links (reason : RevalidationReason) (context : CommandContext)
    (links : list (string * IdentityLinkRow)) : LM unit :=
  match links with
  | [] => ret tt
  | (i, link) :: rest =>
    run* updateLink i (link_doubted (reason_name reason)) in
    run* link_audit context "requireVerusIdentityRevalidation" "verus_identity_link" (vl_external_reference link)
           (Some "active") (Some "revalidation_required") in
    doubt_links reason context rest
  end.

Definition requireRevalidation_tx (identityAddress : string) (reason : RevalidationReason)
    (context : CommandContext) : LM Z :=
  let* links := gets (fun d => List.filter (fun kv => revalidatable identityAddress (snd kv))
                                 (map_to_list (ld_link d))) in
  run* doubt_links reason context links in
  ret (Z.of_nat (length links)).

Definition requireRevalidation (env : nat -> TxAttempt) (identityAddress : string) (reason : RevalidationReason)
    (context : CommandContext) : LM Z :=
  inSerializableTransaction env (requireRevalidation_tx identityAddress reason context).
End repository.
