(* ===== verification/LinkSpec.v ===== *)
(** * LinkSpec: what VerusID linking promises.

    An abstract account of wallet challenges and identity links: who asked
    for a challenge, until when, how it ended, and which identities an
    account has linked.  [link_step] says what may happen; the invariants are
    proved here by rule induction, and LinkFacts.v proves that every method
    of the repository takes such steps only. *)
From S2P Require Import Prelude LinkDatabase Authorization.
Local Open Scope Z_scope.

Inductive ChallengeStatus : Type :=
| ch_presented
| ch_consumed (identity digest : string) (at_ : Z)
| ch_expired
| ch_cancelled
| ch_other.    (* a state that only the lifecycle commands lead to *)

Record ChallengeView : Type := {
  cv_account : string;
  cv_domain : TrustDomain;
  cv_request : string;
  cv_expires : Z;
  cv_status : ChallengeStatus;
}.

Record LinkView : Type := {
  kv_reference : string;
  kv_account : string;
  kv_domain : TrustDomain;
  kv_identity : string;
  kv_state : identity_link_state;
}.

Record Linking : Type := {
  sp_challenge : gmap string ChallengeView;
  sp_link : gmap string LinkView;
}.

Definition ended (s : ChallengeStatus) (c : ChallengeView) : ChallengeView := {|
  cv_account := cv_account c; cv_domain := cv_domain c; cv_request := cv_request c; cv_expires := cv_expires c;
  cv_status := s |}.
Definition put_challenge (i : string) (c : ChallengeView) (s : Linking) : Linking :=
  {| sp_challenge := <[i := c]> (sp_challenge s); sp_link := sp_link s |}.
Definition put_link (j : string) (l : LinkView) (s : Linking) : Linking :=
  {| sp_challenge := sp_challenge s; sp_link := <[j := l]> (sp_link s) |}.
Definition restate (st : identity_link_state) (l : LinkView) : LinkView := {|
  kv_reference := kv_reference l; kv_account := kv_account l; kv_domain := kv_domain l;
  kv_identity := kv_identity l; kv_state := st |}.
Definition linked (reference : string) (c : ChallengeView) (identity : string) : LinkView := {|
  kv_reference := reference; kv_account := cv_account c; kv_domain := cv_domain c; kv_identity := identity; kv_state := ils_active |}.

Definition is_pair (account identity : string) (l : LinkView) : Prop :=
  kv_account l = account /\ kv_identity l = identity.

(** The link that a completion writes: the account's link of the identity,
    or a new one when there is none. *)
Inductive writes (s : Linking) (c : ChallengeView) (identity : string) : string -> LinkView -> Prop :=
| writes_again j l : sp_link s !! j = Some l -> is_pair (cv_account c) identity l ->
    writes s c identity j (restate ils_active l)
| writes_new j reference : sp_link s !! j = None ->
    (forall j' l, sp_link s !! j' = Some l -> ~ is_pair (cv_account c) identity l) ->
    writes s c identity j (linked reference c identity).

(** What happens to one challenge, or to links. *)
Inductive LinkEvent : Type :=
| Presented (account request : string)
| Completed (request identity digest : string) (at_ : Z)
| Lapsed (account request : string) (at_ : Z)
| Cancelled (account : string) (at_ : Z)
| Unlinked (account : string)
| Doubted (identity : string).

Definition doubted (identity : string) (l : LinkView) : LinkView :=
  if bool_decide (kv_identity l = identity /\ kv_state l = ils_active)
  then restate ils_revalidation_required l else l.

Inductive link_step (s : Linking) : LinkEvent -> Linking -> Prop :=
| step_present i c : sp_challenge s !! i = None ->
    (forall j b, sp_challenge s !! j = Some b -> cv_request b <> cv_request c) ->
    cv_status c = ch_presented ->
    link_step s (Presented (cv_account c) (cv_request c)) (put_challenge i c s)
| step_complete i c j l identity digest at_ : sp_challenge s !! i = Some c ->
    cv_status c = ch_presented -> at_ < cv_expires c -> writes s c identity j l ->
    link_step s (Completed (cv_request c) identity digest at_)
      (put_challenge i (ended (ch_consumed identity digest at_) c) (put_link j l s))
| step_lapse i c at_ : sp_challenge s !! i = Some c -> cv_status c = ch_presented -> cv_expires c <= at_ ->
    link_step s (Lapsed (cv_account c) (cv_request c) at_) (put_challenge i (ended ch_expired c) s)
| step_cancel i c at_ : sp_challenge s !! i = Some c -> cv_status c = ch_presented -> at_ < cv_expires c ->
    link_step s (Cancelled (cv_account c) at_) (put_challenge i (ended ch_cancelled c) s)
| step_unlink j l : sp_link s !! j = Some l -> kv_state l <> ils_unlinked ->
    link_step s (Unlinked (kv_account l)) (put_link j (restate ils_unlinked l) s)
| step_doubt identity :
    link_step s (Doubted identity) {| sp_challenge := sp_challenge s; sp_link := doubted identity <$> sp_link s |}.

Inductive reachable : Linking -> Prop :=
| reach_empty : reachable {| sp_challenge := ∅; sp_link := ∅ |}
| reach_step s e s' : reachable s -> link_step s e s' -> reachable s'.

(** ** Invariants *)

(** A consumed challenge of the account for the identity, consumed in time. *)
Definition proved_by (s : Linking) (account identity : string) (domain : TrustDomain) : Prop :=
  exists i c digest at_, sp_challenge s !! i = Some c /\ cv_account c = account /\ cv_domain c = domain /\
    cv_status c = ch_consumed identity digest at_ /\ at_ < cv_expires c.

Record linking_ok (s : Linking) : Prop := {
  lk_proved : forall j l, sp_link s !! j = Some l -> proved_by s (kv_account l) (kv_identity l) (kv_domain l);
  lk_recorded : forall i c identity digest at_, sp_challenge s !! i = Some c ->
    cv_status c = ch_consumed identity digest at_ ->
    exists j l, sp_link s !! j = Some l /\ is_pair (cv_account c) identity l;
  lk_one : forall j j' l l', sp_link s !! j = Some l -> sp_link s !! j' = Some l' ->
    is_pair (kv_account l) (kv_identity l) l' -> j = j';
  lk_request : forall i i' c c', sp_challenge s !! i = Some c -> sp_challenge s !! i' = Some c' ->
    cv_request c = cv_request c' -> i = i';
}.

(** How a challenge moves: it stays, or a presented one ends. *)
Definition challenge_moves (c c' : ChallengeView) : Prop :=
  c' = c \/ (cv_status c = ch_presented /\ exists st, c' = ended st c).

Lemma moves_put i c c' (s : gmap string ChallengeView) :
  s !! i = Some c -> challenge_moves c c' -> forall k x, s !! k = Some x ->
  exists x', <[i := c']> s !! k = Some x' /\ challenge_moves x x'.
Proof.
  intros Hi Hm k x Hx. destruct (decide (i = k)) as [->|Hne].
  - exists c'. rewrite lookup_insert_eq. assert (x = c) as -> by congruence. done.
  - exists x. rewrite lookup_insert_ne by done. split; [done|by left].
Qed.

Lemma step_moves s e s' : link_step s e s' ->
  forall i c, sp_challenge s !! i = Some c -> exists c', sp_challenge s' !! i = Some c' /\ challenge_moves c c'.
Proof.
  intros Hstep. destruct Hstep as [i c Hnew _ _|i c j l identity digest t Hi Hp _ _|i c t Hi Hp _|i c t Hi Hp _|j l _ _|identity];
    simpl; intros k x Hk.
  - exists x. rewrite lookup_insert_ne by congruence. split; [done|by left].
  - eapply moves_put; [exact Hi| |exact Hk]. right. eauto.
  - eapply moves_put; [exact Hi| |exact Hk]. right. eauto.
  - eapply moves_put; [exact Hi| |exact Hk]. right. eauto.
  - exists x. split; [done|by left].
  - exists x. split; [done|by left].
Qed.

(** A link keeps its reference, account, domain and identity. *)
Lemma step_links s e s' : linking_ok s -> link_step s e s' ->
  forall j l, sp_link s !! j = Some l -> exists st, sp_link s' !! j = Some (restate st l).
Proof.
  assert (Hid : forall l, restate (kv_state l) l = l) by by intros [].
  intros Hok Hstep. destruct Hstep as [i c _ _ _|i c j l identity digest t Hi Hp _ Hw|i c t _ _ _|i c t _ _ _|j l Hj _|identity];
    simpl; intros k x Hk; try (exists (kv_state x); by rewrite Hid).
  - destruct (decide (j = k)) as [->|Hne]; [|exists (kv_state x); by rewrite lookup_insert_ne, Hid by done].
    rewrite lookup_insert_eq. destruct Hw as [k l0 Hl0 _|k reference Hnone _]; [|congruence].
    exists ils_active. assert (x = l0) as -> by congruence. done.
  - destruct (decide (j = k)) as [->|Hne]; [|exists (kv_state x); by rewrite lookup_insert_ne, Hid by done].
    exists ils_unlinked. rewrite lookup_insert_eq. assert (x = l) as -> by congruence. done.
  - rewrite lookup_fmap, Hk. simpl. unfold doubted. case_bool_decide; [eauto|]. exists (kv_state x). by rewrite Hid.
Qed.

(** A proof stays one. *)
Lemma proved_kept s e s' account identity domain :
  link_step s e s' -> proved_by s account identity domain -> proved_by s' account identity domain.
Proof.
  intros Hstep (i & c & digest & t & Hi & Ha & Hd & Hst & Hlt).
  destruct (step_moves s e s' Hstep i c Hi) as (c' & Hi' & [->|[Hp _]]); [|congruence].
  by exists i, c, digest, t.
Qed.

(** The link that a completion writes has the account, the identity and, if
    new, the domain of the challenge; no other link has the pair. *)
Lemma writes_pair s c identity j l :
  linking_ok s -> writes s c identity j l ->
  is_pair (cv_account c) identity l /\
  (forall j' l', sp_link s !! j' = Some l' -> is_pair (cv_account c) identity l' -> j' = j) /\
  ((exists l0, sp_link s !! j = Some l0 /\ kv_domain l = kv_domain l0 /\ is_pair (cv_account c) identity l0) \/
   kv_domain l = cv_domain c).
Proof.
  intros Hok Hw. destruct Hw as [j l0 Hj Hp|j reference Hj Hnone].
  - split; [exact Hp|]. split; [|left; by exists l0].
    intros j' l' Hj' [Ha Hi]. destruct Hp as [Ha0 Hi0]. symmetry. eapply (lk_one s Hok j j' l0 l'); eauto.
    split; congruence.
  - split; [done|]. split; [|by right]. intros j' l' Hj' Hp. by destruct (Hnone j' l' Hj').
Qed.

Lemma is_pair_restate st l a i : is_pair a i (restate st l) <-> is_pair a i l.
Proof. done. Qed.

(** The pairs and the proofs survive a change of states. *)
Lemma restated_ok s (f : string -> LinkView -> LinkView) :
  linking_ok s -> (forall j l, exists st, f j l = restate st l) ->
  linking_ok {| sp_challenge := sp_challenge s; sp_link := map_imap (fun j l => Some (f j l)) (sp_link s) |}.
Proof.
  intros [Hpr Hrec Hone Hreq] Hf.
  assert (Hl : forall j l', map_imap (fun j l => Some (f j l)) (sp_link s) !! j = Some l' ->
    exists l st, sp_link s !! j = Some l /\ l' = restate st l).
  { intros j l'. rewrite map_lookup_imap. destruct (sp_link s !! j) as [l|] eqn:Hj; [|done]. simpl.
    intros [= <-]. destruct (Hf j l) as [st ->]. eauto. }
  split; simpl.
  - intros j l' (l & st & Hj & ->)%Hl. exact (Hpr j l Hj).
  - intros i c identity digest t Hi Hst. destruct (Hrec _ _ _ _ _ Hi Hst) as (j & l & Hj & Hp).
    exists j, (f j l). rewrite map_lookup_imap, Hj. simpl. destruct (Hf j l) as [st ->]. by split.
  - intros j j' l l' (l0 & st & Hj & ->)%Hl (l1 & st' & Hj' & ->)%Hl Hp. by eapply Hone.
  - exact Hreq.
Qed.

Lemma challenge_put_ok s i c st :
  linking_ok s -> sp_challenge s !! i = Some c -> cv_status c = ch_presented ->
  (forall identity digest at_, st <> ch_consumed identity digest at_) ->
  linking_ok (put_challenge i (ended st c) s).
Proof.
  intros [Hpr Hrec Hone Hreq] Hi Hp Hst. split; simpl; [| |exact Hone|].
  - intros j l Hj. destruct (Hpr j l Hj) as (k & b & digest & t & Hk & ? & ? & Hb & ?).
    exists k, b, digest, t. simpl. rewrite lookup_insert_ne by congruence. done.
  - intros k b identity digest t Hk Hb. apply lookup_insert_Some in Hk as [[<- <-]|[_ Hk]]; [by destruct (Hst identity digest t)|].
    eauto.
  - intros k k' b b' Hk Hk' He. apply lookup_insert_Some in Hk as [[<- <-]|[? Hk]];
      apply lookup_insert_Some in Hk' as [[<- <-]|[? Hk']]; 
      [done|exact (Hreq _ _ _ _ Hi Hk' He)|exact (Hreq _ _ _ _ Hk Hi He)|exact (Hreq _ _ _ _ Hk Hk' He)].
Qed.

Lemma present_ok s i c :
  linking_ok s -> sp_challenge s !! i = None ->
  (forall j b, sp_challenge s !! j = Some b -> cv_request b <> cv_request c) -> cv_status c = ch_presented ->
  linking_ok (put_challenge i c s).
Proof.
  intros [Hpr Hrec Hone Hreq] Hi Hnew Hp. split; simpl; [| |exact Hone|].
  - intros j l Hj. destruct (Hpr j l Hj) as (k & b & digest & t & Hk & ? & ? & Hb & ?).
    exists k, b, digest, t. simpl. rewrite lookup_insert_ne by congruence. done.
  - intros k b identity digest t Hk Hb. apply lookup_insert_Some in Hk as [[<- <-]|[_ Hk]]; [congruence|eauto].
  - intros k k' b b' Hk Hk' He. apply lookup_insert_Some in Hk as [[<- <-]|[? Hk]];
      apply lookup_insert_Some in Hk' as [[<- <-]|[? Hk']]; [done| | |by eapply Hreq].
    + by destruct (Hnew k' b' Hk').
    + by destruct (Hnew k b Hk).
Qed.

Lemma complete_ok s i c j l identity digest at_ :
  linking_ok s -> sp_challenge s !! i = Some c -> cv_status c = ch_presented -> at_ < cv_expires c ->
  writes s c identity j l ->
  linking_ok (put_challenge i (ended (ch_consumed identity digest at_) c) (put_link j l s)).
Proof.
  intros Hok Hi Hp Hlt Hw. destruct (writes_pair s c identity j l Hok Hw) as (Hpair & Honly & Hdom).
  pose proof (proved_kept s _ _ (kv_account l) (kv_identity l) (kv_domain l)
    (step_complete s i c j l identity digest at_ Hi Hp Hlt Hw)) as Hkept.
  destruct Hok as [Hpr Hrec Hone Hreq]. split; simpl.
  - intros k x Hk. apply lookup_insert_Some in Hk as [[<- <-]|[_ Hk]].
    + destruct Hpair as [Ha Hid]. destruct Hdom as [(l0 & Hj & Hd & [Ha0 Hid0])|Hd].
      * rewrite Ha, Hid, Hd in *. rewrite <- Ha0, <- Hid0 in *. apply Hkept. exact (Hpr j l0 Hj).
      * exists i, (ended (ch_consumed identity digest at_) c), digest, at_. simpl.
        rewrite lookup_insert_eq, Ha, Hid, Hd. done.
    + destruct (Hpr k x Hk) as (k' & b & dg & t & Hk' & ? & ? & Hb & ?).
      exists k', b, dg, t. simpl. rewrite lookup_insert_ne by congruence. done.
  - intros k b id dg t Hk Hb. apply lookup_insert_Some in Hk as [[<- <-]|[_ Hk]].
    + injection Hb as <- <- <-. exists j, l. by rewrite lookup_insert_eq.
    + destruct (Hrec _ _ _ _ _ Hk Hb) as (j' & l' & Hj' & Hp'). destruct (decide (j = j')) as [<-|Hne].
      * exists j, l. rewrite lookup_insert_eq. split; [done|]. destruct Hdom as [(l0 & Hj & _ & Hp0)|_].
        -- assert (l' = l0) as -> by congruence. destruct Hp' as [<- <-], Hp0 as [? ?], Hpair as [? ?].
           split; congruence.
        -- destruct Hw as [j l1 Hj1 Hp1|j reference Hnone _]; [|congruence]. assert (l' = l1) as -> by congruence. exact Hp'.
      * exists j', l'. by rewrite lookup_insert_ne.
  - assert (Hx : forall k x, sp_link s !! k = Some x -> is_pair (kv_account l) (kv_identity l) x -> k = j).
    { destruct Hpair as [-> ->]. exact Honly. }
    intros k k' x x' Hk Hk' Hxx. apply lookup_insert_Some in Hk as [[<- <-]|[? Hk]];
      apply lookup_insert_Some in Hk' as [[<- <-]|[? Hk']]; [done| | |by eapply Hone].
    + symmetry. by eapply Hx.
    + eapply Hx; [exact Hk|]. destruct Hxx. by split.
  - intros k k' b b' Hk Hk' He. apply lookup_insert_Some in Hk as [[<- <-]|[? Hk]];
      apply lookup_insert_Some in Hk' as [[<- <-]|[? Hk']]; 
      [done|exact (Hreq _ _ _ _ Hi Hk' He)|exact (Hreq _ _ _ _ Hk Hi He)|exact (Hreq _ _ _ _ Hk Hk' He)].
Qed.

Lemma step_ok s e s' : linking_ok s -> link_step s e s' -> linking_ok s'.
Proof.
  intros Hok Hstep. destruct Hstep as [i c Hnew Hreq Hp|i c j l identity digest t Hi Hp Hlt Hw|i c t Hi Hp _|i c t Hi Hp _|j l Hj _|identity].
  - by apply present_ok.
  - by eapply complete_ok.
  - by apply challenge_put_ok.
  - by apply challenge_put_ok.
  - pose proof (restated_ok s (fun k x => if decide (k = j) then restate ils_unlinked x else x) Hok) as Hr.
    destruct s as [cs ls]. unfold put_link. simpl in *.
    replace (<[j:=restate ils_unlinked l]> ls)
      with (map_imap (fun k x => Some (if decide (k = j) then restate ils_unlinked x else x)) ls).
    + apply Hr. intros k x. case_decide; [eauto|]. exists (kv_state x). by destruct x.
    + apply map_eq. intros k. rewrite map_lookup_imap. destruct (decide (k = j)) as [->|Hne].
      * by rewrite Hj, lookup_insert_eq.
      * rewrite lookup_insert_ne by done. by destruct (ls !! k).
  - pose proof (restated_ok s (fun _ => doubted identity) Hok) as Hr. destruct s as [cs ls]. simpl in *.
    replace (doubted identity <$> ls) with (map_imap (fun _ l => Some (doubted identity l)) ls).
    + apply Hr. intros _ l. unfold doubted. case_bool_decide; [eauto|]. exists (kv_state l). by destruct l.
    + apply map_eq. intros k. rewrite map_lookup_imap, lookup_fmap. by destruct (ls !! k).
Qed.

Lemma empty_ok : linking_ok {| sp_challenge := ∅; sp_link := ∅ |}.
Proof. split; simpl; intros; simplify_map_eq. Qed.

(** Whatever happened, the state is consistent. *)
Lemma reachable_ok s : reachable s -> linking_ok s.
Proof. induction 1; [exact empty_ok|by eapply step_ok]. Qed.
