(* ===== verification/LinkFacts.v ===== *)
(** * LinkFacts: the link repository keeps what LinkSpec.v promises.

    The tables are read as the abstract state of LinkSpec.v; every method of
    the repository, under any faults and with the authentication repository
    working on the same accounts in between, takes only the steps that its
    caller may cause. *)
From S2P Require Import Prelude Errors Text Json Lifecycles Transition LifecycleRepository CoreInvariant.
From S2P Require Import Database Authorization AuthDatabase Consent Auth Passkey.
From S2P Require Import AuthRepository AuthSystem AuthInvariant AuthFacts CoreDatabase CoreEffects RequestEffects LinkDatabase.
From S2P Require Import VerusLinkRepository LinkSpec.
Local Open Scope Z_scope.

(** ** Histories *)

Inductive LinkOp : Type :=
| LCreate (input : CreateWalletLinkChallengeInput) (context : CommandContext)
| LComplete (input : CompleteWalletLinkChallengeInput) (context : CommandContext)
| LPoll (account token : string) (now : Z) (context : CommandContext)
| LCancel (account challenge : string) (at_ : Z) (context : CommandContext)
| LUnlink (account link : string) (at_ : Z) (context : CommandContext)
| LRevalidate (identity : string) (reason : RevalidationReason) (context : CommandContext)
| LAuth (o : AuthOp).

Section links.
Context `{Platform} (sessionKeyVersions : TrustDomain -> string).

Definition run_link (env : nat -> TxAttempt) (o : LinkOp) (d : LinkDb) : LinkDb :=
  match o with
  | LCreate i c => snd (createLinkChallenge env i c d)
  | LComplete i c => snd (completeChallenge env i c d)
  | LPoll a tk now c => snd (pollChallenge env a tk now c d)
  | LCancel a ch at_ c => snd (cancelChallenge env a ch at_ c d)
  | LUnlink a l at_ c => snd (unlink env a l at_ c d)
  | LRevalidate i r c => snd (requireRevalidation env i r c d)
  | LAuth o => with_auth (run_op sessionKeyVersions env o (ld_auth d)) d
  end.

Fixpoint run_links (ops : list (LinkOp * (nat -> TxAttempt))) (d : LinkDb) : LinkDb :=
  match ops with [] => d | (o, env) :: ops' => run_links ops' (run_link env o d) end.

(** ** The abstract state *)

Definition status_of (c : LinkChallengeRow) : ChallengeStatus :=
  if bool_decide (wl_state c = wcs_presented) then ch_presented
  else if bool_decide (wl_state c = wcs_expired) then ch_expired
  else if bool_decide (wl_state c = wcs_cancelled) then ch_cancelled
  else if bool_decide (wl_state c = wcs_consumed) then
    match wl_linked_identity_address c, wl_response_digest c, wl_consumed_at c with
    | Some identity, Some digest, Some at_ => ch_consumed identity digest at_
    | _, _, _ => ch_other
    end
  else ch_other.

Definition challenge_view (c : LinkChallengeRow) : ChallengeView := {|
  cv_account := wl_auth_account_id c; cv_domain := wl_trust_domain c; cv_request := wl_request_id c;
  cv_expires := wl_expires_at c; cv_status := status_of c |}.
Definition link_view (l : IdentityLinkRow) : LinkView := {|
  kv_reference := vl_external_reference l; kv_account := vl_auth_account_id l; kv_domain := vl_trust_domain l; kv_identity := vl_identity_address l;
  kv_state := vl_state l |}.
Definition linking (d : LinkDb) : Linking :=
  {| sp_challenge := challenge_view <$> ld_challenge d; sp_link := link_view <$> ld_link d |}.

(** The account under an id has the reference. *)
Definition named (d : LinkDb) (account reference : string) : Prop :=
  exists a, ad_account (ld_auth d) !! account = Some a /\ aa_external_reference a = reference.

(** The steps that a call may cause. *)
Definition causes (d : LinkDb) (o : LinkOp) (e : LinkEvent) : Prop :=
  match o, e with
  | LCreate i _, Presented account request =>
    named d account (cw_accountReference i) /\ request = cw_requestId i
  | LComplete i _, Completed request identity digest at_ =>
    request = cl_requestId i /\ identity = cl_identityAddress i /\ digest = cl_responseDigest i
    /\ at_ = cl_completedAt i
  | LComplete i _, Lapsed _ request at_ => request = cl_requestId i /\ at_ = cl_completedAt i
  | LPoll a _ now _, Lapsed account _ at_ => named d account a /\ at_ = now
  | LCancel a _ t _, (Lapsed account _ at_ | Cancelled account at_) => named d account a /\ at_ = t
  | LUnlink a _ _ _, Unlinked account => named d account a
  | LRevalidate i _ _, Doubted identity => identity = i
  | _, _ => False
  end.

(** ** What the programs read and write *)

Definition link_tables (d : LinkDb) := (auth_tables (ld_auth d), ld_challenge d, ld_link d).
Definition same_link (d d' : LinkDb) : Prop := link_tables d = link_tables d'.
#[global] Instance same_link_equiv : Equivalence same_link.
Proof. unfold same_link. split; [done|by intros ??|]. intros ??? ->. done. Qed.

Lemma link_rollback (before after : LinkDb) : same_link before (rollback before after).
Proof. done. Qed.

Lemma on_store_keeps {A} (c : M A) : keeps link_tables (on_store c).
Proof.
  intros d. unfold on_store. destruct (on_base c (ld_auth d)) as [r a] eqn:Hb. apply on_base_tables in Hb.
  unfold same_auth in Hb. simpl. unfold link_tables. simpl. by rewrite Hb.
Qed.

Lemma link_audit_keeps context command type reference prior next :
  keeps link_tables (link_audit context command type reference prior next).
Proof. unfold link_audit. apply keeps_bind; [apply on_store_keeps|]. intros ?. keeps_steps. Qed.

Lemma selected_run p d r d' :
  selected p d = (Ok r, d') ->
  d' = d /\ ld_challenge d !! jc_id r = Some (jc_row r) /\
  named d (wl_auth_account_id (jc_row r)) (jc_account_reference r) /\ p r = true.
Proof.
  unfold selected, challengeSelect. intros Hs. apply bindP_ok in Hs as (found & d1 & [= <- <-] & Hs).
  destruct (find _ _) as [x|] eqn:Hf; [|done]. injection Hs as <- <-.
  apply find_some in Hf as [Hin Hp]. split_and!; [done| | |done];
    apply list_elem_of_In, list_elem_of_omap in Hin as ([i c] & Hin & Hj); simpl in Hj;
    apply elem_of_map_to_list in Hin; unfold challenge_joined in Hj;
    destruct (ad_account _ !! _) as [a|] eqn:Ha; simplify_eq; [done|]. simpl. by exists a.
Qed.

Lemma updateLinkChallenge_run i f d u d' c :
  updateLinkChallenge i f d = (Ok u, d') -> ld_challenge d !! i = Some c ->
  d' = with_link_challenge (<[i := f c]>) d /\ link_challenge_checks (f c) = true.
Proof.
  unfold updateLinkChallenge. intros Hu Hc. apply bindP_ok in Hu as (d0 & d1 & [= <- <-] & Hu). unfold id in Hu.
  rewrite Hc in Hu. apply bindP_ok in Hu as (? & d1 & [_ <-]%pair_equal_spec & Hu).
  apply bindP_ok in Hu as (? & d1 & [Hk <-]%pair_equal_spec & Hu). injection Hu as _ <-. split; [done|].
  apply throwIf_ok in Hk. by apply negb_false_iff.
Qed.

Lemma updateLink_run i f d u d' l :
  updateLink i f d = (Ok u, d') -> ld_link d !! i = Some l ->
  d' = with_link (<[i := f l]>) d /\ link_checks (f l) = true.
Proof.
  unfold updateLink. intros Hu Hc. apply bindP_ok in Hu as (d0 & d1 & [= <- <-] & Hu). unfold id in Hu.
  rewrite Hc in Hu. apply bindP_ok in Hu as (? & d1 & [_ <-]%pair_equal_spec & Hu).
  apply bindP_ok in Hu as (? & d1 & [Hk <-]%pair_equal_spec & Hu). injection Hu as _ <-. split; [done|].
  apply throwIf_ok in Hk. by apply negb_false_iff.
Qed.

Lemma find_link_run a i d r d' :
  find_link a i d = (Ok r, d') -> d' = d /\
  match r with
  | Some (j, l) => ld_link d !! j = Some l /\ same_identity a i l = true
  | None => forall j l, ld_link d !! j = Some l -> same_identity a i l = false
  end.
Proof.
  unfold find_link. intros [= <- <-]. split; [done|]. unfold select_row.
  destruct (find _ _) as [[j l]|] eqn:Hf.
  - apply find_some in Hf as [Hin%list_elem_of_In%elem_of_map_to_list Hp]. done.
  - intros j l Hj. apply (find_none _ _ Hf (j, l)), list_elem_of_In, elem_of_map_to_list, Hj.
Qed.

Lemma insertLinkChallenge_run i c d u d' :
  insertLinkChallenge i c d = (Ok u, d') ->
  d' = with_link_challenge (<[i := c]>) d /\ link_challenge_checks c = true /\ ld_challenge d !! i = None /\
  forall j b, ld_challenge d !! j = Some b -> challenge_collides c b = false.
Proof.
  unfold insertLinkChallenge. intros Hu. apply bindP_ok in Hu as (d0 & d1 & [= <- <-] & Hu). unfold id in Hu.
  apply bindP_ok in Hu as (? & d1 & [Hk <-]%pair_equal_spec & Hu).
  apply bindP_ok in Hu as (? & d1 & [Hc <-]%pair_equal_spec & Hu). injection Hu as _ <-.
  apply throwIf_ok, negb_false_iff in Hk. apply throwIf_ok, orb_false_iff in Hc as [Hi Hc].
  split_and!; [done|done|by destruct (ld_challenge d !! i)|]. by apply has_row_false.
Qed.

Lemma insertLink_run i l d u d' :
  insertLink i l d = (Ok u, d') ->
  d' = with_link (<[i := l]>) d /\ link_checks l = true /\ ld_link d !! i = None.
Proof.
  unfold insertLink. intros Hu. apply bindP_ok in Hu as (d0 & d1 & [= <- <-] & Hu). unfold id in Hu.
  apply bindP_ok in Hu as (? & d1 & [_ <-]%pair_equal_spec & Hu).
  apply bindP_ok in Hu as (? & d1 & [Hk <-]%pair_equal_spec & Hu).
  apply bindP_ok in Hu as (? & d1 & [Hc <-]%pair_equal_spec & Hu). injection Hu as _ <-.
  apply throwIf_ok, negb_false_iff in Hk. apply throwIf_ok, orb_false_iff in Hc as [Hi _].
  split_and!; [done|done|by destruct (ld_link d !! i)].
Qed.

Lemma link_account_run reference t d a d' :
  link_account reference t d = (Ok a, d') ->
  d' = d /\ aa_state a = as_active /\ aa_trust_domain a = t /\ aa_external_reference a = reference /\
  exists i, ad_account (ld_auth d) !! i = Some a.
Proof.
  unfold link_account. intros Hu. apply bindP_ok in Hu as (found & d1 & [= <- <-] & Hu).
  destruct (select_one _ _) as [b|] eqn:Hs; [|done]. apply select_one_some in Hs as (i & Hi & Hp).
  apply bindP_ok in Hu as (? & d1 & [_ <-]%pair_equal_spec & Hu). injection Hu as <- <-.
  unfold has_reference in Hp. rewrite !andb_true_iff, !bool_decide_eq_true, String.eqb_eq in Hp.
  destruct Hp as [[Href Hd] Hact]. split_and!; try done. by exists i.
Qed.

(** ** Well-formed tables *)

Record link_ok (d : LinkDb) : Prop := {
  lo_auth : auth_ok (ld_auth d);
  lo_challenge : forall i c, ld_challenge d !! i = Some c -> link_challenge_checks c = true;
  lo_link : forall j l, ld_link d !! j = Some l -> link_checks l = true /\ vl_network l = "VRSCTEST";
}.

Lemma same_link_ok d d' : same_link d d' -> link_ok d -> link_ok d'.
Proof.
  unfold same_link, link_tables. intros [= Ha Hs Hc Hb Ho Hk Hp Hm Hch Hl] [Hok ? ?].
  assert (same_auth (ld_auth d) (ld_auth d')) by (unfold same_auth, auth_tables; congruence).
  split; [by eapply auth_ok_same|by rewrite <- Hch|by rewrite <- Hl].
Qed.

Lemma same_link_linking d d' : same_link d d' -> linking d' = linking d.
Proof. unfold same_link, link_tables, linking. intros [=]. congruence. Qed.

Lemma same_link_named d d' account reference : same_link d d' -> named d account reference -> named d' account reference.
Proof.
  unfold same_link, link_tables, auth_tables, named. intros Hs. assert (ad_account (ld_auth d) = ad_account (ld_auth d')) as ->
    by congruence. done.
Qed.

Lemma same_link_causes d d' o e : same_link d d' -> causes d' o e -> causes d o e.
Proof.
  intros Hs%symmetry. pose proof (fun a r => same_link_named d' d a r Hs) as Hn.
  destruct o, e; simpl; naive_solver.
Qed.

Lemma put_challenge_linking i c d :
  linking (with_link_challenge (<[i := c]>) d) = put_challenge i (challenge_view c) (linking d).
Proof. unfold linking, put_challenge. simpl. by rewrite fmap_insert. Qed.

Lemma put_link_linking i l d : linking (with_link (<[i := l]>) d) = put_link i (link_view l) (linking d).
Proof. unfold linking, put_link. simpl. by rewrite fmap_insert. Qed.

Lemma put_challenge_ok i c d :
  link_ok d -> link_challenge_checks c = true -> link_ok (with_link_challenge (<[i := c]>) d).
Proof.
  intros [] Hc. split; try done. intros j b. simpl. rewrite lookup_insert_Some. naive_solver.
Qed.

Lemma put_link_ok i l d :
  link_ok d -> link_checks l = true -> vl_network l = "VRSCTEST" -> link_ok (with_link (<[i := l]>) d).
Proof.
  intros [] Hc Hn. split; try done. intros j b. simpl. rewrite lookup_insert_Some. naive_solver.
Qed.

(** *** As the domain core sees it *)

(** The columns of a challenge that the lifecycle repository touches. *)
Definition core_challenge (c : LinkChallengeRow) : WalletChallengeRow := {|
  wc_external_reference := wl_external_reference c; wc_state := wl_state c; wc_expires_at := wl_expires_at c;
  wc_consumed_at := wl_consumed_at c; wc_rejection_reason := wl_rejection_reason c; wc_version := wl_version c |}.
Definition core_challenges (d : LinkDb) : gmap string WalletChallengeRow := core_challenge <$> ld_challenge d.

(** At most one write of "wallet_challenge", of a kind that the steps of
    CoreSystem.v allow other code. *)
Definition challenge_written (d d' : LinkDb) : Prop :=
  written WalletChallengeTable.wallet_challenge_lifecycle_table (core_challenges d) (core_challenges d').

Lemma challenge_written_same d d' : ld_challenge d' = ld_challenge d -> challenge_written d d'.
Proof. intros He. apply written_not. unfold core_challenges. by rewrite He. Qed.

Lemma challenge_written_to d d' i c c' : ld_challenge d' = <[i := c']> (ld_challenge d) ->
  ld_challenge d !! i = Some c -> wl_state c = wcs_presented ->
  wl_external_reference c' = wl_external_reference c -> wl_version c' = wl_version c + 1 ->
  includes [wcs_consumed; wcs_cancelled; wcs_expired] (wl_state c') = true -> challenge_written d d'.
Proof.
  intros He Hi Hp Hr Hv Hst. refine (written_update _ _ i (core_challenge c) (core_challenge c') _ _ _ Hv Hr _ _).
  - unfold core_challenges. by rewrite lookup_fmap, Hi.
  - done.
  - simpl. rewrite Hp. apply includes_true in Hst. set_unfold in Hst. by destruct Hst as [->|[->|[->|[]]]].
  - done.
  - unfold core_challenges. by rewrite He, fmap_insert.
Qed.

Lemma challenge_written_new d d' i c : ld_challenge d !! i = None ->
  (forall j b, ld_challenge d !! j = Some b -> wl_external_reference b <> wl_external_reference c) ->
  ld_challenge d' = <[i := c]> (ld_challenge d) -> challenge_written d d'.
Proof.
  intros Hi Hfree He. refine (written_insert _ _ i (core_challenge c) _ _ _).
  - unfold core_challenges. by rewrite lookup_fmap, Hi.
  - intros j x (b & <- & Hb)%lookup_fmap_Some. by apply (Hfree j).
  - unfold core_challenges. by rewrite He, fmap_insert.
Qed.

Lemma same_link_challenge d d' : same_link d d' -> ld_challenge d' = ld_challenge d.
Proof. unfold same_link, link_tables. intros [=]. congruence. Qed.

(** A call of [o] led from [d] to [d']: it kept the tables and the references
    of the accounts, took at most one step, one that it may cause, and wrote
    at most one challenge, in a way the domain core is prepared for. *)
Definition steps (d : LinkDb) (o : LinkOp) (d' : LinkDb) : Prop :=
  linking d' = linking d \/ exists e, causes d o e /\ link_step (linking d) e (linking d').
Record moves (d : LinkDb) (o : LinkOp) (d' : LinkDb) : Prop := {
  mv_ok : link_ok d';
  mv_names : forall account reference, named d account reference -> named d' account reference;
  mv_step : steps d o d';
  mv_written : challenge_written d d';
}.

Lemma moves_same d o d' : link_ok d -> same_link d d' -> moves d o d'.
Proof.
  intros Hok Hs. split; [by eapply same_link_ok|intros ??; by apply same_link_named| |].
  - left. by apply same_link_linking.
  - by apply challenge_written_same, same_link_challenge.
Qed.

Lemma moves_from d d0 o d1 d' : same_link d d0 -> moves d0 o d1 -> same_link d1 d' -> moves d o d'.
Proof.
  intros Hs [Hok Hn Hm Hw] Hs'. split; [by eapply same_link_ok| | |].
  { intros a r Ha. eapply same_link_named; [exact Hs'|]. apply Hn. by eapply same_link_named. }
  2:{ unfold challenge_written, core_challenges in *.
      by rewrite (same_link_challenge _ _ Hs'), <- (same_link_challenge _ _ Hs). }
  unfold steps in *. rewrite (same_link_linking _ _ Hs'). rewrite (same_link_linking _ _ Hs) in Hm.
  destruct Hm as [Hm|(e & Hc & Hm)]; [by left|right]. exists e. split; [|done]. by eapply same_link_causes.
Qed.

Lemma transaction_moves {A} o env (work : LM A) d :
  link_ok d -> (forall d0 a d', link_ok d0 -> work d0 = (Ok a, d') -> moves d0 o d') ->
  moves d o (snd (inSerializableTransaction env work d)).
Proof.
  intros Hok Hw. destruct (transaction_cases same_link link_rollback env work d) as [Hs|(d0 & a & d' & Hs & Hrun & ->)].
  - by apply moves_same.
  - eapply moves_from; [exact Hs| |reflexivity]. eapply Hw; [|exact Hrun]. by eapply same_link_ok.
Qed.

(** A check before the work. *)
Lemma checked_moves {A B} o (r : result exn A) (k : A -> LM B) d :
  link_ok d -> (forall a, moves d o (snd (k a d))) -> moves d o (snd (bindP (lift r) k d)).
Proof. intros Hok Hk. destruct r; [apply Hk|]. by apply moves_same. Qed.

(** ** The methods *)

Lemma audit_then {A} context command type reference prior next (k : unit -> LM A) d a d' :
  bindP (link_audit context command type reference prior next) k d = (Ok a, d') ->
  exists d1, same_link d d1 /\ k tt d1 = (Ok a, d').
Proof.
  intros ([] & d1 & Ha & Hk)%bindP_ok. exists d1. split; [|done].
  symmetry. exact (keeps_run _ _ _ _ _ (link_audit_keeps _ _ _ _ _ _) Ha).
Qed.

Lemma draw_then {A} (k : string -> LM A) d a d' :
  bindP draw_id k d = (Ok a, d') -> exists i d1, same_link d d1 /\ k i d1 = (Ok a, d').
Proof.
  intros (i & d1 & Hd & Hk)%bindP_ok. exists i, d1. split; [|done].
  symmetry. exact (keeps_run link_tables _ _ _ _ (on_store_keeps newId) Hd).
Qed.

Lemma create_moves env input context d : link_ok d -> moves d (LCreate input context) (run_link env (LCreate input context) d).
Proof.
  intros Hok. unfold run_link, createLinkChallenge. repeat (apply checked_moves; [done|intros _]).
  apply transaction_moves; [done|]. clear d Hok. intros d a d' Hok Hrun. unfold createChallenge_tx in Hrun.
  apply bindP_ok in Hrun as (acc & d1 & (-> & _ & _ & Href & i & Hi)%link_account_run & Hrun).
  apply draw_then in Hrun as (k & d1 & Hs1 & Hrun).
  apply bindP_ok in Hrun as (u & d2 & (-> & Hc & Hnew & Hcol)%insertLinkChallenge_run & Hrun).
  match type of Hc with link_challenge_checks ?x = _ => set (row := x) in * end.
  apply audit_then in Hrun as (d2 & Hs2 & Hrun).
  apply bindP_ok in Hrun as (r & d3 & (-> & _)%selected_run & [= _ <-]).
  eapply moves_from; [exact Hs1| |exact Hs2]. pose proof (same_link_ok _ _ Hs1 Hok) as Hok1.
  split; [by apply put_challenge_ok|done| |eapply challenge_written_new; [exact Hnew| |reflexivity]].
  2:{ intros j b Hb He. specialize (Hcol j b Hb). unfold challenge_collides in Hcol. by rewrite He, String.eqb_refl in Hcol. }
  right. rewrite put_challenge_linking.
  exists (Presented (aa_id acc) (wl_request_id row)).
  split.
  - split; [|done]. eapply same_link_named; [exact Hs1|]. exists acc. split; [|done].
    by rewrite (table_keys _ _ _ _ (ok_account _ (lo_auth d Hok)) i acc Hi).
  - refine (step_present (linking d1) k (challenge_view row) _ _ _); [simpl; by rewrite lookup_fmap, Hnew| |done].
    simpl. intros j b (b0 & <- & Hb)%lookup_fmap_Some He. specialize (Hcol j b0 Hb).
    unfold challenge_collides in Hcol. rewrite !orb_false_iff, !String.eqb_neq in Hcol. simpl in *. tauto.
Qed.

(** A presented challenge past its expiry lapses. *)
Lemma expire_run context challenge at_ d u d' o :
  link_ok d -> ld_challenge d !! jc_id challenge = Some (jc_row challenge) ->
  wl_state (jc_row challenge) = wcs_presented -> wl_expires_at (jc_row challenge) <= at_ ->
  causes d o (Lapsed (wl_auth_account_id (jc_row challenge)) (wl_request_id (jc_row challenge)) at_) ->
  expire_challenge context challenge d = (Ok u, d') -> moves d o d'.
Proof.
  intros Hok Hrow Hst Hle Hcause Hrun. apply bindP_ok in Hrun as (v & d1 & Hu & Hrun).
  destruct (updateLinkChallenge_run _ _ _ _ _ _ Hu Hrow) as [-> Hc].
  pose proof (keeps_run _ _ _ _ _ (link_audit_keeps _ _ _ _ _ _) Hrun) as Hs.
  eapply moves_from; [reflexivity| |symmetry; exact Hs]. split;
    [by apply put_challenge_ok|done| |eapply challenge_written_to; [simpl; reflexivity|exact Hrow|done..]]. right.
  eexists. split; [exact Hcause|]. rewrite put_challenge_linking.
  assert (Hl : sp_challenge (linking d) !! jc_id challenge = Some (challenge_view (jc_row challenge))).
  { simpl. by rewrite lookup_fmap, Hrow. }
  exact (step_lapse (linking d) (jc_id challenge) _ at_ Hl ltac:(simpl; unfold status_of; by rewrite Hst) Hle).
Qed.

Lemma status_presented c : wl_state c = wcs_presented -> status_of c = ch_presented.
Proof. intros Hst. unfold status_of. by rewrite Hst. Qed.

Lemma write_link_run input challenge d r d' :
  link_ok d -> write_link input challenge d = (Ok r, d') ->
  exists j l d0 d1, same_link d d0 /\ same_link d1 d' /\ d1 = with_link (<[j := l]>) d0 /\
    link_checks l = true /\ vl_network l = "VRSCTEST" /\ vl_external_reference l = fst r /\
    writes (linking d) (challenge_view (jc_row challenge)) (cl_identityAddress input) j (link_view l).
Proof.
  intros Hok Hrun. unfold write_link in Hrun. apply bindP_ok in Hrun as (existing & d1 & [-> He]%find_link_run & Hrun).
  destruct existing as [[j l]|].
  - destruct He as [Hj Hp]. apply bindP_ok in Hrun as (u & d1 & Hu & [= <- <-]).
    destruct (updateLink_run _ _ _ _ _ _ Hu Hj) as [-> Hc].
    exists j, (link_reproved (proof_of input (jc_row challenge)) (cl_completedAt input) l), d. eexists.
    destruct (lo_link d Hok j l Hj) as [_ Hn]. split_and!; [done|done|done|done|done|done|].
    unfold same_identity in Hp. rewrite !andb_true_iff, !String.eqb_eq in Hp. destruct Hp as [[Ha _] Hi].
    apply (writes_again (linking d) (challenge_view (jc_row challenge)) _ j (link_view l)); [|done].
    simpl. by rewrite lookup_fmap, Hj.
  - apply draw_then in Hrun as (j & d1 & Hs1 & Hrun). apply draw_then in Hrun as (k & d2 & Hs2 & Hrun).
    apply bindP_ok in Hrun as (participant & d3 & Hp & Hrun).
    assert (d3 = d2) as ->.
    { destruct (nonempty _); [|by injection Hp]. apply bindP_ok in Hp as (i & d4 & Hi & [= _ <-]).
      unfold link_participantId in Hi. apply bindP_ok in Hi as (f & d5 & [= _ <-] & Hi).
      destruct f; [by injection Hi|done]. }
    apply bindP_ok in Hrun as (u & d3 & Hu & [= <- <-]). apply insertLink_run in Hu as (-> & Hc & Hnew).
    exists j. eexists _, d2, _. split_and!; [by transitivity d1|done|done|exact Hc|done|done|].
    apply (writes_new (linking d) (challenge_view (jc_row challenge))).
    + assert (Hl : ld_link d2 = ld_link d).
      { unfold same_link, link_tables in *. congruence. }
      simpl. by rewrite lookup_fmap, <- Hl, Hnew.
    + simpl. intros j' l' (l0 & <- & Hl0)%lookup_fmap_Some [Ha Hi]. specialize (He j' l0 Hl0).
      destruct (lo_link d Hok j' l0 Hl0) as [_ Hn]. unfold same_identity in He. simpl in Ha, Hi.
      by rewrite Ha, Hi, Hn, !String.eqb_refl in He.
Qed.

Lemma linking_challenge d i c : ld_challenge d !! i = Some c -> sp_challenge (linking d) !! i = Some (challenge_view c).
Proof. intros Hi. simpl. by rewrite lookup_fmap, Hi. Qed.
Lemma linking_link d j l : ld_link d !! j = Some l -> sp_link (linking d) !! j = Some (link_view l).
Proof. intros Hj. simpl. by rewrite lookup_fmap, Hj. Qed.

(** What one run of the completion does: it answers a replay, lets the
    challenge lapse, or consumes it and writes the link. *)
Inductive completion (input : CompleteWalletLinkChallengeInput) (d d' : LinkDb) : WalletLinkCompletion -> Prop :=
| completion_replay i c j l : d' = d -> ld_challenge d !! i = Some c -> wl_request_id c = cl_requestId input ->
    wl_state c = wcs_consumed -> wl_response_digest c = Some (cl_responseDigest input) ->
    wl_linked_identity_address c = Some (cl_identityAddress input) ->
    ld_link d !! j = Some l -> same_identity (wl_auth_account_id c) (cl_identityAddress input) l = true ->
    completion input d d' (link_completed true (vl_external_reference l) (cl_identityAddress input))
| completion_lapse i c context : ld_challenge d !! i = Some c -> wl_request_id c = cl_requestId input ->
    wl_state c = wcs_presented -> wl_expires_at c <= cl_completedAt input ->
    moves d (LComplete input context) d' -> completion input d d' challenge_expired
| completion_link i c j l : ld_challenge d !! i = Some c -> wl_request_id c = cl_requestId input ->
    wl_state c = wcs_presented -> cl_completedAt input < wl_expires_at c ->
    writes (linking d) (challenge_view c) (cl_identityAddress input) j l ->
    linking d' = put_challenge i (ended (ch_consumed (cl_identityAddress input) (cl_responseDigest input)
                                          (cl_completedAt input)) (challenge_view c)) (put_link j l (linking d)) ->
    link_ok d' -> (forall a r, named d a r -> named d' a r) -> challenge_written d d' ->
    completion input d d' (link_completed false (kv_reference l) (cl_identityAddress input)).

Lemma complete_tx_cases input context d r d' :
  link_ok d -> completeChallenge_tx input context d = (Ok r, d') -> completion input d d' r.
Proof.
  intros Hok Hrun. apply bindP_ok in Hrun as (ch & d1 & (-> & Hrow & _ & Hreq%String.eqb_eq)%selected_run & Hrun).
  cbv zeta in Hrun. case_bool_decide as Hst.
  { apply bindP_ok in Hrun as (? & d1 & [Hm <-]%pair_equal_spec & Hrun).
    apply throwIf_ok, orb_false_iff in Hm as [Hdg%negb_false_iff%bool_decide_eq_true Hid%negb_false_iff%bool_decide_eq_true].
    apply bindP_ok in Hrun as (l & d1 & Hl & [= <- <-]). unfold linkForAccountAndIdentity in Hl.
    apply bindP_ok in Hl as (found & d2 & [-> Hfound]%find_link_run & Hl). destruct found as [[j l']|]; [|done].
    injection Hl as <- <-. destruct Hfound as [Hj Hp]. by eapply completion_replay. }
  apply bindP_ok in Hrun as (? & d1 & [Hp <-]%pair_equal_spec & Hrun).
  apply throwIf_ok, negb_false_iff, bool_decide_eq_true in Hp.
  destruct (Z.leb_spec (wl_expires_at (jc_row ch)) (cl_completedAt input)) as [Hle|Hlt].
  { apply bindP_ok in Hrun as (u & d1 & He & [= <- <-]). eapply (completion_lapse _ _ _ _ _ context); try done.
    by eapply (expire_run context ch (cl_completedAt input)). }
  apply bindP_ok in Hrun as (written & d1 & Hw & Hrun).
  destruct (write_link_run _ _ _ _ _ Hok Hw) as (j & l & dx & dy & Hsx & Hsy & -> & Hlc & Hln & Href & Hwrites).
  apply bindP_ok in Hrun as (u & d2 & Hu & Hrun).
  assert (Hrow1 : ld_challenge d1 !! jc_id ch = Some (jc_row ch)).
  { unfold same_link, link_tables in *. simpl in Hsy. congruence. }
  destruct (updateLinkChallenge_run _ _ _ _ _ _ Hu Hrow1) as [-> Hc].
  apply audit_then in Hrun as (d3 & Hs3 & Hrun). apply audit_then in Hrun as (d4 & Hs4 & [= <- <-]).
  rewrite <- Href. assert (Hs34 := transitivity Hs3 Hs4).
  assert (Hok1 : link_ok d1).
  { eapply same_link_ok; [exact Hsy|]. apply put_link_ok; [by eapply same_link_ok|done|done]. }
  refine (completion_link _ _ _ _ _ j (link_view l) Hrow Hreq Hp Hlt Hwrites _ _ _ _).
  - rewrite (same_link_linking _ _ Hs34), put_challenge_linking, (same_link_linking _ _ Hsy), put_link_linking.
    by rewrite (same_link_linking _ _ Hsx).
  - eapply same_link_ok; [exact Hs34|]. by apply put_challenge_ok.
  - intros a' r' Hn. eapply same_link_named; [exact Hs34|]. apply (same_link_named _ _ a' r' Hsy).
    exact (same_link_named _ _ a' r' Hsx Hn).
  - eapply challenge_written_to; [|exact Hrow|exact Hp|..].
    { rewrite (same_link_challenge _ _ Hs34). simpl. rewrite (same_link_challenge _ _ Hsy). simpl.
      by rewrite (same_link_challenge _ _ Hsx). }
    all: done.
Qed.

Lemma completion_moves input context d d' r :
  link_ok d -> completion input d d' r -> moves d (LComplete input context) d'.
Proof.
  intros Hok Hc. destruct Hc as [i c j l -> _ _ _ _ _ _ _|i c context' _ _ _ _ [Hok' Hn Hs Hcw]
    |i c j l Hi Hreq Hst Hlt Hw Hl Hok' Hn Hcw].
  - by apply moves_same.
  - by split.
  - split; [done|done| |done]. right.
    exists (Completed (wl_request_id c) (cl_identityAddress input) (cl_responseDigest input) (cl_completedAt input)).
    split; [by rewrite Hreq|]. rewrite Hl.
    exact (step_complete (linking d) i _ j l (cl_identityAddress input) (cl_responseDigest input)
      (cl_completedAt input) (linking_challenge d _ _ Hi) (status_presented _ Hst) Hlt Hw).
Qed.

Lemma complete_moves env input context d :
  link_ok d -> moves d (LComplete input context) (run_link env (LComplete input context) d).
Proof.
  intros Hok. unfold run_link, completeChallenge. repeat (apply checked_moves; [done|intros _]).
  apply transaction_moves; [done|]. intros d0 r d' Hok0 Hrun.
  eapply completion_moves; [done|]. by eapply complete_tx_cases.
Qed.

Lemma poll_moves env a tk now context d :
  link_ok d -> moves d (LPoll a tk now context) (run_link env (LPoll a tk now context) d).
Proof.
  intros Hok. unfold run_link, pollChallenge. repeat (apply checked_moves; [done|intros _]).
  apply transaction_moves; [done|]. clear d Hok. intros d r d' Hok Hrun.
  apply bindP_ok in Hrun as (ch & d1 & (-> & Hrow & Hnm & Hp)%selected_run & Hrun).
  apply bindP_ok in Hrun as (st & d1 & Hst & Hrun). apply bindP_ok in Hrun as (link & d2 & Hl & [= _ <-]).
  assert (d2 = d1) as ->.
  { destruct (bool_decide (st = wcs_consumed)); [|by injection Hl]. destruct (nonempty _); [|by injection Hl].
    apply bindP_ok in Hl as (l & d3 & Hf & [= _ <-]). unfold linkForAccountAndIdentity in Hf.
    apply bindP_ok in Hf as (found & d4 & [-> _]%find_link_run & Hf). destruct found; [|done]. by injection Hf. }
  destruct (_ && _) eqn:Hcond; [|injection Hst as _ <-; by apply moves_same].
  apply andb_true_iff in Hcond as [Hpr%bool_decide_eq_true Hle%Z.leb_le].
  apply bindP_ok in Hst as (u & d3 & He & [= _ <-]). eapply (expire_run context ch now); eauto. simpl.
  unfold by_token in Hp. apply andb_true_iff in Hp as [Ha%String.eqb_eq _]. by rewrite <- Ha.
Qed.

Lemma cancel_moves env a ref at_ context d :
  link_ok d -> moves d (LCancel a ref at_ context) (run_link env (LCancel a ref at_ context) d).
Proof.
  intros Hok. unfold run_link, cancelChallenge. repeat (apply checked_moves; [done|intros _]).
  apply transaction_moves; [done|]. clear d Hok. intros d r d' Hok Hrun.
  apply bindP_ok in Hrun as (ch & d1 & (-> & Hrow & Hnm & Hp)%selected_run & Hrun).
  apply andb_true_iff in Hp as [Ha%String.eqb_eq _]. rewrite Ha in Hnm.
  cbv zeta in Hrun. case_bool_decide; [injection Hrun as _ <-; by apply moves_same|].
  apply bindP_ok in Hrun as (? & d1 & [Hst <-]%pair_equal_spec & Hrun).
  apply throwIf_ok, negb_false_iff, bool_decide_eq_true in Hst.
  destruct (Z.leb_spec (wl_expires_at (jc_row ch)) at_) as [Hle|Hlt].
  { by eapply (expire_run context ch at_). }
  apply bindP_ok in Hrun as (u & d1 & Hu & Hrun).
  destruct (updateLinkChallenge_run _ _ _ _ _ _ Hu Hrow) as [-> Hc].
  pose proof (keeps_run _ _ _ _ _ (link_audit_keeps _ _ _ _ _ _) Hrun) as Hs.
  eapply moves_from; [reflexivity| |symmetry; exact Hs]. split;
    [by apply put_challenge_ok|done| |eapply challenge_written_to; [simpl; reflexivity|exact Hrow|done..]]. right.
  exists (Cancelled (wl_auth_account_id (jc_row ch)) at_). split; [done|]. rewrite put_challenge_linking.
  exact (step_cancel (linking d) (jc_id ch) _ at_ (linking_challenge d _ _ Hrow) (status_presented _ Hst) Hlt).
Qed.

Lemma unlink_moves env a ref at_ context d :
  link_ok d -> moves d (LUnlink a ref at_ context) (run_link env (LUnlink a ref at_ context) d).
Proof.
  intros Hok. unfold run_link, unlink. repeat (apply checked_moves; [done|intros _]).
  apply transaction_moves; [done|]. clear d Hok. intros d r d' Hok Hrun.
  apply bindP_ok in Hrun as (found & d1 & [= <- <-] & Hrun).
  destruct (select_row _ _) as [[j l]|] eqn:Hf; [|done]. apply select_row_some in Hf as [Hj Hp].
  apply bindP_ok in Hrun as (? & d1 & [Hst <-]%pair_equal_spec & Hrun). apply throwIf_ok, bool_decide_eq_false in Hst.
  apply bindP_ok in Hrun as (u & d1 & Hu & Hrun). destruct (updateLink_run _ _ _ _ _ _ Hu Hj) as [-> Hc].
  pose proof (keeps_run _ _ _ _ _ (link_audit_keeps _ _ _ _ _ _) Hrun) as Hs.
  eapply moves_from; [reflexivity| |symmetry; exact Hs]. destruct (lo_link d Hok j l Hj) as [_ Hn].
  split; [by apply put_link_ok|done| |by apply challenge_written_same]. right. exists (Unlinked (vl_auth_account_id l)). split.
  - unfold link_of_account in Hp. apply andb_true_iff in Hp as [Hp _].
    destruct (ad_account _ !! _) as [b|] eqn:Hb; [|done]. exists b. split; [exact Hb|by apply String.eqb_eq].
  - rewrite put_link_linking. exact (step_unlink (linking d) j (link_view l) (linking_link d j l Hj) Hst).
Qed.

(** The loop over the rows found updates each of them once. *)
Lemma doubt_links_run reason context links d u d' :
  NoDup (fst <$> links) -> (forall i l, (i, l) ∈ links -> ld_link d !! i = Some l) ->
  doubt_links reason context links d = (Ok u, d') ->
  auth_tables (ld_auth d') = auth_tables (ld_auth d) /\ ld_challenge d' = ld_challenge d /\
  (forall i, ld_link d' !! i = if decide (i ∈ fst <$> links) then link_doubted (reason_name reason) <$> ld_link d !! i
                             else ld_link d !! i) /\
  (forall i l, (i, l) ∈ links -> link_checks (link_doubted (reason_name reason) l) = true).
Proof.
  revert d. induction links as [|[i l] links IH]; intros d Hnd Hin Hrun.
  { injection Hrun as _ <-. split_and!; [done|done| |by intros ?? ?%elem_of_nil].
    intros i. rewrite decide_False; [done|]. apply not_elem_of_nil. }
  simpl in Hrun. apply NoDup_cons in Hnd as [Hni Hnd]. apply bindP_ok in Hrun as (v & d1 & Hu & Hrun).
  assert (Hi : ld_link d !! i = Some l) by (apply Hin; left).
  destruct (updateLink_run _ _ _ _ _ _ Hu Hi) as [-> Hc]. apply audit_then in Hrun as (d2 & Hs & Hrun).
  unfold same_link, link_tables in Hs. simpl in Hs. injection Hs as Ha Hse Hch Hb Hco Hpk Hpp Hcm Hcc Hl.
  apply IH in Hrun as (Ht & Hcc' & Hrows & Hchecks); [|done|].
  - split_and!; [unfold auth_tables in *; congruence|congruence| |].
    + intros k. rewrite Hrows, <- Hl. simpl. destruct (decide (k = i)) as [->|Hne].
      * rewrite decide_False by done. rewrite decide_True by (left). by rewrite lookup_insert_eq, Hi.
      * rewrite lookup_insert_ne by done. destruct (decide (k ∈ fst <$> links)) as [Hk|Hk].
        -- rewrite decide_True; [done|by right].
        -- rewrite decide_False; [done|]. intros [?|?]%elem_of_cons; done.
    + intros k r [[= -> ->]|Hk]%elem_of_cons; eauto.
  - intros k r Hk. rewrite <- Hl. assert (k <> i).
    { intros ->. apply Hni, list_elem_of_fmap. by exists (i, r). }
    rewrite lookup_insert_ne by done. apply Hin. by right.
Qed.

Lemma revalidate_moves env identity reason context d :
  link_ok d -> moves d (LRevalidate identity reason context) (run_link env (LRevalidate identity reason context) d).
Proof.
  intros Hok. unfold run_link, requireRevalidation. apply transaction_moves; [done|]. clear d Hok.
  intros d r d' Hok Hrun. apply bindP_ok in Hrun as (links & d1 & [= Hlinks <-] & Hrun).
  apply bindP_ok in Hrun as (u & d1 & Hrun & [= _ <-]).
  assert (Hin : forall i l, (i, l) ∈ links <-> ld_link d !! i = Some l /\ revalidatable identity l = true).
  { intros i l. rewrite <- Hlinks, list_elem_of_In, filter_In, <- list_elem_of_In, elem_of_map_to_list. done. }
  apply doubt_links_run in Hrun as (Ht & Hch & Hrows & Hchecks).
  - split.
    + destruct Hok as [Hau Hcs Hls]. split.
      * eapply auth_ok_same; [|exact Hau]. by unfold same_auth.
      * by rewrite Hch.
      * intros j l. rewrite Hrows. destruct (decide _) as [Hd|_]; [|apply Hls].
        intros (l0 & Hj & ->)%fmap_Some. destruct (Hls j l0 Hj) as [_ Hn]. split; [|exact Hn].
        apply list_elem_of_fmap in Hd as ([k l1] & -> & Hk). simpl in *. pose proof (proj1 (Hin k l1) Hk) as [Hk1 _].
        assert (l1 = l0) as -> by congruence. by eapply Hchecks.
    + unfold named. intros a' r'. injection Ht as _ -> _ _ _ _ _ _. done.
    + right. exists (Doubted identity). split; [done|].
      replace (linking d1) with {| sp_challenge := sp_challenge (linking d);
                                   sp_link := doubted identity <$> sp_link (linking d) |}; [constructor|].
      unfold linking. simpl. rewrite Hch. f_equal. apply map_eq. intros i. rewrite !lookup_fmap, Hrows.
      destruct (ld_link d !! i) as [l|] eqn:Hi; simpl; [|by destruct (decide _)].
      destruct (lo_link d Hok i l Hi) as [_ Hn]. unfold doubted. simpl.
      destruct (decide (i ∈ fst <$> links)) as [Hd|Hd].
      * apply list_elem_of_fmap in Hd as ([k l1] & -> & Hk). simpl in *. apply Hin in Hk as [Hk Hr].
        assert (l1 = l) as -> by congruence. unfold revalidatable in Hr.
        rewrite !andb_true_iff, !String.eqb_eq, bool_decide_eq_true in Hr. rewrite bool_decide_eq_true_2 by tauto. done.
      * rewrite bool_decide_eq_false_2; [done|]. intros [Hid Hst]. apply Hd, list_elem_of_fmap. exists (i, l).
        split; [done|]. apply Hin. split; [done|]. unfold revalidatable. by rewrite Hn, Hid, Hst, !String.eqb_refl.
    + by apply challenge_written_same.
  - rewrite <- Hlinks. clear. assert (Hnd : NoDup (fst <$> map_to_list (ld_link d))) by apply NoDup_fst_map_to_list.
    induction (map_to_list (ld_link d)) as [|[i l] rest IH]; simpl; [constructor|].
    apply NoDup_cons in Hnd as [Hni Hnd]. destruct (revalidatable identity l); simpl; [|by apply IH].
    apply NoDup_cons. split; [|by apply IH]. contradict Hni. apply list_elem_of_fmap in Hni as ([k x] & -> & Hk).
    apply list_elem_of_fmap. exists (k, x). split; [done|]. apply list_elem_of_In in Hk. apply filter_In in Hk as [Hk _].
    by apply list_elem_of_In.
  - intros i l Hi. by apply Hin in Hi as [? _].
Qed.

(** C17: refinement: every call of the link repository, and every operation of
    the authentication repository on the same accounts, under any faults,
    keeps the tables well-formed and is at most one step of LinkSpec.v, one
    that the call may cause; it writes at most one wallet challenge, as the
    steps of CoreSystem.v outside the domain core allow. *)
Theorem link_refinement env o d : link_ok d -> moves d o (run_link env o d).
Proof.
  intros Hok. destruct o.
  - by apply create_moves.
  - by apply complete_moves.
  - by apply poll_moves.
  - by apply cancel_moves.
  - by apply unlink_moves.
  - by apply revalidate_moves.
  - destruct Hok as [Hau Hc Hl]. destruct (run_op_sound sessionKeyVersions env o (ld_auth d) Hau) as [Hau' He].
    split; [by split| |by left|by apply challenge_written_same]. intros a r (x & Hx & Href). simpl.
    destruct (ev_account _ _ He a x Hx) as (x' & Hx' & [->|(_ & Hid & _)]); [by exists x|].
    exists x'. split; [exact Hx'|]. by injection Hid as _ -> _ _ _.
Qed.
End links.
