(* ===== verification/LinkProperties.v ===== *)
(** * LinkProperties: VerusID links in every history.

    From the refinement of LinkFacts.v and the invariants of LinkSpec.v: what
    every stored link rests on, that a challenge is completed at most once,
    whose rows a call may change, and concrete histories. *)
From S2P Require Import Prelude Errors Text Json Lifecycles Database Authorization AuthDatabase Consent Auth Passkey.
From S2P Require Import AuthRepository AuthSystem AuthInvariant AuthFacts CoreDatabase LinkDatabase.
From S2P Require Import VerusLinkRepository LinkSpec LinkFacts.
Local Open Scope Z_scope.

Section histories.
Context `{Platform} (sessionKeyVersions : TrustDomain -> string).
#[local] Abbreviation run_link := (run_link sessionKeyVersions).
#[local] Abbreviation run_links := (run_links sessionKeyVersions).
#[local] Abbreviation link_refinement := (link_refinement sessionKeyVersions).

Lemma run_links_snoc ops o env d : run_links (ops ++ [(o, env)]) d = run_link env o (run_links ops d).
Proof. revert d. induction ops as [|[o' e'] ops IH]; intros d; simpl; [done|apply IH]. Qed.

Lemma run_links_ok ops d : link_ok d -> link_ok (run_links ops d).
Proof.
  revert d. induction ops as [|[o env] ops IH]; intros d Hok; simpl; [done|]. apply IH.
  apply (mv_ok _ _ _ (link_refinement env o d Hok)).
Qed.

(** Nothing is linked yet. *)
Record link_start (d : LinkDb) : Prop := {
  ls_auth : auth_ok (ld_auth d);
  ls_challenge : ld_challenge d = ∅;
  ls_link : ld_link d = ∅;
}.

Lemma link_start_ok d : link_start d -> link_ok d.
Proof. intros [Ha Hc Hl]. split; [done|rewrite Hc|rewrite Hl]; intros ??; by rewrite lookup_empty. Qed.

Lemma linking_reachable ops d : link_start d -> reachable (linking (run_links ops d)).
Proof.
  intros Hs. induction ops as [|[o env] ops IH] using rev_ind.
  - destruct Hs as [_ Hc Hl]. simpl. unfold linking. rewrite Hc, Hl, !fmap_empty. constructor.
  - rewrite run_links_snoc.
    destruct (mv_step _ _ _ (link_refinement env o _ (run_links_ok ops d (link_start_ok d Hs)))) as [->|(e & _ & He)]; [done|].
    by eapply reach_step.
Qed.

(** ** What a link rests on *)

(** The calls that asked for a challenge and, if it is consumed, the later
    call that completed it. *)
Definition explained (ops : list LinkOp) (d : LinkDb) (c : ChallengeView) : Prop :=
  exists i ic, named d (cv_account c) (cw_accountReference i) /\ cw_requestId i = cv_request c /\
    [LCreate i ic] `sublist_of` ops /\
    forall identity digest at_, cv_status c = ch_consumed identity digest at_ ->
    exists x xc, cl_requestId x = cv_request c /\ cl_identityAddress x = identity /\ cl_responseDigest x = digest /\
      cl_completedAt x = at_ /\ [LCreate i ic; LComplete x xc] `sublist_of` ops.

Lemma explained_later ops o d d' c :
  (forall a r, named d a r -> named d' a r) -> explained ops d c -> explained (ops ++ [o]) d' c.
Proof.
  intros Hn (i & ic & Hname & Hreq & Hsub & Hdone). exists i, ic. split_and!; [auto|done|by apply sublist_inserts_r|].
  intros identity digest t Hst. destruct (Hdone _ _ _ Hst) as (x & xc & ? & ? & ? & ? & ?).
  exists x, xc. split_and!; auto. by apply sublist_inserts_r.
Qed.

(** A challenge that ended without being consumed. *)
Lemma explained_ended ops d c st :
  (forall identity digest at_, st <> ch_consumed identity digest at_) -> explained ops d c -> explained ops d (ended st c).
Proof. intros Hst (i & ic & ? & ? & ? & _). exists i, ic. split_and!; try done. by intros ? ? ? ?%Hst. Qed.

Lemma explained_step ops o d d' :
  (forall i c, sp_challenge (linking d) !! i = Some c -> explained ops d c) -> moves d o d' ->
  forall i c, sp_challenge (linking d') !! i = Some c -> explained (ops ++ [o]) d' c.
Proof.
  intros Hall [Hok Hn Hstep]. assert (Hold : forall i c, sp_challenge (linking d) !! i = Some c -> explained (ops ++ [o]) d' c).
  { intros i c Hi. eapply explained_later; eauto. }
  destruct Hstep as [->|(e & Hc & Hstep)]; [exact Hold|]. revert Hc.
  remember (linking d') as s' eqn:Hs'. clear Hs'. destruct Hstep as [i c Hnew _ Hp|i c j l identity digest t Hi Hp _ _|i c t Hi _ _|i c t Hi _ _|j l Hj _|identity];
    intros Hc k x Hk; simpl in Hk; try (by eapply Hold).
  - apply lookup_insert_Some in Hk as [[<- <-]|[_ Hk]]; [|by eapply Hold].
    destruct o as [input context| | | | | |]; try done. destruct Hc as [Hname Hreq]. exists input, context.
    split_and!; [by apply Hn|done|by apply sublist_inserts_l|]. intros ? ? ? ?. congruence.
  - apply lookup_insert_Some in Hk as [[<- <-]|[_ Hk]]; [|by eapply Hold].
    destruct o as [|input context| | | | |]; try done. destruct Hc as (Hreq & -> & -> & ->).
    destruct (Hall i c Hi) as (q & qc & Hname & Hq & Hsub & _). exists q, qc. simpl.
    split_and!; [by apply Hn|done|by apply sublist_inserts_r|]. intros ? ? ? [= <- <- <-].
    exists input, context. split_and!; [done..|]. by apply (sublist_app [LCreate q qc]).
  - apply lookup_insert_Some in Hk as [[<- <-]|[_ Hk]]; [|by eapply Hold]. apply explained_ended; [done|by eapply Hold].
  - apply lookup_insert_Some in Hk as [[<- <-]|[_ Hk]]; [|by eapply Hold]. apply explained_ended; [done|by eapply Hold].
Qed.

Lemma explained_always ops d : link_start d ->
  forall i c, sp_challenge (linking (run_links ops d)) !! i = Some c -> explained (fst <$> ops) (run_links ops d) c.
Proof.
  intros Hs. induction ops as [|[o env] ops IH] using rev_ind.
  - intros i c. destruct Hs as [_ Hc _]. simpl. by rewrite Hc, fmap_empty, lookup_empty.
  - rewrite run_links_snoc, fmap_app. eapply explained_step; [exact IH|].
    apply link_refinement, run_links_ok, link_start_ok, Hs.
Qed.

(** C18: every stored link belongs to an account that asked for a challenge,
    which a later call completed in time with a proof for exactly this
    identity; the challenge is on record as consumed by it, in the link's
    trust domain, and the account has no second link of the identity.  This
    holds in every history, under any faults. *)
Theorem links_proved ops d j l (d' := run_links ops d) :
  link_start d -> ld_link d' !! j = Some l ->
  (exists i ic x xc k c, named d' (vl_auth_account_id l) (cw_accountReference i) /\
     cl_requestId x = cw_requestId i /\ cl_identityAddress x = vl_identity_address l /\
     [LCreate i ic; LComplete x xc] `sublist_of` (fst <$> ops) /\
     ld_challenge d' !! k = Some c /\ wl_request_id c = cw_requestId i /\
     wl_auth_account_id c = vl_auth_account_id l /\ wl_trust_domain c = vl_trust_domain l /\
     wl_state c = wcs_consumed /\ cl_completedAt x < wl_expires_at c) /\
  (forall j' l', ld_link d' !! j' = Some l' -> vl_auth_account_id l' = vl_auth_account_id l ->
     vl_identity_address l' = vl_identity_address l -> j' = j).
Proof.
  intros Hs Hj. pose proof (reachable_ok _ (linking_reachable ops d Hs)) as Hok. fold d' in Hok. split.
  - destruct (lk_proved _ Hok j _ (linking_link d' j l Hj)) as (k & c & digest & t & Hk & Ha & Hd & Hst & Hlt).
    destruct (explained_always ops d Hs k c Hk) as (i & ic & Hname & Hreq & _ & Hdone).
    destruct (Hdone _ _ _ Hst) as (x & xc & Hxr & Hxi & _ & Hxt & Hsub).
    simpl in Hk. apply lookup_fmap_Some in Hk as (row & <- & Hrow).
    exists i, ic, x, xc, k, row. simpl in *. rewrite Ha in Hname. split_and!; try done; [congruence| |congruence].
    unfold status_of in Hst. repeat case_bool_decide; done.
  - intros j' l' Hj' Ha Hi. symmetry.
    eapply (lk_one _ Hok j j' (link_view l) (link_view l')); [by apply linking_link..|]. by split.
Qed.

(** ** One completion *)

Lemma history_challenge ops d i c :
  link_ok d -> ld_challenge d !! i = Some c -> wl_state c <> wcs_presented ->
  exists c', ld_challenge (run_links ops d) !! i = Some c' /\ challenge_view c' = challenge_view c.
Proof.
  revert d c. induction ops as [|[o env] ops IH]; intros d c Hok Hi Hst; simpl; [by exists c|].
  pose proof (link_refinement env o d Hok) as [Hok' _ Hstep].
  assert (Hnp : cv_status (challenge_view c) <> ch_presented).
  { simpl. unfold status_of. rewrite bool_decide_eq_false_2 by done. repeat case_bool_decide; try done.
    by repeat case_match. }
  assert (Hkept : exists c1, ld_challenge (run_link env o d) !! i = Some c1 /\ challenge_view c1 = challenge_view c).
  { pose proof (linking_challenge d i c Hi) as Hl. destruct Hstep as [He|(e & _ & He)].
    - rewrite <- He in Hl. simpl in Hl. apply lookup_fmap_Some in Hl as (c1 & Heq & Hc1). eauto.
    - destruct (step_moves _ _ _ He i _ Hl) as (c' & Hc' & [->|[Hp _]]); [|done].
      simpl in Hc'. apply lookup_fmap_Some in Hc' as (c1 & Heq & Hc1). eauto. }
  destruct Hkept as (c1 & Hc1 & Hv). rewrite <- Hv. apply IH; [done|done|].
  intros Hp. apply Hnp. rewrite <- Hv. simpl. by apply status_presented.
Qed.

Lemma history_link ops d j l :
  link_ok d -> linking_ok (linking d) -> ld_link d !! j = Some l ->
  linking_ok (linking (run_links ops d)) /\
  exists l', ld_link (run_links ops d) !! j = Some l' /\ vl_external_reference l' = vl_external_reference l /\
    vl_auth_account_id l' = vl_auth_account_id l /\ vl_identity_address l' = vl_identity_address l.
Proof.
  revert d l. induction ops as [|[o env] ops IH]; intros d l Hok Hlk Hj; simpl; [split; [done|by exists l]|].
  pose proof (link_refinement env o d Hok) as [Hok' _ Hstep].
  assert (Hkept : linking_ok (linking (run_link env o d)) /\ exists l1, ld_link (run_link env o d) !! j = Some l1 /\
    vl_external_reference l1 = vl_external_reference l /\ vl_auth_account_id l1 = vl_auth_account_id l /\
    vl_identity_address l1 = vl_identity_address l).
  { pose proof (linking_link d j l Hj) as Hl. destruct Hstep as [He|(e & _ & He)].
    - split; [by rewrite He|]. rewrite <- He in Hl. simpl in Hl. apply lookup_fmap_Some in Hl as (l1 & Heq & Hl1).
      injection Heq as Hr Ha _ Hi _. eauto.
    - split; [by eapply step_ok|]. destruct (step_links _ _ _ Hlk He j _ Hl) as (st & Hst).
      simpl in Hst. apply lookup_fmap_Some in Hst as (l1 & Heq & Hl1). injection Heq as Hr Ha _ Hi _. eauto. }
  destruct Hkept as (Hlk' & l1 & Hl1 & Hr & Ha & Hi). destruct (IH _ l1 Hok' Hlk' Hl1) as (? & l2 & ? & ? & ? & ?).
  split; [done|]. exists l2. split_and!; congruence.
Qed.

Lemma completion_of env input context d out d' :
  link_ok d -> completeChallenge env input context d = (Ok out, d') ->
  exists d0, same_link d d0 /\ link_ok d0 /\ completion input d0 d' out.
Proof.
  intros Hok Hrun. unfold completeChallenge in Hrun.
  apply bindP_ok in Hrun as (? & d1 & [_ <-]%pair_equal_spec & Hrun).
  apply bindP_ok in Hrun as (? & d1 & [_ <-]%pair_equal_spec & Hrun).
  apply bindP_ok in Hrun as (? & d1 & [_ <-]%pair_equal_spec & Hrun).
  apply (transaction_ok same_link link_rollback) in Hrun as (d0 & Hs & Hrun).
  pose proof (same_link_ok _ _ Hs Hok) as Hok0. exists d0. split_and!; [done|done|by eapply complete_tx_cases].
Qed.

(** C19: a challenge is completed once: after a completion, however long and
    whatever happened since, a further completion with the same request id
    can only succeed as a replay, with the same response for the same
    identity; it answers the same link and changes nothing. *)
Theorem completed_once env x cx d link identity d1 ops env' y cy out d3 :
  link_ok d -> linking_ok (linking d) ->
  completeChallenge env x cx d = (Ok (link_completed false link identity), d1) ->
  completeChallenge env' y cy (run_links ops d1) = (Ok out, d3) -> cl_requestId y = cl_requestId x ->
  out = link_completed true link identity /\ cl_responseDigest y = cl_responseDigest x /\
  cl_identityAddress y = cl_identityAddress x /\ identity = cl_identityAddress x /\
  same_link (run_links ops d1) d3.
Proof.
  intros Hok Hlk Hx Hy Hreq.
  destruct (completion_of _ _ _ _ _ _ Hok Hx) as (d0 & Hs & Hok0 & Hc).
  inversion Hc as [| |i c j l Hi Hr Hst Hlt Hw Hl Hok1 Hn Heq]; subst. clear Hc Hx.
  assert (Hlk0 : linking_ok (linking d0)) by by rewrite (same_link_linking _ _ Hs).
  assert (Hlk1 : linking_ok (linking d1)).
  { rewrite Hl. eapply complete_ok; [exact Hlk0|by apply linking_challenge|by apply status_presented|exact Hlt|exact Hw]. }
  destruct (writes_pair _ _ _ _ _ Hlk0 Hw) as ([Hpa Hpi] & _ & _).
  assert (Hci : sp_challenge (linking d1) !! i = Some (ended (ch_consumed (cl_identityAddress x) (cl_responseDigest x)
      (cl_completedAt x)) (challenge_view c))) by by rewrite Hl; simpl; rewrite lookup_insert_eq.
  assert (Hlj : sp_link (linking d1) !! j = Some l) by by rewrite Hl; simpl; rewrite lookup_insert_eq.
  simpl in Hci, Hlj. apply lookup_fmap_Some in Hci as (c1 & Hv & Hc1). apply lookup_fmap_Some in Hlj as (l1 & <- & Hl1).
  assert (Hnp : wl_state c1 <> wcs_presented).
  { intros Hp. apply status_presented in Hp. injection Hv as _ _ _ _ Hs1. congruence. }
  destruct (history_challenge ops d1 i c1 Hok1 Hc1 Hnp) as (c2 & Hc2 & Hv2). rewrite Hv in Hv2.
  destruct (history_link ops d1 j l1 Hok1 Hlk1 Hl1) as (Hlk2 & l2 & Hl2 & Hlr & Hla & Hli).
  set (d2 := run_links ops d1) in *. pose proof (run_links_ok ops d1 Hok1) as Hok2. fold d2 in Hok2.
  destruct (completion_of _ _ _ _ _ _ Hok2 Hy) as (d2' & Hs2 & Hok2' & Hc).
  assert (Hch : ld_challenge d2' = ld_challenge d2 /\ ld_link d2' = ld_link d2).
  { unfold same_link, link_tables in Hs2. split; congruence. }
  destruct Hch as [Hch Hlk']. injection Hv2 as Hva Hvd Hvr Hve Hvs. simpl in Hva, Hvr, Hvs, Hpa, Hpi.
  assert (Hsame : forall k b, ld_challenge d2' !! k = Some b -> wl_request_id b = cl_requestId y -> b = c2).
  { intros k b Hk Hb. rewrite Hch in Hk. assert (k = i) as ->; [|congruence].
    apply (lk_request _ Hlk2 k i (challenge_view b) (challenge_view c2)); [by apply linking_challenge..|].
    simpl. congruence. }
  assert (Hst2 : wl_state c2 = wcs_consumed) by (unfold status_of in Hvs; repeat case_bool_decide; done).
  unfold status_of in Hvs. rewrite Hst2 in Hvs. simpl in Hvs.
  destruct Hc as [k b j' l' -> Hk Hb _ Hdg Hid Hj' Hp|k b ? Hk Hb Hst' _ _|k b j' l' Hk Hb Hst' _ _ _ _ _].
  - pose proof (Hsame k b Hk Hb) as ->. rewrite Hdg, Hid in Hvs. destruct (wl_consumed_at c2); [|done].
    injection Hvs as Hyi Hyd _. rewrite Hlk' in Hj'.
    unfold same_identity in Hp. rewrite !andb_true_iff, !String.eqb_eq in Hp. destruct Hp as [[Hp1 _] Hp2].
    assert (j' = j) as ->.
    { symmetry. apply (lk_one _ Hlk2 j j' (link_view l2) (link_view l')); [by apply linking_link..|].
      split; simpl in *; congruence. }
    assert (l' = l2) as -> by congruence. simpl. rewrite Hyi, Hyd, Hlr. split_and!; try done.
  - rewrite (Hsame k b Hk Hb), Hst2 in Hst'. discriminate Hst'.
  - rewrite (Hsame k b Hk Hb), Hst2 in Hst'. discriminate Hst'.
Qed.

(** ** Whose rows a call may change *)

Definition concerns (d : LinkDb) (o : LinkOp) (account : string) : Prop :=
  match o with
  | LCreate i _ => named d account (cw_accountReference i)
  | LComplete x _ => exists k c, ld_challenge d !! k = Some c /\ wl_request_id c = cl_requestId x /\
      wl_auth_account_id c = account
  | LPoll a _ _ _ | LCancel a _ _ _ | LUnlink a _ _ _ => named d account a
  | LRevalidate identity _ _ => exists j l, ld_link d !! j = Some l /\ vl_auth_account_id l = account /\
      vl_identity_address l = identity
  | LAuth _ => False
  end.

Lemma put_elsewhere {A} (m : gmap string A) (owner : A -> string) account i x :
  owner x <> account -> (forall y, m !! i = Some y -> owner y = owner x) ->
  forall k v, owner v = account -> <[i := x]> m !! k = Some v <-> m !! k = Some v.
Proof.
  intros Hx Hold k v Hv. rewrite lookup_insert_Some. split.
  - intros [[_ <-]|[_ Hk]]; [congruence|done].
  - intros Hk. right. split; [|done]. intros <-. rewrite (Hold v Hk) in Hv. congruence.
Qed.

Lemma completed_concerns d x cx i c :
  sp_challenge (linking d) !! i = Some c -> cv_request c = cl_requestId x -> concerns d (LComplete x cx) (cv_account c).
Proof. intros (r & <- & Hr)%lookup_fmap_Some Hq. by exists i, r. Qed.

(** A call changes rows of the account that it names only (a completion:
    of the account that asked for the challenge; a revalidation: of the
    accounts that link the identity); challenges and links of every other
    account stay exactly as they are. *)
Theorem link_isolation env o d account (d' := run_link env o d) :
  link_ok d -> ~ concerns d o account ->
  (forall i c, cv_account c = account ->
     sp_challenge (linking d') !! i = Some c <-> sp_challenge (linking d) !! i = Some c) /\
  (forall j l, kv_account l = account ->
     sp_link (linking d') !! j = Some l <-> sp_link (linking d) !! j = Some l).
Proof.
  intros Hok Hnot. pose proof (link_refinement env o d Hok) as [_ _ Hstep]. fold d' in Hstep.
  destruct Hstep as [->|(e & Hc & Hstep)]; [done|]. assert (Hne : forall a, concerns d o a -> a <> account) by (intros ??; congruence).
  revert Hc. remember (linking d') as s' eqn:Hs'. clear Hs'. remember (linking d) as s eqn:Hs.
  destruct Hstep as [i c Hnew _ Hp|i c j l identity digest t Hi Hp _ Hw|i c t Hi _ _|i c t Hi _ _|j l Hj _|identity];
    intros Hc; subst s; (split; [|try done]); simpl; intros k v Hv; try done.
  - apply (put_elsewhere _ cv_account account); [|intros y Hy; simpl in *; congruence|done].
    destruct o; try done. destruct Hc as [Hn _]. by apply Hne.
  - apply (put_elsewhere _ cv_account account); [|intros y Hy; simpl in *; congruence|done].
    destruct o; try done. destruct Hc as (Hr & _). exact (Hne _ (completed_concerns _ _ _ _ _ Hi Hr)).
  - assert (Ha : kv_account l = cv_account c).
    { destruct Hw as [? ? _ [Ha _]|]; [exact Ha|done]. }
    apply (put_elsewhere _ kv_account account); [| |done].
    + rewrite Ha. destruct o; try done. destruct Hc as (Hr & _). exact (Hne _ (completed_concerns _ _ _ _ _ Hi Hr)).
    + destruct Hw as [j l Hj _|j reference Hj _]; intros y Hy; simpl in *; congruence.
  - apply (put_elsewhere _ cv_account account); [|intros y Hy; simpl in *; congruence|done].
    apply Hne. destruct o; try done; [|by destruct Hc..]. destruct Hc as (Hr & _). exact (completed_concerns _ _ _ _ _ Hi Hr).
  - apply (put_elsewhere _ cv_account account); [|intros y Hy; simpl in *; congruence|done].
    apply Hne. destruct o; try done. by destruct Hc.
  - apply (put_elsewhere _ kv_account account); [|intros y Hy; simpl in *; congruence|done].
    apply Hne. by destruct o.
  - destruct o; try done. simpl in Hc. subst identity. rewrite lookup_fmap_Some. split.
    + intros (l & <- & Hl). rewrite Hl. unfold doubted in *. case_bool_decide as Hd; [|done]. exfalso. destruct Hd as [Hid _].
      pose proof Hl as Hl'. simpl in Hl'. apply lookup_fmap_Some in Hl' as (r & <- & Hr). apply Hnot. by exists k, r.
    + intros Hl. exists v. split; [|done]. unfold doubted. case_bool_decide as Hd; [|done]. exfalso. destruct Hd as [Hid _].
      pose proof Hl as Hl'. simpl in Hl'. apply lookup_fmap_Some in Hl' as (r & <- & Hr). apply Hnot. by exists k, r.
Qed.
End histories.
