(* ===== verification/LinkExamples.v ===== *)
(** * LinkExamples: concrete histories of VerusID links.

    An account of AuthExamples.v asks for a challenge, completes it, unlinks
    the identity and is polled again; the theorems of LinkFacts.v and
    LinkProperties.v applied there. *)
From S2P Require Import Prelude Errors Text Json Lifecycles Database Authorization AuthDatabase Consent Auth Passkey.
From S2P Require Import AuthRepository AuthSystem AuthInvariant AuthFacts AuthExamples CoreDatabase LinkDatabase.
From S2P Require Import VerusLinkRepository LinkSpec LinkFacts LinkProperties.
Local Open Scope Z_scope.

#[local] Existing Instance SamplePlatform.platform.

Definition digest (c : string) : string := String.concat "" (replicate 64 c).
Definition linkDb : LinkDb := {| ld_auth := sampleDb; ld_challenge := ∅; ld_link := ∅ |}.

Lemma linkDb_start : link_start linkDb.
Proof. split; [exact sampleDb_ok|reflexivity|reflexivity]. Qed.

Definition asked : CreateWalletLinkChallengeInput := {|
  cw_externalReference := "wallet_challenge_0001"; cw_accountReference := "account_0001";
  cw_trustDomain := td_participant; cw_purpose := link_verusid; cw_network := "VRSCTEST";
  cw_nonceHash := digest "a"; cw_requestId := "iRequest1"; cw_requestDigest := digest "b";
  cw_pollingTokenDigest := digest "c"; cw_audience := "audience"; cw_callbackUrl := "https://app.example/callback";
  cw_applicationIdentityAddress := "iApp"; cw_consentedScopes := ["verusid:link"]; cw_issuedAt := 1000;
  cw_expiresAt := 2000 |}.

Definition proved (identity : string) (at_ : Z) : CompleteWalletLinkChallengeInput := {|
  cl_requestId := "iRequest1"; cl_responseDigest := digest "d"; cl_identityAddress := identity;
  cl_displayNameSnapshot := None; cl_proofDigest := digest "d"; cl_proofMethod := "hosted_verusid_login_consent_v1";
  cl_requestSignerIdentity := "iApp"; cl_observedIdentityStatus := "active"; cl_observedIdentityBlockHeight := 100;
  cl_observedIdentityTxid := digest "e"; cl_completedAt := at_ |}.

Definition ctx : CommandContext := SamplePlatform.context.

Definition link_history : list (LinkOp * (nat -> TxAttempt)) := (fun o => (o, quiet)) <$>
  [LCreate asked ctx; LComplete (proved "iIdentity" 1500) ctx].
Definition linkedDb : LinkDb := run_links keyVersions link_history linkDb.

Lemma linkedDb_ok : link_ok linkedDb /\ linking_ok (linking linkedDb).
Proof.
  split; [apply run_links_ok, link_start_ok, linkDb_start|].
  apply reachable_ok, linking_reachable, linkDb_start.
Qed.

(** The row of the link and its reference. *)
Definition the_row : string := default "" (head (map_to_list (ld_link linkedDb)).*1).
Definition the_link : string := default "" (head (vl_external_reference <$> rows (ld_link linkedDb))).

Lemma the_row_links : vl_identity_address <$> ld_link linkedDb !! the_row = Some "iIdentity".
Proof. vm_compute. reflexivity. Qed.

Lemma link_refinement_witness :
  size (ld_link linkedDb) = 1%nat /\ moves linkedDb (LUnlink "account_0001" the_link 1600 ctx)
    (run_link keyVersions quiet (LUnlink "account_0001" the_link 1600 ctx) linkedDb).
Proof. split; [vm_compute; reflexivity|]. apply link_refinement. exact (proj1 linkedDb_ok). Defined.

Lemma links_proved_witness :
  exists j l, ld_link linkedDb !! j = Some l /\ vl_identity_address l = "iIdentity" /\
  exists k c, ld_challenge linkedDb !! k = Some c /\ wl_auth_account_id c = vl_auth_account_id l /\
    wl_state c = wcs_consumed.
Proof.
  pose proof the_row_links as Hrow. apply fmap_Some in Hrow as (l & Hj & Hid). exists the_row, l.
  unfold linkedDb in Hj |- *.
  split; [exact Hj|]. split; [symmetry; exact Hid|].
  destruct (proj1 (links_proved keyVersions link_history linkDb the_row l linkDb_start Hj))
    as (i & ic & x & xc & k & c & _ & _ & _ & _ & Hk & _ & Ha & _ & Hst & _).
  exists k, c. split; [exact Hk|]. split; [exact Ha|exact Hst].
Defined.

(** The first completion of the example, and its replay after an unlinking. *)
Definition askedDb : LinkDb := run_links keyVersions [(LCreate asked ctx, quiet)] linkDb.
Definition first_completion := completeChallenge quiet (proved "iIdentity" 1500) ctx askedDb.
Definition unlinking : list (LinkOp * (nat -> TxAttempt)) := [(LUnlink "account_0001" the_link 1600 ctx, quiet)].
Definition unlinkedDb : LinkDb := run_links keyVersions unlinking (snd first_completion).
Definition replay := completeChallenge quiet (proved "iIdentity" 1700) ctx unlinkedDb.

Lemma askedDb_ok : link_ok askedDb /\ linking_ok (linking askedDb).
Proof.
  split; [apply run_links_ok, link_start_ok, linkDb_start|].
  apply reachable_ok, linking_reachable, linkDb_start.
Qed.

Lemma completed_once_witness :
  is_ok (fst first_completion) = true /\ is_ok (fst replay) = true /\
  fst replay = Ok (link_completed true the_link "iIdentity").
Proof.
  split; [vm_compute; reflexivity|]. assert (Hok : is_ok (fst replay) = true) by (vm_compute; reflexivity).
  split; [exact Hok|].
  assert (Hf : first_completion = (Ok (link_completed false the_link "iIdentity"), snd first_completion))
    by (vm_compute; reflexivity).
  unfold first_completion in Hf. revert Hok. unfold replay, unlinkedDb, first_completion.
  destruct (completeChallenge quiet (proved "iIdentity" 1700) ctx _) as [[out|e] d3] eqn:Hr; [|discriminate].
  intros _. cbn [fst]. apply f_equal.
  exact (proj1 (completed_once keyVersions quiet (proved "iIdentity" 1500) ctx askedDb the_link "iIdentity" _ unlinking
    quiet (proved "iIdentity" 1700) ctx out d3 (proj1 askedDb_ok) (proj2 askedDb_ok) Hf Hr eq_refl)).
Defined.

Lemma link_isolation_witness :
  exists account, ~ concerns linkedDb (LUnlink "account_0001" the_link 1600 ctx) account /\
  forall j l, kv_account l = account ->
    sp_link (linking (run_link keyVersions quiet (LUnlink "account_0001" the_link 1600 ctx) linkedDb)) !! j = Some l <->
    sp_link (linking linkedDb) !! j = Some l.
Proof.
  exists "". assert (Hnot : ~ concerns linkedDb (LUnlink "account_0001" the_link 1600 ctx) "").
  { intros (a & Ha & _). revert Ha. vm_compute. discriminate. }
  split; [exact Hnot|].
  exact (proj2 (link_isolation keyVersions quiet (LUnlink "account_0001" the_link 1600 ctx) linkedDb ""
    (proj1 linkedDb_ok) Hnot)).
Defined.

(** An unlinked identity is still reported as linked: polling the
    challenge answers the link, and completing it again answers the state
    "active", although the link is unlinked. *)
Theorem unlinked_link_reported :
  vl_state <$> rows (ld_link unlinkedDb) = [ils_unlinked] /\
  (exists p, fst (pollChallenge quiet "account_0001" (digest "c") 1700 ctx unlinkedDb) = Ok p /\
     po_state p = wcs_consumed /\ po_linkReference p = Some the_link /\ po_identityAddress p = Some "iIdentity") /\
  fst replay = Ok (link_completed true the_link "iIdentity") /\
  vl_state <$> rows (ld_link (snd replay)) = [ils_unlinked].
Proof.
  split; [vm_compute; reflexivity|]. split; [|split; vm_compute; reflexivity].
  eexists. split; [vm_compute; reflexivity|]. split; [reflexivity|]. split; vm_compute; reflexivity.
Qed.
