(* ===== verification/HostedAuth.v ===== *)
(** * HostedAuth: the client of the hosted VerusID login service
    (packages/verus-linking/src/hosted-auth-client.ts).

    [fetch] is a parameter on the state [N] of the network and the service.
    Texts of the configuration and of the client's records are kept as UTF-8
    bytes, texts of a response as code units until they are tested. *)
From Stdlib Require Import SpecFloat Ascii.
From S2P Require Import Prelude Errors Text Json JsonParse Encoding Verus Database LinkDatabase RpcAdapter.
Import HostedCode.
Local Open Scope Z_scope.

Definition MAX_JSON_BYTES : Z := 64 * 1024.
Definition MAX_DEEP_LINK_BYTES : Z := 16 * 1024.
Definition MAX_TOKEN_BYTES : Z := 16 * 1024.
(** [/^i[1-9A-HJ-NP-Za-km-z]{24,34}$/] *)
Definition IADDRESS_PATTERN : string -> bool := matches (one_of ["i"%char]) base58 24 34.
Definition LOGIN_CONSENT_SCHEME : string := "i5jtwbp6zymeay9llnraglgjqgdrffsau4:".
Definition APPROVED_CHAIN_READ_URL : string := "https://api.verustest.net".

Definition hosted_error (code : HostedAuthErrorCode) : exn := HostedAuthError code.

(** ** The platform *)

Class HostedPlatform := {
  hosted_url :: UrlPlatform;
  hmac_bytes : string -> string -> list Z;          (* createHmac("sha256", secret).update(s, "utf8").digest() *)
}.

(** ** Configuration *)

Record HostedAuthClientConfig : Type := {
  hc_baseUrl : string;
  hc_contractVersion : string;
  hc_serviceVersion : string;
  hc_serviceSourceRevision : string;
  hc_imageDigest : string;
  hc_sdkCommit : string;
  hc_primitivesCommit : string;
  hc_rpcClientCommit : string;
  hc_bitgoCommit : string;
  hc_daemonVersion : string;
  hc_applicationIdentityAddress : string;
  hc_callbackUrl : string;
  hc_issuer : string;
  hc_clientSecret : string;
  hc_jwtSecret : string;
  hc_timeoutMs : option Z;
}.

Record CreateHostedChallengeInput : Type := {
  chc_state : string;
  chc_audience : string;
  chc_purpose : WalletLinkPurpose;
  chc_issuedAt : Z;
  chc_expiresAt : jsdate;
}.

Record HostedChallenge : Type := {
  hch_challengeId : string;
  hch_deepLink : string;
  hch_presentationDigest : string;
  hch_signerIdentityAddress : string;
  hch_callbackUrl : string;
  hch_issuedAt : Z;
  hch_expiresAt : Z;
}.

Record GetHostedResultInput : Type := {
  ghr_challengeId : string;
  ghr_state : string;
  ghr_audience : string;
  ghr_issuedAt : Z;
  ghr_expiresAt : Z;
  ghr_now : Z;
}.

Record VerifiedResult : Type := {
  vf_identityAddress : string;
  vf_displayNameSnapshot : option string;
  vf_proofDigest : string;
  vf_tokenIssuedAt : jsdate;
  vf_tokenExpiresAt : jsdate;
}.
Inductive HostedResult : Type := hosted_pending | hosted_verified (r : VerifiedResult).

Record AcknowledgeInput : Type := { ack_challengeId : string; ack_proofDigest : string }.

(** The interface the linking service uses. *)
Class HostedVerusIdAuthClient (W : Type) := {
  hosted_createChallenge : CreateHostedChallengeInput -> prog W exn HostedChallenge;
  hosted_getResult : GetHostedResultInput -> prog W exn HostedResult;
  hosted_acknowledgeResult : AcknowledgeInput -> prog W exn unit;
}.

(** *** The constructor's checks *)

Definition requireHttpsBaseUrl `{HostedPlatform} (value : string) : result exn unit :=
  match new_URL value with
  | None => Err (hosted_error INCOMPATIBLE)
  | Some u =>
    throwIf (negb (String.eqb (url_protocol u) "https:") || negb (falsy_string (url_username u))
             || negb (falsy_string (url_password u)) || negb (falsy_string (url_search u))
             || negb (falsy_string (url_hash u))
             || (negb (String.eqb (url_pathname u) "/") && negb (String.eqb (url_pathname u) "")))
      (hosted_error INCOMPATIBLE)
  end.

Definition requireHttpsCallback `{HostedPlatform} (value : string) : result exn unit :=
  match new_URL value with
  | None => Err (hosted_error INCOMPATIBLE)
  | Some u =>
    throwIf (negb (String.eqb (url_protocol u) "https:") || negb (falsy_string (url_username u))
             || negb (falsy_string (url_password u)) || negb (falsy_string (url_hash u)))
      (hosted_error INCOMPATIBLE)
  end.

(** [value.length] counts code units. *)
Definition requireSecret (value : string) : result exn unit :=
  throwIf (length (text_units value) <? 32)%nat (hosted_error INCOMPATIBLE).

(** [value.split(sep)] at a single code unit. *)
Fixpoint split_units (sep : Z) (s : ustring) : list ustring :=
  match s with
  | [] => [[]]
  | c :: s' =>
    match split_units sep s' with
    | w :: ws => if c =? sep then [] :: w :: ws else (c :: w) :: ws
    | [] => []
    end
  end.

(** [/^\d+\.\d+\.\d+$/] *)
Definition versionPattern (s : string) : bool :=
  match split_units 46 (text_units s) with
  | [a; b; c] => forallb (fun w => negb (bool_decide (w = [])) && forallb is_digit w) [a; b; c]
  | _ => false
  end.
(** [/^[a-f0-9]{40}$/] *)
Definition commitPattern : string -> bool := repeated (fun c => digit c || between "a" "f" c) 40 40.
(** [/^sha256:[a-f0-9]{64}$/] *)
Definition imageDigestPattern (s : string) : bool :=
  String.prefix "sha256:" s && hex64Pattern (String.substring 7 (String.length s - 7) s).

Definition requireReleaseMetadata (config : HostedAuthClientConfig) : result exn unit :=
  let commits := [hc_serviceSourceRevision config; hc_sdkCommit config; hc_primitivesCommit config;
                  hc_rpcClientCommit config; hc_bitgoCommit config] in
  throwIf (negb (versionPattern (hc_serviceVersion config)) || some commits (fun v => negb (commitPattern v))
           || negb (imageDigestPattern (hc_imageDigest config)) || String.eqb (hc_daemonVersion config) "")
    (hosted_error INCOMPATIBLE).

(** [new HostedVerusIdAuthHttpClient(config)]: the configuration, accepted. *)
Definition newHostedClient `{HostedPlatform} (config : HostedAuthClientConfig)
  : result exn HostedAuthClientConfig :=
  let! _ := requireHttpsBaseUrl (hc_baseUrl config) in
  let! _ := requireHttpsCallback (hc_callbackUrl config) in
  let! _ := requireSecret (hc_clientSecret config) in
  let! _ := requireSecret (hc_jwtSecret config) in
  let! _ := requireReleaseMetadata config in
  throwif! negb (IADDRESS_PATTERN (hc_applicationIdentityAddress config)) as! hosted_error INCOMPATIBLE in
  Ok config.

(** ** Requests and responses *)

(** The path is resolved against the base URL, which has none. *)
Record HostedRequest : Type := {
  hr_baseUrl : string;
  hr_path : string;
  hr_method : string;
  hr_headers : list (string * string);
  hr_body : option json;      (* handed to JSON.stringify *)
  hr_timeoutMs : Z;
}.

(** [Number(headers.get("content-length") ?? 0)], and the body's text, if it
    could be read. *)
Record HostedResponse : Type := {
  hp_status : Z;
  hp_contentLength : spec_float;
  hp_text : option ustring;
}.

Definition response_ok (r : HostedResponse) : bool := (200 <=? hp_status r) && (hp_status r <=? 299).

Definition byteLength (s : ustring) : Z := Z.of_nat (length (utf8 s)).

Section json.
Context `{NumberParser}.

(** A failure to read the body is the platform's error. *)
Definition readJson (r : HostedResponse) : result exn (list (ustring * json)) :=
  throwif! SFltb (float_of_Z MAX_JSON_BYTES) (hp_contentLength r) as! hosted_error INVALID_RESPONSE in
  match hp_text r with
  | None => Err (OtherError "The operation was aborted")
  | Some text =>
    throwif! MAX_JSON_BYTES <? byteLength text as! hosted_error INVALID_RESPONSE in
    match JSON_parse text with
    | Some (JObject es) => Ok es
    | _ => Err (hosted_error INVALID_RESPONSE)
    end
  end.

(** Buffer.from(value, "base64url"), refused outside the alphabet. *)
Definition decodeBase64Url (value : ustring) : result exn (list Z) :=
  throwif! negb (base64urlPattern value) as! hosted_error INVALID_TOKEN in
  Ok (from_base64url value).

Definition parseBase64UrlJson (value : ustring) : result exn (list (ustring * json)) :=
  let! bytes := decodeBase64Url value in
  match JSON_parse (utf8_lossy bytes) with
  | Some (JObject es) => Ok es
  | _ => Err (hosted_error INVALID_TOKEN)
  end.
End json.

Definition objectValue (source : list (ustring * json)) (key : string) : option (list (ustring * json)) :=
  match prop_of source key with Some (JObject es) => Some es | _ => None end.

Definition hasControlCharacter (value : ustring) : bool := some value (fun c => (c <=? 31) || (c =? 127)).

Definition stringValue (source : list (ustring * json)) (key : string) (maxLength : Z) : result exn ustring :=
  match prop_of source key with
  | Some (JString value) =>
    throwif! bool_decide (value = []) || (maxLength <? byteLength value) || hasControlCharacter value
      as! hosted_error INVALID_RESPONSE in
    Ok value
  | _ => Err (hosted_error INVALID_RESPONSE)
  end.

Definition optionalStringValue (source : list (ustring * json)) (key : string) (maxLength : Z)
  : result exn (option ustring) :=
  match prop_of source key with
  | None | Some JNull => Ok None
  | Some _ => let! s := stringValue source key maxLength in Ok (Some s)
  end.

Definition integerValue (source : list (ustring * json)) (key : string) : result exn Z :=
  match prop_of source key with
  | Some (JNumber n) =>
    match (if isFinite n then integer_of_float n else None) with
    | Some z => throwif! negb (isSafeInteger (Int z)) || (z <=? 0) as! hosted_error INVALID_TOKEN in Ok z
    | None => Err (hosted_error INVALID_TOKEN)
    end
  | _ => Err (hosted_error INVALID_TOKEN)
  end.

Definition dateValue (source : list (ustring * json)) (key : string) : result exn Z :=
  let! value := stringValue source key 64 in
  match strict_date value with
  | Some t => Ok t
  | None => Err (hosted_error INVALID_RESPONSE)
  end.

(** [o[key] === s]. *)
Definition equals (source : list (ustring * json)) (key s : string) : bool :=
  match prop_of source key with Some (JString v) => bool_decide (v = text_units s) | _ => false end.
Definition is_true (source : list (ustring * json)) (key : string) : bool :=
  match prop_of source key with Some (JBool b) => b | _ => false end.

(** ** Tokens *)

Record ExpectedJwt : Type := {
  ej_issuer : string;
  ej_audience : string;
  ej_challengeId : string;
  ej_state : string;
  ej_identityAddress : ustring;
  ej_issuedAt : Z;
  ej_expiresAt : Z;
  ej_now : Z;
}.

(** [claims.jti] is a text of sixteen code units or more. *)
Definition long_jti (claims : list (ustring * json)) : bool :=
  match prop_of claims "jti" with Some (JString j) => (16 <=? length j)%nat | _ => false end.

Definition seconds (ms : Z) : Z := ms / 1000.

Definition claims_refused (claims : list (ustring * json)) (expected : ExpectedJwt) (iat exp : Z) : bool :=
  let nowSeconds := seconds (ej_now expected) in
  let earliestSeconds := seconds (ej_issuedAt expected) - 60 in
  let latestSeconds := seconds (ej_expiresAt expected) + 60 in
  negb (equals claims "iss" (ej_issuer expected))
  || negb (equals claims "aud" (ej_audience expected))
  || negb (equals claims "challengeID" (ej_challengeId expected))
  || negb (equals claims "state" (ej_state expected))
  || negb match prop_of claims "idLoggedIn" with
          | Some (JString v) => bool_decide (v = ej_identityAddress expected)
          | _ => false
          end
  || negb (long_jti claims)
  || negb (IADDRESS_PATTERN (utf8_text (ej_identityAddress expected)))
  || (iat <? earliestSeconds)
  || (nowSeconds + 60 <? iat)
  || (exp <=? nowSeconds)
  || (latestSeconds <? exp)
  || (exp <=? iat).

Definition nonempty_parts (token : ustring) : option (ustring * ustring * ustring) :=
  match split_units 46 token with
  | [h; c; s] => if some [h; c; s] (fun part => bool_decide (part = [])) then None else Some (h, c, s)
  | _ => None
  end.

Definition verifyJwt `{HostedPlatform} `{NumberParser} (token : ustring) (secret : string) (expected : ExpectedJwt)
  : result exn (Z * Z) :=
  match nonempty_parts token with
  | None => Err (hosted_error INVALID_TOKEN)
  | Some (encodedHeader, encodedClaims, encodedSignature) =>
    let! header := parseBase64UrlJson encodedHeader in
    let! claims := parseBase64UrlJson encodedClaims in
    throwif! negb (equals header "alg" "HS256") || negb (equals header "typ" "JWT")
      as! hosted_error INVALID_TOKEN in
    let! suppliedSignature := decodeBase64Url encodedSignature in
    let expectedSignature := hmac_bytes secret (utf8_text (encodedHeader ++ [46] ++ encodedClaims)) in
    throwif! negb (bool_decide (suppliedSignature = expectedSignature)) as! hosted_error INVALID_TOKEN in
    let! iat := integerValue claims "iat" in
    let! exp := integerValue claims "exp" in
    throwif! claims_refused claims expected iat exp as! hosted_error INVALID_TOKEN in
    Ok (iat, exp)
  end.

(** ** The client *)

Section client.
Context `{Platform} `{HostedPlatform} `{NumberParser}.
Context {N : Type} (fetch : HostedRequest -> N -> option HostedResponse * N).
Context (config : HostedAuthClientConfig).

Definition hosted_request (path method : string) (body : option json) : HostedRequest := {|
  hr_baseUrl := hc_baseUrl config; hr_path := path; hr_method := method;
  hr_headers := [("accept", "application/json"); ("authorization", "Bearer " +:+ hc_clientSecret config);
                 ("content-type", "application/json");
                 ("x-cbc-auth-contract-version", hc_contractVersion config)];
  hr_body := body; hr_timeoutMs := default 8000 (hc_timeoutMs config) |}.

(** The private method [request]. *)
Definition send (path method : string) (body : option json) : prog N exn HostedResponse := fun n =>
  let (response, n') := fetch (hosted_request path method body) n in
  (match response with Some r => Ok r | None => Err (hosted_error UNAVAILABLE) end, n').

Definition health_accepted (health : list (ustring * json)) : bool :=
  equals health "status" "ok" && equals health "service" "verusid-auth"
  && equals health "version" (hc_serviceVersion config)
  && equals health "service_source_revision" (hc_serviceSourceRevision config)
  && equals health "image_digest" (hc_imageDigest config)
  && equals health "verusid_ts_client_commit" (hc_sdkCommit config)
  && equals health "verus_primitives_commit" (hc_primitivesCommit config)
  && equals health "verusd_rpc_client_commit" (hc_rpcClientCommit config)
  && equals health "verus_bitgo_commit" (hc_bitgoCommit config)
  && equals health "daemon_version" (hc_daemonVersion config)
  && equals health "chain_read_url" APPROVED_CHAIN_READ_URL
  && equals health "chain" "vrsctest"
  && equals health "contract_version" (hc_contractVersion config)
  && equals health "signing_identity" (hc_applicationIdentityAddress config)
  && equals health "callback_url" (hc_callbackUrl config)
  && equals health "jwt_issuer" (hc_issuer config)
  && is_true health "signing_identity_configured" && is_true health "chain_configured"
  && is_true health "sdk_ready"
  && equals health "result_authentication" "client_secret"
  && equals health "result_delivery" "idempotent_until_ack".

Definition preflight : prog N exn unit :=
  let* response := send "/health" "GET" None in
  throwif* negb (response_ok response) as! hosted_error UNAVAILABLE in
  let* health := lift (readJson response) in
  throwWhen (negb (health_accepted health)) (hosted_error INCOMPATIBLE).

(** [expiresAt <= issuedAt || expiresAt - issuedAt > 5 * 60_000]; false on an
    invalid date. *)
Definition lifetime_refused (issuedAt : Z) (expiresAt : jsdate) : bool :=
  match expiresAt with Some e => (e <=? issuedAt) || (5 * 60000 <? e - issuedAt) | None => false end.

(** What the client reads of the service's answer. *)
Definition read_challenge (input : CreateHostedChallengeInput) (data : list (ustring * json))
  : result exn HostedChallenge :=
  let! challengeId := stringValue data "challengeID" 100 in
  let! deepLink := stringValue data "deepLink" MAX_DEEP_LINK_BYTES in
  let! reportedDigest := stringValue data "requestDigest" 64 in
  let! signer := stringValue data "signingIdentity" 64 in
  let! callbackUrl := stringValue data "callbackUrl" 2048 in
  let! network := stringValue data "network" 32 in
  let! contractVersion := stringValue data "contractVersion" 64 in
  let! issuedAt := dateValue data "issuedAt" in
  let! expiresAt := dateValue data "expiresAt" in
  let presentationDigest := sha256 (utf8_text deepLink) in
  match new_URL (utf8_text deepLink) with
  | None => Err (hosted_error INVALID_RESPONSE)
  | Some parsedDeepLink =>
    throwif! negb (IADDRESS_PATTERN (utf8_text challengeId))
             || negb (String.eqb (url_protocol parsedDeepLink) LOGIN_CONSENT_SCHEME)
             || negb (bool_decide (reportedDigest = text_units presentationDigest))
             || negb (bool_decide (signer = text_units (hc_applicationIdentityAddress config)))
             || negb (bool_decide (callbackUrl = text_units (hc_callbackUrl config)))
             || negb (bool_decide (network = text_units "VRSCTEST"))
             || negb (bool_decide (contractVersion = text_units (hc_contractVersion config)))
             || negb (issuedAt =? chc_issuedAt input)
             || negb (bool_decide (Some expiresAt = chc_expiresAt input))
      as! hosted_error INCOMPATIBLE in
    Ok {| hch_challengeId := utf8_text challengeId; hch_deepLink := utf8_text deepLink;
          hch_presentationDigest := presentationDigest; hch_signerIdentityAddress := utf8_text signer;
          hch_callbackUrl := utf8_text callbackUrl; hch_issuedAt := issuedAt; hch_expiresAt := expiresAt |}
  end.

Definition createChallenge (input : CreateHostedChallengeInput) : prog N exn HostedChallenge :=
  run* preflight in
  throwif* lifetime_refused (chc_issuedAt input) (chc_expiresAt input) as! hosted_error INVALID_RESPONSE in
  let* issued := lift (toISOString (Some (chc_issuedAt input))) in
  let* expires := lift (toISOString (chc_expiresAt input)) in
  let* response := send "/api/auth/verusid/challenge" "POST" (Some (JObject [
    (units "state", jtext (chc_state input)); (units "audience", jtext (chc_audience input));
    (units "purpose", jtext (purpose_name (chc_purpose input)));
    (units "issuedAt", JString issued); (units "expiresAt", JString expires);
    (units "requestedAccess", JArray [jtext "identity_view"])])) in
  throwif* negb (response_ok response) as! hosted_error UNAVAILABLE in
  let* body := lift (readJson response) in
  match is_true body "success", objectValue body "data" with
  | true, Some data => lift (read_challenge input data)
  | _, _ => throw (hosted_error INVALID_RESPONSE)
  end.

(** The challenge's id passed the pattern, so encodeURIComponent leaves it. *)
Definition result_path (challengeId : string) : string := "/api/auth/verusid/result/" +:+ challengeId.

Definition expected_jwt (input : GetHostedResultInput) (identityAddress : ustring) : ExpectedJwt := {|
  ej_issuer := hc_issuer config; ej_audience := ghr_audience input; ej_challengeId := ghr_challengeId input;
  ej_state := ghr_state input; ej_identityAddress := identityAddress; ej_issuedAt := ghr_issuedAt input;
  ej_expiresAt := ghr_expiresAt input; ej_now := ghr_now input |}.

Definition read_result (input : GetHostedResultInput) (body : list (ustring * json)) : result exn HostedResult :=
  throwif! negb (is_true body "success") as! hosted_error INVALID_RESPONSE in
  let! token := stringValue body "JWT" MAX_TOKEN_BYTES in
  let! identityAddress := stringValue body "iaddress" 64 in
  let! verified := verifyJwt token (hc_jwtSecret config) (expected_jwt input identityAddress) in
  let! displayName := optionalStringValue body "name" 200 in
  Ok (hosted_verified {|
    vf_identityAddress := utf8_text identityAddress;
    vf_displayNameSnapshot := utf8_text <$> displayName;
    vf_proofDigest := sha256 (utf8_text token);
    vf_tokenIssuedAt := newDate (fst verified * 1000);
    vf_tokenExpiresAt := newDate (snd verified * 1000) |}).

Definition getResult (input : GetHostedResultInput) : prog N exn HostedResult :=
  throwif* negb (IADDRESS_PATTERN (ghr_challengeId input)) as! hosted_error INVALID_RESPONSE in
  let* response := send (result_path (ghr_challengeId input)) "GET" None in
  if (hp_status response =? 404) || (hp_status response =? 202) then ret hosted_pending
  else
    throwif* negb (response_ok response) as! hosted_error UNAVAILABLE in
    let* body := lift (readJson response) in
    lift (read_result input body).

Definition acknowledgeResult (input : AcknowledgeInput) : prog N exn unit :=
  throwif* negb (IADDRESS_PATTERN (ack_challengeId input)) || negb (hex64Pattern (ack_proofDigest input))
    as! hosted_error INVALID_RESPONSE in
  let* response := send (result_path (ack_challengeId input) +:+ "/ack") "POST"
    (Some (JObject [(units "proofDigest", jtext (ack_proofDigest input))])) in
  throwWhen (negb (response_ok response)) (hosted_error UNAVAILABLE).

#[export] Instance hosted_http_client : HostedVerusIdAuthClient N := {
  hosted_createChallenge := createChallenge;
  hosted_getResult := getResult;
  hosted_acknowledgeResult := acknowledgeResult;
}.
End client.
