(* ===== verification/HostedAuthFacts.v ===== *)
(** * HostedAuthFacts: the tokens of the hosted login service.

    A token signed with the shared secret over claims that match the
    challenge is accepted; an accepted token carries that signature and those
    claims, so it answers one challenge, state and identity only. *)
From S2P Require Import Prelude Errors Text Json JsonParse JsonFacts Encoding Verus Database LinkDatabase RpcAdapter.
From S2P Require Import HostedAuth.
Import HostedCode.
Local Open Scope Z_scope.

(** ** Splitting at dots *)

Lemma split_units_none sep s : ~ sep ∈ s -> split_units sep s = [s].
Proof.
  induction s as [|c s IH]; intros Hs; simpl; [done|]. apply not_elem_of_cons in Hs as [Hc Hs].
  rewrite IH by done. by destruct (Z.eqb_spec c sep).
Qed.

Lemma split_units_join sep s : s = join_units [sep] (split_units sep s) /\ split_units sep s <> [].
Proof.
  induction s as [|c s [IH Hne]]; simpl; [done|]. destruct (split_units sep s) as [|p ps] eqn:E; [done|].
  destruct (Z.eqb_spec c sep) as [->|]; (split; [|done]); simpl; rewrite IH; [done|]. by destruct ps.
Qed.

Lemma split_units_app sep s t : ~ sep ∈ s -> split_units sep (s ++ sep :: t) = s :: split_units sep t.
Proof.
  induction s as [|c s IH]; intros Hs; simpl.
  - rewrite Z.eqb_refl. destruct (split_units_join sep t) as [_ Hne]. by destruct (split_units sep t).
  - apply not_elem_of_cons in Hs as [Hc Hs]. rewrite IH by done. by destruct (Z.eqb_spec c sep).
Qed.

Lemma sextet_not_dot c : unit_sextet c <> None -> c <> 46.
Proof. by intros Hc ->. Qed.

Lemma base64url_no_dot bs : Forall byte_ok bs -> ~ 46 ∈ base64url bs.
Proof.
  intros Hb Hin. destruct (decide (bs = [])) as [->|Hne]; [by apply not_elem_of_nil in Hin|].
  pose proof (base64url_pattern bs Hb Hne) as [_ Hp]%andb_true_iff. rewrite forallb_forall in Hp.
  specialize (Hp 46 (proj1 (list_elem_of_In _ _) Hin)). discriminate Hp.
Qed.

Lemma base64url_nonempty bs : bs <> [] -> base64url bs <> [].
Proof. by destruct bs as [|a [|b [|c bs]]]. Qed.

(** ** Tokens *)

Section tokens.
Context `{Platform} `{HostedPlatform} `{NumberParser}.

(** The compact form: header, claims and their signature. *)
Definition signed_token (secret : string) (header claims : ustring) : ustring :=
  let h := base64url (utf8 header) in
  let c := base64url (utf8 claims) in
  h ++ 46 :: c ++ 46 :: base64url (hmac_bytes secret (utf8_text (h ++ [46] ++ c))).

Lemma parse_encoded t es : wf16 t -> JSON_parse t = Some (JObject es) ->
  parseBase64UrlJson (base64url (utf8 t)) = Ok es /\ ~ 46 ∈ base64url (utf8 t) /\ base64url (utf8 t) <> [].
Proof.
  intros Hw Hp. destruct (utf8_round t Hw) as [Hd Hb].
  assert (Hne : utf8 t <> []).
  { intros He. rewrite He in Hd. injection Hd as <-. by vm_compute in Hp. }
  split_and!; [|by apply base64url_no_dot|by apply base64url_nonempty].
  unfold parseBase64UrlJson, decodeBase64Url. rewrite base64url_pattern by done. cbn [negb bindR throwIf].
  by rewrite base64url_round, utf8_lossy_round, Hp.
Qed.

Lemma signed_parts secret header claims hs cs : wf16 header -> wf16 claims ->
  JSON_parse header = Some (JObject hs) -> JSON_parse claims = Some (JObject cs) ->
  (forall s, Forall byte_ok (hmac_bytes secret s) /\ hmac_bytes secret s <> []) ->
  nonempty_parts (signed_token secret header claims)
  = Some (base64url (utf8 header), base64url (utf8 claims),
          base64url (hmac_bytes secret (utf8_text (base64url (utf8 header) ++ [46] ++ base64url (utf8 claims))))).
Proof.
  intros Hwh Hwc Hh Hc Hmac. destruct (parse_encoded _ _ Hwh Hh) as (_ & Hhd & Hhn).
  destruct (parse_encoded _ _ Hwc Hc) as (_ & Hcd & Hcn).
  destruct (Hmac (utf8_text (base64url (utf8 header) ++ [46] ++ base64url (utf8 claims)))) as [Hb Hn].
  unfold nonempty_parts, signed_token. rewrite !split_units_app, split_units_none by (done || by apply base64url_no_dot).
  simpl. rewrite !bool_decide_eq_false_2 by (done || by apply base64url_nonempty). done.
Qed.

(** C21: round trip: a token that the service signed with the shared secret,
    over any texts of a JWT header and of claims that match the challenge and
    the clock, is accepted, with the times it carries.  (An HMAC is a
    non-empty sequence of bytes.) *)
Theorem signed_token_accepted secret header claims hs cs expected iat exp :
  wf16 header -> wf16 claims -> JSON_parse header = Some (JObject hs) -> JSON_parse claims = Some (JObject cs) ->
  (forall s, Forall byte_ok (hmac_bytes secret s) /\ hmac_bytes secret s <> []) ->
  equals hs "alg" "HS256" = true -> equals hs "typ" "JWT" = true ->
  integerValue cs "iat" = Ok iat -> integerValue cs "exp" = Ok exp -> claims_refused cs expected iat exp = false ->
  verifyJwt (signed_token secret header claims) secret expected = Ok (iat, exp).
Proof.
  intros Hwh Hwc Hh Hc Hmac Halg Htyp Hiat Hexp Hok. unfold verifyJwt.
  rewrite (signed_parts secret header claims hs cs) by done.
  destruct (parse_encoded _ _ Hwh Hh) as (-> & _ & _). destruct (parse_encoded _ _ Hwc Hc) as (-> & _ & _).
  cbn [bindR]. rewrite Halg, Htyp. cbn [negb orb throwIf bindR].
  destruct (Hmac (utf8_text (base64url (utf8 header) ++ [46] ++ base64url (utf8 claims)))) as [Hb Hn].
  unfold decodeBase64Url. rewrite base64url_pattern by done. cbn [negb throwIf bindR].
  rewrite base64url_round, bool_decide_eq_true_2 by done. cbn [negb throwIf bindR]. rewrite Hiat, Hexp. cbn [bindR]. by rewrite Hok.
Qed.

Lemma nonempty_parts_join token h c s :
  nonempty_parts token = Some (h, c, s) -> token = h ++ [46] ++ c ++ [46] ++ s.
Proof.
  intros Hp. rewrite (proj1 (split_units_join 46 token)). unfold nonempty_parts in Hp.
  destruct (split_units 46 token) as [|h' [|c' [|s' [|]]]]; try done. destruct (some _ _); [done|].
  by injection Hp as <- <- <-.
Qed.

(** What an accepted token carries. *)
Lemma verified_claims token secret expected iat exp :
  verifyJwt token secret expected = Ok (iat, exp) ->
  exists h c s claims, token = h ++ [46] ++ c ++ [46] ++ s /\ parseBase64UrlJson c = Ok claims /\
    nonempty_parts token = Some (h, c, s) /\ from_base64url s = hmac_bytes secret (utf8_text (h ++ [46] ++ c)) /\
    integerValue claims "iat" = Ok iat /\ integerValue claims "exp" = Ok exp /\
    claims_refused claims expected iat exp = false.
Proof.
  unfold verifyJwt. destruct (nonempty_parts token) as [[[h c] s]|] eqn:Hp; [|done]. intros Hv. inv_ok.
  exists h, c, s. match goal with Hc : parseBase64UrlJson c = Ok ?x |- _ => exists x end.
  pose proof (nonempty_parts_join _ _ _ _ Hp) as Htok.
  split_and!; try done.
  match goal with Hn : negb (bool_decide (?a = ?b)) = false |- _ =>
    apply negb_false_iff, bool_decide_eq_true in Hn; rewrite <- Hn end.
  match goal with Hd : decodeBase64Url s = Ok ?b |- _ => unfold decodeBase64Url in Hd end. by inv_ok.
Qed.

Lemma equals_true es k t : equals es k t = true -> prop_of es k = Some (JString (text_units t)).
Proof.
  unfold equals. destruct (prop_of es k) as [[]|]; try done. by intros ->%bool_decide_eq_true.
Qed.

(** The claims of an accepted token. *)
Lemma accepted_claims claims expected iat exp : claims_refused claims expected iat exp = false ->
  prop_of claims "iss" = Some (JString (text_units (ej_issuer expected))) /\
  prop_of claims "aud" = Some (JString (text_units (ej_audience expected))) /\
  prop_of claims "challengeID" = Some (JString (text_units (ej_challengeId expected))) /\
  prop_of claims "state" = Some (JString (text_units (ej_state expected))) /\
  prop_of claims "idLoggedIn" = Some (JString (ej_identityAddress expected)) /\
  IADDRESS_PATTERN (utf8_text (ej_identityAddress expected)) = true /\
  seconds (ej_issuedAt expected) - 60 <= iat <= seconds (ej_now expected) + 60 /\
  seconds (ej_now expected) < exp <= seconds (ej_expiresAt expected) + 60 /\ iat < exp.
Proof.
  unfold claims_refused. rewrite !orb_false_iff, !negb_false_iff, !Z.ltb_ge, !Z.leb_gt.
  intros H'. destruct_and! H'.
  split_and!; try (by apply equals_true); try done; try lia.
  destruct (prop_of claims "idLoggedIn") as [[]|]; try done. do 2 f_equal.
  match goal with Hb : bool_decide _ = true |- _ => by apply bool_decide_eq_true_1 in Hb end.
Qed.

(** C20: an accepted token is signed with the shared secret over its own
    header and claims, is inside its window, and answers one challenge only:
    a token accepted for two expectations names the same issuer, audience,
    challenge, state and identity in both. *)
Theorem token_answers_one_challenge token secret e1 e2 iat1 exp1 times2 :
  verifyJwt token secret e1 = Ok (iat1, exp1) -> verifyJwt token secret e2 = Ok times2 ->
  (exists h c s, token = h ++ [46] ++ c ++ [46] ++ s /\
     from_base64url s = hmac_bytes secret (utf8_text (h ++ [46] ++ c))) /\
  seconds (ej_now e1) < exp1 <= seconds (ej_expiresAt e1) + 60 /\
  seconds (ej_issuedAt e1) - 60 <= iat1 <= seconds (ej_now e1) + 60 /\ times2 = (iat1, exp1) /\
  text_units (ej_issuer e1) = text_units (ej_issuer e2) /\ text_units (ej_audience e1) = text_units (ej_audience e2) /\
  text_units (ej_challengeId e1) = text_units (ej_challengeId e2) /\
  text_units (ej_state e1) = text_units (ej_state e2) /\ ej_identityAddress e1 = ej_identityAddress e2.
Proof.
  destruct times2 as [iat2 exp2]. intros (h & c & s & cl & Ht & Hc & Hp & Hs & Hi & He & Hr)%verified_claims
    (h' & c' & s' & cl' & _ & Hc' & Hp' & _ & Hi' & He' & Hr')%verified_claims.
  rewrite Hp in Hp'. injection Hp' as <- <- <-. rewrite Hc in Hc'. injection Hc' as <-.
  apply accepted_claims in Hr as (? & ? & ? & ? & ? & _ & ? & ? & ?), Hr' as (? & ? & ? & ? & ? & _).
  split; [by exists h, c, s|]. split_and!; try lia; congruence.
Qed.
End tokens.
