(* ===== verification/WalletLinkService.v ===== *)
(** * WalletLinkService: packages/verus-linking/src/service.ts.

    The linking service over the interfaces it is given: the link store, the
    client of the hosted login service, the chain adapter and the rate
    limiter, each a type class over a world [W].  LinkSystem.v instantiates
    them.  Dates handed to the service are valid. *)
From Stdlib Require Import Ascii.
From S2P Require Import Prelude Errors Text Json JsonParse Encoding Verus Database Authorization Auth.
From S2P Require Import CoreDatabase LinkDatabase VerusLinkRepository HostedAuth.
Local Open Scope Z_scope.

Definition CHALLENGE_LIFETIME_MS : Z := 5 * 60000.
Definition REQUEST_WINDOW_MS : Z := 15 * 60000.
Definition REQUEST_LIMIT : Z := 10.
Definition ALLOWED_SCOPES : list string := ["verusid:link"].

Inductive LinkNetwork : Type := net_fake | net_vrsctest.
#[export] Instance LinkNetwork_eq_dec : EqDecision LinkNetwork.
Proof. solve_decision. Defined.

Record WalletLinkServiceConfig : Type := {
  sc_enabled : bool;
  sc_network : LinkNetwork;
  sc_applicationIdentityAddress : string;
  sc_authServiceCallbackUrl : string;
  sc_participantAudience : string;
  sc_committeeAudience : string;
  sc_bindingSecret : string;
  sc_pollingTokenSecret : string;
}.

Record WalletLinkPrincipal : Type := {
  wp_accountReference : string;
  wp_trustDomain : TrustDomain;
  wp_authenticationStrength : string;
}.

Record BeginWalletLinkInput : Type := {
  bl_principal : WalletLinkPrincipal;
  bl_purpose : option WalletLinkPurpose;
  bl_scopes : list string;
  bl_now : Z;
  bl_correlationId : string;
}.

(** Without the literal fields [network], [operational] and [limitations];
    [qrPayload] is the same link as [sameDeviceUrl]. *)
Record WalletLinkPresentation : Type := {
  pr_challengeReference : string;
  pr_requesterIdentity : string;
  pr_purpose : WalletLinkPurpose;
  pr_scopes : list string;
  pr_expiresAt : ustring;
  pr_sameDeviceUrl : string;
  pr_qrPayload : string;
  pr_pollingToken : string;
}.

Record PollInput : Type := {
  pi_principal : WalletLinkPrincipal;
  pi_pollingToken : string;
  pi_now : Z;
  pi_correlationId : string;
}.

(** ** The interfaces *)

Class WalletLinkStore (W : Type) := {
  store_createChallenge : CreateWalletLinkChallengeInput -> CommandContext -> prog W exn WalletLinkChallengeRecord;
  store_challengeForPoll : string -> string -> prog W exn WalletLinkChallengeRecord;
  store_completeChallenge : CompleteWalletLinkChallengeInput -> CommandContext -> prog W exn WalletLinkCompletion;
  store_pollChallenge : string -> string -> Z -> CommandContext -> prog W exn WalletLinkPollResult;
  store_cancelChallenge : string -> string -> Z -> CommandContext -> prog W exn unit;
  store_unlink : string -> string -> Z -> CommandContext -> prog W exn unit;
}.

(** [requireWithinLimit], in the bucket "wallet_link_account". *)
Class WalletLinkRateLimiter (W : Type) := {
  limiter_requireWithinLimit : string -> Z -> Z -> Z -> prog W exn unit;
}.

(** ** Helpers *)

Record HostedStateBinding : Type := {
  hb_accountReference : string;
  hb_trustDomain : TrustDomain;
  hb_purpose : WalletLinkPurpose;
  hb_audience : string;
  hb_issuedAt : jsdate;
  hb_expiresAt : jsdate;
}.

(** "\u001f" *)
Definition separator : string := String "031"%char EmptyString.

Definition state_material (binding : HostedStateBinding) (issued expires : ustring) : string :=
  String.concat separator
    ["cbc.hosted-verusid-link.state.v1"; hb_accountReference binding; domain_name (hb_trustDomain binding);
     purpose_name (hb_purpose binding); hb_audience binding; utf8_text issued; utf8_text expires].

Definition deriveHostedState `{HostedPlatform} (secret : string) (binding : HostedStateBinding) : result exn string :=
  let! issued := toISOString (hb_issuedAt binding) in
  let! expires := toISOString (hb_expiresAt binding) in
  Ok (utf8_text (base64url (hmac_bytes secret (state_material binding issued expires)))).

Definition normalizeScopes (scopes : list string) : result exn (list string) :=
  let normalized := sort_texts (unique scopes) in
  throwif! bool_decide (normalized = []) || some normalized (fun scope => negb (includes ALLOWED_SCOPES scope))
    as! WalletLinkError LinkCode.INVALID_REQUEST in
  Ok normalized.

Definition validateLinkedIdentity (identity : VerusIdentityResult) (expectedAddress : string) : result exn unit :=
  throwIf (negb (String.eqb (id_identityAddress (ir_identity identity)) expectedAddress)
           || negb (String.eqb (id_systemId (ir_identity identity)) VRSCTEST_CHAIN_ID)
           || negb (String.eqb (ir_status identity) "active"))
    (verusError IDENTITY_STATE_INVALID "Selected identity is not currently active on VRSCTEST" false).

Definition not_vrsctest (info : VerusInfo) : bool :=
  negb (String.eqb (info_chainId info) VRSCTEST_CHAIN_ID) || negb (String.eqb (info_name info) "VRSCTEST")
  || negb (info_testnet info).

Definition contextFor (principal : WalletLinkPrincipal) (correlationId_ requestDigest_ reasonCategory_ : string)
  : CommandContext := {|
  actor := {| actor_type := "auth_account"; actor_reference := wp_accountReference principal;
              authenticationStrength := wp_authenticationStrength principal |};
  committeeReference := "global_wallet_linking"; policyVersionReference := "cbc-wallet-link-policy-v1";
  softwareVersion := "issue-19"; reasonCategory := reasonCategory_; correlationId := correlationId_;
  idempotencyKey := reasonCategory_ +:+ ":" +:+ requestDigest_; requestDigest := requestDigest_ |}.

Definition hostedError (error : exn) : exn :=
  match error with
  | HostedAuthError HostedCode.INCOMPATIBLE => WalletLinkError LinkCode.AUTH_SERVICE_INCOMPATIBLE
  | _ => WalletLinkError LinkCode.AUTH_SERVICE_UNAVAILABLE
  end.

(** [publicMessage], the message of the error. *)
Definition publicMessage (code : LinkCode.WalletLinkErrorCode) : string :=
  match code with
  | LinkCode.FEATURE_DISABLED => "Optional VRSCTEST VerusID linking is not enabled."
  | LinkCode.MAINNET_BLOCKED => "VerusID linking is available on VRSCTEST only."
  | LinkCode.CHALLENGE_EXPIRED => "The VerusID linking request expired. Start again."
  | LinkCode.CHALLENGE_UNAVAILABLE => "The VerusID linking request is unavailable. Start again."
  | LinkCode.AUTH_SERVICE_UNAVAILABLE => "The VRSCTEST identity service is temporarily unavailable."
  | LinkCode.AUTH_SERVICE_INCOMPATIBLE =>
    "The VRSCTEST identity service did not meet the approved compatibility contract."
  | LinkCode.INVALID_REQUEST => "The VerusID linking result could not be accepted."
  end.

(** ** The service *)

Section service.
Context {W : Type} `{Platform} `{AuthCrypto} `{HostedPlatform}.
Context `{WalletLinkStore W} `{HostedVerusIdAuthClient W} `{VerusRpcAdapter W} `{WalletLinkRateLimiter W}.
Context `{Randomness W} (config : WalletLinkServiceConfig).

Definition audience (trustDomain : TrustDomain) : string :=
  match trustDomain with
  | td_participant => sc_participantAudience config
  | td_committee => sc_committeeAudience config
  end.

Definition requireEnabled : result exn unit :=
  throwif! negb (sc_enabled config) as! WalletLinkError LinkCode.FEATURE_DISABLED in
  throwif! negb (bool_decide (sc_network config = net_vrsctest)) as! WalletLinkError LinkCode.MAINNET_BLOCKED in
  throwIf ((length (text_units (sc_bindingSecret config)) <? 32)%nat
           || (length (text_units (sc_pollingTokenSecret config)) <? 32)%nat)
    (WalletLinkError LinkCode.FEATURE_DISABLED).

Definition begin_state (principal : WalletLinkPrincipal) (purpose : WalletLinkPurpose) (issuedAt : Z)
    (expiresAt : jsdate) : result exn string :=
  deriveHostedState (sc_bindingSecret config) {|
    hb_accountReference := wp_accountReference principal; hb_trustDomain := wp_trustDomain principal;
    hb_purpose := purpose; hb_audience := audience (wp_trustDomain principal); hb_issuedAt := Some issuedAt;
    hb_expiresAt := expiresAt |}.

(** The method [begin]. *)
Definition begin_link (input : BeginWalletLinkInput) : prog W exn WalletLinkPresentation :=
  let principal := bl_principal input in
  run* lift requireEnabled in
  run* limiter_requireWithinLimit (wp_accountReference principal) (bl_now input) REQUEST_WINDOW_MS REQUEST_LIMIT in
  let purpose := default link_verusid (bl_purpose input) in
  let* scopes := lift (normalizeScopes (bl_scopes input)) in
  let expiresAt := newDate (bl_now input + CHALLENGE_LIFETIME_MS) in
  let audience_ := audience (wp_trustDomain principal) in
  let* state := lift (begin_state principal purpose (bl_now input) expiresAt) in
  let* hosted := catch (hosted_createChallenge {|
    chc_state := state; chc_audience := audience_; chc_purpose := purpose; chc_issuedAt := bl_now input;
    chc_expiresAt := expiresAt |}) (fun e => throw (hostedError e)) in
  throwif* negb (String.eqb (hch_signerIdentityAddress hosted) (sc_applicationIdentityAddress config))
           || negb (String.eqb (hch_callbackUrl hosted) (sc_authServiceCallbackUrl config))
    as! WalletLinkError LinkCode.AUTH_SERVICE_INCOMPATIBLE in
  let* pollingToken := generateOpaqueToken in
  let* uuid := newAuthId in
  let challengeReference := "wallet_challenge_" +:+ without_dashes uuid in
  run* store_createChallenge {|
         cw_externalReference := challengeReference; cw_accountReference := wp_accountReference principal;
         cw_trustDomain := wp_trustDomain principal; cw_purpose := purpose; cw_network := "VRSCTEST";
         cw_nonceHash := sha256 state; cw_requestId := hch_challengeId hosted;
         cw_requestDigest := hch_presentationDigest hosted;
         cw_pollingTokenDigest := keyedDigest (sc_pollingTokenSecret config) pollingToken;
         cw_audience := audience_; cw_callbackUrl := hch_callbackUrl hosted;
         cw_applicationIdentityAddress := hch_signerIdentityAddress hosted; cw_consentedScopes := scopes;
         cw_issuedAt := hch_issuedAt hosted; cw_expiresAt := hch_expiresAt hosted |}
         (contextFor principal (bl_correlationId input) (hch_presentationDigest hosted) "wallet_link_requested") in
  let* expires := lift (toISOString (Some (hch_expiresAt hosted))) in
  ret {| pr_challengeReference := challengeReference;
         pr_requesterIdentity := sc_applicationIdentityAddress config; pr_purpose := purpose; pr_scopes := scopes;
         pr_expiresAt := expires; pr_sameDeviceUrl := hch_deepLink hosted; pr_qrPayload := hch_deepLink hosted;
         pr_pollingToken := pollingToken |}.

Fixpoint acknowledge_times (attempts : nat) (challengeId proofDigest : string) : prog W exn unit :=
  match attempts with
  | O => ret tt
  | S rest =>
    catch (hosted_acknowledgeResult {| ack_challengeId := challengeId; ack_proofDigest := proofDigest |})
      (fun _ => acknowledge_times rest challengeId proofDigest)
  end.

Definition acknowledgeHostedResult (challengeId proofDigest : string) : prog W exn unit :=
  acknowledge_times 3 challengeId proofDigest.

(** The state bound to a stored challenge. *)
Definition stored_state (challenge : WalletLinkChallengeRecord) : result exn string :=
  deriveHostedState (sc_bindingSecret config) {|
    hb_accountReference := wr_accountReference challenge; hb_trustDomain := wr_trustDomain challenge;
    hb_purpose := wr_purpose challenge; hb_audience := wr_audience challenge;
    hb_issuedAt := Some (wr_issuedAt challenge); hb_expiresAt := Some (wr_expiresAt challenge) |}.

Definition completion_input (challenge : WalletLinkChallengeRecord) (verified : VerifiedResult)
    (identity : VerusIdentityResult) (now : Z) : CompleteWalletLinkChallengeInput := {|
  cl_requestId := wr_requestId challenge; cl_responseDigest := vf_proofDigest verified;
  cl_identityAddress := vf_identityAddress verified;
  cl_displayNameSnapshot := nonempty (Some (ir_fullyQualifiedName identity));
  cl_proofDigest := vf_proofDigest verified; cl_proofMethod := "hosted_verusid_login_consent_v1";
  cl_requestSignerIdentity := wr_applicationIdentityAddress challenge;
  cl_observedIdentityStatus := ir_status identity; cl_observedIdentityBlockHeight := ir_blockHeight identity;
  cl_observedIdentityTxid := ir_transactionId identity; cl_completedAt := now |}.

(** A verified result: read the identity back, complete, acknowledge. *)
Definition complete_verified (input : PollInput) (challenge : WalletLinkChallengeRecord) (verified : VerifiedResult)
  : prog W exn unit :=
  let* observed := both getInfo (getIdentity (vf_identityAddress verified)) in
  throwif* not_vrsctest (fst observed) as! verusError WRONG_NETWORK "Identity readback is not VRSCTEST" false in
  run* lift (validateLinkedIdentity (snd observed) (vf_identityAddress verified)) in
  let* completed := store_completeChallenge (completion_input challenge verified (snd observed) (pi_now input))
    (contextFor (pi_principal input) (pi_correlationId input) (vf_proofDigest verified) "wallet_link_verified") in
  match completed with
  | challenge_expired => throw (WalletLinkError LinkCode.CHALLENGE_EXPIRED)
  | link_completed _ _ _ => acknowledgeHostedResult (wr_requestId challenge) (vf_proofDigest verified)
  end.

Definition result_input (challenge : WalletLinkChallengeRecord) (state : string) (now : Z) : GetHostedResultInput := {|
  ghr_challengeId := wr_requestId challenge; ghr_state := state; ghr_audience := wr_audience challenge;
  ghr_issuedAt := wr_issuedAt challenge; ghr_expiresAt := wr_expiresAt challenge; ghr_now := now |}.

(** The method [poll]. *)
Definition poll_link (input : PollInput) : prog W exn WalletLinkPollResult :=
  run* lift requireEnabled in
  let account := wp_accountReference (pi_principal input) in
  let tokenDigest := keyedDigest (sc_pollingTokenSecret config) (pi_pollingToken input) in
  let context := contextFor (pi_principal input) (pi_correlationId input) tokenDigest "wallet_link_polled" in
  let* current := store_pollChallenge account tokenDigest (pi_now input) context in
  if negb (bool_decide (po_state current = wcs_presented)) then ret current
  else
    let* challenge := store_challengeForPoll account tokenDigest in
    let* state := lift (stored_state challenge) in
    throwif* negb (String.eqb (sha256 state) (wr_nonceHash challenge))
      as! WalletLinkError LinkCode.INVALID_REQUEST in
    let* result := catch (hosted_getResult (result_input challenge state (pi_now input)))
                     (fun e => throw (hostedError e)) in
    match result with
    | hosted_pending => ret current
    | hosted_verified proof =>
      run* complete_verified input challenge proof in
      store_pollChallenge account tokenDigest (pi_now input) context
    end.

(** The methods [unlink] and [cancel]. *)
Definition service_unlink (principal : WalletLinkPrincipal) (linkReference : string) (now : Z)
    (correlationId_ : string) : prog W exn unit :=
  run* lift requireEnabled in
  store_unlink (wp_accountReference principal) linkReference now
    (contextFor principal correlationId_ (sha256 linkReference) "wallet_link_unlinked").

Definition service_cancel (principal : WalletLinkPrincipal) (challengeReference : string) (now : Z)
    (correlationId_ : string) : prog W exn unit :=
  run* lift requireEnabled in
  store_cancelChallenge (wp_accountReference principal) challengeReference now
    (contextFor principal correlationId_ (sha256 challengeReference) "wallet_link_cancelled").
End service.
