(* ===== verification/LinkHttp.v ===== *)
(** * LinkHttp: the HTTP side of VerusID linking.

    apps/api/src/wallet-link-http.ts and wallet-link.controller.ts: a request
    is authenticated by the one session cookie it carries, and its errors are
    mapped to HTTP answers.  Cookie headers are code units; method, origin,
    tokens and references are texts kept as their bytes.  The framework
    (routing, JSON bodies) is not modelled: a handler takes the parts of the
    request that it reads. *)
From Stdlib Require Import Ascii.
From S2P Require Import Prelude Errors Text Json JsonParse Encoding Verus Database Authorization Auth AuthRepository.
From S2P Require Import CoreDatabase LinkDatabase VerusLinkRepository HostedAuth WalletLinkService.
Local Open Scope Z_scope.

(** ** wallet-link-http.ts *)

Record RequestAuthentication : Type := {
  ra_method : string;
  ra_cookieHeader : option ustring;
  ra_origin : option string;
  ra_csrfToken : option string;
}.

(** [text.indexOf("=")], [text.slice(0, i)] and [text.slice(i + 1)]. *)
Fixpoint split_at (sep : Z) (s : ustring) : option (ustring * ustring) :=
  match s with
  | [] => None
  | c :: s' =>
    if c =? sep then Some ([], s')
    else match split_at sep s' with Some (a, b) => Some (c :: a, b) | None => None end
  end.

Fixpoint trim_start (s : ustring) : ustring :=
  match s with [] => [] | c :: s' => if is_space c then trim_start s' else s end.
(** [s.trim()] *)
Definition trim (s : ustring) : ustring := reverse (trim_start (reverse (trim_start s))).

Definition cookie_get (cookies : list (ustring * ustring)) (name : ustring) : option ustring :=
  snd <$> find (fun kv => bool_decide (fst kv = name)) cookies.

(** One iteration of the loop. *)
Definition add_cookie (cookies : list (ustring * ustring)) (part : ustring) : list (ustring * ustring) :=
  match split_at 61 part with
  | None | Some ([], _) => cookies
  | Some (before, after) =>
    let name := trim before in
    let value := trim after in
    if bool_decide (name = []) || bool_decide (value = []) || negb (is_null (cookie_get cookies name)) then cookies
    else cookies ++ [(name, value)]
  end.

Definition parseCookies (header : option ustring) : list (ustring * ustring) :=
  match header with
  | None => []
  | Some h => fold_left add_cookie (split_units 59 h) []
  end.

Definition principalFromSession (session : SessionRecord) : WalletLinkPrincipal := {|
  wp_accountReference := sr_accountReference session; wp_trustDomain := sr_trustDomain session;
  wp_authenticationStrength := strength_name (sr_authenticationStrength session) |}.

Record LinkPollResponse : Type := {
  rp_challengeReference : string;
  rp_state : wallet_challenge_state;
  rp_expiresAt : ustring;
  rp_linkReference : option string;
  rp_identityAddress : option string;
}.

(** The facade: its operations, by what they read of the request. *)
Record WalletLinkHttpFacade (W : Type) : Type := {
  facade_begin : RequestAuthentication -> bool -> Z -> string -> prog W exn WalletLinkPresentation;
  facade_poll : RequestAuthentication -> option string -> Z -> string -> prog W exn LinkPollResponse;
  facade_cancel : RequestAuthentication -> string -> Z -> string -> prog W exn unit;
  facade_unlink : RequestAuthentication -> string -> Z -> string -> prog W exn unit;
}.
Arguments facade_begin {W} _.
Arguments facade_poll {W} _.
Arguments facade_cancel {W} _.
Arguments facade_unlink {W} _.

Definition DisabledWalletLinkHttpFacade {W : Type} : WalletLinkHttpFacade W :=
  let disabled := WalletLinkError LinkCode.FEATURE_DISABLED in {|
  facade_begin _ _ _ _ := throw disabled; facade_poll _ _ _ _ := throw disabled;
  facade_cancel _ _ _ _ := throw disabled; facade_unlink _ _ _ _ := throw disabled |}.

Section facade.
Context {W : Type} `{Platform} `{AuthCrypto} `{HostedPlatform} `{SessionStore W}.
Context `{WalletLinkStore W} `{HostedVerusIdAuthClient W} `{VerusRpcAdapter W} `{WalletLinkRateLimiter W}.
Context `{Randomness W} (trustDomains : TrustDomain -> TrustDomainConfig) (linking : WalletLinkServiceConfig).

(** The domains whose cookie the request carries. *)
Definition candidates (cookies : list (ustring * ustring)) : list (TrustDomain * string) :=
  omap (fun domain =>
    (fun token => (domain, utf8_text token)) <$> cookie_get cookies (text_units (tc_cookieName (trustDomains domain))))
    [td_participant; td_committee].

Definition authenticate_request (request : RequestAuthentication) (now : Z) : prog W exn WalletLinkPrincipal :=
  match candidates (parseCookies (ra_cookieHeader request)) with
  | [(domain, token)] =>
    let* session := authenticate trustDomains domain (Some token) now in
    run* lift (requireCsrf trustDomains session (ra_method request) (ra_origin request) (ra_csrfToken request)) in
    ret (principalFromSession session)
  | _ => throw (AuthError AUTHENTICATION_REQUIRED)
  end.

Definition http_begin (request : RequestAuthentication) (consented : bool) (now : Z) (correlationId_ : string)
  : prog W exn WalletLinkPresentation :=
  throwif* negb consented as! WalletLinkError LinkCode.INVALID_REQUEST in
  let* principal := authenticate_request request now in
  begin_link linking {| bl_principal := principal; bl_purpose := None; bl_scopes := ["verusid:link"];
                        bl_now := now; bl_correlationId := correlationId_ |}.

Definition http_poll (request : RequestAuthentication) (pollingToken : option string) (now : Z)
    (correlationId_ : string) : prog W exn LinkPollResponse :=
  match nonempty pollingToken with
  | None => throw (WalletLinkError LinkCode.CHALLENGE_UNAVAILABLE)
  | Some token =>
    let* principal := authenticate_request request now in
    let* result := poll_link linking {| pi_principal := principal; pi_pollingToken := token; pi_now := now;
                                        pi_correlationId := correlationId_ |} in
    let* expires := lift (toISOString (Some (po_expiresAt result))) in
    ret {| rp_challengeReference := po_challengeReference result; rp_state := po_state result;
           rp_expiresAt := expires; rp_linkReference := po_linkReference result;
           rp_identityAddress := po_identityAddress result |}
  end.

Definition http_cancel (request : RequestAuthentication) (challengeReference : string) (now : Z)
    (correlationId_ : string) : prog W exn unit :=
  let* principal := authenticate_request request now in
  service_cancel linking principal challengeReference now correlationId_.

Definition http_unlink (request : RequestAuthentication) (linkReference : string) (now : Z)
    (correlationId_ : string) : prog W exn unit :=
  let* principal := authenticate_request request now in
  service_unlink linking principal linkReference now correlationId_.

Definition AuthenticatedWalletLinkHttpFacade : WalletLinkHttpFacade W := {|
  facade_begin := http_begin; facade_poll := http_poll; facade_cancel := http_cancel; facade_unlink := http_unlink |}.
End facade.

(** ** wallet-link.controller.ts *)

(** The parts of a request the handlers read.  A header given several times is
    a list; [cookie] and [origin] never are. *)
Record LinkRequest : Type := {
  lr_method : string;
  lr_cookie : option ustring;
  lr_origin : option string;
  lr_csrf : list string;
  lr_correlation : list string;
}.

(** [typeof header === "string"] *)
Definition single (header : list string) : option string :=
  match header with [h] => Some h | _ => None end.

(** [request.headers.cookie ? ... : {}] *)
Definition authentication (request : LinkRequest) : RequestAuthentication := {|
  ra_method := lr_method request;
  ra_cookieHeader := match lr_cookie request with Some [] => None | c => c end;
  ra_origin := nonempty (lr_origin request); ra_csrfToken := single (lr_csrf request) |}.

(** [/^[a-zA-Z0-9._:-]{8,128}$/] *)
Definition correlationPattern : string -> bool :=
  repeated (fun c => lower c || upper c || digit c || one_of ["."; "_"; ":"; "-"]%char c) 8 128.

(** An HttpException: its status and message. *)
Record HttpError : Type := { he_status : Z; he_message : string }.

Definition link_error_status (code : LinkCode.WalletLinkErrorCode) : Z :=
  match code with
  | LinkCode.FEATURE_DISABLED | LinkCode.MAINNET_BLOCKED => 503
  | LinkCode.AUTH_SERVICE_UNAVAILABLE | LinkCode.AUTH_SERVICE_INCOMPATIBLE => 503
  | LinkCode.CHALLENGE_EXPIRED => 410
  | LinkCode.INVALID_REQUEST => 400
  | LinkCode.CHALLENGE_UNAVAILABLE => 404
  end.

Definition auth_error_status (code : AuthErrorCode) : Z :=
  match code with RATE_LIMITED => 429 | ORIGIN_REJECTED => 403 | _ => 401 end.

Definition publicHttpError (error : exn) : HttpError :=
  match error with
  | AuthError code =>
    {| he_status := auth_error_status code; he_message := "The authenticated request could not be accepted." |}
  | WalletLinkError code => {| he_status := link_error_status code; he_message := publicMessage code |}
  | _ => {| he_status := 409; he_message := "The request could not be accepted." |}
  end.

Section controller.
Context {W : Type} `{Randomness W} (facade : WalletLinkHttpFacade W).

Definition request_correlation (request : LinkRequest) : prog W exn string :=
  match single (lr_correlation request) with
  | Some supplied =>
    if correlationPattern supplied then ret supplied
    else let* uuid := newAuthId in ret ("correlation_wallet_link_" +:+ without_dashes uuid)
  | None => let* uuid := newAuthId in ret ("correlation_wallet_link_" +:+ without_dashes uuid)
  end.

(** [try { ... } catch (error) { throw publicHttpError(error); }] *)
Definition answered {A : Type} (c : prog W exn A) : prog W HttpError A := fun w =>
  match c w with
  | (Ok a, w') => (Ok a, w')
  | (Err e, w') => (Err (publicHttpError e), w')
  end.

(** [consent]: [body.consent === true]; [now]: the clock's reading. *)
Definition post_challenge (request : LinkRequest) (consent : bool) (now : Z) : prog W HttpError WalletLinkPresentation :=
  answered (let* c := request_correlation request in
            facade_begin facade (authentication request) consent now c).

Definition get_status (request : LinkRequest) (pollingToken : option string) (now : Z)
  : prog W HttpError LinkPollResponse :=
  answered (let* c := request_correlation request in
            facade_poll facade (authentication request) pollingToken now c).

Definition delete_challenge (request : LinkRequest) (challengeReference : string) (now : Z) : prog W HttpError unit :=
  answered (let* c := request_correlation request in
            facade_cancel facade (authentication request) challengeReference now c).

Definition delete_link (request : LinkRequest) (linkReference : string) (now : Z) : prog W HttpError unit :=
  answered (let* c := request_correlation request in
            facade_unlink facade (authentication request) linkReference now c).
End controller.
