(* ===== verification/LinkSystem.v ===== *)
(** * LinkSystem: VerusID linking on its repositories and clients.

    A world holds the tables, the network with the hosted login service, the
    client of the chain node, the tokens drawn and the number of repository
    calls; the environment gives each call's faults.  The interfaces of
    WalletLinkService.v and the session store of Auth.v are, as
    createWalletLinkHttpFacade wires them, the link repository, the
    authentication repository (sessions and rate limits), the hosted HTTP
    client and the RPC adapter. *)
From S2P Require Import Prelude Errors Text Json JsonParse Verus Database AuthDatabase Authorization Auth AuthRepository.
From S2P Require Import RpcAdapter CoreDatabase LinkDatabase VerusLinkRepository HostedAuth WalletLinkService LinkHttp.
Local Open Scope Z_scope.

Record LinkWorld (N R : Type) : Type := {
  lw_db : LinkDb;
  lw_hosted : N;
  lw_rpc : Rpc R;
  lw_tokens : nat;
  lw_calls : nat;
}.
Arguments lw_db {N R} _.
Arguments lw_hosted {N R} _.
Arguments lw_rpc {N R} _.
Arguments lw_tokens {N R} _.
Arguments lw_calls {N R} _.

Section system.
Context `{Platform} `{AuthCrypto} `{HostedPlatform} `{NumberParser}.
Context {N R : Type} (fetch : HostedRequest -> N -> option HostedResponse * N).
Context (rpc_fetch : HttpRequest -> R -> FetchOutcome * R) (rpc_options : HttpVerusRpcAdapterOptions).
Context (faults : nat -> nat -> TxAttempt) (token : nat -> string).
Context (sessionKeyVersions : TrustDomain -> string) (rateSecret : string).
Context (hosted : HostedAuthClientConfig) (linking : WalletLinkServiceConfig).
Context (trustDomains : TrustDomain -> TrustDomainConfig).

#[local] Abbreviation World := (LinkWorld N R).

(** ** Where the operations run *)

Definition on_links {A : Type} (op : (nat -> TxAttempt) -> LM A) : prog World exn A := fun w =>
  let (r, d) := op (faults (lw_calls w)) (lw_db w) in
  (r, {| lw_db := d; lw_hosted := lw_hosted w; lw_rpc := lw_rpc w; lw_tokens := lw_tokens w;
         lw_calls := S (lw_calls w) |}).

(** A call of the authentication repository. *)
Definition on_auth {A : Type} (op : (nat -> TxAttempt) -> AM A) : prog World exn A :=
  on_links (fun env d => let (r, a) := op env (ld_auth d) in (r, with_auth a d)).

Definition on_hosted {A : Type} (op : prog N exn A) : prog World exn A := fun w =>
  let (r, n) := op (lw_hosted w) in
  (r, {| lw_db := lw_db w; lw_hosted := n; lw_rpc := lw_rpc w; lw_tokens := lw_tokens w; lw_calls := lw_calls w |}).

Definition on_rpc {A : Type} (op : prog (Rpc R) exn A) : prog World exn A := fun w =>
  let (r, n) := op (lw_rpc w) in
  (r, {| lw_db := lw_db w; lw_hosted := lw_hosted w; lw_rpc := n; lw_tokens := lw_tokens w; lw_calls := lw_calls w |}).

(** ** The interfaces *)

#[export] Instance link_random : Randomness World := {
  generateOpaqueToken w :=
    (Ok (token (lw_tokens w)),
     {| lw_db := lw_db w; lw_hosted := lw_hosted w; lw_rpc := lw_rpc w; lw_tokens := S (lw_tokens w);
        lw_calls := lw_calls w |});
  newAuthId w :=
    let (r, d) := draw_id (lw_db w) in
    (r, {| lw_db := d; lw_hosted := lw_hosted w; lw_rpc := lw_rpc w; lw_tokens := lw_tokens w;
           lw_calls := lw_calls w |});
}.

#[export] Instance link_store : WalletLinkStore World := {
  store_createChallenge i c := on_links (fun env => createLinkChallenge env i c);
  store_challengeForPoll a t := on_links (fun env => challengeForPoll env a t);
  store_completeChallenge i c := on_links (fun env => completeChallenge env i c);
  store_pollChallenge a t now c := on_links (fun env => pollChallenge env a t now c);
  store_cancelChallenge a r t c := on_links (fun env => cancelChallenge env a r t c);
  store_unlink a r t c := on_links (fun env => unlink env a r t c);
}.

#[export] Instance link_sessions : SessionStore World := {
  sessions_create r := on_auth (fun env => createSession sessionKeyVersions env r);
  sessions_findByTokenDigest t x := on_auth (fun env => findByTokenDigest env t x);
  sessions_revoke i reason t := on_auth (fun env => revoke env i reason t);
  sessions_revokeAll a t reason x := on_auth (fun env => revokeAll env a t reason x);
  sessions_touch i idle t := on_auth (fun env => touch env i idle t);
  sessions_list a t := on_auth (fun env => list_sessions env a t);
}.

#[export] Instance link_rates : RateLimitStore World := {
  increment k b s e := on_auth (fun env => repository_increment env k b s e);
}.

#[export] Instance link_limiter : WalletLinkRateLimiter World := {
  limiter_requireWithinLimit subject now windowMs limit :=
    requireWithinLimit rateSecret wallet_link_account subject now windowMs limit;
}.

#[export] Instance link_hosted : HostedVerusIdAuthClient World :=
  let client := hosted_http_client fetch hosted in {|
  hosted_createChallenge i := on_hosted (@hosted_createChallenge _ client i);
  hosted_getResult i := on_hosted (@hosted_getResult _ client i);
  hosted_acknowledgeResult i := on_hosted (@hosted_acknowledgeResult _ client i);
|}.

#[export] Instance link_node : VerusRpcAdapter World :=
  let node := rpc_adapter rpc_fetch rpc_options in {|
  getInfo := on_rpc (@getInfo _ node);
  getBlockchainInfo := on_rpc (@getBlockchainInfo _ node);
  getIdentity i := on_rpc (@getIdentity _ node i);
  getIdentityContent i k := on_rpc (@getIdentityContent _ node i k);
  getVdxfId u := on_rpc (@getVdxfId _ node u);
  updateIdentity u := on_rpc (@updateIdentity _ node u);
  getRawTransaction t := on_rpc (@getRawTransaction _ node t);
  getBlockHash h := on_rpc (@getBlockHash _ node h);
  getBlock h := on_rpc (@getBlock _ node h);
|}.

(** ** Requests *)

Definition link_facade : WalletLinkHttpFacade World := AuthenticatedWalletLinkHttpFacade trustDomains linking.

Inductive LinkCall : Type :=
| CBegin (request : LinkRequest) (consented : bool) (now : Z)
| CPoll (request : LinkRequest) (pollingToken : option string) (now : Z)
| CCancel (request : LinkRequest) (challengeReference : string) (now : Z)
| CUnlink (request : LinkRequest) (linkReference : string) (now : Z).

Definition run_call (c : LinkCall) (w : World) : World :=
  match c with
  | CBegin q consented now => snd (post_challenge link_facade q consented now w)
  | CPoll q pollingToken now => snd (get_status link_facade q pollingToken now w)
  | CCancel q reference now => snd (delete_challenge link_facade q reference now w)
  | CUnlink q reference now => snd (delete_link link_facade q reference now w)
  end.

Fixpoint run_calls (cs : list LinkCall) (w : World) : World :=
  match cs with [] => w | c :: cs' => run_calls cs' (run_call c w) end.
End system.
