(* ===== verification/LinkSystemFacts.v ===== *)
(** * LinkSystemFacts: linking through HTTP, on the real repositories.

    Every request of the API, whatever fails, moves challenges and links by
    steps of LinkSpec.v and keeps the invariants of the link tables. *)
From S2P Require Import Prelude Errors Text Json JsonParse Encoding Verus Lifecycles Database Authorization AuthDatabase.
From S2P Require Import Consent Auth Passkey AuthRepository AuthSystem AuthInvariant AuthFacts RpcAdapter CoreDatabase.
From S2P Require Import LinkDatabase VerusLinkRepository LinkSpec LinkFacts LinkProperties HostedAuth.
From S2P Require Import WalletLinkService LinkHttp LinkSystem.
Local Open Scope Z_scope.

Lemma both_keeps {W A B V : Type} (view : W -> V) (a : prog W exn A) (b : prog W exn B) :
  keeps view a -> keeps view b -> keeps view (both a b).
Proof.
  intros Ha Hb w. specialize (Ha w). unfold both. destruct (a w) as [ra w1]. specialize (Hb w1).
  destruct (b w1) as [rb w2]. simpl in *. congruence.
Qed.

(** ** The repository, by what it leaves alone *)

Section repository.
Context `{Platform}.

Lemma link_tx_keeps {A V : Type} (view : LinkDb -> V) env (work : LM A) :
  (forall d d', same_link d d' -> view d' = view d) -> keeps view work ->
  keeps view (inSerializableTransaction env work).
Proof.
  intros Hv Hw d. destruct (transaction_cases same_link link_rollback env work d) as [Hs|(d0 & a & d' & Hs & Hrun & ->)];
    [by apply Hv|]. by rewrite (keeps_run _ _ _ _ _ Hw Hrun), (Hv _ _ Hs).
Qed.

Lemma same_link_links d d' : same_link d d' -> ld_link d' = ld_link d.
Proof. unfold same_link, link_tables. congruence. Qed.

Lemma same_link_challenges d d' : same_link d d' -> ld_challenge d' = ld_challenge d.
Proof. unfold same_link, link_tables. congruence. Qed.

Lemma selected_keeps p : keeps id (selected p).
Proof. intros d. unfold selected, challengeSelect, bindP, gets. simpl. by destruct (find _ _). Qed.

Lemma draws_keep_links {A : Type} (c : M A) : keeps ld_link (on_store c).
Proof. intros d. apply (same_link_links d (snd (on_store c d))). symmetry. exact (on_store_keeps c d). Qed.

Lemma updateLinkChallenge_links i f : keeps ld_link (updateLinkChallenge i f).
Proof.
  intros d. unfold updateLinkChallenge, bindP, gets. simpl. destruct (ld_challenge _ !! i); [|done].
  unfold throwWhen, lift, throwIf. by repeat (case_match; simpl).
Qed.

Lemma expire_challenge_links context c : keeps ld_link (expire_challenge context c).
Proof.
  unfold expire_challenge, link_audit. apply keeps_bind; [apply updateLinkChallenge_links|intros ?].
  apply keeps_bind; [apply draws_keep_links|intros ?]. keeps_steps.
Qed.

Lemma linkFor_keeps a i : keeps id (linkForAccountAndIdentity a i).
Proof. intros d. unfold linkForAccountAndIdentity, find_link, bindP, gets. simpl. by destruct (select_row _ _). Qed.

Lemma poll_tx_links a t now c : keeps ld_link (pollChallenge_tx a t now c).
Proof.
  unfold pollChallenge_tx. apply keeps_bind; [intros d; exact (f_equal ld_link (selected_keeps _ d))|]. intros ch.
  apply keeps_bind; [|intros st; apply keeps_bind; [|intros l; keeps_steps]].
  - destruct (_ && _); [apply keeps_bind; [apply expire_challenge_links|intros ?]|]; keeps_steps.
  - destruct (bool_decide _), (nonempty (wl_linked_identity_address (jc_row ch))); try by intros ?.
    apply keeps_bind; [|intros ?; keeps_steps]. intros d. exact (f_equal ld_link (linkFor_keeps _ _ d)).
Qed.

Lemma checked_keeps {A B V : Type} (view : LinkDb -> V) (r : result exn A) (k : A -> LM B) :
  (forall a, keeps view (k a)) -> keeps view (bindP (lift r) k).
Proof. intros Hk. apply keeps_bind; [by intros ?|exact Hk]. Qed.

Lemma pollChallenge_links env a t now c : keeps ld_link (pollChallenge env a t now c).
Proof.
  unfold pollChallenge. repeat (apply checked_keeps; intros ?).
  apply link_tx_keeps; [apply same_link_links|apply poll_tx_links].
Qed.

(** A poll that answers "presented" changed nothing. *)
Lemma poll_presented env a t now c d p d' :
  pollChallenge env a t now c d = (Ok p, d') -> po_state p = wcs_presented -> same_link d d'.
Proof.
  intros Hrun Hst. apply bindP_ok in Hrun as (? & d1 & [_ <-]%pair_equal_spec & Hrun).
  apply bindP_ok in Hrun as (? & d1 & [_ <-]%pair_equal_spec & Hrun).
  apply (transaction_ok same_link link_rollback) in Hrun as (d0 & Hs & Hrun).
  transitivity d0; [exact Hs|]. apply bindP_ok in Hrun as (ch & d1 & (-> & _)%selected_run & Hrun). cbv zeta in Hrun.
  apply bindP_ok in Hrun as (st & d1 & Hexp & Hrun).
  apply bindP_ok in Hrun as (l & d2 & Hl & [= <- <-]). simpl in Hst. subst st.
  rewrite bool_decide_eq_false_2 in Hl by done. injection Hl as _ <-.
  destruct (_ && _); [|by injection Hexp as _ <-].
  by apply bindP_ok in Hexp as (u & d3 & _ & [= He _]).
Qed.

Lemma challengeForPoll_keeps env a t : keeps link_tables (challengeForPoll env a t).
Proof.
  unfold challengeForPoll. repeat (apply keeps_bind; [by intros ?|intros ?]).
  apply keeps_bind; [|intros []; keeps_steps]. intros d.
  destruct (statement_cases same_link link_rollback (env O) (challengeSelect (by_token a t)) d)
    as [Hs|(r & d' & [= _ <-] & ->)]; [by symmetry|done].
Qed.

Lemma challengeForPoll_run env a t d c d' :
  challengeForPoll env a t d = (Ok c, d') ->
  exists row, ld_challenge d !! jc_id row = Some (jc_row row) /\ c = mapChallenge row /\
    jc_account_reference row = a /\ named d (wl_auth_account_id (jc_row row)) a /\
    wl_polling_token_digest (jc_row row) = t.
Proof.
  intros Hrun. apply bindP_ok in Hrun as (? & d1 & [_ <-]%pair_equal_spec & Hrun).
  apply bindP_ok in Hrun as (? & d1 & [_ <-]%pair_equal_spec & Hrun).
  apply bindP_ok in Hrun as (found & d1 & Hfind & Hrun). destruct found as [row|]; [|done]. injection Hrun as <- _.
  assert (Hsel : selected (by_token a t) d = (Ok row, d)).
  { unfold statement in Hfind. destruct (connectFails _); [done|]. unfold try_once in Hfind.
    unfold selected, bindP. destruct (challengeSelect (by_token a t) d) as [[r|e] d2] eqn:Hs; [|done].
    injection Hs as Hr <-. destruct (statementFails _); [done|].
    destruct (commitFails _) as [[]|]; [done..|]. by injection Hfind as -> _. }
  destruct (selected_run _ _ _ _ Hsel) as (_ & Hrow & Hn & Hp). unfold by_token in Hp.
  apply andb_true_iff in Hp as [Ha%String.eqb_eq Ht%String.eqb_eq]. exists row. split_and!; try done. by rewrite <- Ha.
Qed.
End repository.

(** ** Every request keeps the invariants *)

Definition link_steps : relation Linking := rtc (fun s s' => exists e, link_step s e s').

(** From well-formed tables to well-formed tables, by steps of LinkSpec.v. *)
Definition linking_sound : relation LinkDb := fun d d' =>
  link_ok d -> link_ok d' /\ link_steps (linking d) (linking d') /\
  (forall a reference, named d a reference -> named d' a reference).

#[export] Instance linking_sound_preorder : PreOrder linking_sound.
Proof.
  split.
  - intros d Hok. split_and!; [done|constructor|done].
  - intros d1 d2 d3 H12 H23 Hok. destruct (H12 Hok) as (Hok2 & Hs12 & Hn12), (H23 Hok2) as (Hok3 & Hs23 & Hn23).
    split_and!; [done|by etransitivity|auto].
Qed.

Lemma moves_linking_sound d o d' : (link_ok d -> moves d o d') -> linking_sound d d'.
Proof.
  intros Hm Hok. destruct (Hm Hok) as [Hok' Hn Hs _]. split_and!; [done| |done].
  destruct Hs as [->|(e & _ & He)]; [constructor|]. apply rtc_once. by exists e.
Qed.

Lemma same_linking_sound d d' : same_link d d' -> linking_sound d d'.
Proof.
  intros Hs Hok. split_and!; [by eapply same_link_ok|by rewrite (same_link_linking _ _ Hs); constructor|].
  intros a r. by apply same_link_named.
Qed.

(** A step of the authentication tables alone. *)
Lemma auth_linking_sound a d : sound_step (ld_auth d) a -> linking_sound d (with_auth a d).
Proof.
  intros Hs [Hau Hc Hl]. destruct (Hs Hau) as [Hau' He]. split_and!; [by split|constructor|].
  intros i r (x & Hx & Href). destruct (ev_account _ _ He i x Hx) as (x' & Hx' & [->|(_ & Hid & _)]); [by exists x|].
  exists x'. split; [exact Hx'|]. by injection Hid as _ -> _ _ _.
Qed.

Lemma follows_catch {St E A} (R : relation St) `{!PreOrder R} (c : prog St E A) h :
  follows R c -> (forall e, follows R (h e)) -> follows R (catch c h).
Proof.
  intros Hc Hh s. specialize (Hc s). unfold catch. destruct (c s) as [[a|e] s1]; simpl in *; [done|].
  etransitivity; [exact Hc|]. apply Hh.
Qed.

Section requests.
Context `{Platform} `{AuthCrypto} `{HostedPlatform} `{NumberParser}.
Context {N R : Type} (fetch : HostedRequest -> N -> option HostedResponse * N).
Context (rpc_fetch : HttpRequest -> R -> FetchOutcome * R) (rpc_options : HttpVerusRpcAdapterOptions).
Context (faults : nat -> nat -> TxAttempt) (token : nat -> string).
Context (sessionKeyVersions : TrustDomain -> string) (rateSecret : string).
Context (hosted : HostedAuthClientConfig) (linking_config : WalletLinkServiceConfig).
Context (trustDomains : TrustDomain -> TrustDomainConfig).

#[local] Abbreviation World := (LinkWorld N R).
#[local] Existing Instance link_random.
#[local] Instance store : WalletLinkStore World := link_store faults.
#[local] Instance sessions : SessionStore World := link_sessions faults sessionKeyVersions.
#[local] Instance limiter : WalletLinkRateLimiter World := link_limiter faults rateSecret.
#[local] Instance client : HostedVerusIdAuthClient World := link_hosted fetch hosted.
#[local] Instance node : VerusRpcAdapter World := link_node rpc_fetch rpc_options.
#[local] Instance random : Randomness World := link_random token.

Definition world_sound : relation World := fun w w' => linking_sound (lw_db w) (lw_db w').
#[local] Instance world_sound_preorder : PreOrder world_sound.
Proof. split; [intros w; unfold world_sound; reflexivity|]. intros ?? ?. unfold world_sound. apply transitivity. Qed.

Lemma on_links_sound {A : Type} (op : (nat -> TxAttempt) -> LM A) :
  (forall env d, linking_sound d (snd (op env d))) -> follows world_sound (on_links (N := N) (R := R) faults op).
Proof.
  intros Hop w. unfold world_sound, on_links. specialize (Hop (faults (lw_calls w)) (lw_db w)).
  by destruct (op _ _) as [r d].
Qed.

Lemma on_auth_sound {A : Type} (op : (nat -> TxAttempt) -> AM A) :
  (forall env, follows sound_step (op env)) -> follows world_sound (on_auth (N := N) (R := R) faults op).
Proof.
  intros Hop. apply on_links_sound. intros env d. specialize (Hop env (ld_auth d)).
  destruct (op env (ld_auth d)) as [r a]. by apply auth_linking_sound.
Qed.

(** A program that leaves the tables alone. *)
Lemma quiet_sound {A : Type} (c : prog World exn A) : keeps lw_db c -> follows world_sound c.
Proof. intros Hk w. unfold world_sound. by rewrite Hk. Qed.

Lemma on_hosted_keeps {A : Type} (op : prog N exn A) : keeps lw_db (on_hosted (R := R) op).
Proof. intros w. unfold on_hosted. by destruct (op _). Qed.

Lemma on_rpc_keeps {A : Type} (op : prog (Rpc R) exn A) : keeps lw_db (on_rpc (N := N) op).
Proof. intros w. unfold on_rpc. by destruct (op _). Qed.

Lemma draw_sound : follows world_sound newAuthId.
Proof.
  intros w. unfold world_sound. simpl. pose proof (on_store_keeps newId (lw_db w)) as Hk. unfold draw_id.
  destruct (on_store newId (lw_db w)) as [r d]. by apply same_linking_sound.
Qed.

Lemma call_sound env o d : linking_sound d (run_link sessionKeyVersions env o d).
Proof. apply (moves_linking_sound d o). apply link_refinement. Qed.

Lemma store_create_sound i c : follows world_sound (store_createChallenge i c).
Proof. apply on_links_sound. intros env d. exact (call_sound env (LCreate i c) d). Qed.
Lemma store_poll_sound a t now c : follows world_sound (store_pollChallenge a t now c).
Proof. apply on_links_sound. intros env d. exact (call_sound env (LPoll a t now c) d). Qed.
Lemma store_complete_sound i c : follows world_sound (store_completeChallenge i c).
Proof. apply on_links_sound. intros env d. exact (call_sound env (LComplete i c) d). Qed.
Lemma store_cancel_sound a r t c : follows world_sound (store_cancelChallenge a r t c).
Proof. apply on_links_sound. intros env d. exact (call_sound env (LCancel a r t c) d). Qed.
Lemma store_unlink_sound a r t c : follows world_sound (store_unlink a r t c).
Proof. apply on_links_sound. intros env d. exact (call_sound env (LUnlink a r t c) d). Qed.
Lemma store_read_sound a t : follows world_sound (store_challengeForPoll a t).
Proof.
  apply on_links_sound. intros env d. apply same_linking_sound. symmetry. exact (challengeForPoll_keeps env a t d).
Qed.

Lemma hosted_create_keeps i : keeps lw_db (hosted_createChallenge i). Proof. apply on_hosted_keeps. Qed.
Lemma hosted_result_keeps i : keeps lw_db (hosted_getResult i). Proof. apply on_hosted_keeps. Qed.
Lemma hosted_ack_keeps i : keeps lw_db (hosted_acknowledgeResult i). Proof. apply on_hosted_keeps. Qed.
Lemma node_info_keeps : keeps lw_db getInfo. Proof. apply on_rpc_keeps. Qed.
Lemma node_identity_keeps i : keeps lw_db (getIdentity i). Proof. apply on_rpc_keeps. Qed.

Lemma session_find_sound t x : follows world_sound (sessions_findByTokenDigest t x).
Proof.
  apply on_auth_sound. intros env. apply statement_sound. apply follows_pure; [tc_solve|reflexivity].
Qed.
Lemma session_revoke_sound i reason t : follows world_sound (sessions_revoke i reason t).
Proof. apply on_auth_sound. intros env. apply revoke_sound. Qed.
Lemma session_touch_sound i idle t : follows world_sound (sessions_touch i idle t).
Proof. apply on_auth_sound. intros env. apply touch_sound. Qed.

Lemma limiter_sound subject now windowMs limit : follows world_sound (limiter_requireWithinLimit subject now windowMs limit).
Proof.
  simpl. unfold requireWithinLimit. apply follows_bind; [tc_solve| |intros ?].
  - apply on_auth_sound. intros env. apply increment_sound.
  - auto with follows.
Qed.

Lemma token_sound : follows world_sound generateOpaqueToken.
Proof. by apply quiet_sound. Qed.

#[local] Hint Resolve draw_sound store_create_sound store_poll_sound store_complete_sound store_cancel_sound
  store_unlink_sound store_read_sound session_find_sound session_revoke_sound session_touch_sound limiter_sound
  token_sound : follows.
#[local] Hint Extern 2 (follows world_sound (hosted_createChallenge _)) => (apply quiet_sound, hosted_create_keeps) : follows.
#[local] Hint Extern 2 (follows world_sound (hosted_getResult _)) => (apply quiet_sound, hosted_result_keeps) : follows.
#[local] Hint Extern 2 (follows world_sound (both getInfo (getIdentity _))) =>
  (apply quiet_sound, both_keeps; [apply node_info_keeps|apply node_identity_keeps]) : follows.

Lemma authenticate_sound request now : follows world_sound (authenticate_request trustDomains request now).
Proof.
  unfold authenticate_request. destruct (candidates _ _) as [|[domain t] [|]]; [auto with follows| |auto with follows].
  apply follows_bind; [tc_solve| |intros session; follows_steps]. unfold authenticate. follows_steps.
Qed.

Lemma acknowledge_sound n i p : follows world_sound (acknowledge_times n i p).
Proof.
  induction n as [|n IH]; simpl; [auto with follows|]. apply follows_catch; [tc_solve| |done].
  apply quiet_sound, hosted_ack_keeps.
Qed.

Lemma begin_link_sound input : follows world_sound (begin_link linking_config input).
Proof.
  unfold begin_link. follows_steps. apply follows_catch; [tc_solve| |intros ?]; auto with follows.
Qed.

Lemma poll_link_sound input : follows world_sound (poll_link linking_config input).
Proof.
  unfold poll_link. follows_steps.
  - apply follows_catch; [tc_solve| |intros ?]; auto with follows.
  - unfold complete_verified. follows_steps. apply acknowledge_sound.
Qed.

#[local] Hint Resolve authenticate_sound begin_link_sound poll_link_sound : follows.

Lemma answered_sound {A : Type} (c : prog World exn A) : follows world_sound c -> follows world_sound (answered c).
Proof. intros Hc w. specialize (Hc w). unfold answered. by destruct (c w) as [[a|e] w1]. Qed.

Lemma correlation_sound request : follows world_sound (request_correlation request).
Proof. unfold request_correlation. follows_steps. Qed.
#[local] Hint Resolve correlation_sound : follows.

Lemma run_calls_linking cs w
    (w' := run_calls fetch rpc_fetch rpc_options faults token sessionKeyVersions rateSecret hosted linking_config
             trustDomains cs w) :
  link_ok (lw_db w) -> linking_ok (linking (lw_db w)) ->
  link_ok (lw_db w') /\ link_steps (linking (lw_db w)) (linking (lw_db w')) /\ linking_ok (linking (lw_db w')).
Proof.
  intros Hok Hlk. assert (Hs : linking_sound (lw_db w) (lw_db w')).
  { subst w'. clear Hok Hlk. revert w. induction cs as [|c cs IH]; intros w; simpl; [reflexivity|].
    etransitivity; [|apply IH]. change (world_sound w (run_call fetch rpc_fetch rpc_options faults token
      sessionKeyVersions rateSecret hosted linking_config trustDomains c w)).
    destruct c as [q consented now|q t now|q reference now|q reference now]; simpl;
      match goal with |- world_sound w (snd (?c w)) => apply (fun Hf : follows world_sound c => Hf w) end;
      apply answered_sound; (apply follows_bind; [tc_solve|apply correlation_sound|intros corr]); simpl;
      unfold http_begin, http_poll, http_cancel, http_unlink, service_cancel, service_unlink; follows_steps. }
  destruct (Hs Hok) as (Hok' & Hsteps & _). split_and!; [done|done|].
  clear Hok Hok' Hs. revert Hlk. induction Hsteps as [|s1 s2 s3 (e & He) _ IH]; [done|]. intros Hlk. apply IH. by eapply step_ok.
Qed.

(** C10: every request of the linking API, whatever fails, keeps the tables
    well-formed and moves challenges and links by steps of LinkSpec.v only;
    so in every history of requests each link was proved, in time, for its
    account and identity, and is the account's only link of it. *)
Theorem requests_keep_linking cs w
    (w' := run_calls fetch rpc_fetch rpc_options faults token sessionKeyVersions rateSecret hosted linking_config
             trustDomains cs w) :
  link_ok (lw_db w) -> linking_ok (linking (lw_db w)) ->
  link_ok (lw_db w') /\ link_steps (linking (lw_db w)) (linking (lw_db w')) /\ linking_ok (linking (lw_db w')).
Proof. apply run_calls_linking. Qed.
End requests.
