(* ===== verification/LinkRequestFacts.v ===== *)
(** * LinkRequestFacts: what a poll must have seen, and what begin leaves.

    The linking service over any interfaces ([LinkingObserved]: the hosted
    client and the chain adapter leave the stored state alone, and polling or
    reading a challenge changes no link); the completion of a challenge at
    the level of the rows and the verified results of the hosted client; the
    theorem that puts HTTP, service, hosted client, chain adapter and
    repository together; and the challenge that [begin] stores, whose nonce
    binds it to account, domain, purpose and dates. *)
From S2P Require Import Prelude Errors Text Json JsonParse Encoding Verus Lifecycles Database Authorization AuthDatabase.
From S2P Require Import Consent Auth Passkey AuthRepository AuthSystem AuthInvariant AuthFacts RpcAdapter CoreDatabase.
From S2P Require Import LinkDatabase VerusLinkRepository LinkSpec LinkFacts LinkProperties HostedAuth.
From S2P Require Import WalletLinkService LinkHttp LinkSystem LinkSystemFacts.
Local Open Scope Z_scope.

(** ** The service, over any interfaces *)

Class LinkingObserved (W S L : Type) `{WalletLinkStore W} `{HostedVerusIdAuthClient W} `{VerusRpcAdapter W} := {
  stored : W -> S;
  links : S -> L;
  hosted_result_quiet : forall i, keeps stored (hosted_getResult i);
  hosted_ack_quiet : forall i, keeps stored (hosted_acknowledgeResult i);
  info_quiet : keeps stored getInfo;
  identity_quiet : forall i, keeps stored (getIdentity i);
  read_quiet : forall a t, keeps stored (store_challengeForPoll a t);
  poll_keeps_links : forall a t now c, keeps (fun w => links (stored w)) (store_pollChallenge a t now c);
}.

(** What a poll went through when it changed a link. *)
Record verified_poll {W S L : Type} `{LinkingObserved W S L} `{Platform} `{AuthCrypto} `{HostedPlatform}
    (config : WalletLinkServiceConfig) (input : PollInput) (w w' : W) : Prop := {
  vp_current : exists current w1, store_pollChallenge (wp_accountReference (pi_principal input))
      (keyedDigest (sc_pollingTokenSecret config) (pi_pollingToken input)) (pi_now input)
      (contextFor (pi_principal input) (pi_correlationId input)
         (keyedDigest (sc_pollingTokenSecret config) (pi_pollingToken input)) "wallet_link_polled") w = (Ok current, w1) /\
    po_state current = wcs_presented /\
  exists challenge w2, store_challengeForPoll (wp_accountReference (pi_principal input))
      (keyedDigest (sc_pollingTokenSecret config) (pi_pollingToken input)) w1 = (Ok challenge, w2) /\
  exists state, stored_state config challenge = Ok state /\ sha256 state = wr_nonceHash challenge /\
  exists proof w3, hosted_getResult (result_input challenge state (pi_now input)) w2 = (Ok (hosted_verified proof), w3) /\
  exists info identity w4, both getInfo (getIdentity (vf_identityAddress proof)) w3 = (Ok (info, identity), w4) /\
    not_vrsctest info = false /\ validateLinkedIdentity identity (vf_identityAddress proof) = Ok tt /\
    stored w4 = stored w1 /\
  exists completed w5, store_completeChallenge (completion_input challenge proof identity (pi_now input))
      (contextFor (pi_principal input) (pi_correlationId input) (vf_proofDigest proof) "wallet_link_verified") w4
      = (completed, w5) /\ links (stored w') = links (stored w5);
  vp_enabled : requireEnabled config = Ok tt;
}.

Section service.
Context {W S L : Type} `{LinkingObserved W S L} `{Platform} `{AuthCrypto} `{HostedPlatform}.
Context (config : WalletLinkServiceConfig).

Lemma catch_keeps {A V : Type} (view : W -> V) (c : prog W exn A) h :
  keeps view c -> (forall e, keeps view (h e)) -> keeps view (catch c h).
Proof.
  intros Hc Hh w. specialize (Hc w). unfold catch. destruct (c w) as [[a|e] w1]; simpl in *; [done|].
  by rewrite (Hh e w1).
Qed.

Lemma acknowledge_keeps n challengeId proofDigest : keeps stored (acknowledge_times n challengeId proofDigest).
Proof.
  induction n as [|n IH]; simpl; [by intros ?|]. apply catch_keeps; [apply hosted_ack_quiet|]. intros ?. apply IH.
Qed.

(** Acknowledging never fails: what was completed stays. *)
Lemma acknowledge_ok n challengeId proofDigest w :
  exists w', acknowledge_times n challengeId proofDigest w = (Ok tt, w').
Proof.
  revert w. induction n as [|n IH]; intros w; simpl; [by exists w|].
  unfold catch. destruct (hosted_acknowledgeResult _ w) as [[[]|e] w1]; [by exists w1|apply IH].
Qed.

(** A program that keeps what is stored keeps the links. *)
Lemma keeps_links {A : Type} (c : prog W exn A) : keeps stored c -> keeps (fun w => links (stored w)) c.
Proof. intros Hc w. by rewrite Hc. Qed.

Lemma hosted_quiet i : keeps stored (catch (hosted_getResult i) (fun e => throw (hostedError e))).
Proof. apply catch_keeps; [apply hosted_result_quiet|]. intros ?. keeps_steps. Qed.

(** The links change only in the completion of a verified result. *)
Lemma complete_verified_links input challenge proof w r w' :
  complete_verified input challenge proof w = (r, w') -> links (stored w') <> links (stored w) ->
  exists info identity w4 completed w5,
    both getInfo (getIdentity (vf_identityAddress proof)) w = (Ok (info, identity), w4) /\
    not_vrsctest info = false /\ validateLinkedIdentity identity (vf_identityAddress proof) = Ok tt /\
    store_completeChallenge (completion_input challenge proof identity (pi_now input))
      (contextFor (pi_principal input) (pi_correlationId input) (vf_proofDigest proof) "wallet_link_verified") w4
      = (completed, w5) /\ stored w' = stored w5.
Proof.
  intros Hrun Hne. unfold complete_verified, bindP at 1 in Hrun.
  assert (Hq : keeps stored (both getInfo (getIdentity (vf_identityAddress proof))))
    by (apply both_keeps; [apply info_quiet|apply identity_quiet]).
  destruct (both _ _ w) as [[[info identity]|e] w4] eqn:Hboth; pose proof (keeps_run _ _ _ _ _ Hq Hboth) as K4;
    [|injection Hrun as <- <-; by rewrite K4 in Hne].
  simpl in Hrun. unfold throwWhen, lift, throwIf, bindP at 1 in Hrun.
  destruct (not_vrsctest info) eqn:Hi; [injection Hrun as <- <-; by rewrite K4 in Hne|].
  unfold bindP at 1 in Hrun. destruct (validateLinkedIdentity identity _) as [[]|e] eqn:Hv;
    [|injection Hrun as <- <-; by rewrite K4 in Hne].
  unfold bindP at 1 in Hrun. destruct (store_completeChallenge _ _ w4) as [completed w5] eqn:Hc.
  exists info, identity, w4, completed, w5. split_and!; try done.
  destruct completed as [[replayed link identity'|]|e]; [|by injection Hrun as _ <-..].
  exact (keeps_run _ _ _ _ _ (acknowledge_keeps 3 _ _) Hrun).
Qed.

Lemma poll_changes_links input w r w' :
  poll_link config input w = (r, w') -> links (stored w') <> links (stored w) ->
  verified_poll config input w w'.
Proof.
  intros Hrun Hne. unfold poll_link, bindP at 1, lift in Hrun.
  destruct (requireEnabled config) as [[]|e] eqn:Hen; [|by injection Hrun as _ <-].
  cbv zeta in Hrun. split; [|done]. unfold bindP at 1 in Hrun.
  destruct (store_pollChallenge _ _ _ _ w) as [[current|e] w1] eqn:Hpoll;
    pose proof (keeps_run _ _ _ _ _ (poll_keeps_links _ _ _ _) Hpoll) as K1; simpl in K1;
    [|injection Hrun as _ <-; by rewrite K1 in Hne].
  destruct (bool_decide (po_state current = wcs_presented)) eqn:Hst; simpl in Hrun; [|injection Hrun as _ <-; by rewrite K1 in Hne].
  apply bool_decide_eq_true in Hst. exists current, w1. split; [done|]. split; [done|]. unfold bindP at 1 in Hrun.
  destruct (store_challengeForPoll _ _ w1) as [[challenge|e] w2] eqn:Hread;
    pose proof (keeps_run _ _ _ _ _ (read_quiet _ _) Hread) as K2; simpl in K2;
    [|injection Hrun as _ <-; rewrite K2 in Hne; congruence].
  exists challenge, w2. split; [done|]. unfold bindP at 1 in Hrun.
  destruct (stored_state config challenge) as [state|e] eqn:Hstate; [|injection Hrun as _ <-; rewrite K2 in Hne; congruence].
  unfold throwWhen, throwIf, bindP at 1, lift in Hrun.
  destruct (String.eqb_spec (sha256 state) (wr_nonceHash challenge)) as [Hnonce|]; simpl in Hrun;
    [|injection Hrun as _ <-; rewrite K2 in Hne; congruence].
  exists state. split; [done|]. split; [done|]. unfold bindP at 1 in Hrun.
  destruct (catch _ _ w2) as [[result|e] w3] eqn:Hget; pose proof (keeps_run _ _ _ _ _ (hosted_quiet _) Hget) as K3;
    [|injection Hrun as _ <-; rewrite K3, K2 in Hne; congruence].
  destruct result as [|proof]; [injection Hrun as _ <-; rewrite K3, K2 in Hne; congruence|].
  assert (Hgot : hosted_getResult (result_input challenge state (pi_now input)) w2 = (Ok (hosted_verified proof), w3)).
  { unfold catch in Hget. destruct (hosted_getResult _ w2) as [[x|e] wx]; [exact Hget|discriminate Hget]. }
  exists proof, w3. split; [done|].
  destruct (complete_verified input challenge proof w3) as [rc w6] eqn:Hcomplete.
  assert (Hlast : links (stored w') = links (stored w6)).
  { unfold bindP in Hrun. rewrite Hcomplete in Hrun. destruct rc as [[]|e]; [|by injection Hrun as _ <-].
    exact (keeps_run _ _ _ _ _ (poll_keeps_links _ _ _ _) Hrun). }
  destruct (complete_verified_links _ _ _ _ _ _ Hcomplete) as (info & identity & w4 & completed & w5 & Hb & Hi & Hv & Hc & K5);
    [rewrite <- Hlast, K3, K2; congruence|].
  assert (K4 : stored w4 = stored w3).
  { refine (keeps_run _ _ _ _ _ _ Hb). apply both_keeps; [apply info_quiet|apply identity_quiet]. }
  exists info, identity, w4. split_and!; [done|done|done|congruence|]. exists completed, w5. split; [done|congruence].
Qed.
End service.

(** ** Polling *)

(** ** The repository *)

(** The link a completion wrote. *)
Record written_link (input : CompleteWalletLinkChallengeInput) (c : LinkChallengeRow) (l : IdentityLinkRow) : Prop := {
  wk_account : vl_auth_account_id l = wl_auth_account_id c;
  wk_identity : vl_identity_address l = cl_identityAddress input;
  wk_state : vl_state l = ils_active;
  wk_proof : vl_proof l = proof_of input c;
}.

Section repository.
Context `{Platform}.

Lemma write_link_rows input ch d r d' :
  write_link input ch d = (Ok r, d') ->
  exists j l, ld_link d' = <[j := l]> (ld_link d) /\ ld_challenge d' = ld_challenge d /\ written_link input (jc_row ch) l /\
    (forall old, ld_link d !! j = Some old -> vl_auth_account_id old = wl_auth_account_id (jc_row ch) /\
       vl_identity_address old = cl_identityAddress input).
Proof.
  intros Hrun. unfold write_link in Hrun. apply bindP_ok in Hrun as (existing & d1 & [-> He]%find_link_run & Hrun).
  destruct existing as [[j l]|].
  - destruct He as [Hj Hp]. apply bindP_ok in Hrun as (u & d1 & Hu & [= _ <-]).
    destruct (updateLink_run _ _ _ _ _ _ Hu Hj) as [-> _].
    unfold same_identity in Hp. rewrite !andb_true_iff, !String.eqb_eq in Hp. destruct Hp as [[Ha _] Hi].
    eexists j, _. split_and!; [reflexivity|done|by split|]. intros old Hold. assert (old = l) as -> by congruence. done.
  - apply draw_then in Hrun as (j & d1 & Hs1 & Hrun). apply draw_then in Hrun as (k & d2 & Hs2 & Hrun).
    apply bindP_ok in Hrun as (participant & d3 & Hp & Hrun).
    assert (d3 = d2) as ->.
    { destruct (nonempty _); [|by injection Hp]. apply bindP_ok in Hp as (i & d4 & Hi & [= _ <-]).
      unfold link_participantId in Hi. apply bindP_ok in Hi as (f & d5 & [= _ <-] & Hi).
      destruct f; [by injection Hi|done]. }
    apply bindP_ok in Hrun as (u & d3 & Hu & [= _ <-]). apply insertLink_run in Hu as (-> & _ & Hnew).
    assert (Hs : same_link d d2) by by transitivity d1. simpl.
    assert (ld_link d2 = ld_link d /\ ld_challenge d2 = ld_challenge d) as [Hl Hc]
      by (split; [by apply same_link_links|by apply same_link_challenges]).
    eexists j, _. rewrite Hl, Hc. split_and!; [reflexivity|done|by split|]. intros old Hold. congruence.
Qed.

(** What one call changes of the links. *)
Lemma complete_rows env input context d r d' :
  completeChallenge env input context d = (r, d') -> ld_link d' <> ld_link d ->
  exists i c j l, ld_challenge d !! i = Some c /\ wl_request_id c = cl_requestId input /\
    wl_state c = wcs_presented /\ cl_completedAt input < wl_expires_at c /\ ld_link d' = <[j := l]> (ld_link d) /\ written_link input c l /\
    (forall old, ld_link d !! j = Some old -> vl_auth_account_id old = wl_auth_account_id c /\
       vl_identity_address old = cl_identityAddress input).
Proof.
  intros Hrun Hne. assert (Hd : snd (completeChallenge env input context d) = d') by by rewrite Hrun.
  clear Hrun. unfold completeChallenge, bindP, lift in Hd. do 3 (destruct (requireDigest _ _) as [[]|]; [|by subst d']).
  destruct (transaction_cases same_link link_rollback env (completeChallenge_tx input context) d)
    as [Hs|(d0 & a & d1 & Hs & Hrun & He)]; [by rewrite Hd in Hs; apply same_link_links in Hs|].
  rewrite Hd in He. subst d1. pose proof (same_link_links _ _ Hs) as Hl0.
  pose proof (same_link_challenges _ _ Hs) as Hc0.
  rewrite <- Hl0, <- Hc0 in *. clear Hs Hl0 Hc0 Hd d. unfold completeChallenge_tx in Hrun.
  apply bindP_ok in Hrun as (ch & d1 & (-> & Hrow & _ & Hreq%String.eqb_eq)%selected_run & Hrun).
  cbv zeta in Hrun. destruct (bool_decide (wl_state (jc_row ch) = wcs_consumed)) eqn:Hst.
  { apply bindP_ok in Hrun as (? & d1 & [_ <-]%pair_equal_spec & Hrun).
    apply bindP_ok in Hrun as (l & d1 & Hl & [= _ <-]).
    pose proof (keeps_run _ _ _ _ _ (linkFor_keeps _ _) Hl) as Hk. unfold id in Hk. by subst d1. }
  apply bindP_ok in Hrun as (? & d1 & [Hp <-]%pair_equal_spec & Hrun).
  apply throwIf_ok, negb_false_iff, bool_decide_eq_true in Hp.
  destruct (Z.leb_spec (wl_expires_at (jc_row ch)) (cl_completedAt input)) as [Hle|Hlt].
  { apply bindP_ok in Hrun as (u & d1 & He & [= _ <-]).
    by rewrite (keeps_run _ _ _ _ _ (expire_challenge_links _ _) He) in Hne. }
  apply bindP_ok in Hrun as (written & d1 & (j & l & Hl & _ & Hw & Hold)%write_link_rows & Hrun).
  apply bindP_ok in Hrun as (u & d2 & Hu & Hrun).
  apply audit_then in Hrun as (d3 & Hs3 & Hrun). apply audit_then in Hrun as (d4 & Hs4 & [= _ <-]).
  exists (jc_id ch), (jc_row ch), j, l. split_and!; try done.
  by rewrite (same_link_links _ _ Hs4), (same_link_links _ _ Hs3), (keeps_run _ _ _ _ _ (updateLinkChallenge_links _ _) Hu).
Qed.
End repository.

(** ** The hosted client *)

Lemma getResult_verified `{Platform} `{HostedPlatform} `{NumberParser} {N : Type}
    (fetch : HostedRequest -> N -> option HostedResponse * N) config input n v n' :
  getResult fetch config input n = (Ok (hosted_verified v), n') ->
  exists jwt identity times, verifyJwt jwt (hc_jwtSecret config) (expected_jwt config input identity) = Ok times /\
    vf_identityAddress v = utf8_text identity /\ vf_proofDigest v = sha256 (utf8_text jwt).
Proof.
  intros Hrun. apply bindP_ok in Hrun as (? & n1 & _ & Hrun). apply bindP_ok in Hrun as (response & n2 & _ & Hrun).
  destruct (_ || _); [done|]. apply bindP_ok in Hrun as (? & n3 & _ & Hrun).
  apply bindP_ok in Hrun as (body & n4 & _ & Hrun). injection Hrun as Hrun _. unfold read_result in Hrun. inv_ok.
  eexists _, _, _. split_and!; [eassumption|done|done].
Qed.

(** ** Everything together *)

Section requests.
Context `{Platform} `{AuthCrypto} `{HostedPlatform} `{NumberParser}.
Context {N R : Type} (fetch : HostedRequest -> N -> option HostedResponse * N).
Context (rpc_fetch : HttpRequest -> R -> FetchOutcome * R) (rpc_options : HttpVerusRpcAdapterOptions).
Context (faults : nat -> nat -> TxAttempt) (token : nat -> string).
Context (sessionKeyVersions : TrustDomain -> string) (rateSecret : string).
Context (hosted : HostedAuthClientConfig) (linking_config : WalletLinkServiceConfig).
Context (trustDomains : TrustDomain -> TrustDomainConfig).

#[local] Abbreviation World := (LinkWorld N R).
#[local] Instance store : WalletLinkStore World := link_store faults.
#[local] Instance sessions : SessionStore World := link_sessions faults sessionKeyVersions.
#[local] Instance client : HostedVerusIdAuthClient World := link_hosted fetch hosted.
#[local] Instance node : VerusRpcAdapter World := link_node rpc_fetch rpc_options.

Definition tables_of (w : World) := link_tables (lw_db w).

Lemma on_links_keeps {A V : Type} (view : LinkDb -> V) (op : (nat -> TxAttempt) -> LM A) :
  (forall env, keeps view (op env)) -> keeps (fun w : World => view (lw_db w)) (on_links faults op).
Proof. intros Hop w. unfold on_links. specialize (Hop (faults (lw_calls w)) (lw_db w)). by destruct (op _ _). Qed.

(** The world of the system satisfies the service's assumptions. *)
#[local] Instance world_observed : LinkingObserved World _ _ := {|
  stored := tables_of;
  links := snd;
  hosted_result_quiet i w := f_equal link_tables (hosted_result_keeps fetch hosted i w);
  hosted_ack_quiet i w := f_equal link_tables (hosted_ack_keeps fetch hosted i w);
  info_quiet w := f_equal link_tables (node_info_keeps rpc_fetch rpc_options w);
  identity_quiet i w := f_equal link_tables (node_identity_keeps rpc_fetch rpc_options i w);
  read_quiet a t := on_links_keeps link_tables _ (fun env => challengeForPoll_keeps env a t);
  poll_keeps_links a t now c := on_links_keeps ld_link _ (fun env => pollChallenge_links env a t now c);
|}.

Lemma on_auth_keeps {A : Type} (op : (nat -> TxAttempt) -> AM A) :
  keeps (fun w : World => (ld_challenge (lw_db w), ld_link (lw_db w))) (on_auth faults op).
Proof. intros w. unfold on_auth, on_links. by destruct (op _ _). Qed.

Lemma authenticate_keeps request now :
  keeps (fun w : World => (ld_challenge (lw_db w), ld_link (lw_db w))) (authenticate_request trustDomains request now).
Proof.
  unfold authenticate_request. destruct (candidates _ _) as [|[domain t] [|]]; [keeps_steps| |keeps_steps].
  apply keeps_bind; [|intros session; keeps_steps]. unfold authenticate.
  destruct (nonempty _); [|keeps_steps]. cbv zeta. apply keeps_bind; [apply on_auth_keeps|intros found].
  destruct found; [|keeps_steps]. do 2 (apply keeps_bind; [keeps_steps|intros ?]).
  destruct (_ || _); (apply keeps_bind; [apply on_auth_keeps|intros ?]); keeps_steps.
Qed.

(** The node's answer on an identity. *)
Definition node_identity (address : string) (s : Rpc R) : result exn VerusIdentityResult :=
  fst (@getIdentity _ (rpc_adapter rpc_fetch rpc_options) address s).

Lemma both_identity address (w w' : World) info identity :
  both getInfo (getIdentity address) w = (Ok (info, identity), w') ->
  exists s, node_identity address s = Ok identity.
Proof.
  unfold both. destruct (getInfo w) as [ra w1] eqn:Ha. destruct (getIdentity address w1) as [rb w2] eqn:Hb.
  intros [= Hr _]. destruct ra as [x|], rb as [y|]; try done. injection Hr as _ ->. exists (lw_rpc w1).
  unfold node_identity. revert Hb. simpl. unfold on_rpc.
  destruct (rpc_getIdentity rpc_fetch rpc_options address (lw_rpc w1)) as [r n]. by intros [= -> _].
Qed.

(** What lets a poll at [now] link [identity]: the account's own challenge
    [c], not yet used and in time, whose bound state a token [jwt] of the
    hosted service carries together with the identity. *)
Record proves_identity (now : Z) (c : LinkChallengeRow) (account : string) (identity : ustring) : Prop := {
  pf_presented : wl_state c = wcs_presented;
  pf_in_time : now < wl_expires_at c;
  pf_token : exists state jwt times,
    deriveHostedState (sc_bindingSecret linking_config) {|
      hb_accountReference := account; hb_trustDomain := wl_trust_domain c; hb_purpose := wl_purpose c;
      hb_audience := wl_audience c; hb_issuedAt := Some (wl_issued_at c); hb_expiresAt := Some (wl_expires_at c) |}
      = Ok state /\
    sha256 state = wl_nonce_hash c /\
    verifyJwt jwt (hc_jwtSecret hosted) {|
      ej_issuer := hc_issuer hosted; ej_audience := wl_audience c; ej_challengeId := wl_request_id c;
      ej_state := state; ej_identityAddress := identity; ej_issuedAt := wl_issued_at c;
      ej_expiresAt := wl_expires_at c; ej_now := now |} = Ok times;
  pf_chain : exists s observed, node_identity (utf8_text identity) s = Ok observed /\
    id_identityAddress (ir_identity observed) = utf8_text identity /\
    id_systemId (ir_identity observed) = VRSCTEST_CHAIN_ID /\ ir_status observed = "active";
}.

(** A call on the link tables, seen on them. *)
Lemma on_links_run {A : Type} (op : (nat -> TxAttempt) -> LM A) (w w' : World) r :
  on_links faults op w = (r, w') -> op (faults (lw_calls w)) (lw_db w) = (r, lw_db w').
Proof. unfold on_links. destruct (op _ _) as [x d]. by intros [= <- <-]. Qed.

(** A poll that ran through the service, on the tables it started from. *)
Lemma verified_poll_tables input w w' :
  linking_ok (linking (lw_db w)) -> verified_poll linking_config input w w' ->
  ld_link (lw_db w') <> ld_link (lw_db w) ->
  exists i c identity j l, ld_challenge (lw_db w) !! i = Some c /\
    named (lw_db w) (wl_auth_account_id c) (wp_accountReference (pi_principal input)) /\
    wl_polling_token_digest c = keyedDigest (sc_pollingTokenSecret linking_config) (pi_pollingToken input) /\
    proves_identity (pi_now input) c (wp_accountReference (pi_principal input)) identity /\
    ld_link (lw_db w') = <[j := l]> (ld_link (lw_db w)) /\ vl_auth_account_id l = wl_auth_account_id c /\
    vl_identity_address l = utf8_text identity /\ vl_state l = ils_active /\
    (forall old, ld_link (lw_db w) !! j = Some old -> vl_auth_account_id old = wl_auth_account_id c /\
       vl_identity_address old = utf8_text identity).
Proof.
  intros Hlk [(current & w1 & Hpoll & Hst & challenge & w2 & Hread & state & Hstate & Hnonce & proof & w3 & Hget & info
    & observed & w4 & Hboth & _ & Hval & H4 & completed & w5 & Hc & H5) _] Hne.
  apply (on_links_run (fun env => pollChallenge env _ _ _ _)) in Hpoll.
  apply (on_links_run (fun env => challengeForPoll env _ _)) in Hread.
  apply (on_links_run (fun env => completeChallenge env _ _)) in Hc. pose proof (poll_presented _ _ _ _ _ _ _ _ Hpoll Hst) as Hs1.
  apply challengeForPoll_run in Hread as (row & Hrow & -> & Hacc & Hn & Htok).
  assert (Hs4 : same_link (lw_db w) (lw_db w4)) by (transitivity (lw_db w1); [exact Hs1|symmetry; exact H4]).
  assert (Hl5 : ld_link (lw_db w') = ld_link (lw_db w5)) by exact H5.
  pose proof (same_link_links _ _ Hs4) as Hl4.
  pose proof (same_link_challenges _ _ Hs4) as Hc4. pose proof (same_link_challenges _ _ Hs1) as Hc1.
  destruct (complete_rows _ _ _ _ _ _ Hc) as (i & c & j & l & Hi & Hreq & Hp & Hlt & Hl & [Hla Hli Hls _] & Hold);
    [by rewrite <- Hl5, Hl4|]. rewrite Hc4 in Hi. rewrite Hc1 in Hrow. rewrite Hl4 in *.
  assert (jc_id row = i) as Hid.
  { apply (lk_request _ Hlk _ _ _ _ (linking_challenge _ _ _ Hrow) (linking_challenge _ _ _ Hi)). symmetry. exact Hreq. }
  subst i. assert (c = jc_row row) as -> by congruence. unfold client in Hget. simpl in Hget.
  unfold on_hosted in Hget. destruct (getResult fetch hosted _ _) as [res n] eqn:Hres. injection Hget as -> <-.
  apply getResult_verified in Hres as (jwt & identity & times & Hjwt & Haddr & _).
  destruct (both_identity _ _ _ _ _ Hboth) as (s & Hs). unfold validateLinkedIdentity in Hval.
  apply throwIf_ok in Hval. rewrite !orb_false_iff, !negb_false_iff, !String.eqb_eq in Hval.
  destruct Hval as [[Hv1 Hv2] Hv3]. simpl in Hli, Hold, Hlt. rewrite Haddr in *. exists (jc_id row), (jc_row row), identity, j, l.
  split_and!; try done; [by eapply same_link_named; [symmetry; exact Hs1|]| |by rewrite Hl5].
  split; [done|done| |by exists s, observed]. exists state, jwt, times. rewrite <- Hacc. done.
Qed.

(** C9: a poll links an identity to an account only for a request that
    carries a live session of that account, when the account's own, unused
    and unexpired challenge was answered by the hosted service with a token
    for exactly that challenge and identity, signed with the shared secret,
    and the chain shows the identity as active; it then writes one link, of
    this account and identity, and changes no other. *)
Theorem poll_links_verified request pollingToken now correlation w r w' :
  linking_ok (linking (lw_db w)) ->
  http_poll trustDomains linking_config request pollingToken now correlation w = (r, w') ->
  ld_link (lw_db w') <> ld_link (lw_db w) ->
  exists principal w0 polling i c identity j l,
    authenticate_request trustDomains request now w = (Ok principal, w0) /\ pollingToken = Some polling /\
    ld_challenge (lw_db w) !! i = Some c /\
    named (lw_db w0) (wl_auth_account_id c) (wp_accountReference principal) /\
    wl_polling_token_digest c = keyedDigest (sc_pollingTokenSecret linking_config) polling /\
    proves_identity now c (wp_accountReference principal) identity /\
    ld_link (lw_db w') = <[j := l]> (ld_link (lw_db w)) /\ vl_auth_account_id l = wl_auth_account_id c /\
    vl_identity_address l = utf8_text identity /\ vl_state l = ils_active /\
    (forall old, ld_link (lw_db w) !! j = Some old -> vl_auth_account_id old = wl_auth_account_id c /\
       vl_identity_address old = utf8_text identity).
Proof.
  intros Hlk Hrun Hne. unfold http_poll in Hrun.
  destruct (nonempty pollingToken) as [polling|] eqn:Hp; [|by injection Hrun as _ <-].
  assert (pollingToken = Some polling) as ->.
  { unfold nonempty in Hp. destruct pollingToken; [|done]. by destruct (falsy_string _); simplify_eq. }
  unfold bindP at 1 in Hrun. destruct (authenticate_request trustDomains request now w) as [[principal|e] w0] eqn:Ha;
    pose proof (keeps_run _ _ _ _ _ (authenticate_keeps request now) Ha) as Hk; simpl in Hk; injection Hk as Hc0 Hl0;
    [|by injection Hrun as _ <-].
  unfold bindP at 1 in Hrun. destruct (poll_link linking_config _ w0) as [rp w1] eqn:Hpoll.
  assert (w' = w1) as -> by by destruct rp; injection Hrun as _ <-.
  assert (Hlk0 : linking_ok (linking (lw_db w0))) by by unfold linking; rewrite Hc0, Hl0.
  rewrite <- Hl0 in Hne. pose proof (poll_changes_links linking_config _ _ _ _ Hpoll Hne) as Hv.
  destruct (verified_poll_tables _ _ _ Hlk0 Hv Hne) as (i & c & identity & j & l & Hi & Hn & Ht & Hpr & Hl & ? & ? & ? & Hold).
  rewrite Hl0, Hc0 in *. exists principal, w0, polling, i, c, identity, j, l. done.
Qed.
End requests.

(** ** Beginning *)

(** ** The repository *)

(** The row of a created challenge. *)
Record created_challenge (input : CreateWalletLinkChallengeInput) (c : LinkChallengeRow) : Prop := {
  cc_reference : wl_external_reference c = cw_externalReference input;
  cc_domain : wl_trust_domain c = cw_trustDomain input;
  cc_purpose : wl_purpose c = cw_purpose input;
  cc_state : wl_state c = wcs_presented;
  cc_nonce : wl_nonce_hash c = cw_nonceHash input;
  cc_request : wl_request_id c = cw_requestId input;
  cc_token : wl_polling_token_digest c = cw_pollingTokenDigest input;
  cc_audience : wl_audience c = cw_audience input;
  cc_issued : wl_issued_at c = cw_issuedAt input;
  cc_expires : wl_expires_at c = cw_expiresAt input;
  cc_scopes : wl_consented_scopes c = ["verusid:link"];
}.

Lemma createLinkChallenge_row `{Platform} env input context d r d' :
  link_ok d -> createLinkChallenge env input context d = (Ok r, d') ->
  exists i c, ld_challenge d' !! i = Some c /\ named d' (wl_auth_account_id c) (cw_accountReference input) /\
    created_challenge input c.
Proof.
  intros Hok Hrun. unfold createLinkChallenge in Hrun.
  do 7 (apply bindP_ok in Hrun as (? & ? & [_ <-]%pair_equal_spec & Hrun)).
  apply (transaction_ok same_link link_rollback) in Hrun as (d0 & Hs & Hrun).
  pose proof (same_link_ok _ _ Hs Hok) as Hok0. clear Hs Hok. unfold createChallenge_tx in Hrun.
  apply bindP_ok in Hrun as (acc & d1 & (-> & _ & _ & Href & i & Hi)%link_account_run & Hrun).
  apply draw_then in Hrun as (k & d1 & Hs1 & Hrun).
  apply bindP_ok in Hrun as (u & d2 & (-> & Hc & _ & _)%insertLinkChallenge_run & Hrun).
  apply audit_then in Hrun as (d2 & Hs2 & Hrun).
  apply bindP_ok in Hrun as (row & d3 & (-> & _)%selected_run & [= _ <-]).
  match type of Hc with link_challenge_checks ?x = _ => set (c := x) in * end.
  exists k, c. split_and!.
  - rewrite (same_link_challenges _ _ Hs2). apply lookup_insert_eq.
  - eapply same_link_named; [exact Hs2|]. apply (same_link_named _ _ (aa_id acc) _ Hs1). exists acc. split; [|done].
    by rewrite (table_keys _ _ _ _ (ok_account _ (lo_auth _ Hok0)) i acc Hi).
  - split; try done. unfold link_challenge_checks in Hc. rewrite !andb_true_iff in Hc.
    assert (Hsc : bool_decide (wl_consented_scopes c = ["verusid:link"]) = true) by tauto.
    by apply bool_decide_eq_true in Hsc.
Qed.

(** ** The hosted client *)

Lemma createChallenge_dates `{Platform} `{HostedPlatform} `{NumberParser} {N : Type}
    (fetch : HostedRequest -> N -> option HostedResponse * N) config input n h n' :
  createChallenge fetch config input n = (Ok h, n') ->
  hch_issuedAt h = chc_issuedAt input /\ Some (hch_expiresAt h) = chc_expiresAt input /\
  IADDRESS_PATTERN (hch_challengeId h) = true /\ hch_presentationDigest h = sha256 (hch_deepLink h).
Proof.
  intros Hrun. unfold createChallenge in Hrun.
  do 6 (apply bindP_ok in Hrun as (? & ? & _ & Hrun)). apply bindP_ok in Hrun as (body & ? & _ & Hrun).
  destruct (is_true body "success"), (objectValue body "data") as [data|]; try done. injection Hrun as Hread _.
  unfold read_challenge in Hread. do 9 (apply bindR_ok in Hread as (? & _ & Hread)). cbv zeta in Hread.
  destruct (new_URL _); [|done]. apply bindR_ok in Hread as (? & Hk & [= <-]). apply throwIf_ok in Hk.
  rewrite !orb_false_iff, !negb_false_iff, !bool_decide_eq_true, Z.eqb_eq in Hk. simpl. tauto.
Qed.

(** ** The request *)

Section requests.
Context `{Platform} `{AuthCrypto} `{HostedPlatform} `{NumberParser}.
Context {N R : Type} (fetch : HostedRequest -> N -> option HostedResponse * N).
Context (rpc_fetch : HttpRequest -> R -> FetchOutcome * R) (rpc_options : HttpVerusRpcAdapterOptions).
Context (faults : nat -> nat -> TxAttempt) (token : nat -> string).
Context (sessionKeyVersions : TrustDomain -> string) (rateSecret : string).
Context (hosted : HostedAuthClientConfig) (linking_config : WalletLinkServiceConfig).

#[local] Abbreviation World := (LinkWorld N R).
#[local] Instance begin_store : WalletLinkStore World := link_store faults.
#[local] Instance limiter : WalletLinkRateLimiter World := link_limiter faults rateSecret.
#[local] Instance begin_client : HostedVerusIdAuthClient World := link_hosted fetch hosted.
#[local] Instance random : Randomness World := link_random token.

(** A linking request that is answered leaves one fresh challenge: it is
    the account's, in its trust domain, open for exactly five minutes from
    the request, for the one allowed scope, and found by the digest of the
    polling token handed out; its nonce is the hash of the state that a poll
    recomputes from the stored row. *)
Theorem begin_presents input w p w' :
  link_ok (lw_db w) -> begin_link linking_config input w = (Ok p, w') ->
  exists i c state, ld_challenge (lw_db w') !! i = Some c /\
    wl_external_reference c = pr_challengeReference p /\
    named (lw_db w') (wl_auth_account_id c) (wp_accountReference (bl_principal input)) /\
    wl_trust_domain c = wp_trustDomain (bl_principal input) /\ wl_state c = wcs_presented /\
    wl_issued_at c = bl_now input /\ wl_expires_at c = bl_now input + CHALLENGE_LIFETIME_MS /\
    wl_consented_scopes c = ["verusid:link"] /\
    wl_polling_token_digest c = keyedDigest (sc_pollingTokenSecret linking_config) (pr_pollingToken p) /\
    deriveHostedState (sc_bindingSecret linking_config) {|
      hb_accountReference := wp_accountReference (bl_principal input); hb_trustDomain := wl_trust_domain c;
      hb_purpose := wl_purpose c; hb_audience := wl_audience c; hb_issuedAt := Some (wl_issued_at c);
      hb_expiresAt := Some (wl_expires_at c) |} = Ok state /\
    sha256 state = wl_nonce_hash c.
Proof.
  intros Hok Hrun. unfold begin_link in Hrun. cbv zeta in Hrun.
  apply bindP_ok in Hrun as (? & w0 & [_ <-]%pair_equal_spec & Hrun).
  apply bindP_ok in Hrun as (? & w1 & Hlim & Hrun).
  pose proof (follows_run _ _ _ _ _ (limiter_sound faults rateSecret _ _ _ _) Hlim Hok) as [Hok1 _].
  apply bindP_ok in Hrun as (scopes & w2 & [_ <-]%pair_equal_spec & Hrun).
  apply bindP_ok in Hrun as (state & w2 & [Hstate <-]%pair_equal_spec & Hrun).
  apply bindP_ok in Hrun as (h & w2 & Hcreate & Hrun).
  assert (Hdates : hch_issuedAt h = bl_now input /\ Some (hch_expiresAt h) = newDate (bl_now input + CHALLENGE_LIFETIME_MS)
                   /\ lw_db w2 = lw_db w1).
  { unfold catch, begin_client in Hcreate. simpl in Hcreate. unfold on_hosted in Hcreate.
    destruct (createChallenge fetch hosted _ _) as [[hc|e] n] eqn:Hc; [|done].
    injection Hcreate as <- <-. apply createChallenge_dates in Hc as (Hi & He & _). by split_and!. }
  destruct Hdates as (Hi & He & Hdb2).
  apply bindP_ok in Hrun as (? & w3 & [_ <-]%pair_equal_spec & Hrun).
  apply bindP_ok in Hrun as (pollingToken & w3 & Htok & Hrun). injection Htok as <- <-.
  apply bindP_ok in Hrun as (uuid & w4 & Huuid & Hrun).
  pose proof (follows_run _ _ _ _ _ (draw_sound token) Huuid) as Hdraw. simpl in Hdraw. unfold world_sound in Hdraw.
  simpl in Hdraw. rewrite Hdb2 in Hdraw. destruct (Hdraw Hok1) as [Hok4 _].
  apply bindP_ok in Hrun as (record & w5 & Hstore & Hrun).
  apply bindP_ok in Hrun as (expires & w6 & [_ <-]%pair_equal_spec & [= <- <-]). simpl in Hstore. unfold on_links in Hstore.
  destruct (createLinkChallenge _ _ _ _) as [rc d5] eqn:Hrow. injection Hstore as -> <-. simpl.
  apply (createLinkChallenge_row _ _ _ _ _ _ Hok4) in Hrow as (i & c & Hc & Hn & []). simpl in *.
  assert (Hexp : wl_expires_at c = bl_now input + CHALLENGE_LIFETIME_MS).
  { rewrite cc_expires0. unfold newDate in He. destruct (_ <=? _); [by injection He|done]. }
  exists i, c, state. split_and!; try done; [congruence|].
  rewrite <- Hstate. unfold begin_state. rewrite cc_domain0, cc_purpose0, cc_audience0, cc_issued0, Hi, cc_expires0, He. done.
Qed.
End requests.
