(* ===== verification/LinkRequestExamples.v ===== *)
(** * LinkRequestExamples: a linking from the first request to the link.

    A concrete hosted service, chain node and database; an account asks for a
    challenge, the service answers with a signed token, a poll links the
    identity.  The theorems of LinkSystemFacts.v, LinkRequestFacts.v
    and HostedAuthFacts.v applied there. *)
From S2P Require Import Prelude Errors Text Json JsonParse Encoding Verus Lifecycles Database Authorization.
From S2P Require Import AuthDatabase Consent Auth Passkey AuthRepository AuthSystem AuthInvariant AuthFacts AuthExamples.
From S2P Require Import RpcAdapter CoreDatabase LinkDatabase VerusLinkRepository LinkSpec LinkFacts LinkProperties.
From S2P Require Import JsonFacts HostedAuth HostedAuthFacts WalletLinkService LinkHttp LinkSystem LinkSystemFacts LinkRequestFacts.
From S2P Require Import System.
Local Open Scope Z_scope.

(** ** The platform *)

#[local] Existing Instance SampleSystem.platform.
#[local] Instance link_crypto : AuthCrypto := {
  hmac_sha256 secret v := SampleSystem.toy_sha256 (secret +:+ "/" +:+ v);
  lookup_text email := email;
}.
#[local] Instance hosted_platform : HostedPlatform := {
  hosted_url := {| new_URL s := Some {| url_protocol := LOGIN_CONSENT_SCHEME; url_username := ""; url_password := "";
    url_hostname := ""; url_pathname := ""; url_search := ""; url_hash := "" |} |};
  hmac_bytes secret s := SampleSystem.digest_bytes 32 (SampleSystem.poly 1 (secret +:+ "/" +:+ s));
}.
#[local] Instance digits : NumberParser := { text_number s := float_of_Z (digits_value s) }.

Definition identity_address : string := "iUserUserUserUserUserUserUserUser1".
Definition application_address : string := "iAppAppAppAppAppAppAppAppAppApp123".
Definition challenge_address : string := "iChaChaChaChaChaChaChaChaChaCha123".
Definition secret32 (c : string) : string := String.concat "" (replicate 32 c).

Definition hosted_config : HostedAuthClientConfig := {|
  hc_baseUrl := "https://auth.example"; hc_contractVersion := "cbc-verusid-auth.v1"; hc_serviceVersion := "1.0.0";
  hc_serviceSourceRevision := "r"; hc_imageDigest := "d"; hc_sdkCommit := "s"; hc_primitivesCommit := "p";
  hc_rpcClientCommit := "c"; hc_bitgoCommit := "b"; hc_daemonVersion := "v1";
  hc_applicationIdentityAddress := application_address; hc_callbackUrl := "https://auth.example/verusidlogin";
  hc_issuer := "issuer"; hc_clientSecret := secret32 "c"; hc_jwtSecret := secret32 "j"; hc_timeoutMs := None |}.

Definition link_config : WalletLinkServiceConfig := {|
  sc_enabled := true; sc_network := net_vrsctest; sc_applicationIdentityAddress := application_address;
  sc_authServiceCallbackUrl := "https://auth.example/verusidlogin"; sc_participantAudience := "cbc-participant-app";
  sc_committeeAudience := "cbc-committee-console"; sc_bindingSecret := secret32 "b";
  sc_pollingTokenSecret := secret32 "p" |}.

Definition link_domains (t : TrustDomain) : TrustDomainConfig := {|
  tc_domain := t; tc_audience := SESSION_AUDIENCES t; tc_cookieName := "__Host-cbc-" +:+ domain_name t;
  tc_origin := "https://app.example"; tc_relyingPartyId := "app.example"; tc_sessionSecret := domain_name t;
  tc_idleTimeoutMs := 1000000; tc_absoluteTimeoutMs := 5000000; tc_privilegedReauthenticationMs := 500;
  tc_sameSite := Strict |}.

(** ** The hosted service *)

(** The text of an object of texts, [true] and numbers. *)
Inductive field : Type := ft (v : ustring) | ftrue | fnum (digits : string) | fobj (v : ustring).
Definition dquote : ustring := [34].
Definition field_text (f : field) : ustring :=
  match f with ft v => dquote ++ v ++ dquote | ftrue => units "true" | fnum d => units d | fobj v => v end.
Definition object_text (fs : list (string * field)) : ustring :=
  units "{" ++ join_units (units ",") ((fun kv => dquote ++ units (fst kv) ++ dquote ++ units ":" ++ field_text (snd kv)) <$> fs)
  ++ units "}".
Definition fs_ (s : string) : field := ft (units s).

(** The state of the service: the state and audience of the challenge. *)
Definition Service : Type := (ustring * ustring)%type.

Definition health_text : ustring := object_text [
  ("status", fs_ "ok"); ("service", fs_ "verusid-auth"); ("version", fs_ "1.0.0");
  ("service_source_revision", fs_ "r"); ("image_digest", fs_ "d"); ("verusid_ts_client_commit", fs_ "s");
  ("verus_primitives_commit", fs_ "p"); ("verusd_rpc_client_commit", fs_ "c"); ("verus_bitgo_commit", fs_ "b");
  ("daemon_version", fs_ "v1"); ("chain_read_url", fs_ "https://api.verustest.net"); ("chain", fs_ "vrsctest");
  ("contract_version", fs_ "cbc-verusid-auth.v1"); ("signing_identity", fs_ application_address);
  ("callback_url", fs_ "https://auth.example/verusidlogin"); ("jwt_issuer", fs_ "issuer");
  ("signing_identity_configured", ftrue); ("chain_configured", ftrue); ("sdk_ready", ftrue);
  ("result_authentication", fs_ "client_secret"); ("result_delivery", fs_ "idempotent_until_ack")].

Definition body_text (body : list (ustring * json)) (k : string) : ustring :=
  match prop_of body k with Some (JString s) => s | _ => [] end.

Definition challenge_text (body : list (ustring * json)) : ustring :=
  let link := "i5jtwbp6zymeay9llnraglgjqgdrffsau4://x-callback-url/1" in
  object_text [("success", ftrue); ("data", fobj (object_text [
    ("challengeID", fs_ challenge_address); ("deepLink", fs_ link); ("requestDigest", fs_ (sha256 link));
    ("signingIdentity", fs_ application_address); ("callbackUrl", fs_ "https://auth.example/verusidlogin");
    ("network", fs_ "VRSCTEST"); ("contractVersion", fs_ "cbc-verusid-auth.v1");
    ("issuedAt", ft (body_text body "issuedAt")); ("expiresAt", ft (body_text body "expiresAt"))]))].

Definition jwt_claims (s : Service) : ustring := object_text [
  ("iss", fs_ "issuer"); ("aud", ft (snd s)); ("challengeID", fs_ challenge_address); ("state", ft (fst s));
  ("idLoggedIn", fs_ identity_address); ("jti", fs_ "0123456789abcdef"); ("iat", fnum "1"); ("exp", fnum "300")].

Definition jwt_header : ustring := object_text [("alg", fs_ "HS256"); ("typ", fs_ "JWT")].

Definition result_text (s : Service) : ustring := object_text [
  ("success", ftrue); ("JWT", ft (signed_token (secret32 "j") jwt_header (jwt_claims s)));
  ("iaddress", fs_ identity_address); ("name", fs_ "user@")].

Definition ok_response (text : ustring) : option HostedResponse :=
  Some {| hp_status := 200; hp_contentLength := SpecFloat.S754_zero false; hp_text := Some text |}.

Definition service (q : HostedRequest) (s : Service) : option HostedResponse * Service :=
  if String.eqb (hr_path q) "/health" then (ok_response health_text, s)
  else match hr_body q with
       | Some (JObject body) =>
         if String.eqb (hr_path q) "/api/auth/verusid/challenge"
         then (ok_response (challenge_text body), (body_text body "state", body_text body "audience"))
         else (ok_response (units "{}"), s)
       | _ => (ok_response (result_text s), s)
       end.

(** ** The node *)

Definition node_info : json := JObject [
  (units "VRSCversion", jstring "1.2.17"); (units "version", jinteger 2000753); (units "protocolversion", jinteger 170010);
  (units "chainid", jstring VRSCTEST_CHAIN_ID); (units "name", jstring "VRSCTEST"); (units "blocks", jinteger 1000);
  (units "longestchain", jinteger 1000); (units "connections", jinteger 8); (units "testnet", JBool true);
  (units "errors", jstring "")].

Definition node_identity_json (address : string) : json := JObject [
  (units "fullyqualifiedname", jstring "user.VRSCTEST@");
  (units "identity", JObject [
    (units "version", jinteger 3); (units "flags", jinteger 0); (units "primaryaddresses", JArray [jstring "RUser"]);
    (units "minimumsignatures", jinteger 1); (units "name", jstring "user"); (units "identityaddress", jstring address);
    (units "parent", jstring VRSCTEST_CHAIN_ID); (units "systemid", jstring VRSCTEST_CHAIN_ID);
    (units "contentmap", JObject []); (units "contentmultimap", JObject []);
    (units "revocationauthority", jstring address); (units "recoveryauthority", jstring address);
    (units "timelock", jinteger 0)]);
  (units "status", jstring "active"); (units "canspendfor", JBool false); (units "cansignfor", JBool false);
  (units "blockheight", jinteger 900); (units "txid", jstring (String.concat "" (replicate 64 "e"))); (units "vout", jinteger 0)].

Definition chain_node (q : HttpRequest) (s : unit) : FetchOutcome * unit :=
  match rq_body q with
  | JObject body =>
    let answer := match prop_of body "method" with
                  | Some (JString m) => if bool_decide (m = units "getinfo") then node_info else node_identity_json identity_address
                  | _ => JNull
                  end in
    (fetch_response 200 (Some (JObject [(units "result", answer)])), s)
  | _ => (fetch_failed false, s)
  end.

Definition rpc_options : HttpVerusRpcAdapterOptions := {|
  url := "http://127.0.0.1:18080"; username := None; password := None; timeoutMs := None; writeTimeoutMs := None |}.

(** ** The run *)

Definition participant_session : SessionRecord := {|
  sr_id := "s1"; sr_accountReference := "account_0001"; sr_trustDomain := td_participant;
  sr_audience := SESSION_AUDIENCES td_participant; sr_tokenDigest := keyedDigest "participant" "token1";
  sr_csrfDigest := keyedDigest "participant" "csrf1"; sr_authenticationStrength := verified_email;
  sr_authenticatedAt := 100; sr_reauthenticatedAt := Some 100; sr_idleExpiresAt := Some 1000100;
  sr_absoluteExpiresAt := Some 5000100; sr_revokedAt := None; sr_deviceLabel := "laptop" |}.

Definition startDb : AuthDb := run_ops keyVersions ((fun o => (o, quiet)) <$>
  [OCreateAccount "account_0001" td_participant (Some "participant_0001") (Some as_active) 0;
   OCreateSession participant_session]) emptyAuthDb.

Definition startWorld : LinkWorld Service unit := {|
  lw_db := {| ld_auth := startDb; ld_challenge := ∅; ld_link := ∅ |}; lw_hosted := ([], []);
  lw_rpc := {| nextId := 1; net := tt |}; lw_tokens := 0; lw_calls := 0 |}.

Definition no_link_faults : nat -> nat -> TxAttempt := fun _ _ => quietAttempt.
Definition link_tokens (n : nat) : string := "poll" +:+ String.concat "" (replicate n "x").

Definition link_request (method : string) : LinkRequest := {|
  lr_method := method; lr_cookie := Some (units "a=b; __Host-cbc-participant=token1"); lr_origin := Some "https://app.example";
  lr_csrf := ["csrf1"]; lr_correlation := ["correlation-1"] |}.

Definition run_requests (cs : list LinkCall) : LinkWorld Service unit :=
  run_calls service chain_node rpc_options no_link_faults link_tokens keyVersions "rate" hosted_config link_config
    link_domains cs startWorld.

Definition asking : LinkCall := CBegin (link_request "POST") true 2000.
Definition polling : LinkCall := CPoll (link_request "GET") (Some "poll") 3000.
Definition begun : LinkWorld Service unit := run_requests [asking].
Definition polled : LinkWorld Service unit := run_requests [asking; polling].

Example challenge_begun : wl_state <$> rows (ld_challenge (lw_db begun)) = [wcs_presented].
Proof. vm_compute. reflexivity. Qed.

Example identity_linked : (fun l => (vl_identity_address l, vl_state l)) <$> rows (ld_link (lw_db polled))
                          = [(identity_address, ils_active)].
Proof. vm_compute. reflexivity. Qed.

(** ** The theorems, applied to the run *)

Lemma startDb_ok : auth_ok startDb.
Proof. apply run_ops_evolve, emptyAuthDb_ok. Qed.

Lemma startWorld_start : link_start (lw_db startWorld).
Proof. split; [exact startDb_ok|reflexivity|reflexivity]. Qed.

Lemma startWorld_linking : linking_ok (linking (lw_db startWorld)).
Proof. exact (reachable_ok _ (linking_reachable keyVersions [] _ startWorld_start)). Qed.

Lemma requests_keep_linking_witness :
  size (ld_link (lw_db polled)) = 1%nat /\ linking_ok (linking (lw_db polled)).
Proof.
  split; [vm_compute; reflexivity|]. unfold polled, run_requests.
  exact (proj2 (proj2 (requests_keep_linking service chain_node rpc_options no_link_faults link_tokens keyVersions "rate"
    hosted_config link_config link_domains [asking; polling] startWorld
    (link_start_ok _ startWorld_start) startWorld_linking))).
Defined.

Lemma begun_linking : linking_ok (linking (lw_db begun)).
Proof.
  unfold begun, run_requests.
  exact (proj2 (proj2 (run_calls_linking service chain_node rpc_options no_link_faults link_tokens keyVersions "rate"
    hosted_config link_config link_domains [asking] startWorld (link_start_ok _ startWorld_start) startWorld_linking))).
Qed.

#[local] Instance sample_store : WalletLinkStore (LinkWorld Service unit) := link_store no_link_faults.
#[local] Instance sample_sessions : SessionStore (LinkWorld Service unit) := link_sessions no_link_faults keyVersions.
#[local] Instance sample_client : HostedVerusIdAuthClient (LinkWorld Service unit) := link_hosted service hosted_config.
#[local] Instance sample_node : VerusRpcAdapter (LinkWorld Service unit) := link_node chain_node rpc_options.
#[local] Instance sample_limiter : WalletLinkRateLimiter (LinkWorld Service unit) := link_limiter no_link_faults "rate".
#[local] Instance sample_random : Randomness (LinkWorld Service unit) := link_random link_tokens.

Lemma poll_links_verified_witness :
  exists i c identity, ld_challenge (lw_db begun) !! i = Some c /\
    proves_identity chain_node rpc_options hosted_config link_config 3000 c "account_0001" identity.
Proof.
  assert (Hne : ld_link (lw_db (snd (http_poll link_domains link_config (authentication (link_request "GET")) (Some "poll")
                  3000 "correlation-1" begun))) <> ld_link (lw_db begun)).
  { intros He. apply (f_equal size) in He. revert He. vm_compute. discriminate. }
  assert (Hwho : (wp_accountReference <$> match fst (authenticate_request link_domains (authentication (link_request "GET"))
                    3000 begun) with Ok p => Some p | Err _ => None end) = Some "account_0001") by (vm_compute; reflexivity).
  destruct (http_poll link_domains link_config (authentication (link_request "GET")) (Some "poll") 3000 "correlation-1" begun)
    as [r w'] eqn:Hrun.
  destruct (poll_links_verified service chain_node rpc_options no_link_faults keyVersions hosted_config link_config
    link_domains _ _ _ _ begun r w' begun_linking Hrun Hne)
    as (principal & w0 & tk & i & c & identity & j & l & Ha & _ & Hi & _ & _ & Hp & _).
  assert (Hfst : fst (authenticate_request link_domains (authentication (link_request "GET")) 3000 begun) = Ok principal)
    by exact (f_equal fst Ha).
  rewrite Hfst in Hwho. injection Hwho as Hwho. rewrite Hwho in Hp. exists i, c, identity. split; [exact Hi|exact Hp].
Defined.

Definition participant_principal : WalletLinkPrincipal := {|
  wp_accountReference := "account_0001"; wp_trustDomain := td_participant; wp_authenticationStrength := "verified_email" |}.
Definition begin_input : BeginWalletLinkInput := {|
  bl_principal := participant_principal; bl_purpose := None; bl_scopes := ["verusid:link"; "verusid:link"]; bl_now := 2000;
  bl_correlationId := "correlation-1" |}.

Lemma begin_presents_witness :
  exists p w' i c, begin_link link_config begin_input startWorld = (Ok p, w') /\
    ld_challenge (lw_db w') !! i = Some c /\ wl_expires_at c = 2000 + 300000.
Proof.
  assert (Hok : is_ok (fst (begin_link link_config begin_input startWorld)) = true) by (vm_compute; reflexivity).
  destruct (begin_link link_config begin_input startWorld) as [[p|e] w'] eqn:Hrun; [|discriminate Hok].
  destruct (begin_presents service no_link_faults link_tokens "rate" hosted_config link_config begin_input startWorld p w'
    (link_start_ok _ startWorld_start) Hrun) as (i & c & state & Hi & _ & _ & _ & _ & _ & He & _).
  exists p, w', i, c. split; [reflexivity|]. split; [exact Hi|exact He].
Defined.

(** ** Tokens *)

Lemma digest_bytes_ok n z : Forall byte_ok (SampleSystem.digest_bytes n z).
Proof.
  revert z. induction n as [|n IH]; intros z; simpl; constructor; [|apply IH].
  unfold byte_ok. change (Z.land z 255) with (Z.land z (Z.ones 8)). rewrite Z.land_ones by lia. pose proof (Z.mod_pos_bound z (2 ^ 8) eq_refl). lia.
Qed.

Lemma sample_hmac secret s : Forall byte_ok (hmac_bytes secret s) /\ hmac_bytes secret s <> [].
Proof. split; [apply digest_bytes_ok|done]. Qed.

Lemma plain_wf16 s : forallb (fun c => (0 <=? c) && (c <? 128)) s = true -> wf16 s.
Proof.
  induction s as [|c s IH]; simpl; [by constructor|]. intros [Hc Hs]%andb_true_iff.
  apply wf_unit; [unfold unit_ok; lia|unfold high_surrogate; lia|unfold low_surrogate; lia|by apply IH].
Qed.

Definition expectation : ExpectedJwt := {|
  ej_issuer := "issuer"; ej_audience := "cbc-participant-app"; ej_challengeId := challenge_address; ej_state := "state1";
  ej_identityAddress := units identity_address; ej_issuedAt := 2000; ej_expiresAt := 302000; ej_now := 3000 |}.

Definition sample_claims : ustring := jwt_claims (units "state1", units "cbc-participant-app").
Definition members (t : ustring) : list (ustring * json) :=
  match JSON_parse t with Some (JObject es) => es | _ => [] end.

Lemma signed_token_accepted_witness :
  verifyJwt (signed_token (secret32 "j") jwt_header sample_claims) (secret32 "j") expectation = Ok (1, 300).
Proof.
  apply (signed_token_accepted (secret32 "j") jwt_header sample_claims (members jwt_header) (members sample_claims)
           expectation 1 300).
  5: exact (sample_hmac (secret32 "j")).
  1-2: apply plain_wf16.
  all: vm_compute; reflexivity.
Defined.

Lemma token_answers_one_challenge_witness :
  exists h c s, signed_token (secret32 "j") jwt_header sample_claims = h ++ [46] ++ c ++ [46] ++ s /\
    from_base64url s = hmac_bytes (secret32 "j") (utf8_text (h ++ [46] ++ c)).
Proof.
  assert (Hok : verifyJwt (signed_token (secret32 "j") jwt_header sample_claims) (secret32 "j") expectation = Ok (1, 300))
    by (vm_compute; reflexivity).
  exact (proj1 (token_answers_one_challenge _ _ _ _ _ _ _ Hok Hok)).
Defined.
