(* ===== verification/ConfigFacts.v ===== *)
(** * ConfigFacts: what an accepted configuration guarantees.

    [ZodLaws] is the documented behaviour of the schema library that is used,
    one law for each of its combinators. *)
From Stdlib Require Import Ascii.
From stdpp Require Import gmap strings.
From S2P Require Import Prelude Errors Text Json JsonParse Verus HostedAuth Config.
Local Open Scope Z_scope.

(** The text passes the check; nothing is used of [is_url]. *)
Definition holds (t : string) (check : TextCheck) : Prop :=
  match check with
  | min n => (n <= length (text_units t))%nat
  | max n => (length (text_units t) <= n)%nat
  | startsWith p => String.prefix p t = true
  | regex p => p t = true
  | is_url => True
  end.

Class ZodLaws `{Zod} := {
  zod_string checks v p : safeParse (z_string checks) v = Some p ->
    exists t, v = pv_text t /\ p = v /\ Forall (holds t) checks;
  zod_literal u v p : safeParse (z_literal u) v = Some p -> v = u /\ p = v;
  zod_enum ts v p : safeParse (z_enum ts) v = Some p -> exists t, v = pv_text t /\ p = v /\ t ∈ ts;
  zod_union options v p : safeParse (z_union options) v = Some p -> exists s, s ∈ options /\ safeParse s v = Some p;
  zod_transform s f v p : safeParse (z_transform s f) v = Some p -> exists q, safeParse s v = Some q /\ p = f q;
  zod_default s d v p : safeParse (z_default s d) v = Some p -> (v = pv_undefined /\ p = d) \/ safeParse s v = Some p;
  zod_optional s v p : safeParse (z_optional s) v = Some p ->
    (v = pv_undefined /\ p = pv_undefined) \/ safeParse s v = Some p;
  zod_preprocess f s v p : safeParse (z_preprocess f s) v = Some p -> safeParse s (f v) = Some p;
}.

(** ** Duplicates *)

Lemma unique_elem xs x : x ∈ unique xs <-> x ∈ xs.
Proof.
  induction xs as [|y xs IH]; simpl; [done|]. rewrite !elem_of_cons, list_elem_of_filter, IH.
  destruct (decide (x = y)) as [->|]; tauto.
Qed.

Lemma unique_length xs : (length (unique xs) <= length xs)%nat.
Proof. induction xs as [|x xs IH]; simpl; [lia|]. pose proof (length_filter (fun y => y <> x) (unique xs)). lia. Qed.

(** [new Set(xs).size === xs.length]. *)
Lemma unique_full xs : length (unique xs) = length xs -> NoDup xs.
Proof.
  induction xs as [|x xs IH]; simpl; intros Hl; [constructor|].
  pose proof (length_filter (fun y => y <> x) (unique xs)) as Hf. pose proof (unique_length xs) as Hu.
  constructor; [|apply IH; lia]. intros Hx%unique_elem.
  assert (Hlt : (length (filter (fun y => y <> x) (unique xs)) < length (unique xs))%nat); [|lia].
  by apply length_filter_lt with x; [exact Hx|intros []].
Qed.

(** ** The parsed fields *)

(** Membership in the schema. *)
Ltac in_schema := repeat first [apply list_elem_of_here | apply list_elem_of_further].

Section facts.
Context `{UrlPlatform} `{Zod} `{NumberService} `{!ZodLaws}.

Lemma schema_names : NoDup (fst <$> schema).
Proof. apply (bool_decide_unpack _). by vm_compute. Qed.

Lemma parsed_field object config key field :
  parse_schema object = Ok config -> (key, field) ∈ schema ->
  exists p, safeParse field (env_value (default None (object !! key))) = Some p /\ config !! key = Some p.
Proof.
  unfold parse_schema. cbv zeta. intros Hp Hin.
  destruct (fst <$> filter (fun f => snd f = None) (parsed_fields object)) as [|] eqn:Hnone; [|done].
  apply Ok_inj in Hp as <-. apply fmap_nil_inv in Hnone.
  assert (Hpf : (key, safeParse field (env_value (default None (object !! key)))) ∈ parsed_fields object).
  { apply list_elem_of_fmap. by exists (key, field). }
  destruct (safeParse field (env_value (default None (object !! key)))) as [p|] eqn:Hs.
  - exists p. split; [done|]. apply elem_of_list_to_map_1.
    + assert (Hsub : forall l : list (string * option ParsedValue),
        sublist (fst <$> omap (fun f => pair (fst f) <$> snd f) l) (fst <$> l)).
      { intros l. induction l as [|[k [v|]] l IH]; simpl; by constructor. }
      eapply sublist_NoDup; [|apply Hsub]. unfold parsed_fields. rewrite <- list_fmap_compose. exact schema_names.
    + apply list_elem_of_omap. by exists (key, Some p).
  - exfalso. assert (Hf : (key, None) ∈ filter (fun f => snd f = None) (parsed_fields object)) by (by apply list_elem_of_filter).
    rewrite Hnone in Hf. by apply not_elem_of_nil in Hf.
Qed.

Lemma env_text o t : env_value (default None o) = pv_text t -> o = Some (Some (ev_text t)).
Proof. destruct o as [[[]|]|]; simpl; congruence. Qed.

Lemma field_text object config key checks :
  parse_schema object = Ok config -> (key, z_string checks) ∈ schema ->
  object !! key = Some (Some (ev_text (text_of config key))) /\ Forall (holds (text_of config key)) checks.
Proof.
  intros Hp Hin. destruct (parsed_field _ _ _ _ Hp Hin) as (p & Hs & Hc).
  apply zod_string in Hs as (t & Hv & -> & Hh). unfold text_of. rewrite Hc, Hv. by apply env_text in Hv.
Qed.

Lemma field_enum object config key ts :
  parse_schema object = Ok config -> (key, z_enum ts) ∈ schema ->
  object !! key = Some (Some (ev_text (text_of config key))) /\ text_of config key ∈ ts.
Proof.
  intros Hp Hin. destruct (parsed_field _ _ _ _ Hp Hin) as (p & Hs & Hc).
  apply zod_enum in Hs as (t & Hv & -> & Hh). unfold text_of. rewrite Hc, Hv. by apply env_text in Hv.
Qed.

(** A field that may be left empty, when it is not. *)
Lemma field_present object config key s :
  parse_schema object = Ok config -> (key, unless_empty s) ∈ schema -> nonEmpty (maybe_text config key) = true ->
  exists v, safeParse s v = Some (pv_text (text_of config key)).
Proof.
  intros Hp Hin. destruct (parsed_field _ _ _ _ Hp Hin) as (p & Hs & Hc). unfold maybe_text, text_of. rewrite Hc.
  apply zod_preprocess, zod_optional in Hs as [[_ ->]|Hs]; [done|]. destruct p; try done. by eexists.
Qed.

Lemma field_preprocessed object config key checks :
  parse_schema object = Ok config -> (key, unless_empty (z_string checks)) ∈ schema ->
  nonEmpty (maybe_text config key) = true -> Forall (holds (text_of config key)) checks.
Proof.
  intros Hp Hin Hne. destruct (field_present _ _ _ _ Hp Hin Hne) as (v & Hs).
  apply zod_string in Hs as (t & Hv & Ht & Hh). rewrite Hv in Ht. by injection Ht as ->.
Qed.

Lemma field_literal object config key u :
  parse_schema object = Ok config -> (key, unless_empty (z_literal (pv_text u))) ∈ schema ->
  nonEmpty (maybe_text config key) = true -> text_of config key = u.
Proof.
  intros Hp Hin Hne. destruct (field_present _ _ _ _ Hp Hin Hne) as (v & Hs). apply zod_literal in Hs as [-> Ht].
  by injection Ht as ->.
Qed.

(** A disabled feature: no option but false is accepted, and whatever is
    accepted is read as false. *)
Lemma disabled_feature v p : safeParse disabledFeature v = Some p -> p = pv_bool false.
Proof. intros [[_ ->]|(q & _ & ->)%zod_transform]%zod_default; done. Qed.

Lemma disabled_feature_refuses v p : safeParse disabledFeature v = Some p ->
  v ∈ [pv_undefined; pv_text "false"; pv_text "0"; pv_bool false].
Proof.
  intros [[-> _]|(q & (s & Hs & Hv)%zod_union & _)%zod_transform]%zod_default; [apply list_elem_of_here|].
  rewrite !elem_of_cons in Hs. rewrite !elem_of_cons.
  destruct_or! Hs; subst; try (apply zod_literal in Hv as [-> _]; tauto). by apply not_elem_of_nil in Hs.
Qed.

Lemma disabled_flag object config key :
  parse_schema object = Ok config -> (key, disabledFeature) ∈ schema ->
  flag config key = false /\
  default None (object !! key) ∈ [None; Some (ev_text "false"); Some (ev_text "0"); Some (ev_bool false)].
Proof.
  intros Hp Hin. destruct (parsed_field _ _ _ _ Hp Hin) as (p & Hs & Hc). split.
  - apply disabled_feature in Hs as ->. unfold flag. by rewrite Hc.
  - apply disabled_feature_refuses in Hs. rewrite !elem_of_cons in Hs. rewrite !elem_of_cons.
    destruct (default None (object !! key)) as [[t|b]|]; simpl in Hs; destruct_or! Hs; simplify_eq; try tauto;
      by apply not_elem_of_nil in Hs.
Qed.

(** ** Accepted configurations *)

(** [config] is the schema's reading of the input, in an environment that is
    not production, and passed every check. *)
Record accepted (input : EnvironmentInput) (config : RuntimeConfig) : Prop := {
  ac_environment : text_of config "CBC_ENVIRONMENT" ∈ ["local"; "ci"; "testnet"; "pilot"];
  ac_parsed : parse_schema (candidate input (text_of config "CBC_ENVIRONMENT")) = Ok config;
  ac_domains : distinct_domains config = Ok tt;
  ac_deployed : deployed (text_of config "CBC_ENVIRONMENT") = true ->
    deployed_checks (text_of config "CBC_ENVIRONMENT") config = Ok tt;
  ac_credentials : text_of config "CBC_VERUS_NETWORK" = "VRSCTEST" -> rpc_credentials config = Ok tt;
  ac_linking : flag config "CBC_VERUS_LINKING_ENABLED" = true -> linking_checks config = Ok tt;
  ac_rpc : rpc_url_checks config = Ok tt;
}.

Lemma loaded_accepted input config : loadRuntimeConfig input = Ok config -> accepted input config.
Proof.
  unfold loadRuntimeConfig. intros Hl.
  apply bindR_ok in Hl as (environment & Henv & Hl). apply bindR_ok in Hl as (? & Hprod & Hl).
  apply bindR_ok in Hl as (c & Hparse & Hl). apply bindR_ok in Hl as ([] & Hdom & Hl).
  apply bindR_ok in Hl as ([] & Hdep & Hl). apply bindR_ok in Hl as ([] & Hcred & Hl).
  apply bindR_ok in Hl as ([] & Hlink & Hl). apply bindR_ok in Hl as ([] & Hrpc & Hl). apply Ok_inj in Hl as ->.
  destruct (field_enum _ _ "CBC_ENVIRONMENT" CBC_ENVIRONMENTS Hparse ltac:(in_schema)) as [Hname Hin].
  assert (Hset : candidate input environment !! "CBC_ENVIRONMENT" = Some (Some (ev_text environment)))
    by apply lookup_insert_eq.
  rewrite Hset in Hname. injection Hname as Hname.
  split; rewrite <- ?Hname; try done.
  - rewrite <- Hname in Hin. apply throwIf_ok, String.eqb_neq in Hprod.
    unfold CBC_ENVIRONMENTS in Hin. rewrite !elem_of_cons in Hin. rewrite !elem_of_cons. tauto.
  - intros Hd. by rewrite Hd in Hdep.
  - intros Hn%String.eqb_eq. by rewrite Hn in Hcred.
  - intros Hf. by rewrite Hf in Hlink.
Qed.

Lemma domains_differ config : distinct_domains config = Ok tt ->
  text_of config "CBC_PARTICIPANT_SESSION_AUDIENCE" <> text_of config "CBC_COMMITTEE_SESSION_AUDIENCE" /\
  text_of config "CBC_PARTICIPANT_AUTH_SECRET" <> text_of config "CBC_COMMITTEE_AUTH_SECRET" /\
  text_of config "CBC_PARTICIPANT_ORIGIN" <> text_of config "CBC_COMMITTEE_ORIGIN" /\
  text_of config "CBC_PARTICIPANT_SESSION_KEY_VERSION" <> text_of config "CBC_COMMITTEE_SESSION_KEY_VERSION".
Proof.
  unfold distinct_domains, same. intros (? & Ha & Hb)%bindR_ok. apply throwIf_ok, String.eqb_neq in Ha.
  apply throwIf_ok in Hb. rewrite !orb_false_iff, !String.eqb_neq in Hb. tauto.
Qed.

Definition https (origin : string) : Prop := exists u, new_URL origin = Some u /\ url_protocol u = "https:".

Lemma https_origin_ok config field : https_origin config field = Ok tt -> https (text_of config field).
Proof.
  unfold https_origin. destruct (new_URL _) as [u|] eqn:Hu; [|done]. intros Hp%throwIf_ok.
  apply negb_false_iff, String.eqb_eq in Hp. by exists u.
Qed.

Lemma deployed_guarantees environment config : deployed_checks environment config = Ok tt ->
  Forall (fun key => String.prefix "local-only-" (text_of config key) = false)
    ["CBC_PARTICIPANT_AUTH_SECRET"; "CBC_COMMITTEE_AUTH_SECRET"; "CBC_RATE_LIMIT_SECRET"] /\
  https (text_of config "CBC_PARTICIPANT_ORIGIN") /\ https (text_of config "CBC_COMMITTEE_ORIGIN") /\
  text_of config "CBC_PARTICIPANT_RELYING_PARTY_ID" <> text_of config "CBC_COMMITTEE_RELYING_PARTY_ID" /\
  text_of config "CBC_VERUS_NETWORK" = "VRSCTEST".
Proof.
  unfold deployed_checks, same. intros (? & Hs & Hl)%bindR_ok. apply bindR_ok in Hl as (? & Ho & Hl).
  apply bindR_ok in Hl as (? & Hrp & Hn). apply throwIf_ok in Hs, Hrp, Hn. simpl in Ho.
  apply bindR_ok in Ho as ([] & Hp & Ho). apply bindR_ok in Ho as ([] & Hc & _).
  split_and!; try (by apply https_origin_ok).
  - simpl in Hs. rewrite !orb_false_iff in Hs. destruct_and! Hs. by repeat constructor.
  - by apply String.eqb_neq.
  - by apply negb_false_iff, String.eqb_eq in Hn.
Qed.

Lemma missing_none config keys : missing config keys = [] ->
  forall key, key ∈ keys -> nonEmpty (maybe_text config key) = true.
Proof.
  unfold missing. intros Hm key Hin. destruct (nonEmpty (maybe_text config key)) eqn:He; [done|].
  assert (Hf : key ∈ filter (fun key => nonEmpty (maybe_text config key) = false) keys) by by apply list_elem_of_filter.
  rewrite Hm in Hf. by apply not_elem_of_nil in Hf.
Qed.

Lemma linking_guarantees config : linking_checks config = Ok tt ->
  text_of config "CBC_VERUS_NETWORK" = "VRSCTEST" /\
  (forall key, key ∈ link_required -> nonEmpty (maybe_text config key) = true) /\
  text_of config "CBC_VERUS_LINK_APPLICATION_IDENTITY" = APPROVED_VERUS_LINK_APPLICATION_IDENTITY /\
  text_of config "CBC_VERUS_AUTH_URL" = APPROVED_VERUS_AUTH_URL /\
  text_of config "CBC_VERUS_AUTH_CALLBACK_URL" = APPROVED_VERUS_AUTH_CALLBACK_URL /\
  text_of config "CBC_VERUS_AUTH_ISSUER" = APPROVED_VERUS_AUTH_ISSUER /\
  text_of config "CBC_VERUS_AUTH_CONTRACT_VERSION" = APPROVED_VERUS_AUTH_CONTRACT_VERSION /\
  NoDup (text_of config <$> link_secrets).
Proof.
  unfold linking_checks. intros (? & Hn & Hl)%bindR_ok. apply throwIf_ok, negb_false_iff, String.eqb_eq in Hn.
  destruct (missing config link_required) as [|] eqn:Hm; [|done]. unfold approved in Hl. inv_ok.
  repeat match goal with He : negb (String.eqb _ _) = false |- _ => apply negb_false_iff, String.eqb_eq in He end.
  match goal with He : negb (_ =? _)%nat = false |- _ => apply negb_false_iff, Nat.eqb_eq in He; rename He into Hu end.
  split_and!; try done; [by apply missing_none|]. apply unique_full. by rewrite Hu, length_fmap.
Qed.

(** The hosts that are taken for private: the loopback by its names, any
    name without a dot (of the network the process is in; a bracketed IPv6
    literal is one, too), three reserved suffixes, and the IPv4 addresses of
    RFC 1918. *)
Inductive local_host (h : string) : Prop :=
| loopback_host : toLowerCase h ∈ ["localhost"; "127.0.0.1"; "::1"] -> local_host h
| undotted_host : contains_char "."%char (toLowerCase h) = false -> local_host h
| suffixed_host suffix : suffix ∈ [".internal"; ".local"; ".svc"] -> endsWith suffix (toLowerCase h) = true -> local_host h
| rfc1918_host a b c d : isInteger ∘ Number <$> split_dots (toLowerCase h) = [Some a; Some b; Some c; Some d] ->
    a = 10 \/ (a = 172 /\ 16 <= b <= 31) \/ (a = 192 /\ b = 168) -> local_host h.

Lemma private_hostname h : isPrivateHostname h = true -> local_host h.
Proof.
  unfold isPrivateHostname. cbv zeta. destruct (_ || _) eqn:E.
  - intros _. rewrite !orb_true_iff, negb_true_iff, !String.eqb_eq in E. destruct_or! E;
      first [by apply undotted_host|apply loopback_host; rewrite !elem_of_cons; tauto|idtac].
    + apply (suffixed_host h ".internal"); [rewrite !elem_of_cons; tauto|done].
    + apply (suffixed_host h ".local"); [rewrite !elem_of_cons; tauto|done].
    + apply (suffixed_host h ".svc"); [rewrite !elem_of_cons; tauto|done].
  - destruct (isInteger ∘ Number <$> _) as [|[a|] [|[b|] [|[c|] [|[d|] [|]]]]] eqn:Hs; try done.
    rewrite !orb_true_iff, !andb_true_iff, !Z.eqb_eq, !Z.leb_le. intros Hr.
    apply (rfc1918_host h a b c d Hs). tauto.
Qed.

Lemma rpc_guarantees config : rpc_url_checks config = Ok tt ->
  exists u, new_URL (text_of config "CBC_VERUS_RPC_URL") = Some u /\ local_host (url_hostname u) /\
    url_username u = "" /\ url_password u = "".
Proof.
  unfold rpc_url_checks. destruct (new_URL _) as [u|]; [|done]. intros (? & Hp & Hc)%bindR_ok.
  apply throwIf_ok, negb_false_iff, private_hostname in Hp. apply throwIf_ok, orb_false_iff in Hc as [Hn Hw].
  exists u. split_and!; [done|done|by destruct (url_username u)|by destruct (url_password u)].
Qed.

Lemma disabled_flags input config : accepted input config ->
  Forall (fun key => flag config key = false /\
    default None (input !! key) ∈ [None; Some (ev_text "false"); Some (ev_text "0"); Some (ev_bool false)])
    DISABLED_FEATURE_FLAGS.
Proof.
  intros Ha.
  assert (Hone : forall key, (key, disabledFeature) ∈ schema -> defaults !! key = None -> key <> "CBC_ENVIRONMENT" ->
    flag config key = false /\
    default None (input !! key) ∈ [None; Some (ev_text "false"); Some (ev_text "0"); Some (ev_bool false)]).
  { intros key Hk Hd Hne. destruct (disabled_flag _ _ _ (ac_parsed _ _ Ha) Hk) as [Hf Hv]. split; [done|].
    assert (Hl : candidate input (text_of config "CBC_ENVIRONMENT") !! key = input !! key); [|by rewrite Hl in Hv].
    etransitivity; [by apply lookup_insert_ne|]. by apply lookup_union_l. }
  unfold DISABLED_FEATURE_FLAGS. rewrite !Forall_cons, Forall_nil. split_and!; try done; 
    apply Hone; solve [in_schema|by vm_compute|done].
Qed.

Lemma long_secrets input config : accepted input config ->
  (forall key, key ∈ link_required -> nonEmpty (maybe_text config key) = true) ->
  Forall (fun key => 32 <= length (text_units (text_of config key)))%nat link_secrets.
Proof.
  intros Ha Hreq. pose proof (ac_parsed _ _ Ha) as Hp.
  assert (Ht : forall key, (key, z_string [min 32]) ∈ schema -> (32 <= length (text_units (text_of config key)))%nat).
  { intros key Hk. by destruct (field_text _ _ _ _ Hp Hk) as [_ [Hl _]%Forall_cons]. }
  assert (Ho : forall key, (key, optionalSecret) ∈ schema -> key ∈ link_required ->
    (32 <= length (text_units (text_of config key)))%nat).
  { intros key Hk Hr. by apply (field_preprocessed _ _ _ _ Hp Hk), Forall_cons in Hreq as [Hl _]; [|]. }
  unfold link_secrets. rewrite !Forall_cons, Forall_nil.
  split_and!; first [done|solve [apply Ht; in_schema]|solve [apply Ho; in_schema]].
Qed.

(** C13: what start-up guarantees: a configuration that was accepted names no
    production environment; each of the ten features that are to stay
    disabled was given as false or left out, and is off; its two trust
    domains share no audience, secret, origin or key version; in a deployed
    environment both origins are https with different relying parties, on
    VRSCTEST, with secrets that are not the local defaults; the node's URL
    holds no credentials, and its host is the loopback, a name without a dot
    (which any IPv6 literal is), one of three reserved suffixes, or an
    address of RFC 1918; and with linking enabled the hosted service is the
    approved one and the seven secrets of the process are pairwise different,
    of 32 code units at least. *)
Theorem accepted_config input config :
  loadRuntimeConfig input = Ok config ->
  text_of config "CBC_ENVIRONMENT" ∈ ["local"; "ci"; "testnet"; "pilot"] /\
  Forall (fun key => flag config key = false /\
    default None (input !! key) ∈ [None; Some (ev_text "false"); Some (ev_text "0"); Some (ev_bool false)])
    DISABLED_FEATURE_FLAGS /\
  text_of config "CBC_PARTICIPANT_SESSION_AUDIENCE" <> text_of config "CBC_COMMITTEE_SESSION_AUDIENCE" /\
  text_of config "CBC_PARTICIPANT_AUTH_SECRET" <> text_of config "CBC_COMMITTEE_AUTH_SECRET" /\
  text_of config "CBC_PARTICIPANT_ORIGIN" <> text_of config "CBC_COMMITTEE_ORIGIN" /\
  text_of config "CBC_PARTICIPANT_SESSION_KEY_VERSION" <> text_of config "CBC_COMMITTEE_SESSION_KEY_VERSION" /\
  (deployed (text_of config "CBC_ENVIRONMENT") = true ->
     text_of config "CBC_VERUS_NETWORK" = "VRSCTEST" /\
     https (text_of config "CBC_PARTICIPANT_ORIGIN") /\ https (text_of config "CBC_COMMITTEE_ORIGIN") /\
     text_of config "CBC_PARTICIPANT_RELYING_PARTY_ID" <> text_of config "CBC_COMMITTEE_RELYING_PARTY_ID" /\
     Forall (fun key => String.prefix "local-only-" (text_of config key) = false)
       ["CBC_PARTICIPANT_AUTH_SECRET"; "CBC_COMMITTEE_AUTH_SECRET"; "CBC_RATE_LIMIT_SECRET"]) /\
  (exists u, new_URL (text_of config "CBC_VERUS_RPC_URL") = Some u /\ local_host (url_hostname u) /\
     url_username u = "" /\ url_password u = "") /\
  (flag config "CBC_VERUS_LINKING_ENABLED" = true ->
     text_of config "CBC_VERUS_NETWORK" = "VRSCTEST" /\
     text_of config "CBC_VERUS_AUTH_URL" = APPROVED_VERUS_AUTH_URL /\
     NoDup (text_of config <$> link_secrets) /\
     Forall (fun key => 32 <= length (text_units (text_of config key)))%nat link_secrets).
Proof.
  intros Ha%loaded_accepted. pose proof (domains_differ _ (ac_domains _ _ Ha)) as (? & ? & ? & ?).
  split_and!; try done; [exact (ac_environment _ _ Ha)|by apply (disabled_flags input)| | |].
  - intros Hd. apply (ac_deployed _ _ Ha), deployed_guarantees in Hd. tauto.
  - apply rpc_guarantees, (ac_rpc _ _ Ha).
  - intros Hf. pose proof (linking_guarantees _ (ac_linking _ _ Ha Hf)) as (? & ? & _ & ? & _ & _ & _ & ?).
    split_and!; try done. by apply (long_secrets input).
Qed.
End facts.
