(* ===== verification/LinkWiring.v ===== *)
(** * LinkWiring: the linking API built from a configuration.

    createWalletLinkHttpFacade and createTrustDomains of
    apps/api/src/wallet-link-http.ts: the trust domains, the hosted client,
    the node client and the linking service, each with its part of the
    configuration.  The facts: the checks of packages/config and the checks of
    the parts that are built from the configuration (the hosted client's
    constructor, the service's [requireEnabled], validateTrustDomains) agree. *)
From stdpp Require Import gmap strings.
From S2P Require Import Prelude Errors Text Json JsonParse Verus Database AuthDatabase Authorization Auth AuthRepository.
From S2P Require Import RpcAdapter CoreDatabase LinkDatabase VerusLinkRepository HostedAuth WalletLinkService LinkHttp LinkSystem.
From S2P Require Import Config ConfigFacts.
Local Open Scope Z_scope.

Definition createTrustDomains (config : RuntimeConfig) (domain : TrustDomain) : TrustDomainConfig :=
  match domain with
  | td_participant => {|
      tc_domain := td_participant; tc_audience := text_of config "CBC_PARTICIPANT_SESSION_AUDIENCE";
      tc_cookieName := "__Host-cbc-participant"; tc_origin := text_of config "CBC_PARTICIPANT_ORIGIN";
      tc_relyingPartyId := text_of config "CBC_PARTICIPANT_RELYING_PARTY_ID";
      tc_sessionSecret := text_of config "CBC_PARTICIPANT_AUTH_SECRET"; tc_idleTimeoutMs := 30 * 60000;
      tc_absoluteTimeoutMs := 12 * 60 * 60000; tc_privilegedReauthenticationMs := 5 * 60000; tc_sameSite := Lax |}
  | td_committee => {|
      tc_domain := td_committee; tc_audience := text_of config "CBC_COMMITTEE_SESSION_AUDIENCE";
      tc_cookieName := "__Host-cbc-committee"; tc_origin := text_of config "CBC_COMMITTEE_ORIGIN";
      tc_relyingPartyId := text_of config "CBC_COMMITTEE_RELYING_PARTY_ID";
      tc_sessionSecret := text_of config "CBC_COMMITTEE_AUTH_SECRET"; tc_idleTimeoutMs := 15 * 60000;
      tc_absoluteTimeoutMs := 60 * 60000; tc_privilegedReauthenticationMs := 5 * 60000; tc_sameSite := Strict |}
  end.

Definition configured_key_versions (config : RuntimeConfig) (domain : TrustDomain) : string :=
  match domain with
  | td_participant => text_of config "CBC_PARTICIPANT_SESSION_KEY_VERSION"
  | td_committee => text_of config "CBC_COMMITTEE_SESSION_KEY_VERSION"
  end.

Definition configured_hosted (config : RuntimeConfig) : HostedAuthClientConfig := {|
  hc_baseUrl := text_of config "CBC_VERUS_AUTH_URL"; hc_contractVersion := "cbc-verusid-auth.v1";
  hc_serviceVersion := text_of config "CBC_VERUS_AUTH_SERVICE_VERSION";
  hc_serviceSourceRevision := text_of config "CBC_VERUS_AUTH_SOURCE_REVISION";
  hc_imageDigest := text_of config "CBC_VERUS_AUTH_IMAGE_DIGEST";
  hc_sdkCommit := text_of config "CBC_VERUS_AUTH_SDK_COMMIT";
  hc_primitivesCommit := text_of config "CBC_VERUS_AUTH_PRIMITIVES_COMMIT";
  hc_rpcClientCommit := text_of config "CBC_VERUS_AUTH_RPC_CLIENT_COMMIT";
  hc_bitgoCommit := text_of config "CBC_VERUS_AUTH_BITGO_COMMIT";
  hc_daemonVersion := text_of config "CBC_VERUS_AUTH_DAEMON_VERSION";
  hc_applicationIdentityAddress := text_of config "CBC_VERUS_LINK_APPLICATION_IDENTITY";
  hc_callbackUrl := text_of config "CBC_VERUS_AUTH_CALLBACK_URL"; hc_issuer := text_of config "CBC_VERUS_AUTH_ISSUER";
  hc_clientSecret := text_of config "CBC_VERUS_AUTH_CLIENT_SECRET";
  hc_jwtSecret := text_of config "CBC_VERUS_AUTH_JWT_SECRET"; hc_timeoutMs := None |}.

Definition configured_linking (config : RuntimeConfig) : WalletLinkServiceConfig := {|
  sc_enabled := true; sc_network := net_vrsctest;
  sc_applicationIdentityAddress := text_of config "CBC_VERUS_LINK_APPLICATION_IDENTITY";
  sc_authServiceCallbackUrl := text_of config "CBC_VERUS_AUTH_CALLBACK_URL";
  sc_participantAudience := text_of config "CBC_PARTICIPANT_SESSION_AUDIENCE";
  sc_committeeAudience := text_of config "CBC_COMMITTEE_SESSION_AUDIENCE";
  sc_bindingSecret := text_of config "CBC_VERUS_LINK_BINDING_SECRET";
  sc_pollingTokenSecret := text_of config "CBC_VERUS_LINK_POLLING_SECRET" |}.

Section wiring.
Context `{Platform} `{AuthCrypto} `{HostedPlatform} `{NumberParser}.
Context {N R : Type} (fetch : HostedRequest -> N -> option HostedResponse * N).
Context (rpc_fetch : HttpRequest -> R -> FetchOutcome * R) (faults : nat -> nat -> TxAttempt) (token : nat -> string).

(** Building the hosted client may throw. *)
Definition createWalletLinkHttpFacade (config : RuntimeConfig) : result exn (WalletLinkHttpFacade (LinkWorld N R)) :=
  if negb (flag config "CBC_VERUS_LINKING_ENABLED") then Ok DisabledWalletLinkHttpFacade
  else
    let! hosted := newHostedClient (configured_hosted config) in
    Ok (link_facade fetch rpc_fetch (configured_node config) faults token (configured_key_versions config)
          (text_of config "CBC_RATE_LIMIT_SECRET") hosted (configured_linking config) (createTrustDomains config)).
End wiring.

(** ** What an accepted configuration builds *)

(** How the approved addresses are parsed. *)
Class ApprovedUrls `{UrlPlatform} := {
  approved_base : new_URL APPROVED_VERUS_AUTH_URL = Some {|
    url_protocol := "https:"; url_username := ""; url_password := ""; url_hostname := "auth.checksandbalances.services";
    url_pathname := "/"; url_search := ""; url_hash := "" |};
  approved_callback : new_URL APPROVED_VERUS_AUTH_CALLBACK_URL = Some {|
    url_protocol := "https:"; url_username := ""; url_password := ""; url_hostname := "auth.checksandbalances.services";
    url_pathname := "/verusidlogin"; url_search := ""; url_hash := "" |};
}.

Section facts.
Context `{Platform} `{AuthCrypto} `{HostedPlatform} `{NumberParser} `{Zod} `{NumberService} `{!ZodLaws} `{!ApprovedUrls}.
Context {N R : Type} (fetch : HostedRequest -> N -> option HostedResponse * N).
Context (rpc_fetch : HttpRequest -> R -> FetchOutcome * R) (faults : nat -> nat -> TxAttempt) (token : nat -> string).

Lemma requireSecret_long s : (32 <= length (text_units s))%nat -> requireSecret s = Ok tt.
Proof. intros Hl. unfold requireSecret. apply throwIf_ok, Nat.ltb_ge, Hl. Qed.

(** The fields that linking requires are there. *)
Lemma required_present input config key :
  accepted input config -> flag config "CBC_VERUS_LINKING_ENABLED" = true -> key ∈ link_required ->
  nonEmpty (maybe_text config key) = true.
Proof. intros Ha Hf. by destruct (linking_guarantees _ (ac_linking _ _ Ha Hf)) as (_ & Hall & _); apply Hall. Qed.

Lemma release_metadata input config :
  accepted input config -> flag config "CBC_VERUS_LINKING_ENABLED" = true ->
  requireReleaseMetadata (configured_hosted config) = Ok tt.
Proof.
  intros Ha Hf. pose proof (ac_parsed _ _ Ha) as Hp.
  pose proof (fun key => required_present input config key Ha Hf) as Hreq.
  assert (Ht : forall key checks, (key, unless_empty (z_string checks)) ∈ schema -> key ∈ link_required ->
    Forall (holds (text_of config key)) checks) by (intros key checks Hs Hr; eapply field_preprocessed; eauto).
  assert (Hl : forall key u, (key, unless_empty (z_literal (pv_text u))) ∈ schema -> key ∈ link_required ->
    text_of config key = u) by (intros key u Hs Hr; eapply field_literal; eauto).
  pose proof (Ht "CBC_VERUS_AUTH_SERVICE_VERSION" _ ltac:(in_schema) ltac:(in_schema)) as [Hv _]%Forall_cons.
  pose proof (Ht "CBC_VERUS_AUTH_SOURCE_REVISION" _ ltac:(in_schema) ltac:(in_schema)) as [Hr _]%Forall_cons.
  pose proof (Ht "CBC_VERUS_AUTH_IMAGE_DIGEST" _ ltac:(in_schema) ltac:(in_schema)) as [Hi _]%Forall_cons.
  pose proof (Hl "CBC_VERUS_AUTH_SDK_COMMIT" _ ltac:(in_schema) ltac:(in_schema)) as Hs.
  pose proof (Hl "CBC_VERUS_AUTH_PRIMITIVES_COMMIT" _ ltac:(in_schema) ltac:(in_schema)) as Hm.
  pose proof (Hl "CBC_VERUS_AUTH_RPC_CLIENT_COMMIT" _ ltac:(in_schema) ltac:(in_schema)) as Hc.
  pose proof (Hl "CBC_VERUS_AUTH_BITGO_COMMIT" _ ltac:(in_schema) ltac:(in_schema)) as Hb.
  pose proof (Hl "CBC_VERUS_AUTH_DAEMON_VERSION" _ ltac:(in_schema) ltac:(in_schema)) as Hd.
  cbn [holds] in *. unfold requireReleaseMetadata. apply throwIf_ok. unfold configured_hosted; simpl.
  rewrite Hv, Hr, Hi, Hs, Hm, Hc, Hb, Hd. vm_compute. reflexivity.
Qed.

Lemma hosted_client_built input config :
  accepted input config -> flag config "CBC_VERUS_LINKING_ENABLED" = true ->
  newHostedClient (configured_hosted config) = Ok (configured_hosted config).
Proof.
  intros Ha Hf. pose proof (linking_guarantees _ (ac_linking _ _ Ha Hf)) as (_ & Hreq & Hid & Hurl & Hcb & _ & _ & _).
  pose proof (long_secrets _ _ Ha Hreq) as Hlong. rewrite Forall_forall in Hlong.
  unfold newHostedClient, requireHttpsBaseUrl, requireHttpsCallback.
  rewrite (release_metadata _ _ Ha Hf). unfold configured_hosted at 1 2 3 4 5; simpl.
  rewrite Hurl, Hcb, Hid, approved_base, approved_callback.
  rewrite !requireSecret_long by (apply Hlong; in_schema). by vm_compute.
Qed.

Lemma domain_secure_https domain config :
  https (tc_origin (createTrustDomains config domain)) ->
  (32 <= length (text_units (tc_sessionSecret (createTrustDomains config domain))))%nat ->
  domain_secure (createTrustDomains config domain) = Ok tt.
Proof.
  intros (u & Hu & Hp) Hl. unfold domain_secure. rewrite Hu. apply throwIf_ok. rewrite Hp.
  replace (_ <? 32)%nat with false by (symmetry; by apply Nat.ltb_ge). by destruct domain.
Qed.

Lemma service_enabled input config :
  accepted input config -> flag config "CBC_VERUS_LINKING_ENABLED" = true ->
  requireEnabled (configured_linking config) = Ok tt.
Proof.
  intros Ha Hf. pose proof (linking_guarantees _ (ac_linking _ _ Ha Hf)) as (_ & Hreq & _).
  pose proof (long_secrets _ _ Ha Hreq) as Hlong. rewrite Forall_forall in Hlong.
  unfold requireEnabled, throwIf; simpl.
  pose proof (Hlong "CBC_VERUS_LINK_BINDING_SECRET" ltac:(in_schema)) as Hb%Nat.ltb_ge.
  pose proof (Hlong "CBC_VERUS_LINK_POLLING_SECRET" ltac:(in_schema)) as Hp%Nat.ltb_ge. by rewrite Hb, Hp.
Qed.

Lemma challenge_matches input config challenge data i :
  accepted input config -> flag config "CBC_VERUS_LINKING_ENABLED" = true ->
  read_challenge (configured_hosted config) i data = Ok challenge ->
  hch_signerIdentityAddress challenge = sc_applicationIdentityAddress (configured_linking config) /\
  hch_callbackUrl challenge = sc_authServiceCallbackUrl (configured_linking config).
Proof.
  intros Ha Hf Hr. pose proof (linking_guarantees _ (ac_linking _ _ Ha Hf)) as (_ & _ & Hid & _ & Hcb & _).
  unfold read_challenge in Hr. inv_ok. destruct (new_URL _); [|done]. inv_ok. simpl. rewrite Hid, Hcb.
  repeat match goal with
  | Ho : (_ || _) = false |- _ => apply orb_false_iff in Ho as [? ?]
  | Hb : negb (bool_decide _) = false |- _ => apply negb_false_iff, bool_decide_eq_true_1 in Hb
  end.
  simpl in *. rewrite Hid in *. rewrite Hcb in *. subst. split; by vm_compute.
Qed.

Lemma deployed_domains input config :
  accepted input config -> deployed (text_of config "CBC_ENVIRONMENT") = true ->
  validateTrustDomains (createTrustDomains config td_participant) (createTrustDomains config td_committee) = Ok tt.
Proof.
  intros Ha Hd. pose proof (domains_differ _ (ac_domains _ _ Ha)) as (Haud & Hsec & Hor & _).
  pose proof (deployed_guarantees _ _ (ac_deployed _ _ Ha Hd)) as (_ & Hp & Hc & _ & _).
  pose proof (field_text _ _ "CBC_PARTICIPANT_AUTH_SECRET" _ (ac_parsed _ _ Ha) ltac:(in_schema)) as [_ [Hsp _]%Forall_cons].
  pose proof (field_text _ _ "CBC_COMMITTEE_AUTH_SECRET" _ (ac_parsed _ _ Ha) ltac:(in_schema)) as [_ [Hsc _]%Forall_cons].
  unfold validateTrustDomains. apply String.eqb_neq in Haud, Hsec, Hor. simpl (tc_audience _). simpl (tc_sessionSecret _).
  simpl (tc_origin _). rewrite Haud, Hsec, Hor. simpl throwIf. cbn [bindR for_each].
  rewrite (domain_secure_https td_participant) by done. cbn [bindR].
  by rewrite (domain_secure_https td_committee).
Qed.

(** C12: with an accepted configuration the linking API is built: while the
    feature is off it is the one that refuses every request; while it is on,
    the client's constructor accepts the approved service, the service is
    enabled on VRSCTEST and names the same identity and callback as its
    client, so no answer the client accepts is refused for them.  In a
    deployed environment the trust domains are the ones validateTrustDomains
    accepts. *)
Theorem accepted_config_wires input config :
  loadRuntimeConfig input = Ok config ->
  (exists facade, createWalletLinkHttpFacade fetch rpc_fetch faults token config = Ok facade /\
     (flag config "CBC_VERUS_LINKING_ENABLED" = false -> facade = DisabledWalletLinkHttpFacade) /\
     (flag config "CBC_VERUS_LINKING_ENABLED" = true ->
        facade = link_facade fetch rpc_fetch (configured_node config) faults token (configured_key_versions config)
                   (text_of config "CBC_RATE_LIMIT_SECRET") (configured_hosted config) (configured_linking config)
                   (createTrustDomains config) /\
        requireEnabled (configured_linking config) = Ok tt /\
        (forall challenge data input, read_challenge (configured_hosted config) input data = Ok challenge ->
           hch_signerIdentityAddress challenge = sc_applicationIdentityAddress (configured_linking config) /\
           hch_callbackUrl challenge = sc_authServiceCallbackUrl (configured_linking config)))) /\
  (deployed (text_of config "CBC_ENVIRONMENT") = true ->
     validateTrustDomains (createTrustDomains config td_participant) (createTrustDomains config td_committee) = Ok tt).
Proof.
  intros Ha%loaded_accepted. split; [|by apply (deployed_domains input)]. unfold createWalletLinkHttpFacade.
  destruct (flag config "CBC_VERUS_LINKING_ENABLED") eqn:Hf; simpl.
  - rewrite (hosted_client_built _ _ Ha Hf). simpl. eexists. split; [reflexivity|]. split; [done|]. intros _.
    split_and!; [done|by apply (service_enabled input)|]. intros challenge data i Hr.
    by apply (challenge_matches input) with data i.
  - eexists. by split_and!.
Qed.
End facts.
