(* ===== verification/WorkerProcess.v ===== *)
(** * WorkerProcess: the processes around the worker and the API.

    The approved fixtures of packages/verus, what apps/worker/src/main.ts
    gives the worker, the polling loop VerusWorkerLoop (verus-worker.ts), the
    text of the metrics (verus-metrics.ts), and the readiness checks and
    status answers of both processes (apps/worker/src/app.ts,
    apps/api/src/readiness.ts, status.controller.ts).  The HTTP servers, the
    queue client and the log are not modelled.  The facts: the loop runs one
    pass at a time, so any interleaving of its timer, its passes and its stop
    amounts to passes in a row; and the worker that is started from an
    accepted configuration writes nothing. *)
From Stdlib Require Import SpecFloat.
From stdpp Require Import pretty gmap strings.
From S2P Require Import Prelude Errors Text Json JsonParse Verus Database Outbox RpcAdapter Worker WorkerFacts VerusLinkRepository Config ConfigFacts.
Local Open Scope Z_scope.

(** ** approved-fixtures.ts *)

Record NamespaceKey : Type := { ns_uri : string; ns_vdxfId : string }.
Definition CBC_OWNER_IDENTITY_ADDRESS : string := "iC7jT1JAJJZHrS4JnHRbgLn9qUQokMsedM".
Definition anchorSchema : NamespaceKey := {|
  ns_uri := "cbc-protocol-test.VRSCTEST::v1.anchor.schema"; ns_vdxfId := "iQxTRgN4ZaYQcWAspPfsNS5YFHTEahLgEP" |}.
Definition anchorPolicy : NamespaceKey := {|
  ns_uri := "cbc-protocol-test.VRSCTEST::v1.anchor.policy"; ns_vdxfId := "iQ5w3DRVthprX1NriFaSbKumMUpe9nyUAX" |}.
Definition anchorCycleReport : NamespaceKey := {|
  ns_uri := "cbc-protocol-test.VRSCTEST::v1.anchor.cycle_report"; ns_vdxfId := "iJLfbKwekbK8PoNCmDjJr7dXdcFL82ygRC" |}.
Definition manifest_v1_policyReference : string := "cbc.anchor.manifest.v1".

(** ** main.ts of the worker *)

Definition approved_write_target (operationType : string) (key : NamespaceKey) : ApprovedVerusWriteTarget := {|
  tg_operationType := operationType; tg_targetIdentity := CBC_OWNER_IDENTITY_ADDRESS; tg_vdxfUri := ns_uri key;
  tg_vdxfKey := ns_vdxfId key; tg_manifestPolicyReference := manifest_v1_policyReference |}.

Definition approved_write_targets : list ApprovedVerusWriteTarget := [
  approved_write_target "schema_anchor" anchorSchema;
  approved_write_target "policy_anchor" anchorPolicy;
  approved_write_target "cycle_report_anchor" anchorCycleReport].

(** [process.env.npm_package_version ?? "0.0.0"] *)
Definition configured_worker (config : RuntimeConfig) (pid : Z) (version : option string) : VerusAnchorWorkerOptions := {|
  worker := {| workerReference := "worker_verus_" +:+ pretty pid; w_softwareVersion := default "0.0.0" version;
               w_correlationId := "worker_process_" +:+ pretty pid |};
  capabilityEnabled := flag config "CBC_VERUS_IDENTITY_UPDATE_ENABLED";
  approvedWriteTargets := approved_write_targets; leaseDurationMs := default_leaseDurationMs;
  retry_maxAttempts := default_maxAttempts; retry_baseBackoffMs := default_baseBackoffMs;
  retry_maxBackoffMs := default_maxBackoffMs |}.

(** ** VerusWorkerLoop *)

(** The passes begun and not settled, those settled, with what they did to
    the world and the errors handed to [onError]. *)
Record LoopState (W : Type) : Type := {
  lp_timer : bool;
  lp_running : bool;
  lp_inFlight : nat;
  lp_settled : nat;
  lp_errors : list exn;
  lp_world : W;
}.
Arguments lp_timer {W} _.
Arguments lp_running {W} _.
Arguments lp_inFlight {W} _.
Arguments lp_settled {W} _.
Arguments lp_errors {W} _.
Arguments lp_world {W} _.

Section loop.
Context {W A : Type} (processNext : prog W exn A).

Definition new_loop (w : W) : LoopState W := {|
  lp_timer := false; lp_running := false; lp_inFlight := 0; lp_settled := 0; lp_errors := []; lp_world := w |}.

Definition tick (s : LoopState W) : LoopState W :=
  if lp_running s then s
  else {| lp_timer := lp_timer s; lp_running := true; lp_inFlight := S (lp_inFlight s); lp_settled := lp_settled s;
          lp_errors := lp_errors s; lp_world := lp_world s |}.

Definition set_timer (b : bool) (s : LoopState W) : LoopState W := {|
  lp_timer := b; lp_running := lp_running s; lp_inFlight := lp_inFlight s; lp_settled := lp_settled s;
  lp_errors := lp_errors s; lp_world := lp_world s |}.

Definition start (s : LoopState W) : LoopState W := if lp_timer s then s else set_timer true (tick s).
Definition stop (s : LoopState W) : LoopState W := set_timer false s.

(** A pass settles: its error goes to [onError]; [finally] clears [running]. *)
Definition settle (s : LoopState W) : LoopState W :=
  let (r, w) := processNext (lp_world s) in
  {| lp_timer := lp_timer s; lp_running := false; lp_inFlight := lp_inFlight s - 1; lp_settled := S (lp_settled s);
     lp_errors := lp_errors s ++ match r with Ok _ => [] | Err e => [e] end; lp_world := w |}.

Inductive LoopEvent : Type := loop_starts | timer_fires | pass_settles | loop_stops.

Inductive loop_step : LoopEvent -> LoopState W -> LoopState W -> Prop :=
| step_start s : loop_step loop_starts s (start s)
| step_timer s : lp_timer s = true -> loop_step timer_fires s (tick s)
| step_settle s : (0 < lp_inFlight s)%nat -> loop_step pass_settles s (settle s)
| step_stop s : loop_step loop_stops s (stop s).

(** A run of the loop with its events. *)
Inductive loop_run : list LoopEvent -> LoopState W -> LoopState W -> Prop :=
| run_none s : loop_run [] s s
| run_more e es s s1 s2 : loop_step e s s1 -> loop_run es s1 s2 -> loop_run (e :: es) s s2.

(** [n] passes in a row: the errors they threw and the world they leave. *)
Fixpoint passes_in_row (n : nat) (w : W) : list exn * W :=
  match n with
  | O => ([], w)
  | S n' =>
    let (errors, w1) := passes_in_row n' w in
    let (r, w2) := processNext w1 in
    (errors ++ match r with Ok _ => [] | Err e => [e] end, w2)
  end.
End loop.

(** ** verus-metrics.ts: the text *)

Section render.
Context `{TextServices}.

Definition metric_lines (kind name help value : string) : list string :=
  ["# HELP " +:+ name +:+ " " +:+ help; "# TYPE " +:+ name +:+ " " +:+ kind; name +:+ " " +:+ value].

(** A quotient of milliseconds by 1000 is printed as a number. *)
Definition seconds_text (ms : Z) : string :=
  utf8_text (number_text (SFdiv 53 1024 (float_of_Z ms) (float_of_Z 1000))).

Definition outcome_name (o : VerusJobOutcome) : string :=
  match o with
  | out_verified => "verified" | out_retryable_failed => "retryable_failed"
  | out_terminal_failed => "terminal_failed" | out_dead_letter => "dead_letter"
  end.

Definition quoted (s : string) : string := String (Ascii.ascii_of_nat 34) s +:+ String (Ascii.ascii_of_nat 34) "".

Definition render (m : Metrics) : string :=
  String.concat (String (Ascii.ascii_of_nat 10) "") (
    metric_lines "gauge" "cbc_verus_outbox_ready" "Durable Verus outbox events ready for work." (pretty (mt_ready m))
    ++ metric_lines "gauge" "cbc_verus_outbox_oldest_age_seconds" "Age of the oldest ready Verus outbox event."
         (seconds_text (mt_oldestAgeMs m))
    ++ ["# HELP cbc_verus_jobs_total Completed Verus worker outcomes."; "# TYPE cbc_verus_jobs_total counter"]
    ++ ((fun o => "cbc_verus_jobs_total{outcome=" +:+ quoted (outcome_name o) +:+ "} " +:+ pretty (mt_outcomes m o))
        <$> [out_verified; out_retryable_failed; out_terminal_failed; out_dead_letter])
    ++ ["# HELP cbc_verus_rpc_failures_total Classified Verus integration failures.";
        "# TYPE cbc_verus_rpc_failures_total counter"]
    ++ ((fun c => "cbc_verus_rpc_failures_total{class=" +:+ quoted c +:+ "} " +:+ pretty (default 0 (mt_failures m !! c)))
        <$> sort_texts (fst <$> map_to_list (mt_failures m)))
    ++ metric_lines "gauge" "cbc_verus_node_synchronized" "Whether the last Verus preflight observed a synchronized node."
         (pretty (mt_synchronized m))
    ++ metric_lines "counter" "cbc_verus_wrong_network_total" "Verus preflight wrong-network rejections."
         (pretty (mt_wrongNetwork m))
    ++ metric_lines "gauge" "cbc_verus_confirmation_count" "Confirmations observed for the current transaction."
         (pretty (mt_confirmationCount m))
    ++ metric_lines "counter" "cbc_verus_readback_mismatch_total" "Exact readback digest mismatches."
         (pretty (mt_mismatch m))
    ++ metric_lines "counter" "cbc_verus_reorg_total" "Detected Verus transaction reorganizations." (pretty (mt_reorg m))
    ++ metric_lines "gauge" "cbc_verus_worker_paused" "Whether Verus writes are administratively paused."
         (pretty (mt_paused m)))
  +:+ String (Ascii.ascii_of_nat 10) "".
End render.

(** ** Readiness *)

Record DependencyCheck : Type := { dc_ok : bool; dc_detail : string }.
Record ReadinessReport : Type := { rr_ready : bool; rr_dependencies : list (string * DependencyCheck) }.

Section readiness.
Context `{NumberParser} (pg_answers redis_answers : string -> bool).
Context {R : Type} (rpc_fetch : HttpRequest -> R -> FetchOutcome * R).

(** packages/db/src/index.ts, over what the database clients report. *)
Definition checkPostgres (connectionString : string) : DependencyCheck :=
  if pg_answers connectionString then {| dc_ok := true; dc_detail := "PostgreSQL is reachable" |}
  else {| dc_ok := false; dc_detail := "PostgreSQL is unavailable" |}.
Definition checkRedis (url_ : string) : DependencyCheck :=
  if redis_answers url_ then {| dc_ok := true; dc_detail := "Redis is reachable" |}
  else {| dc_ok := false; dc_detail := "Redis is unavailable" |}.

(** packages/verus/src/index.ts, on a new adapter. *)
Definition checkVerus (options : HttpVerusRpcAdapterOptions) (n : R) : DependencyCheck :=
  if checkVerusReadiness rpc_fetch options {| nextId := 1; net := n |}
  then {| dc_ok := true; dc_detail := "fake/private Verus RPC is reachable" |}
  else {| dc_ok := false; dc_detail := "fake/private Verus RPC is unavailable" |}.

(** checkRuntimeDependencies and checkWorkerDependencies. *)
Definition checkRuntimeDependencies (config : RuntimeConfig) (n : R) : ReadinessReport :=
  let dependencies := [
    ("postgres", checkPostgres (text_of config "DATABASE_URL"));
    ("redis", checkRedis (text_of config "REDIS_URL"));
    ("verusRpc", checkVerus (configured_node config) n)] in
  {| rr_ready := forallb (fun d => dc_ok (snd d)) dependencies; rr_dependencies := dependencies |}.
End readiness.

(** The answer's status of GET /ready. *)
Definition ready_status (report : ReadinessReport) : Z := if rr_ready report then 200 else 503.

Definition assertReady (report : ReadinessReport) : result exn ReadinessReport :=
  throwif! negb (rr_ready report)
    as! OtherError ("Startup dependency check failed: " +:+
          String.concat ", " (fst <$> filter (fun d => dc_ok (snd d) = false) (rr_dependencies report))) in
  Ok report.

(** ** The loop, and the worker as it is deployed *)

Section loop.
Context {W A : Type} (processNext : prog W exn A).

(** The invariant: a pass is in flight exactly while [running], and the
    settled passes ran in a row. *)
Record loop_ok (w0 : W) (s : LoopState W) : Prop := {
  lo_single : lp_inFlight s = if lp_running s then 1%nat else 0%nat;
  lo_passes : passes_in_row processNext (lp_settled s) w0 = (lp_errors s, lp_world s);
}.

Lemma tick_ok w0 s : loop_ok w0 s -> loop_ok w0 (tick s).
Proof. intros [Hs Hp]. unfold tick. destruct (lp_running s) eqn:Hr; split; simpl; try done; [by rewrite Hr|by rewrite Hs]. Qed.

Lemma set_timer_ok w0 b s : loop_ok w0 s -> loop_ok w0 (set_timer b s).
Proof. by intros []. Qed.

Lemma settle_ok w0 s : (0 < lp_inFlight s)%nat -> loop_ok w0 s -> loop_ok w0 (settle processNext s).
Proof.
  intros Hf [Hs Hp]. unfold settle. destruct (processNext (lp_world s)) as [r w] eqn:Hw.
  split; simpl; [destruct (lp_running s); lia|]. by rewrite Hp, Hw.
Qed.

Lemma step_loop_ok w0 e s s' : loop_step processNext e s s' -> loop_ok w0 s -> loop_ok w0 s'.
Proof.
  intros [] Ho; [|by apply tick_ok|by apply settle_ok|by apply set_timer_ok].
  unfold start. destruct (lp_timer s0); [done|]. by apply set_timer_ok, tick_ok.
Qed.

Lemma loop_run_ok w0 es s s' : loop_run processNext es s s' -> loop_ok w0 s -> loop_ok w0 s'.
Proof. induction 1; eauto using step_loop_ok. Qed.

Definition begun (s : LoopState W) : nat := (lp_settled s + lp_inFlight s)%nat.

Lemma idle_step e s s' : loop_step processNext e s s' -> e <> loop_starts -> lp_timer s = false ->
  lp_timer s' = false /\ begun s' = begun s.
Proof.
  unfold begun. intros [] Hne Ht; try done; [congruence|]. unfold settle. destruct (processNext _). simpl. split; [done|lia].
Qed.

Lemma idle_run es s s' : loop_run processNext es s s' -> loop_starts ∉ es -> lp_timer s = false -> begun s' = begun s.
Proof.
  induction 1 as [|e es s s1 s2 Hstep _ IH]; [done|]. rewrite not_elem_of_cons. intros [Hne Hes] Ht.
  destruct (idle_step _ _ _ Hstep (not_eq_sym Hne) Ht) as [Ht1 <-]. by apply IH.
Qed.

(** C16: whatever the order in which the loop is started, its timer fires, its
    passes settle and it is stopped, at most one pass is in flight, and what
    the loop did is what its settled passes do in a row, each error handed
    to [onError]; once stopped it begins no pass until it is started again. *)
Theorem loop_refines_passes es w0 s :
  loop_run processNext es (new_loop w0) s ->
  (lp_inFlight s <= 1)%nat /\ (lp_inFlight s = 1%nat <-> lp_running s = true) /\
  passes_in_row processNext (lp_settled s) w0 = (lp_errors s, lp_world s) /\
  (forall es' s', loop_run processNext es' (stop s) s' -> loop_starts ∉ es' ->
     (lp_settled s' + lp_inFlight s' = lp_settled s + lp_inFlight s)%nat).
Proof.
  intros Hrun. pose proof (loop_run_ok w0 _ _ _ Hrun ltac:(by split)) as [Hs Hp].
  split_and!; [rewrite Hs; by destruct (lp_running s); lia|rewrite Hs; by destruct (lp_running s)|done|].
  intros es' s' Hr Hn. exact (idle_run _ _ _ Hr Hn eq_refl).
Qed.
End loop.

Section deployed.
Context {W : Type} `{Clock W} `{MetricsStore W} `{VerusOutboxStore W} `{VerusJobStore W}
  `{VerusRpcAdapter W} `{TextServices} `{NumberParser} `{!WritesObserved W}.
Context `{UrlPlatform} `{Zod} `{NumberService} `{!ZodLaws}.
Context (sha256 : string -> string).

Lemma disabled_pass options w :
  capabilityEnabled options = false -> sane w ->
  sane (snd (processNext sha256 options w)) /\ writes (snd (processNext sha256 options w)) = writes w.
Proof.
  intros Hoff Hi. destruct (processNext sha256 options w) as [r w'] eqn:Hrun.
  destruct (processNext_submits sha256 options w r w' Hi Hrun) as (Hs & Hw & _). split; [done|].
  destruct Hw as [Hw|(u & _ & claim & job & _ & _ & [Hon _ _ _])]; [done|congruence].
Qed.

Lemma disabled_passes options n w :
  capabilityEnabled options = false -> sane w ->
  sane (snd (passes_in_row (processNext sha256 options) n w)) /\
  writes (snd (passes_in_row (processNext sha256 options) n w)) = writes w.
Proof.
  intros Hoff Hi. induction n as [|n [IHs IHw]]; simpl; [done|].
  destruct (passes_in_row _ n w) as [errors w1]. simpl in *.
  destruct (disabled_pass _ _ Hoff IHs) as [Hs Hw]. destruct (processNext sha256 options w1) as [r w2]. simpl in *.
  split; [done|congruence].
Qed.

(** C2: the worker process as it is wired: with any accepted configuration
    the loop, however it is driven and whatever its stores, its clock and the
    node do, hands no identity update to the node. *)
Theorem configured_worker_never_writes input config pid version es w0 s :
  loadRuntimeConfig input = Ok config -> sane w0 ->
  loop_run (processNext sha256 (configured_worker config pid version)) es (new_loop w0) s ->
  writes (lp_world s) = writes w0.
Proof.
  intros Ha%loaded_accepted Hi Hrun.
  pose proof (loop_run_ok _ w0 _ _ _ Hrun ltac:(by split)) as [_ Hp].
  assert (Hoff : flag config "CBC_VERUS_IDENTITY_UPDATE_ENABLED" = false)
    by (eapply disabled_flag; [exact (ac_parsed _ _ Ha)|in_schema]).
  destruct (disabled_passes (configured_worker config pid version) (lp_settled s) w0 Hoff Hi) as [_ Hw].
  by rewrite Hp in Hw.
Qed.
End deployed.
