(* ===== verification/ConfigExamples.v ===== *)
(** * ConfigExamples: a deployed configuration, accepted.

    A concrete schema library and URL parser; the theorems of ConfigFacts.v,
    LinkWiring.v and WorkerProcess.v applied to a configuration of
    a deployed environment with linking enabled. *)
From Stdlib Require Import SpecFloat Ascii.
From stdpp Require Import gmap strings.
From S2P Require Import Prelude Errors Text Json JsonParse Encoding Verus Database AuthDatabase Authorization Auth AuthRepository.
From S2P Require Import RpcAdapter CoreDatabase LinkDatabase VerusLinkRepository HostedAuth WalletLinkService LinkHttp LinkSystem.
From S2P Require Import FakeAdapter Outbox Worker WorkerFacts StoreFacts System SystemFacts.
From S2P Require Import Config ConfigFacts LinkWiring WorkerProcess.
Local Open Scope Z_scope.

(** ** The schema library *)

Definition check_ok (t : string) (c : TextCheck) : bool :=
  match c with
  | min n => (n <=? length (text_units t))%nat
  | max n => (length (text_units t) <=? n)%nat
  | startsWith p => String.prefix p t
  | regex p => p t
  | is_url => true
  end.

Lemma check_ok_holds t cs : forallb (check_ok t) cs = true -> Forall (holds t) cs.
Proof.
  induction cs as [|c cs IH]; simpl; [constructor|]. intros [Hc Hcs]%andb_true_iff. constructor; [|by apply IH].
  destruct c; simpl in *; try done; by apply Nat.leb_le.
Qed.

Fixpoint parse (s : ZodSchema) (v : ParsedValue) : option ParsedValue :=
  match s with
  | z_string checks => match v with pv_text t => if forallb (check_ok t) checks then Some v else None | _ => None end
  | z_literal u => if bool_decide (v = u) then Some v else None
  | z_enum ts => match v with pv_text t => if bool_decide (t ∈ ts) then Some v else None | _ => None end
  | z_union options =>
    (fix first (options : list ZodSchema) : option ParsedValue :=
       match options with
       | [] => None
       | s :: options => match parse s v with Some p => Some p | None => first options end
       end) options
  | z_transform s f => f <$> parse s v
  | z_default s d => if bool_decide (v = pv_undefined) then Some d else parse s v
  | z_optional s => if bool_decide (v = pv_undefined) then Some v else parse s v
  | z_preprocess f s => parse s (f v)
  | z_coerced_int a b =>
    match v with
    | pv_text t =>
      let n := digits_value (text_units t) in
      if forallb is_digit (text_units t) && (a <=? n) && (n <=? b) then Some (pv_number n) else None
    | pv_number n => if (a <=? n) && (n <=? b) then Some v else None
    | _ => None
    end
  end.

#[local] Instance sample_zod : Zod := { safeParse := parse }.

#[local] Instance sample_zod_laws : ZodLaws.
Proof.
  split; simpl.
  - intros checks v p Hp. destruct v as [|t| |]; try done. destruct (forallb _ _) eqn:Hc; [|done].
    injection Hp as <-. exists t. split_and!; [done|done|by apply check_ok_holds].
  - intros u v p Hp. case_bool_decide; [|done]. by injection Hp as <-.
  - intros ts v p Hp. destruct v as [|t| |]; try done. case_bool_decide; [|done]. injection Hp as <-. by exists t.
  - intros options v p. induction options as [|s options IH]; [done|]. destruct (parse s v) as [q|] eqn:Hs.
    + intros [= ->]. exists s. split; [left|done].
    + intros (s' & Hs' & Hp)%IH. exists s'. split; [by right|done].
  - intros s f v p (q & Hq & ->)%fmap_Some. by exists q.
  - intros s d v p Hp. case_bool_decide; [|by right]. injection Hp as <-. by left.
  - intros s v p Hp. case_bool_decide; [|by right]. injection Hp as <-. by left.
  - done.
Qed.

(** ** URLs *)

Fixpoint until (stops : list ascii) (s : string) : string :=
  match s with
  | EmptyString => EmptyString
  | String c s' => if one_of stops c then EmptyString else String c (until stops s')
  end.

Definition parse_after (protocol : string) (n : nat) (s : string) : UrlParts :=
  let rest := String.substring n (String.length s - n) s in
  let authority := until ["/"%char] rest in
  let path := String.substring (String.length authority) (String.length rest - String.length authority) rest in
  {| url_protocol := protocol; url_username := ""; url_password := ""; url_hostname := until [":"%char] authority;
     url_pathname := if String.eqb path "" then "/" else path; url_search := ""; url_hash := "" |}.

#[local] Instance sample_urls : HostedPlatform := {
  hosted_url := {| new_URL s :=
    if String.prefix "https://" s then Some (parse_after "https:" 8 s)
    else if String.prefix "http://" s then Some (parse_after "http:" 7 s) else None |};
  hmac_bytes secret s := SampleSystem.digest_bytes 32 (SampleSystem.poly 1 (secret +:+ "/" +:+ s));
}.

#[local] Instance sample_approved : ApprovedUrls.
Proof. by split; vm_compute. Qed.

#[local] Instance sample_numbers : NumberService := {
  Number s := if negb (bool_decide (text_units s = [])) && forallb is_digit (text_units s)
              then float_of_Z (digits_value (text_units s)) else S754_nan }.

(** A text is private although the address it names is public: an IPv6 host
    is written in brackets and without dots. *)
Theorem public_ipv6_is_private : isPrivateHostname "[2606:4700:4700::1111]" = true.
Proof. by vm_compute. Qed.

(** ** A deployed configuration *)

Definition repeated_text (n : nat) (c : string) : string := String.concat "" (replicate n c).

Definition deployed_input : EnvironmentInput := list_to_map ((fun kv => (fst kv, Some (ev_text (snd kv)))) <$> [
  ("CBC_ENVIRONMENT", "testnet"); ("CBC_VERUS_NETWORK", "VRSCTEST");
  ("CBC_VERUS_RPC_URL", "http://verus-rpc.internal:27486"); ("CBC_VERUS_RPC_USER", "synthetic-user");
  ("CBC_VERUS_RPC_PASSWORD", "synthetic-password"); ("CBC_PARTICIPANT_ORIGIN", "https://app.synthetic.invalid");
  ("CBC_COMMITTEE_ORIGIN", "https://committee.synthetic.invalid");
  ("CBC_PARTICIPANT_RELYING_PARTY_ID", "app.synthetic.invalid");
  ("CBC_COMMITTEE_RELYING_PARTY_ID", "committee.synthetic.invalid");
  ("CBC_PARTICIPANT_AUTH_SECRET", repeated_text 32 "p"); ("CBC_COMMITTEE_AUTH_SECRET", repeated_text 32 "c");
  ("CBC_RATE_LIMIT_SECRET", repeated_text 32 "r"); ("CBC_VERUS_LINKING_ENABLED", "true");
  ("CBC_VERUS_LINK_APPLICATION_IDENTITY", APPROVED_VERUS_LINK_APPLICATION_IDENTITY);
  ("CBC_VERUS_AUTH_URL", APPROVED_VERUS_AUTH_URL); ("CBC_VERUS_AUTH_CALLBACK_URL", APPROVED_VERUS_AUTH_CALLBACK_URL);
  ("CBC_VERUS_AUTH_SERVICE_VERSION", "1.1.1"); ("CBC_VERUS_AUTH_ISSUER", APPROVED_VERUS_AUTH_ISSUER);
  ("CBC_VERUS_AUTH_CONTRACT_VERSION", APPROVED_VERUS_AUTH_CONTRACT_VERSION);
  ("CBC_VERUS_AUTH_SOURCE_REVISION", repeated_text 40 "1");
  ("CBC_VERUS_AUTH_IMAGE_DIGEST", "sha256:" +:+ repeated_text 64 "2");
  ("CBC_VERUS_AUTH_SDK_COMMIT", APPROVED_VERUS_AUTH_SDK_COMMIT);
  ("CBC_VERUS_AUTH_PRIMITIVES_COMMIT", APPROVED_VERUS_AUTH_PRIMITIVES_COMMIT);
  ("CBC_VERUS_AUTH_RPC_CLIENT_COMMIT", APPROVED_VERUS_AUTH_RPC_CLIENT_COMMIT);
  ("CBC_VERUS_AUTH_BITGO_COMMIT", APPROVED_VERUS_AUTH_BITGO_COMMIT);
  ("CBC_VERUS_AUTH_DAEMON_VERSION", APPROVED_VERUS_AUTH_DAEMON_VERSION);
  ("CBC_VERUS_AUTH_CLIENT_SECRET", repeated_text 32 "k"); ("CBC_VERUS_AUTH_JWT_SECRET", repeated_text 32 "j");
  ("CBC_VERUS_LINK_BINDING_SECRET", repeated_text 32 "b"); ("CBC_VERUS_LINK_POLLING_SECRET", repeated_text 32 "q")]).

Definition deployed_config : RuntimeConfig :=
  match loadRuntimeConfig deployed_input with Ok config => config | Err _ => ∅ end.

Lemma deployed_loaded : loadRuntimeConfig deployed_input = Ok deployed_config.
Proof.
  assert (Hok : is_ok (loadRuntimeConfig deployed_input) = true) by (vm_compute; reflexivity).
  unfold deployed_config. by destruct (loadRuntimeConfig deployed_input).
Qed.

(** The defaults alone are a local configuration. *)
Example local_loaded : is_ok (loadRuntimeConfig ∅) = true.
Proof. by vm_compute. Qed.

Example production_refused :
  loadRuntimeConfig {["CBC_ENVIRONMENT" := Some (ev_text "production")]}
  = Err (refuse "production is reserved and cannot be activated by the WP-01 scaffold").
Proof. by vm_compute. Qed.

Example shared_secret_refused :
  loadRuntimeConfig (<["CBC_VERUS_LINK_POLLING_SECRET" := Some (ev_text (repeated_text 32 "b"))]> deployed_input)
  = Err (refuse "VerusID linking secrets must be distinct").
Proof. by vm_compute. Qed.

Lemma accepted_config_witness :
  loadRuntimeConfig deployed_input = Ok deployed_config /\ NoDup (text_of deployed_config <$> link_secrets).
Proof.
  pose proof (accepted_config deployed_input deployed_config deployed_loaded) as (_ & _ & _ & _ & _ & _ & _ & _ & Hlink).
  split; [exact deployed_loaded|]. apply Hlink. by vm_compute.
Defined.

#[local] Existing Instances SampleSystem.platform SampleSystem.numbers.
#[local] Instance sample_crypto : AuthCrypto := { hmac_sha256 secret v := secret +:+ v; lookup_text email := email }.

Lemma accepted_config_wires_witness :
  validateTrustDomains (createTrustDomains deployed_config td_participant) (createTrustDomains deployed_config td_committee)
  = Ok tt.
Proof.
  refine (proj2 (accepted_config_wires (N := unit) (R := unit) (fun _ n => (None, n)) (fun _ n => (fetch_failed false, n))
    (fun _ _ => quietAttempt) (fun _ => "") deployed_input deployed_config deployed_loaded) _). by vm_compute.
Defined.

(** ** The worker process *)

Import SampleSystem Json.Sample.
#[local] Instance sample_clock : Clock World := world_clock ticking.
#[local] Instance sample_outbox : VerusOutboxStore World := world_outbox quiet_faults unlocked.
#[local] Instance sample_jobs : VerusJobStore World := world_jobs quiet_faults unlocked.
#[local] Instance sample_observed : WritesObserved World := world_observed ticking quiet_faults unlocked.

Definition sample_process : prog World exn VerusWorkerResult :=
  processNext sha256 (configured_worker deployed_config 7 None).
Definition loop_events : list LoopEvent := [loop_starts; timer_fires; pass_settles; loop_stops].
Definition looped : LoopState World :=
  stop (settle sample_process (tick (start (new_loop (world node))))).

Lemma looped_run : loop_run sample_process loop_events (new_loop (world node)) looped.
Proof.
  apply run_more with (start (new_loop (world node))); [constructor|].
  apply run_more with (tick (start (new_loop (world node)))); [by constructor|].
  apply run_more with (settle sample_process (tick (start (new_loop (world node))))); [constructor; apply Nat.lt_0_1|].
  apply run_more with looped; constructor.
Qed.

Lemma loop_refines_passes_witness :
  passes_in_row sample_process (lp_settled looped) (world node) = (lp_errors looped, lp_world looped).
Proof. exact (proj1 (proj2 (proj2 (loop_refines_passes sample_process loop_events (world node) looped looped_run)))). Defined.

Lemma configured_worker_never_writes_witness : writes (lp_world looped) = writes (world node).
Proof.
  exact (configured_worker_never_writes sha256 deployed_input deployed_config 7 None loop_events (world node) looped
    deployed_loaded (world_sane0 node node_sane0) looped_run).
Defined.

Example metrics_text : String.prefix "# HELP cbc_verus_outbox_ready" (render newVerusWorkerMetrics) = true.
Proof. by vm_compute. Qed.
