(* ===== verification/ConsentRepository.v ===== *)
(** * ConsentRepository: the receipts of consent on PostgreSQL.

    recordConsent of packages/db/src/auth-repository.ts, on "consent_receipt"
    as migrations 20260807050000 and 20260807060000 leave it, with its CHECK
    constraint, unique keys, trigger and foreign keys.  (CoreDatabase.v has
    the columns that the lifecycle repository moves.)  "policy_version" is
    the set of its ids. *)
From S2P Require Import Prelude Errors Text Json Database Lifecycles AuthDatabase Authorization Auth AuthRepository.
From S2P Require Import Consent.
Local Open Scope Z_scope.

Module State := Lifecycles.Consent.

(** The row of "consent_receipt", without its id. *)
Record ReceiptRow : Type := {
  rc_external_reference : string;
  rc_participant_id : option string;
  rc_auth_account_id : string;
  rc_committee_id : option string;
  rc_policy_version_id : string;
  rc_purpose : ConsentPurpose;
  rc_presentation_reference : string;
  rc_presentation_digest : string;
  rc_action : ConsentAction;
  rc_state : State.ConsentState;
  rc_acknowledged_at : option Z;
  rc_presented_at : Z;
  rc_acted_at : Z;
  rc_withdrawn_at : option Z;
  rc_created_at : Z;
}.

Record ConsentDb : Type := {
  kd_auth : AuthDb;
  kd_policy : gset string;
  kd_receipt : gmap string ReceiptRow;
}.

Definition KM := prog ConsentDb exn.

#[export] Instance consentdb_transactional : Transactional ConsentDb := fun before after => {|
  kd_auth := rollback (kd_auth before) (kd_auth after); kd_policy := kd_policy before; kd_receipt := kd_receipt before |}.

(** A program on the authentication tables. *)
Definition on_accounts {A : Type} (c : AM A) : KM A := fun d =>
  let (r, a) := c (kd_auth d) in
  (r, {| kd_auth := a; kd_policy := kd_policy d; kd_receipt := kd_receipt d |}).

(** CHECK consent_lifecycle_consistent (which implies
    consent_receipt_withdrawal_order). *)
Definition receipt_checks (r : ReceiptRow) : bool :=
  match rc_state r, rc_acknowledged_at r, rc_withdrawn_at r with
  | State.pending, None, None => true
  | State.acknowledged, Some _, None => true
  | State.withdrawn, Some a, Some w => a <=? w
  | _, _, _ => false
  end.

(** consent_receipt_account_policy_purpose_action_key *)
Definition same_choice (r b : ReceiptRow) : bool :=
  String.eqb (rc_auth_account_id b) (rc_auth_account_id r) && String.eqb (rc_policy_version_id b) (rc_policy_version_id r)
  && bool_decide (rc_purpose b = rc_purpose r) && bool_decide (rc_action b = rc_action r).

(** The account and the committee are rows the transaction has just read. *)
Definition insertReceipt (i : string) (r : ReceiptRow) : KM unit :=
  let* d := gets id in
  throwif* negb (subject_match (kd_auth d) (rc_auth_account_id r) (rc_participant_id r)) as! PostgresError "P0001" in
  throwif* negb (receipt_checks r) as! PostgresError "23514" in
  throwif* negb (is_null (kd_receipt d !! i))
           || some (rows (kd_receipt d)) (fun b => String.eqb (rc_external_reference b) (rc_external_reference r)
                                                   || same_choice r b)
    as! PostgresError "23505" in
  throwif* negb (bool_decide (rc_policy_version_id r ∈ kd_policy d)) as! PostgresError "23503" in
  modify (fun d => {| kd_auth := kd_auth d; kd_policy := kd_policy d; kd_receipt := <[i := r]> (kd_receipt d) |}).

Record RecordConsentInput : Type := {
  rci_receipt : VersionedConsentReceipt;
  rci_policyVersionId : string;
  rci_participantReference : option string;
  rci_acknowledgedAt : option Z;
}.

Section repository.
Context `{Platform}.

Definition recordConsent_tx (input : RecordConsentInput) : KM unit :=
  let receipt := rci_receipt input in
  let* a := on_accounts (account (cr_accountReference receipt) None) in
  let* participant := on_accounts (optional_participant (rci_participantReference input)) in
  let* c := match nonempty (cr_committeeReference receipt) with
            | Some reference => let* i := on_accounts (committee reference) in ret (Some i)
            | None => ret None
            end in
  let isWithdrawn := bool_decide (cr_action receipt = withdrawn) in
  let* i := on_accounts fresh in
  let* reference := on_accounts fresh in
  insertReceipt i {|
    rc_external_reference := "consent:" +:+ reference; rc_participant_id := participant;
    rc_auth_account_id := aa_id a; rc_committee_id := c; rc_policy_version_id := rci_policyVersionId input;
    rc_purpose := cr_purpose receipt; rc_presentation_reference := cr_presentationReference receipt;
    rc_presentation_digest := cr_presentationDigest receipt; rc_action := cr_action receipt;
    rc_state := if isWithdrawn then State.withdrawn else State.acknowledged;
    rc_acknowledged_at := rci_acknowledgedAt input; rc_presented_at := cr_presentedAt receipt;
    rc_acted_at := cr_actedAt receipt; rc_withdrawn_at := if isWithdrawn then Some (cr_actedAt receipt) else None;
    rc_created_at := cr_actedAt receipt |}.

Definition recordConsent (env : nat -> TxAttempt) (input : RecordConsentInput) : KM unit :=
  inSerializableTransaction env (recordConsent_tx input).
End repository.
