(* ===== verification/ConsentFacts.v ===== *)
(** * ConsentFacts: what the table of consent receipts promises.

    A call that succeeds adds the one receipt it was given; receipts are
    never changed by it, belong to the participant of their account, and a
    choice (account, policy version, purpose, action) is on record once, so
    consent that was withdrawn cannot be given again for the same policy
    version. *)
From S2P Require Import Prelude Errors Text Json Database Lifecycles AuthDatabase Authorization Auth AuthRepository.
From S2P Require Import AuthSystem AuthInvariant AuthFacts Consent ConsentRepository System LinkRequestExamples.
Local Open Scope Z_scope.

(** The tables a receipt is made from; of the base tables, the committees. *)
Definition committee_table (d : ConsentDb) : gmap string CommitteeRow := db_committee (ad_base (kd_auth d)).
Definition consent_tables (d : ConsentDb) := (auth_tables (kd_auth d), kd_policy d, kd_receipt d, committee_table d).
Definition same_consent (d d' : ConsentDb) : Prop := consent_tables d = consent_tables d'.

#[local] Instance same_consent_equiv : Equivalence same_consent.
Proof. unfold same_consent. split; [done|by intros ??|]. intros ??? ->. done. Qed.

Lemma consent_rollback before after : same_consent before (rollback before after).
Proof. done. Qed.

Record consent_ok (d : ConsentDb) : Prop := {
  ko_auth : table aa_id aa_external_reference account_good (ad_account (kd_auth d));
  ko_once : forall i j r b, kd_receipt d !! i = Some r -> kd_receipt d !! j = Some b -> same_choice r b = true -> i = j;
  ko_lifecycle : forall i r, kd_receipt d !! i = Some r -> receipt_checks r = true;
  ko_subject : forall i r, kd_receipt d !! i = Some r ->
    subject_match (kd_auth d) (rc_auth_account_id r) (rc_participant_id r) = true;
}.

Lemma consent_ok_same d d' : same_consent d d' -> consent_ok d -> consent_ok d'.
Proof.
  intros [= _ Ha _ _ _ _ _ _ _ Hr _] [H1 H2 H3 H4].
  split; rewrite <- ?Hr, <- ?Ha; try done. intros i r Hi. specialize (H4 i r Hi). revert H4. unfold subject_match. by rewrite Ha.
Qed.

Section facts.
Context `{Platform}.

(** The committee a caller named, if any, by its id in [committees]; an
    empty reference names none. *)
Definition names_committee (committees : gmap string CommitteeRow) (reference i : option string) : Prop :=
  match nonempty reference with
  | None => i = None
  | Some t => exists k c, i = Some k /\ committees !! k = Some c /\ committee_external_reference c = t
  end.

(** What the caller asked to record, as a row of the account [a]. *)
Record receipt_for (input : RecordConsentInput) (committees : gmap string CommitteeRow) (a : AuthAccountRow)
    (r : ReceiptRow) : Prop := {
  rf_account : rc_auth_account_id r = aa_id a;
  rf_participant : rc_participant_id r = aa_participant_id a;
  rf_policy : rc_policy_version_id r = rci_policyVersionId input;
  rf_purpose : rc_purpose r = cr_purpose (rci_receipt input);
  rf_action : rc_action r = cr_action (rci_receipt input);
  rf_committee : names_committee committees (cr_committeeReference (rci_receipt input)) (rc_committee_id r);
  rf_presentation : rc_presentation_reference r = cr_presentationReference (rci_receipt input);
  rf_digest : rc_presentation_digest r = cr_presentationDigest (rci_receipt input);
  rf_presented : rc_presented_at r = cr_presentedAt (rci_receipt input);
  rf_acted : rc_acted_at r = cr_actedAt (rci_receipt input);
  rf_acknowledged : rc_acknowledged_at r = rci_acknowledgedAt input /\ rci_acknowledgedAt input <> None;
  rf_state : rc_state r = (if decide (rc_action r = withdrawn) then State.withdrawn else State.acknowledged);
  rf_withdrawn : rc_withdrawn_at r = (if decide (rc_action r = withdrawn) then Some (rc_acted_at r) else None);
  rf_created : rc_created_at r = cr_actedAt (rci_receipt input);
  rf_reference : exists u, rc_external_reference r = "consent:" +:+ u;
}.

Lemma on_accounts_same {A} (c : AM A) d r d' :
  (forall a, same_auth a (snd (c a)) /\ db_committee (ad_base (snd (c a))) = db_committee (ad_base a)) -> on_accounts c d = (r, d') -> same_consent d d'.
Proof.
  intros Hc Hrun. unfold on_accounts in Hrun. specialize (Hc (kd_auth d)). destruct (c (kd_auth d)) as [x a].
  injection Hrun as <- <-. destruct Hc as [Ha Hc]. unfold same_consent, consent_tables, committee_table. simpl in *.
  by rewrite <- Ha, Hc.
Qed.

Lemma fresh_same a : same_auth a (snd (fresh a)) /\ db_committee (ad_base (snd (fresh a))) = db_committee (ad_base a).
Proof. split; [|done]. destruct (fresh a) as [r a'] eqn:Hf. by apply on_base_tables in Hf. Qed.

Lemma optional_participant_same o a : same_auth a (snd (optional_participant o a)) /\
  db_committee (ad_base (snd (optional_participant o a))) = db_committee (ad_base a).
Proof.
  unfold optional_participant, participantId, bindP, gets, ret, throw. destruct (nonempty o); [|done].
  by destruct (nonempty _).
Qed.

Lemma committee_same reference a : same_auth a (snd (committee reference a)) /\
  db_committee (ad_base (snd (committee reference a))) = db_committee (ad_base a).
Proof. unfold committee, bindP, gets, ret, throw. by destruct (find _ _) as [[]|]. Qed.

Lemma committee_found reference a i a' : committee reference a = (Ok i, a') ->
  exists c, db_committee (ad_base a) !! i = Some c /\ committee_external_reference c = reference.
Proof.
  unfold committee, bindP, gets, ret, throw. destruct (find _ _) as [[k c]|] eqn:Hf; [|done]. intros [= <- _].
  apply find_some in Hf as [Hin Hr]. apply list_elem_of_In, elem_of_map_to_list in Hin. exists c.
  by apply String.eqb_eq in Hr.
Qed.

(** The committee as the transaction looks it up. *)
Definition named_committee (reference : option string) : KM (option string) :=
  match nonempty reference with
  | Some t => let* i := on_accounts (committee t) in ret (Some i)
  | None => ret None
  end.

Lemma named_committee_ok reference d i d' : named_committee reference d = (Ok i, d') ->
  same_consent d d' /\ names_committee (committee_table d) reference i.
Proof.
  unfold named_committee, names_committee. destruct (nonempty reference) as [t|]; [|by intros [= <- <-]].
  intros Hrun. apply bindP_ok in Hrun as (k & d1 & Hc & [= <- <-]).
  split; [by apply (on_accounts_same _ _ _ _ (committee_same _)) in Hc|]. unfold on_accounts in Hc.
  destruct (committee t (kd_auth d)) as [r a] eqn:Hf. injection Hc as -> _.
  apply committee_found in Hf as (c & Hk & Ht). by exists k, c.
Qed.

Lemma none_selected {A} (xs : list A) p : some xs p = false -> forall x, x ∈ xs -> p x = false.
Proof.
  unfold some. induction xs as [|y xs IH]; simpl; [by intros _ x Hx%not_elem_of_nil|].
  rewrite orb_false_iff. intros [Hy Hxs] x [->|Hx]%elem_of_cons; [done|by apply IH].
Qed.

Lemma insertReceipt_ok i r d d' : insertReceipt i r d = (Ok tt, d') ->
  subject_match (kd_auth d) (rc_auth_account_id r) (rc_participant_id r) = true /\ receipt_checks r = true /\
  kd_receipt d !! i = None /\ (forall j b, kd_receipt d !! j = Some b -> same_choice r b = false) /\
  kd_receipt d' = <[i := r]> (kd_receipt d) /\ kd_auth d' = kd_auth d /\ kd_policy d' = kd_policy d.
Proof.
  unfold insertReceipt. intros Hrun. apply bindP_ok in Hrun as (x & d1 & Hx & Hrun). unfold gets in Hx.
  injection Hx as <- <-. unfold id in Hrun. inv_ok.
  repeat match goal with He : negb _ = false |- _ => apply negb_false_iff in He end.
  match goal with Ho : (_ || _) = false |- _ => apply orb_false_iff in Ho as [Hnew Hno] end.
  split_and!; try done; [by destruct (_ !! i)|]. intros j b Hj. assert (Hin : b ∈ rows (kd_receipt _)) by (apply rows_in; eauto).
  pose proof (none_selected _ _ Hno b Hin) as Hn. by apply orb_false_iff in Hn as [_ ?].
Qed.

(** One run of the transaction's body. *)
Lemma recordConsent_run input d d' : consent_ok d -> recordConsent_tx input d = (Ok tt, d') ->
  exists i r a k, kd_receipt d !! i = None /\ kd_receipt d' = <[i := r]> (kd_receipt d) /\
    auth_tables (kd_auth d') = auth_tables (kd_auth d) /\ ad_account (kd_auth d) !! k = Some a /\
    aa_external_reference a = cr_accountReference (rci_receipt input) /\ receipt_for input (committee_table d) a r /\
    receipt_checks r = true /\ (forall j b, kd_receipt d !! j = Some b -> same_choice r b = false).
Proof.
  intros Hok Hrun. unfold recordConsent_tx in Hrun.
  apply bindP_ok in Hrun as (a & d1 & Ha & Hrun). unfold on_accounts in Ha.
  destruct (account _ None (kd_auth d)) as [ra da] eqn:Hacc. injection Ha as -> Hd1.
  apply account_found in Hacc as (-> & k & Hk & Href). destruct d as [auth policy receipts]. simpl in *. subst d1.
  apply bindP_ok in Hrun as (p & d2 & Hp & Hrun). apply (on_accounts_same _ _ _ _ (optional_participant_same _)) in Hp.
  apply bindP_ok in Hrun as (c & d3 & Hc & Hrun).
  apply named_committee_ok in Hc as [Hs3 Hnamed]. change (committee_table d2) with (snd (consent_tables d2)) in Hnamed.
  rewrite <- Hp in Hnamed.
  apply bindP_ok in Hrun as (i & d4 & Hi & Hrun). apply (on_accounts_same _ _ _ _ fresh_same) in Hi.
  apply bindP_ok in Hrun as (ref & d5 & Hr & Hrun). apply (on_accounts_same _ _ _ _ fresh_same) in Hr.
  assert (Hs : same_consent {| kd_auth := auth; kd_policy := policy; kd_receipt := receipts |} d5)
    by (by rewrite Hp, Hs3, Hi, Hr).
  assert (Ha5 : auth_tables auth = auth_tables (kd_auth d5)) by exact (f_equal (fun t => fst (fst (fst t))) Hs).
  assert (Hr5 : receipts = kd_receipt d5) by exact (f_equal (fun t => snd (fst t)) Hs).
  apply insertReceipt_ok in Hrun as (Hsub & Hck & Hnew & Honce & Hins & Hauth & _). rewrite <- Hr5 in *.
  eexists i, _, a, k. split_and!; try done; [by rewrite Hauth|by apply andb_true_iff in Href as [->%String.eqb_eq _]|].
  assert (Hacc5 : ad_account (kd_auth d5) = ad_account auth) by (by injection Ha5).
  unfold receipt_checks in Hck. simpl in Hck. split; simpl; try done.
  - unfold subject_match in Hsub. apply bool_decide_eq_true in Hsub. simpl in Hsub.
    rewrite Hacc5, (table_keys _ _ _ _ (ko_auth _ Hok) k a Hk), Hk in Hsub. by rewrite <- Hsub.
  - split; [done|]. intros Hn. rewrite Hn in Hck. by case_bool_decide.
  - case_bool_decide; by case_decide.
  - case_bool_decide; by case_decide.
  - by eexists.
Qed.

Lemma run_keeps_ok input d d' : consent_ok d -> recordConsent_tx input d = (Ok tt, d') -> consent_ok d'.
Proof.
  intros Hok Hrun. destruct (recordConsent_run _ _ _ Hok Hrun) as (i & r & a & k & Hnew & Hins & Hauth & Hk & _ & Hfor & Hck & Honce).
  assert (Hacc : ad_account (kd_auth d') = ad_account (kd_auth d)) by (by injection Hauth).
  destruct Hok as [H1 H2 H3 H4]. split; [by rewrite Hacc|..]; rewrite Hins.
  - intros x y u v. rewrite !lookup_insert_Some. intros [[<- <-]|[_ Hu]] [[<- <-]|[_ Hv]] Hc; try done.
    + by rewrite (Honce _ _ Hv) in Hc.
    + assert (Hc' : same_choice r u = true).
      { revert Hc. unfold same_choice. rewrite !andb_true_iff, !String.eqb_eq, !bool_decide_eq_true. intuition congruence. }
      by rewrite (Honce _ _ Hu) in Hc'.
    + by eapply H2.
  - intros x u [[<- <-]|[_ Hu]]%lookup_insert_Some; [done|by eapply H3].
  - intros x u [[<- <-]|[_ Hu]]%lookup_insert_Some; unfold subject_match; rewrite Hacc.
    + rewrite (rf_account _ _ _ _ Hfor), (rf_participant _ _ _ _ Hfor), (table_keys _ _ _ _ H1 k a Hk), Hk. by apply bool_decide_eq_true.
    + exact (H4 x u Hu).
Qed.

Lemma recordConsent_cases env input d r d' : consent_ok d -> recordConsent env input d = (r, d') ->
  (r <> Ok tt /\ same_consent d d') \/
  exists d0, same_consent d d0 /\ consent_ok d0 /\ recordConsent_tx input d0 = (Ok tt, d').
Proof.
  intros Hok Hrun. destruct r as [[]|e].
  - apply (transaction_ok same_consent consent_rollback) in Hrun as (d0 & Hs & Hrun). right. exists d0.
    split_and!; [done|by apply (consent_ok_same d)|done].
  - apply (transaction_err same_consent consent_rollback) in Hrun as [Hs|(_ & d0 & [] & Hs & Hrun)]; [by left|].
    right. exists d0. split_and!; [done|by apply (consent_ok_same d)|done].
Qed.

Lemma recordConsent_keeps env input d : consent_ok d -> consent_ok (snd (recordConsent env input d)).
Proof.
  intros Hok. destruct (recordConsent env input d) as [r d'] eqn:Hrun. simpl.
  destruct (recordConsent_cases _ _ _ _ _ Hok Hrun) as [[_ Hs]|(d0 & _ & Hok0 & Hw)].
  - by apply (consent_ok_same d).
  - by apply (run_keeps_ok input d0).
Qed.

(** C28: a call of recordConsent, under any faults, leaves the receipts as
    they are and reports a failure, or adds one receipt, every column of
    which is the one asked for: the named account with that account's
    participant, the named committee (none when none was named), the policy,
    purpose, action and presentation with their times, acknowledged, in the
    state [withdrawn] with the time of the action just when it records a
    withdrawal, and for a choice that was not on record.  Receipts stay well-formed either way. *)
Theorem consent_recorded env input d r d' :
  consent_ok d -> recordConsent env input d = (r, d') ->
  consent_ok d' /\
  ((r <> Ok tt /\ kd_receipt d' = kd_receipt d) \/
   exists i row k a, kd_receipt d !! i = None /\ kd_receipt d' = <[i := row]> (kd_receipt d) /\
     ad_account (kd_auth d) !! k = Some a /\ aa_external_reference a = cr_accountReference (rci_receipt input) /\
     receipt_for input (committee_table d) a row /\ (forall j b, kd_receipt d !! j = Some b -> same_choice row b = false)).
Proof.
  intros Hok Hrun. split; [pose proof (recordConsent_keeps env input d Hok) as Hk; by rewrite Hrun in Hk|].
  destruct (recordConsent_cases _ _ _ _ _ Hok Hrun) as [[Hr Hs]|(d0 & Hs & Hok0 & Hw)].
  - left. split; [done|]. symmetry. exact (f_equal (fun t => snd (fst t)) Hs).
  - right.
    assert (Hr : kd_receipt d = kd_receipt d0) by exact (f_equal (fun t => snd (fst t)) Hs).
    assert (Ha : auth_tables (kd_auth d) = auth_tables (kd_auth d0)) by exact (f_equal (fun t => fst (fst (fst t))) Hs).
    assert (Hacc : ad_account (kd_auth d) = ad_account (kd_auth d0)) by (by injection Ha).
    destruct (recordConsent_run _ _ _ Hok0 Hw) as (i & row & a & k & Hn & Hi & _ & Hk & Href & Hf & _ & Ho).
    rewrite Hr, Hacc. change (committee_table d0) with (snd (consent_tables d0)) in Hf. rewrite <- Hs in Hf. by exists i, row, k, a.
Qed.

(** C29: a choice on record is not recorded again: once an account accepted a
    policy version for a purpose, no later call records an acceptance of it,
    not even after the acceptance was withdrawn. *)
Theorem consent_not_renewed env input d r d' j b acc :
  consent_ok d -> kd_receipt d !! j = Some b ->
  ad_account (kd_auth d) !! rc_auth_account_id b = Some acc ->
  aa_external_reference acc = cr_accountReference (rci_receipt input) ->
  rc_policy_version_id b = rci_policyVersionId input -> rc_purpose b = cr_purpose (rci_receipt input) ->
  rc_action b = cr_action (rci_receipt input) ->
  recordConsent env input d = (r, d') -> r <> Ok tt /\ kd_receipt d' = kd_receipt d.
Proof.
  intros Hok Hb Hacc Href Hpol Hpur Hact Hrun.
  destruct (recordConsent_cases _ _ _ _ _ Hok Hrun) as [[Hr Hs]|(d0 & Hs & Hok0 & Hw)].
  { split; [done|]. symmetry. exact (f_equal (fun t => snd (fst t)) Hs). }
  exfalso. assert (Hr : kd_receipt d = kd_receipt d0) by exact (f_equal (fun t => snd (fst t)) Hs).
  assert (Ha : auth_tables (kd_auth d) = auth_tables (kd_auth d0)) by exact (f_equal (fun t => fst (fst (fst t))) Hs).
  assert (Hacc0 : ad_account (kd_auth d) = ad_account (kd_auth d0)) by (by injection Ha).
  destruct (recordConsent_run _ _ _ Hok0 Hw) as (i & row & a & k & _ & _ & _ & Hk & Hka & [Hf1 _ Hf3 Hf4 Hf5 _ _ _ _ _ _ _ _ _ _] & _ & Ho).
  rewrite Hr in Hb. rewrite Hacc0 in Hacc. specialize (Ho j b Hb).
  assert (k = rc_auth_account_id b) as -> by (apply (table_unique _ _ _ _ (ko_auth _ Hok0) _ _ a acc Hk Hacc); congruence).
  assert (aa_id a = rc_auth_account_id b) as Hid by exact (table_keys _ _ _ _ (ko_auth _ Hok0) _ _ Hk).
  revert Ho. unfold same_choice. rewrite Hf1, Hid, Hf3, Hf4, Hf5, Hpol, Hpur, Hact, !String.eqb_refl, !bool_decide_eq_true_2 by done.
  done.
Qed.
End facts.

(** ** Consent given, withdrawn, and not given again *)

#[local] Existing Instance SampleSystem.platform.

Definition receipt (action : ConsentAction) (at_ : Z) : VersionedConsentReceipt := {|
  cr_accountReference := "account_0001"; cr_committeeReference := None; cr_purpose := optional_verus_link;
  cr_policyVersionReference := "policy:v1"; cr_presentationReference := "presentation_0001";
  cr_presentationDigest := "digest"; cr_action := action; cr_presentedAt := 1000; cr_actedAt := at_ |}.

Definition consent_input (action : ConsentAction) (at_ : Z) (acknowledged : option Z) : RecordConsentInput := {|
  rci_receipt := receipt action at_; rci_policyVersionId := "policy1"; rci_participantReference := Some "participant_0001";
  rci_acknowledgedAt := acknowledged |}.

Definition consent_db : ConsentDb := {| kd_auth := startDb; kd_policy := {["policy1"]}; kd_receipt := ∅ |}.
#[local] Abbreviation record := (recordConsent (fun _ => quietAttempt)).
Definition given : ConsentDb := snd (record (consent_input accepted 2000 (Some 2000)) consent_db).
Definition taken_back : ConsentDb := snd (record (consent_input withdrawn 3000 (Some 2000)) given).

Lemma consent_db_ok : consent_ok consent_db.
Proof.
  split; [exact (ok_account _ startDb_ok)|..]; simpl; intros i; intros *; by rewrite lookup_empty.
Qed.

Example consent_history :
  fst (record (consent_input accepted 2000 (Some 2000)) consent_db) = Ok tt /\
  fst (record (consent_input withdrawn 3000 (Some 2000)) given) = Ok tt /\
  fst (record (consent_input accepted 4000 (Some 4000)) taken_back) = Err (PostgresError "23505") /\
  ((fun r => (rc_action r, rc_state r)) <$> rows (kd_receipt taken_back))
    = [(withdrawn, State.withdrawn); (accepted, State.acknowledged)].
Proof. split_and!; vm_compute; reflexivity. Qed.

(** A declined choice is stored as an acknowledged one, and only with a time
    of acknowledgement. *)
Theorem declined_stored_acknowledged :
  (rc_state <$> rows (kd_receipt (snd (record (consent_input declined 2000 (Some 2000)) consent_db)))) = [State.acknowledged] /\
  fst (record (consent_input declined 2000 None) consent_db) = Err (PostgresError "23514").
Proof. split; vm_compute; reflexivity. Qed.

Lemma consent_recorded_witness : consent_ok given /\ kd_receipt given <> kd_receipt consent_db.
Proof.
  assert (Hok : fst (record (consent_input accepted 2000 (Some 2000)) consent_db) = Ok tt) by (vm_compute; reflexivity).
  unfold given. destruct (record (consent_input accepted 2000 (Some 2000)) consent_db) as [r d'] eqn:Hrun. simpl in *.
  destruct (consent_recorded _ _ _ _ _ consent_db_ok Hrun) as [Hd [[Hn _]|(i & row & k & a & Hnew & Hins & _)]];
    [by destruct (Hn Hok)|].
  split; [exact Hd|]. rewrite Hins. simpl. intros He. apply (f_equal (fun m => m !! i)) in He.
  rewrite lookup_insert_eq, lookup_empty in He. discriminate He.
Defined.

Lemma given_ok : consent_ok given.
Proof. exact (recordConsent_keeps _ _ _ consent_db_ok). Qed.

Lemma taken_back_ok : consent_ok taken_back.
Proof. exact (recordConsent_keeps _ _ _ given_ok). Qed.

#[local] Opaque taken_back.

Definition first_accepted : option (string * ReceiptRow) :=
  find (fun kv => bool_decide (rc_action (snd kv) = accepted)) (map_to_list (kd_receipt taken_back)).

Lemma consent_not_renewed_witness :
  fst (record (consent_input accepted 4000 (Some 4000)) taken_back) <> Ok tt.
Proof.
  assert (Hsome : negb (is_null first_accepted) = true) by (vm_compute; reflexivity).
  destruct first_accepted as [[j b]|] eqn:Hf; [|discriminate Hsome].
  assert (Hj : kd_receipt taken_back !! j = Some b)
    by (apply find_some in Hf as [Hin _]; by apply list_elem_of_In, elem_of_map_to_list in Hin).
  assert (Hrow : (fun kv => (rc_policy_version_id (snd kv), rc_purpose (snd kv), rc_action (snd kv))) <$> first_accepted
                 = Some ("policy1", optional_verus_link, accepted)) by (vm_compute; reflexivity).
  assert (Hacc : (first_accepted ≫= fun kv => aa_external_reference <$> (ad_account (kd_auth taken_back) !! rc_auth_account_id (snd kv)))
                 = Some "account_0001") by (vm_compute; reflexivity).
  rewrite Hf in Hrow, Hacc. simpl in Hrow, Hacc. injection Hrow as Hp Hu Ha.
  destruct (ad_account (kd_auth taken_back) !! rc_auth_account_id b) as [acc|] eqn:Hk; [|discriminate Hacc].
  injection Hacc as Hacc.
  destruct (record (consent_input accepted 4000 (Some 4000)) taken_back) as [r d'] eqn:Hrun.
  exact (proj1 (consent_not_renewed _ (consent_input accepted 4000 (Some 4000)) taken_back r d' j b acc taken_back_ok Hj Hk Hacc Hp Hu Ha Hrun)).
Defined.
